(* ===== verification/_CoqProject ===== *)
-Q . S2P
Prelude.v
Py.v
Dates.v
Staffing.v
RiskTier.v
PolicyDoc.v
PolicyValid.v
PolicyRead.v
PolicyLoosening.v
Json.v
Sql.v
Events.v
Schema.v
Effects.v
Scope.v
Rbac.v
PolicyStore.v
PolicyInForce.v
PolicyGuarantees.v
PolicyStaffing.v
Queue.v
QueueRules.v
Workflow.v
Stages.v
StageRules.v
StageStart.v
StageDecisions.v
StageDecisionRules.v
Coverage.v
Gates.v
GateRules.v
Requests.v
Decisions.v
IsoOrder.v
DecisionRules.v
Inventory.v
Ledger.v
LedgerRules.v
Counters.v
JsonText.v
AuditLog.v
AuditGuarantees.v
Controls.v
ControlRules.v
Lifecycle.v
LifecycleRules.v
Projections.v
Posture.v
Fold.v
Ingest.v
FoldRules.v
IngestRules.v
Vendors.v
VendorRules.v
Intake.v
IntakeRules.v
Throttle.v
Credentials.v
Secrets.v
SignIn.v
Accounts.v
SessionRules.v
SignInRules.v
SecretRules.v
Contracts.v
PortableStore.v
Portable.v
Permits.v
PortableApi.v
Authorization.v
PortableSteps.v
PortableSafe.v
PortableTrace.v
PortableGuarantees.v
ContractRules.v
