(* ===== verification/Prelude.v ===== *)
(** * Norinth governance platform: a verification library

    Norinth (src/apps/platform) collects telemetry of AI applications from an
    SDK, derives an inventory, risks and evidence of controls from it, and runs
    the reviews an organization's governance policy asks for: approval stages,
    exceptions, incidents and release gates.  Everything decided is written to a
    tamper-evident audit log.  This library models the platform's Python code
    (app/ below) as executable functions on the state of its database, and
    proves what an organization relies on.

    ** How the code is modelled

    - The database is the record [Schema.db]: one list of rows per table, one
      record type per row ([Sql] gives the statements, [Schema] the tables).  An
      operation takes the database and returns the new one; [res] is the error
      monad whose [exn] are the exception classes.  A handler wrapped in
      [atomic] (storage/unit_of_work.py) rolls back when it raises, so an error
      carries no state; where the code leaves a state behind when it raises
      (the audit log's journal, a fold, a rejected attestation) the model returns
      it.
    - Values of unknown type (policy documents, event attributes, checkpoints)
      are [Py.pyval], with Python's equality, ordering, truth and the exceptions
      of a wrong type.  Integers are unbounded as in Python; a column bound to
      SQLite refuses what 64 bits cannot hold ([Inventory.bind_usage]).  A counter
      SQLite adds up is an INTEGER of 64 bits or, past them, a REAL
      ([Sql.sql_add]); PostgreSQL, where such an addition raises, is not modelled.
    - Text is a string of Latin-1 characters; instants are microseconds
      ([Dates]); floats are the rationals they denote, rounded to 53 bits
      ([Coverage]).  What datetime('now') and the clocks return are arguments.
    - SHA-256, HMAC, Ed25519, base64, the digits of a float, [int(str)] and
      [float(str)] are class parameters ([Digest], [Py.Hmac], [Ingest.Signatures],
      [Py.PyHost], [Inventory.SqlHost]),
      as are PBKDF2, HMAC-SHA1, AES-GCM and base64url ([Credentials.Kdf],
      [Credentials.HmacSha1], [Secrets.Aead]); theorems hold for every instance,
      or name the fact they use.  No theorem takes SHA-256 to be injective: where
      identifiers must differ, [no_collision] says that no two of the texts hashed
      in that run share a digest.
    - A handler that changes the database before it raises, such as a refused
      login, is written in the monad of [Effects], which keeps the database of
      both outcomes; [committed] says when the commit of a transaction keeps it.
      A request reads the clock once in the model.

    ** The parts

    Governance policy (storage/policy_engine.py, api/policy.py): [PolicyDoc]
    validates, reads and compares documents; [PolicyStore] drafts, activates and
    resolves versions; [Staffing] matches stages to people.  [PolicyValid] proves
    validation equivalent to a schema, [PolicyRead] that readers of valid
    documents do not raise, [PolicyLoosening] that the loosening check is exact,
    [PolicyInForce] and [PolicyGuarantees] the history of versions, the limits
    of what resolvers return and that nobody loosens a policy alone, and
    [PolicyStaffing] that what is in force can be decided.

    Authority (services/authorization.py, storage/workflow.py, api/admin.py):
    [Rbac], with the separation of administration and decision roles.

    Reviews: [RiskTier] (storage/intake.py), [Queue] and [Scope] (routing and
    owners), [Stages], [StageDecisions] and [Workflow] (checklists, decisions,
    exceptions), [Requests] and [Decisions] (api/routes.py).  [StageStart],
    [StageRules], [StageDecisionRules], [QueueRules] and [DecisionRules] prove
    that a checklist follows the policy in force and is never rewritten, that
    every decision, on any of the five routes, was made by somebody entitled who
    did not originate the work, that a stage's decision is immutable, that routing
    settles, and that expiries mean the instants they denote ([IsoOrder]).

    Release gates and evidence (storage/deployments.py,
    storage/governance_policy.py): [Coverage], [Gates]; [GateRules] proves that a
    gate is approved only over a clear register and stays decided.
    [Controls] assesses each ingested batch; [ControlRules] proves that
    folding an application's stored events gives the status and the evidence that
    one assessment of the events a full refresh lists would, for controls that do
    not look at SDK health - the one kind of event of other applications a full
    refresh also lists - and that telemetry never undoes a reviewer's decision.

    Telemetry (ingestion/routes.py, services/attestation.py, storage/raw_events.py,
    storage/entities.py, storage/fold.py): [Events], [Ingest], [Ledger],
    [Inventory], [Fold].  [LedgerRules] and [Counters] prove,
    over every interleaving of ingestion, claims, folds and retries (a step
    relation on the database and the claims workers hold), that each stored event
    is counted exactly once and that the counters are the recount, which is the
    exact sum while it fits 64 bits; purges of old events are not among the steps.
    [FoldRules] and [IngestRules] prove that requests and sweeps, wherever they
    fail, are sequences of those steps, that a sweep claims the oldest rows up to
    its limit and folds, or records a failed attempt for, each of them, and that
    what ingestion stores is bound to the organization of its key and attested
    only over a signature.

    Projections (storage/lifecycle.py, storage/prompts.py, storage/deployments.py,
    storage/incidents.py, storage/agents.py): [Lifecycle], [Projections],
    [Posture].  [LifecycleRules] proves that folding fingerprints gives what a
    rebuild gives and that no material change goes without its review.

    Intake (storage/intake.py, api/intake.py): [Intake]; [IntakeRules] proves
    that what is stored under a custom field has the type of its definition, that
    resubmission rewrites the use case and its tier and leaves its status and its
    reviews, and that each lapsed approval is asked about once.

    Vendors (storage/vendor_evidence.py, api/policy.py): [Vendors] registers,
    reviews and retires vendors and ages their evidence; [VendorRules] proves that
    an approved vendor passed the stages of its current round, whatever intake
    reviews, direct decisions and other writes happen beside.

    Signing in (services/auth.py, api/auth.py, storage/login_attempts.py,
    storage/mfa.py, services/totp.py, dependencies.py): [Credentials] is the
    arithmetic of hashes and codes, [Throttle] the lockout, [SignIn] users,
    sessions, login and the second factor, [Accounts] the endpoints over them and
    the end of a federated sign-in, from the provider's verified statement on.
    [SignInRules] bounds the guesses of a password and the
    life of a session, [SessionRules] proves over every sequence of requests that
    each session was opened by somebody who proved who they are, or for whom their
    organization's provider vouched.

    Portable governance (schemas/portable.py, storage/portable.py,
    services/portable.py, api/portable.py): [Contracts] are the payloads with
    their constraints, [PortableStore] the records, [Portable] decides whether an
    execution platform may act, [Permits] issues and consumes permits and records
    decisions and receipts, [PortableApi] are the endpoints.  [ContractRules]
    proves that contracts survive storage, [Authorization] what "allow" means;
    [PortableSteps], [PortableSafe] and [PortableTrace] show that
    every transaction, audit and stamp, in every interleaving, keeps each row
    backed by other rows and the audit log, and [PortableGuarantees] draws the
    consequences: single-use permits, approvals by other people, immutable
    submissions, independent verification.

    Secrets (services/secrets.py): [Secrets] seals values with versioned keys;
    [SecretRules] proves that they survive the rotation of keys.

    Audit log (storage/audit.py, storage/audit_checkpoint.py): [AuditLog];
    [JsonText] proves that the hashed text determines the row, [AuditGuarantees]
    that a chain is determined by its last hash, that recording
    appends and never fails, that an honest log verifies, and is fresh for a day
    after a commit, and that tampering is detected up to an exhibited SHA-256 collision.

    The parts meet in the database: the fold fills the tables the gates and
    stages read, decisions write rows that recomputation must not undo, and every
    handler ends in [record_audit], which [Schema] keeps as an abstract trail and
    [AuditLog] implements.

    ** Bounds and fuel

    Recursion is structural wherever the code loops over a list.  The matching
    search has the number of people as fuel, and [Staffing] proves that it
    decides the existence of a matching.  Text readers recurse on the text.

    ** Where the code does something else than it says

    [PolicyValid.unhashable_mode_raises],
    [PolicyGuarantees.diff_misses_empty_entry],
    [DecisionRules.direct_decision_overrides_review],
    [SignInRules.code_guesses_are_not_throttled] and
    [AuditGuarantees.outage_after_empty_restore_reads_as_tampering] are theorems
    about behaviour that looks unintended.

    ** Not modelled

    Next in the plan: the full refresh of risk rules and the editing of controls
    and rules (storage/governance_policy.py), translation of OpenTelemetry spans
    (ingestion/otel.py), retention.  Left out: the protocols of SSO,
    SAML and SCIM (a federated sign-in starts from the provider's verified
    statement), first-run setup, network delivery of notifications, address
    checks of outbound requests, database connections and migrations, read-only
    reports (services/governance.py), metrics, the SDK's instrumentation of model
    clients, the dashboard. *)

From stdpp Require Import base list strings option pretty sets gmap.
From Stdlib Require Import ZArith Lia Ascii Sorted.

(** ** Exceptions and the error monad

    The exception classes the modelled code raises.  [RecordNotFound] and
    [DomainError] subclass [ValueError] (storage/errors.py), and
    [PolicyActivationRequiresSecondPerson] subclasses [DomainError]. *)

Inductive exn :=
| ValueError (msg : string)
| RecordNotFound (msg : string)
| DomainError (msg : string)
| PolicyActivationRequiresSecondPerson (msg : string)
| AuthorizationError (msg : string)
| HTTPException (status_code : Z) (detail : string)
| RuntimeError (msg : string)
| AttestationError (msg : string)
| TypeError
| AttributeError
| OverflowError
| KeyError (key : string)
| IndexError
| StopIteration
| DatabaseError (msg : string)
| SsoError (msg : string).

Inductive res (A : Type) :=
| Ok (a : A)
| Raise (e : exn).
Arguments Ok {A} a.
Arguments Raise {A} e.

Declare Scope py_scope.
Delimit Scope py_scope with py.
Open Scope py_scope.

Definition rbind {A B} (c : res A) (k : A -> res B) : res B :=
  match c with Ok a => k a | Raise e => Raise e end.

Notation "'let!' x := c 'in' k" := (rbind c (fun x => k))
  (at level 10, x binder, c at level 200, k at level 200) : py_scope.

Definition throw_if (b : bool) (e : exn) : res unit :=
  if b then Raise e else Ok tt.

(** a [for] loop over a list with an accumulator, stopping at an exception *)
Fixpoint rfold {A B} (f : A -> B -> res A) (a : A) (l : list B) : res A :=
  match l with
  | [] => Ok a
  | x :: l' => let! a' := f a x in rfold f a' l'
  end.

(** a list comprehension whose element expression may raise *)
Fixpoint rmap {A B} (f : A -> res B) (l : list A) : res (list B) :=
  match l with
  | [] => Ok []
  | x :: l' => let! y := f x in let! ys := rmap f l' in Ok (y :: ys)
  end.

Lemma Ok_inj {A} (a b : A) : Ok a = Ok b -> a = b.
Proof. by intros [=]. Qed.

Lemma rbind_Ok {A B} (c : res A) (k : A -> res B) b :
  rbind c k = Ok b <-> exists a, c = Ok a /\ k a = Ok b.
Proof.
  destruct c as [a|e]; simpl; split.
  - eauto.
  - by intros (a' & [= ->] & H).
  - done.
  - by intros (a' & ? & H).
Qed.

Lemma throw_if_Ok b e u : throw_if b e = Ok u <-> b = false.
Proof. destruct b, u; simpl; done. Qed.

Lemma rmap_Ok {A B} (f : A -> res B) l ys :
  rmap f l = Ok ys <-> Forall2 (fun x y => f x = Ok y) l ys.
Proof.
  revert ys; induction l as [|x l IH]; intros ys; simpl.
  - split; [intros [= <-]; constructor|]. inversion 1; done.
  - split.
    + intros (y & Hy & (ys' & Hys & [= <-])%rbind_Ok)%rbind_Ok.
      constructor; [done|]. by apply IH.
    + inversion 1 as [|? y ? ys' Hy Hys]; subst. rewrite Hy; simpl.
      apply IH in Hys. by rewrite Hys.
Qed.

Lemma rfold_app {A B} (f : A -> B -> res A) a l1 l2 :
  rfold f a (l1 ++ l2) = rbind (rfold f a l1) (fun a' => rfold f a' l2).
Proof.
  revert a; induction l1 as [|x l1 IH]; intros a; simpl; [done|].
  destruct (f a x); simpl; [apply IH|done].
Qed.

(** loop rule: an invariant kept by every iteration holds at the end *)
Lemma rfold_ind {A B} (I : A -> Prop) (f : A -> B -> res A) a l a' :
  rfold f a l = Ok a' -> I a ->
  (forall a1 x a2, x ∈ l -> f a1 x = Ok a2 -> I a1 -> I a2) -> I a'.
Proof.
  revert a; induction l as [|x l IH]; simpl; intros a H Ha Hstep.
  - by injection H as <-.
  - apply rbind_Ok in H as (a1 & Hx & H).
    eapply IH; [done| |].
    + eapply Hstep; [|done|done]. by left.
    + intros; eapply Hstep; [|done|done]. by right.
Qed.

(** [resolve H] opens a successful run [H : _ = Ok _] step by step *)
Ltac resolve1 H :=
  lazymatch type of H with
  | rbind _ _ = Ok _ =>
      let a := fresh "a" in let Ha := fresh "Ha" in
      apply rbind_Ok in H; first [destruct H as (a & Ha & H)]
  | throw_if _ _ = Ok _ => apply throw_if_Ok in H
  | Ok _ = Ok _ => injection H as H
  | Raise _ = Ok _ => discriminate H
  end.

(** ** Python strings

    A [str] is a Rocq [string] whose characters are code points below 256
    (Latin-1), so [String.length] is Python's [len] and the lexicographic
    order below is Python's string order. *)

Definition str_le (s t : string) : Prop := String.leb s t = true.
#[export] Instance str_le_dec : RelDecision str_le.
Proof. intros s t. unfold str_le. apply _. Defined.

Definition str_ltb (s t : string) : bool := String.ltb s t.

Lemma ascii_compare_refl (a : ascii) : Ascii.compare a a = Eq.
Proof. apply N.compare_refl. Qed.

Lemma compare_refl (s : string) : String.compare s s = Eq.
Proof. induction s; simpl; [done|]. by rewrite ascii_compare_refl. Qed.

Lemma ascii_compare_lt_trans (a b c : ascii) :
  Ascii.compare a b = Lt -> Ascii.compare b c = Lt -> Ascii.compare a c = Lt.
Proof.
  unfold Ascii.compare. rewrite !N.compare_lt_iff. lia.
Qed.

Lemma compare_lt_trans (s t u : string) :
  String.compare s t = Lt -> String.compare t u = Lt -> String.compare s u = Lt.
Proof.
  revert t u; induction s as [|a s IH]; intros [|b t] [|c u]; simpl; try done.
  destruct (Ascii.compare a b) eqn:Hab; try done.
  - apply Ascii.compare_eq_iff in Hab as ->.
    destruct (Ascii.compare b c); try done. apply IH.
  - intros _. destruct (Ascii.compare b c) eqn:Hbc; try done.
    + apply Ascii.compare_eq_iff in Hbc as ->. by rewrite Hab.
    + by rewrite (ascii_compare_lt_trans _ _ _ Hab Hbc).
Qed.

Lemma str_ltb_lt s t : str_ltb s t = true <-> String.compare s t = Lt.
Proof. unfold str_ltb, String.ltb. destruct (String.compare s t); done. Qed.

Lemma str_ltb_irrefl s : str_ltb s s = false.
Proof. unfold str_ltb, String.ltb. by rewrite compare_refl. Qed.

Lemma str_ltb_trans s t u :
  str_ltb s t = true -> str_ltb t u = true -> str_ltb s u = true.
Proof. rewrite !str_ltb_lt. apply compare_lt_trans. Qed.

Lemma str_trichotomy s t : str_ltb s t = true \/ s = t \/ str_ltb t s = true.
Proof.
  rewrite !str_ltb_lt. rewrite (String.compare_antisym t s).
  destruct (String.compare s t) eqn:E; simpl; auto.
  right; left. by apply String.compare_eq_iff.
Qed.

(** [+] of strings; [+:+] does not reduce by [simpl], these lemmas do its steps *)

Lemma append_cons c (a b : string) : String c a +:+ b = String c (a +:+ b).
Proof. done. Qed.
Lemma append_empty (b : string) : EmptyString +:+ b = b.
Proof. done. Qed.

Lemma length_append a b : String.length (a +:+ b) = (String.length a + String.length b)%nat.
Proof. induction a as [|c a IH]; [done|]. rewrite append_cons. simpl. by rewrite IH. Qed.

Lemma append_nil_r (a : string) : a +:+ EmptyString = a.
Proof. induction a as [|c a IH]; [done|]. by rewrite append_cons, IH. Qed.

Lemma append_assoc (a b c : string) : (a +:+ b) +:+ c = a +:+ (b +:+ c).
Proof. induction a as [|x a IH]; [done|]. by rewrite !append_cons, IH. Qed.

Lemma append_cancel_l s t u : s +:+ t = s +:+ u -> t = u.
Proof. induction s as [|c s IH]; [done|]. rewrite !append_cons. intros [= E]. by apply IH. Qed.

(** [", ".join(l)] *)
Definition join (sep : string) (l : list string) : string := String.concat sep l.

(** Python's [str.isspace] on Latin-1, as [str.strip] uses it *)
Definition is_space (c : ascii) : bool :=
  let n := N_of_ascii c in
  bool_decide (n ∈ [9; 10; 11; 12; 13; 28; 29; 30; 31; 32; 133; 160]%N).

Fixpoint lstrip (s : string) : string :=
  match s with
  | String c s' => if is_space c then lstrip s' else s
  | EmptyString => EmptyString
  end.

Fixpoint rstrip (s : string) : string :=
  match s with
  | String c s' =>
      match rstrip s' with
      | EmptyString => if is_space c then EmptyString else String c EmptyString
      | r => String c r
      end
  | EmptyString => EmptyString
  end.

Definition strip (s : string) : string := rstrip (lstrip s).

(** [str.lower] on Latin-1: A-Z and the accented capitals but the
    multiplication sign (215) *)
Definition lower_ascii (c : ascii) : ascii :=
  let n := N_of_ascii c in
  if (((65 <=? n) && (n <=? 90)) || ((192 <=? n) && (n <=? 222) && negb (n =? 215)))%N
  then ascii_of_N (n + 32) else c.

Fixpoint lower (s : string) : string :=
  match s with
  | String c s' => String (lower_ascii c) (lower s')
  | EmptyString => EmptyString
  end.

(** [str.replace] of a single character *)
Fixpoint replace_char (a b : ascii) (s : string) : string :=
  match s with
  | String c s' => String (if Ascii.eqb c a then b else c) (replace_char a b s')
  | EmptyString => EmptyString
  end.

Definition starts_with (p s : string) : bool := String.prefix p s.

Definition is_empty (s : string) : bool :=
  match s with EmptyString => true | _ => false end.

Lemma is_empty_true s : is_empty s = true <-> s = EmptyString.
Proof. destruct s; simpl; naive_solver. Qed.

(** ** Sorted sets of strings: [sorted(set(l))] *)

Fixpoint insert_sorted (x : string) (l : list string) : list string :=
  match l with
  | [] => [x]
  | y :: l' =>
      if str_ltb x y then x :: l
      else if String.eqb x y then l else y :: insert_sorted x l'
  end.

Definition sorted_set (l : list string) : list string := foldr insert_sorted [] l.

Definition str_sorted (l : list string) : Prop :=
  StronglySorted (fun s t => str_ltb s t = true) l.

Lemma elem_of_insert_sorted x y l : y ∈ insert_sorted x l <-> y = x \/ y ∈ l.
Proof.
  induction l as [|z l IH]; simpl; [set_solver|].
  destruct (str_ltb x z); [set_solver|].
  destruct (String.eqb_spec x z); set_solver.
Qed.

Lemma elem_of_sorted_set x l : x ∈ sorted_set l <-> x ∈ l.
Proof.
  induction l as [|y l IH]; simpl; [done|].
  rewrite elem_of_insert_sorted, IH. set_solver.
Qed.

Lemma insert_sorted_sorted x l : str_sorted l -> str_sorted (insert_sorted x l).
Proof.
  unfold str_sorted. induction 1 as [|y l Hl IH Hy]; simpl.
  - repeat constructor.
  - destruct (str_ltb x y) eqn:Hxy.
    + constructor; [by constructor|]. constructor; [done|].
      eapply Forall_impl; [exact Hy|]. intros z. by apply str_ltb_trans.
    + destruct (String.eqb_spec x y) as [->|Hne]; [by constructor|].
      constructor; [done|]. apply Forall_forall. intros z.
      rewrite elem_of_insert_sorted. intros [->|Hz].
      * destruct (str_trichotomy x y) as [?|[?|?]]; congruence.
      * rewrite Forall_forall in Hy. auto.
Qed.

Lemma sorted_set_sorted l : str_sorted (sorted_set l).
Proof. induction l; simpl; [constructor|]. by apply insert_sorted_sorted. Qed.

Lemma str_sorted_ext l1 l2 :
  str_sorted l1 -> str_sorted l2 -> (forall x, x ∈ l1 <-> x ∈ l2) -> l1 = l2.
Proof.
  unfold str_sorted. intros H1; revert l2.
  induction H1 as [|x l1 H1 IH Hx]; intros l2 H2 Heq.
  - destruct l2 as [|y l2]; [done|]. specialize (Heq y); set_solver.
  - destruct H2 as [|y l2 H2 Hy]; [specialize (Heq x); set_solver|].
    rewrite Forall_forall in Hx, Hy.
    assert (x = y) as ->.
    { assert (x ∈ y :: l2) as Hxy by (apply Heq; left).
      assert (y ∈ x :: l1) as Hyx by (apply Heq; left).
      apply elem_of_cons in Hxy as [|Hxy]; [done|].
      apply elem_of_cons in Hyx as [|Hyx]; [done|].
      pose proof (str_ltb_trans _ _ _ (Hx _ Hyx) (Hy _ Hxy)) as Hc.
      by rewrite str_ltb_irrefl in Hc. }
    f_equal. apply IH; [done|]. intros z. specialize (Heq z).
    rewrite !elem_of_cons in Heq.
    assert (z ∈ l1 -> z <> y) by (intros Hz ->; specialize (Hx _ Hz); by rewrite str_ltb_irrefl in Hx).
    assert (z ∈ l2 -> z <> y) by (intros Hz ->; specialize (Hy _ Hz); by rewrite str_ltb_irrefl in Hy).
    naive_solver.
Qed.

(** equal sets have the same sorted list: what makes a recomputed and a folded
    label list literally equal *)
Lemma sorted_set_ext l1 l2 :
  (forall x, x ∈ l1 <-> x ∈ l2) -> sorted_set l1 = sorted_set l2.
Proof.
  intros H. apply str_sorted_ext; [apply sorted_set_sorted..|].
  intros x. rewrite !elem_of_sorted_set. apply H.
Qed.

Lemma str_sorted_NoDup l : str_sorted l -> NoDup l.
Proof.
  unfold str_sorted. induction 1 as [|x l Hl IH Hx]; constructor; [|done].
  rewrite Forall_forall in Hx. intros Hin. specialize (Hx _ Hin).
  by rewrite str_ltb_irrefl in Hx.
Qed.

Lemma sorted_set_NoDup l : NoDup (sorted_set l).
Proof. apply str_sorted_NoDup, sorted_set_sorted. Qed.

(** [max(s, t)] of two texts: the first if they are equal *)
Definition max_str (s t : string) : string := if str_ltb s t then t else s.

Lemma str_ltb_empty s : str_ltb "" s = negb (is_empty s).
Proof. by destruct s. Qed.

Lemma max_str_assoc r s t : max_str (max_str r s) t = max_str r (max_str s t).
Proof.
  unfold max_str. destruct (str_ltb r s) eqn:Hrs, (str_ltb s t) eqn:Hst; rewrite ?Hrs, ?Hst; try done.
  - by rewrite (str_ltb_trans r s t).
  - destruct (str_ltb r t) eqn:Hrt; [|done]. destruct (str_trichotomy r s) as [?|[->|Hsr]]; [congruence|congruence|].
    pose proof (str_ltb_trans _ _ _ Hsr Hrt). congruence.
Qed.

Lemma max_str_empty s : max_str "" s = s.
Proof. unfold max_str. rewrite str_ltb_empty. by destruct s. Qed.

Lemma sorted_set_nil l : sorted_set l = [] <-> l = [].
Proof.
  split; [|by intros ->]. intros H. destruct l as [|x l]; [done|].
  assert (x ∈ sorted_set (x :: l)) as Hx by (apply elem_of_sorted_set; left).
  rewrite H in Hx. set_solver.
Qed.

(** [x in l] for strings, as a test *)
Definition mem (x : string) (l : list string) : bool := bool_decide (x ∈ l).

Lemma mem_true x l : mem x l = true <-> x ∈ l.
Proof. apply bool_decide_eq_true. Qed.
Lemma mem_false x l : mem x l = false <-> x ∉ l.
Proof. apply bool_decide_eq_false. Qed.

Create HintDb norinth discriminated.
#[export] Hint Resolve sorted_set_sorted sorted_set_NoDup insert_sorted_sorted : norinth.

(** ** Grouping: [groups.setdefault(key(x), set()).add(value(x))] over a list *)

Section Group.
Context {A : Type} (key value : A -> string).

Definition group_step (m : gmap string (gset string)) (x : A) : gmap string (gset string) :=
  <[key x := {[value x]} ∪ default ∅ (m !! key x)]> m.
Definition group_sets (l : list A) : gmap string (gset string) := foldl group_step ∅ l.

Lemma lookup_group_step m x k :
  group_step m x !! k = if decide (key x = k) then Some ({[value x]} ∪ default ∅ (m !! k)) else m !! k.
Proof.
  unfold group_step. destruct (decide (key x = k)) as [<-|Hne].
  - apply lookup_insert_eq.
  - by apply lookup_insert_ne.
Qed.

Lemma group_fold_spec l : forall m k,
  (forall v, v ∈ default ∅ (foldl group_step m l !! k) <->
     v ∈ default ∅ (m !! k) \/ exists x, x ∈ l /\ key x = k /\ value x = v) /\
  (is_Some (foldl group_step m l !! k) <-> is_Some (m !! k) \/ exists x, x ∈ l /\ key x = k).
Proof.
  induction l as [|x l IH]; intros m k; cbn [foldl].
  - split; [intros v|]; (split; [by left|intros [|(x & Hx%elem_of_nil & _)]; done]).
  - destruct (IH (group_step m x) k) as [IHv IHs].
    rewrite lookup_group_step in IHs. setoid_rewrite lookup_group_step in IHv.
    setoid_rewrite elem_of_cons. destruct (decide (key x = k)) as [<-|Hne].
    + split.
      * intros v. rewrite IHv. simpl. rewrite elem_of_union, elem_of_singleton. naive_solver.
      * rewrite IHs. naive_solver.
    + split.
      * intros v. rewrite IHv. naive_solver.
      * rewrite IHs. naive_solver.
Qed.

Lemma elem_of_group_sets l k v :
  v ∈ default ∅ (group_sets l !! k) <-> exists x, x ∈ l /\ key x = k /\ value x = v.
Proof.
  destruct (group_fold_spec l ∅ k) as [Hv _]. unfold group_sets. rewrite Hv, lookup_empty. set_solver.
Qed.

Lemma group_sets_is_Some l k : is_Some (group_sets l !! k) <-> exists x, x ∈ l /\ key x = k.
Proof.
  destruct (group_fold_spec l ∅ k) as [_ Hs]. unfold group_sets. rewrite Hs, lookup_empty.
  split; [by intros [[? [=]]|]|by right].
Qed.
End Group.

(** ** Digests

    [sha256(x.encode("utf-8")).hexdigest()] of hashlib, as a parameter: every
    theorem below holds for any digest function.  Where a result needs two
    digests to differ it says so as a hypothesis on the strings involved. *)

Class Digest := sha256 : string -> string.

(** [entities.entity_id]: the parts, None as the empty string, joined with a
    bar and hashed *)
Definition entity_key (parts : list (option string)) : string :=
  join "|" (map (default EmptyString) parts).

Definition entity_id `{Digest} (parts : list (option string)) : string :=
  sha256 (entity_key parts).

(** no two different texts of a list share a digest: a hypothesis on the texts
    one theorem hashes, never on all texts *)
Definition no_collision `{Digest} (texts : list string) : Prop :=
  forall s t, s ∈ texts -> t ∈ texts -> sha256 s = sha256 t -> s = t.
