(* ===== verification/Py.v ===== *)
(** * Python and JSON values

    The dynamically typed values that cross the platform's boundaries: policy
    documents, telemetry attributes, submitted intake fields.  A dict is the
    list of its items in insertion order.  A float is a finite rational (the
    exact value of the binary64 number), an infinity or NaN. *)

From stdpp Require Import base list strings option pretty sets gmap.
From Stdlib Require Import ZArith QArith Qround Lia Ascii.
From S2P Require Import Prelude.

Inductive pyfloat :=
| FFin (q : Q)
| FInf (negative : bool)
| FNan.

Inductive pyval :=
| PNone
| PBool (b : bool)
| PInt (z : Z)
| PFloat (f : pyfloat)
| PStr (s : string)
| PList (l : list pyval)
| PDict (d : list (string * pyval)).

(** ** Numbers

    [int], [bool] and [float] compare by their mathematical value; NaN compares
    false with everything. *)

Inductive extended := Fin (q : Q) | PosInf | NegInf.

Definition float_ext (f : pyfloat) : option extended :=
  match f with
  | FFin q => Some (Fin q)
  | FInf false => Some PosInf
  | FInf true => Some NegInf
  | FNan => None
  end.

Definition number (v : pyval) : option (option extended) :=
  match v with
  | PBool b => Some (Some (Fin (if b then 1 else 0)%Q))
  | PInt z => Some (Some (Fin (inject_Z z)))
  | PFloat f => Some (float_ext f)
  | _ => None
  end.

Definition ext_leb (a b : extended) : bool :=
  match a, b with
  | NegInf, _ | _, PosInf => true
  | Fin p, Fin q => Qle_bool p q
  | _, _ => false
  end.

Definition ext_ltb (a b : extended) : bool := negb (ext_leb b a).

(** [<=] and [<] of two floats *)
Definition float_leb (f g : pyfloat) : bool :=
  match float_ext f, float_ext g with Some a, Some b => ext_leb a b | _, _ => false end.
Definition float_ltb (f g : pyfloat) : bool :=
  match float_ext f, float_ext g with Some a, Some b => ext_ltb a b | _, _ => false end.

(** [a > b], for the values the modelled code orders; other types raise *)
Definition py_gt (a b : pyval) : res bool :=
  match number a, number b with
  | Some (Some x), Some (Some y) => Ok (ext_ltb y x)
  | Some _, Some _ => Ok false
  | _, _ =>
      match a, b with
      | PStr s, PStr t => Ok (str_ltb t s)
      | _, _ => Raise TypeError
      end
  end.

(** ** Equality *)

Definition num_eqb (a b : pyval) : bool :=
  match number a, number b with
  | Some (Some x), Some (Some y) => ext_leb x y && ext_leb y x
  | _, _ => false
  end.

Definition assoc {A} (k : string) (d : list (string * A)) : option A :=
  snd <$> find (fun p => String.eqb (fst p) k) d.

(** [==]: dicts compare as maps, lists elementwise, numbers by value *)
Fixpoint py_eqb (a b : pyval) {struct a} : bool :=
  match a, b with
  | PNone, PNone => true
  | PStr s, PStr t => String.eqb s t
  | PList l, PList m =>
      (fix list_eqb (l m : list pyval) : bool :=
         match l, m with
         | [], [] => true
         | x :: l', y :: m' => py_eqb x y && list_eqb l' m'
         | _, _ => false
         end) l m
  | PDict d, PDict e =>
      Nat.eqb (length d) (length e) &&
      (fix dict_eqb (d : list (string * pyval)) : bool :=
         match d with
         | [] => true
         | (k, x) :: d' =>
             match assoc k e with Some y => py_eqb x y | None => false end && dict_eqb d'
         end) d
  | _, _ => num_eqb a b
  end.

(** ** Truth, dict access, coercions *)

Definition truthy (v : pyval) : bool :=
  match v with
  | PNone => false
  | PBool b => b
  | PInt z => negb (z =? 0)%Z
  | PFloat (FFin q) => negb (Qeq_bool q 0)
  | PFloat _ => true
  | PStr s => negb (is_empty s)
  | PList l => match l with [] => false | _ => true end
  | PDict d => match d with [] => false | _ => true end
  end.

(** [a or b] *)
Definition py_or (a b : pyval) : pyval := if truthy a then a else b.

Definition is_none (v : pyval) : bool := match v with PNone => true | _ => false end.

(** [v.get(k, default)]: only a dict has [get] *)
Definition py_get_default (v : pyval) (k : string) (dflt : pyval) : res pyval :=
  match v with
  | PDict d => Ok (default dflt (assoc k d))
  | _ => Raise AttributeError
  end.

Definition py_get (v : pyval) (k : string) : res pyval := py_get_default v k PNone.

(** [k in v] for a dict *)
Definition py_has_key (v : pyval) (k : string) : res bool :=
  match v with
  | PDict d => Ok (bool_decide (is_Some (assoc k d)))
  | _ => Raise TypeError
  end.

(** [v[k]] of a dict *)
Definition py_item (v : pyval) (k : string) : res pyval :=
  match v with
  | PDict d => match assoc k d with Some x => Ok x | None => Raise (KeyError k) end
  | _ => Raise TypeError
  end.

(** a value where the code needs text, such as a key of a statement *)
Definition py_text (v : pyval) : res string :=
  match v with PStr s => Ok s | _ => Raise TypeError end.

(** [as_object] of storage/entities.py: the value if it is a dict, else [{}] *)
Definition as_object (v : pyval) : pyval :=
  match v with PDict _ => v | _ => PDict [] end.

(** iterating a value as a list, as [for x in v] does for the lists the code
    iterates; other types are not iterated by the modelled code *)
Definition py_iter (v : pyval) : res (list pyval) :=
  match v with
  | PList l => Ok l
  | PDict d => Ok (map (fun p => PStr (fst p)) d)
  | PStr s => Ok (map (fun c => PStr (String c EmptyString)) (String.list_ascii_of_string s))
  | _ => Raise TypeError
  end.

(** [x in {...}] for a set of strings: a list or dict is unhashable *)
Definition in_str_set (v : pyval) (l : list string) : res bool :=
  match v with
  | PStr s => Ok (mem s l)
  | PList _ | PDict _ => Raise TypeError
  | _ => Ok false
  end.

(** ** Conversions

    What the interpreter prints and parses beyond the cases modelled here:
    [str(v)] of a value that is not a string, and [int(s)] and [float(s)] of a
    string.  The stored documents that reach these calls hold strings and
    numbers, so no theorem depends on what the parameters return. *)

Class PyHost := {
  repr : pyval -> string;
  str_int : string -> res Z;
  str_float : string -> res pyfloat
}.

(** [str(v)], also in an f-string *)
Definition py_str `{PyHost} (v : pyval) : string :=
  match v with PStr s => s | _ => repr v end.

(** [int(q)] truncates toward zero *)
Definition q_trunc (q : Q) : Z := Z.quot (Qnum q) (Zpos (Qden q)).

Definition py_int `{PyHost} (v : pyval) : res Z :=
  match v with
  | PInt z => Ok z
  | PBool b => Ok (if b then 1 else 0)
  | PFloat (FFin q) => Ok (q_trunc q)
  | PFloat (FInf _) => Raise OverflowError
  | PFloat FNan => Raise (ValueError "cannot convert float NaN to integer")
  | PStr s => str_int s
  | _ => Raise TypeError
  end%Z.

(** [num / den] rounded to the nearest integer, ties to even *)
Definition div_half_even (num den : Z) : Z :=
  let q := (num / den)%Z in
  let r := (num mod den)%Z in
  match (2 * r ?= den)%Z with
  | Lt => q
  | Gt => (q + 1)%Z
  | Eq => if Z.even q then q else (q + 1)%Z
  end.

(** [float(z)]: 53 significant bits, ties to even *)
Definition float_of_Z (z : Z) : res pyfloat :=
  let n := Z.abs z in
  if (n <? 2 ^ 53)%Z then Ok (FFin (inject_Z z))
  else
    let e := (Z.log2 n - 52)%Z in
    let m := (div_half_even n (2 ^ e) * 2 ^ e)%Z in
    if (2 ^ 1024 <=? m)%Z then Raise OverflowError
    else Ok (FFin (inject_Z (Z.sgn z * m))).

Definition py_float `{PyHost} (v : pyval) : res pyfloat :=
  match v with
  | PInt z => float_of_Z z
  | PBool b => Ok (FFin (if b then 1 else 0)%Q)
  | PFloat f => Ok f
  | PStr s => str_float s
  | _ => Raise TypeError
  end.

(** [hash(v)] exists: what a set element or dict key must satisfy *)
Definition hashable (v : pyval) : bool :=
  match v with PList _ | PDict _ => false | _ => true end.

(** [x in l] for a list *)
Definition py_in (x : pyval) (l : list pyval) : bool := existsb (fun y => py_eqb y x) l.

(** [set(l) <= set(m)] *)
Definition py_subset (l m : list pyval) : res bool :=
  if forallb hashable l && forallb hashable m then Ok (forallb (fun x => py_in x m) l)
  else Raise TypeError.

(** a dict with arbitrary keys: the items in insertion order *)
Fixpoint pd_set (k v : pyval) (d : list (pyval * pyval)) : list (pyval * pyval) :=
  match d with
  | [] => [(k, v)]
  | (k', v') :: d' => if py_eqb k' k then (k', v) :: d' else (k', v') :: pd_set k v d'
  end.

Definition pd_get (k : pyval) (d : list (pyval * pyval)) : pyval :=
  match find (fun p => py_eqb (fst p) k) d with Some (_, v) => v | None => PNone end.

Lemma assoc_cons {A} k k' (x : A) d :
  assoc k ((k', x) :: d) = if String.eqb k' k then Some x else assoc k d.
Proof. unfold assoc. simpl. by destruct (String.eqb k' k). Qed.

Lemma assoc_nil {A} k : assoc k (@nil (string * A)) = None.
Proof. done. Qed.

Lemma assoc_elem_of {A} k (x : A) d : assoc k d = Some x -> (k, x) ∈ d.
Proof.
  induction d as [|[k' y] d IH]; [done|]. rewrite assoc_cons.
  destruct (String.eqb_spec k' k) as [->|]; [intros [= ->]; by left|right; auto].
Qed.

Lemma assoc_is_Some {A} k (d : list (string * A)) : is_Some (assoc k d) <-> k ∈ map fst d.
Proof.
  induction d as [|[k' y] d IH]; simpl.
  - split; [intros [? [=]]|intros H; by apply elem_of_nil in H].
  - rewrite assoc_cons, elem_of_cons. destruct (String.eqb_spec k' k) as [->|].
    + naive_solver.
    + rewrite IH. naive_solver.
Qed.

Lemma py_get_Ok v k x :
  py_get v k = Ok x <-> exists d, v = PDict d /\ x = default PNone (assoc k d).
Proof.
  unfold py_get, py_get_default.
  destruct v; (split; [|intros (d' & Hd & ->)]); try discriminate.
  - intros [= <-]. eauto.
  - by injection Hd as ->.
Qed.

Lemma py_eqb_str v s : py_eqb v (PStr s) = true <-> v = PStr s.
Proof.
  destruct v; simpl; try (split; [|congruence]; unfold num_eqb; simpl).
  - done.
  - by destruct b.
  - done.
  - by destruct (float_ext f).
  - rewrite String.eqb_eq. split; congruence.
  - done.
  - done.
Qed.

(** ** Dict items *)

(** a dict's item, set in place or added *)
Fixpoint item_set {A} (k : string) (x : A) (d : list (string * A)) : list (string * A) :=
  match d with
  | [] => [(k, x)]
  | (k', y) :: d => if String.eqb k' k then (k, x) :: d else (k', y) :: item_set k x d
  end.
Lemma assoc_item_set {A} k (x : A) d k' : assoc k' (item_set k x d) = if String.eqb k k' then Some x else assoc k' d.
Proof.
  induction d as [|[j y] d IH]; cbn [item_set]; [by rewrite assoc_cons|].
  destruct (String.eqb_spec j k) as [->|Hjk]; rewrite !assoc_cons; [by destruct (String.eqb k k')|].
  rewrite IH. destruct (String.eqb_spec j k'), (String.eqb_spec k k'); congruence.
Qed.

(** [d.pop(k, None)] *)
Definition item_pop {A} (k : string) (d : list (string * A)) : list (string * A) :=
  filter (fun kv => negb (String.eqb kv.1 k) = true) d.
Lemma assoc_item_pop {A} k (d : list (string * A)) k' : assoc k' (item_pop k d) = if String.eqb k k' then None else assoc k' d.
Proof.
  unfold item_pop. induction d as [|[j y] d IH]; [by destruct (String.eqb k k')|]. rewrite filter_cons. cbn [fst].
  destruct (decide _) as [Hj|Hj]; rewrite ?assoc_cons, IH.
  - apply negb_true_iff, String.eqb_neq in Hj. destruct (String.eqb_spec j k'), (String.eqb_spec k k'); congruence.
  - assert (j = k) as -> by (apply String.eqb_eq; by destruct (String.eqb j k)). by destruct (String.eqb k k').
Qed.

(** ** Comparing signatures *)

(** [hmac.new(key, message, sha256).hexdigest()] *)
Class Hmac := hmac_sha256 : string -> string -> string.

Definition is_ascii (s : string) : bool := forallb (fun c => (N_of_ascii c <? 128)%N) (String.list_ascii_of_string s).

(** [hmac.compare_digest]: two strings of ASCII characters *)
Definition compare_digest (a : pyval) (b : string) : res bool :=
  match a with
  | PStr s => if is_ascii s && is_ascii b then Ok (String.eqb s b) else Raise TypeError
  | _ => Raise TypeError
  end.
