(* ===== verification/Dates.v ===== *)
(** * Dates and instants of the standard library's [datetime]

    A date is its proleptic ordinal (1 January of year 1 is day 1).  A datetime
    is its local clock reading in microseconds since that day's midnight, with
    the UTC offset when it is aware.  [fromisoformat] accepts what CPython 3.11,
    the version the platform's tests run under, accepts: calendar and week
    dates, compact or dashed, any separator, a time to a prefix of its fields,
    an offset.  [None] is its ValueError. *)

From stdpp Require Import base list strings option pretty sets gmap.
From Stdlib Require Import ZArith Lia Ascii.
From S2P Require Import Prelude.

Open Scope Z_scope.

(** ** The calendar *)

Definition MINYEAR : Z := 1.
Definition MAXYEAR : Z := 9999.

Definition is_leap (year : Z) : bool :=
  (year mod 4 =? 0) && (negb (year mod 100 =? 0) || (year mod 400 =? 0)).

Definition days_before_year (year : Z) : Z :=
  let y := year - 1 in y * 365 + y / 4 - y / 100 + y / 400.

Definition month_lengths (leap : bool) : list Z :=
  [31; if leap then 29 else 28; 31; 30; 31; 30; 31; 31; 30; 31; 30; 31].

Definition days_in_month (year month : Z) : Z :=
  default 0 (month_lengths (is_leap year) !! Z.to_nat (month - 1)).

Definition days_before_month (year month : Z) : Z :=
  foldr Z.add 0 (take (Z.to_nat (month - 1)) (month_lengths (is_leap year))).

Definition ymd2ord (y m d : Z) : Z := days_before_year y + days_before_month y m + d.

(** the month and day of an offset into a year *)
Fixpoint month_of (lengths : list Z) (month n : Z) : Z * Z :=
  match lengths with
  | [] => (month, n + 1)
  | len :: rest => if n <? len then (month, n + 1) else month_of rest (month + 1) (n - len)
  end.

Definition ord2ymd (n : Z) : Z * Z * Z :=
  let n := n - 1 in
  let n400 := n / 146097 in let n := n mod 146097 in
  let n100 := n / 36524 in let n := n mod 36524 in
  let n4 := n / 1461 in let n := n mod 1461 in
  let n1 := n / 365 in let n := n mod 365 in
  let year := n400 * 400 + 1 + n100 * 100 + n4 * 4 + n1 in
  if (n1 =? 4) || (n100 =? 4) then (year - 1, 12, 31)
  else let (m, d) := month_of (month_lengths (is_leap year)) 1 n in (year, m, d).

Definition valid_ymd (y m d : Z) : bool :=
  (MINYEAR <=? y) && (y <=? MAXYEAR) && (1 <=? m) && (m <=? 12) && (1 <=? d) && (d <=? days_in_month y m).

(** [date(y, m, d)] *)
Definition make_date (y m d : Z) : option Z :=
  if valid_ymd y m d then Some (ymd2ord y m d) else None.

Definition max_ordinal : Z := ymd2ord MAXYEAR 12 31.

(** the Monday that starts week 1 of an ISO year *)
Definition isoweek1monday (year : Z) : Z :=
  let firstday := ymd2ord year 1 1 in
  let firstweekday := (firstday + 6) mod 7 in
  let monday := firstday - firstweekday in
  if 3 <? firstweekday then monday + 7 else monday.

Definition isoweek_to_ordinal (year week day : Z) : option Z :=
  let first_weekday := ymd2ord year 1 1 mod 7 in
  let long_year := (first_weekday =? 4) || (first_weekday =? 3) && is_leap year in
  if (MINYEAR <=? year) && (year <=? MAXYEAR) &&
     ((0 <? week) && (week <? 53) || (week =? 53) && long_year) && (0 <? day) && (day <? 8)
  then let n := isoweek1monday year + (week - 1) * 7 + (day - 1) in
       if (1 <=? n) && (n <=? max_ordinal) then Some n else None
  else None.

(** ** Reading ISO 8601 text *)

Definition is_digit (c : ascii) : bool :=
  let n := N_of_ascii c in ((48 <=? n) && (n <=? 57))%N.

Definition digit_value (c : ascii) : Z := Z.of_N (N_of_ascii c) - 48.

(** one or more decimal digits *)
Fixpoint digits_from (acc : Z) (s : string) : option Z :=
  match s with
  | EmptyString => Some acc
  | String c s' => if is_digit c then digits_from (10 * acc + digit_value c) s' else None
  end.
Definition digits (s : string) : option Z :=
  match s with EmptyString => None | _ => digits_from 0 s end.

(** [s[i:j]] and [s[i:]] *)
Definition slice (i j : nat) (s : string) : string := String.substring i (j - i) s.
Definition from (i : nat) (s : string) : string := String.substring i (String.length s - i) s.
Definition char_is (i : nat) (c : ascii) (s : string) : bool :=
  match String.get i s with Some x => Ascii.eqb x c | None => false end.
Definition digit_at (i : nat) (s : string) : bool :=
  match String.get i s with Some x => is_digit x | None => false end.

(** the digits starting at [i] of a list of characters *)
Fixpoint digit_run (s : string) : nat :=
  match s with
  | String c s' => if is_digit c then S (digit_run s') else O
  | EmptyString => O
  end.

(** [_find_isoformat_datetime_separator] *)
Definition separator_location (s : string) : option nat :=
  let len := String.length s in
  if Nat.eqb len 7 then Some 7%nat
  else if char_is 4 "-" s then
    if char_is 5 "W" s then
      if Nat.ltb len 8 then None
      else if Nat.ltb 8 len && char_is 8 "-" s then
        if Nat.eqb len 9 then None
        else if Nat.ltb 10 len && digit_at 10 s then Some 8%nat else Some 10%nat
      else Some 8%nat
    else Some 10%nat
  else if char_is 4 "W" s then
    let idx := (7 + digit_run (from 7 s))%nat in
    if Nat.ltb idx 9 then Some idx else if Nat.even idx then Some 7%nat else Some 8%nat
  else Some 8%nat.

(** [_parse_isoformat_date] and the date it denotes *)
Definition parse_isoformat_date (s : string) : option Z :=
  let sep := if char_is 4 "-" s then 1%nat else O in
  match digits (slice 0 4 s) with
  | None => None
  | Some year =>
      if char_is (4 + sep) "W" s then
        match digits (slice (5 + sep) (7 + sep) s) with
        | None => None
        | Some week =>
            if Nat.ltb (7 + sep) (String.length s) then
              if Bool.eqb (char_is (7 + sep) "-" s) (Nat.eqb sep 1) then
                match digits (from (7 + sep + sep) s) with
                | Some day => isoweek_to_ordinal year week day
                | None => None
                end
              else None
            else isoweek_to_ordinal year week 1
        end
      else if Bool.eqb (char_is (6 + sep) "-" s) (Nat.eqb sep 1) then
        match digits (slice (4 + sep) (6 + sep) s), digits (from (6 + sep + sep) s) with
        | Some month, Some day => make_date year month day
        | _, _ => None
        end
      else None
  end.

(** [date.fromisoformat] *)
Definition date_fromisoformat (s : string) : option Z :=
  let len := String.length s in
  if Nat.eqb len 7 || Nat.eqb len 8 || Nat.eqb len 10 then parse_isoformat_date s else None.

(** [HH[:?MM[:?SS[{.,}f+]]]] in microseconds, with its four fields *)
Definition fraction (s : string) : option Z :=
  match s with
  | EmptyString => Some 0
  | String c rest =>
      if Ascii.eqb c "." || Ascii.eqb c "," then
        let taken := Nat.min 6 (String.length rest) in
        match digits (slice 0 taken rest) with
        | None => None
        | Some us =>
            if Nat.ltb taken (String.length rest) && negb (Nat.eqb (digit_run (from taken rest)) (String.length rest - taken))
            then None
            else Some (us * 10 ^ (6 - Z.of_nat taken))
        end
      else None
  end.

Definition parse_hh_mm_ss_ff (s : string) : option (Z * Z * Z * Z) :=
  let sep := if char_is 2 ":" s then 1%nat else O in
  match digits (slice 0 2 s) with
  | None => None
  | Some hh =>
      if Nat.ltb (String.length s) 2 then None
      else if Nat.eqb (String.length s) 2 then Some (hh, 0, 0, 0)
      else
        match digits (slice (2 + sep) (4 + sep) s) with
        | None => None
        | Some mm =>
            if Nat.ltb (String.length s) (4 + sep) then None
            else if Nat.eqb (String.length s) (4 + sep) then Some (hh, mm, 0, 0)
            else if Nat.eqb sep 1 && negb (char_is (4 + sep) ":" s) then None
            else
              match digits (slice (4 + sep + sep) (6 + sep + sep) s) with
              | None => None
              | Some ss =>
                  if Nat.ltb (String.length s) (6 + sep + sep) then None
                  else match fraction (from (6 + sep + sep) s) with
                       | Some us => Some (hh, mm, ss, us)
                       | None => None
                       end
              end
        end
  end.

Definition microseconds (c : Z * Z * Z * Z) : Z :=
  let '(hh, mm, ss, us) := c in ((hh * 60 + mm) * 60 + ss) * 1000000 + us.

Definition day_us : Z := 86400 * 1000000.

(** [text.find(c)] *)
Fixpoint find_char (c : ascii) (s : string) : option nat :=
  match s with
  | EmptyString => None
  | String x s' => if Ascii.eqb x c then Some O else S <$> find_char c s'
  end.

(** [_parse_isoformat_time]: the time of day and the offset, both in microseconds *)
Definition tz_position (s : string) : option nat :=
  match find_char "-" s with
  | Some i => Some i
  | None => match find_char "+" s with Some i => Some i | None => find_char "Z" s end
  end.

Definition time_of_day (s : string) : option Z :=
  match parse_hh_mm_ss_ff s with
  | Some (hh, mm, ss, us) =>
      if (hh <=? 23) && (mm <=? 59) && (ss <=? 59) then Some (microseconds (hh, mm, ss, us)) else None
  | None => None
  end.

Definition parse_isoformat_time (s : string) : option (Z * option Z) :=
  if Nat.ltb (String.length s) 2 then None
  else match tz_position s with
  | None => (fun t => (t, None)) <$> time_of_day s
  | Some i =>
      match time_of_day (slice 0 i s) with
      | None => None
      | Some t =>
          let tz := from (S i) s in
          if is_empty tz && char_is i "Z" s then Some (t, Some 0)
          else if Nat.eqb (String.length tz) 0 || Nat.eqb (String.length tz) 1 || Nat.eqb (String.length tz) 3 then None
          else match parse_hh_mm_ss_ff tz with
               | None => None
               | Some c =>
                   let offset := if char_is i "-" s then - microseconds c else microseconds c in
                   if Z.abs offset <? day_us then Some (t, Some offset) else None
               end
      end
  end.

Record datetime := mk_datetime { dt_local : Z; dt_offset : option Z }.

Definition fromisoformat (s : string) : option datetime :=
  if Nat.ltb (String.length s) 7 then None
  else match separator_location s with
  | None => None
  | Some i =>
      match parse_isoformat_date (slice 0 i s) with
      | None => None
      | Some day =>
          let rest := from (S i) s in
          if is_empty rest then Some (mk_datetime (day * day_us) None)
          else match parse_isoformat_time rest with
               | Some (t, offset) => Some (mk_datetime (day * day_us + t) offset)
               | None => None
               end
      end
  end.

(** ** Instants and arithmetic *)

(** the instant of an aware datetime *)
Definition instant (t : datetime) : Z := dt_local t - default 0 (dt_offset t).

(** [t if t.tzinfo else t.replace(tzinfo=UTC)] *)
Definition assume_utc (t : datetime) : datetime :=
  match dt_offset t with Some _ => t | None => mk_datetime (dt_local t) (Some 0) end.

Definition in_range (local : Z) : bool := (day_us <=? local) && (local <? (max_ordinal + 1) * day_us).

(** [t + timedelta(days=days)] *)
Definition add_days (t : datetime) (days : Z) : res datetime :=
  let local := dt_local t + days * day_us in
  if (Z.abs days <=? 999999999) && in_range local then Ok (mk_datetime local (dt_offset t))
  else Raise OverflowError.

(** [t.astimezone(UTC)] *)
Definition astimezone_utc (t : datetime) : res datetime :=
  if in_range (instant t) then Ok (mk_datetime (instant t) (Some 0)) else Raise OverflowError.

(** ** Writing *)

Definition pad (width : nat) (n : Z) : string :=
  let s := pretty n in
  String.concat "" (repeat "0" (width - String.length s)) +:+ s.

Definition date_isoformat (day : Z) : string :=
  let '(y, m, d) := ord2ymd day in pad 4 y +:+ "-" +:+ pad 2 m +:+ "-" +:+ pad 2 d.

Definition clock (us : Z) : string :=
  let seconds := us / 1000000 in
  pad 2 (seconds / 3600) +:+ ":" +:+ pad 2 (seconds / 60 mod 60) +:+ ":" +:+ pad 2 (seconds mod 60).

(** [strftime("%Y-%m-%d %H:%M:%S")], of the local reading; [%Y] of the C library
    does not pad *)
Definition strftime_seconds (t : datetime) : string :=
  let '(y, m, d) := ord2ymd (dt_local t / day_us) in
  pretty y +:+ "-" +:+ pad 2 m +:+ "-" +:+ pad 2 d +:+ " " +:+ clock (dt_local t mod day_us).

(** [isoformat()] of a datetime in UTC *)
Definition isoformat_utc (t : datetime) : string :=
  let us := dt_local t mod 1000000 in
  date_isoformat (dt_local t / day_us) +:+ "T" +:+ clock (dt_local t mod day_us)
  +:+ (if us =? 0 then "" else "." +:+ pad 6 us) +:+ "+00:00".

(** [isoformat(timespec="microseconds")] of a datetime in UTC *)
Definition isoformat_utc_us (t : datetime) : string :=
  date_isoformat (dt_local t / day_us) +:+ "T" +:+ clock (dt_local t mod day_us)
  +:+ "." +:+ pad 6 (dt_local t mod 1000000) +:+ "+00:00".

Example fromisoformat_examples :
  fromisoformat "2026-03-01T10:20:30.5+02:00" =
    Some (mk_datetime (ymd2ord 2026 3 1 * day_us + 37230500000) (Some 7200000000)) /\
  fromisoformat "20260301" = Some (mk_datetime (ymd2ord 2026 3 1 * day_us) None) /\
  fromisoformat "2026-W09-7 1020" = Some (mk_datetime (ymd2ord 2026 3 1 * day_us + 37200000000) None) /\
  fromisoformat "2026-02-29" = None /\ fromisoformat "2024-02-29T24:00" = None.
Proof. by vm_compute. Qed.

Example isoformat_examples :
  (isoformat_utc <$> fromisoformat "2026-03-01T10:20:30.5+00:00") = Some "2026-03-01T10:20:30.500000+00:00" /\
  (strftime_seconds <$> fromisoformat "2024-12-31T23:59:59") = Some "2024-12-31 23:59:59" /\
  map ord2ymd [1; 365; 366; 730485; 730486; 146097; 146098] =
    [(1, 1, 1); (1, 12, 31); (2, 1, 1); (2000, 12, 31); (2001, 1, 1); (400, 12, 31); (401, 1, 1)].
Proof. by vm_compute. Qed.
