(* ===== verification/Staffing.v ===== *)
(** * Staffing approval stages (storage/policy_engine.py, [_can_staff])

    No person decides two stages of one subject, so a stage list can be
    decided only if its stages can be matched to distinct eligible people.
    [_can_staff] searches for such a matching with augmenting paths.  This
    file models the search with its two shared mutable collections ([assigned]
    and [seen]) threaded explicitly, and proves that it terminates and decides
    exactly the existence of a matching. *)

From stdpp Require Import base list strings gmap sets.
From Stdlib Require Import Lia.
From S2P Require Import Prelude.

Section Search.
Context (roles : list string) (eligible : gmap string (gset string)).

(** [eligible.get(roles[stage], set())] *)
Definition stage_people (stage : nat) : gset string :=
  default ∅ (roles !! stage ≫= (eligible !!.)).

(** the [for] loop of [place]: [retry] is the recursive call that looks for
    somebody else for the stage a person already holds *)
Fixpoint try_people (retry : nat -> gset string -> option (bool * gset string * gmap string nat))
    (stage : nat) (assigned : gmap string nat) (people : list string) (seen : gset string)
    : option (bool * gset string * gmap string nat) :=
  match people with
  | [] => Some (false, seen, assigned)
  | person :: rest =>
      if decide (person ∈ seen) then try_people retry stage assigned rest seen
      else
        let seen := {[person]} ∪ seen in
        match assigned !! person with
        | None => Some (true, seen, <[person := stage]> assigned)
        | Some other =>
            match retry other seen with
            | None => None
            | Some (true, seen', assigned') => Some (true, seen', <[person := stage]> assigned')
            | Some (false, seen', assigned') => try_people retry stage assigned' rest seen'
            end
        end
  end.

(** one [place(stage, seen)] call: [None] only when the fuel runs out *)
Fixpoint place (fuel stage : nat) (seen : gset string) (assigned : gmap string nat)
    : option (bool * gset string * gmap string nat) :=
  match fuel with
  | O => None
  | S fuel' =>
      try_people (fun other seen' => place fuel' other seen' assigned) stage assigned
        (sorted_set (elements (stage_people stage))) seen
  end.

(** [all(place(stage, set()) for stage in range(len(roles)))], with the
    generator's short circuit *)
Fixpoint place_all (fuel : nat) (stages : list nat) (assigned : gmap string nat)
    : option bool :=
  match stages with
  | [] => Some true
  | stage :: rest =>
      match place fuel stage ∅ assigned with
      | None => None
      | Some (false, _, _) => Some false
      | Some (true, _, assigned') => place_all fuel rest assigned'
      end
  end.

End Search.

(** [_can_staff(roles, eligible)]; the fuel bounds the length of an augmenting
    path, which visits each assigned person at most once *)
Definition can_staff (roles : list string) (eligible : gmap string (gset string)) : option bool :=
  place_all roles eligible (S (length roles)) (seq 0 (length roles)) ∅.

(** the specification: distinct people, one eligible for each stage *)
Definition staffable (roles : list string) (eligible : gmap string (gset string)) : Prop :=
  exists people : list string,
    NoDup people /\
    Forall2 (fun role person => person ∈ default ∅ (eligible !! role)) roles people.

Section Correct.
Context (roles : list string) (eligible : gmap string (gset string)).
Local Notation people := (stage_people roles eligible).

(** a partial matching of people to stages *)
Definition matching (M : gmap string nat) : Prop :=
  (forall p s, M !! p = Some s -> p ∈ people s) /\
  (forall p q s, M !! p = Some s -> M !! q = Some s -> p = q).

Definition covers (M : gmap string nat) (s : nat) : Prop := exists p, M !! p = Some s.

(** what a successful search for [stage] does to the matching *)
Record augments (stage : nat) (seen : gset string) (M M' : gmap string nat) : Prop := {
  aug_new : exists p0, p0 ∉ seen /\ M' !! p0 = Some stage /\
              forall p, M' !! p = Some stage -> p = p0 \/ M !! p = Some stage;
  aug_seen : forall p, p ∈ seen -> M' !! p = M !! p;
  aug_elig : forall p s, M' !! p = Some s -> p ∈ people s;
  aug_inj : forall p q t, t <> stage -> M' !! p = Some t -> M' !! q = Some t -> p = q;
  aug_cover : forall t, covers M t -> covers M' t;
  aug_range : forall t, covers M' t -> covers M t \/ t = stage
}.

(** what a failed search for [stage] found: a set of people, all assigned,
    that contains everyone eligible for [stage] and for each of their stages *)
Record exhausted (stage : nat) (seen seen' : gset string) (M : gmap string nat) : Prop := {
  exh_mono : seen ⊆ seen';
  exh_stage : people stage ⊆ seen';
  exh_closed : forall p, p ∈ seen' -> p ∉ seen -> exists s, M !! p = Some s /\ people s ⊆ seen'
}.

(** taking [person] for [stage] after their own stage [other] found somebody else *)
Lemma augments_step stage other person seen M M1 :
  matching M -> M !! person = Some other -> person ∉ seen ->
  person ∈ people stage ->
  (forall q, M !! q = Some stage -> q ∈ seen) ->
  augments other ({[person]} ∪ seen) M M1 ->
  augments stage seen M (<[person := stage]> M1).
Proof.
  intros [_ Hinj] Hp Hns Hel Hst [(p1 & Hp1 & Hnew & Huniq) Hseen Helig Hinj1 Hcov Hrange].
  assert (Hos : other <> stage) by (intros ->; set_solver).
  assert (Hpp1 : p1 <> person) by set_solver.
  assert (Hkeep : M1 !! person = Some other) by (rewrite Hseen by set_solver; done).
  split.
  - exists person. split; [done|]. split; [by rewrite lookup_insert_eq|].
    intros p Hpm. destruct (decide (p = person)) as [->|Hne]; [by left|right].
    rewrite lookup_insert_ne in Hpm by done.
    destruct (Hrange stage) as [[q Hq]|]; [by exists p| |done].
    assert (M1 !! q = Some stage) by (rewrite Hseen by set_solver; done).
    by rewrite (Hinj1 p q stage).
  - intros p Hps. rewrite lookup_insert_ne by set_solver. apply Hseen; set_solver.
  - intros p s. rewrite lookup_insert_Some. intros [[<- <-]|[_ Hps]]; eauto.
  - intros p q t Ht. rewrite !lookup_insert_Some.
    intros [[_ Hc]|[Hnp Hp']] [[_ Hc']|[Hnq Hq']]; try congruence.
    destruct (decide (t = other)) as [->|Hto]; [|eauto].
    destruct (Huniq p Hp') as [->|Hm]; [|by destruct Hnp; eapply Hinj].
    destruct (Huniq q Hq') as [->|Hm]; [done|by destruct Hnq; eapply Hinj].
  - intros t Ht. destruct (Hcov t Ht) as [p' Hp'].
    destruct (decide (p' = person)) as [->|Hne].
    + exists p1. rewrite lookup_insert_ne by done. congruence.
    + exists p'. by rewrite lookup_insert_ne by done.
  - intros t [p Hpt]. apply lookup_insert_Some in Hpt as [[_ <-]|[_ Hpt]]; [by right|left].
    destruct (Hrange t) as [Hc| ->]; [by exists p|done|by exists person].
Qed.

(** an unassigned person ends the path *)
Lemma augments_free stage person seen M :
  matching M -> M !! person = None -> person ∉ seen -> person ∈ people stage ->
  augments stage seen M (<[person := stage]> M).
Proof.
  intros [He Hinj] Hp Hns Hel. split.
  - exists person. rewrite lookup_insert_eq. split_and!; [done..|].
    intros p. rewrite lookup_insert_Some. naive_solver.
  - intros p Hps. apply lookup_insert_ne. set_solver.
  - intros p s. rewrite lookup_insert_Some. naive_solver.
  - intros p q t Ht. rewrite !lookup_insert_Some. naive_solver.
  - intros t [p Hpt]. exists p. rewrite lookup_insert_ne by congruence. done.
  - intros t [p Hpt]. apply lookup_insert_Some in Hpt as [[_ <-]|[_ Hpt]]; [by right|].
    left. by exists p.
Qed.

(** the seen set bounds the search *)
Definition budget (M : gmap string nat) (seen : gset string) : nat := size (dom M ∖ seen).

Lemma budget_visit M seen person other :
  M !! person = Some other -> person ∉ seen ->
  budget M ({[person]} ∪ seen) < budget M seen.
Proof.
  intros Hp Hns. apply subset_size.
  assert (person ∈ dom M) by (by apply elem_of_dom).
  set_solver.
Qed.

Lemma budget_mono M seen seen' : seen ⊆ seen' -> budget M seen' <= budget M seen.
Proof. intros Hs. apply subseteq_size. set_solver. Qed.

Definition place_post (stage : nat) (seen : gset string) (M : gmap string nat)
    (r : bool * gset string * gmap string nat) : Prop :=
  match r with
  | (true, _, M') => augments stage seen M M'
  | (false, seen', M') => M' = M /\ exhausted stage seen seen' M
  end.

Lemma augments_weaken stage seen seen0 M M' :
  seen ⊆ seen0 -> augments stage seen0 M M' -> augments stage seen M M'.
Proof.
  intros Hs [(p0 & Hp0 & Hr) Hseen]. split; [|by auto|done..].
  exists p0. split; [|done]. by intros Hp%Hs.
Qed.

(** the loop invariant of [place]: [l] is still to be tried, everyone before
    it is in [seen0], and everyone [seen0] adds to [seen] is exhausted *)
Record scanning (stage : nat) (seen : gset string) (M : gmap string nat)
    (l : list string) (seen0 : gset string) : Prop := {
  sc_sub : forall p, p ∈ l -> p ∈ people stage;
  sc_mono : seen ⊆ seen0;
  sc_cov : forall p, p ∈ people stage -> p ∈ l \/ p ∈ seen0;
  sc_closed : forall p, p ∈ seen0 -> p ∉ seen -> exists s, M !! p = Some s /\ people s ⊆ seen0
}.

Lemma scanning_skip stage seen M person rest seen0 :
  person ∈ seen0 -> scanning stage seen M (person :: rest) seen0 ->
  scanning stage seen M rest seen0.
Proof.
  intros Hin [Hsub Hmono Hcov Hcl]. split; [|done| |done].
  - intros p Hp. apply Hsub. by right.
  - intros p Hp. destruct (Hcov p Hp) as [Hl|]; [|by right].
    apply elem_of_cons in Hl as [->|]; [by right|by left].
Qed.

Lemma scanning_failed stage seen M person other rest seen0 seen' :
  M !! person = Some other -> scanning stage seen M (person :: rest) seen0 ->
  exhausted other ({[person]} ∪ seen0) seen' M -> scanning stage seen M rest seen'.
Proof.
  intros Hp [Hsub Hmono Hcov Hcl] [Hm Ho Hc].
  apply union_subseteq in Hm as [Hperson%singleton_subseteq_l Hm]. split.
  - intros p Hpr. apply Hsub. by right.
  - by etrans.
  - intros p Hpp. destruct (Hcov p Hpp) as [Hl|]; [|by auto].
    apply elem_of_cons in Hl as [->|]; auto.
  - intros p Hpp Hns. destruct (decide (p ∈ seen0)) as [H0|H0].
    { destruct (Hcl p H0 Hns) as (s & ? & ?). exists s. split; [done|by etrans]. }
    destruct (decide (p = person)) as [->|Hne]; [by exists other|].
    apply Hc; [done|]. by rewrite elem_of_union, elem_of_singleton; intros [|].
Qed.

Lemma scanning_done stage seen M seen0 :
  scanning stage seen M [] seen0 -> exhausted stage seen seen0 M.
Proof.
  intros [_ Hmono Hcov Hcl]. split; [done| |done].
  intros p Hp. destruct (Hcov p Hp) as [Hl|]; [|done]. by apply elem_of_nil in Hl.
Qed.

Lemma scanning_start stage seen M :
  scanning stage seen M (sorted_set (elements (people stage))) seen.
Proof.
  split; [|done| |done].
  - intros p. by rewrite elem_of_sorted_set, elem_of_elements.
  - intros p Hp. left. by rewrite elem_of_sorted_set, elem_of_elements.
Qed.

(** the search returns within its fuel and satisfies [place_post] *)
Lemma place_correct fuel : forall stage seen M,
  matching M -> budget M seen < fuel ->
  (forall q, M !! q = Some stage -> q ∈ seen) ->
  exists r, place roles eligible fuel stage seen M = Some r /\ place_post stage seen M r.
Proof.
  induction fuel as [|fuel IH]; intros stage seen M HM Hb Hst; [lia|]. cbn [place].
  pose proof (scanning_start stage seen M) as Hsc. revert Hsc.
  generalize (sorted_set (elements (people stage))) as l.
  assert (Hmono : seen ⊆ seen) by done. revert Hmono. generalize seen at 2 4 5 as seen0.
  intros seen0 _ l. revert seen0.
  induction l as [|person rest IHl]; intros seen0 Hsc; cbn [try_people].
  { eexists; split; [done|]. split; [done|]. by apply scanning_done. }
  destruct (decide (person ∈ seen0)) as [Hin|Hni].
  { apply IHl. by eapply scanning_skip. }
  pose proof (sc_mono _ _ _ _ _ Hsc) as Hmono.
  assert (Hel : person ∈ people stage) by (eapply sc_sub; [done|by left]).
  destruct (M !! person) as [other|] eqn:Hp.
  2: { eexists; split; [done|]. simpl. eapply augments_weaken; [done|]. by apply augments_free. }
  destruct (IH other ({[person]} ∪ seen0) M HM) as (r & -> & Hr).
  { pose proof (budget_visit _ _ _ _ Hp Hni). pose proof (budget_mono M _ _ Hmono). lia. }
  { intros q Hq. destruct HM as [_ Hinj]. rewrite (Hinj q person other) by done. set_solver. }
  destruct r as [[[] seen'] M']; simpl in Hr.
  - eexists; split; [done|]. simpl. eapply augments_weaken; [done|].
    eapply augments_step; [done..|by auto|done].
  - destruct Hr as [-> Hex]. apply IHl. by eapply scanning_failed.
Qed.

(** a matching uses at most as many people as there are stages below [k] *)
Lemma matching_size M k :
  matching M -> (forall p s, M !! p = Some s -> s < k) -> size (dom M) <= k.
Proof.
  intros [_ Hinj] Hk. rewrite size_dom. rewrite <-length_map_to_list, <-(length_fmap snd).
  rewrite <-(length_seq k 0). apply submseteq_length, NoDup_submseteq.
  - apply NoDup_fmap_2_strong; [|apply NoDup_map_to_list].
    intros [p s] [q t] Hp Hq. simpl. intros ->.
    apply elem_of_map_to_list in Hp, Hq. f_equal. by eapply Hinj.
  - intros s Hs. apply list_elem_of_fmap in Hs as ([p t] & -> & Hp).
    apply elem_of_map_to_list in Hp. apply elem_of_seq. simpl. apply Hk in Hp. lia.
Qed.

(** Hall's condition: an exhausted search is a set of stages with one person
    too few, so no staffing exists *)
Lemma exhausted_unstaffable stage seen' M :
  matching M -> ~ covers M stage -> stage < length roles ->
  (forall p s, M !! p = Some s -> s < length roles) ->
  exhausted stage ∅ seen' M -> ~ staffable roles eligible.
Proof.
  intros [_ Hinj] Hfree Hlt Hrange [_ Hstage Hclosed] (ps & Hnd & Hall).
  set (T := stage :: map (fun p => default 0 (M !! p)) (elements seen')).
  assert (HT : forall t, t ∈ T -> t < length roles /\ people t ⊆ seen').
  { intros t Ht. apply elem_of_cons in Ht as [->|Ht]; [done|].
    apply list_elem_of_fmap in Ht as (p & -> & Hp%elem_of_elements).
    destruct (Hclosed p Hp) as (s & Hs & ?); [set_solver|]. rewrite Hs. simpl. eauto. }
  assert (HTnd : NoDup T).
  { constructor.
    - intros (p & Hps & Hp%elem_of_elements)%list_elem_of_fmap. apply Hfree. exists p.
      destruct (Hclosed p Hp) as (s & Hs & _); [set_solver|]. by rewrite Hs in Hps |- *; simpl in Hps; subst.
    - apply NoDup_fmap_2_strong; [|apply NoDup_elements].
      intros p q Hp%elem_of_elements Hq%elem_of_elements.
      destruct (Hclosed p Hp) as (s & Hs & _); [set_solver|].
      destruct (Hclosed q Hq) as (t & Ht & _); [set_solver|].
      rewrite Hs, Ht. simpl. intros ->. by eapply Hinj. }
  assert (Hpick : forall t, t ∈ T -> exists q, ps !! t = Some q /\ q ∈ seen').
  { intros t (Hl & Hsub)%HT. destruct (lookup_lt_is_Some_2 _ _ Hl) as [r Hr].
    destruct (Forall2_lookup_l _ _ _ _ _ Hall Hr) as (q & Hq & Hel).
    exists q. split; [done|]. apply Hsub. unfold stage_people. by rewrite Hr. }
  assert (length (map (fun t => default EmptyString (ps !! t)) T) <= length (elements seen')) as Hlen.
  { apply submseteq_length, NoDup_submseteq.
    - apply NoDup_fmap_2_strong; [|done]. intros t u Ht Hu.
      destruct (Hpick t Ht) as (q & Hq & _), (Hpick u Hu) as (q' & Hq' & _).
      rewrite Hq, Hq'. simpl. intros ->. exact (NoDup_lookup _ _ _ _ Hnd Hq Hq').
    - intros q Hq. apply list_elem_of_fmap in Hq as (t & -> & Ht).
      destruct (Hpick t Ht) as (q & Hq & ?). rewrite Hq. simpl. by apply elem_of_elements. }
  unfold T in Hlen. rewrite length_map in Hlen. simpl in Hlen. rewrite length_map in Hlen. lia.
Qed.

(** reading a total matching off as a list of people *)
Lemma pick_people (n : nat) (P : nat -> string -> Prop) :
  (forall s, s < n -> exists p, P s p) ->
  exists ps, length ps = n /\ forall s p, ps !! s = Some p -> P s p.
Proof.
  induction n as [|n IH]; intros H; [by exists []|].
  destruct IH as (ps & Hl & Hps); [by auto|]. destruct (H n) as [p Hp]; [lia|].
  exists (ps ++ [p]). split; [rewrite length_app; simpl; lia|].
  intros s q [Hq|[Hs Hq]]%lookup_app_Some; [by apply Hps|].
  apply list_lookup_singleton_Some in Hq as [Hz <-]. by replace s with n by lia.
Qed.

Lemma total_matching_staffable M :
  matching M -> (forall s, s < length roles -> covers M s) -> staffable roles eligible.
Proof.
  intros [Hel _] Hcov.
  destruct (pick_people (length roles) (fun s p => M !! p = Some s)) as (ps & Hl & Hps); [done|].
  exists ps. split.
  - apply NoDup_alt. intros i j p Hi%Hps Hj%Hps. congruence.
  - apply Forall2_same_length_lookup. split; [done|]. intros s role p Hr Hp%Hps%Hel.
    unfold stage_people in Hp. by rewrite Hr in Hp.
Qed.

Lemma augments_matching stage M M' :
  matching M -> ~ covers M stage -> augments stage ∅ M M' -> matching M'.
Proof.
  intros HM Hfree [(p0 & _ & Hp0 & Hu) _ Hel Hinj Hcov Hr]. split; [done|].
  intros p q s Hp Hq. destruct (decide (s = stage)) as [->|]; [|by eapply Hinj].
  destruct (Hu p Hp) as [->|Hc], (Hu q Hq) as [->|Hc']; [done|..];
    destruct Hfree; eexists; done.
Qed.

(** the outer loop: after the stages below [k] are placed, [M] covers exactly
    them *)
Lemma place_all_correct m : forall k M,
  k + m = length roles -> matching M ->
  (forall s, covers M s <-> s < k) ->
  exists b, place_all roles eligible (S (length roles)) (seq k m) M = Some b /\
    (b = true <-> staffable roles eligible).
Proof.
  induction m as [|m IH]; intros k M Hk HM Hcov; cbn [seq place_all].
  { exists true. split; [done|]. split; [|done]. intros _.
    apply (total_matching_staffable M); [done|]. intros s Hs. apply Hcov. lia. }
  assert (Hfree : ~ covers M k) by (rewrite Hcov; lia).
  destruct (place_correct (S (length roles)) k ∅ M) as (r & -> & Hr); [done|..].
  { unfold budget. pose proof (matching_size M k HM) as Hs.
    assert (size (dom M ∖ ∅) <= size (dom M)) by (apply subseteq_size; set_solver).
    assert (size (dom M) <= k) by (apply Hs; intros p s Hp; apply Hcov; by exists p). lia. }
  { intros q Hq. destruct Hfree. by exists q. }
  destruct r as [[[] seen'] M']; simpl in Hr.
  - apply IH; [lia|by eapply augments_matching|]. intros s. destruct Hr as [(p0 & _ & Hp0 & _) _ _ _ Hc Hrg].
    split.
    + intros [Hs%Hcov| ->]%Hrg; lia.
    + intros Hs. destruct (decide (s = k)) as [->|]; [by exists p0|]. apply Hc, Hcov. lia.
  - destruct Hr as [-> Hex]. exists false. split; [done|]. split; [done|]. intros Hst. exfalso.
    revert Hst. eapply exhausted_unstaffable; [done..|lia| |done].
    intros p s Hp. enough (s < k) by lia. apply Hcov. by exists p.
Qed.

End Correct.

(** C6. The staffing check always terminates with an answer, and the answer is
    yes exactly when distinct eligible people can be found for all the stages:
    a policy version is refused only when the organization really cannot
    decide it. *)
Theorem can_staff_correct (roles : list string) (eligible : gmap string (gset string)) :
  exists b, can_staff roles eligible = Some b /\ (b = true <-> staffable roles eligible).
Proof.
  apply place_all_correct; [done| |].
  - split; intros *; by rewrite lookup_empty.
  - intros s. split; [intros [p Hp]; by rewrite lookup_empty in Hp|lia].
Qed.

(** two stages of one role need two people; the augmenting path moves the only
    generalist to the stage nobody else can take *)
Example can_staff_examples :
  let e := <["r" := {["ann"; "bob"]}]> (<["s" := {["ann"]}]> ∅) in
  can_staff ["r"; "s"] e = Some true /\ can_staff ["r"; "s"; "r"] e = Some false.
Proof. by vm_compute. Qed.

