(* ===== verification/RiskTier.v ===== *)
(** * Risk tiers (storage/intake.py)

    The tier of an AI use case from its declared attributes, and the facts the
    review policy relies on: every tier is one the policy document can name,
    and declaring more sensitive data, more autonomy or an effect on
    individuals never lowers the tier. *)

From stdpp Require Import base list strings.
From Stdlib Require Import Lia.
From S2P Require Import Prelude.

Definition DATA_SENSITIVITY_LEVELS : list string :=
  ["public"; "internal"; "confidential"; "restricted"].
Definition AUTONOMY_LEVELS : list string := ["assistive"; "supervised"; "autonomous"].
Definition RISK_TIERS : list string := ["limited"; "elevated"; "high"].

(** [list.index]: position of the first equal element *)
Fixpoint index_of (value : string) (levels : list string) : option nat :=
  match levels with
  | [] => None
  | x :: rest => if String.eqb x value then Some 0
      else match index_of value rest with Some i => Some (S i) | None => None end
  end.

(** an unknown level counts as the lowest: [ValueError] is caught *)
Definition _level_index (levels : list string) (value : string) : nat :=
  default 0 (index_of value levels).

Definition compute_risk_tier (data_sensitivity autonomy_level : string)
    (affects_individuals : bool) : string :=
  let sensitivity_score := _level_index DATA_SENSITIVITY_LEVELS data_sensitivity in
  let autonomy_score := _level_index AUTONOMY_LEVELS autonomy_level in
  let score := sensitivity_score + autonomy_score + (if affects_individuals then 1 else 0) in
  if String.eqb data_sensitivity "restricted" || (4 <=? score) then "high"
  else if 2 <=? score then "elevated"
  else "limited".

(** position of a tier in [RISK_TIERS] *)
Definition tier_rank (tier : string) : nat := _level_index RISK_TIERS tier.

Lemma compute_risk_tier_known ds al ai : compute_risk_tier ds al ai ∈ RISK_TIERS.
Proof.
  unfold compute_risk_tier, RISK_TIERS.
  destruct (_ || _); [|destruct (2 <=? _)]; repeat constructor.
Qed.

(** the highest level is "restricted", and only it has index 3 *)
Lemma level_index_restricted ds :
  _level_index DATA_SENSITIVITY_LEVELS ds <= 3 /\
  (_level_index DATA_SENSITIVITY_LEVELS ds = 3 <-> ds = "restricted").
Proof.
  unfold _level_index, DATA_SENSITIVITY_LEVELS. cbn [index_of].
  destruct (String.eqb_spec "public" ds) as [<-|]; [cbn; split; [lia|done]|].
  destruct (String.eqb_spec "internal" ds) as [<-|]; [cbn; split; [lia|done]|].
  destruct (String.eqb_spec "confidential" ds) as [<-|]; [cbn; split; [lia|done]|].
  destruct (String.eqb_spec "restricted" ds) as [<-|]; [cbn; split; [lia|done]|].
  cbn. split; [lia|]. split; [lia|congruence].
Qed.

(** the tier is a monotone function of the two level indexes and the flag *)
Lemma compute_risk_tier_rank ds al ai :
  tier_rank (compute_risk_tier ds al ai) =
  let s := _level_index DATA_SENSITIVITY_LEVELS ds in
  let score := s + _level_index AUTONOMY_LEVELS al + (if ai then 1 else 0) in
  if (3 <=? s) || (4 <=? score) then 2 else if 2 <=? score then 1 else 0.
Proof.
  unfold compute_risk_tier. destruct (level_index_restricted ds) as [Hle Hr].
  assert (String.eqb ds "restricted" = (3 <=? _level_index DATA_SENSITIVITY_LEVELS ds)) as ->.
  { destruct (String.eqb_spec ds "restricted") as [E|E].
    - symmetry. apply Nat.leb_le. apply Hr in E. lia.
    - symmetry. apply Nat.leb_gt. assert (~ _level_index DATA_SENSITIVITY_LEVELS ds = 3) by tauto. lia. }
  cbn zeta. destruct (_ || _); [done|]. by destruct (2 <=? _).
Qed.

(** A declaration that is at least as sensitive, at least as autonomous and at
    least as close to individuals never gets a lower risk tier, and the tier is
    always one of the three the governance policy defines stages for. *)
Theorem compute_risk_tier_monotone ds ds' al al' ai ai' :
  _level_index DATA_SENSITIVITY_LEVELS ds <= _level_index DATA_SENSITIVITY_LEVELS ds' ->
  _level_index AUTONOMY_LEVELS al <= _level_index AUTONOMY_LEVELS al' ->
  (ai = true -> ai' = true) ->
  tier_rank (compute_risk_tier ds al ai) <= tier_rank (compute_risk_tier ds' al' ai') /\
  compute_risk_tier ds al ai ∈ RISK_TIERS.
Proof.
  intros Hd Ha Hi. split; [|apply compute_risk_tier_known].
  rewrite !compute_risk_tier_rank. cbn zeta.
  assert ((if ai then 1 else 0) <= (if ai' then 1 else 0)).
  { destruct ai, ai'; first [lia|discriminate (Hi eq_refl)]. }
  repeat match goal with
  | |- context [(?a <=? ?b)] => destruct (Nat.leb_spec a b)
  end; simpl; lia.
Qed.

Lemma compute_risk_tier_monotone_witness :
  tier_rank (compute_risk_tier "internal" "supervised" false)
    <= tier_rank (compute_risk_tier "restricted" "autonomous" true) /\
  compute_risk_tier "internal" "supervised" false ∈ RISK_TIERS.
Proof. apply compute_risk_tier_monotone; vm_compute; [lia|lia|done]. Defined.
