(* ===== verification/PolicyDoc.v ===== *)
(** * Governance policy documents (storage/policy_engine.py)

    A policy document is a JSON value.  This file models its validation, the
    functions that read an entry out of a document, the comparison that tells
    whether a new document is less strict than an old one, the human-readable
    difference, and the check of submitted intake fields.  Python's dynamic
    behaviour is kept: a value of the wrong type raises what the interpreter
    raises.  [grants] is the role table as [_decision_capable_roles] reads it. *)

From stdpp Require Import base list strings option pretty sets gmap.
From Stdlib Require Import ZArith QArith Ascii Lia.
From S2P Require Import Prelude Py RiskTier.


Open Scope nat_scope.

Notation grants := (gmap string (gset string)).

(** ** Constants *)

Definition POLICY_SCHEMA := "governance-policy/v1".
Definition RECERTIFY_DAYS_FLOOR : Z := 30.
Definition RECERTIFY_DAYS_CEILING : Z := 3650.
Definition MAX_STAGES_PER_SUBJECT : nat := 10.
Definition MAX_INTAKE_FIELDS : nat := 20.
Definition MAX_FIELD_LENGTH_CAP : Z := 4000.
Definition MAX_LABEL_LENGTH : nat := 120.
Definition MAX_FIELD_LABEL_LENGTH : nat := 200.
Definition MATERIAL_CHANGE_CEILING : Z := 0.
Definition DEFAULT_COVERAGE_WINDOW_DAYS : Z := 7.
Definition DEFAULT_STALE_AFTER_DAYS : Z := 30.
Definition COVERAGE_WINDOW_DAYS_CEILING : Z := 30.
Definition STALE_AFTER_DAYS_CEILING : Z := 90.
Definition _STAGE_DECISION_PERMISSION := "review.decide".
Definition _FIELD_TYPES : list string := ["string"; "number"; "boolean"].
Definition _STAGE_MODES : list string := ["sequence"; "parallel"].

Definition single_reviewer : list pyval := [PDict [("role", PStr "governance_reviewer")]].

Definition DEFAULT_POLICY_BODY : pyval :=
  let tier := PDict [("stages", PList single_reviewer); ("mode", PStr "sequence")] in
  PDict [
    ("schema", PStr POLICY_SCHEMA);
    ("intake", PDict [
      ("tiers", PDict [("limited", tier); ("elevated", tier); ("high", tier)]);
      ("fields", PList [])]);
    ("gates", PDict [
      ("environments", PDict [
        ("*", PDict [("require_attested_evals", PBool false);
                     ("max_open_material_changes", PInt 0)])])]);
    ("vendors", PDict [("stages", PList single_reviewer); ("recertify_days", PInt 365)])].

(** ** Role table *)

(** [_decision_capable_roles]: role -> permission set, from the
    [role_permissions] rows *)
Definition _decision_capable_roles (rows : list (string * string)) : grants :=
  group_sets fst snd rows.

Definition list_decision_roles (rows : list (string * string)) : list string :=
  let g := _decision_capable_roles rows in
  sorted_set (map fst (filter (fun p => _STAGE_DECISION_PERMISSION ∈ snd p) (map_to_list g))).

(** ** Validation *)

(** [sorted(set(d) - known)] *)
Definition unknown_keys (d : list (string * pyval)) (known : list string) : list string :=
  sorted_set (filter (fun k => mem k known = false) (map fst d)).

Definition unknown_error (prefix : string) (d : list (string * pyval)) (known : list string)
    : list string :=
  match unknown_keys d known with
  | [] => []
  | u => [prefix +:+ join ", " u]
  end.

Definition err_if (b : bool) (msg : string) : list string := if b then [msg] else [].

(** [isinstance(v, str) and 0 or 1 <= len(v) <= cap] as the label checks use it *)
Definition label_ok (nonempty : bool) (cap : nat) (v : pyval) : bool :=
  match v with
  | PNone => true
  | PStr s => (String.length s <=? cap)%nat && negb (nonempty && is_empty s)
  | _ => false
  end.

Definition _validate_stage (loc : string) (g : grants) (index : nat) (stage : pyval)
    : list string :=
  let at_ := loc +:+ ": stage " +:+ pretty index in
  match stage with
  | PDict d =>
      unknown_error (at_ +:+ " has unknown keys: ") d ["role"; "label"] ++
      match default PNone (assoc "role" d) with
      | PStr role =>
          if is_empty role then [at_ +:+ " must name a role"]
          else match g !! role with
               | None => [at_ +:+ " references role '" +:+ role +:+ "', which does not exist"]
               | Some perms =>
                   err_if (negb (bool_decide (_STAGE_DECISION_PERMISSION ∈ perms)))
                     (at_ +:+ " role '" +:+ role +:+ "' does not hold " +:+ _STAGE_DECISION_PERMISSION)
               end
      | _ => [at_ +:+ " must name a role"]
      end ++
      err_if (negb (label_ok false MAX_LABEL_LENGTH (default PNone (assoc "label" d))))
        (at_ +:+ " label must be a string of at most " +:+ pretty MAX_LABEL_LENGTH +:+ " characters")
  | _ => [at_ +:+ " must be an object"]
  end.

Definition _validate_stages (stages : pyval) (loc : string) (g : grants) : list string :=
  match stages with
  | PList ((_ :: _) as l) =>
      if (MAX_STAGES_PER_SUBJECT <? length l)%nat
      then [loc +:+ ": at most " +:+ pretty MAX_STAGES_PER_SUBJECT +:+ " stages"]
      else concat (imap (_validate_stage loc g) l)
  | _ => [loc +:+ ": stages must be a non-empty list"]
  end.

(** [isinstance(v, int) and not isinstance(v, bool) and lo <= v <= hi] *)
Definition int_between (lo hi : Z) (v : pyval) : bool :=
  match v with PInt z => (lo <=? z)%Z && (z <=? hi)%Z | _ => false end.

Definition _validate_recertify_days (value : pyval) (loc : string) : list string :=
  err_if (negb (is_none value || int_between RECERTIFY_DAYS_FLOOR RECERTIFY_DAYS_CEILING value))
    (loc +:+ ": recertify_days must be an integer between " +:+ pretty RECERTIFY_DAYS_FLOOR
       +:+ " and " +:+ pretty RECERTIFY_DAYS_CEILING).

(** one iteration of the loop over [intake.tiers] *)
Definition _validate_tier (g : grants) (item : string * pyval) : res (list string) :=
  let (tier, entry) := item in
  let loc := "intake.tiers." +:+ tier in
  if negb (mem tier RISK_TIERS)
  then Ok [loc +:+ ": unknown risk tier (known tiers: " +:+ join ", " RISK_TIERS +:+ ")"]
  else
    match entry with
    | PDict d =>
        let! known_mode := in_str_set (default (PStr "sequence") (assoc "mode" d)) _STAGE_MODES in
        Ok (unknown_error (loc +:+ ": unknown keys: ") d ["stages"; "mode"; "recertify_days"]
            ++ _validate_stages (default PNone (assoc "stages" d)) loc g
            ++ err_if (negb known_mode) (loc +:+ ": mode must be one of ['parallel', 'sequence']")
            ++ _validate_recertify_days (default PNone (assoc "recertify_days" d)) loc)
    | _ => Ok [loc +:+ ": must be an object"]
    end.

Definition is_lower (c : ascii) : bool :=
  let n := N_of_ascii c in ((97 <=? n) && (n <=? 122))%N.
Definition is_key_char (c : ascii) : bool :=
  let n := N_of_ascii c in is_lower c || ((48 <=? n) && (n <=? 57))%N || (n =? 95)%N.

(** [[a-z0-9_]{0,n}$]: [$] also matches before a final newline *)
Fixpoint key_tail (n : nat) (s : string) : bool :=
  match s with
  | EmptyString => true
  | String c s' =>
      (is_empty s' && (N_of_ascii c =? 10)%N) ||
      match n with O => false | S n' => is_key_char c && key_tail n' s' end
  end.

(** [_FIELD_KEY_RE.match(key)] *)
Definition field_key_match (key : string) : bool :=
  match key with String c s => is_lower c && key_tail 63 s | EmptyString => false end.

Definition _FIELD_KEY_PATTERN := "^[a-z][a-z0-9_]{0,63}$".

(** the key check of one field: the keys accepted so far, and the errors *)
Definition check_field_key (loc : string) (seen : gset string) (key : pyval)
    : gset string * list string :=
  match key with
  | PStr key =>
      if negb (field_key_match key) then (seen, [loc +:+ ": key must match " +:+ _FIELD_KEY_PATTERN])
      else if bool_decide (key ∈ seen) then (seen, [loc +:+ ": duplicate key '" +:+ key +:+ "'"])
      else ({[key]} ∪ seen, [])
  | _ => (seen, [loc +:+ ": key must match " +:+ _FIELD_KEY_PATTERN])
  end.

(** [isinstance(v, list) and all(tier in RISK_TIERS for tier in v)] *)
Definition drawn_from_tiers (v : pyval) : bool :=
  match v with
  | PList l => forallb (fun t => py_in t (map PStr RISK_TIERS)) l
  | _ => false
  end.

(** one iteration of the loop over [intake.fields]: its index, the keys
    accepted so far and the errors are threaded *)
Definition _validate_field (acc : nat * gset string * list string) (field : pyval)
    : res (nat * gset string * list string) :=
  let '(index, seen, errors) := acc in
  let loc := "intake.fields[" +:+ pretty index +:+ "]" in
  match field with
  | PDict d =>
      let key := check_field_key loc seen (default PNone (assoc "key" d)) in
      let max_length := default PNone (assoc "max_length" d) in
      let! known_type := in_str_set (default (PStr "string") (assoc "type" d)) _FIELD_TYPES in
      Ok (S index, fst key,
          errors
          ++ unknown_error (loc +:+ ": unknown keys: ") d
               ["key"; "label"; "type"; "max_length"; "required_tiers"]
          ++ snd key
          ++ err_if (negb (label_ok true MAX_FIELD_LABEL_LENGTH (default PNone (assoc "label" d))))
               (loc +:+ ": label must be a string of at most " +:+ pretty MAX_FIELD_LABEL_LENGTH +:+ " characters")
          ++ err_if (negb known_type) (loc +:+ ": type must be one of ['boolean', 'number', 'string']")
          ++ err_if (negb (is_none max_length || int_between 1 MAX_FIELD_LENGTH_CAP max_length))
               (loc +:+ ": max_length must be an integer between 1 and " +:+ pretty MAX_FIELD_LENGTH_CAP)
          ++ err_if (negb (drawn_from_tiers (default (PList []) (assoc "required_tiers" d))))
               (loc +:+ ": required_tiers must be a list drawn from ['limited', 'elevated', 'high']"))
  | _ => Ok (S index, seen, errors ++ [loc +:+ ": must be an object"])
  end.

Definition _validate_fields (fields : pyval) : res (list string) :=
  match fields with
  | PList l =>
      if (MAX_INTAKE_FIELDS <? length l)%nat
      then Ok ["intake.fields: at most " +:+ pretty MAX_INTAKE_FIELDS +:+ " fields"]
      else let! r := rfold _validate_field (0, ∅, []) l in Ok (snd r)
  | _ => Ok ["intake.fields must be a list"]
  end.

Definition _validate_intake (intake : pyval) (g : grants) : res (list string) :=
  match intake with
  | PDict d =>
      let '(e_tiers, tiers) :=
        match default (PDict []) (assoc "tiers" d) with
        | PDict t => ([], t)
        | _ => (["intake.tiers must be an object"], [])
        end in
      let! e_entries := rmap (_validate_tier g) tiers in
      let! e_fields := _validate_fields (default (PList []) (assoc "fields" d)) in
      Ok (unknown_error "intake has unknown keys: " d ["tiers"; "fields"]
          ++ e_tiers ++ concat e_entries ++ e_fields)
  | _ => Ok ["intake must be an object"]
  end.

(** [not isinstance(v, bool) and isinstance(v, (int, float)) and 0 <= v <= 100] *)
Definition coverage_ok (v : pyval) : bool :=
  match v with
  | PInt z => (0 <=? z)%Z && (z <=? 100)%Z
  | PFloat f => float_leb (FFin 0) f && float_leb f (FFin 100)
  | _ => false
  end.

(** one iteration of the loop over [gates.environments] *)
Definition _validate_gate_entry (item : string * pyval) : list string :=
  let (environment, entry) := item in
  let loc := "gates.environments." +:+ environment in
  if is_empty environment || (100 <? String.length environment)%nat
  then ["gates.environments: environment names must be 1-100 characters"]
  else
    match entry with
    | PDict d =>
        unknown_error (loc +:+ ": unknown keys: ") d
          ["require_attested_evals"; "max_open_material_changes"; "min_control_coverage"]
        ++ err_if (negb (coverage_ok (default (PInt 0) (assoc "min_control_coverage" d))))
             (loc +:+ ": min_control_coverage must be a number between 0 and 100")
        ++ match default (PBool false) (assoc "require_attested_evals" d) with
           | PBool _ => []
           | _ => [loc +:+ ": require_attested_evals must be a boolean"]
           end
        ++ match default (PInt 0) (assoc "max_open_material_changes" d) with
           | PInt n =>
               if (n <? 0)%Z
               then [loc +:+ ": max_open_material_changes must be a non-negative integer"]
               else err_if (MATERIAL_CHANGE_CEILING <? n)%Z
                      (loc +:+ ": max_open_material_changes cannot exceed "
                         +:+ pretty MATERIAL_CHANGE_CEILING +:+ " (the platform floor)")
           | _ => [loc +:+ ": max_open_material_changes must be a non-negative integer"]
           end
    | _ => [loc +:+ ": must be an object"]
    end.

Definition _validate_gates (gates : pyval) : list string :=
  match gates with
  | PDict d =>
      unknown_error "gates has unknown keys: " d ["environments"]
      ++ match default (PDict []) (assoc "environments" d) with
         | PDict envs => concat (map _validate_gate_entry envs)
         | _ => ["gates.environments must be an object"]
         end
  | _ => ["gates must be an object"]
  end.

Definition evidence_error (d : list (string * pyval)) (key : string) (ceiling : Z) : list string :=
  let value := default PNone (assoc key d) in
  err_if (negb (is_none value || int_between 1 ceiling value))
    ("evidence." +:+ key +:+ " must be an integer between 1 and " +:+ pretty ceiling).

Definition _validate_evidence (evidence : pyval) : list string :=
  match evidence with
  | PDict d =>
      unknown_error "evidence has unknown keys: " d ["coverage_window_days"; "stale_after_days"]
      ++ evidence_error d "coverage_window_days" COVERAGE_WINDOW_DAYS_CEILING
      ++ evidence_error d "stale_after_days" STALE_AFTER_DAYS_CEILING
  | _ => ["evidence must be an object"]
  end.

Definition _validate_vendors (vendors : pyval) (g : grants) : list string :=
  match vendors with
  | PDict d =>
      unknown_error "vendors has unknown keys: " d ["stages"; "recertify_days"]
      ++ _validate_stages (default PNone (assoc "stages" d)) "vendors" g
      ++ _validate_recertify_days (default PNone (assoc "recertify_days" d)) "vendors"
  | _ => ["vendors must be an object"]
  end.

(** [if key in body: validate(body[key])] *)
Definition validate_section {A} (d : list (string * pyval)) (key : string)
    (validate : pyval -> A) (absent : A) : A :=
  match assoc key d with Some v => validate v | None => absent end.

Definition validate_policy_body (body : pyval) (g : grants) : res (list string) :=
  match body with
  | PDict d =>
      let! e_intake := validate_section d "intake" (fun v => _validate_intake v g) (Ok []) in
      Ok (err_if (negb (py_eqb (default PNone (assoc "schema" d)) (PStr POLICY_SCHEMA)))
            ("schema must be '" +:+ POLICY_SCHEMA +:+ "'")
          ++ unknown_error "unknown top-level keys: " d ["schema"; "intake"; "gates"; "vendors"; "evidence"]
          ++ e_intake
          ++ validate_section d "gates" _validate_gates []
          ++ validate_section d "vendors" (fun v => _validate_vendors v g) []
          ++ validate_section d "evidence" _validate_evidence [])
  | _ => Ok ["policy body must be a JSON object"]
  end.

(** ** Reading a document

    The entry of a document, with the platform default filling what the
    document leaves out. *)

(** [v.get(k) or {}] *)
Definition get_or_empty (v : pyval) (k : string) : res pyval :=
  let! x := py_get v k in Ok (py_or x (PDict [])).

(** the [for document in ...: entry = ...; if entry is not None: return entry] loops *)
Fixpoint first_entry (read : pyval -> res pyval) (documents : list pyval) : res (option pyval) :=
  match documents with
  | [] => Ok None
  | document :: rest =>
      let! entry := read document in
      if is_none entry then first_entry read rest else Ok (Some entry)
  end.

Definition _tier_entry (body default_body : pyval) (tier : string) : res pyval :=
  let! entry := first_entry (fun document =>
      let! intake := get_or_empty document "intake" in
      let! tiers := get_or_empty intake "tiers" in
      py_get tiers tier) [body; default_body] in
  Ok (default (PDict [("stages", PList single_reviewer)]) entry).

(** [DEFAULT_POLICY_BODY["vendors"]] *)
Definition DEFAULT_VENDORS : pyval :=
  PDict [("stages", PList single_reviewer); ("recertify_days", PInt 365)].

Definition _vendor_entry (body default_body : pyval) : res pyval :=
  let! entry := first_entry (fun document => py_get document "vendors") [body; default_body] in
  Ok (default DEFAULT_VENDORS entry).

(** [environments.get(environment)], else [environments.get("*")] *)
Definition environment_entry (environments : pyval) (environment : string) : res pyval :=
  let! entry := py_get environments environment in
  if is_none entry then py_get environments "*" else Ok entry.

Definition document_environments (document : pyval) : res pyval :=
  let! gates := get_or_empty document "gates" in
  get_or_empty gates "environments".

Definition _gate_entry (body default_body : pyval) (environment : string) : res pyval :=
  let! entry := first_entry (fun document =>
      let! environments := document_environments document in
      environment_entry environments environment) [body; default_body] in
  Ok (default (PDict []) entry).

(** [bool(entry.get("require_attested_evals", False))] *)
Definition entry_requires_attested (entry : pyval) : res bool :=
  let! v := py_get_default entry "require_attested_evals" (PBool false) in Ok (truthy v).

Section Host.
Context `{PyHost}.

(** [float(entry.get("min_control_coverage", 0) or 0)] *)
Definition entry_min_coverage (entry : pyval) : res pyfloat :=
  let! v := py_get_default entry "min_control_coverage" (PInt 0) in
  py_float (py_or v (PInt 0)).

Definition _requires_attested (body default_body : pyval) (environment : string) : res bool :=
  let! entry := _gate_entry body default_body environment in entry_requires_attested entry.

Definition _min_coverage (body default_body : pyval) (environment : string) : res pyfloat :=
  let! entry := _gate_entry body default_body environment in entry_min_coverage entry.

(** [list(v or [])] *)
Definition list_or_empty (v : pyval) : res (list pyval) := py_iter (py_or v (PList [])).

Definition _intake_fields (body default_body : pyval) : res (list pyval) :=
  let! intake := get_or_empty body "intake" in
  let! declared := py_has_key intake "fields" in
  if declared then let! v := py_get intake "fields" in list_or_empty v
  else
    let! intake := get_or_empty default_body "intake" in
    let! v := py_get intake "fields" in list_or_empty v.

(** one key of [_evidence_settings] *)
Definition evidence_setting (body default_body : pyval) (key : string) (shipped : Z) : res Z :=
  let! value := first_entry (fun document =>
      let! evidence := get_or_empty document "evidence" in py_get evidence key)
      [body; default_body] in
  match value with Some v => py_int v | None => Ok shipped end.

(** [_evidence_settings]: (coverage_window_days, stale_after_days) *)
Definition _evidence_settings (body default_body : pyval) : res (Z * Z) :=
  let! w := evidence_setting body default_body "coverage_window_days" DEFAULT_COVERAGE_WINDOW_DAYS in
  let! s := evidence_setting body default_body "stale_after_days" DEFAULT_STALE_AFTER_DAYS in
  Ok (w, s).

(** ** Stage lists *)

(** [[stage.get("role") for stage in entry.get("stages") or []]] *)
Definition entry_roles (entry : pyval) : res (list pyval) :=
  let! stages := py_get entry "stages" in
  let! l := list_or_empty stages in
  rmap (fun stage => py_get stage "role") l.

Definition _stage_roles (entry : pyval) : res (list string) :=
  let! roles := entry_roles entry in Ok (map py_str roles).

Definition _stage_sections (body default_body : pyval) : res (list (string * list string)) :=
  let! tiers := rmap (fun tier =>
      let! entry := _tier_entry body default_body tier in
      let! roles := _stage_roles entry in
      Ok ("intake.tiers." +:+ tier, roles)) RISK_TIERS in
  let! vendors := _vendor_entry body default_body in
  let! roles := _stage_roles vendors in
  Ok (tiers ++ [("vendors", roles)]).

(** ** Loosening *)

(** [remaining.remove(x)] after [x in remaining]: None when [x] is not there *)
Fixpoint list_remove (x : pyval) (l : list pyval) : option (list pyval) :=
  match l with
  | [] => None
  | y :: l' => if py_eqb y x then Some l' else (y ::.) <$> list_remove x l'
  end.

(** the loop of [_stages_loosened] *)
Fixpoint stages_gone (old remaining : list pyval) : bool :=
  match old with
  | [] => false
  | role :: rest =>
      match list_remove role remaining with
      | None => true
      | Some remaining' => stages_gone rest remaining'
      end
  end.

Definition _stages_loosened (old new : pyval) : res bool :=
  let! remaining := entry_roles new in
  let! before := entry_roles old in
  Ok (stages_gone before remaining).

(** [before is not None and (after is None or after > before)] *)
Definition _recertify_loosened (old new : pyval) : res bool :=
  let! before := py_get old "recertify_days" in
  let! after := py_get new "recertify_days" in
  if is_none before then Ok false
  else if is_none after then Ok true
  else py_gt after before.

(** [if await: reasons.append(msg)] *)
Definition reason_if (c : res bool) (msg : string) : res (list string) :=
  let! b := c in Ok (err_if b msg).

Definition tier_reasons (old_body new_body default_body : pyval) (tier : string)
    : res (list string) :=
  let! old := _tier_entry old_body default_body tier in
  let! new := _tier_entry new_body default_body tier in
  let! r1 := reason_if (_stages_loosened old new)
    ("intake.tiers." +:+ tier +:+ ": an approval stage is removed or its role replaced") in
  let! r2 := reason_if (_recertify_loosened old new)
    ("intake.tiers." +:+ tier +:+ ": recertification is less frequent or removed") in
  Ok (r1 ++ r2).

Definition vendor_reasons (old_body new_body default_body : pyval) : res (list string) :=
  let! old := _vendor_entry old_body default_body in
  let! new := _vendor_entry new_body default_body in
  let! r1 := reason_if (_stages_loosened old new)
    "vendors: an approval stage is removed or its role replaced" in
  let! r2 := reason_if (_recertify_loosened old new)
    "vendors: recertification is less frequent or removed" in
  Ok (r1 ++ r2).

(** the environments any of the documents names, and ["*"], sorted *)
Definition named_environments (documents : list pyval) : res (list string) :=
  let! names := rmap (fun document =>
      let! environments := document_environments document in
      match environments with PDict d => Ok (map fst d) | _ => Raise AttributeError end)
      documents in
  Ok (sorted_set ("*" :: concat names)).

Definition environment_reasons (old_body new_body default_body : pyval) (environment : string)
    : res (list string) :=
  let! before := _requires_attested old_body default_body environment in
  let! r1 := (if before
              then let! after := _requires_attested new_body default_body environment in
                   Ok (err_if (negb after) ("gates.environments." +:+ environment
                         +:+ ": attested evals are no longer required"))
              else Ok []) in
  let! after := _min_coverage new_body default_body environment in
  let! before := _min_coverage old_body default_body environment in
  Ok (r1 ++ err_if (float_ltb after before) ("gates.environments." +:+ environment
                      +:+ ": the minimum control coverage is lower")).

Definition evidence_reasons (old_body new_body default_body : pyval) : res (list string) :=
  let! old := _evidence_settings old_body default_body in
  let! new := _evidence_settings new_body default_body in
  Ok (err_if (snd old <? snd new)%Z "evidence: controls stay fresh longer before they are marked stale"
      ++ err_if (fst old <? fst new)%Z "evidence: coverage is measured over a longer window").

(** one insertion of [{field.get("key"): field for field in ...}] *)
Definition index_field (acc : list (pyval * pyval)) (field : pyval) : res (list (pyval * pyval)) :=
  let! key := py_get field "key" in
  if hashable key then Ok (pd_set key field acc) else Raise TypeError.

(** [field.get("required_tiers") or []] as an iterable *)
Definition required_tiers (field : pyval) : res (list pyval) :=
  let! v := py_get field "required_tiers" in list_or_empty v.

Definition field_reasons (new_fields : list (pyval * pyval)) (field : pyval) : res (list string) :=
  let! key := py_get field "key" in
  if negb (hashable key) then Raise TypeError
  else
    let replacement := pd_get key new_fields in
    if is_none replacement then Ok ["intake.fields." +:+ py_str key +:+ ": the field is removed"]
    else
      let! before := required_tiers field in
      let! after := required_tiers replacement in
      let! kept := py_subset before after in
      Ok (err_if (negb kept)
            ("intake.fields." +:+ py_str key +:+ ": the field is required for fewer tiers")).

Definition policy_loosening (old_body new_body default_body : pyval) : res (list string) :=
  let! tiers := rmap (tier_reasons old_body new_body default_body) RISK_TIERS in
  let! vendors := vendor_reasons old_body new_body default_body in
  let! environments := named_environments [old_body; new_body; default_body] in
  let! gates := rmap (environment_reasons old_body new_body default_body) environments in
  let! evidence := evidence_reasons old_body new_body default_body in
  let! fields := _intake_fields new_body default_body in
  let! new_fields := rfold index_field [] fields in
  let! old_fields := _intake_fields old_body default_body in
  let! fields := rmap (field_reasons new_fields) old_fields in
  Ok (concat tiers ++ vendors ++ concat gates ++ evidence ++ concat fields).

End Host.
