(* ===== verification/PolicyValid.v ===== *)
(** * What validation guarantees (storage/policy_engine.py)

    A declarative schema of the governance policy document and the proof that
    [validate_policy_body] returns no error exactly on the documents of that
    schema; then the facts every reader of a stored document uses. *)

From stdpp Require Import base list strings option pretty sets gmap.
From Stdlib Require Import ZArith QArith Ascii Lia.
From S2P Require Import Prelude Py RiskTier PolicyDoc.

Open Scope nat_scope.

(** ** The schema *)

(** [d.get(k, dflt)] for an object *)
Definition field (d : list (string * pyval)) (k : string) (dflt : pyval) : pyval :=
  default dflt (assoc k d).

Definition only_keys (d : list (string * pyval)) (known : list string) : Prop :=
  forall k, k ∈ map fst d -> k ∈ known.

Definition valid_label (nonempty : bool) (cap : nat) (v : pyval) : Prop :=
  v = PNone \/ exists s, v = PStr s /\ String.length s <= cap /\ (nonempty = true -> s <> EmptyString).

Definition decision_role (g : grants) (role : string) : Prop :=
  exists perms, g !! role = Some perms /\ _STAGE_DECISION_PERMISSION ∈ perms.

Definition valid_stage (g : grants) (stage : pyval) : Prop :=
  exists d role, stage = PDict d /\ only_keys d ["role"; "label"] /\
    assoc "role" d = Some (PStr role) /\ role <> EmptyString /\ decision_role g role /\
    valid_label false MAX_LABEL_LENGTH (field d "label" PNone).

Definition valid_stages (g : grants) (v : pyval) : Prop :=
  exists l, v = PList l /\ 1 <= length l <= MAX_STAGES_PER_SUBJECT /\ Forall (valid_stage g) l.

Definition int_in (lo hi : Z) (v : pyval) : Prop := exists z, v = PInt z /\ (lo <= z <= hi)%Z.

Definition valid_recertify_days (v : pyval) : Prop :=
  v = PNone \/ int_in RECERTIFY_DAYS_FLOOR RECERTIFY_DAYS_CEILING v.

Definition valid_tier (g : grants) (item : string * pyval) : Prop :=
  fst item ∈ RISK_TIERS /\ exists d, snd item = PDict d /\
    only_keys d ["stages"; "mode"; "recertify_days"] /\
    valid_stages g (field d "stages" PNone) /\
    (exists mode, field d "mode" (PStr "sequence") = PStr mode /\ mode ∈ _STAGE_MODES) /\
    valid_recertify_days (field d "recertify_days" PNone).

Definition valid_field (v : pyval) : Prop :=
  exists d key, v = PDict d /\
    only_keys d ["key"; "label"; "type"; "max_length"; "required_tiers"] /\
    assoc "key" d = Some (PStr key) /\ field_key_match key = true /\
    valid_label true MAX_FIELD_LABEL_LENGTH (field d "label" PNone) /\
    (exists t, field d "type" (PStr "string") = PStr t /\ t ∈ _FIELD_TYPES) /\
    (field d "max_length" PNone = PNone \/ int_in 1 MAX_FIELD_LENGTH_CAP (field d "max_length" PNone)) /\
    (exists ts, field d "required_tiers" (PList []) = PList (map PStr ts) /\ ts ⊆ RISK_TIERS).

Definition field_key (v : pyval) : pyval :=
  match v with PDict d => field d "key" PNone | _ => PNone end.

Definition valid_fields (v : pyval) : Prop :=
  exists l, v = PList l /\ length l <= MAX_INTAKE_FIELDS /\ Forall valid_field l /\
    NoDup (map field_key l).

Definition valid_intake (g : grants) (v : pyval) : Prop :=
  exists d, v = PDict d /\ only_keys d ["tiers"; "fields"] /\
    (exists tiers, field d "tiers" (PDict []) = PDict tiers /\ Forall (valid_tier g) tiers) /\
    valid_fields (field d "fields" (PList [])).

Definition coverage_value (v : pyval) : Prop :=
  int_in 0 100 v \/ exists q, v = PFloat (FFin q) /\ (0 <= q <= 100)%Q.

Definition valid_gate_entry (item : string * pyval) : Prop :=
  1 <= String.length (fst item) <= 100 /\ exists d, snd item = PDict d /\
    only_keys d ["require_attested_evals"; "max_open_material_changes"; "min_control_coverage"] /\
    coverage_value (field d "min_control_coverage" (PInt 0)) /\
    (exists b, field d "require_attested_evals" (PBool false) = PBool b) /\
    field d "max_open_material_changes" (PInt 0) = PInt 0.

Definition valid_gates (v : pyval) : Prop :=
  exists d, v = PDict d /\ only_keys d ["environments"] /\
    exists envs, field d "environments" (PDict []) = PDict envs /\ Forall valid_gate_entry envs.

Definition valid_vendors (g : grants) (v : pyval) : Prop :=
  exists d, v = PDict d /\ only_keys d ["stages"; "recertify_days"] /\
    valid_stages g (field d "stages" PNone) /\ valid_recertify_days (field d "recertify_days" PNone).

Definition valid_evidence (v : pyval) : Prop :=
  exists d, v = PDict d /\ only_keys d ["coverage_window_days"; "stale_after_days"] /\
    (field d "coverage_window_days" PNone = PNone \/
     int_in 1 COVERAGE_WINDOW_DAYS_CEILING (field d "coverage_window_days" PNone)) /\
    (field d "stale_after_days" PNone = PNone \/
     int_in 1 STALE_AFTER_DAYS_CEILING (field d "stale_after_days" PNone)).

Definition valid_policy (g : grants) (body : pyval) : Prop :=
  exists d, body = PDict d /\
    field d "schema" PNone = PStr POLICY_SCHEMA /\
    only_keys d ["schema"; "intake"; "gates"; "vendors"; "evidence"] /\
    (forall v, assoc "intake" d = Some v -> valid_intake g v) /\
    (forall v, assoc "gates" d = Some v -> valid_gates v) /\
    (forall v, assoc "vendors" d = Some v -> valid_vendors g v) /\
    (forall v, assoc "evidence" d = Some v -> valid_evidence v).

(** ** The validator accepts exactly the schema *)

Lemma err_if_nil b msg : err_if b msg = [] <-> b = false.
Proof. by destruct b. Qed.

Lemma app_nil_iff {A} (l m : list A) : l ++ m = [] <-> l = [] /\ m = [].
Proof. apply app_nil. Qed.

Lemma concat_nil_iff {A} (ls : list (list A)) : concat ls = [] <-> Forall (fun l => l = []) ls.
Proof.
  induction ls as [|l ls IH]; simpl; [by split|].
  rewrite app_nil_iff, IH, Forall_cons. done.
Qed.

Lemma unknown_error_nil prefix d known :
  unknown_error prefix d known = [] <-> only_keys d known.
Proof.
  unfold unknown_error, only_keys.
  assert (unknown_keys d known = [] <-> (forall k, k ∈ map fst d -> k ∈ known)) as <-.
  2: { by destruct (unknown_keys d known). }
  unfold unknown_keys. rewrite sorted_set_nil. split.
  - intros Hf k Hk. destruct (mem k known) eqn:E; [by apply mem_true|].
    by destruct (list.filter_nil_not_elem_of _ _ k Hf E).
  - intros Hall. apply elem_of_nil_inv. intros k (Hm & Hk)%list_elem_of_filter.
    apply mem_false in Hm. auto.
Qed.

Lemma label_ok_spec nonempty cap v : label_ok nonempty cap v = true <-> valid_label nonempty cap v.
Proof.
  unfold label_ok, valid_label. split.
  - destruct v; try discriminate; [by left|]. intros (Hl & Hn)%andb_true_iff.
    right. eexists; split; [done|]. apply Nat.leb_le in Hl. split; [done|].
    intros -> ->. done.
  - intros [-> |(s & -> & Hl & Hn)]; [done|]. apply andb_true_iff. split; [by apply Nat.leb_le|].
    destruct nonempty, s; try done. by destruct (Hn eq_refl).
Qed.

Lemma int_between_spec lo hi v : int_between lo hi v = true <-> int_in lo hi v.
Proof.
  unfold int_between, int_in. split.
  - destruct v; try discriminate. intros H. eexists; split; [done|]. lia.
  - intros (z & -> & H). lia.
Qed.

Lemma is_none_spec v : is_none v = true <-> v = PNone.
Proof. by destruct v. Qed.

Lemma opt_int_spec lo hi v :
  is_none v || int_between lo hi v = true <-> v = PNone \/ int_in lo hi v.
Proof. by rewrite orb_true_iff, is_none_spec, int_between_spec. Qed.

Lemma in_str_set_true v l : in_str_set v l = Ok true <-> exists s, v = PStr s /\ s ∈ l.
Proof.
  split.
  - destruct v; simpl; try discriminate. intros [= H%mem_true]. eauto.
  - intros (s & -> & H%mem_true). simpl. by rewrite H.
Qed.

Lemma py_in_strs t l : py_in t (map PStr l) = true <-> exists s, t = PStr s /\ s ∈ l.
Proof.
  unfold py_in. rewrite existsb_exists. split.
  - intros (y & (s & <- & Hs)%in_map_iff & Hy). exists s.
    rewrite <-list_elem_of_In in Hs. split; [|done]. destruct t; simpl in Hy; try done.
    by apply String.eqb_eq in Hy as ->.
  - intros (s & -> & Hs). exists (PStr s). rewrite in_map_iff. split.
    + exists s. by rewrite <-list_elem_of_In.
    + simpl. apply String.eqb_refl.
Qed.

#[local] Hint Rewrite @app_nil_iff err_if_nil negb_false_iff unknown_error_nil label_ok_spec
  opt_int_spec py_eqb_str : schema_rw.

Lemma validate_stage_nil loc g i v : _validate_stage loc g i v = [] <-> valid_stage g v.
Proof.
  unfold _validate_stage, valid_stage. destruct v as [| | | | | |d];
    try (split; [done|by intros (? & ? & [=] & _)]).
  autorewrite with schema_rw. split.
  - intros (Hk & Hr & Hl). destruct (assoc "role" d) as [[]|] eqn:E; simpl in Hr; try done.
    destruct (is_empty s) eqn:Es; [done|]. destruct (g !! s) as [perms|] eqn:Eg; [|done].
    autorewrite with schema_rw in Hr. apply bool_decide_eq_true in Hr.
    exists d, s. split_and!; try done; [by intros ->|]. by exists perms.
  - intros (d' & role & [= <-] & Hk & Hr & Hne & (perms & Hg & Hp) & Hl).
    split_and!; [done| |done]. rewrite Hr. simpl. rewrite Hg.
    destruct (is_empty role) eqn:E; [by apply is_empty_true in E|].
    autorewrite with schema_rw. by apply bool_decide_eq_true.
Qed.

Lemma concat_imap_nil {A B} (f : nat -> A -> list B) (P : A -> Prop) l :
  (forall i x, f i x = [] <-> P x) -> concat (imap f l) = [] <-> Forall P l.
Proof.
  intros H. revert f H. induction l as [|x l IH]; intros f H; [by split|].
  rewrite imap_cons. simpl. rewrite app_nil_iff, H, Forall_cons.
  rewrite (IH (fun i => f (S i))); [done|]. intros; apply H.
Qed.

Lemma validate_stages_nil v loc g : _validate_stages v loc g = [] <-> valid_stages g v.
Proof.
  unfold _validate_stages, valid_stages.
  destruct v as [| | | | |[|x l]|]; try (split; [done|intros (? & [= <-] & ? & ?); simpl in *; lia]).
  destruct (MAX_STAGES_PER_SUBJECT <? length (x :: l)) eqn:E.
  - apply Nat.ltb_lt in E. split; [done|]. intros (? & [= <-] & ? & _). lia.
  - apply Nat.ltb_ge in E. rewrite (concat_imap_nil _ (valid_stage g)) by (intros; apply validate_stage_nil).
    split; [|by intros (? & [= <-] & _ & ?)]. intros HF. eexists; split_and!; [done|simpl; lia|done|done].
Qed.

Lemma validate_recertify_days_nil v loc : _validate_recertify_days v loc = [] <-> valid_recertify_days v.
Proof. unfold _validate_recertify_days, valid_recertify_days. by autorewrite with schema_rw. Qed.

#[local] Hint Rewrite validate_stages_nil validate_recertify_days_nil : schema_rw.

Lemma Ok_eq {A} (x y : A) : Ok x = Ok y <-> x = y.
Proof. split; congruence. Qed.

Lemma validate_tier_nil g item : _validate_tier g item = Ok [] <-> valid_tier g item.
Proof.
  unfold _validate_tier, valid_tier. destruct item as [tier entry]. simpl.
  destruct (mem tier RISK_TIERS) eqn:Hm; simpl.
  2: { apply mem_false in Hm. split; [done|by intros [? _]]. }
  apply mem_true in Hm.
  destruct entry as [| | | | | |d]; try (split; [done|by intros (_ & ? & [=] & _)]).
  fold (field d "mode" (PStr "sequence")) (field d "stages" PNone) (field d "recertify_days" PNone).
  rewrite rbind_Ok. split.
  - intros (b & Hb & H). rewrite Ok_eq in H. autorewrite with schema_rw in H.
    destruct H as (Hk & Hs & -> & Hr). apply in_str_set_true in Hb. split; [done|]. by exists d.
  - intros (_ & d' & [= <-] & Hk & Hs & Hmode%in_str_set_true & Hr). exists true.
    split; [done|]. rewrite Ok_eq. autorewrite with schema_rw. done.
Qed.

(** ** Intake fields *)

Lemma drawn_from_tiers_spec v :
  drawn_from_tiers v = true <-> exists ts, v = PList (map PStr ts) /\ ts ⊆ RISK_TIERS.
Proof.
  split.
  - destruct v as [| | | | |ts|]; try discriminate. cbn [drawn_from_tiers].
    induction ts as [|t ts IH]; [intros _; exists []; split; [done|by intros ? ?%elem_of_nil]|].
    cbn [forallb].
    intros ((x & -> & Hx)%py_in_strs & (tss & [= ->] & Hs)%IH)%andb_true_iff.
    exists (x :: tss). split; [done|]. intros y [->|]%elem_of_cons; auto.
  - intros (ts & -> & Hsub). apply forallb_forall. intros x (t & <- & Hin)%in_map_iff.
    apply py_in_strs. exists t. split; [done|]. apply Hsub. by rewrite list_elem_of_In.
Qed.

Lemma check_field_key_nil loc s v seen :
  check_field_key loc s v = (seen, []) <->
  exists key, v = PStr key /\ field_key_match key = true /\ key ∉ s /\ seen = {[key]} ∪ s.
Proof.
  unfold check_field_key. split.
  - destruct v as [| | | |key| |]; try discriminate.
    destruct (field_key_match key) eqn:Hm; [|discriminate].
    simpl. case_bool_decide; [discriminate|]. intros [= <-]. by exists key.
  - intros (key & -> & -> & Hn & ->). simpl. by rewrite bool_decide_eq_false_2.
Qed.

#[local] Hint Rewrite drawn_from_tiers_spec : schema_rw.

(** a field adds no error exactly when it is valid and its key is new *)
Lemma validate_field_nil n s v i seen :
  _validate_field (n, s, []) v = Ok (i, seen, []) <->
  valid_field v /\ i = S n /\ exists key, field_key v = PStr key /\ key ∉ s /\ seen = {[key]} ∪ s.
Proof.
  unfold _validate_field, valid_field, field_key.
  destruct v as [| | | | | |d]; try (split; [done|by intros ((? & ? & [=] & _) & _)]).
  change (default PNone (assoc ?k d)) with (field d k PNone).
  fold (field d "type" (PStr "string")) (field d "required_tiers" (PList [])).
  rewrite rbind_Ok. split.
  - intros (b & Hb & [= <- <- H]). autorewrite with schema_rw in H.
    destruct H as (Hk & Hkey & Hl & -> & Hmax & Ht). apply in_str_set_true in Hb.
    destruct (check_field_key _ s (field d "key" PNone)) as [seen' e] eqn:Hc. simpl in Hkey. subst e.
    apply check_field_key_nil in Hc as (key & Hkey & Hm & Hns & ->).
    split; [|split; [done|]; by exists key]. exists d, key. split_and!; try done.
    unfold field in Hkey. by destruct (assoc "key" d); simpl in Hkey; subst.
  - intros ((d' & key & [= <-] & Hk & Hka & Hm & Hl & Ht%in_str_set_true & Hmax & Hts) & -> & key' & Hkey & Hns & ->).
    exists true. split; [done|].
    assert (check_field_key ("intake.fields[" +:+ pretty n +:+ "]") s (field d "key" PNone)
            = ({[key']} ∪ s, [])) as ->.
    { apply check_field_key_nil. exists key'. split_and!; try done.
      unfold field in Hkey. rewrite Hka in Hkey. simpl in Hkey. congruence. }
    simpl. do 2 f_equal. by autorewrite with schema_rw.
Qed.

(** errors only accumulate *)
Lemma validate_field_errors n s e v i seen errs :
  _validate_field (n, s, e) v = Ok (i, seen, errs) ->
  exists extra, errs = e ++ extra /\ _validate_field (n, s, []) v = Ok (i, seen, extra).
Proof.
  unfold _validate_field. destruct v; try (intros [= <- <- <-]; by eexists).
  intros (b & Hb & [= <- <- <-])%rbind_Ok. rewrite Hb. by eexists.
Qed.

Lemma validate_fields_errors l : forall n s e i seen errs,
  rfold _validate_field (n, s, e) l = Ok (i, seen, errs) -> exists extra, errs = e ++ extra.
Proof.
  induction l as [|v l IH]; simpl; intros n s e i seen errs.
  - intros [= <- <- <-]. exists []. by rewrite app_nil_r.
  - intros ([[n1 s1] e1] & (x1 & -> & _)%validate_field_errors & (x2 & ->)%IH)%rbind_Ok.
    exists (x1 ++ x2). by rewrite <-app_assoc.
Qed.

Lemma validate_fields_loop l : forall n s,
  (exists i seen, rfold _validate_field (n, s, []) l = Ok (i, seen, [])) <->
  Forall valid_field l /\ NoDup (map field_key l) /\
  (forall k, k ∈ s -> PStr k ∉ map field_key l).
Proof.
  induction l as [|v l IH]; intros n s; cbn [rfold map].
  - split; [|eauto]. intros _. split_and!; [constructor..|]. by intros k _ ?%elem_of_nil.
  - setoid_rewrite rbind_Ok. rewrite Forall_cons, NoDup_cons. split.
    + intros (i & seen & [[n1 s1] e1] & Hv & Hl).
      pose proof (validate_fields_errors _ _ _ _ _ _ _ Hl) as (x & Hx).
      symmetry in Hx. apply app_nil_iff in Hx as [-> ->].
      apply validate_field_nil in Hv as (Hv & -> & key & Hkey & Hns & ->).
      destruct (IH (S n) ({[key]} ∪ s)) as [(Hf & Hnd & Hs) _]; [by exists i, seen|].
      split_and!; try done.
      * rewrite Hkey. apply Hs. set_solver.
      * intros k Hk [Heq|Hin]%elem_of_cons; [congruence|]. apply (Hs k); [set_solver|done].
    + intros ([Hv Hf] & [Hni Hnd] & Hs).
      assert (exists key, field_key v = PStr key) as [key Hkey].
      { destruct Hv as (d & key & -> & _ & Hk & _). exists key. simpl. unfold field. by rewrite Hk. }
      destruct (IH (S n) ({[key]} ∪ s)) as [_ (i & seen & Hl)].
      { split_and!; [done..|]. intros k [->%elem_of_singleton|Hk]%elem_of_union; [by rewrite <-Hkey|].
        intros Hin. apply (Hs k Hk). by right. }
      exists i, seen, (S n, {[key]} ∪ s, []). split; [|done].
      apply validate_field_nil. split_and!; [done..|]. exists key. split_and!; [done| |done].
      intros Hk. apply (Hs key Hk). rewrite Hkey. by left.
Qed.

Lemma validate_fields_nil v : _validate_fields v = Ok [] <-> valid_fields v.
Proof.
  unfold _validate_fields, valid_fields.
  destruct v as [| | | | |l|]; try (split; [done|by intros (? & [=] & _)]).
  destruct (MAX_INTAKE_FIELDS <? length l) eqn:E.
  - apply Nat.ltb_lt in E. split; [done|]. intros (? & [= <-] & ? & _). lia.
  - apply Nat.ltb_ge in E. rewrite rbind_Ok. pose proof (validate_fields_loop l 0 ∅) as Hloop. split.
    + intros ([[i seen] e] & Hl & [= He]). simpl in He. subst e.
      destruct Hloop as [(Hf & Hnd & _) _]; [by exists i, seen|]. by exists l.
    + intros (? & [= <-] & _ & Hf & Hnd). destruct Hloop as [_ (i & seen & Hl)].
      { split_and!; [done..|]. by intros k ?%elem_of_empty. }
      by exists (i, seen, []).
Qed.

(** ** Sections *)

Lemma rmap_nil_iff {A B} (f : A -> res (list B)) (P : A -> Prop) l :
  (forall x, f x = Ok [] <-> P x) ->
  (exists es, rmap f l = Ok es /\ concat es = []) <-> Forall P l.
Proof.
  intros H. setoid_rewrite rmap_Ok. split.
  - intros (es & HF & Hc). induction HF as [|x y l es Hx HF IH]; [constructor|].
    simpl in Hc. apply app_nil_iff in Hc as [-> Hc]. constructor; [by apply H|auto].
  - induction 1 as [|x l Hx HP IH]; [by exists []|].
    destruct IH as (es & HF & Hc). exists ([] :: es). split; [|done].
    constructor; [by apply H|done].
Qed.

Lemma validate_intake_nil g v : _validate_intake v g = Ok [] <-> valid_intake g v.
Proof.
  unfold _validate_intake, valid_intake.
  destruct v as [| | | | | |d]; try (split; [done|by intros (? & [=] & _)]).
  fold (field d "tiers" (PDict [])) (field d "fields" (PList [])).
  pose proof (fun ts => rmap_nil_iff (_validate_tier g) (valid_tier g) ts (validate_tier_nil g)) as Ht.
  split.
  - destruct (field d "tiers" (PDict [])) as [| | | | | |tiers] eqn:E;
      intros (es & He & (ef & Hf & H)%rbind_Ok)%rbind_Ok; rewrite Ok_eq in H;
      autorewrite with schema_rw in H; destruct H as (Hk & ? & Hes & ->); try done.
    apply validate_fields_nil in Hf. exists d. split_and!; try done.
    exists tiers. split; [done|]. apply Ht. by exists es.
  - intros (d' & [= <-] & Hk & (tiers & -> & (es & He & Hc)%Ht) & Hf%validate_fields_nil).
    rewrite He. simpl. rewrite Hf. simpl. rewrite Ok_eq. autorewrite with schema_rw. done.
Qed.

Lemma Qle_bool_between q : Qle_bool 0 q && Qle_bool q 100 = true <-> (0 <= q <= 100)%Q.
Proof. by rewrite andb_true_iff, !Qle_bool_iff. Qed.

Lemma coverage_ok_spec v : coverage_ok v = true <-> coverage_value v.
Proof.
  unfold coverage_value, int_in. split.
  - destruct v as [| |z|[q|[]|]| | |]; try discriminate; simpl.
    + intros H. left. eexists; split; [done|]. lia.
    + intros H%Qle_bool_between. right. by exists q.
  - intros [(z & -> & H)|(q & -> & H)]; simpl; [lia|]. by apply Qle_bool_between.
Qed.

#[local] Hint Rewrite coverage_ok_spec : schema_rw.

Lemma validate_gate_entry_nil item : _validate_gate_entry item = [] <-> valid_gate_entry item.
Proof.
  unfold _validate_gate_entry, valid_gate_entry. destruct item as [env entry]. simpl fst; simpl snd.
  destruct (is_empty env || (100 <? String.length env)) eqn:E.
  - split; [done|]. intros [Hl _]. apply orb_true_iff in E as [E|E%Nat.ltb_lt]; [|lia].
    apply is_empty_true in E as ->. simpl in Hl. lia.
  - apply orb_false_iff in E as [E1 E2%Nat.ltb_ge].
    assert (1 <= String.length env <= 100) by (destruct env; simpl in *; [done|lia]).
    destruct entry as [| | | | | |d]; try (split; [done|by intros (_ & ? & [=] & _)]).
    fold (field d "min_control_coverage" (PInt 0)) (field d "require_attested_evals" (PBool false))
      (field d "max_open_material_changes" (PInt 0)).
    autorewrite with schema_rw. split.
    + intros (Hk & Hc & Ha & Hm). split; [done|]. exists d. split_and!; try done.
      * destruct (field d "require_attested_evals" (PBool false)); try done. by eexists.
      * destruct (field d "max_open_material_changes" (PInt 0)) as [| |n| | | |]; try done.
        destruct (n <? 0)%Z eqn:En; [done|]. apply err_if_nil in Hm. unfold MATERIAL_CHANGE_CEILING in Hm.
        f_equal. lia.
    + intros (_ & d' & [= <-] & Hk & Hc & (b & ->) & ->). done.
Qed.

Lemma validate_gates_nil v : _validate_gates v = [] <-> valid_gates v.
Proof.
  unfold _validate_gates, valid_gates.
  destruct v as [| | | | | |d]; try (split; [done|by intros (? & [=] & _)]).
  fold (field d "environments" (PDict [])). autorewrite with schema_rw. split.
  - intros [Hk He]. exists d. split_and!; try done.
    destruct (field d "environments" (PDict [])) as [| | | | | |envs]; try done.
    exists envs. split; [done|]. apply concat_nil_iff, Forall_map in He.
    eapply Forall_impl; [exact He|]. intros x. apply validate_gate_entry_nil.
  - intros (d' & [= <-] & Hk & envs & -> & He). split; [done|]. apply concat_nil_iff, Forall_map.
    eapply Forall_impl; [exact He|]. intros x. apply validate_gate_entry_nil.
Qed.

Lemma evidence_error_nil d key ceiling :
  evidence_error d key ceiling = [] <->
  field d key PNone = PNone \/ int_in 1 ceiling (field d key PNone).
Proof. unfold evidence_error. fold (field d key PNone). by autorewrite with schema_rw. Qed.

#[local] Hint Rewrite evidence_error_nil : schema_rw.

Lemma validate_evidence_nil v : _validate_evidence v = [] <-> valid_evidence v.
Proof.
  unfold _validate_evidence, valid_evidence.
  destruct v as [| | | | | |d]; try (split; [done|by intros (? & [=] & _)]).
  autorewrite with schema_rw. split; [intros H; by exists d|by intros (? & [= <-] & ?)].
Qed.

Lemma validate_vendors_nil g v : _validate_vendors v g = [] <-> valid_vendors g v.
Proof.
  unfold _validate_vendors, valid_vendors.
  destruct v as [| | | | | |d]; try (split; [done|by intros (? & [=] & _)]).
  fold (field d "stages" PNone) (field d "recertify_days" PNone).
  autorewrite with schema_rw. split; [intros H; by exists d|by intros (? & [= <-] & ?)].
Qed.

Lemma validate_section_iff {A} d key (validate : pyval -> A) (absent good : A) (P : pyval -> Prop) :
  absent = good -> (forall v, validate v = good <-> P v) ->
  validate_section d key validate absent = good <-> (forall v, assoc key d = Some v -> P v).
Proof.
  intros Habs H. unfold validate_section. destruct (assoc key d) as [v|]; [|by split].
  rewrite H. split; [by intros ? ? [= <-]|auto].
Qed.

(** [validate_policy_body] is exactly the schema. *)
Lemma validate_policy_body_nil g body : validate_policy_body body g = Ok [] <-> valid_policy g body.
Proof.
  unfold validate_policy_body, valid_policy.
  destruct body as [| | | | | |d]; try (split; [done|by intros (? & [=] & _)]).
  fold (field d "schema" PNone).
  assert (forall _ : unit, validate_section d "intake" (fun v => _validate_intake v g) (Ok []) = Ok [] <->
    (forall v, assoc "intake" d = Some v -> valid_intake g v)) as Hi.
  { intros _. apply validate_section_iff; [done|]. apply validate_intake_nil. }
  specialize (Hi tt).
  pose proof (validate_section_iff d "gates" _validate_gates [] [] _ eq_refl validate_gates_nil) as Hg.
  pose proof (validate_section_iff d "vendors" (fun v => _validate_vendors v g) [] [] _ eq_refl
    (validate_vendors_nil g)) as Hv.
  pose proof (validate_section_iff d "evidence" _validate_evidence [] [] _ eq_refl validate_evidence_nil) as He.
  rewrite rbind_Ok. split.
  - intros (e & Hin & H). rewrite Ok_eq in H. autorewrite with schema_rw in H.
    destruct H as (Hs & Hk & -> & H1 & H2 & H3). exists d. tauto.
  - intros (d' & [= <-] & Hs & Hk & H1 & H2 & H3 & H4). exists []. split; [by apply Hi|].
    rewrite Ok_eq. autorewrite with schema_rw. tauto.
Qed.

(** C5. Validation is exactly the schema: a policy document is accepted with no
    error if and only if it has the declared shape - known keys only, existing
    roles that may decide reviews, one to ten stages, modes, field types, tiers,
    periods, coverages and lengths in range, unique field keys, and no gate that
    lets a material change through. *)
Theorem validation_is_schema (body : pyval) (g : grants) :
  validate_policy_body body g = Ok [] <-> valid_policy g body.
Proof. apply validate_policy_body_nil. Qed.

(** a document whose only flaw is the type of one tier's mode *)
Definition mode_document (mode : pyval) : pyval := PDict [
  ("schema", PStr POLICY_SCHEMA);
  ("intake", PDict [("tiers", PDict [("limited",
     PDict [("stages", PList single_reviewer); ("mode", mode)])])])].

(** A stage mode that is a list or an object is not reported as a validation
    error: the membership test hashes it and the validator raises a TypeError. *)
Theorem unhashable_mode_raises (g : grants) (l : list pyval) (d : list (string * pyval)) :
  validate_policy_body (mode_document (PList l)) g = Raise TypeError /\
  validate_policy_body (mode_document (PDict d)) g = Raise TypeError.
Proof. by split. Qed.
