(* ===== verification/PolicyRead.v ===== *)
(** * Reading validated documents (storage/policy_engine.py)

    On documents that passed validation none of the readers raises, and each
    returns a value in the range the schema gives it.  The lemmas give every
    entry a typed view: its stage roles, recertification days, gate
    requirements, evidence settings and intake fields. *)

From stdpp Require Import base list strings option pretty sets gmap.
From Stdlib Require Import ZArith QArith Ascii Lia.
From S2P Require Import Prelude Py RiskTier PolicyDoc PolicyValid.

Open Scope nat_scope.

Section Views.
Context `{PyHost} (g : grants).

(** ** Accessors *)

Lemma py_get_dict d k : py_get (PDict d) k = Ok (field d k PNone).
Proof. done. Qed.

(** [d.get(k) or {}] when the value, if present, is an object *)
Lemma get_or_empty_dict d k (P : pyval -> Prop) :
  (forall v, assoc k d = Some v -> P v) -> (forall v, P v -> exists e, v = PDict e) ->
  exists e, get_or_empty (PDict d) k = Ok (PDict e) /\
    ((e = [] /\ (assoc k d = None \/ assoc k d = Some (PDict []))) \/ assoc k d = Some (PDict e)).
Proof.
  intros HP Hobj. unfold get_or_empty, py_get, py_get_default. simpl.
  destruct (assoc k d) as [v|] eqn:E; simpl; [|exists []; auto].
  destruct (Hobj v) as [e ->]; [by apply HP|]. destruct e; simpl; eauto.
Qed.

Lemma only_valid_dict {A} (P : A -> Prop) (v : pyval) (Q : list (string * pyval) -> Prop) :
  (exists d, v = PDict d /\ Q d) -> exists e, v = PDict e.
Proof. intros (d & -> & _). by exists d. Qed.

(** ** Stage lists and recertification periods *)

Definition days_val (days : option Z) : pyval := from_option PInt PNone days.

Definition stage_view (entry : pyval) (roles : list string) (days : option Z) : Prop :=
  entry_roles entry = Ok (map PStr roles) /\ py_get entry "recertify_days" = Ok (days_val days).

Definition days_ok (days : option Z) : Prop :=
  forall z, days = Some z -> (RECERTIFY_DAYS_FLOOR <= z <= RECERTIFY_DAYS_CEILING)%Z.

Definition roles_ok (roles : list string) : Prop :=
  1 <= length roles <= MAX_STAGES_PER_SUBJECT.

Lemma valid_stage_role v : valid_stage g v ->
  exists role, py_get v "role" = Ok (PStr role) /\ decision_role g role.
Proof.
  intros (d & role & -> & _ & Hr & _ & Hd & _). exists role. by rewrite py_get_dict; unfold field; rewrite Hr.
Qed.

Lemma valid_stages_roles l : Forall (valid_stage g) l ->
  exists roles, rmap (fun stage => py_get stage "role") l = Ok (map PStr roles) /\
    length roles = length l /\ Forall (decision_role g) roles.
Proof.
  induction 1 as [|v l (role & Hr & Hd)%valid_stage_role _ (roles & HR & Hlen & HD)]; [by exists []|].
  exists (role :: roles). simpl. rewrite Hr. simpl. rewrite HR. simpl. by rewrite Hlen; auto.
Qed.

Lemma valid_entry_view d :
  valid_stages g (field d "stages" PNone) -> valid_recertify_days (field d "recertify_days" PNone) ->
  exists roles days, stage_view (PDict d) roles days /\ roles_ok roles /\ days_ok days /\
    Forall (decision_role g) roles.
Proof.
  intros (l & Hl & Hlen & HF) Hr.
  destruct (valid_stages_roles l HF) as (roles & HR & Hlen' & HD).
  assert (entry_roles (PDict d) = Ok (map PStr roles)) as He.
  { unfold entry_roles. rewrite py_get_dict, Hl. simpl. unfold list_or_empty.
    destruct l; simpl in *; [lia|]. done. }
  unfold roles_ok. destruct Hr as [Hr|(z & Hr & Hz)].
  - exists roles, None. unfold stage_view. rewrite py_get_dict, Hr. split_and!; try done; lia.
  - exists roles, (Some z). unfold stage_view. rewrite py_get_dict, Hr. split_and!; try done; try lia.
    by intros ? [= <-].
Qed.

Lemma single_reviewer_view e :
  e = PDict [("stages", PList single_reviewer)] -> stage_view e ["governance_reviewer"] None.
Proof. by intros ->. Qed.

(** the tiers object of a valid document *)
Lemma valid_tiers body tier : valid_policy g body ->
  exists entry,
    (let! intake := get_or_empty body "intake" in
     let! tiers := get_or_empty intake "tiers" in py_get tiers tier) = Ok entry /\
    (entry = PNone \/ valid_tier g (tier, entry)).
Proof.
  intros (d & -> & _ & _ & Hi & _).
  destruct (get_or_empty_dict d "intake" _ Hi) as (i & -> & Hin).
  { intros v (e & -> & _). by exists e. }
  simpl. destruct Hin as [[-> _]|Hin].
  { simpl. eauto. }
  destruct (Hi _ Hin) as (i' & [= <-] & _ & (tiers & Ht & HF) & _).
  unfold get_or_empty, py_get, py_get_default. unfold field in *. simpl.
  destruct (assoc "tiers" i) as [t|]; simpl in *; [subst t|by eauto].
  assert (py_or (PDict tiers) (PDict []) = PDict tiers) as -> by by destruct tiers.
  exists (default PNone (assoc tier tiers)). split; [done|].
  destruct (assoc tier tiers) as [entry|] eqn:E; [|by left]. right. simpl.
  rewrite Forall_forall in HF. by apply HF, assoc_elem_of.
Qed.

Lemma tier_entry_view body default_body tier :
  valid_policy g body -> valid_policy g default_body ->
  exists entry roles days, _tier_entry body default_body tier = Ok entry /\
    stage_view entry roles days /\ roles_ok roles /\ days_ok days /\
    (Forall (decision_role g) roles \/ roles = ["governance_reviewer"]).
Proof.
  intros Hb Hd. unfold _tier_entry. cbn [first_entry].
  assert (forall entry, valid_tier g (tier, entry) -> is_none entry = false /\
    exists roles days, stage_view entry roles days /\ roles_ok roles /\ days_ok days /\
    (Forall (decision_role g) roles \/ roles = ["governance_reviewer"])) as Hview.
  { intros entry (_ & e & He & _ & Hs & _ & Hr). simpl in He. subst entry. split; [done|].
    destruct (valid_entry_view e Hs Hr) as (roles & days & ? & ? & ? & ?). exists roles, days; auto. }
  destruct (valid_tiers body tier Hb) as (e1 & -> & [-> |[Hn Hv]%Hview]); simpl.
  2: { rewrite Hn. simpl. destruct Hv as (roles & days & ?). by eexists _, roles, days. }
  destruct (valid_tiers default_body tier Hd) as (e2 & -> & [-> |[Hn Hv]%Hview]); simpl.
  2: { rewrite Hn. simpl. destruct Hv as (roles & days & ?). by eexists _, roles, days. }
  exists (PDict [("stages", PList single_reviewer)]), ["governance_reviewer"], None.
  split_and!; try done; [vm_compute; lia|auto].
Qed.

Lemma vendor_entry_view body default_body :
  valid_policy g body -> valid_policy g default_body ->
  exists entry roles days, _vendor_entry body default_body = Ok entry /\
    stage_view entry roles days /\ roles_ok roles /\ days_ok days /\
    (Forall (decision_role g) roles \/ roles = ["governance_reviewer"]).
Proof.
  intros (d & -> & _ & _ & _ & _ & Hb & _) (d' & -> & _ & _ & _ & _ & Hd & _).
  unfold _vendor_entry. cbn [first_entry]. rewrite !py_get_dict. unfold field. simpl.
  assert (forall entry, valid_vendors g entry -> is_none entry = false /\
    exists roles days, stage_view entry roles days /\ roles_ok roles /\ days_ok days /\
    (Forall (decision_role g) roles \/ roles = ["governance_reviewer"])) as Hview.
  { intros entry (e & -> & _ & Hs & Hr). split; [done|].
    destruct (valid_entry_view e Hs Hr) as (roles & days & ? & ? & ? & ?). exists roles, days; auto. }
  destruct (assoc "vendors" d) as [v|]; simpl.
  { destruct (Hview v (Hb _ eq_refl)) as [-> (roles & days & ?)]. by exists v, roles, days. }
  destruct (assoc "vendors" d') as [v|]; simpl.
  { destruct (Hview v (Hd _ eq_refl)) as [-> (roles & days & ?)]. by exists v, roles, days. }
  exists DEFAULT_VENDORS, ["governance_reviewer"], (Some 365%Z).
  split_and!; try done; [vm_compute; lia|intros ? [= <-]; vm_compute; split; discriminate|auto].
Qed.

(** ** Gate requirements *)

Definition gate_view (entry : pyval) (attested : bool) (coverage : Q) : Prop :=
  entry_requires_attested entry = Ok attested /\ entry_min_coverage entry = Ok (FFin coverage) /\
  (0 <= coverage <= 100)%Q /\
  (let! n := py_get_default entry "max_open_material_changes" (PInt 0) in py_int n) = Ok 0%Z.

Lemma inject_Z_between z : (0 <= z <= 100)%Z -> (0 <= inject_Z z <= 100)%Q.
Proof. unfold Qle, inject_Z. simpl. lia. Qed.

Lemma valid_gate_view env entry : valid_gate_entry (env, entry) ->
  is_none entry = false /\ exists attested coverage, gate_view entry attested coverage.
Proof.
  intros (_ & d & He & _ & Hc & (b & Hb) & Hm). simpl in He. subst entry. split; [done|].
  unfold gate_view, entry_requires_attested, entry_min_coverage. simpl.
  unfold field in *. rewrite Hb, Hm. simpl. exists b.
  destruct Hc as [(z & -> & Hz)|(q & -> & Hq)]; simpl.
  - exists (inject_Z z). assert (py_float (py_or (PInt z) (PInt 0)) = Ok (FFin (inject_Z z))) as ->.
    { unfold py_or. simpl. destruct (Z.eqb_spec z 0) as [->|]; simpl; unfold float_of_Z.
      - done.
      - destruct (Z.ltb_spec (Z.abs z) (2 ^ 53)) as [|Hge]; [done|]. lia. }
    split_and!; try done; by apply inject_Z_between.
  - unfold py_or. simpl. destruct (Qeq_bool q 0); simpl.
    + exists 0%Q. done.
    + exists q. split_and!; try done; apply Hq.
Qed.

Lemma document_environments_view body : valid_policy g body ->
  exists envs, document_environments body = Ok (PDict envs) /\ Forall valid_gate_entry envs.
Proof.
  intros (d & -> & _ & _ & _ & Hg & _). unfold document_environments.
  destruct (get_or_empty_dict d "gates" _ Hg) as (i & -> & Hin).
  { intros v (e & -> & _). by exists e. }
  simpl. destruct Hin as [[-> _]|Hin].
  { simpl. exists []. split; [done|constructor]. }
  destruct (Hg _ Hin) as (i' & [= <-] & _ & envs & He & HF).
  unfold get_or_empty, py_get, py_get_default. unfold field in *. simpl.
  destruct (assoc "environments" i) as [t|]; simpl in *; [subst t|].
  - exists envs. by destruct envs.
  - injection He as <-. by exists [].
Qed.

Lemma environment_entry_view envs env : Forall valid_gate_entry envs ->
  exists entry, environment_entry (PDict envs) env = Ok entry /\
    (entry = PNone \/ is_none entry = false /\ exists a c, gate_view entry a c).
Proof.
  intros HF. rewrite Forall_forall in HF. unfold environment_entry. rewrite !py_get_dict. unfold field. simpl.
  destruct (assoc env envs) as [e|] eqn:E; simpl.
  - destruct (valid_gate_view env e) as [Hn Hv]; [by apply HF, assoc_elem_of|]. rewrite Hn. eauto.
  - destruct (assoc "*" envs) as [e|] eqn:E'; simpl; [|by eauto].
    destruct (valid_gate_view "*" e) as [Hn Hv]; [by apply HF, assoc_elem_of|]. eauto.
Qed.

Lemma gate_entry_view body default_body env :
  valid_policy g body -> valid_policy g default_body ->
  exists entry a c, _gate_entry body default_body env = Ok entry /\ gate_view entry a c.
Proof.
  intros (e1 & H1 & HF1)%document_environments_view (e2 & H2 & HF2)%document_environments_view.
  unfold _gate_entry. cbn [first_entry]. rewrite H1, H2. cbn [rbind].
  destruct (environment_entry_view e1 env HF1) as (x1 & -> & [-> |(Hn & a & c & Hv)]); simpl.
  2: { rewrite Hn. simpl. by eexists _, a, c. }
  destruct (environment_entry_view e2 env HF2) as (x2 & -> & [-> |(Hn & a & c & Hv)]); simpl.
  2: { rewrite Hn. simpl. by eexists _, a, c. }
  exists (PDict []), false, 0%Q. done.
Qed.

(** ** Evidence settings *)

Lemma evidence_setting_view body default_body key shipped ceiling :
  (key = "coverage_window_days" /\ ceiling = COVERAGE_WINDOW_DAYS_CEILING \/
   key = "stale_after_days" /\ ceiling = STALE_AFTER_DAYS_CEILING) ->
  (1 <= shipped <= ceiling)%Z ->
  valid_policy g body -> valid_policy g default_body ->
  exists z, evidence_setting body default_body key shipped = Ok z /\ (1 <= z <= ceiling)%Z.
Proof.
  intros Hkey Hship Hb Hd. unfold evidence_setting. cbn [first_entry].
  assert (forall b, valid_policy g b -> exists v,
    (let! evidence := get_or_empty b "evidence" in py_get evidence key) = Ok v /\
    (v = PNone \/ int_in 1 ceiling v)) as Hread.
  { intros b (d & -> & _ & _ & _ & _ & _ & He).
    destruct (get_or_empty_dict d "evidence" _ He) as (i & -> & Hin).
    { intros v (e & -> & _). by exists e. }
    simpl. eexists; split; [done|]. destruct Hin as [[-> _]|Hin]; [by left|].
    destruct (He _ Hin) as (i' & [= <-] & _ & Hc & Hs).
    fold (field i key PNone). by destruct Hkey as [[-> ->]|[-> ->]]. }
  destruct (Hread body Hb) as (v1 & -> & [-> |(z & -> & Hz)]); simpl; [|by eauto].
  destruct (Hread default_body Hd) as (v2 & -> & [-> |(z & -> & Hz)]); simpl; eauto.
Qed.

Lemma evidence_settings_view body default_body :
  valid_policy g body -> valid_policy g default_body ->
  exists w s, _evidence_settings body default_body = Ok (w, s) /\
    (1 <= w <= COVERAGE_WINDOW_DAYS_CEILING)%Z /\ (1 <= s <= STALE_AFTER_DAYS_CEILING)%Z.
Proof.
  intros Hb Hd. unfold _evidence_settings.
  destruct (evidence_setting_view body default_body "coverage_window_days"
    DEFAULT_COVERAGE_WINDOW_DAYS COVERAGE_WINDOW_DAYS_CEILING) as (w & -> & Hw); [by left|done..|].
  destruct (evidence_setting_view body default_body "stale_after_days"
    DEFAULT_STALE_AFTER_DAYS STALE_AFTER_DAYS_CEILING) as (s & -> & Hs); [by right|done..|].
  simpl. eauto.
Qed.

(** ** Intake fields *)

(** a stored field: its key and the tiers that require it *)
Definition field_view (v : pyval) (key : string) (tiers : list string) : Prop :=
  py_get v "key" = Ok (PStr key) /\ required_tiers v = Ok (map PStr tiers).

Lemma valid_field_view v : valid_field v ->
  exists key tiers, field_view v key tiers /\ field_key v = PStr key /\ is_none v = false.
Proof.
  intros (d & key & -> & _ & Hk & _ & _ & _ & _ & ts & Hts & _). exists key, ts.
  unfold field_view, required_tiers. rewrite !py_get_dict. unfold field_key, field in *. rewrite Hk.
  split_and!; try done. simpl. destruct (assoc "required_tiers" d) as [v|]; simpl in *.
  - subst v. by destruct ts.
  - injection Hts as Hts. by destruct ts.
Qed.

Lemma intake_fields_view body default_body :
  valid_policy g body -> valid_policy g default_body ->
  exists l, _intake_fields body default_body = Ok l /\ Forall valid_field l /\
    NoDup (map field_key l) /\ length l <= MAX_INTAKE_FIELDS.
Proof.
  intros (d & -> & _ & _ & Hb & _) (d' & -> & _ & _ & Hd & _). unfold _intake_fields.
  assert (forall i, valid_intake g (PDict i) -> exists l,
    (let! v := py_get (PDict i) "fields" in list_or_empty v) = Ok l /\ Forall valid_field l /\
    NoDup (map field_key l) /\ length l <= MAX_INTAKE_FIELDS) as Hread.
  { intros i (? & [= <-] & _ & _ & l & Hl & Hlen & HF & Hnd). rewrite py_get_dict. unfold field in *. simpl.
    destruct (assoc "fields" i) as [v|]; simpl in *.
    - subst v. exists l. by destruct l.
    - injection Hl as <-. by exists []. }
  assert (exists l, list_or_empty PNone = Ok l /\ Forall valid_field l /\
    NoDup (map field_key l) /\ length l <= MAX_INTAKE_FIELDS) as Hnone.
  { exists []. split_and!; [done|constructor..|simpl; lia]. }
  assert (forall b, (forall v, assoc "intake" b = Some v -> valid_intake g v) ->
    exists i, get_or_empty (PDict b) "intake" = Ok (PDict i) /\ (i = [] \/ valid_intake g (PDict i))) as Hin.
  { intros b HV. destruct (get_or_empty_dict b "intake" _ HV) as (i & -> & [[-> _]|Hi]).
    - intros v (e & -> & _). by exists e.
    - exists []. auto.
    - exists i. auto. }
  destruct (Hin d Hb) as (i & -> & Hi). cbn [rbind py_has_key].
  case_bool_decide as Hf.
  - destruct Hi as [-> |Hi]; [by destruct Hf|]. by apply Hread.
  - destruct (Hin d' Hd) as (i' & -> & [-> |Hi']); cbn [rbind]; [done|by apply Hread].
Qed.

End Views.
