(* ===== verification/PolicyLoosening.v ===== *)
(** * Loosening a policy (storage/policy_engine.py, [policy_loosening])

    The specification of "at least as strict" between two documents read under
    one platform default, quantified over every tier, every environment name
    (not only the listed ones) and every declared field, and the proof that
    [policy_loosening] reports nothing exactly on such documents. *)

From stdpp Require Import base list strings option pretty sets gmap.
From Stdlib Require Import ZArith QArith Lia.
From S2P Require Import Prelude Py RiskTier PolicyDoc PolicyValid PolicyRead.

Open Scope nat_scope.

Section Strict.
Context `{PyHost}.

(** every approval the old entry asked for is still asked for *)
Definition stages_kept (old new : pyval) : Prop :=
  exists ro rn, _stage_roles old = Ok ro /\ _stage_roles new = Ok rn /\ ro ⊆+ rn.

(** a recertification period stays and does not grow *)
Definition recertify_kept (old new : pyval) : Prop :=
  forall before, py_get old "recertify_days" = Ok (PInt before) ->
  exists after, py_get new "recertify_days" = Ok (PInt after) /\ (after <= before)%Z.

Definition entry_kept (old new : pyval) : Prop := stages_kept old new /\ recertify_kept old new.

(** what a gate asks of one environment is still asked *)
Definition gate_kept (old_body new_body default_body : pyval) (environment : string) : Prop :=
  (_requires_attested old_body default_body environment = Ok true ->
   _requires_attested new_body default_body environment = Ok true) /\
  exists q r, _min_coverage old_body default_body environment = Ok (FFin q) /\
              _min_coverage new_body default_body environment = Ok (FFin r) /\ (q <= r)%Q.

(** a declared field stays, required for the same tiers at least *)
Definition field_kept (old new : list pyval) : Prop :=
  forall f key tiers, f ∈ old -> field_view f key tiers ->
  exists f' tiers', f' ∈ new /\ field_view f' key tiers' /\ tiers ⊆ tiers'.

Record at_least_as_strict (old_body new_body default_body : pyval) : Prop := {
  strict_tiers : forall tier, tier ∈ RISK_TIERS -> exists old new,
    _tier_entry old_body default_body tier = Ok old /\
    _tier_entry new_body default_body tier = Ok new /\ entry_kept old new;
  strict_vendors : exists old new,
    _vendor_entry old_body default_body = Ok old /\
    _vendor_entry new_body default_body = Ok new /\ entry_kept old new;
  strict_gates : forall environment, gate_kept old_body new_body default_body environment;
  strict_evidence : exists w s w' s',
    _evidence_settings old_body default_body = Ok (w, s) /\
    _evidence_settings new_body default_body = Ok (w', s') /\ (w' <= w)%Z /\ (s' <= s)%Z;
  strict_fields : exists old new,
    _intake_fields old_body default_body = Ok old /\
    _intake_fields new_body default_body = Ok new /\ field_kept old new
}.

(** ** Stages *)

Lemma list_remove_strs x l :
  match list_remove (PStr x) (map PStr l) with
  | Some r => exists l', r = map PStr l' /\ l ≡ₚ x :: l'
  | None => x ∉ l
  end.
Proof.
  induction l as [|y l IH]; cbn [map list_remove]; [by intros ?%elem_of_nil|].
  simpl py_eqb. destruct (String.eqb_spec y x) as [->|Hne]; [by exists l|].
  destruct (list_remove (PStr x) (map PStr l)) as [r|]; simpl.
  - destruct IH as (l' & -> & Hp). exists (y :: l'). split; [done|]. rewrite Hp. constructor.
  - by intros [|]%elem_of_cons.
Qed.

Lemma stages_gone_strs old : forall new,
  stages_gone (map PStr old) (map PStr new) = false <-> old ⊆+ new.
Proof.
  induction old as [|x old IH]; intros new; cbn [map stages_gone].
  - split; [intros _; apply submseteq_nil_l|done].
  - pose proof (list_remove_strs x new) as Hr.
    destruct (list_remove (PStr x) (map PStr new)) as [r|].
    + destruct Hr as (new' & -> & Hp). rewrite IH, Hp. split.
      * by constructor.
      * intros Hs. by apply (submseteq_app_inv_l _ _ [x]) in Hs.
    + split; [done|]. intros Hs. destruct Hr. eapply elem_of_submseteq; [|done]. by left.
Qed.

Lemma stage_roles_view e roles days : stage_view e roles days -> _stage_roles e = Ok roles.
Proof.
  intros [He _]. unfold _stage_roles. rewrite He. simpl. f_equal.
  clear He. induction roles as [|r roles IH]; [done|]. simpl. by rewrite IH.
Qed.

Lemma stages_loosened_spec old new ro rn days days' :
  stage_view old ro days -> stage_view new rn days' ->
  exists b, _stages_loosened old new = Ok b /\ (b = false <-> stages_kept old new).
Proof.
  intros Ho Hn. unfold _stages_loosened.
  pose proof Ho as [-> _]. pose proof Hn as [-> _]. simpl. eexists; split; [done|].
  rewrite stages_gone_strs. unfold stages_kept.
  rewrite (stage_roles_view _ _ _ Ho), (stage_roles_view _ _ _ Hn).
  split; [by exists ro, rn|]. by intros (? & ? & [= <-] & [= <-] & ?).
Qed.

Lemma Qle_bool_inject a b : Qle_bool (inject_Z a) (inject_Z b) = (a <=? b)%Z.
Proof.
  apply eq_true_iff_eq. rewrite Qle_bool_iff, Z.leb_le. unfold Qle, inject_Z. simpl. lia.
Qed.

Lemma recertify_loosened_spec old new ro rn days days' :
  stage_view old ro days -> stage_view new rn days' ->
  exists b, _recertify_loosened old new = Ok b /\ (b = false <-> recertify_kept old new).
Proof.
  intros [_ Ho] [_ Hn]. unfold _recertify_loosened, recertify_kept. rewrite Ho, Hn. cbn [rbind].
  destruct days as [z|]; simpl; [|by exists false].
  destruct days' as [z'|]; simpl.
  - eexists; split; [done|]. unfold ext_ltb. simpl. rewrite Qle_bool_inject.
    rewrite negb_false_iff, Z.leb_le. split.
    + intros Hle ? [= <-]. by exists z'.
    + intros Hk. by destruct (Hk z eq_refl) as (? & [= <-] & ?).
  - exists true. split; [done|]. split; [done|]. intros Hk. by destruct (Hk z eq_refl) as (? & [=] & _).
Qed.

(** two reasons of one subject *)
Lemma entry_reasons_spec old new ro rn days days' m1 m2 :
  stage_view old ro days -> stage_view new rn days' ->
  exists rs, (let! r1 := reason_if (_stages_loosened old new) m1 in
              let! r2 := reason_if (_recertify_loosened old new) m2 in Ok (r1 ++ r2)) = Ok rs /\
             (rs = [] <-> entry_kept old new).
Proof.
  intros Ho Hn. unfold reason_if, entry_kept.
  destruct (stages_loosened_spec _ _ _ _ _ _ Ho Hn) as (b1 & -> & H1).
  destruct (recertify_loosened_spec _ _ _ _ _ _ Ho Hn) as (b2 & -> & H2).
  cbn [rbind]. eexists; split; [done|]. by rewrite app_nil_iff, !err_if_nil, H1, H2.
Qed.

Section Documents.
Context (g : grants) (old_body new_body default_body : pyval).
Context (Hold : valid_policy g old_body) (Hnew : valid_policy g new_body)
  (Hdef : valid_policy g default_body).

Lemma tier_reasons_spec tier :
  exists rs, tier_reasons old_body new_body default_body tier = Ok rs /\
    (rs = [] <-> exists old new, _tier_entry old_body default_body tier = Ok old /\
      _tier_entry new_body default_body tier = Ok new /\ entry_kept old new).
Proof.
  unfold tier_reasons.
  destruct (tier_entry_view g old_body default_body tier) as (eo & ro & dys & Heo & Hvo & _); [done..|].
  destruct (tier_entry_view g new_body default_body tier) as (en & rn & dys' & Hen & Hvn & _); [done..|].
  rewrite Heo, Hen. cbn [rbind].
  destruct (entry_reasons_spec _ _ _ _ _ _
    ("intake.tiers." +:+ tier +:+ ": an approval stage is removed or its role replaced")
    ("intake.tiers." +:+ tier +:+ ": recertification is less frequent or removed") Hvo Hvn)
    as (rs & -> & Hrs).
  exists rs. split; [done|]. rewrite Hrs. split; [by exists eo, en|]. by intros (? & ? & [= <-] & [= <-] & ?).
Qed.

Lemma vendor_reasons_spec :
  exists rs, vendor_reasons old_body new_body default_body = Ok rs /\
    (rs = [] <-> exists old new, _vendor_entry old_body default_body = Ok old /\
      _vendor_entry new_body default_body = Ok new /\ entry_kept old new).
Proof.
  unfold vendor_reasons.
  destruct (vendor_entry_view g old_body default_body) as (eo & ro & dys & Heo & Hvo & _); [done..|].
  destruct (vendor_entry_view g new_body default_body) as (en & rn & dys' & Hen & Hvn & _); [done..|].
  rewrite Heo, Hen. cbn [rbind].
  destruct (entry_reasons_spec _ _ _ _ _ _
    "vendors: an approval stage is removed or its role replaced"
    "vendors: recertification is less frequent or removed" Hvo Hvn) as (rs & -> & Hrs).
  exists rs. split; [done|]. rewrite Hrs. split; [by exists eo, en|]. by intros (? & ? & [= <-] & [= <-] & ?).
Qed.

(** ** Gates *)

Lemma environment_reasons_spec env :
  exists rs, environment_reasons old_body new_body default_body env = Ok rs /\
    (rs = [] <-> gate_kept old_body new_body default_body env).
Proof.
  unfold environment_reasons, gate_kept, _requires_attested, _min_coverage.
  destruct (gate_entry_view g old_body default_body env) as (eo & ao & co & -> & Hao & Hco & _); [done..|].
  destruct (gate_entry_view g new_body default_body env) as (en & an & cn & -> & Han & Hcn & _); [done..|].
  cbn [rbind]. rewrite Hao, Han, Hco, Hcn. cbn [rbind].
  destruct ao; cbn [rbind]; (eexists; split; [done|]); rewrite ?app_nil_iff, !err_if_nil;
    unfold float_ltb; simpl; unfold ext_ltb; simpl; rewrite !negb_false_iff, Qle_bool_iff;
    (split; [intros; split; [naive_solver|exists co, cn; naive_solver]|
             intros [Ha (? & ? & [= <-] & [= <-] & ?)]]).
  - split; [|done]. by injection (Ha eq_refl).
  - done.
Qed.

Lemma named_environments_spec docs :
  Forall (valid_policy g) docs ->
  exists names, named_environments docs = Ok names /\ "*" ∈ names /\
    forall env doc envs, doc ∈ docs -> document_environments doc = Ok (PDict envs) ->
      is_Some (assoc env envs) -> env ∈ names.
Proof.
  intros HF. unfold named_environments.
  set (f := fun document => let! environments := document_environments document in
     match environments with PDict d => Ok (map fst d) | _ => Raise AttributeError end).
  assert (exists ns, rmap f docs = Ok ns /\
    forall env doc envs, doc ∈ docs -> document_environments doc = Ok (PDict envs) ->
      is_Some (assoc env envs) -> env ∈ concat ns) as (ns & -> & Hns).
  { induction HF as [|doc docs Hv _ (ns & Hns & Hin)]; [exists []; split; [done|by intros ? ? ? ?%elem_of_nil]|].
    destruct (document_environments_view g doc Hv) as (envs & He & _).
    exists (map fst envs :: ns). split; [unfold f in *; simpl; rewrite He; simpl; by rewrite Hns|].
    intros env doc' envs' [->|Hd]%elem_of_cons He' Hs; simpl; apply elem_of_app; [left|right; eauto].
    rewrite He in He'. injection He' as <-. by apply assoc_is_Some. }
  eexists; split; [done|]. setoid_rewrite elem_of_sorted_set. split; [by left|].
  intros env doc envs Hd He Hs. right. eauto.
Qed.

(** an environment no document lists is governed by the wildcard entries *)
Lemma gate_entry_unlisted body env (names : list string) :
  valid_policy g body ->
  (forall doc envs, doc ∈ [body; default_body] -> document_environments doc = Ok (PDict envs) ->
     is_Some (assoc env envs) -> env ∈ names) ->
  env ∉ names -> _gate_entry body default_body env = _gate_entry body default_body "*".
Proof.
  intros Hb Hn Hni. unfold _gate_entry. cbn [first_entry].
  assert (forall doc, doc ∈ [body; default_body] -> valid_policy g doc ->
    (let! environments := document_environments doc in environment_entry environments env) =
    (let! environments := document_environments doc in environment_entry environments "*")) as Heq.
  { intros doc Hd Hv. destruct (document_environments_view g doc Hv) as (envs & He & _).
    rewrite He. cbn [rbind]. unfold environment_entry, py_get, py_get_default. simpl.
    destruct (assoc env envs) as [x|] eqn:E; simpl.
    - destruct Hni. by eapply Hn; [..|rewrite E].
    - destruct (assoc "*" envs) as [y|]; [|done]. simpl. destruct y; done. }
  rewrite (Heq body), (Heq default_body) by (done || by repeat constructor). done.
Qed.

Lemma gates_spec names :
  named_environments [old_body; new_body; default_body] = Ok names ->
  (forall env, env ∈ names -> gate_kept old_body new_body default_body env) <->
  (forall env, gate_kept old_body new_body default_body env).
Proof.
  intros Hnames. split; [|auto]. intros Hall env.
  destruct (named_environments_spec [old_body; new_body; default_body]) as (names' & Hn & Hstar & Hin);
    [by repeat constructor|]. rewrite Hnames in Hn. injection Hn as <-.
  destruct (decide (env ∈ names)) as [|Hni]; [auto|].
  specialize (Hall "*" Hstar). unfold gate_kept, _requires_attested, _min_coverage in *.
  rewrite (gate_entry_unlisted old_body env names), (gate_entry_unlisted new_body env names); [done|..];
    try done; intros doc envs Hd; apply Hin; set_solver.
Qed.

(** ** Evidence *)

Lemma evidence_reasons_spec :
  exists rs, evidence_reasons old_body new_body default_body = Ok rs /\
    (rs = [] <-> exists w s w' s', _evidence_settings old_body default_body = Ok (w, s) /\
      _evidence_settings new_body default_body = Ok (w', s') /\ (w' <= w)%Z /\ (s' <= s)%Z).
Proof.
  unfold evidence_reasons.
  destruct (evidence_settings_view g old_body default_body) as (w & s & -> & _); [done..|].
  destruct (evidence_settings_view g new_body default_body) as (w' & s' & -> & _); [done..|].
  cbn [rbind fst snd]. eexists; split; [done|]. rewrite app_nil_iff, !err_if_nil, !Z.ltb_ge. split.
  - intros [? ?]. by exists w, s, w', s'.
  - by intros (? & ? & ? & ? & [= <- <-] & [= <- <-] & ? & ?).
Qed.

(** ** Fields *)

Lemma pd_set_fresh k v d :
  (forall k', k' ∈ map fst d -> py_eqb k' k = false) -> pd_set k v d = d ++ [(k, v)].
Proof.
  induction d as [|[k' v'] d IH]; intros Hf; [done|]. simpl.
  rewrite (Hf k') by (by left). f_equal. apply IH. intros x Hx. apply Hf. by right.
Qed.

Lemma field_key_str v : valid_field v -> exists key, field_key v = PStr key /\ py_get v "key" = Ok (PStr key).
Proof. intros (key & ts & [Hk _] & Hf & _)%valid_field_view. by exists key. Qed.

Lemma index_fields_spec l : forall acc,
  Forall valid_field l -> NoDup (map field_key l) ->
  (forall k, k ∈ map fst acc -> (exists s, k = PStr s) /\ k ∉ map field_key l) ->
  rfold index_field acc l = Ok (acc ++ map (fun f => (field_key f, f)) l).
Proof.
  induction l as [|v l IH]; intros acc HF Hnd Hacc; cbn [rfold map]; [by rewrite app_nil_r|].
  apply Forall_cons in HF as [Hv HF]. apply NoDup_cons in Hnd as [Hni Hnd].
  destruct (field_key_str v Hv) as (key & Hk & Hg). unfold index_field at 1. rewrite Hg. cbn [rbind hashable].
  rewrite pd_set_fresh.
  - rewrite IH; [by rewrite <-app_assoc, Hk|done..|]. intros k. rewrite map_app, elem_of_app.
    intros [Hin|Hin].
    + destruct (Hacc k Hin) as [? Hn]. split; [done|]. intros Hx. apply Hn. by right.
    + apply list_elem_of_singleton in Hin as ->. simpl. split; [by exists key|]. by rewrite <-Hk.
  - intros k' Hin. destruct (Hacc k' Hin) as [(s & ->) Hn].
    apply not_true_is_false. intros E%py_eqb_str. apply Hn. rewrite E. simpl. rewrite Hk. by left.
Qed.

Lemma pd_get_fields l key :
  Forall valid_field l -> NoDup (map field_key l) ->
  match find (fun p => py_eqb (fst p) (PStr key)) (map (fun f => (field_key f, f)) l) with
  | Some (_, f) => f ∈ l /\ field_key f = PStr key /\
                   forall f', f' ∈ l -> field_key f' = PStr key -> f' = f
  | None => PStr key ∉ map field_key l
  end.
Proof.
  induction l as [|v l IH]; intros HF Hnd; cbn [map find fst]; [by intros ?%elem_of_nil|].
  apply Forall_cons in HF as [Hv HF]. apply NoDup_cons in Hnd as [Hni Hnd].
  destruct (py_eqb (field_key v) (PStr key)) eqn:E.
  - apply py_eqb_str in E. split_and!; [by left|done|].
    intros f' [->|Hin]%elem_of_cons Hk; [done|]. destruct Hni. rewrite E, <-Hk. by apply list_elem_of_fmap_2.
  - specialize (IH HF Hnd). assert (field_key v <> PStr key) by (rewrite <-py_eqb_str; congruence).
    destruct (find _ _) as [[? f]|].
    + destruct IH as (Hin & Hk & Hu). split_and!; [by right|done|].
      intros f' [->|Hin']%elem_of_cons Hk'; [done|auto].
    + by intros [?|?]%elem_of_cons.
Qed.

Lemma py_subset_strs l m :
  exists b, py_subset (map PStr l) (map PStr m) = Ok b /\ (b = true <-> l ⊆ m).
Proof.
  unfold py_subset. assert (forall l, forallb hashable (map PStr l) = true) as Hh by (intros x; by induction x).
  rewrite !Hh. simpl. eexists; split; [done|]. rewrite forallb_forall. split.
  - intros Hall x Hx. destruct (py_in_strs (PStr x) m) as [(s & [= <-] & Hs) _]; [|done].
    apply Hall. apply in_map. by rewrite <-list_elem_of_In.
  - intros Hs x (y & <- & Hy)%in_map_iff. apply py_in_strs. exists y. split; [done|]. apply Hs.
    by rewrite list_elem_of_In.
Qed.

Lemma field_view_inj v k ts k' ts' : field_view v k ts -> field_view v k' ts' -> k = k' /\ ts = ts'.
Proof.
  intros [Hk Ht] [Hk' Ht']. rewrite Hk in Hk'. rewrite Ht in Ht'. injection Hk' as ->. injection Ht' as Ht'.
  split; [done|]. revert ts' Ht'. clear. induction ts as [|x ts IH]; intros [|y ts']; simpl; try done.
  intros [= -> ?]. f_equal. auto.
Qed.

Lemma field_reasons_spec l f :
  Forall valid_field l -> NoDup (map field_key l) -> valid_field f ->
  exists rs, field_reasons (map (fun f => (field_key f, f)) l) f = Ok rs /\
    (rs = [] <-> forall key tiers, field_view f key tiers ->
       exists f' tiers', f' ∈ l /\ field_view f' key tiers' /\ tiers ⊆ tiers').
Proof.
  intros HF Hnd Hf. destruct (valid_field_view f Hf) as (key & ts & [Hk Hts] & Hfk & _).
  unfold field_reasons. rewrite Hk. cbn [rbind hashable negb]. unfold pd_get.
  pose proof (pd_get_fields l key HF Hnd) as Hget.
  destruct (find _ _) as [[kk f']|]; cbn [is_none].
  - destruct Hget as (Hin & Hk' & Hu). rewrite Forall_forall in HF.
    destruct (valid_field_view f' (HF _ Hin)) as (key' & ts' & [Hg' Hts'] & Hfk' & ->).
    assert (key' = key) as -> by congruence. rewrite Hts, Hts'. cbn [rbind].
    destruct (py_subset_strs ts ts') as (b & -> & Hb). cbn [rbind]. eexists; split; [done|].
    rewrite err_if_nil, negb_false_iff, Hb. split.
    + intros Hs k tiers Hv. destruct (field_view_inj f k tiers key ts) as [-> ->]; [done|by split|].
      exists f', ts'. split_and!; [done|by split|done].
    + intros Hall. destruct (Hall key ts) as (f2 & ts2 & Hin2 & Hv2 & Hsub); [by split|].
      assert (f2 = f') as ->.
      { apply Hu; [done|]. destruct (field_key_str f2 (HF _ Hin2)) as (k2 & -> & Hk2).
        destruct Hv2 as [Hv2 _]. congruence. }
      by destruct (field_view_inj f' key ts2 key ts') as [_ ->].
  - eexists; split; [done|]. split; [done|]. intros Hall.
    destruct (Hall key ts) as (f2 & ts2 & Hin2 & [Hv2 _] & _); [by split|]. destruct Hget.
    rewrite Forall_forall in HF. destruct (field_key_str f2 (HF _ Hin2)) as (k2 & Hfk2 & Hk2).
    apply list_elem_of_fmap. exists f2. split; [|done]. congruence.
Qed.

(** ** Assembly *)

Lemma rmap_reasons {A} (f : A -> res (list string)) (P : A -> Prop) l :
  (forall x, x ∈ l -> exists rs, f x = Ok rs /\ (rs = [] <-> P x)) ->
  exists rss, rmap f l = Ok rss /\ (concat rss = [] <-> Forall P l).
Proof.
  induction l as [|x l IH]; intros Hf; simpl; [exists []; done|].
  destruct (Hf x) as (rs & -> & Hrs); [by left|].
  destruct IH as (rss & -> & Hrss); [intros; apply Hf; by right|]. simpl.
  eexists; split; [done|]. simpl. by rewrite app_nil_iff, Forall_cons, Hrs, Hrss.
Qed.

Lemma fields_reasons_spec :
  exists old new rss, _intake_fields old_body default_body = Ok old /\
    _intake_fields new_body default_body = Ok new /\
    (let! new_fields := rfold index_field [] new in rmap (field_reasons new_fields) old) = Ok rss /\
    (concat rss = [] <-> field_kept old new).
Proof.
  destruct (intake_fields_view g old_body default_body) as (old & Ho & HFo & _); [done..|].
  destruct (intake_fields_view g new_body default_body) as (new & Hn & HFn & Hnd & _); [done..|].
  exists old, new. rewrite (index_fields_spec new []) by (done || by intros ? ?%elem_of_nil). cbn [rbind app].
  destruct (rmap_reasons (field_reasons (map (fun f => (field_key f, f)) new))
    (fun f => forall key tiers, field_view f key tiers ->
       exists f' tiers', f' ∈ new /\ field_view f' key tiers' /\ tiers ⊆ tiers') old) as (rss & -> & Hrss).
  { intros f Hf. rewrite Forall_forall in HFo. apply field_reasons_spec; auto. }
  exists rss. split_and!; [done..|]. rewrite Hrss, Forall_forall. unfold field_kept. naive_solver.
Qed.

Lemma policy_loosening_spec :
  exists reasons, policy_loosening old_body new_body default_body = Ok reasons /\
    (reasons = [] <-> at_least_as_strict old_body new_body default_body).
Proof.
  unfold policy_loosening.
  destruct (rmap_reasons (tier_reasons old_body new_body default_body) _ RISK_TIERS
    (fun t _ => tier_reasons_spec t)) as (r1 & -> & H1). cbn [rbind].
  destruct vendor_reasons_spec as (r2 & -> & H2). cbn [rbind].
  destruct (named_environments_spec [old_body; new_body; default_body]) as (names & Hn & _);
    [by repeat constructor|]. rewrite Hn. cbn [rbind].
  destruct (rmap_reasons (environment_reasons old_body new_body default_body) _ names
    (fun e _ => environment_reasons_spec e)) as (r3 & -> & H3). cbn [rbind].
  rewrite Forall_forall, gates_spec in H3 by done.
  destruct evidence_reasons_spec as (r4 & -> & H4). cbn [rbind].
  destruct fields_reasons_spec as (old & new & r5 & Ho & Hnw & H5 & H5').
  rewrite Hnw. cbn [rbind]. rewrite Ho. cbn [rbind].
  destruct (rfold index_field [] new) as [nf|]; cbn [rbind] in *; [|done]. rewrite H5. cbn [rbind].
  eexists; split; [done|]. rewrite !app_nil_iff, H1, H2, H3, H4, H5', Forall_forall. split.
  - intros (? & ? & ? & ? & ?). split; try done. by exists old, new.
  - intros [Ht Hv Hg He (? & ? & Hf)]. rewrite Ho, Hnw in Hf. destruct Hf as ([= <-] & [= <-] & ?). done.
Qed.

End Documents.

(** C4. For validated documents [policy_loosening] always answers, and it lists no
    reason exactly when the new document is at least as strict as the old one
    for every tier, for vendor review, for every environment name - listed or
    not -, for both evidence settings and for every declared intake field. *)
Theorem policy_loosening_complete (g : grants) (old_body new_body default_body : pyval) :
  valid_policy g old_body -> valid_policy g new_body -> valid_policy g default_body ->
  exists reasons, policy_loosening old_body new_body default_body = Ok reasons /\
    (reasons = [] <-> at_least_as_strict old_body new_body default_body).
Proof. intros Ho Hn Hd. by apply (policy_loosening_spec g). Qed.

End Strict.

(** a tenant document that asks production gates for a coverage *)
Definition coverage_document (z : Z) : pyval := PDict [
  ("schema", PStr POLICY_SCHEMA);
  ("gates", PDict [("environments", PDict [("production", PDict [("min_control_coverage", PInt z)])])])].

Lemma policy_loosening_complete_witness :
  let host : PyHost :=
    {| repr _ := EmptyString; str_int _ := Raise TypeError; str_float _ := Raise TypeError |} in
  let g := {["governance_reviewer" := {["review.decide"]}]} in
  valid_policy g (coverage_document 80) /\
  exists reasons, policy_loosening (coverage_document 80) (coverage_document 90) DEFAULT_POLICY_BODY = Ok reasons /\
    (reasons = [] <-> at_least_as_strict (coverage_document 80) (coverage_document 90) DEFAULT_POLICY_BODY).
Proof.
  intros host g. split; [apply validate_policy_body_nil; vm_compute; reflexivity|].
  apply (policy_loosening_complete g (coverage_document 80) (coverage_document 90) DEFAULT_POLICY_BODY);
    apply validate_policy_body_nil; vm_compute; reflexivity.
Defined.
