(* ===== verification/Json.v ===== *)
(** * JSON text (storage/entities.py, [encode_json])

    [json.dumps(value, sort_keys=True)] with the default separators and ASCII
    escapes, as the storage layer writes every JSON column and every canonical
    body it hashes.  The digits of a float come from the interpreter
    ([PyHost.repr]). *)

From stdpp Require Import base list strings option pretty sets gmap.
From Stdlib Require Import ZArith Ascii Lia.
From S2P Require Import Prelude Py.

Open Scope nat_scope.

(** ** String literals *)

Definition hex_digit (n : N) : ascii :=
  ascii_of_N (if (n <? 10)%N then 48 + n else 87 + n)%N.

(** the double quote and the line feed *)
Definition dquote : ascii := ascii_of_N 34.
Definition newline : ascii := ascii_of_N 10.

(** one character of a literal: printable ASCII stands for itself *)
Definition escape_char (c : ascii) : string :=
  let n := N_of_ascii c in
  let esc x := String "\" (String x EmptyString) in
  if (n =? 34)%N then esc dquote
  else if (n =? 92)%N then esc "\"%char
  else if (n =? 10)%N then esc "n"%char
  else if (n =? 13)%N then esc "r"%char
  else if (n =? 9)%N then esc "t"%char
  else if (n =? 12)%N then esc "f"%char
  else if (n =? 8)%N then esc "b"%char
  else if ((32 <=? n) && (n <=? 126))%N then String c EmptyString
  else "\u00" +:+ String (hex_digit (n / 16)) (String (hex_digit (n mod 16)) EmptyString).

Fixpoint escape (s : string) : string :=
  match s with
  | EmptyString => EmptyString
  | String c s' => escape_char c +:+ escape s'
  end.

Definition quote (s : string) : string :=
  String dquote (escape s) +:+ String dquote EmptyString.

(** ** Values *)

(** items ordered by key; equal keys keep their order *)
Fixpoint insert_item {A} (kv : string * A) (l : list (string * A)) : list (string * A) :=
  match l with
  | [] => [kv]
  | kv' :: l' => if str_ltb (fst kv') (fst kv) then kv' :: insert_item kv l' else kv :: l
  end.
Definition sort_items {A} (l : list (string * A)) : list (string * A) := foldr insert_item [] l.

Section Encode.
Context `{PyHost}.

(** [json.dumps(v, sort_keys=True, separators=(item, key))] *)
Section Dumps.
Variables item key : string.

Fixpoint dumps (v : pyval) : string :=
  match v with
  | PNone => "null"
  | PBool true => "true"
  | PBool false => "false"
  | PInt z => pretty z
  | PFloat (FFin q) => repr v
  | PFloat (FInf false) => "Infinity"
  | PFloat (FInf true) => "-Infinity"
  | PFloat FNan => "NaN"
  | PStr s => quote s
  | PList l => "[" +:+ join item (map dumps l) +:+ "]"
  | PDict d =>
      let items := (fix go (d : list (string * pyval)) :=
        match d with [] => [] | (k, x) :: d' => (k, dumps x) :: go d' end) d in
      "{" +:+ join item (map (fun kv => quote (fst kv) +:+ key +:+ snd kv) (sort_items items)) +:+ "}"
  end.
End Dumps.

(** the default separators *)
Definition encode_json : pyval -> string := dumps ", " ": ".
(** [separators=(",", ":")] *)
Definition encode_compact : pyval -> string := dumps "," ":".

End Encode.

#[local] Instance plain_host : PyHost :=
  {| repr _ := EmptyString; str_int _ := Raise TypeError; str_float _ := Raise TypeError |}.

Example encode_json_sorts_keys :
  encode_json (PDict [("b", PList [PInt (-3); PNone]); ("a", PBool true)])
  = "{" +:+ quote "a" +:+ ": true, " +:+ quote "b" +:+ ": [-3, null]}".
Proof. reflexivity. Qed.
