(* ===== verification/Sql.v ===== *)
(** * Tables and statements

    A table is the list of its rows in insertion order.  The statements the
    storage modules issue become the operations below: a condition is a boolean
    predicate on a row, NULL is [None], and a comparison with NULL is not true.
    The lemmas are the ones a primary key gives: at most one row per key, and
    what a guarded UPDATE leaves alone. *)

From stdpp Require Import base list strings option pretty sets gmap.
From Stdlib Require Import ZArith Lia Sorted.
From S2P Require Import Prelude Py.

(** ** Statements *)

(** [SELECT * FROM t WHERE p] in row order, and [.fetchone()] of it *)
Definition select {A} (p : A -> bool) (t : list A) : list A := filter (fun r => p r = true) t.
Definition select1 {A} (p : A -> bool) (t : list A) : option A := head (select p t).

(** [UPDATE t SET f WHERE p], and the statement's rowcount *)
Definition update {A} (p : A -> bool) (f : A -> A) (t : list A) : list A :=
  map (fun r => if p r then f r else r) t.
Definition rowcount {A} (p : A -> bool) (t : list A) : nat := length (select p t).

(** [DELETE FROM t WHERE p] *)
Definition delete_where {A} (p : A -> bool) (t : list A) : list A := select (fun r => negb (p r)) t.

Section Key.
Context {A : Type} {K : Type} `{EqDecision K} (key : A -> K).

Definition has_key (k : K) (r : A) : bool := bool_decide (key r = k).

(** [SELECT * FROM t WHERE pk = k] *)
Definition lookup_key (k : K) (t : list A) : option A := select1 (has_key k) t.

(** [UPDATE t SET f WHERE pk = k] *)
Definition update_key (k : K) (f : A -> A) (t : list A) : list A := update (has_key k) f t.

(** [INSERT OR IGNORE] *)
Definition insert_or_ignore (r : A) (t : list A) : list A :=
  match lookup_key (key r) t with Some _ => t | None => t ++ [r] end.

(** [INSERT ... ON CONFLICT(pk) DO UPDATE SET f] *)
Definition upsert (r : A) (f : A -> A) (t : list A) : list A :=
  match lookup_key (key r) t with Some _ => update_key (key r) f t | None => t ++ [r] end.

(** [INSERT OR REPLACE] *)
Definition insert_or_replace (r : A) (t : list A) : list A :=
  delete_where (has_key (key r)) t ++ [r].

(** the primary key constraint *)
Definition keys_unique (t : list A) : Prop := NoDup (map key t).
End Key.

(** [ORDER BY]: rows sorted by a comparison, equal rows in insertion order *)
Fixpoint order_insert {A} (le : A -> A -> bool) (r : A) (t : list A) : list A :=
  match t with
  | [] => [r]
  | x :: t' => if le r x then r :: t else x :: order_insert le r t'
  end.
Definition order_by {A} (le : A -> A -> bool) (t : list A) : list A := foldr (order_insert le) [] t.

(** [a = b] for nullable columns, and the code's null-safe spelling
    [(:a IS NULL AND c IS NULL) OR c = :a] *)
Definition sql_eq (a b : option string) : bool :=
  match a, b with Some x, Some y => String.eqb x y | _, _ => false end.
Definition null_safe_eq (a b : option string) : bool := bool_decide (a = b).

(** ** Arithmetic on INTEGER columns

    An addition whose operands and result are 64-bit integers is exact; any
    other is done in binary64.  A column of INTEGER affinity turns a real back
    into an integer when that loses nothing and the value is strictly between
    the extreme integers.  A sum of integral doubles is integral, and 64-bit
    addends keep it far below the greatest double. *)

Definition int64 (z : Z) : bool := ((- 2 ^ 63 <=? z) && (z <? 2 ^ 63))%Z.

Inductive sql_num := SInt (z : Z) | SReal (z : Z).
#[export] Instance sql_num_eq_dec : EqDecision sql_num.
Proof. solve_decision. Defined.

(** the double nearest to an integer, ties to even *)
Definition real_of (z : Z) : Z :=
  let n := Z.abs z in
  if (n <? 2 ^ 53)%Z then z
  else let e := (Z.log2 n - 52)%Z in (Z.sgn z * (div_half_even n (2 ^ e) * 2 ^ e))%Z.

Definition store_real (r : Z) : sql_num :=
  if ((- 2 ^ 63 <? r) && (r <? 2 ^ 63 - 1))%Z then SInt r else SReal r.

(** [SET column = column + excluded.column], [b] a bound 64-bit integer *)
Definition sql_add (a : sql_num) (b : Z) : sql_num :=
  match a with
  | SInt x => if int64 (x + b) then SInt (x + b) else store_real (real_of (real_of x + real_of b))
  | SReal x => store_real (real_of (x + real_of b))
  end.

Example sql_add_overflows : sql_add (SInt (2 ^ 63 - 1)) 1 = SReal (2 ^ 63).
Proof. reflexivity. Qed.
Example sql_add_absorbs : sql_add (SReal (2 ^ 63)) 120 = SReal (2 ^ 63).
Proof. reflexivity. Qed.
Example sql_add_returns : sql_add (SReal (2 ^ 63)) (- 2 ^ 62) = SInt (2 ^ 62).
Proof. reflexivity. Qed.

(** ** Lemmas *)

Lemma elem_of_select {A} (p : A -> bool) t r : r ∈ select p t <-> p r = true /\ r ∈ t.
Proof. unfold select. by rewrite list_elem_of_filter. Qed.

Lemma select1_Some {A} (p : A -> bool) t r : select1 p t = Some r -> r ∈ t /\ p r = true.
Proof.
  unfold select1. intros H. assert (r ∈ select p t) as Hr.
  { destruct (select p t); [done|]. injection H as ->. by left. }
  apply elem_of_select in Hr. tauto.
Qed.

Lemma select1_None {A} (p : A -> bool) t : select1 p t = None <-> forall r, r ∈ t -> p r = false.
Proof.
  unfold select1. split.
  - intros H r Hr. destruct (p r) eqn:E; [|done].
    assert (r ∈ select p t) as Hin by (by apply elem_of_select).
    destruct (select p t); [by apply elem_of_nil in Hin|done].
  - intros H. destruct (select p t) as [|r l] eqn:E; [done|].
    assert (r ∈ select p t) as [Hp Hr]%elem_of_select by (rewrite E; by left).
    rewrite (H r Hr) in Hp. done.
Qed.

Lemma select_app {A} (p : A -> bool) t u : select p (t ++ u) = select p t ++ select p u.
Proof. apply list.filter_app. Qed.

Lemma select1_app {A} (p : A -> bool) t u :
  select1 p (t ++ u) = match select1 p t with Some r => Some r | None => select1 p u end.
Proof. unfold select1. rewrite select_app. by destruct (select p t). Qed.

Lemma select_cons {A} (p : A -> bool) r t :
  select p (r :: t) = if p r then r :: select p t else select p t.
Proof. unfold select. rewrite filter_cons. by destruct (p r). Qed.

Lemma select_ext {A} (p q : A -> bool) t :
  (forall r, r ∈ t -> p r = q r) -> select p t = select q t.
Proof.
  induction t as [|r t IH]; intros H; [done|]. rewrite !select_cons, H by (by left).
  rewrite IH; [done|]. intros; apply H. by right.
Qed.

Lemma rowcount_0 {A} (p : A -> bool) t : rowcount p t = 0 <-> forall r, r ∈ t -> p r = false.
Proof.
  rewrite <-select1_None. unfold rowcount, select1. destruct (select p t); simpl; split; done.
Qed.

Lemma elem_of_update {A} (p : A -> bool) f t r :
  r ∈ update p f t <-> (exists x, x ∈ t /\ p x = true /\ r = f x) \/ (r ∈ t /\ p r = false).
Proof.
  unfold update. rewrite list_elem_of_fmap. split.
  - intros (x & -> & Hx). destruct (p x) eqn:E; [left; eauto|by right].
  - intros [(x & Hx & Hp & ->)|[Hr Hp]].
    + exists x. by rewrite Hp.
    + exists r. by rewrite Hp.
Qed.

Lemma update_none {A} (p : A -> bool) f t : (forall r, r ∈ t -> p r = false) -> update p f t = t.
Proof.
  induction t as [|r t IH]; intros H; [done|]. simpl. rewrite H by (by left).
  f_equal. apply IH. intros; apply H; by right.
Qed.

Lemma update_rowcount_0 {A} (p : A -> bool) f t : rowcount p t = 0 -> update p f t = t.
Proof. intros H. apply update_none. by apply rowcount_0. Qed.

(** rows in another class than the updated ones are selected unchanged *)
Lemma select_update_other {A} (p q : A -> bool) f t :
  (forall r, r ∈ t -> p r = true -> q r = false /\ q (f r) = false) -> select q (update p f t) = select q t.
Proof.
  induction t as [|r t IH]; intros Hr; [done|]. simpl. rewrite !select_cons.
  rewrite IH by (intros; apply Hr; [by right|done]).
  destruct (p r) eqn:E; [|done]. by destruct (Hr r (list_elem_of_here _ _) E) as [-> ->].
Qed.

(** an update that keeps [q] commutes with selecting by [q] *)
Lemma select_update_keep {A} (p q : A -> bool) f t :
  (forall r, q (f r) = q r) -> select q (update p f t) = update p f (select q t).
Proof.
  intros H. induction t as [|r t IH]; [done|]. simpl. rewrite !select_cons.
  destruct (p r) eqn:E; rewrite ?H; destruct (q r); simpl; rewrite ?E, IH; done.
Qed.

(** two updates by one idempotent assignment are one *)
Lemma update_update {A} (p q : A -> bool) f t :
  (forall r, q (f r) = true -> f (f r) = f r) ->
  update q f (update p f t) = update (fun r => p r || q r) f t.
Proof.
  intros Hf. unfold update. rewrite map_map. apply map_ext. intros r.
  destruct (p r); simpl; [|done]. destruct (q (f r)) eqn:E; [by apply Hf|done].
Qed.

Lemma update_ext {A} (p q : A -> bool) f t :
  (forall r, r ∈ t -> p r = q r) -> update p f t = update q f t.
Proof.
  intros H. unfold update. apply map_ext_in. intros r Hr%list_elem_of_In. by rewrite H.
Qed.

Section KeyLemmas.
Context {A : Type} {K : Type} `{EqDecision K} (key : A -> K).
Implicit Types (t : list A) (r : A) (k : K).

Lemma has_key_true k r : has_key key k r = true <-> key r = k.
Proof. apply bool_decide_eq_true. Qed.
Lemma has_key_false k r : has_key key k r = false <-> key r <> k.
Proof. apply bool_decide_eq_false. Qed.

Lemma has_key_elim k r : has_key key k r = true -> key r = k.
Proof. apply has_key_true. Qed.
Lemma has_key_elim_ne k r : has_key key k r = false -> key r <> k.
Proof. apply has_key_false. Qed.

Lemma lookup_key_Some k t r : lookup_key key k t = Some r -> r ∈ t /\ key r = k.
Proof. by intros [Hr Hk%has_key_true]%select1_Some. Qed.

Lemma lookup_key_None k t : lookup_key key k t = None <-> k ∉ map key t.
Proof.
  unfold lookup_key. rewrite select1_None. split.
  - intros H (r & -> & Hr)%list_elem_of_fmap. specialize (H r Hr). by apply has_key_false in H.
  - intros H r Hr. apply has_key_false. intros <-. by apply H, list_elem_of_fmap_2.
Qed.

Lemma lookup_key_unique k t r :
  keys_unique key t -> r ∈ t -> key r = k -> lookup_key key k t = Some r.
Proof.
  intros Hu Hr Hk. destruct (lookup_key key k t) as [x|] eqn:E.
  - apply lookup_key_Some in E as [Hx Hkx]. f_equal.
    unfold keys_unique in Hu. induction t as [|y t IH]; [by apply elem_of_nil in Hr|].
    simpl in Hu. apply NoDup_cons in Hu as [Hn Hu].
    apply elem_of_cons in Hr as [->|Hr], Hx as [->|Hx]; try done.
    + destruct Hn. rewrite Hk, <-Hkx. by apply list_elem_of_fmap_2.
    + destruct Hn. rewrite Hkx, <-Hk. by apply list_elem_of_fmap_2.
    + by apply IH.
  - apply lookup_key_None in E. destruct E. subst. by apply list_elem_of_fmap_2.
Qed.

Lemma keys_unique_eq t r r' :
  keys_unique key t -> r ∈ t -> r' ∈ t -> key r = key r' -> r = r'.
Proof.
  intros Hu Hr Hr' Hk. pose proof (lookup_key_unique (key r') t r Hu Hr Hk) as H1.
  pose proof (lookup_key_unique (key r') t r' Hu Hr' eq_refl) as H2. congruence.
Qed.

Lemma map_key_update p f t :
  (forall r, key (f r) = key r) -> map key (update p f t) = map key t.
Proof.
  intros Hf. unfold update. rewrite map_map. apply map_ext. intros r. destruct (p r); [apply Hf|done].
Qed.

Lemma keys_unique_update p f t :
  (forall r, key (f r) = key r) -> keys_unique key t -> keys_unique key (update p f t).
Proof. intros Hf Hu. unfold keys_unique. by rewrite map_key_update. Qed.

Lemma lookup_key_update p f k t :
  (forall r, key (f r) = key r) ->
  lookup_key key k (update p f t) = (fun r => if p r then f r else r) <$> lookup_key key k t.
Proof.
  intros Hf. unfold lookup_key, select1.
  rewrite select_update_keep by (intros r; unfold has_key; by rewrite Hf).
  by destruct (select (has_key key k) t).
Qed.

Lemma lookup_key_app k t u :
  lookup_key key k (t ++ u) =
  match lookup_key key k t with Some r => Some r | None => lookup_key key k u end.
Proof. apply select1_app. Qed.

Lemma lookup_key_app_ne k t r : key r <> k -> lookup_key key k (t ++ [r]) = lookup_key key k t.
Proof.
  intros Hk. rewrite lookup_key_app. destruct (lookup_key key k t); [done|].
  apply lookup_key_None. simpl. intros Hin%list_elem_of_singleton. congruence.
Qed.

Lemma lookup_key_app_eq k t r :
  lookup_key key k t = None -> key r = k -> lookup_key key k (t ++ [r]) = Some r.
Proof.
  intros Hn Hk. rewrite lookup_key_app, Hn. unfold lookup_key, select1.
  rewrite select_cons. by rewrite (proj2 (has_key_true k r) Hk).
Qed.

Lemma keys_unique_app t r :
  keys_unique key t -> lookup_key key (key r) t = None -> keys_unique key (t ++ [r]).
Proof.
  intros Hu Hn%lookup_key_None. unfold keys_unique. rewrite map_app. apply NoDup_app.
  split; [done|]. split; [|apply NoDup_singleton]. intros k Hk Hin.
  apply list_elem_of_singleton in Hin as ->. done.
Qed.

Lemma keys_unique_insert_or_ignore t r :
  keys_unique key t -> keys_unique key (insert_or_ignore key r t).
Proof.
  intros Hu. unfold insert_or_ignore. destruct (lookup_key key (key r) t) eqn:E; [done|].
  by apply keys_unique_app.
Qed.

Lemma keys_unique_upsert t r f :
  (forall x, key (f x) = key x) -> keys_unique key t -> keys_unique key (upsert key r f t).
Proof.
  intros Hf Hu. unfold upsert. destruct (lookup_key key (key r) t) eqn:E.
  - by apply keys_unique_update.
  - by apply keys_unique_app.
Qed.

Lemma lookup_key_upsert t r f k :
  (forall x, key (f x) = key x) ->
  lookup_key key k (upsert key r f t) =
  if decide (key r = k) then Some (from_option f r (lookup_key key k t)) else lookup_key key k t.
Proof.
  intros Hf. unfold upsert. destruct (lookup_key key (key r) t) as [x|] eqn:Ex.
  - unfold update_key. rewrite lookup_key_update by done. case_decide as Hk.
    + subst k. rewrite Ex. cbn [fmap option_fmap option_map from_option].
      apply lookup_key_Some in Ex as [_ Hx]. by rewrite (proj2 (has_key_true _ _) Hx).
    + destruct (lookup_key key k t) as [y|] eqn:Ey; [|done]. cbn [fmap option_fmap option_map].
      apply lookup_key_Some in Ey as [_ Hy]. rewrite (proj2 (has_key_false _ _)); [done|]. congruence.
  - case_decide as Hk.
    + subst k. rewrite Ex. by apply lookup_key_app_eq.
    + by apply lookup_key_app_ne.
Qed.

Lemma lookup_key_replace t r k :
  lookup_key key k (insert_or_replace key r t) = if decide (key r = k) then Some r else lookup_key key k t.
Proof.
  unfold insert_or_replace. rewrite lookup_key_app. unfold lookup_key, delete_where. case_decide as Hk.
  - assert (select1 (has_key key k) (select (fun x => negb (has_key key (key r) x)) t) = None) as ->.
    { apply select1_None. intros x [Hx _]%elem_of_select. apply negb_true_iff in Hx. by rewrite <-Hk. }
    unfold select1. rewrite select_cons. by rewrite (proj2 (has_key_true k r) Hk).
  - assert (select1 (has_key key k) [r] = None) as ->.
    { apply select1_None. intros x ->%list_elem_of_singleton. by apply has_key_false. }
    assert (select (has_key key k) (select (fun x => negb (has_key key (key r) x)) t) = select (has_key key k) t) as Hs.
    { induction t as [|x t IH]; [done|]. rewrite !select_cons. destruct (has_key key (key r) x) eqn:E; cbn [negb].
      - rewrite IH. apply has_key_true in E. rewrite (proj2 (has_key_false k x)) by congruence. done.
      - rewrite select_cons, IH. done. }
    unfold select1. rewrite Hs. by destruct (head _).
Qed.

Lemma elem_of_insert_or_ignore t r x :
  x ∈ insert_or_ignore key r t -> x ∈ t \/ x = r.
Proof.
  unfold insert_or_ignore. destruct (lookup_key _ _ _); [by left|].
  intros [?|?%list_elem_of_singleton]%elem_of_app; auto.
Qed.

End KeyLemmas.

Lemma null_safe_eq_true a b : null_safe_eq a b = true <-> a = b.
Proof. apply bool_decide_eq_true. Qed.

#[export] Hint Resolve keys_unique_update keys_unique_insert_or_ignore keys_unique_upsert : norinth.

(** ** ORDER BY *)

Lemma order_insert_perm {A} (le : A -> A -> bool) r t : order_insert le r t ≡ₚ r :: t.
Proof.
  induction t as [|x t IH]; simpl; [done|]. destruct (le r x); [done|].
  rewrite IH. constructor.
Qed.

Lemma order_by_perm {A} (le : A -> A -> bool) t : order_by le t ≡ₚ t.
Proof. induction t as [|r t IH]; simpl; [done|]. by rewrite order_insert_perm, IH. Qed.

Lemma elem_of_order_by {A} (le : A -> A -> bool) t r : r ∈ order_by le t <-> r ∈ t.
Proof. by rewrite order_by_perm. Qed.

Lemma order_by_nil {A} (le : A -> A -> bool) t : order_by le t = [] <-> t = [].
Proof.
  split; [|by intros ->]. intros H. pose proof (order_by_perm le t) as Hp. rewrite H in Hp.
  by apply Permutation_nil_l in Hp.
Qed.

Lemma length_order_by {A} (le : A -> A -> bool) t : length (order_by le t) = length t.
Proof. by rewrite order_by_perm. Qed.

(** the first row of a total order comes before every row *)
Lemma head_order_insert {A} (le : A -> A -> bool) r t :
  head (order_insert le r t) = Some (match head t with Some x => if le r x then r else x | None => r end).
Proof. destruct t as [|x t]; simpl; [done|]. by destruct (le r x). Qed.

Lemma order_by_first {A} (le : A -> A -> bool) t x :
  (forall a b, le a b = true \/ le b a = true) ->
  (forall a b c, le a b = true -> le b c = true -> le a c = true) ->
  head (order_by le t) = Some x -> forall y, y ∈ t -> le x y = true.
Proof.
  intros Htotal Htrans. revert x. induction t as [|r t IH]; intros x Hx y Hy; [done|].
  cbn [order_by foldr] in Hx. rewrite head_order_insert in Hx. fold (order_by le t) in Hx.
  destruct (head (order_by le t)) as [h|] eqn:E; injection Hx as <-.
  - specialize (IH h eq_refl). destruct (le r h) eqn:Hrh; apply elem_of_cons in Hy as [->|Hy].
    + by destruct (Htotal r r).
    + eauto.
    + destruct (Htotal r h) as [?|?]; [congruence|done].
    + auto.
  - assert (order_by le t = []) as Ht by (by destruct (order_by le t)). apply order_by_nil in Ht. subst t.
    apply list_elem_of_singleton in Hy as ->. by destruct (Htotal r r).
Qed.

(** a total order: sorting and selecting commute *)
Section Sorting.
Context {A : Type} (le : A -> A -> bool).
Hypothesis le_total : forall a b, le a b = true \/ le b a = true.
Hypothesis le_trans : forall a b c, le a b = true -> le b c = true -> le a c = true.

Lemma order_insert_sorted r t : StronglySorted (fun a b => le a b = true) t ->
  StronglySorted (fun a b => le a b = true) (order_insert le r t).
Proof.
  induction 1 as [|x t Ht IH Hx]; cbn [order_insert]; [by repeat constructor|].
  destruct (le r x) eqn:E.
  - constructor; [by constructor|]. constructor; [done|]. eapply Forall_impl; [exact Hx|]. cbv beta. eauto.
  - constructor; [done|]. rewrite order_insert_perm. constructor; [|done]. destruct (le_total r x); congruence.
Qed.

Lemma order_by_sorted t : StronglySorted (fun a b => le a b = true) (order_by le t).
Proof. induction t as [|r t IH]; [constructor|]. by apply order_insert_sorted. Qed.

Lemma order_insert_first r t : Forall (fun x => le r x = true) t -> order_insert le r t = r :: t.
Proof. destruct 1 as [|x t Hx]; [done|]. cbn [order_insert]. by rewrite Hx. Qed.

Lemma select_order_insert p r t : StronglySorted (fun a b => le a b = true) t ->
  select p (order_insert le r t) = if p r then order_insert le r (select p t) else select p t.
Proof.
  unfold select. induction 1 as [|x t Ht IH Hx]; cbn [order_insert].
  - rewrite filter_cons. by destruct (p r).
  - destruct (le r x) eqn:E.
    + rewrite (filter_cons _ r). case_decide as Hr; [|by destruct (p r)]. rewrite Hr. symmetry. apply order_insert_first.
      apply Forall_forall. intros y [_ [->|Hy]%elem_of_cons]%list_elem_of_filter; [done|].
      rewrite Forall_forall in Hx. eauto.
    + rewrite !(filter_cons _ x), IH. case_decide; destruct (p r); try done. cbn [order_insert]. by rewrite E.
Qed.

Lemma select_order_by p t : select p (order_by le t) = order_by le (select p t).
Proof.
  induction t as [|r t IH]; [done|]. cbn [order_by foldr]. fold (order_by le t).
  rewrite select_order_insert by apply order_by_sorted. rewrite IH, select_cons. by destruct (p r).
Qed.
End Sorting.

(** ORDER BY several columns: the next one decides between equal keys *)
Section Lex.
Context {A K : Type} (key : A -> K) (lt : K -> K -> bool) (next : A -> A -> bool).
Hypothesis lt_trans : forall x y z, lt x y = true -> lt y z = true -> lt x z = true.
Hypothesis lt_irrefl : forall x, lt x x = false.
Hypothesis lt_total : forall x y, lt x y = true \/ x = y \/ lt y x = true.

Definition lex (a b : A) : bool :=
  if lt (key a) (key b) then true else if lt (key b) (key a) then false else next a b.

Lemma lex_true a b : lex a b = true <-> lt (key a) (key b) = true \/ key a = key b /\ next a b = true.
Proof.
  unfold lex. destruct (lt (key a) (key b)) eqn:E1; [naive_solver|].
  destruct (lt (key b) (key a)) eqn:E2.
  - split; [done|]. intros [?|[Heq _]]; [done|]. rewrite Heq, lt_irrefl in E2. done.
  - destruct (lt_total (key a) (key b)) as [?|[?|?]]; [congruence| |congruence]. naive_solver.
Qed.

Lemma lex_total : (forall a b, next a b = true \/ next b a = true) -> forall a b, lex a b = true \/ lex b a = true.
Proof.
  intros Hnext a b. rewrite !lex_true. destruct (lt_total (key a) (key b)) as [?|[Heq|?]]; [by left; left| |by right; left].
  destruct (Hnext a b); [left|right]; right; by split.
Qed.

Lemma lex_trans : (forall a b c, next a b = true -> next b c = true -> next a c = true) ->
  forall a b c, lex a b = true -> lex b c = true -> lex a c = true.
Proof.
  intros Hnext a b c. rewrite !lex_true. intros [Hab|[Hab Hn]] [Hbc|[Hbc Hn']].
  - left. eauto.
  - left. by rewrite <-Hbc.
  - left. by rewrite Hab.
  - right. split; [congruence|eauto].
Qed.
End Lex.

(** an update that keeps the comparison keeps the order *)
Lemma order_by_update {A} (le : A -> A -> bool) (p : A -> bool) f t :
  (forall x y, le (f x) y = le x y) -> (forall x y, le x (f y) = le x y) ->
  order_by le (update p f t) = update p f (order_by le t).
Proof.
  intros Hl Hr. set (g := fun r => if p r then f r else r).
  assert (forall x y, le (g x) (g y) = le x y) as Hg.
  { intros x y. unfold g. by destruct (p x), (p y); rewrite ?Hl, ?Hr. }
  change (order_by le (map g t) = map g (order_by le t)).
  induction t as [|r t IH]; [done|]. simpl. rewrite IH. clear IH.
  generalize (order_by le t). intros u. induction u as [|x u IH]; [done|]. simpl.
  rewrite Hg. destruct (le r x); [done|]. simpl. by rewrite IH.
Qed.

(** an update that touches exactly one row of a split list *)
Lemma update_split {A} (p : A -> bool) f l1 s l2 :
  p s = true -> (forall r, r ∈ l1 -> p r = false) -> (forall r, r ∈ l2 -> p r = false) ->
  update p f (l1 ++ s :: l2) = l1 ++ f s :: l2.
Proof.
  intros Hs H1 H2. unfold update. rewrite map_app. simpl. rewrite Hs.
  f_equal; [|f_equal]; by apply update_none.
Qed.

Lemma map_key_perm {A K} (key : A -> K) (t u : list A) : t ≡ₚ u -> NoDup (map key t) -> NoDup (map key u).
Proof. intros Hp Hu. change (NoDup (key <$> u)). by rewrite <-Hp. Qed.

Lemma keys_unique_select {A K} (key : A -> K) p (t : list A) :
  keys_unique key t -> keys_unique key (select p t).
Proof.
  unfold keys_unique. induction t as [|r t IH]; [done|]. rewrite select_cons. simpl.
  rewrite NoDup_cons. intros [Hn Hu]. destruct (p r); simpl; [|by apply IH].
  apply NoDup_cons. split; [|by apply IH]. intros (x & Hx & Hin)%list_elem_of_fmap.
  apply elem_of_select in Hin as [_ Hin]. apply Hn. rewrite Hx. by apply list_elem_of_fmap_2.
Qed.

(** splitting a keyed table at a row *)
Lemma keys_unique_split {A K} (key : A -> K) (t : list A) r :
  keys_unique key t -> r ∈ t -> exists l1 l2, t = l1 ++ r :: l2 /\
    (forall x, x ∈ l1 -> key x <> key r) /\ (forall x, x ∈ l2 -> key x <> key r).
Proof.
  intros Hu (l1 & l2 & ->)%list_elem_of_split. exists l1, l2. split; [done|].
  unfold keys_unique in Hu. rewrite map_app in Hu. apply NoDup_app in Hu as (_ & Hd & H2).
  simpl in Hd, H2. apply NoDup_cons in H2 as [H2 _]. split; intros x Hx Heq.
  - apply (Hd (key x)); [by apply list_elem_of_fmap_2|]. rewrite Heq. by left.
  - apply H2. rewrite <-Heq. by apply list_elem_of_fmap_2.
Qed.

(** [SELECT DISTINCT f FROM t], first occurrences in row order *)
Fixpoint distinct {B} `{EqDecision B} (l : list B) : list B :=
  match l with
  | [] => []
  | x :: l' => x :: filter (fun y => y <> x) (distinct l')
  end.
Definition select_distinct {A B} `{EqDecision B} (f : A -> B) (t : list A) : list B := distinct (map f t).

Lemma elem_of_distinct {B} `{EqDecision B} (l : list B) x : x ∈ distinct l <-> x ∈ l.
Proof.
  induction l as [|y l IH]; simpl; [done|].
  rewrite !elem_of_cons, list_elem_of_filter, IH. destruct (decide (x = y)); naive_solver.
Qed.
