(* ===== verification/Events.v ===== *)
(** * Telemetry events

    One event as the ingestion schema accepts it (schemas/events.py): the
    identifying fields are strings and [attributes] is an object with arbitrary
    JSON values, the rest of the code reads them defensively. *)

From stdpp Require Import base list strings option.
From Stdlib Require Import ZArith QArith Lia.
From S2P Require Import Prelude Py.

Open Scope nat_scope.

Record event := mk_event {
  e_type : string;
  e_schema_version : string;
  e_trace_id : string;
  e_span_id : string;
  e_timestamp : string;
  e_service : string;
  e_environment : string;
  e_project : string;
  e_parent_span_id : option string;
  e_system : option string;
  e_name : option string;
  e_status : string;
  e_duration_ms : option pyfloat;
  e_attributes : list (string * pyval)
}.

(** [attrs.get(key)] of the attributes, and [as_object(attrs.get("metadata"))] *)
Definition attr (e : event) (key : string) : pyval := default PNone (assoc key (e_attributes e)).
Definition object_get (v : pyval) (key : string) : pyval :=
  match v with PDict d => default PNone (assoc key d) | _ => PNone end.
Definition meta (e : event) (key : string) : pyval := object_get (attr e "metadata") key.

(** [as_int] of storage/raw_events.py and entities.py: a usage counter from client
    data; anything not countable is 0 *)
Definition as_int `{PyHost} (v : pyval) : Z :=
  match v with
  | PInt z => z
  | PFloat (FFin q) => q_trunc q
  | PStr s => match str_float s with Ok (FFin q) => q_trunc q | _ => 0%Z end
  | _ => 0%Z
  end.
