(* ===== verification/Schema.v ===== *)
(** * The governance database

    One record per table, with the columns the modelled statements read or
    write, in the order of the CREATE TABLE statements.  A nullable column is an
    [option], a JSON column holds the decoded value, and [with_<column>] is the
    assignment of an UPDATE.  [db] is the state the operations thread; the
    setters [set_<table>] replace one table. *)

From stdpp Require Import base list strings option.
From Stdlib Require Import ZArith.
From S2P Require Import Prelude Py Sql Events.

(** [platform_users]: workflow.py and migrations.py *)
Record platform_user := mk_platform_user {
  pu_user_ref : string;
  pu_status : string;
  pu_tenant_id : option string;
  pu_platform_role : option string;
  pu_display_name : string;
  pu_email : option string;
  pu_password_hash : option string;
  pu_must_change_password : bool;
  pu_mfa_secret : option string;
  pu_mfa_pending_secret : option string;
  pu_mfa_enabled_at : option string;
  pu_mfa_last_counter : option Z;
  pu_created_at : string;
  pu_updated_at : string
}.

Definition pu_with_status (v : string) (r : platform_user) : platform_user :=
  mk_platform_user (pu_user_ref r) v (pu_tenant_id r) (pu_platform_role r) (pu_display_name r)
    (pu_email r) (pu_password_hash r) (pu_must_change_password r) (pu_mfa_secret r)
    (pu_mfa_pending_secret r) (pu_mfa_enabled_at r) (pu_mfa_last_counter r) (pu_created_at r)
    (pu_updated_at r).

Definition pu_with_tenant_id (v : option string) (r : platform_user) : platform_user :=
  mk_platform_user (pu_user_ref r) (pu_status r) v (pu_platform_role r) (pu_display_name r)
    (pu_email r) (pu_password_hash r) (pu_must_change_password r) (pu_mfa_secret r)
    (pu_mfa_pending_secret r) (pu_mfa_enabled_at r) (pu_mfa_last_counter r) (pu_created_at r)
    (pu_updated_at r).

Definition pu_with_platform_role (v : option string) (r : platform_user) : platform_user :=
  mk_platform_user (pu_user_ref r) (pu_status r) (pu_tenant_id r) v (pu_display_name r)
    (pu_email r) (pu_password_hash r) (pu_must_change_password r) (pu_mfa_secret r)
    (pu_mfa_pending_secret r) (pu_mfa_enabled_at r) (pu_mfa_last_counter r) (pu_created_at r)
    (pu_updated_at r).

Definition pu_with_display_name (v : string) (r : platform_user) : platform_user :=
  mk_platform_user (pu_user_ref r) (pu_status r) (pu_tenant_id r) (pu_platform_role r) v
    (pu_email r) (pu_password_hash r) (pu_must_change_password r) (pu_mfa_secret r)
    (pu_mfa_pending_secret r) (pu_mfa_enabled_at r) (pu_mfa_last_counter r) (pu_created_at r)
    (pu_updated_at r).

Definition pu_with_email (v : option string) (r : platform_user) : platform_user :=
  mk_platform_user (pu_user_ref r) (pu_status r) (pu_tenant_id r) (pu_platform_role r)
    (pu_display_name r) v (pu_password_hash r) (pu_must_change_password r) (pu_mfa_secret r)
    (pu_mfa_pending_secret r) (pu_mfa_enabled_at r) (pu_mfa_last_counter r) (pu_created_at r)
    (pu_updated_at r).

Definition pu_with_password_hash (v : option string) (r : platform_user) : platform_user :=
  mk_platform_user (pu_user_ref r) (pu_status r) (pu_tenant_id r) (pu_platform_role r)
    (pu_display_name r) (pu_email r) v (pu_must_change_password r) (pu_mfa_secret r)
    (pu_mfa_pending_secret r) (pu_mfa_enabled_at r) (pu_mfa_last_counter r) (pu_created_at r)
    (pu_updated_at r).

Definition pu_with_must_change_password (v : bool) (r : platform_user) : platform_user :=
  mk_platform_user (pu_user_ref r) (pu_status r) (pu_tenant_id r) (pu_platform_role r)
    (pu_display_name r) (pu_email r) (pu_password_hash r) v (pu_mfa_secret r)
    (pu_mfa_pending_secret r) (pu_mfa_enabled_at r) (pu_mfa_last_counter r) (pu_created_at r)
    (pu_updated_at r).

Definition pu_with_mfa_secret (v : option string) (r : platform_user) : platform_user :=
  mk_platform_user (pu_user_ref r) (pu_status r) (pu_tenant_id r) (pu_platform_role r)
    (pu_display_name r) (pu_email r) (pu_password_hash r) (pu_must_change_password r) v
    (pu_mfa_pending_secret r) (pu_mfa_enabled_at r) (pu_mfa_last_counter r) (pu_created_at r)
    (pu_updated_at r).

Definition pu_with_mfa_pending_secret (v : option string) (r : platform_user) : platform_user :=
  mk_platform_user (pu_user_ref r) (pu_status r) (pu_tenant_id r) (pu_platform_role r)
    (pu_display_name r) (pu_email r) (pu_password_hash r) (pu_must_change_password r)
    (pu_mfa_secret r) v (pu_mfa_enabled_at r) (pu_mfa_last_counter r) (pu_created_at r)
    (pu_updated_at r).

Definition pu_with_mfa_enabled_at (v : option string) (r : platform_user) : platform_user :=
  mk_platform_user (pu_user_ref r) (pu_status r) (pu_tenant_id r) (pu_platform_role r)
    (pu_display_name r) (pu_email r) (pu_password_hash r) (pu_must_change_password r)
    (pu_mfa_secret r) (pu_mfa_pending_secret r) v (pu_mfa_last_counter r) (pu_created_at r)
    (pu_updated_at r).

Definition pu_with_mfa_last_counter (v : option Z) (r : platform_user) : platform_user :=
  mk_platform_user (pu_user_ref r) (pu_status r) (pu_tenant_id r) (pu_platform_role r)
    (pu_display_name r) (pu_email r) (pu_password_hash r) (pu_must_change_password r)
    (pu_mfa_secret r) (pu_mfa_pending_secret r) (pu_mfa_enabled_at r) v (pu_created_at r)
    (pu_updated_at r).

Definition pu_with_updated_at (v : string) (r : platform_user) : platform_user :=
  mk_platform_user (pu_user_ref r) (pu_status r) (pu_tenant_id r) (pu_platform_role r)
    (pu_display_name r) (pu_email r) (pu_password_hash r) (pu_must_change_password r)
    (pu_mfa_secret r) (pu_mfa_pending_secret r) (pu_mfa_enabled_at r) (pu_mfa_last_counter r)
    (pu_created_at r) v.

(** [sessions]: workflow.py and migrations.py *)
Record session := mk_session {
  ss_token : string;
  ss_user_ref : string;
  ss_created_at : string;
  ss_expires_at : string;
  ss_last_seen_at : option string
}.

Definition ss_with_last_seen_at (v : option string) (r : session) : session :=
  mk_session (ss_token r) (ss_user_ref r) (ss_created_at r) (ss_expires_at r) v.

(** [mfa_recovery_codes]: migrations.py *)
Record recovery_code := mk_recovery_code {
  rc_user_ref : string;
  rc_code_hash : string;
  rc_created_at : string;
  rc_used_at : option string
}.

Definition rc_with_used_at (v : option string) (r : recovery_code) : recovery_code :=
  mk_recovery_code (rc_user_ref r) (rc_code_hash r) (rc_created_at r) v.

(** [mfa_challenges]: migrations.py *)
Record mfa_challenge := mk_mfa_challenge {
  mc_token : string;
  mc_user_ref : string;
  mc_attempts : Z;
  mc_created_at : string;
  mc_expires_at : string
}.

Definition mc_with_attempts (v : Z) (r : mfa_challenge) : mfa_challenge :=
  mk_mfa_challenge (mc_token r) (mc_user_ref r) v (mc_created_at r) (mc_expires_at r).

(** [login_throttle]: login_attempts.py *)
Record throttle_row := mk_throttle_row {
  lt_subject : string;
  lt_failed_count : Z;
  lt_first_failed_at : option string;
  lt_locked_until : option string
}.

Definition lt_with_failed_count (v : Z) (r : throttle_row) : throttle_row :=
  mk_throttle_row (lt_subject r) v (lt_first_failed_at r) (lt_locked_until r).

Definition lt_with_first_failed_at (v : option string) (r : throttle_row) : throttle_row :=
  mk_throttle_row (lt_subject r) (lt_failed_count r) v (lt_locked_until r).

Definition lt_with_locked_until (v : option string) (r : throttle_row) : throttle_row :=
  mk_throttle_row (lt_subject r) (lt_failed_count r) (lt_first_failed_at r) v.

(** [invites]: notifications.py *)
Record invite := mk_invite {
  iv_token_hash : string;
  iv_user_ref : string;
  iv_tenant_id : string;
  iv_created_by : option string;
  iv_created_at : string;
  iv_expires_at : string;
  iv_used_at : option string
}.

Definition iv_with_used_at (v : option string) (r : invite) : invite :=
  mk_invite (iv_token_hash r) (iv_user_ref r) (iv_tenant_id r) (iv_created_by r)
    (iv_created_at r) (iv_expires_at r) v.

(** [role_permissions]: workflow.py *)
Record role_permission := mk_role_permission {
  rp_role : string;
  rp_permission : string
}.

(** [role_assignments]: workflow.py *)
Record role_assignment := mk_role_assignment {
  ra_role_assignment_id : string;
  ra_tenant_id : option string;
  ra_project : option string;
  ra_environment : option string;
  ra_user_ref : string;
  ra_role : string;
  ra_status : string;
  ra_created_at : string;
  ra_updated_at : string
}.

Definition ra_with_status (v : string) (r : role_assignment) : role_assignment :=
  mk_role_assignment (ra_role_assignment_id r) (ra_tenant_id r) (ra_project r)
    (ra_environment r) (ra_user_ref r) (ra_role r) v (ra_created_at r) (ra_updated_at r).

Definition ra_with_updated_at (v : string) (r : role_assignment) : role_assignment :=
  mk_role_assignment (ra_role_assignment_id r) (ra_tenant_id r) (ra_project r)
    (ra_environment r) (ra_user_ref r) (ra_role r) (ra_status r) (ra_created_at r) v.

(** [governance_policies]: policy_engine.py; [body] is the stored JSON document *)
Record governance_policy := mk_governance_policy {
  gp_tenant_id : string;
  gp_version : Z;
  gp_status : string;
  gp_body : pyval;
  gp_body_hash : string;
  gp_created_by : string;
  gp_created_at : string;
  gp_activated_at : option string
}.

Definition gp_with_status (v : string) (r : governance_policy) : governance_policy :=
  mk_governance_policy (gp_tenant_id r) (gp_version r) v (gp_body r) (gp_body_hash r)
    (gp_created_by r) (gp_created_at r) (gp_activated_at r).

Definition gp_with_activated_at (v : option string) (r : governance_policy) : governance_policy :=
  mk_governance_policy (gp_tenant_id r) (gp_version r) (gp_status r) (gp_body r)
    (gp_body_hash r) (gp_created_by r) (gp_created_at r) v.

(** [approval_stages]: policy_engine.py *)
Record approval_stage := mk_approval_stage {
  st_stage_id : string;
  st_tenant_id : option string;
  st_project : string;
  st_environment : string;
  st_application_name : string;
  st_subject_type : string;
  st_subject_id : string;
  st_review_round : Z;
  st_policy_tenant : string;
  st_policy_version : Z;
  st_stage_index : Z;
  st_required_role : string;
  st_label : option string;
  st_mode : string;
  st_status : string;
  st_decision_id : option string;
  st_decided_by : option string;
  st_created_at : string;
  st_decided_at : option string
}.

Definition st_with_status (v : string) (r : approval_stage) : approval_stage :=
  mk_approval_stage (st_stage_id r) (st_tenant_id r) (st_project r) (st_environment r)
    (st_application_name r) (st_subject_type r) (st_subject_id r) (st_review_round r)
    (st_policy_tenant r) (st_policy_version r) (st_stage_index r) (st_required_role r)
    (st_label r) (st_mode r) v (st_decision_id r) (st_decided_by r) (st_created_at r)
    (st_decided_at r).

Definition st_with_decision_id (v : option string) (r : approval_stage) : approval_stage :=
  mk_approval_stage (st_stage_id r) (st_tenant_id r) (st_project r) (st_environment r)
    (st_application_name r) (st_subject_type r) (st_subject_id r) (st_review_round r)
    (st_policy_tenant r) (st_policy_version r) (st_stage_index r) (st_required_role r)
    (st_label r) (st_mode r) (st_status r) v (st_decided_by r) (st_created_at r)
    (st_decided_at r).

Definition st_with_decided_by (v : option string) (r : approval_stage) : approval_stage :=
  mk_approval_stage (st_stage_id r) (st_tenant_id r) (st_project r) (st_environment r)
    (st_application_name r) (st_subject_type r) (st_subject_id r) (st_review_round r)
    (st_policy_tenant r) (st_policy_version r) (st_stage_index r) (st_required_role r)
    (st_label r) (st_mode r) (st_status r) (st_decision_id r) v (st_created_at r)
    (st_decided_at r).

Definition st_with_decided_at (v : option string) (r : approval_stage) : approval_stage :=
  mk_approval_stage (st_stage_id r) (st_tenant_id r) (st_project r) (st_environment r)
    (st_application_name r) (st_subject_type r) (st_subject_id r) (st_review_round r)
    (st_policy_tenant r) (st_policy_version r) (st_stage_index r) (st_required_role r)
    (st_label r) (st_mode r) (st_status r) (st_decision_id r) (st_decided_by r)
    (st_created_at r) v.

(** [vendor_registry]: policy_engine.py; [providers] and [approved_models] are JSON lists *)
Record vendor := mk_vendor {
  vd_vendor_id : string;
  vd_tenant_id : string;
  vd_name : string;
  vd_providers : list string;
  vd_status : string;
  vd_approved_models : option (list string);
  vd_notes_ref : option string;
  vd_review_round : Z;
  vd_created_by : string;
  vd_submitted_by : option string;
  vd_created_at : string;
  vd_updated_at : string;
  vd_reviewed_at : option string
}.

Definition vd_with_providers (v : list string) (r : vendor) : vendor :=
  mk_vendor (vd_vendor_id r) (vd_tenant_id r) (vd_name r) v (vd_status r) (vd_approved_models r)
    (vd_notes_ref r) (vd_review_round r) (vd_created_by r) (vd_submitted_by r) (vd_created_at r)
    (vd_updated_at r) (vd_reviewed_at r).

Definition vd_with_status (v : string) (r : vendor) : vendor :=
  mk_vendor (vd_vendor_id r) (vd_tenant_id r) (vd_name r) (vd_providers r) v
    (vd_approved_models r) (vd_notes_ref r) (vd_review_round r) (vd_created_by r)
    (vd_submitted_by r) (vd_created_at r) (vd_updated_at r) (vd_reviewed_at r).

Definition vd_with_approved_models (v : option (list string)) (r : vendor) : vendor :=
  mk_vendor (vd_vendor_id r) (vd_tenant_id r) (vd_name r) (vd_providers r) (vd_status r) v
    (vd_notes_ref r) (vd_review_round r) (vd_created_by r) (vd_submitted_by r) (vd_created_at r)
    (vd_updated_at r) (vd_reviewed_at r).

Definition vd_with_notes_ref (v : option string) (r : vendor) : vendor :=
  mk_vendor (vd_vendor_id r) (vd_tenant_id r) (vd_name r) (vd_providers r) (vd_status r)
    (vd_approved_models r) v (vd_review_round r) (vd_created_by r) (vd_submitted_by r)
    (vd_created_at r) (vd_updated_at r) (vd_reviewed_at r).

Definition vd_with_review_round (v : Z) (r : vendor) : vendor :=
  mk_vendor (vd_vendor_id r) (vd_tenant_id r) (vd_name r) (vd_providers r) (vd_status r)
    (vd_approved_models r) (vd_notes_ref r) v (vd_created_by r) (vd_submitted_by r)
    (vd_created_at r) (vd_updated_at r) (vd_reviewed_at r).

Definition vd_with_submitted_by (v : option string) (r : vendor) : vendor :=
  mk_vendor (vd_vendor_id r) (vd_tenant_id r) (vd_name r) (vd_providers r) (vd_status r)
    (vd_approved_models r) (vd_notes_ref r) (vd_review_round r) (vd_created_by r) v
    (vd_created_at r) (vd_updated_at r) (vd_reviewed_at r).

Definition vd_with_updated_at (v : string) (r : vendor) : vendor :=
  mk_vendor (vd_vendor_id r) (vd_tenant_id r) (vd_name r) (vd_providers r) (vd_status r)
    (vd_approved_models r) (vd_notes_ref r) (vd_review_round r) (vd_created_by r)
    (vd_submitted_by r) (vd_created_at r) v (vd_reviewed_at r).

Definition vd_with_reviewed_at (v : option string) (r : vendor) : vendor :=
  mk_vendor (vd_vendor_id r) (vd_tenant_id r) (vd_name r) (vd_providers r) (vd_status r)
    (vd_approved_models r) (vd_notes_ref r) (vd_review_round r) (vd_created_by r)
    (vd_submitted_by r) (vd_created_at r) (vd_updated_at r) v.

(** [vendor_evidence_references]: vendor_evidence.py; dates are ISO text *)
Record evidence_reference := mk_evidence_reference {
  ve_reference_id : string;
  ve_tenant_id : string;
  ve_vendor_id : string;
  ve_kind : string;
  ve_name : string;
  ve_identifier : option string;
  ve_issued_at : string;
  ve_expires_at : string;
  ve_document_hash : option string;
  ve_status : string;
  ve_created_by : string;
  ve_created_at : string;
  ve_updated_at : string;
  ve_expired_at : option string;
  ve_expiry_notice_sent_at : option string
}.

Definition ve_with_identifier (v : option string) (r : evidence_reference) : evidence_reference :=
  mk_evidence_reference (ve_reference_id r) (ve_tenant_id r) (ve_vendor_id r) (ve_kind r)
    (ve_name r) v (ve_issued_at r) (ve_expires_at r) (ve_document_hash r) (ve_status r)
    (ve_created_by r) (ve_created_at r) (ve_updated_at r) (ve_expired_at r)
    (ve_expiry_notice_sent_at r).

Definition ve_with_document_hash (v : option string) (r : evidence_reference) : evidence_reference :=
  mk_evidence_reference (ve_reference_id r) (ve_tenant_id r) (ve_vendor_id r) (ve_kind r)
    (ve_name r) (ve_identifier r) (ve_issued_at r) (ve_expires_at r) v (ve_status r)
    (ve_created_by r) (ve_created_at r) (ve_updated_at r) (ve_expired_at r)
    (ve_expiry_notice_sent_at r).

Definition ve_with_status (v : string) (r : evidence_reference) : evidence_reference :=
  mk_evidence_reference (ve_reference_id r) (ve_tenant_id r) (ve_vendor_id r) (ve_kind r)
    (ve_name r) (ve_identifier r) (ve_issued_at r) (ve_expires_at r) (ve_document_hash r) v
    (ve_created_by r) (ve_created_at r) (ve_updated_at r) (ve_expired_at r)
    (ve_expiry_notice_sent_at r).

Definition ve_with_updated_at (v : string) (r : evidence_reference) : evidence_reference :=
  mk_evidence_reference (ve_reference_id r) (ve_tenant_id r) (ve_vendor_id r) (ve_kind r)
    (ve_name r) (ve_identifier r) (ve_issued_at r) (ve_expires_at r) (ve_document_hash r)
    (ve_status r) (ve_created_by r) (ve_created_at r) v (ve_expired_at r)
    (ve_expiry_notice_sent_at r).

Definition ve_with_expired_at (v : option string) (r : evidence_reference) : evidence_reference :=
  mk_evidence_reference (ve_reference_id r) (ve_tenant_id r) (ve_vendor_id r) (ve_kind r)
    (ve_name r) (ve_identifier r) (ve_issued_at r) (ve_expires_at r) (ve_document_hash r)
    (ve_status r) (ve_created_by r) (ve_created_at r) (ve_updated_at r) v
    (ve_expiry_notice_sent_at r).

Definition ve_with_expiry_notice_sent_at (v : option string) (r : evidence_reference) : evidence_reference :=
  mk_evidence_reference (ve_reference_id r) (ve_tenant_id r) (ve_vendor_id r) (ve_kind r)
    (ve_name r) (ve_identifier r) (ve_issued_at r) (ve_expires_at r) (ve_document_hash r)
    (ve_status r) (ve_created_by r) (ve_created_at r) (ve_updated_at r) (ve_expired_at r) v.

(** [review_tasks]: lifecycle.py and workflow.py *)
Record review_task := mk_review_task {
  rt_task_id : string;
  rt_change_id : string;
  rt_tenant_id : option string;
  rt_project : string;
  rt_environment : string;
  rt_application_name : string;
  rt_task_type : string;
  rt_status : string;
  rt_priority : string;
  rt_title : string;
  rt_rationale : string;
  rt_created_at : string;
  rt_updated_at : string;
  rt_assigned_role : option string;
  rt_assigned_to : option string;
  rt_due_at : option string;
  rt_escalation_status : string;
  rt_escalated_at : option string
}.

Definition rt_with_status (v : string) (r : review_task) : review_task :=
  mk_review_task (rt_task_id r) (rt_change_id r) (rt_tenant_id r) (rt_project r)
    (rt_environment r) (rt_application_name r) (rt_task_type r) v (rt_priority r) (rt_title r)
    (rt_rationale r) (rt_created_at r) (rt_updated_at r) (rt_assigned_role r) (rt_assigned_to r)
    (rt_due_at r) (rt_escalation_status r) (rt_escalated_at r).

Definition rt_with_priority (v : string) (r : review_task) : review_task :=
  mk_review_task (rt_task_id r) (rt_change_id r) (rt_tenant_id r) (rt_project r)
    (rt_environment r) (rt_application_name r) (rt_task_type r) (rt_status r) v (rt_title r)
    (rt_rationale r) (rt_created_at r) (rt_updated_at r) (rt_assigned_role r) (rt_assigned_to r)
    (rt_due_at r) (rt_escalation_status r) (rt_escalated_at r).

Definition rt_with_title (v : string) (r : review_task) : review_task :=
  mk_review_task (rt_task_id r) (rt_change_id r) (rt_tenant_id r) (rt_project r)
    (rt_environment r) (rt_application_name r) (rt_task_type r) (rt_status r) (rt_priority r) v
    (rt_rationale r) (rt_created_at r) (rt_updated_at r) (rt_assigned_role r) (rt_assigned_to r)
    (rt_due_at r) (rt_escalation_status r) (rt_escalated_at r).

Definition rt_with_rationale (v : string) (r : review_task) : review_task :=
  mk_review_task (rt_task_id r) (rt_change_id r) (rt_tenant_id r) (rt_project r)
    (rt_environment r) (rt_application_name r) (rt_task_type r) (rt_status r) (rt_priority r)
    (rt_title r) v (rt_created_at r) (rt_updated_at r) (rt_assigned_role r) (rt_assigned_to r)
    (rt_due_at r) (rt_escalation_status r) (rt_escalated_at r).

Definition rt_with_updated_at (v : string) (r : review_task) : review_task :=
  mk_review_task (rt_task_id r) (rt_change_id r) (rt_tenant_id r) (rt_project r)
    (rt_environment r) (rt_application_name r) (rt_task_type r) (rt_status r) (rt_priority r)
    (rt_title r) (rt_rationale r) (rt_created_at r) v (rt_assigned_role r) (rt_assigned_to r)
    (rt_due_at r) (rt_escalation_status r) (rt_escalated_at r).

Definition rt_with_assigned_role (v : option string) (r : review_task) : review_task :=
  mk_review_task (rt_task_id r) (rt_change_id r) (rt_tenant_id r) (rt_project r)
    (rt_environment r) (rt_application_name r) (rt_task_type r) (rt_status r) (rt_priority r)
    (rt_title r) (rt_rationale r) (rt_created_at r) (rt_updated_at r) v (rt_assigned_to r)
    (rt_due_at r) (rt_escalation_status r) (rt_escalated_at r).

Definition rt_with_assigned_to (v : option string) (r : review_task) : review_task :=
  mk_review_task (rt_task_id r) (rt_change_id r) (rt_tenant_id r) (rt_project r)
    (rt_environment r) (rt_application_name r) (rt_task_type r) (rt_status r) (rt_priority r)
    (rt_title r) (rt_rationale r) (rt_created_at r) (rt_updated_at r) (rt_assigned_role r) v
    (rt_due_at r) (rt_escalation_status r) (rt_escalated_at r).

Definition rt_with_due_at (v : option string) (r : review_task) : review_task :=
  mk_review_task (rt_task_id r) (rt_change_id r) (rt_tenant_id r) (rt_project r)
    (rt_environment r) (rt_application_name r) (rt_task_type r) (rt_status r) (rt_priority r)
    (rt_title r) (rt_rationale r) (rt_created_at r) (rt_updated_at r) (rt_assigned_role r)
    (rt_assigned_to r) v (rt_escalation_status r) (rt_escalated_at r).

Definition rt_with_escalation_status (v : string) (r : review_task) : review_task :=
  mk_review_task (rt_task_id r) (rt_change_id r) (rt_tenant_id r) (rt_project r)
    (rt_environment r) (rt_application_name r) (rt_task_type r) (rt_status r) (rt_priority r)
    (rt_title r) (rt_rationale r) (rt_created_at r) (rt_updated_at r) (rt_assigned_role r)
    (rt_assigned_to r) (rt_due_at r) v (rt_escalated_at r).

Definition rt_with_escalated_at (v : option string) (r : review_task) : review_task :=
  mk_review_task (rt_task_id r) (rt_change_id r) (rt_tenant_id r) (rt_project r)
    (rt_environment r) (rt_application_name r) (rt_task_type r) (rt_status r) (rt_priority r)
    (rt_title r) (rt_rationale r) (rt_created_at r) (rt_updated_at r) (rt_assigned_role r)
    (rt_assigned_to r) (rt_due_at r) (rt_escalation_status r) v.

(** [ai_use_cases]: intake.py *)
Record use_case := mk_use_case {
  uc_intake_id : string;
  uc_tenant_id : option string;
  uc_project : string;
  uc_environment : string;
  uc_application_name : string;
  uc_use_case_name : string;
  uc_description : string;
  uc_intended_purpose : string;
  uc_data_sensitivity : string;
  uc_autonomy_level : string;
  uc_affects_individuals : bool;
  uc_risk_tier : string;
  uc_status : string;
  uc_submitted_by : string;
  uc_custom_fields : option pyval;
  uc_created_at : string;
  uc_updated_at : string
}.

Definition uc_with_description (v : string) (r : use_case) : use_case :=
  mk_use_case (uc_intake_id r) (uc_tenant_id r) (uc_project r) (uc_environment r)
    (uc_application_name r) (uc_use_case_name r) v (uc_intended_purpose r)
    (uc_data_sensitivity r) (uc_autonomy_level r) (uc_affects_individuals r) (uc_risk_tier r)
    (uc_status r) (uc_submitted_by r) (uc_custom_fields r) (uc_created_at r) (uc_updated_at r).

Definition uc_with_intended_purpose (v : string) (r : use_case) : use_case :=
  mk_use_case (uc_intake_id r) (uc_tenant_id r) (uc_project r) (uc_environment r)
    (uc_application_name r) (uc_use_case_name r) (uc_description r) v (uc_data_sensitivity r)
    (uc_autonomy_level r) (uc_affects_individuals r) (uc_risk_tier r) (uc_status r)
    (uc_submitted_by r) (uc_custom_fields r) (uc_created_at r) (uc_updated_at r).

Definition uc_with_data_sensitivity (v : string) (r : use_case) : use_case :=
  mk_use_case (uc_intake_id r) (uc_tenant_id r) (uc_project r) (uc_environment r)
    (uc_application_name r) (uc_use_case_name r) (uc_description r) (uc_intended_purpose r) v
    (uc_autonomy_level r) (uc_affects_individuals r) (uc_risk_tier r) (uc_status r)
    (uc_submitted_by r) (uc_custom_fields r) (uc_created_at r) (uc_updated_at r).

Definition uc_with_autonomy_level (v : string) (r : use_case) : use_case :=
  mk_use_case (uc_intake_id r) (uc_tenant_id r) (uc_project r) (uc_environment r)
    (uc_application_name r) (uc_use_case_name r) (uc_description r) (uc_intended_purpose r)
    (uc_data_sensitivity r) v (uc_affects_individuals r) (uc_risk_tier r) (uc_status r)
    (uc_submitted_by r) (uc_custom_fields r) (uc_created_at r) (uc_updated_at r).

Definition uc_with_affects_individuals (v : bool) (r : use_case) : use_case :=
  mk_use_case (uc_intake_id r) (uc_tenant_id r) (uc_project r) (uc_environment r)
    (uc_application_name r) (uc_use_case_name r) (uc_description r) (uc_intended_purpose r)
    (uc_data_sensitivity r) (uc_autonomy_level r) v (uc_risk_tier r) (uc_status r)
    (uc_submitted_by r) (uc_custom_fields r) (uc_created_at r) (uc_updated_at r).

Definition uc_with_risk_tier (v : string) (r : use_case) : use_case :=
  mk_use_case (uc_intake_id r) (uc_tenant_id r) (uc_project r) (uc_environment r)
    (uc_application_name r) (uc_use_case_name r) (uc_description r) (uc_intended_purpose r)
    (uc_data_sensitivity r) (uc_autonomy_level r) (uc_affects_individuals r) v (uc_status r)
    (uc_submitted_by r) (uc_custom_fields r) (uc_created_at r) (uc_updated_at r).

Definition uc_with_status (v : string) (r : use_case) : use_case :=
  mk_use_case (uc_intake_id r) (uc_tenant_id r) (uc_project r) (uc_environment r)
    (uc_application_name r) (uc_use_case_name r) (uc_description r) (uc_intended_purpose r)
    (uc_data_sensitivity r) (uc_autonomy_level r) (uc_affects_individuals r) (uc_risk_tier r) v
    (uc_submitted_by r) (uc_custom_fields r) (uc_created_at r) (uc_updated_at r).

Definition uc_with_custom_fields (v : option pyval) (r : use_case) : use_case :=
  mk_use_case (uc_intake_id r) (uc_tenant_id r) (uc_project r) (uc_environment r)
    (uc_application_name r) (uc_use_case_name r) (uc_description r) (uc_intended_purpose r)
    (uc_data_sensitivity r) (uc_autonomy_level r) (uc_affects_individuals r) (uc_risk_tier r)
    (uc_status r) (uc_submitted_by r) v (uc_created_at r) (uc_updated_at r).

Definition uc_with_updated_at (v : string) (r : use_case) : use_case :=
  mk_use_case (uc_intake_id r) (uc_tenant_id r) (uc_project r) (uc_environment r)
    (uc_application_name r) (uc_use_case_name r) (uc_description r) (uc_intended_purpose r)
    (uc_data_sensitivity r) (uc_autonomy_level r) (uc_affects_individuals r) (uc_risk_tier r)
    (uc_status r) (uc_submitted_by r) (uc_custom_fields r) (uc_created_at r) v.

(** [risk_findings]: governance_policy.py; list columns are JSON *)
Record risk_finding := mk_risk_finding {
  rf_finding_id : string;
  rf_tenant_id : option string;
  rf_project : string;
  rf_environment : string;
  rf_application_name : string;
  rf_rule_id : string;
  rf_risk : string;
  rf_severity : string;
  rf_status : string;
  rf_rationale : string;
  rf_framework_refs : list string;
  rf_evidence_trace_ids : list string;
  rf_evidence_summary : string;
  rf_evaluated_at : string
}.

Definition rf_with_risk (v : string) (r : risk_finding) : risk_finding :=
  mk_risk_finding (rf_finding_id r) (rf_tenant_id r) (rf_project r) (rf_environment r)
    (rf_application_name r) (rf_rule_id r) v (rf_severity r) (rf_status r) (rf_rationale r)
    (rf_framework_refs r) (rf_evidence_trace_ids r) (rf_evidence_summary r) (rf_evaluated_at r).

Definition rf_with_severity (v : string) (r : risk_finding) : risk_finding :=
  mk_risk_finding (rf_finding_id r) (rf_tenant_id r) (rf_project r) (rf_environment r)
    (rf_application_name r) (rf_rule_id r) (rf_risk r) v (rf_status r) (rf_rationale r)
    (rf_framework_refs r) (rf_evidence_trace_ids r) (rf_evidence_summary r) (rf_evaluated_at r).

Definition rf_with_status (v : string) (r : risk_finding) : risk_finding :=
  mk_risk_finding (rf_finding_id r) (rf_tenant_id r) (rf_project r) (rf_environment r)
    (rf_application_name r) (rf_rule_id r) (rf_risk r) (rf_severity r) v (rf_rationale r)
    (rf_framework_refs r) (rf_evidence_trace_ids r) (rf_evidence_summary r) (rf_evaluated_at r).

Definition rf_with_rationale (v : string) (r : risk_finding) : risk_finding :=
  mk_risk_finding (rf_finding_id r) (rf_tenant_id r) (rf_project r) (rf_environment r)
    (rf_application_name r) (rf_rule_id r) (rf_risk r) (rf_severity r) (rf_status r) v
    (rf_framework_refs r) (rf_evidence_trace_ids r) (rf_evidence_summary r) (rf_evaluated_at r).

Definition rf_with_framework_refs (v : list string) (r : risk_finding) : risk_finding :=
  mk_risk_finding (rf_finding_id r) (rf_tenant_id r) (rf_project r) (rf_environment r)
    (rf_application_name r) (rf_rule_id r) (rf_risk r) (rf_severity r) (rf_status r)
    (rf_rationale r) v (rf_evidence_trace_ids r) (rf_evidence_summary r) (rf_evaluated_at r).

Definition rf_with_evidence_trace_ids (v : list string) (r : risk_finding) : risk_finding :=
  mk_risk_finding (rf_finding_id r) (rf_tenant_id r) (rf_project r) (rf_environment r)
    (rf_application_name r) (rf_rule_id r) (rf_risk r) (rf_severity r) (rf_status r)
    (rf_rationale r) (rf_framework_refs r) v (rf_evidence_summary r) (rf_evaluated_at r).

Definition rf_with_evidence_summary (v : string) (r : risk_finding) : risk_finding :=
  mk_risk_finding (rf_finding_id r) (rf_tenant_id r) (rf_project r) (rf_environment r)
    (rf_application_name r) (rf_rule_id r) (rf_risk r) (rf_severity r) (rf_status r)
    (rf_rationale r) (rf_framework_refs r) (rf_evidence_trace_ids r) v (rf_evaluated_at r).

Definition rf_with_evaluated_at (v : string) (r : risk_finding) : risk_finding :=
  mk_risk_finding (rf_finding_id r) (rf_tenant_id r) (rf_project r) (rf_environment r)
    (rf_application_name r) (rf_rule_id r) (rf_risk r) (rf_severity r) (rf_status r)
    (rf_rationale r) (rf_framework_refs r) (rf_evidence_trace_ids r) (rf_evidence_summary r) v.

(** [control_assessments]: governance_policy.py; list columns are JSON *)
Record control_assessment := mk_control_assessment {
  ca_assessment_id : string;
  ca_tenant_id : option string;
  ca_project : string;
  ca_environment : string;
  ca_application_name : string;
  ca_control_id : string;
  ca_control_name : string;
  ca_status : string;
  ca_framework_refs : list string;
  ca_evidence_event_types : list string;
  ca_required_fields : list string;
  ca_evidence_trace_ids : list string;
  ca_evidence_count : Z;
  ca_rationale : string;
  ca_evaluated_at : string
}.

Definition ca_with_control_name (v : string) (r : control_assessment) : control_assessment :=
  mk_control_assessment (ca_assessment_id r) (ca_tenant_id r) (ca_project r) (ca_environment r)
    (ca_application_name r) (ca_control_id r) v (ca_status r) (ca_framework_refs r)
    (ca_evidence_event_types r) (ca_required_fields r) (ca_evidence_trace_ids r)
    (ca_evidence_count r) (ca_rationale r) (ca_evaluated_at r).

Definition ca_with_status (v : string) (r : control_assessment) : control_assessment :=
  mk_control_assessment (ca_assessment_id r) (ca_tenant_id r) (ca_project r) (ca_environment r)
    (ca_application_name r) (ca_control_id r) (ca_control_name r) v (ca_framework_refs r)
    (ca_evidence_event_types r) (ca_required_fields r) (ca_evidence_trace_ids r)
    (ca_evidence_count r) (ca_rationale r) (ca_evaluated_at r).

Definition ca_with_framework_refs (v : list string) (r : control_assessment) : control_assessment :=
  mk_control_assessment (ca_assessment_id r) (ca_tenant_id r) (ca_project r) (ca_environment r)
    (ca_application_name r) (ca_control_id r) (ca_control_name r) (ca_status r) v
    (ca_evidence_event_types r) (ca_required_fields r) (ca_evidence_trace_ids r)
    (ca_evidence_count r) (ca_rationale r) (ca_evaluated_at r).

Definition ca_with_evidence_event_types (v : list string) (r : control_assessment) : control_assessment :=
  mk_control_assessment (ca_assessment_id r) (ca_tenant_id r) (ca_project r) (ca_environment r)
    (ca_application_name r) (ca_control_id r) (ca_control_name r) (ca_status r)
    (ca_framework_refs r) v (ca_required_fields r) (ca_evidence_trace_ids r)
    (ca_evidence_count r) (ca_rationale r) (ca_evaluated_at r).

Definition ca_with_required_fields (v : list string) (r : control_assessment) : control_assessment :=
  mk_control_assessment (ca_assessment_id r) (ca_tenant_id r) (ca_project r) (ca_environment r)
    (ca_application_name r) (ca_control_id r) (ca_control_name r) (ca_status r)
    (ca_framework_refs r) (ca_evidence_event_types r) v (ca_evidence_trace_ids r)
    (ca_evidence_count r) (ca_rationale r) (ca_evaluated_at r).

Definition ca_with_evidence_trace_ids (v : list string) (r : control_assessment) : control_assessment :=
  mk_control_assessment (ca_assessment_id r) (ca_tenant_id r) (ca_project r) (ca_environment r)
    (ca_application_name r) (ca_control_id r) (ca_control_name r) (ca_status r)
    (ca_framework_refs r) (ca_evidence_event_types r) (ca_required_fields r) v
    (ca_evidence_count r) (ca_rationale r) (ca_evaluated_at r).

Definition ca_with_evidence_count (v : Z) (r : control_assessment) : control_assessment :=
  mk_control_assessment (ca_assessment_id r) (ca_tenant_id r) (ca_project r) (ca_environment r)
    (ca_application_name r) (ca_control_id r) (ca_control_name r) (ca_status r)
    (ca_framework_refs r) (ca_evidence_event_types r) (ca_required_fields r)
    (ca_evidence_trace_ids r) v (ca_rationale r) (ca_evaluated_at r).

Definition ca_with_rationale (v : string) (r : control_assessment) : control_assessment :=
  mk_control_assessment (ca_assessment_id r) (ca_tenant_id r) (ca_project r) (ca_environment r)
    (ca_application_name r) (ca_control_id r) (ca_control_name r) (ca_status r)
    (ca_framework_refs r) (ca_evidence_event_types r) (ca_required_fields r)
    (ca_evidence_trace_ids r) (ca_evidence_count r) v (ca_evaluated_at r).

Definition ca_with_evaluated_at (v : string) (r : control_assessment) : control_assessment :=
  mk_control_assessment (ca_assessment_id r) (ca_tenant_id r) (ca_project r) (ca_environment r)
    (ca_application_name r) (ca_control_id r) (ca_control_name r) (ca_status r)
    (ca_framework_refs r) (ca_evidence_event_types r) (ca_required_fields r)
    (ca_evidence_trace_ids r) (ca_evidence_count r) (ca_rationale r) v.

(** [change_events]: lifecycle.py; the payload columns are JSON *)
Record change_event := mk_change_event {
  ce_change_id : string;
  ce_tenant_id : option string;
  ce_project : string;
  ce_environment : string;
  ce_application_name : string;
  ce_subject_type : string;
  ce_subject_name : string;
  ce_change_type : string;
  ce_severity : string;
  ce_status : string;
  ce_previous_hash : option string;
  ce_current_hash : string;
  ce_previous_payload : pyval;
  ce_current_payload : pyval;
  ce_changed_fields : list string;
  ce_evidence_trace_ids : list string;
  ce_rationale : string;
  ce_detected_at : string
}.

Definition ce_with_status (v : string) (r : change_event) : change_event :=
  mk_change_event (ce_change_id r) (ce_tenant_id r) (ce_project r) (ce_environment r)
    (ce_application_name r) (ce_subject_type r) (ce_subject_name r) (ce_change_type r)
    (ce_severity r) v (ce_previous_hash r) (ce_current_hash r) (ce_previous_payload r)
    (ce_current_payload r) (ce_changed_fields r) (ce_evidence_trace_ids r) (ce_rationale r)
    (ce_detected_at r).

(** [governance_incidents]: incidents.py; [description_summary] is JSON text *)
Record incident := mk_incident {
  in_incident_id : string;
  in_tenant_id : string;
  in_project : string;
  in_environment : string;
  in_application_name : string;
  in_workflow_name : string;
  in_title : string;
  in_severity : string;
  in_status : string;
  in_description_summary : string;
  in_detected_by : option string;
  in_trace_id : string;
  in_impacted_trace_id : option string;
  in_provider : option string;
  in_model : option string;
  in_risk_count : Z;
  in_missing_control_count : Z;
  in_deployment_id : option string;
  in_deployment_version_id : option string;
  in_deployment_gate_id : option string;
  in_actor_ref : option string;
  in_resolution_rationale : option string;
  in_first_seen : string;
  in_last_seen : string;
  in_closed_at : option string
}.

Definition in_with_title (v : string) (r : incident) : incident :=
  mk_incident (in_incident_id r) (in_tenant_id r) (in_project r) (in_environment r)
    (in_application_name r) (in_workflow_name r) v (in_severity r) (in_status r)
    (in_description_summary r) (in_detected_by r) (in_trace_id r) (in_impacted_trace_id r)
    (in_provider r) (in_model r) (in_risk_count r) (in_missing_control_count r)
    (in_deployment_id r) (in_deployment_version_id r) (in_deployment_gate_id r) (in_actor_ref r)
    (in_resolution_rationale r) (in_first_seen r) (in_last_seen r) (in_closed_at r).

Definition in_with_severity (v : string) (r : incident) : incident :=
  mk_incident (in_incident_id r) (in_tenant_id r) (in_project r) (in_environment r)
    (in_application_name r) (in_workflow_name r) (in_title r) v (in_status r)
    (in_description_summary r) (in_detected_by r) (in_trace_id r) (in_impacted_trace_id r)
    (in_provider r) (in_model r) (in_risk_count r) (in_missing_control_count r)
    (in_deployment_id r) (in_deployment_version_id r) (in_deployment_gate_id r) (in_actor_ref r)
    (in_resolution_rationale r) (in_first_seen r) (in_last_seen r) (in_closed_at r).

Definition in_with_status (v : string) (r : incident) : incident :=
  mk_incident (in_incident_id r) (in_tenant_id r) (in_project r) (in_environment r)
    (in_application_name r) (in_workflow_name r) (in_title r) (in_severity r) v
    (in_description_summary r) (in_detected_by r) (in_trace_id r) (in_impacted_trace_id r)
    (in_provider r) (in_model r) (in_risk_count r) (in_missing_control_count r)
    (in_deployment_id r) (in_deployment_version_id r) (in_deployment_gate_id r) (in_actor_ref r)
    (in_resolution_rationale r) (in_first_seen r) (in_last_seen r) (in_closed_at r).

Definition in_with_description_summary (v : string) (r : incident) : incident :=
  mk_incident (in_incident_id r) (in_tenant_id r) (in_project r) (in_environment r)
    (in_application_name r) (in_workflow_name r) (in_title r) (in_severity r) (in_status r) v
    (in_detected_by r) (in_trace_id r) (in_impacted_trace_id r) (in_provider r) (in_model r)
    (in_risk_count r) (in_missing_control_count r) (in_deployment_id r)
    (in_deployment_version_id r) (in_deployment_gate_id r) (in_actor_ref r)
    (in_resolution_rationale r) (in_first_seen r) (in_last_seen r) (in_closed_at r).

Definition in_with_detected_by (v : option string) (r : incident) : incident :=
  mk_incident (in_incident_id r) (in_tenant_id r) (in_project r) (in_environment r)
    (in_application_name r) (in_workflow_name r) (in_title r) (in_severity r) (in_status r)
    (in_description_summary r) v (in_trace_id r) (in_impacted_trace_id r) (in_provider r)
    (in_model r) (in_risk_count r) (in_missing_control_count r) (in_deployment_id r)
    (in_deployment_version_id r) (in_deployment_gate_id r) (in_actor_ref r)
    (in_resolution_rationale r) (in_first_seen r) (in_last_seen r) (in_closed_at r).

Definition in_with_impacted_trace_id (v : option string) (r : incident) : incident :=
  mk_incident (in_incident_id r) (in_tenant_id r) (in_project r) (in_environment r)
    (in_application_name r) (in_workflow_name r) (in_title r) (in_severity r) (in_status r)
    (in_description_summary r) (in_detected_by r) (in_trace_id r) v (in_provider r) (in_model r)
    (in_risk_count r) (in_missing_control_count r) (in_deployment_id r)
    (in_deployment_version_id r) (in_deployment_gate_id r) (in_actor_ref r)
    (in_resolution_rationale r) (in_first_seen r) (in_last_seen r) (in_closed_at r).

Definition in_with_provider (v : option string) (r : incident) : incident :=
  mk_incident (in_incident_id r) (in_tenant_id r) (in_project r) (in_environment r)
    (in_application_name r) (in_workflow_name r) (in_title r) (in_severity r) (in_status r)
    (in_description_summary r) (in_detected_by r) (in_trace_id r) (in_impacted_trace_id r) v
    (in_model r) (in_risk_count r) (in_missing_control_count r) (in_deployment_id r)
    (in_deployment_version_id r) (in_deployment_gate_id r) (in_actor_ref r)
    (in_resolution_rationale r) (in_first_seen r) (in_last_seen r) (in_closed_at r).

Definition in_with_model (v : option string) (r : incident) : incident :=
  mk_incident (in_incident_id r) (in_tenant_id r) (in_project r) (in_environment r)
    (in_application_name r) (in_workflow_name r) (in_title r) (in_severity r) (in_status r)
    (in_description_summary r) (in_detected_by r) (in_trace_id r) (in_impacted_trace_id r)
    (in_provider r) v (in_risk_count r) (in_missing_control_count r) (in_deployment_id r)
    (in_deployment_version_id r) (in_deployment_gate_id r) (in_actor_ref r)
    (in_resolution_rationale r) (in_first_seen r) (in_last_seen r) (in_closed_at r).

Definition in_with_risk_count (v : Z) (r : incident) : incident :=
  mk_incident (in_incident_id r) (in_tenant_id r) (in_project r) (in_environment r)
    (in_application_name r) (in_workflow_name r) (in_title r) (in_severity r) (in_status r)
    (in_description_summary r) (in_detected_by r) (in_trace_id r) (in_impacted_trace_id r)
    (in_provider r) (in_model r) v (in_missing_control_count r) (in_deployment_id r)
    (in_deployment_version_id r) (in_deployment_gate_id r) (in_actor_ref r)
    (in_resolution_rationale r) (in_first_seen r) (in_last_seen r) (in_closed_at r).

Definition in_with_missing_control_count (v : Z) (r : incident) : incident :=
  mk_incident (in_incident_id r) (in_tenant_id r) (in_project r) (in_environment r)
    (in_application_name r) (in_workflow_name r) (in_title r) (in_severity r) (in_status r)
    (in_description_summary r) (in_detected_by r) (in_trace_id r) (in_impacted_trace_id r)
    (in_provider r) (in_model r) (in_risk_count r) v (in_deployment_id r)
    (in_deployment_version_id r) (in_deployment_gate_id r) (in_actor_ref r)
    (in_resolution_rationale r) (in_first_seen r) (in_last_seen r) (in_closed_at r).

Definition in_with_deployment_id (v : option string) (r : incident) : incident :=
  mk_incident (in_incident_id r) (in_tenant_id r) (in_project r) (in_environment r)
    (in_application_name r) (in_workflow_name r) (in_title r) (in_severity r) (in_status r)
    (in_description_summary r) (in_detected_by r) (in_trace_id r) (in_impacted_trace_id r)
    (in_provider r) (in_model r) (in_risk_count r) (in_missing_control_count r) v
    (in_deployment_version_id r) (in_deployment_gate_id r) (in_actor_ref r)
    (in_resolution_rationale r) (in_first_seen r) (in_last_seen r) (in_closed_at r).

Definition in_with_deployment_version_id (v : option string) (r : incident) : incident :=
  mk_incident (in_incident_id r) (in_tenant_id r) (in_project r) (in_environment r)
    (in_application_name r) (in_workflow_name r) (in_title r) (in_severity r) (in_status r)
    (in_description_summary r) (in_detected_by r) (in_trace_id r) (in_impacted_trace_id r)
    (in_provider r) (in_model r) (in_risk_count r) (in_missing_control_count r)
    (in_deployment_id r) v (in_deployment_gate_id r) (in_actor_ref r)
    (in_resolution_rationale r) (in_first_seen r) (in_last_seen r) (in_closed_at r).

Definition in_with_deployment_gate_id (v : option string) (r : incident) : incident :=
  mk_incident (in_incident_id r) (in_tenant_id r) (in_project r) (in_environment r)
    (in_application_name r) (in_workflow_name r) (in_title r) (in_severity r) (in_status r)
    (in_description_summary r) (in_detected_by r) (in_trace_id r) (in_impacted_trace_id r)
    (in_provider r) (in_model r) (in_risk_count r) (in_missing_control_count r)
    (in_deployment_id r) (in_deployment_version_id r) v (in_actor_ref r)
    (in_resolution_rationale r) (in_first_seen r) (in_last_seen r) (in_closed_at r).

Definition in_with_actor_ref (v : option string) (r : incident) : incident :=
  mk_incident (in_incident_id r) (in_tenant_id r) (in_project r) (in_environment r)
    (in_application_name r) (in_workflow_name r) (in_title r) (in_severity r) (in_status r)
    (in_description_summary r) (in_detected_by r) (in_trace_id r) (in_impacted_trace_id r)
    (in_provider r) (in_model r) (in_risk_count r) (in_missing_control_count r)
    (in_deployment_id r) (in_deployment_version_id r) (in_deployment_gate_id r) v
    (in_resolution_rationale r) (in_first_seen r) (in_last_seen r) (in_closed_at r).

Definition in_with_resolution_rationale (v : option string) (r : incident) : incident :=
  mk_incident (in_incident_id r) (in_tenant_id r) (in_project r) (in_environment r)
    (in_application_name r) (in_workflow_name r) (in_title r) (in_severity r) (in_status r)
    (in_description_summary r) (in_detected_by r) (in_trace_id r) (in_impacted_trace_id r)
    (in_provider r) (in_model r) (in_risk_count r) (in_missing_control_count r)
    (in_deployment_id r) (in_deployment_version_id r) (in_deployment_gate_id r) (in_actor_ref r)
    v (in_first_seen r) (in_last_seen r) (in_closed_at r).

Definition in_with_last_seen (v : string) (r : incident) : incident :=
  mk_incident (in_incident_id r) (in_tenant_id r) (in_project r) (in_environment r)
    (in_application_name r) (in_workflow_name r) (in_title r) (in_severity r) (in_status r)
    (in_description_summary r) (in_detected_by r) (in_trace_id r) (in_impacted_trace_id r)
    (in_provider r) (in_model r) (in_risk_count r) (in_missing_control_count r)
    (in_deployment_id r) (in_deployment_version_id r) (in_deployment_gate_id r) (in_actor_ref r)
    (in_resolution_rationale r) (in_first_seen r) v (in_closed_at r).

Definition in_with_closed_at (v : option string) (r : incident) : incident :=
  mk_incident (in_incident_id r) (in_tenant_id r) (in_project r) (in_environment r)
    (in_application_name r) (in_workflow_name r) (in_title r) (in_severity r) (in_status r)
    (in_description_summary r) (in_detected_by r) (in_trace_id r) (in_impacted_trace_id r)
    (in_provider r) (in_model r) (in_risk_count r) (in_missing_control_count r)
    (in_deployment_id r) (in_deployment_version_id r) (in_deployment_gate_id r) (in_actor_ref r)
    (in_resolution_rationale r) (in_first_seen r) (in_last_seen r) v.

(** [governance_deployments]: deployments.py *)
Record deployment := mk_deployment {
  dp_deployment_id : string;
  dp_tenant_id : string;
  dp_project : string;
  dp_environment : string;
  dp_application_name : string;
  dp_workflow_name : string;
  dp_current_version : string;
  dp_current_status : string;
  dp_provider : option string;
  dp_model : option string;
  dp_artifact_ref : string;
  dp_first_seen : string;
  dp_last_seen : string
}.

Definition dp_with_current_version (v : string) (r : deployment) : deployment :=
  mk_deployment (dp_deployment_id r) (dp_tenant_id r) (dp_project r) (dp_environment r)
    (dp_application_name r) (dp_workflow_name r) v (dp_current_status r) (dp_provider r)
    (dp_model r) (dp_artifact_ref r) (dp_first_seen r) (dp_last_seen r).

Definition dp_with_current_status (v : string) (r : deployment) : deployment :=
  mk_deployment (dp_deployment_id r) (dp_tenant_id r) (dp_project r) (dp_environment r)
    (dp_application_name r) (dp_workflow_name r) (dp_current_version r) v (dp_provider r)
    (dp_model r) (dp_artifact_ref r) (dp_first_seen r) (dp_last_seen r).

Definition dp_with_provider (v : option string) (r : deployment) : deployment :=
  mk_deployment (dp_deployment_id r) (dp_tenant_id r) (dp_project r) (dp_environment r)
    (dp_application_name r) (dp_workflow_name r) (dp_current_version r) (dp_current_status r) v
    (dp_model r) (dp_artifact_ref r) (dp_first_seen r) (dp_last_seen r).

Definition dp_with_model (v : option string) (r : deployment) : deployment :=
  mk_deployment (dp_deployment_id r) (dp_tenant_id r) (dp_project r) (dp_environment r)
    (dp_application_name r) (dp_workflow_name r) (dp_current_version r) (dp_current_status r)
    (dp_provider r) v (dp_artifact_ref r) (dp_first_seen r) (dp_last_seen r).

Definition dp_with_artifact_ref (v : string) (r : deployment) : deployment :=
  mk_deployment (dp_deployment_id r) (dp_tenant_id r) (dp_project r) (dp_environment r)
    (dp_application_name r) (dp_workflow_name r) (dp_current_version r) (dp_current_status r)
    (dp_provider r) (dp_model r) v (dp_first_seen r) (dp_last_seen r).

Definition dp_with_last_seen (v : string) (r : deployment) : deployment :=
  mk_deployment (dp_deployment_id r) (dp_tenant_id r) (dp_project r) (dp_environment r)
    (dp_application_name r) (dp_workflow_name r) (dp_current_version r) (dp_current_status r)
    (dp_provider r) (dp_model r) (dp_artifact_ref r) (dp_first_seen r) v.

(** [deployment_versions]: deployments.py *)
Record deployment_version := mk_deployment_version {
  dv_version_id : string;
  dv_deployment_id : string;
  dv_tenant_id : option string;
  dv_project : string;
  dv_environment : string;
  dv_application_name : string;
  dv_workflow_name : string;
  dv_version : string;
  dv_status : string;
  dv_provider : option string;
  dv_model : option string;
  dv_artifact_ref : string;
  dv_prompt_version : option string;
  dv_deployed_by : option string;
  dv_trace_id : string;
  dv_observed_at : string
}.

Definition dv_with_status (v : string) (r : deployment_version) : deployment_version :=
  mk_deployment_version (dv_version_id r) (dv_deployment_id r) (dv_tenant_id r) (dv_project r)
    (dv_environment r) (dv_application_name r) (dv_workflow_name r) (dv_version r) v
    (dv_provider r) (dv_model r) (dv_artifact_ref r) (dv_prompt_version r) (dv_deployed_by r)
    (dv_trace_id r) (dv_observed_at r).

Definition dv_with_provider (v : option string) (r : deployment_version) : deployment_version :=
  mk_deployment_version (dv_version_id r) (dv_deployment_id r) (dv_tenant_id r) (dv_project r)
    (dv_environment r) (dv_application_name r) (dv_workflow_name r) (dv_version r) (dv_status r)
    v (dv_model r) (dv_artifact_ref r) (dv_prompt_version r) (dv_deployed_by r) (dv_trace_id r)
    (dv_observed_at r).

Definition dv_with_model (v : option string) (r : deployment_version) : deployment_version :=
  mk_deployment_version (dv_version_id r) (dv_deployment_id r) (dv_tenant_id r) (dv_project r)
    (dv_environment r) (dv_application_name r) (dv_workflow_name r) (dv_version r) (dv_status r)
    (dv_provider r) v (dv_artifact_ref r) (dv_prompt_version r) (dv_deployed_by r)
    (dv_trace_id r) (dv_observed_at r).

Definition dv_with_artifact_ref (v : string) (r : deployment_version) : deployment_version :=
  mk_deployment_version (dv_version_id r) (dv_deployment_id r) (dv_tenant_id r) (dv_project r)
    (dv_environment r) (dv_application_name r) (dv_workflow_name r) (dv_version r) (dv_status r)
    (dv_provider r) (dv_model r) v (dv_prompt_version r) (dv_deployed_by r) (dv_trace_id r)
    (dv_observed_at r).

Definition dv_with_prompt_version (v : option string) (r : deployment_version) : deployment_version :=
  mk_deployment_version (dv_version_id r) (dv_deployment_id r) (dv_tenant_id r) (dv_project r)
    (dv_environment r) (dv_application_name r) (dv_workflow_name r) (dv_version r) (dv_status r)
    (dv_provider r) (dv_model r) (dv_artifact_ref r) v (dv_deployed_by r) (dv_trace_id r)
    (dv_observed_at r).

Definition dv_with_deployed_by (v : option string) (r : deployment_version) : deployment_version :=
  mk_deployment_version (dv_version_id r) (dv_deployment_id r) (dv_tenant_id r) (dv_project r)
    (dv_environment r) (dv_application_name r) (dv_workflow_name r) (dv_version r) (dv_status r)
    (dv_provider r) (dv_model r) (dv_artifact_ref r) (dv_prompt_version r) v (dv_trace_id r)
    (dv_observed_at r).

Definition dv_with_trace_id (v : string) (r : deployment_version) : deployment_version :=
  mk_deployment_version (dv_version_id r) (dv_deployment_id r) (dv_tenant_id r) (dv_project r)
    (dv_environment r) (dv_application_name r) (dv_workflow_name r) (dv_version r) (dv_status r)
    (dv_provider r) (dv_model r) (dv_artifact_ref r) (dv_prompt_version r) (dv_deployed_by r) v
    (dv_observed_at r).

Definition dv_with_observed_at (v : string) (r : deployment_version) : deployment_version :=
  mk_deployment_version (dv_version_id r) (dv_deployment_id r) (dv_tenant_id r) (dv_project r)
    (dv_environment r) (dv_application_name r) (dv_workflow_name r) (dv_version r) (dv_status r)
    (dv_provider r) (dv_model r) (dv_artifact_ref r) (dv_prompt_version r) (dv_deployed_by r)
    (dv_trace_id r) v.

(** [deployment_approval_gates]: deployments.py and migrations.py *)
Record deployment_gate := mk_deployment_gate {
  dg_gate_id : string;
  dg_deployment_id : string;
  dg_version_id : string;
  dg_tenant_id : option string;
  dg_project : string;
  dg_environment : string;
  dg_application_name : string;
  dg_workflow_name : string;
  dg_gate_status : string;
  dg_required_reason : string;
  dg_risk_count : Z;
  dg_missing_control_count : Z;
  dg_material_change_count : Z;
  dg_prompt_version_id : option string;
  dg_prompt_evidence_status : string;
  dg_passing_eval_count : Z;
  dg_actor_ref : option string;
  dg_rationale : option string;
  dg_submitted_at : string;
  dg_decided_at : option string;
  dg_updated_at : string;
  dg_policy_tenant : option string;
  dg_policy_version : option Z;
  dg_undercovered_control_count : Z
}.

Definition dg_with_gate_status (v : string) (r : deployment_gate) : deployment_gate :=
  mk_deployment_gate (dg_gate_id r) (dg_deployment_id r) (dg_version_id r) (dg_tenant_id r)
    (dg_project r) (dg_environment r) (dg_application_name r) (dg_workflow_name r) v
    (dg_required_reason r) (dg_risk_count r) (dg_missing_control_count r)
    (dg_material_change_count r) (dg_prompt_version_id r) (dg_prompt_evidence_status r)
    (dg_passing_eval_count r) (dg_actor_ref r) (dg_rationale r) (dg_submitted_at r)
    (dg_decided_at r) (dg_updated_at r) (dg_policy_tenant r) (dg_policy_version r)
    (dg_undercovered_control_count r).

Definition dg_with_required_reason (v : string) (r : deployment_gate) : deployment_gate :=
  mk_deployment_gate (dg_gate_id r) (dg_deployment_id r) (dg_version_id r) (dg_tenant_id r)
    (dg_project r) (dg_environment r) (dg_application_name r) (dg_workflow_name r)
    (dg_gate_status r) v (dg_risk_count r) (dg_missing_control_count r)
    (dg_material_change_count r) (dg_prompt_version_id r) (dg_prompt_evidence_status r)
    (dg_passing_eval_count r) (dg_actor_ref r) (dg_rationale r) (dg_submitted_at r)
    (dg_decided_at r) (dg_updated_at r) (dg_policy_tenant r) (dg_policy_version r)
    (dg_undercovered_control_count r).

Definition dg_with_risk_count (v : Z) (r : deployment_gate) : deployment_gate :=
  mk_deployment_gate (dg_gate_id r) (dg_deployment_id r) (dg_version_id r) (dg_tenant_id r)
    (dg_project r) (dg_environment r) (dg_application_name r) (dg_workflow_name r)
    (dg_gate_status r) (dg_required_reason r) v (dg_missing_control_count r)
    (dg_material_change_count r) (dg_prompt_version_id r) (dg_prompt_evidence_status r)
    (dg_passing_eval_count r) (dg_actor_ref r) (dg_rationale r) (dg_submitted_at r)
    (dg_decided_at r) (dg_updated_at r) (dg_policy_tenant r) (dg_policy_version r)
    (dg_undercovered_control_count r).

Definition dg_with_missing_control_count (v : Z) (r : deployment_gate) : deployment_gate :=
  mk_deployment_gate (dg_gate_id r) (dg_deployment_id r) (dg_version_id r) (dg_tenant_id r)
    (dg_project r) (dg_environment r) (dg_application_name r) (dg_workflow_name r)
    (dg_gate_status r) (dg_required_reason r) (dg_risk_count r) v (dg_material_change_count r)
    (dg_prompt_version_id r) (dg_prompt_evidence_status r) (dg_passing_eval_count r)
    (dg_actor_ref r) (dg_rationale r) (dg_submitted_at r) (dg_decided_at r) (dg_updated_at r)
    (dg_policy_tenant r) (dg_policy_version r) (dg_undercovered_control_count r).

Definition dg_with_material_change_count (v : Z) (r : deployment_gate) : deployment_gate :=
  mk_deployment_gate (dg_gate_id r) (dg_deployment_id r) (dg_version_id r) (dg_tenant_id r)
    (dg_project r) (dg_environment r) (dg_application_name r) (dg_workflow_name r)
    (dg_gate_status r) (dg_required_reason r) (dg_risk_count r) (dg_missing_control_count r) v
    (dg_prompt_version_id r) (dg_prompt_evidence_status r) (dg_passing_eval_count r)
    (dg_actor_ref r) (dg_rationale r) (dg_submitted_at r) (dg_decided_at r) (dg_updated_at r)
    (dg_policy_tenant r) (dg_policy_version r) (dg_undercovered_control_count r).

Definition dg_with_prompt_version_id (v : option string) (r : deployment_gate) : deployment_gate :=
  mk_deployment_gate (dg_gate_id r) (dg_deployment_id r) (dg_version_id r) (dg_tenant_id r)
    (dg_project r) (dg_environment r) (dg_application_name r) (dg_workflow_name r)
    (dg_gate_status r) (dg_required_reason r) (dg_risk_count r) (dg_missing_control_count r)
    (dg_material_change_count r) v (dg_prompt_evidence_status r) (dg_passing_eval_count r)
    (dg_actor_ref r) (dg_rationale r) (dg_submitted_at r) (dg_decided_at r) (dg_updated_at r)
    (dg_policy_tenant r) (dg_policy_version r) (dg_undercovered_control_count r).

Definition dg_with_prompt_evidence_status (v : string) (r : deployment_gate) : deployment_gate :=
  mk_deployment_gate (dg_gate_id r) (dg_deployment_id r) (dg_version_id r) (dg_tenant_id r)
    (dg_project r) (dg_environment r) (dg_application_name r) (dg_workflow_name r)
    (dg_gate_status r) (dg_required_reason r) (dg_risk_count r) (dg_missing_control_count r)
    (dg_material_change_count r) (dg_prompt_version_id r) v (dg_passing_eval_count r)
    (dg_actor_ref r) (dg_rationale r) (dg_submitted_at r) (dg_decided_at r) (dg_updated_at r)
    (dg_policy_tenant r) (dg_policy_version r) (dg_undercovered_control_count r).

Definition dg_with_passing_eval_count (v : Z) (r : deployment_gate) : deployment_gate :=
  mk_deployment_gate (dg_gate_id r) (dg_deployment_id r) (dg_version_id r) (dg_tenant_id r)
    (dg_project r) (dg_environment r) (dg_application_name r) (dg_workflow_name r)
    (dg_gate_status r) (dg_required_reason r) (dg_risk_count r) (dg_missing_control_count r)
    (dg_material_change_count r) (dg_prompt_version_id r) (dg_prompt_evidence_status r) v
    (dg_actor_ref r) (dg_rationale r) (dg_submitted_at r) (dg_decided_at r) (dg_updated_at r)
    (dg_policy_tenant r) (dg_policy_version r) (dg_undercovered_control_count r).

Definition dg_with_actor_ref (v : option string) (r : deployment_gate) : deployment_gate :=
  mk_deployment_gate (dg_gate_id r) (dg_deployment_id r) (dg_version_id r) (dg_tenant_id r)
    (dg_project r) (dg_environment r) (dg_application_name r) (dg_workflow_name r)
    (dg_gate_status r) (dg_required_reason r) (dg_risk_count r) (dg_missing_control_count r)
    (dg_material_change_count r) (dg_prompt_version_id r) (dg_prompt_evidence_status r)
    (dg_passing_eval_count r) v (dg_rationale r) (dg_submitted_at r) (dg_decided_at r)
    (dg_updated_at r) (dg_policy_tenant r) (dg_policy_version r)
    (dg_undercovered_control_count r).

Definition dg_with_rationale (v : option string) (r : deployment_gate) : deployment_gate :=
  mk_deployment_gate (dg_gate_id r) (dg_deployment_id r) (dg_version_id r) (dg_tenant_id r)
    (dg_project r) (dg_environment r) (dg_application_name r) (dg_workflow_name r)
    (dg_gate_status r) (dg_required_reason r) (dg_risk_count r) (dg_missing_control_count r)
    (dg_material_change_count r) (dg_prompt_version_id r) (dg_prompt_evidence_status r)
    (dg_passing_eval_count r) (dg_actor_ref r) v (dg_submitted_at r) (dg_decided_at r)
    (dg_updated_at r) (dg_policy_tenant r) (dg_policy_version r)
    (dg_undercovered_control_count r).

Definition dg_with_decided_at (v : option string) (r : deployment_gate) : deployment_gate :=
  mk_deployment_gate (dg_gate_id r) (dg_deployment_id r) (dg_version_id r) (dg_tenant_id r)
    (dg_project r) (dg_environment r) (dg_application_name r) (dg_workflow_name r)
    (dg_gate_status r) (dg_required_reason r) (dg_risk_count r) (dg_missing_control_count r)
    (dg_material_change_count r) (dg_prompt_version_id r) (dg_prompt_evidence_status r)
    (dg_passing_eval_count r) (dg_actor_ref r) (dg_rationale r) (dg_submitted_at r) v
    (dg_updated_at r) (dg_policy_tenant r) (dg_policy_version r)
    (dg_undercovered_control_count r).

Definition dg_with_updated_at (v : string) (r : deployment_gate) : deployment_gate :=
  mk_deployment_gate (dg_gate_id r) (dg_deployment_id r) (dg_version_id r) (dg_tenant_id r)
    (dg_project r) (dg_environment r) (dg_application_name r) (dg_workflow_name r)
    (dg_gate_status r) (dg_required_reason r) (dg_risk_count r) (dg_missing_control_count r)
    (dg_material_change_count r) (dg_prompt_version_id r) (dg_prompt_evidence_status r)
    (dg_passing_eval_count r) (dg_actor_ref r) (dg_rationale r) (dg_submitted_at r)
    (dg_decided_at r) v (dg_policy_tenant r) (dg_policy_version r)
    (dg_undercovered_control_count r).

Definition dg_with_policy_tenant (v : option string) (r : deployment_gate) : deployment_gate :=
  mk_deployment_gate (dg_gate_id r) (dg_deployment_id r) (dg_version_id r) (dg_tenant_id r)
    (dg_project r) (dg_environment r) (dg_application_name r) (dg_workflow_name r)
    (dg_gate_status r) (dg_required_reason r) (dg_risk_count r) (dg_missing_control_count r)
    (dg_material_change_count r) (dg_prompt_version_id r) (dg_prompt_evidence_status r)
    (dg_passing_eval_count r) (dg_actor_ref r) (dg_rationale r) (dg_submitted_at r)
    (dg_decided_at r) (dg_updated_at r) v (dg_policy_version r)
    (dg_undercovered_control_count r).

Definition dg_with_policy_version (v : option Z) (r : deployment_gate) : deployment_gate :=
  mk_deployment_gate (dg_gate_id r) (dg_deployment_id r) (dg_version_id r) (dg_tenant_id r)
    (dg_project r) (dg_environment r) (dg_application_name r) (dg_workflow_name r)
    (dg_gate_status r) (dg_required_reason r) (dg_risk_count r) (dg_missing_control_count r)
    (dg_material_change_count r) (dg_prompt_version_id r) (dg_prompt_evidence_status r)
    (dg_passing_eval_count r) (dg_actor_ref r) (dg_rationale r) (dg_submitted_at r)
    (dg_decided_at r) (dg_updated_at r) (dg_policy_tenant r) v (dg_undercovered_control_count r).

Definition dg_with_undercovered_control_count (v : Z) (r : deployment_gate) : deployment_gate :=
  mk_deployment_gate (dg_gate_id r) (dg_deployment_id r) (dg_version_id r) (dg_tenant_id r)
    (dg_project r) (dg_environment r) (dg_application_name r) (dg_workflow_name r)
    (dg_gate_status r) (dg_required_reason r) (dg_risk_count r) (dg_missing_control_count r)
    (dg_material_change_count r) (dg_prompt_version_id r) (dg_prompt_evidence_status r)
    (dg_passing_eval_count r) (dg_actor_ref r) (dg_rationale r) (dg_submitted_at r)
    (dg_decided_at r) (dg_updated_at r) (dg_policy_tenant r) (dg_policy_version r) v.

(** [prompt_templates]: prompts.py *)
Record prompt_template := mk_prompt_template {
  pt_prompt_id : string;
  pt_tenant_id : string;
  pt_project : string;
  pt_environment : string;
  pt_application_name : string;
  pt_workflow_name : string;
  pt_current_version : string;
  pt_current_status : string;
  pt_owner_ref : option string;
  pt_artifact_ref : string;
  pt_first_seen : string;
  pt_last_seen : string
}.

Definition pt_with_current_version (v : string) (r : prompt_template) : prompt_template :=
  mk_prompt_template (pt_prompt_id r) (pt_tenant_id r) (pt_project r) (pt_environment r)
    (pt_application_name r) (pt_workflow_name r) v (pt_current_status r) (pt_owner_ref r)
    (pt_artifact_ref r) (pt_first_seen r) (pt_last_seen r).

Definition pt_with_current_status (v : string) (r : prompt_template) : prompt_template :=
  mk_prompt_template (pt_prompt_id r) (pt_tenant_id r) (pt_project r) (pt_environment r)
    (pt_application_name r) (pt_workflow_name r) (pt_current_version r) v (pt_owner_ref r)
    (pt_artifact_ref r) (pt_first_seen r) (pt_last_seen r).

Definition pt_with_owner_ref (v : option string) (r : prompt_template) : prompt_template :=
  mk_prompt_template (pt_prompt_id r) (pt_tenant_id r) (pt_project r) (pt_environment r)
    (pt_application_name r) (pt_workflow_name r) (pt_current_version r) (pt_current_status r) v
    (pt_artifact_ref r) (pt_first_seen r) (pt_last_seen r).

Definition pt_with_artifact_ref (v : string) (r : prompt_template) : prompt_template :=
  mk_prompt_template (pt_prompt_id r) (pt_tenant_id r) (pt_project r) (pt_environment r)
    (pt_application_name r) (pt_workflow_name r) (pt_current_version r) (pt_current_status r)
    (pt_owner_ref r) v (pt_first_seen r) (pt_last_seen r).

Definition pt_with_last_seen (v : string) (r : prompt_template) : prompt_template :=
  mk_prompt_template (pt_prompt_id r) (pt_tenant_id r) (pt_project r) (pt_environment r)
    (pt_application_name r) (pt_workflow_name r) (pt_current_version r) (pt_current_status r)
    (pt_owner_ref r) (pt_artifact_ref r) (pt_first_seen r) v.

(** [prompt_versions]: prompts.py; the summaries are JSON text *)
Record prompt_version := mk_prompt_version {
  pv_prompt_version_id : string;
  pv_prompt_id : string;
  pv_tenant_id : option string;
  pv_project : string;
  pv_environment : string;
  pv_application_name : string;
  pv_workflow_name : string;
  pv_version : string;
  pv_status : string;
  pv_owner_ref : option string;
  pv_artifact_ref : string;
  pv_template_summary : string;
  pv_change_notes_summary : string;
  pv_trace_id : string;
  pv_observed_at : string
}.

Definition pv_with_status (v : string) (r : prompt_version) : prompt_version :=
  mk_prompt_version (pv_prompt_version_id r) (pv_prompt_id r) (pv_tenant_id r) (pv_project r)
    (pv_environment r) (pv_application_name r) (pv_workflow_name r) (pv_version r) v
    (pv_owner_ref r) (pv_artifact_ref r) (pv_template_summary r) (pv_change_notes_summary r)
    (pv_trace_id r) (pv_observed_at r).

Definition pv_with_owner_ref (v : option string) (r : prompt_version) : prompt_version :=
  mk_prompt_version (pv_prompt_version_id r) (pv_prompt_id r) (pv_tenant_id r) (pv_project r)
    (pv_environment r) (pv_application_name r) (pv_workflow_name r) (pv_version r) (pv_status r)
    v (pv_artifact_ref r) (pv_template_summary r) (pv_change_notes_summary r) (pv_trace_id r)
    (pv_observed_at r).

Definition pv_with_artifact_ref (v : string) (r : prompt_version) : prompt_version :=
  mk_prompt_version (pv_prompt_version_id r) (pv_prompt_id r) (pv_tenant_id r) (pv_project r)
    (pv_environment r) (pv_application_name r) (pv_workflow_name r) (pv_version r) (pv_status r)
    (pv_owner_ref r) v (pv_template_summary r) (pv_change_notes_summary r) (pv_trace_id r)
    (pv_observed_at r).

Definition pv_with_template_summary (v : string) (r : prompt_version) : prompt_version :=
  mk_prompt_version (pv_prompt_version_id r) (pv_prompt_id r) (pv_tenant_id r) (pv_project r)
    (pv_environment r) (pv_application_name r) (pv_workflow_name r) (pv_version r) (pv_status r)
    (pv_owner_ref r) (pv_artifact_ref r) v (pv_change_notes_summary r) (pv_trace_id r)
    (pv_observed_at r).

Definition pv_with_change_notes_summary (v : string) (r : prompt_version) : prompt_version :=
  mk_prompt_version (pv_prompt_version_id r) (pv_prompt_id r) (pv_tenant_id r) (pv_project r)
    (pv_environment r) (pv_application_name r) (pv_workflow_name r) (pv_version r) (pv_status r)
    (pv_owner_ref r) (pv_artifact_ref r) (pv_template_summary r) v (pv_trace_id r)
    (pv_observed_at r).

Definition pv_with_trace_id (v : string) (r : prompt_version) : prompt_version :=
  mk_prompt_version (pv_prompt_version_id r) (pv_prompt_id r) (pv_tenant_id r) (pv_project r)
    (pv_environment r) (pv_application_name r) (pv_workflow_name r) (pv_version r) (pv_status r)
    (pv_owner_ref r) (pv_artifact_ref r) (pv_template_summary r) (pv_change_notes_summary r) v
    (pv_observed_at r).

Definition pv_with_observed_at (v : string) (r : prompt_version) : prompt_version :=
  mk_prompt_version (pv_prompt_version_id r) (pv_prompt_id r) (pv_tenant_id r) (pv_project r)
    (pv_environment r) (pv_application_name r) (pv_workflow_name r) (pv_version r) (pv_status r)
    (pv_owner_ref r) (pv_artifact_ref r) (pv_template_summary r) (pv_change_notes_summary r)
    (pv_trace_id r) v.

(** [governance_observed_events]: entities.py; [attributes] is JSON *)
Record observed_event := mk_observed_event {
  oe_entity_id : string;
  oe_entity_type : string;
  oe_tenant_id : option string;
  oe_project : string;
  oe_environment : string;
  oe_application_name : option string;
  oe_workflow_name : option string;
  oe_name : string;
  oe_status : string;
  oe_trace_id : string;
  oe_duration_ms : option pyfloat;
  oe_attributes : pyval;
  oe_observed_at : string
}.

(** [lifecycle_fingerprints]: lifecycle.py; [fingerprint_payload] is a JSON object of label lists *)
Record fingerprint_row := mk_fingerprint_row {
  lf_fingerprint_id : string;
  lf_tenant_id : option string;
  lf_project : string;
  lf_environment : string;
  lf_application_name : string;
  lf_subject_type : string;
  lf_subject_name : string;
  lf_fingerprint_hash : string;
  lf_fingerprint_payload : list (string * list string);
  lf_first_seen : string;
  lf_last_seen : string
}.

Definition lf_with_fingerprint_hash (v : string) (r : fingerprint_row) : fingerprint_row :=
  mk_fingerprint_row (lf_fingerprint_id r) (lf_tenant_id r) (lf_project r) (lf_environment r)
    (lf_application_name r) (lf_subject_type r) (lf_subject_name r) v (lf_fingerprint_payload r)
    (lf_first_seen r) (lf_last_seen r).

Definition lf_with_fingerprint_payload (v : list (string * list string)) (r : fingerprint_row) : fingerprint_row :=
  mk_fingerprint_row (lf_fingerprint_id r) (lf_tenant_id r) (lf_project r) (lf_environment r)
    (lf_application_name r) (lf_subject_type r) (lf_subject_name r) (lf_fingerprint_hash r) v
    (lf_first_seen r) (lf_last_seen r).

Definition lf_with_last_seen (v : string) (r : fingerprint_row) : fingerprint_row :=
  mk_fingerprint_row (lf_fingerprint_id r) (lf_tenant_id r) (lf_project r) (lf_environment r)
    (lf_application_name r) (lf_subject_type r) (lf_subject_name r) (lf_fingerprint_hash r)
    (lf_fingerprint_payload r) (lf_first_seen r) v.

(** [agent_registry]: agents.py; the flags are 0 or 1 in the database *)
Record agent := mk_agent {
  ag_agent_id : string;
  ag_tenant_id : string;
  ag_agent_name : string;
  ag_application_name : option string;
  ag_description : option string;
  ag_owner_ref : string;
  ag_autonomy_level : Z;
  ag_allowed_tools : list string;
  ag_processes_untrusted_input : bool;
  ag_accesses_sensitive_data : bool;
  ag_can_act_externally : bool;
  ag_human_checkpoint : bool;
  ag_status : string;
  ag_created_by : option string;
  ag_created_at : string;
  ag_updated_at : string
}.

Definition ag_with_application_name (v : option string) (r : agent) : agent :=
  mk_agent (ag_agent_id r) (ag_tenant_id r) (ag_agent_name r) v (ag_description r)
    (ag_owner_ref r) (ag_autonomy_level r) (ag_allowed_tools r) (ag_processes_untrusted_input r)
    (ag_accesses_sensitive_data r) (ag_can_act_externally r) (ag_human_checkpoint r)
    (ag_status r) (ag_created_by r) (ag_created_at r) (ag_updated_at r).

Definition ag_with_description (v : option string) (r : agent) : agent :=
  mk_agent (ag_agent_id r) (ag_tenant_id r) (ag_agent_name r) (ag_application_name r) v
    (ag_owner_ref r) (ag_autonomy_level r) (ag_allowed_tools r) (ag_processes_untrusted_input r)
    (ag_accesses_sensitive_data r) (ag_can_act_externally r) (ag_human_checkpoint r)
    (ag_status r) (ag_created_by r) (ag_created_at r) (ag_updated_at r).

Definition ag_with_owner_ref (v : string) (r : agent) : agent :=
  mk_agent (ag_agent_id r) (ag_tenant_id r) (ag_agent_name r) (ag_application_name r)
    (ag_description r) v (ag_autonomy_level r) (ag_allowed_tools r)
    (ag_processes_untrusted_input r) (ag_accesses_sensitive_data r) (ag_can_act_externally r)
    (ag_human_checkpoint r) (ag_status r) (ag_created_by r) (ag_created_at r) (ag_updated_at r).

Definition ag_with_autonomy_level (v : Z) (r : agent) : agent :=
  mk_agent (ag_agent_id r) (ag_tenant_id r) (ag_agent_name r) (ag_application_name r)
    (ag_description r) (ag_owner_ref r) v (ag_allowed_tools r) (ag_processes_untrusted_input r)
    (ag_accesses_sensitive_data r) (ag_can_act_externally r) (ag_human_checkpoint r)
    (ag_status r) (ag_created_by r) (ag_created_at r) (ag_updated_at r).

Definition ag_with_allowed_tools (v : list string) (r : agent) : agent :=
  mk_agent (ag_agent_id r) (ag_tenant_id r) (ag_agent_name r) (ag_application_name r)
    (ag_description r) (ag_owner_ref r) (ag_autonomy_level r) v (ag_processes_untrusted_input r)
    (ag_accesses_sensitive_data r) (ag_can_act_externally r) (ag_human_checkpoint r)
    (ag_status r) (ag_created_by r) (ag_created_at r) (ag_updated_at r).

Definition ag_with_processes_untrusted_input (v : bool) (r : agent) : agent :=
  mk_agent (ag_agent_id r) (ag_tenant_id r) (ag_agent_name r) (ag_application_name r)
    (ag_description r) (ag_owner_ref r) (ag_autonomy_level r) (ag_allowed_tools r) v
    (ag_accesses_sensitive_data r) (ag_can_act_externally r) (ag_human_checkpoint r)
    (ag_status r) (ag_created_by r) (ag_created_at r) (ag_updated_at r).

Definition ag_with_accesses_sensitive_data (v : bool) (r : agent) : agent :=
  mk_agent (ag_agent_id r) (ag_tenant_id r) (ag_agent_name r) (ag_application_name r)
    (ag_description r) (ag_owner_ref r) (ag_autonomy_level r) (ag_allowed_tools r)
    (ag_processes_untrusted_input r) v (ag_can_act_externally r) (ag_human_checkpoint r)
    (ag_status r) (ag_created_by r) (ag_created_at r) (ag_updated_at r).

Definition ag_with_can_act_externally (v : bool) (r : agent) : agent :=
  mk_agent (ag_agent_id r) (ag_tenant_id r) (ag_agent_name r) (ag_application_name r)
    (ag_description r) (ag_owner_ref r) (ag_autonomy_level r) (ag_allowed_tools r)
    (ag_processes_untrusted_input r) (ag_accesses_sensitive_data r) v (ag_human_checkpoint r)
    (ag_status r) (ag_created_by r) (ag_created_at r) (ag_updated_at r).

Definition ag_with_human_checkpoint (v : bool) (r : agent) : agent :=
  mk_agent (ag_agent_id r) (ag_tenant_id r) (ag_agent_name r) (ag_application_name r)
    (ag_description r) (ag_owner_ref r) (ag_autonomy_level r) (ag_allowed_tools r)
    (ag_processes_untrusted_input r) (ag_accesses_sensitive_data r) (ag_can_act_externally r) v
    (ag_status r) (ag_created_by r) (ag_created_at r) (ag_updated_at r).

Definition ag_with_status (v : string) (r : agent) : agent :=
  mk_agent (ag_agent_id r) (ag_tenant_id r) (ag_agent_name r) (ag_application_name r)
    (ag_description r) (ag_owner_ref r) (ag_autonomy_level r) (ag_allowed_tools r)
    (ag_processes_untrusted_input r) (ag_accesses_sensitive_data r) (ag_can_act_externally r)
    (ag_human_checkpoint r) v (ag_created_by r) (ag_created_at r) (ag_updated_at r).

Definition ag_with_updated_at (v : string) (r : agent) : agent :=
  mk_agent (ag_agent_id r) (ag_tenant_id r) (ag_agent_name r) (ag_application_name r)
    (ag_description r) (ag_owner_ref r) (ag_autonomy_level r) (ag_allowed_tools r)
    (ag_processes_untrusted_input r) (ag_accesses_sensitive_data r) (ag_can_act_externally r)
    (ag_human_checkpoint r) (ag_status r) (ag_created_by r) (ag_created_at r) v.

(** [attestation_keys]: attestation_keys.py *)
Record attestation_key := mk_attestation_key {
  ak_key_id : string;
  ak_tenant_id : string;
  ak_name : string;
  ak_algorithm : string;
  ak_public_key_pem : string;
  ak_status : string;
  ak_created_by : option string;
  ak_created_at : string;
  ak_revoked_at : option string;
  ak_last_used_at : option string
}.

Definition ak_with_status (v : string) (r : attestation_key) : attestation_key :=
  mk_attestation_key (ak_key_id r) (ak_tenant_id r) (ak_name r) (ak_algorithm r)
    (ak_public_key_pem r) v (ak_created_by r) (ak_created_at r) (ak_revoked_at r)
    (ak_last_used_at r).

Definition ak_with_revoked_at (v : option string) (r : attestation_key) : attestation_key :=
  mk_attestation_key (ak_key_id r) (ak_tenant_id r) (ak_name r) (ak_algorithm r)
    (ak_public_key_pem r) (ak_status r) (ak_created_by r) (ak_created_at r) v
    (ak_last_used_at r).

Definition ak_with_last_used_at (v : option string) (r : attestation_key) : attestation_key :=
  mk_attestation_key (ak_key_id r) (ak_tenant_id r) (ak_name r) (ak_algorithm r)
    (ak_public_key_pem r) (ak_status r) (ak_created_by r) (ak_created_at r) (ak_revoked_at r) v.

(** [ingestion_keys]: ingestion_keys.py *)
Record ingestion_key := mk_ingestion_key {
  ik_key_id : string;
  ik_key_hash : string;
  ik_tenant_id : string;
  ik_name : string;
  ik_status : string;
  ik_created_by : option string;
  ik_created_at : string;
  ik_last_used_at : option string
}.

Definition ik_with_status (v : string) (r : ingestion_key) : ingestion_key :=
  mk_ingestion_key (ik_key_id r) (ik_key_hash r) (ik_tenant_id r) (ik_name r) v
    (ik_created_by r) (ik_created_at r) (ik_last_used_at r).

Definition ik_with_last_used_at (v : option string) (r : ingestion_key) : ingestion_key :=
  mk_ingestion_key (ik_key_id r) (ik_key_hash r) (ik_tenant_id r) (ik_name r) (ik_status r)
    (ik_created_by r) (ik_created_at r) v.

(** [organizations]: organizations.py and migrations.py *)
Record organization := mk_organization {
  org_tenant_id : string;
  org_name : string;
  org_status : string;
  org_created_by : string;
  org_created_at : string;
  org_updated_at : string;
  org_require_mfa : bool
}.

Definition org_with_status (v : string) (r : organization) : organization :=
  mk_organization (org_tenant_id r) (org_name r) v (org_created_by r) (org_created_at r)
    (org_updated_at r) (org_require_mfa r).

Definition org_with_updated_at (v : string) (r : organization) : organization :=
  mk_organization (org_tenant_id r) (org_name r) (org_status r) (org_created_by r)
    (org_created_at r) v (org_require_mfa r).

Definition org_with_require_mfa (v : bool) (r : organization) : organization :=
  mk_organization (org_tenant_id r) (org_name r) (org_status r) (org_created_by r)
    (org_created_at r) (org_updated_at r) v.

(** [attestation_requirements]: attestation_keys.py *)
Record attestation_requirement := mk_attestation_requirement {
  ar_tenant_id : string;
  ar_enabled_at : string;
  ar_enabled_by : option string
}.

(** [control_library]: governance_policy.py; list columns are JSON *)
Record control_definition := mk_control_definition {
  cl_tenant_id : string;
  cl_control_id : string;
  cl_name : string;
  cl_framework_refs : list string;
  cl_evidence_event_types : list string;
  cl_required_fields : list string;
  cl_rationale : string;
  cl_coverage_basis : option string
}.

Definition cl_with_name (v : string) (r : control_definition) : control_definition :=
  mk_control_definition (cl_tenant_id r) (cl_control_id r) v (cl_framework_refs r)
    (cl_evidence_event_types r) (cl_required_fields r) (cl_rationale r) (cl_coverage_basis r).

Definition cl_with_framework_refs (v : list string) (r : control_definition) : control_definition :=
  mk_control_definition (cl_tenant_id r) (cl_control_id r) (cl_name r) v
    (cl_evidence_event_types r) (cl_required_fields r) (cl_rationale r) (cl_coverage_basis r).

Definition cl_with_evidence_event_types (v : list string) (r : control_definition) : control_definition :=
  mk_control_definition (cl_tenant_id r) (cl_control_id r) (cl_name r) (cl_framework_refs r) v
    (cl_required_fields r) (cl_rationale r) (cl_coverage_basis r).

Definition cl_with_required_fields (v : list string) (r : control_definition) : control_definition :=
  mk_control_definition (cl_tenant_id r) (cl_control_id r) (cl_name r) (cl_framework_refs r)
    (cl_evidence_event_types r) v (cl_rationale r) (cl_coverage_basis r).

Definition cl_with_rationale (v : string) (r : control_definition) : control_definition :=
  mk_control_definition (cl_tenant_id r) (cl_control_id r) (cl_name r) (cl_framework_refs r)
    (cl_evidence_event_types r) (cl_required_fields r) v (cl_coverage_basis r).

Definition cl_with_coverage_basis (v : option string) (r : control_definition) : control_definition :=
  mk_control_definition (cl_tenant_id r) (cl_control_id r) (cl_name r) (cl_framework_refs r)
    (cl_evidence_event_types r) (cl_required_fields r) (cl_rationale r) v.

(** [risk_rules]: governance_policy.py *)
Record risk_rule := mk_risk_rule {
  rr_tenant_id : string;
  rr_rule_id : string;
  rr_name : string;
  rr_signal : string;
  rr_severity : string;
  rr_framework_refs : list string;
  rr_rationale : string;
  rr_mode : string
}.

Definition rr_with_name (v : string) (r : risk_rule) : risk_rule :=
  mk_risk_rule (rr_tenant_id r) (rr_rule_id r) v (rr_signal r) (rr_severity r)
    (rr_framework_refs r) (rr_rationale r) (rr_mode r).

Definition rr_with_signal (v : string) (r : risk_rule) : risk_rule :=
  mk_risk_rule (rr_tenant_id r) (rr_rule_id r) (rr_name r) v (rr_severity r)
    (rr_framework_refs r) (rr_rationale r) (rr_mode r).

Definition rr_with_severity (v : string) (r : risk_rule) : risk_rule :=
  mk_risk_rule (rr_tenant_id r) (rr_rule_id r) (rr_name r) (rr_signal r) v (rr_framework_refs r)
    (rr_rationale r) (rr_mode r).

Definition rr_with_framework_refs (v : list string) (r : risk_rule) : risk_rule :=
  mk_risk_rule (rr_tenant_id r) (rr_rule_id r) (rr_name r) (rr_signal r) (rr_severity r) v
    (rr_rationale r) (rr_mode r).

Definition rr_with_rationale (v : string) (r : risk_rule) : risk_rule :=
  mk_risk_rule (rr_tenant_id r) (rr_rule_id r) (rr_name r) (rr_signal r) (rr_severity r)
    (rr_framework_refs r) v (rr_mode r).

Definition rr_with_mode (v : string) (r : risk_rule) : risk_rule :=
  mk_risk_rule (rr_tenant_id r) (rr_rule_id r) (rr_name r) (rr_signal r) (rr_severity r)
    (rr_framework_refs r) (rr_rationale r) v.

(** [control_evidence_traces]: migrations.py *)
Record evidence_trace := mk_evidence_trace {
  et_tenant_id : string;
  et_project : string;
  et_environment : string;
  et_application_name : string;
  et_control_id : string;
  et_trace_id : string;
  et_last_seen : string
}.

Definition et_with_last_seen (v : string) (r : evidence_trace) : evidence_trace :=
  mk_evidence_trace (et_tenant_id r) (et_project r) (et_environment r) (et_application_name r)
    (et_control_id r) (et_trace_id r) v.

(** [sdk_events]: raw_events.py and migrations.py; [raw_event] holds the event, serialized and encrypted *)
Record sdk_event := mk_sdk_event {
  ev_id : Z;
  ev_event_type : string;
  ev_schema_version : string;
  ev_trace_id : string;
  ev_span_id : string;
  ev_parent_span_id : option string;
  ev_timestamp : string;
  ev_service : string;
  ev_environment : string;
  ev_project : string;
  ev_system : option string;
  ev_name : option string;
  ev_status : string;
  ev_duration_ms : option pyfloat;
  ev_tenant_id : option string;
  ev_user_id : option string;
  ev_application_name : option string;
  ev_workflow_name : option string;
  ev_use_case : option string;
  ev_model_purpose : option string;
  ev_provider : option string;
  ev_model : option string;
  ev_operation : option string;
  ev_input_tokens : Z;
  ev_output_tokens : Z;
  ev_raw_event : event;
  ev_ingested_at : string;
  ev_folded_at : option string;
  ev_counted_at : option string;
  ev_fold_attempts : Z;
  ev_fold_error : option string
}.

Definition ev_with_folded_at (v : option string) (r : sdk_event) : sdk_event :=
  mk_sdk_event (ev_id r) (ev_event_type r) (ev_schema_version r) (ev_trace_id r) (ev_span_id r)
    (ev_parent_span_id r) (ev_timestamp r) (ev_service r) (ev_environment r) (ev_project r)
    (ev_system r) (ev_name r) (ev_status r) (ev_duration_ms r) (ev_tenant_id r) (ev_user_id r)
    (ev_application_name r) (ev_workflow_name r) (ev_use_case r) (ev_model_purpose r)
    (ev_provider r) (ev_model r) (ev_operation r) (ev_input_tokens r) (ev_output_tokens r)
    (ev_raw_event r) (ev_ingested_at r) v (ev_counted_at r) (ev_fold_attempts r)
    (ev_fold_error r).

Definition ev_with_counted_at (v : option string) (r : sdk_event) : sdk_event :=
  mk_sdk_event (ev_id r) (ev_event_type r) (ev_schema_version r) (ev_trace_id r) (ev_span_id r)
    (ev_parent_span_id r) (ev_timestamp r) (ev_service r) (ev_environment r) (ev_project r)
    (ev_system r) (ev_name r) (ev_status r) (ev_duration_ms r) (ev_tenant_id r) (ev_user_id r)
    (ev_application_name r) (ev_workflow_name r) (ev_use_case r) (ev_model_purpose r)
    (ev_provider r) (ev_model r) (ev_operation r) (ev_input_tokens r) (ev_output_tokens r)
    (ev_raw_event r) (ev_ingested_at r) (ev_folded_at r) v (ev_fold_attempts r)
    (ev_fold_error r).

Definition ev_with_fold_attempts (v : Z) (r : sdk_event) : sdk_event :=
  mk_sdk_event (ev_id r) (ev_event_type r) (ev_schema_version r) (ev_trace_id r) (ev_span_id r)
    (ev_parent_span_id r) (ev_timestamp r) (ev_service r) (ev_environment r) (ev_project r)
    (ev_system r) (ev_name r) (ev_status r) (ev_duration_ms r) (ev_tenant_id r) (ev_user_id r)
    (ev_application_name r) (ev_workflow_name r) (ev_use_case r) (ev_model_purpose r)
    (ev_provider r) (ev_model r) (ev_operation r) (ev_input_tokens r) (ev_output_tokens r)
    (ev_raw_event r) (ev_ingested_at r) (ev_folded_at r) (ev_counted_at r) v (ev_fold_error r).

Definition ev_with_fold_error (v : option string) (r : sdk_event) : sdk_event :=
  mk_sdk_event (ev_id r) (ev_event_type r) (ev_schema_version r) (ev_trace_id r) (ev_span_id r)
    (ev_parent_span_id r) (ev_timestamp r) (ev_service r) (ev_environment r) (ev_project r)
    (ev_system r) (ev_name r) (ev_status r) (ev_duration_ms r) (ev_tenant_id r) (ev_user_id r)
    (ev_application_name r) (ev_workflow_name r) (ev_use_case r) (ev_model_purpose r)
    (ev_provider r) (ev_model r) (ev_operation r) (ev_input_tokens r) (ev_output_tokens r)
    (ev_raw_event r) (ev_ingested_at r) (ev_folded_at r) (ev_counted_at r) (ev_fold_attempts r)
    v.

(** [governance_applications]: entities.py; list columns are JSON *)
Record application := mk_application {
  ga_entity_id : string;
  ga_tenant_id : option string;
  ga_project : string;
  ga_environment : string;
  ga_application_name : string;
  ga_use_cases : list string;
  ga_model_purposes : list string;
  ga_providers : list string;
  ga_models : list string;
  ga_model_calls : sql_num;
  ga_errors : sql_num;
  ga_input_tokens : sql_num;
  ga_output_tokens : sql_num;
  ga_first_seen : string;
  ga_last_seen : string
}.

Definition ga_with_use_cases (v : list string) (r : application) : application :=
  mk_application (ga_entity_id r) (ga_tenant_id r) (ga_project r) (ga_environment r)
    (ga_application_name r) v (ga_model_purposes r) (ga_providers r) (ga_models r)
    (ga_model_calls r) (ga_errors r) (ga_input_tokens r) (ga_output_tokens r) (ga_first_seen r)
    (ga_last_seen r).

Definition ga_with_model_purposes (v : list string) (r : application) : application :=
  mk_application (ga_entity_id r) (ga_tenant_id r) (ga_project r) (ga_environment r)
    (ga_application_name r) (ga_use_cases r) v (ga_providers r) (ga_models r) (ga_model_calls r)
    (ga_errors r) (ga_input_tokens r) (ga_output_tokens r) (ga_first_seen r) (ga_last_seen r).

Definition ga_with_providers (v : list string) (r : application) : application :=
  mk_application (ga_entity_id r) (ga_tenant_id r) (ga_project r) (ga_environment r)
    (ga_application_name r) (ga_use_cases r) (ga_model_purposes r) v (ga_models r)
    (ga_model_calls r) (ga_errors r) (ga_input_tokens r) (ga_output_tokens r) (ga_first_seen r)
    (ga_last_seen r).

Definition ga_with_models (v : list string) (r : application) : application :=
  mk_application (ga_entity_id r) (ga_tenant_id r) (ga_project r) (ga_environment r)
    (ga_application_name r) (ga_use_cases r) (ga_model_purposes r) (ga_providers r) v
    (ga_model_calls r) (ga_errors r) (ga_input_tokens r) (ga_output_tokens r) (ga_first_seen r)
    (ga_last_seen r).

Definition ga_with_model_calls (v : sql_num) (r : application) : application :=
  mk_application (ga_entity_id r) (ga_tenant_id r) (ga_project r) (ga_environment r)
    (ga_application_name r) (ga_use_cases r) (ga_model_purposes r) (ga_providers r)
    (ga_models r) v (ga_errors r) (ga_input_tokens r) (ga_output_tokens r) (ga_first_seen r)
    (ga_last_seen r).

Definition ga_with_errors (v : sql_num) (r : application) : application :=
  mk_application (ga_entity_id r) (ga_tenant_id r) (ga_project r) (ga_environment r)
    (ga_application_name r) (ga_use_cases r) (ga_model_purposes r) (ga_providers r)
    (ga_models r) (ga_model_calls r) v (ga_input_tokens r) (ga_output_tokens r)
    (ga_first_seen r) (ga_last_seen r).

Definition ga_with_input_tokens (v : sql_num) (r : application) : application :=
  mk_application (ga_entity_id r) (ga_tenant_id r) (ga_project r) (ga_environment r)
    (ga_application_name r) (ga_use_cases r) (ga_model_purposes r) (ga_providers r)
    (ga_models r) (ga_model_calls r) (ga_errors r) v (ga_output_tokens r) (ga_first_seen r)
    (ga_last_seen r).

Definition ga_with_output_tokens (v : sql_num) (r : application) : application :=
  mk_application (ga_entity_id r) (ga_tenant_id r) (ga_project r) (ga_environment r)
    (ga_application_name r) (ga_use_cases r) (ga_model_purposes r) (ga_providers r)
    (ga_models r) (ga_model_calls r) (ga_errors r) (ga_input_tokens r) v (ga_first_seen r)
    (ga_last_seen r).

Definition ga_with_last_seen (v : string) (r : application) : application :=
  mk_application (ga_entity_id r) (ga_tenant_id r) (ga_project r) (ga_environment r)
    (ga_application_name r) (ga_use_cases r) (ga_model_purposes r) (ga_providers r)
    (ga_models r) (ga_model_calls r) (ga_errors r) (ga_input_tokens r) (ga_output_tokens r)
    (ga_first_seen r) v.

(** [governance_workflows]: entities.py; list columns are JSON *)
Record workflow := mk_workflow {
  gw_entity_id : string;
  gw_tenant_id : option string;
  gw_project : string;
  gw_environment : string;
  gw_workflow_name : string;
  gw_applications : list string;
  gw_providers : list string;
  gw_models : list string;
  gw_model_calls : sql_num;
  gw_errors : sql_num;
  gw_input_tokens : sql_num;
  gw_output_tokens : sql_num;
  gw_first_seen : string;
  gw_last_seen : string
}.

Definition gw_with_applications (v : list string) (r : workflow) : workflow :=
  mk_workflow (gw_entity_id r) (gw_tenant_id r) (gw_project r) (gw_environment r)
    (gw_workflow_name r) v (gw_providers r) (gw_models r) (gw_model_calls r) (gw_errors r)
    (gw_input_tokens r) (gw_output_tokens r) (gw_first_seen r) (gw_last_seen r).

Definition gw_with_providers (v : list string) (r : workflow) : workflow :=
  mk_workflow (gw_entity_id r) (gw_tenant_id r) (gw_project r) (gw_environment r)
    (gw_workflow_name r) (gw_applications r) v (gw_models r) (gw_model_calls r) (gw_errors r)
    (gw_input_tokens r) (gw_output_tokens r) (gw_first_seen r) (gw_last_seen r).

Definition gw_with_models (v : list string) (r : workflow) : workflow :=
  mk_workflow (gw_entity_id r) (gw_tenant_id r) (gw_project r) (gw_environment r)
    (gw_workflow_name r) (gw_applications r) (gw_providers r) v (gw_model_calls r) (gw_errors r)
    (gw_input_tokens r) (gw_output_tokens r) (gw_first_seen r) (gw_last_seen r).

Definition gw_with_model_calls (v : sql_num) (r : workflow) : workflow :=
  mk_workflow (gw_entity_id r) (gw_tenant_id r) (gw_project r) (gw_environment r)
    (gw_workflow_name r) (gw_applications r) (gw_providers r) (gw_models r) v (gw_errors r)
    (gw_input_tokens r) (gw_output_tokens r) (gw_first_seen r) (gw_last_seen r).

Definition gw_with_errors (v : sql_num) (r : workflow) : workflow :=
  mk_workflow (gw_entity_id r) (gw_tenant_id r) (gw_project r) (gw_environment r)
    (gw_workflow_name r) (gw_applications r) (gw_providers r) (gw_models r) (gw_model_calls r) v
    (gw_input_tokens r) (gw_output_tokens r) (gw_first_seen r) (gw_last_seen r).

Definition gw_with_input_tokens (v : sql_num) (r : workflow) : workflow :=
  mk_workflow (gw_entity_id r) (gw_tenant_id r) (gw_project r) (gw_environment r)
    (gw_workflow_name r) (gw_applications r) (gw_providers r) (gw_models r) (gw_model_calls r)
    (gw_errors r) v (gw_output_tokens r) (gw_first_seen r) (gw_last_seen r).

Definition gw_with_output_tokens (v : sql_num) (r : workflow) : workflow :=
  mk_workflow (gw_entity_id r) (gw_tenant_id r) (gw_project r) (gw_environment r)
    (gw_workflow_name r) (gw_applications r) (gw_providers r) (gw_models r) (gw_model_calls r)
    (gw_errors r) (gw_input_tokens r) v (gw_first_seen r) (gw_last_seen r).

Definition gw_with_last_seen (v : string) (r : workflow) : workflow :=
  mk_workflow (gw_entity_id r) (gw_tenant_id r) (gw_project r) (gw_environment r)
    (gw_workflow_name r) (gw_applications r) (gw_providers r) (gw_models r) (gw_model_calls r)
    (gw_errors r) (gw_input_tokens r) (gw_output_tokens r) (gw_first_seen r) v.

(** [governance_models]: entities.py; list columns are JSON *)
Record model := mk_model {
  gm_entity_id : string;
  gm_tenant_id : option string;
  gm_project : string;
  gm_environment : string;
  gm_provider : string;
  gm_model : string;
  gm_operations : list string;
  gm_applications : list string;
  gm_model_calls : sql_num;
  gm_errors : sql_num;
  gm_input_tokens : sql_num;
  gm_output_tokens : sql_num;
  gm_first_seen : string;
  gm_last_seen : string
}.

Definition gm_with_operations (v : list string) (r : model) : model :=
  mk_model (gm_entity_id r) (gm_tenant_id r) (gm_project r) (gm_environment r) (gm_provider r)
    (gm_model r) v (gm_applications r) (gm_model_calls r) (gm_errors r) (gm_input_tokens r)
    (gm_output_tokens r) (gm_first_seen r) (gm_last_seen r).

Definition gm_with_applications (v : list string) (r : model) : model :=
  mk_model (gm_entity_id r) (gm_tenant_id r) (gm_project r) (gm_environment r) (gm_provider r)
    (gm_model r) (gm_operations r) v (gm_model_calls r) (gm_errors r) (gm_input_tokens r)
    (gm_output_tokens r) (gm_first_seen r) (gm_last_seen r).

Definition gm_with_model_calls (v : sql_num) (r : model) : model :=
  mk_model (gm_entity_id r) (gm_tenant_id r) (gm_project r) (gm_environment r) (gm_provider r)
    (gm_model r) (gm_operations r) (gm_applications r) v (gm_errors r) (gm_input_tokens r)
    (gm_output_tokens r) (gm_first_seen r) (gm_last_seen r).

Definition gm_with_errors (v : sql_num) (r : model) : model :=
  mk_model (gm_entity_id r) (gm_tenant_id r) (gm_project r) (gm_environment r) (gm_provider r)
    (gm_model r) (gm_operations r) (gm_applications r) (gm_model_calls r) v (gm_input_tokens r)
    (gm_output_tokens r) (gm_first_seen r) (gm_last_seen r).

Definition gm_with_input_tokens (v : sql_num) (r : model) : model :=
  mk_model (gm_entity_id r) (gm_tenant_id r) (gm_project r) (gm_environment r) (gm_provider r)
    (gm_model r) (gm_operations r) (gm_applications r) (gm_model_calls r) (gm_errors r) v
    (gm_output_tokens r) (gm_first_seen r) (gm_last_seen r).

Definition gm_with_output_tokens (v : sql_num) (r : model) : model :=
  mk_model (gm_entity_id r) (gm_tenant_id r) (gm_project r) (gm_environment r) (gm_provider r)
    (gm_model r) (gm_operations r) (gm_applications r) (gm_model_calls r) (gm_errors r)
    (gm_input_tokens r) v (gm_first_seen r) (gm_last_seen r).

Definition gm_with_last_seen (v : string) (r : model) : model :=
  mk_model (gm_entity_id r) (gm_tenant_id r) (gm_project r) (gm_environment r) (gm_provider r)
    (gm_model r) (gm_operations r) (gm_applications r) (gm_model_calls r) (gm_errors r)
    (gm_input_tokens r) (gm_output_tokens r) (gm_first_seen r) v.

(** [governance_providers]: entities.py; list columns are JSON *)
Record provider := mk_provider {
  gpr_entity_id : string;
  gpr_tenant_id : option string;
  gpr_project : string;
  gpr_environment : string;
  gpr_provider : string;
  gpr_models : list string;
  gpr_applications : list string;
  gpr_model_calls : sql_num;
  gpr_errors : sql_num;
  gpr_first_seen : string;
  gpr_last_seen : string
}.

Definition gpr_with_models (v : list string) (r : provider) : provider :=
  mk_provider (gpr_entity_id r) (gpr_tenant_id r) (gpr_project r) (gpr_environment r)
    (gpr_provider r) v (gpr_applications r) (gpr_model_calls r) (gpr_errors r)
    (gpr_first_seen r) (gpr_last_seen r).

Definition gpr_with_applications (v : list string) (r : provider) : provider :=
  mk_provider (gpr_entity_id r) (gpr_tenant_id r) (gpr_project r) (gpr_environment r)
    (gpr_provider r) (gpr_models r) v (gpr_model_calls r) (gpr_errors r) (gpr_first_seen r)
    (gpr_last_seen r).

Definition gpr_with_model_calls (v : sql_num) (r : provider) : provider :=
  mk_provider (gpr_entity_id r) (gpr_tenant_id r) (gpr_project r) (gpr_environment r)
    (gpr_provider r) (gpr_models r) (gpr_applications r) v (gpr_errors r) (gpr_first_seen r)
    (gpr_last_seen r).

Definition gpr_with_errors (v : sql_num) (r : provider) : provider :=
  mk_provider (gpr_entity_id r) (gpr_tenant_id r) (gpr_project r) (gpr_environment r)
    (gpr_provider r) (gpr_models r) (gpr_applications r) (gpr_model_calls r) v
    (gpr_first_seen r) (gpr_last_seen r).

Definition gpr_with_last_seen (v : string) (r : provider) : provider :=
  mk_provider (gpr_entity_id r) (gpr_tenant_id r) (gpr_project r) (gpr_environment r)
    (gpr_provider r) (gpr_models r) (gpr_applications r) (gpr_model_calls r) (gpr_errors r)
    (gpr_first_seen r) v.

(** [governance_risks]: entities.py; list columns are JSON *)
Record observed_risk := mk_observed_risk {
  rsk_entity_id : string;
  rsk_tenant_id : option string;
  rsk_project : string;
  rsk_environment : string;
  rsk_application_name : string;
  rsk_risk : string;
  rsk_severity : string;
  rsk_evidence : string;
  rsk_evidence_trace_ids : list string;
  rsk_status : string;
  rsk_source : string;
  rsk_first_seen : string;
  rsk_last_seen : string
}.

Definition rsk_with_severity (v : string) (r : observed_risk) : observed_risk :=
  mk_observed_risk (rsk_entity_id r) (rsk_tenant_id r) (rsk_project r) (rsk_environment r)
    (rsk_application_name r) (rsk_risk r) v (rsk_evidence r) (rsk_evidence_trace_ids r)
    (rsk_status r) (rsk_source r) (rsk_first_seen r) (rsk_last_seen r).

Definition rsk_with_evidence (v : string) (r : observed_risk) : observed_risk :=
  mk_observed_risk (rsk_entity_id r) (rsk_tenant_id r) (rsk_project r) (rsk_environment r)
    (rsk_application_name r) (rsk_risk r) (rsk_severity r) v (rsk_evidence_trace_ids r)
    (rsk_status r) (rsk_source r) (rsk_first_seen r) (rsk_last_seen r).

Definition rsk_with_evidence_trace_ids (v : list string) (r : observed_risk) : observed_risk :=
  mk_observed_risk (rsk_entity_id r) (rsk_tenant_id r) (rsk_project r) (rsk_environment r)
    (rsk_application_name r) (rsk_risk r) (rsk_severity r) (rsk_evidence r) v (rsk_status r)
    (rsk_source r) (rsk_first_seen r) (rsk_last_seen r).

Definition rsk_with_status (v : string) (r : observed_risk) : observed_risk :=
  mk_observed_risk (rsk_entity_id r) (rsk_tenant_id r) (rsk_project r) (rsk_environment r)
    (rsk_application_name r) (rsk_risk r) (rsk_severity r) (rsk_evidence r)
    (rsk_evidence_trace_ids r) v (rsk_source r) (rsk_first_seen r) (rsk_last_seen r).

Definition rsk_with_last_seen (v : string) (r : observed_risk) : observed_risk :=
  mk_observed_risk (rsk_entity_id r) (rsk_tenant_id r) (rsk_project r) (rsk_environment r)
    (rsk_application_name r) (rsk_risk r) (rsk_severity r) (rsk_evidence r)
    (rsk_evidence_trace_ids r) (rsk_status r) (rsk_source r) (rsk_first_seen r) v.

(** [governance_controls]: entities.py *)
Record observed_control := mk_observed_control {
  ctl_entity_id : string;
  ctl_tenant_id : option string;
  ctl_project : string;
  ctl_environment : string;
  ctl_control : string;
  ctl_status : string;
  ctl_evidence : string;
  ctl_evidence_event_type : string;
  ctl_evidence_count : Z;
  ctl_first_seen : string;
  ctl_last_seen : string
}.

Definition ctl_with_status (v : string) (r : observed_control) : observed_control :=
  mk_observed_control (ctl_entity_id r) (ctl_tenant_id r) (ctl_project r) (ctl_environment r)
    (ctl_control r) v (ctl_evidence r) (ctl_evidence_event_type r) (ctl_evidence_count r)
    (ctl_first_seen r) (ctl_last_seen r).

Definition ctl_with_evidence (v : string) (r : observed_control) : observed_control :=
  mk_observed_control (ctl_entity_id r) (ctl_tenant_id r) (ctl_project r) (ctl_environment r)
    (ctl_control r) (ctl_status r) v (ctl_evidence_event_type r) (ctl_evidence_count r)
    (ctl_first_seen r) (ctl_last_seen r).

Definition ctl_with_evidence_event_type (v : string) (r : observed_control) : observed_control :=
  mk_observed_control (ctl_entity_id r) (ctl_tenant_id r) (ctl_project r) (ctl_environment r)
    (ctl_control r) (ctl_status r) (ctl_evidence r) v (ctl_evidence_count r) (ctl_first_seen r)
    (ctl_last_seen r).

Definition ctl_with_evidence_count (v : Z) (r : observed_control) : observed_control :=
  mk_observed_control (ctl_entity_id r) (ctl_tenant_id r) (ctl_project r) (ctl_environment r)
    (ctl_control r) (ctl_status r) (ctl_evidence r) (ctl_evidence_event_type r) v
    (ctl_first_seen r) (ctl_last_seen r).

Definition ctl_with_last_seen (v : string) (r : observed_control) : observed_control :=
  mk_observed_control (ctl_entity_id r) (ctl_tenant_id r) (ctl_project r) (ctl_environment r)
    (ctl_control r) (ctl_status r) (ctl_evidence r) (ctl_evidence_event_type r)
    (ctl_evidence_count r) (ctl_first_seen r) v.

(** [review_queue_policies]: workflow.py *)
Record queue_policy := mk_queue_policy {
  qp_tenant_id : string;
  qp_policy_id : string;
  qp_task_type : string;
  qp_assigned_role : string;
  qp_due_days : Z;
  qp_escalation_days : Z;
  qp_source : string;
  qp_created_at : string;
  qp_updated_at : string
}.

Definition qp_with_task_type (v : string) (r : queue_policy) : queue_policy :=
  mk_queue_policy (qp_tenant_id r) (qp_policy_id r) v (qp_assigned_role r) (qp_due_days r)
    (qp_escalation_days r) (qp_source r) (qp_created_at r) (qp_updated_at r).

Definition qp_with_assigned_role (v : string) (r : queue_policy) : queue_policy :=
  mk_queue_policy (qp_tenant_id r) (qp_policy_id r) (qp_task_type r) v (qp_due_days r)
    (qp_escalation_days r) (qp_source r) (qp_created_at r) (qp_updated_at r).

Definition qp_with_due_days (v : Z) (r : queue_policy) : queue_policy :=
  mk_queue_policy (qp_tenant_id r) (qp_policy_id r) (qp_task_type r) (qp_assigned_role r) v
    (qp_escalation_days r) (qp_source r) (qp_created_at r) (qp_updated_at r).

Definition qp_with_escalation_days (v : Z) (r : queue_policy) : queue_policy :=
  mk_queue_policy (qp_tenant_id r) (qp_policy_id r) (qp_task_type r) (qp_assigned_role r)
    (qp_due_days r) v (qp_source r) (qp_created_at r) (qp_updated_at r).

Definition qp_with_source (v : string) (r : queue_policy) : queue_policy :=
  mk_queue_policy (qp_tenant_id r) (qp_policy_id r) (qp_task_type r) (qp_assigned_role r)
    (qp_due_days r) (qp_escalation_days r) v (qp_created_at r) (qp_updated_at r).

Definition qp_with_updated_at (v : string) (r : queue_policy) : queue_policy :=
  mk_queue_policy (qp_tenant_id r) (qp_policy_id r) (qp_task_type r) (qp_assigned_role r)
    (qp_due_days r) (qp_escalation_days r) (qp_source r) (qp_created_at r) v.

(** [owner_assignment_policies]: workflow.py *)
Record owner_policy := mk_owner_policy {
  op_tenant_id : string;
  op_policy_id : string;
  op_subject_type : string;
  op_owner_role : string;
  op_applies_to_status : option string;
  op_source : string;
  op_created_at : string;
  op_updated_at : string
}.

Definition op_with_subject_type (v : string) (r : owner_policy) : owner_policy :=
  mk_owner_policy (op_tenant_id r) (op_policy_id r) v (op_owner_role r) (op_applies_to_status r)
    (op_source r) (op_created_at r) (op_updated_at r).

Definition op_with_owner_role (v : string) (r : owner_policy) : owner_policy :=
  mk_owner_policy (op_tenant_id r) (op_policy_id r) (op_subject_type r) v
    (op_applies_to_status r) (op_source r) (op_created_at r) (op_updated_at r).

Definition op_with_applies_to_status (v : option string) (r : owner_policy) : owner_policy :=
  mk_owner_policy (op_tenant_id r) (op_policy_id r) (op_subject_type r) (op_owner_role r) v
    (op_source r) (op_created_at r) (op_updated_at r).

Definition op_with_source (v : string) (r : owner_policy) : owner_policy :=
  mk_owner_policy (op_tenant_id r) (op_policy_id r) (op_subject_type r) (op_owner_role r)
    (op_applies_to_status r) v (op_created_at r) (op_updated_at r).

Definition op_with_updated_at (v : string) (r : owner_policy) : owner_policy :=
  mk_owner_policy (op_tenant_id r) (op_policy_id r) (op_subject_type r) (op_owner_role r)
    (op_applies_to_status r) (op_source r) (op_created_at r) v.

(** [owner_assignments]: workflow.py *)
Record owner_assignment := mk_owner_assignment {
  oa_owner_assignment_id : string;
  oa_tenant_id : option string;
  oa_project : string;
  oa_environment : string;
  oa_application_name : string;
  oa_subject_type : string;
  oa_subject_name : string;
  oa_owner_role : string;
  oa_owner_ref : option string;
  oa_status : string;
  oa_source : string;
  oa_created_at : string;
  oa_updated_at : string
}.

Definition oa_with_owner_ref (v : option string) (r : owner_assignment) : owner_assignment :=
  mk_owner_assignment (oa_owner_assignment_id r) (oa_tenant_id r) (oa_project r)
    (oa_environment r) (oa_application_name r) (oa_subject_type r) (oa_subject_name r)
    (oa_owner_role r) v (oa_status r) (oa_source r) (oa_created_at r) (oa_updated_at r).

Definition oa_with_status (v : string) (r : owner_assignment) : owner_assignment :=
  mk_owner_assignment (oa_owner_assignment_id r) (oa_tenant_id r) (oa_project r)
    (oa_environment r) (oa_application_name r) (oa_subject_type r) (oa_subject_name r)
    (oa_owner_role r) (oa_owner_ref r) v (oa_source r) (oa_created_at r) (oa_updated_at r).

Definition oa_with_source (v : string) (r : owner_assignment) : owner_assignment :=
  mk_owner_assignment (oa_owner_assignment_id r) (oa_tenant_id r) (oa_project r)
    (oa_environment r) (oa_application_name r) (oa_subject_type r) (oa_subject_name r)
    (oa_owner_role r) (oa_owner_ref r) (oa_status r) v (oa_created_at r) (oa_updated_at r).

Definition oa_with_updated_at (v : string) (r : owner_assignment) : owner_assignment :=
  mk_owner_assignment (oa_owner_assignment_id r) (oa_tenant_id r) (oa_project r)
    (oa_environment r) (oa_application_name r) (oa_subject_type r) (oa_subject_name r)
    (oa_owner_role r) (oa_owner_ref r) (oa_status r) (oa_source r) (oa_created_at r) v.

(** [governance_decisions]: workflow.py *)
Record governance_decision := mk_governance_decision {
  gd_decision_id : string;
  gd_tenant_id : option string;
  gd_project : string;
  gd_environment : string;
  gd_application_name : string;
  gd_target_type : string;
  gd_target_id : string;
  gd_decision : string;
  gd_rationale : string;
  gd_actor_ref : string;
  gd_created_at : string
}.

(** [governance_exceptions]: workflow.py *)
Record governance_exception := mk_governance_exception {
  ge_exception_id : string;
  ge_tenant_id : option string;
  ge_project : string;
  ge_environment : string;
  ge_application_name : string;
  ge_target_type : string;
  ge_target_id : string;
  ge_reason : string;
  ge_compensating_control : string;
  ge_expires_at : string;
  ge_status : string;
  ge_actor_ref : string;
  ge_created_at : string;
  ge_updated_at : string
}.

Definition ge_with_status (v : string) (r : governance_exception) : governance_exception :=
  mk_governance_exception (ge_exception_id r) (ge_tenant_id r) (ge_project r) (ge_environment r)
    (ge_application_name r) (ge_target_type r) (ge_target_id r) (ge_reason r)
    (ge_compensating_control r) (ge_expires_at r) v (ge_actor_ref r) (ge_created_at r)
    (ge_updated_at r).

Definition ge_with_updated_at (v : string) (r : governance_exception) : governance_exception :=
  mk_governance_exception (ge_exception_id r) (ge_tenant_id r) (ge_project r) (ge_environment r)
    (ge_application_name r) (ge_target_type r) (ge_target_id r) (ge_reason r)
    (ge_compensating_control r) (ge_expires_at r) (ge_status r) (ge_actor_ref r)
    (ge_created_at r) v.

(** [portable_records]: portable.py; [body] is the stored JSON document *)
Record portable_record := mk_portable_record {
  po_record_id : string;
  po_tenant_id : string;
  po_kind : string;
  po_project : string;
  po_environment : string;
  po_integration_id : string;
  po_external_id : string;
  po_subject_id : string;
  po_state : string;
  po_body : pyval;
  po_revision_id : string;
  po_policy_id : string;
  po_purpose : string;
  po_revision_digest : string;
  po_check_id : string;
  po_observed_at : string;
  po_evidence_result : string;
  po_created_by : string;
  po_created_at : string;
  po_updated_at : string;
  po_audited_at : string;
  po_decision_id : string
}.

Definition po_with_state (v : string) (r : portable_record) : portable_record :=
  mk_portable_record (po_record_id r) (po_tenant_id r) (po_kind r) (po_project r)
    (po_environment r) (po_integration_id r) (po_external_id r) (po_subject_id r) v (po_body r)
    (po_revision_id r) (po_policy_id r) (po_purpose r) (po_revision_digest r) (po_check_id r)
    (po_observed_at r) (po_evidence_result r) (po_created_by r) (po_created_at r)
    (po_updated_at r) (po_audited_at r) (po_decision_id r).

Definition po_with_body (v : pyval) (r : portable_record) : portable_record :=
  mk_portable_record (po_record_id r) (po_tenant_id r) (po_kind r) (po_project r)
    (po_environment r) (po_integration_id r) (po_external_id r) (po_subject_id r) (po_state r) v
    (po_revision_id r) (po_policy_id r) (po_purpose r) (po_revision_digest r) (po_check_id r)
    (po_observed_at r) (po_evidence_result r) (po_created_by r) (po_created_at r)
    (po_updated_at r) (po_audited_at r) (po_decision_id r).

Definition po_with_updated_at (v : string) (r : portable_record) : portable_record :=
  mk_portable_record (po_record_id r) (po_tenant_id r) (po_kind r) (po_project r)
    (po_environment r) (po_integration_id r) (po_external_id r) (po_subject_id r) (po_state r)
    (po_body r) (po_revision_id r) (po_policy_id r) (po_purpose r) (po_revision_digest r)
    (po_check_id r) (po_observed_at r) (po_evidence_result r) (po_created_by r)
    (po_created_at r) v (po_audited_at r) (po_decision_id r).

Definition po_with_audited_at (v : string) (r : portable_record) : portable_record :=
  mk_portable_record (po_record_id r) (po_tenant_id r) (po_kind r) (po_project r)
    (po_environment r) (po_integration_id r) (po_external_id r) (po_subject_id r) (po_state r)
    (po_body r) (po_revision_id r) (po_policy_id r) (po_purpose r) (po_revision_digest r)
    (po_check_id r) (po_observed_at r) (po_evidence_result r) (po_created_by r)
    (po_created_at r) (po_updated_at r) v (po_decision_id r).

Definition po_with_decision_id (v : string) (r : portable_record) : portable_record :=
  mk_portable_record (po_record_id r) (po_tenant_id r) (po_kind r) (po_project r)
    (po_environment r) (po_integration_id r) (po_external_id r) (po_subject_id r) (po_state r)
    (po_body r) (po_revision_id r) (po_policy_id r) (po_purpose r) (po_revision_digest r)
    (po_check_id r) (po_observed_at r) (po_evidence_result r) (po_created_by r)
    (po_created_at r) (po_updated_at r) (po_audited_at r) v.

(** [portable_credentials]: portable.py *)
Record portable_credential := mk_portable_credential {
  pc_token_hash : string;
  pc_record_id : string;
  pc_tenant_id : string;
  pc_purpose : string;
  pc_expires_at : option string;
  pc_consumed_at : option string
}.

Definition pc_with_consumed_at (v : option string) (r : portable_credential) : portable_credential :=
  mk_portable_credential (pc_token_hash r) (pc_record_id r) (pc_tenant_id r) (pc_purpose r)
    (pc_expires_at r) v.

(** a notification handed to [services.notifications.emit], as its event type,
    subject and recipients: the outbox the worker delivers from *)
Record notice := mk_notice {
  nt_tenant_id : option string;
  nt_event_type : string;
  nt_subject_id : string;
  nt_to_roles : list string;
  nt_to_users : list string
}.

(** the arguments of a [record_audit] call; [AuditLog] models how the chain
    stores them *)
Record audit_entry := mk_audit {
  ae_actor_ref : string;
  ae_action : string;
  ae_tenant_id : option string;
  ae_target_type : option string;
  ae_target_id : option string;
  ae_detail : option pyval
}.

(** a call that names its target and gives a detail *)
Definition mk_audit_entry (actor_ref action : string) (tenant_id : option string) (target_type target_id : string)
    (detail : pyval) : audit_entry :=
  mk_audit actor_ref action tenant_id (Some target_type) (Some target_id) (Some detail).

(** the database *)
Record db := mk_db {
  platform_users : list platform_user;
  sessions : list session;
  mfa_recovery_codes : list recovery_code;
  mfa_challenges : list mfa_challenge;
  login_throttle : list throttle_row;
  invites : list invite;
  role_permissions : list role_permission;
  role_assignments : list role_assignment;
  governance_policies : list governance_policy;
  approval_stages : list approval_stage;
  vendor_registry : list vendor;
  vendor_evidence_references : list evidence_reference;
  review_tasks : list review_task;
  ai_use_cases : list use_case;
  risk_findings : list risk_finding;
  control_assessments : list control_assessment;
  change_events : list change_event;
  governance_incidents : list incident;
  governance_deployments : list deployment;
  deployment_versions : list deployment_version;
  deployment_approval_gates : list deployment_gate;
  prompt_templates : list prompt_template;
  prompt_versions : list prompt_version;
  governance_observed_events : list observed_event;
  lifecycle_fingerprints : list fingerprint_row;
  agent_registry : list agent;
  attestation_keys : list attestation_key;
  ingestion_keys : list ingestion_key;
  organizations : list organization;
  attestation_requirements : list attestation_requirement;
  control_library : list control_definition;
  risk_rules : list risk_rule;
  control_evidence_traces : list evidence_trace;
  sdk_events : list sdk_event;
  governance_applications : list application;
  governance_workflows : list workflow;
  governance_models : list model;
  governance_providers : list provider;
  governance_risks : list observed_risk;
  governance_controls : list observed_control;
  review_queue_policies : list queue_policy;
  owner_assignment_policies : list owner_policy;
  owner_assignments : list owner_assignment;
  governance_decisions : list governance_decision;
  governance_exceptions : list governance_exception;
  portable_records : list portable_record;
  portable_credentials : list portable_credential;
  outbox : list notice;
  audit_trail : list audit_entry
}.

Definition empty_db : db :=
  mk_db [] [] [] [] [] [] [] [] [] [] [] [] [] [] [] [] [] [] [] [] [] [] [] [] [] [] [] [] [] [] [] [] [] [] [] [] [] [] [] [] [] [] [] [] [] [] [] [] [].

Definition set_platform_users (v : list platform_user) (d : db) : db :=
  mk_db v (sessions d) (mfa_recovery_codes d) (mfa_challenges d) (login_throttle d) (invites d)
    (role_permissions d) (role_assignments d) (governance_policies d) (approval_stages d)
    (vendor_registry d) (vendor_evidence_references d) (review_tasks d) (ai_use_cases d)
    (risk_findings d) (control_assessments d) (change_events d) (governance_incidents d)
    (governance_deployments d) (deployment_versions d) (deployment_approval_gates d)
    (prompt_templates d) (prompt_versions d) (governance_observed_events d)
    (lifecycle_fingerprints d) (agent_registry d) (attestation_keys d) (ingestion_keys d)
    (organizations d) (attestation_requirements d) (control_library d) (risk_rules d)
    (control_evidence_traces d) (sdk_events d) (governance_applications d)
    (governance_workflows d) (governance_models d) (governance_providers d) (governance_risks d)
    (governance_controls d) (review_queue_policies d) (owner_assignment_policies d)
    (owner_assignments d) (governance_decisions d) (governance_exceptions d)
    (portable_records d) (portable_credentials d) (outbox d) (audit_trail d).

Definition set_sessions (v : list session) (d : db) : db :=
  mk_db (platform_users d) v (mfa_recovery_codes d) (mfa_challenges d) (login_throttle d)
    (invites d) (role_permissions d) (role_assignments d) (governance_policies d)
    (approval_stages d) (vendor_registry d) (vendor_evidence_references d) (review_tasks d)
    (ai_use_cases d) (risk_findings d) (control_assessments d) (change_events d)
    (governance_incidents d) (governance_deployments d) (deployment_versions d)
    (deployment_approval_gates d) (prompt_templates d) (prompt_versions d)
    (governance_observed_events d) (lifecycle_fingerprints d) (agent_registry d)
    (attestation_keys d) (ingestion_keys d) (organizations d) (attestation_requirements d)
    (control_library d) (risk_rules d) (control_evidence_traces d) (sdk_events d)
    (governance_applications d) (governance_workflows d) (governance_models d)
    (governance_providers d) (governance_risks d) (governance_controls d)
    (review_queue_policies d) (owner_assignment_policies d) (owner_assignments d)
    (governance_decisions d) (governance_exceptions d) (portable_records d)
    (portable_credentials d) (outbox d) (audit_trail d).

Definition set_mfa_recovery_codes (v : list recovery_code) (d : db) : db :=
  mk_db (platform_users d) (sessions d) v (mfa_challenges d) (login_throttle d) (invites d)
    (role_permissions d) (role_assignments d) (governance_policies d) (approval_stages d)
    (vendor_registry d) (vendor_evidence_references d) (review_tasks d) (ai_use_cases d)
    (risk_findings d) (control_assessments d) (change_events d) (governance_incidents d)
    (governance_deployments d) (deployment_versions d) (deployment_approval_gates d)
    (prompt_templates d) (prompt_versions d) (governance_observed_events d)
    (lifecycle_fingerprints d) (agent_registry d) (attestation_keys d) (ingestion_keys d)
    (organizations d) (attestation_requirements d) (control_library d) (risk_rules d)
    (control_evidence_traces d) (sdk_events d) (governance_applications d)
    (governance_workflows d) (governance_models d) (governance_providers d) (governance_risks d)
    (governance_controls d) (review_queue_policies d) (owner_assignment_policies d)
    (owner_assignments d) (governance_decisions d) (governance_exceptions d)
    (portable_records d) (portable_credentials d) (outbox d) (audit_trail d).

Definition set_mfa_challenges (v : list mfa_challenge) (d : db) : db :=
  mk_db (platform_users d) (sessions d) (mfa_recovery_codes d) v (login_throttle d) (invites d)
    (role_permissions d) (role_assignments d) (governance_policies d) (approval_stages d)
    (vendor_registry d) (vendor_evidence_references d) (review_tasks d) (ai_use_cases d)
    (risk_findings d) (control_assessments d) (change_events d) (governance_incidents d)
    (governance_deployments d) (deployment_versions d) (deployment_approval_gates d)
    (prompt_templates d) (prompt_versions d) (governance_observed_events d)
    (lifecycle_fingerprints d) (agent_registry d) (attestation_keys d) (ingestion_keys d)
    (organizations d) (attestation_requirements d) (control_library d) (risk_rules d)
    (control_evidence_traces d) (sdk_events d) (governance_applications d)
    (governance_workflows d) (governance_models d) (governance_providers d) (governance_risks d)
    (governance_controls d) (review_queue_policies d) (owner_assignment_policies d)
    (owner_assignments d) (governance_decisions d) (governance_exceptions d)
    (portable_records d) (portable_credentials d) (outbox d) (audit_trail d).

Definition set_login_throttle (v : list throttle_row) (d : db) : db :=
  mk_db (platform_users d) (sessions d) (mfa_recovery_codes d) (mfa_challenges d) v (invites d)
    (role_permissions d) (role_assignments d) (governance_policies d) (approval_stages d)
    (vendor_registry d) (vendor_evidence_references d) (review_tasks d) (ai_use_cases d)
    (risk_findings d) (control_assessments d) (change_events d) (governance_incidents d)
    (governance_deployments d) (deployment_versions d) (deployment_approval_gates d)
    (prompt_templates d) (prompt_versions d) (governance_observed_events d)
    (lifecycle_fingerprints d) (agent_registry d) (attestation_keys d) (ingestion_keys d)
    (organizations d) (attestation_requirements d) (control_library d) (risk_rules d)
    (control_evidence_traces d) (sdk_events d) (governance_applications d)
    (governance_workflows d) (governance_models d) (governance_providers d) (governance_risks d)
    (governance_controls d) (review_queue_policies d) (owner_assignment_policies d)
    (owner_assignments d) (governance_decisions d) (governance_exceptions d)
    (portable_records d) (portable_credentials d) (outbox d) (audit_trail d).

Definition set_invites (v : list invite) (d : db) : db :=
  mk_db (platform_users d) (sessions d) (mfa_recovery_codes d) (mfa_challenges d)
    (login_throttle d) v (role_permissions d) (role_assignments d) (governance_policies d)
    (approval_stages d) (vendor_registry d) (vendor_evidence_references d) (review_tasks d)
    (ai_use_cases d) (risk_findings d) (control_assessments d) (change_events d)
    (governance_incidents d) (governance_deployments d) (deployment_versions d)
    (deployment_approval_gates d) (prompt_templates d) (prompt_versions d)
    (governance_observed_events d) (lifecycle_fingerprints d) (agent_registry d)
    (attestation_keys d) (ingestion_keys d) (organizations d) (attestation_requirements d)
    (control_library d) (risk_rules d) (control_evidence_traces d) (sdk_events d)
    (governance_applications d) (governance_workflows d) (governance_models d)
    (governance_providers d) (governance_risks d) (governance_controls d)
    (review_queue_policies d) (owner_assignment_policies d) (owner_assignments d)
    (governance_decisions d) (governance_exceptions d) (portable_records d)
    (portable_credentials d) (outbox d) (audit_trail d).

Definition set_role_permissions (v : list role_permission) (d : db) : db :=
  mk_db (platform_users d) (sessions d) (mfa_recovery_codes d) (mfa_challenges d)
    (login_throttle d) (invites d) v (role_assignments d) (governance_policies d)
    (approval_stages d) (vendor_registry d) (vendor_evidence_references d) (review_tasks d)
    (ai_use_cases d) (risk_findings d) (control_assessments d) (change_events d)
    (governance_incidents d) (governance_deployments d) (deployment_versions d)
    (deployment_approval_gates d) (prompt_templates d) (prompt_versions d)
    (governance_observed_events d) (lifecycle_fingerprints d) (agent_registry d)
    (attestation_keys d) (ingestion_keys d) (organizations d) (attestation_requirements d)
    (control_library d) (risk_rules d) (control_evidence_traces d) (sdk_events d)
    (governance_applications d) (governance_workflows d) (governance_models d)
    (governance_providers d) (governance_risks d) (governance_controls d)
    (review_queue_policies d) (owner_assignment_policies d) (owner_assignments d)
    (governance_decisions d) (governance_exceptions d) (portable_records d)
    (portable_credentials d) (outbox d) (audit_trail d).

Definition set_role_assignments (v : list role_assignment) (d : db) : db :=
  mk_db (platform_users d) (sessions d) (mfa_recovery_codes d) (mfa_challenges d)
    (login_throttle d) (invites d) (role_permissions d) v (governance_policies d)
    (approval_stages d) (vendor_registry d) (vendor_evidence_references d) (review_tasks d)
    (ai_use_cases d) (risk_findings d) (control_assessments d) (change_events d)
    (governance_incidents d) (governance_deployments d) (deployment_versions d)
    (deployment_approval_gates d) (prompt_templates d) (prompt_versions d)
    (governance_observed_events d) (lifecycle_fingerprints d) (agent_registry d)
    (attestation_keys d) (ingestion_keys d) (organizations d) (attestation_requirements d)
    (control_library d) (risk_rules d) (control_evidence_traces d) (sdk_events d)
    (governance_applications d) (governance_workflows d) (governance_models d)
    (governance_providers d) (governance_risks d) (governance_controls d)
    (review_queue_policies d) (owner_assignment_policies d) (owner_assignments d)
    (governance_decisions d) (governance_exceptions d) (portable_records d)
    (portable_credentials d) (outbox d) (audit_trail d).

Definition set_governance_policies (v : list governance_policy) (d : db) : db :=
  mk_db (platform_users d) (sessions d) (mfa_recovery_codes d) (mfa_challenges d)
    (login_throttle d) (invites d) (role_permissions d) (role_assignments d) v
    (approval_stages d) (vendor_registry d) (vendor_evidence_references d) (review_tasks d)
    (ai_use_cases d) (risk_findings d) (control_assessments d) (change_events d)
    (governance_incidents d) (governance_deployments d) (deployment_versions d)
    (deployment_approval_gates d) (prompt_templates d) (prompt_versions d)
    (governance_observed_events d) (lifecycle_fingerprints d) (agent_registry d)
    (attestation_keys d) (ingestion_keys d) (organizations d) (attestation_requirements d)
    (control_library d) (risk_rules d) (control_evidence_traces d) (sdk_events d)
    (governance_applications d) (governance_workflows d) (governance_models d)
    (governance_providers d) (governance_risks d) (governance_controls d)
    (review_queue_policies d) (owner_assignment_policies d) (owner_assignments d)
    (governance_decisions d) (governance_exceptions d) (portable_records d)
    (portable_credentials d) (outbox d) (audit_trail d).

Definition set_approval_stages (v : list approval_stage) (d : db) : db :=
  mk_db (platform_users d) (sessions d) (mfa_recovery_codes d) (mfa_challenges d)
    (login_throttle d) (invites d) (role_permissions d) (role_assignments d)
    (governance_policies d) v (vendor_registry d) (vendor_evidence_references d)
    (review_tasks d) (ai_use_cases d) (risk_findings d) (control_assessments d)
    (change_events d) (governance_incidents d) (governance_deployments d)
    (deployment_versions d) (deployment_approval_gates d) (prompt_templates d)
    (prompt_versions d) (governance_observed_events d) (lifecycle_fingerprints d)
    (agent_registry d) (attestation_keys d) (ingestion_keys d) (organizations d)
    (attestation_requirements d) (control_library d) (risk_rules d) (control_evidence_traces d)
    (sdk_events d) (governance_applications d) (governance_workflows d) (governance_models d)
    (governance_providers d) (governance_risks d) (governance_controls d)
    (review_queue_policies d) (owner_assignment_policies d) (owner_assignments d)
    (governance_decisions d) (governance_exceptions d) (portable_records d)
    (portable_credentials d) (outbox d) (audit_trail d).

Definition set_vendor_registry (v : list vendor) (d : db) : db :=
  mk_db (platform_users d) (sessions d) (mfa_recovery_codes d) (mfa_challenges d)
    (login_throttle d) (invites d) (role_permissions d) (role_assignments d)
    (governance_policies d) (approval_stages d) v (vendor_evidence_references d)
    (review_tasks d) (ai_use_cases d) (risk_findings d) (control_assessments d)
    (change_events d) (governance_incidents d) (governance_deployments d)
    (deployment_versions d) (deployment_approval_gates d) (prompt_templates d)
    (prompt_versions d) (governance_observed_events d) (lifecycle_fingerprints d)
    (agent_registry d) (attestation_keys d) (ingestion_keys d) (organizations d)
    (attestation_requirements d) (control_library d) (risk_rules d) (control_evidence_traces d)
    (sdk_events d) (governance_applications d) (governance_workflows d) (governance_models d)
    (governance_providers d) (governance_risks d) (governance_controls d)
    (review_queue_policies d) (owner_assignment_policies d) (owner_assignments d)
    (governance_decisions d) (governance_exceptions d) (portable_records d)
    (portable_credentials d) (outbox d) (audit_trail d).

Definition set_vendor_evidence_references (v : list evidence_reference) (d : db) : db :=
  mk_db (platform_users d) (sessions d) (mfa_recovery_codes d) (mfa_challenges d)
    (login_throttle d) (invites d) (role_permissions d) (role_assignments d)
    (governance_policies d) (approval_stages d) (vendor_registry d) v (review_tasks d)
    (ai_use_cases d) (risk_findings d) (control_assessments d) (change_events d)
    (governance_incidents d) (governance_deployments d) (deployment_versions d)
    (deployment_approval_gates d) (prompt_templates d) (prompt_versions d)
    (governance_observed_events d) (lifecycle_fingerprints d) (agent_registry d)
    (attestation_keys d) (ingestion_keys d) (organizations d) (attestation_requirements d)
    (control_library d) (risk_rules d) (control_evidence_traces d) (sdk_events d)
    (governance_applications d) (governance_workflows d) (governance_models d)
    (governance_providers d) (governance_risks d) (governance_controls d)
    (review_queue_policies d) (owner_assignment_policies d) (owner_assignments d)
    (governance_decisions d) (governance_exceptions d) (portable_records d)
    (portable_credentials d) (outbox d) (audit_trail d).

Definition set_review_tasks (v : list review_task) (d : db) : db :=
  mk_db (platform_users d) (sessions d) (mfa_recovery_codes d) (mfa_challenges d)
    (login_throttle d) (invites d) (role_permissions d) (role_assignments d)
    (governance_policies d) (approval_stages d) (vendor_registry d)
    (vendor_evidence_references d) v (ai_use_cases d) (risk_findings d) (control_assessments d)
    (change_events d) (governance_incidents d) (governance_deployments d)
    (deployment_versions d) (deployment_approval_gates d) (prompt_templates d)
    (prompt_versions d) (governance_observed_events d) (lifecycle_fingerprints d)
    (agent_registry d) (attestation_keys d) (ingestion_keys d) (organizations d)
    (attestation_requirements d) (control_library d) (risk_rules d) (control_evidence_traces d)
    (sdk_events d) (governance_applications d) (governance_workflows d) (governance_models d)
    (governance_providers d) (governance_risks d) (governance_controls d)
    (review_queue_policies d) (owner_assignment_policies d) (owner_assignments d)
    (governance_decisions d) (governance_exceptions d) (portable_records d)
    (portable_credentials d) (outbox d) (audit_trail d).

Definition set_ai_use_cases (v : list use_case) (d : db) : db :=
  mk_db (platform_users d) (sessions d) (mfa_recovery_codes d) (mfa_challenges d)
    (login_throttle d) (invites d) (role_permissions d) (role_assignments d)
    (governance_policies d) (approval_stages d) (vendor_registry d)
    (vendor_evidence_references d) (review_tasks d) v (risk_findings d) (control_assessments d)
    (change_events d) (governance_incidents d) (governance_deployments d)
    (deployment_versions d) (deployment_approval_gates d) (prompt_templates d)
    (prompt_versions d) (governance_observed_events d) (lifecycle_fingerprints d)
    (agent_registry d) (attestation_keys d) (ingestion_keys d) (organizations d)
    (attestation_requirements d) (control_library d) (risk_rules d) (control_evidence_traces d)
    (sdk_events d) (governance_applications d) (governance_workflows d) (governance_models d)
    (governance_providers d) (governance_risks d) (governance_controls d)
    (review_queue_policies d) (owner_assignment_policies d) (owner_assignments d)
    (governance_decisions d) (governance_exceptions d) (portable_records d)
    (portable_credentials d) (outbox d) (audit_trail d).

Definition set_risk_findings (v : list risk_finding) (d : db) : db :=
  mk_db (platform_users d) (sessions d) (mfa_recovery_codes d) (mfa_challenges d)
    (login_throttle d) (invites d) (role_permissions d) (role_assignments d)
    (governance_policies d) (approval_stages d) (vendor_registry d)
    (vendor_evidence_references d) (review_tasks d) (ai_use_cases d) v (control_assessments d)
    (change_events d) (governance_incidents d) (governance_deployments d)
    (deployment_versions d) (deployment_approval_gates d) (prompt_templates d)
    (prompt_versions d) (governance_observed_events d) (lifecycle_fingerprints d)
    (agent_registry d) (attestation_keys d) (ingestion_keys d) (organizations d)
    (attestation_requirements d) (control_library d) (risk_rules d) (control_evidence_traces d)
    (sdk_events d) (governance_applications d) (governance_workflows d) (governance_models d)
    (governance_providers d) (governance_risks d) (governance_controls d)
    (review_queue_policies d) (owner_assignment_policies d) (owner_assignments d)
    (governance_decisions d) (governance_exceptions d) (portable_records d)
    (portable_credentials d) (outbox d) (audit_trail d).

Definition set_control_assessments (v : list control_assessment) (d : db) : db :=
  mk_db (platform_users d) (sessions d) (mfa_recovery_codes d) (mfa_challenges d)
    (login_throttle d) (invites d) (role_permissions d) (role_assignments d)
    (governance_policies d) (approval_stages d) (vendor_registry d)
    (vendor_evidence_references d) (review_tasks d) (ai_use_cases d) (risk_findings d) v
    (change_events d) (governance_incidents d) (governance_deployments d)
    (deployment_versions d) (deployment_approval_gates d) (prompt_templates d)
    (prompt_versions d) (governance_observed_events d) (lifecycle_fingerprints d)
    (agent_registry d) (attestation_keys d) (ingestion_keys d) (organizations d)
    (attestation_requirements d) (control_library d) (risk_rules d) (control_evidence_traces d)
    (sdk_events d) (governance_applications d) (governance_workflows d) (governance_models d)
    (governance_providers d) (governance_risks d) (governance_controls d)
    (review_queue_policies d) (owner_assignment_policies d) (owner_assignments d)
    (governance_decisions d) (governance_exceptions d) (portable_records d)
    (portable_credentials d) (outbox d) (audit_trail d).

Definition set_change_events (v : list change_event) (d : db) : db :=
  mk_db (platform_users d) (sessions d) (mfa_recovery_codes d) (mfa_challenges d)
    (login_throttle d) (invites d) (role_permissions d) (role_assignments d)
    (governance_policies d) (approval_stages d) (vendor_registry d)
    (vendor_evidence_references d) (review_tasks d) (ai_use_cases d) (risk_findings d)
    (control_assessments d) v (governance_incidents d) (governance_deployments d)
    (deployment_versions d) (deployment_approval_gates d) (prompt_templates d)
    (prompt_versions d) (governance_observed_events d) (lifecycle_fingerprints d)
    (agent_registry d) (attestation_keys d) (ingestion_keys d) (organizations d)
    (attestation_requirements d) (control_library d) (risk_rules d) (control_evidence_traces d)
    (sdk_events d) (governance_applications d) (governance_workflows d) (governance_models d)
    (governance_providers d) (governance_risks d) (governance_controls d)
    (review_queue_policies d) (owner_assignment_policies d) (owner_assignments d)
    (governance_decisions d) (governance_exceptions d) (portable_records d)
    (portable_credentials d) (outbox d) (audit_trail d).

Definition set_governance_incidents (v : list incident) (d : db) : db :=
  mk_db (platform_users d) (sessions d) (mfa_recovery_codes d) (mfa_challenges d)
    (login_throttle d) (invites d) (role_permissions d) (role_assignments d)
    (governance_policies d) (approval_stages d) (vendor_registry d)
    (vendor_evidence_references d) (review_tasks d) (ai_use_cases d) (risk_findings d)
    (control_assessments d) (change_events d) v (governance_deployments d)
    (deployment_versions d) (deployment_approval_gates d) (prompt_templates d)
    (prompt_versions d) (governance_observed_events d) (lifecycle_fingerprints d)
    (agent_registry d) (attestation_keys d) (ingestion_keys d) (organizations d)
    (attestation_requirements d) (control_library d) (risk_rules d) (control_evidence_traces d)
    (sdk_events d) (governance_applications d) (governance_workflows d) (governance_models d)
    (governance_providers d) (governance_risks d) (governance_controls d)
    (review_queue_policies d) (owner_assignment_policies d) (owner_assignments d)
    (governance_decisions d) (governance_exceptions d) (portable_records d)
    (portable_credentials d) (outbox d) (audit_trail d).

Definition set_governance_deployments (v : list deployment) (d : db) : db :=
  mk_db (platform_users d) (sessions d) (mfa_recovery_codes d) (mfa_challenges d)
    (login_throttle d) (invites d) (role_permissions d) (role_assignments d)
    (governance_policies d) (approval_stages d) (vendor_registry d)
    (vendor_evidence_references d) (review_tasks d) (ai_use_cases d) (risk_findings d)
    (control_assessments d) (change_events d) (governance_incidents d) v (deployment_versions d)
    (deployment_approval_gates d) (prompt_templates d) (prompt_versions d)
    (governance_observed_events d) (lifecycle_fingerprints d) (agent_registry d)
    (attestation_keys d) (ingestion_keys d) (organizations d) (attestation_requirements d)
    (control_library d) (risk_rules d) (control_evidence_traces d) (sdk_events d)
    (governance_applications d) (governance_workflows d) (governance_models d)
    (governance_providers d) (governance_risks d) (governance_controls d)
    (review_queue_policies d) (owner_assignment_policies d) (owner_assignments d)
    (governance_decisions d) (governance_exceptions d) (portable_records d)
    (portable_credentials d) (outbox d) (audit_trail d).

Definition set_deployment_versions (v : list deployment_version) (d : db) : db :=
  mk_db (platform_users d) (sessions d) (mfa_recovery_codes d) (mfa_challenges d)
    (login_throttle d) (invites d) (role_permissions d) (role_assignments d)
    (governance_policies d) (approval_stages d) (vendor_registry d)
    (vendor_evidence_references d) (review_tasks d) (ai_use_cases d) (risk_findings d)
    (control_assessments d) (change_events d) (governance_incidents d)
    (governance_deployments d) v (deployment_approval_gates d) (prompt_templates d)
    (prompt_versions d) (governance_observed_events d) (lifecycle_fingerprints d)
    (agent_registry d) (attestation_keys d) (ingestion_keys d) (organizations d)
    (attestation_requirements d) (control_library d) (risk_rules d) (control_evidence_traces d)
    (sdk_events d) (governance_applications d) (governance_workflows d) (governance_models d)
    (governance_providers d) (governance_risks d) (governance_controls d)
    (review_queue_policies d) (owner_assignment_policies d) (owner_assignments d)
    (governance_decisions d) (governance_exceptions d) (portable_records d)
    (portable_credentials d) (outbox d) (audit_trail d).

Definition set_deployment_approval_gates (v : list deployment_gate) (d : db) : db :=
  mk_db (platform_users d) (sessions d) (mfa_recovery_codes d) (mfa_challenges d)
    (login_throttle d) (invites d) (role_permissions d) (role_assignments d)
    (governance_policies d) (approval_stages d) (vendor_registry d)
    (vendor_evidence_references d) (review_tasks d) (ai_use_cases d) (risk_findings d)
    (control_assessments d) (change_events d) (governance_incidents d)
    (governance_deployments d) (deployment_versions d) v (prompt_templates d)
    (prompt_versions d) (governance_observed_events d) (lifecycle_fingerprints d)
    (agent_registry d) (attestation_keys d) (ingestion_keys d) (organizations d)
    (attestation_requirements d) (control_library d) (risk_rules d) (control_evidence_traces d)
    (sdk_events d) (governance_applications d) (governance_workflows d) (governance_models d)
    (governance_providers d) (governance_risks d) (governance_controls d)
    (review_queue_policies d) (owner_assignment_policies d) (owner_assignments d)
    (governance_decisions d) (governance_exceptions d) (portable_records d)
    (portable_credentials d) (outbox d) (audit_trail d).

Definition set_prompt_templates (v : list prompt_template) (d : db) : db :=
  mk_db (platform_users d) (sessions d) (mfa_recovery_codes d) (mfa_challenges d)
    (login_throttle d) (invites d) (role_permissions d) (role_assignments d)
    (governance_policies d) (approval_stages d) (vendor_registry d)
    (vendor_evidence_references d) (review_tasks d) (ai_use_cases d) (risk_findings d)
    (control_assessments d) (change_events d) (governance_incidents d)
    (governance_deployments d) (deployment_versions d) (deployment_approval_gates d) v
    (prompt_versions d) (governance_observed_events d) (lifecycle_fingerprints d)
    (agent_registry d) (attestation_keys d) (ingestion_keys d) (organizations d)
    (attestation_requirements d) (control_library d) (risk_rules d) (control_evidence_traces d)
    (sdk_events d) (governance_applications d) (governance_workflows d) (governance_models d)
    (governance_providers d) (governance_risks d) (governance_controls d)
    (review_queue_policies d) (owner_assignment_policies d) (owner_assignments d)
    (governance_decisions d) (governance_exceptions d) (portable_records d)
    (portable_credentials d) (outbox d) (audit_trail d).

Definition set_prompt_versions (v : list prompt_version) (d : db) : db :=
  mk_db (platform_users d) (sessions d) (mfa_recovery_codes d) (mfa_challenges d)
    (login_throttle d) (invites d) (role_permissions d) (role_assignments d)
    (governance_policies d) (approval_stages d) (vendor_registry d)
    (vendor_evidence_references d) (review_tasks d) (ai_use_cases d) (risk_findings d)
    (control_assessments d) (change_events d) (governance_incidents d)
    (governance_deployments d) (deployment_versions d) (deployment_approval_gates d)
    (prompt_templates d) v (governance_observed_events d) (lifecycle_fingerprints d)
    (agent_registry d) (attestation_keys d) (ingestion_keys d) (organizations d)
    (attestation_requirements d) (control_library d) (risk_rules d) (control_evidence_traces d)
    (sdk_events d) (governance_applications d) (governance_workflows d) (governance_models d)
    (governance_providers d) (governance_risks d) (governance_controls d)
    (review_queue_policies d) (owner_assignment_policies d) (owner_assignments d)
    (governance_decisions d) (governance_exceptions d) (portable_records d)
    (portable_credentials d) (outbox d) (audit_trail d).

Definition set_governance_observed_events (v : list observed_event) (d : db) : db :=
  mk_db (platform_users d) (sessions d) (mfa_recovery_codes d) (mfa_challenges d)
    (login_throttle d) (invites d) (role_permissions d) (role_assignments d)
    (governance_policies d) (approval_stages d) (vendor_registry d)
    (vendor_evidence_references d) (review_tasks d) (ai_use_cases d) (risk_findings d)
    (control_assessments d) (change_events d) (governance_incidents d)
    (governance_deployments d) (deployment_versions d) (deployment_approval_gates d)
    (prompt_templates d) (prompt_versions d) v (lifecycle_fingerprints d) (agent_registry d)
    (attestation_keys d) (ingestion_keys d) (organizations d) (attestation_requirements d)
    (control_library d) (risk_rules d) (control_evidence_traces d) (sdk_events d)
    (governance_applications d) (governance_workflows d) (governance_models d)
    (governance_providers d) (governance_risks d) (governance_controls d)
    (review_queue_policies d) (owner_assignment_policies d) (owner_assignments d)
    (governance_decisions d) (governance_exceptions d) (portable_records d)
    (portable_credentials d) (outbox d) (audit_trail d).

Definition set_lifecycle_fingerprints (v : list fingerprint_row) (d : db) : db :=
  mk_db (platform_users d) (sessions d) (mfa_recovery_codes d) (mfa_challenges d)
    (login_throttle d) (invites d) (role_permissions d) (role_assignments d)
    (governance_policies d) (approval_stages d) (vendor_registry d)
    (vendor_evidence_references d) (review_tasks d) (ai_use_cases d) (risk_findings d)
    (control_assessments d) (change_events d) (governance_incidents d)
    (governance_deployments d) (deployment_versions d) (deployment_approval_gates d)
    (prompt_templates d) (prompt_versions d) (governance_observed_events d) v (agent_registry d)
    (attestation_keys d) (ingestion_keys d) (organizations d) (attestation_requirements d)
    (control_library d) (risk_rules d) (control_evidence_traces d) (sdk_events d)
    (governance_applications d) (governance_workflows d) (governance_models d)
    (governance_providers d) (governance_risks d) (governance_controls d)
    (review_queue_policies d) (owner_assignment_policies d) (owner_assignments d)
    (governance_decisions d) (governance_exceptions d) (portable_records d)
    (portable_credentials d) (outbox d) (audit_trail d).

Definition set_agent_registry (v : list agent) (d : db) : db :=
  mk_db (platform_users d) (sessions d) (mfa_recovery_codes d) (mfa_challenges d)
    (login_throttle d) (invites d) (role_permissions d) (role_assignments d)
    (governance_policies d) (approval_stages d) (vendor_registry d)
    (vendor_evidence_references d) (review_tasks d) (ai_use_cases d) (risk_findings d)
    (control_assessments d) (change_events d) (governance_incidents d)
    (governance_deployments d) (deployment_versions d) (deployment_approval_gates d)
    (prompt_templates d) (prompt_versions d) (governance_observed_events d)
    (lifecycle_fingerprints d) v (attestation_keys d) (ingestion_keys d) (organizations d)
    (attestation_requirements d) (control_library d) (risk_rules d) (control_evidence_traces d)
    (sdk_events d) (governance_applications d) (governance_workflows d) (governance_models d)
    (governance_providers d) (governance_risks d) (governance_controls d)
    (review_queue_policies d) (owner_assignment_policies d) (owner_assignments d)
    (governance_decisions d) (governance_exceptions d) (portable_records d)
    (portable_credentials d) (outbox d) (audit_trail d).

Definition set_attestation_keys (v : list attestation_key) (d : db) : db :=
  mk_db (platform_users d) (sessions d) (mfa_recovery_codes d) (mfa_challenges d)
    (login_throttle d) (invites d) (role_permissions d) (role_assignments d)
    (governance_policies d) (approval_stages d) (vendor_registry d)
    (vendor_evidence_references d) (review_tasks d) (ai_use_cases d) (risk_findings d)
    (control_assessments d) (change_events d) (governance_incidents d)
    (governance_deployments d) (deployment_versions d) (deployment_approval_gates d)
    (prompt_templates d) (prompt_versions d) (governance_observed_events d)
    (lifecycle_fingerprints d) (agent_registry d) v (ingestion_keys d) (organizations d)
    (attestation_requirements d) (control_library d) (risk_rules d) (control_evidence_traces d)
    (sdk_events d) (governance_applications d) (governance_workflows d) (governance_models d)
    (governance_providers d) (governance_risks d) (governance_controls d)
    (review_queue_policies d) (owner_assignment_policies d) (owner_assignments d)
    (governance_decisions d) (governance_exceptions d) (portable_records d)
    (portable_credentials d) (outbox d) (audit_trail d).

Definition set_ingestion_keys (v : list ingestion_key) (d : db) : db :=
  mk_db (platform_users d) (sessions d) (mfa_recovery_codes d) (mfa_challenges d)
    (login_throttle d) (invites d) (role_permissions d) (role_assignments d)
    (governance_policies d) (approval_stages d) (vendor_registry d)
    (vendor_evidence_references d) (review_tasks d) (ai_use_cases d) (risk_findings d)
    (control_assessments d) (change_events d) (governance_incidents d)
    (governance_deployments d) (deployment_versions d) (deployment_approval_gates d)
    (prompt_templates d) (prompt_versions d) (governance_observed_events d)
    (lifecycle_fingerprints d) (agent_registry d) (attestation_keys d) v (organizations d)
    (attestation_requirements d) (control_library d) (risk_rules d) (control_evidence_traces d)
    (sdk_events d) (governance_applications d) (governance_workflows d) (governance_models d)
    (governance_providers d) (governance_risks d) (governance_controls d)
    (review_queue_policies d) (owner_assignment_policies d) (owner_assignments d)
    (governance_decisions d) (governance_exceptions d) (portable_records d)
    (portable_credentials d) (outbox d) (audit_trail d).

Definition set_organizations (v : list organization) (d : db) : db :=
  mk_db (platform_users d) (sessions d) (mfa_recovery_codes d) (mfa_challenges d)
    (login_throttle d) (invites d) (role_permissions d) (role_assignments d)
    (governance_policies d) (approval_stages d) (vendor_registry d)
    (vendor_evidence_references d) (review_tasks d) (ai_use_cases d) (risk_findings d)
    (control_assessments d) (change_events d) (governance_incidents d)
    (governance_deployments d) (deployment_versions d) (deployment_approval_gates d)
    (prompt_templates d) (prompt_versions d) (governance_observed_events d)
    (lifecycle_fingerprints d) (agent_registry d) (attestation_keys d) (ingestion_keys d) v
    (attestation_requirements d) (control_library d) (risk_rules d) (control_evidence_traces d)
    (sdk_events d) (governance_applications d) (governance_workflows d) (governance_models d)
    (governance_providers d) (governance_risks d) (governance_controls d)
    (review_queue_policies d) (owner_assignment_policies d) (owner_assignments d)
    (governance_decisions d) (governance_exceptions d) (portable_records d)
    (portable_credentials d) (outbox d) (audit_trail d).

Definition set_attestation_requirements (v : list attestation_requirement) (d : db) : db :=
  mk_db (platform_users d) (sessions d) (mfa_recovery_codes d) (mfa_challenges d)
    (login_throttle d) (invites d) (role_permissions d) (role_assignments d)
    (governance_policies d) (approval_stages d) (vendor_registry d)
    (vendor_evidence_references d) (review_tasks d) (ai_use_cases d) (risk_findings d)
    (control_assessments d) (change_events d) (governance_incidents d)
    (governance_deployments d) (deployment_versions d) (deployment_approval_gates d)
    (prompt_templates d) (prompt_versions d) (governance_observed_events d)
    (lifecycle_fingerprints d) (agent_registry d) (attestation_keys d) (ingestion_keys d)
    (organizations d) v (control_library d) (risk_rules d) (control_evidence_traces d)
    (sdk_events d) (governance_applications d) (governance_workflows d) (governance_models d)
    (governance_providers d) (governance_risks d) (governance_controls d)
    (review_queue_policies d) (owner_assignment_policies d) (owner_assignments d)
    (governance_decisions d) (governance_exceptions d) (portable_records d)
    (portable_credentials d) (outbox d) (audit_trail d).

Definition set_control_library (v : list control_definition) (d : db) : db :=
  mk_db (platform_users d) (sessions d) (mfa_recovery_codes d) (mfa_challenges d)
    (login_throttle d) (invites d) (role_permissions d) (role_assignments d)
    (governance_policies d) (approval_stages d) (vendor_registry d)
    (vendor_evidence_references d) (review_tasks d) (ai_use_cases d) (risk_findings d)
    (control_assessments d) (change_events d) (governance_incidents d)
    (governance_deployments d) (deployment_versions d) (deployment_approval_gates d)
    (prompt_templates d) (prompt_versions d) (governance_observed_events d)
    (lifecycle_fingerprints d) (agent_registry d) (attestation_keys d) (ingestion_keys d)
    (organizations d) (attestation_requirements d) v (risk_rules d) (control_evidence_traces d)
    (sdk_events d) (governance_applications d) (governance_workflows d) (governance_models d)
    (governance_providers d) (governance_risks d) (governance_controls d)
    (review_queue_policies d) (owner_assignment_policies d) (owner_assignments d)
    (governance_decisions d) (governance_exceptions d) (portable_records d)
    (portable_credentials d) (outbox d) (audit_trail d).

Definition set_risk_rules (v : list risk_rule) (d : db) : db :=
  mk_db (platform_users d) (sessions d) (mfa_recovery_codes d) (mfa_challenges d)
    (login_throttle d) (invites d) (role_permissions d) (role_assignments d)
    (governance_policies d) (approval_stages d) (vendor_registry d)
    (vendor_evidence_references d) (review_tasks d) (ai_use_cases d) (risk_findings d)
    (control_assessments d) (change_events d) (governance_incidents d)
    (governance_deployments d) (deployment_versions d) (deployment_approval_gates d)
    (prompt_templates d) (prompt_versions d) (governance_observed_events d)
    (lifecycle_fingerprints d) (agent_registry d) (attestation_keys d) (ingestion_keys d)
    (organizations d) (attestation_requirements d) (control_library d) v
    (control_evidence_traces d) (sdk_events d) (governance_applications d)
    (governance_workflows d) (governance_models d) (governance_providers d) (governance_risks d)
    (governance_controls d) (review_queue_policies d) (owner_assignment_policies d)
    (owner_assignments d) (governance_decisions d) (governance_exceptions d)
    (portable_records d) (portable_credentials d) (outbox d) (audit_trail d).

Definition set_control_evidence_traces (v : list evidence_trace) (d : db) : db :=
  mk_db (platform_users d) (sessions d) (mfa_recovery_codes d) (mfa_challenges d)
    (login_throttle d) (invites d) (role_permissions d) (role_assignments d)
    (governance_policies d) (approval_stages d) (vendor_registry d)
    (vendor_evidence_references d) (review_tasks d) (ai_use_cases d) (risk_findings d)
    (control_assessments d) (change_events d) (governance_incidents d)
    (governance_deployments d) (deployment_versions d) (deployment_approval_gates d)
    (prompt_templates d) (prompt_versions d) (governance_observed_events d)
    (lifecycle_fingerprints d) (agent_registry d) (attestation_keys d) (ingestion_keys d)
    (organizations d) (attestation_requirements d) (control_library d) (risk_rules d) v
    (sdk_events d) (governance_applications d) (governance_workflows d) (governance_models d)
    (governance_providers d) (governance_risks d) (governance_controls d)
    (review_queue_policies d) (owner_assignment_policies d) (owner_assignments d)
    (governance_decisions d) (governance_exceptions d) (portable_records d)
    (portable_credentials d) (outbox d) (audit_trail d).

Definition set_sdk_events (v : list sdk_event) (d : db) : db :=
  mk_db (platform_users d) (sessions d) (mfa_recovery_codes d) (mfa_challenges d)
    (login_throttle d) (invites d) (role_permissions d) (role_assignments d)
    (governance_policies d) (approval_stages d) (vendor_registry d)
    (vendor_evidence_references d) (review_tasks d) (ai_use_cases d) (risk_findings d)
    (control_assessments d) (change_events d) (governance_incidents d)
    (governance_deployments d) (deployment_versions d) (deployment_approval_gates d)
    (prompt_templates d) (prompt_versions d) (governance_observed_events d)
    (lifecycle_fingerprints d) (agent_registry d) (attestation_keys d) (ingestion_keys d)
    (organizations d) (attestation_requirements d) (control_library d) (risk_rules d)
    (control_evidence_traces d) v (governance_applications d) (governance_workflows d)
    (governance_models d) (governance_providers d) (governance_risks d) (governance_controls d)
    (review_queue_policies d) (owner_assignment_policies d) (owner_assignments d)
    (governance_decisions d) (governance_exceptions d) (portable_records d)
    (portable_credentials d) (outbox d) (audit_trail d).

Definition set_governance_applications (v : list application) (d : db) : db :=
  mk_db (platform_users d) (sessions d) (mfa_recovery_codes d) (mfa_challenges d)
    (login_throttle d) (invites d) (role_permissions d) (role_assignments d)
    (governance_policies d) (approval_stages d) (vendor_registry d)
    (vendor_evidence_references d) (review_tasks d) (ai_use_cases d) (risk_findings d)
    (control_assessments d) (change_events d) (governance_incidents d)
    (governance_deployments d) (deployment_versions d) (deployment_approval_gates d)
    (prompt_templates d) (prompt_versions d) (governance_observed_events d)
    (lifecycle_fingerprints d) (agent_registry d) (attestation_keys d) (ingestion_keys d)
    (organizations d) (attestation_requirements d) (control_library d) (risk_rules d)
    (control_evidence_traces d) (sdk_events d) v (governance_workflows d) (governance_models d)
    (governance_providers d) (governance_risks d) (governance_controls d)
    (review_queue_policies d) (owner_assignment_policies d) (owner_assignments d)
    (governance_decisions d) (governance_exceptions d) (portable_records d)
    (portable_credentials d) (outbox d) (audit_trail d).

Definition set_governance_workflows (v : list workflow) (d : db) : db :=
  mk_db (platform_users d) (sessions d) (mfa_recovery_codes d) (mfa_challenges d)
    (login_throttle d) (invites d) (role_permissions d) (role_assignments d)
    (governance_policies d) (approval_stages d) (vendor_registry d)
    (vendor_evidence_references d) (review_tasks d) (ai_use_cases d) (risk_findings d)
    (control_assessments d) (change_events d) (governance_incidents d)
    (governance_deployments d) (deployment_versions d) (deployment_approval_gates d)
    (prompt_templates d) (prompt_versions d) (governance_observed_events d)
    (lifecycle_fingerprints d) (agent_registry d) (attestation_keys d) (ingestion_keys d)
    (organizations d) (attestation_requirements d) (control_library d) (risk_rules d)
    (control_evidence_traces d) (sdk_events d) (governance_applications d) v
    (governance_models d) (governance_providers d) (governance_risks d) (governance_controls d)
    (review_queue_policies d) (owner_assignment_policies d) (owner_assignments d)
    (governance_decisions d) (governance_exceptions d) (portable_records d)
    (portable_credentials d) (outbox d) (audit_trail d).

Definition set_governance_models (v : list model) (d : db) : db :=
  mk_db (platform_users d) (sessions d) (mfa_recovery_codes d) (mfa_challenges d)
    (login_throttle d) (invites d) (role_permissions d) (role_assignments d)
    (governance_policies d) (approval_stages d) (vendor_registry d)
    (vendor_evidence_references d) (review_tasks d) (ai_use_cases d) (risk_findings d)
    (control_assessments d) (change_events d) (governance_incidents d)
    (governance_deployments d) (deployment_versions d) (deployment_approval_gates d)
    (prompt_templates d) (prompt_versions d) (governance_observed_events d)
    (lifecycle_fingerprints d) (agent_registry d) (attestation_keys d) (ingestion_keys d)
    (organizations d) (attestation_requirements d) (control_library d) (risk_rules d)
    (control_evidence_traces d) (sdk_events d) (governance_applications d)
    (governance_workflows d) v (governance_providers d) (governance_risks d)
    (governance_controls d) (review_queue_policies d) (owner_assignment_policies d)
    (owner_assignments d) (governance_decisions d) (governance_exceptions d)
    (portable_records d) (portable_credentials d) (outbox d) (audit_trail d).

Definition set_governance_providers (v : list provider) (d : db) : db :=
  mk_db (platform_users d) (sessions d) (mfa_recovery_codes d) (mfa_challenges d)
    (login_throttle d) (invites d) (role_permissions d) (role_assignments d)
    (governance_policies d) (approval_stages d) (vendor_registry d)
    (vendor_evidence_references d) (review_tasks d) (ai_use_cases d) (risk_findings d)
    (control_assessments d) (change_events d) (governance_incidents d)
    (governance_deployments d) (deployment_versions d) (deployment_approval_gates d)
    (prompt_templates d) (prompt_versions d) (governance_observed_events d)
    (lifecycle_fingerprints d) (agent_registry d) (attestation_keys d) (ingestion_keys d)
    (organizations d) (attestation_requirements d) (control_library d) (risk_rules d)
    (control_evidence_traces d) (sdk_events d) (governance_applications d)
    (governance_workflows d) (governance_models d) v (governance_risks d)
    (governance_controls d) (review_queue_policies d) (owner_assignment_policies d)
    (owner_assignments d) (governance_decisions d) (governance_exceptions d)
    (portable_records d) (portable_credentials d) (outbox d) (audit_trail d).

Definition set_governance_risks (v : list observed_risk) (d : db) : db :=
  mk_db (platform_users d) (sessions d) (mfa_recovery_codes d) (mfa_challenges d)
    (login_throttle d) (invites d) (role_permissions d) (role_assignments d)
    (governance_policies d) (approval_stages d) (vendor_registry d)
    (vendor_evidence_references d) (review_tasks d) (ai_use_cases d) (risk_findings d)
    (control_assessments d) (change_events d) (governance_incidents d)
    (governance_deployments d) (deployment_versions d) (deployment_approval_gates d)
    (prompt_templates d) (prompt_versions d) (governance_observed_events d)
    (lifecycle_fingerprints d) (agent_registry d) (attestation_keys d) (ingestion_keys d)
    (organizations d) (attestation_requirements d) (control_library d) (risk_rules d)
    (control_evidence_traces d) (sdk_events d) (governance_applications d)
    (governance_workflows d) (governance_models d) (governance_providers d) v
    (governance_controls d) (review_queue_policies d) (owner_assignment_policies d)
    (owner_assignments d) (governance_decisions d) (governance_exceptions d)
    (portable_records d) (portable_credentials d) (outbox d) (audit_trail d).

Definition set_governance_controls (v : list observed_control) (d : db) : db :=
  mk_db (platform_users d) (sessions d) (mfa_recovery_codes d) (mfa_challenges d)
    (login_throttle d) (invites d) (role_permissions d) (role_assignments d)
    (governance_policies d) (approval_stages d) (vendor_registry d)
    (vendor_evidence_references d) (review_tasks d) (ai_use_cases d) (risk_findings d)
    (control_assessments d) (change_events d) (governance_incidents d)
    (governance_deployments d) (deployment_versions d) (deployment_approval_gates d)
    (prompt_templates d) (prompt_versions d) (governance_observed_events d)
    (lifecycle_fingerprints d) (agent_registry d) (attestation_keys d) (ingestion_keys d)
    (organizations d) (attestation_requirements d) (control_library d) (risk_rules d)
    (control_evidence_traces d) (sdk_events d) (governance_applications d)
    (governance_workflows d) (governance_models d) (governance_providers d) (governance_risks d)
    v (review_queue_policies d) (owner_assignment_policies d) (owner_assignments d)
    (governance_decisions d) (governance_exceptions d) (portable_records d)
    (portable_credentials d) (outbox d) (audit_trail d).

Definition set_review_queue_policies (v : list queue_policy) (d : db) : db :=
  mk_db (platform_users d) (sessions d) (mfa_recovery_codes d) (mfa_challenges d)
    (login_throttle d) (invites d) (role_permissions d) (role_assignments d)
    (governance_policies d) (approval_stages d) (vendor_registry d)
    (vendor_evidence_references d) (review_tasks d) (ai_use_cases d) (risk_findings d)
    (control_assessments d) (change_events d) (governance_incidents d)
    (governance_deployments d) (deployment_versions d) (deployment_approval_gates d)
    (prompt_templates d) (prompt_versions d) (governance_observed_events d)
    (lifecycle_fingerprints d) (agent_registry d) (attestation_keys d) (ingestion_keys d)
    (organizations d) (attestation_requirements d) (control_library d) (risk_rules d)
    (control_evidence_traces d) (sdk_events d) (governance_applications d)
    (governance_workflows d) (governance_models d) (governance_providers d) (governance_risks d)
    (governance_controls d) v (owner_assignment_policies d) (owner_assignments d)
    (governance_decisions d) (governance_exceptions d) (portable_records d)
    (portable_credentials d) (outbox d) (audit_trail d).

Definition set_owner_assignment_policies (v : list owner_policy) (d : db) : db :=
  mk_db (platform_users d) (sessions d) (mfa_recovery_codes d) (mfa_challenges d)
    (login_throttle d) (invites d) (role_permissions d) (role_assignments d)
    (governance_policies d) (approval_stages d) (vendor_registry d)
    (vendor_evidence_references d) (review_tasks d) (ai_use_cases d) (risk_findings d)
    (control_assessments d) (change_events d) (governance_incidents d)
    (governance_deployments d) (deployment_versions d) (deployment_approval_gates d)
    (prompt_templates d) (prompt_versions d) (governance_observed_events d)
    (lifecycle_fingerprints d) (agent_registry d) (attestation_keys d) (ingestion_keys d)
    (organizations d) (attestation_requirements d) (control_library d) (risk_rules d)
    (control_evidence_traces d) (sdk_events d) (governance_applications d)
    (governance_workflows d) (governance_models d) (governance_providers d) (governance_risks d)
    (governance_controls d) (review_queue_policies d) v (owner_assignments d)
    (governance_decisions d) (governance_exceptions d) (portable_records d)
    (portable_credentials d) (outbox d) (audit_trail d).

Definition set_owner_assignments (v : list owner_assignment) (d : db) : db :=
  mk_db (platform_users d) (sessions d) (mfa_recovery_codes d) (mfa_challenges d)
    (login_throttle d) (invites d) (role_permissions d) (role_assignments d)
    (governance_policies d) (approval_stages d) (vendor_registry d)
    (vendor_evidence_references d) (review_tasks d) (ai_use_cases d) (risk_findings d)
    (control_assessments d) (change_events d) (governance_incidents d)
    (governance_deployments d) (deployment_versions d) (deployment_approval_gates d)
    (prompt_templates d) (prompt_versions d) (governance_observed_events d)
    (lifecycle_fingerprints d) (agent_registry d) (attestation_keys d) (ingestion_keys d)
    (organizations d) (attestation_requirements d) (control_library d) (risk_rules d)
    (control_evidence_traces d) (sdk_events d) (governance_applications d)
    (governance_workflows d) (governance_models d) (governance_providers d) (governance_risks d)
    (governance_controls d) (review_queue_policies d) (owner_assignment_policies d) v
    (governance_decisions d) (governance_exceptions d) (portable_records d)
    (portable_credentials d) (outbox d) (audit_trail d).

Definition set_governance_decisions (v : list governance_decision) (d : db) : db :=
  mk_db (platform_users d) (sessions d) (mfa_recovery_codes d) (mfa_challenges d)
    (login_throttle d) (invites d) (role_permissions d) (role_assignments d)
    (governance_policies d) (approval_stages d) (vendor_registry d)
    (vendor_evidence_references d) (review_tasks d) (ai_use_cases d) (risk_findings d)
    (control_assessments d) (change_events d) (governance_incidents d)
    (governance_deployments d) (deployment_versions d) (deployment_approval_gates d)
    (prompt_templates d) (prompt_versions d) (governance_observed_events d)
    (lifecycle_fingerprints d) (agent_registry d) (attestation_keys d) (ingestion_keys d)
    (organizations d) (attestation_requirements d) (control_library d) (risk_rules d)
    (control_evidence_traces d) (sdk_events d) (governance_applications d)
    (governance_workflows d) (governance_models d) (governance_providers d) (governance_risks d)
    (governance_controls d) (review_queue_policies d) (owner_assignment_policies d)
    (owner_assignments d) v (governance_exceptions d) (portable_records d)
    (portable_credentials d) (outbox d) (audit_trail d).

Definition set_governance_exceptions (v : list governance_exception) (d : db) : db :=
  mk_db (platform_users d) (sessions d) (mfa_recovery_codes d) (mfa_challenges d)
    (login_throttle d) (invites d) (role_permissions d) (role_assignments d)
    (governance_policies d) (approval_stages d) (vendor_registry d)
    (vendor_evidence_references d) (review_tasks d) (ai_use_cases d) (risk_findings d)
    (control_assessments d) (change_events d) (governance_incidents d)
    (governance_deployments d) (deployment_versions d) (deployment_approval_gates d)
    (prompt_templates d) (prompt_versions d) (governance_observed_events d)
    (lifecycle_fingerprints d) (agent_registry d) (attestation_keys d) (ingestion_keys d)
    (organizations d) (attestation_requirements d) (control_library d) (risk_rules d)
    (control_evidence_traces d) (sdk_events d) (governance_applications d)
    (governance_workflows d) (governance_models d) (governance_providers d) (governance_risks d)
    (governance_controls d) (review_queue_policies d) (owner_assignment_policies d)
    (owner_assignments d) (governance_decisions d) v (portable_records d)
    (portable_credentials d) (outbox d) (audit_trail d).

Definition set_portable_records (v : list portable_record) (d : db) : db :=
  mk_db (platform_users d) (sessions d) (mfa_recovery_codes d) (mfa_challenges d)
    (login_throttle d) (invites d) (role_permissions d) (role_assignments d)
    (governance_policies d) (approval_stages d) (vendor_registry d)
    (vendor_evidence_references d) (review_tasks d) (ai_use_cases d) (risk_findings d)
    (control_assessments d) (change_events d) (governance_incidents d)
    (governance_deployments d) (deployment_versions d) (deployment_approval_gates d)
    (prompt_templates d) (prompt_versions d) (governance_observed_events d)
    (lifecycle_fingerprints d) (agent_registry d) (attestation_keys d) (ingestion_keys d)
    (organizations d) (attestation_requirements d) (control_library d) (risk_rules d)
    (control_evidence_traces d) (sdk_events d) (governance_applications d)
    (governance_workflows d) (governance_models d) (governance_providers d) (governance_risks d)
    (governance_controls d) (review_queue_policies d) (owner_assignment_policies d)
    (owner_assignments d) (governance_decisions d) (governance_exceptions d) v
    (portable_credentials d) (outbox d) (audit_trail d).

Definition set_portable_credentials (v : list portable_credential) (d : db) : db :=
  mk_db (platform_users d) (sessions d) (mfa_recovery_codes d) (mfa_challenges d)
    (login_throttle d) (invites d) (role_permissions d) (role_assignments d)
    (governance_policies d) (approval_stages d) (vendor_registry d)
    (vendor_evidence_references d) (review_tasks d) (ai_use_cases d) (risk_findings d)
    (control_assessments d) (change_events d) (governance_incidents d)
    (governance_deployments d) (deployment_versions d) (deployment_approval_gates d)
    (prompt_templates d) (prompt_versions d) (governance_observed_events d)
    (lifecycle_fingerprints d) (agent_registry d) (attestation_keys d) (ingestion_keys d)
    (organizations d) (attestation_requirements d) (control_library d) (risk_rules d)
    (control_evidence_traces d) (sdk_events d) (governance_applications d)
    (governance_workflows d) (governance_models d) (governance_providers d) (governance_risks d)
    (governance_controls d) (review_queue_policies d) (owner_assignment_policies d)
    (owner_assignments d) (governance_decisions d) (governance_exceptions d)
    (portable_records d) v (outbox d) (audit_trail d).

Definition set_outbox (v : list notice) (d : db) : db :=
  mk_db (platform_users d) (sessions d) (mfa_recovery_codes d) (mfa_challenges d)
    (login_throttle d) (invites d) (role_permissions d) (role_assignments d)
    (governance_policies d) (approval_stages d) (vendor_registry d)
    (vendor_evidence_references d) (review_tasks d) (ai_use_cases d) (risk_findings d)
    (control_assessments d) (change_events d) (governance_incidents d)
    (governance_deployments d) (deployment_versions d) (deployment_approval_gates d)
    (prompt_templates d) (prompt_versions d) (governance_observed_events d)
    (lifecycle_fingerprints d) (agent_registry d) (attestation_keys d) (ingestion_keys d)
    (organizations d) (attestation_requirements d) (control_library d) (risk_rules d)
    (control_evidence_traces d) (sdk_events d) (governance_applications d)
    (governance_workflows d) (governance_models d) (governance_providers d) (governance_risks d)
    (governance_controls d) (review_queue_policies d) (owner_assignment_policies d)
    (owner_assignments d) (governance_decisions d) (governance_exceptions d)
    (portable_records d) (portable_credentials d) v (audit_trail d).

Definition set_audit_trail (v : list audit_entry) (d : db) : db :=
  mk_db (platform_users d) (sessions d) (mfa_recovery_codes d) (mfa_challenges d)
    (login_throttle d) (invites d) (role_permissions d) (role_assignments d)
    (governance_policies d) (approval_stages d) (vendor_registry d)
    (vendor_evidence_references d) (review_tasks d) (ai_use_cases d) (risk_findings d)
    (control_assessments d) (change_events d) (governance_incidents d)
    (governance_deployments d) (deployment_versions d) (deployment_approval_gates d)
    (prompt_templates d) (prompt_versions d) (governance_observed_events d)
    (lifecycle_fingerprints d) (agent_registry d) (attestation_keys d) (ingestion_keys d)
    (organizations d) (attestation_requirements d) (control_library d) (risk_rules d)
    (control_evidence_traces d) (sdk_events d) (governance_applications d)
    (governance_workflows d) (governance_models d) (governance_providers d) (governance_risks d)
    (governance_controls d) (review_queue_policies d) (owner_assignment_policies d)
    (owner_assignments d) (governance_decisions d) (governance_exceptions d)
    (portable_records d) (portable_credentials d) (outbox d) v.

(** [emit] and [record_audit], as the database sees them *)
Definition emit (n : notice) (d : db) : db := set_outbox (outbox d ++ [n]) d.
Definition record_audit (e : audit_entry) (d : db) : db := set_audit_trail (audit_trail d ++ [e]) d.
