(* ===== verification/Effects.v ===== *)
(** * Operations that commit as they go

    A handler outside a unit of work keeps what it wrote before it raised: its
    storage calls commit one by one.  [eff] is such a handler, with the
    database it leaves whichever way it ends. *)

From stdpp Require Import base list strings option.
From S2P Require Import Prelude Schema.

(** an operation that commits part of what it does before it raises *)
Definition committed (A : Type) : Type := db * res A.

Definition eff (A : Type) : Type := db -> committed A.

Definition eret {A} (a : A) : eff A := fun d => (d, Ok a).
Definition eraise {A} (e : exn) : eff A := fun d => (d, Raise e).
Definition ebind {A B} (c : eff A) (k : A -> eff B) : eff B := fun d =>
  match c d with
  | (d', Ok a) => k a d'
  | (d', Raise e) => (d', Raise e)
  end.

(** a statement that only reads, one that only writes, one that commits or raises *)
Definition reads {A} (f : db -> A) : eff A := fun d => (d, Ok (f d)).
Definition checks {A} (f : db -> res A) : eff A := fun d => (d, f d).
Definition writes (f : db -> db) : eff unit := fun d => (f d, Ok tt).
Definition commits {A} (f : db -> res (A * db)) : eff A := fun d =>
  match f d with
  | Ok (a, d') => (d', Ok a)
  | Raise e => (d, Raise e)
  end.

Definition eguard (b : bool) (e : exn) : eff unit := if b then eraise e else eret tt.

Notation "'do!' x := c 'in' k" := (ebind c (fun x => k))
  (at level 10, x binder, c at level 200, k at level 200) : py_scope.

Lemma ebind_case {A B} (c : eff A) (k : A -> eff B) d d' r : ebind c k d = (d', r) ->
  (exists d1 a, c d = (d1, Ok a) /\ k a d1 = (d', r)) \/ (exists e, c d = (d', Raise e) /\ r = Raise e).
Proof.
  unfold ebind. destruct (c d) as [d1 [a|e]]; [intros Hk; left; by exists d1, a|intros [= <- <-]; right; by exists e].
Qed.

Lemma ebind_Ok {A B} (c : eff A) (k : A -> eff B) d d' b : ebind c k d = (d', Ok b) <->
  exists d1 a, c d = (d1, Ok a) /\ k a d1 = (d', Ok b).
Proof.
  split; [intros [?|(e & _ & ?)]%ebind_case; [done|by simplify_eq]|].
  intros (d1 & a & Hc & Hk). unfold ebind. by rewrite Hc.
Qed.

(** a property every step keeps *)
Lemma ebind_keeps {A B} (P : db -> Prop) (c : eff A) (k : A -> eff B) d :
  P (fst (c d)) -> (forall d1 a, c d = (d1, Ok a) -> P d1 -> P (fst (k a d1))) -> P (fst (ebind c k d)).
Proof.
  unfold ebind. destruct (c d) as [d1 [a|e]]; cbn [fst]; intros Hc Hk; [|done]. by apply (Hk d1 a).
Qed.

Lemma eff_fst {A} (c : eff A) d d' r : c d = (d', r) -> fst (c d) = d'.
Proof. by intros ->. Qed.

(** ** Running a step *)

Lemma run_reads {A B} (f : db -> A) (k : A -> eff B) d : ebind (reads f) k d = k (f d) d.
Proof. done. Qed.
Lemma run_writes {B} (f : db -> db) (k : unit -> eff B) d : ebind (writes f) k d = k tt (f d).
Proof. done. Qed.
Lemma run_ret {A B} (a : A) (k : A -> eff B) d : ebind (eret a) k d = k a d.
Proof. done. Qed.
Lemma run_checks {A B} (f : db -> res A) (k : A -> eff B) d :
  ebind (checks f) k d = match f d with Ok a => k a d | Raise e => (d, Raise e) end.
Proof. unfold ebind, checks. by destruct (f d). Qed.
Lemma run_commits {A B} (f : db -> res (A * db)) (k : A -> eff B) d :
  ebind (commits f) k d = match f d with Ok (a, d') => k a d' | Raise e => (d, Raise e) end.
Proof. unfold ebind, commits. by destruct (f d) as [[]|]. Qed.
Lemma run_guard {B} b e (k : unit -> eff B) d : ebind (eguard b e) k d = if b then (d, Raise e) else k tt d.
Proof. unfold ebind, eguard. by destruct b. Qed.

Create HintDb run discriminated.
#[export] Hint Rewrite @run_reads @run_writes @run_ret @run_checks @run_commits @run_guard : run.
