(* ===== verification/Scope.v ===== *)
(** * Scopes and tenant overrides

    An application is named by its tenant, project, environment and name; many
    tables are read through that scope.  Configuration tables hold the
    platform's rows under the empty tenant, and a tenant's row replaces the
    platform's row of the same id. *)

From stdpp Require Import base list strings option.
From Stdlib Require Import ZArith Lia.
From S2P Require Import Prelude Sql.

Open Scope nat_scope.

(** ** Application scope *)

(** (tenant, project, environment, application) *)
Definition app_context : Type := option string * string * string * string.
Definition ctx_tenant (c : app_context) : option string := fst (fst (fst c)).
Definition ctx_project (c : app_context) : string := snd (fst (fst c)).
Definition ctx_environment (c : app_context) : string := snd (fst c).
Definition ctx_application (c : app_context) : string := snd c.

(** [project = :project AND environment = :environment AND application_name =
    :application_name AND ((:tenant_id IS NULL AND tenant_id IS NULL) OR
    tenant_id = :tenant_id)] *)
Definition in_app_scope (c : app_context) (tenant : option string) (project environment application : string)
    : bool :=
  String.eqb project (ctx_project c) && String.eqb environment (ctx_environment c) &&
  String.eqb application (ctx_application c) && null_safe_eq tenant (ctx_tenant c).

Lemma in_app_scope_spec c t p e a : in_app_scope c t p e a = true <-> c = (t, p, e, a).
Proof.
  unfold in_app_scope. rewrite !andb_true_iff, !String.eqb_eq, null_safe_eq_true.
  destruct c as [[[t' p'] e'] a']. cbn. split; [intros (((-> & ->) & ->) & ->); done|by intros [= -> -> -> ->]].
Qed.

(** ** Tenant overrides of platform rows *)


Section Merge.
Context {A : Type} (tenant policy : A -> string).

Fixpoint merge_row (row : A) (merged : list A) : list A :=
  match merged with
  | [] => [row]
  | x :: rest =>
      if String.eqb (policy x) (policy row)
      then (if is_empty (tenant row) then x else row) :: rest
      else x :: merge_row row rest
  end.

Definition list_policies (tenant_id : option string) (t : list A) : list A :=
  let tid := default "" tenant_id in
  foldl (fun merged row => merge_row row merged) []
    (order_by (fun a b => negb (str_ltb (policy b) (policy a)))
      (select (fun r => String.eqb (tenant r) "" || String.eqb (tenant r) tid) t)).
End Merge.


(** the tenant's row of an id wins, whatever the order of the rows *)
Section MergeSpec.
Context {A : Type} (tenant policy : A -> string).

Lemma elem_of_merge_row row merged x :
  x ∈ merge_row tenant policy row merged -> x = row \/ x ∈ merged.
Proof.
  induction merged as [|y rest IH]; cbn [merge_row]; [intros ->%list_elem_of_singleton; by left|].
  destruct (String.eqb _ _).
  - destruct (is_empty _); intros [-> |Hx]%elem_of_cons; [right; by left|right; by right|by left|right; by right].
  - intros [-> |Hx]%elem_of_cons; [right; by left|]. destruct (IH Hx); [by left|right; by right].
Qed.

Lemma elem_of_list_policies tenant_id t x :
  x ∈ list_policies tenant policy tenant_id t ->
  x ∈ t /\ (tenant x = "" \/ tenant x = default "" tenant_id).
Proof.
  unfold list_policies. set (rows := order_by _ _).
  assert (forall r, r ∈ rows -> r ∈ t /\ (tenant r = "" \/ tenant r = default "" tenant_id)) as Hrows.
  { intros r [Hp Hr]%elem_of_order_by%elem_of_select. rewrite orb_true_iff, !String.eqb_eq in Hp. done. }
  revert Hrows. generalize rows. clear rows. intros rows Hrows Hx.
  assert (forall m, x ∈ foldl (fun merged row => merge_row tenant policy row merged) m rows ->
    x ∈ m \/ x ∈ rows) as Hfold.
  { clear Hx Hrows. induction rows as [|r rows IH]; intros m Hx; [by left|]. cbn [foldl] in Hx.
    destruct (IH _ Hx) as [Hm|Hr]; [|right; by right].
    destruct (elem_of_merge_row _ _ _ Hm) as [-> |]; [right; by left|by left]. }
  destruct (Hfold [] Hx) as [Hn|Hr]; [by apply elem_of_nil in Hn|by apply Hrows].
Qed.
End MergeSpec.
