(* ===== verification/Rbac.v ===== *)
(** * Roles and permissions (services/authorization.py, storage/workflow.py,
    api/admin.py)

    Who may do what: role assignments scoped to a tenant and optionally a
    project and environment, the platform-wide table of what each role may do,
    the checks the API handlers make, and the assignment handler that keeps
    administration and decision authority in different hands. *)

From stdpp Require Import base list strings option pretty sets gmap.
From Stdlib Require Import ZArith Lia.
From S2P Require Import Prelude Py Sql Schema PolicyDoc.

Open Scope nat_scope.

(** ** Roles and permissions *)

Definition GOVERNANCE_ADMIN := "governance_admin".
Definition ORG_ADMIN := "org_admin".
Definition RISK_OWNER := "risk_owner".
Definition CONTROL_OWNER := "control_owner".
Definition GOVERNANCE_REVIEWER := "governance_reviewer".
Definition GOVERNANCE_VIEWER := "governance_viewer".

Definition PERM_USER_MANAGE := "user.manage".
Definition PERM_ROLE_ASSIGN := "role.assign".
Definition PERM_CONFIG_WRITE := "config.write".
Definition PERM_REVIEW_DECIDE := "review.decide".
Definition PERM_RISK_ACCEPT := "risk.accept".
Definition PERM_GATE_DECIDE := "gate.decide".
Definition PERM_INCIDENT_CLOSE := "incident.close".
Definition PERM_LIFECYCLE_MANAGE := "lifecycle.manage".

(** the grants a new install is seeded with *)
Definition DEFAULT_ROLE_PERMISSIONS : list (string * list string) := [
  ("org_admin", ["user.manage"; "role.assign"; "config.write"; "owner.assign"; "intake.submit";
                 "lifecycle.manage"]);
  ("governance_admin", ["config.write"; "intake.submit"; "owner.assign"; "review.decide";
                        "risk.accept"; "gate.decide"; "incident.close"; "lifecycle.manage"]);
  ("risk_owner", ["review.decide"; "risk.accept"; "owner.assign"]);
  ("control_owner", ["review.decide"; "owner.assign"]);
  ("governance_reviewer", ["review.decide"]);
  ("governance_viewer", [])].

Definition rp_key (r : role_permission) : string * string := (rp_role r, rp_permission r).

Definition seed_role_permissions (d : db) : db :=
  set_role_permissions
    (foldl (fun t entry =>
        foldl (fun t permission =>
            insert_or_ignore rp_key (mk_role_permission (fst entry) permission) t) t (snd entry))
      (role_permissions d) DEFAULT_ROLE_PERMISSIONS) d.

Definition set_role_permission (role permission : string) (granted : bool) (d : db) : db :=
  set_role_permissions
    (if granted
     then insert_or_ignore rp_key (mk_role_permission role permission) (role_permissions d)
     else delete_where (fun r => String.eqb (rp_role r) role && String.eqb (rp_permission r) permission)
            (role_permissions d)) d.

(** [ORDER BY permission] of distinct permissions *)
Definition list_role_permissions (d : db) (role : string) : list string :=
  sorted_set (map rp_permission (select (fun r => String.eqb (rp_role r) role) (role_permissions d))).

(** ** Actors and targets *)

Record ActorContext := mk_actor {
  user_ref : string;
  actor_tenant : option string;
  actor_project : option string;
  actor_environment : option string;
  platform_role : option string
}.

Definition is_super_admin (actor : ActorContext) : bool :=
  bool_decide (platform_role actor = Some "super_admin").

(** the keys of a target dict the checks read; [tg_has_risk] is ["risk" in target] *)
Record target := mk_target {
  tg_tenant : option string;
  tg_project : option string;
  tg_environment : option string;
  tg_type : option string;
  tg_has_risk : bool
}.

Definition tenant_target (tenant : string) : target := mk_target (Some tenant) None None None false.

(** truth of an optional string *)
Definition truthy_str (s : option string) : bool :=
  match s with Some s => negb (is_empty s) | None => false end.

(** ** Checks *)

Definition load_platform_user (d : db) (ref : string) : option platform_user :=
  lookup_key pu_user_ref ref (platform_users d).

Definition require_active_actor (d : db) (actor : ActorContext) : res unit :=
  throw_if (match load_platform_user d (user_ref actor) with
            | Some user => negb (String.eqb (pu_status user) "active")
            | None => true
            end)
    (AuthorizationError ("User " +:+ user_ref actor +:+ " is not active")).

(** one iteration of the loop over ["project", "environment"] *)
Definition scope_field_clash (actor_value target_value : option string) : bool :=
  truthy_str actor_value && truthy_str target_value && negb (bool_decide (actor_value = target_value)).

Definition require_actor_scope (actor : ActorContext) (t : target) : res unit :=
  let! _ := throw_if (truthy_str (actor_tenant actor) && negb (bool_decide (tg_tenant t = actor_tenant actor)))
    (AuthorizationError "Actor tenant does not match target tenant") in
  let! _ := throw_if (scope_field_clash (actor_project actor) (tg_project t))
    (AuthorizationError "Actor scope does not match target project") in
  throw_if (scope_field_clash (actor_environment actor) (tg_environment t))
    (AuthorizationError "Actor scope does not match target environment").

Definition role_scope_matches (a : role_assignment) (t : target) : bool :=
  if negb (bool_decide (ra_tenant_id a = tg_tenant t)) then false
  else
    let clash assigned value := bool_decide (assigned <> None) && negb (bool_decide (assigned = value)) in
    if clash (ra_project a) (tg_project t) then false
    else if clash (ra_environment a) (tg_environment t) then false
    else true.

Definition list_actor_role_assignments (d : db) (ref : string) : list role_assignment :=
  order_by (fun a b => negb (str_ltb (ra_updated_at a) (ra_updated_at b)))
    (select (fun a => String.eqb (ra_user_ref a) ref && String.eqb (ra_status a) "active")
      (role_assignments d)).

(** the loop of [actor_permissions]: assignments out of scope are skipped *)
Definition add_permissions (d : db) (t : option target) (permissions : gset string)
    (a : role_assignment) : gset string :=
  if match t with Some t => negb (role_scope_matches a t) | None => false end then permissions
  else permissions ∪ list_to_set (list_role_permissions d (ra_role a)).

Definition actor_permissions (d : db) (actor : ActorContext) (t : option target) : gset string :=
  foldl (add_permissions d t) ∅ (list_actor_role_assignments d (user_ref actor)).

Definition require_permission (d : db) (actor : ActorContext) (permission : string) (t : target)
    (adopt_missing_tenant : bool) : res unit :=
  let! _ := require_active_actor d actor in
  let t := if adopt_missing_tenant && bool_decide (tg_tenant t = None) && truthy_str (actor_tenant actor)
           then mk_target (actor_tenant actor) (tg_project t) (tg_environment t) (tg_type t) (tg_has_risk t)
           else t in
  let! _ := require_actor_scope actor t in
  throw_if (negb (bool_decide (permission ∈ actor_permissions d actor (Some t))))
    (AuthorizationError ("User " +:+ user_ref actor +:+ " lacks required permission: " +:+ permission)).

Definition require_config_write (d : db) (actor : ActorContext) (t : target) : res unit :=
  require_permission d actor PERM_CONFIG_WRITE t true.

Definition _decision_permission (t : target) : string :=
  if bool_decide (tg_type t = Some "deployment_gate") then PERM_GATE_DECIDE
  else if bool_decide (tg_type t = Some "incident") then PERM_INCIDENT_CLOSE
  else if bool_decide (tg_type t = Some "risk_finding") || tg_has_risk t then PERM_RISK_ACCEPT
  else PERM_REVIEW_DECIDE.

Definition require_decision (d : db) (actor : ActorContext) (t : target) : res unit :=
  require_permission d actor (_decision_permission t) t false.

Definition require_exception (d : db) (actor : ActorContext) (t : target) : res unit :=
  require_permission d actor PERM_RISK_ACCEPT t false.

(** the loop of [actor_satisfies_stage_role] over the actor's assignments *)
Definition assignment_satisfies (d : db) (required_role : string) (required : gset string) (t : target)
    (a : role_assignment) : bool :=
  role_scope_matches a t &&
  (String.eqb (ra_role a) required_role ||
   bool_decide (required ⊆ list_to_set (list_role_permissions d (ra_role a)))).

Definition actor_satisfies_stage_role (d : db) (actor : ActorContext) (required_role : string)
    (t : target) : bool :=
  let required : gset string := list_to_set (list_role_permissions d required_role) in
  if bool_decide (required = ∅) then false
  else existsb (assignment_satisfies d required_role required t)
         (list_actor_role_assignments d (user_ref actor)).

Definition require_stage_role (d : db) (actor : ActorContext) (required_role : string) (t : target)
    : res unit :=
  throw_if (negb (actor_satisfies_stage_role d actor required_role t))
    (AuthorizationError ("This stage requires the authority of the '" +:+ required_role
       +:+ "' role, which " +:+ user_ref actor +:+ " does not hold in this scope")).

(** ** Separation of administration and decision *)

Definition ADMINISTRATION_ROLES : gset string := {[ORG_ADMIN]}.
Definition DECISION_ROLES : gset string :=
  {[GOVERNANCE_ADMIN; RISK_OWNER; CONTROL_OWNER; GOVERNANCE_REVIEWER]}.

Definition would_violate_role_separation (existing_active_roles : gset string) (role status : string)
    : bool :=
  let resulting := if String.eqb status "active" then existing_active_roles ∪ {[role]}
                   else existing_active_roles ∖ {[role]} in
  bool_decide (resulting ∩ ADMINISTRATION_ROLES <> ∅) && bool_decide (resulting ∩ DECISION_ROLES <> ∅).

Section Assign.
Context `{Digest}.

Definition role_assignment_key (tenant project environment : option string) (ref role : string) : string :=
  entity_id [Some "role-assignment"; tenant; project; environment; Some ref; Some role].

Definition upsert_role_assignment (now : string) (tenant project environment : option string)
    (ref role status : string) (d : db) : db :=
  let row := mk_role_assignment (role_assignment_key tenant project environment ref role)
               tenant project environment ref role status now now in
  set_role_assignments
    (upsert ra_role_assignment_id row (fun r => ra_with_status status (ra_with_updated_at now r))
      (role_assignments d)) d.

(** [list_role_assignments(tenant_id=tenant)]: a falsy tenant does not filter *)
Definition list_role_assignments (d : db) (tenant : string) : list role_assignment :=
  order_by (fun a b => negb (str_ltb (ra_updated_at a) (ra_updated_at b)))
    (select (fun a => is_empty tenant || sql_eq (ra_tenant_id a) (Some tenant)) (role_assignments d)).

Definition ASSIGNABLE_ORG_ROLES : list string :=
  [ORG_ADMIN; "governance_admin"; "risk_owner"; "control_owner"; "governance_reviewer"; "governance_viewer"].

Definition _require_tenant (actor : ActorContext) : res string :=
  if is_super_admin actor
  then Raise (HTTPException 403 "Platform super admins do not operate on tenant data")
  else match actor_tenant actor with
       | Some t => if is_empty t then Raise (HTTPException 400 "Actor is not bound to an organization") else Ok t
       | None => Raise (HTTPException 400 "Actor is not bound to an organization")
       end.

(** [try: c except AuthorizationError as error: raise HTTPException(403, str(error))] *)
Definition or_forbidden {A} (c : res A) : res A :=
  match c with Raise (AuthorizationError msg) => Raise (HTTPException 403 msg) | _ => c end.

Definition active_roles_of (d : db) (tenant ref : string) : gset string :=
  list_to_set (map ra_role
    (filter (fun a => ra_user_ref a = ref /\ ra_status a = "active") (list_role_assignments d tenant))).

Definition change_org_role_assignment (now : string) (actor : ActorContext)
    (payload_user payload_role payload_status : string) (d : db) : res db :=
  let! tenant := _require_tenant actor in
  let! _ := or_forbidden (require_permission d actor PERM_ROLE_ASSIGN (tenant_target tenant) false) in
  let! _ := throw_if (negb (mem payload_role ASSIGNABLE_ORG_ROLES))
    (HTTPException 400 "role must be one of ['org_admin', 'governance_admin', 'risk_owner', 'control_owner', 'governance_reviewer', 'governance_viewer']") in
  let! _ := throw_if (negb (mem payload_status ["active"; "revoked"]))
    (HTTPException 400 "status must be 'active' or 'revoked'") in
  let! _ := throw_if (String.eqb payload_user (user_ref actor))
    (HTTPException 403 "Segregation of duties: you cannot change your own role assignments; another administrator must do so") in
  let! _ := throw_if (match load_platform_user d payload_user with
                      | Some u => negb (bool_decide (pu_tenant_id u = Some tenant))
                      | None => true end)
    (HTTPException 404 "User not found in this organization") in
  let! _ := throw_if (would_violate_role_separation (active_roles_of d tenant payload_user)
                        payload_role payload_status)
    (HTTPException 409 "Segregation of duties: a user cannot hold both an administration role (org_admin) and a governance-decision role (e.g. governance_admin, risk_owner). Assign these to different people.") in
  let d := upsert_role_assignment now (Some tenant) None None payload_user payload_role payload_status d in
  Ok (record_audit (mk_audit_entry (user_ref actor) "role.assign" (Some tenant) "user" payload_user
        (PDict [("role", PStr payload_role); ("status", PStr payload_status)])) d).

End Assign.

(** ** What the checks decide *)

Definition granted (d : db) (role permission : string) : Prop :=
  mk_role_permission role permission ∈ role_permissions d.

(** an assignment of the actor in force for a target: same tenant exactly,
    project and environment equal or unrestricted *)
Definition covers_target (a : role_assignment) (t : target) : Prop :=
  ra_tenant_id a = tg_tenant t /\
  (ra_project a = None \/ ra_project a = tg_project t) /\
  (ra_environment a = None \/ ra_environment a = tg_environment t).

Definition in_force (d : db) (ref : string) (a : role_assignment) : Prop :=
  a ∈ role_assignments d /\ ra_user_ref a = ref /\ ra_status a = "active".

Definition active_user (d : db) (ref : string) : Prop :=
  exists u, load_platform_user d ref = Some u /\ pu_status u = "active".

(** the target lies inside the actor's own scope *)
Definition scope_agrees (actor_value target_value : option string) : Prop :=
  truthy_str actor_value = true -> truthy_str target_value = true -> actor_value = target_value.
Definition in_actor_scope (actor : ActorContext) (t : target) : Prop :=
  (truthy_str (actor_tenant actor) = true -> tg_tenant t = actor_tenant actor) /\
  scope_agrees (actor_project actor) (tg_project t) /\
  scope_agrees (actor_environment actor) (tg_environment t).

Lemma role_scope_matches_spec a t : role_scope_matches a t = true <-> covers_target a t.
Proof.
  unfold role_scope_matches, covers_target.
  repeat case_bool_decide; simpl; split; try naive_solver; intros (? & [?|?] & [?|?]); naive_solver.
Qed.

Lemma elem_of_list_role_permissions d role p : p ∈ list_role_permissions d role <-> granted d role p.
Proof.
  unfold list_role_permissions, granted. rewrite elem_of_sorted_set, list_elem_of_fmap. split.
  - intros ([r p'] & -> & [Hr%String.eqb_eq Hin]%elem_of_select). simpl in *. by subst.
  - intros Hin. eexists; split; [|apply elem_of_select; split; [|exact Hin]]; [done|].
    simpl. by rewrite String.eqb_refl.
Qed.

Lemma elem_of_actor_assignments d ref a : a ∈ list_actor_role_assignments d ref <-> in_force d ref a.
Proof.
  unfold list_actor_role_assignments, in_force. rewrite elem_of_order_by, elem_of_select, andb_true_iff, !String.eqb_eq.
  tauto.
Qed.

Lemma elem_of_add_permissions d t l : forall s p,
  p ∈ foldl (add_permissions d (Some t)) s l <->
  p ∈ s \/ exists a, a ∈ l /\ covers_target a t /\ granted d (ra_role a) p.
Proof.
  induction l as [|a l IH]; intros s p; cbn [foldl].
  - split; [by left|]. intros [|(a & Ha & _)]; [done|by apply elem_of_nil in Ha].
  - rewrite IH. unfold add_permissions at 1.
    destruct (role_scope_matches a t) eqn:E; cbn [negb].
    + apply role_scope_matches_spec in E.
      rewrite elem_of_union, elem_of_list_to_set, elem_of_list_role_permissions.
      setoid_rewrite elem_of_cons. naive_solver.
    + assert (~ covers_target a t) by (rewrite <-role_scope_matches_spec; congruence).
      setoid_rewrite elem_of_cons. naive_solver.
Qed.

Lemma elem_of_actor_permissions d actor t p :
  p ∈ actor_permissions d actor (Some t) <->
  exists a, in_force d (user_ref actor) a /\ covers_target a t /\ granted d (ra_role a) p.
Proof.
  unfold actor_permissions. rewrite elem_of_add_permissions.
  setoid_rewrite elem_of_actor_assignments. set_solver.
Qed.

Lemma require_active_actor_Ok d actor u :
  require_active_actor d actor = Ok u <-> active_user d (user_ref actor).
Proof.
  unfold require_active_actor, active_user. rewrite throw_if_Ok.
  destruct (load_platform_user d (user_ref actor)) as [x|].
  - rewrite negb_false_iff, String.eqb_eq. naive_solver.
  - naive_solver.
Qed.

Lemma scope_field_clash_false a b : scope_field_clash a b = false <-> scope_agrees a b.
Proof.
  unfold scope_field_clash, scope_agrees.
  destruct (truthy_str a), (truthy_str b); cbn [andb]; [|by split..].
  rewrite negb_false_iff, bool_decide_eq_true. split; auto.
Qed.

Lemma require_actor_scope_Ok actor t u : require_actor_scope actor t = Ok u <-> in_actor_scope actor t.
Proof.
  unfold require_actor_scope, in_actor_scope. rewrite <-!scope_field_clash_false.
  destruct (truthy_str (actor_tenant actor)); cbn [andb throw_if rbind].
  - destruct (bool_decide_reflect (tg_tenant t = actor_tenant actor)); cbn [negb throw_if rbind];
      [|naive_solver].
    destruct (scope_field_clash (actor_project actor) _); cbn [throw_if rbind]; [naive_solver|].
    rewrite throw_if_Ok. naive_solver.
  - destruct (scope_field_clash (actor_project actor) _); cbn [throw_if rbind]; [naive_solver|].
    rewrite throw_if_Ok. naive_solver.
Qed.

(** a permission check succeeds exactly when the actor is active, the target is
    in the actor's scope and some assignment in force covers it and grants it *)
Lemma require_permission_Ok d actor p t u :
  require_permission d actor p t false = Ok u <->
  active_user d (user_ref actor) /\ in_actor_scope actor t /\
  exists a, in_force d (user_ref actor) a /\ covers_target a t /\ granted d (ra_role a) p.
Proof.
  unfold require_permission. cbn [andb]. rewrite <-elem_of_actor_permissions.
  rewrite <-(require_active_actor_Ok d actor tt), <-(require_actor_scope_Ok actor t tt).
  destruct (require_active_actor d actor) as [[]|e]; cbn [rbind]; [|naive_solver].
  destruct (require_actor_scope actor t) as [[]|e]; cbn [rbind]; [|naive_solver].
  rewrite throw_if_Ok, negb_false_iff, bool_decide_eq_true. naive_solver.
Qed.

Lemma or_forbidden_Ok {A} (c : res A) x : or_forbidden c = Ok x <-> c = Ok x.
Proof. destruct c as [|[]]; done. Qed.

Lemma or_forbidden_elim {A} (c : res A) x : or_forbidden c = Ok x -> c = Ok x.
Proof. apply or_forbidden_Ok. Qed.

Lemma required_empty d role :
  list_to_set (list_role_permissions d role) = (∅ : gset string) <-> list_role_permissions d role = [].
Proof.
  split; [|by intros ->]. destruct (list_role_permissions d role) as [|p l]; [done|].
  intros H. assert (p ∈ (list_to_set (p :: l) : gset string)) by (apply elem_of_list_to_set; by left). set_solver.
Qed.

Lemma assignment_satisfies_spec d role t a :
  assignment_satisfies d role (list_to_set (list_role_permissions d role)) t a = true <->
  covers_target a t /\ (ra_role a = role \/ forall p, granted d role p -> granted d (ra_role a) p).
Proof.
  unfold assignment_satisfies.
  rewrite andb_true_iff, orb_true_iff, role_scope_matches_spec, String.eqb_eq, bool_decide_eq_true.
  rewrite elem_of_subseteq. setoid_rewrite elem_of_list_to_set.
  by setoid_rewrite elem_of_list_role_permissions.
Qed.

Lemma stage_role_spec d actor role t :
  actor_satisfies_stage_role d actor role t = true <->
  (exists p, granted d role p) /\
  exists a, in_force d (user_ref actor) a /\ covers_target a t /\
    (ra_role a = role \/ forall p, granted d role p -> granted d (ra_role a) p).
Proof.
  unfold actor_satisfies_stage_role.
  assert ((exists p, granted d role p) <-> list_role_permissions d role <> []) as ->.
  { setoid_rewrite <-elem_of_list_role_permissions. destruct (list_role_permissions d role) as [|p l].
    - split; [by intros (p & ?%elem_of_nil)|done].
    - split; [done|]. intros _. exists p. by left. }
  case_bool_decide as Hb; rewrite required_empty in Hb; [naive_solver|].
  rewrite existsb_exists. setoid_rewrite <-list_elem_of_In.
  setoid_rewrite elem_of_actor_assignments. setoid_rewrite assignment_satisfies_spec. naive_solver.
Qed.

Lemma require_stage_role_Ok d actor role t u :
  require_stage_role d actor role t = Ok u <-> actor_satisfies_stage_role d actor role t = true.
Proof. unfold require_stage_role. by rewrite throw_if_Ok, negb_false_iff. Qed.

(** ** Separation of duties between administration and decision *)

(** [ref] holds [role] somewhere in [tenant] *)
Definition holds (d : db) (tenant ref role : string) : Prop :=
  exists a, in_force d ref a /\ ra_tenant_id a = Some tenant /\ ra_role a = role.

(** nobody both administers an organization and decides in it *)
Definition separated (d : db) : Prop :=
  forall tenant ref r1 r2, r1 ∈ ADMINISTRATION_ROLES -> r2 ∈ DECISION_ROLES ->
    holds d tenant ref r1 -> holds d tenant ref r2 -> False.

Lemma elem_of_active_roles d tenant ref role :
  tenant <> EmptyString -> role ∈ active_roles_of d tenant ref <-> holds d tenant ref role.
Proof.
  intros Ht. unfold active_roles_of, holds, in_force. rewrite elem_of_list_to_set, list_elem_of_fmap.
  assert (is_empty tenant = false) as E by by destruct tenant.
  assert (forall a, a ∈ list_role_assignments d tenant <->
    a ∈ role_assignments d /\ ra_tenant_id a = Some tenant) as Hl.
  { intros a. unfold list_role_assignments. rewrite elem_of_order_by, elem_of_select, E. simpl.
    destruct (ra_tenant_id a) as [x|]; simpl; [rewrite String.eqb_eq|]; naive_solver. }
  setoid_rewrite list_elem_of_filter. setoid_rewrite Hl. naive_solver.
Qed.

Lemma would_violate_spec existing role status :
  would_violate_role_separation existing role status = false ->
  (forall r1 r2, r1 ∈ ADMINISTRATION_ROLES -> r2 ∈ DECISION_ROLES ->
    let resulting := if String.eqb status "active" then existing ∪ {[role]} else existing ∖ {[role]} in
    r1 ∈ resulting -> r2 ∈ resulting -> False).
Proof.
  unfold would_violate_role_separation. cbn zeta. intros Hv r1 r2 H1 H2 Hr1 Hr2.
  apply andb_false_iff in Hv as [Hv|Hv]; apply bool_decide_eq_false, dec_stable in Hv; set_solver.
Qed.

Section AssignProofs.
Context `{Digest}.

Definition upserted_row (now : string) (tenant project environment : option string)
    (ref role status : string) : role_assignment :=
  mk_role_assignment (role_assignment_key tenant project environment ref role)
    tenant project environment ref role status now now.

(** what an upsert can put in force: the named role for the named user *)
Lemma upsert_in_force now tenant ref role status d t u r :
  (forall a, a ∈ role_assignments d ->
     ra_role_assignment_id a = role_assignment_key (Some tenant) None None ref role ->
     ra_tenant_id a = Some tenant /\ ra_user_ref a = ref /\ ra_role a = role) ->
  holds (upsert_role_assignment now (Some tenant) None None ref role status d) t u r ->
  holds d t u r \/ (status = "active" /\ t = tenant /\ u = ref /\ r = role).
Proof.
  intros Hcoll (a & (Ha & Hu & Hs) & Ht & Hr). unfold upsert_role_assignment, upsert in Ha. simpl in Ha.
  destruct (lookup_key _ _ _); simpl in Ha.
  - apply elem_of_update in Ha as [(x & Hx & Hk%has_key_elim & ->)|[Ha _]].
    + destruct (Hcoll x Hx Hk) as (Hxt & Hxu & Hxr). simpl in *. right. naive_solver.
    + left. by exists a.
  - apply elem_of_app in Ha as [Ha|Ha%list_elem_of_singleton].
    + left. by exists a.
    + subst a. simpl in *. right. naive_solver.
Qed.

Lemma holds_record_audit e d t u r : holds (record_audit e d) t u r <-> holds d t u r.
Proof. done. Qed.

(** a successful change passed every check of the handler *)
Lemma change_org_role_assignment_Ok now actor u r s d d' :
  change_org_role_assignment now actor u r s d = Ok d' ->
  exists tenant, actor_tenant actor = Some tenant /\ tenant <> EmptyString /\
    is_super_admin actor = false /\
    require_permission d actor PERM_ROLE_ASSIGN (tenant_target tenant) false = Ok tt /\
    r ∈ ASSIGNABLE_ORG_ROLES /\ u <> user_ref actor /\
    would_violate_role_separation (active_roles_of d tenant u) r s = false /\
    role_assignments d' =
      role_assignments (upsert_role_assignment now (Some tenant) None None u r s d).
Proof.
  unfold change_org_role_assignment. intros H0.
  apply rbind_Ok in H0 as (tenant & Ht & H0). apply rbind_Ok in H0 as ([] & Hp%or_forbidden_elim & H0).
  apply rbind_Ok in H0 as ([] & Hr%throw_if_Ok & H0). apply rbind_Ok in H0 as ([] & Hs%throw_if_Ok & H0).
  apply rbind_Ok in H0 as ([] & Hu%throw_if_Ok & H0). apply rbind_Ok in H0 as ([] & _ & H0).
  apply rbind_Ok in H0 as ([] & Hv%throw_if_Ok & [= <-]).
  exists tenant. unfold _require_tenant in Ht. destruct (is_super_admin actor); [done|].
  destruct (actor_tenant actor) as [x|]; [|done]. destruct (is_empty x) eqn:E; [done|].
  injection Ht as ->. split_and!; try done.
  - by intros ->.
  - apply negb_false_iff in Hr. by apply mem_true.
  - intros ->. by rewrite String.eqb_refl in Hu.
Qed.

(** C7. Whatever role an administrator grants or revokes, no person comes to hold
    an administration role and a decision role in one organization: the handler
    keeps the separation of duties, unless the assignment's id collides with
    somebody else's assignment. *)
Theorem change_role_keeps_separation now actor u r s d d' :
  (forall tenant a, actor_tenant actor = Some tenant -> a ∈ role_assignments d ->
     ra_role_assignment_id a = role_assignment_key (Some tenant) None None u r ->
     ra_tenant_id a = Some tenant /\ ra_user_ref a = u /\ ra_role a = r) ->
  separated d -> change_org_role_assignment now actor u r s d = Ok d' -> separated d'.
Proof.
  intros Hcoll Hsep (tenant & Ht & Hne & _ & _ & _ & _ & Hv & Hd)%change_org_role_assignment_Ok.
  intros t ref r1 r2 Hr1 Hr2 H1 H2.
  assert (forall rr, holds d' t ref rr -> holds d t ref rr \/
    (s = "active" /\ t = tenant /\ ref = u /\ rr = r)) as Hstep.
  { intros rr (a & Ha & Hat & Har). unfold in_force in Ha. rewrite Hd in Ha.
    assert (holds (upsert_role_assignment now (Some tenant) None None u r s d) t ref rr) as Hh by (by exists a).
    apply upsert_in_force in Hh as [?|?]; [by left|by right|]. intros x Hx. by apply Hcoll. }
  pose proof (would_violate_spec _ _ _ Hv r1 r2 Hr1 Hr2) as Hno. cbn zeta in Hno.
  destruct (Hstep r1 H1) as [O1|(Hs & Et & Eu & Er)], (Hstep r2 H2) as [O2|(Hs' & Et' & Eu' & Er')];
    [by eapply Hsep|..]; subst; simpl in Hno; apply Hno; apply elem_of_union;
    first [left; by apply elem_of_active_roles|right; by apply elem_of_singleton].
Qed.

End AssignProofs.

(** ** What the separation means for permissions *)

(** the role table holds no grant beyond the shipped one *)
Definition seeded_grants (d : db) : Prop :=
  forall role p, granted d role p ->
  exists ps, (role, ps) ∈ DEFAULT_ROLE_PERMISSIONS /\ p ∈ ps.

Definition administration_permissions : list string := [PERM_USER_MANAGE; PERM_ROLE_ASSIGN].
Definition decision_permissions : list string :=
  [PERM_REVIEW_DECIDE; PERM_RISK_ACCEPT; PERM_GATE_DECIDE; PERM_INCIDENT_CLOSE].

(** of the shipped roles only the administration role administers, and only the
    decision roles decide *)
Lemma seeded_role_planes role ps p :
  (role, ps) ∈ DEFAULT_ROLE_PERMISSIONS -> p ∈ ps ->
  (p ∈ administration_permissions -> role ∈ ADMINISTRATION_ROLES) /\
  (p ∈ decision_permissions -> role ∈ DECISION_ROLES).
Proof.
  intros Hr Hp.
  assert (forallb (fun entry => forallb (fun p =>
      implb (mem p administration_permissions) (bool_decide (fst entry ∈ ADMINISTRATION_ROLES)) &&
      implb (mem p decision_permissions) (bool_decide (fst entry ∈ DECISION_ROLES))) (snd entry))
    DEFAULT_ROLE_PERMISSIONS = true) as Hall by by vm_compute.
  rewrite forallb_forall in Hall. specialize (Hall (role, ps)). rewrite <-list_elem_of_In in Hall.
  specialize (Hall Hr). simpl in Hall. rewrite forallb_forall in Hall. specialize (Hall p).
  rewrite <-list_elem_of_In in Hall. specialize (Hall Hp). apply andb_true_iff in Hall as [Ha Hd].
  split; intros Hin%mem_true; rewrite Hin in *; simpl in *; by eapply bool_decide_eq_true.
Qed.

(** With the shipped role table, a person who may manage users or assign
    roles anywhere in an organization may not take any decision there: not
    decide a review, accept a risk, approve a gate or close an incident. *)
Theorem administrators_never_decide d actor tenant t1 t2 p1 p2 :
  separated d -> seeded_grants d ->
  tg_tenant t1 = Some tenant -> tg_tenant t2 = Some tenant ->
  p1 ∈ administration_permissions -> p2 ∈ decision_permissions ->
  require_permission d actor p1 t1 false = Ok tt ->
  require_permission d actor p2 t2 false <> Ok tt.
Proof.
  intros Hsep Hseed Ht1 Ht2 Hp1 Hp2 (_ & _ & a1 & Hf1 & [Hc1 _] & Hg1)%require_permission_Ok
    (_ & _ & a2 & Hf2 & [Hc2 _] & Hg2)%require_permission_Ok.
  destruct (Hseed _ _ Hg1) as (ps1 & Hr1 & Hin1). destruct (Hseed _ _ Hg2) as (ps2 & Hr2 & Hin2).
  eapply (Hsep tenant (user_ref actor) (ra_role a1) (ra_role a2)).
  - exact (proj1 (seeded_role_planes _ _ _ Hr1 Hin1) Hp1).
  - exact (proj2 (seeded_role_planes _ _ _ Hr2 Hin2) Hp2).
  - exists a1. split_and!; [done|congruence|done].
  - exists a2. split_and!; [done|congruence|done].
Qed.


(** ** A small organization *)

Module Demo.
(** two members of one organization; ann administers it *)
Definition member (ref : string) : platform_user := 
  mk_platform_user ref "active" (Some "acme") None ref (Some ref) (Some "hash") false None None None None "t0" "t0".
Definition assign (id ref role : string) : role_assignment :=
  mk_role_assignment id (Some "acme") None None ref role "active" "t0" "t0".
Definition actor (ref : string) : ActorContext := mk_actor ref (Some "acme") None None None.
Definition org : db :=
  set_platform_users [member "ann"; member "bob"; member "cyd"]
    (set_role_assignments [assign "a1" "ann" "org_admin"] (seed_role_permissions empty_db)).

Lemma org_separated : separated org.
Proof.
  intros tenant ref r1 r2 _ H2 _ (a & (Ha%list_elem_of_singleton & _) & _ & <-). subst a.
  assert (bool_decide ("org_admin" ∈ DECISION_ROLES) = false) as Hn by by vm_compute.
  by apply bool_decide_eq_false in Hn.
Qed.

Lemma org_seeded : seeded_grants org.
Proof.
  intros role p Hg. unfold granted in Hg.
  assert (forallb (fun r => existsb (fun e => String.eqb (fst e) (rp_role r) && mem (rp_permission r) (snd e))
    DEFAULT_ROLE_PERMISSIONS) (role_permissions org) = true) as Hall by by vm_compute.
  rewrite forallb_forall in Hall. apply list_elem_of_In, Hall, existsb_exists in Hg as ([r ps] & Hin & Hb).
  simpl in Hb. apply andb_true_iff in Hb as [->%String.eqb_eq Hp%mem_true].
  exists ps. by rewrite list_elem_of_In.
Qed.
End Demo.

Lemma change_role_keeps_separation_witness :
  let _ : Digest := fun s => s in
  exists d', change_org_role_assignment "t1" (Demo.actor "ann") "bob" "risk_owner" "active" Demo.org = Ok d' /\
    separated d'.
Proof.
  intros H. eexists. split; [vm_compute; reflexivity|].
  eapply (@change_role_keeps_separation H "t1" (Demo.actor "ann") "bob" "risk_owner" "active" Demo.org).
  - intros tenant a Ht Ha%list_elem_of_singleton Hk. subst a. exfalso. revert Hk. by vm_compute.
  - apply Demo.org_separated.
  - vm_compute. reflexivity.
Defined.

Lemma administrators_never_decide_witness :
  require_permission Demo.org (Demo.actor "ann") PERM_ROLE_ASSIGN (tenant_target "acme") false = Ok tt /\
  require_permission Demo.org (Demo.actor "ann") PERM_GATE_DECIDE (tenant_target "acme") false <> Ok tt.
Proof.
  split; [vm_compute; reflexivity|].
  apply (administrators_never_decide Demo.org (Demo.actor "ann") "acme" (tenant_target "acme")
    (tenant_target "acme") PERM_ROLE_ASSIGN PERM_GATE_DECIDE).
  - apply Demo.org_separated.
  - apply Demo.org_seeded.
  - reflexivity.
  - reflexivity.
  - apply mem_true. reflexivity.
  - apply mem_true. reflexivity.
  - vm_compute. reflexivity.
Defined.
