(* ===== verification/PolicyStore.v ===== *)
(** * Policy versions (storage/policy_engine.py, api/policy.py)

    The stored policy versions of an organization, the resolvers that read the
    one in force, drafting, and activation with its checks: the version is
    still valid, an author does not loosen the policy alone, and the stages a
    version changes can be staffed. *)

From stdpp Require Import base list strings option pretty sets gmap.
From Stdlib Require Import ZArith QArith Lia.
From S2P Require Import Prelude Py Json Sql Schema RiskTier Staffing PolicyDoc Rbac.

Open Scope nat_scope.

Section Store.
Context `{PyHost} `{Digest}.

(** ** Documents *)

Definition canonical_body (body : pyval) : string := encode_json body.
Definition body_hash (body : pyval) : string := sha256 (canonical_body body).

Definition gp_key (p : governance_policy) : string * Z := (gp_tenant_id p, gp_version p).

Definition seed_default_policy (now : string) (d : db) : db :=
  set_governance_policies
    (insert_or_ignore gp_key
      (mk_governance_policy "" 1 "active" DEFAULT_POLICY_BODY (body_hash DEFAULT_POLICY_BODY)
         "system:default" now (Some now)) (governance_policies d)) d.

(** the role table as [_decision_capable_roles(connection)] reads it *)
Definition role_grants (d : db) : grants :=
  _decision_capable_roles (map rp_key (role_permissions d)).

(** ** The policy in force *)

(** the shipped default the code falls back to when the seed row is missing *)
Definition shipped_default : governance_policy :=
  mk_governance_policy "" 1 "active" DEFAULT_POLICY_BODY (body_hash DEFAULT_POLICY_BODY) "" "" None.

(** [WHERE tenant_id = ? AND status = 'active'] *)
Definition select_active (d : db) (tenant : string) : option governance_policy :=
  select1 (fun p => String.eqb (gp_tenant_id p) tenant && String.eqb (gp_status p) "active")
    (governance_policies d).

Definition _platform_default (d : db) : governance_policy :=
  default shipped_default (select_active d "").

Definition active_policy (d : db) (tenant_id : option string) : governance_policy :=
  let tid := default EmptyString tenant_id in
  match (if is_empty tid then None else select_active d tid) with
  | Some row => row
  | None => _platform_default d
  end.

(** ** Resolvers *)

(** [(body.get("intake", {}).get("tiers", {}) or {}).get(risk_tier)] *)
Definition read_tier (body : pyval) (risk_tier : string) : res pyval :=
  let! intake := py_get_default body "intake" (PDict []) in
  let! tiers := py_get_default intake "tiers" (PDict []) in
  py_get (py_or tiers (PDict [])) risk_tier.

(** the tenant's entry, else the platform default's; with the row it came from *)
Definition entry_or_default (d : db) (tenant_id : option string) (read : pyval -> res pyval)
    : res (pyval * governance_policy) :=
  let policy := active_policy d tenant_id in
  let! entry := read (gp_body policy) in
  if is_none entry && negb (is_empty (gp_tenant_id policy))
  then let policy := _platform_default d in
       let! entry := read (gp_body policy) in Ok (entry, policy)
  else Ok (entry, policy).

Record stage_policy := mk_stage_policy {
  sp_stages : pyval;
  sp_mode : pyval;
  sp_recertify_days : pyval;
  sp_policy_tenant : string;
  sp_policy_version : Z
}.

(** [entry.get("stages") or [{"role": "governance_reviewer"}]] *)
Definition stages_or_reviewer (entry : pyval) : res pyval :=
  let! stages := py_get entry "stages" in Ok (py_or stages (PList single_reviewer)).

Definition resolve_tier_policy (d : db) (tenant_id : option string) (risk_tier : string)
    : res stage_policy :=
  let! found := entry_or_default d tenant_id (fun body => read_tier body risk_tier) in
  let (entry, policy) := found in
  let entry := if is_none entry
    then PDict [("stages", PList single_reviewer); ("mode", PStr "sequence")] else entry in
  let! stages := stages_or_reviewer entry in
  let! mode := py_get_default entry "mode" (PStr "sequence") in
  let! days := py_get entry "recertify_days" in
  Ok (mk_stage_policy stages mode days (gp_tenant_id policy) (gp_version policy)).

Definition resolve_vendor_policy (d : db) (tenant_id : option string) : res stage_policy :=
  let! found := entry_or_default d tenant_id (fun body => py_get body "vendors") in
  let (entry, policy) := found in
  let entry := if is_none entry then DEFAULT_VENDORS else entry in
  let! stages := stages_or_reviewer entry in
  let! days := py_get entry "recertify_days" in
  Ok (mk_stage_policy stages PNone days (gp_tenant_id policy) (gp_version policy)).

Record gate_policy := mk_gate_policy {
  gt_require_attested_evals : bool;
  gt_max_open_material_changes : Z;
  gt_min_control_coverage : pyfloat;
  gt_policy_tenant : string;
  gt_policy_version : Z
}.

(** [body.get("gates", {}).get("environments", {}) or {}] and its entry for the
    environment, else for ["*"] *)
Definition read_gate (body : pyval) (environment : string) : res pyval :=
  let! gates := py_get_default body "gates" (PDict []) in
  let! environments := py_get_default gates "environments" (PDict []) in
  environment_entry (py_or environments (PDict [])) environment.

Definition gate_policy_of (entry : pyval) (policy : governance_policy) : res gate_policy :=
  let! attested := entry_requires_attested entry in
  let! changes := py_get_default entry "max_open_material_changes" (PInt 0) in
  let! changes := py_int changes in
  let! coverage := entry_min_coverage entry in
  Ok (mk_gate_policy attested (Z.min changes MATERIAL_CHANGE_CEILING) coverage
        (gp_tenant_id policy) (gp_version policy)).

(** the loop over (active policy, platform default) *)
Fixpoint resolve_gate_among (policies : list governance_policy) (environment : string)
    (fallback : governance_policy) : res gate_policy :=
  match policies with
  | [] => Ok (mk_gate_policy false 0 (FFin 0) (gp_tenant_id fallback) (gp_version fallback))
  | policy :: rest =>
      let! entry := read_gate (gp_body policy) environment in
      if is_none entry then resolve_gate_among rest environment fallback
      else gate_policy_of entry policy
  end.

Definition resolve_gate_policy (d : db) (tenant_id : option string) (environment : string)
    : res gate_policy :=
  resolve_gate_among [active_policy d tenant_id; _platform_default d] environment (_platform_default d).

(** (coverage_window_days, stale_after_days, policy_tenant, policy_version) *)
Definition resolve_evidence_policy (d : db) (tenant_id : option string) : res (Z * Z * string * Z) :=
  let policy := active_policy d tenant_id in
  let! settings := _evidence_settings (gp_body policy) (gp_body (_platform_default d)) in
  Ok (settings, gp_tenant_id policy, gp_version policy).

Definition resolve_intake_fields (d : db) (tenant_id : option string) : res (list pyval) :=
  let! intake := py_get_default (gp_body (active_policy d tenant_id)) "intake" (PDict []) in
  let! declared := py_has_key intake "fields" in
  if declared then let! v := py_get intake "fields" in list_or_empty v
  else
    let! intake := py_get_default (gp_body (_platform_default d)) "intake" (PDict []) in
    let! v := py_get intake "fields" in list_or_empty v.

(** (row, source) of [effective_policy] *)
Definition effective_policy (d : db) (tenant_id : option string) : governance_policy * string :=
  let policy := active_policy d tenant_id in
  (policy, if is_empty (gp_tenant_id policy) then "default" else "tenant").

Definition list_policy_versions (d : db) (tenant_id : string) : list governance_policy :=
  order_by (fun p q => (gp_version q <=? gp_version p)%Z)
    (select (fun p => String.eqb (gp_tenant_id p) tenant_id) (governance_policies d)).

Definition load_policy_version (d : db) (tenant_id : string) (version : Z) : option governance_policy :=
  lookup_key gp_key (tenant_id, version) (governance_policies d).

(** ** Drafting *)

(** [COALESCE(MAX(version), 0)] over the tenant's versions *)
Definition latest_version (d : db) (tenant_id : string) : Z :=
  foldr Z.max 0%Z (map gp_version
    (select (fun p => String.eqb (gp_tenant_id p) tenant_id) (governance_policies d))).

Definition create_policy_draft (now tenant_id : string) (body : pyval) (actor_ref : string) (d : db)
    : res (governance_policy * db) :=
  let! _ := throw_if (is_empty tenant_id)
    (ValueError "a tenant_id is required to author a governance policy") in
  let! errors := validate_policy_body body (role_grants d) in
  let! _ := throw_if (negb (bool_decide (errors = [])))
    (ValueError ("invalid policy document: " +:+ join "; " errors)) in
  let version := (latest_version d tenant_id + 1)%Z in
  let row := mk_governance_policy tenant_id version "draft" body (body_hash body) actor_ref now None in
  Ok (row, set_governance_policies (governance_policies d ++ [row]) d).

(** ** Who can decide *)

(** the user's active roles in the tenant, of active users *)
Definition held_roles (d : db) (tenant_id : string) : gmap string (gset string) :=
  group_sets ra_user_ref ra_role
    (select (fun a => sql_eq (ra_tenant_id a) (Some tenant_id) && String.eqb (ra_status a) "active" &&
               existsb (fun u => String.eqb (pu_user_ref u) (ra_user_ref a) && String.eqb (pu_status u) "active")
                 (platform_users d))
      (role_assignments d)).

(** [required in roles or any(required_grants <= grants.get(role, set()) for role in roles)] *)
Definition carries_authority (g : grants) (required : string) (required_grants : gset string)
    (roles : gset string) : bool :=
  bool_decide (required ∈ roles) ||
  existsb (fun role => bool_decide (required_grants ⊆ default ∅ (g !! role))) (elements roles).

Definition _eligible_deciders (d : db) (tenant_id : string) : gmap string (gset string) :=
  let g := role_grants d in
  let held := held_roles d tenant_id in
  map_imap (fun required required_grants =>
    Some (dom (filter (fun p => carries_authority g required required_grants (snd p) = true) held))) g.

(** sections of [after] that differ from [before] and cannot be staffed; [None]
    when the search runs out of fuel, which it never does *)
Definition unstaffed_reason (before : list (string * list string)) (eligible : gmap string (gset string))
    (section : string * list string) : res (list string) :=
  let (name, roles) := section in
  if bool_decide (assoc name before = Some roles) then Ok []
  else match can_staff roles eligible with
       | Some true => Ok []
       | _ => Ok [name +:+ ": " +:+ pretty (length roles) +:+ " stage(s) (" +:+ join ", " roles
                  +:+ ") need " +:+ pretty (length roles) +:+ " different active people "
                  +:+ "with that authority, and the organization does not have them"]
       end.

Definition unstaffed_stage_changes (d : db) (tenant_id : string) (old_body new_body default_body : pyval)
    : res (list string) :=
  let! before := _stage_sections old_body default_body in
  let! after := _stage_sections new_body default_body in
  let! reasons := rmap (unstaffed_reason before (_eligible_deciders d tenant_id)) after in
  Ok (concat reasons).

(** ** The difference of two documents *)

(** the paths and leaves of a document; an empty object leaves no path *)
Fixpoint _flatten (prefix : string) (value : pyval) : list (string * pyval) :=
  match value with
  | PDict d =>
      let items := (fix go (d : list (string * pyval)) :=
        match d with
        | [] => []
        | (key, x) :: d' =>
            (key, _flatten (if is_empty prefix then key else prefix +:+ "." +:+ key) x) :: go d'
        end) d in
      concat (map snd (sort_items items))
  | _ => [(prefix, value)]
  end.

(** the dict the loop fills: a later path overwrites an earlier equal one *)
Definition flat (body : pyval) : gmap string pyval :=
  foldl (fun out kv => <[fst kv := snd kv]> out) ∅ (_flatten "" (py_or body (PDict []))).

Definition diff_line (old_flat new_flat : gmap string pyval) (key : string) : list string :=
  match old_flat !! key, new_flat !! key with
  | None, Some n => ["added " +:+ key +:+ " = " +:+ encode_json n]
  | Some o, None => ["removed " +:+ key +:+ " (was " +:+ encode_json o +:+ ")"]
  | Some o, Some n =>
      if py_eqb o n then []
      else ["changed " +:+ key +:+ ": " +:+ encode_json o +:+ " -> " +:+ encode_json n]
  | None, None => []
  end.

Definition policy_diff_summary (old_body new_body : pyval) : list string :=
  let old_flat := flat old_body in
  let new_flat := flat new_body in
  match concat (map (diff_line old_flat new_flat)
          (sorted_set (elements (dom old_flat) ++ elements (dom new_flat)))) with
  | [] => ["no changes"]
  | changes => changes
  end.

(** ** Activation *)

Definition opt_int (v : option Z) : pyval := from_option PInt PNone v.
Definition strs (l : list string) : pyval := PList (map PStr l).

(** the statements that put a version in force *)
Definition supersede (tenant_id : string) (version : Z) (d : db) : db :=
  set_governance_policies
    (update_key gp_key (tenant_id, version) (gp_with_status "superseded") (governance_policies d)) d.
Definition put_in_force (now tenant_id : string) (version : Z) (d : db) : db :=
  set_governance_policies
    (update_key gp_key (tenant_id, version)
      (fun p => gp_with_activated_at (Some now) (gp_with_status "active" p)) (governance_policies d)) d.

Definition activation_audit (actor_ref tenant_id : string) (activated : governance_policy)
    (previous : option governance_policy) (previous_body : pyval) (loosening : list string) : audit_entry :=
  mk_audit_entry actor_ref "policy.activate" (Some tenant_id) "governance_policy"
    (tenant_id +:+ "/v" +:+ pretty (gp_version activated))
    (PDict [("version", PInt (gp_version activated));
            ("body_hash", PStr (gp_body_hash activated));
            ("superseded_version", opt_int (gp_version <$> previous));
            ("diff", strs (policy_diff_summary previous_body (gp_body activated)));
            ("loosens", strs loosening);
            ("author", PStr (gp_created_by activated))]).

Definition activate_policy (now tenant_id : string) (version : Z) (actor_ref : string) (d : db)
    : res (governance_policy * db) :=
  let! _ := throw_if (is_empty tenant_id)
    (ValueError "a tenant_id is required to activate a governance policy") in
  match load_policy_version d tenant_id version with
  | None => Raise (RecordNotFound "policy version not found")
  | Some target =>
      if String.eqb (gp_status target) "active" then Ok (target, d)
      else
        let! _ := throw_if (String.eqb (gp_status target) "superseded")
          (ValueError "a superseded policy version cannot be re-activated; draft a new version") in
        let! errors := validate_policy_body (gp_body target) (role_grants d) in
        let! _ := throw_if (negb (bool_decide (errors = [])))
          (ValueError ("policy version is no longer valid: " +:+ join "; " errors)) in
        let previous := select_active d tenant_id in
        let default_body := gp_body (_platform_default d) in
        let previous_body := from_option gp_body default_body previous in
        let! loosening := policy_loosening previous_body (gp_body target) default_body in
        let! _ := throw_if (negb (bool_decide (loosening = [])) && String.eqb (gp_created_by target) actor_ref)
          (PolicyActivationRequiresSecondPerson
             ("this version loosens the policy in force, so someone other than its author must activate it: "
              +:+ join "; " loosening)) in
        let! unstaffed := unstaffed_stage_changes d tenant_id previous_body (gp_body target) default_body in
        let! _ := throw_if (negb (bool_decide (unstaffed = [])))
          (DomainError ("this version has approval stages nobody in the organization can decide; assign the roles first: "
             +:+ join "; " unstaffed)) in
        let d := match previous with Some p => supersede tenant_id (gp_version p) d | None => d end in
        let d := put_in_force now tenant_id version d in
        match load_policy_version d tenant_id version with
        | None => Raise TypeError
        | Some activated =>
            Ok (activated,
                record_audit (activation_audit actor_ref tenant_id activated previous previous_body loosening) d)
        end
  end.

(** ** Handlers (api/policy.py) *)

Definition _member_tenant (actor : ActorContext) : res string :=
  match actor_tenant actor with
  | Some t => if is_super_admin actor || is_empty t then Raise (HTTPException 403 "Tenant user required") else Ok t
  | None => Raise (HTTPException 403 "Tenant user required")
  end.

Definition _config_tenant (d : db) (actor : ActorContext) : res string :=
  let! tenant_id := _member_tenant actor in
  let! _ := or_forbidden (require_permission d actor PERM_CONFIG_WRITE (tenant_target tenant_id) false) in
  Ok tenant_id.

(** [except ValueError as error: raise HTTPException(400, str(error))], which
    also catches the subclasses of ValueError *)
Definition value_error_400 {A} (c : res A) : res A :=
  match c with
  | Raise (ValueError m) | Raise (DomainError m) | Raise (RecordNotFound m)
  | Raise (PolicyActivationRequiresSecondPerson m) => Raise (HTTPException 400 m)
  | _ => c
  end.

Definition draft_governance_policy (now : string) (actor : ActorContext) (body : pyval) (d : db)
    : res (governance_policy * db) :=
  let! tenant_id := _config_tenant d actor in
  let! r := value_error_400 (create_policy_draft now tenant_id body (user_ref actor) d) in
  let (draft, d) := r in
  Ok (draft, record_audit (mk_audit_entry (user_ref actor) "policy.draft" (Some tenant_id) "governance_policy"
        (tenant_id +:+ "/v" +:+ pretty (gp_version draft))
        (PDict [("version", PInt (gp_version draft)); ("body_hash", PStr (gp_body_hash draft))])) d).

Definition activate_governance_policy (now : string) (actor : ActorContext) (version : Z) (d : db)
    : res (governance_policy * db) :=
  let! tenant_id := _config_tenant d actor in
  match activate_policy now tenant_id version (user_ref actor) d with
  | Raise (RecordNotFound m) => Raise (HTTPException 404 m)
  | Raise (PolicyActivationRequiresSecondPerson m) => Raise (HTTPException 403 m)
  | c => value_error_400 c
  end.

End Store.
