(* ===== verification/PolicyInForce.v ===== *)
(** * Policy versions: invariants and guarantees

    What holds of the stored policy versions however they were drafted and
    activated, and what that means for the policy the resolvers return. *)

From stdpp Require Import base list strings option pretty sets gmap relations.
From Stdlib Require Import ZArith QArith Lia.
From S2P Require Import Prelude Py Json Sql Schema RiskTier Staffing.
From S2P Require Import PolicyDoc PolicyValid PolicyRead PolicyLoosening Rbac PolicyStore.

Open Scope nat_scope.

(** ** Validity under a larger role table *)

Definition grants_grow (g g' : grants) : Prop :=
  forall role, decision_role g role -> decision_role g' role.

Lemma valid_stages_mono g g' v : grants_grow g g' -> valid_stages g v -> valid_stages g' v.
Proof.
  intros Hg (l & -> & Hlen & HF). exists l. split_and!; [done|lia..|].
  eapply Forall_impl; [exact HF|]. intros x (d & role & ? & ? & ? & ? & ? & ?).
  exists d, role. by split_and!; auto.
Qed.

Lemma valid_policy_mono g g' body : grants_grow g g' -> valid_policy g body -> valid_policy g' body.
Proof.
  intros Hg (d & -> & Hs & Hk & Hi & Hga & Hv & He). exists d. split_and!; try done.
  - intros v Hin. destruct (Hi v Hin) as (i & -> & Hki & (tiers & Ht & HF) & Hf).
    exists i. split_and!; try done. exists tiers. split; [done|]. eapply Forall_impl; [exact HF|].
    intros [tier e] (Htier & x & Hx & ? & Hst & ? & ?). split; [done|]. exists x.
    split_and!; try done. by eapply valid_stages_mono.
  - intros v Hin. destruct (Hv v Hin) as (i & -> & ? & Hst & ?). exists i.
    split_and!; try done. by eapply valid_stages_mono.
Qed.

(** documents valid under two role tables are valid under one *)
Definition grants_join (g g' : grants) : grants := union_with (fun a b => Some (a ∪ b)) g g'.

Lemma lookup_grants_join g g' role :
  grants_join g g' !! role = match g !! role, g' !! role with
                             | Some a, Some b => Some (a ∪ b)
                             | Some a, None | None, Some a => Some a
                             | None, None => None
                             end.
Proof.
  unfold grants_join. rewrite lookup_union_with.
  by destruct (g !! role), (g' !! role).
Qed.

Lemma grants_join_l g g' : grants_grow g (grants_join g g').
Proof.
  intros role (perms & Hp & Hd). unfold decision_role. rewrite lookup_grants_join, Hp.
  destruct (g' !! role); eexists; (split; [done|]); set_solver.
Qed.
Lemma grants_join_r g g' : grants_grow g' (grants_join g g').
Proof.
  intros role (perms & Hp & Hd). unfold decision_role. rewrite lookup_grants_join, Hp.
  destruct (g !! role); eexists; (split; [done|]); set_solver.
Qed.

(** a document some role table made valid *)
Definition well_formed (body : pyval) : Prop := exists g, valid_policy g body.

Lemma well_formed_2 b1 b2 : well_formed b1 -> well_formed b2 ->
  exists g, valid_policy g b1 /\ valid_policy g b2.
Proof.
  intros (g1 & H1) (g2 & H2). exists (grants_join g1 g2).
  split; eapply valid_policy_mono; [apply grants_join_l|done|apply grants_join_r|done].
Qed.

Lemma default_body_well_formed : well_formed DEFAULT_POLICY_BODY.
Proof.
  exists {[GOVERNANCE_REVIEWER := {[_STAGE_DECISION_PERMISSION]}]}.
  apply validate_policy_body_nil. by vm_compute.
Qed.

Section Store.
Context `{PyHost} `{Digest}.

(** ** The invariant *)

Definition STATUSES : list string := ["draft"; "active"; "superseded"].

Record policies_ok (d : db) : Prop := {
  ok_keys : keys_unique gp_key (governance_policies d);
  ok_status : forall p, p ∈ governance_policies d -> gp_status p ∈ STATUSES;
  ok_active : forall p q, p ∈ governance_policies d -> q ∈ governance_policies d ->
    gp_status p = "active" -> gp_status q = "active" -> gp_tenant_id p = gp_tenant_id q -> p = q;
  ok_body : forall p, p ∈ governance_policies d -> well_formed (gp_body p);
  ok_hash : forall p, p ∈ governance_policies d -> gp_body_hash p = body_hash (gp_body p)
}.

Lemma select_active_Some d t p : select_active d t = Some p ->
  p ∈ governance_policies d /\ gp_tenant_id p = t /\ gp_status p = "active".
Proof. intros [Hin Hp]%select1_Some. rewrite andb_true_iff, !String.eqb_eq in Hp. tauto. Qed.

Lemma select_active_unique d p : policies_ok d ->
  p ∈ governance_policies d -> gp_status p = "active" -> select_active d (gp_tenant_id p) = Some p.
Proof.
  intros Hok Hp Ha. destruct (select_active d (gp_tenant_id p)) as [q|] eqn:E.
  - apply select_active_Some in E as (Hq & Ht & Hqa). f_equal. by apply (ok_active d Hok).
  - unfold select_active in E. rewrite select1_None in E. specialize (E p Hp).
    by rewrite Ha, String.eqb_refl in E.
Qed.

Lemma platform_default_well_formed d : policies_ok d -> well_formed (gp_body (_platform_default d)).
Proof.
  intros Hok. unfold _platform_default. destruct (select_active d "") as [p|] eqn:E; simpl.
  - apply select_active_Some in E as (Hp & _). by apply (ok_body d).
  - apply default_body_well_formed.
Qed.

Lemma active_policy_well_formed d t : policies_ok d -> well_formed (gp_body (active_policy d t)).
Proof.
  intros Hok. unfold active_policy.
  destruct (is_empty (default "" t)); [by apply platform_default_well_formed|].
  destruct (select_active d (default "" t)) as [p|] eqn:E.
  - apply select_active_Some in E as (Hp & _). by apply (ok_body d).
  - by apply platform_default_well_formed.
Qed.

(** the tenant's policy and the default, valid under one role table *)
Lemma in_force_valid d t : policies_ok d ->
  exists g, valid_policy g (gp_body (active_policy d t)) /\ valid_policy g (gp_body (_platform_default d)).
Proof.
  intros Hok. apply well_formed_2; [by apply active_policy_well_formed|by apply platform_default_well_formed].
Qed.

(** a policy without a tenant is the platform default *)
Lemma active_policy_default d t : is_empty (gp_tenant_id (active_policy d t)) = true ->
  active_policy d t = _platform_default d.
Proof.
  unfold active_policy. destruct (is_empty (default "" t)) eqn:E; [done|].
  destruct (select_active d (default "" t)) as [p|] eqn:Es; [|done].
  apply select_active_Some in Es as (_ & Ht & _). rewrite Ht. congruence.
Qed.

(** ** Resolvers and document readers agree *)

Lemma get_or_empty_default d k : (forall v, assoc k d = Some v -> exists e, v = PDict e) ->
  get_or_empty (PDict d) k = py_get_default (PDict d) k (PDict []).
Proof.
  intros Hv. unfold get_or_empty, py_get, py_get_default. simpl.
  destruct (assoc k d) as [v|]; simpl; [|done]. destruct (Hv v eq_refl) as [e ->]. by destruct e.
Qed.

(** [x.get(k, {}) or {}] is [x.get(k) or {}] *)
Lemma get_default_or_empty v k :
  (let! x := py_get_default v k (PDict []) in Ok (py_or x (PDict []))) = get_or_empty v k.
Proof. destruct v; try done. unfold get_or_empty. simpl. by destruct (assoc k d). Qed.

Lemma rbind_assoc {A B C} (c : res A) (k : A -> res B) (k' : B -> res C) :
  rbind (rbind c k) k' = rbind c (fun x => rbind (k x) k').
Proof. by destruct c. Qed.

Lemma read_tier_valid g body tier : valid_policy g body ->
  read_tier body tier =
  (let! intake := get_or_empty body "intake" in
   let! tiers := get_or_empty intake "tiers" in py_get tiers tier).
Proof.
  intros (d & -> & _ & _ & Hi & _). unfold read_tier. rewrite get_or_empty_default.
  2: { intros v Hv. destruct (Hi v Hv) as (e & -> & _). by exists e. }
  destruct (py_get_default (PDict d) "intake" (PDict [])) as [intake|]; cbn [rbind]; [|done].
  by rewrite <-get_default_or_empty, rbind_assoc.
Qed.

Lemma read_gate_valid g body env : valid_policy g body ->
  read_gate body env =
  (let! environments := document_environments body in environment_entry environments env).
Proof.
  intros (d & -> & _ & _ & _ & Hg & _). unfold read_gate, document_environments. rewrite get_or_empty_default.
  2: { intros v Hv. destruct (Hg v Hv) as (e & -> & _). by exists e. }
  destruct (py_get_default (PDict d) "gates" (PDict [])) as [gates|]; cbn [rbind]; [|done].
  by rewrite <-get_default_or_empty, rbind_assoc.
Qed.

(** the tenant-then-default lookup of the resolvers is the documents' *)
Lemma entry_or_default_agrees d t read x y :
  read (gp_body (active_policy d t)) = Ok x -> read (gp_body (_platform_default d)) = Ok y ->
  exists policy, entry_or_default d t read = Ok (if is_none x then y else x, policy) /\
    first_entry read [gp_body (active_policy d t); gp_body (_platform_default d)] =
      Ok (if is_none x then (if is_none y then None else Some y) else Some x).
Proof.
  intros Hx Hy. unfold entry_or_default. rewrite Hx. cbn [rbind first_entry].
  rewrite Hx. cbn [rbind].
  destruct (is_none x) eqn:Ex; cbn [andb].
  - rewrite Hy. cbn [rbind]. destruct (is_empty (gp_tenant_id (active_policy d t))) eqn:E; cbn [negb].
    + rewrite (active_policy_default d t E) in *. rewrite Hx in Hy. injection Hy as ->.
      eexists. split; [done|]. by rewrite Ex.
    + eexists. split; [done|]. by destruct (is_none y).
  - by eexists.
Qed.

(** a resolved stage policy: its roles, its period, and the entry it was read from *)
Definition resolved_stages (sp : stage_policy) (roles : list string) (days : option Z) : Prop :=
  exists l, sp_stages sp = PList l /\ rmap (fun stage => py_get stage "role") l = Ok (map PStr roles) /\
    sp_recertify_days sp = days_val days.

(** the stages of an entry with roles are a list, so [or] keeps them *)
Lemma stage_view_stages entry roles days : stage_view entry roles days -> roles_ok roles ->
  exists l, stages_or_reviewer entry = Ok (PList l) /\
    rmap (fun stage => py_get stage "role") l = Ok (map PStr roles).
Proof.
  intros [He _] [Hr _]. unfold entry_roles in He. unfold stages_or_reviewer.
  destruct (py_get entry "stages") as [v|]; cbn [rbind] in *; [|done].
  apply rbind_Ok in He as (l & Hl & He). unfold list_or_empty in Hl.
  assert (l <> []) as Hne.
  { intros ->. injection He as He. destruct roles; simpl in *; [lia|done]. }
  destruct (truthy v) eqn:Et; unfold py_or in *; rewrite Et in *; cbn [py_iter] in Hl.
  2: { injection Hl as <-. done. }
  destruct v as [| | | |str|l'|d]; cbn [py_iter] in Hl; try discriminate; injection Hl as <-.
  - exfalso. destruct str as [|c str]; [done|]. discriminate.
  - by exists l'.
  - exfalso. destruct d as [|[k x] d]; [done|]. discriminate.
Qed.

(** what governs a tier, as the resolver reads it and as the documents say *)
Lemma resolve_tier_agrees d t tier : policies_ok d ->
  exists entry sp roles days,
    _tier_entry (gp_body (active_policy d t)) (gp_body (_platform_default d)) tier = Ok entry /\
    stage_view entry roles days /\ roles_ok roles /\ days_ok days /\
    resolve_tier_policy d t tier = Ok sp /\ resolved_stages sp roles days /\
    (exists mode, sp_mode sp = PStr mode /\ mode ∈ _STAGE_MODES).
Proof.
  intros Hok. destruct (in_force_valid d t Hok) as (g & Hb & Hd).
  destruct (tier_entry_view g _ _ tier Hb Hd) as (entry & roles & days & Ht & Hv & Hr & Hdy & _).
  destruct (valid_tiers g _ tier Hb) as (x & Hx & Hxv). destruct (valid_tiers g _ tier Hd) as (y & Hy & Hyv).
  unfold resolve_tier_policy. pose proof Ht as Ht'. unfold _tier_entry in Ht'.
  destruct (entry_or_default_agrees d t (fun body => read_tier body tier) x y) as (policy & -> & Hf).
  { by rewrite (read_tier_valid g). } { by rewrite (read_tier_valid g). }
  cbn [first_entry] in Ht', Hf. rewrite !(read_tier_valid g) in Hf by done. rewrite Hf in Ht'.
  cbn [rbind] in Ht' |- *. injection Ht' as <-.
  set (e := if is_none x then y else x) in *.
  assert (valid_tier g (tier, e) \/ e = PNone) as He.
  { unfold e. destruct Hxv as [->|Hxv]; simpl; [by destruct Hyv; [right|left]|].
    pose proof Hxv as (_ & d0 & Hd0 & _). simpl in Hd0. subst x. by left. }
  assert (default (PDict [("stages", PList single_reviewer)])
    (if is_none x then if is_none y then None else Some y else Some x) =
    if is_none e then PDict [("stages", PList single_reviewer)] else e) as Hdef.
  { unfold e. destruct (is_none x) eqn:Ex; [by destruct (is_none y)|]. by rewrite Ex. }
  rewrite Hdef in *. destruct (stage_view_stages _ _ _ Hv Hr) as (l & Hl & Hlr).
  clear Hf. destruct (is_none e) eqn:En; rewrite ?En in Ht, Hv, Hl.
  - eexists _, _, roles, days. split; [exact Ht|]. split_and!; try done.
    + exists single_reviewer. injection Hl as <-. split_and!; [done|done|]. destruct Hv as [_ Hv]. by injection Hv.
    + exists "sequence". split; [done|]. by apply mem_true.
  - destruct He as [He| ->]; [|done].
    destruct He as (_ & de & He & _ & _ & (mode & Hm & Hmode) & _). simpl in He. rewrite He in *.
    rewrite Hl. cbn [rbind]. unfold field in Hm. cbn [py_get_default rbind]. rewrite Hm.
    eexists _, _, roles, days. split; [exact Ht|]. split_and!; try done.
    + exists l. split_and!; [done..|]. destruct Hv as [_ Hv]. by injection Hv.
    + by exists mode.
Qed.

(** what governs a gate, as the resolver reads it and as the documents say *)
Lemma resolve_gate_agrees d t env : policies_ok d ->
  exists attested coverage gate,
    _requires_attested (gp_body (active_policy d t)) (gp_body (_platform_default d)) env = Ok attested /\
    _min_coverage (gp_body (active_policy d t)) (gp_body (_platform_default d)) env = Ok (FFin coverage) /\
    resolve_gate_policy d t env = Ok gate /\
    gt_require_attested_evals gate = attested /\ gt_min_control_coverage gate = FFin coverage /\
    gt_max_open_material_changes gate = 0%Z /\ (0 <= coverage <= 100)%Q.
Proof.
  intros Hok. destruct (in_force_valid d t Hok) as (g & Hb & Hd).
  unfold resolve_gate_policy, _requires_attested, _min_coverage, _gate_entry.
  cbn [resolve_gate_among first_entry]. rewrite !(read_gate_valid g) by done.
  destruct (document_environments_view g _ Hb) as (e1 & -> & HF1).
  destruct (document_environments_view g _ Hd) as (e2 & -> & HF2). cbn [rbind].
  assert (forall entry policy, (exists a c, gate_view entry a c) -> exists attested coverage gate,
    entry_requires_attested entry = Ok attested /\ entry_min_coverage entry = Ok (FFin coverage) /\
    gate_policy_of entry policy = Ok gate /\
    gt_require_attested_evals gate = attested /\ gt_min_control_coverage gate = FFin coverage /\
    gt_max_open_material_changes gate = 0%Z /\ (0 <= coverage <= 100)%Q) as Hgate.
  { intros entry policy (a & c & Ha & Hc & Hcov & Hm). exists a, c. unfold gate_policy_of.
    rewrite Ha, Hc. cbn [rbind]. apply rbind_Ok in Hm as (n & -> & Hn). cbn [rbind]. rewrite Hn.
    cbn [rbind]. by eexists. }
  destruct (environment_entry_view e1 env HF1) as (x1 & -> & [-> |(Hn & Hv)]); cbn [rbind is_none].
  2: { rewrite Hn. cbn [rbind]. by apply Hgate. }
  destruct (environment_entry_view e2 env HF2) as (x2 & -> & [-> |(Hn & Hv)]); cbn [rbind is_none].
  2: { rewrite Hn. cbn [rbind]. by apply Hgate. }
  cbn. by eexists _, _, _.
Qed.

Lemma resolve_vendor_agrees d t : policies_ok d ->
  exists entry sp roles days,
    _vendor_entry (gp_body (active_policy d t)) (gp_body (_platform_default d)) = Ok entry /\
    stage_view entry roles days /\ roles_ok roles /\ days_ok days /\
    resolve_vendor_policy d t = Ok sp /\ resolved_stages sp roles days.
Proof.
  intros Hok. destruct (in_force_valid d t Hok) as (g & Hb & Hd).
  destruct (vendor_entry_view g _ _ Hb Hd) as (entry & roles & days & Ht & Hv & Hr & Hdy & _).
  unfold resolve_vendor_policy. pose proof Ht as Ht'. unfold _vendor_entry in Ht'.
  pose proof Hb as (d1 & E1 & _). pose proof Hd as (d2 & E2 & _).
  destruct (entry_or_default_agrees d t (fun body => py_get body "vendors")
    (field d1 "vendors" PNone) (field d2 "vendors" PNone)) as (policy & -> & Hf).
  { by rewrite E1. } { by rewrite E2. }
  rewrite Hf in Ht'. cbn [rbind] in Ht' |- *. injection Ht' as <-.
  assert (forall x y : pyval, default DEFAULT_VENDORS
    (if is_none x then if is_none y then None else Some y else Some x) =
    let e := if is_none x then y else x in if is_none e then DEFAULT_VENDORS else e) as Hdef.
  { intros x y. destruct (is_none x) eqn:Ex; cbn zeta; [by destruct (is_none y)|]. by rewrite Ex. }
  rewrite Hdef in *. cbn zeta in *. destruct (stage_view_stages _ _ _ Hv Hr) as (l & Hl & Hlr).
  rewrite Hl. pose proof Hv as [_ Hdays]. rewrite Hdays. cbn [rbind].
  eexists _, _, roles, days. split; [exact Ht|]. split_and!; try done. by exists l.
Qed.

(** ** Drafting keeps the invariant *)

Lemma latest_version_bound d t p : p ∈ governance_policies d -> gp_tenant_id p = t ->
  (gp_version p <= latest_version d t)%Z.
Proof.
  intros Hp Ht. unfold latest_version.
  assert (p ∈ select (fun p => String.eqb (gp_tenant_id p) t) (governance_policies d)) as Hin.
  { apply elem_of_select. split; [|done]. by apply String.eqb_eq. }
  induction (select _ _) as [|x l IH]; [by apply elem_of_nil in Hin|].
  apply elem_of_cons in Hin as [<-|Hin]; simpl; [lia|]. specialize (IH Hin). lia.
Qed.

Lemma create_policy_draft_Ok now t body actor d row d' :
  create_policy_draft now t body actor d = Ok (row, d') ->
  t <> EmptyString /\ validate_policy_body body (role_grants d) = Ok [] /\
  row = mk_governance_policy t (latest_version d t + 1) "draft" body (body_hash body) actor now None /\
  d' = set_governance_policies (governance_policies d ++ [row]) d.
Proof.
  unfold create_policy_draft. intros Hrun.
  apply rbind_Ok in Hrun as ([] & He%throw_if_Ok & Hrun). apply rbind_Ok in Hrun as (errs & Hv & Hrun).
  apply rbind_Ok in Hrun as ([] & Hn%throw_if_Ok & [= <- <-]).
  apply negb_false_iff, bool_decide_eq_true in Hn. subst errs. split_and!; try done. by intros ->.
Qed.

Lemma create_policy_draft_ok now t body actor d row d' :
  policies_ok d -> create_policy_draft now t body actor d = Ok (row, d') -> policies_ok d'.
Proof.
  intros Hok (Ht & Hv & Hrow & ->)%create_policy_draft_Ok.
  assert (gp_status row = "draft") as Hst by by subst.
  split; simpl; try (intros p [Hp| ->%list_elem_of_singleton]%elem_of_app).
  - apply keys_unique_app; [apply Hok|]. apply lookup_key_None.
    intros (p & Hk & Hp)%list_elem_of_fmap. subst row. unfold gp_key in Hk. simpl in Hk. injection Hk as Hkt Hkv.
    pose proof (latest_version_bound d t p Hp (eq_sym Hkt)). lia.
  - by apply (ok_status d).
  - rewrite Hst. by apply mem_true.
  - intros p q [Hp| ->%list_elem_of_singleton]%elem_of_app [Hq| ->%list_elem_of_singleton]%elem_of_app;
      [by apply (ok_active d)|congruence..].
  - by apply (ok_body d).
  - subst row. exists (role_grants d). by apply validate_policy_body_nil.
  - by apply (ok_hash d).
  - by subst row.
Qed.


(** ** Activation *)

(** what activation does to one stored version *)
Definition activated_row (now t : string) (v : Z) (previous : option governance_policy)
    (p : governance_policy) : governance_policy :=
  let p := match previous with
           | Some q => if has_key gp_key (t, gp_version q) p then gp_with_status "superseded" p else p
           | None => p
           end in
  if has_key gp_key (t, v) p
  then gp_with_activated_at (Some now) (gp_with_status "active" p) else p.

(** the checks a version passed when it was put in force *)
Record activation_checks (t : string) (actor : string) (d : db) (target : governance_policy) : Prop := {
  chk_status : gp_status target <> "active" /\ gp_status target <> "superseded";
  chk_valid : validate_policy_body (gp_body target) (role_grants d) = Ok [];
  chk_person : exists loosening,
    policy_loosening (gp_body (active_policy d (Some t))) (gp_body target) (gp_body (_platform_default d))
      = Ok loosening /\ (loosening = [] \/ gp_created_by target <> actor);
  chk_staffed : unstaffed_stage_changes d t (gp_body (active_policy d (Some t))) (gp_body target)
      (gp_body (_platform_default d)) = Ok []
}.

Lemma previous_body_active d t : t <> EmptyString ->
  from_option gp_body (gp_body (_platform_default d)) (select_active d t) = gp_body (active_policy d (Some t)).
Proof.
  intros Ht. unfold active_policy. simpl. destruct t as [|c t]; [done|]. simpl.
  by destruct (select_active d (String c t)).
Qed.

Lemma activate_policy_Ok now t v actor d row d' :
  activate_policy now t v actor d = Ok (row, d') ->
  exists target, load_policy_version d t v = Some target /\ t <> EmptyString /\
    ((gp_status target = "active" /\ row = target /\ d' = d) \/
     (activation_checks t actor d target /\
      governance_policies d' = map (activated_row now t v (select_active d t)) (governance_policies d) /\
      lookup_key gp_key (t, v) (governance_policies d') = Some row /\
      role_permissions d' = role_permissions d /\ role_assignments d' = role_assignments d /\
      platform_users d' = platform_users d)).
Proof.
  unfold activate_policy. intros Hrun.
  apply rbind_Ok in Hrun as ([] & Ht%throw_if_Ok & Hrun).
  assert (t <> EmptyString) as Htne by by intros ->.
  destruct (load_policy_version d t v) as [target|]; [|done]. exists target. split_and!; [done..|].
  destruct (String.eqb_spec (gp_status target) "active") as [Ha|Hna].
  { injection Hrun as <- <-. by left. }
  right. apply rbind_Ok in Hrun as ([] & Hsup%throw_if_Ok & Hrun). apply String.eqb_neq in Hsup.
  apply rbind_Ok in Hrun as (errs & Hv & Hrun).
  apply rbind_Ok in Hrun as ([] & Hn%throw_if_Ok & Hrun).
  apply negb_false_iff, bool_decide_eq_true in Hn. subst errs.
  rewrite previous_body_active in Hrun by done.
  apply rbind_Ok in Hrun as (loosening & Hl & Hrun).
  apply rbind_Ok in Hrun as ([] & Hp%throw_if_Ok & Hrun).
  apply rbind_Ok in Hrun as (unstaffed & Hu & Hrun).
  apply rbind_Ok in Hrun as ([] & Hun%throw_if_Ok & Hrun).
  apply negb_false_iff, bool_decide_eq_true in Hun. subst unstaffed.
  split.
  { split; [done..| |done]. exists loosening. split; [done|].
    apply andb_false_iff in Hp as [Hp|Hp]; [left|right].
    - by apply negb_false_iff, bool_decide_eq_true in Hp.
    - by apply String.eqb_neq. }
  set (d1 := put_in_force now t v _) in Hrun.
  assert (governance_policies d1 = map (activated_row now t v (select_active d t)) (governance_policies d)) as Hd1.
  { unfold d1, put_in_force, supersede, update_key, update, activated_row.
    destruct (select_active d t); cbn [governance_policies set_governance_policies]; [rewrite map_map|]; done. }
  assert (role_permissions d1 = role_permissions d /\ role_assignments d1 = role_assignments d /\
          platform_users d1 = platform_users d) as Hframe by (unfold d1; by destruct (select_active d t)).
  clearbody d1. destruct (load_policy_version d1 t v) as [activated|] eqn:Hact; [|done].
  injection Hrun as <- <-. by rewrite <-Hd1.
Qed.

Lemma activated_row_key now t v previous p : gp_key (activated_row now t v previous p) = gp_key p.
Proof.
  unfold activated_row. destruct previous as [q|].
  - destruct (has_key gp_key (t, gp_version q) p); by destruct (has_key gp_key (t, v) _).
  - by destruct (has_key gp_key (t, v) _).
Qed.

Lemma activated_row_fields now t v previous p :
  let p' := activated_row now t v previous p in
  gp_body p' = gp_body p /\ gp_body_hash p' = gp_body_hash p /\
  gp_created_by p' = gp_created_by p /\ gp_created_at p' = gp_created_at p.
Proof.
  unfold activated_row. cbn zeta. destruct previous as [q|].
  - destruct (has_key gp_key (t, gp_version q) p); by destruct (has_key gp_key (t, v) _).
  - by destruct (has_key gp_key (t, v) _).
Qed.

(** the status of a version after an activation *)
Lemma activated_row_status now t v previous p :
  gp_status (activated_row now t v previous p) =
  if has_key gp_key (t, v) p then "active"
  else match previous with
       | Some q => if has_key gp_key (t, gp_version q) p then "superseded" else gp_status p
       | None => gp_status p
       end.
Proof.
  unfold activated_row, has_key. destruct previous as [q|]; [|by case_bool_decide].
  destruct (bool_decide (gp_key p = (t, gp_version q))); simpl.
  - assert (gp_key (gp_with_status "superseded" p) = gp_key p) as -> by done. by case_bool_decide.
  - by case_bool_decide.
Qed.

(** rows of other tenants are not touched *)
Lemma activated_row_other now t v previous p :
  gp_tenant_id p <> t -> activated_row now t v previous p = p.
Proof.
  intros Ht. unfold activated_row, has_key.
  assert (forall w, gp_key p <> (t, w)) as Hk by (intros w [=]; done).
  destruct previous as [q|]; by rewrite ?(bool_decide_eq_false_2 _ (Hk _)).
Qed.

Lemma activate_policy_ok now t v actor d row d' :
  policies_ok d -> activate_policy now t v actor d = Ok (row, d') -> policies_ok d'.
Proof.
  intros Hok (target & Hload & Ht & [(_ & _ & ->)|(Hchk & Hps & _)])%activate_policy_Ok; [done|].
  set (f := activated_row now t v (select_active d t)) in *.
  assert (forall p', p' ∈ governance_policies d' -> exists p, p ∈ governance_policies d /\ p' = f p) as Hin.
  { intros p'. rewrite Hps. intros (p & -> & Hp)%list_elem_of_fmap. by exists p. }
  assert (forall p, gp_status (f p) = if has_key gp_key (t, v) p then "active" else
     match select_active d t with
     | Some q => if has_key gp_key (t, gp_version q) p then "superseded" else gp_status p
     | None => gp_status p end) as Hst by (intros; apply activated_row_status).
  assert (forall p, p ∈ governance_policies d -> gp_status (f p) = "active" ->
    gp_key p = (t, v) \/ (gp_status p = "active" /\ gp_tenant_id p <> t)) as Hactive.
  { intros p Hp. rewrite Hst. destruct (has_key gp_key (t, v) p) eqn:Ek; [left; by apply has_key_elim|].
    destruct (select_active d t) as [q|] eqn:Eq.
    - destruct (has_key gp_key (t, gp_version q) p) eqn:Ekq; [done|]. intros Ha. right. split; [done|].
      intros Htp. apply has_key_elim_ne in Ekq. apply Ekq.
      pose proof (select_active_unique d p Hok Hp Ha) as Hs. rewrite Htp, Eq in Hs. injection Hs as ->.
      unfold gp_key. by rewrite Htp.
    - intros Ha. right. split; [done|]. intros Htp. apply select1_None with (r := p) in Eq; [|done].
      by rewrite Htp, Ha, String.eqb_refl in Eq. }
  split.
  - unfold keys_unique. rewrite Hps, map_map.
    rewrite (map_ext _ gp_key) by (intros; apply activated_row_key). apply Hok.
  - intros p' (p & Hp & ->)%Hin. rewrite Hst.
    destruct (has_key gp_key (t, v) p); [by apply mem_true|].
    destruct (select_active d t) as [q|]; [|by apply (ok_status d)].
    destruct (has_key gp_key (t, gp_version q) p); [by apply mem_true|by apply (ok_status d)].
  - intros p' q' (p & Hp & ->)%Hin (q & Hq & ->)%Hin Hpa Hqa Htt.
    assert (forall r, gp_tenant_id (f r) = gp_tenant_id r) as Hten.
    { intros r. pose proof (activated_row_key now t v (select_active d t) r) as Hk. by injection Hk. }
    rewrite !Hten in Htt.
    destruct (Hactive p Hp Hpa) as [Hkp|[Hap Hnp]], (Hactive q Hq Hqa) as [Hkq|[Haq Hnq]].
    + f_equal. apply (keys_unique_eq gp_key (governance_policies d)); [apply Hok|done..|congruence].
    + injection Hkp as Hkp _. congruence.
    + injection Hkq as Hkq _. congruence.
    + f_equal. by apply (ok_active d).
  - intros p' (p & Hp & ->)%Hin. unfold f. destruct (activated_row_fields now t v (select_active d t) p) as (-> & _).
    by apply (ok_body d).
  - intros p' (p & Hp & ->)%Hin. unfold f.
    destruct (activated_row_fields now t v (select_active d t) p) as (-> & -> & _). by apply (ok_hash d).
Qed.

End Store.
