(* ===== verification/PolicyGuarantees.v ===== *)
(** * Policy guarantees

    The theorems an organization relies on: its policy history is append-only
    and has one version in force, the resolvers always answer within the
    platform's limits, an author cannot loosen the policy alone, and a version
    in force can be decided by the people the organization has. *)

From stdpp Require Import base list strings option pretty sets gmap relations.
From Stdlib Require Import ZArith QArith Lia.
From S2P Require Import Prelude Py Json Sql Schema RiskTier Staffing.
From S2P Require Import PolicyDoc PolicyValid PolicyRead PolicyLoosening Rbac PolicyStore PolicyInForce.

Open Scope nat_scope.

Section Guarantees.
Context `{PyHost} `{Digest}.

(** ** History *)

(** one event on the database: a draft, an activation, or anything that leaves
    the policy table alone (no other statement of the program writes it) *)
Inductive policy_step : db -> db -> Prop :=
| step_draft now t body actor d row d' :
    create_policy_draft now t body actor d = Ok (row, d') -> policy_step d d'
| step_activate now t v actor d row d' :
    activate_policy now t v actor d = Ok (row, d') -> policy_step d d'
| step_other d d' : governance_policies d' = governance_policies d -> policy_step d d'.

Lemma policies_ok_frame d d' :
  governance_policies d' = governance_policies d -> policies_ok d -> policies_ok d'.
Proof. intros Heq [H1 H2 H3 H4 H5]. by split; rewrite Heq. Qed.

Lemma policy_step_ok d d' : policy_step d d' -> policies_ok d -> policies_ok d'.
Proof.
  intros [now t body actor d0 row d1 Hs|now t v actor d0 row d1 Hs|d0 d1 Hs] Hok.
  - by eapply create_policy_draft_ok.
  - by eapply activate_policy_ok.
  - by eapply policies_ok_frame.
Qed.

(** draft, then in force, then superseded *)
Definition status_rank (s : string) : nat :=
  if String.eqb s "draft" then 0 else if String.eqb s "active" then 1 else 2.

Definition version_kept (p p' : governance_policy) : Prop :=
  gp_key p' = gp_key p /\ gp_body p' = gp_body p /\ gp_body_hash p' = gp_body_hash p /\
  gp_created_by p' = gp_created_by p /\ gp_created_at p' = gp_created_at p /\
  status_rank (gp_status p) <= status_rank (gp_status p').

Lemma version_kept_refl p : version_kept p p.
Proof. by split_and!. Qed.
Lemma version_kept_trans p q r : version_kept p q -> version_kept q r -> version_kept p r.
Proof. intros (?&?&?&?&?&?) (?&?&?&?&?&?). split_and!; [congruence..|lia]. Qed.

Lemma policy_step_keeps d d' p : policies_ok d -> policy_step d d' ->
  p ∈ governance_policies d -> exists p', p' ∈ governance_policies d' /\ version_kept p p'.
Proof.
  intros Hok Hstep. revert Hok.
  destruct Hstep as [now t body actor d0 row d1 Hs|now t v actor d0 row d1 Hs|d0 d1 Hs]; intros Hok Hp.
  - apply create_policy_draft_Ok in Hs as (_ & _ & _ & ->). exists p. split; [|apply version_kept_refl].
    apply elem_of_app. by left.
  - apply activate_policy_Ok in Hs as (target & Hload & Ht & [(_ & _ & ->)|(Hchk & Hps & _)]).
    { exists p. split; [done|apply version_kept_refl]. }
    exists (activated_row now t v (select_active d0 t) p). rewrite Hps. split; [by apply list_elem_of_fmap_2|].
    destruct (activated_row_fields now t v (select_active d0 t) p) as (Hb & Hh & Hc & Hca).
    split_and!; [apply activated_row_key|done..|]. rewrite activated_row_status.
    destruct (has_key gp_key (t, v) p) eqn:Ek.
    + apply has_key_elim in Ek. pose proof (lookup_key_unique gp_key (t, v) _ p (ok_keys _ Hok) Hp Ek) as Hl.
      unfold load_policy_version in Hload. rewrite Hload in Hl. injection Hl as ->.
      destruct (chk_status _ _ _ _ Hchk) as [Hna Hns].
      pose proof (ok_status _ Hok p Hp) as Hst. unfold STATUSES in Hst.
      rewrite !elem_of_cons in Hst. destruct Hst as [->|[?|[?|Hnil]]]; [vm_compute; lia|done|done|].
      by apply elem_of_nil in Hnil.
    + destruct (select_active d0 t) as [q|]; [|done]. destruct (has_key gp_key (t, gp_version q) p); [|done].
      unfold status_rank at 2. simpl. unfold status_rank. repeat case_match; lia.
  - exists p. rewrite Hs. split; [done|apply version_kept_refl].
Qed.

(** C3. However drafts and activations interleave with the rest of the program,
    the stored versions keep their keys unique, at most one version of an
    organization is in force, every body was validated and matches its hash;
    and a version once written never changes its body, author or hash, and its
    status only moves from draft to active to superseded. *)
Theorem policy_history d d' :
  policies_ok d -> rtc policy_step d d' ->
  policies_ok d' /\
  forall p, p ∈ governance_policies d ->
  exists p', p' ∈ governance_policies d' /\ version_kept p p'.
Proof.
  intros Hok Hsteps. revert Hok. induction Hsteps as [d|d d1 d' Hstep _ IH]; intros Hok.
  - split; [done|]. intros p Hp. exists p. split; [done|apply version_kept_refl].
  - destruct (IH (policy_step_ok _ _ Hstep Hok)) as [Hok' Hkeep]. split; [done|].
    intros p Hp. destruct (policy_step_keeps _ _ _ Hok Hstep Hp) as (p1 & Hp1 & Hk1).
    destruct (Hkeep p1 Hp1) as (p' & Hp' & Hk'). exists p'. split; [done|]. by eapply version_kept_trans.
Qed.

(** ** Resolvers *)

(** For every organization, tier and environment, with any validated
    policies stored, the resolvers return a value and it is inside the
    platform's limits: between one and ten stages in a known mode, a
    recertification period between 30 and 3650 days or none, a gate that allows
    no open material change and asks for a coverage between 0 and 100.  A policy
    can only tighten a gate. *)
Theorem resolvers_total d t tier env :
  policies_ok d ->
  (exists sp roles days mode, resolve_tier_policy d t tier = Ok sp /\ resolved_stages sp roles days /\
     1 <= length roles <= MAX_STAGES_PER_SUBJECT /\ days_ok days /\
     sp_mode sp = PStr mode /\ mode ∈ _STAGE_MODES) /\
  (exists sp roles days, resolve_vendor_policy d t = Ok sp /\ resolved_stages sp roles days /\
     1 <= length roles <= MAX_STAGES_PER_SUBJECT /\ days_ok days) /\
  (exists gate coverage, resolve_gate_policy d t env = Ok gate /\
     gt_max_open_material_changes gate = 0%Z /\
     gt_min_control_coverage gate = FFin coverage /\ (0 <= coverage <= 100)%Q) /\
  (exists w s, resolve_evidence_policy d t = Ok (w, s, gp_tenant_id (active_policy d t), gp_version (active_policy d t)) /\
     (1 <= w <= COVERAGE_WINDOW_DAYS_CEILING)%Z /\ (1 <= s <= STALE_AFTER_DAYS_CEILING)%Z).
Proof.
  intros Hok. split_and!.
  - destruct (resolve_tier_agrees d t tier Hok) as (? & sp & roles & days & _ & _ & Hr & Hd & Hsp & Hrs & mode & Hm & ?).
    by exists sp, roles, days, mode.
  - destruct (resolve_vendor_agrees d t Hok) as (? & sp & roles & days & _ & _ & Hr & Hd & Hsp & Hrs).
    by exists sp, roles, days.
  - destruct (resolve_gate_agrees d t env Hok) as (? & c & gate & _ & _ & Hg & _ & Hc & Hm & Hq).
    by exists gate, c.
  - destruct (in_force_valid d t Hok) as (g & Hb & Hd).
    destruct (evidence_settings_view g _ _ Hb Hd) as (w & s & Hs & ? & ?).
    exists w, s. unfold resolve_evidence_policy. by rewrite Hs.
Qed.

(** ** An author does not loosen the policy alone *)

Definition days_kept (before after : option Z) : Prop :=
  forall b, before = Some b -> exists a, after = Some a /\ (a <= b)%Z.

(** two resolved stage policies, the second at least as strict *)
Definition stages_at_least (sp sp' : stage_policy) : Prop :=
  exists ro rn days days', resolved_stages sp ro days /\ resolved_stages sp' rn days' /\
    ro ⊆+ rn /\ days_kept days days'.

(** the resolvers answer for [d'] at least as strictly as for [d] *)
Record governed_at_least (t : option string) (d d' : db) : Prop := {
  gal_tier : forall tier, tier ∈ RISK_TIERS -> exists sp sp',
    resolve_tier_policy d t tier = Ok sp /\ resolve_tier_policy d' t tier = Ok sp' /\ stages_at_least sp sp';
  gal_vendor : exists sp sp',
    resolve_vendor_policy d t = Ok sp /\ resolve_vendor_policy d' t = Ok sp' /\ stages_at_least sp sp';
  gal_gate : forall env, exists g g',
    resolve_gate_policy d t env = Ok g /\ resolve_gate_policy d' t env = Ok g' /\
    (gt_require_attested_evals g = true -> gt_require_attested_evals g' = true) /\
    exists q r, gt_min_control_coverage g = FFin q /\ gt_min_control_coverage g' = FFin r /\ (q <= r)%Q;
  gal_fields : exists old new,
    resolve_intake_fields d t = Ok old /\ resolve_intake_fields d' t = Ok new /\ field_kept old new
}.

Lemma entry_kept_resolved e e' sp sp' ro rn days days' :
  stage_view e ro days -> stage_view e' rn days' ->
  resolved_stages sp ro days -> resolved_stages sp' rn days' ->
  entry_kept e e' -> stages_at_least sp sp'.
Proof.
  intros Hv Hv' Hr Hr' [(x & y & Hx & Hy & Hsub) Hk]. exists ro, rn, days, days'. split_and!; [done..| |].
  - rewrite (stage_roles_view _ _ _ Hv) in Hx. rewrite (stage_roles_view _ _ _ Hv') in Hy. congruence.
  - intros b ->. destruct Hv as [_ Hd], Hv' as [_ Hd'].
    destruct (Hk b Hd) as (a & Ha & Hle). rewrite Hd' in Ha. exists a. split; [|done].
    destruct days'; simpl in Ha; congruence.
Qed.

Lemma resolve_intake_fields_agrees d t : policies_ok d ->
  resolve_intake_fields d t = _intake_fields (gp_body (active_policy d t)) (gp_body (_platform_default d)).
Proof.
  intros Hok. unfold resolve_intake_fields, _intake_fields.
  destruct (in_force_valid d t Hok) as (g & (d1 & -> & _ & _ & H1 & _) & (d2 & -> & _ & _ & H2 & _)).
  assert (forall dd k, (forall v, assoc k dd = Some v -> valid_intake g v) ->
    get_or_empty (PDict dd) k = py_get_default (PDict dd) k (PDict [])) as Hget.
  { intros dd k Hv. apply get_or_empty_default. intros v (e & -> & _)%Hv. by exists e. }
  by rewrite (Hget d1), (Hget d2).
Qed.

Lemma strict_resolvers d d' t : policies_ok d -> policies_ok d' ->
  gp_body (_platform_default d') = gp_body (_platform_default d) ->
  at_least_as_strict (gp_body (active_policy d t)) (gp_body (active_policy d' t)) (gp_body (_platform_default d)) ->
  governed_at_least t d d'.
Proof.
  intros Hok Hok' Hdef [Ht Hv Hg _ Hf]. split.
  - intros tier Hin. destruct (Ht tier Hin) as (e & e' & He & He' & Hk).
    destruct (resolve_tier_agrees d t tier Hok) as (x & sp & ro & days & Hx & Hvx & _ & _ & Hsp & Hrs & _).
    destruct (resolve_tier_agrees d' t tier Hok') as (y & sp' & rn & days' & Hy & Hvy & _ & _ & Hsp' & Hrs' & _).
    rewrite Hdef in Hy. rewrite He in Hx. rewrite He' in Hy. injection Hx as <-. injection Hy as <-.
    exists sp, sp'. split_and!; [done..|]. exact (entry_kept_resolved _ _ _ _ _ _ _ _ Hvx Hvy Hrs Hrs' Hk).
  - destruct Hv as (e & e' & He & He' & Hk).
    destruct (resolve_vendor_agrees d t Hok) as (x & sp & ro & days & Hx & Hvx & _ & _ & Hsp & Hrs).
    destruct (resolve_vendor_agrees d' t Hok') as (y & sp' & rn & days' & Hy & Hvy & _ & _ & Hsp' & Hrs').
    rewrite Hdef in Hy. rewrite He in Hx. rewrite He' in Hy. injection Hx as <-. injection Hy as <-.
    exists sp, sp'. split_and!; [done..|]. exact (entry_kept_resolved _ _ _ _ _ _ _ _ Hvx Hvy Hrs Hrs' Hk).
  - intros env. destruct (Hg env) as [Ha (q & r & Hq & Hr & Hle)].
    destruct (resolve_gate_agrees d t env Hok) as (a & c & gate & Ea & Ec & Eg & Ega & Egc & _).
    destruct (resolve_gate_agrees d' t env Hok') as (a' & c' & gate' & Ea' & Ec' & Eg' & Ega' & Egc' & _).
    rewrite Hdef in Ea', Ec'. exists gate, gate'. split_and!; [done..| |].
    + rewrite Ega, Ega'. intros ->. specialize (Ha Ea). rewrite Ea' in Ha. by injection Ha.
    + exists q, r. split_and!; [congruence..|done].
  - rewrite !resolve_intake_fields_agrees, Hdef by done. done.
Qed.

(** a document is at least as strict as itself *)
Lemma at_least_as_strict_refl g body default_body :
  valid_policy g body -> valid_policy g default_body -> at_least_as_strict body body default_body.
Proof.
  intros Hb Hd.
  assert (forall e roles days, stage_view e roles days -> entry_kept e e) as Hrefl.
  { intros e roles days Hv. split.
    - exists roles, roles. by rewrite (stage_roles_view _ _ _ Hv).
    - intros b Hbf. by exists b. }
  split.
  - intros tier _. destruct (tier_entry_view g _ _ tier Hb Hd) as (e & r & dy & He & Hv & _).
    exists e, e. eauto.
  - destruct (vendor_entry_view g _ _ Hb Hd) as (e & r & dy & He & Hv & _). exists e, e. eauto.
  - intros env. split; [done|]. destruct (gate_entry_view g _ _ env Hb Hd) as (e & a & c & He & _ & Hc & _).
    exists c, c. unfold _min_coverage. rewrite He. cbn [rbind]. rewrite Hc. split_and!; [done..|apply Qle_refl].
  - destruct (evidence_settings_view g _ _ Hb Hd) as (w & s & Hs & _). exists w, s, w, s. split_and!; [done..|lia|lia].
  - destruct (intake_fields_view g _ _ Hb Hd) as (l & Hl & _). exists l, l. split_and!; [done..|].
    intros f key tiers Hf Hv. by exists f, tiers.
Qed.

(** an activation puts its version in force and leaves the default alone *)
Lemma activation_in_force now t v actor d row d' :
  policies_ok d -> activate_policy now t v actor d = Ok (row, d') ->
  active_policy d' (Some t) = row /\ _platform_default d' = _platform_default d /\ gp_status row = "active".
Proof.
  intros Hok Hact. pose proof (activate_policy_ok _ _ _ _ _ _ _ Hok Hact) as Hok'.
  apply activate_policy_Ok in Hact as (target & Hload & Ht & Hcases).
  assert (forall p d0, policies_ok d0 -> p ∈ governance_policies d0 -> gp_tenant_id p = t ->
    gp_status p = "active" -> active_policy d0 (Some t) = p) as Hin.
  { intros p d0 Hok0 Hp Htp Hs. unfold active_policy. simpl.
    assert (is_empty t = false) as -> by by destruct t.
    rewrite <-Htp, (select_active_unique d0 p) by done. done. }
  destruct Hcases as [(Ha & -> & ->)|(Hchk & Hps & Hrow & _)].
  - apply lookup_key_Some in Hload as [Hp [= Htp Hvp]]. split_and!; [by apply Hin|done|done].
  - apply lookup_key_Some in Hrow as [Hp Hk]. pose proof Hk as [= Htp Hvp].
    assert (gp_status row = "active") as Hs.
    { rewrite Hps in Hp. apply list_elem_of_fmap in Hp as (p & -> & Hp).
      rewrite activated_row_key in Hk. rewrite activated_row_status.
      by rewrite (proj2 (has_key_true gp_key (t, v) p) Hk). }
    split_and!; [by apply Hin| |done]. unfold _platform_default. f_equal.
    unfold select_active, select1. rewrite Hps. f_equal. clear Hps.
    induction (governance_policies d) as [|p l IHl]; [done|]. simpl. rewrite !select_cons, IHl.
    destruct (decide (gp_tenant_id p = t)) as [Hpt|Hne]; [|by rewrite activated_row_other].
    pose proof (activated_row_key now t v (select_active d t) p) as [= Htt _].
    rewrite Htt, Hpt. destruct t; [done|]. done.
Qed.

(** C1. When the person who wrote a version also puts it in force, the policy
    that governs the organization afterwards is at least as strict as before:
    no approval stage or role disappears from any tier or from vendor review,
    no recertification period grows or goes, no gate of any environment drops
    attested evaluations or coverage, no intake field is dropped or required
    for fewer tiers.  Loosening takes a second person. *)
Theorem author_never_loosens_alone now t v actor d row d' :
  policies_ok d -> activate_policy now t v actor d = Ok (row, d') -> gp_created_by row = actor ->
  governed_at_least (Some t) d d'.
Proof.
  intros Hok Hact Hauthor.
  pose proof (activate_policy_ok _ _ _ _ _ _ _ Hok Hact) as Hok'.
  destruct (activation_in_force _ _ _ _ _ _ _ Hok Hact) as (Hrow & Hdef & _).
  apply strict_resolvers; [done..|by rewrite Hdef|]. rewrite Hrow.
  destruct (in_force_valid d (Some t) Hok) as (g1 & Hb1 & Hd1).
  apply activate_policy_Ok in Hact as (target & Hload & Ht & [(Ha & -> & ->)|(Hchk & Hps & Hlk & _)]).
  { rewrite Hrow in *. by eapply at_least_as_strict_refl. }
  assert (gp_body row = gp_body target /\ gp_created_by row = gp_created_by target) as [Hbody Hby].
  { apply lookup_key_Some in Hlk as [Hin Hk]. rewrite Hps in Hin.
    apply list_elem_of_fmap in Hin as (p & -> & Hp). rewrite activated_row_key in Hk.
    pose proof (lookup_key_unique gp_key _ _ p (ok_keys _ Hok) Hp Hk) as Hl.
    unfold load_policy_version in Hload. rewrite Hload in Hl. injection Hl as ->.
    destruct (activated_row_fields now t v (select_active d t) p) as (-> & _ & -> & _). done. }
  destruct Hchk as [_ Hvalid (loosening & Hl & Hp) _]. rewrite Hbody.
  apply validate_policy_body_nil in Hvalid.
  set (g := grants_join g1 (role_grants d)).
  destruct (policy_loosening_spec g (gp_body (active_policy d (Some t))) (gp_body target)
    (gp_body (_platform_default d))) as (rs & Hrs & Hiff).
  - eapply valid_policy_mono; [apply grants_join_l|done].
  - eapply valid_policy_mono; [apply grants_join_r|done].
  - eapply valid_policy_mono; [apply grants_join_l|done].
  - rewrite Hl in Hrs. injection Hrs as <-. apply Hiff. destruct Hp as [->|Hp]; [done|congruence].
Qed.

(** ** A new install *)

Lemma seeded_policies_ok now d :
  governance_policies d = [] -> policies_ok (seed_default_policy now d).
Proof.
  intros He. unfold seed_default_policy, insert_or_ignore. rewrite He. simpl. split; simpl.
  - apply NoDup_singleton.
  - intros p ->%list_elem_of_singleton. by apply mem_true.
  - by intros p q ->%list_elem_of_singleton ->%list_elem_of_singleton.
  - intros p ->%list_elem_of_singleton. apply default_body_well_formed.
  - by intros p ->%list_elem_of_singleton.
Qed.

End Guarantees.

(** ** An organization tightens its policy *)

Module Demo.
#[export] Instance host : PyHost :=
  {| repr _ := "?"; str_int _ := Raise TypeError; str_float _ := Raise TypeError |}.
#[export] Instance digest : Digest := fun s => s.

(** two reviewers decide a high-tier use case, where the default asks for one *)
Definition two_reviewers : pyval := PDict [
  ("schema", PStr POLICY_SCHEMA);
  ("intake", PDict [("tiers", PDict [("high", PDict [("stages", PList
     [PDict [("role", PStr "governance_reviewer")]; PDict [("role", PStr "governance_reviewer")]])])])])].

Definition staffed_org : db :=
  set_role_assignments
    [Rbac.Demo.assign "a1" "ann" "org_admin"; Rbac.Demo.assign "a2" "bob" "governance_reviewer";
     Rbac.Demo.assign "a3" "cyd" "governance_reviewer"] Rbac.Demo.org.

Definition installed : db := seed_default_policy "t0" staffed_org.
Definition drafted : db :=
  match create_policy_draft "t1" "acme" two_reviewers "ann" installed with
  | Ok (_, d) => d | Raise _ => installed end.
Definition activated : db :=
  match activate_policy "t2" "acme" 1 "ann" drafted with
  | Ok (_, d) => d | Raise _ => drafted end.

Lemma drafted_ok : policies_ok drafted.
Proof.
  apply (create_policy_draft_ok "t1" "acme" two_reviewers "ann" installed
    (mk_governance_policy "acme" 1 "draft" two_reviewers (body_hash two_reviewers) "ann" "t1" None)).
  - by apply seeded_policies_ok.
  - vm_compute. reflexivity.
Qed.

Lemma activates : exists row,
  activate_policy "t2" "acme" 1 "ann" drafted = Ok (row, activated) /\ gp_created_by row = "ann".
Proof. eexists. split; [vm_compute; reflexivity|reflexivity]. Qed.
End Demo.
Import Demo.

Lemma policy_history_witness :
  policies_ok Demo.drafted /\ rtc policy_step Demo.drafted Demo.activated /\ policies_ok Demo.activated.
Proof.
  assert (rtc policy_step Demo.drafted Demo.activated) as Hs.
  { destruct Demo.activates as (row & Hact & _). apply rtc_once. by eapply step_activate. }
  split; [apply Demo.drafted_ok|]. split; [exact Hs|].
  exact (proj1 (policy_history Demo.drafted Demo.activated Demo.drafted_ok Hs)).
Defined.

Lemma resolvers_total_witness :
  policies_ok Demo.drafted /\
  exists sp roles days mode, resolve_tier_policy Demo.drafted (Some "acme") "high" = Ok sp /\
    resolved_stages sp roles days /\ 1 <= length roles <= MAX_STAGES_PER_SUBJECT /\ days_ok days /\
    sp_mode sp = PStr mode /\ mode ∈ _STAGE_MODES.
Proof.
  split; [apply Demo.drafted_ok|].
  exact (proj1 (resolvers_total Demo.drafted (Some "acme") "high" "production" Demo.drafted_ok)).
Defined.

Lemma author_never_loosens_alone_witness :
  policies_ok Demo.drafted /\ governed_at_least (Some "acme") Demo.drafted Demo.activated.
Proof.
  split; [apply Demo.drafted_ok|]. destruct Demo.activates as (row & Hact & Hby).
  exact (author_never_loosens_alone "t2" "acme" 1 "ann" Demo.drafted row Demo.activated
    Demo.drafted_ok Hact Hby).
Defined.

(** ** What the recorded difference leaves out *)

(** attested evaluations required everywhere; and the same with an empty entry
    that exempts one environment *)
Definition attested_everywhere : pyval := PDict [
  ("schema", PStr POLICY_SCHEMA);
  ("gates", PDict [("environments", PDict [("*", PDict [("require_attested_evals", PBool true)])])])].
Definition attested_except_production : pyval := PDict [
  ("schema", PStr POLICY_SCHEMA);
  ("gates", PDict [("environments", PDict [("*", PDict [("require_attested_evals", PBool true)]);
                                           ("production", PDict [])])])].

(** The difference recorded with an activation can read "no changes" for a
    change of the policy: an added empty environment entry, which exempts that
    environment from the wildcard's requirements, leaves no path in the
    flattened documents.  The loosening check does report it. *)
Theorem diff_misses_empty_entry :
  policy_diff_summary attested_everywhere attested_except_production = ["no changes"] /\
  policy_loosening attested_everywhere attested_except_production DEFAULT_POLICY_BODY =
    Ok ["gates.environments.production: attested evals are no longer required"].
Proof. by vm_compute. Qed.
