(* ===== verification/PolicyStaffing.v ===== *)
(** * A policy in force can be decided

    The people [_eligible_deciders] counts for a stage are exactly the active
    people who pass the stage-role check at decision time in some scope of the
    organization, so an activated version's changed stages can each be decided,
    by different people. *)

From stdpp Require Import base list strings option pretty sets gmap.
From Stdlib Require Import ZArith Lia.
From S2P Require Import Prelude Py Json Sql Schema RiskTier Staffing.
From S2P Require Import PolicyDoc PolicyValid PolicyRead PolicyLoosening Rbac PolicyStore PolicyInForce PolicyGuarantees.

Open Scope nat_scope.

(** ** Eligible deciders *)

Lemma role_grants_spec d role p : p ∈ default ∅ (role_grants d !! role) <-> granted d role p.
Proof.
  unfold role_grants, _decision_capable_roles, granted. rewrite elem_of_group_sets. split.
  - intros ([r q] & ([r' q'] & Hk & Hin)%list_elem_of_fmap & <- & <-). injection Hk as -> ->. done.
  - intros Hin. exists (role, p). split; [|done].
    by apply (list_elem_of_fmap_2 rp_key _ (mk_role_permission role p)).
Qed.

Lemma role_grants_is_Some d role : is_Some (role_grants d !! role) <-> exists p, granted d role p.
Proof.
  unfold role_grants, _decision_capable_roles, granted. rewrite group_sets_is_Some. split.
  - intros ([r q] & ([r' q'] & Hk & Hin)%list_elem_of_fmap & <-). injection Hk as -> ->. by exists q'.
  - intros (p & Hin). exists (role, p). split; [|done].
    by apply (list_elem_of_fmap_2 rp_key _ (mk_role_permission role p)).
Qed.

(** [person] can decide a stage of [role] somewhere in the organization *)
Definition can_decide_stage (d : db) (tenant role person : string) : Prop :=
  exists actor project environment, user_ref actor = person /\ active_user d person /\
    actor_satisfies_stage_role d actor role
      (mk_target (Some tenant) project environment (Some "approval_stage") false) = true.

Lemma elem_of_held_roles d tenant person role :
  keys_unique pu_user_ref (platform_users d) ->
  role ∈ default ∅ (held_roles d tenant !! person) <->
  active_user d person /\
  exists a, in_force d person a /\ ra_tenant_id a = Some tenant /\ ra_role a = role.
Proof.
  intros Hpk. unfold held_roles. rewrite elem_of_group_sets.
  assert (forall ref, existsb (fun u => String.eqb (pu_user_ref u) ref && String.eqb (pu_status u) "active")
    (platform_users d) = true <-> active_user d ref) as Hact.
  { intros ref. rewrite existsb_exists. unfold active_user, load_platform_user. split.
    - intros (u & Hu & [Hr%String.eqb_eq Hs%String.eqb_eq]%andb_true_iff).
      exists u. split; [|done]. rewrite <-list_elem_of_In in Hu. by apply lookup_key_unique.
    - intros (u & [Hu Hr]%lookup_key_Some & Hs). exists u. rewrite <-list_elem_of_In.
      by rewrite Hr, Hs, !String.eqb_refl. }
  unfold in_force. split.
  - intros (a & [Hp Hin]%elem_of_select & <- & <-).
    rewrite !andb_true_iff, String.eqb_eq in Hp. destruct Hp as [[Ht Hs] Hu].
    split; [by apply Hact|]. exists a. split_and!; try done.
    destruct (ra_tenant_id a); simpl in Ht; [|done]. f_equal. by apply String.eqb_eq.
  - intros (Hu & a & (Hin & Hr & Hs) & Ht & Hro). exists a. split_and!; [|done..].
    apply elem_of_select. split; [|done]. rewrite Ht, Hs, Hr. simpl. rewrite !String.eqb_refl. by apply Hact.
Qed.

Lemma held_roles_is_Some d tenant person :
  is_Some (held_roles d tenant !! person) <-> exists role, role ∈ default ∅ (held_roles d tenant !! person).
Proof.
  unfold held_roles. rewrite group_sets_is_Some. setoid_rewrite elem_of_group_sets. naive_solver.
Qed.

(** the eligible people of a stage role *)
Lemma elem_of_eligible_deciders d tenant role person :
  keys_unique pu_user_ref (platform_users d) ->
  person ∈ default ∅ (_eligible_deciders d tenant !! role) <-> can_decide_stage d tenant role person.
Proof.
  intros Hpk. unfold _eligible_deciders. rewrite map_lookup_imap.
  transitivity ((exists p, granted d role p) /\ active_user d person /\
    exists a, in_force d person a /\ ra_tenant_id a = Some tenant /\
      (ra_role a = role \/ forall p, granted d role p -> granted d (ra_role a) p)).
  - pose proof (role_grants_is_Some d role) as Hsome. pose proof (role_grants_spec d role) as Hspec.
    destruct (role_grants d !! role) as [perms|] eqn:Hg; simpl in *.
    2: { split; [by intros ?%elem_of_empty|]. intros (Hp & _). apply Hsome in Hp as [? [=]]. }
    rewrite elem_of_dom.
    assert (forall roles, carries_authority (role_grants d) role perms roles = true <->
      exists r, r ∈ roles /\ (r = role \/ forall p, granted d role p -> granted d r p)) as Hc.
    { intros roles. unfold carries_authority. rewrite orb_true_iff, bool_decide_eq_true, existsb_exists.
      setoid_rewrite bool_decide_eq_true. setoid_rewrite <-list_elem_of_In. setoid_rewrite elem_of_elements.
      setoid_rewrite elem_of_subseteq. setoid_rewrite role_grants_spec. setoid_rewrite Hspec. naive_solver. }
    split.
    + intros (roles & (Hh & Hca)%map_lookup_filter_Some). simpl in Hca. apply Hc in Hca as (r & Hr & Hrr).
      split; [by apply Hsome|]. assert (r ∈ default ∅ (held_roles d tenant !! person)) as Hin by by rewrite Hh.
      apply elem_of_held_roles in Hin as (Ha & a & Hf & Ht & <-); [|done]. split; [done|]. by exists a.
    + intros (_ & Ha & a & Hf & Ht & Hrr).
      assert (ra_role a ∈ default ∅ (held_roles d tenant !! person)) as Hin
        by (apply elem_of_held_roles; [done|]; split; [done|]; by exists a).
      assert (is_Some (held_roles d tenant !! person)) as [roles Hh] by (apply held_roles_is_Some; eauto).
      rewrite Hh in Hin. exists roles. apply map_lookup_filter_Some. split; [done|]. simpl. apply Hc.
      by exists (ra_role a).
  - unfold can_decide_stage. setoid_rewrite stage_role_spec. split.
    + intros (Hp & Ha & a & Hf & Ht & Hr).
      exists (mk_actor person None None None None), (ra_project a), (ra_environment a).
      split_and!; try done. exists a. split; [done|]. split; [|done]. split_and!; simpl; auto.
    + intros (actor & pr & en & <- & Ha & Hp & a & Hf & [Ht _] & Hr). split_and!; [done..|]. by exists a.
Qed.

Section Staffed.
Context `{PyHost} `{Digest}.

(** a stage list every stage of which a different person of the organization
    can decide *)
Definition decidable_stages (d : db) (tenant : string) (roles : list string) : Prop :=
  exists people, NoDup people /\ Forall2 (can_decide_stage d tenant) roles people.

Lemma can_staff_decidable d tenant roles :
  keys_unique pu_user_ref (platform_users d) ->
  can_staff roles (_eligible_deciders d tenant) = Some true -> decidable_stages d tenant roles.
Proof.
  intros Hpk Hs. destruct (place_all_correct roles (_eligible_deciders d tenant) (length roles) 0 ∅)
    as (b & Hb & Hiff).
  - done.
  - split; intros *; by rewrite lookup_empty.
  - intros s. split; [intros [p Hp]; by rewrite lookup_empty in Hp|lia].
  - unfold can_staff in Hs. rewrite Hb in Hs. injection Hs as ->.
    destruct (proj1 Hiff eq_refl) as (people & Hnd & HF). exists people. split; [done|].
    eapply Forall2_impl; [exact HF|]. intros role person. by apply elem_of_eligible_deciders.
Qed.

(** an accepted section is unchanged or decidable *)
Lemma unstaffed_reason_nil d tenant before section :
  keys_unique pu_user_ref (platform_users d) ->
  unstaffed_reason before (_eligible_deciders d tenant) section = Ok [] ->
  assoc (fst section) before = Some (snd section) \/ decidable_stages d tenant (snd section).
Proof.
  intros Hpk. unfold unstaffed_reason. destruct section as [name roles]. simpl.
  case_bool_decide as Hb; [by left|]. destruct (can_staff roles _) as [[]|] eqn:Hs; try done.
  intros _. right. by apply can_staff_decidable.
Qed.

(** the stage roles of every section, read from valid documents *)
Lemma stage_sections_Ok g body default_body :
  valid_policy g body -> valid_policy g default_body ->
  exists roles vendor_roles, _stage_sections body default_body =
    Ok (map (fun tier => ("intake.tiers." +:+ tier, roles tier)) RISK_TIERS ++ [("vendors", vendor_roles)]) /\
    (forall tier, exists entry days, _tier_entry body default_body tier = Ok entry /\
       stage_view entry (roles tier) days) /\
    (exists entry days, _vendor_entry body default_body = Ok entry /\ stage_view entry vendor_roles days).
Proof.
  intros Hb Hd.
  assert (forall tier, exists roles entry days, _tier_entry body default_body tier = Ok entry /\
    stage_view entry roles days) as Htier.
  { intros tier. destruct (tier_entry_view g _ _ tier Hb Hd) as (e & r & dy & He & Hv & _). by exists r, e, dy. }
  set (roles tier := match _tier_entry body default_body tier with
                     | Ok e => match _stage_roles e with Ok r => r | Raise _ => [] end
                     | Raise _ => [] end).
  assert (forall tier, exists entry days, _tier_entry body default_body tier = Ok entry /\
    stage_view entry (roles tier) days) as Hroles.
  { intros tier. destruct (Htier tier) as (r & e & dy & He & Hv). exists e, dy. split; [done|].
    unfold roles. rewrite He. by rewrite (stage_roles_view _ _ _ Hv). }
  destruct (vendor_entry_view g _ _ Hb Hd) as (ve & vr & vdy & Hve & Hvv & _).
  exists roles, vr. split_and!; [|done|by exists ve, vdy].
  unfold _stage_sections.
  assert (forall l, rmap (fun tier => let! entry := _tier_entry body default_body tier in
      let! rs := _stage_roles entry in Ok ("intake.tiers." +:+ tier, rs)) l =
    Ok (map (fun tier => ("intake.tiers." +:+ tier, roles tier)) l)) as Hmap.
  { induction l as [|tier l IH]; [done|]. cbn [rmap map].
    destruct (Hroles tier) as (e & dy & -> & Hv). cbn [rbind].
    rewrite (stage_roles_view _ _ _ Hv). cbn [rbind]. by rewrite IH. }
  rewrite Hmap, Hve. cbn [rbind]. by rewrite (stage_roles_view _ _ _ Hvv).
Qed.

Lemma assoc_tier_sections (roles : string -> list string) tier rest :
  tier ∈ RISK_TIERS ->
  assoc ("intake.tiers." +:+ tier)
    (map (fun t => ("intake.tiers." +:+ t, roles t)) RISK_TIERS ++ rest) = Some (roles tier).
Proof.
  intros Ht. unfold RISK_TIERS in Ht. rewrite !elem_of_cons in Ht.
  destruct Ht as [->|[->|[->|Hn]]]; [done..|by apply elem_of_nil in Hn].
Qed.

Lemma unstaffed_nil d tenant old new default_body g :
  keys_unique pu_user_ref (platform_users d) ->
  valid_policy g old -> valid_policy g new -> valid_policy g default_body ->
  unstaffed_stage_changes d tenant old new default_body = Ok [] ->
  (forall tier eo en ro rn do dn, tier ∈ RISK_TIERS ->
     _tier_entry old default_body tier = Ok eo -> stage_view eo ro do ->
     _tier_entry new default_body tier = Ok en -> stage_view en rn dn ->
     ro = rn \/ decidable_stages d tenant rn) /\
  (forall eo en ro rn do dn,
     _vendor_entry old default_body = Ok eo -> stage_view eo ro do ->
     _vendor_entry new default_body = Ok en -> stage_view en rn dn ->
     ro = rn \/ decidable_stages d tenant rn).
Proof.
  intros Hpk Ho Hn Hd. unfold unstaffed_stage_changes.
  destruct (stage_sections_Ok g _ _ Ho Hd) as (ro & vo & -> & Hto & Hvo).
  destruct (stage_sections_Ok g _ _ Hn Hd) as (rn & vn & -> & Htn & Hvn). cbn [rbind].
  intros (rs & Hrs & [= Hc])%rbind_Ok.
  assert (forall s, s ∈ map (fun t => ("intake.tiers." +:+ t, rn t)) RISK_TIERS ++ [("vendors", vn)] ->
    assoc (fst s) (map (fun t => ("intake.tiers." +:+ t, ro t)) RISK_TIERS ++ [("vendors", vo)]) = Some (snd s)
    \/ decidable_stages d tenant (snd s)) as Hall.
  { intros s Hs. apply unstaffed_reason_nil; [done|].
    apply rmap_Ok in Hrs. apply concat_nil_iff in Hc. rewrite Forall_forall in Hc.
    apply list_elem_of_lookup in Hs as (i & Hi).
    destruct (Forall2_lookup_l _ _ _ _ _ Hrs Hi) as (y & Hy & ->).
    f_equal. apply Hc. by eapply list_elem_of_lookup_2. }
  assert (forall e r dd r' dd', stage_view e r dd -> stage_view e r' dd' -> r = r') as Hinj.
  { intros e r dd r' dd' H1%stage_roles_view H2%stage_roles_view. congruence. }
  split.
  - intros tier eo en r r' dd dn Ht Heo Hvieo Hen Hvien.
    destruct (Hto tier) as (eo' & ? & Heo' & Hvo'). destruct (Htn tier) as (en' & ? & Hen' & Hvn').
    rewrite Heo in Heo'. rewrite Hen in Hen'. injection Heo' as <-. injection Hen' as <-.
    rewrite (Hinj _ _ _ _ _ Hvieo Hvo'), (Hinj _ _ _ _ _ Hvien Hvn').
    destruct (Hall ("intake.tiers." +:+ tier, rn tier)) as [Ha|Ha]; [|cbn [fst snd] in Ha|by right].
    + apply elem_of_app. left. by apply (list_elem_of_fmap_2 (fun t => ("intake.tiers." +:+ t, rn t))).
    + left. rewrite assoc_tier_sections in Ha by done. by injection Ha.
  - intros eo en r r' dd dn Heo Hvieo Hen Hvien.
    destruct Hvo as (eo' & ? & Heo' & Hvo'). destruct Hvn as (en' & ? & Hen' & Hvn').
    rewrite Heo in Heo'. rewrite Hen in Hen'. injection Heo' as <-. injection Hen' as <-.
    rewrite (Hinj _ _ _ _ _ Hvieo Hvo'), (Hinj _ _ _ _ _ Hvien Hvn').
    destruct (Hall ("vendors", vn)) as [Ha|Ha]; [|left; by injection Ha|by right].
    apply elem_of_app. right. by left.
Qed.

(** the target of an activation, under one role table with the policies in force *)
Lemma activation_documents now t v actor d row d' :
  policies_ok d -> activate_policy now t v actor d = Ok (row, d') ->
  d' = d \/ exists g,
    valid_policy g (gp_body (active_policy d (Some t))) /\ valid_policy g (gp_body row) /\
    valid_policy g (gp_body (_platform_default d)) /\
    unstaffed_stage_changes d t (gp_body (active_policy d (Some t))) (gp_body row)
      (gp_body (_platform_default d)) = Ok [].
Proof.
  intros Hok (target & Hload & Ht & [(Ha & -> & ->)|(Hchk & Hps & Hlk & _)])%activate_policy_Ok; [by left|].
  right. destruct (in_force_valid d (Some t) Hok) as (g1 & Hb1 & Hd1).
  assert (gp_body row = gp_body target) as ->.
  { apply lookup_key_Some in Hlk as [Hin Hk]. rewrite Hps in Hin.
    apply list_elem_of_fmap in Hin as (p & -> & Hp). rewrite activated_row_key in Hk.
    pose proof (lookup_key_unique gp_key _ _ p (ok_keys _ Hok) Hp Hk) as Hl.
    unfold load_policy_version in Hload. rewrite Hload in Hl. injection Hl as ->.
    by destruct (activated_row_fields now t v (select_active d t) p) as (-> & _). }
  destruct Hchk as [_ Hvalid _ Hst]. apply validate_policy_body_nil in Hvalid.
  exists (grants_join g1 (role_grants d)). split_and!; [..|done].
  - eapply valid_policy_mono; [apply grants_join_l|done].
  - eapply valid_policy_mono; [apply grants_join_r|done].
  - eapply valid_policy_mono; [apply grants_join_l|done].
Qed.

(** C2. After an activation, every stage list of the policy in force that the
    activation changed can be decided by the organization: for each tier and
    for vendor review there are different active people, one per stage, each of
    whom passes the stage's role check in some scope of the organization. *)
Theorem activated_stages_decidable now t v actor d row d' :
  policies_ok d -> keys_unique pu_user_ref (platform_users d) ->
  activate_policy now t v actor d = Ok (row, d') ->
  (forall tier, tier ∈ RISK_TIERS -> exists sp sp' ro rn days days',
     resolve_tier_policy d (Some t) tier = Ok sp /\ resolved_stages sp ro days /\
     resolve_tier_policy d' (Some t) tier = Ok sp' /\ resolved_stages sp' rn days' /\
     (ro = rn \/ decidable_stages d t rn)) /\
  (exists sp sp' ro rn days days',
     resolve_vendor_policy d (Some t) = Ok sp /\ resolved_stages sp ro days /\
     resolve_vendor_policy d' (Some t) = Ok sp' /\ resolved_stages sp' rn days' /\
     (ro = rn \/ decidable_stages d t rn)).
Proof.
  intros Hok Hpk Hact. pose proof (activate_policy_ok _ _ _ _ _ _ _ Hok Hact) as Hok'.
  destruct (activation_in_force _ _ _ _ _ _ _ Hok Hact) as (Hrow & Hdef & _).
  pose proof (activation_documents _ _ _ _ _ _ _ Hok Hact) as Hdocs. split.
  - intros tier Hin.
    destruct (resolve_tier_agrees d (Some t) tier Hok) as (eo & sp & ro & days & Ho & Hvo & _ & _ & Hsp & Hrs & _).
    destruct (resolve_tier_agrees d' (Some t) tier Hok') as (en & sp' & rn & days' & Hn & Hvn & _ & _ & Hsp' & Hrs' & _).
    exists sp, sp', ro, rn, days, days'. split_and!; try done.
    destruct Hdocs as [->|(g & Hg1 & Hg2 & Hg3 & Hst)].
    + left. rewrite Ho in Hn. injection Hn as <-. apply stage_roles_view in Hvo, Hvn. congruence.
    + rewrite Hrow, Hdef in Hn. destruct (unstaffed_nil d t _ _ _ g Hpk Hg1 Hg2 Hg3 Hst) as [Htier _].
      exact (Htier tier eo en ro rn days days' Hin Ho Hvo Hn Hvn).
  - destruct (resolve_vendor_agrees d (Some t) Hok) as (eo & sp & ro & days & Ho & Hvo & _ & _ & Hsp & Hrs).
    destruct (resolve_vendor_agrees d' (Some t) Hok') as (en & sp' & rn & days' & Hn & Hvn & _ & _ & Hsp' & Hrs').
    exists sp, sp', ro, rn, days, days'. split_and!; try done.
    destruct Hdocs as [->|(g & Hg1 & Hg2 & Hg3 & Hst)].
    + left. rewrite Ho in Hn. injection Hn as <-. apply stage_roles_view in Hvo, Hvn. congruence.
    + rewrite Hrow, Hdef in Hn. destruct (unstaffed_nil d t _ _ _ g Hpk Hg1 Hg2 Hg3 Hst) as [_ Hvendor].
      exact (Hvendor eo en ro rn days days' Ho Hvo Hn Hvn).
Qed.

End Staffed.

Import PolicyGuarantees.Demo.

Lemma activated_stages_decidable_witness :
  policies_ok Demo.drafted /\
  exists sp sp' ro rn days days',
    resolve_tier_policy Demo.drafted (Some "acme") "high" = Ok sp /\ resolved_stages sp ro days /\
    resolve_tier_policy Demo.activated (Some "acme") "high" = Ok sp' /\ resolved_stages sp' rn days' /\
    (ro = rn \/ decidable_stages Demo.drafted "acme" rn).
Proof.
  split; [apply Demo.drafted_ok|]. destruct Demo.activates as (row & Hact & _).
  apply (proj1 (activated_stages_decidable "t2" "acme" 1 "ann" Demo.drafted row Demo.activated Demo.drafted_ok
    ltac:(apply (bool_decide_unpack _); vm_compute; exact I) Hact) "high").
  apply mem_true. reflexivity.
Defined.
