(* ===== verification/Queue.v ===== *)
(** * Owners and the review queue (storage/workflow.py)

    After every change the platform re-routes the open review tasks of the
    tenants it touched: a queue policy names the role, the stage whose turn it is
    may override it, and the task goes to an active holder of the role with a due
    date counted from the task's creation.  Owner policies file an owner
    assignment for each application, finding, missing control and incident. *)

From stdpp Require Import base list strings option pretty sets gmap.
From Stdlib Require Import ZArith Lia Ascii.
From S2P Require Import Prelude Dates Sql Schema Scope Rbac.

Open Scope nat_scope.

Definition list_queue_policies (d : db) (tenant_id : option string) : list queue_policy :=
  list_policies qp_tenant_id qp_policy_id tenant_id (review_queue_policies d).
Definition list_owner_policies (d : db) (tenant_id : option string) : list owner_policy :=
  list_policies op_tenant_id op_policy_id tenant_id (owner_assignment_policies d).

(** ** Timestamps *)

(** the first space becomes a T unless there is one, a final Z becomes +00:00 *)
Fixpoint replace_first (a b : Ascii.ascii) (s : string) : string :=
  match s with
  | String c s' => if Ascii.eqb c a then String b s' else String c (replace_first a b s')
  | EmptyString => EmptyString
  end.
Definition has_char (c : Ascii.ascii) (s : string) : bool :=
  match find_char c s with Some _ => true | None => false end.
Definition expand_z (s : string) : string :=
  let n := String.length s in
  if Nat.ltb 0 n && char_is (n - 1) "Z" s then slice 0 (n - 1) s +:+ "+00:00" else s.

Definition _parse_ts (value : string) : res datetime :=
  let text := if has_char " " value && negb (has_char "T" value)
              then replace_first " " "T" (strip value) else value in
  match fromisoformat (expand_z text) with
  | Some parsed => Ok (assume_utc parsed)
  | None => Raise (ValueError "Invalid isoformat string")
  end.

Definition _shift_days (value : string) (days : Z) : res string :=
  let! t := _parse_ts value in
  let! t := add_days t days in
  Ok (strftime_seconds t).

(** [now] is the instant [datetime.now(UTC)] *)
Definition queue_status (now : Z) (due_at : string) (escalation_days : Z) (assignee : option string)
    : res string :=
  match assignee with
  | None => Ok "unassigned"
  | Some _ =>
      let! due := _parse_ts due_at in
      if (now <=? instant due)%Z then Ok "on_track"
      else
        let! escalated_at := add_days due escalation_days in
        Ok (if (instant escalated_at <? now)%Z then "escalated" else "overdue")
  end.

(** ** Routing *)

Definition _stage_route_role (d : db) (task : review_task) : option string :=
  st_required_role <$> head (order_by (fun a b => (st_stage_index a <=? st_stage_index b)%Z)
    (select (fun s => String.eqb (st_subject_type s) "review_task" &&
                      String.eqb (st_subject_id s) (rt_task_id task) &&
                      String.eqb (st_status s) "open" && negb (String.eqb (st_policy_tenant s) ""))
      (approval_stages d))).

(** [c IS NULL OR c = v] *)
Definition null_or (c v : option string) : bool :=
  match c with None => true | Some _ => sql_eq c v end.

Definition assignee_row (d : db) (task : review_task) (assigned_role : string) (a : role_assignment) : bool :=
  String.eqb (ra_role a) assigned_role && String.eqb (ra_status a) "active" &&
  existsb (fun u => String.eqb (pu_user_ref u) (ra_user_ref a) && String.eqb (pu_status u) "active")
    (platform_users d) &&
  null_or (ra_tenant_id a) (rt_tenant_id task) && null_or (ra_project a) (Some (rt_project task)) &&
  null_or (ra_environment a) (Some (rt_environment task)).

(** the [ORDER BY]: assignments with a tenant, then a project, then an
    environment first, the oldest among equals *)
Definition broad (c : option string) : bool := match c with None => true | Some _ => false end.
Definition narrower (a b : role_assignment) : bool :=
  let by_flag (f : role_assignment -> option string) (tie : bool) :=
    match broad (f a), broad (f b) with
    | false, true => true
    | true, false => false
    | _, _ => tie
    end in
  by_flag ra_tenant_id (by_flag ra_project (by_flag ra_environment
    (negb (str_ltb (ra_created_at b) (ra_created_at a))))).

Definition find_assignee (d : db) (task : review_task) (assigned_role : string) : option string :=
  ra_user_ref <$> head (order_by narrower (select (assignee_row d task assigned_role) (role_assignments d))).

(** ** The queue *)

Definition queue_notice (task : review_task) (event : string) (roles users : list string) : notice :=
  mk_notice (rt_tenant_id task) event (rt_task_id task) roles users.

Definition assigned_users (assigned_to : option string) : list string :=
  match assigned_to with Some u => if is_empty u then [] else [u] | None => [] end.

(** notifications only on transitions, compared with the row as it was read *)
Definition _notify_queue_transition (task : review_task) (assigned_to : option string)
    (escalation_status : string) (d : db) : db :=
  let previous := rt_escalation_status task in
  let users := assigned_users assigned_to in
  let d := if truthy_str assigned_to && negb (bool_decide (assigned_to = rt_assigned_to task))
           then emit (queue_notice task "review.assigned" [] users) d else d in
  let d := if String.eqb escalation_status "overdue" && negb (mem previous ["overdue"; "escalated"])
           then emit (queue_notice task "review.overdue" [] users) d else d in
  if String.eqb escalation_status "escalated" && negb (String.eqb previous "escalated")
  then emit (queue_notice task "review.escalated" ["org_admin"] users) d else d.

Record queue_state := mk_queue_state {
  qs_role : option string;
  qs_assignee : option string;
  qs_due_at : option string;
  qs_status : string
}.

Definition with_queue_state (now : string) (q : queue_state) (r : review_task) : review_task :=
  let escalated_at := if String.eqb (qs_status q) "escalated" then Some now else None in
  rt_with_updated_at now
    (rt_with_escalated_at (match rt_escalated_at r with Some x => Some x | None => escalated_at end)
      (rt_with_escalation_status (qs_status q) (rt_with_due_at (qs_due_at q)
        (rt_with_assigned_to (qs_assignee q) (rt_with_assigned_role (qs_role q) r))))).

Definition mark_review_task_queue_state (now : string) (task : review_task) (q : queue_state) (d : db) : db :=
  let d := _notify_queue_transition task (qs_assignee q) (qs_status q) d in
  set_review_tasks (update_key rt_task_id (rt_task_id task) (with_queue_state now q) (review_tasks d)) d.

(** the state one iteration of the queue loop computes for its task *)
Definition route (now_dt : Z) (d : db) (task : review_task) : res queue_state :=
  match find (fun p => String.eqb (qp_task_type p) (rt_task_type task))
          (list_queue_policies d (rt_tenant_id task)) with
  | None => Ok (mk_queue_state None None None "unassigned")
  | Some policy =>
      let assigned_role := match _stage_route_role d task with
        | Some role => if is_empty role then qp_assigned_role policy else role
        | None => qp_assigned_role policy end in
      let assignee := find_assignee d task assigned_role in
      let! due_at := _shift_days (rt_created_at task) (qp_due_days policy) in
      let! status := queue_status now_dt due_at (qp_escalation_days policy) assignee in
      Ok (mk_queue_state (Some assigned_role) assignee (Some due_at) status)
  end.

Definition in_tenants (tenant_filter : option (list (option string))) (t : option string) : bool :=
  match tenant_filter with None => true | Some l => bool_decide (t ∈ l) end.

Definition route_task (now : string) (now_dt : Z) (tenant_filter : option (list (option string)))
    (d : db) (task : review_task) : res db :=
  if in_tenants tenant_filter (rt_tenant_id task)
  then let! q := route now_dt d task in Ok (mark_review_task_queue_state now task q d)
  else Ok d.

(** the tasks are fetched before the loop; each iteration marks one *)
Definition refresh_review_queue (now : string) (now_dt : Z) (tenant_filter : option (list (option string)))
    (d : db) : res db :=
  rfold (route_task now now_dt tenant_filter) d
    (select (fun r => String.eqb (rt_status r) "open") (review_tasks d)).

(** ** Owner assignments *)

Definition _in_scopes (row : app_context) (wanted : option (list app_context)) : bool :=
  match wanted with None => true | Some l => bool_decide (row ∈ l) end.

Section Owners.
Context `{Digest}.

Definition ensure_owner_assignment (now : string) (app : app_context)
    (subject_type subject_name owner_role source : string) (d : db) : db :=
  let '(tenant, project, environment, application) := app in
  let id := entity_id [Some "owner-assignment"; tenant; Some project; Some environment; Some application;
                       Some subject_type; Some subject_name; Some owner_role] in
  set_owner_assignments (insert_or_ignore oa_owner_assignment_id
    (mk_owner_assignment id tenant project environment application subject_type subject_name owner_role
       None "unassigned" source now now) (owner_assignments d)) d.

Definition apply_owner_policy (now : string) (app : app_context) (subject_type subject_name subject_status : string)
    (d : db) (policy : owner_policy) : db :=
  if negb (String.eqb (op_subject_type policy) subject_type) then d
  else if truthy_str (op_applies_to_status policy) &&
          negb (bool_decide (op_applies_to_status policy = Some subject_status)) then d
  else ensure_owner_assignment now app subject_type subject_name (op_owner_role policy) (op_source policy) d.

Definition apply_owner_policies (now : string) (app : app_context) (policies : list owner_policy)
    (subject_type subject_name subject_status : string) (d : db) : db :=
  foldl (apply_owner_policy now app subject_type subject_name subject_status) d policies.

(** one of the four loops: (application, subject, status) rows *)
Definition own_rows (now : string) (wanted : option (list app_context)) (subject_type : string)
    (rows : list (app_context * string * string)) (d : db) : db :=
  foldl (fun d row =>
    let '(app, subject, status) := row in
    if _in_scopes app wanted
    then apply_owner_policies now app (list_owner_policies d (fst (fst (fst app)))) subject_type subject status d
    else d) d rows.

(** the scopes as the rows they name, and the tenants they name *)
Definition refresh_workflow_scopes (now : string) (now_dt : Z) (scopes : option (list app_context))
    (tenant_filter : option (list (option string))) (d : db) : res db :=
  let d := own_rows now scopes "application"
    (map (fun a => (a, snd a, "active"))
      (select_distinct (fun r => (ga_tenant_id r, ga_project r, ga_environment r, ga_application_name r))
        (governance_applications d))) d in
  let d := own_rows now scopes "risk_finding"
    (map (fun p => (fst (fst p), snd p, "open"))
      (select_distinct (fun r => ((rf_tenant_id r, rf_project r, rf_environment r, rf_application_name r),
                                  rf_risk r, rf_finding_id r))
        (select (fun r => negb (String.eqb (rf_status r) "observed")) (risk_findings d)))) d in
  let d := own_rows now scopes "control_assessment"
    (map (fun p => (fst (fst p), snd p, "missing"))
      (select_distinct (fun r => ((ca_tenant_id r, ca_project r, ca_environment r, ca_application_name r),
                                  ca_control_id r, ca_assessment_id r))
        (select (fun r => String.eqb (ca_status r) "missing") (control_assessments d)))) d in
  let d := own_rows now scopes "incident"
    (select_distinct (fun r => ((Some (in_tenant_id r), in_project r, in_environment r, in_application_name r),
                                in_incident_id r, in_status r))
      (select (fun r => negb (String.eqb (in_status r) "closed")) (governance_incidents d))) d in
  refresh_review_queue now now_dt tenant_filter d.
Definition refresh_workflow_state (now : string) (now_dt : Z) (scopes : option (list app_context)) (d : db)
    : res db :=
  refresh_workflow_scopes now now_dt scopes (map (fun s => fst (fst (fst s))) <$> scopes) d.
End Owners.
