(* ===== verification/QueueRules.v ===== *)
(** * What routing the review queue guarantees

    A refresh writes only the routing columns of open tasks and new owner
    assignments, sends work to people who may do it, and says nothing when run
    again: everything it announces is a change it just made. *)

From stdpp Require Import base list strings option pretty sets gmap.
From Stdlib Require Import ZArith Lia.
From S2P Require Import Prelude Dates Sql Schema Scope Rbac Queue.

Open Scope nat_scope.

(** ** The frame *)

(** a task without its routing *)
Definition unrouted (r : review_task) : review_task :=
  rt_with_updated_at "" (rt_with_escalated_at None (rt_with_escalation_status "" (rt_with_due_at None
    (rt_with_assigned_to None (rt_with_assigned_role None r))))).

(** [d'] differs from [d] in routing, notifications and owner assignments only *)
Record rerouted (d d' : db) : Prop := {
  rr_tables : set_outbox [] (set_owner_assignments [] (set_review_tasks [] d')) =
              set_outbox [] (set_owner_assignments [] (set_review_tasks [] d));
  rr_tasks : map unrouted (review_tasks d') = map unrouted (review_tasks d)
}.

#[export] Instance rerouted_preorder : PreOrder rerouted.
Proof.
  split; [by constructor|]. intros d1 d2 d3 [H1 H2] [H3 H4]. constructor; congruence.
Qed.

Lemma rerouted_emit n d : rerouted d (emit n d).
Proof. by constructor. Qed.

Lemma rerouted_notify task a st d : rerouted d (_notify_queue_transition task a st d).
Proof.
  unfold _notify_queue_transition.
  repeat match goal with |- context [if ?b then emit _ _ else _] => destruct b end;
    repeat first [apply rerouted_emit | reflexivity | etransitivity; [|apply rerouted_emit]].
Qed.

Lemma unrouted_with_queue_state now q r : unrouted (with_queue_state now q r) = unrouted r.
Proof. done. Qed.

Lemma rerouted_mark now task q d : rerouted d (mark_review_task_queue_state now task q d).
Proof.
  unfold mark_review_task_queue_state. etransitivity; [apply rerouted_notify|].
  constructor; [done|]. cbn [review_tasks set_review_tasks]. unfold update_key, update.
  rewrite map_map. apply map_ext. intros r. by destruct (has_key _ _ _).
Qed.

Lemma rerouted_route_task now now_dt f d task d' : route_task now now_dt f d task = Ok d' -> rerouted d d'.
Proof.
  unfold route_task. destruct (in_tenants _ _); [|by intros [= <-]].
  intros (q & _ & Hd)%rbind_Ok. injection Hd as <-. apply rerouted_mark.
Qed.

Lemma rerouted_queue now now_dt f d d' : refresh_review_queue now now_dt f d = Ok d' -> rerouted d d'.
Proof.
  intros Hrun. eapply (rfold_ind (rerouted d)); [exact Hrun|done|].
  intros d1 task d2 _ Hstep Hd. etransitivity; [exact Hd|]. by eapply rerouted_route_task.
Qed.

(** what routing reads *)
Record same_routing (d d' : db) : Prop := {
  sr_policies : review_queue_policies d' = review_queue_policies d;
  sr_stages : approval_stages d' = approval_stages d;
  sr_roles : role_assignments d' = role_assignments d;
  sr_users : platform_users d' = platform_users d
}.

Lemma rerouted_same_routing d d' : rerouted d d' -> same_routing d d'.
Proof.
  intros [H _].
  constructor; [apply (f_equal review_queue_policies) in H|apply (f_equal approval_stages) in H
    |apply (f_equal role_assignments) in H|apply (f_equal platform_users) in H]; exact H.
Qed.

Lemma route_same now_dt d d' r r' :
  same_routing d d' -> unrouted r' = unrouted r -> route now_dt d' r' = route now_dt d r.
Proof.
  intros [Hp Hs Hr Hu] E.
  assert (rt_task_type r' = rt_task_type r /\ rt_tenant_id r' = rt_tenant_id r /\ rt_task_id r' = rt_task_id r /\
    rt_created_at r' = rt_created_at r /\ rt_project r' = rt_project r /\ rt_environment r' = rt_environment r)
    as (E1 & E2 & E3 & E4 & E5 & E6).
  { split_and!; [apply (f_equal rt_task_type) in E|apply (f_equal rt_tenant_id) in E|apply (f_equal rt_task_id) in E
     |apply (f_equal rt_created_at) in E|apply (f_equal rt_project) in E|apply (f_equal rt_environment) in E]; exact E. }
  unfold route, list_queue_policies, find_assignee, assignee_row, _stage_route_role.
  rewrite Hp, Hs, Hr, Hu, E1, E2, E3, E4, E5, E6. done.
Qed.

(** ** A second refresh finds nothing to say *)

(** what the loop makes of the table: each fetched task routed in place *)
Definition routed (now : string) (now_dt : Z) (f : option (list (option string))) (d : db)
    (l : list review_task) (r : review_task) : review_task :=
  match lookup_key rt_task_id (rt_task_id r) l with
  | Some task =>
      if in_tenants f (rt_tenant_id task)
      then match route now_dt d task with Ok q => with_queue_state now q r | Raise _ => r end
      else r
  | None => r
  end.

Lemma routed_id now now_dt f d l r : rt_task_id (routed now now_dt f d l r) = rt_task_id r.
Proof.
  unfold routed. destruct (lookup_key _ _ _); [|done]. destruct (in_tenants _ _); [|done].
  by destruct (route _ _ _).
Qed.

Lemma routed_unrouted now now_dt f d l r : unrouted (routed now now_dt f d l r) = unrouted r.
Proof.
  unfold routed. destruct (lookup_key _ _ _); [|done]. destruct (in_tenants _ _); [|done].
  by destruct (route _ _ _).
Qed.

Lemma lookup_key_cons {A K} `{EqDecision K} (key : A -> K) k x (t : list A) :
  lookup_key key k (x :: t) = if has_key key k x then Some x else lookup_key key k t.
Proof. unfold lookup_key, select1. rewrite select_cons. by destruct (has_key key k x). Qed.

Lemma mark_review_tasks now task q d :
  review_tasks (mark_review_task_queue_state now task q d) =
  update_key rt_task_id (rt_task_id task) (with_queue_state now q) (review_tasks d).
Proof.
  unfold mark_review_task_queue_state, _notify_queue_transition.
  repeat match goal with |- context [if ?b then emit _ _ else _] => destruct b end; done.
Qed.

Lemma loop_routed now now_dt f d0 l : forall d d',
  keys_unique rt_task_id l -> same_routing d0 d -> rfold (route_task now now_dt f) d l = Ok d' ->
  review_tasks d' = map (routed now now_dt f d0 l) (review_tasks d) /\
  Forall (fun task => in_tenants f (rt_tenant_id task) = true -> exists q, route now_dt d0 task = Ok q) l.
Proof.
  induction l as [|task l IH]; intros d d' Hu Hs Hrun; cbn [rfold] in Hrun.
  { injection Hrun as <-. split; [|done]. symmetry. apply map_id. }
  apply rbind_Ok in Hrun as (d1 & Hstep & Hrun). unfold keys_unique in Hu. simpl in Hu.
  apply NoDup_cons in Hu as [Hn Hu].
  destruct (IH d1 d' Hu) as [-> HF]; [|done|].
  { pose proof (rerouted_same_routing _ _ (rerouted_route_task _ _ _ _ _ _ Hstep)) as [? ? ? ?].
    destruct Hs. constructor; congruence. }
  unfold route_task in Hstep. destruct (in_tenants f (rt_tenant_id task)) eqn:Ef.
  - apply rbind_Ok in Hstep as (q & Hq & Hd). injection Hd as <-.
    rewrite (route_same now_dt d0 d task task Hs eq_refl) in Hq. split; [|constructor; [by exists q|done]].
    rewrite mark_review_tasks. unfold update_key, update. rewrite map_map. apply map_ext. intros r.
    unfold routed at 2. rewrite lookup_key_cons.
    assert (has_key rt_task_id (rt_task_id r) task = has_key rt_task_id (rt_task_id task) r) as ->
      by (unfold has_key; apply bool_decide_ext; split; intros E; by rewrite E).
    destruct (has_key rt_task_id (rt_task_id task) r) eqn:Ek; [|done].
    rewrite Ef, Hq. unfold routed. apply has_key_elim in Ek.
    replace (rt_task_id (with_queue_state now q r)) with (rt_task_id task) by exact (eq_sym Ek).
    by rewrite (proj2 (lookup_key_None _ _ _) Hn).
  - injection Hstep as <-. split; [|constructor; [by rewrite Ef|done]].
    apply map_ext. intros r. unfold routed at 2. rewrite lookup_key_cons.
    destruct (has_key rt_task_id (rt_task_id r) task) eqn:Ek; [|done]. rewrite Ef.
    apply has_key_elim in Ek. unfold routed. rewrite <-Ek.
    by rewrite (proj2 (lookup_key_None _ _ _) Hn).
Qed.

Lemma with_queue_state_again now q r : with_queue_state now q (with_queue_state now q r) = with_queue_state now q r.
Proof.
  unfold with_queue_state. generalize (if String.eqb (qs_status q) "escalated" then Some now else None).
  intros o. destruct r as [? ? ? ? ? ? ? ? ? ? ? ? ? ? ? ? ? [e|]]; [|destruct o]; by vm_compute.
Qed.

(** a task that already carries its state is marked silently *)
Lemma notify_quiet task a st d :
  rt_assigned_to task = a -> rt_escalation_status task = st -> _notify_queue_transition task a st d = d.
Proof.
  intros <- <-. unfold _notify_queue_transition. rewrite bool_decide_eq_true_2 by done.
  rewrite andb_false_r. destruct (String.eqb_spec (rt_escalation_status task) "overdue") as [->|]; simpl; [done|].
  by destruct (String.eqb (rt_escalation_status task) "escalated").
Qed.

Lemma set_review_tasks_same d : set_review_tasks (review_tasks d) d = d.
Proof. by destruct d. Qed.

Lemma queue_idempotent now now_dt f d d1 :
  keys_unique rt_task_id (review_tasks d) ->
  refresh_review_queue now now_dt f d = Ok d1 -> refresh_review_queue now now_dt f d1 = Ok d1.
Proof.
  intros Hu Hrun. pose proof (rerouted_queue _ _ _ _ _ Hrun) as Hre.
  unfold refresh_review_queue in Hrun |- *. set (open := fun r => String.eqb (rt_status r) "open") in *.
  set (l := select open (review_tasks d)) in *.
  assert (same_routing d d) as Hs by done.
  destruct (loop_routed now now_dt f d l d d1 (keys_unique_select _ _ _ Hu) Hs Hrun) as [E HF].
  assert (keys_unique rt_task_id (review_tasks d1)) as Hu1.
  { unfold keys_unique. rewrite E, map_map. erewrite map_ext; [exact Hu|]. intros; apply routed_id. }
  assert (forall task, task ∈ select open (review_tasks d1) -> route_task now now_dt f d1 task = Ok d1) as Hid.
  { intros task [Ho Hin]%elem_of_select. pose proof Hin as Hin1. rewrite E in Hin.
    apply list_elem_of_fmap in Hin as (r & Er & Hr). subst task.
    unfold route_task. pose proof (routed_unrouted now now_dt f d l r) as Eu.
    assert (open r = true) as Hor.
    { unfold open in *. apply (f_equal rt_status) in Eu. cbn in Eu. by rewrite <-Eu. }
    assert (lookup_key rt_task_id (rt_task_id r) l = Some r) as El.
    { apply lookup_key_unique; [by apply keys_unique_select| |done]. by apply elem_of_select. }
    assert (rt_tenant_id (routed now now_dt f d l r) = rt_tenant_id r) as Et
      by (apply (f_equal rt_tenant_id) in Eu; exact Eu).
    rewrite Et. destruct (in_tenants f (rt_tenant_id r)) eqn:Ef; [|done].
    rewrite Forall_forall in HF. destruct (HF r) as [q Hq]; [by apply elem_of_select|done|].
    rewrite (route_same now_dt d d1 r _ (rerouted_same_routing _ _ Hre) Eu), Hq. cbn [rbind]. f_equal.
    assert (routed now now_dt f d l r = with_queue_state now q r) as Eq
      by (unfold routed; by rewrite El, Ef, Hq).
    unfold mark_review_task_queue_state. rewrite notify_quiet by (by rewrite Eq).
    transitivity (set_review_tasks (review_tasks d1) d1); [|apply set_review_tasks_same]. f_equal.
    unfold update_key, update. rewrite <-map_id. apply map_ext_in. intros x Hx%list_elem_of_In.
    destruct (has_key _ _ x) eqn:Ex; [|done]. apply has_key_elim in Ex.
    assert (x = routed now now_dt f d l r) as -> by (by apply (keys_unique_eq rt_task_id (review_tasks d1))).
    rewrite Eq. apply with_queue_state_again. }
  revert Hid. generalize (select open (review_tasks d1)). clear. intros l Hid.
  induction l as [|task l IH]; [done|]. cbn [rfold]. rewrite Hid by (by left). cbn [rbind].
  apply IH. intros; apply Hid. by right.
Qed.

(** ** Owner assignments are filed once *)

Section Present.
Context {A K : Type} `{EqDecision K} (key : A -> K).

Definition insert_all (t rows : list A) : list A := foldl (fun t r => insert_or_ignore key r t) t rows.

Definition present (t : list A) (k : K) : Prop := is_Some (lookup_key key k t).

Lemma present_insert t r k : present t k -> present (insert_or_ignore key r t) k.
Proof.
  intros [x Hx]. unfold insert_or_ignore. destruct (lookup_key key (key r) t); [by exists x|].
  exists x. by rewrite lookup_key_app, Hx.
Qed.

Lemma present_insert_self t r : present (insert_or_ignore key r t) (key r).
Proof.
  unfold insert_or_ignore. destruct (lookup_key key (key r) t) as [x|] eqn:E; [by exists x|].
  exists r. by apply lookup_key_app_eq.
Qed.

Lemma present_insert_all rows : forall t k, present t k \/ k ∈ map key rows -> present (insert_all t rows) k.
Proof.
  induction rows as [|r rows IH]; intros t k [Hp|Hk]; cbn [insert_all foldl]; try done.
  - by apply elem_of_nil in Hk.
  - apply IH. left. by apply present_insert.
  - apply IH. apply elem_of_cons in Hk as [-> |Hk]; [left; apply present_insert_self|by right].
Qed.

Lemma insert_all_present rows : forall t, (forall r, r ∈ rows -> present t (key r)) -> insert_all t rows = t.
Proof.
  induction rows as [|r rows IH]; intros t Hp; [done|]. cbn [insert_all foldl].
  destruct (Hp r) as [x Hx]; [by left|]. unfold insert_or_ignore. rewrite Hx. apply IH.
  intros r' Hr'. apply Hp. by right.
Qed.

Lemma insert_all_app t r1 r2 : insert_all t (r1 ++ r2) = insert_all (insert_all t r1) r2.
Proof. apply foldl_app. Qed.
End Present.

Section Owned.
Context `{Digest}.
Variable now : string.

(** the assignment rows of a policy list for one subject *)
Definition owner_row (app : app_context) (subject_type subject_name : string) (policy : owner_policy)
    : owner_assignment :=
  let '(tenant, project, environment, application) := app in
  mk_owner_assignment
    (entity_id [Some "owner-assignment"; tenant; Some project; Some environment; Some application;
                Some subject_type; Some subject_name; Some (op_owner_role policy)])
    tenant project environment application subject_type subject_name (op_owner_role policy)
    None "unassigned" (op_source policy) now now.

Definition policy_applies (subject_type subject_status : string) (policy : owner_policy) : bool :=
  String.eqb (op_subject_type policy) subject_type &&
  negb (truthy_str (op_applies_to_status policy) &&
        negb (bool_decide (op_applies_to_status policy = Some subject_status))).

Definition owner_rows (wanted : option (list app_context)) (subject_type : string)
    (policies : list owner_policy) (row : app_context * string * string) : list owner_assignment :=
  let '(app, subject, status) := row in
  if _in_scopes app wanted
  then map (owner_row app subject_type subject)
         (select (policy_applies subject_type status) (list_policies op_tenant_id op_policy_id (fst (fst (fst app))) policies))
  else [].

Definition file_owners (rows : list owner_assignment) (d : db) : db :=
  set_owner_assignments (insert_all oa_owner_assignment_id (owner_assignments d) rows) d.

Lemma file_owners_nil d : file_owners [] d = d.
Proof. by destruct d. Qed.

Lemma file_owners_app r1 r2 d : file_owners r2 (file_owners r1 d) = file_owners (r1 ++ r2) d.
Proof. unfold file_owners. by rewrite insert_all_app. Qed.

Lemma file_owners_cons r l d : file_owners (r :: l) d = file_owners l (file_owners [r] d).
Proof. by rewrite file_owners_app. Qed.

Lemma apply_owner_policies_files app policies st sn ss : forall d,
  apply_owner_policies now app policies st sn ss d =
  file_owners (map (owner_row app st sn) (select (policy_applies st ss) policies)) d.
Proof.
  induction policies as [|p l IH]; intros d; [by rewrite file_owners_nil|].
  unfold apply_owner_policies in *. cbn [foldl]. rewrite IH, select_cons.
  unfold apply_owner_policy at 1, policy_applies at 2.
  destruct (String.eqb (op_subject_type p) st); cbn [negb andb]; [|done].
  destruct (truthy_str _ && _); cbn [negb]; [done|]. destruct app as [[[tn pr] en] ap]. cbn [map].
  by rewrite (file_owners_cons _ (map _ _)).
Qed.

Lemma own_rows_files wanted st rows : forall d,
  own_rows now wanted st rows d =
  file_owners (concat (map (owner_rows wanted st (owner_assignment_policies d)) rows)) d.
Proof.
  induction rows as [|[[app sn] ss] rows IH]; intros d; [by rewrite file_owners_nil|].
  unfold own_rows in *. cbn [foldl map concat]. rewrite <-file_owners_app, IH. unfold owner_rows at 3.
  destruct (_in_scopes app wanted); [|by rewrite file_owners_nil].
  by rewrite apply_owner_policies_files.
Qed.

(** every assignment a refresh files *)
Definition all_owner_rows (scopes : option (list app_context)) (d : db) : list owner_assignment :=
  let rows st l := concat (map (owner_rows scopes st (owner_assignment_policies d)) l) in
  ((rows "application" (map (fun a => (a, snd a, "active"))
      (select_distinct (fun r => (ga_tenant_id r, ga_project r, ga_environment r, ga_application_name r))
        (governance_applications d))) ++
   rows "risk_finding" (map (fun p => (fst (fst p), snd p, "open"))
      (select_distinct (fun r => ((rf_tenant_id r, rf_project r, rf_environment r, rf_application_name r),
                                  rf_risk r, rf_finding_id r))
        (select (fun r => negb (String.eqb (rf_status r) "observed")) (risk_findings d))))) ++
   rows "control_assessment" (map (fun p => (fst (fst p), snd p, "missing"))
      (select_distinct (fun r => ((ca_tenant_id r, ca_project r, ca_environment r, ca_application_name r),
                                  ca_control_id r, ca_assessment_id r))
        (select (fun r => String.eqb (ca_status r) "missing") (control_assessments d))))) ++
  rows "incident"
    (select_distinct (fun r => ((Some (in_tenant_id r), in_project r, in_environment r, in_application_name r),
                                in_incident_id r, in_status r))
      (select (fun r => negb (String.eqb (in_status r) "closed")) (governance_incidents d))).

Lemma refresh_workflow_state_files now_dt scopes d :
  refresh_workflow_state now now_dt scopes d =
  refresh_review_queue now now_dt (map (fun s => fst (fst (fst s))) <$> scopes)
    (file_owners (all_owner_rows scopes d) d).
Proof.
  unfold refresh_workflow_state, refresh_workflow_scopes. cbn zeta. rewrite !own_rows_files. unfold all_owner_rows.
  rewrite <-!file_owners_app. reflexivity.
Qed.

Lemma rerouted_file_owners rows d : rerouted d (file_owners rows d).
Proof. by constructor. Qed.

Lemma rerouted_refresh now_dt scopes d d1 :
  refresh_workflow_state now now_dt scopes d = Ok d1 -> rerouted d d1.
Proof.
  rewrite refresh_workflow_state_files. intros Hq%rerouted_queue.
  etransitivity; [apply rerouted_file_owners|exact Hq].
Qed.

Lemma mark_owner_assignments task q d :
  owner_assignments (mark_review_task_queue_state now task q d) = owner_assignments d.
Proof.
  unfold mark_review_task_queue_state, _notify_queue_transition.
  repeat match goal with |- context [if ?b then emit _ _ else _] => destruct b end; done.
Qed.

Lemma queue_owner_assignments now_dt f d d1 :
  refresh_review_queue now now_dt f d = Ok d1 -> owner_assignments d1 = owner_assignments d.
Proof.
  intros Hrun. refine (rfold_ind (fun x => owner_assignments x = owner_assignments d) _ _ _ _ Hrun eq_refl _).
  intros d2 task d3 _ Hstep E. unfold route_task in Hstep.
  destruct (in_tenants _ _); [|by injection Hstep as <-].
  apply rbind_Ok in Hstep as (q & _ & Hd). injection Hd as <-. by rewrite mark_owner_assignments.
Qed.

Lemma all_owner_rows_same scopes d d' : rerouted d d' -> all_owner_rows scopes d' = all_owner_rows scopes d.
Proof.
  intros [E _]. unfold all_owner_rows.
  assert (governance_applications d' = governance_applications d) as -> by exact (f_equal governance_applications E).
  assert (risk_findings d' = risk_findings d) as -> by exact (f_equal risk_findings E).
  assert (control_assessments d' = control_assessments d) as -> by exact (f_equal control_assessments E).
  assert (governance_incidents d' = governance_incidents d) as -> by exact (f_equal governance_incidents E).
  assert (owner_assignment_policies d' = owner_assignment_policies d) as -> by exact (f_equal owner_assignment_policies E).
  done.
Qed.

(** C11. Re-routing is quiet: it writes only the routing columns of review tasks,
    new owner assignments and notifications; and run again at the same moment
    it changes nothing, so every notification it sent announced a change. *)
Theorem workflow_refresh_quiet now_dt scopes d d1 :
  keys_unique rt_task_id (review_tasks d) ->
  refresh_workflow_state now now_dt scopes d = Ok d1 ->
  rerouted d d1 /\ refresh_workflow_state now now_dt scopes d1 = Ok d1.
Proof.
  intros Hu Hrun. pose proof (rerouted_refresh _ _ _ _ Hrun) as Hre. split; [done|].
  rewrite refresh_workflow_state_files in *. rewrite (all_owner_rows_same scopes d d1 Hre).
  pose proof (queue_owner_assignments _ _ _ _ Hrun) as Ho.
  assert (file_owners (all_owner_rows scopes d) d1 = d1) as ->.
  { unfold file_owners. rewrite Ho. unfold file_owners at 1. cbn [owner_assignments set_owner_assignments].
    rewrite insert_all_present.
    - transitivity (set_owner_assignments (owner_assignments d1) d1); [by rewrite Ho|by destruct d1].
    - intros r Hr. apply present_insert_all. right. by apply list_elem_of_fmap_2. }
  eapply queue_idempotent; [|exact Hrun]. exact Hu.
Qed.
End Owned.

(** ** Work goes to people who may do it *)

(** [narrower] prefers assignments that name their tenant, project, environment *)
Definition task_target (task : review_task) : target :=
  mk_target (rt_tenant_id task) (Some (rt_project task)) (Some (rt_environment task)) (Some "approval_stage") false.

Lemma null_or_spec c v : null_or c v = true <-> c = None \/ (c <> None /\ c = v).
Proof.
  unfold null_or, sql_eq. destruct c as [x|]; [|naive_solver].
  destruct v as [y|]; [|naive_solver]. rewrite String.eqb_eq. naive_solver.
Qed.

Lemma assignee_row_spec d task role a :
  assignee_row d task role a = true <->
  ra_role a = role /\ ra_status a = "active" /\
  (exists u, u ∈ platform_users d /\ pu_user_ref u = ra_user_ref a /\ pu_status u = "active") /\
  (ra_tenant_id a = None \/ ra_tenant_id a = rt_tenant_id task) /\
  (ra_project a = None \/ ra_project a = Some (rt_project task)) /\
  (ra_environment a = None \/ ra_environment a = Some (rt_environment task)).
Proof.
  unfold assignee_row. rewrite !andb_true_iff, !String.eqb_eq, !null_or_spec, existsb_exists.
  setoid_rewrite <-list_elem_of_In. setoid_rewrite andb_true_iff. setoid_rewrite String.eqb_eq.
  split; intros H; decompose [and or] H; clear H; split_and!; auto.
  all: match goal with |- ?c = None \/ _ => destruct c; auto | _ => idtac end.
  all: right; congruence.
Qed.

Lemma head_order_by {A} (le : A -> A -> bool) t x : head (order_by le t) = Some x -> x ∈ t.
Proof.
  intros E. apply (elem_of_order_by le). destruct (order_by le t); [done|]. injection E as ->. by left.
Qed.

Lemma head_order_by_None {A} (le : A -> A -> bool) t : head (order_by le t) = None <-> t = [].
Proof. rewrite <-(order_by_nil le). by destruct (order_by le t). Qed.

(** A review task is routed to an active user holding the role in the
    task's scope, and to nobody only when there is no such user.  When every
    active assignment names its tenant, the person a stage's task is routed to
    passes the role check of the stage, provided the role grants anything. *)
Theorem assignee_can_decide d task role :
  (forall u, find_assignee d task role = Some u ->
     exists a, in_force d u a /\ ra_role a = role /\
       (exists p, p ∈ platform_users d /\ pu_user_ref p = u /\ pu_status p = "active") /\
       ((ra_tenant_id a <> None) -> (exists p, granted d role p) ->
        forall actor, user_ref actor = u -> actor_satisfies_stage_role d actor role (task_target task) = true)) /\
  (find_assignee d task role = None <->
   forall a, a ∈ role_assignments d -> assignee_row d task role a = false).
Proof.
  unfold find_assignee. split.
  - intros u Hu. destruct (head _) as [a|] eqn:E; [|done]. injection Hu as <-.
    apply head_order_by, elem_of_select in E as [Ha Hin]. apply assignee_row_spec in Ha as (Hr & Hs & Hp & Ht & Hpr & He).
    exists a. split_and!; try done. intros Hne Hg actor Hact. apply stage_role_spec. split; [done|].
    exists a. rewrite Hact. split; [done|]. split; [|by left].
    split_and!; [|done|done]. by destruct Ht.
  - split.
    + intros E a Ha. destruct (head _) eqn:Eh; [done|]. apply head_order_by_None in Eh.
      destruct (assignee_row d task role a) eqn:Er; [|done].
      assert (a ∈ select (assignee_row d task role) (role_assignments d)) as Hin by (by apply elem_of_select).
      rewrite Eh in Hin. by apply elem_of_nil in Hin.
    + intros H. destruct (head _) as [a|] eqn:Eh; [|done].
      apply head_order_by, elem_of_select in Eh as [Ha Hin]. by rewrite H in Ha.
Qed.

(** ** A task is routed once *)

Module Demo.
Definition task : review_task :=
  mk_review_task "task-1" "intake-1" (Some "acme") "claims" "production" "triage" "intake_review" "open"
    "high" "Review triage" "high-risk use case" "2026-03-01 10:00:00" "2026-03-01 10:00:00"
    None None None "unassigned" None.
Definition queued : db :=
  set_role_assignments [Rbac.Demo.assign "a2" "bob" "governance_reviewer"]
  (set_review_queue_policies
    [mk_queue_policy "" "default-intake" "intake_review" "governance_reviewer" 5 3 "default" "t0" "t0"]
  (set_owner_assignment_policies
    [mk_owner_policy "acme" "apps" "application" "risk_owner" None "acme" "t0" "t0"]
  (set_governance_applications
    [mk_application "app-1" (Some "acme") "claims" "production" "triage" [] [] [] [] (SInt 0) (SInt 0) (SInt 0) (SInt 0) "t0" "t0"]
  (set_review_tasks [task] Rbac.Demo.org)))).
(** nine days after the task was filed: escalated to whoever it is routed to *)
Definition late : Z := match fromisoformat "2026-03-10T12:00:00+00:00" with Some t => instant t | None => 0 end.
End Demo.

Lemma workflow_refresh_quiet_witness :
  let _ : Digest := fun s => s in
  exists d1, refresh_workflow_state "2026-03-10 12:00:00" Demo.late None Demo.queued = Ok d1 /\
    map nt_event_type (outbox d1) = ["review.assigned"; "review.escalated"] /\
    refresh_workflow_state "2026-03-10 12:00:00" Demo.late None d1 = Ok d1.
Proof.
  intros H. eexists. split; [vm_compute; reflexivity|]. split; [vm_compute; reflexivity|].
  eapply (@workflow_refresh_quiet H "2026-03-10 12:00:00" Demo.late None Demo.queued).
  - apply NoDup_singleton.
  - vm_compute. reflexivity.
Defined.
