(* ===== verification/Workflow.v ===== *)
(** * Decision targets, exceptions and expiry (storage/workflow.py)

    What a recorded decision does to its target, and the exceptions that waive
    a target until they lapse.  [now] is what [datetime('now')] returns in the
    transaction, [now_iso] the interpreter's clock as an ISO instant in UTC. *)

From stdpp Require Import base list strings option pretty sets gmap.
From Stdlib Require Import ZArith Lia.
From S2P Require Import Prelude Py Sql Schema PolicyDoc Rbac.

Open Scope nat_scope.

(** ** Targets *)

(** the row a decision or exception is about *)
Inductive decision_target :=
| TReviewTask (r : review_task)
| TRiskFinding (r : risk_finding)
| TChangeEvent (r : change_event)
| TControlAssessment (r : control_assessment)
| TDeploymentGate (r : deployment_gate)
| TIncident (r : incident)
| TApprovalStage (r : approval_stage).

Definition tgt_tenant_id (t : decision_target) : option string :=
  match t with
  | TReviewTask r => rt_tenant_id r | TRiskFinding r => rf_tenant_id r | TChangeEvent r => ce_tenant_id r
  | TControlAssessment r => ca_tenant_id r | TDeploymentGate r => dg_tenant_id r
  | TIncident r => Some (in_tenant_id r) | TApprovalStage r => st_tenant_id r
  end.
Definition tgt_project (t : decision_target) : string :=
  match t with
  | TReviewTask r => rt_project r | TRiskFinding r => rf_project r | TChangeEvent r => ce_project r
  | TControlAssessment r => ca_project r | TDeploymentGate r => dg_project r
  | TIncident r => in_project r | TApprovalStage r => st_project r
  end.
Definition tgt_environment (t : decision_target) : string :=
  match t with
  | TReviewTask r => rt_environment r | TRiskFinding r => rf_environment r | TChangeEvent r => ce_environment r
  | TControlAssessment r => ca_environment r | TDeploymentGate r => dg_environment r
  | TIncident r => in_environment r | TApprovalStage r => st_environment r
  end.
Definition tgt_application_name (t : decision_target) : string :=
  match t with
  | TReviewTask r => rt_application_name r | TRiskFinding r => rf_application_name r
  | TChangeEvent r => ce_application_name r | TControlAssessment r => ca_application_name r
  | TDeploymentGate r => dg_application_name r | TIncident r => in_application_name r
  | TApprovalStage r => st_application_name r
  end.

(** the target dict the access checks read, with its type stamped on; only the
    risk_findings table has a column named risk *)
Definition access_target (target_type : string) (t : decision_target) : target :=
  mk_target (tgt_tenant_id t) (Some (tgt_project t)) (Some (tgt_environment t)) (Some target_type)
    (match t with TRiskFinding _ => true | _ => false end).

(** [AND tenant_id = ?] when the caller has a tenant *)
Definition tenant_clause (tenant_id row_tenant : option string) : bool :=
  if truthy_str tenant_id then sql_eq row_tenant tenant_id else true.

Definition load_decision_target (d : db) (target_type target_id : string) (tenant_id : option string)
    : res decision_target :=
  let found {A} (mk : A -> decision_target) (row : option A) :=
    match row with Some r => Ok (mk r) | None => Raise (RecordNotFound "decision target not found") end in
  let pick {A} (key : A -> string) (tenant : A -> option string) (table : list A) :=
    select1 (fun r => String.eqb (key r) target_id && tenant_clause tenant_id (tenant r)) table in
  if String.eqb target_type "review_task"
  then found TReviewTask (pick rt_task_id rt_tenant_id (review_tasks d))
  else if String.eqb target_type "risk_finding"
  then found TRiskFinding (pick rf_finding_id rf_tenant_id (risk_findings d))
  else if String.eqb target_type "change_event"
  then found TChangeEvent (pick ce_change_id ce_tenant_id (change_events d))
  else if String.eqb target_type "control_assessment"
  then found TControlAssessment (pick ca_assessment_id ca_tenant_id (control_assessments d))
  else if String.eqb target_type "deployment_gate"
  then found TDeploymentGate (pick dg_gate_id dg_tenant_id (deployment_approval_gates d))
  else if String.eqb target_type "incident"
  then found TIncident (pick in_incident_id (fun r => Some (in_tenant_id r)) (governance_incidents d))
  else if String.eqb target_type "approval_stage"
  then found TApprovalStage (pick st_stage_id st_tenant_id (approval_stages d))
  else Raise (DomainError "unsupported decision target type").

(** ** The status a decision gives its target *)

Definition status_by_decision (decision : string) : option string :=
  assoc decision [("approve", "approved"); ("reject", "rejected"); ("accept_risk", "accepted");
                  ("mitigate", "mitigation_required"); ("waive", "waived"); ("close", "closed")].

Definition _notify_intake_decided (intake_id task_id status : string) (d : db) : db :=
  match lookup_key uc_intake_id intake_id (ai_use_cases d) with
  | None => d
  | Some record =>
      if is_empty (uc_submitted_by record) then d
      else emit (mk_notice (uc_tenant_id record)
                   ("review." +:+ (if String.eqb status "approved" then "approved" else "rejected"))
                   intake_id [] [uc_submitted_by record]) d
  end.

(** an intake review decides the use case: the row moves, and the submitter
    hears it, only when its status changes *)
Definition decide_use_case (now intake_id task_id status : string) (d : db) : db :=
  let moves u := String.eqb (uc_intake_id u) intake_id && negb (String.eqb (uc_status u) status) in
  let d' := set_ai_use_cases
    (update moves (fun u => uc_with_updated_at now (uc_with_status status u)) (ai_use_cases d)) d in
  if (0 <? rowcount moves (ai_use_cases d)) then _notify_intake_decided intake_id task_id status d' else d'.

Definition decide_review_task (now task_id status : string) (d : db) : db :=
  let d := set_review_tasks
    (update_key rt_task_id task_id (fun r => rt_with_updated_at now (rt_with_status status r)) (review_tasks d)) d in
  match lookup_key rt_task_id task_id (review_tasks d) with
  | Some task =>
      if String.eqb (rt_task_type task) "intake_review" && mem status ["approved"; "rejected"]
      then decide_use_case now (rt_change_id task) task_id status d else d
  | None => d
  end.

Definition apply_decision_status (now target_type target_id decision : string) (d : db) : db :=
  match status_by_decision decision with
  | None => d
  | Some status =>
      if String.eqb target_type "review_task" then decide_review_task now target_id status d
      else if String.eqb target_type "risk_finding" then
        set_risk_findings (update_key rf_finding_id target_id
          (fun r => rf_with_evaluated_at now (rf_with_status status r)) (risk_findings d)) d
      else if String.eqb target_type "change_event" then
        set_change_events (update_key ce_change_id target_id (ce_with_status status) (change_events d)) d
      else if String.eqb target_type "control_assessment" then
        set_control_assessments (update_key ca_assessment_id target_id
          (fun r => ca_with_evaluated_at now (ca_with_status status r)) (control_assessments d)) d
      else d
  end.

(** ** Exceptions *)

Section Exceptions.
Context `{Digest}.

Definition create_exception (now target_type target_id reason compensating_control expires_at actor_ref : string)
    (tenant_id : option string) (d : db) : res (governance_exception * db) :=
  let! target := load_decision_target d target_type target_id tenant_id in
  let exception_id := entity_id [Some "governance-exception"; Some target_type; Some target_id;
                                 Some reason; Some expires_at] in
  match lookup_key ge_exception_id exception_id (governance_exceptions d) with
  | Some existing => Ok (existing, d)
  | None =>
      let row := mk_governance_exception exception_id (tgt_tenant_id target) (tgt_project target)
        (tgt_environment target) (tgt_application_name target) target_type target_id reason
        compensating_control expires_at "active" actor_ref now now in
      let d := set_governance_exceptions
        (insert_or_ignore ge_exception_id row (governance_exceptions d)) d in
      Ok (row, apply_decision_status now target_type target_id "waive" d)
  end.

(** the exceptions that have lapsed; text order is time order since every
    stored expiry is normalised to UTC *)
Definition exception_due (now_iso : string) (e : governance_exception) : bool :=
  String.eqb (ge_status e) "active" && negb (str_ltb now_iso (ge_expires_at e)).

(** one iteration of the loop over the lapsed exceptions *)
Definition expire_one (now : string) (d : db) (e : governance_exception) : db :=
  let d := set_governance_exceptions
    (update_key ge_exception_id (ge_exception_id e)
      (fun r => ge_with_updated_at now (ge_with_status "expired" r)) (governance_exceptions d)) d in
  if String.eqb (ge_target_type e) "risk_finding" then
    set_risk_findings
      (update (fun r => String.eqb (rf_finding_id r) (ge_target_id e) && String.eqb (rf_status r) "waived")
        (fun r => rf_with_evaluated_at now (rf_with_status "open" r)) (risk_findings d)) d
  else if String.eqb (ge_target_type e) "control_assessment" then
    set_control_assessments
      (update (fun r => String.eqb (ca_assessment_id r) (ge_target_id e) && String.eqb (ca_status r) "waived")
        (fun r => ca_with_evaluated_at now (ca_with_status "missing" r)) (control_assessments d)) d
  else d.

Definition expire_due_exceptions (now now_iso : string) (d : db) : nat * db :=
  let due := select (exception_due now_iso) (governance_exceptions d) in
  (length due, foldl (expire_one now) d due).

End Exceptions.

(** ** What expiry does *)

Definition expire_row (now : string) (e : governance_exception) : governance_exception :=
  ge_with_updated_at now (ge_with_status "expired" e).
Definition reopen_finding (now : string) (r : risk_finding) : risk_finding :=
  rf_with_evaluated_at now (rf_with_status "open" r).

(** a lapsed exception of the list is on this finding *)
Definition waiver_lapsed (l : list governance_exception) (r : risk_finding) : bool :=
  existsb (fun e => String.eqb (ge_target_type e) "risk_finding" &&
                    String.eqb (ge_target_id e) (rf_finding_id r)) l.

Lemma expire_loop_exceptions now l : forall d,
  governance_exceptions (foldl (expire_one now) d l) =
  update (fun r => existsb (fun e => has_key ge_exception_id (ge_exception_id e) r) l) (expire_row now)
    (governance_exceptions d).
Proof.
  induction l as [|e l IH]; intros d; cbn [foldl existsb]; [by rewrite update_none|].
  rewrite IH. assert (governance_exceptions (expire_one now d e) =
    update (has_key ge_exception_id (ge_exception_id e)) (expire_row now) (governance_exceptions d)) as ->.
  { unfold expire_one. destruct (String.eqb (ge_target_type e) "risk_finding"); [done|].
    by destruct (String.eqb (ge_target_type e) "control_assessment"). }
  by rewrite update_update.
Qed.

Lemma expire_loop_findings now l : forall d,
  risk_findings (foldl (expire_one now) d l) =
  update (fun r => waiver_lapsed l r && String.eqb (rf_status r) "waived") (reopen_finding now) (risk_findings d).
Proof.
  induction l as [|e l IH]; intros d; cbn [foldl]; [by rewrite update_none|].
  rewrite IH. unfold expire_one. unfold waiver_lapsed at 2. cbn [existsb].
  destruct (String.eqb (ge_target_type e) "risk_finding"); cbn [andb orb].
  - cbn [risk_findings set_risk_findings set_governance_exceptions].
    rewrite update_update by (intros r; simpl; by rewrite andb_false_r).
    apply update_ext. intros r _. rewrite (String.eqb_sym (ge_target_id e)).
    destruct (String.eqb (rf_finding_id r) (ge_target_id e)), (String.eqb (rf_status r) "waived"); simpl;
      rewrite ?andb_true_r, ?andb_false_r; done.
  - by destruct (String.eqb (ge_target_type e) "control_assessment").
Qed.

(** A pass of the expiry worker leaves no active exception past its expiry;
    every finding a lapsed exception had waived is open again; a finding no
    lapsed exception is about, or that is not waived, is left alone; and a
    second pass at the same instant finds nothing to do. *)
Theorem expire_due_exceptions_spec now now_iso d n d' :
  expire_due_exceptions now now_iso d = (n, d') ->
  (forall e, e ∈ governance_exceptions d' -> exception_due now_iso e = false) /\
  (forall e r, e ∈ governance_exceptions d -> exception_due now_iso e = true ->
     ge_target_type e = "risk_finding" -> r ∈ risk_findings d' -> rf_finding_id r = ge_target_id e ->
     rf_status r <> "waived") /\
  (forall r, r ∈ risk_findings d ->
     rf_status r <> "waived" \/
     (forall e, e ∈ governance_exceptions d -> exception_due now_iso e = true ->
        ge_target_type e = "risk_finding" -> ge_target_id e <> rf_finding_id r) ->
     r ∈ risk_findings d') /\
  expire_due_exceptions now now_iso d' = (0, d').
Proof.
  unfold expire_due_exceptions. set (due := select (exception_due now_iso) (governance_exceptions d)).
  intros [= <- <-]. rewrite !expire_loop_exceptions, !expire_loop_findings.
  assert (forall e, e ∈ update (fun r => existsb (fun e => has_key ge_exception_id (ge_exception_id e) r) due)
    (expire_row now) (governance_exceptions d) -> exception_due now_iso e = false) as Hnone.
  { intros e [(x & Hx & Hp & ->)|[He Hp]]%elem_of_update; [done|].
    destruct (exception_due now_iso e) eqn:Hd; [|done]. rewrite <-not_true_iff_false in Hp. destruct Hp.
    apply existsb_exists. exists e. split; [|by apply has_key_true].
    apply list_elem_of_In, elem_of_select. done. }
  assert (forall r, waiver_lapsed due r = true <-> exists e, e ∈ governance_exceptions d /\
    exception_due now_iso e = true /\ ge_target_type e = "risk_finding" /\ ge_target_id e = rf_finding_id r) as Hlapsed.
  { intros r. unfold waiver_lapsed. rewrite existsb_exists. split.
    - intros (e & [Hd He]%list_elem_of_In%elem_of_select & [Ht%String.eqb_eq Hi%String.eqb_eq]%andb_true_iff).
      by exists e.
    - intros (e & He & Hd & Ht & Hi). exists e. split; [by apply list_elem_of_In, elem_of_select|].
      by rewrite Ht, Hi, !String.eqb_refl. }
  split_and!; [exact Hnone| | |].
  - intros e r He Hd Ht [(x & Hx & Hp & ->)|[Hr Hp]]%elem_of_update Hid; [done|].
    intros Hw. rewrite Hw, andb_true_r in Hp. rewrite <-not_true_iff_false in Hp. destruct Hp.
    apply Hlapsed. by exists e.
  - intros r Hr Hkeep. apply elem_of_update. right. split; [done|].
    apply andb_false_iff. destruct Hkeep as [Hs|Hno]; [right; by apply String.eqb_neq|left].
    apply not_true_iff_false. rewrite Hlapsed. intros (e & He & Hd & Ht & Hi). by eapply Hno.
  - rewrite (elem_of_nil_inv (select (exception_due now_iso) (update _ _ _))); [done|].
    intros e [Hd He]%elem_of_select. by rewrite (Hnone e He) in Hd.
Qed.

Lemma expire_due_exceptions_spec_witness :
  let e := mk_governance_exception "x" (Some "t") "p" "e" "a" "risk_finding" "f" "r" "c" "2026-01-01" "active" "ann" "t0" "t0" in
  let f := mk_risk_finding "f" (Some "t") "p" "e" "a" "RISK-1" "r" "High" "waived" "why" [] [] "s" "t0" in
  let d := set_risk_findings [f] (set_governance_exceptions [e] empty_db) in
  let d' := snd (expire_due_exceptions "t1" "2026-06-01" d) in
  fst (expire_due_exceptions "t1" "2026-06-01" d) = 1 /\
  expire_due_exceptions "t1" "2026-06-01" d' = (0, d').
Proof.
  intros e f d d'. split; [vm_compute; reflexivity|].
  pose proof (expire_due_exceptions_spec "t1" "2026-06-01" d 1 d' ltac:(vm_compute; reflexivity))
    as (_ & _ & _ & H). exact H.
Defined.
