(* ===== verification/Stages.v ===== *)
(** * Approval stages (storage/policy_engine.py, storage/vendor_evidence.py)

    A subject under review - a review task or a vendor - carries a checklist of
    stages materialized from the policy in force when its review started.  Each
    stage is decided once; the subject is decided when a stage rejects it or
    when every stage approves it. *)

From stdpp Require Import base list strings option pretty sets gmap.
From Stdlib Require Import ZArith Lia.
From S2P Require Import Prelude Py Sql Schema PolicyDoc Rbac PolicyStore Workflow.

Open Scope nat_scope.

Section Stages.
Context `{PyHost} `{Digest}.

(** ** Materialization *)

Definition _stage_id (subject_type subject_id : string) (review_round stage_index : Z) : string :=
  entity_id [Some "approval-stage"; Some subject_type; Some subject_id;
             Some (pretty review_round); Some (pretty stage_index)].

(** a subject's stages of one round *)
Definition of_round (subject_type subject_id : string) (review_round : Z) (s : approval_stage) : bool :=
  String.eqb (st_subject_type s) subject_type && String.eqb (st_subject_id s) subject_id &&
  (st_review_round s =? review_round)%Z.

(** [stage["role"]] of a stage entry, bound to a TEXT column; a validated entry
    names its role as a string *)
Definition stage_role (stage : pyval) : res string :=
  match stage with
  | PDict d => match assoc "role" d with
               | Some (PStr role) => Ok role
               | Some _ => Raise TypeError
               | None => Raise (KeyError "role")
               end
  | _ => Raise TypeError
  end.

(** [stage.get("label")] of a validated entry: a string or None *)
Definition stage_label (stage : pyval) : res (option string) :=
  let! v := py_get stage "label" in
  match v with PStr s => Ok (Some s) | PNone => Ok None | _ => Raise TypeError end.

(** who and what a checklist is for *)
Record subject := mk_subject {
  sj_type : string;
  sj_id : string;
  sj_round : Z;
  sj_tenant : option string;
  sj_project : string;
  sj_environment : string;
  sj_application : string
}.

(** one iteration of the loop over the policy's stages; the counter is the
    stage index *)
Definition insert_stage (now mode policy_tenant : string) (policy_version : Z) (sj : subject)
    (acc : Z * list approval_stage) (stage : pyval) : res (Z * list approval_stage) :=
  let (index, t) := acc in
  let status := if String.eqb mode "parallel" || (index =? 0)%Z then "open" else "pending" in
  let! role := stage_role stage in
  let! label := stage_label stage in
  Ok ((index + 1)%Z,
      insert_or_ignore st_stage_id
        (mk_approval_stage (_stage_id (sj_type sj) (sj_id sj) (sj_round sj) index)
           (sj_tenant sj) (sj_project sj) (sj_environment sj) (sj_application sj) (sj_type sj) (sj_id sj)
           (sj_round sj) policy_tenant policy_version index role label mode status None None now None) t).

Definition materialize_stages (now : string) (sj : subject) (stages : list pyval)
    (mode policy_tenant : string) (policy_version : Z) (d : db) : res (bool * db) :=
  match select1 (of_round (sj_type sj) (sj_id sj) (sj_round sj)) (approval_stages d) with
  | Some _ => Ok (false, d)
  | None =>
      let! r := rfold (insert_stage now mode policy_tenant policy_version sj) (0%Z, approval_stages d) stages in
      Ok (true, set_approval_stages (snd r) d)
  end.

(** the scope columns of an intake record *)
Record scope := mk_scope {
  sc_tenant : option string;
  sc_project : string;
  sc_environment : string;
  sc_application : string
}.

(** a resolved mode is a string (see [resolvers_total]) *)
Definition mode_text (v : pyval) : res string :=
  match v with PStr s => Ok s | _ => Raise TypeError end.

Definition materialize_intake_stages (now task_id : string) (record : scope) (risk_tier : string) (d : db)
    : res db :=
  let! tier_policy := resolve_tier_policy d (sc_tenant record) risk_tier in
  let! stages := py_iter (sp_stages tier_policy) in
  let! mode := mode_text (sp_mode tier_policy) in
  let! r := materialize_stages now
    (mk_subject "review_task" task_id 0 (sc_tenant record) (sc_project record) (sc_environment record)
       (sc_application record))
    stages mode (sp_policy_tenant tier_policy) (sp_policy_version tier_policy) d in
  Ok (snd r).

(** ** Reading stages and their subjects *)

Definition load_stage (d : db) (stage_id : string) : res approval_stage :=
  match lookup_key st_stage_id stage_id (approval_stages d) with
  | Some s => Ok s
  | None => Raise (RecordNotFound "approval stage not found")
  end.

(** [ORDER BY review_round, stage_index] *)
Definition stage_order (a b : approval_stage) : bool :=
  ((st_review_round a <? st_review_round b) ||
   (st_review_round a =? st_review_round b) && (st_stage_index a <=? st_stage_index b))%Z.

Definition list_subject_stages (d : db) (subject_type subject_id : string) (review_round : option Z)
    : list approval_stage :=
  match review_round with
  | None => order_by stage_order
      (select (fun s => String.eqb (st_subject_type s) subject_type && String.eqb (st_subject_id s) subject_id)
        (approval_stages d))
  | Some round => order_by (fun a b => (st_stage_index a <=? st_stage_index b)%Z)
      (select (of_round subject_type subject_id round) (approval_stages d))
  end.

Inductive stage_subject :=
| SReviewTask (r : review_task)
| SVendor (v : vendor).

Definition load_stage_subject (d : db) (s : approval_stage) : res stage_subject :=
  if String.eqb (st_subject_type s) "review_task" then
    match lookup_key rt_task_id (st_subject_id s) (review_tasks d) with
    | Some r => Ok (SReviewTask r)
    | None => Raise (RecordNotFound "review task for this stage no longer exists")
    end
  else if String.eqb (st_subject_type s) "vendor_review" then
    match lookup_key vd_vendor_id (st_subject_id s) (vendor_registry d) with
    | Some v => Ok (SVendor v)
    | None => Raise (RecordNotFound "vendor for this stage no longer exists")
    end
  else Raise (ValueError ("unsupported stage subject type: " +:+ st_subject_type s)).

Definition subject_status (x : stage_subject) : string :=
  match x with SReviewTask r => rt_status r | SVendor v => vd_status v end.

Definition stage_subject_undecided (s : approval_stage) (subject : stage_subject) : bool :=
  match subject with
  | SReviewTask r => String.eqb (rt_status r) "open"
  | SVendor v => String.eqb (vd_status v) "under_review" && (vd_review_round v =? st_review_round s)%Z
  end.

Definition stage_maker (d : db) (subject : stage_subject) : option string :=
  match subject with
  | SReviewTask r =>
      if mem (rt_task_type r) ["intake_review"; "recertification_review"]
      then uc_submitted_by <$> lookup_key uc_intake_id (rt_change_id r) (ai_use_cases d)
      else None
  | SVendor v => if truthy_str (vd_submitted_by v) then vd_submitted_by v else Some (vd_created_by v)
  end.

Definition actor_decided_sibling_stage (d : db) (s : approval_stage) (actor_ref : string) : bool :=
  match select1 (fun x => of_round (st_subject_type s) (st_subject_id s) (st_review_round s) x &&
                          negb (String.eqb (st_stage_id x) (st_stage_id s)) &&
                          sql_eq (st_decided_by x) (Some actor_ref)) (approval_stages d) with
  | Some _ => true
  | None => false
  end.

(** ** Expired vendor evidence *)

Definition EVIDENCE_KINDS : list (string * string) := [
  ("baa", "Business associate agreement"); ("dpa", "Data processing agreement");
  ("soc2_type2", "SOC 2 Type II report"); ("iso_27001", "ISO/IEC 27001 certificate");
  ("iso_42001", "ISO/IEC 42001 certificate"); ("fda_clearance", "FDA clearance or approval");
  ("pen_test", "Penetration test attestation"); ("other", "Other attestation")].

Definition expired_references (d : db) (vendor_id : string) : list evidence_reference :=
  order_by (fun a b => negb (str_ltb (ve_kind b) (ve_kind a)))
    (select (fun r => String.eqb (ve_vendor_id r) vendor_id && String.eqb (ve_status r) "expired")
      (vendor_evidence_references d)).

Definition require_no_expired_evidence (d : db) (vendor_id vendor_name : string) : res unit :=
  match expired_references d vendor_id with
  | [] => Ok tt
  | lapsed =>
      let kinds := join ", " (map (fun item =>
        default (ve_kind item) (assoc (ve_kind item) EVIDENCE_KINDS) +:+ " (" +:+ ve_name item
        +:+ ", expired " +:+ ve_expires_at item +:+ ")") lapsed) in
      Raise (DomainError ("vendor '" +:+ vendor_name +:+ "' has expired evidence: " +:+ kinds
        +:+ ". Record a current reference or withdraw the expired one before the vendor can be approved"))
  end.

(** ** Deciding *)

Definition _notify_stage_opened (s : approval_stage) (d : db) : db :=
  emit (mk_notice (st_tenant_id s) "review.stage_opened" (st_stage_id s) [st_required_role s] []) d.

(** the subject approves only when every stage approved; any rejection rejects it *)
Definition _roll_up_subject (now : string) (s : approval_stage) (decision : string) (d : db) : res db :=
  if String.eqb (st_subject_type s) "review_task"
  then Ok (apply_decision_status now "review_task" (st_subject_id s) decision d)
  else if String.eqb (st_subject_type s) "vendor_review" then
    let status := if String.eqb decision "approve" then "approved" else "rejected" in
    let! _ := if String.eqb status "approved"
              then require_no_expired_evidence d (st_subject_id s)
                     (if is_empty (st_application_name s) then "vendor" else st_application_name s)
              else Ok tt in
    Ok (set_vendor_registry
      (update (fun v => String.eqb (vd_vendor_id v) (st_subject_id s) &&
                        (vd_review_round v =? st_review_round s)%Z && String.eqb (vd_status v) "under_review")
        (fun v => vd_with_updated_at now (vd_with_reviewed_at (Some now) (vd_with_status status v)))
        (vendor_registry d)) d)
  else Ok d.

(** [UPDATE approval_stages SET status, decision_id, decided_by, decided_at
    WHERE stage_id = ? AND status = 'open'] *)
Definition stamp_stage (now status decision_id actor_ref : string) (s : approval_stage) : approval_stage :=
  st_with_decided_at (Some now) (st_with_decided_by (Some actor_ref)
    (st_with_decision_id (Some decision_id) (st_with_status status s))).
Definition open_stage (stage_id : string) (s : approval_stage) : bool :=
  String.eqb (st_stage_id s) stage_id && String.eqb (st_status s) "open".
Definition pending_stage (stage_id : string) (s : approval_stage) : bool :=
  String.eqb (st_stage_id s) stage_id && String.eqb (st_status s) "pending".

(** open the next pending stage of a sequence and announce it *)
Definition open_next (siblings : list approval_stage) (d : db) : db :=
  match find (fun s => String.eqb (st_status s) "pending") siblings with
  | None => d
  | Some next =>
      _notify_stage_opened (st_with_status "open" next)
        (set_approval_stages
          (update (pending_stage (st_stage_id next)) (st_with_status "open") (approval_stages d)) d)
  end.

Definition apply_stage_decision (now : string) (s : approval_stage) (decision decision_id actor_ref : string)
    (d : db) : res db :=
  let status := if String.eqb decision "approve" then "approved" else "rejected" in
  let moved := rowcount (open_stage (st_stage_id s)) (approval_stages d) in
  let d := set_approval_stages
    (update (open_stage (st_stage_id s)) (stamp_stage now status decision_id actor_ref) (approval_stages d)) d in
  if moved =? 0 then Ok d
  else if String.eqb status "rejected" then _roll_up_subject now s "reject" d
  else
    let siblings := list_subject_stages d (st_subject_type s) (st_subject_id s) (Some (st_review_round s)) in
    if forallb (fun x => String.eqb (st_status x) "approved") siblings
    then _roll_up_subject now s "approve" d
    else if String.eqb (st_mode s) "sequence" then Ok (open_next siblings d)
    else Ok d.

Definition sync_decision_to_stages (now target_type target_id decision actor_ref decision_id : string) (d : db)
    : res db :=
  if negb (mem decision ["approve"; "reject"]) then Ok d
  else if String.eqb target_type "approval_stage" then
    match lookup_key st_stage_id target_id (approval_stages d) with
    | Some s => apply_stage_decision now s decision decision_id actor_ref d
    | None => Ok d
    end
  else if String.eqb target_type "review_task" then
    match list_subject_stages d "review_task" target_id (Some 0%Z) with
    | [s] =>
        if String.eqb (st_status s) "open" then
          let status := if String.eqb decision "approve" then "approved" else "rejected" in
          Ok (set_approval_stages
            (update (open_stage (st_stage_id s)) (stamp_stage now status decision_id actor_ref)
              (approval_stages d)) d)
        else Ok d
    | _ => Ok d
    end
  else Ok d.

End Stages.
