(* ===== verification/StageRules.v ===== *)
(** * What the stage checklist guarantees

    The shape a subject's stages keep from materialization to the decision: a
    sequence is a run of approved stages, then the stage whose turn it is, then
    the ones that wait; parallel stages never wait.  Deciding a stage keeps the
    shape, and rolls the subject up exactly when the checklist is settled. *)

From stdpp Require Import base list strings option pretty sets gmap.
From Stdlib Require Import ZArith Lia.
From S2P Require Import Prelude Py Sql Schema PolicyDoc Rbac PolicyStore Workflow Stages.

Open Scope nat_scope.

(** ** The checklist *)

Definition in_status (st : string) (s : approval_stage) : Prop := st_status s = st.
Definition settled (s : approval_stage) : Prop := st_status s = "approved" \/ st_status s = "rejected".
Definition waiting (s : approval_stage) : Prop := st_status s = "open" \/ st_status s = "pending".

(** approved stages, then the current one, then the ones behind it *)
Inductive in_sequence : list approval_stage -> Prop :=
| seq_done : in_sequence []
| seq_approved s l : in_status "approved" s -> in_sequence l -> in_sequence (s :: l)
| seq_current s l : in_status "open" s \/ in_status "rejected" s -> Forall (in_status "pending") l ->
    in_sequence (s :: l).

Definition in_parallel (l : list approval_stage) : Prop :=
  Forall (fun s => in_status "open" s \/ settled s) l.

(** a stage nobody decided names no decider, and no person decided two *)
Definition deciders (l : list approval_stage) : list string := omap st_decided_by l.

Record checklist (mode : string) (l : list approval_stage) : Prop := {
  cl_mode : Forall (fun s => st_mode s = mode) l;
  cl_shape : if String.eqb mode "parallel" then in_parallel l else mode = "sequence" /\ in_sequence l;
  cl_unstamped : Forall (fun s => waiting s -> st_decided_by s = None) l;
  cl_distinct : NoDup (deciders l)
}.

(** the decision the checklist has reached, as the subject's status *)
Definition outcome (l : list approval_stage) : option string :=
  if existsb (fun s => String.eqb (st_status s) "rejected") l then Some "rejected"
  else if forallb (fun s => String.eqb (st_status s) "approved") l then Some "approved"
  else None.

Lemma some_status st l :
  existsb (fun s => String.eqb (st_status s) st) l = true <-> Exists (in_status st) l.
Proof.
  rewrite existsb_exists, Exists_exists. setoid_rewrite String.eqb_eq. by setoid_rewrite list_elem_of_In.
Qed.

Lemma every_status st l :
  forallb (fun s => String.eqb (st_status s) st) l = true <-> Forall (in_status st) l.
Proof.
  rewrite forallb_forall, Forall_forall. setoid_rewrite String.eqb_eq. by setoid_rewrite list_elem_of_In.
Qed.

Lemma outcome_rejected l : outcome l = Some "rejected" <-> Exists (in_status "rejected") l.
Proof.
  rewrite <-some_status. unfold outcome. destruct (existsb (fun s => String.eqb (st_status s) "rejected") l); [done|].
  by destruct (forallb (fun s => String.eqb (st_status s) "approved") l).
Qed.

Lemma outcome_approved l : outcome l = Some "approved" <-> Forall (in_status "approved") l.
Proof.
  rewrite <-every_status. unfold outcome.
  destruct (existsb (fun s => String.eqb (st_status s) "rejected") l) eqn:E;
    [|by destruct (forallb (fun s => String.eqb (st_status s) "approved") l)].
  split; [done|]. rewrite every_status, Forall_forall. intros Ha.
  apply some_status, Exists_exists in E as (s & Hs & E). specialize (Ha s Hs). unfold in_status in *. congruence.
Qed.

Lemma outcome_cases l : outcome l = None \/ outcome l = Some "approved" \/ outcome l = Some "rejected".
Proof.
  unfold outcome. destruct (existsb (fun s => _) l); [auto|]. destruct (forallb (fun s => _) l); auto.
Qed.

(** ** Frame: what a decision's effect on its target leaves alone *)

Lemma decide_review_task_stages now t st d :
  approval_stages (decide_review_task now t st d) = approval_stages d.
Proof.
  unfold decide_review_task. cbn [review_tasks set_review_tasks].
  destruct (lookup_key _ _ _); [|done]. destruct (_ && _); [|done].
  unfold decide_use_case, _notify_intake_decided.
  repeat match goal with |- context [if ?b then _ else _] => destruct b
                       | |- context [match ?o with Some _ => _ | None => _ end] => destruct o end; done.
Qed.

Lemma apply_decision_status_stages now ty id dec d :
  approval_stages (apply_decision_status now ty id dec d) = approval_stages d.
Proof.
  unfold apply_decision_status. destruct (status_by_decision dec); [|done].
  repeat match goal with |- context [if String.eqb ?a ?b then _ else _] => destruct (String.eqb a b) end;
    try done. apply decide_review_task_stages.
Qed.

Section Deciding.
Context `{PyHost} `{Digest}.

Lemma roll_up_stages now s dec d d' :
  _roll_up_subject now s dec d = Ok d' -> approval_stages d' = approval_stages d.
Proof.
  unfold _roll_up_subject. destruct (String.eqb _ _).
  { intros [= <-]. apply apply_decision_status_stages. }
  destruct (String.eqb _ _); [|by intros [= <-]].
  intros (? & ? & Hd)%rbind_Ok. by injection Hd as <-.
Qed.

Lemma update_pending_nochange id t :
  (forall r, r ∈ t -> st_stage_id r = id -> st_status r <> "pending") ->
  update (pending_stage id) (st_with_status "open") t = t.
Proof.
  intros Hr. apply update_none. intros r Hin. unfold pending_stage.
  destruct (String.eqb_spec (st_stage_id r) id) as [E|]; [|done]. cbn [andb].
  apply String.eqb_neq. by apply Hr.
Qed.

(** the stages after a decision: the decided row stamped, at most one pending
    row opened, every other row as it was *)
Lemma stages_after now s dec did actor d d' :
  apply_stage_decision now s dec did actor d = Ok d' ->
  exists q, (forall r, q r = true -> st_status r = "pending") /\
    approval_stages d' =
      update q (st_with_status "open")
        (update (open_stage (st_stage_id s))
           (stamp_stage now (if String.eqb dec "approve" then "approved" else "rejected") did actor)
           (approval_stages d)).
Proof.
  unfold apply_stage_decision. set (st := if String.eqb dec "approve" then _ else _).
  set (t := update _ _ _).
  assert (forall dd, approval_stages dd = t -> exists q, (forall r, q r = true -> st_status r = "pending") /\
    approval_stages dd = update q (st_with_status "open") t) as Hsame.
  { intros dd ->. exists (fun _ => false). split; [done|]. symmetry. by apply update_none. }
  destruct (_ =? 0). { intros [= <-]. by apply Hsame. }
  destruct (String.eqb st "rejected").
  { intros Hr%roll_up_stages. apply Hsame. by rewrite Hr. }
  destruct (forallb _ _).
  { intros Hr%roll_up_stages. apply Hsame. by rewrite Hr. }
  destruct (String.eqb (st_mode s) "sequence"); [|intros [= <-]; by apply Hsame].
  intros [= <-]. unfold open_next. destruct (find _ _) as [x|] eqn:E; [|by apply Hsame].
  exists (pending_stage (st_stage_id x)). split; [|done].
  intros r Hr. apply andb_prop in Hr as [_ Hr]. by apply String.eqb_eq.
Qed.

(** a settled stage keeps its row *)
Lemma settled_kept now s dec did actor d d' x :
  apply_stage_decision now s dec did actor d = Ok d' ->
  x ∈ approval_stages d -> settled x -> x ∈ approval_stages d'.
Proof.
  intros (q & Hq & ->)%stages_after Hx Hs.
  assert (st_status x <> "open" /\ st_status x <> "pending") as [Ho Hp] by (destruct Hs; split; congruence).
  apply elem_of_update. right. split.
  - apply elem_of_update. right. split; [done|]. unfold open_stage.
    apply andb_false_intro2. by apply String.eqb_neq.
  - destruct (q x) eqn:E; [by apply Hq in E|done].
Qed.

Lemma sync_settled_kept now ty id dec actor did d d' x :
  sync_decision_to_stages now ty id dec actor did d = Ok d' ->
  x ∈ approval_stages d -> settled x -> x ∈ approval_stages d'.
Proof.
  unfold sync_decision_to_stages. intros Hrun Hx Hs.
  destruct (negb _); [by injection Hrun as <-|].
  destruct (String.eqb _ _).
  { destruct (lookup_key _ _ _) as [s|]; [|by injection Hrun as <-]. by eapply settled_kept. }
  destruct (String.eqb _ _); [|by injection Hrun as <-].
  destruct (list_subject_stages _ _ _ _) as [|s [|]]; try by injection Hrun as <-.
  destruct (String.eqb _ _); [|by injection Hrun as <-]. injection Hrun as <-.
  apply elem_of_update. right. split; [done|]. unfold open_stage. apply andb_false_intro2, String.eqb_neq.
  destruct Hs; congruence.
Qed.
End Deciding.

(** ** Deciding keeps the shape *)

(** the stages of the round a stage belongs to *)
Definition round (d : db) (s : approval_stage) : list approval_stage :=
  list_subject_stages d (st_subject_type s) (st_subject_id s) (Some (st_review_round s)).

Lemma elem_of_round d s x :
  x ∈ round d s <-> of_round (st_subject_type s) (st_subject_id s) (st_review_round s) x = true /\
                    x ∈ approval_stages d.
Proof. unfold round, list_subject_stages. by rewrite elem_of_order_by, elem_of_select. Qed.

Lemma of_round_self s : of_round (st_subject_type s) (st_subject_id s) (st_review_round s) s = true.
Proof. unfold of_round. by rewrite !String.eqb_refl, Z.eqb_refl. Qed.

Lemma round_keys_unique d s :
  keys_unique st_stage_id (approval_stages d) -> keys_unique st_stage_id (round d s).
Proof.
  intros Hu. unfold keys_unique, round, list_subject_stages.
  eapply map_key_perm; [symmetry; apply order_by_perm|]. by apply keys_unique_select.
Qed.

(** an assignment that keeps the columns a checklist is selected and sorted by *)
Definition keeps_place (f : approval_stage -> approval_stage) : Prop :=
  forall r, st_stage_id (f r) = st_stage_id r /\ st_subject_type (f r) = st_subject_type r /\
            st_subject_id (f r) = st_subject_id r /\ st_review_round (f r) = st_review_round r /\
            st_stage_index (f r) = st_stage_index r /\ st_mode (f r) = st_mode r.

Lemma keeps_place_stamp now st did actor : keeps_place (stamp_stage now st did actor).
Proof. intros r. done. Qed.
Lemma keeps_place_open : keeps_place (st_with_status "open").
Proof. intros r. done. Qed.

Lemma round_update d d' s p f :
  keeps_place f -> approval_stages d' = update p f (approval_stages d) ->
  round d' s = update p f (round d s).
Proof.
  intros Hf E. unfold round, list_subject_stages. rewrite E.
  rewrite select_update_keep. 2:{ intros r. unfold of_round. destruct (Hf r) as (_ & -> & -> & -> & _). done. }
  apply order_by_update; intros x y; destruct (Hf x) as (_ & _ & _ & _ & Hx & _), (Hf y) as (_ & _ & _ & _ & Hy & _);
    by rewrite ?Hx, ?Hy.
Qed.

Lemma seq_at_open l1 s l2 :
  in_sequence (l1 ++ s :: l2) -> in_status "open" s ->
  Forall (in_status "approved") l1 /\ Forall (in_status "pending") l2.
Proof.
  unfold in_status. induction l1 as [|x l1 IH]; simpl; intros Hl Hs.
  - inversion Hl; subst; [unfold in_status in *; congruence|]. done.
  - inversion Hl as [|? ? Hx Hl'|? ? Hx Hp]; subst.
    + destruct (IH Hl' Hs). split; [by constructor|done].
    + rewrite Forall_app, Forall_cons in Hp. unfold in_status in Hp. destruct Hp as (_ & ? & _). congruence.
Qed.

Lemma seq_build l1 l : Forall (in_status "approved") l1 -> in_sequence l -> in_sequence (l1 ++ l).
Proof. induction 1; simpl; [done|]. intros. apply seq_approved; auto. Qed.

Lemma deciders_app l1 l2 : deciders (l1 ++ l2) = deciders l1 ++ deciders l2.
Proof. apply omap_app. Qed.

Lemma elem_of_deciders a l : a ∈ deciders l <-> exists s, s ∈ l /\ st_decided_by s = Some a.
Proof. apply list_elem_of_omap. Qed.

(** replacing an open stage by its stamped row *)
Lemma checklist_stamp mode l1 s l2 now st did actor :
  checklist mode (l1 ++ s :: l2) -> in_status "open" s -> (st = "approved" \/ st = "rejected") ->
  actor ∉ deciders (l1 ++ s :: l2) ->
  Forall (fun x => st_mode x = mode) (l1 ++ stamp_stage now st did actor s :: l2) /\
  Forall (fun x => waiting x -> st_decided_by x = None) (l1 ++ stamp_stage now st did actor s :: l2) /\
  NoDup (deciders (l1 ++ stamp_stage now st did actor s :: l2)) /\
  (mode = "parallel" -> in_parallel (l1 ++ stamp_stage now st did actor s :: l2)).
Proof.
  intros [Hm Hsh Hun Hd] Hs Hst Hact.
  rewrite Forall_app, Forall_cons in Hm, Hun. destruct Hm as (Hm1 & Hm2 & Hm3), Hun as (Hu1 & Hu2 & Hu3).
  assert (st_decided_by s = None) as Hnone by (apply Hu2; by left).
  rewrite deciders_app in Hd, Hact. unfold deciders in Hd, Hact. simpl in Hd, Hact. rewrite Hnone in Hd, Hact.
  repeat split.
  - apply Forall_app_2; [done|]. by constructor.
  - apply Forall_app_2; [done|]. constructor; [|done]. unfold waiting. simpl. destruct Hst as [-> | ->]; naive_solver.
  - rewrite deciders_app. unfold deciders. simpl. rewrite <-Permutation_middle.
    by apply NoDup_cons.
  - intros ->. simpl in Hsh. unfold in_parallel in *. rewrite Forall_app, Forall_cons in Hsh.
    destruct Hsh as (Hp1 & _ & Hp2). apply Forall_app_2; [done|]. constructor; [|done].
    right. unfold settled. simpl. done.
Qed.

(** opening the next pending stage *)
Lemma checklist_open mode l1 p l2 :
  Forall (fun x => st_mode x = mode) (l1 ++ p :: l2) ->
  Forall (fun x => waiting x -> st_decided_by x = None) (l1 ++ p :: l2) ->
  NoDup (deciders (l1 ++ p :: l2)) -> in_status "pending" p ->
  let l := l1 ++ st_with_status "open" p :: l2 in
  Forall (fun x => st_mode x = mode) l /\ Forall (fun x => waiting x -> st_decided_by x = None) l /\
  NoDup (deciders l).
Proof.
  intros Hm Hu Hd Hp l. rewrite Forall_app, Forall_cons in Hm, Hu.
  destruct Hm as (? & ? & ?), Hu as (? & Hup & ?). repeat split.
  - apply Forall_app_2; [done|]. by constructor.
  - apply Forall_app_2; [done|]. constructor; [|done]. intros _. apply Hup. by right.
  - unfold l. rewrite deciders_app in *. unfold deciders in *. simpl in *. done.
Qed.

(** opening one pending stage of a list with distinct ids *)
Lemma keys_unique_open l1 p l2 :
  in_status "pending" p -> NoDup (map st_stage_id (l1 ++ p :: l2)) ->
  update (pending_stage (st_stage_id p)) (st_with_status "open") (l1 ++ p :: l2)
  = l1 ++ st_with_status "open" p :: l2.
Proof.
  intros Hp Hu. rewrite map_app in Hu. apply NoDup_app in Hu as (_ & H1 & H2).
  simpl in H1, H2. apply NoDup_cons in H2 as [H2 _]. apply update_split.
  - unfold pending_stage. rewrite String.eqb_refl. simpl. by apply String.eqb_eq.
  - intros r Hr. apply andb_false_intro1, String.eqb_neq. intros E.
    apply (H1 (st_stage_id r)); [by apply list_elem_of_fmap_2|]. rewrite E. by left.
  - intros r Hr. apply andb_false_intro1, String.eqb_neq. intros E. apply H2. rewrite <-E.
    by apply list_elem_of_fmap_2.
Qed.

(** the tables a subject's status is read from *)
Definition same_subjects (d d' : db) : Prop :=
  review_tasks d' = review_tasks d /\ vendor_registry d' = vendor_registry d /\ ai_use_cases d' = ai_use_cases d /\
  vendor_evidence_references d' = vendor_evidence_references d.

Lemma outcome_open l s : s ∈ l -> in_status "open" s -> ~ Exists (in_status "rejected") l -> outcome l = None.
Proof.
  intros Hs Ho Hr. destruct (outcome_cases l) as [|[E|E]]; [done| |].
  - apply outcome_approved in E. rewrite Forall_forall in E. specialize (E s Hs). unfold in_status in *. congruence.
  - by apply outcome_rejected in E.
Qed.

Lemma not_rejected l : outcome l = None -> ~ Exists (in_status "rejected") l.
Proof. intros Hn Hr. apply outcome_rejected in Hr. congruence. Qed.

Section Settle.
Context `{PyHost} `{Digest}.
Variables (now did actor mode : string) (s : approval_stage) (d : db).
Hypothesis Hkeys : keys_unique st_stage_id (approval_stages d).
Hypothesis Hin : s ∈ approval_stages d.
Hypothesis Hopen : in_status "open" s.
Hypothesis Hcl : checklist mode (round d s).
Hypothesis Hnone : outcome (round d s) = None.
Hypothesis Hactor : actor ∉ deciders (round d s).

Lemma s_in_round : s ∈ round d s.
Proof. apply elem_of_round. split; [apply of_round_self|done]. Qed.

Lemma s_mode : st_mode s = mode.
Proof. destruct Hcl as [Hm _ _ _]. rewrite Forall_forall in Hm. apply Hm, s_in_round. Qed.

Lemma open_here : rowcount (open_stage (st_stage_id s)) (approval_stages d) =? 0 = false.
Proof.
  apply Nat.eqb_neq. intros E. apply (proj1 (rowcount_0 _ _) E) in Hin as Hf. unfold open_stage in Hf.
  rewrite String.eqb_refl in Hf. unfold in_status in Hopen. by rewrite Hopen in Hf.
Qed.

(** the round, split at the open stage, after the stage is stamped *)
Lemma round_stamped st d1 :
  approval_stages d1 = update (open_stage (st_stage_id s)) (stamp_stage now st did actor) (approval_stages d) ->
  exists l1 l2, round d s = l1 ++ s :: l2 /\ round d1 s = l1 ++ stamp_stage now st did actor s :: l2 /\
    NoDup (map st_stage_id (l1 ++ s :: l2)).
Proof.
  intros E. destruct (keys_unique_split st_stage_id (round d s) s) as (l1 & l2 & El & H1 & H2);
    [by apply round_keys_unique|apply s_in_round|].
  exists l1, l2. split; [done|]. split.
  - rewrite (round_update d d1 s _ _ (keeps_place_stamp now st did actor) E), El.
    apply update_split.
    + unfold open_stage. rewrite String.eqb_refl. simpl. by apply String.eqb_eq.
    + intros r Hr. unfold open_stage. apply andb_false_intro1, String.eqb_neq. by apply H1.
    + intros r Hr. unfold open_stage. apply andb_false_intro1, String.eqb_neq. by apply H2.
  - rewrite <-El. by apply round_keys_unique.
Qed.

Lemma reject_settles d' :
  apply_stage_decision now s "reject" did actor d = Ok d' ->
  checklist mode (round d' s) /\ outcome (round d' s) = Some "rejected" /\
  exists d1, same_subjects d d1 /\ _roll_up_subject now s "reject" d1 = Ok d'.
Proof.
  unfold apply_stage_decision. rewrite open_here. cbn [String.eqb Ascii.eqb Bool.eqb].
  intros Hrun. pose proof (roll_up_stages _ _ _ _ _ Hrun) as E.
  destruct (round_stamped _ _ E) as (l1 & l2 & El & El' & Hk).
  rewrite El' in *. rewrite El in *.
  destruct (checklist_stamp mode l1 s l2 now "rejected" did actor Hcl Hopen (or_intror eq_refl) Hactor)
    as (H1 & H2 & H3 & H4).
  split; [constructor; try done|split; [|eexists; split; [|exact Hrun]; done]].
  - destruct Hcl as [_ Hsh _ _]. destruct (String.eqb_spec mode "parallel"); [by apply H4|].
    destruct Hsh as [Hmode Hseq]. split; [done|]. apply seq_at_open in Hseq as [Ha Hp]; [|done].
    apply seq_build; [done|]. apply seq_current; [by right|done].
  - apply outcome_rejected, Exists_exists. eexists. split; [apply elem_of_app; right; left|]. done.
Qed.

Lemma approve_settles d' :
  apply_stage_decision now s "approve" did actor d = Ok d' ->
  checklist mode (round d' s) /\
  ((outcome (round d' s) = None /\ same_subjects d d') \/
   (outcome (round d' s) = Some "approved" /\
    exists d1, same_subjects d d1 /\ _roll_up_subject now s "approve" d1 = Ok d')).
Proof.
  unfold apply_stage_decision. rewrite open_here. rewrite s_mode. cbn [String.eqb Ascii.eqb Bool.eqb].
  set (d1 := set_approval_stages _ d). fold (round d1 s).
  destruct (round_stamped "approved" d1 eq_refl) as (l1 & l2 & El & El' & Hk).
  pose proof (not_rejected _ Hnone) as Hnr. rewrite El in *.
  destruct (checklist_stamp mode l1 s l2 now "approved" did actor Hcl Hopen (or_introl eq_refl) Hactor)
    as (H1 & H2 & H3 & H4). destruct Hcl as [_ Hsh _ _].
  assert (~ Exists (in_status "rejected") (round d1 s)) as Hnr1.
  { rewrite El', Exists_app, Exists_cons. rewrite Exists_app, Exists_cons in Hnr.
    unfold in_status in *. simpl. naive_solver. }
  destruct (forallb _ _) eqn:Hall.
  { intros Hrun. pose proof (roll_up_stages _ _ _ _ _ Hrun) as E.
    assert (round d' s = round d1 s) as -> by (unfold round, list_subject_stages; by rewrite E).
    apply every_status in Hall. split; [|right; split; [by apply outcome_approved|by exists d1]].
    rewrite El' in *. constructor; try done. destruct (String.eqb_spec mode "parallel"); [by apply H4|].
    split; [by destruct Hsh|]. rewrite <-(app_nil_r (l1 ++ _)). apply seq_build; [done|constructor]. }
  assert (~ Forall (in_status "approved") (round d1 s)) as Hna
    by (intros Hf; apply every_status in Hf; congruence).
  destruct (String.eqb_spec mode "sequence") as [->|Hmode].
  - cbn [String.eqb Ascii.eqb Bool.eqb] in Hsh. destruct Hsh as [_ Hseq]. apply seq_at_open in Hseq as [Ha Hp]; [|done].
    destruct l2 as [|p l3].
    { destruct Hna. rewrite El'. apply Forall_app_2; [done|]. by repeat constructor. }
    assert (in_status "pending" p) as Hpp by (by inversion Hp).
    unfold open_next. rewrite El'.
    replace (find _ _) with (Some p).
    2:{ symmetry. clear - Ha Hpp. induction Ha as [|x l1 Hx Ha IH]; simpl.
        - by rewrite (proj2 (String.eqb_eq _ _) Hpp).
        - unfold in_status in Hx. rewrite Hx. exact IH. }
    set (d2 := _notify_stage_opened _ _). intros [= <-].
    set (pre := l1 ++ [stamp_stage now "approved" did actor s]).
    assert (round d1 s = pre ++ p :: l3) as Epre by (unfold pre; by rewrite El', <-app_assoc).
    rewrite El' in Epre. rewrite El', Epre in Hnr1. rewrite Epre in H1, H2, H3.
    rewrite (round_update d1 d2 s (pending_stage (st_stage_id p)) _ keeps_place_open eq_refl).
    rewrite El', Epre, keys_unique_open; [|done|].
    2:{ revert Hk. unfold pre. rewrite !map_app. simpl. by rewrite <-app_assoc. }
    destruct (checklist_open "sequence" pre p l3 H1 H2 H3 Hpp) as (K1 & K2 & K3).
    split; [constructor; try done|].
    + split; [done|]. apply seq_build; [by apply Forall_app_2; [|repeat constructor]|].
      apply seq_current; [by left|by inversion Hp].
    + left. split; [|done]. apply outcome_open with (s := st_with_status "open" p); [|done|].
      * apply elem_of_app. right. left.
      * rewrite Exists_app, Exists_cons in Hnr1 |- *. unfold in_status in *. simpl in *. naive_solver.
  - intros [= <-]. destruct (String.eqb_spec mode "parallel") as [->|]; [|by destruct Hsh].
    rewrite El' in *. split; [constructor; try done; by apply H4|]. left. split; [|done].
    destruct (outcome_cases (round d1 s)) as [E|[E|E]].
    + by rewrite El' in E.
    + apply outcome_approved in E. by rewrite El' in E.
    + apply outcome_rejected in E. by rewrite El' in E.
Qed.
End Settle.

(** ** Rolling up to the subject *)

Definition decision_status (dec : string) : string :=
  if String.eqb dec "approve" then "approved" else "rejected".

Lemma decide_use_case_review_tasks now i t st d : review_tasks (decide_use_case now i t st d) = review_tasks d.
Proof.
  unfold decide_use_case, _notify_intake_decided.
  repeat match goal with |- context [if ?b then _ else _] => destruct b
                       | |- context [match ?o with Some _ => _ | None => _ end] => destruct o end; done.
Qed.

Lemma decide_review_task_row now t st d :
  review_tasks (decide_review_task now t st d)
  = update_key rt_task_id t (fun r => rt_with_updated_at now (rt_with_status st r)) (review_tasks d).
Proof.
  unfold decide_review_task. cbn [review_tasks set_review_tasks].
  destruct (lookup_key _ _ _); [|done]. destruct (_ && _); [|done]. apply decide_use_case_review_tasks.
Qed.

(** an intake review moves its use case along *)
Lemma decide_use_case_row now i t st d u :
  u ∈ ai_use_cases (decide_use_case now i t st d) -> uc_intake_id u = i -> uc_status u = st.
Proof.
  intros Hu Hi.
  assert (u ∈ update (fun u => String.eqb (uc_intake_id u) i && negb (String.eqb (uc_status u) st))
    (fun u => uc_with_updated_at now (uc_with_status st u)) (ai_use_cases d)) as Hin.
  { revert Hu. unfold decide_use_case, _notify_intake_decided.
    repeat match goal with |- context [if ?b then _ else _] => destruct b
                         | |- context [match ?o with Some _ => _ | None => _ end] => destruct o end; done. }
  apply elem_of_update in Hin as [(x & _ & _ & ->)|[_ E]]; [done|].
  rewrite Hi, String.eqb_refl in E. cbn [andb] in E. apply negb_false_iff in E. by apply String.eqb_eq.
Qed.

Section RollUp.
Context `{PyHost} `{Digest}.

Lemma roll_up_subject_status now s dec d d' x :
  dec = "approve" \/ dec = "reject" ->
  _roll_up_subject now s dec d = Ok d' -> load_stage_subject d s = Ok x ->
  stage_subject_undecided s x = true ->
  exists x', load_stage_subject d' s = Ok x' /\ subject_status x' = decision_status dec.
Proof.
  intros Hdec. unfold _roll_up_subject, load_stage_subject.
  destruct (String.eqb (st_subject_type s) "review_task").
  { intros [= <-]. destruct (lookup_key rt_task_id _ _) as [r|] eqn:Er; [|done]. intros [= <-] _.
    assert (apply_decision_status now "review_task" (st_subject_id s) dec d =
            decide_review_task now (st_subject_id s) (decision_status dec) d) as ->
      by (destruct Hdec as [-> | ->]; reflexivity).
    rewrite decide_review_task_row. unfold update_key. rewrite lookup_key_update by done. rewrite Er. simpl.
    apply lookup_key_Some in Er as [_ Er].
    rewrite (proj2 (has_key_true rt_task_id _ r) Er). eexists. by split. }
  destruct (String.eqb (st_subject_type s) "vendor_review"); [|done].
  intros (? & _ & Hrun)%rbind_Ok. injection Hrun as <-.
  destruct (lookup_key vd_vendor_id _ _) as [v|] eqn:Ev; [|done]. intros [= <-] Hu.
  cbn [stage_subject_undecided] in Hu. apply andb_prop in Hu as [Hst Hrd].
  cbn [vendor_registry set_vendor_registry]. rewrite lookup_key_update by done. rewrite Ev. simpl.
  apply lookup_key_Some in Ev as [_ <-]. rewrite String.eqb_refl, Hst, Hrd. cbn [andb].
  eexists. split; [done|]. done.
Qed.

Lemma load_stage_subject_same d d' s :
  same_subjects d d' -> load_stage_subject d' s = load_stage_subject d s.
Proof. intros (Hr & Hv & _ & _). unfold load_stage_subject. by rewrite Hr, Hv. Qed.

(** deciding an open stage of an unsettled checklist keeps the checklist's
    shape, and decides the subject exactly when the checklist has an outcome *)
Lemma decision_settles now did actor mode s dec d d' x :
  keys_unique st_stage_id (approval_stages d) -> s ∈ approval_stages d -> in_status "open" s ->
  checklist mode (round d s) -> outcome (round d s) = None -> actor ∉ deciders (round d s) ->
  load_stage_subject d s = Ok x -> stage_subject_undecided s x = true ->
  dec = "approve" \/ dec = "reject" ->
  apply_stage_decision now s dec did actor d = Ok d' ->
  checklist mode (round d' s) /\ (dec = "reject" -> outcome (round d' s) = Some "rejected") /\
  exists x', load_stage_subject d' s = Ok x' /\
    (outcome (round d' s) = None /\ x' = x \/ outcome (round d' s) = Some (subject_status x')).
Proof.
  intros Hk Hin Ho Hcl Hn Ha Hx Hund Hdec Hrun. destruct Hdec as [-> | ->].
  - edestruct approve_settles as (H1 & H2); [done..|]. split; [done|]. split; [done|].
    destruct H2 as [[H2 H3]|(H2 & d1 & H3 & H4)].
    + exists x. rewrite (load_stage_subject_same _ _ _ H3). auto.
    + rewrite <-(load_stage_subject_same _ _ s H3) in Hx.
      destruct (roll_up_subject_status _ _ _ _ _ _ (or_introl eq_refl) H4 Hx Hund) as (x' & Hx' & Hs).
      exists x'. split; [done|]. right. by rewrite H2, Hs.
  - edestruct reject_settles as (H1 & H2 & d1 & H3 & H4); [done..|]. split; [done|]. split; [done|].
    rewrite <-(load_stage_subject_same _ _ s H3) in Hx.
    destruct (roll_up_subject_status _ _ _ _ _ _ (or_intror eq_refl) H4 Hx Hund) as (x' & Hx' & Hs).
    exists x'. split; [done|]. right. by rewrite H2, Hs.
Qed.
End RollUp.
