(* ===== verification/StageStart.v ===== *)
(** * Starting a review: the checklist a policy materializes

    Materializing writes one row per stage of the policy in force, in order,
    and pins the policy's tenant and version on each.  A second materialization
    of the same round changes nothing, whatever the policy has become. *)

From stdpp Require Import base list strings option pretty sets gmap.
From Stdlib Require Import ZArith Lia.
From S2P Require Import Prelude Py Sql Schema PolicyDoc PolicyValid PolicyRead Rbac PolicyStore PolicyInForce PolicyGuarantees Workflow Stages StageRules.

Open Scope nat_scope.

Section Start.
Context `{PyHost} `{Digest}.
Variables (now mode policy_tenant : string) (policy_version : Z) (sj : subject).

(** the row of one stage *)
Definition stage_row (index : Z) (role : string) (label : option string) : approval_stage :=
  mk_approval_stage (_stage_id (sj_type sj) (sj_id sj) (sj_round sj) index)
    (sj_tenant sj) (sj_project sj) (sj_environment sj) (sj_application sj) (sj_type sj) (sj_id sj)
    (sj_round sj) policy_tenant policy_version index role label mode
    (if String.eqb mode "parallel" || (index =? 0)%Z then "open" else "pending") None None now None.

Fixpoint rows_from (index : Z) (l : list (string * option string)) : list approval_stage :=
  match l with
  | [] => []
  | (role, label) :: l' => stage_row index role label :: rows_from (index + 1) l'
  end.

(** the role and label of each stage entry *)
Definition reads (v : pyval) (x : string * option string) : Prop :=
  stage_role v = Ok (fst x) /\ stage_label v = Ok (snd x).

Lemma insert_stage_row index t v x r :
  reads v x -> st_stage_id (stage_row index (fst x) (snd x)) ∉ map st_stage_id t ->
  insert_stage now mode policy_tenant policy_version sj (index, t) v = Ok r ->
  r = ((index + 1)%Z, t ++ [stage_row index (fst x) (snd x)]).
Proof.
  intros [Hr Hl] Hn. unfold insert_stage. rewrite Hr, Hl. cbn [rbind]. intros [= <-].
  f_equal. unfold insert_or_ignore. fold (stage_row index (fst x) (snd x)).
  apply lookup_key_None in Hn. by rewrite Hn.
Qed.

Lemma insert_stage_reads a v r :
  insert_stage now mode policy_tenant policy_version sj a v = Ok r -> exists x, reads v x.
Proof.
  destruct a as [index t]. unfold insert_stage.
  intros (role & Hr & (label & Hl & _)%rbind_Ok)%rbind_Ok. by exists (role, label).
Qed.

(** the ids of a checklist of [n] stages *)
Fixpoint ids_from (index : Z) (n : nat) : list string :=
  match n with
  | O => []
  | S n' => _stage_id (sj_type sj) (sj_id sj) (sj_round sj) index :: ids_from (index + 1) n'
  end.

Lemma insert_stages l : forall index t r,
  rfold (insert_stage now mode policy_tenant policy_version sj) (index, t) l = Ok r ->
  NoDup (map st_stage_id t ++ ids_from index (length l)) ->
  exists rl, Forall2 reads l rl /\ snd r = t ++ rows_from index rl.
Proof.
  induction l as [|v l IH]; intros index t r Hrun Hnd; cbn [rfold] in Hrun.
  { injection Hrun as <-. exists []. split; [constructor|]. by rewrite app_nil_r. }
  apply rbind_Ok in Hrun as (a & Ha & Hrun). destruct (insert_stage_reads _ _ _ Ha) as (x & Hx).
  cbn [length ids_from] in Hnd.
  assert (st_stage_id (stage_row index (fst x) (snd x)) ∉ map st_stage_id t) as Hn.
  { intros Hin. apply NoDup_app in Hnd as (_ & Hd & _). apply (Hd _ Hin). by left. }
  rewrite (insert_stage_row _ _ _ _ _ Hx Hn Ha) in Hrun.
  destruct (IH _ _ _ Hrun) as (rl & Hrl & ->).
  { rewrite map_app, <-app_assoc. exact Hnd. }
  exists (x :: rl). split; [by constructor|]. rewrite <-app_assoc. by destruct x.
Qed.

Lemma in_rows_from rl : forall index s, s ∈ rows_from index rl ->
  exists i role label, (index <= i)%Z /\ s = stage_row i role label.
Proof.
  induction rl as [|[role label] rl IH]; intros index s; cbn [rows_from]; [by intros ?%elem_of_nil|].
  intros [->|Hs]%elem_of_cons; [by exists index, role, label|].
  destruct (IH _ _ Hs) as (i & ro & la & ? & ->). exists i, ro, la. split; [lia|done].
Qed.

Lemma rows_from_round rl index :
  select (of_round (sj_type sj) (sj_id sj) (sj_round sj)) (rows_from index rl) = rows_from index rl.
Proof.
  unfold select.
  revert index; induction rl as [|[role label] rl IH]; intros index; [done|]. cbn [rows_from].
  rewrite filter_cons, decide_True; [by rewrite IH|]. unfold of_round. simpl. by rewrite !String.eqb_refl, Z.eqb_refl.
Qed.

Lemma rows_from_ordered rl : forall index,
  order_by (fun a b => (st_stage_index a <=? st_stage_index b)%Z) (rows_from index rl) = rows_from index rl.
Proof.
  induction rl as [|[role label] rl IH]; intros index; [done|]. cbn [rows_from]. simpl. rewrite IH.
  destruct rl as [|[ro la] rl]; [done|]. cbn [rows_from order_insert].
  simpl. replace (index <=? index + 1)%Z with true; [done|]. symmetry. apply Z.leb_le. lia.
Qed.

Lemma rows_from_roles rl index : map st_required_role (rows_from index rl) = map fst rl.
Proof. revert index; induction rl as [|[role label] rl IH]; intros index; simpl; [done|]. by rewrite IH. Qed.

Lemma rows_from_checklist rl :
  mode ∈ _STAGE_MODES -> checklist mode (rows_from 0 rl).
Proof.
  intros Hmode. constructor.
  - apply Forall_forall. intros s (i & ro & la & _ & ->)%in_rows_from. done.
  - destruct (String.eqb_spec mode "parallel") as [Em|Em].
    + apply Forall_forall. intros s (i & ro & la & _ & ->)%in_rows_from. left.
      unfold in_status. simpl. by rewrite Em.
    + split. { unfold _STAGE_MODES in Hmode. set_solver. }
      destruct rl as [|[role label] rl]; [constructor|]. cbn [rows_from]. apply seq_current.
      * left. unfold in_status. simpl. by rewrite orb_true_r.
      * apply Forall_forall. intros s (i & ro & la & Hi & ->)%in_rows_from. unfold in_status. simpl.
        apply String.eqb_neq in Em. rewrite Em. replace (i =? 0)%Z with false; [done|].
        symmetry. apply Z.eqb_neq. lia.
  - apply Forall_forall. intros s (i & ro & la & _ & ->)%in_rows_from. done.
  - unfold deciders. replace (omap st_decided_by (rows_from 0 rl)) with (@nil string); [constructor|].
    generalize 0%Z. induction rl as [|[role label] rl IH]; intros z; [done|]. simpl. apply IH.
Qed.

Lemma rows_from_outcome rl : rl <> [] -> outcome (rows_from 0 rl) = None.
Proof.
  intros Hne. destruct (outcome_cases (rows_from 0 rl)) as [|[E|E]]; [done|exfalso..].
  - apply outcome_approved in E. destruct rl as [|[role label] rl]; [done|].
    inversion E as [|? ? Hs _]. unfold in_status in Hs. simpl in Hs. by rewrite orb_true_r in Hs.
  - apply outcome_rejected, Exists_exists in E as (s & (i & ro & la & _ & ->)%in_rows_from & E).
    unfold in_status in E. simpl in E. by destruct (_ || _).
Qed.
End Start.

(** [materialize_stages] on a round without stages, and on one with some *)
Section Materialize.
Context `{PyHost} `{Digest}.

Definition round_of (sj : subject) (d : db) : list approval_stage :=
  list_subject_stages d (sj_type sj) (sj_id sj) (Some (sj_round sj)).

(** the ids the rows get are new and do not collide *)
Definition fresh_ids (d : db) (sj : subject) (n : nat) : Prop :=
  NoDup (map st_stage_id (approval_stages d) ++ ids_from sj 0 n).

Lemma fresh_ids_le d sj n m : n <= m -> fresh_ids d sj m -> fresh_ids d sj n.
Proof.
  intros Hn. assert (exists rest, ids_from sj 0 m = ids_from sj 0 n ++ rest) as [rest E].
  { revert Hn. generalize 0%Z. revert m. induction n as [|n IH]; intros m z Hm; [by eexists|].
    destruct m as [|m]; [lia|]. destruct (IH m (z + 1)%Z) as [rest E]; [lia|]. exists rest. simpl. by rewrite E. }
  unfold fresh_ids. rewrite E, app_assoc. intros Hf. by apply NoDup_app in Hf as (? & _).
Qed.

Lemma round_of_nil sj d :
  round_of sj d = [] <->
  select1 (of_round (sj_type sj) (sj_id sj) (sj_round sj)) (approval_stages d) = None.
Proof.
  unfold round_of, list_subject_stages. rewrite order_by_nil. unfold select1.
  by destruct (select _ _).
Qed.

Lemma materialize_first now sj stages mode pt pv d b d' :
  round_of sj d = [] -> fresh_ids d sj (length stages) ->
  materialize_stages now sj stages mode pt pv d = Ok (b, d') ->
  b = true /\ exists rl, Forall2 reads stages rl /\
    d' = set_approval_stages (approval_stages d ++ rows_from now mode pt pv sj 0 rl) d /\
    round_of sj d' = rows_from now mode pt pv sj 0 rl.
Proof.
  intros Hnil Hfresh. unfold materialize_stages. rewrite (proj1 (round_of_nil _ _) Hnil).
  intros (r & Hr & Hrun)%rbind_Ok. injection Hrun as <- <-. split; [done|].
  destruct (insert_stages _ _ _ _ _ _ _ _ _ Hr Hfresh) as (rl & Hrl & E). exists rl.
  rewrite E. split; [done|]. split; [done|].
  unfold round_of, list_subject_stages in *. cbn [approval_stages set_approval_stages].
  apply order_by_nil in Hnil. rewrite select_app, Hnil, rows_from_round. apply rows_from_ordered.
Qed.

Lemma materialize_again now sj stages mode pt pv d :
  round_of sj d <> [] -> materialize_stages now sj stages mode pt pv d = Ok (false, d).
Proof.
  intros Hne. unfold materialize_stages. destruct (select1 _ _) eqn:E; [done|].
  destruct Hne. by apply round_of_nil.
Qed.

(** Materializing a policy's stages for a subject without stages writes one
    stage per entry, in the policy's order and with its roles, all pinned to
    the policy's tenant and version: an undecided checklist with only its first
    stage open, or all of them when the mode is parallel.  After that no policy
    change touches the round: materializing any other stages for it, in any
    mode, leaves the database as it is. *)
Theorem materialization_pins now sj stages mode pt pv d b d' :
  mode ∈ _STAGE_MODES -> stages <> [] -> round_of sj d = [] -> fresh_ids d sj (length stages) ->
  materialize_stages now sj stages mode pt pv d = Ok (b, d') ->
  b = true /\ checklist mode (round_of sj d') /\ outcome (round_of sj d') = None /\
  Forall2 (fun v s => stage_role v = Ok (st_required_role s)) stages (round_of sj d') /\
  Forall (fun s => st_policy_tenant s = pt /\ st_policy_version s = pv) (round_of sj d') /\
  forall now' stages' mode' pt' pv',
    materialize_stages now' sj stages' mode' pt' pv' d' = Ok (false, d').
Proof.
  intros Hmode Hne Hnil Hfresh Hrun.
  destruct (materialize_first _ _ _ _ _ _ _ _ _ Hnil Hfresh Hrun) as (-> & rl & Hrl & -> & Hround).
  assert (rl <> []) as Hrl0 by (intros ->; inversion Hrl; by subst).
  rewrite !Hround. split_and!; [done|by apply rows_from_checklist|by apply rows_from_outcome| | |].
  - clear - Hrl. generalize 0%Z. induction Hrl as [|v [role label] l rl [Hr _] _ IH]; intros z; simpl; constructor; auto.
  - apply Forall_forall. intros s (i & ro & la & _ & ->)%in_rows_from. done.
  - intros. apply materialize_again. rewrite Hround. destruct rl as [|[]]; [done|]. discriminate.
Qed.
End Materialize.

(** ** Under validated policies the checklist is the policy's *)

Section Governed.
Context `{PyHost} `{Digest}.

Lemma valid_stage_reads g v : valid_stage g v -> exists x, reads v x.
Proof.
  intros (d & role & -> & _ & Hr & _ & _ & Hl). unfold field in Hl.
  destruct Hl as [Hl|(label & Hl & _)]; [exists (role, None)|exists (role, Some label)];
    split; cbn [fst snd stage_role stage_label]; rewrite ?Hr; try done;
    unfold stage_label; rewrite py_get_dict; unfold field; by rewrite Hl.
Qed.

Definition readable (stages : pyval) : Prop :=
  exists l, stages = PList l /\ Forall (fun v => exists x, reads v x) l.

Lemma single_reviewer_readable : readable (PList single_reviewer).
Proof. eexists. split; [done|]. repeat constructor. by exists ("governance_reviewer", None). Qed.

Lemma stages_or_reviewer_readable g de stages :
  valid_stages g (field de "stages" PNone) -> stages_or_reviewer (PDict de) = Ok stages -> readable stages.
Proof.
  intros (l & Hl & _ & HF). unfold stages_or_reviewer. rewrite py_get_dict, Hl. cbn [rbind]. intros [= <-].
  unfold py_or. destruct (truthy (PList l)); [|apply single_reviewer_readable].
  exists l. split; [done|]. eapply Forall_impl; [exact HF|]. apply valid_stage_reads.
Qed.

(** what the resolver returns was read from a valid entry, or is the built-in one *)
Lemma tier_stages_readable d t tier sp :
  policies_ok d -> resolve_tier_policy d t tier = Ok sp -> readable (sp_stages sp).
Proof.
  intros Hok. destruct (in_force_valid d t Hok) as (g & Hb & Hd).
  destruct (valid_tiers g _ tier Hb) as (x & Hx & Hxv). destruct (valid_tiers g _ tier Hd) as (y & Hy & Hyv).
  unfold resolve_tier_policy.
  destruct (entry_or_default_agrees d t (fun body => read_tier body tier) x y) as (policy & -> & _).
  { by rewrite (read_tier_valid g). } { by rewrite (read_tier_valid g). }
  cbn [rbind]. set (e := if is_none _ then _ else _).
  intros (stages & Hs & Hrun)%rbind_Ok. apply rbind_Ok in Hrun as (mode & _ & Hrun).
  apply rbind_Ok in Hrun as (days & _ & Hrun). injection Hrun as <-. cbn [sp_stages].
  assert ((exists de, e = PDict de /\ valid_stages g (field de "stages" PNone)) \/
          stages_or_reviewer e = Ok (PList single_reviewer)) as [(de & Ee & Hv)|E].
  { unfold e. destruct (is_none x) eqn:Ex; [destruct (is_none y) eqn:Ey|]; simpl; rewrite ?Ex, ?Ey.
    - by right.
    - destruct Hyv as [->|(_ & de & Hde & _ & Hv & _)]; [done|]. left. exists de. by simpl in Hde.
    - destruct Hxv as [->|(_ & de & Hde & _ & Hv & _)]; [done|]. left. exists de. by simpl in Hde. }
  - rewrite Ee in Hs. by eapply stages_or_reviewer_readable.
  - rewrite E in Hs. injection Hs as <-. apply single_reviewer_readable.
Qed.

Lemma insert_stage_total now mode pt pv sj a v :
  (exists x, reads v x) -> exists r, insert_stage now mode pt pv sj a v = Ok r.
Proof. intros (x & Hr & Hl). destruct a as [index t]. unfold insert_stage. rewrite Hr, Hl. by eexists. Qed.

Lemma materialize_total now sj stages mode pt pv d :
  Forall (fun v => exists x, reads v x) stages ->
  exists r, materialize_stages now sj stages mode pt pv d = Ok r.
Proof.
  intros HF. unfold materialize_stages. destruct (select1 _ _); [by eexists|].
  assert (forall a, exists r, rfold (insert_stage now mode pt pv sj) a stages = Ok r) as Hr.
  { induction HF as [|v l Hv _ IH]; intros a; cbn [rfold]; [by eexists|].
    destruct (insert_stage_total now mode pt pv sj a v Hv) as [r ->]. apply IH. }
  destruct (Hr (0%Z, approval_stages d)) as [r ->]. by eexists.
Qed.

Lemma reads_roles l rl roles :
  rmap (fun stage => py_get stage "role") l = Ok (map PStr roles) -> Forall2 reads l rl -> map fst rl = roles.
Proof.
  intros Hroles%rmap_Ok Hrl. revert roles Hroles.
  induction Hrl as [|v [role label] l rl [Hv _] _ IH]; intros roles HR.
  - inversion HR. by destruct roles.
  - destruct roles as [|ro roles]; inversion HR as [|? ? ? ? Hg HR']; subst. simpl. f_equal; [|by apply IH].
    simpl in Hv. unfold stage_role in Hv. destruct v as [| | | | | |dv]; try done.
    rewrite py_get_dict in Hg. unfold field in Hg. destruct (assoc "role" dv) as [[]|]; try done.
    simpl in Hg. congruence.
Qed.

(** the subject of an intake's review task *)
Definition intake_subject (task_id : string) (record : scope) : subject :=
  mk_subject "review_task" task_id 0 (sc_tenant record) (sc_project record) (sc_environment record)
    (sc_application record).

(** With validated policies stored, starting an intake review always
    succeeds, and the review it starts asks for exactly the roles of the tier's
    policy in force, in its order and mode, pinned to that policy's version. *)
Theorem intake_review_follows_policy now task_id record tier d :
  policies_ok d -> round_of (intake_subject task_id record) d = [] ->
  fresh_ids d (intake_subject task_id record) MAX_STAGES_PER_SUBJECT ->
  exists d' sp roles days mode,
    materialize_intake_stages now task_id record tier d = Ok d' /\
    resolve_tier_policy d (sc_tenant record) tier = Ok sp /\ resolved_stages sp roles days /\
    1 <= length roles <= MAX_STAGES_PER_SUBJECT /\ sp_mode sp = PStr mode /\
    let l := round_of (intake_subject task_id record) d' in
    checklist mode l /\ outcome l = None /\ map st_required_role l = roles /\
    Forall (fun s => st_policy_tenant s = sp_policy_tenant sp /\ st_policy_version s = sp_policy_version sp) l.
Proof.
  intros Hok Hnil Hfresh.
  destruct (resolve_tier_agrees d (sc_tenant record) tier Hok)
    as (? & sp & roles & days & _ & _ & Hr & _ & Hsp & Hrs & mode & Hm & Hmode).
  destruct (tier_stages_readable _ _ _ _ Hok Hsp) as (l & Hl & HF).
  pose proof Hrs as (l' & Hl' & Hroles & _). rewrite Hl in Hl'. injection Hl' as <-.
  assert (length roles = length l) as Hlen.
  { apply rmap_Ok, Forall2_length in Hroles. by rewrite Hroles, length_map. }
  destruct (materialize_total now (intake_subject task_id record) l mode (sp_policy_tenant sp)
    (sp_policy_version sp) d HF) as ([b d'] & Hrun).
  destruct (materialize_first now _ l mode (sp_policy_tenant sp)
    (sp_policy_version sp) d b d' Hnil) as (-> & rl & Hrl & Ed & Hround); [|done|].
  { eapply fresh_ids_le; [|exact Hfresh]. unfold roles_ok in Hr. lia. }
  exists d', sp, roles, days, mode.
  assert (rl <> []) as Hne.
  { intros ->. apply Forall2_length in Hrl. simpl in Hrl. unfold roles_ok in Hr. lia. }
  split_and!; try done.
  - unfold materialize_intake_stages. rewrite Hsp. cbn [rbind]. rewrite Hl. cbn [py_iter rbind].
    rewrite Hm. cbn [mode_text rbind]. unfold intake_subject in Hrun. by rewrite Hrun.
  - apply Hr.
  - apply Hr.
  - cbn zeta. rewrite Hround. split_and!.
    + by apply rows_from_checklist.
    + by apply rows_from_outcome.
    + rewrite rows_from_roles. by eapply reads_roles.
    + apply Forall_forall. intros s Hs. apply in_rows_from in Hs as (i & ro & la & _ & ->). done.
Qed.
End Governed.

(** ** A review starts in an organization whose policy asks for two reviewers *)

Module Demo.
Import PolicyGuarantees.Demo.

Definition task : review_task :=
  mk_review_task "task-1" "intake-1" (Some "acme") "claims" "production" "triage" "intake_review" "open"
    "high" "Review triage" "high-risk use case" "2026-03-01 10:00:00" "2026-03-01 10:00:00"
    None None None "unassigned" None.
Definition use_case_row : use_case :=
  mk_use_case "intake-1" (Some "acme") "claims" "production" "triage" "triage letters" "" "" "confidential"
    "advisory" true "high" "submitted" "ann" None "2026-03-01 10:00:00" "2026-03-01 10:00:00".
Definition record : scope := mk_scope (Some "acme") "claims" "production" "triage".
Definition submitted : db := set_ai_use_cases [use_case_row] (set_review_tasks [task] activated).
Definition started : db :=
  match materialize_intake_stages "2026-03-01 10:00:00" "task-1" record "high" submitted with
  | Ok d => d | Raise _ => submitted end.

Lemma policies_ok_same d d' :
  governance_policies d' = governance_policies d -> policies_ok d -> policies_ok d'.
Proof. intros E []. by constructor; rewrite E. Qed.

Lemma submitted_ok : policies_ok submitted.
Proof.
  apply (policies_ok_same activated); [reflexivity|].
  apply (activate_policy_ok "t2" "acme" 1 "ann" drafted (match activate_policy "t2" "acme" 1 "ann" drafted with
    | Ok (row, _) => row | Raise _ => shipped_default end) activated).
  - apply drafted_ok.
  - vm_compute. reflexivity.
Qed.

Lemma submitted_fresh n : n <= 10 -> fresh_ids submitted (intake_subject "task-1" record) n.
Proof.
  intros Hn. apply (fresh_ids_le submitted _ n 10 Hn). unfold fresh_ids.
  apply (bool_decide_unpack (NoDup _)). vm_compute. exact I.
Qed.
End Demo.
Import PolicyGuarantees.Demo.

Lemma materialization_pins_witness :
  exists d', materialize_stages "t" (intake_subject "task-1" Demo.record)
      [PDict [("role", PStr "governance_reviewer")]] "parallel" "acme" 1 Demo.submitted = Ok (true, d') /\
    outcome (round_of (intake_subject "task-1" Demo.record) d') = None.
Proof.
  eexists. split; [vm_compute; reflexivity|].
  eapply (materialization_pins "t" (intake_subject "task-1" Demo.record)
    [PDict [("role", PStr "governance_reviewer")]] "parallel" "acme" 1 Demo.submitted true).
  - apply mem_true. vm_compute. reflexivity.
  - discriminate.
  - vm_compute. reflexivity.
  - apply Demo.submitted_fresh. vm_compute. lia.
  - vm_compute. reflexivity.
Defined.

Lemma intake_review_follows_policy_witness :
  exists d' sp, materialize_intake_stages "t" "task-1" Demo.record "high" Demo.submitted = Ok d' /\
    resolve_tier_policy Demo.submitted (Some "acme") "high" = Ok sp.
Proof.
  destruct (intake_review_follows_policy "t" "task-1" Demo.record "high" Demo.submitted)
    as (d' & sp & _ & _ & _ & Hd & Hsp & _).
  - apply Demo.submitted_ok.
  - vm_compute. reflexivity.
  - apply Demo.submitted_fresh. vm_compute. lia.
  - exists d', sp. by split.
Defined.
