(* ===== verification/StageDecisions.v ===== *)
(** * Recording decisions and deciding a stage (storage/workflow.py, api/policy.py)

    A decision is an immutable row: recording one applies it to its target and
    to the stage checklist, replaying it returns the row and does nothing.
    [decide_approval_stage] is the whole endpoint, every check and write of it in
    order; it runs in one transaction, so an exception leaves the database as it
    was. *)

From stdpp Require Import base list strings option pretty sets gmap.
From Stdlib Require Import ZArith Lia.
From S2P Require Import Prelude Py Dates Sql Schema PolicyDoc Rbac PolicyStore Queue Workflow Stages.

Open Scope nat_scope.

Section Decide.
Context `{PyHost} `{Digest}.

(** ** [record_decision] *)

Definition decision_key (target_type target_id decision rationale actor_ref : string) : string :=
  entity_id [Some "governance-decision"; Some target_type; Some target_id; Some decision;
             Some rationale; Some actor_ref].

Definition decision_row (now : string) (target : decision_target)
    (target_type target_id decision rationale actor_ref : string) : governance_decision :=
  mk_governance_decision (decision_key target_type target_id decision rationale actor_ref)
    (tgt_tenant_id target) (tgt_project target) (tgt_environment target) (tgt_application_name target)
    target_type target_id decision rationale actor_ref now.

Definition record_decision (now target_type target_id decision rationale actor_ref : string)
    (tenant_id : option string) (d : db) : res (governance_decision * db) :=
  let! target := load_decision_target d target_type target_id tenant_id in
  let decision_id := decision_key target_type target_id decision rationale actor_ref in
  match lookup_key gd_decision_id decision_id (governance_decisions d) with
  | Some existing => Ok (existing, d)
  | None =>
      let row := decision_row now target target_type target_id decision rationale actor_ref in
      let d := set_governance_decisions
        (insert_or_ignore gd_decision_id row (governance_decisions d)) d in
      let d := apply_decision_status now target_type target_id decision d in
      let! d := sync_decision_to_stages now target_type target_id decision actor_ref decision_id d in
      Ok (row, d)
  end.

(** ** [decide_approval_stage] *)

(** the target the access checks see *)
Definition stage_target (s : approval_stage) : target :=
  mk_target (st_tenant_id s) (Some (st_project s)) (Some (st_environment s)) (Some "approval_stage") false.

Definition SOD_MAKER : string :=
  "Segregation of duties: a user cannot record a decision on work they originated".
Definition SOD_SIBLING : string :=
  "Segregation of duties: each approval stage of a subject must be decided by a different person".

Record stage_response := mk_stage_response {
  rs_stage : approval_stage;
  rs_decision : governance_decision;
  rs_stages : list approval_stage;
  rs_subject_status : string
}.

Definition stage_audit (actor : ActorContext) (s : approval_stage) (decision : string) : audit_entry :=
  mk_audit_entry (user_ref actor) "stage.decide" (st_tenant_id s) "approval_stage" (st_stage_id s)
    (PDict [("decision", PStr decision); ("subject_type", PStr (st_subject_type s));
            ("subject_id", PStr (st_subject_id s)); ("stage_index", PInt (st_stage_index s));
            ("required_role", PStr (st_required_role s)); ("policy_tenant", PStr (st_policy_tenant s));
            ("policy_version", PInt (st_policy_version s))]).

(** the checks, in the order of the endpoint *)
Definition stage_guards (actor : ActorContext) (s : approval_stage) (d : db) : res unit :=
  let! subject := load_stage_subject d s in
  let! _ := throw_if (negb (stage_subject_undecided s subject))
    (HTTPException 409 "the subject of this stage has already been decided") in
  let! _ := throw_if (mem (st_status s) ["approved"; "rejected"])
    (HTTPException 409 ("this stage has already been " +:+ st_status s +:+ " and is terminal")) in
  let! _ := throw_if (negb (String.eqb (st_status s) "open"))
    (HTTPException 409 "this stage is not open yet; earlier stages of the sequence must be approved first") in
  let! _ := or_forbidden (let! _ := require_decision d actor (stage_target s) in
                          require_stage_role d actor (st_required_role s) (stage_target s)) in
  let maker := stage_maker d subject in
  let! _ := throw_if (truthy_str maker && bool_decide (maker = Some (user_ref actor)))
    (HTTPException 403 SOD_MAKER) in
  throw_if (actor_decided_sibling_stage d s (user_ref actor)) (HTTPException 403 SOD_SIBLING).

Definition load_stage_or_404 (d : db) (stage_id : string) : res approval_stage :=
  match load_stage d stage_id with
  | Raise (RecordNotFound msg) => Raise (HTTPException 404 msg)
  | c => c
  end.

Definition decide_approval_stage (now : string) (now_dt : Z) (stage_id decision rationale : string)
    (actor : ActorContext) (d : db) : res (stage_response * db) :=
  let! _ := throw_if (negb (mem decision ["approve"; "reject"]))
    (HTTPException 400 "stage decisions must be 'approve' or 'reject'") in
  let! s := load_stage_or_404 d stage_id in
  let! _ := stage_guards actor s d in
  let! recorded := record_decision now "approval_stage" stage_id decision rationale (user_ref actor) None d in
  let (row, d) := recorded : governance_decision * db in
  let d := record_audit (stage_audit actor s decision) d in
  let! d :=
    if String.eqb (st_subject_type s) "review_task"
    then refresh_workflow_state now now_dt
           (Some [(st_tenant_id s, st_project s, st_environment s, st_application_name s)]) d
    else Ok d in
  let! updated := load_stage d stage_id in
  let! subject := load_stage_subject d updated in
  Ok (mk_stage_response updated row
        (list_subject_stages d (st_subject_type s) (st_subject_id s) (Some (st_review_round s)))
        (subject_status subject), d).
End Decide.
