(* ===== verification/StageDecisionRules.v ===== *)
(** * Who decides a stage, and what a decision leaves behind

    Every stage decision is made by somebody entitled to it; the reviews of the
    platform stay well formed whatever is decided; and neither a recorded
    decision nor a decided stage ever changes again. *)

From stdpp Require Import base list strings option pretty sets gmap.
From Stdlib Require Import ZArith Lia.
From S2P Require Import Prelude Py Dates Sql Schema PolicyDoc Rbac PolicyStore PolicyGuarantees Queue QueueRules Workflow Stages StageRules StageStart StageDecisions.

Open Scope nat_scope.

Section Rules.
Context `{PyHost} `{Digest}.

(** ** Who decides *)

(** the rules the endpoint states for the person deciding *)
Record entitled (d : db) (actor : ActorContext) (s : approval_stage) : Prop := {
  en_active : active_user d (user_ref actor);
  en_scope : in_actor_scope actor (stage_target s);
  en_permission : exists a, in_force d (user_ref actor) a /\ covers_target a (stage_target s) /\
    granted d (ra_role a) PERM_REVIEW_DECIDE;
  en_role : actor_satisfies_stage_role d actor (st_required_role s) (stage_target s) = true;
  en_not_maker : forall x, load_stage_subject d s = Ok x -> stage_maker d x <> Some (user_ref actor) \/
    user_ref actor = EmptyString;
  en_distinct : forall x, x ∈ round d s -> st_stage_id x <> st_stage_id s ->
    st_decided_by x <> Some (user_ref actor)
}.

Lemma sibling_spec d s ref :
  actor_decided_sibling_stage d s ref = false <->
  forall x, x ∈ round d s -> st_stage_id x <> st_stage_id s -> st_decided_by x <> Some ref.
Proof.
  unfold actor_decided_sibling_stage.
  assert (forall A (o : option A), (match o with Some _ => true | None => false end) = false <-> o = None) as Hm
    by (intros A []; done).
  rewrite Hm, select1_None. setoid_rewrite elem_of_round. split.
  - intros Hall x [Hr Hx] Hne Hd. specialize (Hall x Hx). rewrite Hr, Hd in Hall. simpl in Hall.
    rewrite String.eqb_refl, andb_true_r in Hall. apply negb_false_iff, String.eqb_eq in Hall. done.
  - intros Hall x Hx. destruct (of_round _ _ _ x) eqn:Er; [|done].
    destruct (String.eqb_spec (st_stage_id x) (st_stage_id s)) as [|Hne]; [done|].
    specialize (Hall x (conj Er Hx) Hne). cbn [andb negb]. unfold sql_eq.
    destruct (st_decided_by x) as [y|]; [|done]. apply String.eqb_neq. congruence.
Qed.

Lemma stage_guards_Ok actor s d u :
  stage_guards actor s d = Ok u ->
  entitled d actor s /\ st_status s = "open" /\
  exists x, load_stage_subject d s = Ok x /\ stage_subject_undecided s x = true.
Proof.
  unfold stage_guards. intros Hrun. apply rbind_Ok in Hrun as (x & Hx & Hrun).
  apply rbind_Ok in Hrun as (? & Hund%throw_if_Ok & Hrun).
  apply rbind_Ok in Hrun as (? & _ & Hrun). apply rbind_Ok in Hrun as (? & Hopen%throw_if_Ok & Hrun).
  apply rbind_Ok in Hrun as (? & Hperm & Hrun). apply or_forbidden_elim in Hperm.
  apply rbind_Ok in Hperm as ([] & Hdec & Hrole). apply rbind_Ok in Hrun as (? & Hmaker & Hsib).
  apply throw_if_Ok in Hmaker. apply throw_if_Ok in Hsib.
  apply negb_false_iff in Hund, Hopen. apply String.eqb_eq in Hopen.
  split; [|split; [done|by exists x]].
  unfold require_decision in Hdec. apply require_permission_Ok in Hdec as (Ha & Hs & Hp).
  constructor; try done.
  - by apply require_stage_role_Ok in Hrole.
  - intros y Hy. rewrite Hx in Hy. injection Hy as <-. apply andb_false_iff in Hmaker as [Hm|Hm].
    + destruct (decide (user_ref actor = EmptyString)) as [|Hne]; [by right|left]. intros E. rewrite E in Hm.
      simpl in Hm. apply negb_false_iff, is_empty_true in Hm. done.
    + left. by apply bool_decide_eq_false in Hm.
  - by apply sibling_spec.
Qed.

(** ** The reviews of a database *)

(** the stage's subject still waits for a decision *)
Definition undecided_in (d : db) (s : approval_stage) : bool :=
  match load_stage_subject d s with Ok x => stage_subject_undecided s x | Raise _ => false end.

(** every round is a well-formed checklist, and a subject that still waits has
    one without an outcome *)
Record reviews_ok (d : db) : Prop := {
  rv_keys : keys_unique st_stage_id (approval_stages d);
  rv_checklist : forall s, s ∈ approval_stages d -> exists mode, checklist mode (round d s);
  rv_undecided : forall s, s ∈ approval_stages d -> undecided_in d s = true -> outcome (round d s) = None
}.

(** the same of the subjects of some type only *)
Record reviews_of (P : string -> Prop) (d : db) : Prop := {
  ro_keys : keys_unique st_stage_id (approval_stages d);
  ro_checklist : forall s, s ∈ approval_stages d -> P (st_subject_type s) -> exists mode, checklist mode (round d s);
  ro_undecided : forall s, s ∈ approval_stages d -> P (st_subject_type s) -> undecided_in d s = true ->
    outcome (round d s) = None
}.

Lemma reviews_ok_of d : reviews_ok d <-> reviews_of (fun _ => True) d.
Proof. split; intros [Hk Hc Hn]; constructor; auto. Qed.

Definition same_round (s s' : approval_stage) : Prop :=
  st_subject_type s = st_subject_type s' /\ st_subject_id s = st_subject_id s' /\
  st_review_round s = st_review_round s'.
#[local] Instance same_round_dec s s' : Decision (same_round s s').
Proof. unfold same_round. apply _. Defined.

Lemma of_round_spec s x :
  of_round (st_subject_type s) (st_subject_id s) (st_review_round s) x = true <-> same_round x s.
Proof. unfold of_round, same_round. rewrite !andb_true_iff, !String.eqb_eq, Z.eqb_eq. tauto. Qed.

Lemma same_round_round d s s' : same_round s s' -> round d s = round d s'.
Proof. intros (E1 & E2 & E3). unfold round. by rewrite E1, E2, E3. Qed.

Lemma same_round_undecided d s s' : same_round s s' -> undecided_in d s = undecided_in d s'.
Proof.
  intros (E1 & E2 & E3). unfold undecided_in, load_stage_subject, stage_subject_undecided. by rewrite E1, E2, E3.
Qed.

Lemma round_same d d' s : approval_stages d' = approval_stages d -> round d' s = round d s.
Proof. intros E. unfold round, list_subject_stages. by rewrite E. Qed.

(** an update of rows of one round leaves the others as they were *)
Lemma round_elsewhere d d' p f s s' :
  keeps_place f -> approval_stages d' = update p f (approval_stages d) ->
  (forall r, r ∈ approval_stages d -> p r = true -> same_round r s) -> ~ same_round s' s ->
  round d' s' = round d s'.
Proof.
  intros Hf E Hp Hne. unfold round, list_subject_stages. rewrite E. f_equal. apply select_update_other.
  intros r Hr Ht. destruct (Hp r Hr Ht) as (E1 & E2 & E3).
  assert (of_round (st_subject_type s') (st_subject_id s') (st_review_round s') r = false) as Hno.
  { apply not_true_is_false. rewrite of_round_spec. intros (F1 & F2 & F3). apply Hne. split_and!; congruence. }
  split; [done|]. rewrite <-Hno. unfold of_round. by destruct (Hf r) as (_ & -> & -> & -> & _).
Qed.

Lemma apply_stage_elsewhere now s dec did actor d d' s' :
  keys_unique st_stage_id (approval_stages d) -> s ∈ approval_stages d ->
  apply_stage_decision now s dec did actor d = Ok d' -> ~ same_round s' s -> round d' s' = round d s'.
Proof.
  intros Hu Hin Hrun Hne. unfold apply_stage_decision in Hrun.
  set (st := if String.eqb dec "approve" then _ else _) in Hrun.
  set (d1 := set_approval_stages _ d) in Hrun.
  assert (round d1 s' = round d s') as E1.
  { eapply (round_elsewhere d d1 _ _ s); [apply keeps_place_stamp|reflexivity| |done].
    intros r Hr Hp. unfold open_stage in Hp. apply andb_prop in Hp as [Hp _]. apply String.eqb_eq in Hp.
    by rewrite (keys_unique_eq st_stage_id _ _ _ Hu Hr Hin Hp). }
  assert (forall x, approval_stages x = approval_stages d1 -> round x s' = round d s') as Hsame
    by (intros x Ex; by rewrite (round_same d1 x s' Ex)).
  destruct (_ =? 0); [injection Hrun as <-; by apply Hsame|].
  destruct (String.eqb st "rejected"); [by apply Hsame; eapply roll_up_stages|].
  destruct (forallb _ _); [by apply Hsame; eapply roll_up_stages|].
  destruct (String.eqb (st_mode s) "sequence"); [|injection Hrun as <-; by apply Hsame].
  injection Hrun as <-. unfold open_next. destruct (find _ _) as [x|] eqn:Ef; [|by apply Hsame].
  rewrite <-E1. eapply (round_elsewhere d1 _ _ _ s); [apply keeps_place_open|reflexivity| |done].
  apply find_some in Ef as [Hx _]. apply list_elem_of_In in Hx.
  change (x ∈ round d1 s) in Hx.
  apply elem_of_round in Hx as [Hx Hxin]. apply of_round_spec in Hx.
  assert (keys_unique st_stage_id (approval_stages d1)) as Hu1 by (apply keys_unique_update; done).
  intros r Hr Hp. unfold pending_stage in Hp. apply andb_prop in Hp as [Hp _]. apply String.eqb_eq in Hp.
  by rewrite (keys_unique_eq st_stage_id _ _ _ Hu1 Hr Hxin Hp).
Qed.

(** a decision never makes a subject wait again *)
Lemma undecided_same d d' s : same_subjects d d' -> undecided_in d' s = undecided_in d s.
Proof. intros Hs. unfold undecided_in. by rewrite (load_stage_subject_same _ _ _ Hs). Qed.

Lemma decided_status dec : dec = "approve" \/ dec = "reject" ->
  status_by_decision dec = Some (decision_status dec) /\
  String.eqb (decision_status dec) "open" = false /\ String.eqb (decision_status dec) "under_review" = false.
Proof. by intros [-> | ->]. Qed.

Lemma decide_review_task_vendors now t st d :
  vendor_registry (decide_review_task now t st d) = vendor_registry d.
Proof.
  unfold decide_review_task, decide_use_case, _notify_intake_decided. cbn zeta.
  repeat match goal with |- context [if ?b then _ else _] => destruct b
                       | |- context [match ?o with Some _ => _ | None => _ end] => destruct o end; done.
Qed.

Lemma roll_up_undecided now s dec d d' s' :
  dec = "approve" \/ dec = "reject" ->
  _roll_up_subject now s dec d = Ok d' -> undecided_in d' s' = true -> undecided_in d s' = true.
Proof.
  intros Hdec. destruct (decided_status dec Hdec) as (Hst & Ho & Hur). unfold _roll_up_subject.
  destruct (String.eqb (st_subject_type s) "review_task").
  - intros [= <-]. unfold undecided_in, load_stage_subject, apply_decision_status. rewrite Hst.
    change (String.eqb "review_task" "review_task") with true. cbn [andb].
    destruct (String.eqb (st_subject_type s') "review_task").
    + rewrite decide_review_task_row. unfold update_key. rewrite lookup_key_update by done.
      destruct (lookup_key rt_task_id (st_subject_id s') (review_tasks d)) as [r|]; [|done]. simpl.
      destruct (has_key _ _ _); [|done]. simpl. by rewrite Ho.
    + by rewrite decide_review_task_vendors.
  - destruct (String.eqb (st_subject_type s) "vendor_review"); [|by intros [= <-]].
    intros (? & _ & Hrun)%rbind_Ok. injection Hrun as <-. unfold undecided_in, load_stage_subject.
    destruct (String.eqb (st_subject_type s') "review_task"); [done|].
    destruct (String.eqb (st_subject_type s') "vendor_review"); [|done].
    cbn [vendor_registry set_vendor_registry]. rewrite lookup_key_update by done.
    destruct (lookup_key vd_vendor_id (st_subject_id s') (vendor_registry d)) as [v|]; [|done]. simpl.
    destruct (_ && String.eqb (vd_status v) "under_review"); [|done].
    unfold decision_status in Hur. simpl. by rewrite Hur.
Qed.

Lemma undecided_in_true d s : undecided_in d s = true ->
  exists x, load_stage_subject d s = Ok x /\ stage_subject_undecided s x = true.
Proof. unfold undecided_in. destruct (load_stage_subject d s) as [x|]; [by exists x|done]. Qed.

Lemma decided_not_waiting s x o :
  outcome o = Some (subject_status x) -> stage_subject_undecided s x = false.
Proof.
  intros Ho. destruct (outcome_cases o) as [E|[E|E]]; rewrite E in Ho; [done|..]; injection Ho as Ho;
    destruct x as [r|v]; cbn [subject_status stage_subject_undecided] in *; by rewrite <-Ho.
Qed.

Lemma apply_stage_undecided now s dec did actor d d' s' :
  dec = "approve" \/ dec = "reject" ->
  apply_stage_decision now s dec did actor d = Ok d' -> undecided_in d' s' = true -> undecided_in d s' = true.
Proof.
  intros Hdec Hrun. unfold apply_stage_decision in Hrun. set (d1 := set_approval_stages _ d) in Hrun.
  assert (forall x, same_subjects d1 x -> undecided_in x s' = true -> undecided_in d s' = true) as Hsame.
  { intros x Hx. rewrite (undecided_same _ _ s' Hx). done. }
  assert (forall k, k = "approve" \/ k = "reject" -> _roll_up_subject now s k d1 = Ok d' ->
    undecided_in d' s' = true -> undecided_in d s' = true) as Hroll
    by (intros k Hk Hr; by apply (roll_up_undecided now s k d1 d' s' Hk Hr)).
  destruct (_ =? 0); [injection Hrun as <-; by apply Hsame|].
  destruct (String.eqb _ "rejected"); [apply (Hroll "reject"); auto|].
  destruct (forallb _ _); [apply (Hroll "approve"); auto|].
  destruct (String.eqb (st_mode s) "sequence"); [|injection Hrun as <-; by apply Hsame].
  injection Hrun as <-. apply Hsame. unfold open_next. by destruct (find _ _).
Qed.

Lemma apply_stage_origin now s dec did actor d d' s' :
  apply_stage_decision now s dec did actor d = Ok d' -> s' ∈ approval_stages d' ->
  exists s0, s0 ∈ approval_stages d /\ same_round s' s0.
Proof.
  intros (q & _ & ->)%stages_after Hin.
  assert (exists s1, s1 ∈ update (open_stage (st_stage_id s))
    (stamp_stage now (if String.eqb dec "approve" then "approved" else "rejected") did actor) (approval_stages d) /\
    same_round s' s1) as (s1 & Hs1 & Hr1).
  { apply elem_of_update in Hin as [(x & Hx & _ & ->)|[Hx _]]; [by exists x|by exists s']. }
  apply elem_of_update in Hs1 as [(x & Hx & _ & ->)|[Hx _]]; [by exists x|by exists s1].
Qed.

Lemma not_a_decider P d s ref :
  reviews_of P d -> s ∈ approval_stages d -> P (st_subject_type s) -> st_status s = "open" ->
  (forall x, x ∈ round d s -> st_stage_id x <> st_stage_id s -> st_decided_by x <> Some ref) ->
  ref ∉ deciders (round d s).
Proof.
  intros Hok Hin HP Ho Hsib (x & Hx & Hd)%elem_of_deciders.
  destruct (decide (st_stage_id x = st_stage_id s)) as [E|Hne]; [|by apply (Hsib x Hx)].
  apply elem_of_round in Hx as Hx'. destruct Hx' as [_ Hxin].
  assert (x = s) as -> by (by apply (keys_unique_eq st_stage_id _ _ _ (ro_keys P d Hok))).
  destruct (ro_checklist P d Hok s Hin HP) as (mode & [_ _ Hun _]). rewrite Forall_forall in Hun.
  rewrite (Hun s Hx) in Hd; [done|by left].
Qed.

(** the decided round, when it is one of those *)
Lemma apply_settles P now s dec did actor d d' :
  reviews_of P d -> s ∈ approval_stages d -> P (st_subject_type s) -> st_status s = "open" -> undecided_in d s = true ->
  actor ∉ deciders (round d s) -> dec = "approve" \/ dec = "reject" ->
  apply_stage_decision now s dec did actor d = Ok d' ->
  (exists mode, checklist mode (round d' s)) /\ (dec = "reject" -> outcome (round d' s) = Some "rejected") /\
  exists x', load_stage_subject d' s = Ok x' /\
    (outcome (round d' s) = None /\ load_stage_subject d s = Ok x' \/
     outcome (round d' s) = Some (subject_status x')).
Proof.
  intros Hok Hin HP Ho Hund Ha Hdec Hrun.
  destruct (ro_checklist P d Hok s Hin HP) as (mode & Hcl).
  pose proof (ro_undecided P d Hok s Hin HP Hund) as Hn.
  destruct (undecided_in_true _ _ Hund) as (x & Hx & Hux).
  destruct (decision_settles now did actor mode s dec d d' x (ro_keys P d Hok) Hin Ho Hcl Hn Ha Hx Hux Hdec Hrun)
    as (Hcl' & Hrej & x' & Hx' & Hout).
  split; [by exists mode|split; [done|exists x'; split; [done|]]].
  destruct Hout as [[Hout ->]|Hout]; [by left|by right].
Qed.

Lemma apply_keeps_of P now s dec did actor d d' :
  reviews_of P d -> s ∈ approval_stages d -> st_status s = "open" -> undecided_in d s = true ->
  (P (st_subject_type s) -> actor ∉ deciders (round d s)) -> dec = "approve" \/ dec = "reject" ->
  apply_stage_decision now s dec did actor d = Ok d' -> reviews_of P d'.
Proof.
  intros Hok Hin Ho Hund Ha Hdec Hrun. pose proof (ro_keys P d Hok) as Hu. constructor.
  - destruct (stages_after _ _ _ _ _ _ _ Hrun) as (q & _ & ->).
    by apply keys_unique_update, keys_unique_update.
  - intros s' Hs' HP. destruct (apply_stage_origin _ _ _ _ _ _ _ _ Hrun Hs') as (s0 & Hs0 & Hr0).
    rewrite (same_round_round _ _ _ Hr0). assert (P (st_subject_type s0)) as HP0 by (by destruct Hr0 as (<- & _)).
    destruct (decide (same_round s0 s)) as [Hr|Hr].
    + assert (P (st_subject_type s)) as HPs by (by destruct Hr as (<- & _)). rewrite (same_round_round _ _ _ Hr).
      by destruct (apply_settles P _ _ _ _ _ _ _ Hok Hin HPs Ho Hund (Ha HPs) Hdec Hrun) as (? & _).
    + rewrite (apply_stage_elsewhere _ _ _ _ _ _ _ _ Hu Hin Hrun Hr). by apply (ro_checklist P d Hok).
  - intros s' Hs' HP Hu'. destruct (apply_stage_origin _ _ _ _ _ _ _ _ Hrun Hs') as (s0 & Hs0 & Hr0).
    rewrite (same_round_round _ _ _ Hr0). rewrite (same_round_undecided _ _ _ Hr0) in Hu'.
    assert (P (st_subject_type s0)) as HP0 by (by destruct Hr0 as (<- & _)).
    destruct (decide (same_round s0 s)) as [Hr|Hr].
    + rewrite (same_round_round _ _ _ Hr). rewrite (same_round_undecided _ _ _ Hr) in Hu'.
      assert (P (st_subject_type s)) as HPs by (by destruct Hr as (<- & _)).
      destruct (apply_settles P _ _ _ _ _ _ _ Hok Hin HPs Ho Hund (Ha HPs) Hdec Hrun) as (_ & _ & x' & Hx' & Hout).
      unfold undecided_in in Hu'. rewrite Hx' in Hu'. destruct Hout as [[Hout _]|Hout]; [done|].
      by rewrite (decided_not_waiting _ _ _ Hout) in Hu'.
    + rewrite (apply_stage_elsewhere _ _ _ _ _ _ _ _ Hu Hin Hrun Hr).
      apply (ro_undecided P d Hok s0 Hs0 HP0). by eapply apply_stage_undecided.
Qed.

Lemma apply_keeps_reviews now s dec did actor d d' :
  reviews_ok d -> s ∈ approval_stages d -> st_status s = "open" -> undecided_in d s = true ->
  actor ∉ deciders (round d s) -> dec = "approve" \/ dec = "reject" ->
  apply_stage_decision now s dec did actor d = Ok d' ->
  reviews_ok d' /\ (dec = "reject" -> outcome (round d' s) = Some "rejected") /\
  exists x', load_stage_subject d' s = Ok x' /\
    (outcome (round d' s) = None /\ load_stage_subject d s = Ok x' \/
     outcome (round d' s) = Some (subject_status x')).
Proof.
  rewrite !reviews_ok_of. intros Hok Hin Ho Hund Ha Hdec Hrun. split; [by eapply apply_keeps_of|].
  exact (proj2 (apply_settles _ _ _ _ _ _ _ _ Hok Hin I Ho Hund Ha Hdec Hrun)).
Qed.

(** ** The endpoint *)

Lemma reviews_ok_frame d d' :
  approval_stages d' = approval_stages d -> (forall s, undecided_in d' s = undecided_in d s) ->
  reviews_ok d -> reviews_ok d'.
Proof.
  intros E Hu [Hk Hc Hn]. constructor.
  - by rewrite E.
  - intros s Hs. rewrite E in Hs. rewrite (round_same d d' s E). by apply Hc.
  - intros s Hs. rewrite E in Hs. rewrite (round_same d d' s E), Hu. by apply Hn.
Qed.

Lemma lookup_unrouted t t' id :
  map unrouted t' = map unrouted t ->
  unrouted <$> lookup_key rt_task_id id t' = unrouted <$> lookup_key rt_task_id id t.
Proof.
  revert t'; induction t as [|r t IH]; intros [|r' t'] E; try done.
  assert (unrouted r' = unrouted r) as Er by exact (f_equal (fun l => default r' (head l)) E).
  assert (map unrouted t' = map unrouted t) as Et by exact (f_equal tail E).
  rewrite !lookup_key_cons. unfold has_key.
  assert (rt_task_id r' = rt_task_id r) as -> by exact (f_equal rt_task_id Er).
  destruct (bool_decide _); [|by apply IH]. exact (f_equal Some Er).
Qed.

Lemma rerouted_status d d' s x' :
  rerouted d d' -> load_stage_subject d' s = Ok x' ->
  exists x, load_stage_subject d s = Ok x /\ subject_status x' = subject_status x /\
    stage_subject_undecided s x' = stage_subject_undecided s x.
Proof.
  intros [Ht Hr]. unfold load_stage_subject.
  assert (vendor_registry d' = vendor_registry d) as -> by exact (f_equal vendor_registry Ht).
  destruct (String.eqb _ _); [|by intros Hx; exists x'].
  pose proof (lookup_unrouted _ _ (st_subject_id s) Hr) as E.
  destruct (lookup_key _ _ (review_tasks d')) as [r'|], (lookup_key _ _ (review_tasks d)) as [r|]; try done.
  intros [= <-]. exists (SReviewTask r). apply (inj Some) in E.
  assert (rt_status r' = rt_status r) as Es by exact (f_equal rt_status E).
  cbn [subject_status stage_subject_undecided]. by rewrite Es.
Qed.

Lemma load_stage_subject_error d d' s : rerouted d d' ->
  forall x, load_stage_subject d s = Ok x -> exists x', load_stage_subject d' s = Ok x'.
Proof.
  intros [Ht Hr] x. unfold load_stage_subject.
  assert (vendor_registry d' = vendor_registry d) as -> by exact (f_equal vendor_registry Ht).
  destruct (String.eqb _ _); [|by exists x].
  pose proof (lookup_unrouted _ _ (st_subject_id s) Hr) as E.
  destruct (lookup_key _ _ (review_tasks d')) as [r'|], (lookup_key _ _ (review_tasks d)) as [r|]; try done.
  by eexists.
Qed.

Lemma rerouted_undecided d d' s : rerouted d d' -> undecided_in d' s = undecided_in d s.
Proof.
  intros Hre. unfold undecided_in. destruct (load_stage_subject d' s) as [x'|] eqn:E'.
  - by destruct (rerouted_status _ _ _ _ Hre E') as (x & -> & _ & ->).
  - destruct (load_stage_subject d s) as [x|] eqn:E; [|done].
    destruct (load_stage_subject_error _ _ _ Hre _ E) as [? ?]. congruence.
Qed.

Lemma record_stage_decision_Ok now id dec rationale ref d row d' :
  dec = "approve" \/ dec = "reject" ->
  record_decision now "approval_stage" id dec rationale ref None d = Ok (row, d') ->
  exists s, lookup_key st_stage_id id (approval_stages d) = Some s /\
    let key := decision_key "approval_stage" id dec rationale ref in
    (lookup_key gd_decision_id key (governance_decisions d) = Some row /\ d' = d \/
     lookup_key gd_decision_id key (governance_decisions d) = None /\
     exists rows, apply_stage_decision now s dec key ref (set_governance_decisions rows d) = Ok d').
Proof.
  intros Hdec. unfold record_decision. intros (target & Ht & Hrun)%rbind_Ok.
  assert (exists s, lookup_key st_stage_id id (approval_stages d) = Some s) as [s Hs].
  { revert Ht. unfold load_decision_target. cbn [String.eqb Ascii.eqb Bool.eqb].
    destruct (select1 _ (approval_stages d)) as [s|] eqn:E; [intros _|done]. exists s.
    unfold lookup_key. erewrite <-E. unfold select1. f_equal. apply select_ext. intros r _.
    unfold tenant_clause. cbn [truthy_str]. rewrite andb_true_r. unfold has_key.
    destruct (String.eqb_spec (st_stage_id r) id); [by apply bool_decide_eq_true|by apply bool_decide_eq_false]. }
  exists s. split; [done|]. cbn zeta. destruct (lookup_key gd_decision_id _ _) as [existing|] eqn:E.
  { injection Hrun as <- <-. by left. }
  right. split; [done|]. apply rbind_Ok in Hrun as (d2 & Hsync & Hd). injection Hd as _ <-.
  unfold sync_decision_to_stages in Hsync.
  assert (forall x, apply_decision_status now "approval_stage" id dec x = x) as Hid.
  { intros x. unfold apply_decision_status. by destruct Hdec as [-> | ->]. }
  rewrite Hid in Hsync. cbn [approval_stages set_governance_decisions] in Hsync. rewrite Hs in Hsync.
  eexists. destruct Hdec as [-> | ->]; exact Hsync.
Qed.

Lemma lookup_stamped now s dec did actor d d' :
  dec = "approve" \/ dec = "reject" -> keys_unique st_stage_id (approval_stages d) ->
  s ∈ approval_stages d -> st_status s = "open" ->
  apply_stage_decision now s dec did actor d = Ok d' ->
  lookup_key st_stage_id (st_stage_id s) (approval_stages d') =
    Some (stamp_stage now (decision_status dec) did actor s).
Proof.
  intros Hdec Hu Hin Ho Hrun. destruct (stages_after _ _ _ _ _ _ _ Hrun) as (q & Hq & ->).
  rewrite !lookup_key_update by done. rewrite (lookup_key_unique st_stage_id _ _ s Hu Hin eq_refl). simpl.
  unfold open_stage. rewrite String.eqb_refl, Ho. cbn [andb String.eqb Ascii.eqb Bool.eqb].
  destruct (q _) eqn:E; [|done]. apply Hq in E. destruct Hdec as [-> | ->]; discriminate.
Qed.

(** a decision as the endpoint reports it *)
Record decided_stage (d d' : db) (actor : ActorContext) (dec : string) (s : approval_stage)
    (resp : stage_response) : Prop := {
  ds_stage : st_stage_id (rs_stage resp) = st_stage_id s /\ rs_stage resp ∈ approval_stages d' /\
    st_decided_by (rs_stage resp) = Some (user_ref actor) /\ st_status (rs_stage resp) = decision_status dec;
  ds_stages : rs_stages resp = round d' s;
  ds_reject : dec = "reject" -> rs_subject_status resp = "rejected";
  ds_subject : outcome (rs_stages resp) = Some (rs_subject_status resp) \/
    outcome (rs_stages resp) = None /\
    (exists x, load_stage_subject d s = Ok x /\ rs_subject_status resp = subject_status x);
  ds_evidence : st_subject_type s = "vendor_review" -> rs_subject_status resp = "approved" ->
    expired_references d (st_subject_id s) = []
}.

(** a vendor becomes approved only while none of its evidence has lapsed *)
Lemma approval_needs_evidence now s dec did actor d d' x x' :
  reviews_ok d -> s ∈ approval_stages d -> st_status s = "open" -> undecided_in d s = true ->
  actor ∉ deciders (round d s) -> dec = "approve" \/ dec = "reject" ->
  apply_stage_decision now s dec did actor d = Ok d' -> st_subject_type s = "vendor_review" ->
  load_stage_subject d s = Ok x -> load_stage_subject d' s = Ok x' -> subject_status x' = "approved" ->
  expired_references d (st_subject_id s) = [].
Proof.
  intros Hok Hin Ho Hund Ha Hdec Hrun Hty Hx Hx' Happ.
  destruct (rv_checklist d Hok s Hin) as (mode & Hcl). pose proof (rv_undecided d Hok s Hin Hund) as Hn.
  assert (stage_subject_undecided s x = true) as Hux by (unfold undecided_in in Hund; by rewrite Hx in Hund).
  destruct Hdec as [-> | ->].
  - destruct (approve_settles now did actor mode s d (rv_keys d Hok) Hin Ho Hcl Hn Ha d' Hrun)
      as (_ & [[_ Hsame]|(_ & d1 & Hsame & Hroll)]).
    + rewrite (load_stage_subject_same _ _ _ Hsame), Hx in Hx'. injection Hx' as <-.
      unfold load_stage_subject in Hx. rewrite Hty in Hx. cbn [String.eqb Ascii.eqb Bool.eqb] in Hx.
      destruct (lookup_key vd_vendor_id _ _) as [v|]; [|done]. injection Hx as <-.
      cbn [stage_subject_undecided subject_status] in *. by rewrite Happ in Hux.
    + unfold _roll_up_subject in Hroll. rewrite Hty in Hroll. cbn [String.eqb Ascii.eqb Bool.eqb] in Hroll.
      apply rbind_Ok in Hroll as (? & Hreq & _). unfold require_no_expired_evidence in Hreq.
      destruct Hsame as (_ & _ & _ & Hev). unfold expired_references in *. rewrite Hev in Hreq.
      by destruct (order_by _ _).
  - destruct (reject_settles now did actor mode s d (rv_keys d Hok) Hin Ho Hcl Hn Ha d' Hrun)
      as (_ & _ & d1 & Hsame & Hroll).
    rewrite <-(load_stage_subject_same _ _ s Hsame) in Hx.
    destruct (roll_up_subject_status _ _ _ _ _ _ (or_intror eq_refl) Hroll Hx Hux) as (y & Hy & Hs).
    rewrite Hx' in Hy. injection Hy as <-. rewrite Hs in Happ. done.
Qed.

(** what the endpoint does after the decision is recorded: audit and re-route *)
Lemma finish_frame now now_dt actor dec s d1 d2 :
  (if String.eqb (st_subject_type s) "review_task"
   then refresh_workflow_state now now_dt
          (Some [(st_tenant_id s, st_project s, st_environment s, st_application_name s)])
          (record_audit (stage_audit actor s dec) d1)
   else Ok (record_audit (stage_audit actor s dec) d1)) = Ok d2 ->
  approval_stages d2 = approval_stages d1 /\ (forall s', undecided_in d2 s' = undecided_in d1 s') /\
  governance_decisions d2 = governance_decisions d1 /\
  (forall s' x', load_stage_subject d2 s' = Ok x' ->
     exists x, load_stage_subject d1 s' = Ok x /\ subject_status x' = subject_status x).
Proof.
  destruct (String.eqb _ _).
  - intros Href. apply rerouted_refresh in Href. split_and!.
    + exact (sr_stages _ _ (rerouted_same_routing _ _ Href)).
    + intros s'. exact (rerouted_undecided _ _ s' Href).
    + exact (f_equal governance_decisions (rr_tables _ _ Href)).
    + intros s' x' Hx'. destruct (rerouted_status _ _ _ _ Href Hx') as (y & Hy & E & _). by exists y.
  - intros [= <-]. split_and!; try done. intros s' x' Hx'. by exists x'.
Qed.

(** a successful request, taken apart: the stage and its subject, the recorded
    decision or its replay, and what the response reads *)
Lemma decide_run now now_dt id dec rationale actor d resp d' :
  decide_approval_stage now now_dt id dec rationale actor d = Ok (resp, d') ->
  (dec = "approve" \/ dec = "reject") /\ exists s sj row d1 updated subj,
    lookup_key st_stage_id id (approval_stages d) = Some s /\ entitled d actor s /\ st_status s = "open" /\
    load_stage_subject d s = Ok sj /\ stage_subject_undecided s sj = true /\
    (let key := decision_key "approval_stage" id dec rationale (user_ref actor) in
     lookup_key gd_decision_id key (governance_decisions d) = Some row /\ d1 = d \/
     lookup_key gd_decision_id key (governance_decisions d) = None /\
     exists rows, apply_stage_decision now s dec key (user_ref actor) (set_governance_decisions rows d) = Ok d1) /\
    (if String.eqb (st_subject_type s) "review_task"
     then refresh_workflow_state now now_dt
            (Some [(st_tenant_id s, st_project s, st_environment s, st_application_name s)])
            (record_audit (stage_audit actor s dec) d1)
     else Ok (record_audit (stage_audit actor s dec) d1)) = Ok d' /\
    load_stage d' id = Ok updated /\ load_stage_subject d' updated = Ok subj /\
    resp = mk_stage_response updated row
      (list_subject_stages d' (st_subject_type s) (st_subject_id s) (Some (st_review_round s))) (subject_status subj).
Proof.
  unfold decide_approval_stage. intros (? & Hm%throw_if_Ok & Hrun)%rbind_Ok.
  apply negb_false_iff, mem_true in Hm.
  assert (dec = "approve" \/ dec = "reject") as Hdec by set_solver. clear Hm. split; [done|].
  apply rbind_Ok in Hrun as (s & Hs & Hrun).
  assert (lookup_key st_stage_id id (approval_stages d) = Some s) as Hlk.
  { unfold load_stage_or_404, load_stage in Hs. destruct (lookup_key _ _ _); [congruence|done]. }
  apply rbind_Ok in Hrun as ([] & Hg & Hrun).
  apply stage_guards_Ok in Hg as (Hent & Ho & sj & Hx & Hux).
  apply rbind_Ok in Hrun as ([row d1] & Hrec & Hrun).
  apply rbind_Ok in Hrun as (d2 & Href & Hrun). apply rbind_Ok in Hrun as (updated & Hupd & Hrun).
  apply rbind_Ok in Hrun as (subj & Hsubj & Hrun). injection Hrun as <- <-.
  destruct (record_stage_decision_Ok _ _ _ _ _ _ _ _ Hdec Hrec) as (s1 & Hs1 & Hcase).
  rewrite Hlk in Hs1. injection Hs1 as <-. by exists s, sj, row, d1, updated, subj.
Qed.

Lemma decide_stage_spec now now_dt id dec rationale actor d resp d' :
  reviews_ok d -> decide_approval_stage now now_dt id dec rationale actor d = Ok (resp, d') ->
  reviews_ok d' /\ exists s, lookup_key st_stage_id id (approval_stages d) = Some s /\
    entitled d actor s /\ st_status s = "open" /\ undecided_in d s = true /\
    (lookup_key gd_decision_id (decision_key "approval_stage" id dec rationale (user_ref actor))
       (governance_decisions d) = None -> decided_stage d d' actor dec s resp).
Proof.
  intros Hok (Hdec & s & sj & row & d1 & updated & subj & Hlk & Hent & Ho & Hx & Hux & Hcase & Href & Hupd & Hsubj & ->)%decide_run.
  pose proof (lookup_key_Some _ _ _ _ Hlk) as [Hin Hid].
  assert (undecided_in d s = true) as Hund by (unfold undecided_in; by rewrite Hx).
  pose proof (not_a_decider _ d s _ (proj1 (reviews_ok_of d) Hok) Hin I Ho (en_distinct _ _ _ Hent)) as Hnd. rename d' into d2.
  destruct (finish_frame _ _ _ _ _ _ _ Href) as (E1 & E2 & _ & E4).
  destruct Hcase as [[Hrep ->]|[Hnew (rows & Happ)]].
  { split; [by apply (reviews_ok_frame d)|]. exists s. split_and!; try done. congruence. }
  set (d0 := set_governance_decisions rows d) in *.
  assert (reviews_ok d0) as Hok0 by (by apply (reviews_ok_frame d)).
  destruct (apply_keeps_reviews now s dec _ _ d0 d1 Hok0 Hin Ho Hund Hnd Hdec Happ) as (Hok1 & Hrej & x' & Hx' & Hout).
  split; [by apply (reviews_ok_frame d1)|]. exists s. split_and!; try done. intros _.
  pose proof (lookup_stamped _ _ _ _ _ _ _ Hdec (rv_keys _ Hok0) Hin Ho Happ) as Hst. rewrite Hid in Hst.
  unfold load_stage in Hupd. rewrite E1, Hst in Hupd. injection Hupd as <-.
  assert (round d2 s = round d1 s) as Er by (by apply round_same).
  destruct (E4 _ _ Hsubj) as (y & Hy & Ey).
  assert (load_stage_subject d1 s = Ok y) as Hy' by exact Hy. rewrite Hx' in Hy'. injection Hy' as <-.
  constructor; cbn [rs_stage rs_stages rs_subject_status].
  - split_and!; try done. rewrite E1. apply lookup_key_Some in Hst. tauto.
  - done.
  - intros Hr. specialize (Hrej Hr). rewrite Ey. destruct Hout as [[Hout _]|Hout]; [congruence|].
    rewrite Hrej in Hout. by injection Hout.
  - change (outcome (round d2 s) = Some (subject_status subj) \/
      outcome (round d2 s) = None /\ exists x, load_stage_subject d s = Ok x /\ subject_status subj = subject_status x).
    rewrite Er, Ey.
    destruct Hout as [[Hout Hsame]|Hout]; [right|by left]. split; [done|]. exists x'. by split.
  - intros Hty Hap. rewrite Ey in Hap.
    exact (approval_needs_evidence now s dec _ _ d0 d1 sj x' Hok0 Hin Ho Hund Hnd Hdec Happ Hty Hx Hx' Hap).
Qed.

(** C9. Whoever the endpoint lets decide a stage is an active user, inside their
    own scope, with the review permission and the stage's role authority there,
    is not the maker of the subject, and decided no other stage of the round;
    the stage was open and its subject undecided. *)
Theorem stage_decider_entitled now now_dt id dec rationale actor d resp d' :
  reviews_ok d -> decide_approval_stage now now_dt id dec rationale actor d = Ok (resp, d') ->
  exists s, lookup_key st_stage_id id (approval_stages d) = Some s /\
    entitled d actor s /\ st_status s = "open" /\ undecided_in d s = true.
Proof.
  intros Hok Hrun. destruct (decide_stage_spec _ _ _ _ _ _ _ _ _ Hok Hrun) as (_ & s & ? & ? & ? & ? & _).
  by exists s.
Qed.

(** C10. Deciding a stage keeps every review of the database well formed - each
    round a checklist in its mode, decided by different people, and without an
    outcome while its subject waits - and the subject follows the checklist: a
    rejection rejects it, it is approved when every stage is, and it waits
    otherwise.  The decided stage carries the decider and the decision, and a
    vendor is approved only while none of its evidence has lapsed. *)
Theorem stage_decisions_keep_reviews now now_dt id dec rationale actor d resp d' :
  reviews_ok d ->
  lookup_key gd_decision_id (decision_key "approval_stage" id dec rationale (user_ref actor))
    (governance_decisions d) = None ->
  decide_approval_stage now now_dt id dec rationale actor d = Ok (resp, d') ->
  reviews_ok d' /\ exists s, lookup_key st_stage_id id (approval_stages d) = Some s /\
    decided_stage d d' actor dec s resp.
Proof.
  intros Hok Hnew Hrun. destruct (decide_stage_spec _ _ _ _ _ _ _ _ _ Hok Hrun) as (? & s & ? & _ & _ & _ & Hd).
  split; [done|]. exists s. auto.
Qed.

(** ** Decisions are records, not levers *)

(** every target a decision could name is still there, in its organization *)
Definition ids {A} (key : A -> string) (tenant : A -> option string) (t : list A) : list (string * option string) :=
  map (fun r => (key r, tenant r)) t.

Record targets_kept (d d' : db) : Prop := {
  tk_tasks : ids rt_task_id rt_tenant_id (review_tasks d') = ids rt_task_id rt_tenant_id (review_tasks d);
  tk_findings : ids rf_finding_id rf_tenant_id (risk_findings d') = ids rf_finding_id rf_tenant_id (risk_findings d);
  tk_changes : ids ce_change_id ce_tenant_id (change_events d') = ids ce_change_id ce_tenant_id (change_events d);
  tk_assessments : ids ca_assessment_id ca_tenant_id (control_assessments d') =
                   ids ca_assessment_id ca_tenant_id (control_assessments d);
  tk_gates : ids dg_gate_id dg_tenant_id (deployment_approval_gates d') =
             ids dg_gate_id dg_tenant_id (deployment_approval_gates d);
  tk_incidents : ids in_incident_id (fun r => Some (in_tenant_id r)) (governance_incidents d') =
                 ids in_incident_id (fun r => Some (in_tenant_id r)) (governance_incidents d);
  tk_stages : ids st_stage_id st_tenant_id (approval_stages d') = ids st_stage_id st_tenant_id (approval_stages d);
  tk_decisions : governance_decisions d' = governance_decisions d
}.

#[local] Instance targets_kept_preorder : PreOrder targets_kept.
Proof. split; [done|]. intros d1 d2 d3 [] []. constructor; congruence. Qed.

Lemma ids_update {A} (key : A -> string) tenant p f (t : list A) :
  (forall r, key (f r) = key r) -> (forall r, tenant (f r) = tenant r) ->
  ids key tenant (update p f t) = ids key tenant t.
Proof.
  intros Hk Ht. unfold ids, update. rewrite map_map. apply map_ext. intros r. destruct (p r); [|done].
  by rewrite Hk, Ht.
Qed.

Ltac kept := constructor; cbn; try done; by apply ids_update.

Lemma kept_emit n d : targets_kept d (emit n d).
Proof. done. Qed.
Lemma kept_tasks p f d : (forall r, rt_task_id (f r) = rt_task_id r) -> (forall r, rt_tenant_id (f r) = rt_tenant_id r) ->
  targets_kept d (set_review_tasks (update p f (review_tasks d)) d).
Proof. intros. kept. Qed.
Lemma kept_stages p f d : (forall r, st_stage_id (f r) = st_stage_id r) -> (forall r, st_tenant_id (f r) = st_tenant_id r) ->
  targets_kept d (set_approval_stages (update p f (approval_stages d)) d).
Proof. intros. kept. Qed.

Lemma kept_decide_use_case now i t st d : targets_kept d (decide_use_case now i t st d).
Proof.
  unfold decide_use_case, _notify_intake_decided.
  repeat match goal with |- context [if ?b then _ else _] => destruct b
                       | |- context [match ?o with Some _ => _ | None => _ end] => destruct o end; by constructor.
Qed.

Lemma kept_apply_status now ty id dec d : targets_kept d (apply_decision_status now ty id dec d).
Proof.
  unfold apply_decision_status. destruct (status_by_decision dec); [|done].
  destruct (String.eqb ty "review_task").
  { unfold decide_review_task. cbn [review_tasks set_review_tasks].
    transitivity (set_review_tasks (update_key rt_task_id id
      (fun r => rt_with_updated_at now (rt_with_status s r)) (review_tasks d)) d); [by apply kept_tasks|].
    destruct (lookup_key _ _ _); [|done]. destruct (_ && _); [apply kept_decide_use_case|done]. }
  destruct (String.eqb ty "risk_finding"); [kept|]. destruct (String.eqb ty "change_event"); [kept|].
  destruct (String.eqb ty "control_assessment"); [kept|done].
Qed.

Lemma kept_roll_up now s dec d d' : _roll_up_subject now s dec d = Ok d' -> targets_kept d d'.
Proof.
  unfold _roll_up_subject. destruct (String.eqb _ _); [intros [= <-]; apply kept_apply_status|].
  destruct (String.eqb _ _); [|by intros [= <-]].
  intros (? & _ & Hd)%rbind_Ok. injection Hd as <-. by constructor.
Qed.

Lemma kept_apply_stage now s dec did actor d d' :
  apply_stage_decision now s dec did actor d = Ok d' -> targets_kept d d'.
Proof.
  unfold apply_stage_decision. set (st := if String.eqb dec "approve" then _ else _).
  assert (targets_kept d (set_approval_stages (update (open_stage (st_stage_id s))
    (stamp_stage now st did actor) (approval_stages d)) d)) as Hst by (by apply kept_stages).
  intros Hrun. destruct (_ =? 0); [by injection Hrun as <-|].
  destruct (String.eqb st "rejected"); [by etransitivity; [exact Hst|eapply kept_roll_up]|].
  destruct (forallb _ _); [by etransitivity; [exact Hst|eapply kept_roll_up]|].
  destruct (String.eqb (st_mode s) "sequence"); [|by injection Hrun as <-].
  injection Hrun as <-. etransitivity; [exact Hst|]. unfold open_next. destruct (find _ _) as [x|]; [|done].
  etransitivity; [|apply kept_emit]. by apply kept_stages.
Qed.

Lemma kept_sync now ty id dec actor did d d' :
  sync_decision_to_stages now ty id dec actor did d = Ok d' -> targets_kept d d'.
Proof.
  unfold sync_decision_to_stages. intros Hrun. destruct (negb _); [by injection Hrun as <-|].
  destruct (String.eqb _ _).
  { destruct (lookup_key _ _ _); [by eapply kept_apply_stage|by injection Hrun as <-]. }
  destruct (String.eqb _ _); [|by injection Hrun as <-].
  destruct (list_subject_stages _ _ _ _) as [|s [|]]; try by injection Hrun as <-.
  destruct (String.eqb _ _); [|by injection Hrun as <-]. injection Hrun as <-. by apply kept_stages.
Qed.

Lemma select1_ids {A} (key : A -> string) (tenant : A -> option string) id clause (t t' : list A) r :
  ids key tenant t' = ids key tenant t ->
  select1 (fun r => String.eqb (key r) id && clause (tenant r)) t = Some r ->
  exists r', select1 (fun r => String.eqb (key r) id && clause (tenant r)) t' = Some r'.
Proof.
  revert t'; induction t as [|x t IH]; intros [|x' t'] E Hs; try done.
  assert (key x' = key x /\ tenant x' = tenant x) as [Ek Et] by (unfold ids in E; cbn in E; by injection E).
  assert (ids key tenant t' = ids key tenant t) as E' by exact (f_equal tail E).
  unfold select1 in *. rewrite select_cons in *. rewrite Ek, Et. destruct (_ && _); [by eexists|]. by eapply IH.
Qed.

Lemma load_target_kept d d' ty id tenant x :
  targets_kept d d' -> load_decision_target d ty id tenant = Ok x ->
  exists x', load_decision_target d' ty id tenant = Ok x'.
Proof.
  intros []. unfold load_decision_target.
  repeat match goal with |- context [if String.eqb ty ?s then _ else _] =>
    destruct (String.eqb ty s); [
      match goal with |- context [select1 _ (?tab d)] =>
        destruct (select1 _ (tab d)) as [r|] eqn:Er; [intros _|done];
        eapply select1_ids in Er as [r' ->]; [by eexists|done] end|] end.
  done.
Qed.

(** A governance decision is a record: recording one never removes or
    changes a row of the decision log nor a stage already decided, whatever its
    target; and recording the same decision again, by anyone's retry at any
    later time, returns the original row and changes nothing at all. *)
Theorem decisions_are_immutable now ty id dec rationale actor tenant d row d' :
  record_decision now ty id dec rationale actor tenant d = Ok (row, d') ->
  row ∈ governance_decisions d' /\
  (forall x, x ∈ governance_decisions d -> x ∈ governance_decisions d') /\
  (forall s, s ∈ approval_stages d -> settled s -> s ∈ approval_stages d') /\
  forall now', record_decision now' ty id dec rationale actor tenant d' = Ok (row, d').
Proof.
  unfold record_decision. intros (target & Ht & Hrun)%rbind_Ok.
  set (key := decision_key ty id dec rationale actor) in *.
  destruct (lookup_key gd_decision_id key (governance_decisions d)) as [old|] eqn:El.
  { injection Hrun as <- <-. rewrite Ht. cbn [rbind]. rewrite El. apply lookup_key_Some in El as [? _]. done. }
  set (new := decision_row now target ty id dec rationale actor) in *.
  set (d0 := set_governance_decisions _ d) in *.
  apply rbind_Ok in Hrun as (d2 & Hsync & Hd). injection Hd as <- <-.
  assert (insert_or_ignore gd_decision_id new (governance_decisions d) = governance_decisions d ++ [new]) as Ei
    by (unfold insert_or_ignore; change (gd_decision_id new) with key; by rewrite El).
  pose proof (kept_apply_status now ty id dec d0) as Hk1. pose proof (kept_sync _ _ _ _ _ _ _ _ Hsync) as Hk2.
  assert (governance_decisions d2 = governance_decisions d ++ [new]) as Egd
    by (rewrite (tk_decisions _ _ Hk2), (tk_decisions _ _ Hk1); exact Ei).
  split_and!.
  - rewrite Egd. apply elem_of_app. right. by left.
  - intros x Hx. rewrite Egd. apply elem_of_app. by left.
  - intros s Hs Hset. eapply sync_settled_kept; [exact Hsync| |done].
    by rewrite apply_decision_status_stages.
  - intros now'. assert (exists x', load_decision_target d2 ty id tenant = Ok x') as [x' ->].
    { assert (exists x0, load_decision_target d0 ty id tenant = Ok x0) as [x0 Hx0] by (by exists target).
      eapply load_target_kept; [|exact Hx0]. by transitivity (apply_decision_status now ty id dec d0). }
    cbn [rbind]. rewrite Egd. rewrite lookup_key_app_eq; done.
Qed.
End Rules.

(** ** The started review is decided *)

Module Demo.
Import PolicyGuarantees.Demo.

Definition stage_id (i : Z) : string := _stage_id "review_task" "task-1" 0 i.
Definition bob := Rbac.Demo.actor "bob".
(** a clock two hours after the task was filed *)
Definition later : Z := match fromisoformat "2026-03-01T12:00:00+00:00" with Some t => instant t | None => 0 end.
Definition first_decided :=
  decide_approval_stage "2026-03-01 12:00:00" later (stage_id 0) "approve" "fits the policy" bob StageStart.Demo.started.
Definition after_first : db := match first_decided with Ok (_, d) => d | Raise _ => StageStart.Demo.started end.

Lemma first_runs : exists resp,
  decide_approval_stage "2026-03-01 12:00:00" later (stage_id 0) "approve" "fits the policy" bob
    StageStart.Demo.started = Ok (resp, after_first).
Proof. eexists. vm_compute. reflexivity. Qed.

Lemma started_ok : reviews_ok StageStart.Demo.started.
Proof.
  assert (approval_stages StageStart.Demo.started =
    rows_from "2026-03-01 10:00:00" "sequence" "acme" 1 (intake_subject "task-1" StageStart.Demo.record) 0
      [("governance_reviewer", None); ("governance_reviewer", None)]) as E by (vm_compute; reflexivity).
  assert (forall s, s ∈ approval_stages StageStart.Demo.started ->
    round StageStart.Demo.started s = approval_stages StageStart.Demo.started) as Hround.
  { apply Forall_forall. rewrite E. cbn [rows_from].
    repeat (apply Forall_cons; split; [vm_compute; reflexivity|]). apply Forall_nil. exact I. }
  constructor.
  - rewrite E. apply (bool_decide_unpack (NoDup _)). vm_compute. exact I.
  - intros s Hs. rewrite (Hround s Hs), E. exists "sequence". apply rows_from_checklist.
    apply mem_true. vm_compute. reflexivity.
  - intros s Hs _. rewrite (Hround s Hs), E. by apply rows_from_outcome.
Qed.
End Demo.
Import PolicyGuarantees.Demo.

Lemma stage_decider_entitled_witness :
  exists resp s, decide_approval_stage "2026-03-01 12:00:00" Demo.later (Demo.stage_id 0) "approve"
      "fits the policy" Demo.bob StageStart.Demo.started = Ok (resp, Demo.after_first) /\
    entitled StageStart.Demo.started Demo.bob s.
Proof.
  destruct Demo.first_runs as [resp Hrun].
  destruct (stage_decider_entitled _ _ _ _ _ _ _ resp Demo.after_first Demo.started_ok Hrun) as (s & _ & Hs & _).
  exists resp, s. split; [exact Hrun|exact Hs].
Defined.

Lemma stage_decisions_keep_reviews_witness :
  exists resp, decide_approval_stage "2026-03-01 12:00:00" Demo.later (Demo.stage_id 0) "approve"
      "fits the policy" Demo.bob StageStart.Demo.started = Ok (resp, Demo.after_first) /\
    reviews_ok Demo.after_first.
Proof.
  destruct Demo.first_runs as [resp Hrun]. exists resp. split; [exact Hrun|].
  refine (proj1 (stage_decisions_keep_reviews _ _ _ _ _ _ _ resp Demo.after_first Demo.started_ok _ Hrun)).
  vm_compute. reflexivity.
Defined.

Lemma decisions_are_immutable_witness :
  exists row d', record_decision "t" "review_task" "task-1" "waive" "not needed" "bob" None
      StageStart.Demo.started = Ok (row, d') /\
    record_decision "u" "review_task" "task-1" "waive" "not needed" "bob" None d' = Ok (row, d').
Proof.
  eexists _, _. split; [vm_compute; reflexivity|].
  apply (decisions_are_immutable "t" "review_task" "task-1" "waive" "not needed" "bob" None
    StageStart.Demo.started). vm_compute. reflexivity.
Defined.
