(* ===== verification/Coverage.v ===== *)
(** * Evidence coverage of controls (storage/governance_policy.py)

    Qualifying evidence is kept as one row per application, control and trace.
    Coverage is the share of the recent traffic's traces that carry such a row,
    computed in floating point when it is read. *)

From stdpp Require Import base list strings option pretty sets gmap.
From Stdlib Require Import ZArith QArith Lia Ascii.
From S2P Require Import Prelude Py Dates PolicyDoc Sql Events Schema Scope PolicyStore.

Open Scope Z_scope.

(** * binary64 arithmetic of nonnegative values

    The coverage percentage is computed in floating point, rounded to one
    decimal and printed with [:g].  A finite float is the exact rational it
    denotes; an operation is the exact one followed by rounding to 53 bits. *)

(** [num / den / 2^e] rounded to an integer, ties to even *)
Definition scaled (num den e : Z) : Z :=
  if 0 <=? e then div_half_even num (den * 2 ^ e) else div_half_even (num * 2 ^ (- e)) den.

Definition pow2_times (m e : Z) : Q :=
  if 0 <=? e then inject_Z (m * 2 ^ e) else Qred (Qmake m (Z.to_pos (2 ^ (- e)))).

(** the nearest binary64 to a nonnegative rational *)
Definition fl (q : Q) : Q :=
  let num := Qnum q in
  let den := Zpos (Qden q) in
  if num <=? 0 then 0%Q
  else
    let e := Z.log2 num - Z.log2 den - 52 in
    let e := if scaled num den e <? 2 ^ 52 then e - 1 else e in
    let e := Z.max e (-1074) in
    pow2_times (scaled num den e) e.

Definition fmul (a b : Q) : Q := fl (Qred (a * b)).
Definition fdiv (a b : Q) : Q := fl (Qred (a / b)).

(** [round(x, 1)]: the decimal nearest to the exact value, ties to even, read
    back as a float *)
Definition tenths (x : Q) : Z := div_half_even (10 * Qnum x) (Zpos (Qden x)).
Definition round1 (x : Q) : Q := fl (Qmake (tenths x) 10).

(** ** [f"{x:g}"]: six significant digits *)

(** [x * 10^k] rounded to an integer *)
Definition decimal (x : Q) (k : Z) : Z :=
  if 0 <=? k then div_half_even (Qnum x * 10 ^ k) (Zpos (Qden x))
  else div_half_even (Qnum x) (Zpos (Qden x) * 10 ^ (- k)).

(** the greatest [e] with [10^e <= x], searched from above: [x < 2^k] gives
    [e <= k * log10 2], and 0.30103 is that logarithm to more digits than a
    binary64's exponent needs *)
Definition pow10_le (e : Z) (x : Q) : bool :=
  if 0 <=? e then Zpos (Qden x) * 10 ^ e <=? Qnum x else Zpos (Qden x) <=? Qnum x * 10 ^ (- e).
Fixpoint leading (fuel : nat) (x : Q) (e : Z) : Z :=
  match fuel with
  | O => e
  | S fuel' => if pow10_le e x then e else leading fuel' x (e - 1)
  end.

(** the exponent of [x] rounded to six digits: one more when the rounding
    carries into a seventh *)
Definition exponent10 (x : Q) : Z :=
  let k := Z.log2 (Qnum x) - Z.log2 (Zpos (Qden x)) + 1 in
  let e := leading 5 x (k * 30103 / 100000 + 1) in if decimal x (5 - e) =? 10 ^ 6 then e + 1 else e.

(** drop trailing zeros, then a trailing point *)
Fixpoint strip_zeros (s : string) : string :=
  match s with
  | EmptyString => EmptyString
  | String c rest =>
      match strip_zeros rest with
      | EmptyString => if Ascii.eqb c "0" then EmptyString else String c EmptyString
      | r => String c r
      end
  end.
Definition drop_point (s : string) : string :=
  if char_is (String.length s - 1) "." s then slice 0 (String.length s - 1) s else s.
Definition trim (s : string) : string := drop_point (strip_zeros s).

(** [n] with its last [k] digits after the point *)
Definition with_point (n : Z) (k : nat) : string :=
  let s := pad (S k) n in
  let i := (String.length s - k)%nat in
  slice 0 i s +:+ "." +:+ from i s.

Definition format_positive (x : Q) : string :=
  let e := exponent10 x in
  if (-4 <=? e) && (e <? 6) then trim (with_point (decimal x (5 - e)) (Z.to_nat (5 - e)))
  else trim (with_point (decimal x (5 - e)) 5) +:+ "e" +:+ (if e <? 0 then "-" else "+") +:+ pad 2 (Z.abs e).

Definition format_g (f : pyfloat) : string :=
  match f with
  | FNan => "nan"
  | FInf negative => if negative then "-inf" else "inf"
  | FFin x =>
      if (Qnum x =? 0) then "0"
      else if (Qnum x <? 0) then "-" +:+ format_positive (Qopp x) else format_positive x
  end.

Example format_g_examples :
  map (fun q => format_g (FFin (fl q))) [95; 99 # 2; 1 # 3; 1234567; 1 # 10000000; 999999 # 10; 9999999 # 100; 100]%Q =
    ["95"; "49.5"; "0.333333"; "1.23457e+06"; "1e-07"; "99999.9"; "100000"; "100"].
Proof. by vm_compute. Qed.

(** one tenth as a float, and the decimal nearest to it *)
Example round1_examples :
  fl (1 # 10) = (3602879701896397 # 36028797018963968)%Q /\
  map round1 [fl (1 # 20); fl (1 # 4); 1225 # 100; 9995 # 100]%Q =
    [fl (1 # 10); fl (2 # 10); fl (122 # 10); 100%Q].
Proof. by vm_compute. Qed.

Open Scope nat_scope.

(** ** Comparable timestamps *)

Definition removesuffix (suffix s : string) : string :=
  let n := (String.length s - String.length suffix)%nat in
  if Nat.leb (String.length suffix) (String.length s) && String.eqb (from n s) suffix then slice 0 n s else s.

Definition _normalize_ts (value : string) : string :=
  if is_empty value then ""
  else removesuffix "+00:00" (removesuffix "Z" (replace_char " " "T" (strip value))).

Definition _after (event_ts boundary : string) : bool := str_ltb (_normalize_ts boundary) (_normalize_ts event_ts).

Definition _normalized_event_time (value : string) : string :=
  slice 0 19 (replace_char "T" " " (_normalize_ts value)).

(** [moment] is an instant *)
Definition _day_text (moment : Z) : string := strftime_seconds (mk_datetime moment (Some 0%Z)).

(** [moment - timedelta(days=days)] as text *)
Definition days_before (moment days : Z) : res string :=
  let! t := add_days (mk_datetime moment (Some 0%Z)) (- days)%Z in
  Ok (strftime_seconds t).

(** ** The control library *)

Definition list_control_library (d : db) (tenant_id : option string) : list control_definition :=
  list_policies cl_tenant_id cl_control_id tenant_id (control_library d).

(** ** Recording evidence *)

(** the dict of latest times by trace, in order of first appearance *)
Fixpoint set_latest (trace seen : string) (latest : list (string * string)) : list (string * string) :=
  match latest with
  | [] => if str_ltb "" seen then [(trace, seen)] else []
  | (t, s) :: rest =>
      if String.eqb t trace then (t, if str_ltb s seen then seen else s) :: rest
      else (t, s) :: set_latest trace seen rest
  end.

Definition latest_by_trace (evidence : list event) : list (string * string) :=
  foldl (fun latest e =>
    if is_empty (e_trace_id e) then latest
    else set_latest (e_trace_id e) (_normalized_event_time (e_timestamp e)) latest) [] evidence.

Definition et_key (r : evidence_trace) : string * string * string * string * string * string :=
  (et_tenant_id r, et_project r, et_environment r, et_application_name r, et_control_id r, et_trace_id r).

Definition record_trace (app : app_context) (control_id : string) (t : list evidence_trace) (x : string * string)
    : list evidence_trace :=
  let (trace, seen) := x in
  upsert et_key
    (mk_evidence_trace (default "" (ctx_tenant app)) (ctx_project app) (ctx_environment app) (ctx_application app)
       control_id trace seen)
    (fun r => et_with_last_seen (if str_ltb (et_last_seen r) seen then seen else et_last_seen r) r) t.

Definition record_control_evidence (app : app_context) (control : control_definition) (evidence : list event)
    (d : db) : db :=
  set_control_evidence_traces
    (foldl (record_trace app (cl_control_id control)) (control_evidence_traces d) (latest_by_trace evidence)) d.

(** ** Coverage *)

Record coverage := mk_coverage {
  cv_basis_event_types : list string;
  cv_window_days : Z;
  cv_basis_traces : Z;
  cv_covered_traces : Z;
  cv_coverage_pct : option Q;
  cv_last_evidence_at : option string;
  cv_stale_after_days : Z;
  cv_stale : bool
}.

Definition basis_types (control : control_definition) : list string :=
  match cl_coverage_basis control with
  | Some basis => if is_empty basis then cl_evidence_event_types control else [basis]
  | None => cl_evidence_event_types control
  end.

(** the traces of the events the control is measured against *)
Definition basis_event (app : app_context) (types : list string) (cutoff : string) (e : sdk_event) : bool :=
  match ev_application_name e with
  | Some application => in_app_scope app (ev_tenant_id e) (ev_project e) (ev_environment e) application
  | None => false
  end &&
  mem (ev_event_type e) types && negb (str_ltb (replace_char "T" " " (ev_timestamp e)) cutoff).

Definition basis_traces (app : app_context) (types : list string) (cutoff : string) (d : db) : list string :=
  select_distinct ev_trace_id (select (basis_event app types cutoff) (sdk_events d)).

Definition evidence_of (app : app_context) (control_id : string) (r : evidence_trace) : bool :=
  String.eqb (et_control_id r) control_id && String.eqb (et_tenant_id r) (default "" (ctx_tenant app)) &&
  String.eqb (et_project r) (ctx_project app) && String.eqb (et_environment r) (ctx_environment app) &&
  String.eqb (et_application_name r) (ctx_application app).

(** the basis traces the LEFT JOIN finds an evidence row for *)
Definition is_covered (app : app_context) (control_id : string) (d : db) (trace : string) : bool :=
  existsb (fun r => evidence_of app control_id r && String.eqb (et_trace_id r) trace) (control_evidence_traces d).

(** [MAX(c)] of a text column: None of no rows *)
Definition max_text (l : list string) : option string :=
  foldl (fun m s => match m with Some x => Some (if str_ltb x s then s else x) | None => Some s end) None l.

(** [round(100.0 * covered / basis, 1) if basis else None] *)
Definition coverage_pct (covered basis : Z) : option Q :=
  if (basis =? 0)%Z then None
  else Some (round1 (fdiv (fmul 100 (fl (inject_Z covered))) (fl (inject_Z basis)))).

Definition control_coverage (now : Z) (app : app_context) (control : control_definition)
    (window_days stale_after_days : Z) (d : db) : res coverage :=
  let types := basis_types control in
  let! cutoff := days_before now window_days in
  let traces := basis_traces app types cutoff d in
  let basis := Z.of_nat (length traces) in
  let covered := Z.of_nat (length (select (is_covered app (cl_control_id control) d) traces)) in
  let latest := max_text (map et_last_seen
    (select (evidence_of app (cl_control_id control)) (control_evidence_traces d))) in
  let! stale := match latest with
    | None => Ok true
    | Some last => let! edge := days_before now stale_after_days in Ok (str_ltb last edge)
    end in
  Ok (mk_coverage types window_days basis covered (coverage_pct covered basis) latest stale_after_days stale).

Definition in_scope_assessment (app : app_context) (r : control_assessment) : bool :=
  in_app_scope app (ca_tenant_id r) (ca_project r) (ca_environment r) (ca_application_name r).

Section Undercovered.
Context `{PyHost} `{Digest}.

(** one iteration of the loop over the application's passing assessments; [<] of
    two floats *)
Definition count_undercovered (now : Z) (app : app_context) (library : list control_definition)
    (window_days stale_after_days : Z) (min_coverage : pyfloat) (d : db) (count : Z) (r : control_assessment)
    : res Z :=
  match find (fun c => String.eqb (cl_control_id c) (ca_control_id r)) library with
  | None => Ok count
  | Some control =>
      match cl_evidence_event_types control with
      | [] => Ok count
      | _ =>
          let! cov := control_coverage now app control window_days stale_after_days d in
          Ok (match cv_coverage_pct cov with
              | Some pct => if float_ltb (FFin pct) min_coverage then (count + 1)%Z else count
              | None => count
              end)
      end
  end.

Definition count_undercovered_controls (now : Z) (app : app_context) (min_coverage : pyfloat) (d : db) : res Z :=
  let tid := default "" (ctx_tenant app) in
  let library := list_control_library d (Some tid) in
  let! settings := resolve_evidence_policy d (if is_empty tid then None else Some tid) in
  let '(window_days, stale_after_days, _, _) := settings in
  rfold (count_undercovered now app library window_days stale_after_days min_coverage d) 0%Z
    (select (fun r => in_scope_assessment app r && String.eqb (ca_status r) "passing") (control_assessments d)).

(** [with_coverage]: each assessment with its coverage, under its organization's
    settings; a control missing from the library is read from the assessment *)
Definition assessment_app (r : control_assessment) : app_context :=
  (ca_tenant_id r, ca_project r, ca_environment r, ca_application_name r).
Definition library_control (library : list control_definition) (r : control_assessment) : control_definition :=
  match find (fun c => String.eqb (cl_control_id c) (ca_control_id r)) library with
  | Some control => control
  | None => mk_control_definition "" (ca_control_id r) "" [] (ca_evidence_event_types r) [] "" None
  end.
Definition cover_row (now : Z) (d : db) (r : control_assessment) : res (control_assessment * option coverage) :=
  let tid := default "" (ca_tenant_id r) in
  let control := library_control (list_control_library d (Some tid)) r in
  let! settings := resolve_evidence_policy d (if is_empty tid then None else Some tid) in
  let '(window_days, stale_after_days, _, _) := settings in
  match cl_evidence_event_types control with
  | [] => Ok (r, None)
  | _ => let! cov := control_coverage now (assessment_app r) control window_days stale_after_days d in
         Ok (r, Some cov)
  end.
Definition with_coverage (now : Z) (rows : list control_assessment) (d : db)
    : res (list (control_assessment * option coverage)) := rmap (cover_row now d) rows.
End Undercovered.
