(* ===== verification/Gates.v ===== *)
(** * Release gates (storage/deployments.py)

    Each deployed version has a gate.  Its blockers are recomputed from the
    current register - open risks, missing or undercovered controls, unreviewed
    material changes, the linked prompt and passing evaluations bound to the
    version - under the policy of its environment; approving reads them live. *)

From stdpp Require Import base list strings option pretty sets gmap.
From Stdlib Require Import ZArith QArith Lia.
From S2P Require Import Prelude Py Dates Sql Events Schema Scope PolicyDoc PolicyStore Coverage.

Open Scope nat_scope.

(** ** Evidence *)

(** the columns of a version, or of a gate and its version, the counts read *)
Record gate_params := mk_gate_params {
  gr_app : app_context;
  gr_workflow_name : string;
  gr_prompt_version : option string;
  gr_artifact_ref : option string
}.

Definition version_params (v : deployment_version) : gate_params :=
  mk_gate_params (dv_tenant_id v, dv_project v, dv_environment v, dv_application_name v)
    (dv_workflow_name v) (dv_prompt_version v) (Some (dv_artifact_ref v)).

Record gate_evidence := mk_gate_evidence {
  gv_risk_count : Z;
  gv_missing_control_count : Z;
  gv_material_change_count : Z;
  gv_prompt_version_id : option string;
  gv_prompt_evidence_status : string;
  gv_passing_eval_count : Z;
  gv_require_attested_evals : bool;
  gv_max_open_material_changes : Z;
  gv_min_control_coverage : pyfloat;
  gv_undercovered_control_count : Z;
  gv_policy_tenant : string;
  gv_policy_version : Z
}.

(** [SELECT COUNT]: rows of the application with a status clause *)
Definition count_where {A} (p : A -> bool) (t : list A) : Z := Z.of_nat (rowcount p t).

Definition open_risk (app : app_context) (r : risk_finding) : bool :=
  in_app_scope app (rf_tenant_id r) (rf_project r) (rf_environment r) (rf_application_name r) &&
  mem (rf_status r) ["open"; "mitigation_required"].
Definition missing_control (app : app_context) (r : control_assessment) : bool :=
  in_app_scope app (ca_tenant_id r) (ca_project r) (ca_environment r) (ca_application_name r) &&
  String.eqb (ca_status r) "missing".
Definition open_change (app : app_context) (r : change_event) : bool :=
  in_app_scope app (ce_tenant_id r) (ce_project r) (ce_environment r) (ce_application_name r) &&
  String.eqb (ce_status r) "open".

Definition tenant_requires_attestation (tenant_id : option string) (d : db) : bool :=
  match tenant_id with
  | Some t => negb (is_empty t) &&
      (0 <? rowcount (fun r => String.eqb (ar_tenant_id r) t) (attestation_requirements d))
  | None => false
  end.

Definition find_prompt_version (p : gate_params) (d : db) : option prompt_version :=
  match gr_prompt_version p with
  | None => None
  | Some version =>
      if is_empty version then None
      else head (order_by (fun a b => negb (str_ltb (pv_observed_at a) (pv_observed_at b)))
        (select (fun r => in_app_scope (gr_app p) (pv_tenant_id r) (pv_project r) (pv_environment r)
                            (pv_application_name r) &&
                          String.eqb (pv_workflow_name r) (gr_workflow_name p) &&
                          String.eqb (pv_version r) version) (prompt_versions d)))
  end.

(** [v is True] *)
Definition is_true (v : pyval) : bool := match v with PBool true => true | _ => false end.

(** the evaluation names this build: its artifact, or its prompt version when it
    names no artifact *)
Definition binds (p : gate_params) (eval_artifact eval_prompt : pyval) : bool :=
  let matches (declared : pyval) (own : option string) :=
    match own with Some s => py_eqb declared (PStr s) | None => false end in
  if negb (is_none eval_artifact) then matches eval_artifact (gr_artifact_ref p)
  else if negb (is_none eval_prompt) then matches eval_prompt (gr_prompt_version p)
  else false.

Definition eval_counts (p : gate_params) (require_attested : bool) (attributes : pyval) : res bool :=
  let! passed := py_get attributes "passed" in
  if negb (is_true passed) then Ok false
  else
    let! attested := if require_attested then py_get attributes "attested" else Ok (PBool true) in
    if negb (is_true attested) then Ok false
    else
      let! eval_artifact := py_get attributes "artifact_ref" in
      let! eval_prompt := py_get attributes "prompt_version" in
      Ok (binds p eval_artifact eval_prompt).

Definition eval_row (p : gate_params) (r : observed_event) : bool :=
  String.eqb (oe_entity_type r) "eval.result" &&
  match oe_application_name r with
  | Some application => in_app_scope (gr_app p) (oe_tenant_id r) (oe_project r) (oe_environment r) application
  | None => false
  end &&
  sql_eq (oe_workflow_name r) (Some (gr_workflow_name p)) && String.eqb (oe_status r) "success".

Definition count_passing_eval_evidence (p : gate_params) (require_attested : bool) (d : db) : res Z :=
  rfold (fun count r => let! yes := eval_counts p require_attested (oe_attributes r) in
                        Ok (if yes : bool then (count + 1)%Z else count)) 0%Z
    (select (eval_row p) (governance_observed_events d)).

Section Gates.
Context `{PyHost} `{Digest}.

Definition gate_evidence_counts (now_dt : Z) (p : gate_params) (d : db) : res gate_evidence :=
  let app := gr_app p in
  let! requirements := resolve_gate_policy d (ctx_tenant app) (ctx_environment app) in
  let require_attested := gt_require_attested_evals requirements ||
                          tenant_requires_attestation (ctx_tenant app) d in
  let prompt_version := find_prompt_version p d in
  let! passing_eval_count := count_passing_eval_evidence p require_attested d in
  let min_coverage := gt_min_control_coverage requirements in
  let! undercovered :=
    if float_ltb (FFin 0) min_coverage then count_undercovered_controls now_dt app min_coverage d else Ok 0%Z in
  Ok (mk_gate_evidence
    (count_where (open_risk app) (risk_findings d))
    (count_where (missing_control app) (control_assessments d))
    (count_where (open_change app) (change_events d))
    (pv_prompt_version_id <$> prompt_version)
    (match prompt_version with Some _ => "linked" | None => "missing" end)
    passing_eval_count require_attested (gt_max_open_material_changes requirements) min_coverage undercovered
    (gt_policy_tenant requirements) (gt_policy_version requirements)).

(** what is still blocking the gate, for the reviewer *)
Definition when (b : bool) (s : string) : list string := if b then [s] else [].
Definition gate_required_reason (e : gate_evidence) : string :=
  let parts :=
    when (negb (gv_risk_count e =? 0)%Z) (pretty (gv_risk_count e) +:+ " open risk findings") ++
    when (negb (gv_missing_control_count e =? 0)%Z) (pretty (gv_missing_control_count e) +:+ " missing controls") ++
    when (negb (gv_undercovered_control_count e =? 0)%Z)
      (pretty (gv_undercovered_control_count e) +:+ " controls below "
       +:+ format_g (gv_min_control_coverage e) +:+ "% coverage") ++
    when (gv_max_open_material_changes e <? gv_material_change_count e)%Z
      (pretty (gv_material_change_count e) +:+ " material changes") ++
    when (negb (String.eqb (gv_prompt_evidence_status e) "linked")) "missing linked prompt version" ++
    when (gv_passing_eval_count e =? 0)%Z
      (if gv_require_attested_evals e then "missing attested passing eval evidence"
       else "missing passing eval evidence") in
  match parts with [] => "No blocking governance evidence detected" | _ => join "; " parts end.

(** the blockers of a gate as they are now *)
Definition live_params (gate : deployment_gate) (d : db) : gate_params :=
  let version := lookup_key dv_version_id (dg_version_id gate) (deployment_versions d) in
  mk_gate_params (dg_tenant_id gate, dg_project gate, dg_environment gate, dg_application_name gate)
    (dg_workflow_name gate)
    (match version with Some v => dv_prompt_version v | None => None end) (dv_artifact_ref <$> version).
Definition live_gate_evidence (now_dt : Z) (gate : deployment_gate) (d : db) : res gate_evidence :=
  gate_evidence_counts now_dt (live_params gate d) d.

(** ** Recomputing gates *)

Definition gate_key (version_id : string) : string := entity_id [Some "deployment-gate"; Some version_id].

(** [excluded.*] of the upsert: everything but the decision's own columns *)
Definition with_evidence (now gate_status required_reason : string) (e : gate_evidence) (g : deployment_gate)
    : deployment_gate :=
  dg_with_updated_at now
    (dg_with_undercovered_control_count (gv_undercovered_control_count e)
    (dg_with_policy_version (Some (gv_policy_version e)) (dg_with_policy_tenant (Some (gv_policy_tenant e))
    (dg_with_passing_eval_count (gv_passing_eval_count e)
    (dg_with_prompt_evidence_status (gv_prompt_evidence_status e)
    (dg_with_prompt_version_id (gv_prompt_version_id e)
    (dg_with_material_change_count (gv_material_change_count e)
    (dg_with_missing_control_count (gv_missing_control_count e) (dg_with_risk_count (gv_risk_count e)
    (dg_with_required_reason required_reason (dg_with_gate_status gate_status g))))))))))).

Definition decided_gate_status (s : string) : bool := mem s ["approved"; "rejected"].

Definition upsert_deployment_gate (now : string) (now_dt : Z) (d : db) (v : deployment_version) : res db :=
  let! e := gate_evidence_counts now_dt (version_params v) d in
  let gate_id := gate_key (dv_version_id v) in
  let gate_status :=
    match lookup_key dg_gate_id gate_id (deployment_approval_gates d) with
    | Some existing => if decided_gate_status (dg_gate_status existing) then dg_gate_status existing
                       else "pending_review"
    | None => "pending_review"
    end in
  let reason := gate_required_reason e in
  Ok (set_deployment_approval_gates
    (upsert dg_gate_id
      (mk_deployment_gate gate_id (dv_deployment_id v) (dv_version_id v) (dv_tenant_id v) (dv_project v)
         (dv_environment v) (dv_application_name v) (dv_workflow_name v) gate_status reason
         (gv_risk_count e) (gv_missing_control_count e) (gv_material_change_count e) (gv_prompt_version_id e)
         (gv_prompt_evidence_status e) (gv_passing_eval_count e) None None now None now
         (Some (gv_policy_tenant e)) (Some (gv_policy_version e)) (gv_undercovered_control_count e))
      (with_evidence now gate_status reason e) (deployment_approval_gates d)) d).

Definition version_app (v : deployment_version) : app_context :=
  (dv_tenant_id v, dv_project v, dv_environment v, dv_application_name v).
Definition in_wanted (wanted : option (list app_context)) (app : app_context) : bool :=
  match wanted with None => true | Some l => bool_decide (app ∈ l) end.

Definition refresh_deployment_gates (now : string) (now_dt : Z) (scopes : option (list app_context)) (d : db)
    : res db :=
  rfold (fun d v => if in_wanted scopes (version_app v) then upsert_deployment_gate now now_dt d v else Ok d) d
    (order_by (fun a b => negb (str_ltb (dv_observed_at a) (dv_observed_at b))) (deployment_versions d)).

(** ** Deciding a gate *)

(** the checks an approval makes, in order *)
Definition approvable (e : gate_evidence) : res unit :=
  let! _ := throw_if (negb (String.eqb (gv_prompt_evidence_status e) "linked") ||
                      (gv_passing_eval_count e =? 0)%Z)
    (DomainError (if gv_require_attested_evals e
      then "deployment gate requires a linked prompt version and attested passing eval evidence bound to this version (the governance policy requires attestation for this environment)"
      else "deployment gate requires a linked prompt version and passing eval evidence bound to this version")) in
  let! _ := throw_if (0 <? gv_risk_count e)%Z
    (DomainError "deployment gate cannot be approved while risk findings are open; mitigate or accept them first") in
  let! _ := throw_if (0 <? gv_missing_control_count e)%Z
    (DomainError "deployment gate cannot be approved while controls are missing evidence") in
  let! _ := throw_if (0 <? gv_undercovered_control_count e)%Z
    (DomainError ("deployment gate cannot be approved while " +:+ pretty (gv_undercovered_control_count e)
      +:+ " controls cover less than " +:+ format_g (gv_min_control_coverage e)
      +:+ "% of recent traffic (the governance policy sets this minimum for this environment)")) in
  throw_if (gv_max_open_material_changes e <? gv_material_change_count e)%Z
    (DomainError "deployment gate cannot be approved while material changes are unreviewed; review or accept them first").

(** the counts the decision was checked against, written on the gate *)
Definition with_checked (e : gate_evidence) (g : deployment_gate) : deployment_gate :=
  dg_with_required_reason (gate_required_reason e)
    (dg_with_undercovered_control_count (gv_undercovered_control_count e)
    (dg_with_policy_version (Some (gv_policy_version e)) (dg_with_policy_tenant (Some (gv_policy_tenant e))
    (dg_with_passing_eval_count (gv_passing_eval_count e)
    (dg_with_prompt_evidence_status (gv_prompt_evidence_status e)
    (dg_with_prompt_version_id (gv_prompt_version_id e)
    (dg_with_material_change_count (gv_material_change_count e)
    (dg_with_missing_control_count (gv_missing_control_count e) (dg_with_risk_count (gv_risk_count e) g))))))))).

Definition with_decision (now status actor_ref rationale : string) (g : deployment_gate) : deployment_gate :=
  dg_with_updated_at now (dg_with_decided_at (Some now) (dg_with_rationale (Some rationale)
    (dg_with_actor_ref (Some actor_ref) (dg_with_gate_status status g)))).

(** the gate after both updates *)
Definition decide_gate (now status actor_ref rationale : string) (checked : option gate_evidence)
    (g : deployment_gate) : deployment_gate :=
  with_decision now status actor_ref rationale
    (match checked with Some e => with_checked e g | None => g end).

Definition set_deployment_gate_status (now : string) (now_dt : Z) (gate_id status actor_ref rationale : string)
    (d : db) : res (deployment_gate * db) :=
  match lookup_key dg_gate_id gate_id (deployment_approval_gates d) with
  | None => Raise (RecordNotFound "deployment gate not found")
  | Some gate =>
      let! _ := throw_if (decided_gate_status (dg_gate_status gate))
        (DomainError ("deployment gate has already been " +:+ dg_gate_status gate +:+ " and cannot be decided again")) in
      let! checked :=
        if String.eqb status "approved"
        then let! e := live_gate_evidence now_dt gate d in
             let! _ := approvable e in Ok (Some e)
        else Ok None in
      let! _ := throw_if (is_empty (strip rationale)) (DomainError "a decision rationale is required") in
      let decide := decide_gate now status actor_ref rationale checked in
      Ok (decide gate,
          set_deployment_approval_gates (update_key dg_gate_id gate_id decide (deployment_approval_gates d)) d)
  end.

Definition gate_deployer (version_id : string) (d : db) : option string :=
  match lookup_key dv_version_id version_id (deployment_versions d) with
  | Some v => dv_deployed_by v
  | None => None
  end.

Definition load_deployment_gate (gate_id : string) (d : db) : res deployment_gate :=
  match lookup_key dg_gate_id gate_id (deployment_approval_gates d) with
  | Some g => Ok g
  | None => Raise (RecordNotFound "deployment gate not found")
  end.

(** ** Release lookup by CI *)

Record eligibility := mk_eligibility {
  el_eligible : bool;
  el_blockers : list string;
  el_reason : string;
  el_policy_tenant : string;
  el_policy_version : Z
}.

Definition evidence_blockers (e : gate_evidence) : list string :=
  when (negb (gv_risk_count e =? 0)%Z) "open_risks" ++
  when (negb (gv_missing_control_count e =? 0)%Z) "missing_controls" ++
  when (negb (gv_undercovered_control_count e =? 0)%Z) "insufficient_coverage" ++
  when (gv_max_open_material_changes e <? gv_material_change_count e)%Z "open_material_changes" ++
  when (negb (String.eqb (gv_prompt_evidence_status e) "linked")) "missing_prompt" ++
  when (gv_passing_eval_count e =? 0)%Z
    (if gv_require_attested_evals e then "missing_attested_eval" else "missing_eval").

Definition release_gates (tenant_id deployment_id version : string) (project environment : option string) (d : db)
    : list deployment_gate :=
  let wanted (value : option string) (own : string) :=
    match value with Some s => String.eqb own s | None => true end in
  let built g v := String.eqb (dv_version_id v) (dg_version_id g) && String.eqb (dv_deployment_id v) deployment_id &&
                   String.eqb (dv_version v) version in
  select (fun g => sql_eq (dg_tenant_id g) (Some tenant_id) && wanted project (dg_project g) &&
                   wanted environment (dg_environment g) && existsb (built g) (deployment_versions d))
    (deployment_approval_gates d).

Definition find_gate_for_release (now_dt : Z) (tenant_id deployment_id version : string)
    (project environment : option string) (d : db) : res (option (deployment_gate * eligibility)) :=
  match release_gates tenant_id deployment_id version project environment d with
  | [] => Ok None
  | [gate] =>
      let! e := live_gate_evidence now_dt gate d in
      let pending := 0 <? rowcount (fun r => sql_eq (ev_tenant_id r) (Some tenant_id) &&
                                             negb (bool_decide (is_Some (ev_folded_at r)))) (sdk_events d) in
      let approved := String.eqb (dg_gate_status gate) "approved" in
      let others := evidence_blockers e in
      let blockers := when pending "pending_evidence" ++ others in
      let reasons := when (negb approved) "Release is not approved" ++
        when pending "Telemetry projection is pending" ++
        when (negb (bool_decide (others = []))) (gate_required_reason e) in
      Ok (Some (gate, mk_eligibility (approved && bool_decide (blockers = []))
        (when (negb approved) "release_not_approved" ++ blockers)
        (match reasons with [] => "No blocking governance evidence detected" | _ => join "; " reasons end)
        (gv_policy_tenant e) (gv_policy_version e)))
  | _ => Raise (DomainError "ambiguous release gate; specify project and environment")
  end.
End Gates.
