(* ===== verification/GateRules.v ===== *)
(** * What a release gate guarantees

    Approval needs a register without blockers at that moment; a decided gate
    stays decided whatever telemetry arrives; and CI is told a release is
    eligible exactly when its gate is approved and nothing blocks it now. *)

From stdpp Require Import base list strings option pretty sets gmap.
From Stdlib Require Import ZArith QArith Lia.
From S2P Require Import Prelude Py Dates Sql Events Schema Scope PolicyDoc PolicyValid PolicyStore PolicyInForce PolicyGuarantees Coverage Gates.

Open Scope nat_scope.

(** ** A clear register *)

Lemma count_where_0 {A} (p : A -> bool) t : (0 <? count_where p t)%Z = false <-> forall r, r ∈ t -> p r = false.
Proof. rewrite <-rowcount_0. unfold count_where. rewrite Z.ltb_ge. lia. Qed.

Lemma count_where_eq0 {A} (p : A -> bool) t : (count_where p t =? 0)%Z = negb (0 <? count_where p t)%Z.
Proof. unfold count_where. destruct (rowcount p t) as [|n]; [done|]. by destruct n. Qed.

(** a stored evaluation that passed, verified when it must be, about this build *)
Definition good_eval (p : gate_params) (attested : bool) (r : observed_event) : Prop :=
  eval_row p r = true /\ eval_counts p attested (oe_attributes r) = Ok true.

Lemma passing_evals p attested d n :
  count_passing_eval_evidence p attested d = Ok n -> (n =? 0)%Z = false ->
  exists r, r ∈ governance_observed_events d /\ good_eval p attested r.
Proof.
  unfold count_passing_eval_evidence. intros Hrun Hn. apply Z.eqb_neq in Hn.
  assert (n = 0%Z \/ exists r, r ∈ select (eval_row p) (governance_observed_events d) /\
    eval_counts p attested (oe_attributes r) = Ok true) as [|(r & Hr & He)]; [|done|].
  { refine (rfold_ind (fun n => n = 0%Z \/ _) _ _ _ _ Hrun (or_introl eq_refl) _).
    intros k r k' Hr Hstep Hk. apply rbind_Ok in Hstep as ([] & He & Hs); injection Hs as <-; [right; by exists r|done]. }
  apply elem_of_select in Hr as [Hp Hr]. by exists r.
Qed.

Section Rules.
Context `{PyHost} `{Digest}.

(** an application whose register does not block the release *)
Record clear (now_dt : Z) (p : gate_params) (requirements : gate_policy) (d : db) : Prop := {
  cr_risks : forall r, r ∈ risk_findings d ->
    in_app_scope (gr_app p) (rf_tenant_id r) (rf_project r) (rf_environment r) (rf_application_name r) = true ->
    rf_status r <> "open" /\ rf_status r <> "mitigation_required";
  cr_controls : forall r, r ∈ control_assessments d -> in_scope_assessment (gr_app p) r = true -> ca_status r <> "missing";
  cr_changes : (count_where (open_change (gr_app p)) (change_events d) <= gt_max_open_material_changes requirements)%Z;
  cr_prompt : exists v, find_prompt_version p d = Some v;
  cr_evals : exists r, r ∈ governance_observed_events d /\
    good_eval p (gt_require_attested_evals requirements || tenant_requires_attestation (ctx_tenant (gr_app p)) d) r;
  cr_coverage : float_ltb (FFin 0) (gt_min_control_coverage requirements) = true ->
    exists n, count_undercovered_controls now_dt (gr_app p) (gt_min_control_coverage requirements) d = Ok n /\ (n <= 0)%Z
}.

Lemma evidence_Ok now_dt p d e :
  gate_evidence_counts now_dt p d = Ok e ->
  exists requirements evals undercovered,
    resolve_gate_policy d (ctx_tenant (gr_app p)) (ctx_environment (gr_app p)) = Ok requirements /\
    count_passing_eval_evidence p
      (gt_require_attested_evals requirements || tenant_requires_attestation (ctx_tenant (gr_app p)) d) d = Ok evals /\
    (if float_ltb (FFin 0) (gt_min_control_coverage requirements)
     then count_undercovered_controls now_dt (gr_app p) (gt_min_control_coverage requirements) d
     else Ok 0%Z) = Ok undercovered /\
    e = mk_gate_evidence (count_where (open_risk (gr_app p)) (risk_findings d))
      (count_where (missing_control (gr_app p)) (control_assessments d))
      (count_where (open_change (gr_app p)) (change_events d))
      (pv_prompt_version_id <$> find_prompt_version p d)
      (match find_prompt_version p d with Some _ => "linked" | None => "missing" end)
      evals
      (gt_require_attested_evals requirements || tenant_requires_attestation (ctx_tenant (gr_app p)) d)
      (gt_max_open_material_changes requirements) (gt_min_control_coverage requirements) undercovered
      (gt_policy_tenant requirements) (gt_policy_version requirements).
Proof.
  unfold gate_evidence_counts. intros (req & Hreq & Hrun)%rbind_Ok.
  apply rbind_Ok in Hrun as (evals & Hev & Hrun). apply rbind_Ok in Hrun as (under & Hun & Hrun).
  injection Hrun as <-. by exists req, evals, under.
Qed.

Definition evidence_clear (e : gate_evidence) : Prop :=
  gv_prompt_evidence_status e = "linked" /\ (gv_passing_eval_count e =? 0)%Z = false /\
  (0 <? gv_risk_count e)%Z = false /\ (0 <? gv_missing_control_count e)%Z = false /\
  (0 <? gv_undercovered_control_count e)%Z = false /\
  (gv_max_open_material_changes e <? gv_material_change_count e)%Z = false.

Lemma approvable_Ok e u : approvable e = Ok u <-> evidence_clear e.
Proof.
  unfold approvable, evidence_clear.
  destruct (String.eqb_spec (gv_prompt_evidence_status e) "linked"), (gv_passing_eval_count e =? 0)%Z,
    (0 <? gv_risk_count e)%Z, (0 <? gv_missing_control_count e)%Z, (0 <? gv_undercovered_control_count e)%Z,
    (gv_max_open_material_changes e <? gv_material_change_count e)%Z; simpl; destruct u; split; try done; naive_solver.
Qed.

Lemma evidence_clear_register now_dt p d e :
  gate_evidence_counts now_dt p d = Ok e -> evidence_clear e ->
  exists requirements,
    resolve_gate_policy d (ctx_tenant (gr_app p)) (ctx_environment (gr_app p)) = Ok requirements /\
    clear now_dt p requirements d.
Proof.
  intros (req & evals & under & Hreq & Hev & Hun & ->)%evidence_Ok (H1 & H2 & H3 & H4 & H5 & H6).
  cbn [gv_prompt_evidence_status gv_passing_eval_count gv_risk_count gv_missing_control_count
       gv_undercovered_control_count gv_max_open_material_changes gv_material_change_count] in *.
  exists req. split; [done|]. constructor.
  - intros r Hr Hsc. rewrite count_where_0 in H3. specialize (H3 r Hr). unfold open_risk in H3.
    rewrite Hsc in H3. apply mem_false in H3. set_solver.
  - intros r Hr Hsc. rewrite count_where_0 in H4. specialize (H4 r Hr). unfold missing_control in H4.
    unfold in_scope_assessment in Hsc. rewrite Hsc in H4. by apply String.eqb_neq in H4.
  - by apply Z.ltb_ge in H6.
  - destruct (find_prompt_version p d) as [v|]; [by exists v|done].
  - by eapply passing_evals.
  - intros Hmin. rewrite Hmin in Hun. exists under. split; [done|]. by apply Z.ltb_ge in H5.
Qed.

(** ** Approval *)

Lemma decide_gate_fields now st actor rationale checked g :
  dg_gate_id (decide_gate now st actor rationale checked g) = dg_gate_id g /\
  dg_gate_status (decide_gate now st actor rationale checked g) = st /\
  dg_actor_ref (decide_gate now st actor rationale checked g) = Some actor /\
  dg_rationale (decide_gate now st actor rationale checked g) = Some rationale.
Proof. by destruct checked. Qed.

Lemma set_gate_Ok now now_dt id st actor rationale d g' d' :
  set_deployment_gate_status now now_dt id st actor rationale d = Ok (g', d') ->
  exists g checked, lookup_key dg_gate_id id (deployment_approval_gates d) = Some g /\
    decided_gate_status (dg_gate_status g) = false /\ strip rationale <> "" /\
    g' = decide_gate now st actor rationale checked g /\
    d' = set_deployment_approval_gates
           (update_key dg_gate_id id (decide_gate now st actor rationale checked) (deployment_approval_gates d)) d /\
    (st = "approved" -> exists e, checked = Some e /\ live_gate_evidence now_dt g d = Ok e /\ evidence_clear e).
Proof.
  unfold set_deployment_gate_status. destruct (lookup_key _ _ _) as [g|] eqn:Eg; [|done].
  intros (? & Hdec%throw_if_Ok & Hrun)%rbind_Ok. apply rbind_Ok in Hrun as (checked & Hchk & Hrun).
  apply rbind_Ok in Hrun as (? & Hrat%throw_if_Ok & Hrun). injection Hrun as <- <-.
  exists g, checked. split; [reflexivity|]. split; [exact Hdec|].
  split; [intros E; by rewrite E in Hrat|]. split; [reflexivity|]. split; [reflexivity|].
  intros ->. cbn [String.eqb Ascii.eqb Bool.eqb] in Hchk.
  apply rbind_Ok in Hchk as (e & He & Hchk). apply rbind_Ok in Hchk as (u & Ha & Hchk). injection Hchk as <-.
  exists e. split; [reflexivity|]. split; [exact He|]. by apply approvable_Ok in Ha.
Qed.

(** C8. A gate is approved only while nothing in the application's register
    blocks it: no open risk, no missing control, no more open material changes
    than the policy of its environment allows, a linked prompt version, a passing
    evaluation of this very build - verified by signature when the policy or a
    registered key asks for it - and coverage at the policy's minimum.  The gate
    records who approved it, why, and the policy version it was checked under. *)
Theorem gate_approval_sound now now_dt id actor rationale d g' d' :
  set_deployment_gate_status now now_dt id "approved" actor rationale d = Ok (g', d') ->
  exists g requirements, lookup_key dg_gate_id id (deployment_approval_gates d) = Some g /\
    decided_gate_status (dg_gate_status g) = false /\ strip rationale <> "" /\
    resolve_gate_policy d (dg_tenant_id g) (dg_environment g) = Ok requirements /\
    clear now_dt (live_params g d) requirements d /\
    dg_gate_status g' = "approved" /\ dg_actor_ref g' = Some actor /\ dg_rationale g' = Some rationale /\
    dg_policy_version g' = Some (gt_policy_version requirements) /\
    lookup_key dg_gate_id id (deployment_approval_gates d') = Some g'.
Proof.
  intros Hrun. destruct (set_gate_Ok _ _ _ _ _ _ _ _ _ Hrun) as (g & checked & Hg & Hdec & Hr & -> & -> & Happ).
  destruct (Happ eq_refl) as (e & -> & He & Hclear).
  destruct (evidence_clear_register _ _ _ _ He Hclear) as (req & Hreq & Hc).
  pose proof He as (req' & ? & ? & Hreq' & _ & _ & ->)%evidence_Ok. rewrite Hreq in Hreq'. injection Hreq' as <-.
  exists g, req. split_and!; try reflexivity; try assumption.
  cbn [deployment_approval_gates set_deployment_approval_gates]. unfold update_key.
  rewrite lookup_key_update by (intros; apply decide_gate_fields). rewrite Hg.
  apply lookup_key_Some in Hg as [_ Hk]. cbn [fmap option_fmap option_map].
  by rewrite (proj2 (has_key_true dg_gate_id _ g) Hk).
Qed.

(** ** Decisions are terminal *)

(** what telemetry and later requests may not touch on a decided gate *)
Definition decision_of (g : deployment_gate) : string * string * option string * option string * option string :=
  (dg_gate_id g, dg_gate_status g, dg_actor_ref g, dg_rationale g, dg_decided_at g).

Inductive gate_step : db -> db -> Prop :=
| step_refresh now now_dt scopes d d' :
    refresh_deployment_gates now now_dt scopes d = Ok d' -> gate_step d d'
| step_decide now now_dt id st actor rationale d g d' :
    set_deployment_gate_status now now_dt id st actor rationale d = Ok (g, d') -> gate_step d d'.

Definition keeps_decisions (d d' : db) : Prop :=
  forall id g, lookup_key dg_gate_id id (deployment_approval_gates d) = Some g ->
  decided_gate_status (dg_gate_status g) = true ->
  exists g', lookup_key dg_gate_id id (deployment_approval_gates d') = Some g' /\ decision_of g' = decision_of g.

#[local] Instance keeps_decisions_preorder : PreOrder keeps_decisions.
Proof.
  split; [intros d id g Hg _; by exists g|].
  intros d1 d2 d3 H12 H23 id g Hg Hdec. destruct (H12 id g Hg Hdec) as (g2 & Hg2 & E2).
  assert (dg_gate_status g2 = dg_gate_status g) as Es by (unfold decision_of in E2; congruence).
  destruct (H23 id g2 Hg2) as (g3 & Hg3 & E3); [by rewrite Es|]. exists g3. split; [done|congruence].
Qed.

Lemma upsert_gate_keeps now now_dt d v d' : upsert_deployment_gate now now_dt d v = Ok d' -> keeps_decisions d d'.
Proof.
  unfold upsert_deployment_gate. intros (e & _ & Hrun)%rbind_Ok. injection Hrun as <-. intros id g Hg Hdec.
  cbn [deployment_approval_gates set_deployment_approval_gates]. unfold upsert. cbn [dg_gate_id].
  set (gid := gate_key (dv_version_id v)).
  destruct (lookup_key dg_gate_id gid (deployment_approval_gates d)) as [old|] eqn:Eo.
  - unfold update_key. rewrite lookup_key_update by done. rewrite Hg. simpl.
    destruct (has_key dg_gate_id gid g) eqn:Ek; [|by exists g]. apply has_key_elim in Ek.
    assert (old = g) as ->.
    { apply lookup_key_Some in Hg as Hg'. destruct Hg' as [_ Hid]. rewrite <-Hid, Ek in Hg. congruence. }
    rewrite Hdec. eexists. split; [done|]. done.
  - exists g. split; [|done]. rewrite lookup_key_app. by rewrite Hg.
Qed.

Lemma set_gate_keeps now now_dt id st actor rationale d g d' :
  set_deployment_gate_status now now_dt id st actor rationale d = Ok (g, d') -> keeps_decisions d d'.
Proof.
  intros (g0 & checked & Hg0 & Hd0 & _ & _ & -> & _)%set_gate_Ok. intros id' g' Hg' Hdec.
  cbn [deployment_approval_gates set_deployment_approval_gates]. unfold update_key.
  rewrite lookup_key_update by (intros; apply decide_gate_fields). rewrite Hg'. cbn [fmap option_fmap option_map].
  destruct (has_key dg_gate_id id g') eqn:Ek; [|by exists g']. apply has_key_elim in Ek.
  apply lookup_key_Some in Hg' as Hk. destruct Hk as [_ Hk]. rewrite <-Hk, Ek in Hg'. congruence.
Qed.

Lemma gate_step_keeps d d' : gate_step d d' -> keeps_decisions d d'.
Proof.
  intros [now now_dt scopes d1 d2 Hrun|]; [|by eapply set_gate_keeps].
  unfold refresh_deployment_gates in Hrun. eapply (rfold_ind (keeps_decisions d1)); [exact Hrun|done|].
  intros d3 v d4 _ Hstep Hk. etransitivity; [exact Hk|].
  cbv beta in Hstep. destruct (in_wanted scopes (version_app v)); [by eapply upsert_gate_keeps|by injection Hstep as <-].
Qed.

(** A gate decision is terminal: through any sequence of recomputations and
    further decision requests, whatever telemetry arrives in between, a decided
    gate keeps its status, decider, rationale and time. *)
Theorem gate_decisions_terminal d d' :
  rtc gate_step d d' -> forall id g, lookup_key dg_gate_id id (deployment_approval_gates d) = Some g ->
  decided_gate_status (dg_gate_status g) = true ->
  exists g', lookup_key dg_gate_id id (deployment_approval_gates d') = Some g' /\ decision_of g' = decision_of g.
Proof.
  intros Hs. change (keeps_decisions d d'). induction Hs as [|d1 d2 d3 Hstep _ IH]; [done|].
  etransitivity; [by apply gate_step_keeps|done].
Qed.

(** ** What CI is told *)

Lemma when_nil b s : when b s = [] <-> b = false.
Proof. by destruct b. Qed.

Lemma undercovered_nonneg now_dt app min d n :
  count_undercovered_controls now_dt app min d = Ok n -> (0 <= n)%Z.
Proof.
  unfold count_undercovered_controls. intros (settings & _ & Hrun)%rbind_Ok.
  destruct settings as [[[w s] pt] pv]. refine (rfold_ind (fun n => (0 <= n)%Z) _ _ _ _ Hrun _ _); [lia|].
  intros k r k' _ Hstep Hk. unfold count_undercovered in Hstep.
  destruct (find _ _) as [c|]; [|by injection Hstep as <-].
  destruct (cl_evidence_event_types c); [by injection Hstep as <-|].
  apply rbind_Ok in Hstep as (cov & _ & Hstep). destruct (cv_coverage_pct cov) as [q|];
    injection Hstep as <-; [|lia]. destruct (float_ltb _ _); lia.
Qed.

Lemma evidence_nonneg now_dt p d e :
  gate_evidence_counts now_dt p d = Ok e ->
  (0 <= gv_risk_count e)%Z /\ (0 <= gv_missing_control_count e)%Z /\ (0 <= gv_undercovered_control_count e)%Z.
Proof.
  intros (req & evals & under & _ & _ & Hun & ->)%evidence_Ok.
  cbn [gv_risk_count gv_missing_control_count gv_undercovered_control_count]. unfold count_where.
  split; [lia|]. split; [lia|]. destruct (float_ltb _ _); [by eapply undercovered_nonneg|by injection Hun as <-].
Qed.

Lemma eqb0_ltb0 n : (0 <= n)%Z -> negb (n =? 0)%Z = (0 <? n)%Z.
Proof. intros Hn. destruct (Z.eqb_spec n 0), (Z.ltb_spec 0 n); try done; lia. Qed.

Lemma evidence_blockers_nil now_dt p d e :
  gate_evidence_counts now_dt p d = Ok e -> (evidence_blockers e = [] <-> evidence_clear e).
Proof.
  intros (Hr & Hm & Hu)%evidence_nonneg. unfold evidence_blockers, evidence_clear.
  rewrite !app_nil_iff, !when_nil, !eqb0_ltb0, negb_false_iff, String.eqb_eq by done. tauto.
Qed.

(** The release lookup never leaves the key's organization, and reports a
    release eligible exactly when its gate is approved, no telemetry of the
    organization still waits to be projected, and the register is clear now;
    an eligible release has no blockers and an ineligible one names some. *)
Theorem release_eligibility now_dt tenant deployment version project environment d gate el :
  find_gate_for_release now_dt tenant deployment version project environment d = Ok (Some (gate, el)) ->
  dg_tenant_id gate = Some tenant /\ gate ∈ deployment_approval_gates d /\
  exists e, live_gate_evidence now_dt gate d = Ok e /\
    (el_eligible el = true <->
     dg_gate_status gate = "approved" /\ evidence_clear e /\
     forall r, r ∈ sdk_events d -> ev_tenant_id r = Some tenant -> is_Some (ev_folded_at r)) /\
    (el_eligible el = true <-> el_blockers el = []).
Proof.
  unfold find_gate_for_release.
  destruct (release_gates _ _ _ _ _ _) as [|g [|]] eqn:Eg; try done.
  intros (e & He & Hrun)%rbind_Ok. injection Hrun as <- <-.
  assert (g ∈ release_gates tenant deployment version project environment d) as Hin by (rewrite Eg; by left).
  unfold release_gates in Hin. apply elem_of_select in Hin as [Hp Hin].
  rewrite !andb_true_iff in Hp. destruct Hp as [[[Ht _] _] _].
  split; [|split; [done|]].
  { destruct (dg_tenant_id g); [|done]. by apply String.eqb_eq in Ht as ->. }
  exists e. split; [done|]. pose proof (evidence_blockers_nil _ _ _ _ He) as Hb.
  cbn [el_eligible el_blockers]. set (pending := 0 <? _).
  assert (pending = false <-> forall r, r ∈ sdk_events d -> ev_tenant_id r = Some tenant -> is_Some (ev_folded_at r)) as Hpend.
  { unfold pending. rewrite Nat.ltb_ge, Nat.le_0_r, rowcount_0. split; intros Hall r Hr.
    - intros Htr. specialize (Hall r Hr). rewrite Htr in Hall. cbn [sql_eq] in Hall.
      rewrite String.eqb_refl in Hall. by apply negb_false_iff, bool_decide_eq_true in Hall.
    - destruct (ev_tenant_id r) as [t|] eqn:Et; [|done]. cbn [sql_eq].
      destruct (String.eqb_spec t tenant) as [->|]; [|done]. cbn [andb].
      apply negb_false_iff, bool_decide_eq_true. by apply Hall. }
  rewrite <-Hpend, <-Hb, andb_true_iff, bool_decide_eq_true, String.eqb_eq, app_nil_iff, when_nil. split; [tauto|].
  rewrite app_nil_iff, when_nil, negb_false_iff, String.eqb_eq, app_nil_iff, when_nil. tauto.
Qed.
End Rules.

(** ** A build is evaluated, gated and released *)

Module Demo.
Import PolicyGuarantees.Demo.

Definition version : deployment_version :=
  mk_deployment_version "v1" "triage-api" (Some "acme") "claims" "production" "triage" "letters" "1.4.0" "deployed"
    None None "image:1.4.0" (Some "p7") (Some "ann") "trace-1" "2026-03-01T09:00:00Z".
Definition prompt : prompt_version :=
  mk_prompt_version "pv1" "letters" (Some "acme") "claims" "production" "triage" "letters" "p7" "active"
    None "prompts/letters" "{}" "{}" "trace-1" "2026-03-01T08:00:00Z".
Definition evaluated : observed_event :=
  mk_observed_event "e1" "eval.result" (Some "acme") "claims" "production" (Some "triage") (Some "letters") "accuracy"
    "success" "trace-2" None (PDict [("passed", PBool true); ("artifact_ref", PStr "image:1.4.0")]) "2026-03-01T08:30:00Z".
Definition register : db :=
  set_deployment_versions [version] (set_prompt_versions [prompt]
    (set_governance_observed_events [evaluated] staffed_org)).
(** noon on the day of the deployment *)
Definition noon : Z := match fromisoformat "2026-03-01T12:00:00+00:00" with Some t => instant t | None => 0 end.
Definition gated : db :=
  match refresh_deployment_gates "2026-03-01 12:00:00" noon None register with Ok d => d | Raise _ => register end.
Definition decide_at (d : db) :=
  set_deployment_gate_status "2026-03-01 13:00:00" noon (gate_key "v1") "approved" "cyd" "evaluated and clear" d.
Definition approved : db := match decide_at gated with Ok (_, d) => d | Raise _ => gated end.

Lemma approves : exists gate, set_deployment_gate_status "2026-03-01 13:00:00" noon (gate_key "v1") "approved"
    "cyd" "evaluated and clear" gated = Ok (gate, approved).
Proof. eexists. vm_compute. reflexivity. Qed.

Lemma approved_gate : exists gate, lookup_key dg_gate_id (gate_key "v1") (deployment_approval_gates approved) = Some gate /\
  decided_gate_status (dg_gate_status gate) = true.
Proof. eexists. vm_compute. split; reflexivity. Qed.

(** telemetry then reports a missing control and the gates are recomputed *)
Definition gap : control_assessment :=
  mk_control_assessment "c1" (Some "acme") "claims" "production" "triage" "human-oversight" "Human oversight"
    "missing" [] ["human.review"] [] [] 0 "no evidence" "2026-03-02T00:00:00Z".
Definition drifted : db := set_control_assessments [gap] approved.
Definition recomputed : db :=
  match refresh_deployment_gates "2026-03-02 00:00:00" noon None drifted with Ok d => d | Raise _ => drifted end.

Lemma recomputes : refresh_deployment_gates "2026-03-02 00:00:00" noon None drifted = Ok recomputed.
Proof. vm_compute. reflexivity. Qed.

Lemma drifted_gate : exists gate, lookup_key dg_gate_id (gate_key "v1") (deployment_approval_gates drifted) = Some gate /\
  decided_gate_status (dg_gate_status gate) = true.
Proof. eexists. vm_compute. split; reflexivity. Qed.

Lemma released (d : db) : d = approved \/ d = recomputed -> exists gate el,
  find_gate_for_release noon "acme" "triage-api" "1.4.0" None None d = Ok (Some (gate, el)) /\
  el_eligible el = bool_decide (control_assessments d = []).
Proof. intros [->| ->]; eexists _, _; vm_compute; split; reflexivity. Qed.
End Demo.
Import PolicyGuarantees.Demo.

Lemma gate_approval_sound_witness :
  exists gate requirements, set_deployment_gate_status "2026-03-01 13:00:00" Demo.noon (gate_key "v1") "approved"
      "cyd" "evaluated and clear" Demo.gated = Ok (gate, Demo.approved) /\
    dg_policy_version gate = Some (gt_policy_version requirements).
Proof.
  destruct Demo.approves as [gate Hrun].
  destruct (gate_approval_sound _ _ _ _ _ _ gate Demo.approved Hrun)
    as (g & requirements & _ & _ & _ & _ & _ & _ & _ & _ & Hp & _).
  exists gate, requirements. split; [exact Hrun|exact Hp].
Defined.

Lemma gate_decisions_terminal_witness :
  exists g g', lookup_key dg_gate_id (gate_key "v1") (deployment_approval_gates Demo.drifted) = Some g /\
    lookup_key dg_gate_id (gate_key "v1") (deployment_approval_gates Demo.recomputed) = Some g' /\
    decision_of g' = decision_of g.
Proof.
  destruct Demo.drifted_gate as (g & Hg & Hdec).
  assert (rtc gate_step Demo.drifted Demo.recomputed) as Hs
    by (apply rtc_once; eapply step_refresh; exact Demo.recomputes).
  destruct (gate_decisions_terminal Demo.drifted Demo.recomputed Hs (gate_key "v1") g Hg Hdec) as (g' & Hg' & E).
  exists g, g'. split; [exact Hg|]. split; [exact Hg'|exact E].
Defined.

Lemma release_eligibility_witness :
  exists gate el, find_gate_for_release Demo.noon "acme" "triage-api" "1.4.0" None None Demo.approved =
      Ok (Some (gate, el)) /\ dg_tenant_id gate = Some "acme" /\ el_eligible el = true.
Proof.
  destruct (Demo.released Demo.approved (or_introl eq_refl)) as (gate & el & Hrun & He).
  destruct (release_eligibility Demo.noon "acme" "triage-api" "1.4.0" None None Demo.approved gate el Hrun) as [Ht _].
  exists gate, el. split; [exact Hrun|]. split; [exact Ht|exact He].
Defined.
