(* ===== verification/Requests.v ===== *)
(** * What a decision request must carry (schemas/workflow.py, api/routes.py)

    A rationale has to hold reviewer-authored text, not the dashboard's empty
    packet; an exception's expiry is read as a UTC instant in the future. *)

From stdpp Require Import base list strings option pretty sets gmap.
From Stdlib Require Import ZArith Lia Ascii.
From S2P Require Import Prelude Py Dates Json Queue.

Open Scope nat_scope.

(** ** Lines *)

(** where [str.splitlines] breaks, on Latin-1 *)
Definition is_break (c : ascii) : bool :=
  bool_decide (N_of_ascii c ∈ [10; 11; 12; 13; 28; 29; 30; 133]%N).
Definition is_char (n : N) (c : ascii) : bool := (N_of_ascii c =? n)%N.

Fixpoint lines_from (line s : string) : list string :=
  match s with
  | EmptyString => if is_empty line then [] else [line]
  | String c s' =>
      if is_break c then
        line :: match s' with
                | String c' s'' => if is_char 13 c && is_char 10 c' then lines_from "" s'' else lines_from "" s'
                | EmptyString => []
                end
      else lines_from (line +:+ String c EmptyString) s'
  end.
Definition splitlines (s : string) : list string := lines_from "" s.

(** [s.partition(":")], as [Some (head, tail)] when the separator is found *)
Fixpoint partition_colon (s : string) : option (string * string) :=
  match s with
  | EmptyString => None
  | String c s' =>
      if is_char 58 c then Some (EmptyString, s')
      else match partition_colon s' with
           | Some (head, tail) => Some (String c head, tail)
           | None => None
           end
  end.

(** ** The rationale *)

Definition _RATIONALE_PLACEHOLDERS : list string :=
  [""; "yes"; "no"; "n/a"; "na"; "none"; "tbd"; "-"; "."; "not provided"; "not documented"; "not applicable"].
Definition _MIN_RATIONALE_CHARS : nat := 12.
Definition _SCAFFOLD_LABELS : list string :=
  ["evidence reviewed"; "policy basis checked"; "owner accountability confirmed"; "reviewer rationale";
   "change impact reviewed"; "control evidence reviewed"; "residual risk disposition reviewed";
   "release decision rationale"; "root cause"; "impact"; "remediation completed"; "recurrence prevention"].

(** the reviewer's own text of a line *)
Definition candidate (line : string) : string :=
  match partition_colon line with
  | Some (head, tail) => if mem (lower (strip head)) _SCAFFOLD_LABELS then strip tail else strip line
  | None => strip line
  end.

Definition substance (value : string) : list string :=
  filter (fun c => mem (lower c) _RATIONALE_PLACEHOLDERS = false)
    (map candidate (match splitlines value with [] => [value] | lines => lines end)).

Definition substantive_rationale (value : string) : res string :=
  let joined := strip (join " " (substance value)) in
  if String.length joined <? _MIN_RATIONALE_CHARS
  then Raise (ValueError "Provide a substantive rationale describing the basis for the decision (at least 12 characters of reviewer input).")
  else Ok (strip value).

(** ** The expiry of an exception *)

(** [candidate.replace("Z", "+00:00")] *)
Fixpoint replace_z (s : string) : string :=
  match s with
  | EmptyString => EmptyString
  | String c s' => if is_char 90 c then "+00:00" +:+ replace_z s' else String c (replace_z s')
  end.

Definition normalize_expiry (value : string) : res string :=
  let text := strip value in
  let written parsed := let! t := astimezone_utc (assume_utc parsed) in Ok (isoformat_utc t) in
  match fromisoformat (replace_z text) with
  | Some parsed => written parsed
  | None =>
      match fromisoformat (replace_z (text +:+ "T00:00:00+00:00")) with
      | Some parsed => written parsed
      | None => Raise (ValueError "expires_at must be an ISO date (YYYY-MM-DD) or datetime")
      end
  end.

(** the expiry as UTC text, refused unless it lies in the future *)
Definition _future_expiry (now_dt : Z) (value : string) : res string :=
  let! normalized :=
    match normalize_expiry value with
    | Raise (ValueError msg) => Raise (HTTPException 400 msg)
    | c => c
    end in
  match fromisoformat normalized with
  | None => Raise (ValueError "Invalid isoformat string")
  | Some t =>
      let! _ := throw_if (instant t <=? now_dt)%Z (HTTPException 400 "expires_at must be a future date") in
      Ok normalized
  end.

(** [datetime.now(UTC).isoformat()] *)
Definition clock_iso (now_dt : Z) : string := isoformat_utc (mk_datetime now_dt (Some 0%Z)).

Example request_examples :
  substantive_rationale ("Evidence reviewed: no" +:+ String newline "Reviewer rationale: not provided") =
    Raise (ValueError "Provide a substantive rationale describing the basis for the decision (at least 12 characters of reviewer input).") /\
  substantive_rationale " evidence bound to sha256:abc " = Ok "evidence bound to sha256:abc" /\
  normalize_expiry "2026-09-01" = Ok "2026-09-01T00:00:00+00:00" /\
  normalize_expiry "2026-09-01T10:00:00+02:00" = Ok "2026-09-01T08:00:00+00:00" /\
  normalize_expiry "2026-09-01T10:00:00Z" = Ok "2026-09-01T10:00:00+00:00" /\
  normalize_expiry "tomorrow" = Raise (ValueError "expires_at must be an ISO date (YYYY-MM-DD) or datetime").
Proof. by vm_compute. Qed.
