(* ===== verification/Decisions.v ===== *)
(** * The decision endpoints (api/routes.py, storage/incidents.py)

    Every route that records a decision, whole: its checks and writes in order.
    Each runs in one transaction ([atomic]), so a raised error leaves the
    database as it was.  [now] is [datetime('now')] of the transaction, [now_dt]
    the interpreter's clock. *)

From stdpp Require Import base list strings option pretty sets gmap.
From Stdlib Require Import ZArith Lia.
From S2P Require Import Prelude Py Dates Sql Schema Scope Requests PolicyDoc Rbac PolicyStore Queue Workflow Stages StageDecisions Coverage Gates.

Open Scope nat_scope.

(** ** Incidents *)

(** the organization's incident of that id; a caller without an organization
    sees none *)
Definition _incident_row (d : db) (incident_id : string) (tenant_id : option string) : option incident :=
  match tenant_id with
  | Some tenant =>
      if is_empty tenant then None
      else head (order_by (fun a b => negb (str_ltb (in_last_seen a) (in_last_seen b)))
        (select (fun r => String.eqb (in_tenant_id r) tenant && String.eqb (in_incident_id r) incident_id)
          (governance_incidents d)))
  | None => None
  end.

Definition close_row (now status actor_ref rationale : string) (r : incident) : incident :=
  in_with_last_seen now
    (in_with_closed_at (if String.eqb status "closed" then Some now else in_closed_at r)
      (in_with_resolution_rationale (Some rationale) (in_with_actor_ref (Some actor_ref) (in_with_status status r)))).

Definition set_incident_status (now incident_id status actor_ref rationale : string) (tenant_id : option string)
    (d : db) : res (incident * db) :=
  match _incident_row d incident_id tenant_id with
  | None => Raise (RecordNotFound "incident not found")
  | Some _ =>
      let d := set_governance_incidents
        (update (fun r => sql_eq (Some (in_tenant_id r)) tenant_id && String.eqb (in_incident_id r) incident_id)
          (close_row now status actor_ref rationale) (governance_incidents d)) d in
      match _incident_row d incident_id tenant_id with
      | Some row => Ok (row, d)
      | None => Raise TypeError
      end
  end.

Definition load_incident (incident_id : string) (tenant_id : option string) (d : db) : res incident :=
  match _incident_row d incident_id tenant_id with
  | Some row => Ok row
  | None => Raise (RecordNotFound "incident not found")
  end.

(** ** Maker and checker *)

Definition intake_submitter (intake_id : string) (d : db) : option string :=
  uc_submitted_by <$> lookup_key uc_intake_id intake_id (ai_use_cases d).

(** who originated the target; findings, changes and assessments have neither a
    [submitted_by] nor a [created_by] column *)
Definition target_maker (d : db) (target : decision_target) : option string :=
  match target with
  | TReviewTask r =>
      if mem (rt_task_type r) ["intake_review"; "recertification_review"]
      then intake_submitter (rt_change_id r) d else None
  | TDeploymentGate g => gate_deployer (dg_version_id g) d
  | TIncident i => in_detected_by i
  | _ => None
  end.

Definition enforce_segregation_of_duties (actor : ActorContext) (target : decision_target) (d : db) : res unit :=
  let maker := target_maker d target in
  throw_if (truthy_str maker && bool_decide (maker = Some (user_ref actor))) (HTTPException 403 SOD_MAKER).

Section Decisions.
Context `{PyHost} `{Digest}.

(** a review task's checklist: several stages refuse a direct decision, an
    undecided single stage asks for its role *)
Definition enforce_stage_policy (actor : ActorContext) (target : decision_target) (decision : string) (d : db)
    : res unit :=
  match target with
  | TReviewTask r =>
      if negb (mem decision ["approve"; "reject"]) then Ok tt
      else match list_subject_stages d "review_task" (rt_task_id r) (Some 0%Z) with
           | [] => Ok tt
           | s :: rest =>
               let! _ := throw_if (0 <? length rest)
                 (HTTPException 400 ("This review is governed by a multi-stage approval policy (policy "
                   +:+ (if is_empty (st_policy_tenant s) then "default" else st_policy_tenant s)
                   +:+ "/v" +:+ pretty (st_policy_version s)
                   +:+ "). Decide its open stage via /api/approval-stages/{stage_id}/decide instead.")) in
               if existsb (fun s => mem (st_status s) ["open"; "pending"]) (s :: rest)
               then or_forbidden (require_stage_role d actor (st_required_role s)
                      (mk_target (rt_tenant_id r) (Some (rt_project r)) (Some (rt_environment r)) None false))
               else Ok tt
           end
  | _ => Ok tt
  end.

Definition _ALLOWED_DECISIONS : list string := ["approve"; "reject"; "accept_risk"; "mitigate"; "waive"; "close"].

Definition not_found_404 {A} (c : res A) : res A :=
  match c with Raise (RecordNotFound msg) => Raise (HTTPException 404 msg) | _ => c end.
Definition domain_400 {A} (c : res A) : res A :=
  match c with
  | Raise (DomainError msg) | Raise (PolicyActivationRequiresSecondPerson msg) => Raise (HTTPException 400 msg)
  | _ => c
  end.

(** the application of a target, as the recomputed scope *)
Definition target_app (t : decision_target) : app_context :=
  (tgt_tenant_id t, tgt_project t, tgt_environment t, tgt_application_name t).

Definition create_decision (now : string) (now_dt : Z) (target_type target_id decision rationale : string)
    (actor : ActorContext) (d : db) : res (governance_decision * db) :=
  let! _ := throw_if (negb (mem decision _ALLOWED_DECISIONS))
    (HTTPException 400 "decision must be one of ['accept_risk', 'approve', 'close', 'mitigate', 'reject', 'waive']") in
  let! _ := throw_if (mem target_type ["deployment_gate"; "incident"; "approval_stage"])
    (HTTPException 400 "Use the dedicated endpoint for this target type: deployment gates via /api/deployment-gates/{id}/approve|reject, incidents via /api/incidents/{id}/close, approval stages via /api/approval-stages/{id}/decide") in
  let! target := not_found_404 (load_decision_target d target_type target_id (actor_tenant actor)) in
  let! _ := or_forbidden (require_decision d actor (access_target target_type target)) in
  let! _ := enforce_segregation_of_duties actor target d in
  let! _ := enforce_stage_policy actor target decision d in
  let! recorded := record_decision now target_type target_id decision rationale (user_ref actor) (actor_tenant actor) d in
  let (row, d) := recorded : governance_decision * db in
  let d := record_audit (mk_audit_entry (user_ref actor) "review.decide" (tgt_tenant_id target) target_type target_id
             (PDict [("decision", PStr decision)])) d in
  let! d :=
    if mem target_type ["risk_finding"; "control_assessment"; "change_event"] &&
       negb (is_empty (tgt_application_name target))
    then refresh_deployment_gates now now_dt (Some [target_app target]) d
    else Ok d in
  Ok (row, d).

(** ** Gates and incidents *)

Definition decide_deployment_gate (now : string) (now_dt : Z) (status decision : string)
    (gate_id rationale : string) (actor : ActorContext) (d : db)
    : res (deployment_gate * governance_decision * db) :=
  let! gate := load_deployment_gate gate_id d in
  let! _ := or_forbidden (require_decision d actor (access_target "deployment_gate" (TDeploymentGate gate))) in
  let! _ := enforce_segregation_of_duties actor (TDeploymentGate gate) d in
  let change := set_deployment_gate_status now now_dt gate_id status (user_ref actor) rationale d in
  let! changed := if String.eqb status "approved" then domain_400 change else change in
  let (updated, d) := changed : deployment_gate * db in
  let! recorded := record_decision now "deployment_gate" gate_id decision rationale (user_ref actor) None d in
  let (row, d) := recorded : governance_decision * db in
  let d := record_audit (mk_audit_entry (user_ref actor) ("gate." +:+ decision) (dg_tenant_id gate)
             "deployment_gate" gate_id PNone) d in
  Ok (updated, row, emit (mk_notice (dg_tenant_id gate) ("gate." +:+ status) gate_id ["org_admin"] []) d).

Definition approve_deployment_gate (now : string) (now_dt : Z) (gate_id rationale : string) (actor : ActorContext)
    (d : db) : res (deployment_gate * governance_decision * db) :=
  let (_, d) := expire_due_exceptions now (clock_iso now_dt) d in
  decide_deployment_gate now now_dt "approved" "approve" gate_id rationale actor d.

Definition reject_deployment_gate (now : string) (now_dt : Z) (gate_id rationale : string) (actor : ActorContext)
    (d : db) : res (deployment_gate * governance_decision * db) :=
  decide_deployment_gate now now_dt "rejected" "reject" gate_id rationale actor d.

Definition close_incident (now incident_id rationale : string) (actor : ActorContext) (d : db)
    : res (incident * governance_decision * db) :=
  let! incident := load_incident incident_id (actor_tenant actor) d in
  let! _ := or_forbidden (require_decision d actor (access_target "incident" (TIncident incident))) in
  let! _ := enforce_segregation_of_duties actor (TIncident incident) d in
  let! closed := set_incident_status now incident_id "closed" (user_ref actor) rationale (actor_tenant actor) d in
  let (updated, d) := closed : Schema.incident * db in
  let! recorded := record_decision now "incident" incident_id "close" rationale (user_ref actor) (actor_tenant actor) d in
  let (row, d) := recorded : governance_decision * db in
  let d := record_audit (mk_audit_entry (user_ref actor) "incident.close" (Some (in_tenant_id incident))
             "incident" incident_id PNone) d in
  Ok (updated, row, emit (mk_notice (Some (in_tenant_id incident)) "incident.closed" incident_id
                            ["org_admin"; "risk_owner"] []) d).

(** ** Exceptions *)

Definition create_exception_route (now : string) (now_dt : Z)
    (target_type target_id reason compensating_control expires_at : string) (actor : ActorContext) (d : db)
    : res (governance_exception * db) :=
  let! expires_at := _future_expiry now_dt expires_at in
  let! target := load_decision_target d target_type target_id (actor_tenant actor) in
  let! _ := or_forbidden (require_exception d actor (access_target target_type target)) in
  let! created := create_exception now target_type target_id reason compensating_control expires_at
                    (user_ref actor) (actor_tenant actor) d in
  let (row, d) := created : governance_exception * db in
  Ok (row, record_audit (mk_audit_entry (user_ref actor) "risk.accept" (tgt_tenant_id target) target_type target_id
             PNone) d).

(** ** Owner assignments *)

Definition load_owner_assignment (d : db) (owner_assignment_id : string) : res owner_assignment :=
  match lookup_key oa_owner_assignment_id owner_assignment_id (owner_assignments d) with
  | Some row => Ok row
  | None => Raise (RecordNotFound "owner assignment not found")
  end.

Definition assign_owner (now owner_assignment_id owner_ref actor_ref : string) (d : db)
    : res (owner_assignment * db) :=
  let assign r := oa_with_updated_at now (oa_with_source ("assigned_by:" +:+ actor_ref)
                    (oa_with_status "assigned" (oa_with_owner_ref (Some owner_ref) r))) in
  let! row := load_owner_assignment d owner_assignment_id in
  Ok (assign row, set_owner_assignments
        (update_key oa_owner_assignment_id owner_assignment_id assign (owner_assignments d)) d).

Definition require_owner_assignment (d : db) (actor : ActorContext) (t : target) : res unit :=
  require_permission d actor "owner.assign" t false.

Definition assign_owner_route (now owner_assignment_id owner_ref : string) (actor : ActorContext) (d : db)
    : res (owner_assignment * db) :=
  let! row := load_owner_assignment d owner_assignment_id in
  let! _ := or_forbidden (require_owner_assignment d actor
    (mk_target (oa_tenant_id row) (Some (oa_project row)) (Some (oa_environment row)) None false)) in
  let! assigned := assign_owner now owner_assignment_id owner_ref (user_ref actor) d in
  let (updated, d) := assigned : owner_assignment * db in
  Ok (updated, record_audit (mk_audit_entry (user_ref actor) "owner.assign" (oa_tenant_id row)
                 "owner_assignment" owner_assignment_id (PDict [("owner_ref", PStr owner_ref)])) d).
End Decisions.
