(* ===== verification/IsoOrder.v ===== *)
(** * Instants as text

    The platform compares instants as text: [isoformat] of a UTC datetime.  The
    text of an instant reads back as that instant, and text order is time order,
    so a comparison of stored expiries orders the instants they stand for. *)

From stdpp Require Import base list strings option pretty sets gmap.
From Stdlib Require Import ZArith Lia Ascii.
From S2P Require Import Prelude Dates.

Open Scope Z_scope.

(** ** Comparing concatenations *)

Lemma compare_app a b x y : String.length a = String.length b ->
  String.compare (a +:+ x) (b +:+ y) =
  match String.compare a b with Eq => String.compare x y | c => c end.
Proof.
  revert b; induction a as [|c a IH]; intros [|c' b] Hl; try done. rewrite !append_cons. cbn [String.compare].
  destruct (Ascii.compare c c') eqn:E; try done. apply IH. by injection Hl.
Qed.

Lemma compare_same a x y : String.compare (a +:+ x) (a +:+ y) = String.compare x y.
Proof. rewrite compare_app by done. by rewrite compare_refl. Qed.

(** ** Zero-padded numbers *)

Definition digit_char (n : Z) : ascii := pretty_N_char (Z.to_N n).

(** the last [w] decimal digits of a number *)
Fixpoint dig (w : nat) (n : Z) : string :=
  match w with
  | O => EmptyString
  | S w => dig w (n / 10) +:+ String (digit_char (n mod 10)) EmptyString
  end.

Lemma length_dig w n : String.length (dig w n) = w.
Proof. revert n; induction w as [|w IH]; intros n; simpl; [done|]. rewrite length_append, IH. simpl. lia. Qed.

(** a fact checked at every number of a range holds of each *)
Lemma in_range_cases (P : Z -> Prop) lo len n : Forall P (seqZ lo len) -> lo <= n < lo + len -> P n.
Proof. rewrite Forall_forall. intros Hall Hn. apply Hall, elem_of_seqZ. lia. Qed.

Ltac each :=
  match goal with |- Forall _ ?l => let v := eval vm_compute in l in change l with v end;
  repeat (apply Forall_cons; split); try (apply Forall_nil; exact I); cbv beta.

Lemma digit_cases (P : Z -> Prop) n : Forall P (seqZ 0 10) -> 0 <= n < 10 -> P n.
Proof. intros HP Hn. by apply (in_range_cases P 0 10). Qed.

Lemma digit_char_code n : 0 <= n < 10 -> Z.of_N (N_of_ascii (digit_char n)) = 48 + n.
Proof. apply (digit_cases (fun n => Z.of_N (N_of_ascii (digit_char n)) = 48 + n)). each; done. Qed.

Lemma digit_char_compare n m : 0 <= n < 10 -> 0 <= m < 10 ->
  Ascii.compare (digit_char n) (digit_char m) = (n ?= m).
Proof.
  intros Hn Hm. unfold Ascii.compare.
  rewrite <-N2Z.inj_compare, !digit_char_code by done. apply Z.add_compare_mono_l.
Qed.

Lemma dig_compare w : forall n m, 0 <= n < 10 ^ Z.of_nat w -> 0 <= m < 10 ^ Z.of_nat w ->
  String.compare (dig w n) (dig w m) = (n ?= m).
Proof.
  induction w as [|w IH]; intros n m Hn Hm.
  { simpl in *. assert (n = m) as -> by lia. by rewrite Z.compare_refl. }
  rewrite Nat2Z.inj_succ, Z.pow_succ_r in Hn, Hm by lia. cbn [dig].
  rewrite compare_app by (by rewrite !length_dig).
  pose proof (Z.div_mod n 10 ltac:(lia)). pose proof (Z.div_mod m 10 ltac:(lia)).
  pose proof (Z.mod_pos_bound n 10 ltac:(lia)). pose proof (Z.mod_pos_bound m 10 ltac:(lia)).
  rewrite IH by lia. cbn [String.compare]. rewrite digit_char_compare by done.
  destruct (Z.compare_spec (n / 10) (m / 10)); symmetry;
    [|apply Z.compare_lt_iff; lia|apply Z.compare_gt_iff; lia].
  destruct (Z.compare_spec (n mod 10) (m mod 10));
    [apply Z.compare_eq_iff|apply Z.compare_lt_iff|apply Z.compare_gt_iff]; lia.
Qed.

Definition zeros (n : nat) : string := String.concat "" (repeat "0" n).

Lemma zeros_S n : zeros (S n) = String "0" (zeros n).
Proof. unfold zeros. destruct n; reflexivity. Qed.

Lemma zeros_last n : zeros (S n) = zeros n +:+ "0".
Proof. induction n as [|n IH]; [done|]. rewrite (zeros_S (S n)), IH at 1. by rewrite zeros_S, append_cons. Qed.

Lemma dig_0 w : dig w 0 = zeros w.
Proof. induction w as [|w IH]; [done|]. cbn [dig]. rewrite Zdiv_0_l, IH. by rewrite zeros_last. Qed.

Lemma pretty_go_dig w : forall n s, 0 < n < 10 ^ Z.of_nat w ->
  exists k, (k < w)%nat /\ 0 < n / 10 ^ Z.of_nat k < 10 /\
    dig w n +:+ s = zeros (w - S k) +:+ pretty_N_go (Z.to_N n) s /\
    String.length (pretty_N_go (Z.to_N n) s) = (S k + String.length s)%nat.
Proof.
  induction w as [|w IH]; intros n s Hn; [simpl in Hn; lia|].
  rewrite Nat2Z.inj_succ, Z.pow_succ_r in Hn by lia.
  rewrite pretty_N_go_step by lia. change 10%N with (Z.to_N 10).
  rewrite <-Z2N.inj_div, <-Z2N.inj_mod by lia.
  pose proof (Z.div_mod n 10 ltac:(lia)). pose proof (Z.mod_pos_bound n 10 ltac:(lia)).
  assert (forall t, dig (S w) n +:+ t = dig w (n / 10) +:+ String (pretty_N_char (Z.to_N (n mod 10))) t) as Hd
    by (intros t; cbn [dig]; by rewrite append_assoc).
  rewrite Hd. destruct (decide (n / 10 = 0)) as [Hz|Hz].
  - exists O. rewrite Hz, dig_0. change (Z.to_N 0) with 0%N. rewrite pretty_N_go_0.
    simpl. rewrite Z.div_1_r. replace (w - 0)%nat with w by lia. split; [lia|]. split; [lia|]. done.
  - destruct (IH (n / 10) (String (pretty_N_char (Z.to_N (n mod 10))) s)) as (k & Hk & Hb & Ed & El); [lia|].
    exists (S k). split; [lia|]. split.
    + rewrite Nat2Z.inj_succ, Z.pow_succ_r by lia. by rewrite <-Z.div_div by lia.
    + rewrite Ed. split; [done|]. rewrite El. simpl. lia.
Qed.

Lemma pad_dig w n : (0 < w)%nat -> 0 <= n < 10 ^ Z.of_nat w -> pad w n = dig w n.
Proof.
  intros Hw Hn. unfold pad. fold (zeros (w - String.length (pretty n))).
  destruct (decide (n = 0)) as [->|Hz].
  - rewrite dig_0. change (pretty 0) with "0". simpl. destruct w as [|w]; [lia|].
    rewrite zeros_last. by replace (S w - 1)%nat with w by lia.
  - destruct (pretty_go_dig w n EmptyString) as (k & Hk & _ & Ed & El); [lia|].
    rewrite append_nil_r in Ed. assert (pretty n = pretty_N_go (Z.to_N n) "") as ->.
    { destruct n as [|p|p]; [lia| |lia]. change (pretty (Z.pos p)) with (pretty (N.pos p)).
      unfold pretty, pretty_N. destruct (decide _); [done|]. done. }
    rewrite El. simpl. rewrite Ed. f_equal. f_equal. lia.
Qed.

(** ** The calendar *)

Definition total (l : list Z) : Z := foldr Z.add 0 l.

Lemma total_app l k : total (l ++ k) = total l + total k.
Proof. induction l as [|x l IH]; simpl; [done|]. rewrite IH. lia. Qed.

Lemma month_of_spec l : forall m0 n m d, 0 <= n < total l -> month_of l m0 n = (m, d) ->
  exists i, l !! i = Some (nth i l 0) /\ m = m0 + Z.of_nat i /\ n = total (take i l) + d - 1 /\ 1 <= d <= nth i l 0.
Proof.
  induction l as [|x l IH]; intros m0 n m d Hn Hm; cbn [total foldr] in Hn; [lia|].
  cbn [month_of] in Hm. destruct (Z.ltb_spec n x).
  - injection Hm as <- <-. exists O. cbn. split; [done|]. lia.
  - destruct (IH (m0 + 1) (n - x) m d) as (i & Hl & -> & Hs & Hd); [fold (total l) in Hn; lia|done|].
    exists (S i). cbn. split; [done|]. unfold total in *. lia.
Qed.

Lemma month_total b : total (month_lengths b) = if b then 366 else 365.
Proof. by destruct b. Qed.

Definition leap_day (y : Z) : Z := if is_leap y then 1 else 0.

Lemma days_before_next y : days_before_year (y + 1) = days_before_year y + 365 + leap_day y.
Proof.
  unfold days_before_year, leap_day, is_leap.
  replace (y + 1 - 1) with y by lia.
  destruct (Z.eqb_spec (y mod 4) 0), (Z.eqb_spec (y mod 100) 0), (Z.eqb_spec (y mod 400) 0);
    cbn [andb orb negb]; Z.to_euclidean_division_equations; lia.
Qed.

Lemma days_before_mono y k : 0 <= k -> days_before_year y + 365 * k <= days_before_year (y + k).
Proof.
  intros Hk. revert y. revert k Hk.
  refine (natlike_ind (fun k => forall y, days_before_year y + 365 * k <= days_before_year (y + k)) _ _).
  { intros y. replace (y + 0) with y by lia. lia. }
  intros k' Hk IH y. replace (y + Z.succ k') with (y + k' + 1) by lia. rewrite days_before_next.
  specialize (IH y). unfold leap_day. destruct (is_leap _); lia.
Qed.

Definition good_date (y m d : Z) : Prop := 1 <= m <= 12 /\ 1 <= d <= days_in_month y m.

(** the day within its year, from 1 *)
Definition year_day (y m d : Z) : Z := days_before_month y m + d.

Lemma month_cases (P : Z -> Prop) : Forall P (seqZ 1 12) -> forall m, 1 <= m <= 12 -> P m.
Proof. intros HP m Hm. apply (in_range_cases P 1 12); [done|lia]. Qed.

(** evaluates the closed month tables of a goal *)
Ltac months := repeat match goal with
  | |- context [foldr Z.add 0 ?l] => let v := eval vm_compute in (foldr Z.add 0 l) in change (foldr Z.add 0 l) with v
  | |- context [default 0 ?o] => let v := eval vm_compute in (default 0 o) in change (default 0 o) with v
  end.

Lemma year_day_bounds y m d : good_date y m d -> 1 <= year_day y m d <= 365 + leap_day y.
Proof.
  intros [Hm Hd]. unfold year_day, days_before_month, days_in_month, leap_day in *. revert Hd.
  revert m Hm. refine (month_cases _ _). each; destruct (is_leap y); months; lia.
Qed.

Lemma month_starts y m m' : 1 <= m -> m < m' <= 12 ->
  days_before_month y m + days_in_month y m <= days_before_month y m'.
Proof.
  intros H1 H2. unfold days_before_month, days_in_month.
  assert (1 <= m <= 12) as Hm by lia. assert (1 <= m' <= 12) as Hm' by lia.
  destruct (is_leap y); revert H1 H2; revert m' Hm'; revert m Hm;
    refine (month_cases _ _); each; refine (month_cases _ _); each; intros; months; lia.
Qed.

(** later dates have greater ordinals *)
Lemma ymd2ord_lex y m d y' m' d' : good_date y m d -> good_date y' m' d' ->
  y < y' \/ y = y' /\ (m < m' \/ m = m' /\ d < d') -> ymd2ord y m d < ymd2ord y' m' d'.
Proof.
  intros Hg Hg' [Hy|[-> [Hm|[-> Hd]]]]; unfold ymd2ord; [| |lia].
  - pose proof (year_day_bounds _ _ _ Hg). pose proof (year_day_bounds _ _ _ Hg').
    pose proof (days_before_next y). pose proof (days_before_mono (y + 1) (y' - (y + 1)) ltac:(lia)) as Hle.
    replace (y + 1 + (y' - (y + 1))) with y' in Hle by lia. unfold year_day in *. lia.
  - destruct Hg as [Hm1 Hd1], Hg' as [Hm2 Hd2]. pose proof (month_starts y' m m' ltac:(lia) ltac:(lia)). lia.
Qed.

Lemma year_parts a b c e : 0 <= b <= 3 -> 0 <= c <= 24 -> 0 <= e <= 3 ->
  days_before_year (a * 400 + 1 + b * 100 + c * 4 + e) = a * 146097 + b * 36524 + c * 1461 + e * 365 /\
  is_leap (a * 400 + 1 + b * 100 + c * 4 + e) = (e =? 3) && (negb (c =? 24) || (b =? 3)).
Proof.
  intros Hb Hc He. set (y := a * 400 + 1 + b * 100 + c * 4 + e).
  assert ((y - 1) / 4 = a * 100 + b * 25 + c) as E4 by (symmetry; apply (Z.div_unique _ 4 _ e); lia).
  assert ((y - 1) / 100 = a * 4 + b) as E100 by (symmetry; apply (Z.div_unique _ 100 _ (c * 4 + e)); lia).
  assert ((y - 1) / 400 = a) as E400 by (symmetry; apply (Z.div_unique _ 400 _ (b * 100 + c * 4 + e)); lia).
  split; [unfold days_before_year; rewrite E4, E100, E400; unfold y; lia|].
  unfold is_leap. apply eq_true_iff_eq.
  rewrite !andb_true_iff, !orb_true_iff, !negb_true_iff, !Z.eqb_eq, !Z.eqb_neq.
  subst y. Z.to_euclidean_division_equations; lia.
Qed.

Lemma month_of_good y n m d : 0 <= n < 365 + leap_day y -> month_of (month_lengths (is_leap y)) 1 n = (m, d) ->
  good_date y m d /\ year_day y m d = n + 1.
Proof.
  intros Hn Hm. apply month_of_spec in Hm as (i & Hl & -> & Hs & Hd);
    [|rewrite month_total; unfold leap_day in Hn; destruct (is_leap y); lia].
  assert (i < 12)%nat as Hi.
  { apply lookup_lt_Some in Hl. by replace (length (month_lengths (is_leap y))) with 12%nat in Hl by (by destruct (is_leap y)). }
  unfold good_date, year_day, days_before_month, days_in_month.
  replace (Z.to_nat (1 + Z.of_nat i - 1)) with i by lia. rewrite Hl. cbn [from_option id].
  fold (total (take i (month_lengths (is_leap y)))). lia.
Qed.

Lemma ord2ymd_good n y m d : 1 <= n -> ord2ymd n = (y, m, d) ->
  good_date y m d /\ ymd2ord y m d = n /\ 1 <= y.
Proof.
  intros Hn. unfold ord2ymd.
  set (r := (n - 1) mod 146097). set (a := (n - 1) / 146097).
  set (r1 := r mod 36524). set (b := r / 36524). set (r2 := r1 mod 1461). set (c := r1 / 1461).
  set (e := r2 / 365). set (k := r2 mod 365).
  assert (n - 1 = a * 146097 + r /\ 0 <= r < 146097 /\ 0 <= a) as (Ea & Hr & Ha).
  { subst a r. pose proof (Z.div_mod (n - 1) 146097 ltac:(lia)). pose proof (Z.mod_pos_bound (n - 1) 146097 ltac:(lia)).
    pose proof (Z.div_pos (n - 1) 146097 ltac:(lia) ltac:(lia)). lia. }
  assert (r = b * 36524 + r1 /\ 0 <= r1 < 36524) as (Eb & Hr1)
    by (subst b r1; Z.to_euclidean_division_equations; lia).
  assert (r1 = c * 1461 + r2 /\ 0 <= r2 < 1461) as (Ec & Hr2)
    by (subst c r2; Z.to_euclidean_division_equations; lia).
  assert (r2 = e * 365 + k /\ 0 <= k < 365) as (Ee & Hk)
    by (subst e k; Z.to_euclidean_division_equations; lia).
  clearbody a r b r1 c r2 e k.
  destruct ((e =? 4) || (b =? 4)) eqn:Eleap.
  - (* the last day of a leap year *)
    intros [= <- <- <-]. apply orb_true_iff in Eleap. rewrite !Z.eqb_eq in Eleap.
    assert (exists b' c', 0 <= b' <= 3 /\ 0 <= c' <= 24 /\ (c' <> 24 \/ b' = 3) /\
      n - 1 = a * 146097 + b' * 36524 + c' * 1461 + 1460 /\
      a * 400 + 1 + b * 100 + c * 4 + e - 1 = a * 400 + 1 + b' * 100 + c' * 4 + 3) as (b' & c' & Hb & Hc & Hor & E & ->).
    { destruct (decide (b = 4)) as [->|]; [exists 3, 24; lia|exists b, c; lia]. }
    destruct (year_parts a b' c' 3) as [Hd Hl]; [lia..|].
    assert (is_leap (a * 400 + 1 + b' * 100 + c' * 4 + 3) = true) as Ht.
    { rewrite Hl. apply andb_true_iff. split; [done|]. apply orb_true_iff.
      rewrite negb_true_iff, Z.eqb_neq, Z.eqb_eq. lia. }
    unfold good_date, ymd2ord, days_in_month, days_before_month. rewrite Hd, Ht. months. lia.
  - apply orb_false_iff in Eleap. rewrite !Z.eqb_neq in Eleap.
    destruct (year_parts a b c e) as [Hd Hl]; [lia..|].
    set (y0 := a * 400 + 1 + b * 100 + c * 4 + e) in *.
    destruct (month_of _ 1 k) as [m0 d0] eqn:Em. intros [= <- <- <-].
    apply month_of_good in Em as [Hg Hy]; [|unfold leap_day; destruct (is_leap y0); lia].
    split; [done|]. unfold year_day in Hy. unfold ymd2ord. split; [lia|]. subst y0. lia.
Qed.

Lemma ord2ymd_lex n n' y m d y' m' d' : 1 <= n -> n < n' ->
  ord2ymd n = (y, m, d) -> ord2ymd n' = (y', m', d') ->
  y < y' \/ y = y' /\ (m < m' \/ m = m' /\ d < d').
Proof.
  intros H1 Hlt (Hg & E & _)%ord2ymd_good (Hg' & E' & _)%ord2ymd_good; [|lia..].
  destruct (Z.lt_trichotomy y y') as [|[->|Hy]]; [by left| |].
  - right. split; [done|]. destruct (Z.lt_trichotomy m m') as [|[->|Hm]]; [by left| |].
    + right. split; [done|]. unfold ymd2ord in *. lia.
    + pose proof (ymd2ord_lex _ _ _ _ _ _ Hg' Hg (or_intror (conj eq_refl (or_introl Hm)))). lia.
  - pose proof (ymd2ord_lex _ _ _ _ _ _ Hg' Hg (or_introl Hy)). lia.
Qed.

(** ** The order of the texts *)

Lemma year_bound n y m d : 1 <= n <= max_ordinal -> ord2ymd n = (y, m, d) -> 1 <= y < 10000.
Proof.
  intros [H1 Hn] (Hg & E & Hy)%ord2ymd_good; [|done]. split; [done|]. apply Z.nle_gt. intros Hle.
  pose proof (year_day_bounds _ _ _ Hg). unfold ymd2ord in E. unfold year_day in *.
  pose proof (days_before_mono 10000 (y - 10000) ltac:(lia)) as Hmono.
  replace (10000 + (y - 10000)) with y in Hmono by lia.
  change max_ordinal with 3652059 in Hn. change (days_before_year 10000) with 3652059 in Hmono. lia.
Qed.

Lemma good_date_small y m d : good_date y m d -> 0 <= m < 10 ^ 2 /\ 0 <= d < 10 ^ 2.
Proof.
  intros [Hm Hd]. split; [lia|]. assert (days_in_month y m <= 31); [|lia]. unfold days_in_month. clear Hd.
  revert m Hm. refine (month_cases _ _); each; destruct (is_leap y); months; lia.
Qed.

Lemma date_text n y m d : 1 <= n <= max_ordinal -> ord2ymd n = (y, m, d) ->
  date_isoformat n = dig 4 y +:+ "-" +:+ dig 2 m +:+ "-" +:+ dig 2 d.
Proof.
  intros Hn E. unfold date_isoformat. rewrite E. pose proof (year_bound _ _ _ _ Hn E).
  apply ord2ymd_good in E as (Hg & _); [|lia]. apply good_date_small in Hg as [Hm Hd].
  rewrite !pad_dig; try done; simpl; lia.
Qed.

Lemma length_date n : 1 <= n <= max_ordinal -> String.length (date_isoformat n) = 10%nat.
Proof.
  intros Hn. destruct (ord2ymd n) as [[y m] d] eqn:E. rewrite (date_text _ _ _ _ Hn E).
  by rewrite !length_append, !length_dig.
Qed.

Lemma compare_antisym_eq s t c : String.compare s t = c -> String.compare t s = CompOpp c.
Proof. intros <-. apply String.compare_antisym. Qed.

Lemma date_compare n n' : 1 <= n <= max_ordinal -> 1 <= n' <= max_ordinal ->
  String.compare (date_isoformat n) (date_isoformat n') = (n ?= n').
Proof.
  assert (forall n n', 1 <= n <= max_ordinal -> 1 <= n' <= max_ordinal -> n < n' ->
    String.compare (date_isoformat n) (date_isoformat n') = Lt) as Hlt.
  { clear n n'. intros n n' Hn Hn' Hlt. destruct (ord2ymd n) as [[y m] d] eqn:E, (ord2ymd n') as [[y' m'] d'] eqn:E'.
    rewrite (date_text _ _ _ _ Hn E), (date_text _ _ _ _ Hn' E').
    pose proof (ord2ymd_lex n n' _ _ _ _ _ _ ltac:(lia) Hlt E E') as Hlex.
    pose proof (year_bound _ _ _ _ Hn E). pose proof (year_bound _ _ _ _ Hn' E').
    apply ord2ymd_good in E as (Hg%good_date_small & _); [|lia].
    apply ord2ymd_good in E' as (Hg'%good_date_small & _); [|lia].
    rewrite compare_app, dig_compare, compare_same, compare_app, dig_compare, compare_same, dig_compare
      by (rewrite ?length_dig; simpl; lia).
    destruct Hlex as [Hy|[-> [Hm|[-> Hd]]]]; rewrite ?Z.compare_refl.
    - by rewrite (proj2 (Z.compare_lt_iff _ _) Hy).
    - by rewrite (proj2 (Z.compare_lt_iff _ _) Hm).
    - by rewrite (proj2 (Z.compare_lt_iff _ _) Hd). }
  intros Hn Hn'. destruct (Z.compare_spec n n') as [->|H|H].
  - apply compare_refl.
  - by apply Hlt.
  - change Gt with (CompOpp Lt). by apply compare_antisym_eq, Hlt.
Qed.

Lemma clock_text us : 0 <= us < day_us ->
  let s := us / 1000000 in clock us = dig 2 (s / 3600) +:+ ":" +:+ dig 2 (s / 60 mod 60) +:+ ":" +:+ dig 2 (s mod 60).
Proof.
  intros Hus s. unfold clock. fold s. unfold day_us in Hus.
  assert (0 <= s < 86400) by (subst s; Z.to_euclidean_division_equations; lia).
  rewrite !pad_dig; try done; simpl; Z.to_euclidean_division_equations; lia.
Qed.

Lemma length_clock us : 0 <= us < day_us -> String.length (clock us) = 8%nat.
Proof. intros Hus. rewrite clock_text by done. by rewrite !length_append, !length_dig. Qed.

Lemma clock_compare a b : 0 <= a < day_us -> 0 <= b < day_us ->
  String.compare (clock a) (clock b) = (a / 1000000 ?= b / 1000000).
Proof.
  intros Ha Hb. rewrite !clock_text by done. cbv zeta. unfold day_us in *.
  assert (0 <= a / 1000000 < 86400) as Hs by (Z.to_euclidean_division_equations; lia).
  assert (0 <= b / 1000000 < 86400) as Hs' by (Z.to_euclidean_division_equations; lia).
  revert Hs Hs'. generalize (a / 1000000) (b / 1000000). clear. intros s s' Hs Hs'.
  rewrite compare_app, dig_compare, compare_same, compare_app, dig_compare, compare_same, dig_compare
    by (rewrite ?length_dig; simpl; try done; Z.to_euclidean_division_equations; lia).
  destruct (Z.compare_spec (s / 3600) (s' / 3600)) as [E|E|E];
    [|symmetry; (apply Z.compare_lt_iff || apply Z.compare_gt_iff);
      Z.to_euclidean_division_equations; lia..].
  destruct (Z.compare_spec (s / 60 mod 60) (s' / 60 mod 60)) as [E2|E2|E2];
    [|symmetry; (apply Z.compare_lt_iff || apply Z.compare_gt_iff);
      Z.to_euclidean_division_equations; lia..].
  destruct (Z.compare_spec (s mod 60) (s' mod 60)) as [E3|E3|E3]; symmetry;
    (apply Z.compare_eq_iff || apply Z.compare_lt_iff || apply Z.compare_gt_iff);
    Z.to_euclidean_division_equations; lia.
Qed.

Definition fraction_text (us : Z) : string := (if us =? 0 then "" else "." +:+ pad 6 us) +:+ "+00:00".

Lemma fraction_compare a b : 0 <= a < 1000000 -> 0 <= b < 1000000 ->
  String.compare (fraction_text a) (fraction_text b) = (a ?= b).
Proof.
  intros Ha Hb. unfold fraction_text.
  destruct (Z.eqb_spec a 0) as [->|Ha0], (Z.eqb_spec b 0) as [->|Hb0]; [done| | |].
  - symmetry. rewrite append_assoc. apply Z.compare_lt_iff. lia.
  - symmetry. rewrite append_assoc. apply Z.compare_gt_iff. lia.
  - rewrite !append_assoc, compare_same, !pad_dig by (simpl; lia).
    rewrite compare_app, dig_compare, compare_refl by (rewrite ?length_dig; simpl; lia).
    by destruct (a ?= b).
Qed.

Lemma iso_split t : isoformat_utc t =
  date_isoformat (dt_local t / day_us) +:+ "T" +:+ clock (dt_local t mod day_us) +:+ fraction_text (dt_local t mod 1000000).
Proof. unfold isoformat_utc, fraction_text. cbv zeta. by destruct (_ =? 0). Qed.

Lemma in_range_day t : in_range t = true -> 1 <= t / day_us <= max_ordinal.
Proof.
  unfold in_range. rewrite andb_true_iff, Z.leb_le, Z.ltb_lt. intros [H1 H2]. split.
  - apply Z.div_le_lower_bound; unfold day_us in *; lia.
  - apply Z.lt_succ_r, Z.div_lt_upper_bound; unfold day_us in *; lia.
Qed.

(** the texts of two instants in UTC compare as the instants do *)
Lemma iso_compare a b : in_range a = true -> in_range b = true ->
  String.compare (isoformat_utc (mk_datetime a (Some 0))) (isoformat_utc (mk_datetime b (Some 0))) = (a ?= b).
Proof.
  intros Ha%in_range_day Hb%in_range_day. rewrite !iso_split. cbn [dt_local].
  pose proof (Z.mod_pos_bound a day_us ltac:(done)) as Hma. pose proof (Z.mod_pos_bound b day_us ltac:(done)) as Hmb.
  rewrite compare_app, date_compare, compare_same, compare_app, clock_compare, fraction_compare
    by (rewrite ?length_date, ?length_clock by done; try done; apply Z.mod_pos_bound; done).
  unfold day_us in *. clear Ha Hb.
  destruct (Z.compare_spec (a / (86400 * 1000000)) (b / (86400 * 1000000))) as [E|E|E];
    [|symmetry; (apply Z.compare_lt_iff || apply Z.compare_gt_iff); Z.to_euclidean_division_equations; lia..].
  destruct (Z.compare_spec (a mod (86400 * 1000000) / 1000000) (b mod (86400 * 1000000) / 1000000)) as [E2|E2|E2];
    [|symmetry; (apply Z.compare_lt_iff || apply Z.compare_gt_iff); Z.to_euclidean_division_equations; lia..].
  destruct (Z.compare_spec (a mod 1000000) (b mod 1000000)) as [E3|E3|E3]; symmetry;
    (apply Z.compare_eq_iff || apply Z.compare_lt_iff || apply Z.compare_gt_iff); Z.to_euclidean_division_equations; lia.
Qed.

(** ** Reading a text back *)

Lemma digit_char_digit n : 0 <= n < 10 -> is_digit (digit_char n) = true /\ digit_value (digit_char n) = n.
Proof. apply (digit_cases (fun n => is_digit (digit_char n) = true /\ digit_value (digit_char n) = n)). each; done. Qed.

Lemma digit_not c x : is_digit c = true -> is_digit x = false -> Ascii.eqb c x = false.
Proof. intros Hc Hx. destruct (Ascii.eqb_spec c x) as [->|]; [congruence|done]. Qed.

Lemma digits_from_app s t acc : digits_from acc (s +:+ t) =
  match digits_from acc s with Some acc => digits_from acc t | None => None end.
Proof.
  revert acc; induction s as [|c s IH]; intros acc; [done|]. rewrite append_cons. cbn [digits_from].
  destruct (is_digit c); [apply IH|done].
Qed.

Lemma digits_from_dig w : forall acc n, 0 <= n < 10 ^ Z.of_nat w ->
  digits_from acc (dig w n) = Some (acc * 10 ^ Z.of_nat w + n).
Proof.
  induction w as [|w IH]; intros acc n Hn.
  { simpl in *. f_equal. lia. }
  rewrite Nat2Z.inj_succ, Z.pow_succ_r in * by lia. cbn [dig].
  pose proof (Z.div_mod n 10 ltac:(lia)). pose proof (Z.mod_pos_bound n 10 ltac:(lia)) as Hm.
  rewrite digits_from_app, IH by lia. cbn [digits_from].
  destruct (digit_char_digit _ Hm) as [-> ->]. f_equal. lia.
Qed.

Lemma digits_dig w n : (0 < w)%nat -> 0 <= n < 10 ^ Z.of_nat w -> digits (dig w n) = Some n.
Proof.
  intros Hw Hn. pose proof (digits_from_dig w 0 n Hn) as E. pose proof (length_dig w n) as Hl.
  unfold digits. destruct (dig w n); [simpl in Hl; lia|done].
Qed.

(** the characters of a padded number are digits *)
Lemma dig_S w n : exists c, dig (S w) n = dig w (n / 10) +:+ String c EmptyString /\ is_digit c = true.
Proof.
  eexists. split; [done|]. apply digit_char_digit, Z.mod_pos_bound. lia.
Qed.

Lemma dig2_chars n : exists a b, dig 2 n = String a (String b EmptyString) /\ is_digit a = true /\ is_digit b = true.
Proof.
  destruct (dig_S 1 n) as (b & -> & Hb), (dig_S 0 (n / 10)) as (a & -> & Ha). by exists a, b.
Qed.
Lemma dig4_chars n : exists a b c e, dig 4 n = String a (String b (String c (String e EmptyString))) /\
  is_digit a = true /\ is_digit b = true /\ is_digit c = true /\ is_digit e = true.
Proof.
  destruct (dig_S 3 n) as (e & -> & He), (dig_S 2 (n / 10)) as (c & -> & Hc).
  destruct (dig2_chars (n / 10 / 10)) as (a & b & -> & Ha & Hb). by exists a, b, c, e.
Qed.
Lemma dig6_chars n : exists a b c e f g,
  dig 6 n = String a (String b (String c (String e (String f (String g EmptyString))))) /\
  is_digit a = true /\ is_digit b = true /\ is_digit c = true /\ is_digit e = true /\ is_digit f = true /\ is_digit g = true.
Proof.
  destruct (dig_S 5 n) as (g & -> & Hg), (dig_S 4 (n / 10)) as (f & -> & Hf).
  destruct (dig4_chars (n / 10 / 10)) as (a & b & c & e & -> & Ha & Hb & Hc & He). by exists a, b, c, e, f, g.
Qed.

Lemma valid_date n y m d : 1 <= n <= max_ordinal -> ord2ymd n = (y, m, d) -> make_date y m d = Some n.
Proof.
  intros Hn E. pose proof (year_bound _ _ _ _ Hn E) as Hy. apply ord2ymd_good in E as (Hg & En & _); [|lia].
  destruct Hg as [Hm Hd]. unfold make_date, valid_ymd, MINYEAR, MAXYEAR.
  replace (_ && _) with true; [by rewrite En|]. symmetry. rewrite !andb_true_iff, !Z.leb_le. lia.
Qed.

Lemma parse_date n : 1 <= n <= max_ordinal -> parse_isoformat_date (date_isoformat n) = Some n.
Proof.
  intros Hn. destruct (ord2ymd n) as [[y m] d] eqn:E. rewrite (date_text _ _ _ _ Hn E).
  pose proof (year_bound _ _ _ _ Hn E) as Hy. pose proof (valid_date _ _ _ _ Hn E) as Hv.
  apply ord2ymd_good in E as (Hg & _); [|lia]. apply good_date_small in Hg as [Hm Hd].
  destruct (dig4_chars y) as (y0 & y1 & y2 & y3 & Ey & _), (dig2_chars m) as (m0 & m1 & Em & Hm0 & _),
    (dig2_chars d) as (d0 & d1 & Ed & _).
  assert (digits (String y0 (String y1 (String y2 (String y3 EmptyString)))) = Some y) as Dy
    by (rewrite <-Ey; apply digits_dig; simpl; lia).
  assert (digits (String m0 (String m1 EmptyString)) = Some m) as Dm
    by (rewrite <-Em; apply digits_dig; simpl; lia).
  assert (digits (String d0 (String d1 EmptyString)) = Some d) as Dd
    by (rewrite <-Ed; apply digits_dig; simpl; lia).
  rewrite Ey, Em, Ed. unfold parse_isoformat_date.
  match goal with |- context [char_is 4 "-" ?s] => set (text := s) end.
  change (char_is 4 "-" text) with true. cbn [Nat.add].
  change (slice 0 4 text) with (String y0 (String y1 (String y2 (String y3 EmptyString)))).
  change (char_is 5 "W" text) with (Ascii.eqb m0 "W"). rewrite digit_not by done.
  change (char_is 7 "-" text) with true. cbn [Bool.eqb Nat.eqb].
  change (slice 5 7 text) with (String m0 (String m1 EmptyString)).
  change (from 8 text) with (String d0 (String d1 EmptyString)).
  by rewrite Dy, Dm, Dd.
Qed.

Lemma time_text us : 0 <= us < day_us -> exists h0 h1 m0 m1 s0 s1 hh mm ss,
  clock us = String h0 (String h1 (String ":" (String m0 (String m1 (String ":" (String s0 (String s1 EmptyString))))))) /\
  is_digit h0 = true /\ is_digit h1 = true /\ is_digit m0 = true /\ is_digit m1 = true /\ is_digit s0 = true /\ is_digit s1 = true /\
  digits (String h0 (String h1 EmptyString)) = Some hh /\ digits (String m0 (String m1 EmptyString)) = Some mm /\
  digits (String s0 (String s1 EmptyString)) = Some ss /\
  (hh <=? 23) = true /\ (mm <=? 59) = true /\ (ss <=? 59) = true /\ (hh * 60 + mm) * 60 + ss = us / 1000000.
Proof.
  intros Hus. rewrite clock_text by done. cbv zeta. unfold day_us in Hus.
  assert (0 <= us / 1000000 < 86400) as Hs by (Z.to_euclidean_division_equations; lia).
  revert Hs. generalize (us / 1000000). clear us Hus. intros s Hs.
  set (hh := s / 3600). set (mm := s / 60 mod 60). set (ss := s mod 60).
  assert (0 <= hh <= 23 /\ 0 <= mm <= 59 /\ 0 <= ss <= 59 /\ (hh * 60 + mm) * 60 + ss = s) as (Hh & Hm & Hss & E)
    by (subst hh mm ss; Z.to_euclidean_division_equations; lia).
  clearbody hh mm ss.
  destruct (dig2_chars hh) as (h0 & h1 & Eh & Hh0 & Hh1), (dig2_chars mm) as (m0 & m1 & Em & Hm0 & Hm1),
    (dig2_chars ss) as (s0 & s1 & Es & Hs0 & Hs1).
  exists h0, h1, m0, m1, s0, s1, hh, mm, ss. rewrite Eh, Em, Es. split; [reflexivity|].
  rewrite <-Eh, <-Em, <-Es, !digits_dig by (simpl; lia). rewrite !Z.leb_le. split_and!; done || lia.
Qed.

(** the scan for the sign of the offset *)
Lemma find_char_digits c s t : (forall x, x ∈ String.list_ascii_of_string s -> Ascii.eqb x c = false) ->
  find_char c (s +:+ t) = (Nat.add (String.length s)) <$> find_char c t.
Proof.
  induction s as [|x s IH]; intros Hs; [rewrite append_empty; destruct (find_char c t); reflexivity|].
  rewrite append_cons. cbn [find_char String.list_ascii_of_string String.length] in *.
  rewrite (Hs x) by (by left). rewrite IH by (intros y Hy; apply Hs; by right).
  destruct (find_char c t); reflexivity.
Qed.

Ltac no_char := intros x Hx; cbn [String.list_ascii_of_string] in Hx;
  repeat (apply elem_of_cons in Hx as [->|Hx]); try (apply digit_not; [assumption|reflexivity]); try reflexivity;
  by apply elem_of_nil in Hx.

Lemma parse_time us : 0 <= us < day_us ->
  parse_isoformat_time (clock us +:+ fraction_text (us mod 1000000)) = Some (us, Some 0).
Proof.
  intros Hus. destruct (time_text us Hus) as (h0 & h1 & m0 & m1 & s0 & s1 & hh & mm & ss & -> & Hh0 & Hh1 & Hm0 & Hm1 &
    Hs0 & Hs1 & Dh & Dm & Ds & Bh & Bm & Bs & E).
  pose proof (Z.div_mod us 1000000 ltac:(lia)). pose proof (Z.mod_pos_bound us 1000000 ltac:(lia)) as Hf.
  unfold fraction_text. destruct (Z.eqb_spec (us mod 1000000) 0) as [Ez|_].
  - set (front := String h0 _). rewrite append_empty.
    assert (find_char "-" (front +:+ "+00:00") = None /\ find_char "+" (front +:+ "+00:00") = Some 8%nat) as [F1 F2].
    { split; (rewrite find_char_digits by no_char); done. }
    unfold parse_isoformat_time, tz_position. rewrite F1, F2.
    change (slice 0 8 (front +:+ "+00:00")) with front.
    change (from 9 (front +:+ "+00:00")) with "00:00".
    change (char_is 8 "Z" (front +:+ "+00:00")) with false.
    change (char_is 8 "-" (front +:+ "+00:00")) with false.
    change (Nat.ltb (String.length (front +:+ "+00:00")) 2) with false.
    change (parse_hh_mm_ss_ff "00:00") with (Some (0, 0, 0, 0)).
    assert (time_of_day front = Some us) as ->; [|done].
    unfold time_of_day, parse_hh_mm_ss_ff.
    change (char_is 2 ":" front) with true. cbn [Nat.add].
    change (slice 0 2 front) with (String h0 (String h1 EmptyString)). rewrite Dh.
    change (slice 3 5 front) with (String m0 (String m1 EmptyString)).
    change (slice 6 8 front) with (String s0 (String s1 EmptyString)).
    change (char_is 5 ":" front) with true.
    change (from 8 front) with EmptyString. change (String.length front) with 8%nat.
    cbn [Nat.ltb Nat.leb Nat.eqb andb negb]. rewrite Dm, Ds. cbn [fraction]. rewrite Bh, Bm, Bs. cbn [andb microseconds].
    f_equal. unfold microseconds. lia.
  - rewrite pad_dig by (simpl; lia).
    destruct (dig6_chars (us mod 1000000)) as (f0 & f1 & f2 & f3 & f4 & f5 & Ef & G0 & G1 & G2 & G3 & G4 & G5).
    assert (digits (String f0 (String f1 (String f2 (String f3 (String f4 (String f5 EmptyString)))))) =
      Some (us mod 1000000)) as Df by (rewrite <-Ef; apply digits_dig; simpl; lia).
    rewrite Ef. set (front := String h0 _).
    set (all := front +:+ "." +:+ String f0 (String f1 (String f2 (String f3 (String f4 (String f5 EmptyString)))))).
    assert (front +:+ ("." +:+ String f0 (String f1 (String f2 (String f3 (String f4 (String f5 EmptyString)))))) +:+ "+00:00"
      = all +:+ "+00:00") as -> by reflexivity.
    assert (find_char "-" (all +:+ "+00:00") = None /\ find_char "+" (all +:+ "+00:00") = Some 15%nat) as [F1 F2].
    { split; (rewrite find_char_digits by no_char); done. }
    unfold parse_isoformat_time, tz_position. rewrite F1, F2.
    change (slice 0 15 (all +:+ "+00:00")) with all.
    change (from 16 (all +:+ "+00:00")) with "00:00".
    change (char_is 15 "Z" (all +:+ "+00:00")) with false.
    change (char_is 15 "-" (all +:+ "+00:00")) with false.
    change (Nat.ltb (String.length (all +:+ "+00:00")) 2) with false.
    change (parse_hh_mm_ss_ff "00:00") with (Some (0, 0, 0, 0)).
    assert (time_of_day all = Some us) as ->; [|done].
    unfold time_of_day, parse_hh_mm_ss_ff.
    change (char_is 2 ":" all) with true. cbn [Nat.add].
    change (slice 0 2 all) with (String h0 (String h1 EmptyString)). rewrite Dh.
    change (slice 3 5 all) with (String m0 (String m1 EmptyString)).
    change (slice 6 8 all) with (String s0 (String s1 EmptyString)).
    change (char_is 5 ":" all) with true.
    change (from 8 all) with (String "." (String f0 (String f1 (String f2 (String f3 (String f4 (String f5 EmptyString))))))).
    change (String.length all) with 15%nat.
    cbn [Nat.ltb Nat.leb Nat.eqb andb negb]. rewrite Dm, Ds. unfold fraction.
    change (Ascii.eqb "." "." || Ascii.eqb "." ",") with true. cbn [String.length Nat.min].
    change (slice 0 6 (String f0 (String f1 (String f2 (String f3 (String f4 (String f5 EmptyString)))))))
      with (String f0 (String f1 (String f2 (String f3 (String f4 (String f5 EmptyString)))))).
    rewrite Df. cbn [Nat.ltb Nat.leb andb]. rewrite Bh, Bm, Bs. cbn [andb].
    f_equal. unfold microseconds. change (10 ^ (6 - Z.of_nat 6)) with 1. lia.
Qed.

Lemma substring_app_l a b : String.substring 0 (String.length a) (a +:+ b) = a.
Proof. induction a as [|c a IH]; [by destruct b|]. rewrite append_cons. cbn. by rewrite IH. Qed.

Lemma substring_skip a b n : String.substring (String.length a) n (a +:+ b) = String.substring 0 n b.
Proof. induction a as [|c a IH]; [done|]. rewrite append_cons. cbn. apply IH. Qed.

Lemma substring_all b : String.substring 0 (String.length b) b = b.
Proof. rewrite <-(append_nil_r b) at 2. apply substring_app_l. Qed.

(** ** An instant's text denotes the instant *)
Lemma iso_roundtrip t : in_range t = true ->
  fromisoformat (isoformat_utc (mk_datetime t (Some 0))) = Some (mk_datetime t (Some 0)).
Proof.
  intros Ht. pose proof (in_range_day t Ht) as Hday. rewrite iso_split. cbn [dt_local].
  pose proof (Z.mod_pos_bound t day_us ltac:(done)) as Hus. pose proof (Z.div_mod t day_us ltac:(done)) as Hdm.
  set (day := t / day_us) in *. set (us := t mod day_us) in *.
  replace (t mod 1000000) with (us mod 1000000)
    by (subst us day; unfold day_us in *; Z.to_euclidean_division_equations; lia).
  set (D := date_isoformat day). assert (String.length D = 10%nat) as HD by (by apply length_date).
  set (R := clock us +:+ fraction_text (us mod 1000000)).
  assert (8 <= String.length R)%nat as HR by (unfold R; rewrite length_append, length_clock by done; lia).
  assert (String.length (D +:+ "T" +:+ R) = (11 + String.length R)%nat) as Hlen
    by (rewrite !length_append, HD; done).
  assert (separator_location (D +:+ "T" +:+ R) = Some 10%nat) as Hsep.
  { unfold separator_location. rewrite Hlen.
    destruct (ord2ymd day) as [[y m] d] eqn:E. unfold D. rewrite (date_text _ _ _ _ Hday E).
    destruct (dig4_chars y) as (y0 & y1 & y2 & y3 & -> & _), (dig2_chars m) as (m0 & m1 & -> & Hm0 & _).
    match goal with |- context [char_is 4 "-" ?s] => set (text := s) end.
    change (char_is 4 "-" text) with true. change (char_is 5 "W" text) with (Ascii.eqb m0 "W").
    rewrite digit_not by done. done. }
  unfold fromisoformat. rewrite Hlen, Hsep. cbn [Nat.add Nat.ltb Nat.leb].
  assert (slice 0 10 (D +:+ "T" +:+ R) = D) as ->.
  { unfold slice. cbn [Nat.sub]. rewrite <-HD. apply substring_app_l. }
  assert (from 11 (D +:+ "T" +:+ R) = R) as ->.
  { unfold from. rewrite Hlen. rewrite <-append_assoc.
    replace 11%nat with (String.length (D +:+ "T")) at 1 by (rewrite length_append, HD; done).
    rewrite substring_skip. replace (11 + String.length R - 11)%nat with (String.length R) by lia. apply substring_all. }
  unfold D at 1. rewrite parse_date by done.
  destruct R as [|c R'] eqn:ER; [simpl in HR; lia|]. cbn [is_empty]. rewrite <-ER. unfold R.
  rewrite parse_time by done. do 2 f_equal. lia.
Qed.
