(* ===== verification/DecisionRules.v ===== *)
(** * What the decision endpoints guarantee

    Every recorded decision was made by an active member entitled to it and not
    by the person it checks; an expiry means the instant it denotes; releases are
    approved against waivers that still stand; incidents of one organization
    never move another's; and a review decided in its only stage can be decided
    again by a direct request. *)

From stdpp Require Import base list strings option pretty sets gmap.
From Stdlib Require Import ZArith QArith Lia.
From S2P Require Import Prelude Py Dates Sql Schema Scope Requests IsoOrder PolicyDoc PolicyInForce Rbac PolicyStore PolicyGuarantees PolicyStaffing Queue QueueRules Workflow Stages StageRules StageStart StageDecisions StageDecisionRules Coverage Gates GateRules Decisions.

Open Scope nat_scope.

Section Rules.
Context `{PyHost} `{Digest}.

(** ** Maker and checker *)

(** the person deciding on a target with a maker: active, inside their own scope,
    holding the permission through an assignment covering the target, and not
    its maker *)
Record may_decide (d : db) (actor : ActorContext) (t : target) (maker : option string) : Prop := {
  md_active : active_user d (user_ref actor);
  md_scope : in_actor_scope actor t;
  md_permission : exists a, in_force d (user_ref actor) a /\ covers_target a t /\
    granted d (ra_role a) (_decision_permission t);
  md_not_maker : maker <> Some (user_ref actor) \/ user_ref actor = EmptyString
}.

(** only the tables of people and permissions matter *)
Lemma may_decide_frame d d' actor t maker :
  platform_users d' = platform_users d -> role_assignments d' = role_assignments d ->
  role_permissions d' = role_permissions d -> may_decide d' actor t maker -> may_decide d actor t maker.
Proof.
  intros Eu Ea Ep [Hu Hs Hp Hm]. unfold active_user, load_platform_user, in_force, granted in *. rewrite Eu in Hu.
  rewrite Ea, Ep in Hp. by constructor.
Qed.

Lemma segregation_Ok actor x d u :
  enforce_segregation_of_duties actor x d = Ok u ->
  target_maker d x <> Some (user_ref actor) \/ user_ref actor = EmptyString.
Proof.
  unfold enforce_segregation_of_duties. intros Hm%throw_if_Ok.
  destruct (decide (user_ref actor = EmptyString)) as [|Hne]; [by right|left]. intros E. rewrite E in Hm.
  simpl in Hm. apply andb_false_iff in Hm as [Hm|Hm].
  - by apply negb_false_iff, is_empty_true in Hm.
  - by apply bool_decide_eq_false in Hm.
Qed.

Lemma checks_Ok d actor ty x u v :
  or_forbidden (require_decision d actor (access_target ty x)) = Ok u ->
  enforce_segregation_of_duties actor x d = Ok v -> may_decide d actor (access_target ty x) (target_maker d x).
Proof.
  intros Hp%or_forbidden_elim Hs%segregation_Ok. apply require_permission_Ok in Hp as (Ha & Hsc & Hp). by constructor.
Qed.

(** a request that records a governance decision - the five endpoints that call
    [record_decision] - with the target its access check saw and the maker of the
    work it decides *)
Inductive decides (now : string) (now_dt : Z) (actor : ActorContext) (d : db)
    : target -> option string -> db -> Prop :=
| decides_direct ty id dec rationale row x d' :
    create_decision now now_dt ty id dec rationale actor d = Ok (row, d') ->
    load_decision_target d ty id (actor_tenant actor) = Ok x ->
    decides now now_dt actor d (access_target ty x) (target_maker d x) d'
| decides_approval id rationale g row x d' :
    approve_deployment_gate now now_dt id rationale actor d = Ok (g, row, d') ->
    load_deployment_gate id d = Ok x ->
    decides now now_dt actor d (access_target "deployment_gate" (TDeploymentGate x))
      (gate_deployer (dg_version_id x) d) d'
| decides_rejection id rationale g row x d' :
    reject_deployment_gate now now_dt id rationale actor d = Ok (g, row, d') ->
    load_deployment_gate id d = Ok x ->
    decides now now_dt actor d (access_target "deployment_gate" (TDeploymentGate x))
      (gate_deployer (dg_version_id x) d) d'
| decides_closure id rationale i row x d' :
    close_incident now id rationale actor d = Ok (i, row, d') ->
    load_incident id (actor_tenant actor) d = Ok x ->
    decides now now_dt actor d (access_target "incident" (TIncident x)) (in_detected_by x) d'
| decides_stage id dec rationale resp s subject d' :
    decide_approval_stage now now_dt id dec rationale actor d = Ok (resp, d') ->
    load_stage d id = Ok s -> load_stage_subject d s = Ok subject ->
    decides now now_dt actor d (stage_target s) (stage_maker d subject) d'.

Lemma decide_gate_Ok now now_dt st dec id rationale actor d r :
  decide_deployment_gate now now_dt st dec id rationale actor d = Ok r ->
  exists gate, load_deployment_gate id d = Ok gate /\
    may_decide d actor (access_target "deployment_gate" (TDeploymentGate gate)) (gate_deployer (dg_version_id gate) d) /\
    exists d2, set_deployment_gate_status now now_dt id st (user_ref actor) rationale d = Ok (fst (fst r), d2).
Proof.
  unfold decide_deployment_gate. intros (gate & Hg & Hrun)%rbind_Ok.
  apply rbind_Ok in Hrun as (? & Hp & Hrun). apply rbind_Ok in Hrun as (? & Hs & Hrun).
  apply rbind_Ok in Hrun as ([g2 d2] & Hset & Hrun). apply rbind_Ok in Hrun as ([row d3] & _ & Hrun).
  injection Hrun as <-. exists gate. split; [done|]. split; [by eapply (checks_Ok d actor "deployment_gate" (TDeploymentGate gate))|]. exists d2. cbn [fst].
  destruct (String.eqb st "approved"); [|done].
  destruct (set_deployment_gate_status _ _ _ _ _ _ _) as [|[]]; try done.
Qed.

Lemma not_found_404_elim {A} (c : res A) x : not_found_404 c = Ok x -> c = Ok x.
Proof. by destruct c as [|[]]. Qed.

Lemma create_decision_Ok now now_dt ty id dec rationale actor d row d' :
  create_decision now now_dt ty id dec rationale actor d = Ok (row, d') ->
  ~ ty ∈ ["deployment_gate"; "incident"; "approval_stage"] /\
  exists x d2, load_decision_target d ty id (actor_tenant actor) = Ok x /\
    may_decide d actor (access_target ty x) (target_maker d x) /\ enforce_stage_policy actor x dec d = Ok tt /\
    record_decision now ty id dec rationale (user_ref actor) (actor_tenant actor) d = Ok (row, d2).
Proof.
  unfold create_decision. intros (? & _ & Hrun)%rbind_Ok. apply rbind_Ok in Hrun as (? & Hty%throw_if_Ok & Hrun).
  apply rbind_Ok in Hrun as (target & Hx & Hrun). apply not_found_404_elim in Hx.
  apply rbind_Ok in Hrun as (? & Hp & Hrun). apply rbind_Ok in Hrun as (? & Hs & Hrun).
  apply rbind_Ok in Hrun as ([] & Hpol & Hrun). apply rbind_Ok in Hrun as ([row2 d2] & Hrec & Hrun).
  apply rbind_Ok in Hrun as (? & _ & Hrun). injection Hrun as <- <-.
  split; [by apply mem_false|]. exists target, d2. split; [done|]. split; [by eapply checks_Ok|]. done.
Qed.

Lemma stage_checks_Ok now now_dt id dec rationale actor d r s subject :
  decide_approval_stage now now_dt id dec rationale actor d = Ok r ->
  load_stage d id = Ok s -> load_stage_subject d s = Ok subject ->
  may_decide d actor (stage_target s) (stage_maker d subject).
Proof.
  unfold decide_approval_stage. intros (? & _ & Hrun)%rbind_Ok Hs Hx. apply rbind_Ok in Hrun as (s' & Hl & Hrun).
  unfold load_stage_or_404 in Hl. rewrite Hs in Hl. injection Hl as <-. apply rbind_Ok in Hrun as (? & Hg & _).
  apply stage_guards_Ok in Hg as ([Ha Hsc Hp _ Hm _] & _). constructor; [done|done| |by apply Hm].
  unfold _decision_permission, stage_target. cbn [tg_type]. exact Hp.
Qed.

(** what lapsing exceptions does not touch *)
Lemma expire_other {A} (f : db -> A) now : (forall d e, f (expire_one now d e) = f d) ->
  forall l d, f (foldl (expire_one now) d l) = f d.
Proof. intros Hf l. induction l as [|e l IH]; intros d; cbn [foldl]; [done|]. by rewrite IH. Qed.

Ltac expired := apply expire_other; intros ? ?; unfold expire_one; repeat case_match; reflexivity.

Lemma approval_checks_Ok now now_dt id rationale actor d r x :
  approve_deployment_gate now now_dt id rationale actor d = Ok r -> load_deployment_gate id d = Ok x ->
  may_decide d actor (access_target "deployment_gate" (TDeploymentGate x)) (gate_deployer (dg_version_id x) d).
Proof.
  unfold approve_deployment_gate, expire_due_exceptions. set (due := select _ _). set (d1 := foldl (expire_one now) d due).
  intros (gate & Hg & Hmd & _)%decide_gate_Ok Hx.
  assert (gate = x) as ->.
  { unfold load_deployment_gate in *. assert (deployment_approval_gates d1 = deployment_approval_gates d) as E by expired.
    rewrite E in Hg. congruence. }
  unfold gate_deployer in *. assert (deployment_versions d1 = deployment_versions d) as E by expired. rewrite E in Hmd.
  eapply may_decide_frame; [..|exact Hmd]; expired.
Qed.

(** C12. Whichever endpoint records a governance decision - the generic one, the
    approval or rejection of a release, the closing of an incident, the decision
    of an approval stage - the person deciding is an active user, in scope,
    holding the permission for that kind of target through an assignment in
    force that covers it, and is not the maker of the work decided: the
    submitter of the use case or vendor under review, the deployer of the
    version, the detector of the incident.  The generic endpoint never decides a
    gate, an incident or a stage. *)
Theorem decisions_separate_duties now now_dt actor d t maker d' :
  decides now now_dt actor d t maker d' ->
  may_decide d actor t maker /\
  (forall ty id dec rationale row d2, create_decision now now_dt ty id dec rationale actor d = Ok (row, d2) ->
     ~ ty ∈ ["deployment_gate"; "incident"; "approval_stage"]).
Proof.
  intros Hd. split; [|by intros * (? & _)%create_decision_Ok].
  destruct Hd as [ty id dec ra row x d' Hrun Hx|id ra g row x d' Hrun Hx|id ra g row x d' Hrun Hx|
                  id ra i row x d' Hrun Hx|id dec ra resp s subject d' Hrun Hs Hx].
  - apply create_decision_Ok in Hrun as (_ & y & d2 & Hy & Hmd & _). congruence.
  - by eapply approval_checks_Ok.
  - apply decide_gate_Ok in Hrun as (gate & Hg & Hmd & _). congruence.
  - unfold close_incident in Hrun. rewrite Hx in Hrun. cbn [rbind] in Hrun.
    apply rbind_Ok in Hrun as (? & Hp & Hrun). apply rbind_Ok in Hrun as (? & Hs & _).
    by eapply (checks_Ok d actor "incident" (TIncident x)).
  - by eapply stage_checks_Ok.
Qed.

(** ** Deciding again *)

(** a decided task, and the use case its intake review is about, have the status
    of the decision *)
Lemma decide_review_task_status now status d t : keys_unique rt_task_id (review_tasks d) -> t ∈ review_tasks d ->
  status ∈ ["approved"; "rejected"] ->
  rt_status <$> lookup_key rt_task_id (rt_task_id t) (review_tasks (decide_review_task now (rt_task_id t) status d)) = Some status /\
  (rt_task_type t = "intake_review" -> forall u, u ∈ ai_use_cases (decide_review_task now (rt_task_id t) status d) ->
     uc_intake_id u = rt_change_id t -> uc_status u = status).
Proof.
  intros Hu Ht Hs. unfold decide_review_task. cbv zeta. cbn [review_tasks set_review_tasks].
  assert (lookup_key rt_task_id (rt_task_id t) (update_key rt_task_id (rt_task_id t)
    (fun r => rt_with_updated_at now (rt_with_status status r)) (review_tasks d)) =
    Some (rt_with_updated_at now (rt_with_status status t))) as Hl.
  { unfold update_key. rewrite lookup_key_update by done. rewrite (lookup_key_unique _ _ _ _ Hu Ht eq_refl).
    cbn [fmap option_fmap option_map].
    by rewrite (proj2 (has_key_true rt_task_id (rt_task_id t) t) eq_refl). }
  rewrite Hl. cbn [rt_task_type rt_with_updated_at rt_with_status rt_change_id]. apply mem_true in Hs. rewrite Hs, andb_true_r.
  set (d1 := set_review_tasks _ d). assert (review_tasks d1 = update_key rt_task_id (rt_task_id t)
    (fun r => rt_with_updated_at now (rt_with_status status r)) (review_tasks d)) as E1 by done.
  destruct (String.eqb_spec (rt_task_type t) "intake_review") as [Hty|Hty]; [|by rewrite E1, Hl].
  assert (review_tasks (decide_use_case now (rt_change_id t) (rt_task_id t) status d1) = review_tasks d1 /\
    ai_use_cases (decide_use_case now (rt_change_id t) (rt_task_id t) status d1) =
      update (fun u => String.eqb (uc_intake_id u) (rt_change_id t) && negb (String.eqb (uc_status u) status))
        (fun u => uc_with_updated_at now (uc_with_status status u)) (ai_use_cases d)) as [-> ->].
  { unfold decide_use_case, _notify_intake_decided. cbv zeta. destruct (0 <? _); [|done].
    destruct (lookup_key uc_intake_id _ _) as [r|]; [|done]. by destruct (is_empty (uc_submitted_by r)). }
  split; [by rewrite E1, Hl|]. intros _ u [(u0 & _ & _ & ->)|[Hin Hno]]%elem_of_update Hid; [done|].
  rewrite Hid, String.eqb_refl in Hno. by apply negb_false_iff, String.eqb_eq in Hno.
Qed.

(** the task's checklist is this one stage, and it is settled *)
Definition settled_by (d : db) (t : review_task) (s : approval_stage) : Prop :=
  list_subject_stages d "review_task" (rt_task_id t) (Some 0%Z) = [s] /\ st_status s ∉ ["open"; "pending"].

(** C13. A review decided in its only stage can be decided again on the direct
    route.  Once that stage is settled, whoever may decide the task and is not its
    maker - with the role the policy asks of the stage or without - can post a
    decision not posted before: it succeeds, the task and the use case of an intake
    review take its status, whatever the stage said, and the stage keeps its own. *)
Theorem direct_decision_overrides_review now now_dt actor d t s decision rationale :
  keys_unique rt_task_id (review_tasks d) ->
  load_decision_target d "review_task" (rt_task_id t) (actor_tenant actor) = Ok (TReviewTask t) ->
  settled_by d t s -> decision ∈ ["approve"; "reject"] ->
  require_decision d actor (access_target "review_task" (TReviewTask t)) = Ok tt ->
  enforce_segregation_of_duties actor (TReviewTask t) d = Ok tt ->
  lookup_key gd_decision_id (decision_key "review_task" (rt_task_id t) decision rationale (user_ref actor))
    (governance_decisions d) = None ->
  exists row d', create_decision now now_dt "review_task" (rt_task_id t) decision rationale actor d = Ok (row, d') /\
    rt_status <$> lookup_key rt_task_id (rt_task_id t) (review_tasks d') = status_by_decision decision /\
    (rt_task_type t = "intake_review" -> forall u, u ∈ ai_use_cases d' -> uc_intake_id u = rt_change_id t ->
       Some (uc_status u) = status_by_decision decision) /\
    approval_stages d' = approval_stages d.
Proof.
  intros Hu Hload [Hstages Hsettled] Hdec Hperm Hmaker Hnew.
  assert (t ∈ review_tasks d) as Ht.
  { unfold load_decision_target in Hload. rewrite String.eqb_refl in Hload. destruct (select1 _ _) as [x|] eqn:E; [|done].
    injection Hload as ->. by apply select1_Some in E as [? _]. }
  assert (exists status, status_by_decision decision = Some status /\ status ∈ ["approved"; "rejected"]) as (status & Hst & Hmem).
  { apply list_elem_of_In in Hdec as [<-|[<-|[]]]; [exists "approved"|exists "rejected"]; (split; [done|]); set_solver. }
  pose proof Hdec as Hdec'%mem_true. unfold create_decision.
  assert (mem decision _ALLOWED_DECISIONS = true) as -> by (apply mem_true; unfold _ALLOWED_DECISIONS; set_solver).
  cbn [negb throw_if rbind]. change (mem "review_task" ["deployment_gate"; "incident"; "approval_stage"]) with false.
  cbn [throw_if rbind]. rewrite Hload. cbn [not_found_404 rbind]. rewrite Hperm. cbn [or_forbidden rbind]. rewrite Hmaker.
  cbn [rbind]. unfold enforce_stage_policy at 1. rewrite Hdec', Hstages. cbn [negb length Nat.ltb Nat.leb throw_if rbind existsb].
  apply mem_false in Hsettled. rewrite Hsettled. cbn [orb rbind]. unfold record_decision. rewrite Hload. cbn [rbind].
  rewrite Hnew. set (d0 := set_governance_decisions _ d).
  assert (sync_decision_to_stages now "review_task" (rt_task_id t) decision (user_ref actor)
    (decision_key "review_task" (rt_task_id t) decision rationale (user_ref actor))
    (apply_decision_status now "review_task" (rt_task_id t) decision d0) =
    Ok (apply_decision_status now "review_task" (rt_task_id t) decision d0)) as ->.
  { unfold sync_decision_to_stages. rewrite Hdec'. cbn [negb String.eqb]. unfold list_subject_stages in *.
    rewrite apply_decision_status_stages. change (approval_stages d0) with (approval_stages d). rewrite Hstages.
    destruct (String.eqb_spec (st_status s) "open") as [E|]; [|done]. rewrite E in Hsettled. done. }
  cbn [rbind]. change (mem "review_task" ["risk_finding"; "control_assessment"; "change_event"]) with false. cbn [andb rbind].
  eexists _, _. split; [done|]. unfold record_audit. cbn [review_tasks ai_use_cases approval_stages set_audit_trail].
  rewrite apply_decision_status_stages, Hst. unfold apply_decision_status. rewrite Hst, String.eqb_refl.
  destruct (decide_review_task_status now status d0 t Hu Ht Hmem) as [-> Hcase].
  split; [done|]. split; [|done]. intros Hty u Hin Hid. f_equal. by apply Hcase.
Qed.

(** ** Expiry *)

Lemma normalize_Ok v text : normalize_expiry v = Ok text ->
  exists parsed, (fromisoformat (replace_z (strip v)) = Some parsed \/
      fromisoformat (replace_z (strip v)) = None /\
      fromisoformat (replace_z (strip v +:+ "T00:00:00+00:00")) = Some parsed) /\
    in_range (instant (assume_utc parsed)) = true /\
    text = isoformat_utc (mk_datetime (instant (assume_utc parsed)) (Some 0%Z)).
Proof.
  unfold normalize_expiry, astimezone_utc. intros Hrun.
  destruct (fromisoformat (replace_z (strip v))) as [p|] eqn:E1;
    [|destruct (fromisoformat (replace_z (strip v +:+ _))) as [p|] eqn:E2; [|done]]; exists p;
    destruct (in_range _) eqn:Hr; try done; injection Hrun as <-; (split; [by auto|done]).
Qed.

Lemma clock_iso_ltb a b : in_range a = true -> in_range b = true ->
  str_ltb (clock_iso a) (clock_iso b) = (a <? b)%Z.
Proof.
  intros Ha Hb. unfold str_ltb, String.ltb, clock_iso. rewrite iso_compare by done.
  unfold Z.ltb. by destruct (a ?= b)%Z.
Qed.

(** An expiry means what it says: the accepted text - a date, or a datetime
    with any offset - denotes an instant; the text stored for it reads back as
    that instant in UTC; and the text comparison of the expiry worker holds
    exactly from that instant on. *)
Theorem expiry_is_chronological v text :
  normalize_expiry v = Ok text ->
  exists parsed, (fromisoformat (replace_z (strip v)) = Some parsed \/
      fromisoformat (replace_z (strip v)) = None /\
      fromisoformat (replace_z (strip v +:+ "T00:00:00+00:00")) = Some parsed) /\
    let t := instant (assume_utc parsed) in
    fromisoformat text = Some (mk_datetime t (Some 0%Z)) /\
    forall now_dt e, in_range now_dt = true -> ge_status e = "active" -> ge_expires_at e = text ->
      (exception_due (clock_iso now_dt) e = true <-> (t <= now_dt)%Z).
Proof.
  intros (p & Hp & Hr & ->)%normalize_Ok. exists p. split; [done|]. cbv zeta. split; [by apply iso_roundtrip|].
  intros now_dt e Hn Hs He. unfold exception_due. rewrite Hs, He. cbn [andb String.eqb Ascii.eqb Bool.eqb].
  change (isoformat_utc (mk_datetime ?t (Some 0%Z))) with (clock_iso t).
  rewrite clock_iso_ltb by done. rewrite negb_true_iff, Z.ltb_ge. done.
Qed.

Lemma future_Ok now_dt v text : _future_expiry now_dt v = Ok text ->
  exists t, in_range t = true /\ text = clock_iso t /\ (now_dt < t)%Z.
Proof.
  unfold _future_expiry. intros (text' & Hn & Hrun)%rbind_Ok.
  assert (normalize_expiry v = Ok text') as (p & _ & Hr & ->)%normalize_Ok by (by destruct (normalize_expiry v) as [|[]]).
  rewrite iso_roundtrip in Hrun by done. apply rbind_Ok in Hrun as (? & Hlt%throw_if_Ok & Hrun). injection Hrun as <-.
  eexists. split; [exact Hr|]. split; [reflexivity|]. apply Z.leb_gt in Hlt. unfold instant in Hlt at 1.
  cbn [dt_local dt_offset from_option id] in Hlt. lia.
Qed.

Lemma exceptions_apply_status now ty id dec d :
  governance_exceptions (apply_decision_status now ty id dec d) = governance_exceptions d.
Proof.
  unfold apply_decision_status. destruct (status_by_decision dec) as [s|]; [|done].
  destruct (String.eqb ty "review_task").
  { unfold decide_review_task. destruct (lookup_key _ _ _); [|done]. destruct (_ && _); [|done].
    unfold decide_use_case, _notify_intake_decided. destruct (0 <? _); [|done].
    destruct (lookup_key _ _ _); [|done]. by destruct (is_empty _). }
  destruct (String.eqb ty "risk_finding"); [done|]. destruct (String.eqb ty "change_event"); [done|].
  by destruct (String.eqb ty "control_assessment").
Qed.

(** An exception is granted by somebody holding the authority to accept the
    risk of its target, for a time in the future: a newly granted one is active,
    stands until its own instant and lapses then; asking again for one that is on
    record returns the original row, lapsed or not, and waives nothing anew. *)
Theorem exception_grants now now_dt ty id reason control expires_at actor d row d' :
  create_exception_route now now_dt ty id reason control expires_at actor d = Ok (row, d') ->
  exists x, load_decision_target d ty id (actor_tenant actor) = Ok x /\
    active_user d (user_ref actor) /\ in_actor_scope actor (access_target ty x) /\
    (exists a, in_force d (user_ref actor) a /\ covers_target a (access_target ty x) /\
       granted d (ra_role a) PERM_RISK_ACCEPT) /\
    (row ∈ governance_exceptions d /\ governance_exceptions d' = governance_exceptions d /\
       risk_findings d' = risk_findings d /\ control_assessments d' = control_assessments d \/
     row ∉ governance_exceptions d /\ exists t, (now_dt < t)%Z /\ ge_status row = "active" /\ row ∈ governance_exceptions d' /\
         forall n, in_range n = true -> (exception_due (clock_iso n) row = true <-> (t <= n)%Z)).
Proof.
  unfold create_exception_route. intros (text & (t & Ht & -> & Hlt)%future_Ok & Hrun)%rbind_Ok.
  apply rbind_Ok in Hrun as (x & Hx & Hrun). apply rbind_Ok in Hrun as (? & Hp & Hrun).
  apply or_forbidden_elim, require_permission_Ok in Hp as (Ha & Hs & Hp).
  apply rbind_Ok in Hrun as ([row2 d2] & Hc & Hrun). injection Hrun as <- <-.
  exists x. split; [done|]. split; [done|]. split; [done|]. split; [done|].
  unfold create_exception in Hc. rewrite Hx in Hc. cbn [rbind] in Hc.
  set (key := entity_id _) in Hc. destruct (lookup_key ge_exception_id key (governance_exceptions d)) as [old|] eqn:El.
  - injection Hc as <- <-. apply lookup_key_Some in El as [Hin _]. by left.
  - injection Hc as <- <-. right. split.
    { intros Hin. apply lookup_key_None in El. destruct El. by apply (list_elem_of_fmap_2 ge_exception_id) in Hin. }
    exists t. split; [done|]. split; [done|]. split.
    + cbn [governance_exceptions record_audit set_audit_trail]. rewrite exceptions_apply_status.
      cbn [governance_exceptions set_governance_exceptions]. unfold insert_or_ignore. cbn [ge_exception_id].
      fold key. rewrite El. apply elem_of_app. right. by left.
    + intros n Hn. unfold exception_due. cbn [ge_status ge_expires_at andb String.eqb Ascii.eqb Bool.eqb].
      rewrite clock_iso_ltb by done. by rewrite negb_true_iff, Z.ltb_ge.
Qed.

(** ** Releases and lapsed waivers *)

Lemma expire_gates now l d : deployment_approval_gates (foldl (expire_one now) d l) = deployment_approval_gates d.
Proof. expired. Qed.

(** A release is approved on the register as it stands once lapsed exceptions
    are expired: no finding of the application still counts as waived under an
    exception whose time has passed. *)
Theorem approval_counts_lapsed_waivers now now_dt id rationale actor d g row d' :
  approve_deployment_gate now now_dt id rationale actor d = Ok (g, row, d') ->
  exists gate requirements, load_deployment_gate id d = Ok gate /\
    let d1 := snd (expire_due_exceptions now (clock_iso now_dt) d) in
    may_decide d1 actor (access_target "deployment_gate" (TDeploymentGate gate)) (gate_deployer (dg_version_id gate) d1) /\
    resolve_gate_policy d1 (dg_tenant_id gate) (dg_environment gate) = Ok requirements /\
    clear now_dt (live_params gate d1) requirements d1 /\
    forall r e, r ∈ risk_findings d -> rf_status r = "waived" ->
      in_app_scope (dg_tenant_id gate, dg_project gate, dg_environment gate, dg_application_name gate)
        (rf_tenant_id r) (rf_project r) (rf_environment r) (rf_application_name r) = true ->
      e ∈ governance_exceptions d -> ge_target_type e = "risk_finding" -> ge_target_id e = rf_finding_id r ->
      exception_due (clock_iso now_dt) e = false.
Proof.
  unfold approve_deployment_gate, expire_due_exceptions.
  set (due := select (exception_due (clock_iso now_dt)) (governance_exceptions d)). cbn [snd].
  set (d1 := foldl (expire_one now) d due). intros Hrun.
  apply decide_gate_Ok in Hrun as (gate & Hg & Hmd & d2 & Hset). cbn [fst] in Hset.
  apply set_gate_Ok in Hset as (gate2 & checked & Hl & _ & _ & _ & _ & Happ).
  destruct (Happ eq_refl) as (ev & -> & Hev & Hclear).
  assert (gate2 = gate) as -> by (unfold load_deployment_gate in Hg; rewrite Hl in Hg; congruence).
  destruct (evidence_clear_register _ _ _ _ Hev Hclear) as (req & Hreq & Hc).
  exists gate, req. split; [unfold load_deployment_gate in *; unfold d1 in Hg; by rewrite expire_gates in Hg|].
  cbv zeta. split; [exact Hmd|]. split; [exact Hreq|]. split; [exact Hc|].
  intros r e Hr Hw Hsc He Ht Hid. destruct (exception_due (clock_iso now_dt) e) eqn:Hd; [exfalso|done].
  destruct (cr_risks _ _ _ _ Hc (reopen_finding now r)) as [Ho _]; [|exact Hsc|by apply Ho].
  unfold d1. rewrite expire_loop_findings. apply elem_of_update. left. exists r.
  split; [done|]. split; [|done]. rewrite Hw, andb_true_r. apply existsb_exists. exists e.
  split; [by apply list_elem_of_In, elem_of_select|]. by rewrite Ht, Hid, !String.eqb_refl.
Qed.

(** ** Incidents *)

Lemma incident_row_Some d id tenant r : _incident_row d id tenant = Some r ->
  tenant = Some (in_tenant_id r) /\ in_incident_id r = id /\ r ∈ governance_incidents d.
Proof.
  unfold _incident_row. destruct tenant as [t|]; [|done]. destruct (is_empty t); [done|].
  intros Hr%head_order_by. apply elem_of_select in Hr as [[Ht%String.eqb_eq Hi%String.eqb_eq]%andb_true_iff Hr].
  by subst.
Qed.

Lemma incidents_record now ty id dec ra actor tenant d row d' :
  record_decision now ty id dec ra actor tenant d = Ok (row, d') ->
  ty = "incident" -> governance_incidents d' = governance_incidents d.
Proof.
  intros Hrun ->. unfold record_decision in Hrun. apply rbind_Ok in Hrun as (x & _ & Hrun).
  destruct (lookup_key _ _ _); [by injection Hrun as <- <-|].
  apply rbind_Ok in Hrun as (d2 & Hs & Hrun). injection Hrun as <- <-.
  unfold sync_decision_to_stages, apply_decision_status in Hs.
  destruct (status_by_decision dec), (negb _); injection Hs as <-; done.
Qed.

(** Closing an incident stays in the actor's organization: exactly its
    incidents of that id are closed, each recording who closed it and why; an
    incident of another organization, even of the same id, keeps its row. *)
Theorem incident_closure_tenant_bound now id rationale actor d i row d' :
  close_incident now id rationale actor d = Ok (i, row, d') ->
  exists tenant, actor_tenant actor = Some tenant /\ in_tenant_id i = tenant /\ in_incident_id i = id /\
    (forall r, r ∈ governance_incidents d -> in_tenant_id r <> tenant \/ in_incident_id r <> id ->
       r ∈ governance_incidents d') /\
    (forall r, r ∈ governance_incidents d' -> in_tenant_id r = tenant -> in_incident_id r = id ->
       Schema.in_status r = "closed" /\ in_actor_ref r = Some (user_ref actor) /\
       in_resolution_rationale r = Some rationale /\ in_closed_at r = Some now).
Proof.
  unfold close_incident. intros (i0 & Hl & Hrun)%rbind_Ok. apply rbind_Ok in Hrun as (? & _ & Hrun).
  apply rbind_Ok in Hrun as (? & _ & Hrun). apply rbind_Ok in Hrun as ([i1 d1] & Hset & Hrun).
  apply rbind_Ok in Hrun as ([row1 d2] & Hrec & Hrun). injection Hrun as <- <- <-.
  unfold set_incident_status in Hset. destruct (_incident_row d _ _) as [r0|] eqn:E0; [|done].
  destruct (_incident_row (set_governance_incidents _ d) _ _) as [r1|] eqn:E1; [|done]. injection Hset as -> <-.
  apply incident_row_Some in E1 as (Et & Ei & _). exists (in_tenant_id i1).
  split; [done|]. split; [done|]. split; [done|].
  assert (governance_incidents (emit (mk_notice (Some (in_tenant_id i0)) "incident.closed" id ["org_admin"; "risk_owner"] [])
    (record_audit (mk_audit_entry (user_ref actor) "incident.close" (Some (in_tenant_id i0)) "incident" id PNone) d2)) =
    governance_incidents d2) as -> by done.
  rewrite (incidents_record _ _ _ _ _ _ _ _ _ _ Hrec eq_refl). cbn [governance_incidents set_governance_incidents].
  rewrite Et. cbn [sql_eq]. split.
  - intros r Hr Hne. apply elem_of_update. right. split; [done|]. apply andb_false_iff. rewrite !String.eqb_neq. done.
  - intros r [(old & _ & _ & ->)|[_ Hp]]%elem_of_update Ht Hi; [done|].
    rewrite Ht, Hi, !String.eqb_refl in Hp. done.
Qed.
End Rules.

(** ** A review, a release and an incident are decided *)

Module Demo.
Import PolicyGuarantees.Demo.

Definition people : db :=
  set_platform_users (map Rbac.Demo.member ["ann"; "bob"; "cyd"; "dee"; "eve"])
    (set_role_assignments
      [Rbac.Demo.assign "a1" "ann" "org_admin"; Rbac.Demo.assign "a2" "bob" "governance_reviewer";
       Rbac.Demo.assign "a3" "cyd" "governance_reviewer"; Rbac.Demo.assign "a4" "dee" "governance_admin";
       Rbac.Demo.assign "a5" "eve" "risk_owner"] (seed_role_permissions empty_db)).
Definition bob := Rbac.Demo.actor "bob".
Definition dee := Rbac.Demo.actor "dee".
Definition eve := Rbac.Demo.actor "eve".
Definition noon := GateRules.Demo.noon.

(** an intake review with one stage, for a risk owner *)
Definition submitted : db :=
  set_ai_use_cases [StageStart.Demo.use_case_row] (set_review_tasks [StageStart.Demo.task] people).
Definition under_review : db :=
  match materialize_stages "2026-03-01 10:00:00" (intake_subject "task-1" StageStart.Demo.record)
          [PDict [("role", PStr "risk_owner")]] "sequence" "acme" 1 submitted with
  | Ok (_, d) => d | Raise _ => submitted end.
Definition rejected : db :=
  match create_decision "2026-03-02 09:00:00" noon "review_task" "task-1" "reject" "no legal basis" eve under_review with
  | Ok (_, d) => d | Raise _ => under_review end.
Definition overridden : db :=
  match create_decision "2026-03-02 10:00:00" noon "review_task" "task-1" "approve" "looks fine to me" bob rejected with
  | Ok (_, d) => d | Raise _ => rejected end.

Lemma rejects : exists row, create_decision "2026-03-02 09:00:00" noon "review_task" "task-1" "reject"
  "no legal basis" eve under_review = Ok (row, rejected).
Proof. eexists. vm_compute. reflexivity. Qed.
Lemma overrides : exists row, create_decision "2026-03-02 10:00:00" noon "review_task" "task-1" "approve"
  "looks fine to me" bob rejected = Ok (row, overridden).
Proof. eexists. vm_compute. reflexivity. Qed.

Definition task : review_task :=
  match review_tasks rejected with t :: _ => t | [] => StageStart.Demo.task end.
Definition stage : approval_stage :=
  default (mk_approval_stage "" None "" "" "" "" "" 0 "" 0 0 "" None "" "" None None "" None) (head (approval_stages rejected)).

(** the evaluated build of GateRules, with a risk accepted until the summer *)
Definition finding : risk_finding :=
  mk_risk_finding "f1" (Some "acme") "claims" "production" "triage" "RISK-1" "Bias" "High" "open" "why" [] [] "s" "t0".
Definition incident_row (tenant : string) : incident :=
  mk_incident "inc-1" tenant "claims" "production" "triage" "letters" "Wrong letter" "high" "open" "{}" (Some "cyd")
    "trace-3" None None None 0 0 None None None None None "2026-03-01T08:00:00Z" "2026-03-01T08:00:00Z" None.
Definition release : db :=
  set_deployment_versions [GateRules.Demo.version] (set_prompt_versions [GateRules.Demo.prompt]
    (set_governance_observed_events [GateRules.Demo.evaluated] (set_risk_findings [finding]
      (set_governance_incidents [incident_row "acme"; incident_row "zeta"] people)))).
Definition waived : db :=
  match create_exception_route "2026-03-01 11:00:00" noon "risk_finding" "f1" "pilot" "manual review" "2026-07-01" dee
          release with
  | Ok (_, d) => d | Raise _ => release end.
Definition gated : db :=
  match refresh_deployment_gates "2026-03-01 12:00:00" noon None waived with Ok d => d | Raise _ => waived end.
Definition approved : db :=
  match approve_deployment_gate "2026-03-01 13:00:00" noon (gate_key "v1") "evaluated and clear" dee gated with
  | Ok (_, d) => d | Raise _ => gated end.
Definition closed : db :=
  match close_incident "2026-03-01 13:00:00" "inc-1" "letters recalled" dee release with
  | Ok (_, d) => d | Raise _ => release end.

Lemma waives : exists row, create_exception_route "2026-03-01 11:00:00" noon "risk_finding" "f1" "pilot"
  "manual review" "2026-07-01" dee release = Ok (row, waived).
Proof. eexists. vm_compute. reflexivity. Qed.
Lemma release_approves : exists g row, approve_deployment_gate "2026-03-01 13:00:00" noon (gate_key "v1")
  "evaluated and clear" dee gated = Ok (g, row, approved).
Proof. eexists _, _. vm_compute. reflexivity. Qed.
Lemma closes : exists i row, close_incident "2026-03-01 13:00:00" "inc-1" "letters recalled" dee release = Ok (i, row, closed).
Proof. eexists _, _. vm_compute. reflexivity. Qed.
Lemma gate_loads : exists x, load_deployment_gate (gate_key "v1") gated = Ok x.
Proof. eexists. vm_compute. reflexivity. Qed.
End Demo.
Import PolicyGuarantees.Demo.

Lemma decisions_separate_duties_witness :
  exists g row x, approve_deployment_gate "2026-03-01 13:00:00" Demo.noon (gate_key "v1") "evaluated and clear"
      Demo.dee Demo.gated = Ok (g, row, Demo.approved) /\
    load_deployment_gate (gate_key "v1") Demo.gated = Ok x /\
    may_decide Demo.gated Demo.dee (access_target "deployment_gate" (TDeploymentGate x))
      (gate_deployer (dg_version_id x) Demo.gated).
Proof.
  destruct Demo.release_approves as (g & row & Hrun), Demo.gate_loads as [x Hx]. exists g, row, x.
  split; [exact Hrun|]. split; [exact Hx|].
  refine (proj1 (decisions_separate_duties "2026-03-01 13:00:00" Demo.noon Demo.dee Demo.gated _ _ Demo.approved _)).
  exact (decides_approval _ _ _ _ _ _ _ _ _ _ Hrun Hx).
Defined.

Lemma expiry_is_chronological_witness :
  exists parsed, normalize_expiry "2026-07-01T00:30:00+02:00" = Ok "2026-06-30T22:30:00+00:00" /\
    fromisoformat "2026-06-30T22:30:00+00:00" = Some (mk_datetime (instant (assume_utc parsed)) (Some 0%Z)).
Proof.
  assert (normalize_expiry "2026-07-01T00:30:00+02:00" = Ok "2026-06-30T22:30:00+00:00") as Hrun
    by (vm_compute; reflexivity).
  destruct (expiry_is_chronological "2026-07-01T00:30:00+02:00" "2026-06-30T22:30:00+00:00" Hrun) as (p & _ & Hp & _).
  exists p. split; [exact Hrun|exact Hp].
Defined.

Lemma exception_grants_witness :
  exists row x, create_exception_route "2026-03-01 11:00:00" Demo.noon "risk_finding" "f1" "pilot" "manual review"
      "2026-07-01" Demo.dee Demo.release = Ok (row, Demo.waived) /\
    load_decision_target Demo.release "risk_finding" "f1" (actor_tenant Demo.dee) = Ok x.
Proof.
  destruct Demo.waives as [row Hrun].
  destruct (exception_grants "2026-03-01 11:00:00" Demo.noon "risk_finding" "f1" "pilot" "manual review"
    "2026-07-01" Demo.dee Demo.release row Demo.waived Hrun) as (x & Hx & _).
  exists row, x. split; [exact Hrun|exact Hx].
Defined.

Lemma approval_counts_lapsed_waivers_witness :
  exists g row gate, approve_deployment_gate "2026-03-01 13:00:00" Demo.noon (gate_key "v1") "evaluated and clear"
      Demo.dee Demo.gated = Ok (g, row, Demo.approved) /\
    load_deployment_gate (gate_key "v1") Demo.gated = Ok gate.
Proof.
  destruct Demo.release_approves as (g & row & Hrun).
  destruct (approval_counts_lapsed_waivers "2026-03-01 13:00:00" Demo.noon (gate_key "v1") "evaluated and clear"
    Demo.dee Demo.gated g row Demo.approved Hrun) as (gate & req & Hg & _).
  exists g, row, gate. split; [exact Hrun|exact Hg].
Defined.

Lemma incident_closure_tenant_bound_witness :
  exists i row, close_incident "2026-03-01 13:00:00" "inc-1" "letters recalled" Demo.dee Demo.release =
      Ok (i, row, Demo.closed) /\ in_incident_id i = "inc-1".
Proof.
  destruct Demo.closes as (i & row & Hrun).
  destruct (incident_closure_tenant_bound "2026-03-01 13:00:00" "inc-1" "letters recalled" Demo.dee Demo.release
    i row Demo.closed Hrun) as (tenant & _ & _ & Hid & _).
  exists i, row. split; [exact Hrun|exact Hid].
Defined.

Lemma direct_decision_overrides_review_witness :
  st_status Demo.stage = "rejected" /\
  actor_satisfies_stage_role Demo.rejected Demo.bob "risk_owner" (task_target StageStart.Demo.task) = false /\
  exists row d', create_decision "2026-03-02 10:00:00" Demo.noon "review_task" "task-1" "approve" "looks fine to me"
      Demo.bob Demo.rejected = Ok (row, d') /\
    rt_status <$> lookup_key rt_task_id "task-1" (review_tasks d') = Some "approved" /\
    (forall u, u ∈ ai_use_cases d' -> uc_intake_id u = rt_change_id Demo.task -> uc_status u = "approved") /\
    approval_stages d' = approval_stages Demo.rejected.
Proof.
  split; [vm_compute; reflexivity|]. split; [vm_compute; reflexivity|].
  destruct (direct_decision_overrides_review "2026-03-02 10:00:00" Demo.noon Demo.bob Demo.rejected Demo.task Demo.stage
    "approve" "looks fine to me") as (row & d' & Hrun & Hstatus & Hcase & Hstages).
  - apply (bool_decide_unpack _). vm_compute. exact I.
  - vm_compute. reflexivity.
  - split; [vm_compute; reflexivity|]. apply (bool_decide_unpack _). vm_compute. exact I.
  - left.
  - vm_compute. reflexivity.
  - vm_compute. reflexivity.
  - vm_compute. reflexivity.
  - exists row, d'. split; [exact Hrun|]. split; [exact Hstatus|]. split; [|exact Hstages].
    intros u Hu Hid. pose proof (Hcase eq_refl u Hu Hid) as E. injection E as E. exact E.
Defined.
