(* ===== verification/Inventory.v ===== *)
(** * The inventory (storage/entities.py)

    What telemetry says an organization runs: applications, workflows, models
    and providers with their counters, the observed events, and the risks and
    controls read off single events.  [process_event] projects one event. *)

From stdpp Require Import base list strings option pretty sets gmap.
From Stdlib Require Import ZArith Lia.
From S2P Require Import Prelude Py Sql Events Schema.

Open Scope nat_scope.

(** the text SQLite stores for a REAL bound to a TEXT column *)
Class SqlHost := real_text : pyfloat -> string.

Section Inventory.
Context `{PyHost} `{Digest} `{SqlHost}.

(** ** Binding and keys *)

(** a value bound to a TEXT column *)
Definition sql_text (v : pyval) : res (option string) :=
  match v with
  | PNone | PFloat FNan => Ok None
  | PStr s => Ok (Some s)
  | PBool b => Ok (Some (if b then "1" else "0"))
  | PInt z => if int64 z then Ok (Some (pretty z)) else Raise OverflowError
  | PFloat f => Ok (Some (real_text f))
  | PList _ | PDict _ => Raise (DatabaseError "Error binding parameter: type is not supported")
  end.

(** a value bound to a NOT NULL column *)
Definition sql_text_not_null (v : pyval) : res string :=
  let! s := sql_text v in
  match s with Some s => Ok s | None => Raise (DatabaseError "NOT NULL constraint failed") end.

(** a part of an [entity_id] *)
Definition part (v : pyval) : option string :=
  match v with PNone => None | v => Some (py_str v) end.

(** one field of [merge_sets]: the stored names and the event's own *)
Definition merge_set (existing : list string) (value : pyval) : list string :=
  sorted_set (if truthy value then py_str value :: existing else existing).

Definition error_count (e : event) : Z := if String.eqb (e_status e) "error" then 1%Z else 0%Z.
Definition usage (e : event) (field : string) : Z := as_int (object_get (attr e "usage") field).
(** both counters bind as 64-bit integers *)
Definition bind_usage (e : event) : res unit :=
  throw_if (negb (int64 (usage e "input_tokens") && int64 (usage e "output_tokens"))) OverflowError.
Definition opt_value (o : option string) : pyval := match o with Some s => PStr s | None => PNone end.

(** ** Applications and workflows *)

Definition application_key (e : event) : string :=
  entity_id [Some "application"; part (meta e "tenant_id"); Some (e_project e); Some (e_environment e);
             part (meta e "application_name")].

Definition upsert_application (is_model_call : bool) (e : event) (d : db) : res db :=
  if negb (truthy (meta e "application_name")) then Ok d
  else
    let key := application_key e in
    let row := lookup_key ga_entity_id key (governance_applications d) in
    let merged (column : application -> list string) value := merge_set (default [] (column <$> row)) value in
    let use_cases := merged ga_use_cases (meta e "use_case") in
    let model_purposes := merged ga_model_purposes (meta e "model_purpose") in
    let providers := merged ga_providers (attr e "provider") in
    let models := merged ga_models (attr e "model") in
    let calls := if is_model_call then 1%Z else 0%Z in
    let! tenant := sql_text (meta e "tenant_id") in
    let! name := sql_text_not_null (meta e "application_name") in
    let! _ := bind_usage e in
    Ok (set_governance_applications
      (upsert ga_entity_id
        (mk_application key tenant (e_project e) (e_environment e) name use_cases model_purposes providers models
           (SInt calls) (SInt (error_count e)) (SInt (usage e "input_tokens")) (SInt (usage e "output_tokens")) (e_timestamp e) (e_timestamp e))
        (fun r => ga_with_last_seen (e_timestamp e)
          (ga_with_output_tokens (sql_add (ga_output_tokens r) (usage e "output_tokens"))
          (ga_with_input_tokens (sql_add (ga_input_tokens r) (usage e "input_tokens"))
          (ga_with_errors (sql_add (ga_errors r) (error_count e)) (ga_with_model_calls (sql_add (ga_model_calls r) calls)
          (ga_with_models models (ga_with_providers providers (ga_with_model_purposes model_purposes
          (ga_with_use_cases use_cases r)))))))))%Z
        (governance_applications d)) d).

(** the workflow an event belongs to: the one it declares, else a model call's
    span name *)
Definition workflow_of (is_model_call : bool) (e : event) : option pyval :=
  let declared := meta e "workflow_name" in
  if truthy declared then Some declared
  else if is_model_call then Some (py_or (opt_value (e_name e)) (PStr "unknown")) else None.

Definition upsert_workflow (is_model_call : bool) (e : event) (d : db) : res db :=
  match workflow_of is_model_call e with
  | None => Ok d
  | Some workflow_name =>
      let key := entity_id [Some "workflow"; part (meta e "tenant_id"); Some (e_project e); Some (e_environment e);
                            part workflow_name] in
      let row := lookup_key gw_entity_id key (governance_workflows d) in
      let merged (column : workflow -> list string) value := merge_set (default [] (column <$> row)) value in
      let applications := merged gw_applications (meta e "application_name") in
      let providers := merged gw_providers (attr e "provider") in
      let models := merged gw_models (attr e "model") in
      let calls := if is_model_call then 1%Z else 0%Z in
      let! tenant := sql_text (meta e "tenant_id") in
      let! name := sql_text_not_null workflow_name in
      let! _ := bind_usage e in
      Ok (set_governance_workflows
        (upsert gw_entity_id
          (mk_workflow key tenant (e_project e) (e_environment e) name applications providers models
             (SInt calls) (SInt (error_count e)) (SInt (usage e "input_tokens")) (SInt (usage e "output_tokens")) (e_timestamp e) (e_timestamp e))
          (fun r => gw_with_last_seen (e_timestamp e)
            (gw_with_output_tokens (sql_add (gw_output_tokens r) (usage e "output_tokens"))
            (gw_with_input_tokens (sql_add (gw_input_tokens r) (usage e "input_tokens"))
            (gw_with_errors (sql_add (gw_errors r) (error_count e)) (gw_with_model_calls (sql_add (gw_model_calls r) calls)
            (gw_with_models models (gw_with_providers providers (gw_with_applications applications r))))))))%Z
          (governance_workflows d)) d)
  end.

(** ** Models and providers *)

Definition upsert_model (e : event) (d : db) : res db :=
  let provider := py_or (attr e "provider") (PStr "unknown") in
  let model := py_or (attr e "model") (PStr "unknown") in
  let key := entity_id [Some "model"; part (meta e "tenant_id"); Some (e_project e); Some (e_environment e);
                        part provider; part model] in
  let row := lookup_key gm_entity_id key (governance_models d) in
  let merged (column : Schema.model -> list string) value := merge_set (default [] (column <$> row)) value in
  let operations := merged gm_operations (attr e "operation") in
  let applications := merged gm_applications (meta e "application_name") in
  let! tenant := sql_text (meta e "tenant_id") in
  let! provider := sql_text_not_null provider in
  let! model := sql_text_not_null model in
  let! _ := bind_usage e in
  Ok (set_governance_models
    (upsert gm_entity_id
      (mk_model key tenant (e_project e) (e_environment e) provider model operations applications
         (SInt 1) (SInt (error_count e)) (SInt (usage e "input_tokens")) (SInt (usage e "output_tokens")) (e_timestamp e) (e_timestamp e))
      (fun r => gm_with_last_seen (e_timestamp e)
        (gm_with_output_tokens (sql_add (gm_output_tokens r) (usage e "output_tokens"))
        (gm_with_input_tokens (sql_add (gm_input_tokens r) (usage e "input_tokens"))
        (gm_with_errors (sql_add (gm_errors r) (error_count e)) (gm_with_model_calls (sql_add (gm_model_calls r) 1)
        (gm_with_applications applications (gm_with_operations operations r)))))))%Z
      (governance_models d)) d).

Definition upsert_provider (e : event) (d : db) : res db :=
  let provider := attr e "provider" in
  if negb (truthy provider) then Ok d
  else
    let key := entity_id [Some "provider"; part (meta e "tenant_id"); Some (e_project e); Some (e_environment e);
                          part provider] in
    let row := lookup_key gpr_entity_id key (governance_providers d) in
    let merged (column : Schema.provider -> list string) value := merge_set (default [] (column <$> row)) value in
    let models := merged gpr_models (attr e "model") in
    let applications := merged gpr_applications (meta e "application_name") in
    let! tenant := sql_text (meta e "tenant_id") in
    let! provider := sql_text_not_null provider in
    Ok (set_governance_providers
      (upsert gpr_entity_id
        (mk_provider key tenant (e_project e) (e_environment e) provider models applications
           (SInt 1) (SInt (error_count e)) (e_timestamp e) (e_timestamp e))
        (fun r => gpr_with_last_seen (e_timestamp e)
          (gpr_with_errors (sql_add (gpr_errors r) (error_count e)) (gpr_with_model_calls (sql_add (gpr_model_calls r) 1)
          (gpr_with_applications applications (gpr_with_models models r)))))%Z
        (governance_providers d)) d).

(** ** Observed events *)

Definition observed_name (e : event) : pyval :=
  py_or (attr e "retriever") (py_or (attr e "tool_name") (py_or (attr e "guardrail_name")
    (py_or (attr e "eval_name") (py_or (attr e "agent_name") (py_or (opt_value (e_name e)) (PStr "unknown")))))).

Definition upsert_observed_event (e : event) (d : db) : res db :=
  let name := observed_name e in
  let key := entity_id [Some (e_type e); part (py_or (meta e "tenant_id") (PStr "")); Some (e_project e);
                        Some (e_environment e); Some (e_trace_id e); Some (e_span_id e); part name] in
  let! tenant := sql_text (meta e "tenant_id") in
  let! application := sql_text (meta e "application_name") in
  let! workflow := sql_text (meta e "workflow_name") in
  let! name := sql_text_not_null name in
  Ok (set_governance_observed_events
    (insert_or_replace oe_entity_id
      (mk_observed_event key (e_type e) tenant (e_project e) (e_environment e) application workflow name
         (e_status e) (e_trace_id e) (e_duration_ms e) (PDict (e_attributes e)) (e_timestamp e))
      (governance_observed_events d)) d).

(** ** Risks and controls read off single events *)

Definition _RISK_EVIDENCE_CAP : nat := 200.

Definition upsert_risk (risk severity evidence source : string) (e : event) (d : db) : res db :=
  let application_name := py_or (meta e "application_name") (PStr "unknown") in
  let key := entity_id [Some "risk"; part (meta e "tenant_id"); Some (e_project e); Some (e_environment e);
                        part application_name; Some risk; Some source] in
  let existing_ids := match lookup_key rsk_entity_id key (governance_risks d) with
                      | Some row => rsk_evidence_trace_ids row | None => [] end in
  if _RISK_EVIDENCE_CAP <=? length existing_ids then
    Ok (set_governance_risks
      (update_key rsk_entity_id key
        (fun r => rsk_with_last_seen (e_timestamp e) (rsk_with_status "open"
                    (rsk_with_evidence evidence (rsk_with_severity severity r)))) (governance_risks d)) d)
  else
    let trace_ids := sorted_set (e_trace_id e :: existing_ids) in
    let! tenant := sql_text (meta e "tenant_id") in
    let! application := sql_text_not_null application_name in
    Ok (set_governance_risks
      (upsert rsk_entity_id
        (mk_observed_risk key tenant (e_project e) (e_environment e) application risk severity evidence trace_ids
           "open" source (e_timestamp e) (e_timestamp e))
        (fun r => rsk_with_last_seen (e_timestamp e) (rsk_with_status "open"
                    (rsk_with_evidence_trace_ids trace_ids
                    (rsk_with_evidence evidence (rsk_with_severity severity r)))))
        (governance_risks d)) d).

(** [term in text] *)
Definition contains (term text : string) : bool :=
  match String.index 0 term text with Some _ => true | None => false end.

Definition upsert_model_risks (e : event) (d : db) : res db :=
  if negb (truthy (meta e "application_name")) then Ok d
  else
    let provider := attr e "provider" in
    let! d := if truthy provider
      then upsert_risk "Third-party AI dependency" "Medium" ("Observed provider: " +:+ py_str provider) "model.call" e d
      else Ok d in
    let! d := if String.eqb (e_status e) "error"
      then upsert_risk "Operational reliability failures" "High" "Failed model call observed" "model.call" e d
      else Ok d in
    let! d := if (1000 <? usage e "input_tokens" + usage e "output_tokens")%Z
      then upsert_risk "High-volume model usage" "Medium" "Single model call exceeded 1000 total tokens" "model.call" e d
      else Ok d in
    let use_case := py_str (py_or (meta e "use_case") (PStr "")) in
    if existsb (fun term => contains term (lower use_case)) ["claim"; "insurance"; "customer"; "support"]
    then upsert_risk "Potential sensitive business process" "Medium" ("Observed use case: " +:+ use_case) "model.call" e d
    else Ok d.

(** [attrs.get(key, event.get("name"))] *)
Definition attr_or_name (e : event) (key : string) : pyval :=
  default (opt_value (e_name e)) (assoc key (e_attributes e)).

Definition upsert_guardrail_risk (e : event) (d : db) : res db :=
  let decision := attr e "decision" in
  let! raised := in_str_set decision ["warn"; "block"] in
  if raised : bool then
    upsert_risk "Guardrail warning" (if py_eqb decision (PStr "block") then "High" else "Medium")
      (py_str (attr_or_name e "guardrail_name") +:+ " decision: " +:+ py_str decision) "guardrail.decision" e d
  else Ok d.

Definition is_false (v : pyval) : bool := match v with PBool false => true | _ => false end.

Definition upsert_eval_risk (e : event) (d : db) : res db :=
  if is_false (attr e "passed") then
    upsert_risk "Evaluation failed" "High"
      (py_str (attr_or_name e "eval_name") +:+ " scored " +:+ py_str (attr e "score") +:+ " below "
       +:+ py_str (attr e "threshold")) "eval.result" e d
  else Ok d.

Definition upsert_control (control evidence_event_type : string) (e : event) (d : db) : res db :=
  let key := entity_id [Some "control"; part (meta e "tenant_id"); Some (e_project e); Some (e_environment e);
                        Some control] in
  let count := match lookup_key ctl_entity_id key (governance_controls d) with
               | Some row => (ctl_evidence_count row + 1)%Z | None => 1%Z end in
  let evidence := pretty count +:+ " " +:+ evidence_event_type +:+ " events recorded" in
  let! tenant := sql_text (meta e "tenant_id") in
  let! _ := throw_if (negb (int64 count)) OverflowError in
  Ok (set_governance_controls
    (upsert ctl_entity_id
      (mk_observed_control key tenant (e_project e) (e_environment e) control "passing" evidence evidence_event_type
         count (e_timestamp e) (e_timestamp e))
      (fun r => ctl_with_last_seen (e_timestamp e) (ctl_with_evidence_count count
                  (ctl_with_evidence_event_type evidence_event_type (ctl_with_evidence evidence
                  (ctl_with_status "passing" r)))))
      (governance_controls d)) d).

(** ** One event *)

Definition RUNTIME_EVENT_TYPES : list string :=
  ["model.call"; "agent.run"; "tool.call"; "retrieval.call"; "guardrail.decision"; "trace.completed"; "sdk.health"].

Definition observed_controls : list (string * string) :=
  [("retrieval.call", "Retrieval evidence is captured"); ("tool.call", "Tool execution evidence is captured");
   ("guardrail.decision", "Guardrail decisions are captured"); ("eval.result", "Evaluation results are captured");
   ("agent.run", "Agent run evidence is captured")].

(** the event joins the inventory: it is a model call, or runtime telemetry that
    names an application *)
Definition inventories (e : event) : bool :=
  mem (e_type e) RUNTIME_EVENT_TYPES &&
  (String.eqb (e_type e) "model.call" || truthy (meta e "application_name")).

Definition process_event (e : event) (d : db) : res db :=
  let is_model_call := String.eqb (e_type e) "model.call" in
  let! d := if inventories e
    then let! d := upsert_application is_model_call e d in upsert_workflow is_model_call e d else Ok d in
  let! d := if is_model_call
    then let! d := upsert_model e d in let! d := upsert_provider e d in let! d := upsert_model_risks e d in
         upsert_control "Provider and model usage is inventoried" "model.call" e d
    else Ok d in
  let! d := if String.eqb (e_type e) "trace.completed"
    then upsert_control "Workflow traces are captured" "trace.completed" e d else Ok d in
  let! d := if String.eqb (e_type e) "sdk.health"
    then upsert_control "SDK fail-open health is visible" "sdk.health" e d else Ok d in
  let! d := match assoc (e_type e) observed_controls with
    | Some control => let! d := upsert_observed_event e d in upsert_control control (e_type e) e d
    | None => Ok d
    end in
  let! d := if String.eqb (e_type e) "guardrail.decision" then upsert_guardrail_risk e d else Ok d in
  if String.eqb (e_type e) "eval.result" then upsert_eval_risk e d else Ok d.
End Inventory.

(** * How the inventory grows

    Projecting an event reads and writes the inventory's own tables and nothing
    else, so what the inventory holds is determined by the events projected into
    it; and every application's counters are the recount of those events. *)

(** ** The inventory's part of the database *)

(** [d] with the inventory tables of [i] *)
Definition graft (i d : db) : db :=
  set_governance_applications (governance_applications i) (set_governance_workflows (governance_workflows i)
    (set_governance_models (governance_models i) (set_governance_providers (governance_providers i)
    (set_governance_observed_events (governance_observed_events i) (set_governance_risks (governance_risks i)
    (set_governance_controls (governance_controls i) d)))))).
Definition inventory_of (d : db) : db := graft d empty_db.

Lemma graft_graft i j d : graft i (graft j d) = graft i d.
Proof. reflexivity. Qed.
Lemma inventory_graft i d : inventory_of (graft i d) = inventory_of i.
Proof. reflexivity. Qed.
Lemma graft_inventory i d : graft (inventory_of i) d = graft i d.
Proof. reflexivity. Qed.
Lemma graft_self d : graft d d = d.
Proof. by destruct d. Qed.

(** an operation that reads and writes the inventory only *)
Definition local (op : db -> res db) : Prop :=
  forall d, op d = (let! i := op (inventory_of d) in Ok (graft i d)).

Lemma local_closed op d i : local op -> op (inventory_of d) = Ok i -> inventory_of i = i.
Proof.
  intros Hop Hi. pose proof (Hop (inventory_of d)) as E.
  change (inventory_of (inventory_of d)) with (inventory_of d) in E. rewrite Hi in E. cbn [rbind] in E.
  injection E as E. rewrite E at 2. reflexivity.
Qed.

Lemma local_Ok op d d' : local op -> op d = Ok d' ->
  exists i, op (inventory_of d) = Ok i /\ d' = graft i d /\ inventory_of d' = i.
Proof.
  intros Hop Hd. rewrite (Hop d) in Hd. apply rbind_Ok in Hd as (i & Hi & [= <-]).
  exists i. split; [done|]. split; [done|]. rewrite inventory_graft. by eapply local_closed.
Qed.

Lemma local_id : local (fun d => Ok d).
Proof. intros d. cbn [rbind]. by rewrite graft_inventory, graft_self. Qed.

Lemma local_bind op1 op2 : local op1 -> local op2 -> local (fun d => let! d := op1 d in op2 d).
Proof.
  intros H1 H2 d. rewrite (H1 d). destruct (op1 (inventory_of d)) as [i|e] eqn:Ei; cbn [rbind]; [|done].
  rewrite (H2 (graft i d)), inventory_graft, (local_closed op1 d i H1 Ei).
  destruct (op2 i); cbn [rbind]; [|done]. by rewrite graft_graft.
Qed.

Lemma local_if (b : bool) op1 op2 : local op1 -> local op2 -> local (fun d => if b then op1 d else op2 d).
Proof. by destruct b. Qed.

Lemma local_const (op : db -> db) : (forall d, op d = graft (op (inventory_of d)) d) -> local (fun d => Ok (op d)).
Proof. intros Hop d. cbn [rbind]. by rewrite <-Hop. Qed.

Lemma local_res {A} (c : res A) op : (forall x, local (op x)) -> local (fun d => let! x := c in op x d).
Proof. intros Hop. destruct c as [x|e]; cbn [rbind]; [apply Hop|done]. Qed.

Create HintDb inventory.
#[export] Hint Resolve local_id local_bind local_if local_res : inventory.

(** a statement on one table: bindings, then a change of that table *)
Ltac local_statement := intros ?; unfold rbind; repeat case_match; try congruence; try reflexivity.

Section Local.
Context `{PyHost} `{Digest} `{SqlHost}.

Lemma local_application b e : local (upsert_application b e).
Proof. unfold upsert_application. destruct (negb _); [apply local_id|local_statement]. Qed.
Lemma local_workflow b e : local (upsert_workflow b e).
Proof. unfold upsert_workflow. destruct (workflow_of _ _); [local_statement|apply local_id]. Qed.
Lemma local_model e : local (upsert_model e).
Proof. unfold upsert_model. local_statement. Qed.
Lemma local_provider e : local (upsert_provider e).
Proof. unfold upsert_provider. destruct (negb _); [apply local_id|local_statement]. Qed.
Lemma local_observed e : local (upsert_observed_event e).
Proof. unfold upsert_observed_event. local_statement. Qed.
Lemma local_control c ty e : local (upsert_control c ty e).
Proof.
  intros d. unfold upsert_control. change (governance_controls (inventory_of d)) with (governance_controls d).
  unfold rbind. repeat case_match; congruence || reflexivity.
Qed.
(** the [upsert_risk] of one table *)
Definition risks_with r s ev so e (t : list observed_risk) : res (list observed_risk) :=
  let! d := upsert_risk r s ev so e (set_governance_risks t empty_db) in Ok (governance_risks d).
Lemma upsert_risk_table r s ev so e d :
  upsert_risk r s ev so e d =
  (let! t := risks_with r s ev so e (governance_risks d) in Ok (set_governance_risks t d)).
Proof.
  unfold risks_with, upsert_risk.
  change (governance_risks (set_governance_risks (governance_risks d) empty_db)) with (governance_risks d).
  generalize (governance_risks d) as t. intros t.
  generalize (entity_id [Some "risk"; part (meta e "tenant_id"); Some (e_project e); Some (e_environment e);
                        part (py_or (meta e "application_name") (PStr "unknown")); Some r; Some so]). intros key.
  destruct (_ <=? _); [cbn [rbind]; reflexivity|].
  destruct (sql_text (meta e "tenant_id")) as [?|?]; cbn [rbind]; [|reflexivity].
  destruct (sql_text_not_null _) as [?|?]; cbn [rbind]; reflexivity.
Qed.
Lemma local_risk r s ev so e : local (upsert_risk r s ev so e).
Proof.
  intros d. rewrite !upsert_risk_table. change (governance_risks (inventory_of d)) with (governance_risks d).
  destruct (risks_with r s ev so e (governance_risks d)); reflexivity.
Qed.
#[local] Hint Resolve local_application local_workflow local_model local_provider local_observed local_control
  local_risk : inventory.

Lemma local_model_risks e : local (upsert_model_risks e).
Proof.
  unfold upsert_model_risks. destruct (negb _); [auto with inventory|].
  repeat (apply local_bind; [auto with inventory|]). auto with inventory.
Qed.
Lemma local_guardrail e : local (upsert_guardrail_risk e).
Proof. unfold upsert_guardrail_risk. apply local_res. auto with inventory. Qed.
Lemma local_eval e : local (upsert_eval_risk e).
Proof. unfold upsert_eval_risk. auto with inventory. Qed.
#[local] Hint Resolve local_model_risks local_guardrail local_eval : inventory.

Lemma local_event e : local (process_event e).
Proof.
  unfold process_event. repeat (apply local_bind; [|]); auto 10 with inventory.
  destruct (assoc _ _); auto with inventory.
Qed.
End Local.
