(* ===== verification/Ledger.v ===== *)
(** * The event ledger (storage/raw_events.py, storage/entities.py)

    Raw events are stored once per span and stay pending until a fold completes;
    [counted_at] marks the ones the inventory has counted.  [process_events] is
    one transaction: the counts and the stamps commit together or not at all. *)

From stdpp Require Import base list strings option pretty sets gmap.
From Stdlib Require Import ZArith Lia.
From S2P Require Import Prelude Py Sql Events Schema Inventory.

Open Scope nat_scope.

Section Ledger.
Context `{PyHost} `{Digest} `{SqlHost}.

(** ** Storing events *)

(** [AUTOINCREMENT]; no modelled statement deletes an event *)
Definition next_id (t : list sdk_event) : Z := (1 + foldr Z.max 0 (map ev_id t))%Z.

Definition event_to_row (now : string) (id : Z) (e : event) : res sdk_event :=
  let! tenant_id := sql_text (meta e "tenant_id") in
  let! user_id := sql_text (meta e "user_id") in
  let! application_name := sql_text (meta e "application_name") in
  let! workflow_name := sql_text (meta e "workflow_name") in
  let! use_case := sql_text (meta e "use_case") in
  let! model_purpose := sql_text (meta e "model_purpose") in
  let! provider := sql_text (attr e "provider") in
  let! model := sql_text (attr e "model") in
  let! operation := sql_text (attr e "operation") in
  let! _ := bind_usage e in
  Ok (mk_sdk_event id (e_type e) (e_schema_version e) (e_trace_id e) (e_span_id e) (e_parent_span_id e)
        (e_timestamp e) (e_service e) (e_environment e) (e_project e) (e_system e) (e_name e) (e_status e)
        (e_duration_ms e) tenant_id user_id application_name workflow_name use_case model_purpose provider model
        operation (usage e "input_tokens") (usage e "output_tokens") e now None None 0 None).

(** the span index: two rows with the same organization, trace and span clash,
    rows without an organization never do *)
Definition same_span (a b : sdk_event) : bool :=
  sql_eq (ev_tenant_id a) (ev_tenant_id b) && String.eqb (ev_trace_id a) (ev_trace_id b) &&
  String.eqb (ev_span_id a) (ev_span_id b).

Definition span_key (r : sdk_event) : option string * string * string :=
  (ev_tenant_id r, ev_trace_id r, ev_span_id r).

(** [INSERT OR IGNORE ... RETURNING], one row: the table and the keys inserted *)
Definition insert_event (now : string) (acc : list sdk_event * list (option string * string * string)) (e : event)
    : res (list sdk_event * list (option string * string * string)) :=
  let (t, keys) := acc in
  let! row := event_to_row now (next_id t) e in
  Ok (if existsb (same_span row) t then acc else (t ++ [row], keys ++ [span_key row])).

(** the first event for each key inserted, in order *)
Fixpoint first_per_key (inserted seen : list (option string * string * string))
    (l : list (event * (option string * string * string))) : list event :=
  match l with
  | [] => []
  | (e, key) :: l =>
      if bool_decide (key ∈ inserted) && negb (bool_decide (key ∈ seen))
      then e :: first_per_key inserted (key :: seen) l
      else first_per_key inserted seen l
  end.

Definition insert_events (now : string) (events : list event) (d : db) : res (list event * db) :=
  let! rows := rmap (event_to_row now 0) events in
  let! stored := rfold (insert_event now) (sdk_events d, []) events in
  let (t, keys) := stored : list sdk_event * list (option string * string * string) in
  Ok (first_per_key keys [] (zip events (map span_key rows)), set_sdk_events t d).

(** ** Pending rows *)

Record pending_row := mk_pending { pr_id : Z; pr_event : event }.

Definition is_null {A} (o : option A) : bool := match o with None => true | Some _ => false end.

Definition claim_unfolded (tenant_id : string) (limit : nat) (max_attempts : option Z) (d : db) : list pending_row :=
  map (fun r => mk_pending (ev_id r) (ev_raw_event r))
    (take limit (order_by (fun a b => (ev_id a <=? ev_id b)%Z)
      (select (fun r => is_null (ev_folded_at r) && sql_eq (ev_tenant_id r) (Some tenant_id) &&
                        match max_attempts with Some n => (ev_fold_attempts r <? n)%Z | None => true end)
        (sdk_events d)))).

(** [WHERE folded_at IS NULL AND id IN (...)] *)
Definition still_pending (ids : list Z) (r : sdk_event) : bool :=
  is_null (ev_folded_at r) && bool_decide (ev_id r ∈ ids).

Definition mark_folded (now : string) (ids : list Z) (d : db) : db :=
  set_sdk_events (update (still_pending ids) (ev_with_folded_at (Some now)) (sdk_events d)) d.

Definition record_fold_attempt (ids : list Z) (error : string) (d : db) : db :=
  set_sdk_events (update (still_pending ids)
    (fun r => ev_with_fold_error (Some (String.substring 0 500 error))
                (ev_with_fold_attempts (ev_fold_attempts r + 1)%Z r)) (sdk_events d)) d.

Definition tenants_with_unfolded (d : db) : list string :=
  omap id (select_distinct ev_tenant_id
    (select (fun r => is_null (ev_folded_at r) && negb (is_null (ev_tenant_id r))) (sdk_events d))).

Definition count_unfolded (tenant_id : option string) (d : db) : nat :=
  rowcount (fun r => is_null (ev_folded_at r) &&
    match tenant_id with Some _ => sql_eq (ev_tenant_id r) tenant_id | None => true end) (sdk_events d).

Definition count_quarantined (max_attempts : Z) (d : db) : nat :=
  rowcount (fun r => is_null (ev_folded_at r) && (max_attempts <=? ev_fold_attempts r)%Z) (sdk_events d).

(** ** Counting *)

Definition _uncounted_ids (d : db) (ids : list Z) : list Z :=
  map ev_id (select (fun r => is_null (ev_counted_at r) && bool_decide (ev_id r ∈ ids)) (sdk_events d)).

Definition _stamp_counted (now : string) (ids : list Z) (d : db) : db :=
  set_sdk_events (update (fun r => bool_decide (ev_id r ∈ ids)) (ev_with_counted_at (Some now)) (sdk_events d)) d.

Definition process_events (now : string) (pending : list pending_row) (d : db) : res db :=
  let uncounted := _uncounted_ids d (map pr_id pending) in
  let! d := rfold (fun d row => if bool_decide (pr_id row ∈ uncounted) then process_event (pr_event row) d else Ok d)
              d pending in
  Ok (_stamp_counted now uncounted d).
End Ledger.
