(* ===== verification/LedgerRules.v ===== *)
(** * Every event is counted exactly once

    The ledger under any interleaving of ingestion, claims, folds, retries of
    stale claims and stamps: the inventory is the projection of a log that holds
    each counted row once, so an application's counters are the recount of its
    counted events. *)

From stdpp Require Import base list strings option pretty sets gmap.
From Stdlib Require Import ZArith Lia.
From S2P Require Import Prelude Py Sql Events Schema Inventory Ledger.

Open Scope nat_scope.

Definition counted (r : sdk_event) : bool := negb (is_null (ev_counted_at r)).
Definition logged (r : sdk_event) : Z * event := (ev_id r, ev_raw_event r).
Definition claimed (p : pending_row) : Z * event := (pr_id p, pr_event p).

Section Rules.
Context `{PyHost} `{Digest} `{SqlHost}.

(** ** The steps *)

(** the database and the claims workers hold *)
Definition state : Type := db * list (list pending_row).

Inductive step : state -> state -> Prop :=
| step_insert now es out d d' C :
    insert_events now es d = Ok (out, d') -> step (d, C) (d', C)
| step_claim tenant_id limit max_attempts d C :
    step (d, C) (d, claim_unfolded tenant_id limit max_attempts d :: C)
| step_process now claim part d d' C :
    claim ∈ C -> part `sublist_of` claim -> process_events now part d = Ok d' -> step (d, C) (d', C)
| step_mark now ids d C : step (d, C) (mark_folded now ids d, C)
| step_attempt ids error d C : step (d, C) (record_fold_attempt ids error d, C)
| step_elsewhere d d' C :
    inventory_of d' = inventory_of d -> sdk_events d' = sdk_events d -> step (d, C) (d', C).

Inductive reachable (d0 : db) : state -> Prop :=
| reachable_start : reachable d0 (d0, [])
| reachable_step s s' : reachable d0 s -> step s s' -> reachable d0 s'.

(** ** The table of events *)

(** projecting a list of events *)
Definition project (l : list event) (d : db) : res db := rfold (fun d e => process_event e d) d l.

Lemma next_id_fresh t r : r ∈ t -> (ev_id r < next_id t)%Z.
Proof.
  unfold next_id. induction t as [|x t IH]; intros Hr; [by apply elem_of_nil in Hr|].
  cbn [map foldr]. apply elem_of_cons in Hr as [->|Hr]; [lia|]. specialize (IH Hr). lia.
Qed.

Lemma event_to_row_fields now id e row : event_to_row now id e = Ok row ->
  ev_id row = id /\ ev_raw_event row = e /\ ev_counted_at row = None /\ ev_folded_at row = None.
Proof.
  unfold event_to_row. intros Hrow.
  do 9 (apply rbind_Ok in Hrow as (? & _ & Hrow)). cbn zeta in Hrow.
  apply rbind_Ok in Hrow as (? & _ & [= <-]). done.
Qed.

(** what a batch of inserts does to the table: new uncounted rows with fresh
    identifiers *)
Lemma insert_event_adds now es t keys t' keys' :
  rfold (insert_event now) (t, keys) es = Ok (t', keys') -> keys_unique ev_id t ->
  keys_unique ev_id t' /\ select counted t' = select counted t /\ t `prefix_of` t'.
Proof.
  intros Hf Hu.
  refine (rfold_ind (fun acc => keys_unique ev_id acc.1 /\ select counted acc.1 = select counted t /\
                                t `prefix_of` acc.1) _ _ _ (t', keys') Hf _ _); [done|].
  intros [u us] e [u' us'] _ Hi (Hu1 & Hc1 & Hp1). cbn [fst] in *. unfold insert_event in Hi.
  apply rbind_Ok in Hi as (row & Hrow & [= Hi]).
  apply event_to_row_fields in Hrow as (Hid & _ & Hcount & _).
  destruct (existsb _ _); injection Hi as <- <-; [done|]. split; [|split].
  - apply keys_unique_app; [done|]. apply lookup_key_None. intros (r & Heq & Hr)%list_elem_of_fmap.
    apply next_id_fresh in Hr. rewrite Heq in Hid. lia.
  - rewrite select_app, select_cons. unfold counted at 2. rewrite Hcount. cbn. by rewrite app_nil_r.
  - by apply prefix_app_r.
Qed.

Lemma elem_of_prefix {A} (l k : list A) x : l `prefix_of` k -> x ∈ l -> x ∈ k.
Proof. intros [u ->] Hx. apply elem_of_app. by left. Qed.

(** an update of the pending state alone keeps what is logged and counted *)
Lemma logged_update (p : sdk_event -> bool) f t :
  (forall r, logged (f r) = logged r) -> map logged (update p f t) = map logged t.
Proof. intros Hf. unfold update. rewrite map_map. apply map_ext. intros r. by destruct (p r). Qed.

Lemma logged_counted_update (p : sdk_event -> bool) f t :
  (forall r, logged (f r) = logged r) -> (forall r, counted (f r) = counted r) ->
  map logged (select counted (update p f t)) = map logged (select counted t).
Proof. intros Hf Hc. rewrite select_update_keep by done. by apply logged_update. Qed.

Lemma ids_of_logged t : map ev_id t = map fst (map logged t).
Proof. by rewrite map_map. Qed.

Lemma unique_logged t t' : map logged t' = map logged t -> keys_unique ev_id t -> keys_unique ev_id t'.
Proof. unfold keys_unique. intros E. by rewrite !ids_of_logged, E. Qed.

(** ** Claims *)

Lemma map_sublist {A B} (f : A -> B) (l k : list A) : l `sublist_of` k -> map f l `sublist_of` map f k.
Proof. induction 1; cbn [map]; by constructor. Qed.

(** a claim names distinct rows of the table with their own events *)
Definition backed (t : list sdk_event) (claim : list pending_row) : Prop :=
  NoDup (map pr_id claim) /\ forall p, p ∈ claim -> claimed p ∈ map logged t.

Lemma backed_mono t t' claim :
  (forall x, x ∈ map logged t -> x ∈ map logged t') -> backed t claim -> backed t' claim.
Proof. intros Hs [Hu Hb]. split; auto. Qed.

Lemma backed_part t claim part : part `sublist_of` claim -> backed t claim -> backed t part.
Proof.
  intros Hs [Hu Hb]. split.
  - eapply sublist_NoDup; [exact Hu|]. by apply (map_sublist pr_id).
  - intros p Hp. apply Hb. refine (elem_of_submseteq _ _ _ Hp _). by apply sublist_submseteq.
Qed.

Lemma claim_backed tenant limit attempts d :
  keys_unique ev_id (sdk_events d) -> backed (sdk_events d) (claim_unfolded tenant limit attempts d).
Proof.
  intros Hu. unfold claim_unfolded. split.
  - rewrite map_map. cbn [pr_id]. eapply sublist_NoDup; [|apply (map_sublist ev_id), sublist_take].
    change (keys_unique ev_id (order_by (fun a b => (ev_id a <=? ev_id b)%Z)
      (select (fun r => is_null (ev_folded_at r) && sql_eq (ev_tenant_id r) (Some tenant) &&
         match attempts with Some n => (ev_fold_attempts r <? n)%Z | None => true end) (sdk_events d)))).
    unfold keys_unique. refine (map_key_perm ev_id _ _ (symmetry (order_by_perm _ _)) _).
    by apply (keys_unique_select ev_id).
  - intros p (r & -> & Hr)%list_elem_of_fmap. apply elem_of_take in Hr as (i & Hi%list_elem_of_lookup_2 & _).
    apply elem_of_order_by, elem_of_select in Hi as [_ Hi]. change (logged r ∈ map logged (sdk_events d)).
    by apply list_elem_of_fmap_2.
Qed.

(** ** One fold *)

Lemma inventory_events t d : inventory_of (set_sdk_events t d) = inventory_of d.
Proof. reflexivity. Qed.


Lemma project_select (p : pending_row -> bool) pending d :
  rfold (fun d row => if p row then process_event (pr_event row) d else Ok d) d pending =
  project (map pr_event (select p pending)) d.
Proof.
  unfold project. revert d. induction pending as [|row pending IH]; intros d; [done|].
  rewrite select_cons. cbn [rfold]. destruct (p row); cbn [map rfold rbind].
  - destruct (process_event (pr_event row) d); cbn [rbind]; [apply IH|done].
  - apply IH.
Qed.

Lemma local_project l : local (project l).
Proof.
  unfold project. induction l as [|e l IH]; [apply local_id|].
  apply (local_bind (process_event e) (project l)); [apply local_event|done].
Qed.

Lemma elem_of_uncounted d ids i :
  i ∈ _uncounted_ids d ids <-> i ∈ ids /\ exists r, r ∈ sdk_events d /\ ev_id r = i /\ counted r = false.
Proof.
  unfold _uncounted_ids, counted. rewrite list_elem_of_fmap. split.
  - intros (r & -> & Hr). apply elem_of_select in Hr as [[Hn Hi%bool_decide_eq_true]%andb_prop Hr].
    split; [done|]. exists r. by rewrite Hn.
  - intros [Hi (r & Hr & <- & Hc)]. exists r. split; [done|]. apply elem_of_select.
    rewrite (proj2 (bool_decide_eq_true (ev_id r ∈ ids)) Hi). by destruct (is_null (ev_counted_at r)).
Qed.

Lemma NoDup_claimed (l : list pending_row) : NoDup (map pr_id l) -> NoDup (map claimed l).
Proof.
  intros Hn. apply (NoDup_fmap_1 fst). change (NoDup (map fst (map claimed l))). by rewrite map_map.
Qed.
Lemma NoDup_logged (t : list sdk_event) : keys_unique ev_id t -> NoDup (map logged t).
Proof.
  intros Hn. apply (NoDup_fmap_1 fst). change (NoDup (map fst (map logged t))). by rewrite map_map.
Qed.

(** the rows a fold stamps are the claimed rows it projected *)
Lemma stamped_claimed d pending :
  keys_unique ev_id (sdk_events d) -> backed (sdk_events d) pending ->
  map logged (select (fun r => bool_decide (ev_id r ∈ _uncounted_ids d (map pr_id pending))) (sdk_events d)) ≡ₚ
  map claimed (select (fun p => bool_decide (pr_id p ∈ _uncounted_ids d (map pr_id pending))) pending).
Proof.
  intros Hu [Hn Hb]. set (U := _uncounted_ids d (map pr_id pending)). apply NoDup_Permutation.
  - by apply NoDup_logged, keys_unique_select.
  - by apply NoDup_claimed, (keys_unique_select pr_id).
  - intros [i e]. rewrite !list_elem_of_fmap. split.
    + intros (r & [= -> ->] & [Hi%bool_decide_eq_true Hr]%elem_of_select).
      pose proof Hi as [(p & Hp & Hin)%list_elem_of_fmap _]%elem_of_uncounted.
      exists p. specialize (Hb p Hin) as (r' & [= Hid He] & Hr')%list_elem_of_fmap.
      assert (r = r') as <- by (eapply (keys_unique_eq ev_id); try done; congruence).
      split; [unfold claimed; congruence|]. apply elem_of_select. split; [|done].
      apply bool_decide_eq_true. by rewrite <-Hp.
    + intros (p & [= -> ->] & [Hi%bool_decide_eq_true Hp]%elem_of_select).
      specialize (Hb p Hp) as (r & Heq & Hr)%list_elem_of_fmap. exists r. split; [done|].
      apply elem_of_select. split; [|done]. apply bool_decide_eq_true. by injection Heq as <- _.
Qed.

Lemma counted_stamped now (U : list Z) t :
  (forall r, r ∈ t -> ev_id r ∈ U -> counted r = false) ->
  map logged (select counted (update (fun r => bool_decide (ev_id r ∈ U)) (ev_with_counted_at (Some now)) t)) ≡ₚ
  map logged (select counted t) ++ map logged (select (fun r => bool_decide (ev_id r ∈ U)) t).
Proof.
  induction t as [|r t IH]; intros Hc; [done|]. cbn [update map].
  assert (forall x, x ∈ t -> ev_id x ∈ U -> counted x = false) as Ht by (intros x Hx; apply Hc; by right).
  specialize (IH Ht). unfold update in IH. rewrite !select_cons.
  case_bool_decide as Hr.
  - rewrite (Hc r ltac:(by left) Hr). cbn [map]. unfold counted at 1. cbn.
    rewrite IH. change (logged (ev_with_counted_at (Some now) r)) with (logged r). by rewrite Permutation_middle.
  - destruct (counted r); cbn [map app]; by rewrite IH.
Qed.

Lemma uncounted_rows d ids r :
  keys_unique ev_id (sdk_events d) -> r ∈ sdk_events d -> ev_id r ∈ _uncounted_ids d ids -> counted r = false.
Proof.
  intros Hu Hr [_ (x & Hx & Hid & Hc)]%elem_of_uncounted.
  by rewrite (keys_unique_eq ev_id _ r x Hu Hr Hx (eq_sym Hid)).
Qed.

Lemma process_events_log now pending d d' :
  keys_unique ev_id (sdk_events d) -> backed (sdk_events d) pending -> process_events now pending d = Ok d' ->
  exists new, project (map snd new) (inventory_of d) = Ok (inventory_of d') /\
    map logged (sdk_events d') = map logged (sdk_events d) /\
    map logged (select counted (sdk_events d')) ≡ₚ map logged (select counted (sdk_events d)) ++ new.
Proof.
  intros Hu Hb Hp. unfold process_events in Hp. rewrite project_select in Hp.
  apply rbind_Ok in Hp as (d1 & Hd1 & [= <-]).
  apply (local_Ok _ _ _ (local_project _)) in Hd1 as (i & Hi & -> & Hinv).
  set (U := _uncounted_ids d (map pr_id pending)) in *.
  exists (map claimed (select (fun p => bool_decide (pr_id p ∈ U)) pending)).
  pose proof (stamped_claimed d pending Hu Hb) as Hs. fold U in Hs.
  rewrite map_map. split; [|split].
  - unfold _stamp_counted. rewrite inventory_events, Hinv. exact Hi.
  - apply (logged_update _ (ev_with_counted_at (Some now))). done.
  - cbn [_stamp_counted sdk_events set_sdk_events graft].
    rewrite <-Hs. apply counted_stamped.
    intros r Hr HU. by apply (uncounted_rows d (map pr_id pending)).
Qed.


(** ** The invariant *)

Definition sound (d0 : db) (s : state) : Prop :=
  keys_unique ev_id (sdk_events s.1) /\
  Forall (backed (sdk_events s.1)) s.2 /\
  exists log, map logged (select counted (sdk_events s.1)) ≡ₚ log /\
    project (map snd log) (inventory_of d0) = Ok (inventory_of s.1).

(** a step that keeps what is logged, what is counted and the inventory *)
Lemma sound_idle d0 d d' C :
  map logged (sdk_events d') = map logged (sdk_events d) ->
  map logged (select counted (sdk_events d')) = map logged (select counted (sdk_events d)) ->
  inventory_of d' = inventory_of d -> sound d0 (d, C) -> sound d0 (d', C).
Proof.
  unfold sound. cbn [fst snd]. intros Hl Hc Hi (Hu & Hb & log & Hp & Hlog). split; [by eapply unique_logged|].
  split; [|exists log; cbn [fst]; by rewrite Hc, Hi].
  eapply Forall_impl; [exact Hb|]. intros c. apply backed_mono. by rewrite Hl.
Qed.

Lemma sound_process d0 now claim part d d' C :
  claim ∈ C -> part `sublist_of` claim -> process_events now part d = Ok d' ->
  sound d0 (d, C) -> sound d0 (d', C).
Proof.
  unfold sound. cbn [fst snd]. intros HC Hs Hp (Hu & Hb & log & Hperm & Hlog).
  assert (backed (sdk_events d) part) as Hpart.
  { eapply backed_part; [done|]. by eapply (proj1 (Forall_forall _ _)). }
  destruct (process_events_log now part d d' Hu Hpart Hp) as (new & Hnew & Hl & Hc).
  split; [by eapply unique_logged|]. split.
  - eapply Forall_impl; [exact Hb|]. intros c. apply backed_mono. cbn [fst]. by rewrite Hl.
  - exists (log ++ new). cbn [fst]. split; [by rewrite Hc, Hperm|].
    unfold project in *. rewrite map_app, rfold_app, Hlog. exact Hnew.
Qed.

Lemma sound_insert d0 now es out d d' C :
  insert_events now es d = Ok (out, d') -> sound d0 (d, C) -> sound d0 (d', C).
Proof.
  unfold sound, insert_events. cbn [fst snd]. intros Hi (Hu & Hb & log & Hperm & Hlog).
  apply rbind_Ok in Hi as (rows & _ & Hi). apply rbind_Ok in Hi as ([t keys] & Ht & [= _ <-]).
  destruct (insert_event_adds now es _ _ _ _ Ht Hu) as (Hu' & Hc & Hp).
  split; [exact Hu'|]. split; [|exists log; cbn [fst]; rewrite inventory_events; split; [|done]].
  - eapply Forall_impl; [exact Hb|]. intros c. apply backed_mono. cbn [fst]. intros x Hx.
    apply list_elem_of_fmap in Hx as (r & -> & Hr). apply list_elem_of_fmap_2.
    change (r ∈ t). by eapply elem_of_prefix.
  - change (map logged (select counted t) ≡ₚ log). by rewrite Hc.
Qed.

Lemma sound_step d0 s s' : step s s' -> sound d0 s -> sound d0 s'.
Proof.
  intros Hs Hi.
  destruct Hs as [now es out d d' C Hd|tenant limit attempts d C|now claim part d d' C HC Hp Hd|now ids d C
                 |ids error d C|d d' C Hinv Hev].
  - by eapply sound_insert.
  - destruct Hi as (Hu & Hb & Hlog). split; [done|]. split; [|done]. cbn [fst snd] in *.
    constructor; [by apply claim_backed|done].
  - by eapply sound_process.
  - refine (sound_idle d0 d _ C _ _ _ Hi); [by apply logged_update|by apply logged_counted_update|done].
  - refine (sound_idle d0 d _ C _ _ _ Hi); [by apply logged_update|by apply logged_counted_update|done].
  - refine (sound_idle d0 d _ C _ _ _ Hi); [by rewrite Hev|by rewrite Hev|done].
Qed.

Lemma reachable_sound d0 s : sdk_events d0 = [] -> reachable d0 s -> sound d0 s.
Proof.
  intros H0'. induction 1 as [|s s' _ IH Hstep]; [|by eapply sound_step].
  unfold sound. cbn [fst snd]. rewrite H0'. split; [apply NoDup_nil_2|]. split; [constructor|]. by exists [].
Qed.

(** a sound state's inventory is the projection of its counted rows *)
Lemma sound_counts d0 d C : sound d0 (d, C) ->
  exists log : list (Z * event),
    NoDup (map fst log) /\
    (forall i e, (i, e) ∈ log <->
       exists r, r ∈ sdk_events d /\ ev_id r = i /\ ev_raw_event r = e /\ ev_counted_at r <> None) /\
    rfold (fun d e => process_event e d) (inventory_of d0) (map snd log) = Ok (inventory_of d).
Proof.
  intros (Hu & _ & log & Hp & Hlog). cbn [fst] in *.
  exists log. split; [|split]; [| |exact Hlog].
  - change (NoDup (fst <$> log)). rewrite <-Hp. change (NoDup (map fst (map logged (select counted (sdk_events d))))).
    rewrite <-ids_of_logged. by apply (keys_unique_select ev_id).
  - intros i e. rewrite <-Hp, list_elem_of_fmap. split.
    + intros (r & [= -> ->] & [Hc Hin]%elem_of_select). exists r. unfold counted in Hc.
      split; [done|]. split; [done|]. split; [done|]. by destruct (ev_counted_at r).
    + intros (r & Hin & <- & <- & Hc). exists r. split; [done|]. apply elem_of_select. split; [|done].
      unfold counted. by destruct (ev_counted_at r).
Qed.

(** However ingestion, claims, folds, retries with stale claims and other
    requests interleave, the inventory is the projection, from its initial
    state, of a log that contains exactly the rows stamped [counted_at], each
    once and with the event that was stored. *)
Theorem exactly_once d0 d C :
  sdk_events d0 = [] -> reachable d0 (d, C) ->
  exists log : list (Z * event),
    NoDup (map fst log) /\
    (forall i e, (i, e) ∈ log <->
       exists r, r ∈ sdk_events d /\ ev_id r = i /\ ev_raw_event r = e /\ ev_counted_at r <> None) /\
    rfold (fun d e => process_event e d) (inventory_of d0) (map snd log) = Ok (inventory_of d).
Proof. intros H0' Hr. exact (sound_counts d0 d C (reachable_sound d0 (d, C) H0' Hr)). Qed.

(** what one fold does to the table, and the rows it claims to the counts *)
Lemma process_table now pending d d' : process_events now pending d = Ok d' ->
  sdk_events d' = update (fun r => bool_decide (ev_id r ∈ _uncounted_ids d (map pr_id pending)))
    (ev_with_counted_at (Some now)) (sdk_events d).
Proof.
  unfold process_events. rewrite project_select. intros (d1 & Hd1 & Hd%Ok_inj)%rbind_Ok. subst d'.
  by apply (local_Ok _ _ _ (local_project _)) in Hd1 as (i & _ & -> & _).
Qed.
Lemma process_counted now pending d d' : process_events now pending d = Ok d' ->
  forall r, r ∈ sdk_events d' -> ev_id r ∈ map pr_id pending -> counted r = true.
Proof.
  intros Hp%process_table r. rewrite Hp. intros [(x & Hx & _ & ->)|[Hr Hn%bool_decide_eq_false]]%elem_of_update Hin; [done|].
  destruct (counted r) eqn:Hc; [done|]. destruct Hn. apply elem_of_uncounted. split; [done|]. by exists r.
Qed.

(** A fold is idempotent: once a claimed set of rows has been folded,
    folding the same set again, whenever it is retried, changes nothing. *)
Theorem refold_changes_nothing now later pending d d' :
  process_events now pending d = Ok d' ->
  process_events later pending d' = Ok d' /\
  (forall r, r ∈ sdk_events d' -> (exists p, p ∈ pending /\ pr_id p = ev_id r) -> ev_counted_at r <> None).
Proof.
  intros Hp. pose proof (process_counted now pending d d' Hp) as Hall.
  assert (_uncounted_ids d' (map pr_id pending) = []) as Hnone.
  { apply elem_of_nil_inv. intros i (Hi & r & Hr & <- & Hc)%elem_of_uncounted. by rewrite (Hall r Hr Hi) in Hc. }
  split.
  - unfold process_events. rewrite project_select, Hnone.
    replace (select (fun p => bool_decide (pr_id p ∈ [])) pending) with (@nil pending_row).
    + cbn [map project rfold rbind]. unfold _stamp_counted. rewrite update_none; [by destruct d'|].
      intros r _. by apply bool_decide_eq_false, not_elem_of_nil.
    + symmetry. apply elem_of_nil_inv. intros p [Hb%bool_decide_eq_true _]%elem_of_select.
      by apply not_elem_of_nil in Hb.
  - intros r Hr (p & Hin & Hid). specialize (Hall r Hr ltac:(rewrite <-Hid; by apply list_elem_of_fmap_2)).
    unfold counted in Hall. by destruct (ev_counted_at r).
Qed.
End Rules.

(** ** Two workers claim the same two events *)

Module Demo.
#[export] Instance host : PyHost :=
  {| repr _ := "?"; str_int _ := Raise TypeError; str_float _ := Raise TypeError |}.
#[export] Instance digest : Digest := fun s => s.
#[export] Instance sql_host : SqlHost := fun _ => "0.0".

Definition call (span status : string) (tokens : Z) : event :=
  mk_event "model.call" "1.0" "trace-1" span "2026-03-01T09:00:00Z" "triage-api" "production" "claims" None None
    (Some "score") status None
    [("metadata", PDict [("tenant_id", PStr "acme"); ("application_name", PStr "triage")]);
     ("provider", PStr "openai"); ("model", PStr "gpt-4"); ("usage", PDict [("input_tokens", PInt tokens)])].
Definition batch : list event := [call "s1" "success" 120; call "s2" "error" 30; call "s1" "success" 120].

Definition stored : db :=
  match insert_events "2026-03-01 09:00:01" batch empty_db with Ok (_, d) => d | Raise _ => empty_db end.
Definition claim : list pending_row := claim_unfolded "acme" 500 (Some 5%Z) stored.
Definition folded : db :=
  match process_events "2026-03-01 09:00:02" claim stored with Ok d => d | Raise _ => stored end.
(** the second worker, after the first: one row at a time *)
Definition refolded : db :=
  match process_events "2026-03-01 09:00:03" (take 1 claim) folded with Ok d => d | Raise _ => folded end.

Lemma stores : exists out, insert_events "2026-03-01 09:00:01" batch empty_db = Ok (out, stored).
Proof. eexists. vm_compute. reflexivity. Qed.
Lemma folds : process_events "2026-03-01 09:00:02" claim stored = Ok folded.
Proof. vm_compute. reflexivity. Qed.
Lemma refolds : process_events "2026-03-01 09:00:03" (take 1 claim) folded = Ok refolded.
Proof. vm_compute. reflexivity. Qed.

(** a duplicate span is stored once, and the application counts two calls *)
Example two_rows : length (sdk_events refolded) = 2.
Proof. vm_compute. reflexivity. Qed.
Example two_calls : map (fun a => (ga_model_calls a, ga_errors a, ga_input_tokens a)) (governance_applications refolded) =
  [(SInt 2, SInt 1, SInt 150)].
Proof. vm_compute. reflexivity. Qed.

Lemma reaches : reachable empty_db (refolded, [claim; claim]).
Proof.
  destruct stores as [out Hs].
  eapply reachable_step; [|refine (step_process "2026-03-01 09:00:03" claim (take 1 claim) folded refolded _ _ _ refolds);
    [by left|apply sublist_take]].
  eapply reachable_step; [|refine (step_process "2026-03-01 09:00:02" claim claim stored folded _ _ _ folds);
    [by left|done]].
  eapply reachable_step; [|exact (step_claim "acme" 500 (Some 5%Z) stored [claim])].
  eapply reachable_step; [|exact (step_claim "acme" 500 (Some 5%Z) stored [])].
  eapply reachable_step; [apply reachable_start|]. by eapply step_insert.
Qed.
End Demo.

Import Demo.

Lemma exactly_once_witness : exists log : list (Z * event),
  NoDup (map fst log) /\
  (forall i e, (i, e) ∈ log <->
     exists r, r ∈ sdk_events Demo.refolded /\ ev_id r = i /\ ev_raw_event r = e /\ ev_counted_at r <> None) /\
  rfold (fun d e => process_event e d) (inventory_of empty_db) (map snd log) = Ok (inventory_of Demo.refolded).
Proof. exact (exactly_once empty_db Demo.refolded [Demo.claim; Demo.claim] eq_refl Demo.reaches). Defined.

Lemma refold_changes_nothing_witness :
  process_events "2026-03-02 00:00:00" Demo.claim Demo.folded = Ok Demo.folded /\
  (forall r, r ∈ sdk_events Demo.folded -> (exists p, p ∈ Demo.claim /\ pr_id p = ev_id r) -> ev_counted_at r <> None).
Proof. exact (refold_changes_nothing _ "2026-03-02 00:00:00" Demo.claim Demo.stored Demo.folded Demo.folds). Defined.
