(* ===== verification/Counters.v ===== *)
(** * What an application's counters say

    An application row exists exactly when a counted event names it, and its
    model calls, errors and tokens are the sums over those events as long as the
    columns can hold them: past 64 bits SQLite goes on in binary64. *)

From stdpp Require Import base list strings option pretty sets gmap.
From Stdlib Require Import ZArith Lia.
From S2P Require Import Prelude Py Sql Events Schema Inventory Ledger LedgerRules.

Open Scope nat_scope.

(** ** Sums over events *)

Definition sum (f : event -> Z) (l : list event) : Z := foldr Z.add 0%Z (map f l).

Lemma sum_app f l1 l2 : sum f (l1 ++ l2) = (sum f l1 + sum f l2)%Z.
Proof.
  unfold sum. rewrite map_app, foldr_app. induction (map f l1) as [|x l IH]; cbn [foldr]; [lia|]. rewrite IH. lia.
Qed.

#[export] Instance sum_proper f : Proper ((≡ₚ) ==> (=)) (sum f).
Proof. induction 1; unfold sum in *; cbn [map foldr] in *; lia. Qed.

Section Counters.
Context `{PyHost} `{Digest} `{SqlHost}.

Definition call_count (e : event) : Z := if String.eqb (e_type e) "model.call" then 1%Z else 0%Z.

(** model calls, errors, input and output tokens *)
Definition figures (a : application) : sql_num * sql_num * sql_num * sql_num :=
  (ga_model_calls a, ga_errors a, ga_input_tokens a, ga_output_tokens a).
Definition recount (l : list event) : sql_num * sql_num * sql_num * sql_num :=
  (SInt (sum call_count l), SInt (sum error_count l), SInt (sum (fun e => usage e "input_tokens") l),
   SInt (sum (fun e => usage e "output_tokens") l)).

(** the columns hold the sums, in whatever order the events are counted *)
Definition magnitude (f : event -> Z) : event -> Z := fun e => Z.abs (f e).
Definition fits (l : list event) : Prop :=
  (Z.of_nat (length l) < 2 ^ 63)%Z /\
  (sum (magnitude (fun e => usage e "input_tokens")) l < 2 ^ 63)%Z /\
  (sum (magnitude (fun e => usage e "output_tokens")) l < 2 ^ 63)%Z.

(** what the statement writes, event by event *)
Definition add_event (f : sql_num * sql_num * sql_num * sql_num) (e : event) : sql_num * sql_num * sql_num * sql_num :=
  let '(c, r, i, o) := f in
  (sql_add c (call_count e), sql_add r (error_count e), sql_add i (usage e "input_tokens"),
   sql_add o (usage e "output_tokens")).
Definition counted_from (l : list event) : option (sql_num * sql_num * sql_num * sql_num) :=
  match l with [] => None | e :: es => Some (foldl add_event (recount [e]) es) end.

(** the events an application is counted from *)
Definition attributed (key : string) (e : event) : bool :=
  inventories e && truthy (meta e "application_name") && String.eqb (application_key e) key.

Definition tally (key : string) (l : list event) : option (sql_num * sql_num * sql_num * sql_num) :=
  counted_from (select (attributed key) l).

(** the table of applications counts the events [l], in that order *)
Definition exact (l : list event) (t : list application) : Prop :=
  keys_unique ga_entity_id t /\ forall key, figures <$> lookup_key ga_entity_id key t = tally key l.

(** ** One event *)

Lemma counted_snoc l e :
  counted_from (l ++ [e]) = Some (from_option (fun f => add_event f e) (recount [e]) (counted_from l)).
Proof. destruct l as [|x l]; [done|]. cbn [counted_from app from_option]. by rewrite foldl_app. Qed.

Lemma tally_snoc key l e :
  tally key (l ++ [e]) =
  if attributed key e
  then Some (from_option (fun f => add_event f e) (recount [e]) (tally key l)) else tally key l.
Proof.
  unfold tally. rewrite select_app, select_cons. destruct (attributed key e); [by rewrite counted_snoc|].
  cbn. by rewrite app_nil_r.
Qed.

Lemma exact_other l e t : (forall key, attributed key e = false) -> exact l t -> exact (l ++ [e]) t.
Proof. intros He [Hu Ht]. split; [done|]. intros key. by rewrite tally_snoc, He, Ht. Qed.

Lemma upsert_application_exact l e d d' :
  inventories e = true -> upsert_application (String.eqb (e_type e) "model.call") e d = Ok d' ->
  exact l (governance_applications d) -> exact (l ++ [e]) (governance_applications d').
Proof.
  intros He Hd Hex. unfold upsert_application in Hd.
  destruct (truthy (meta e "application_name")) eqn:Hname; cbn [negb] in Hd.
  2:{ injection Hd as <-. apply exact_other; [|done]. intros key. unfold attributed. by rewrite He, Hname. }
  apply rbind_Ok in Hd as (tenant & _ & Hd). apply rbind_Ok in Hd as (name & _ & Hd).
  apply rbind_Ok in Hd as (? & _ & Hd).
  apply (f_equal (fun r => match r with Ok d => governance_applications d | Raise _ => [] end)) in Hd.
  cbn [governance_applications set_governance_applications] in Hd. rewrite <-Hd. clear Hd d'.
  destruct Hex as [Hu Ht]. split; [by apply keys_unique_upsert|].
  intros key. rewrite lookup_key_upsert by done. cbn [ga_entity_id]. rewrite tally_snoc.
  unfold attributed at 1. rewrite He, Hname. cbn [andb].
  case_decide as Hk; [|by rewrite (proj2 (String.eqb_neq _ _) Hk)].
  rewrite (proj2 (String.eqb_eq _ _) Hk). specialize (Ht key). rewrite <-Ht.
  destruct (lookup_key ga_entity_id key (governance_applications d)) as [a|]; [reflexivity|].
  unfold recount, sum. cbn [map foldr fmap option_fmap option_map from_option]. by rewrite !Z.add_0_r.
Qed.

(** ** The rest of the projection leaves the applications alone *)

Definition keeps_applications (op : db -> res db) : Prop :=
  forall d d', op d = Ok d' -> governance_applications d' = governance_applications d.

Lemma keeps_id : keeps_applications (fun d => Ok d).
Proof. by intros d d' [= <-]. Qed.
Lemma keeps_bind op1 op2 :
  keeps_applications op1 -> keeps_applications op2 -> keeps_applications (fun d => let! d := op1 d in op2 d).
Proof. intros H1' H2' d d' (d1 & Hd1 & Hd')%rbind_Ok. rewrite (H2' _ _ Hd'). by apply H1'. Qed.
Lemma keeps_if (b : bool) op1 op2 :
  keeps_applications op1 -> keeps_applications op2 -> keeps_applications (fun d => if b then op1 d else op2 d).
Proof. by destruct b. Qed.
Lemma keeps_res {A} (c : res A) op :
  (forall x, keeps_applications (op x)) -> keeps_applications (fun d => let! x := c in op x d).
Proof. intros Hop. by destruct c; [apply Hop|intros d d']. Qed.
#[local] Hint Resolve keeps_id keeps_bind keeps_if keeps_res : inventory.

Lemma keeps_const (op : db -> db) :
  (forall d, governance_applications (op d) = governance_applications d) -> keeps_applications (fun d => Ok (op d)).
Proof. intros Hop d d' Hd. apply (f_equal (fun r => match r with Ok d => Some d | Raise _ => None end)) in Hd.
  apply (inj Some) in Hd. by rewrite <-Hd, Hop. Qed.

(** bindings, then a statement on another table *)
Ltac other_table :=
  repeat match goal with
         | |- keeps_applications (fun d => rbind _ _) => apply keeps_res; intros ?
         | |- keeps_applications (fun d => if _ then _ else _) => apply keeps_if
         | |- keeps_applications (fun d => Ok _) => first [apply keeps_id | apply keeps_const; intros ?; reflexivity]
         end.

Lemma keeps_workflow b e : keeps_applications (upsert_workflow b e).
Proof. unfold upsert_workflow. destruct (workflow_of _ _); cbv zeta; other_table. Qed.
Lemma keeps_model e : keeps_applications (upsert_model e).
Proof. unfold upsert_model. cbv zeta. other_table. Qed.
Lemma keeps_provider e : keeps_applications (upsert_provider e).
Proof. unfold upsert_provider. destruct (negb _); cbv zeta; other_table. Qed.
Lemma keeps_observed e : keeps_applications (upsert_observed_event e).
Proof. unfold upsert_observed_event. cbv zeta. other_table. Qed.
Lemma keeps_control c ty e : keeps_applications (upsert_control c ty e).
Proof.
  intros d d' (tenant & _ & Hd)%rbind_Ok. apply rbind_Ok in Hd as (? & _ & Hd).
  by refine (keeps_const (fun d => set_governance_controls _ d) _ d d' Hd).
Qed.
Lemma keeps_risk r s ev so e : keeps_applications (upsert_risk r s ev so e).
Proof.
  intros d d'. rewrite upsert_risk_table. destruct (risks_with r s ev so e (governance_risks d)); cbn [rbind]; [|done].
  refine (keeps_const (fun d => set_governance_risks _ d) _ d d'). reflexivity.
Qed.
#[local] Hint Resolve keeps_workflow keeps_model keeps_provider keeps_observed keeps_control keeps_risk : inventory.

Lemma keeps_model_risks e : keeps_applications (upsert_model_risks e).
Proof.
  unfold upsert_model_risks. destruct (negb _); [auto with inventory|].
  repeat (apply keeps_bind; [auto with inventory|]). auto with inventory.
Qed.
Lemma keeps_guardrail e : keeps_applications (upsert_guardrail_risk e).
Proof. unfold upsert_guardrail_risk. apply keeps_res. auto with inventory. Qed.
Lemma keeps_eval e : keeps_applications (upsert_eval_risk e).
Proof. unfold upsert_eval_risk. auto with inventory. Qed.
#[local] Hint Resolve keeps_model_risks keeps_guardrail keeps_eval : inventory.

(** the application's own statement decides the table *)
Lemma process_event_application e d d' : process_event e d = Ok d' ->
  exists d1, (if inventories e then upsert_application (String.eqb (e_type e) "model.call") e d else Ok d) = Ok d1 /\
    governance_applications d' = governance_applications d1.
Proof.
  assert (forall op rest : db -> res db, keeps_applications rest ->
    (forall d d1, op d = Ok d1 -> exists d2,
       (if inventories e then upsert_application (String.eqb (e_type e) "model.call") e d else Ok d) = Ok d2 /\
       governance_applications d1 = governance_applications d2) ->
    forall d d', (let! d := op d in rest d) = Ok d' -> exists d1,
       (if inventories e then upsert_application (String.eqb (e_type e) "model.call") e d else Ok d) = Ok d1 /\
       governance_applications d' = governance_applications d1) as Htracks.
  { intros op rest Hrest Hop u u' (u1 & Hu1 & Hu')%rbind_Ok. rewrite (Hrest _ _ Hu'). by apply Hop. }
  revert d d'. unfold process_event. refine (Htracks _ _ _ _).
  - repeat (apply keeps_bind; [|]); auto 10 with inventory. destruct (assoc _ _); auto with inventory.
  - destruct (inventories e); intros d d1 Hd; [|by exists d1; split].
    revert d d1 Hd. refine (Htracks _ _ (keeps_workflow _ _) _). intros d d1 Hd. by exists d1.
Qed.

Lemma process_event_exact l e d d' :
  process_event e d = Ok d' -> exact l (governance_applications d) -> exact (l ++ [e]) (governance_applications d').
Proof.
  intros (d1 & Hd1 & Happs)%process_event_application Hex. rewrite Happs. destruct (inventories e) eqn:He.
  - by eapply upsert_application_exact.
  - injection Hd1 as <-. apply exact_other; [|done]. intros key. unfold attributed. by rewrite He.
Qed.

Lemma project_exact l k d d' :
  project l d = Ok d' -> exact k (governance_applications d) -> exact (k ++ l) (governance_applications d').
Proof.
  unfold project. revert k d. induction l as [|e l IH]; intros k d Hp Hex.
  - injection Hp as <-. by rewrite app_nil_r.
  - apply rbind_Ok in Hp as (d1 & Hd1 & Hp). replace (k ++ e :: l) with ((k ++ [e]) ++ l) by by rewrite <-app_assoc.
    apply (IH _ d1 Hp). by eapply process_event_exact.
Qed.

Lemma exact_nil : exact [] [].
Proof. split; [apply NoDup_nil_2|done]. Qed.

(** ** While the columns hold them, the counts are the sums *)

Lemma sum_cons f e l : sum f (e :: l) = (f e + sum f l)%Z.
Proof. reflexivity. Qed.

Lemma sum_magnitude f l : (Z.abs (sum f l) <= sum (magnitude f) l)%Z.
Proof. induction l as [|e l IH]; [done|]. rewrite !sum_cons. unfold magnitude at 1. lia. Qed.

Lemma sql_add_exact x b : (Z.abs (x + b) < 2 ^ 63)%Z -> sql_add (SInt x) b = SInt (x + b).
Proof.
  intros Hb. unfold sql_add, int64.
  by rewrite (proj2 (Z.leb_le _ _)), (proj2 (Z.ltb_lt _ _)) by lia.
Qed.

Lemma foldl_sum (f : event -> Z) l : forall x, (Z.abs x + sum (magnitude f) l < 2 ^ 63)%Z ->
  foldl (fun a e => sql_add a (f e)) (SInt x) l = SInt (x + sum f l).
Proof.
  induction l as [|e l IH]; intros x Hx; cbn [foldl]; [unfold sum; cbn; f_equal; lia|].
  rewrite sum_cons in Hx. unfold magnitude at 1 in Hx.
  assert (0 <= sum (magnitude f) l)%Z by (pose proof (sum_magnitude f l); lia).
  rewrite sql_add_exact, IH, sum_cons by lia. f_equal. lia.
Qed.

Lemma foldl_add_event l : forall c r i o,
  foldl add_event (c, r, i, o) l =
  (foldl (fun a e => sql_add a (call_count e)) c l, foldl (fun a e => sql_add a (error_count e)) r l,
   foldl (fun a e => sql_add a (usage e "input_tokens")) i l, foldl (fun a e => sql_add a (usage e "output_tokens")) o l).
Proof. induction l as [|e l IH]; intros c r i o; [done|]. cbn [foldl add_event]. by rewrite IH. Qed.

Lemma sum_flag (f : event -> Z) l : (forall e, 0 <= f e <= 1)%Z -> (sum (magnitude f) l <= Z.of_nat (length l))%Z.
Proof.
  intros Hf. induction l as [|e l IH]; [done|]. rewrite sum_cons. unfold magnitude at 1. cbn [length].
  specialize (Hf e). lia.
Qed.

Lemma counted_fits l : fits l -> counted_from l = match l with [] => None | _ => Some (recount l) end.
Proof.
  destruct l as [|e l]; [done|]. intros (Hn & Hi & Ho). cbn [counted_from]. f_equal.
  unfold recount at 1. rewrite foldl_add_event.
  assert (forall f : event -> Z, (forall x, 0 <= f x <= 1)%Z -> (sum (magnitude f) (e :: l) < 2 ^ 63)%Z) as Hflag.
  { intros f Hf. pose proof (sum_flag f (e :: l) Hf). lia. }
  assert (forall f : event -> Z, (sum (magnitude f) (e :: l) < 2 ^ 63)%Z ->
    foldl (fun a x => sql_add a (f x)) (SInt (sum f [e])) l = SInt (sum f (e :: l))) as Hsum.
  { intros f Hf. rewrite sum_cons in Hf. unfold magnitude at 1 in Hf. rewrite foldl_sum.
    - rewrite !sum_cons. unfold sum at 1. cbn. f_equal. lia.
    - rewrite sum_cons. unfold sum at 1. cbn. rewrite Z.add_0_r. exact Hf. }
  rewrite !Hsum by first [done | apply Hflag; intros x; unfold call_count, error_count; case_match; lia]. done.
Qed.

Lemma fits_perm l k : l ≡ₚ k -> fits l -> fits k.
Proof. intros Hp. unfold fits. by rewrite Hp. Qed.

Lemma tally_fits key l k : select (attributed key) l ≡ₚ k -> fits k ->
  tally key l = match k with [] => None | _ => Some (recount k) end.
Proof.
  intros Hp Hk. unfold tally. rewrite counted_fits by (eapply fits_perm; [symmetry; exact Hp|exact Hk]).
  destruct (select (attributed key) l) as [|x es], k as [|y es'].
  - done.
  - by apply Permutation_nil_l in Hp.
  - symmetry in Hp. by apply Permutation_nil_l in Hp.
  - unfold recount. by rewrite Hp.
Qed.

Lemma attributed_rows key t :
  select (attributed key) (map ev_raw_event (select counted t)) =
  map ev_raw_event (filter (fun r => ev_counted_at r <> None /\ attributed key (ev_raw_event r) = true) t).
Proof.
  induction t as [|r t IH]; [done|]. rewrite select_cons, filter_cons. unfold counted at 1.
  destruct (ev_counted_at r) as [at_|]; cbn [is_null negb].
  - cbn [map]. rewrite select_cons, IH. destruct (attributed key (ev_raw_event r)) eqn:Ha.
    + by rewrite decide_True by done.
    + by rewrite decide_False by naive_solver.
  - rewrite decide_False by naive_solver. exact IH.
Qed.

(** C14. At every point of every interleaving of requests, workers and sweeps,
    an application row exists exactly when a stored event stamped as counted
    names the application; and as long as the counters fit their columns (fewer
    than 2^63 such events, and fewer than 2^63 tokens in absolute value), its
    model calls, errors, input and output tokens are the sums over those events,
    none missed and none counted twice.  Past that bound SQLite continues in
    binary64 ([Sql.sql_add]).  The steps are those of the ledger; a retention
    purge, which deletes counted events and keeps the row, is not one of them. *)
Theorem application_figures_exact d0 d C key :
  sdk_events d0 = [] -> governance_applications d0 = [] -> reachable d0 (d, C) ->
  let es := map ev_raw_event (filter (fun r => ev_counted_at r <> None /\ attributed key (ev_raw_event r) = true)
                                     (sdk_events d)) in
  (is_Some (lookup_key ga_entity_id key (governance_applications d)) <-> es <> []) /\
  (fits es -> figures <$> lookup_key ga_entity_id key (governance_applications d) =
              match es with [] => None | _ => Some (recount es) end).
Proof.
  intros H0' H1' Hr es. destruct (reachable_sound d0 (d, C) H0' Hr) as (_ & _ & log & Hp & Hlog). cbn [fst] in *.
  apply (project_exact _ []) in Hlog; [|change (governance_applications (inventory_of d0)) with
    (governance_applications d0); rewrite H1'; apply exact_nil].
  destruct Hlog as [_ Hlog]. change (governance_applications (inventory_of d)) with (governance_applications d) in Hlog.
  cbn [app] in Hlog. assert (select (attributed key) (map snd log) ≡ₚ es) as Hes.
  { assert (map snd log ≡ₚ map ev_raw_event (select counted (sdk_events d))) as Hperm.
    { change (snd <$> log ≡ₚ map ev_raw_event (select counted (sdk_events d))). rewrite <-Hp.
      change (map snd (map logged (select counted (sdk_events d))) ≡ₚ map ev_raw_event (select counted (sdk_events d))).
      by rewrite map_map. }
    unfold es. rewrite <-attributed_rows. unfold select at 1. by rewrite Hperm. }
  split.
  - rewrite <-(fmap_is_Some figures), Hlog. unfold tally. destruct es as [|x l], (select (attributed key) _) as [|y k].
    + split; [by intros []|done].
    + symmetry in Hes. by apply Permutation_nil_l in Hes.
    + by apply Permutation_nil_l in Hes.
    + split; [done|by eexists].
  - intros Hf. rewrite Hlog. by apply tally_fits.
Qed.
End Counters.

Import LedgerRules.Demo.

Lemma application_figures_exact_witness (key := application_key (LedgerRules.Demo.call "s1" "success" 120))
    (es := map ev_raw_event (filter (fun r => ev_counted_at r <> None /\ attributed key (ev_raw_event r) = true)
                                    (sdk_events LedgerRules.Demo.refolded))) :
  fits es /\ length es = 2 /\
  (is_Some (lookup_key ga_entity_id key (governance_applications LedgerRules.Demo.refolded)) <-> es <> []) /\
  (fits es -> figures <$> lookup_key ga_entity_id key (governance_applications LedgerRules.Demo.refolded) =
              match es with [] => None | _ => Some (recount es) end).
Proof.
  split; [vm_compute; repeat split|]. split; [vm_compute; reflexivity|].
  exact (application_figures_exact empty_db LedgerRules.Demo.refolded
    [LedgerRules.Demo.claim; LedgerRules.Demo.claim] key eq_refl eq_refl LedgerRules.Demo.reaches).
Defined.
