(* ===== verification/JsonText.v ===== *)
(** * JSON text determines the value

    A string literal can be read back, whatever follows it, so an array of
    strings and nulls is determined by its text: what the audit log hashes. *)

From stdpp Require Import base list strings option pretty sets gmap.
From Stdlib Require Import ZArith Ascii Lia.
From S2P Require Import Prelude Py Json.

Open Scope nat_scope.

(** ** Reading a string literal back *)

Definition hex_value (c : ascii) : N :=
  let n := N_of_ascii c in (if (n <? 58)%N then n - 48 else n - 87)%N.

(** one character of a literal and the rest *)
Definition read_char (s : string) : option (ascii * string) :=
  match s with
  | EmptyString => None
  | String c r =>
      if Ascii.eqb c dquote then None
      else if Ascii.eqb c "\"%char then
        match r with
        | String "u" (String _ (String _ (String h (String l r)))) =>
            Some (ascii_of_N (16 * hex_value h + hex_value l), r)
        | String "n" r => Some (newline, r)
        | String "r" r => Some (ascii_of_N 13, r)
        | String "t" r => Some (ascii_of_N 9, r)
        | String "f" r => Some (ascii_of_N 12, r)
        | String "b" r => Some (ascii_of_N 8, r)
        | String c r => Some (c, r)
        | EmptyString => None
        end
      else Some (c, r)
  end.

Lemma read_escaped c r : read_char (escape_char c +:+ r) = Some (c, r).
Proof. destruct c as [[] [] [] [] [] [] [] []]; reflexivity. Qed.

(** the characters up to the closing quote, and the rest *)
Fixpoint read_chars (fuel : nat) (s : string) : option (string * string) :=
  match fuel with
  | 0 => None
  | S fuel =>
      match read_char s with
      | Some (c, r) => match read_chars fuel r with Some (t, r) => Some (String c t, r) | None => None end
      | None => match s with String c r => if Ascii.eqb c dquote then Some (EmptyString, r) else None | _ => None end
      end
  end.

Definition read_literal (s : string) : option (string * string) :=
  match s with
  | String c r => if Ascii.eqb c dquote then read_chars (String.length s) r else None
  | EmptyString => None
  end.

Lemma escape_char_length c : 1 <= String.length (escape_char c).
Proof. destruct c as [[] [] [] [] [] [] [] []]; cbv; lia. Qed.

Lemma escape_length s : String.length s <= String.length (escape s).
Proof.
  induction s as [|c s IH]; [done|]. cbn [escape String.length]. rewrite length_append.
  pose proof (escape_char_length c). lia.
Qed.

Lemma read_chars_escape s r fuel :
  String.length s < fuel -> read_chars fuel (escape s +:+ String dquote r) = Some (s, r).
Proof.
  revert fuel. induction s as [|c s IH]; intros [|fuel] Hf; cbn [String.length] in Hf; try lia.
  - reflexivity.
  - cbn [escape read_chars]. rewrite append_assoc, read_escaped, IH by lia. done.
Qed.

Lemma read_quote s r : read_literal (quote s +:+ r) = Some (s, r).
Proof.
  unfold quote. rewrite append_assoc. rewrite append_cons. change (String dquote "" +:+ r) with (String dquote r).
  unfold read_literal. change (Ascii.eqb dquote dquote) with true. cbn [String.length].
  apply read_chars_escape. rewrite length_append. cbn [String.length]. pose proof (escape_length s). lia.
Qed.

(** a literal ends where it says *)
Lemma quote_cancel s t r u : quote s +:+ r = quote t +:+ u -> s = t /\ r = u.
Proof.
  intros E. pose proof (read_quote s r) as H1. rewrite E, read_quote in H1. by injection H1.
Qed.

(** ** Arrays of strings and nulls *)

Section Fields.
Context `{PyHost}.

Definition field (o : option string) : string := encode_compact (match o with Some s => PStr s | None => PNone end).

Lemma field_cancel a b r u : field a +:+ r = field b +:+ u -> a = b /\ r = u.
Proof.
  destruct a as [s|], b as [t|]; unfold field, encode_compact; cbn [dumps].
  - intros [-> ->]%quote_cancel. done.
  - unfold quote. by intros [=].
  - unfold quote. by intros [=].
  - change ("null" +:+ r = "null" +:+ u -> @None string = None /\ r = u). rewrite !append_cons, !append_empty.
    intros E. injection E as E. done.
Qed.

Lemma join_cons sep x y l : join sep (x :: y :: l) = x +:+ (sep +:+ join sep (y :: l)).
Proof. reflexivity. Qed.

Lemma fields_cancel a b r u : length a = length b ->
  join "," (map field a) +:+ r = join "," (map field b) +:+ u -> a = b.
Proof.
  revert b. induction a as [|x a IH]; intros [|y b] Hl E; try done. injection Hl as Hl.
  destruct a as [|x' a], b as [|y' b]; try done.
  - by apply field_cancel in E as [-> _].
  - cbn [map] in E. rewrite !join_cons, !append_assoc in E. apply field_cancel in E as [-> E].
    injection E as E. f_equal. by apply IH.
Qed.

Lemma encode_fields l : encode_compact (PList (map (fun o => match o with Some s => PStr s | None => PNone end) l)) =
  "[" +:+ join "," (map field l) +:+ "]".
Proof. unfold encode_compact. cbn [dumps]. by rewrite map_map. Qed.

Lemma encode_fields_inj a b : length a = length b ->
  encode_compact (PList (map (fun o => match o with Some s => PStr s | None => PNone end) a)) =
  encode_compact (PList (map (fun o => match o with Some s => PStr s | None => PNone end) b)) -> a = b.
Proof.
  intros Hl. rewrite !encode_fields. intros E. injection E as E. by apply fields_cancel in E.
Qed.
End Fields.
