(* ===== verification/AuditLog.v ===== *)
(** * The audit log (storage/audit.py, storage/audit_checkpoint.py)

    Every entry is hashed together with the hash of the entry before it and,
    when a key is configured, signed; the hash and number of the newest entry are
    written as a signed checkpoint to a journal outside the database.

    A line of the journal is the value [json.loads] gives for it, [None] where it
    raises; [jf_tail] is a last line without its line break.  A checkpoint's
    numbers are integers, as its two writers write them: arithmetic on a value of
    another type raises. *)

From stdpp Require Import base list strings option pretty sets gmap.
From Stdlib Require Import ZArith Lia Ascii.
From S2P Require Import Prelude Py Dates Json Sql Events Schema Requests.

Open Scope nat_scope.

(** ** Data *)

Record audit_row := mk_audit_row {
  al_id : Z;
  al_created_at : string;
  al_actor_ref : string;
  al_tenant_id : option string;
  al_action : string;
  al_target_type : option string;
  al_target_id : option string;
  al_detail : option string;
  al_prev_hash : option string;
  al_row_hash : option string;
  al_row_hmac : option string;
  al_hmac_key_id : option string;
  al_hash_version : option Z
}.

Definition line := option pyval.
Record journal_file := mk_journal_file { jf_lines : list line; jf_tail : option line }.

(** [journal]: [None] while the file does not exist; [sequence]: the greatest
    identifier AUTOINCREMENT has given *)
Record log := mk_log { audit_logs : list audit_row; sequence : Z; journal : option journal_file }.

(** the environment variables; a set keyring is what [json.loads] gives for it *)
Record environ := mk_environ {
  NORINTH_SECRET_KEY : option string;
  NORINTH_AUDIT_HMAC_KEYS : option line;
  NORINTH_AUDIT_HMAC_PRIMARY : option string;
  checkpoint_path : bool
}.

Definition GENESIS_HASH : string := String.concat "" (repeat "0" 64).
Definition ZERO_SEAL : string := String.concat "" (repeat "0" 64).
Definition CURRENT_HASH_VERSION : Z := 1.

Definition set_name (o : option string) : option string :=
  match o with Some s => if is_empty s then None else Some s | None => None end.

(** ** Keys *)

Definition load_keys (entries : pyval) (ring : list (string * string)) : res (list (string * string)) :=
  match entries with
  | PDict ((_ :: _) as d) =>
      rfold (fun ring kv =>
        let! _ := throw_if (is_empty kv.1) (RuntimeError "audit hmac key ids must be non-empty strings") in
        match kv.2 with PStr s => Ok (item_set kv.1 s ring) | _ => Raise AttributeError end) ring d
  | _ => Raise (RuntimeError "NORINTH_AUDIT_HMAC_KEYS must be a non-empty JSON object of {id: secret}")
  end.

Definition _audit_keyring (v : environ) : res (list (string * string)) :=
  let ring := match set_name (NORINTH_SECRET_KEY v) with Some s => [("legacy", s)] | None => [] end in
  match NORINTH_AUDIT_HMAC_KEYS v with
  | None => Ok ring
  | Some None => Raise (RuntimeError "NORINTH_AUDIT_HMAC_KEYS is not valid JSON")
  | Some (Some entries) => load_keys entries ring
  end.

Definition has_item {A} (k : string) (d : list (string * A)) : bool :=
  match assoc k d with Some _ => true | None => false end.

Definition _audit_primary_id (v : environ) : res (option string) :=
  let! ring := _audit_keyring v in
  match set_name (NORINTH_AUDIT_HMAC_PRIMARY v) with
  | Some explicit =>
      let! _ := throw_if (negb (has_item explicit ring))
        (RuntimeError ("NORINTH_AUDIT_HMAC_PRIMARY '" +:+ explicit +:+ "' is not in the audit hmac keyring")) in
      Ok (Some explicit)
  | None =>
      let! _ := throw_if (match NORINTH_AUDIT_HMAC_KEYS v with Some _ => true | None => false end)
        (RuntimeError "NORINTH_AUDIT_HMAC_KEYS is set; also set NORINTH_AUDIT_HMAC_PRIMARY to name the active key") in
      Ok (if has_item "legacy" ring then Some "legacy" else None)
  end.

(** [ring\[key_id\]] and [ring.get(key_id)] *)
Definition ring_item (k : string) (ring : list (string * string)) : res string :=
  match assoc k ring with Some key => Ok key | None => Raise (KeyError k) end.
Definition ring_get (ring : list (string * string)) (key_id : pyval) : res (option string) :=
  match key_id with
  | PStr k => Ok (assoc k ring)
  | PList _ | PDict _ => Raise TypeError
  | _ => Ok None
  end.

Section AuditLog.
Context `{PyHost} `{Digest} `{Hmac}.

(** ** Hashing a row *)

Definition nullable (o : option string) : pyval := match o with Some s => PStr s | None => PNone end.

Definition _hash_v1 (prev_hash created_at actor_ref : string) (tenant_id : option string) (action : string)
    (target_type target_id detail_json : option string) : string :=
  sha256 (encode_compact (PList
    [PStr prev_hash; PStr created_at; PStr actor_ref; nullable tenant_id; PStr action; nullable target_type;
     nullable target_id; nullable detail_json])).

Definition _compute_row_hash (version : Z) (prev_hash created_at actor_ref : string) (tenant_id : option string)
    (action : string) (target_type target_id detail_json : option string) : option string :=
  if (version =? 1)%Z
  then Some (_hash_v1 prev_hash created_at actor_ref tenant_id action target_type target_id detail_json) else None.

Definition _compute_row_hmac (v : environ) (row_hash : string) : res (option (string * string)) :=
  let! primary := _audit_primary_id v in
  match primary with
  | None => Ok None
  | Some primary =>
      let! ring := _audit_keyring v in
      let! key := ring_item primary ring in
      Ok (Some (hmac_sha256 key row_hash, primary))
  end.

(** ** Reading the journal *)

Definition loads (l : line) : res pyval :=
  match l with Some v => Ok v | None => Raise (ValueError "JSONDecodeError") end.

(** [record.pop("seal")] *)
Definition pop_seal (v : pyval) : res (pyval * list (string * pyval)) :=
  match v with
  | PDict d => match assoc "seal" d with
               | Some seal => Ok (seal, filter (fun kv => kv.1 <> "seal") d)
               | None => Raise (KeyError "seal")
               end
  | PList _ => Raise TypeError
  | _ => Raise AttributeError
  end.

Definition getitem (d : list (string * pyval)) (k : string) : res pyval :=
  match assoc k d with Some v => Ok v | None => Raise (KeyError k) end.
Definition get (d : list (string * pyval)) (k : string) : pyval := default PNone (assoc k d).

Definition _payload (entry : list (string * pyval)) : string := encode_compact (PDict entry).

(** a checkpoint follows the one before it: in its epoch with a greater count,
    or as the start of another epoch that names it *)
Definition follows (previous : option (list (string * pyval))) (record : list (string * pyval)) : res bool :=
  match previous with
  | None => Ok true
  | Some previous =>
      let! epoch := getitem record "epoch" in
      let! previous_epoch := getitem previous "epoch" in
      if py_eqb (get record "kind") (PStr "reconcile")
      then Ok (negb (py_eqb epoch previous_epoch) && py_eqb (get record "previous_epoch") previous_epoch)
      else if negb (py_eqb epoch previous_epoch) then Ok false
      else let! count := getitem record "count" in
           let! previous_count := getitem previous "count" in
           py_gt count previous_count
  end.

Fixpoint read_lines (ring : list (string * string)) (records : list (list (string * pyval))) (previous_seal : pyval)
    (lines : list line) : res (list (list (string * pyval)) + string) :=
  match lines with
  | [] => Ok (inl records)
  | l :: lines =>
      let! v := loads l in
      let! popped := pop_seal v in
      let (seal, record) := popped : pyval * list (string * pyval) in
      let! key_id := getitem record "key_id" in
      let! key := ring_get ring key_id in
      match key with
      | None => Ok (inr "checkpoint_chain")
      | Some key =>
          let! claimed := getitem record "previous_seal" in
          if negb (py_eqb claimed previous_seal) then Ok (inr "checkpoint_chain")
          else
            let! authentic := compare_digest seal (hmac_sha256 key (_payload record)) in
            if negb authentic then Ok (inr "checkpoint_hmac")
            else
              let! ordered := follows (last records) record in
              if negb ordered then Ok (inr "checkpoint_order")
              else read_lines ring (records ++ [record ++ [("seal", seal)]]) seal lines
      end
  end.

Definition all_lines (f : journal_file) : list line :=
  jf_lines f ++ match jf_tail f with Some l => [l] | None => [] end.

(** the records, or why they cannot be used *)
Definition read_checkpoints (v : environ) (ring : list (string * string)) (j : option journal_file)
    : res (list (list (string * pyval)) * option string) :=
  match (if checkpoint_path v then j else None) with
  | None => Ok ([], Some "unavailable")
  | Some f =>
      if bool_decide (ring = []) then Ok ([], Some "verification_key_unavailable")
      else
        match read_lines ring [] (PStr ZERO_SEAL) (all_lines f) with
        | Ok (inl []) => Ok ([], Some "unavailable")
        | Ok (inl records) => Ok (records, None)
        | Ok (inr error) => Ok ([], Some error)
        | Raise (ValueError _) | Raise (KeyError _) | Raise TypeError => Ok ([], Some "checkpoint_unreadable")
        | Raise e => Raise e
        end
  end.

Definition latest_checkpoint (v : environ) (ring : list (string * string)) (j : option journal_file)
    : res (option (list (string * pyval))) :=
  match (if checkpoint_path v then j else None) with
  | None | Some (mk_journal_file [] None) => Ok None
  | Some (mk_journal_file _ (Some _)) => Raise (RuntimeError "Audit checkpoint journal ends with an incomplete record")
  | Some (mk_journal_file lines None) =>
      let! value := loads (default None (last lines)) in
      let! popped := pop_seal value in
      let (seal, record) := popped : pyval * list (string * pyval) in
      let! key_id := getitem record "key_id" in
      let! key := ring_get ring key_id in
      let! authentic := match key with
        | None => Ok false
        | Some key => compare_digest seal (hmac_sha256 key (_payload record)) end in
      let! _ := throw_if (negb authentic) (RuntimeError "Latest audit checkpoint cannot be authenticated") in
      Ok (Some (record ++ [("seal", seal)]))
  end.

(** ** Writing the journal *)

(** a line written to the end of the file, onto an incomplete one if there is one *)
Definition write_line (entry : list (string * pyval)) (j : option journal_file) : option journal_file :=
  let f := default (mk_journal_file [] None) j in
  Some (mk_journal_file (jf_lines f ++ [match jf_tail f with Some _ => None | None => Some (PDict entry) end]) None).

Definition seal_entry (key : string) (entry : list (string * pyval)) : list (string * pyval) :=
  entry ++ [("seal", PStr (hmac_sha256 key (_payload entry)))].

Definition head_entry (epoch : pyval) (count : Z) (head_hash now key_id : string) (previous_seal anchored_from : pyval)
    : list (string * pyval) :=
  [("kind", PStr "head"); ("epoch", epoch); ("count", PInt count); ("head_hash", PStr head_hash);
   ("created_at", PStr now); ("key_id", PStr key_id); ("previous_seal", previous_seal);
   ("anchored_from", anchored_from)].

(** [now] is [datetime.now(UTC).isoformat()] and [fresh] what [uuid4().hex] gives *)
Definition append_checkpoint (v : environ) (now fresh : string) (count : Z) (head_hash key_id key : string)
    (ring : list (string * string)) (j : option journal_file) : res (option journal_file) :=
  if negb (checkpoint_path v) then Ok j
  else
    let! previous := latest_checkpoint v ring j in
    let! behind := match previous with
      | Some ((_ :: _) as p) =>
          let! previous_count := getitem p "count" in
          let! ahead := py_gt (PInt count) previous_count in Ok (negb ahead)
      | _ => Ok false end in
    let! _ := throw_if behind (RuntimeError "Audit checkpoint count did not advance") in
    let of_previous k dflt := match previous with Some ((_ :: _) as p) => getitem p k | _ => Ok dflt end in
    let! epoch := of_previous "epoch" (PStr fresh) in
    let! seal := of_previous "seal" (PStr ZERO_SEAL) in
    let! from := of_previous "anchored_from" (PInt count) in
    Ok (write_line (seal_entry key (head_entry epoch count head_hash now key_id seal from)) j).

Definition reconcile_checkpoint (v : environ) (now fresh : string) (count : Z) (head_hash reason expected_seal key_id
    key : string) (ring : list (string * string)) (j : option journal_file) : res (option journal_file) :=
  let! _ := throw_if (negb (checkpoint_path v)) (RuntimeError "Audit checkpoint path is not configured") in
  let! read := read_checkpoints v ring j in
  match read.2, last read.1 with
  | Some error, _ => Raise (RuntimeError ("Cannot reconcile checkpoint journal: " +:+ error))
  | None, None => Raise (RuntimeError "Cannot reconcile checkpoint journal: None")
  | None, Some previous =>
      let! previous_seal := getitem previous "seal" in
      let! expected := compare_digest previous_seal expected_seal in
      let! _ := throw_if (negb expected) (RuntimeError "Expected checkpoint seal does not match current journal") in
      let! _ := throw_if (is_empty (strip reason)) (RuntimeError "A restore reason is required") in
      let! epoch := getitem previous "epoch" in
      let! previous_count := getitem previous "count" in
      let! previous_head := getitem previous "head_hash" in
      Ok (write_line (seal_entry key
        [("kind", PStr "reconcile"); ("epoch", PStr fresh); ("previous_epoch", epoch);
         ("previous_count", previous_count); ("previous_head_hash", previous_head); ("reason", PStr (strip reason));
         ("count", PInt count); ("head_hash", PStr head_hash); ("created_at", PStr now); ("key_id", PStr key_id);
         ("previous_seal", previous_seal); ("anchored_from", PInt count)]) j)
  end.

(** ** Appending *)

Definition by_id (t : list audit_row) : list audit_row := order_by (fun a b => (al_id a <=? al_id b)%Z) t.

(** [count - 1] for a number read from a checkpoint *)
Definition minus (v : pyval) (n : Z) : res Z :=
  match v with PInt z => Ok (z - n)%Z | PBool b => Ok ((if b then 1 else 0) - n)%Z | _ => Raise TypeError end.

(** the arguments of a [record_audit] call *)
Record audit_call := mk_call {
  actor_ref : string;
  action : string;
  tenant_id : option string;
  target_type : option string;
  target_id : option string;
  detail : option pyval
}.

Definition prev_hash_of (t : list audit_row) : string :=
  default GENESIS_HASH (last (by_id t) ≫= fun r => set_name (al_row_hash r)).

(** the retained checkpoint is a prefix of the table *)
Definition check_retained (checkpoint : option (list (string * pyval))) (t : list audit_row) : res unit :=
  match checkpoint with
  | Some ((_ :: _) as c) =>
      let! count := getitem c "count" in
      let! longer := py_gt count (PInt (Z.of_nat (length t))) in
      let! _ := throw_if longer (RuntimeError "Audit database is shorter than the retained checkpoint") in
      if truthy count then
        let! offset := minus count 1 in
        let anchored := by_id t !! Z.to_nat offset in
        let! head := match anchored with Some _ => getitem c "head_hash" | None => Ok PNone end in
        throw_if (match anchored with Some r => negb (py_eqb (nullable (al_row_hash r)) head) | None => true end)
          (RuntimeError "Audit database contradicts the retained checkpoint")
      else Ok tt
  | _ => Ok tt
  end.

Definition _append_row (v : environ) (now : string) (c : audit_call) (s : log) : res ((Z * string * option string) * log) :=
  let prev_hash := prev_hash_of (audit_logs s) in
  let previous_count := Z.of_nat (length (audit_logs s)) in
  let! ring := _audit_keyring v in
  let! checkpoint := latest_checkpoint v ring (journal s) in
  let! _ := check_retained checkpoint (audit_logs s) in
  let detail_json := encode_json <$> detail c in
  match _compute_row_hash CURRENT_HASH_VERSION prev_hash now (actor_ref c) (tenant_id c) (action c) (target_type c)
          (target_id c) detail_json with
  | None => Raise (RuntimeError "no audit hasher registered for version 1")
  | Some row_hash =>
      let! signature := _compute_row_hmac v row_hash in
      let row := mk_audit_row (sequence s + 1) now (actor_ref c) (tenant_id c) (action c) (target_type c) (target_id c)
        detail_json (Some prev_hash) (Some row_hash) (fst <$> signature) (snd <$> signature)
        (Some CURRENT_HASH_VERSION) in
      Ok ((previous_count + 1, row_hash, snd <$> signature)%Z,
          mk_log (audit_logs s ++ [row]) (sequence s + 1) (journal s))
  end.

(** the journal write after the commit *)
Definition after_commit (v : environ) (now fresh : string) (appended : Z * string * option string) (s : log) : res log :=
  let '(count, row_hash, hmac_key_id) := appended in
  match hmac_key_id with
  | None => Ok s
  | Some key_id =>
      let! ring := _audit_keyring v in
      let! key := ring_item key_id ring in
      let! j := append_checkpoint v now fresh count row_hash key_id key ring (journal s) in
      Ok (mk_log (audit_logs s) (sequence s) j)
  end.

(** one transaction with its calls: the rows commit together, then each writes
    its checkpoint.  The state is the one left behind, also when it raises. *)
Definition commit_unit (v : environ) (now now_iso fresh : string) (calls : list audit_call) (s : log) : log * res unit :=
  match rfold (fun acc c => let! r := _append_row v now c acc.2 in Ok (acc.1 ++ [r.1], r.2)) ([], s) calls with
  | Raise e => (s, Raise e)
  | Ok (appended, committed) =>
      foldl (fun acc a =>
        match acc with
        | (s, Raise e) => (s, Raise e)
        | (s, Ok _) => match after_commit v now_iso fresh a s with Ok s' => (s', Ok tt) | Raise e => (s, Raise e) end
        end) (committed, Ok tt) appended
  end.

Definition record_audit (v : environ) (now now_iso fresh : string) (c : audit_call) (s : log) : log * res unit :=
  commit_unit v now now_iso fresh [c] s.

(** ** Verifying *)

(** the hash the chain ends with, or the first entry that breaks it and why; past
    the comparison the row's own hash is the recomputed one *)
Fixpoint verify_rows (ring : list (string * string)) (expected_prev : string) (rows : list audit_row)
    : res (string + Z * string) :=
  match rows with
  | [] => Ok (inl expected_prev)
  | row :: rows =>
      let version := default CURRENT_HASH_VERSION (al_hash_version row) in
      match _compute_row_hash version expected_prev (al_created_at row) (al_actor_ref row) (al_tenant_id row)
              (al_action row) (al_target_type row) (al_target_id row) (al_detail row) with
      | None => Ok (inr (al_id row, "unknown hash version " +:+ pretty version))
      | Some recomputed =>
          if negb (bool_decide (al_prev_hash row = Some expected_prev) && bool_decide (al_row_hash row = Some recomputed))
          then Ok (inr (al_id row, "hash chain"))
          else if bool_decide (ring = []) then verify_rows ring recomputed rows
          else match al_row_hmac row with
               | None => Ok (inr (al_id row, "hmac missing"))
               | Some row_hmac =>
                   let key := assoc (default "legacy" (set_name (al_hmac_key_id row))) ring in
                   let! authentic := match key with
                     | None => Ok false | Some key => compare_digest (PStr row_hmac) (hmac_sha256 key recomputed) end in
                   if negb authentic then Ok (inr (al_id row, "hmac")) else verify_rows ring recomputed rows
               end
      end
  end.

Record verdict := mk_verdict {
  v_ok : bool;
  v_entries : nat;
  v_broken_at : option Z;
  v_reason : option string;
  v_chain_ok : bool;
  v_completeness_ok : option bool;
  v_checkpoint_status : option string;
  v_unanchored_entries : option Z;
  v_unanchored_before_checkpoint : option Z
}.

(** [rows\[i\]] *)
Definition py_index {A} (l : list A) (i : Z) : res A :=
  let i := if (i <? 0)%Z then (Z.of_nat (length l) + i)%Z else i in
  if (i <? 0)%Z then Raise IndexError
  else match l !! Z.to_nat i with Some x => Ok x | None => Raise IndexError end.

Definition day_limit : Z := 24 * 3600 * 1000000.

Definition is_fresh (now_dt : Z) (created_at : pyval) : res bool :=
  match created_at with
  | PStr s => match fromisoformat s with
              | None => Raise (ValueError "Invalid isoformat string")
              | Some t => match dt_offset t with
                          | None => Raise TypeError
                          | Some _ => Ok (now_dt - instant t <=? day_limit)%Z
                          end
              end
  | _ => Raise TypeError
  end.

(** a chain that verifies against the newest checkpoint *)
Definition verify_anchor (now_dt : Z) (rows : list audit_row) (head : string)
    (checkpoints : list (list (string * pyval))) (latest : list (string * pyval)) : res verdict :=
  let entries := length rows in
  let mismatch := mk_verdict false entries None (Some "checkpoint mismatch") true (Some false) (Some "mismatch") None None in
  let! count := getitem latest "count" in
  let! short := py_gt count (PInt (Z.of_nat entries)) in
  let differs (row_hash : pyval) := let! head_hash := getitem latest "head_hash" in Ok (negb (py_eqb row_hash head_hash)) in
  let! contradicted := if short : bool then Ok true
    else if py_eqb (PInt (Z.of_nat entries)) count then differs (PStr head) else Ok false in
  if contradicted : bool then Ok mismatch
  else
    let! behind := minus count 0 in
    let unanchored := (Z.of_nat entries - behind)%Z in
    let! broken := if (unanchored =? 0)%Z then Ok false
      else let! row := py_index rows (behind - 1) in differs (nullable (al_row_hash row)) in
    if broken : bool then Ok mismatch
    else
      let! created_at := getitem latest "created_at" in
      let! fresh := is_fresh now_dt created_at in
      let! from := getitem latest "anchored_from" in
      let! prior_unanchored := minus from 1 in
      let reconciled := existsb (fun c => py_eqb (get c "kind") (PStr "reconcile")) checkpoints in
      let current := fresh && (unanchored =? 0)%Z && (prior_unanchored =? 0)%Z && negb reconciled in
      Ok (mk_verdict true entries None None true (Some current)
        (Some (if negb (prior_unanchored =? 0)%Z || reconciled then "partial_history"
               else if current then "current" else "stale"))
        (Some unanchored) (Some prior_unanchored)).

Definition _verify_audit_chain_unlocked (v : environ) (now_dt : Z) (check_checkpoint : bool) (s : log) : res verdict :=
  let rows := by_id (audit_logs s) in
  let entries := length rows in
  let! ring := _audit_keyring v in
  let! chain := verify_rows ring GENESIS_HASH rows in
  match chain with
  | inr (broken_at, reason) =>
      Ok (mk_verdict false entries (Some broken_at) (Some reason) false None None None None)
  | inl head =>
      if negb check_checkpoint then Ok (mk_verdict true entries None None true None None None None)
      else
        let! read := read_checkpoints v ring (journal s) in
        let (checkpoints, checkpoint_error) := read : list (list (string * pyval)) * option string in
        if negb (match checkpoint_error with None => true | Some e => mem e ["unavailable"; "verification_key_unavailable"] end)
        then Ok (mk_verdict false entries None checkpoint_error true (Some false) (Some "invalid") None None)
        else match last checkpoints with
             | None => Ok (mk_verdict true entries None None true None
                             (Some (default "unavailable" checkpoint_error)) (Some (Z.of_nat entries)) None)
             | Some latest => verify_anchor now_dt rows head checkpoints latest
             end
  end.

Definition verify_audit_chain (v : environ) (now_dt : Z) (s : log) : res verdict :=
  _verify_audit_chain_unlocked v now_dt true s.

Definition validate_audit_at_startup (v : environ) (now_dt : Z) (s : log) : res unit :=
  let! _ := _audit_primary_id v in
  let! result := verify_audit_chain v now_dt s in
  throw_if (negb (v_ok result))
    (RuntimeError ("Audit integrity check failed at entry "
       +:+ match v_broken_at result with Some i => pretty i | None => "None" end
       +:+ ": " +:+ default "None" (v_reason result)
       +:+ ". Audit history was not repaired. Investigate tampering or missing verification keys.")).

Definition reconcile_audit_after_restore (v : environ) (now_dt : Z) (now_iso fresh reason expected_seal : string)
    (s : log) : log * res verdict :=
  let reconciled :=
    let! chain := _verify_audit_chain_unlocked v now_dt false s in
    let! _ := throw_if (negb (v_ok chain))
      (RuntimeError ("Restored audit chain is invalid: " +:+ default "None" (v_reason chain))) in
    let! primary := _audit_primary_id v in
    match primary with
    | None => Raise (RuntimeError "Audit HMAC key is required for checkpoint reconciliation")
    | Some primary =>
        let! head := match last (by_id (audit_logs s)) with
          | None => Ok GENESIS_HASH
          | Some r => match al_row_hash r with Some h => Ok h | None => Raise TypeError end end in
        let! ring := _audit_keyring v in
        let! key := ring_item primary ring in
        reconcile_checkpoint v now_iso fresh (Z.of_nat (v_entries chain)) head reason expected_seal primary key ring
          (journal s)
    end in
  match reconciled with
  | Raise e => (s, Raise e)
  | Ok j => let s := mk_log (audit_logs s) (sequence s) j in (s, verify_audit_chain v now_dt s)
  end.
End AuditLog.
