(* ===== verification/AuditGuarantees.v ===== *)
(** * What the audit log guarantees

    [honest ring s trail]: the log [s] was written by this code, from an empty
    database, under environments with the keys [ring]; [trail] lists the fields
    of the calls of the committed transactions. *)

From stdpp Require Import base list strings option pretty sets gmap.
From Stdlib Require Import ZArith QArith Lia Ascii.
From S2P Require Import Prelude Py Dates Json Sql Events Schema Requests IsoOrder JsonText AuditLog.

Open Scope nat_scope.

(** * What the audit log proves

    A log that verifies is determined by its length and its last hash; the log
    the platform writes always verifies and holds the calls made, in order; and
    nothing else passes verification against its journal. *)

Section Chain.
Context `{PyHost} `{Digest} `{Hmac}.

(** two different texts with one digest *)
Definition collision : Prop := exists x y : string, x <> y /\ sha256 x = sha256 y.

(** ** The hashed content of a row *)

Definition fields (r : audit_row) : list (option string) :=
  [Some (al_created_at r); Some (al_actor_ref r); al_tenant_id r; Some (al_action r); al_target_type r; al_target_id r;
   al_detail r].

Definition row_digest (prev : string) (r : audit_row) : string :=
  _hash_v1 prev (al_created_at r) (al_actor_ref r) (al_tenant_id r) (al_action r) (al_target_type r) (al_target_id r)
    (al_detail r).

Lemma row_digest_fields prev r :
  row_digest prev r = sha256 (encode_compact (PList (map (fun o => match o with Some s => PStr s | None => PNone end)
                                                         (Some prev :: fields r)))).
Proof. reflexivity. Qed.

Lemma row_digest_inj p q r s : row_digest p r = row_digest q s -> (p = q /\ fields r = fields s) \/ collision.
Proof.
  rewrite !row_digest_fields. intros E.
  destruct (decide (encode_compact (PList (map (fun o => match o with Some s => PStr s | None => PNone end)
                                               (Some p :: fields r))) =
                    encode_compact (PList (map (fun o => match o with Some s => PStr s | None => PNone end)
                                               (Some q :: fields s))))) as [Heq|Hne].
  - left. apply encode_fields_inj in Heq; [|done]. split; [|exact (f_equal tail Heq)].
    by injection (f_equal head Heq).
  - right. by eexists _, _.
Qed.

(** ** Chains *)

(** each row names the hash before it and its own *)
Fixpoint linked (h : string) (rows : list audit_row) : option string :=
  match rows with
  | [] => Some h
  | r :: rows =>
      if bool_decide (al_prev_hash r = Some h) && bool_decide (al_row_hash r = Some (row_digest h r))
      then linked (row_digest h r) rows else None
  end.

Lemma linked_app h t u : linked h (t ++ u) = linked h t ≫= fun m => linked m u.
Proof.
  revert h. induction t as [|r t IH]; intros h; [done|]. cbn [linked app].
  destruct (_ && _); [apply IH|done].
Qed.

Lemma linked_snoc h t r m : linked h (t ++ [r]) = Some m <->
  exists p, linked h t = Some p /\ al_prev_hash r = Some p /\ al_row_hash r = Some m /\ m = row_digest p r.
Proof.
  rewrite linked_app. destruct (linked h t) as [p|]; cbn [mbind option_bind linked].
  - split.
    + destruct (bool_decide _) eqn:Hp; cbn [andb]; [|done]. destruct (bool_decide (al_row_hash r = _)) eqn:Hr; [|done].
      apply bool_decide_eq_true in Hp, Hr. intros [= <-]. by exists p.
    + intros (q & [= <-] & Hp & Hr & ->). by rewrite !bool_decide_eq_true_2.
  - split; [done|]. by intros (q & ? & _).
Qed.

(** the last hash and the length determine every row *)
Lemma linked_inj t u m : length t = length u -> linked GENESIS_HASH t = Some m -> linked GENESIS_HASH u = Some m ->
  map fields t = map fields u \/ collision.
Proof.
  assert (forall g t u m, length t = length u -> linked g t = Some m -> linked g u = Some m ->
    map fields t = map fields u \/ collision) as Hgen; [|by apply Hgen].
  clear. intros g t. induction t as [|r t IH] using rev_ind; intros u m Hl Ht Hu.
  - destruct u; [by left|done].
  - destruct u as [|s u _] using rev_ind; [rewrite length_app in Hl; cbn in Hl; lia|].
    apply linked_snoc in Ht as (p & Ht & _ & _ & ->), Hu as (q & Hu & _ & _ & E).
    rewrite !length_app in Hl. cbn in Hl.
    destruct (row_digest_inj _ _ _ _ E) as [[-> Hf]|]; [|by right].
    destruct (IH u q ltac:(lia) Ht Hu) as [Hm|]; [|by right]. left. rewrite !map_app, Hm. cbn [map]. by rewrite Hf.
Qed.

Lemma linked_take h t m n : linked h t = Some m -> exists p, linked h (take n t) = Some p.
Proof.
  intros Hm. rewrite <-(take_drop n t), linked_app in Hm. destruct (linked h (take n t)); [by eexists|done].
Qed.

(** the hash a chain ends with is its last row's *)
Lemma linked_last h t m : linked h t = Some m -> t <> [] -> (last t ≫= al_row_hash) = Some m.
Proof.
  destruct t as [|r t _] using rev_ind; [done|]. intros (p & _ & _ & Hr & _)%linked_snoc _. by rewrite last_snoc.
Qed.

(** what verification checks of the chain *)
Lemma verify_rows_linked ring h rows m : verify_rows ring h rows = Ok (inl m) -> linked h rows = Some m.
Proof.
  revert h. induction rows as [|r rows IH]; intros h Hv; [by injection Hv as <-|].
  cbn [verify_rows] in Hv. unfold _compute_row_hash in Hv. destruct (_ =? 1)%Z; [|done]. cbn [linked].
  change (_hash_v1 h _ _ _ _ _ _ _) with (row_digest h r) in Hv. cbv beta iota in Hv.
  destruct (bool_decide (al_prev_hash r = Some h) && bool_decide (al_row_hash r = Some (row_digest h r))) eqn:E;
    cbn [negb] in Hv; [|done].
  destruct (bool_decide (ring = [])); [by apply IH|]. destruct (al_row_hmac r); [|done].
  apply rbind_Ok in Hv as ([] & _ & Hv); cbn [negb] in Hv; [by apply IH|done].
Qed.
End Chain.

(** ** Numbers and strings of a checkpoint *)

Lemma py_gt_int a b : py_gt (PInt a) (PInt b) = Ok (b <? a)%Z.
Proof.
  unfold py_gt, number, ext_ltb, ext_leb, Qle_bool, inject_Z. cbn [Qnum Qden]. rewrite !Z.mul_1_r.
  f_equal. by rewrite Z.ltb_antisym.
Qed.

Lemma py_eqb_int a b : py_eqb (PInt a) (PInt b) = (a =? b)%Z.
Proof.
  cbn [py_eqb]. unfold num_eqb, number, ext_leb, Qle_bool, inject_Z. cbn [Qnum Qden]. rewrite !Z.mul_1_r.
  apply eq_true_iff_eq. rewrite andb_true_iff, !Z.leb_le, Z.eqb_eq. lia.
Qed.

Lemma py_eqb_same s : py_eqb (PStr s) (PStr s) = true.
Proof. cbn [py_eqb]. apply String.eqb_refl. Qed.

Lemma order_by_snoc {A} (le : A -> A -> bool) t r :
  (forall x, x ∈ t -> le x r = true) -> order_by le (t ++ [r]) = order_by le t ++ [r].
Proof.
  intros Hle. induction t as [|x t IH]; [done|]. cbn [order_by foldr app]. unfold order_by in IH. rewrite IH by
    (intros y Hy; apply Hle; by right).
  specialize (Hle x (list_elem_of_here _ _)). change (foldr (order_insert le) [] t) with (order_by le t).
  generalize (order_by le t) as u. intros u. induction u as [|y u IHu]; cbn [order_insert app].
  - by rewrite Hle.
  - destruct (le x y); [done|]. by rewrite IHu.
Qed.

Section Keys.
Context `{PyHost} `{Digest} `{Hmac} (ring : list (string * string)).

(** the environment has the keys, signs with one of them and has a journal *)
Definition configured (v : environ) : Prop :=
  checkpoint_path v = true /\ _audit_keyring v = Ok ring /\ exists p, _audit_primary_id v = Ok (Some p).

Lemma set_name_Some o s : set_name o = Some s -> is_empty s = false.
Proof. destruct o as [x|]; cbn; [|done]. destruct (is_empty x) eqn:E; [done|]. by intros [= <-]. Qed.

Lemma primary_key v p : _audit_keyring v = Ok ring -> _audit_primary_id v = Ok (Some p) ->
  is_empty p = false /\ exists key, assoc p ring = Some key.
Proof.
  intros Hr Hp. unfold _audit_primary_id in Hp. rewrite Hr in Hp. cbn [rbind] in Hp.
  assert (forall k, has_item k ring = true -> exists key, assoc k ring = Some key) as Hitem.
  { intros k. unfold has_item. destruct (assoc k ring); [by eexists|done]. }
  destruct (set_name (NORINTH_AUDIT_HMAC_PRIMARY v)) as [q|] eqn:Eq.
  - apply rbind_Ok in Hp as (? & Ht%throw_if_Ok & [= <-]). split; [by eapply set_name_Some|].
    apply Hitem. by apply negb_false_iff.
  - apply rbind_Ok in Hp as (? & _ & Hp). destruct (has_item "legacy" ring) eqn:E; [|done].
    injection Hp as <-. split; [done|]. by apply Hitem.
Qed.

(** ** The journal *)

Definition seal_of (records : list (list (string * pyval))) : pyval :=
  match last records with Some r => get r "seal" | None => PStr ZERO_SEAL end.

Lemma assoc_popped (d : list (string * pyval)) : assoc "seal" (filter (fun kv => kv.1 <> "seal") d) = None.
Proof.
  induction d as [|[k x] d IH]; [done|]. rewrite filter_cons. case_decide as Hk; [|done].
  rewrite assoc_cons. cbn [fst] in Hk. destruct (String.eqb_spec k "seal"); [by subst|done].
Qed.

Lemma assoc_app_None {A} k (d e : list (string * A)) : assoc k d = None -> assoc k (d ++ e) = assoc k e.
Proof.
  induction d as [|[k' x] d IH]; [done|]. rewrite <-app_comm_cons, !assoc_cons. destruct (String.eqb k' k); [done|].
  apply IH.
Qed.

Lemma pop_seal_Ok v seal record : pop_seal v = Ok (seal, record) -> assoc "seal" record = None.
Proof.
  destruct v as [| | | | | |d]; cbn [pop_seal]; try done. destruct (assoc "seal" d); [|done].
  intros [= <- <-]. apply assoc_popped.
Qed.

Lemma seal_of_snoc records record seal :
  assoc "seal" record = None -> seal_of (records ++ [record ++ [("seal", seal)]]) = seal.
Proof.
  intros Hs. unfold seal_of, get. rewrite last_snoc, assoc_app_None by done. reflexivity.
Qed.

(** reading one more line *)
Lemma read_lines_snoc lines l records records' :
  read_lines ring records (seal_of records) lines = Ok (inl records') ->
  read_lines ring records (seal_of records) (lines ++ [l]) = read_lines ring records' (seal_of records') [l].
Proof.
  revert records. induction lines as [|x lines IH]; intros records Hr.
  - injection Hr as <-. done.
  - cbn [app]. revert Hr. cbn [read_lines]. destruct (loads x) as [value|]; cbn [rbind]; [|done].
    destruct (pop_seal value) as [[seal record]|] eqn:Epop; cbn [rbind]; [|done].
    destruct (getitem record "key_id") as [key_id|]; cbn [rbind]; [|done].
    destruct (ring_get ring key_id) as [[key|]|]; cbn [rbind]; try done.
    destruct (getitem record "previous_seal") as [claimed|]; cbn [rbind]; [|done].
    destruct (py_eqb claimed (seal_of records)); cbn [negb]; [|done].
    destruct (compare_digest seal _) as [[|]|]; cbn [rbind negb]; try done.
    destruct (follows (last records) record) as [[|]|]; cbn [rbind negb]; try done.
    apply pop_seal_Ok in Epop. intros Hr.
    pose proof (IH (records ++ [record ++ [("seal", seal)]])) as Hstep. rewrite seal_of_snoc in Hstep by done.
    by apply Hstep.
Qed.

(** ** Checkpoints this code wrote *)

Hypothesis hex : forall k m, is_ascii (hmac_sha256 k m) = true.

Record head := mk_head { h_epoch : string; h_count : Z; h_hash : string; h_time : Z; h_key_id : string; h_seal : string }.
Definition entry_of (h : head) : list (string * pyval) :=
  head_entry (PStr (h_epoch h)) (h_count h) (h_hash h) (clock_iso (h_time h)) (h_key_id h) (PStr (h_seal h)) (PInt 1).

(** the journal ends with the checkpoint [h] and reads without error *)
Definition ends_with (j : option journal_file) (h : head) : Prop :=
  exists lines records key,
    j = Some (mk_journal_file (lines ++ [Some (PDict (seal_entry key (entry_of h)))]) None) /\
    assoc (h_key_id h) ring = Some key /\ in_range (h_time h) = true /\
    read_lines ring [] (PStr ZERO_SEAL) (lines ++ [Some (PDict (seal_entry key (entry_of h)))]) =
      Ok (inl (records ++ [seal_entry key (entry_of h)])) /\
    Forall (fun r => get r "kind" = PStr "head") (records ++ [seal_entry key (entry_of h)]).

Lemma latest_of v j h : checkpoint_path v = true -> ends_with j h ->
  exists key, assoc (h_key_id h) ring = Some key /\
    latest_checkpoint v ring j = Ok (Some (seal_entry key (entry_of h))).
Proof.
  intros Hp (lines & records & key & -> & Hk & _). exists key. split; [done|]. unfold latest_checkpoint. rewrite Hp.
  destruct (lines ++ _) as [|l ls] eqn:E; [by destruct lines|].
  rewrite <-E, last_snoc. cbn [from_option id loads rbind].
  change (pop_seal (PDict (seal_entry key (entry_of h)))) with
    (Ok (PStr (hmac_sha256 key (_payload (entry_of h))), entry_of h)). cbn [rbind].
  change (getitem (entry_of h) "key_id") with (Ok (PStr (h_key_id h))). cbn [rbind ring_get]. rewrite Hk.
  cbn [rbind compare_digest]. rewrite !hex, String.eqb_refl. done.
Qed.

(** reading a line this code sealed *)
Lemma read_sealed records h key :
  assoc (h_key_id h) ring = Some key -> seal_of records = PStr (h_seal h) ->
  follows (last records) (entry_of h) = Ok true ->
  read_lines ring records (seal_of records) [Some (PDict (seal_entry key (entry_of h)))] =
    Ok (inl (records ++ [seal_entry key (entry_of h)])).
Proof.
  intros Hk Hs Hf. cbn [read_lines loads rbind].
  change (pop_seal (PDict (seal_entry key (entry_of h)))) with
    (Ok (PStr (hmac_sha256 key (_payload (entry_of h))), entry_of h)). cbn [rbind].
  change (getitem (entry_of h) "key_id") with (Ok (PStr (h_key_id h))). cbn [rbind ring_get]. rewrite Hk.
  change (getitem (entry_of h) "previous_seal") with (Ok (PStr (h_seal h))). cbn [rbind].
  rewrite Hs, py_eqb_same. cbn [negb compare_digest]. rewrite !hex, String.eqb_refl. cbn [andb rbind negb].
  rewrite Hf. done.
Qed.

(** the same epoch and a greater count follow *)
Lemma head_follows h h' key : h_epoch h' = h_epoch h -> (h_count h < h_count h')%Z ->
  follows (Some (seal_entry key (entry_of h))) (entry_of h') = Ok true.
Proof.
  intros He Hc. unfold follows. change (getitem (entry_of h') "epoch") with (Ok (PStr (h_epoch h'))).
  change (getitem (seal_entry key (entry_of h)) "epoch") with (Ok (PStr (h_epoch h))). cbn [rbind].
  change (get (entry_of h') "kind") with (PStr "head"). rewrite He, py_eqb_same. cbn [py_eqb negb].
  change (getitem (entry_of h') "count") with (Ok (PInt (h_count h'))).
  change (getitem (seal_entry key (entry_of h)) "count") with (Ok (PInt (h_count h))). cbn [rbind].
  rewrite py_gt_int. f_equal. by apply Z.ltb_lt.
Qed.

(** ** Logs whose first rows are anchored *)

Hypothesis digest_nonempty : forall x, is_empty (sha256 x) = false.

Definition hash_at (t : list audit_row) (n : nat) : option string := t !! (n - 1) ≫= al_row_hash.

(** the rows verify, and the newest checkpoint pins the first [n] of them *)
Record good (n : nat) (s : log) : Prop := {
  g_sorted : by_id (audit_logs s) = audit_logs s;
  g_ids : forall r, r ∈ audit_logs s -> (al_id r <= sequence s)%Z;
  g_chain : exists m, verify_rows ring GENESIS_HASH (audit_logs s) = Ok (inl m);
  g_anchor : (n = 0 /\ journal s = None) \/
    (0 < n <= length (audit_logs s) /\ exists h, ends_with (journal s) h /\ h_count h = Z.of_nat n /\
       hash_at (audit_logs s) n = Some (h_hash h))
}.

Lemma good_latest n s v : good n s -> configured v ->
  exists c, latest_checkpoint v ring (journal s) = Ok c /\ check_retained c (audit_logs s) = Ok tt.
Proof.
  intros [Hs _ _ Ha] (Hp & _). destruct Ha as [[-> Hj]|[Hn (h & Hj & Hc & Hh)]].
  - exists None. unfold latest_checkpoint. by rewrite Hp, Hj.
  - destruct (latest_of v _ h Hp Hj) as (key & _ & Hl). eexists. split; [exact Hl|].
    change (check_retained (Some (seal_entry key (entry_of h))) (audit_logs s)) with
      (let! longer := py_gt (PInt (h_count h)) (PInt (Z.of_nat (length (audit_logs s)))) in
       let! _ := throw_if longer (RuntimeError "Audit database is shorter than the retained checkpoint") in
       if truthy (PInt (h_count h)) then
         let! offset := minus (PInt (h_count h)) 1 in
         let anchored := by_id (audit_logs s) !! Z.to_nat offset in
         let! hd := match anchored with Some _ => Ok (PStr (h_hash h)) | None => Ok PNone end in
         throw_if (match anchored with Some r => negb (py_eqb (nullable (al_row_hash r)) hd) | None => true end)
           (RuntimeError "Audit database contradicts the retained checkpoint")
       else Ok tt).
    rewrite py_gt_int, Hs, Hc. cbn [rbind minus truthy]. rewrite (proj2 (Z.ltb_ge _ _)) by lia. cbn [throw_if rbind].
    destruct (negb _); [|done]. replace (Z.to_nat (Z.of_nat n - 1)) with (n - 1) by lia.
    unfold hash_at in Hh. destruct (audit_logs s !! (n - 1)) as [r|]; [|done]. cbn in Hh |- *. rewrite Hh.
    cbn [nullable]. by rewrite py_eqb_same.
Qed.

Lemma verify_rows_snoc g t r m p key : verify_rows ring g t = Ok (inl m) ->
  al_prev_hash r = Some m -> al_row_hash r = Some (row_digest m r) -> al_hash_version r = Some 1%Z ->
  al_hmac_key_id r = Some p -> is_empty p = false -> assoc p ring = Some key ->
  al_row_hmac r = Some (hmac_sha256 key (row_digest m r)) ->
  verify_rows ring g (t ++ [r]) = Ok (inl (row_digest m r)).
Proof.
  intros Ht Hp Hr Hv Hk Hne Hkey Hm. revert g Ht. induction t as [|x t IH]; intros g Ht.
  - injection Ht as ->. cbn [verify_rows app]. rewrite Hv. cbn [default from_option id]. unfold _compute_row_hash.
    cbn [Z.eqb Pos.eqb]. change (_hash_v1 m _ _ _ _ _ _ _) with (row_digest m r).
    rewrite Hp, Hr, !bool_decide_eq_true_2 by done. cbn [andb negb]. rewrite Hm, Hk. cbn [set_name]. rewrite Hne.
    cbn [default from_option id]. rewrite Hkey. destruct (bool_decide (ring = [])); [done|].
    cbn [compare_digest]. rewrite hex, String.eqb_refl. done.
  - cbn [verify_rows app] in Ht |- *. destruct (_compute_row_hash _ _ _ _ _ _ _ _ _) as [hash|]; [|done].
    destruct (negb _); [done|]. destruct (bool_decide (ring = [])); [by apply IH|].
    destruct (al_row_hmac x); [|done]. apply rbind_Ok in Ht as (ok & Hok & Ht). rewrite Hok. cbn [rbind].
    destruct (negb ok); [done|]. by apply IH.
Qed.

Lemma prev_hash_good t m : by_id t = t -> verify_rows ring GENESIS_HASH t = Ok (inl m) -> prev_hash_of t = m.
Proof.
  intros Hs Hv%verify_rows_linked. unfold prev_hash_of. rewrite Hs.
  destruct t as [|r t _] using rev_ind; [by injection Hv|].
  apply linked_snoc in Hv as (p & _ & _ & Hr & ->). rewrite last_snoc. cbn. rewrite Hr. cbn [set_name].
  by rewrite row_digest_fields, digest_nonempty.
Qed.

Lemma by_id_snoc t r : by_id t = t -> (forall x, x ∈ t -> (al_id x <= al_id r)%Z) -> by_id (t ++ [r]) = t ++ [r].
Proof.
  intros Hs Hle. unfold by_id in *. rewrite order_by_snoc, Hs; [done|]. intros x Hx. apply Z.leb_le. by apply Hle.
Qed.

(** the fields a call leaves in its row *)
Definition recorded (now : string) (c : audit_call) : list (option string) :=
  [Some now; Some (actor_ref c); tenant_id c; Some (action c); target_type c; target_id c; encode_json <$> detail c].

Lemma append_good n s v now c : good n s -> configured v ->
  exists p key h row,
    _append_row v now c s = Ok ((Z.of_nat (length (audit_logs s)) + 1)%Z, h, Some p,
                                mk_log (audit_logs s ++ [row]) (sequence s + 1) (journal s)) /\
    assoc p ring = Some key /\ al_row_hash row = Some h /\ fields row = recorded now c /\
    good n (mk_log (audit_logs s ++ [row]) (sequence s + 1) (journal s)).
Proof.
  intros Hg Hv. destruct (good_latest n s v Hg Hv) as (c0 & Hl & Hc0).
  destruct Hv as (_ & Hring & p & Hp). destruct (primary_key v p Hring Hp) as [Hne [key Hk]].
  destruct Hg as [Hs Hi [m Hm] Ha]. pose proof (prev_hash_good _ _ Hs Hm) as Hprev.
  set (h := _hash_v1 m now (actor_ref c) (tenant_id c) (action c) (target_type c) (target_id c) (encode_json <$> detail c)).
  set (row := mk_audit_row (sequence s + 1) now (actor_ref c) (tenant_id c) (action c) (target_type c) (target_id c)
    (encode_json <$> detail c) (Some m) (Some h) (Some (hmac_sha256 key h)) (Some p) (Some CURRENT_HASH_VERSION)).
  exists p, key, h, row. split; [|split; [done|split; [done|split; [done|]]]].
  - unfold _append_row. rewrite Hring. cbn [rbind]. rewrite Hl. cbn [rbind]. rewrite Hc0, Hprev. cbn [rbind].
    change (_compute_row_hash CURRENT_HASH_VERSION m now (actor_ref c) (tenant_id c) (action c) (target_type c)
      (target_id c) (encode_json <$> detail c)) with (Some h). unfold _compute_row_hmac. rewrite Hp, Hring.
    cbn [rbind]. unfold ring_item. rewrite Hk. done.
  - split; cbn [audit_logs sequence journal].
    + apply by_id_snoc; [done|]. intros x Hx%Hi. change (al_id row) with (sequence s + 1)%Z. lia.
    + intros r [Hr%Hi| ->%list_elem_of_singleton]%elem_of_app; [lia|]. change (al_id row) with (sequence s + 1)%Z. lia.
    + exists h. by apply (verify_rows_snoc _ _ row m p key).
    + destruct Ha as [Ha|[Hn (hd & Hj & Hc & Hh)]]; [by left|]. right. rewrite length_app. split; [lia|].
      exists hd. split; [done|]. split; [done|]. unfold hash_at in *. rewrite lookup_app_l by lia. done.
Qed.

(** ** Writing the checkpoint *)

Definition checkpointed (v : environ) (h : head) (key : string) (j : option journal_file) : option journal_file :=
  write_line (seal_entry key (entry_of h)) j.

Lemma first_checkpoint v t fresh hash p key :
  configured v -> in_range t = true -> assoc p ring = Some key ->
  exists h, append_checkpoint v (clock_iso t) fresh 1 hash p key ring None = Ok (checkpointed v h key None) /\
    ends_with (checkpointed v h key None) h /\ h_count h = 1%Z /\ h_hash h = hash /\ h_time h = t.
Proof.
  intros (Hp & _) Ht Hk. exists (mk_head fresh 1 hash t p ZERO_SEAL). split; [|split; [|done]].
  - unfold append_checkpoint, latest_checkpoint. rewrite Hp. reflexivity.
  - exists [], [], key. split; [done|]. split; [done|]. split; [done|]. split; [|by repeat constructor].
    cbn [app]. by apply (read_sealed [] (mk_head fresh 1 hash t p ZERO_SEAL)).
Qed.

Lemma next_checkpoint v t fresh c hash p key j h :
  configured v -> in_range t = true -> assoc p ring = Some key -> ends_with j h -> (h_count h < c)%Z ->
  exists h', append_checkpoint v (clock_iso t) fresh c hash p key ring j = Ok (checkpointed v h' key j) /\
    ends_with (checkpointed v h' key j) h' /\ h_count h' = c /\ h_hash h' = hash /\ h_time h' = t.
Proof.
  intros (Hp & _) Ht Hk Hj Hc. destruct (latest_of v j h Hp Hj) as (key0 & Hk0 & Hl).
  destruct Hj as (lines & records & key1 & -> & Hk1 & _ & Hread & Hkind).
  rewrite Hk0 in Hk1. injection Hk1 as <-.
  set (h' := mk_head (h_epoch h) c hash t p (hmac_sha256 key0 (_payload (entry_of h)))).
  exists h'. split; [|split; [|done]].
  - unfold append_checkpoint. rewrite Hp. cbn [negb]. rewrite Hl. cbn [rbind].
    change (seal_entry key0 (entry_of h)) with
      (("kind", PStr "head") :: tail (seal_entry key0 (entry_of h))) at 1 2 3 4.
    change (getitem (("kind", PStr "head") :: tail (seal_entry key0 (entry_of h))) "count") with
      (Ok (PInt (h_count h))). cbn [rbind].
    rewrite py_gt_int, (proj2 (Z.ltb_lt _ _)) by done. reflexivity.
  - exists (lines ++ [Some (PDict (seal_entry key0 (entry_of h)))]), (records ++ [seal_entry key0 (entry_of h)]), key.
    split; [done|]. split; [done|]. split; [done|]. split.
    + change (PStr ZERO_SEAL) with (seal_of []) in Hread |- *. rewrite (read_lines_snoc _ _ _ _ Hread).
      apply (read_sealed _ h'); [done|by apply seal_of_snoc|]. rewrite last_snoc. by apply head_follows.
    + apply Forall_app. split; [done|]. by repeat constructor.
Qed.

(** the journal ends with a checkpoint written at [t] *)
Definition written_at (j : option journal_file) (t : Z) : Prop := exists h, ends_with j h /\ h_time h = t.

Lemma written_unique j t t' : written_at j t -> written_at j t' -> t = t'.
Proof.
  intros (h & (lines & records & key & -> & _ & Ht & _) & <-) (h' & (lines' & records' & key' & Hj & _ & Ht' & _) & <-).
  injection Hj as Hj. apply app_inj_tail in Hj as [_ Hj]. injection Hj as _ _ _ Hiso _.
  apply (f_equal fromisoformat) in Hiso. unfold clock_iso in Hiso. rewrite !iso_roundtrip in Hiso by done.
  by injection Hiso.
Qed.

(** the checkpoint of the next row *)
Lemma after_commit_good n s v t fresh hash p key :
  good n s -> configured v -> in_range t = true -> n < length (audit_logs s) ->
  hash_at (audit_logs s) (S n) = Some hash -> assoc p ring = Some key ->
  exists j, after_commit v (clock_iso t) fresh (Z.of_nat (S n), hash, Some p) s =
              Ok (mk_log (audit_logs s) (sequence s) j) /\ good (S n) (mk_log (audit_logs s) (sequence s) j) /\ written_at j t.
Proof.
  intros [Hs Hi Hm Ha] Hv Ht Hn Hh Hk.
  assert (exists h j, append_checkpoint v (clock_iso t) fresh (Z.of_nat (S n)) hash p key ring (journal s) = Ok j /\
    ends_with j h /\ h_count h = Z.of_nat (S n) /\ h_hash h = hash /\ h_time h = t) as (h & j & Hj & Hend & Hc & Hhash & Htime).
  { destruct Ha as [[-> Hj]|[_ (h & Hj & Hc & _)]].
    - rewrite Hj. destruct (first_checkpoint v t fresh hash p key Hv Ht Hk) as (h & ? & ? & ? & ? & ?). by eexists h, _.
    - destruct (next_checkpoint v t fresh (Z.of_nat (S n)) hash p key _ h Hv Ht Hk Hj ltac:(lia)) as (h' & ? & ? & ? & ? & ?).
      by eexists h', _. }
  exists j. split.
  - destruct Hv as (_ & Hring & _). cbn [after_commit]. rewrite Hring. cbn [rbind]. unfold ring_item. rewrite Hk.
    cbn [rbind]. by rewrite Hj.
  - split; [|by exists h]. split; try done. right. cbn [audit_logs journal]. split; [lia|]. exists h. by rewrite Hhash.
Qed.

(** ** A transaction's calls *)

(** the appended rows that still need their checkpoint *)
Fixpoint pending (n : nat) (l : list (Z * string * option string)) (rows : list audit_row) : Prop :=
  match l with
  | [] => n = length rows
  | a :: l =>
      n < length rows /\
      (exists hash p key, a = (Z.of_nat (S n), hash, Some p) /\ hash_at rows (S n) = Some hash /\
         assoc p ring = Some key) /\
      pending (S n) l rows
  end.

Lemma pending_snoc n l rows row h p key :
  pending n l rows -> al_row_hash row = Some h -> assoc p ring = Some key ->
  pending n (l ++ [((Z.of_nat (length rows) + 1)%Z, h, Some p)]) (rows ++ [row]).
Proof.
  intros Hl Hr Hk. revert n Hl. induction l as [|a l IH]; intros n Hl; cbn [app pending] in *.
  - subst n. rewrite length_app. cbn [length]. split; [lia|]. split; [|lia]. exists h, p, key.
    split; [repeat f_equal; lia|]. split; [|done]. unfold hash_at.
    replace (S (length rows) - 1) with (length rows + 0) by lia. rewrite lookup_app_r by lia.
    replace (length rows + 0 - length rows) with 0 by lia. exact Hr.
  - destruct Hl as (Hn & (hash & q & key' & -> & Hh & Hq) & Hl). split; [rewrite length_app; lia|].
    split; [|by apply IH]. exists hash, q, key'. split; [done|]. split; [|done].
    unfold hash_at in *. by rewrite lookup_app_l by lia.
Qed.

Definition append_all (v : environ) (now : string) :=
  rfold (fun acc c => let! r := _append_row v now c acc.2 in Ok (acc.1 ++ [r.1], r.2)).

Lemma append_all_good n s v now calls l : good n s -> configured v -> pending n l (audit_logs s) ->
  exists l' s', append_all v now (l, s) calls = Ok (l', s') /\ good n s' /\ pending n l' (audit_logs s') /\
    map fields (audit_logs s') = map fields (audit_logs s) ++ map (recorded now) calls.
Proof.
  intros Hg Hv. revert s l Hg. induction calls as [|c calls IH]; intros s l Hg Hl.
  - exists l, s. cbn [map]. by rewrite app_nil_r.
  - destruct (append_good n s v now c Hg Hv) as (p & key & h & row & Ha & Hk & Hr & Hf & Hg').
    unfold append_all in *. cbn [rfold]. cbn [snd]. rewrite Ha. cbn [rbind fst snd].
    destruct (IH _ (l ++ [((Z.of_nat (length (audit_logs s)) + 1)%Z, h, Some p)]) Hg') as (l' & s' & Hs' & ? & ? & Hm).
    + by eapply pending_snoc.
    + exists l', s'. split; [exact Hs'|]. split; [done|]. split; [done|]. rewrite Hm. cbn [audit_logs map].
      rewrite map_app, <-app_assoc. cbn [map app]. by rewrite Hf.
Qed.

Lemma after_commits_good v t fresh l n s : configured v -> in_range t = true -> good n s -> pending n l (audit_logs s) ->
  exists s', foldl (fun acc a =>
      match acc with
      | (s, Raise e) => (s, Raise e)
      | (s, Ok _) => match after_commit v (clock_iso t) fresh a s with Ok s' => (s', Ok tt) | Raise e => (s, Raise e) end
      end) (s, Ok tt) l = (s', Ok tt) /\
    good (length (audit_logs s)) s' /\ audit_logs s' = audit_logs s /\
    (l <> [] \/ written_at (journal s) t -> written_at (journal s') t).
Proof.
  intros Hv Ht. revert n s. induction l as [|a l IH]; intros n s Hg Hl; cbn [foldl pending] in *.
  - subst n. exists s. split; [done|]. split; [done|]. split; [done|]. by intros [?|?].
  - destruct Hl as (Hn & (hash & p & key & -> & Hh & Hk) & Hl).
    destruct (after_commit_good n s v t fresh hash p key Hg Hv Ht Hn Hh Hk) as (j & Ha & Hg' & Hw). rewrite Ha.
    destruct (IH (S n) _ Hg' Hl) as (s' & Hs' & Hgood & Hsame & Hws). exists s'. split; [done|]. split; [done|].
    split; [done|]. intros _. apply Hws. by right.
Qed.

Lemma commit_good s v now t fresh calls :
  good (length (audit_logs s)) s -> configured v -> in_range t = true ->
  exists s', commit_unit v now (clock_iso t) fresh calls s = (s', Ok tt) /\
    good (length (audit_logs s')) s' /\
    map fields (audit_logs s') = map fields (audit_logs s) ++ map (recorded now) calls /\
    (calls <> [] -> written_at (journal s') t).
Proof.
  intros Hg Hv Ht. destruct (append_all_good _ s v now calls [] Hg Hv eq_refl) as (l & s1 & Ha & Hg1 & Hl & Hm).
  destruct (after_commits_good v t fresh l _ s1 Hv Ht Hg1 Hl) as (s' & Hs' & Hg' & Hsame & Hw).
  exists s'. unfold commit_unit. unfold append_all in Ha. rewrite Ha. split; [exact Hs'|].
  rewrite Hsame. split; [done|]. split; [done|]. intros Hne. apply Hw. left. intros ->. cbn [pending] in Hl.
  apply (f_equal length) in Hm. rewrite length_app, !length_map, <-Hl in Hm. by destruct calls; [|cbn in Hm; lia].
Qed.

(** ** Honest logs *)

Inductive honest : log -> list (list (option string)) -> Prop :=
| honest_start : honest (mk_log [] 0 None) []
| honest_commit v now t fresh calls s s' trail :
    honest s trail -> configured v -> in_range t = true ->
    commit_unit v now (clock_iso t) fresh calls s = (s', Ok tt) -> honest s' (trail ++ map (recorded now) calls).

Lemma good_start : good 0 (mk_log [] 0 None).
Proof.
  split; cbn [audit_logs sequence journal]; [done|by intros r ?%elem_of_nil| |by left]. by exists GENESIS_HASH.
Qed.

Lemma honest_good s trail : honest s trail ->
  good (length (audit_logs s)) s /\ map fields (audit_logs s) = trail.
Proof.
  induction 1 as [|v now t fresh calls s s' trail _ [Hg Hm] Hv Ht Hc]; [split; [exact good_start|done]|].
  destruct (commit_good s v now t fresh calls Hg Hv Ht) as (s1 & Hs1 & Hg1 & Hm1 & _).
  rewrite Hc in Hs1. injection Hs1 as <-. split; [done|]. by rewrite Hm1, Hm.
Qed.

(** ** Verification against the newest checkpoint *)

Lemma read_good v j h : configured v -> ends_with j h ->
  exists records key, read_checkpoints v ring j = Ok (records ++ [seal_entry key (entry_of h)], None) /\
    Forall (fun r => get r "kind" = PStr "head") (records ++ [seal_entry key (entry_of h)]).
Proof.
  intros (Hp & Hring & p & Hpr) (lines & records & key & -> & Hk & _ & Hread & Hkind). exists records, key.
  split; [|done]. unfold read_checkpoints. rewrite Hp. destruct (primary_key v p Hring Hpr) as [_ [key' Hk']].
  case_bool_decide as Hr; [by rewrite Hr in Hk'|]. unfold all_lines. cbn [jf_lines jf_tail]. rewrite app_nil_r, Hread.
  by destruct records.
Qed.

Lemma no_reconcile records : Forall (fun r => get r "kind" = PStr "head") records ->
  existsb (fun c => py_eqb (get c "kind") (PStr "reconcile")) records = false.
Proof. induction 1 as [|r records Hr _ IH]; [done|]. cbn [existsb]. by rewrite Hr, IH. Qed.

Lemma hash_at_length t m : t <> [] -> linked GENESIS_HASH t = Some m -> hash_at t (length t) = Some m.
Proof.
  intros Hne Hm. pose proof (linked_last _ _ _ Hm Hne) as Hl. unfold hash_at.
  destruct t as [|r t _] using rev_ind; [done|]. rewrite last_snoc in Hl. rewrite length_app. cbn [length].
  rewrite lookup_app_r by lia. by replace (length t + 1 - 1 - length t) with 0 by lia.
Qed.

Lemma fresh_of now_dt t : in_range t = true -> is_fresh now_dt (PStr (clock_iso t)) = Ok (now_dt - t <=? day_limit)%Z.
Proof.
  intros Ht. unfold is_fresh, clock_iso. rewrite iso_roundtrip by done. cbn [dt_offset instant dt_local default].
  unfold instant. cbn [dt_local dt_offset default from_option id]. by rewrite Z.sub_0_r.
Qed.

Lemma py_eqb_nullable o s : py_eqb (nullable o) (PStr s) = bool_decide (o = Some s).
Proof.
  destruct o as [x|]; cbn [nullable py_eqb].
  - destruct (String.eqb_spec x s) as [->|Hne]; symmetry; [by apply bool_decide_eq_true|].
    apply bool_decide_eq_false. congruence.
  - done.
Qed.

Lemma py_eqb_str_decide x s : py_eqb (PStr x) (PStr s) = bool_decide (x = s).
Proof.
  change (py_eqb (PStr x) (PStr s)) with (py_eqb (nullable (Some x)) (PStr s)). rewrite py_eqb_nullable.
  apply bool_decide_ext. naive_solver.
Qed.

Lemma py_index_at {A} (l : list A) i : (0 <= i < Z.of_nat (length l))%Z ->
  py_index l i = match l !! Z.to_nat i with Some x => Ok x | None => Raise IndexError end.
Proof. intros Hi. unfold py_index. by rewrite (proj2 (Z.ltb_ge i 0)), (proj2 (Z.ltb_ge i 0)) by lia. Qed.

(** a table verified against a checkpoint *)
Lemma verify_against v now_dt t seq j h :
  configured v -> ends_with j h -> (0 < h_count h)%Z ->
  verify_audit_chain v now_dt (mk_log t seq j) =
  (let! chain := verify_rows ring GENESIS_HASH (by_id t) in
   let entries := length (by_id t) in
   match chain with
   | inr (broken_at, reason) => Ok (mk_verdict false entries (Some broken_at) (Some reason) false None None None None)
   | inl m =>
       let n := Z.to_nat (h_count h) in
       let pinned := if decide (entries = n) then bool_decide (m = h_hash h)
                     else bool_decide (hash_at (by_id t) n = Some (h_hash h)) in
       if bool_decide (n <= entries) && pinned
       then let current := ((now_dt - h_time h <=? day_limit)%Z && bool_decide (entries = n)) in
            Ok (mk_verdict true entries None None true (Some current)
                  (Some (if current then "current" else "stale")) (Some (Z.of_nat entries - h_count h)%Z) (Some 0%Z))
       else Ok (mk_verdict false entries None (Some "checkpoint mismatch") true (Some false) (Some "mismatch") None None)
   end).
Proof.
  intros Hv Hj Hc. unfold verify_audit_chain, _verify_audit_chain_unlocked. cbn [audit_logs journal].
  pose proof Hv as (_ & Hring & _). rewrite Hring. cbn [rbind].
  destruct (verify_rows ring GENESIS_HASH (by_id t)) as [[m|[b r]]|]; cbn [rbind negb]; [|done|done].
  destruct (read_good v j h Hv Hj) as (records & key & Hread & Hkind). rewrite Hread. cbn [rbind negb].
  rewrite last_snoc. unfold verify_anchor. set (rows := by_id t).
  change (getitem (seal_entry key (entry_of h)) "count") with (Ok (PInt (h_count h))).
  change (getitem (seal_entry key (entry_of h)) "head_hash") with (Ok (PStr (h_hash h))).
  change (getitem (seal_entry key (entry_of h)) "created_at") with (Ok (PStr (clock_iso (h_time h)))).
  change (getitem (seal_entry key (entry_of h)) "anchored_from") with (Ok (PInt 1)).
  destruct Hj as (? & ? & ? & _ & _ & Ht & _). rewrite no_reconcile by done.
  cbn [rbind minus]. rewrite fresh_of by done. rewrite py_gt_int, py_eqb_int. cbn [rbind].
  rewrite !Z.sub_0_r. change (1 - 1 =? 0)%Z with true. cbn [negb orb]. rewrite !andb_true_r.
  destruct (Z.lt_trichotomy (Z.of_nat (length rows)) (h_count h)) as [Hlt|[Heq|Hgt]].
  - rewrite (proj2 (Z.ltb_lt _ _)), (bool_decide_eq_false_2 (_ <= _)) by lia. done.
  - rewrite (proj2 (Z.ltb_ge _ _)), (proj2 (Z.eqb_eq _ _) Heq) by lia. cbn [rbind].
    rewrite (bool_decide_eq_true_2 (_ <= _)) by lia. rewrite decide_True, (bool_decide_eq_true_2 (length rows = _)) by lia.
    rewrite py_eqb_str_decide. rewrite Heq, Z.sub_diag. cbn [Z.eqb andb].
    destruct (bool_decide (m = h_hash h)); cbn [negb rbind]; [|done]. by rewrite andb_true_r.
  - rewrite (proj2 (Z.ltb_ge _ _)), (proj2 (Z.eqb_neq _ _)) by lia. cbn [rbind].
    rewrite (bool_decide_eq_true_2 (_ <= _)) by lia. rewrite decide_False, (bool_decide_eq_false_2 (length rows = _)) by lia.
    rewrite (proj2 (Z.eqb_neq (Z.of_nat (length rows) - h_count h) 0)) by lia. rewrite py_index_at by lia.
    unfold hash_at. replace (Z.to_nat (h_count h - 1)) with (Z.to_nat (h_count h) - 1) by lia.
    destruct (lookup_lt_is_Some_2 rows (Z.to_nat (h_count h) - 1)) as [r Hr]; [lia|]. rewrite Hr. cbn [rbind mbind option_bind].
    rewrite py_eqb_nullable. destruct (bool_decide (al_row_hash r = Some (h_hash h))); cbn [negb andb]; [|done].
    by rewrite andb_false_r.
Qed.

(** the newest checkpoint of an honest log pins all of it *)
Lemma honest_anchor s trail : honest s trail -> trail <> [] ->
  exists h, ends_with (journal s) h /\ h_count h = Z.of_nat (length trail) /\
    length (audit_logs s) = length trail /\ map fields (audit_logs s) = trail /\
    by_id (audit_logs s) = audit_logs s /\ verify_rows ring GENESIS_HASH (audit_logs s) = Ok (inl (h_hash h)) /\
    linked GENESIS_HASH (audit_logs s) = Some (h_hash h).
Proof.
  intros Hh Hne. destruct (honest_good s trail Hh) as [[Hs _ [m Hm] Ha] Hf].
  assert (length (audit_logs s) = length trail) as Hl by (by rewrite <-Hf, length_map).
  destruct Ha as [[H0' _]|[Hn (h & Hj & Hc & Hat)]]; [by destruct trail; [|cbn in Hl; lia]|].
  exists h. rewrite Hc, Hl. pose proof (verify_rows_linked _ _ _ _ Hm) as Hlink.
  rewrite (hash_at_length _ m) in Hat; [|by intros E; rewrite E in Hn; cbn in Hn; lia|done]. injection Hat as ->. done.
Qed.

(** C16. The stored log refines the abstract append-only trail: committing the
    calls of a transaction never fails, appends exactly their fields, in order,
    and leaves everything recorded before untouched. *)
Theorem recording_appends s trail v now t fresh calls :
  honest s trail -> configured v -> in_range t = true ->
  exists s', commit_unit v now (clock_iso t) fresh calls s = (s', Ok tt) /\
    honest s' (trail ++ map (recorded now) calls) /\
    map fields (audit_logs s') = trail ++ map (recorded now) calls.
Proof.
  intros Hh Hv Ht. destruct (honest_good s trail Hh) as [Hg Hf].
  destruct (commit_good s v now t fresh calls Hg Hv Ht) as (s' & Hc & _ & Hm & _).
  exists s'. split; [done|]. split; [by econstructor|]. by rewrite Hm, Hf.
Qed.

(** C17. The log the platform writes always verifies.  After any history of
    transactions, each under keys of the ring, and one more that records
    something at time [t]: the check under any of these keys reports no error,
    counts every entry, finds none beyond the newest checkpoint, and calls the
    log current when it runs at most a day after [t] and stale when later. *)
Theorem honest_log_verifies s trail v now t fresh calls s' v' now_dt :
  honest s trail -> configured v -> in_range t = true -> calls <> [] ->
  commit_unit v now (clock_iso t) fresh calls s = (s', Ok tt) -> configured v' ->
  exists verdict, verify_audit_chain v' now_dt s' = Ok verdict /\
    v_ok verdict = true /\ v_entries verdict = length trail + length calls /\
    v_unanchored_entries verdict = Some 0%Z /\ v_unanchored_before_checkpoint verdict = Some 0%Z /\
    v_checkpoint_status verdict = Some (if (now_dt - t <=? 24 * 3600 * 1000000)%Z then "current" else "stale").
Proof.
  intros Hh Hv Ht Hcalls Hc Hv'. assert (honest s' (trail ++ map (recorded now) calls)) as Hh' by exact (honest_commit v now t fresh calls s s' trail Hh Hv Ht Hc).
  destruct (honest_good s trail Hh) as [Hg _]. destruct (commit_good s v now t fresh calls Hg Hv Ht) as (s1 & Hs1 & _ & _ & Hw).
  rewrite Hc in Hs1. injection Hs1 as <-. specialize (Hw Hcalls).
  assert (0 < length calls) as Hpos by (destruct calls; [done|cbn; lia]).
  destruct (honest_anchor s' _ Hh') as (h & Hj & Hn & Hl & _ & Hs & Hm & Hlink).
  { intros E%app_eq_nil. destruct calls; naive_solver. }
  rewrite length_app, length_map in Hn, Hl. assert (h_time h = t) as Hat by (eapply written_unique; [by exists h|exact Hw]).
  destruct s' as [rows seq j]. cbn [audit_logs journal] in *. rewrite (verify_against v' now_dt rows seq j h) by (done || lia).
  rewrite Hs, Hm. cbn [rbind]. rewrite Hl, Hn. rewrite (bool_decide_eq_true_2 (_ <= _)), decide_True by lia.
  rewrite !bool_decide_eq_true_2 by (done || lia). cbn [andb]. eexists. split; [done|].
  cbn. rewrite andb_true_r, Hat. repeat split; f_equal; lia.
Qed.

(** C15. No tampering with the database passes verification: whatever rows
    replace the log while its journal is kept, if the check reports no error
    then the log still starts with every entry ever committed, in order and
    unchanged - or two texts with one SHA-256 digest have been exhibited.  Edits,
    deletions, insertions, reordering and truncation are all covered. *)
Theorem tampering_is_detected s trail v now_dt t seq verdict :
  honest s trail -> configured v -> trail <> [] ->
  verify_audit_chain v now_dt (mk_log t seq (journal s)) = Ok verdict -> v_ok verdict = true ->
  take (length trail) (map fields (by_id t)) = trail \/ collision.
Proof.
  intros Hh Hv Hne Hver Hok. destruct (honest_anchor s trail Hh Hne) as (h & Hj & Hc & Hl & Hf & _ & _ & Hlink).
  assert (0 < length trail) as Hpos by (destruct trail; [done|cbn; lia]).
  rewrite (verify_against v now_dt t seq _ h) in Hver by (done || lia).
  apply rbind_Ok in Hver as ([m|[b r]] & Hm & Hver); [|by injection Hver as <-].
  replace (Z.to_nat (h_count h)) with (length trail) in Hver by lia. cbv zeta in Hver.
  destruct (bool_decide (length trail <= length (by_id t)) && _) eqn:Hpin in Hver; [|by injection Hver as <-].
  apply andb_true_iff in Hpin as [Hle%bool_decide_eq_true Hpin].
  apply verify_rows_linked in Hm. destruct (linked_take _ _ _ (length trail) Hm) as [p Hp].
  assert (p = h_hash h) as ->.
  { case_decide as Hlen.
    - apply bool_decide_eq_true in Hpin. rewrite take_ge in Hp by lia. congruence.
    - apply bool_decide_eq_true in Hpin. assert (take (length trail) (by_id t) <> []) as Hnil.
      { intros E. apply (f_equal length) in E. rewrite length_take in E. cbn in E. lia. }
      pose proof (hash_at_length _ _ Hnil Hp) as Hat. rewrite length_take in Hat. unfold hash_at in Hat, Hpin.
      rewrite lookup_take_lt in Hat by lia. replace (length trail `min` length (by_id t)) with (length trail) in Hat by lia.
      congruence. }
  destruct (linked_inj (take (length trail) (by_id t)) (audit_logs s) (h_hash h)) as [Heq|]; [|done|done| |by right].
  - rewrite length_take. lia.
  - left. rewrite <-Hf at 2. rewrite <-Heq. by rewrite firstn_map.
Qed.
End Keys.

(** ** A log of three calls *)

Module Demo.
#[export] Instance host : PyHost :=
  {| repr _ := "?"; str_int _ := Raise TypeError; str_float _ := Raise TypeError |}.
#[export] Instance digest : Digest := fun s => "h" +:+ pretty (String.length s) +:+ String.substring 0 40 (replace_char "\" "/" s).
(** a toy signature: the length of the message, in digits *)
#[export] Instance hmac : Hmac := fun k m => String.concat "" (repeat "a" (String.length k + String.length m)).

Lemma hex k m : is_ascii (hmac_sha256 k m) = true.
Proof.
  unfold hmac_sha256, hmac. generalize (String.length k + String.length m). intros n.
  assert (forall s, is_ascii s = true -> is_ascii ("a" +:+ s) = true) as Hs by done.
  induction n as [|n IH]; [done|]. destruct n; [done|]. exact (Hs _ IH).
Qed.
Lemma nonempty x : is_empty (sha256 x) = false.
Proof. reflexivity. Qed.

Definition ring : list (string * string) := [("legacy", "s3cret")].
Definition env : environ := mk_environ (Some "s3cret") None None true.
Lemma env_ok : configured ring env.
Proof. split; [done|]. split; [done|]. by exists "legacy". Qed.

Definition noon : Z := match fromisoformat "2026-03-01T12:00:00+00:00" with Some t => instant t | None => 0 end.
Definition login : audit_call := mk_call "ann" "login" (Some "acme") None None None.
Definition approve : audit_call := mk_call "bob" "gate.approve" (Some "acme") (Some "gate") (Some "g1") (Some (PDict [("tier", PStr "high")])).

Definition first : log := (commit_unit env "2026-03-01 12:00:00" (clock_iso noon) "epoch-1" [login] (mk_log [] 0 None)).1.
Definition both : log := (commit_unit env "2026-03-01 12:00:05" (clock_iso noon) "epoch-2" [approve; login] first).1.
Definition trail : list (list (option string)) :=
  [recorded "2026-03-01 12:00:00" login; recorded "2026-03-01 12:00:05" approve; recorded "2026-03-01 12:00:05" login].

Lemma first_commits : commit_unit env "2026-03-01 12:00:00" (clock_iso noon) "epoch-1" [login] (mk_log [] 0 None) = (first, Ok tt).
Proof. vm_compute. reflexivity. Qed.
Lemma both_commits : commit_unit env "2026-03-01 12:00:05" (clock_iso noon) "epoch-2" [approve; login] first = (both, Ok tt).
Proof. vm_compute. reflexivity. Qed.
Lemma noon_in_range : in_range noon = true.
Proof. vm_compute. reflexivity. Qed.

Lemma first_is_honest : honest ring first [recorded "2026-03-01 12:00:00" login].
Proof.
  exact (honest_commit ring env "2026-03-01 12:00:00" noon "epoch-1" [login] _ first [] (honest_start ring) env_ok
           noon_in_range first_commits).
Qed.

Lemma is_honest : honest ring both trail.
Proof.
  refine (honest_commit ring env "2026-03-01 12:00:05" noon "epoch-2" [approve; login] first both [_] _ env_ok
            noon_in_range both_commits). exact first_is_honest.
Qed.

Lemma both_verifies : exists verdict,
  verify_audit_chain env noon (mk_log (audit_logs both) 3 (journal both)) = Ok verdict /\ v_ok verdict = true.
Proof. eexists. vm_compute. split; reflexivity. Qed.

(** dropping the last entry is noticed *)
Example truncation_noticed : exists verdict,
  verify_audit_chain env noon (mk_log (take 2 (audit_logs both)) 3 (journal both)) = Ok verdict /\
  v_reason verdict = Some "checkpoint mismatch".
Proof. eexists. vm_compute. split; reflexivity. Qed.

(** the last seal of the journal, and the database restored empty against it *)
Definition last_seal : string :=
  match latest_checkpoint env ring (journal both) with
  | Ok (Some c) => match get c "seal" with PStr s => s | _ => "" end
  | _ => "" end.
Definition restored : log := mk_log [] 0 (journal both).
Definition reconciled : log :=
  (reconcile_audit_after_restore env noon (clock_iso noon) "epoch-9" "disk lost" last_seal restored).1.
Definition interrupted : log := match _append_row env "2026-03-02 08:00:00" login reconciled with Ok (_, s) => s | Raise _ => reconciled end.
End Demo.

Import Demo.

Lemma recording_appends_witness : exists s',
  commit_unit env "2026-03-01 12:00:09" (clock_iso noon) "epoch-3" [login] both = (s', Ok tt) /\
  honest ring s' (trail ++ map (recorded "2026-03-01 12:00:09") [login]) /\
  map fields (audit_logs s') = trail ++ map (recorded "2026-03-01 12:00:09") [login].
Proof.
  exact (recording_appends ring hex nonempty both trail env "2026-03-01 12:00:09" noon "epoch-3" [login] is_honest env_ok
           noon_in_range).
Defined.

Lemma honest_log_verifies_witness : exists verdict, verify_audit_chain env (noon + 90000 * 1000000) both = Ok verdict /\
  v_ok verdict = true /\ v_entries verdict = 3 /\
  v_unanchored_entries verdict = Some 0%Z /\ v_unanchored_before_checkpoint verdict = Some 0%Z /\
  v_checkpoint_status verdict =
    Some (if (noon + 90000 * 1000000 - noon <=? 24 * 3600 * 1000000)%Z then "current" else "stale").
Proof.
  exact (honest_log_verifies ring hex nonempty first [recorded "2026-03-01 12:00:00" login] env "2026-03-01 12:00:05"
    noon "epoch-2" [approve; login] both env (noon + 90000 * 1000000) first_is_honest env_ok noon_in_range ltac:(done)
    both_commits env_ok).
Defined.

Lemma tampering_is_detected_witness :
  take (length trail) (map fields (by_id (audit_logs both))) = trail \/ collision.
Proof.
  destruct both_verifies as (verdict & Hv & Hok).
  exact (tampering_is_detected ring hex nonempty both trail env noon (audit_logs both) 3 verdict is_honest env_ok
           ltac:(done) Hv Hok).
Defined.

(** An honest history can read as tampered: after a database restored empty
    has been reconciled with its journal, one entry whose checkpoint could not
    be written - the outage the code means to tolerate - makes verification
    report a checkpoint mismatch, because the row before the first is looked up
    as [rows\[-1\]]. *)
Theorem outage_after_empty_restore_reads_as_tampering : exists verdict appended broken,
  reconcile_audit_after_restore env noon (clock_iso noon) "epoch-9" "disk lost" last_seal restored =
    (reconciled, Ok verdict) /\ v_ok verdict = true /\
  _append_row env "2026-03-02 08:00:00" login reconciled = Ok (appended, interrupted) /\
  verify_audit_chain env noon interrupted = Ok broken /\
  v_ok broken = false /\ v_chain_ok broken = true /\ v_reason broken = Some "checkpoint mismatch".
Proof. eexists _, _, _. vm_compute. repeat split. Qed.
