(* ===== verification/Controls.v ===== *)
(** * Control assessments and risk findings (storage/governance_policy.py)

    After each batch the platform re-assesses the controls and risk rules of the
    applications it touched: controls from the batch's events, rules from
    aggregates over the stored events.  The full refresh assesses an application
    from all its events.  Both keep a reviewer's decision. *)

From stdpp Require Import base list strings option pretty sets gmap.
From Stdlib Require Import ZArith Lia Ascii.
From S2P Require Import Prelude Py Sql Events Schema Scope Coverage Inventory.

Open Scope nat_scope.

(** * Batches of events by application (storage/lifecycle.py, storage/fold.py)

    The projections that follow the inventory group a batch by the application
    its events name.  A name is whatever JSON value the client sent: the groups
    compare names as Python does, the tables as the text SQLite stored. *)

(** (tenant, project, environment, application) as an event declares it *)
Definition event_scope : Type := pyval * string * string * pyval.
Definition es_tenant (s : event_scope) : pyval := fst (fst (fst s)).
Definition es_application (s : event_scope) : pyval := snd s.
Definition scope_of_event (e : event) : event_scope :=
  (meta e "tenant_id", e_project e, e_environment e, meta e "application_name").
Definition scope_eqb (a b : event_scope) : bool :=
  let '(t, p, e, n) := a in
  let '(t', p', e', n') := b in
  py_eqb t t' && String.eqb p p' && String.eqb e e' && py_eqb n n'.

(** a dict from scopes to groups, in insertion order *)
Fixpoint add_to_group (s : event_scope) (e : event) (groups : list (event_scope * list event))
    : list (event_scope * list event) :=
  match groups with
  | [] => [(s, [e])]
  | (s', l) :: groups => if scope_eqb s' s then (s', l ++ [e]) :: groups else (s', l) :: add_to_group s e groups
  end.

(** the key must be hashable *)
Definition scope_key (e : event) : res event_scope :=
  let s := scope_of_event e in
  let! _ := throw_if (negb (hashable (es_tenant s) && hashable (es_application s))) TypeError in Ok s.

Definition events_by_app_scope (events : list event) : res (list (event_scope * list event)) :=
  rfold (fun groups e =>
    if negb (truthy (meta e "application_name")) then Ok groups
    else let! s := scope_key e in Ok (add_to_group s e groups)) [] events.

(** assigning to an equal key keeps its position and stores the new scope *)
Fixpoint set_scope (s : event_scope) (seen : list event_scope) : list event_scope :=
  match seen with
  | [] => [s]
  | s' :: seen => if scope_eqb s' s then s :: seen else s' :: set_scope s seen
  end.

(** [.get] of a metadata that is neither falsy nor an object raises *)
Definition batch_scopes (events : list event) : res (list event_scope) :=
  rfold (fun seen e =>
    let! name := py_get (py_or (attr e "metadata") (PDict [])) "application_name" in
    if negb (truthy name) then Ok seen else let! s := scope_key e in Ok (set_scope s seen)) [] events.

Section Registered.
Context `{PyHost} `{SqlHost}.

(** the scope as bound to a statement; no row has a NULL application *)
Definition bound_scope (s : event_scope) : res (option app_context) :=
  let '(t, p, e, n) := s in
  let! tenant := sql_text t in
  let! application := sql_text n in
  Ok (match application with Some a => Some (tenant, p, e, a) | None => None end).

Definition application_is_registered (app : app_context) (d : db) : bool :=
  existsb (fun r => in_app_scope app (ga_tenant_id r) (ga_project r) (ga_environment r) (ga_application_name r))
    (governance_applications d).
End Registered.

Definition _EVIDENCE_TRACE_CAP : nat := 200.
Definition _VERDICT_EVENT_TYPES : list string := ["eval.result"].

(** ** Keeping a decision *)

(** the status to write: a status that is not one of the recomputed ones stays *)
Definition _preserve_decided_status (existing : option string) (computed_status : string)
    (computed_statuses : list string) : string :=
  match existing with
  | Some status => if negb (is_empty status) && negb (mem status computed_statuses) then status else computed_status
  | None => computed_status
  end.

(** ** Evidence of an event *)

Definition field_values (e : event) : list (string * pyval) :=
  [("trace_id", PStr (e_trace_id e)); ("status", PStr (e_status e)); ("provider", attr e "provider");
   ("model", attr e "model"); ("workflow_name", meta e "workflow_name");
   ("application_name", meta e "application_name"); ("user_id", meta e "user_id"); ("retriever", attr e "retriever");
   ("document_count", attr e "document_count"); ("tool_name", attr e "tool_name");
   ("guardrail_name", attr e "guardrail_name"); ("decision", attr e "decision");
   ("matched_rules", attr e "matched_rules"); ("eval_name", attr e "eval_name"); ("score", attr e "score");
   ("threshold", attr e "threshold"); ("passed", attr e "passed"); ("agent_name", attr e "agent_name");
   ("step_count", attr e "step_count"); ("outcome", attr e "outcome"); ("mode", attr e "mode");
   ("fail_open", attr e "fail_open"); ("failed_sends", attr e "failed_sends");
   ("prompt.hash", object_get (attr e "prompt") "hash"); ("response.hash", object_get (attr e "response") "hash")].

Definition event_satisfies_required_fields (e : event) (required_fields : list string) : bool :=
  forallb (fun field =>
    let value := default PNone (assoc field (field_values e)) in
    negb (is_none value || py_eqb value (PStr "") || py_eqb value (PList []))) required_fields.

(** the events that are evidence for a control *)
Definition qualifying (control : control_definition) (events : list event) : list event :=
  select (fun e => mem (e_type e) (cl_evidence_event_types control) &&
                   event_satisfies_required_fields e (cl_required_fields control)) events.

Definition trace_ids_of (events : list event) : list string :=
  sorted_set (select (fun t => negb (is_empty t)) (map e_trace_id events)).

Section Controls.
Context `{PyHost} `{Digest} `{SqlHost}.

(** ** Assessments *)

Definition _assessment_id (app : app_context) (control : control_definition) : string :=
  entity_id [Some "control-assessment"; ctx_tenant app; Some (ctx_project app); Some (ctx_environment app);
             Some (ctx_application app); Some (cl_control_id control)].

Definition _write_assessment (now : string) (app : app_context) (control : control_definition) (computed_status : string)
    (trace_ids : list string) (evidence_count : Z) (d : db) : db :=
  let key := _assessment_id app control in
  let status := _preserve_decided_status (ca_status <$> lookup_key ca_assessment_id key (control_assessments d))
    computed_status ["passing"; "missing"] in
  set_control_assessments
    (insert_or_replace ca_assessment_id
      (mk_control_assessment key (ctx_tenant app) (ctx_project app) (ctx_environment app) (ctx_application app)
         (cl_control_id control) (cl_name control) status (cl_framework_refs control)
         (cl_evidence_event_types control) (cl_required_fields control) (take _EVIDENCE_TRACE_CAP trace_ids)
         evidence_count (cl_rationale control) now)
      (control_assessments d)) d.

(** the full refresh of one control *)
Definition assess_control (now : string) (app : app_context) (events : list event) (d : db)
    (control : control_definition) : db :=
  let evidence := qualifying control events in
  let d := record_control_evidence app control evidence d in
  _write_assessment now app control (match evidence with [] => "missing" | _ => "passing" end)
    (trace_ids_of evidence) (Z.of_nat (length evidence)) d.

Definition assess_controls (now : string) (app : app_context) (controls : list control_definition)
    (events : list event) (d : db) : db :=
  foldl (assess_control now app events) d controls.

(** the batch fold of one control *)
Definition fold_control (now : string) (app : app_context) (batch : list event) (d : db) (control : control_definition)
    : db :=
  let evidence := qualifying control batch in
  let d := record_control_evidence app control evidence d in
  let existing := lookup_key ca_assessment_id (_assessment_id app control) (control_assessments d) in
  match evidence with
  | [] => match existing with None => _write_assessment now app control "missing" [] 0 d | Some _ => d end
  | _ =>
      let prior_ids := match existing with Some r => ca_evidence_trace_ids r | None => [] end in
      let merged := sorted_set (prior_ids ++ select (fun t => negb (is_empty t)) (map e_trace_id evidence)) in
      let prior_count := match existing with Some r => ca_evidence_count r | None => 0%Z end in
      _write_assessment now app control "passing" merged (prior_count + Z.of_nat (length evidence)) d
  end.

Definition _fold_controls (now : string) (app : app_context) (controls : list control_definition) (batch : list event)
    (d : db) : db :=
  foldl (fold_control now app batch) d controls.

(** ** Findings *)

Definition list_risk_rules (d : db) (tenant_id : option string) : list risk_rule :=
  list_policies rr_tenant_id rr_rule_id tenant_id (risk_rules d).

Definition finding_key (app : app_context) (rule : risk_rule) : string :=
  entity_id [Some "risk-finding"; ctx_tenant app; Some (ctx_project app); Some (ctx_environment app);
             Some (ctx_application app); Some (rr_rule_id rule)].

Definition write_rule_finding (now : string) (app : app_context) (rule : risk_rule) (trace_ids : list string)
    (evidence_summary : string) (d : db) : db :=
  let key := finding_key app rule in
  let computed := if String.eqb (rr_mode rule) "observe" then "observed" else "open" in
  let status := _preserve_decided_status (rf_status <$> lookup_key rf_finding_id key (risk_findings d)) computed
    ["open"; "observed"] in
  set_risk_findings
    (insert_or_replace rf_finding_id
      (mk_risk_finding key (ctx_tenant app) (ctx_project app) (ctx_environment app) (ctx_application app)
         (rr_rule_id rule) (rr_name rule) (rr_severity rule) status (rr_rationale rule) (rr_framework_refs rule)
         (take _EVIDENCE_TRACE_CAP trace_ids) evidence_summary now)
      (risk_findings d)) d.

Definition upsert_rule_finding (now : string) (app : app_context) (rule : risk_rule) (evidence_events : list event)
    (evidence_summary : string) (d : db) : db :=
  write_rule_finding now app rule (trace_ids_of evidence_events) evidence_summary d.

(** *** Words *)

(** the maximal runs of word characters of a Latin-1 text *)
Definition is_word (c : ascii) : bool :=
  let n := N_of_ascii c in
  ((48 <=? n) && (n <=? 57) || (97 <=? n) && (n <=? 122) || (65 <=? n) && (n <=? 90) || (n =? 95) ||
   bool_decide (n ∈ [170; 178; 179; 181; 185; 186; 188; 189; 190]) ||
   (192 <=? n) && negb (n =? 215) && negb (n =? 247))%N.
Fixpoint words_from (word s : string) : list string :=
  match s with
  | EmptyString => if is_empty word then [] else [word]
  | String c s =>
      if is_word c then words_from (word +:+ String c EmptyString) s
      else if is_empty word then words_from "" s else word :: words_from "" s
  end.

(** [_AGENTIC_TERMS.search(text)]: a whole word of the pattern *)
Definition agentic_word (w : string) : bool :=
  mem w ["agent"; "agents"; "agentic"; "tool"; "tools"] ||
  (starts_with "orchestrat" w && Nat.ltb 10 (String.length w)).
Definition _AGENTIC_TERMS (text : string) : bool := existsb agentic_word (words_from "" text).

(** *** Conditions read from stored columns *)

Definition app_event (app : app_context) (r : sdk_event) : bool :=
  match ev_application_name r with
  | Some application => in_app_scope app (ev_tenant_id r) (ev_project r) (ev_environment r) application
  | None => false
  end.

(** [list_application_events] of governance_policy.py: the application's events
    and every health event of its project and environment *)
Definition list_assessed_events (app : app_context) (d : db) : list event :=
  map ev_raw_event (order_by (fun a b => (ev_id a <=? ev_id b)%Z)
    (select (fun r => String.eqb (ev_project r) (ctx_project app) && String.eqb (ev_environment r) (ctx_environment app) &&
                      (sql_eq (ev_application_name r) (Some (ctx_application app)) ||
                       String.eqb (ev_event_type r) "sdk.health") &&
                      null_safe_eq (ev_tenant_id r) (ctx_tenant app)) (sdk_events d))).

Definition is_error (r : sdk_event) : bool := String.eqb (ev_status r) "error".

Definition count_type (app : app_context) (event_type : string) (d : db) : nat :=
  rowcount (fun r => app_event app r && String.eqb (ev_event_type r) event_type) (sdk_events d).
Definition count_errors (app : app_context) (p : string -> bool) (d : db) : nat :=
  rowcount (fun r => app_event app r && is_error r && p (ev_event_type r)) (sdk_events d).

(** [SELECT DISTINCT c ... WHERE c IS NOT NULL AND c != ''] *)
Definition nonempty_text (o : option string) : option string :=
  match o with Some s => if is_empty s then None else Some s | None => None end.
Definition observed_providers (app : app_context) (d : db) : list string :=
  sorted_set (omap (fun r => nonempty_text (ev_provider r))
    (select (fun r => app_event app r && String.eqb (ev_event_type r) "model.call") (sdk_events d))).
Definition observed_use_cases (app : app_context) (d : db) : list string :=
  distinct (omap (fun r => nonempty_text (ev_use_case r)) (select (app_event app) (sdk_events d))).

(** newest distinct traces of the rows that match, out of the newest 400 *)
Definition _recent_trace_ids (app : app_context) (p : sdk_event -> bool) (d : db) : list string :=
  let rows := take (2 * _EVIDENCE_TRACE_CAP)
    (order_by (fun a b => (ev_id b <=? ev_id a)%Z) (select (fun r => app_event app r && p r) (sdk_events d))) in
  take _EVIDENCE_TRACE_CAP (distinct (select (fun t => negb (is_empty t)) (map ev_trace_id rows))).

Definition spaced (timestamp : string) : string := replace_char "T" " " timestamp.
Definition _count_after (app : app_context) (timestamp : string) (d : db) : nat :=
  rowcount (fun r => app_event app r && str_ltb (spaced timestamp) (spaced (ev_timestamp r))) (sdk_events d).

Definition use_case_in (app : app_context) (r : use_case) : bool :=
  in_app_scope app (uc_tenant_id r) (uc_project r) (uc_environment r) (uc_application_name r).
Definition status_or_submitted (r : use_case) : string :=
  if is_empty (uc_status r) then "submitted" else uc_status r.
Definition _retired_since (app : app_context) (d : db) : option string :=
  let rows := select (use_case_in app) (ai_use_cases d) in
  if existsb (fun r => mem (status_or_submitted r) ["submitted"; "approved"; "recertified"]) rows then None
  else max_text (map uc_updated_at (select (fun r => String.eqb (uc_status r) "retired") rows)).

Definition _failed_eval_summary (count : nat) : string :=
  pretty (Z.of_nat count) +:+ " evaluation result(s) below threshold".

Definition _undurable_health_events (events : list event) : list event :=
  select (fun e => String.eqb (e_type e) "sdk.health" &&
                   ((0 <? as_int (attr e "dropped"))%Z || is_false (attr e "spool_configured"))) events.

Definition _delivery_summary (events : list event) : string :=
  let dropped := match map (fun e => as_int (attr e "dropped")) events with [] => 0%Z | x :: l => foldr Z.max x l end in
  if (dropped =? 0)%Z
  then "SDK reports no spool for undelivered batches, so a delivery failure loses evidence"
  else "SDK reports " +:+ pretty dropped +:+ " event(s) dropped without a spool to hold them".

(** one rule: which signal it is decides what it looks for *)
Definition assess_rule_from_columns (now : string) (app : app_context) (batch : list event) (d : db) (rule : risk_rule)
    : db :=
  let signal := String.eqb (rr_signal rule) in
  let count ty := count_type app ty d in
  let of_type ty r := String.eqb (ev_event_type r) ty in
  let finding traces summary := write_rule_finding now app rule traces summary d in
  let runtime ty := negb (mem ty _VERDICT_EVENT_TYPES) in
  if signal "provider_dependency" then
    match observed_providers app d with
    | [] => d
    | providers => finding (_recent_trace_ids app (of_type "model.call") d) ("Observed providers: " +:+ join ", " providers)
    end
  else if signal "missing_guardrail" then
    if Nat.ltb 0 (count "model.call") && Nat.eqb (count "guardrail.decision") 0
    then finding (_recent_trace_ids app (of_type "model.call") d) "Model calls observed without guardrail decision evidence"
    else d
  else if signal "missing_eval" then
    if Nat.ltb 0 (count "model.call") && Nat.eqb (count "eval.result") 0
    then finding (_recent_trace_ids app (of_type "model.call") d) "Model calls observed without evaluation result evidence"
    else d
  else if signal "missing_agent_run" then
    let has_tool_calls := Nat.ltb 0 (count "tool.call") in
    let text_is_agentic := _AGENTIC_TERMS (lower (join " " (ctx_application app :: observed_use_cases app d))) in
    if Nat.eqb (count "agent.run") 0 && (has_tool_calls || text_is_agentic)
    then finding (_recent_trace_ids app (fun _ => true) d)
           (if has_tool_calls then "Tool-call telemetry observed without agent run evidence"
            else "Agentic term in the application name or use-case without agent run evidence")
    else d
  else if signal "operational_errors" then
    let errors_total := count_errors app runtime d in
    if Nat.ltb 0 errors_total
    then finding (_recent_trace_ids app (fun r => is_error r && runtime (ev_event_type r)) d)
           (pretty (Z.of_nat errors_total) +:+ " error events observed")
    else d
  else if signal "failed_eval" then
    let failed_evals := count_errors app (fun ty => String.eqb ty "eval.result") d in
    if Nat.ltb 0 failed_evals
    then finding (_recent_trace_ids app (fun r => of_type "eval.result" r && is_error r) d)
           (_failed_eval_summary failed_evals)
    else d
  else if signal "retired_system_telemetry" then
    match nonempty_text (_retired_since app d) with
    | None => d
    | Some since =>
        let late := _count_after app since d in
        if Nat.ltb 0 late
        then finding (_recent_trace_ids app (fun r => str_ltb (spaced since) (spaced (ev_timestamp r))) d)
               (pretty (Z.of_nat late) +:+ " event(s) observed after the system was retired at " +:+ since)
        else d
    end
  else if signal "evidence_delivery_not_durable" then
    match _undurable_health_events batch with
    | [] => d
    | undurable => upsert_rule_finding now app rule undurable (_delivery_summary undurable) d
    end
  else d.

Definition _assess_rules_from_columns (now : string) (app : app_context) (rules : list risk_rule) (batch : list event)
    (d : db) : db :=
  foldl (assess_rule_from_columns now app batch) d rules.

(** ** A batch *)

(** the application's events of one batch; a name that is not text passes for a
    registered application until it is joined into a text *)
Definition fold_application (now : string) (d : db) (group : event_scope * list event) : res db :=
  let (scope, batch) := group in
  let! bound := bound_scope scope in
  match bound with
  | None => Ok d
  | Some app =>
      if negb (application_is_registered app d) then Ok d
      else match es_application scope with
           | PStr _ =>
               let tid := Some (default "" (ctx_tenant app)) in
               let d1 := _fold_controls now app (list_control_library d tid) batch d in
               Ok (_assess_rules_from_columns now app (list_risk_rules d tid) batch d1)
           | _ => Raise TypeError
           end
  end.

(** one transaction *)
Definition fold_batch_assessments (now : string) (events : list event) (d : db) : res db :=
  let! groups := events_by_app_scope events in
  rfold (fold_application now) d groups.
End Controls.
