(* ===== verification/ControlRules.v ===== *)
(** * What assessing controls guarantees

    Folding an application's events batch after batch gives each control the
    assessment the full refresh would give, health controls apart; and no
    telemetry undoes a reviewer's decision or closes a finding. *)

From stdpp Require Import base list strings option pretty sets gmap.
From Stdlib Require Import ZArith Lia Ascii Sorted.
From S2P Require Import Prelude Py Sql Events Schema Scope Coverage Inventory Ledger Controls LedgerRules.

Open Scope nat_scope.

(** ** Samples: the first [n] of a sorted set *)

Lemma sorted_set_id l : str_sorted l -> sorted_set l = l.
Proof. intros Hl. apply str_sorted_ext; [apply sorted_set_sorted|done|]. intros x. apply elem_of_sorted_set. Qed.

(** inserting an element beyond [n] smaller ones leaves the first [n] *)
Lemma take_insert n x l : str_sorted l -> n <= length (filter (fun y => str_ltb y x = true) l) ->
  take n (insert_sorted x l) = take n l.
Proof.
  intros Hl. revert n. induction Hl as [|y l Hl IH Hy]; intros n Hn.
  - cbn in Hn. by replace n with 0 by lia.
  - cbn [insert_sorted]. destruct (str_ltb x y) eqn:Hxy.
    + replace n with 0; [done|]. symmetry. apply Nat.le_0_r. rewrite filter_cons in Hn.
      rewrite decide_False in Hn by (intros Hyx; pose proof (str_ltb_trans _ _ _ Hxy Hyx) as Hc; by rewrite str_ltb_irrefl in Hc).
      enough (filter (fun z => str_ltb z x = true) l = []) as E by (by rewrite E in Hn).
      apply elem_of_nil_inv. intros z [Hz Hin]%list_elem_of_filter. rewrite Forall_forall in Hy.
      pose proof (str_ltb_trans _ _ _ (str_ltb_trans _ _ _ Hxy (Hy z Hin)) Hz) as Hc. by rewrite str_ltb_irrefl in Hc.
    + destruct (String.eqb x y); [done|]. destruct n as [|n]; [done|]. cbn [take]. f_equal. apply IH.
      rewrite filter_cons in Hn. destruct (decide _); cbn [length] in Hn; lia.
Qed.

Lemma smaller_insert x y l : length (filter (fun z => str_ltb z x = true) l) <=
  length (filter (fun z => str_ltb z x = true) (insert_sorted y l)).
Proof.
  induction l as [|z l IH]; [cbn; lia|]. cbn [insert_sorted]. destruct (str_ltb y z).
  - rewrite (filter_cons _ y). destruct (decide _); cbn [length]; lia.
  - destruct (String.eqb y z); [done|]. rewrite !filter_cons. destruct (decide _); cbn [length]; lia.
Qed.

Lemma take_insert_all n xs l : str_sorted l ->
  (forall x, x ∈ xs -> n <= length (filter (fun y => str_ltb y x = true) l)) ->
  take n (foldr insert_sorted l xs) = take n l.
Proof.
  intros Hl. induction xs as [|x xs IH]; intros Hx; [done|]. cbn [foldr].
  assert (forall m, length (filter (fun y => str_ltb y x = true) l) <=
    length (filter (fun y => str_ltb y x = true) (foldr insert_sorted l m))) as Hmono.
  { intros m. induction m as [|y m IHm]; [done|]. cbn [foldr]. pose proof (smaller_insert x y (foldr insert_sorted l m)). lia. }
  rewrite take_insert.
  - apply IH. intros y Hy. apply Hx. by right.
  - clear -Hl. induction xs as [|y xs IH]; [done|]. by apply insert_sorted_sorted.
  - pose proof (Hmono xs). specialize (Hx x ltac:(by left)). lia.
Qed.

(** the first elements of a sorted list are below the rest *)
Lemma take_below n l x : str_sorted l -> x ∈ drop n l -> Forall (fun y => str_ltb y x = true) (take n l).
Proof.
  intros Hl. revert n. induction Hl as [|y l Hl IH Hy]; intros n Hx; [by rewrite drop_nil in Hx; apply elem_of_nil in Hx|].
  destruct n as [|n]; [constructor|]. cbn [take drop] in *. constructor; [|by apply IH].
  rewrite Forall_forall in Hy. apply Hy. eapply elem_of_submseteq; [exact Hx|apply submseteq_drop].
Qed.

(** a capped sample of a union needs only the capped sample of one side *)
Lemma sample_union n a b :
  take n (sorted_set (take n (sorted_set a) ++ b)) = take n (sorted_set (a ++ b)).
Proof.
  set (A := sorted_set a). assert (str_sorted A) as HA by apply sorted_set_sorted.
  transitivity (take n (sorted_set (drop n A ++ (take n A ++ b)))).
  - unfold sorted_set at 2. rewrite foldr_app. symmetry. apply take_insert_all; [apply sorted_set_sorted|].
    intros x Hx. pose proof (take_below n A x HA Hx) as Hbelow.
    assert (length (take n A) = n) as Hlen.
    { rewrite length_take. assert (drop n A <> []) as Hd by (intros E; rewrite E in Hx; by apply elem_of_nil in Hx).
      destruct (decide (n <= length A)); [lia|]. rewrite drop_ge in Hd by lia. done. }
    rewrite <-Hlen at 1. apply submseteq_length, NoDup_submseteq.
    + apply NoDup_fmap_1 with (f := fun y => y). rewrite list_fmap_id. eapply sublist_NoDup; [by apply str_sorted_NoDup|apply sublist_take].
    + intros y Hy. apply list_elem_of_filter. split; [rewrite Forall_forall in Hbelow; by apply Hbelow|].
      apply elem_of_sorted_set, elem_of_app. by left.
  - f_equal. apply sorted_set_ext. intros x. rewrite !elem_of_app.
    assert (x ∈ A <-> x ∈ a) as Hxa by apply elem_of_sorted_set. rewrite <-(take_drop n A), elem_of_app in Hxa. tauto.
Qed.

(** ** Evidence rows, event by event *)

Section Evidence.
Variables (app : app_context) (control_id : string).
Let record (t : list evidence_trace) (x : string * string) := record_trace app control_id t x.

Definition trace_key (trace : string) : string * string * string * string * string * string :=
  (default "" (ctx_tenant app), ctx_project app, ctx_environment app, ctx_application app, control_id, trace).

Lemma trace_key_inj a b : trace_key a = trace_key b -> a = b.
Proof. unfold trace_key. congruence. Qed.

Definition evidence_row (trace seen : string) : evidence_trace :=
  mk_evidence_trace (default "" (ctx_tenant app)) (ctx_project app) (ctx_environment app) (ctx_application app)
    control_id trace seen.
Lemma et_key_row trace seen : et_key (evidence_row trace seen) = trace_key trace.
Proof. reflexivity. Qed.
Lemma has_key_row trace seen k : has_key et_key k (evidence_row trace seen) = bool_decide (trace_key trace = k).
Proof. reflexivity. Qed.

Lemma record_unfold t trace seen : record t (trace, seen) =
  upsert et_key (evidence_row trace seen) (fun r => et_with_last_seen (max_str (et_last_seen r) seen) r) t.
Proof. reflexivity. Qed.

Lemma update_with_later t p s s' :
  (forall r x, p (et_with_last_seen x r) = p r) ->
  update p (fun r => et_with_last_seen (max_str (et_last_seen r) s') r)
    (update p (fun r => et_with_last_seen (max_str (et_last_seen r) s) r) t) =
  update p (fun r => et_with_last_seen (max_str (et_last_seen r) (max_str s s')) r) t.
Proof.
  intros Hp. unfold update. rewrite map_map. apply map_ext. intros r. destruct (p r) eqn:E; [|by rewrite E].
  rewrite Hp, E. cbn [et_last_seen et_with_last_seen]. by rewrite max_str_assoc.
Qed.

Lemma has_key_with k r x : has_key et_key k (et_with_last_seen x r) = has_key et_key k r.
Proof. reflexivity. Qed.

Lemma lookup_record_ne t a x b : a <> b ->
  lookup_key et_key (trace_key b) (record t (a, x)) = lookup_key et_key (trace_key b) t.
Proof.
  intros Hab. rewrite record_unfold, lookup_key_upsert by done. rewrite decide_False; [done|].
  intros E. by apply Hab, trace_key_inj.
Qed.

Lemma lookup_record_Some t trace x : is_Some (lookup_key et_key (trace_key trace) (record t (trace, x))).
Proof. rewrite record_unfold, lookup_key_upsert by done. rewrite decide_True by done. by eexists. Qed.

(** recording a trace twice records the later time *)
Lemma record_twice t trace s s' : record (record t (trace, s)) (trace, s') = record t (trace, max_str s s').
Proof.
  pose proof (lookup_record_Some t trace s) as [r Hr]. rewrite (record_unfold (record t (trace, s))). unfold upsert at 1.
  rewrite et_key_row, Hr. clear r Hr. rewrite !record_unfold. unfold upsert. rewrite !et_key_row.
  destruct (lookup_key et_key (trace_key trace) t) as [r|] eqn:E.
  - apply update_with_later. done.
  - unfold update_key, update. rewrite map_app. cbn [map]. rewrite has_key_row, bool_decide_eq_true_2 by done. f_equal.
    apply (update_none (has_key et_key (trace_key trace))). intros x Hx. apply has_key_false. intros Hk. apply lookup_key_None in E. apply E.
    rewrite <-Hk. by apply list_elem_of_fmap_2.
Qed.

(** a trace already recorded commutes with the others *)
Lemma record_commute t a x b y : a <> b -> is_Some (lookup_key et_key (trace_key a) t) ->
  record (record t (b, y)) (a, x) = record (record t (a, x)) (b, y).
Proof.
  intros Hab [r Hr]. pose proof (lookup_record_ne t b y a ltac:(congruence)) as Ha. rewrite Hr in Ha.
  rewrite (record_unfold (record t (b, y)) a). unfold upsert at 1. rewrite et_key_row, Ha.
  rewrite (record_unfold t a). unfold upsert at 1. rewrite et_key_row, Hr.
  rewrite !record_unfold. unfold upsert. rewrite !et_key_row. unfold update_key. rewrite lookup_key_update by done.
  destruct (lookup_key et_key (trace_key b) t) as [r'|] eqn:Eb; cbn [fmap option_fmap option_map].
  - unfold update_key, update. rewrite !map_map. apply map_ext. intros z.
    destruct (has_key et_key (trace_key a) z) eqn:Ea'.
    + assert (has_key et_key (trace_key b) z = false) as Eb'.
      { apply (has_key_false et_key). apply (has_key_true et_key) in Ea'. rewrite Ea'. intros E. by apply Hab, trace_key_inj. }
      by rewrite Eb', Ea', has_key_with, Eb'.
    + destruct (has_key et_key (trace_key b) z); by rewrite ?has_key_with, Ea'.
  - unfold update. rewrite map_app. cbn [map]. f_equal.
    rewrite has_key_row, bool_decide_eq_false_2; [done|]. intros E. by apply Hab, trace_key_inj.
Qed.

(** one event's evidence *)
Definition record_event (t : list evidence_trace) (e : event) : list evidence_trace :=
  let seen := _normalized_event_time (e_timestamp e) in
  if is_empty (e_trace_id e) || is_empty seen then t else record t (e_trace_id e, seen).

Lemma fold_set_latest l t trace seen : NoDup (map fst l) ->
  foldl record t (set_latest trace seen l) =
  if is_empty seen then foldl record t l else record (foldl record t l) (trace, seen).
Proof.
  revert t. induction l as [|[a x] l IH]; intros t Hn; cbn [set_latest].
  - rewrite str_ltb_empty. by destruct (is_empty seen).
  - cbn [map fst] in Hn. apply NoDup_cons in Hn as [Hna Hn]. destruct (String.eqb_spec a trace) as [->|Hne].
    + change (if str_ltb x seen then seen else x) with (max_str x seen). cbn [foldl]. destruct (is_empty seen) eqn:Es.
      * apply is_empty_true in Es as ->. unfold max_str. by destruct x.
      * rewrite <-record_twice. assert (is_Some (lookup_key et_key (trace_key trace) (record t (trace, x)))) as Hs by
          apply lookup_record_Some. revert Hs. generalize (record t (trace, x)) as u. intros u Hs.
        clear IH Hn. revert u Hs. induction l as [|[b y] l IH]; intros u Hs; [done|]. cbn [foldl].
        cbn [map fst] in Hna. apply not_elem_of_cons in Hna as [Hb Hna].
        rewrite <-(record_commute u trace seen b y Hb Hs). apply (IH Hna).
        by rewrite lookup_record_ne by congruence.
    + cbn [foldl]. apply (IH _ Hn).
Qed.

Lemma set_latest_keys trace seen l : NoDup (map fst l) ->
  NoDup (map fst (set_latest trace seen l)) /\ (forall k, k ∈ map fst (set_latest trace seen l) -> k = trace \/ k ∈ map fst l).
Proof.
  induction l as [|[a x] l IH]; intros Hn; cbn [set_latest].
  - destruct (str_ltb "" seen); cbn [map fst]; split; try apply NoDup_singleton; try apply NoDup_nil_2.
    + intros k ->%list_elem_of_singleton. by left.
    + by intros k ?%elem_of_nil.
  - cbn [map fst] in Hn. apply NoDup_cons in Hn as [Hna Hn]. destruct (String.eqb_spec a trace) as [->|Hne]; cbn [map fst].
    + split; [by constructor|]. intros k Hk. by right.
    + destruct (IH Hn) as [Hn' Hk]. split.
      * constructor; [|done]. intros [->|?]%Hk; done.
      * intros k [->|[->|?]%Hk]%elem_of_cons; [right; by left|by left|right; by right].
Qed.

Lemma latest_snoc l e : latest_by_trace (l ++ [e]) =
  if is_empty (e_trace_id e) then latest_by_trace l
  else set_latest (e_trace_id e) (_normalized_event_time (e_timestamp e)) (latest_by_trace l).
Proof. unfold latest_by_trace. by rewrite foldl_app. Qed.

Lemma latest_keys l : NoDup (map fst (latest_by_trace l)).
Proof.
  induction l as [|e l IH] using rev_ind; [apply NoDup_nil_2|]. rewrite latest_snoc. destruct (is_empty _); [done|].
  by apply set_latest_keys.
Qed.

Lemma record_events t l : foldl record t (latest_by_trace l) = foldl record_event t l.
Proof.
  induction l as [|e l IH] using rev_ind; [done|]. rewrite latest_snoc, foldl_app. cbn [foldl]. unfold record_event at 1.
  destruct (is_empty (e_trace_id e)) eqn:Et; cbn [orb]; [done|].
  rewrite fold_set_latest by apply latest_keys. rewrite IH. by destruct (is_empty _).
Qed.
End Evidence.

Section Assessments.
Context `{PyHost} `{Digest} `{SqlHost}.

(** ** What a write leaves *)

Definition assessed (now : string) (app : app_context) (c : control_definition) (status : string)
    (trace_ids : list string) (n : Z) : control_assessment :=
  mk_control_assessment (_assessment_id app c) (ctx_tenant app) (ctx_project app) (ctx_environment app)
    (ctx_application app) (cl_control_id c) (cl_name c) status (cl_framework_refs c) (cl_evidence_event_types c)
    (cl_required_fields c) (take _EVIDENCE_TRACE_CAP trace_ids) n (cl_rationale c) now.

Lemma lookup_written now app c st ts n d k :
  lookup_key ca_assessment_id k (control_assessments (_write_assessment now app c st ts n d)) =
  if decide (_assessment_id app c = k)
  then Some (assessed now app c
    (_preserve_decided_status (ca_status <$> lookup_key ca_assessment_id k (control_assessments d)) st ["passing"; "missing"])
    ts n)
  else lookup_key ca_assessment_id k (control_assessments d).
Proof.
  unfold _write_assessment. cbn [control_assessments set_control_assessments]. rewrite lookup_key_replace.
  cbn [ca_assessment_id]. case_decide as Hk; [|done]. by subst k.
Qed.

Lemma evidence_recorded app c l d : control_assessments (record_control_evidence app c l d) = control_assessments d.
Proof. reflexivity. Qed.

Lemma evidence_traces app c l d : control_evidence_traces (record_control_evidence app c l d) =
  foldl (record_event app (cl_control_id c)) (control_evidence_traces d) l.
Proof. unfold record_control_evidence. cbn [control_evidence_traces set_control_evidence_traces]. apply record_events. Qed.

Lemma written_traces now app c st ts n d :
  control_evidence_traces (_write_assessment now app c st ts n d) = control_evidence_traces d.
Proof. reflexivity. Qed.

(** ** Folding batches *)

Definition nonempty_traces (l : list event) : list string := select (fun t => negb (is_empty t)) (map e_trace_id l).
Lemma nonempty_traces_app l k : nonempty_traces (l ++ k) = nonempty_traces l ++ nonempty_traces k.
Proof. unfold nonempty_traces. by rewrite map_app, select_app. Qed.

Definition verdict_of (evidence : list event) : string := match evidence with [] => "missing" | _ => "passing" end.

Lemma verdict_status evidence : verdict_of evidence ∈ ["passing"; "missing"].
Proof. destruct evidence; [by right; left|by left]. Qed.

(** the row of a control whose evidence so far is [l] *)
Definition row_of (now : string) (app : app_context) (c : control_definition) (l : list event) : control_assessment :=
  assessed now app c (verdict_of l) (sorted_set (nonempty_traces l)) (Z.of_nat (length l)).

Definition fold_batches (app : app_context) (c : control_definition) (bs : list (string * list event)) (d : db) : db :=
  foldl (fun d b => fold_control b.1 app b.2 d c) d bs.

(** the state after the batches whose evidence is [l] *)
Definition folded (app : app_context) (c : control_definition) (l : list event) (d d' : db) : Prop :=
  (exists now, lookup_key ca_assessment_id (_assessment_id app c) (control_assessments d') = Some (row_of now app c l)) /\
  control_evidence_traces d' = foldl (record_event app (cl_control_id c)) (control_evidence_traces d) l.

Lemma assess_control_folded now app c events d :
  lookup_key ca_assessment_id (_assessment_id app c) (control_assessments d) = None ->
  folded app c (qualifying c events) d (assess_control now app events d c).
Proof.
  intros Hn. unfold assess_control. split.
  - exists now. rewrite lookup_written, decide_True by done. rewrite evidence_recorded, Hn. reflexivity.
  - by rewrite written_traces, evidence_traces.
Qed.

Lemma preserve_computed st computed l : st ∈ l -> _preserve_decided_status (Some st) computed l = computed.
Proof. intros Hst. unfold _preserve_decided_status. apply mem_true in Hst. by rewrite Hst, andb_false_r. Qed.

Lemma capped_more a b :
  take _EVIDENCE_TRACE_CAP (sorted_set (take _EVIDENCE_TRACE_CAP (sorted_set a) ++ b)) =
  take _EVIDENCE_TRACE_CAP (sorted_set (a ++ b)).
Proof. apply sample_union. Qed.

(** the first batch *)
Lemma fold_first now app c batch d :
  lookup_key ca_assessment_id (_assessment_id app c) (control_assessments d) = None ->
  folded app c (qualifying c batch) d (fold_control now app batch d c).
Proof.
  intros Hn. unfold fold_control. rewrite evidence_recorded, Hn. split.
  - exists now. destruct (qualifying c batch) as [|e l] eqn:E; rewrite lookup_written, decide_True, evidence_recorded, Hn by done;
      [reflexivity|]. cbn [fmap option_fmap option_map _preserve_decided_status]. rewrite Z.add_0_l. reflexivity.
  - destruct (qualifying c batch) as [|e l] eqn:E; rewrite written_traces, evidence_traces; done.
Qed.

(** the next one *)
Lemma fold_next now app c batch l d d' :
  folded app c l d d' -> folded app c (l ++ qualifying c batch) d (fold_control now app batch d' c).
Proof.
  intros [[t0 Hr] Ht]. unfold fold_control. rewrite evidence_recorded, Hr.
  destruct (qualifying c batch) as [|e k] eqn:E.
  - rewrite app_nil_r. split; [exists t0; by rewrite evidence_recorded|]. by rewrite evidence_traces, Ht.
  - split; [|by rewrite written_traces, evidence_traces, Ht, foldl_app].
    exists now. rewrite lookup_written, decide_True, evidence_recorded, Hr by done.
    cbn [fmap option_fmap option_map]. change (ca_status (row_of t0 app c l)) with (verdict_of l).
    rewrite preserve_computed by apply verdict_status. f_equal. unfold row_of, assessed.
    change (ca_evidence_trace_ids _) with (take _EVIDENCE_TRACE_CAP (sorted_set (nonempty_traces l))).
    change (ca_evidence_count _) with (Z.of_nat (length l)).
    change (select (fun t => negb (is_empty t)) (map e_trace_id (e :: k))) with (nonempty_traces (e :: k)).
    rewrite capped_more, nonempty_traces_app, length_app, Nat2Z.inj_add.
    replace (verdict_of (l ++ e :: k)) with "passing"; [done|]. by destruct l.
Qed.

Lemma qualifying_app c a b : qualifying c (a ++ b) = qualifying c a ++ qualifying c b.
Proof. apply select_app. Qed.

Lemma fold_batches_folded app c bs d :
  lookup_key ca_assessment_id (_assessment_id app c) (control_assessments d) = None -> bs <> [] ->
  folded app c (qualifying c (concat (map snd bs))) d (fold_batches app c bs d).
Proof.
  intros Hn. induction bs as [|b bs IH] using rev_ind; [done|]. intros _. unfold fold_batches. rewrite foldl_app.
  cbn [foldl]. destruct (decide (bs = [])) as [->|Hbs].
  - cbn. rewrite app_nil_r. by apply fold_first.
  - rewrite map_app, concat_app, qualifying_app. cbn [map concat]. rewrite app_nil_r. apply fold_next. by apply IH.
Qed.

(** one refresh over the events folded so far *)
Lemma folded_assessed now app c bs d :
  lookup_key ca_assessment_id (_assessment_id app c) (control_assessments d) = None -> bs <> [] ->
  let folded := foldl (fun d b => fold_control b.1 app b.2 d c) d bs in
  let assessed := assess_control now app (concat (map snd bs)) d c in
  ca_with_evaluated_at now <$> lookup_key ca_assessment_id (_assessment_id app c) (control_assessments folded) =
    lookup_key ca_assessment_id (_assessment_id app c) (control_assessments assessed) /\
  control_evidence_traces folded = control_evidence_traces assessed.
Proof.
  intros Hn Hbs folded assessed. destruct (fold_batches_folded app c bs d Hn Hbs) as [[t1 H1'] Ht1].
  change (fold_batches app c bs d) with folded in *. split.
  - rewrite H1'. unfold assessed, assess_control. rewrite lookup_written, decide_True, evidence_recorded, Hn by done.
    reflexivity.
  - rewrite Ht1. unfold assessed, assess_control. by rewrite written_traces, evidence_traces.
Qed.

(** the application's own events, oldest first *)
Definition application_events (app : app_context) (d : db) : list event :=
  map ev_raw_event (order_by (fun a b => (ev_id a <=? ev_id b)%Z) (select (app_event app) (sdk_events d))).

(** a row's type column is its event's type *)
Definition typed_rows (d : db) : Prop := forall r, r ∈ sdk_events d -> ev_event_type r = e_type (ev_raw_event r).

Lemma select_map {A B} (p : B -> bool) (f : A -> B) l : select p (map f l) = map f (select (fun x => p (f x)) l).
Proof. induction l as [|x l IH]; [done|]. cbn [map]. rewrite !select_cons, IH. by destruct (p (f x)). Qed.

Lemma select_same {A} (p q : A -> bool) l : (forall x, x ∈ l -> p x = q x) -> select p l = select q l.
Proof.
  induction l as [|x l IH]; intros Hpq; [done|]. rewrite !select_cons, (Hpq x) by by left.
  rewrite IH; [done|]. intros y Hy. apply Hpq. by right.
Qed.

Lemma select_select {A} (p q : A -> bool) l : select p (select q l) = select (fun x => p x && q x) l.
Proof.
  induction l as [|x l IH]; [done|]. rewrite !select_cons. destruct (q x); rewrite ?andb_true_r, ?andb_false_r; [|done].
  rewrite select_cons, IH. by destruct (p x).
Qed.

(** a control that asks for no health event finds its evidence among the
    application's own *)
Lemma refresh_evidence app c d : typed_rows d -> "sdk.health" ∉ cl_evidence_event_types c ->
  qualifying c (list_assessed_events app d) = qualifying c (application_events app d).
Proof.
  intros Hrows Hc. unfold qualifying, list_assessed_events, application_events. rewrite !select_map. f_equal.
  rewrite !select_order_by by (intros; lia). f_equal. rewrite !select_select. apply select_same.
  intros r Hr. rewrite (Hrows r Hr). destruct (mem (e_type (ev_raw_event r)) (cl_evidence_event_types c)) eqn:Ht; [|done].
  apply mem_true in Ht. assert (String.eqb (e_type (ev_raw_event r)) "sdk.health" = false) as ->.
  { apply String.eqb_neq. by intros E; rewrite E in Ht. }
  rewrite orb_false_r. f_equal. unfold app_event, in_app_scope. destruct (ev_application_name r) as [a|]; cbn [sql_eq]; [done|].
  by rewrite !andb_false_r.
Qed.

(** C18. Assessing control evidence incrementally is exact.  When the batches
    folded are, one after another, the stored events of an application, a control
    never assessed before is left with the row the full refresh writes for it -
    status, evidence count, capped sample of traces and every other column, the
    time of evaluation apart - and with the same evidence rows.  The refresh
    assesses what [list_application_events] of governance_policy.py lists, which
    adds to the application's events every health event of its environment; so
    this is said of the controls that do not take sdk.health as evidence, when the
    rows carry their events' types, as ingestion stores them. *)
Theorem fold_is_full_refresh now app c bs d :
  lookup_key ca_assessment_id (_assessment_id app c) (control_assessments d) = None -> bs <> [] ->
  typed_rows d -> concat (map snd bs) = application_events app d -> "sdk.health" ∉ cl_evidence_event_types c ->
  let folded := foldl (fun d b => fold_control b.1 app b.2 d c) d bs in
  let refreshed := assess_control now app (list_assessed_events app d) d c in
  ca_with_evaluated_at now <$> lookup_key ca_assessment_id (_assessment_id app c) (control_assessments folded) =
    lookup_key ca_assessment_id (_assessment_id app c) (control_assessments refreshed) /\
  control_evidence_traces folded = control_evidence_traces refreshed.
Proof.
  intros Hn Hbs Hrows Hevents Hc folded refreshed.
  assert (refreshed = assess_control now app (concat (map snd bs)) d c) as ->; [|by apply folded_assessed].
  unfold refreshed, assess_control. by rewrite Hevents, refresh_evidence.
Qed.

(** the one thing a retried fold changes: the count adds up again *)
Lemma retried_fold_counts_twice t1 t2 app c batch d :
  lookup_key ca_assessment_id (_assessment_id app c) (control_assessments d) = None ->
  qualifying c batch <> [] ->
  (ca_evidence_count <$> lookup_key ca_assessment_id (_assessment_id app c)
     (control_assessments (fold_control t2 app batch (fold_control t1 app batch d c) c))) =
  Some (2 * Z.of_nat (length (qualifying c batch)))%Z.
Proof.
  intros Hn Hq. destruct (fold_next t2 app c batch _ d _ (fold_first t1 app c batch d Hn)) as [[t Hr] _].
  rewrite Hr. cbn. rewrite length_app. f_equal. lia.
Qed.

(** ** Decisions survive *)

(** a row still exists, and a status that only people set is still there *)
Definition status_kept (computed : list string) (old new : string) : Prop :=
  if is_empty old || mem old computed then new = old \/ new ∈ computed else new = old.

Definition rows_kept {A} (key status : A -> string) (computed : list string) (t t' : list A) : Prop :=
  forall k r, lookup_key key k t = Some r ->
    exists r', lookup_key key k t' = Some r' /\ status_kept computed (status r) (status r').

Definition FINDING_STATUSES : list string := ["open"; "observed"].
Definition ASSESSMENT_STATUSES : list string := ["passing"; "missing"].

(** nothing but assessments, findings and evidence rows differs *)
Definition only_assessed (d d' : db) : Prop :=
  d' = set_control_assessments (control_assessments d') (set_risk_findings (risk_findings d')
         (set_control_evidence_traces (control_evidence_traces d') d)).

Definition kept (d d' : db) : Prop :=
  rows_kept rf_finding_id rf_status FINDING_STATUSES (risk_findings d) (risk_findings d') /\
  rows_kept ca_assessment_id ca_status ASSESSMENT_STATUSES (control_assessments d) (control_assessments d') /\
  only_assessed d d'.

Lemma status_kept_refl computed s : status_kept computed s s.
Proof. unfold status_kept. destruct (_ || _); auto. Qed.

Lemma status_kept_trans computed a b c : status_kept computed a b -> status_kept computed b c -> status_kept computed a c.
Proof.
  unfold status_kept. destruct (is_empty a || mem a computed) eqn:Ea.
  - intros [->|Hb]; [by rewrite Ea|]. apply mem_true in Hb. rewrite Hb, orb_true_r. apply mem_true in Hb.
    intros [->|Hc]; by right.
  - intros ->. by rewrite Ea.
Qed.

Lemma rows_kept_refl {A} (key status : A -> string) computed t : rows_kept key status computed t t.
Proof. intros k r Hr. exists r. split; [done|]. apply status_kept_refl. Qed.
Lemma rows_kept_trans {A} (key status : A -> string) computed t u v :
  rows_kept key status computed t u -> rows_kept key status computed u v -> rows_kept key status computed t v.
Proof.
  intros H1' H2' k r (r1 & Hr1 & Hs1)%H1'. destruct (H2' k r1 Hr1) as (r2 & Hr2 & Hs2). exists r2. split; [done|].
  by eapply status_kept_trans.
Qed.

Lemma kept_refl d : kept d d.
Proof. split; [apply rows_kept_refl|]. split; [apply rows_kept_refl|]. unfold only_assessed. by destruct d. Qed.
Lemma kept_trans d1 d2 d3 : kept d1 d2 -> kept d2 d3 -> kept d1 d3.
Proof.
  intros (Hf & Ha & Ho) (Hf' & Ha' & Ho'). split; [by eapply rows_kept_trans|]. split; [by eapply rows_kept_trans|].
  unfold only_assessed in *. rewrite Ho in Ho'. exact Ho'.
Qed.

Lemma preserve_kept o computed computed_statuses :
  computed ∈ computed_statuses -> forall s, o = Some s ->
  status_kept computed_statuses s (_preserve_decided_status o computed computed_statuses).
Proof.
  intros Hc s ->. unfold _preserve_decided_status, status_kept.
  destruct (is_empty s); cbn [negb andb orb]; [by right|]. destruct (mem s computed_statuses); cbn [negb]; [by right|done].
Qed.

Lemma replace_kept {A} (key status : A -> string) computed t r :
  (forall x, lookup_key key (key r) t = Some x -> status_kept computed (status x) (status r)) ->
  rows_kept key status computed t (insert_or_replace key r t).
Proof.
  intros Hs k x Hx. rewrite lookup_key_replace. case_decide as Hk; [|exists x; split; [done|apply status_kept_refl]].
  subst k. exists r. split; [done|]. by apply Hs.
Qed.

Lemma kept_evidence app c l d : kept d (record_control_evidence app c l d).
Proof.
  split; [apply rows_kept_refl|]. split; [apply rows_kept_refl|]. unfold only_assessed, record_control_evidence. by destruct d.
Qed.

Lemma kept_assessment now app c st ts n d : st ∈ ASSESSMENT_STATUSES -> kept d (_write_assessment now app c st ts n d).
Proof.
  intros Hst. split; [apply rows_kept_refl|]. split.
  - apply replace_kept. intros x Hx. cbn [ca_status ca_assessment_id] in *. rewrite Hx. by apply preserve_kept.
  - unfold only_assessed, _write_assessment. by destruct d.
Qed.

Lemma kept_finding now app rule ts summary d : kept d (write_rule_finding now app rule ts summary d).
Proof.
  split; [|split; [apply rows_kept_refl|unfold only_assessed, write_rule_finding; by destruct d]].
  apply replace_kept. intros x Hx. cbn [rf_status rf_finding_id] in *. rewrite Hx. apply preserve_kept; [|done].
  destruct (String.eqb _ _); [by right; left|by left].
Qed.

Lemma kept_foldl {B} (f : db -> B -> db) l : (forall d x, kept d (f d x)) -> forall d, kept d (foldl f d l).
Proof.
  intros Hf. induction l as [|x l IH]; intros d; [apply kept_refl|]. cbn [foldl]. by eapply kept_trans.
Qed.

Lemma kept_fold_control now app batch d c : kept d (fold_control now app batch d c).
Proof.
  unfold fold_control. eapply kept_trans; [apply (kept_evidence app c (qualifying c batch))|]. destruct (qualifying c batch).
  - destruct (lookup_key _ _ _); [apply kept_refl|]. apply kept_assessment. by right; left.
  - apply kept_assessment. by left.
Qed.

Lemma kept_rule now app batch d rule : kept d (assess_rule_from_columns now app batch d rule).
Proof.
  unfold assess_rule_from_columns, upsert_rule_finding.
  repeat match goal with
         | |- kept _ (if ?b then _ else _) => destruct b
         | |- kept _ (match ?x with _ => _ end) => destruct x
         end; first [apply kept_refl | apply kept_finding].
Qed.

Lemma kept_application now d group d' : fold_application now d group = Ok d' -> kept d d'.
Proof.
  unfold fold_application. destruct group as [scope batch]. intros (bound & _ & Hd)%rbind_Ok.
  destruct bound as [app|]; [|injection Hd as <-; apply kept_refl].
  destruct (negb _); [injection Hd as <-; apply kept_refl|].
  destruct (es_application scope); try done. apply (f_equal (fun r => match r with Ok d => d | Raise _ => d end)) in Hd.
  cbv beta iota zeta in Hd. rewrite <-Hd. eapply kept_trans; [|apply kept_foldl; intros; apply kept_rule].
  apply kept_foldl. intros. apply kept_fold_control.
Qed.

(** C19. Telemetry never undoes a decision: whatever batch is assessed, every
    finding and every assessment is still there, a status that a reviewer set
    (accepted, mitigated, waived, ...) is unchanged, a recomputed status stays a
    recomputed one - a finding is never closed by telemetry - and nothing else in
    the database is touched. *)
Theorem telemetry_keeps_decisions now events d d' :
  fold_batch_assessments now events d = Ok d' ->
  rows_kept rf_finding_id rf_status FINDING_STATUSES (risk_findings d) (risk_findings d') /\
  rows_kept ca_assessment_id ca_status ASSESSMENT_STATUSES (control_assessments d) (control_assessments d') /\
  d' = set_control_assessments (control_assessments d') (set_risk_findings (risk_findings d')
         (set_control_evidence_traces (control_evidence_traces d') d)).
Proof.
  unfold fold_batch_assessments. intros (groups & _ & Hf)%rbind_Ok.
  refine (rfold_ind (kept d) (fold_application now) d groups d' Hf (kept_refl d) _).
  intros d1 group d2 _ Hd2 Hd1. eapply kept_trans; [exact Hd1|]. by eapply kept_application.
Qed.
End Assessments.

(** ** The application of the ledger's demonstration *)

Module Demo.
Import LedgerRules.Demo.

Definition triage : app_context := (Some "acme", "claims", "production", "triage").
Definition inventory_control : control_definition :=
  mk_control_definition "" "AI-INV-001" "Inventory" ["ISO/IEC 42001 A.5.2"] ["model.call"] ["application_name"; "provider"]
    "observed usage" None.
Definition errors_rule : risk_rule :=
  mk_risk_rule "" "AI-RISK-001" "Operational errors" "operational_errors" "High" [] "failures" "enforce".
Definition batches : list (string * list event) :=
  [("2026-03-01 09:00:02", [call "s1" "success" 120]); ("2026-03-01 09:01:00", []);
   ("2026-03-01 09:02:00", [call "s2" "error" 30])].

Lemma rows_typed : typed_rows LedgerRules.Demo.refolded.
Proof.
  assert (Forall (fun r => ev_event_type r = e_type (ev_raw_event r)) (sdk_events LedgerRules.Demo.refolded)) as H
    by (vm_compute; repeat constructor). intros r Hr. by rewrite Forall_forall in H; apply H.
Qed.
Lemma batches_stored : concat (map snd batches) = application_events triage LedgerRules.Demo.refolded.
Proof. vm_compute. reflexivity. Qed.

(** a health event that names no application: the refresh counts it for every
    application of its environment, the batch fold for none *)
Definition health : event :=
  mk_event "sdk.health" "1.0" "trace-7" "s9" "2026-03-01T09:05:00Z" "triage-api" "production" "claims" None None
    (Some "initialized") "success" None [("metadata", PDict [("tenant_id", PStr "acme")]); ("mode", PStr "async")].
Definition health_control : control_definition :=
  mk_control_definition "" "AI-OPS-001" "Health" [] ["sdk.health"] ["mode"] "telemetry must be observable" None.
Definition with_health : db :=
  match insert_events "2026-03-01 09:05:01" [health] LedgerRules.Demo.refolded with Ok (_, d) => d | Raise _ => empty_db end.
Example health_only_in_refresh :
  (let d := assess_control "now" triage (list_assessed_events triage with_health) with_health health_control in
   map (fun r => (ca_status r, ca_evidence_count r)) (control_assessments d)) = [("passing", 1%Z)] /\
  (let d := set_control_library [health_control] with_health in
   match fold_batch_assessments "now" [call "s1" "success" 120; call "s2" "error" 30; health] d with
   | Ok d => map (fun r => (ca_status r, ca_evidence_count r)) (control_assessments d)
   | Raise _ => [] end) = [("missing", 0%Z)].
Proof. vm_compute. split; reflexivity. Qed.

Lemma never_assessed : lookup_key ca_assessment_id (_assessment_id triage inventory_control)
  (control_assessments LedgerRules.Demo.refolded) = None.
Proof. vm_compute. reflexivity. Qed.

(** the errors were accepted by a reviewer before the next batch *)
Definition accepted : db :=
  let d := set_risk_rules [errors_rule] (set_control_library [inventory_control] LedgerRules.Demo.refolded) in
  let d := write_rule_finding "2026-03-01 09:03:00" triage errors_rule ["trace-1"] "1 error events observed" d in
  set_risk_findings (map (rf_with_status "accepted") (risk_findings d)) d.
Definition next_batch : list event := [call "s2" "error" 30].
Definition assessed_again : db :=
  match fold_batch_assessments "2026-03-02 09:00:00" next_batch accepted with Ok d => d | Raise _ => accepted end.
Lemma assesses : fold_batch_assessments "2026-03-02 09:00:00" next_batch accepted = Ok assessed_again.
Proof. vm_compute. reflexivity. Qed.

Example still_accepted : map (fun r => (rf_status r, rf_evaluated_at r)) (risk_findings assessed_again) =
  [("accepted", "2026-03-02 09:00:00")].
Proof. vm_compute. reflexivity. Qed.
Example control_passes : map (fun r => (ca_status r, ca_evidence_count r)) (control_assessments assessed_again) =
  [("passing", 1%Z)].
Proof. vm_compute. reflexivity. Qed.
End Demo.

Import LedgerRules.Demo Demo.

Lemma fold_is_full_refresh_witness
    (folded := foldl (fun d b => fold_control b.1 triage b.2 d inventory_control) LedgerRules.Demo.refolded batches)
    (refreshed := assess_control "now" triage (list_assessed_events triage LedgerRules.Demo.refolded)
       LedgerRules.Demo.refolded inventory_control) :
  ca_with_evaluated_at "now" <$>
    lookup_key ca_assessment_id (_assessment_id triage inventory_control) (control_assessments folded) =
  lookup_key ca_assessment_id (_assessment_id triage inventory_control) (control_assessments refreshed) /\
  control_evidence_traces folded = control_evidence_traces refreshed.
Proof.
  exact (fold_is_full_refresh "now" triage inventory_control batches LedgerRules.Demo.refolded never_assessed ltac:(done)
    rows_typed batches_stored ltac:(apply (bool_decide_eq_true_1 _); vm_compute; reflexivity)).
Defined.

Lemma telemetry_keeps_decisions_witness :
  rows_kept rf_finding_id rf_status FINDING_STATUSES (risk_findings accepted) (risk_findings assessed_again) /\
  rows_kept ca_assessment_id ca_status ASSESSMENT_STATUSES (control_assessments accepted)
    (control_assessments assessed_again) /\
  assessed_again = set_control_assessments (control_assessments assessed_again)
    (set_risk_findings (risk_findings assessed_again)
       (set_control_evidence_traces (control_evidence_traces assessed_again) accepted)).
Proof. exact (telemetry_keeps_decisions _ _ _ _ assesses). Defined.
