(* ===== verification/Lifecycle.v ===== *)
(** * Fingerprints and material changes (storage/lifecycle.py)

    An application, and each of its workflows, is fingerprinted by the sets of
    labels its telemetry carries.  When a fold or a rebuild finds a set changed,
    it records a change event and opens a review task for it. *)

From stdpp Require Import base list strings option pretty sets gmap.
From Stdlib Require Import ZArith Lia.
From S2P Require Import Prelude Py Json Sql Events Schema Scope Inventory Controls.

Open Scope nat_scope.

Definition MATERIAL_FIELDS : list string :=
  ["agents"; "eval_thresholds"; "evals"; "guardrails"; "models"; "providers"; "retrievers"; "tools"; "workflows"].
Definition HIGH_RISK_FIELDS : list string := ["eval_thresholds"; "guardrails"; "models"; "providers"; "tools"].

(** ** Payloads *)

(** a dict from fields to sorted lists of labels *)
Definition payload : Type := list (string * list string).
Definition labels (p : payload) (field : string) : list string := default [] (assoc field p).
Definition payload_value (p : payload) : pyval := PDict (map (fun kv => (kv.1, PList (map PStr kv.2))) p).

(** monotone union; the keys of a dict built from a set come in no fixed order *)
Definition _merge_payload (stored fresh : payload) : payload :=
  map (fun key => (key, sorted_set (labels stored key ++ labels fresh key)))
    (sorted_set (map fst stored ++ map fst fresh)).

(** [value not in (None, "")] *)
Definition has_value (v : pyval) : bool := negb (is_none v || py_eqb v (PStr "")).
Definition event_attributes_for_type (events : list event) (event_type : string) : list event :=
  select (fun e => String.eqb (e_type e) event_type) events.
Definition trace_ids (events : list event) : list string :=
  sorted_set (select (fun t => negb (is_empty t)) (map e_trace_id events)).
(** [max(..., default="")] *)
Definition latest_timestamp (events : list event) : string := foldl max_str "" (map e_timestamp events).

(** [set(previous.get(field) or []) != set(current.get(field) or [])] *)
Definition changed_material_fields (previous_payload current_payload : payload) : list string :=
  select (fun field =>
    negb (bool_decide (sorted_set (labels previous_payload field) = sorted_set (labels current_payload field))))
    MATERIAL_FIELDS.

Record fingerprint := mk_fingerprint {
  fp_subject_type : string;
  fp_subject_name : pyval;
  fp_payload : payload;
  fp_trace_ids : list string;
  fp_observed_at : string
}.
Definition fp_with_payload (p : payload) (f : fingerprint) : fingerprint :=
  mk_fingerprint (fp_subject_type f) (fp_subject_name f) p (fp_trace_ids f) (fp_observed_at f).
Definition fp_with_observed_at (t : string) (f : fingerprint) : fingerprint :=
  mk_fingerprint (fp_subject_type f) (fp_subject_name f) (fp_payload f) (fp_trace_ids f) t.

Section Lifecycle.
Context `{PyHost} `{Digest} `{SqlHost}.

Definition attribute_values (events : list event) (field : string) : list string :=
  map (fun e => py_str (attr e field)) (select (fun e => has_value (attr e field)) events).
Definition metadata_values (events : list event) (field : string) : list string :=
  map (fun e => py_str (meta e field)) (select (fun e => has_value (meta e field)) events).

Definition eval_thresholds (events : list event) : list string :=
  map (fun e => py_str (attr e "eval_name") +:+ ":" +:+ py_str (attr e "threshold"))
    (select (fun e => truthy (attr e "eval_name") && negb (is_none (attr e "threshold")))
      (event_attributes_for_type events "eval.result")).
Definition called_models (events : list event) : list string :=
  map (fun e => py_str (attr e "provider") +:+ ":" +:+ py_str (attr e "model"))
    (select (fun e => truthy (attr e "provider") && truthy (attr e "model"))
      (event_attributes_for_type events "model.call")).

(** the labels of one field, before they are sorted *)
Definition observed_labels : list (string * (list event -> list string)) :=
  [("agents", fun events => attribute_values events "agent_name"); ("eval_thresholds", eval_thresholds);
   ("evals", fun events => attribute_values events "eval_name");
   ("guardrails", fun events => attribute_values events "guardrail_name"); ("models", called_models);
   ("providers", fun events => attribute_values events "provider");
   ("retrievers", fun events => attribute_values events "retriever");
   ("tools", fun events => attribute_values events "tool_name");
   ("workflows", fun events => metadata_values events "workflow_name")].
Definition fingerprint_payload (events : list event) : payload :=
  map (fun field => (field.1, sorted_set (field.2 events))) observed_labels.

Definition of_workflow (workflow_name : string) (events : list event) : list event :=
  select (fun e => py_eqb (meta e "workflow_name") (PStr workflow_name)) events.

Definition subject_fingerprint (subject_type : string) (subject_name : pyval) (events : list event) : fingerprint :=
  mk_fingerprint subject_type subject_name (fingerprint_payload events) (trace_ids events) (latest_timestamp events).
Definition build_fingerprints (scope : event_scope) (events : list event) : list fingerprint :=
  subject_fingerprint "application" (es_application scope) events ::
  map (fun w => subject_fingerprint "workflow" (PStr w) (of_workflow w events))
    (labels (fingerprint_payload events) "workflows").

Definition hash_payload (p : payload) : string := sha256 (encode_json (payload_value p)).

(** ** Change events and their reviews *)

Definition scope_parts (scope : event_scope) : list (option string) :=
  let '(t, p, e, n) := scope in [part t; Some p; Some e; part n].
Definition _fingerprint_id (scope : event_scope) (subject_type : string) (subject_name : pyval) : string :=
  entity_id (Some "lifecycle-fingerprint" :: scope_parts scope ++ [Some subject_type; part subject_name]).
Definition change_key (scope : event_scope) (fp : fingerprint) (previous_hash current_hash : string) : string :=
  entity_id (Some "change-event" :: scope_parts scope ++
    [Some (fp_subject_type fp); part (fp_subject_name fp); Some previous_hash; Some current_hash]).
Definition change_task_key (change_id : string) : string := entity_id [Some "review-task"; Some change_id].

(** the columns a scope is bound to *)
Definition bind_scope (scope : event_scope) : res app_context :=
  let '(t, p, e, n) := scope in
  let! tenant := sql_text t in let! name := sql_text_not_null n in Ok (tenant, p, e, name).

Definition upsert_review_task (now : string) (app : app_context) (change_id : string) (fp : fingerprint)
    (severity rationale : string) (d : db) : db :=
  let priority := if String.eqb severity "High" then "high" else "medium" in
  let title := "Review " +:+ fp_subject_type fp +:+ " change: " +:+ py_str (fp_subject_name fp) in
  set_review_tasks
    (upsert rt_task_id
      (mk_review_task (change_task_key change_id) change_id (ctx_tenant app) (ctx_project app) (ctx_environment app)
         (ctx_application app) "material_change_review" "open" priority title rationale now now
         None None None "unassigned" None)
      (fun r => rt_with_updated_at now (rt_with_rationale rationale (rt_with_title title (rt_with_priority priority r))))
      (review_tasks d)) d.

Definition severity_of (changed_fields : list string) : string :=
  if existsb (fun f => mem f HIGH_RISK_FIELDS) changed_fields then "High" else "Medium".

Definition insert_change_event (now : string) (scope : event_scope) (fp : fingerprint)
    (previous_hash current_hash : string) (previous_payload : payload) (changed_fields : list string) (d : db)
    : res db :=
  let change_id := change_key scope fp previous_hash current_hash in
  let severity := severity_of changed_fields in
  let rationale := "Material " +:+ fp_subject_type fp +:+ " change detected in: " +:+ join ", " changed_fields in
  let! app := bind_scope scope in
  let! subject_name := sql_text_not_null (fp_subject_name fp) in
  let row := mk_change_event change_id (ctx_tenant app) (ctx_project app) (ctx_environment app) (ctx_application app)
    (fp_subject_type fp) subject_name "material_change" severity "open" (Some previous_hash) current_hash
    (payload_value previous_payload) (payload_value (fp_payload fp)) changed_fields (fp_trace_ids fp) rationale
    (fp_observed_at fp) in
  Ok (upsert_review_task now app change_id fp severity rationale
        (set_change_events (insert_or_ignore ce_change_id row (change_events d)) d)).

Definition upsert_fingerprint (now : string) (scope : event_scope) (d : db) (fp : fingerprint) : res db :=
  let fingerprint_hash := hash_payload (fp_payload fp) in
  let fingerprint_id := _fingerprint_id scope (fp_subject_type fp) (fp_subject_name fp) in
  let! d :=
    match lookup_key lf_fingerprint_id fingerprint_id (lifecycle_fingerprints d) with
    | None => Ok d
    | Some existing =>
        if String.eqb (lf_fingerprint_hash existing) fingerprint_hash then Ok d
        else
          let previous_payload := lf_fingerprint_payload existing in
          match changed_material_fields previous_payload (fp_payload fp) with
          | [] => Ok d
          | changed_fields => insert_change_event now scope fp (lf_fingerprint_hash existing) fingerprint_hash
                                previous_payload changed_fields d
          end
    end in
  let! app := bind_scope scope in
  let! subject_name := sql_text_not_null (fp_subject_name fp) in
  Ok (set_lifecycle_fingerprints
        (upsert lf_fingerprint_id
          (mk_fingerprint_row fingerprint_id (ctx_tenant app) (ctx_project app) (ctx_environment app)
             (ctx_application app) (fp_subject_type fp) subject_name fingerprint_hash (fp_payload fp)
             (fp_observed_at fp) (fp_observed_at fp))
          (fun r => lf_with_last_seen (fp_observed_at fp)
            (lf_with_fingerprint_payload (fp_payload fp) (lf_with_fingerprint_hash fingerprint_hash r)))
          (lifecycle_fingerprints d)) d).

(** ** Folding a batch *)

Definition merge_stored (scope : event_scope) (d : db) (fp : fingerprint) : fingerprint :=
  match lookup_key lf_fingerprint_id (_fingerprint_id scope (fp_subject_type fp) (fp_subject_name fp))
          (lifecycle_fingerprints d) with
  | None => fp
  | Some row => fp_with_observed_at (max_str (lf_last_seen row) (fp_observed_at fp))
                  (fp_with_payload (_merge_payload (lf_fingerprint_payload row) (fp_payload fp)) fp)
  end.
Definition fold_fingerprint (now : string) (scope : event_scope) (d : db) (fp : fingerprint) : res db :=
  upsert_fingerprint now scope d (merge_stored scope d fp).

Definition fold_fingerprints (now : string) (d : db) (group : event_scope * list event) : res db :=
  let (scope, batch) := group in
  let! bound := bound_scope scope in
  match bound with
  | None => Ok d
  | Some app =>
      if negb (application_is_registered app d) then Ok d
      else rfold (fold_fingerprint now scope) d (build_fingerprints scope batch)
  end.

(** one transaction *)
Definition fold_batch_fingerprints (now : string) (events : list event) (d : db) : res db :=
  let! groups := events_by_app_scope events in rfold (fold_fingerprints now) d groups.

(** ** Rebuilding from the stored events *)

(** a row's scope, as the values read from its columns *)
Definition stored_scope (app : app_context) : event_scope :=
  (opt_value (ctx_tenant app), ctx_project app, ctx_environment app, PStr (ctx_application app)).
Definition _applications_in_scope (scopes : option (list event_scope)) (d : db) : list app_context :=
  let rows := select_distinct (fun r => (ga_tenant_id r, ga_project r, ga_environment r, ga_application_name r))
    (governance_applications d) in
  match scopes with
  | None => rows
  | Some wanted => select (fun app => existsb (fun s => scope_eqb s (stored_scope app)) wanted) rows
  end.

Definition list_application_events (app : app_context) (d : db) : list event :=
  map ev_raw_event (order_by (fun a b => (ev_id a <=? ev_id b)%Z)
    (select (fun r => match ev_application_name r with
                      | Some name => in_app_scope app (ev_tenant_id r) (ev_project r) (ev_environment r) name
                      | None => false
                      end) (sdk_events d))).

Definition refresh_lifecycle_state (now : string) (scopes : option (list event_scope)) (d : db) : res db :=
  rfold (fun d app =>
    rfold (upsert_fingerprint now (stored_scope app)) d
      (build_fingerprints (stored_scope app) (list_application_events app d)))
    d (_applications_in_scope scopes d).
End Lifecycle.
