(* ===== verification/LifecycleRules.v ===== *)
(** * What fingerprinting guarantees

    Folding batch after batch gives a subject the fingerprint a rebuild from all
    its events would give, and no change of a material label set goes without a
    change event and a review. *)

From stdpp Require Import base list strings option pretty sets gmap.
From Stdlib Require Import ZArith Lia.
From S2P Require Import Prelude Py Json JsonText Sql Events Schema Scope Inventory Lifecycle LedgerRules Controls.

Open Scope nat_scope.

(** ** Payloads of joined batches *)

Lemma sorted_set_union a b : sorted_set (sorted_set a ++ sorted_set b) = sorted_set (a ++ b).
Proof. apply sorted_set_ext. intros x. by rewrite !elem_of_app, !elem_of_sorted_set. Qed.

Section Payloads.
Context `{PyHost} `{Digest} `{SqlHost}.

Lemma attribute_values_app field a b :
  attribute_values (a ++ b) field = attribute_values a field ++ attribute_values b field.
Proof. unfold attribute_values. by rewrite select_app, map_app. Qed.
Lemma metadata_values_app field a b :
  metadata_values (a ++ b) field = metadata_values a field ++ metadata_values b field.
Proof. unfold metadata_values. by rewrite select_app, map_app. Qed.

Lemma observed_labels_app : Forall (fun field => forall a b, field.2 (a ++ b) = field.2 a ++ field.2 b) observed_labels.
Proof.
  unfold observed_labels, eval_thresholds, called_models, event_attributes_for_type.
  repeat constructor; intros a b; cbn [snd];
    first [apply attribute_values_app | apply metadata_values_app | by rewrite !select_app, map_app].
Qed.

Lemma payload_fields events : map fst (fingerprint_payload events) = MATERIAL_FIELDS.
Proof. reflexivity. Qed.

Lemma labels_of_fields (fields : list (string * (list event -> list string))) field events :
  field ∈ fields -> NoDup (map fst fields) ->
  labels (map (fun f => (f.1, sorted_set (f.2 events))) fields) field.1 = sorted_set (field.2 events).
Proof.
  unfold labels. induction fields as [|f fields IH]; intros Hin Hn; [by apply elem_of_nil in Hin|].
  cbn [map fst] in *. apply NoDup_cons in Hn as [Hf Hn]. rewrite assoc_cons.
  destruct (String.eqb_spec f.1 field.1) as [E|E].
  - apply elem_of_cons in Hin as [->|Hin]; [done|]. exfalso. apply Hf. rewrite E. by apply list_elem_of_fmap_2.
  - apply elem_of_cons in Hin as [->|Hin]; [done|]. by apply IH.
Qed.

Lemma fields_unique : NoDup (map fst observed_labels).
Proof. change (NoDup MATERIAL_FIELDS). apply (bool_decide_eq_true_1 _). by vm_compute. Qed.

(** the labels of two batches joined are the union of their labels *)
Lemma merge_is_join a b :
  _merge_payload (fingerprint_payload a) (fingerprint_payload b) = fingerprint_payload (a ++ b).
Proof.
  unfold _merge_payload. rewrite !payload_fields.
  replace (sorted_set (MATERIAL_FIELDS ++ MATERIAL_FIELDS)) with (map fst observed_labels) by (by vm_compute).
  rewrite map_map. unfold fingerprint_payload. apply map_ext_in. intros field Hf%list_elem_of_In.
  rewrite !labels_of_fields by (apply fields_unique || done). rewrite sorted_set_union.
  pose proof observed_labels_app as Happ. rewrite Forall_forall in Happ. by rewrite (Happ _ Hf).
Qed.

Lemma foldl_max_str s l : foldl max_str s l = max_str s (foldl max_str "" l).
Proof.
  revert s. induction l as [|t l IH]; intros s; cbn [foldl]; [unfold max_str; by destruct s|].
  rewrite (IH (max_str s t)), (IH (max_str "" t)), max_str_empty. apply max_str_assoc.
Qed.
Lemma latest_app a b : latest_timestamp (a ++ b) = max_str (latest_timestamp a) (latest_timestamp b).
Proof. unfold latest_timestamp. by rewrite map_app, foldl_app, foldl_max_str. Qed.

(** ** One subject's fingerprint *)

Variable scope : event_scope.

(** what the table says of a subject *)
Definition stored_fingerprint (d : db) (ty : string) (name : pyval) : option (payload * string * string) :=
  (fun r => (lf_fingerprint_payload r, lf_fingerprint_hash r, lf_last_seen r)) <$>
  lookup_key lf_fingerprint_id (_fingerprint_id scope ty name) (lifecycle_fingerprints d).
Definition fingerprint_of (events : list event) : payload * string * string :=
  (fingerprint_payload events, hash_payload (fingerprint_payload events), latest_timestamp events).

Lemma change_keeps_fingerprints now fp h h' p l d d' :
  insert_change_event now scope fp h h' p l d = Ok d' -> lifecycle_fingerprints d' = lifecycle_fingerprints d.
Proof.
  unfold insert_change_event. intros (app & _ & (sn & _ & Hd)%rbind_Ok)%rbind_Ok.
  by apply (f_equal (fun r => match r with Ok x => lifecycle_fingerprints x | Raise _ => [] end)) in Hd.
Qed.

(** the table after an upsert *)
Lemma upsert_stores now d fp d' : upsert_fingerprint now scope d fp = Ok d' ->
  exists app subject_name,
    lifecycle_fingerprints d' = upsert lf_fingerprint_id
      (mk_fingerprint_row (_fingerprint_id scope (fp_subject_type fp) (fp_subject_name fp)) (ctx_tenant app)
         (ctx_project app) (ctx_environment app) (ctx_application app) (fp_subject_type fp) subject_name
         (hash_payload (fp_payload fp)) (fp_payload fp) (fp_observed_at fp) (fp_observed_at fp))
      (fun r => lf_with_last_seen (fp_observed_at fp)
         (lf_with_fingerprint_payload (fp_payload fp) (lf_with_fingerprint_hash (hash_payload (fp_payload fp)) r)))
      (lifecycle_fingerprints d).
Proof.
  unfold upsert_fingerprint. intros (d1 & Hchange & (app & _ & (sn & _ & Hd)%rbind_Ok)%rbind_Ok)%rbind_Ok.
  apply (f_equal (fun r => match r with Ok x => lifecycle_fingerprints x | Raise _ => [] end)) in Hd.
  cbn [lifecycle_fingerprints set_lifecycle_fingerprints] in Hd. exists app, sn. rewrite <-Hd. f_equal.
  destruct (lookup_key _ _ _) as [r|]; [|by injection Hchange as ->]. destruct (String.eqb _ _); [by injection Hchange as ->|].
  destruct (changed_material_fields _ _); [by injection Hchange as ->|]. by apply change_keeps_fingerprints in Hchange.
Qed.


Lemma upsert_fingerprint_view now d fp d' ty name : upsert_fingerprint now scope d fp = Ok d' ->
  stored_fingerprint d' ty name =
  if decide (_fingerprint_id scope (fp_subject_type fp) (fp_subject_name fp) = _fingerprint_id scope ty name)
  then Some (fp_payload fp, hash_payload (fp_payload fp), fp_observed_at fp) else stored_fingerprint d ty name.
Proof.
  intros (app & sn & Hd)%upsert_stores. unfold stored_fingerprint. rewrite Hd, lookup_key_upsert by done.
  cbn [lf_fingerprint_id]. case_decide as E; [|done].
  by destruct (lookup_key lf_fingerprint_id _ (lifecycle_fingerprints d)).
Qed.

(** ** Subjects of one application have identifiers of their own *)

(** the application and the workflows [names]; no two of the texts their
    identifiers hash share a digest *)
Variable names : list string.

Definition subject_key (ty : string) (name : pyval) : string :=
  entity_key (Some "lifecycle-fingerprint" :: scope_parts scope ++ [Some ty; part name]).
Definition subject_keys : list string :=
  subject_key "application" (es_application scope) :: map (fun w => subject_key "workflow" (PStr w)) names.

Hypothesis distinct_ids : no_collision subject_keys.
Hypothesis no_empty : "" ∉ names.

(** the subjects of the application: itself and its workflows *)
Definition is_subject (ty : string) (name : pyval) : Prop :=
  (ty = "application" /\ name = es_application scope) \/ (ty = "workflow" /\ exists w, name = PStr w /\ w ∈ names).

Lemma subject_key_in ty name : is_subject ty name -> subject_key ty name ∈ subject_keys.
Proof.
  intros [[-> ->]|[-> (w & -> & Hw)]]; [by left|right]. by apply (list_elem_of_fmap_2 (fun w => subject_key "workflow" (PStr w))).
Qed.

Lemma subject_key_inj ty name ty' name' : is_subject ty name -> is_subject ty' name' ->
  subject_key ty name = subject_key ty' name' -> ty = ty' /\ default "" (part name) = default "" (part name').
Proof.
  unfold subject_key, entity_key, scope_parts. destruct scope as [[[t p] e] n]. intros Hty Hty' E.
  cbn [map app] in E. unfold join in E. cbn [String.concat] in E. do 10 apply append_cancel_l in E. revert E.
  destruct Hty as [[-> _]|[-> _]], Hty' as [[-> _]|[-> _]]; cbn [default]; intros E; try discriminate E.
  all: split; [done|]; by do 2 apply append_cancel_l in E.
Qed.

Lemma fingerprint_id_inj ty name ty' name' : is_subject ty name -> is_subject ty' name' ->
  _fingerprint_id scope ty name = _fingerprint_id scope ty' name' ->
  ty = ty' /\ default "" (part name) = default "" (part name').
Proof.
  intros Hs Hs' E. apply subject_key_inj; [done..|]. apply distinct_ids; [by apply subject_key_in..|exact E].
Qed.

(** ** Events of a workflow *)

Lemma py_eqb_text v w : py_eqb v (PStr w) = true <-> v = PStr w.
Proof.
  split; [|intros ->; apply String.eqb_refl]. destruct v as [| | |[|[]|]|s| |]; try discriminate. by intros ->%String.eqb_eq.
Qed.

Lemma of_workflow_app w a b : of_workflow w (a ++ b) = of_workflow w a ++ of_workflow w b.
Proof. apply select_app. Qed.

Lemma workflows_app a b :
  labels (fingerprint_payload (a ++ b)) "workflows" =
  sorted_set (metadata_values a "workflow_name" ++ metadata_values b "workflow_name").
Proof. rewrite <-metadata_values_app. reflexivity. Qed.
Lemma elem_of_workflows w events :
  w ∈ labels (fingerprint_payload events) "workflows" <-> w ∈ metadata_values events "workflow_name".
Proof. change (labels _ _) with (sorted_set (metadata_values events "workflow_name")). apply elem_of_sorted_set. Qed.

Lemma of_workflow_nil w events : w <> "" -> w ∉ labels (fingerprint_payload events) "workflows" ->
  of_workflow w events = [].
Proof.
  rewrite elem_of_workflows. intros Hw Hn. apply elem_of_nil_inv. intros e [He Hin]%elem_of_select.
  apply py_eqb_text in He. apply Hn. unfold metadata_values. apply list_elem_of_fmap. exists e. rewrite He. split; [done|].
  apply elem_of_select. split; [|done]. rewrite He. unfold has_value. cbn. by destruct w.
Qed.

(** ** The fingerprints of an application *)

(** what a rebuild writes for a subject *)
Definition rebuilt (events : list event) (ty : string) (name : pyval) : option (payload * string * string) :=
  if String.eqb ty "application" then Some (fingerprint_of events)
  else match name with
       | PStr w => if bool_decide (w ∈ labels (fingerprint_payload events) "workflows")
                   then Some (fingerprint_of (of_workflow w events)) else None
       | _ => None
       end.

(** every workflow the events name is one of [names] *)
Definition named (events : list event) : Prop :=
  forall w, w ∈ labels (fingerprint_payload events) "workflows" -> w ∈ names.

Definition fp_id (fp : fingerprint) : string := _fingerprint_id scope (fp_subject_type fp) (fp_subject_name fp).

Lemma build_subjects events :
  map (fun fp => (fp_subject_type fp, fp_subject_name fp)) (build_fingerprints scope events) =
  ("application", es_application scope) :: map (fun w => ("workflow", PStr w)) (labels (fingerprint_payload events) "workflows").
Proof. unfold build_fingerprints. cbn [map]. by rewrite map_map. Qed.

Lemma application_subject : is_subject "application" (es_application scope).
Proof. by left. Qed.
Lemma workflow_subject w : w ∈ names -> is_subject "workflow" (PStr w).
Proof. intros Hw. right. split; [done|by exists w]. Qed.

Lemma build_ids events : named events -> NoDup (map fp_id (build_fingerprints scope events)).
Proof.
  intros Hnamed. unfold build_fingerprints. cbn [map]. rewrite map_map. constructor.
  - intros (w & Hw & Hin)%list_elem_of_fmap.
    apply fingerprint_id_inj in Hw as [Hw _]; [discriminate|apply application_subject|by apply workflow_subject, Hnamed].
  - apply NoDup_fmap_2_strong; [|change (labels _ _) with (sorted_set (metadata_values events "workflow_name")); apply sorted_set_NoDup].
    intros v w Hv Hw E. unfold fp_id in E.
    apply fingerprint_id_inj in E as [_ E]; [done|by apply workflow_subject, Hnamed..].
Qed.

(** each of a list of fingerprints with identifiers of their own is written once *)
Lemma upserts_view (prepare : db -> fingerprint -> fingerprint) now l : forall d d',
  (forall d fp, fp_subject_type (prepare d fp) = fp_subject_type fp /\ fp_subject_name (prepare d fp) = fp_subject_name fp) ->
  (forall d d' fp, stored_fingerprint d (fp_subject_type fp) (fp_subject_name fp) =
                   stored_fingerprint d' (fp_subject_type fp) (fp_subject_name fp) -> prepare d fp = prepare d' fp) ->
  NoDup (map fp_id l) ->
  rfold (fun d fp => upsert_fingerprint now scope d (prepare d fp)) d l = Ok d' ->
  (forall fp, fp ∈ l -> stored_fingerprint d' (fp_subject_type fp) (fp_subject_name fp) =
     Some (fp_payload (prepare d fp), hash_payload (fp_payload (prepare d fp)), fp_observed_at (prepare d fp))) /\
  (forall ty name, _fingerprint_id scope ty name ∉ map fp_id l ->
     stored_fingerprint d' ty name = stored_fingerprint d ty name).
Proof.
  induction l as [|fp l IH]; intros d d' Hsame Hlocal Hn Hd; cbn [rfold map] in *.
  - injection Hd as <-. split; [by intros fp ?%elem_of_nil|done].
  - apply rbind_Ok in Hd as (d1 & Hd1 & Hd). apply NoDup_cons in Hn as [Hfp Hn].
    destruct (IH d1 d' Hsame Hlocal Hn Hd) as [Hin Hout]. destruct (Hsame d fp) as [Ht Hm].
    pose proof (fun ty name => upsert_fingerprint_view _ _ _ _ ty name Hd1) as Hv. rewrite Ht, Hm in Hv. split.
    + intros fp' [->|Hfp']%elem_of_cons.
      * rewrite Hout by done. rewrite Hv. by rewrite decide_True.
      * assert (prepare d1 fp' = prepare d fp') as <-; [|by apply Hin]. apply Hlocal. rewrite Hv, decide_False; [done|].
        intros E. apply Hfp. unfold fp_id at 1. rewrite E. by apply (list_elem_of_fmap_2 fp_id).
    + intros ty name [Hne Ho]%not_elem_of_cons. rewrite (Hout _ _ Ho), Hv, decide_False; [done|]. by intros E.
Qed.

Lemma not_built ty name events : named events -> is_subject ty name -> rebuilt events ty name = None ->
  _fingerprint_id scope ty name ∉ map fp_id (build_fingerprints scope events).
Proof.
  intros Hnamed Hs Hr (fp & E & Hfp)%list_elem_of_fmap.
  unfold build_fingerprints in Hfp. apply elem_of_cons in Hfp as [->|(w & -> & Hw)%list_elem_of_fmap].
  - apply fingerprint_id_inj in E as [-> _]; [|done|apply application_subject]. discriminate Hr.
  - apply fingerprint_id_inj in E as [-> E]; [|done|by apply workflow_subject, Hnamed].
    destruct Hs as [[? _]|[_ (v & -> & Hv)]]; [done|].
    cbn in E. subst v. unfold rebuilt in Hr. cbn [String.eqb Ascii.eqb Bool.eqb] in Hr. by rewrite bool_decide_eq_true_2 in Hr.
Qed.

Lemma built ty name events : is_subject ty name -> is_Some (rebuilt events ty name) ->
  exists fp, fp ∈ build_fingerprints scope events /\ fp_subject_type fp = ty /\ fp_subject_name fp = name /\
    rebuilt events ty name = Some (fp_payload fp, hash_payload (fp_payload fp), fp_observed_at fp).
Proof.
  intros [[-> ->]|[-> (w & -> & Hw)]] Hr.
  - exists (subject_fingerprint "application" (es_application scope) events). repeat split. by left.
  - unfold rebuilt in *. cbn [String.eqb Ascii.eqb Bool.eqb] in *. case_bool_decide as Hin; [|by destruct Hr].
    exists (subject_fingerprint "workflow" (PStr w) (of_workflow w events)). repeat split. right. apply list_elem_of_fmap. by exists w.
Qed.

(** ** Folding batches *)

Lemma merged_view d fp : fp_subject_type (merge_stored scope d fp) = fp_subject_type fp /\
  fp_subject_name (merge_stored scope d fp) = fp_subject_name fp.
Proof. unfold merge_stored. by destruct (lookup_key _ _ _). Qed.
Lemma merged_local d d' fp :
  stored_fingerprint d (fp_subject_type fp) (fp_subject_name fp) =
  stored_fingerprint d' (fp_subject_type fp) (fp_subject_name fp) -> merge_stored scope d fp = merge_stored scope d' fp.
Proof.
  unfold stored_fingerprint, merge_stored. destruct (lookup_key _ _ _) as [r|], (lookup_key _ _ _) as [r'|]; try done.
  intros E. pose proof (f_equal (from_option (fun q => q.1.1) []) E) as Hp.
  pose proof (f_equal (from_option (fun q => q.2) "") E) as Hl. cbn [fmap option_fmap option_map from_option fst snd] in Hp, Hl.
  by rewrite Hp, Hl.
Qed.

Lemma merged_subject d ty name seen batch :
  stored_fingerprint d ty name = Some (fingerprint_of seen) ->
  merge_stored scope d (subject_fingerprint ty name batch) =
  fp_with_observed_at (latest_timestamp (seen ++ batch))
    (fp_with_payload (fingerprint_payload (seen ++ batch)) (subject_fingerprint ty name batch)).
Proof.
  unfold stored_fingerprint, merge_stored. cbn [fp_subject_type fp_subject_name subject_fingerprint].
  destruct (lookup_key _ _ _) as [r|]; [|done]. intros E.
  pose proof (f_equal (from_option (fun q => q.1.1) []) E) as Hp.
  pose proof (f_equal (from_option (fun q => q.2) "") E) as Hl.
  cbn [fmap option_fmap option_map from_option fst snd fingerprint_of] in Hp, Hl.
  cbn [fp_payload fp_observed_at subject_fingerprint]. by rewrite Hp, Hl, merge_is_join, latest_app.
Qed.
Lemma merged_new d ty name batch : stored_fingerprint d ty name = None ->
  merge_stored scope d (subject_fingerprint ty name batch) = subject_fingerprint ty name batch.
Proof.
  unfold stored_fingerprint, merge_stored. cbn [fp_subject_type fp_subject_name subject_fingerprint].
  by destruct (lookup_key _ _ _).
Qed.

(** the table holds what a rebuild from these batches would write *)
Definition up_to_date (batches : list (list event)) (d : db) : Prop :=
  forall ty name, is_subject ty name ->
    stored_fingerprint d ty name = match batches with [] => None | _ => rebuilt (concat batches) ty name end.

Lemma rebuilt_workflow w events : rebuilt events "workflow" (PStr w) =
  if bool_decide (w ∈ labels (fingerprint_payload events) "workflows")
  then Some (fingerprint_of (of_workflow w events)) else None.
Proof. reflexivity. Qed.

Lemma elem_of_workflows_app w a b : w ∈ labels (fingerprint_payload (a ++ b)) "workflows" <->
  w ∈ labels (fingerprint_payload a) "workflows" \/ w ∈ labels (fingerprint_payload b) "workflows".
Proof. by rewrite !elem_of_workflows, metadata_values_app, elem_of_app. Qed.

Lemma fold_step now seen batch d d' : named batch -> up_to_date seen d ->
  rfold (fold_fingerprint now scope) d (build_fingerprints scope batch) = Ok d' -> up_to_date (seen ++ [batch]) d'.
Proof.
  intros Hnamed Hseen Hd.
  destruct (upserts_view (merge_stored scope) now _ d d' merged_view merged_local (build_ids batch Hnamed) Hd)
    as [Hin Hout]. intros ty name Hs.
  assert ((match seen ++ [batch] with [] => None | _ => rebuilt (concat (seen ++ [batch])) ty name end) =
    rebuilt (concat seen ++ batch) ty name) as ->.
  { rewrite concat_app. cbn [concat]. rewrite app_nil_r. by destruct seen. }
  specialize (Hseen ty name Hs). destruct Hs as [[-> ->]|[-> (w & -> & Hw)]].
  - rewrite (Hin (subject_fingerprint "application" (es_application scope) batch)) by (by left).
    destruct seen as [|b seen]; [by rewrite merged_new|]. by erewrite merged_subject.
  - assert (stored_fingerprint d "workflow" (PStr w) = rebuilt (concat seen) "workflow" (PStr w)) as Hd0 by (by destruct seen).
    assert (w <> "") as Hempty by (intros ->; by apply no_empty).
    rewrite rebuilt_workflow in Hd0 |- *. destruct (decide (w ∈ labels (fingerprint_payload batch) "workflows")) as [Hb|Hb].
    + rewrite (Hin (subject_fingerprint "workflow" (PStr w) (of_workflow w batch)))
        by (right; apply list_elem_of_fmap; by exists w).
      rewrite (bool_decide_eq_true_2 (w ∈ labels (fingerprint_payload (concat seen ++ batch)) "workflows"))
        by (apply elem_of_workflows_app; by right).
      case_bool_decide as Ha; [by erewrite merged_subject, of_workflow_app|].
      rewrite merged_new by done. by rewrite of_workflow_app, (of_workflow_nil w (concat seen)).
    + rewrite Hout by (apply not_built; [done|by apply workflow_subject|]; rewrite rebuilt_workflow, bool_decide_eq_false_2 by done; done).
      rewrite Hd0, of_workflow_app, (of_workflow_nil w batch), app_nil_r by done.
      rewrite (bool_decide_ext _ (w ∈ labels (fingerprint_payload (concat seen ++ batch)) "workflows")); [done|].
      rewrite elem_of_workflows_app. tauto.
Qed.

Lemma rebuild_step now events d d' : named events -> (forall ty name, is_subject ty name -> stored_fingerprint d ty name = None) ->
  rfold (upsert_fingerprint now scope) d (build_fingerprints scope events) = Ok d' ->
  forall ty name, is_subject ty name -> stored_fingerprint d' ty name = rebuilt events ty name.
Proof.
  intros Hnamed Hnone Hd ty name Hs.
  destruct (upserts_view (fun _ fp => fp) now _ d d' ltac:(done) ltac:(done) (build_ids events Hnamed) Hd) as [Hin Hout].
  destruct (rebuilt events ty name) as [q|] eqn:Hr.
  - destruct (built ty name events Hs) as (fp & Hfp & <- & <- & Hq); [by rewrite Hr|]. by rewrite (Hin fp Hfp), <-Hr, Hq.
  - rewrite Hout by (by apply not_built). by apply Hnone.
Qed.
End Payloads.

Section Rebuild.
Context `{PyHost} `{Digest} `{SqlHost}.

Lemma fold_registered now d scope app batch : bound_scope scope = Ok (Some app) -> application_is_registered app d = true ->
  fold_fingerprints now d (scope, batch) = rfold (fold_fingerprint now scope) d (build_fingerprints scope batch).
Proof. intros Hb Ha. unfold fold_fingerprints. rewrite Hb. cbn [rbind]. by rewrite Ha. Qed.

Lemma upsert_applications now scope d fp d' : upsert_fingerprint now scope d fp = Ok d' ->
  governance_applications d' = governance_applications d.
Proof.
  unfold upsert_fingerprint. intros (d1 & Hd1 & (app & _ & (sn & _ & Hd)%rbind_Ok)%rbind_Ok)%rbind_Ok.
  apply (f_equal (fun r => match r with Ok x => governance_applications x | Raise _ => [] end)) in Hd. rewrite <-Hd.
  change (governance_applications d1 = governance_applications d). clear Hd.
  destruct (lookup_key _ _ _) as [r|]; [|by injection Hd1 as ->]. destruct (String.eqb _ _); [by injection Hd1 as ->|].
  destruct (changed_material_fields _ _); [by injection Hd1 as ->|].
  unfold insert_change_event in Hd1. apply rbind_Ok in Hd1 as (app' & _ & (sn' & _ & Hd1)%rbind_Ok).
  by apply (f_equal (fun r => match r with Ok x => governance_applications x | Raise _ => [] end)) in Hd1.
Qed.

Lemma named_concat names batches batch : named names (concat batches) -> batch ∈ batches -> named names batch.
Proof.
  intros Hn Hb w Hw. apply Hn. rewrite elem_of_workflows in Hw |- *. unfold metadata_values in *.
  apply list_elem_of_fmap in Hw as (e & -> & [He Hin]%elem_of_select). apply (list_elem_of_fmap_2 (fun e => py_str (meta e _))).
  apply elem_of_select. split; [done|]. apply list_elem_of_In, in_concat. exists batch. split; by apply list_elem_of_In.
Qed.

(** C20. Folding a registered application's events batch after batch leaves its
    fingerprints exactly as a rebuild from all of its events would write them:
    for the application itself and every named workflow, the same label sets, the
    same hash and the same time, and no fingerprint one way that is missing the
    other way.  The one thing assumed of SHA-256 is that no two of the texts
    hashed into the identifiers of these very subjects share a digest. *)
Theorem fold_is_rebuild names now scope app batches d d' d'' :
  bound_scope scope = Ok (Some app) -> application_is_registered app d = true -> batches <> [] ->
  named names (concat (map snd batches)) -> "" ∉ names -> no_collision (subject_keys scope names) ->
  (forall ty name, stored_fingerprint scope d ty name = None) ->
  rfold (fun d b => fold_fingerprints b.1 d (scope, b.2)) d batches = Ok d' ->
  rfold (upsert_fingerprint now scope) d (build_fingerprints scope (concat (map snd batches))) = Ok d'' ->
  forall ty name, is_subject scope names ty name ->
    stored_fingerprint scope d' ty name = stored_fingerprint scope d'' ty name.
Proof.
  intros Hb Ha Hne Hnamed Hempty Hinj Hnone Hfold Hre ty name Hs.
  rewrite (rebuild_step scope names Hinj _ _ _ _ Hnamed (fun ty n _ => Hnone ty n) Hre ty name Hs).
  enough (forall seen d, application_is_registered app d = true -> up_to_date scope names seen d ->
    rfold (fun d b => fold_fingerprints b.1 d (scope, b.2)) d batches = Ok d' ->
    up_to_date scope names (seen ++ map snd batches) d') as Hall.
  { rewrite (Hall [] d Ha ltac:(intros ? ? ?; apply Hnone) Hfold ty name Hs). by destruct batches. }
  clear Hnone Hfold Hre Ha d d'' Hne.
  assert (forall b, b ∈ map snd batches -> named names b) as Hall by (intros b; by apply named_concat). clear Hnamed.
  induction batches as [|[t batch] batches IH]; intros seen d Ha Hseen Hd; cbn [rfold map fst snd] in *.
  - injection Hd as <-. by rewrite app_nil_r.
  - apply rbind_Ok in Hd as (d1 & Hd1 & Hd). rewrite (fold_registered _ _ _ _ _ Hb Ha) in Hd1.
    assert (governance_applications d1 = governance_applications d) as Happs.
    { refine (rfold_ind (fun x => governance_applications x = governance_applications d) _ d _ d1 Hd1 eq_refl _).
      intros x fp y _ Hy Hx. by rewrite (upsert_applications _ _ _ _ _ Hy). }
    apply (fold_step scope names Hinj Hempty _ _ _ _ _ (Hall batch ltac:(by left)) Hseen) in Hd1.
    apply (IH ltac:(intros b Hin; apply Hall; by right) (seen ++ [batch])) in Hd; [by rewrite <-app_assoc in Hd| |done].
    unfold application_is_registered. by rewrite Happs.
Qed.
End Rebuild.

(** ** The text of a payload determines it *)

Section Text.
Context `{PyHost} `{Digest} `{SqlHost}.

Definition list_text (l : list string) : string := "[" +:+ join ", " (map quote l) +:+ "]".

Lemma list_text_value l : encode_json (PList (map PStr l)) = list_text l.
Proof. unfold encode_json, list_text. cbn [dumps]. by rewrite map_map. Qed.

Lemma quotes_cancel l : forall l' r r', join ", " (map quote l) +:+ ("]" +:+ r) = join ", " (map quote l') +:+ ("]" +:+ r') ->
  l = l' /\ r = r'.
Proof.
  assert (forall s k u, join ", " (map quote (s :: k)) +:+ u =
    quote s +:+ match k with [] => u | _ => ", " +:+ (join ", " (map quote k) +:+ u) end) as Hcons.
  { intros s [|t k] u; [done|]. cbn [map]. by rewrite join_cons, !append_assoc. }
  induction l as [|s l IH]; intros [|s' l'] r r' E.
  - by do 2 apply append_cancel_l in E.
  - rewrite Hcons in E. discriminate E.
  - rewrite Hcons in E. discriminate E.
  - rewrite !Hcons in E. apply quote_cancel in E as [-> E]. destruct l as [|t l], l' as [|t' l']; try discriminate E.
    + by apply append_cancel_l in E.
    + apply append_cancel_l in E. by apply IH in E as [-> ->].
Qed.

Lemma list_text_cancel l l' r r' : list_text l +:+ r = list_text l' +:+ r' -> l = l' /\ r = r'.
Proof. unfold list_text. rewrite !append_assoc. intros E%append_cancel_l. by apply quotes_cancel. Qed.

(** the items of a payload with these keys, from one on *)
Definition item_text (kv : string * list string) : string := quote kv.1 +:+ ": " +:+ list_text kv.2.

Lemma items_cancel p : forall q r r', map fst p = map fst q -> p <> [] ->
  join ", " (map item_text p) +:+ r = join ", " (map item_text q) +:+ r' -> p = q.
Proof.
  induction p as [|[k l] p IH]; intros [|[k' l'] q] r r' Hk Hne E; try done. injection Hk as <- Hk.
  assert (forall x k u, join ", " (map item_text (x :: k)) +:+ u =
    quote x.1 +:+ (": " +:+ (list_text x.2 +:+ match k with [] => u | _ => ", " +:+ (join ", " (map item_text k) +:+ u) end))) as Hcons.
  { intros x [|y m] u; cbn [map]; [change (join _ _) with (item_text x)|rewrite join_cons]; unfold item_text at 1;
      by rewrite !append_assoc. }
  rewrite !Hcons in E. cbn [fst snd] in E. apply quote_cancel in E as [_ E]. apply append_cancel_l in E.
  apply list_text_cancel in E as [-> E]. f_equal. destruct p as [|x p], q as [|y q]; try done.
  apply append_cancel_l in E. by apply (IH _ r r').
Qed.

Definition well_formed (p : payload) : Prop := map fst p = MATERIAL_FIELDS.

Lemma sorted_fields {A B} (f : string * A -> B) (p : list (string * A)) : map fst p = MATERIAL_FIELDS ->
  sort_items (map (fun kv => (kv.1, f kv)) p) = map (fun kv => (kv.1, f kv)) p.
Proof.
  intros Hp. do 9 (destruct p as [|[? ?] p]; [discriminate|]; cbn [map fst] in Hp).
  destruct p; [|discriminate]. injection Hp as -> -> -> -> -> -> -> -> ->. reflexivity.
Qed.

Lemma payload_text p : well_formed p -> encode_json (payload_value p) = "{" +:+ join ", " (map item_text p) +:+ "}".
Proof.
  intros Hp. unfold encode_json, payload_value. cbn [dumps].
  assert (forall q : payload, (fix go (d : list (string * pyval)) := match d with [] => [] | (k, x) :: d' => (k, dumps ", " ": " x) :: go d' end)
    (map (fun kv => (kv.1, PList (map PStr kv.2))) q) = map (fun kv => (kv.1, list_text kv.2)) q) as Hgo.
  { intros q. induction q as [|[k l] q IH]; [done|]. cbn [map fst snd]. rewrite IH. f_equal. f_equal. apply list_text_value. }
  rewrite Hgo, (sorted_fields (fun kv => list_text kv.2)) by done. by rewrite map_map.
Qed.

(** what [hash_payload] hashes *)
Definition hashed_text (p : payload) : string := encode_json (payload_value p).

Lemma hash_payload_inj p q : no_collision [hashed_text p; hashed_text q] ->
  well_formed p -> well_formed q -> hash_payload p = hash_payload q -> p = q.
Proof.
  intros Hinj Hp Hq E. apply Hinj in E; [|by left|by right; left]. unfold hashed_text in E.
  rewrite !payload_text in E by done. apply append_cancel_l in E.
  apply items_cancel in E; [done|by rewrite Hp, Hq|]. by intros ->.
Qed.
End Text.

(** ** Changes on record *)

Section Changes.
Context `{PyHost} `{Digest} `{SqlHost}.

(** a row holds the hash of its own payload *)
Definition fits (r : fingerprint_row) : Prop :=
  well_formed (lf_fingerprint_payload r) /\ lf_fingerprint_hash r = hash_payload (lf_fingerprint_payload r).

Lemma merged_labels a b field : well_formed a -> well_formed b -> field ∈ MATERIAL_FIELDS ->
  labels (_merge_payload a b) field = sorted_set (labels a field ++ labels b field).
Proof.
  intros Ha Hb Hf. unfold _merge_payload. rewrite Ha, Hb.
  replace (sorted_set (MATERIAL_FIELDS ++ MATERIAL_FIELDS)) with MATERIAL_FIELDS by (by vm_compute).
  unfold labels at 1. revert Hf. generalize MATERIAL_FIELDS. intros l Hf. induction l as [|f l IH]; [by apply elem_of_nil in Hf|].
  cbn [map]. rewrite assoc_cons. destruct (String.eqb_spec f field) as [->|Hne]; [done|]. apply IH.
  by apply elem_of_cons in Hf as [->|Hf].
Qed.
Lemma merged_well_formed a b : well_formed a -> well_formed b -> well_formed (_merge_payload a b).
Proof. intros Ha Hb. unfold well_formed, _merge_payload. rewrite map_map. cbn [fst]. rewrite map_id, Ha, Hb. by vm_compute. Qed.

Lemma elem_of_changed p q field : field ∈ changed_material_fields p q <->
  field ∈ MATERIAL_FIELDS /\ sorted_set (labels p field) <> sorted_set (labels q field).
Proof.
  unfold changed_material_fields. rewrite elem_of_select, negb_true_iff, bool_decide_eq_false. tauto.
Qed.
Lemma changed_same p : changed_material_fields p p = [].
Proof. apply elem_of_nil_inv. intros f [_ Hf]%elem_of_changed. done. Qed.

(** the event and its review, as one change leaves them *)
Definition change_recorded (scope : event_scope) (fp : fingerprint) (h h' : string)
    (changed : list string) (d d' : db) : Prop :=
  let key := change_key scope fp h h' in
  exists c t,
    lookup_key ce_change_id key (change_events d') = Some c /\
    lookup_key rt_task_id (change_task_key key) (review_tasks d') = Some t /\
    match lookup_key ce_change_id key (change_events d) with
    | Some c0 => c = c0
    | None => ce_status c = "open" /\ ce_severity c = severity_of changed /\ ce_changed_fields c = changed /\
              ce_evidence_trace_ids c = fp_trace_ids fp
    end /\
    match lookup_key rt_task_id (change_task_key key) (review_tasks d) with
    | Some t0 => rt_status t = rt_status t0
    | None => rt_status t = "open" /\ rt_task_type t = "material_change_review" /\ rt_change_id t = key
    end.

Lemma change_is_recorded now scope fp h h' p changed d d' :
  insert_change_event now scope fp h h' p changed d = Ok d' -> change_recorded scope fp h h' changed d d'.
Proof.
  unfold insert_change_event. intros (app & _ & (sn & _ & Hd)%rbind_Ok)%rbind_Ok.
  pose proof (f_equal (fun r => match r with Ok x => change_events x | Raise _ => [] end) Hd) as Hc.
  pose proof (f_equal (fun r => match r with Ok x => review_tasks x | Raise _ => [] end) Hd) as Ht.
  cbn [change_events review_tasks upsert_review_task set_review_tasks set_change_events] in Hc, Ht. clear Hd.
  unfold change_recorded. rewrite <-Hc, <-Ht, lookup_key_upsert by done. cbn [rt_task_id]. rewrite decide_True by done.
  unfold insert_or_ignore. cbn [ce_change_id].
  destruct (lookup_key ce_change_id _ (change_events d)) as [c0|] eqn:Ec; (eexists _, _; split; [|split; [done|split]]).
  - exact Ec.
  - done.
  - by destruct (lookup_key rt_task_id _ (review_tasks d)).
  - by apply lookup_key_app_eq.
  - done.
  - by destruct (lookup_key rt_task_id _ (review_tasks d)).
Qed.

(** C21. A material change never goes unnoticed.  When a batch is folded into a
    subject that has a fingerprint, the stored sets become the union with the
    batch's labels; a label the subject did not have makes its field a changed
    field; if no field changed, no change event and no review is touched; and if
    one did, the change event from the old hash to the new is on record, open with
    the severity and the fields of the change and the batch's traces as evidence,
    together with its review task, unless they were recorded before, when the
    event and the decision taken on it stay as they were.  A changed payload is
    recognised by its digest: the texts of the stored and of the merged payload
    are taken not to collide. *)
Theorem material_change_is_reviewed
    now scope ty name batch d d' r (fp := subject_fingerprint ty name batch) :
  no_collision [hashed_text (lf_fingerprint_payload r);
                hashed_text (_merge_payload (lf_fingerprint_payload r) (fingerprint_payload batch))] ->
  lookup_key lf_fingerprint_id (_fingerprint_id scope ty name) (lifecycle_fingerprints d) = Some r -> fits r ->
  fold_fingerprint now scope d fp = Ok d' ->
  exists r' changed, lookup_key lf_fingerprint_id (_fingerprint_id scope ty name) (lifecycle_fingerprints d') = Some r' /\
    fits r' /\
    (forall field, field ∈ MATERIAL_FIELDS -> labels (lf_fingerprint_payload r') field =
       sorted_set (labels (lf_fingerprint_payload r) field ++ labels (fingerprint_payload batch) field)) /\
    (forall field, field ∈ changed <-> field ∈ MATERIAL_FIELDS /\ exists x,
       x ∈ labels (fingerprint_payload batch) field /\ x ∉ labels (lf_fingerprint_payload r) field) /\
    match changed with
    | [] => change_events d' = change_events d /\ review_tasks d' = review_tasks d
    | _ => change_recorded scope fp (lf_fingerprint_hash r) (lf_fingerprint_hash r') changed d d'
    end.
Proof.
  intros Hinj Hr [Hw Hh]. unfold fold_fingerprint, merge_stored. cbn [fp_subject_type fp_subject_name fp subject_fingerprint].
  rewrite Hr. set (p := _merge_payload (lf_fingerprint_payload r) (fp_payload fp)).
  set (fp' := fp_with_observed_at _ _). intros Hup.
  assert (well_formed p) as Hp by (by apply merged_well_formed).
  pose proof (merged_labels _ _ : forall field, _ -> _ -> field ∈ MATERIAL_FIELDS -> labels p field = _) as Hl.
  destruct (upsert_stores scope now d fp' d' Hup) as (app & sn & Hd').
  exists (lf_with_last_seen (fp_observed_at fp') (lf_with_fingerprint_payload p (lf_with_fingerprint_hash (hash_payload p) r))),
    (changed_material_fields (lf_fingerprint_payload r) p).
  split; [|split; [|split; [|split]]].
  - rewrite Hd', lookup_key_upsert by done. cbn [lf_fingerprint_id]. rewrite decide_True by done.
    change (_fingerprint_id scope (fp_subject_type fp') (fp_subject_name fp')) with (_fingerprint_id scope ty name).
    by rewrite Hr.
  - done.
  - intros field Hf. by apply Hl.
  - intros field. rewrite elem_of_changed. split.
    + intros [Hf Hne]. split; [done|]. rewrite Hl in Hne by done.
      destruct (decide (Forall (fun x => x ∈ labels (lf_fingerprint_payload r) field) (labels (fp_payload fp) field))) as [Hall|Hex].
      * exfalso. apply Hne. apply sorted_set_ext. intros x. rewrite elem_of_sorted_set, elem_of_app.
        rewrite Forall_forall in Hall. naive_solver.
      * apply not_Forall_Exists in Hex; [|intros x; apply _]. by apply Exists_exists in Hex.
    + intros (Hf & x & Hx & Hn). split; [done|]. intros E. apply Hn. apply elem_of_sorted_set. rewrite E, Hl by done.
      apply elem_of_sorted_set, elem_of_sorted_set, elem_of_app. by right.
  - unfold upsert_fingerprint in Hup. apply rbind_Ok in Hup as (d1 & Hd1 & (app' & _ & (sn' & _ & Hd)%rbind_Ok)%rbind_Ok).
    pose proof (f_equal (fun x => match x with Ok x => change_events x | Raise _ => [] end) Hd) as Hc.
    pose proof (f_equal (fun x => match x with Ok x => review_tasks x | Raise _ => [] end) Hd) as Ht.
    cbn [change_events review_tasks set_lifecycle_fingerprints] in Hc, Ht. clear Hd.
    change (_fingerprint_id scope (fp_subject_type fp') (fp_subject_name fp')) with (_fingerprint_id scope ty name) in Hd1.
    change (fp_payload fp') with p in Hd1. rewrite Hr in Hd1. destruct (String.eqb_spec (lf_fingerprint_hash r) (hash_payload p)) as [E|E].
    + rewrite Hh in E. apply (hash_payload_inj _ _ Hinj) in E; [|done|done]. rewrite E, changed_same.
      injection Hd1 as <-. by rewrite Hc, Ht.
    + destruct (changed_material_fields (lf_fingerprint_payload r) p) as [|f l] eqn:El; [injection Hd1 as <-; by rewrite Hc, Ht|].
      apply change_is_recorded in Hd1. unfold change_recorded in *. rewrite <-Hc, <-Ht. exact Hd1.
Qed.
End Changes.

(** ** The ledger's application changes its model *)

Module Demo.
Import LedgerRules.Demo.

Definition triage : event_scope := (PStr "acme", "claims", "production", PStr "triage").
Definition with_model (model span time : string) : event :=
  mk_event "model.call" "1.0" "trace-9" span time "triage-api" "production" "claims" None None (Some "score") "success" None
    [("metadata", PDict [("tenant_id", PStr "acme"); ("application_name", PStr "triage"); ("workflow_name", PStr "letters")]);
     ("provider", PStr "openai"); ("model", PStr model)].
Definition batches : list (string * list event) :=
  [("2026-03-01 09:00:02", [call "s1" "success" 120]);
   ("2026-03-02 09:00:02", [with_model "gpt-5" "s7" "2026-03-02T09:00:00Z"]);
   ("2026-03-03 09:00:02", [with_model "gpt-4" "s8" "2026-03-03T09:00:00Z"; with_model "gpt-5" "s9" "2026-03-03T08:00:00Z"])].

Definition run {A} (x : res A) (otherwise : A) : A := match x with Ok a => a | Raise _ => otherwise end.
Definition start : db := LedgerRules.Demo.refolded.
Definition folded_all : db :=
  run (rfold (fun d b => fold_fingerprints b.1 d (triage, b.2)) start batches) start.
Definition rebuilt_all : db :=
  run (rfold (upsert_fingerprint "2026-03-04 00:00:00" triage) start (build_fingerprints triage (concat (map snd batches)))) start.

Lemma folds_all : rfold (fun d b => fold_fingerprints b.1 d (triage, b.2)) start batches = Ok folded_all.
Proof. vm_compute. reflexivity. Qed.
Lemma rebuilds_all : rfold (upsert_fingerprint "2026-03-04 00:00:00" triage) start
  (build_fingerprints triage (concat (map snd batches))) = Ok rebuilt_all.
Proof. vm_compute. reflexivity. Qed.
Lemma is_known : application_is_registered (Some "acme", "claims", "production", "triage") start = true.
Proof. vm_compute. reflexivity. Qed.
Lemma no_fingerprints : forall ty name, stored_fingerprint triage start ty name = None.
Proof. intros ty name. unfold stored_fingerprint. by replace (lifecycle_fingerprints start) with (@nil fingerprint_row) by (by vm_compute). Qed.

Lemma workflows_named : named ["letters"] (concat (map snd batches)).
Proof.
  intros w. replace (labels _ "workflows") with ["letters"] by (by vm_compute). done.
Qed.

(** the second batch brings a model and a workflow; the third nothing new *)
Example two_changes : map (fun c => (ce_subject_type c, ce_severity c, ce_changed_fields c)) (change_events folded_all) =
  [("application", "High", ["models"; "workflows"]); ("workflow", "High", ["models"])].
Proof. vm_compute. reflexivity. Qed.
Example two_reviews : map rt_title (review_tasks folded_all) =
  ["Review application change: triage"; "Review workflow change: letters"].
Proof. vm_compute. reflexivity. Qed.

(** after the first batch, and after the second *)
Definition first : db := run (fold_fingerprint "2026-03-01 09:00:02" triage start
  (subject_fingerprint "application" (PStr "triage") [call "s1" "success" 120])) start.
Definition new_model : list event := [with_model "gpt-5" "s7" "2026-03-02T09:00:00Z"].
Definition second : db := run (fold_fingerprint "2026-03-02 09:00:02" triage first
  (subject_fingerprint "application" (PStr "triage") new_model)) first.
Definition first_row : fingerprint_row :=
  mk_fingerprint_row (_fingerprint_id triage "application" (PStr "triage")) (Some "acme") "claims" "production" "triage"
    "application" "triage" (hash_payload (fingerprint_payload [call "s1" "success" 120]))
    (fingerprint_payload [call "s1" "success" 120]) "2026-03-01T09:00:00Z" "2026-03-01T09:00:00Z".
Lemma first_stored : lookup_key lf_fingerprint_id (_fingerprint_id triage "application" (PStr "triage"))
  (lifecycle_fingerprints first) = Some first_row.
Proof. vm_compute. reflexivity. Qed.
Lemma first_fits : fits first_row.
Proof. split; vm_compute; reflexivity. Qed.
Lemma second_folds : fold_fingerprint "2026-03-02 09:00:02" triage first
  (subject_fingerprint "application" (PStr "triage") new_model) = Ok second.
Proof. vm_compute. reflexivity. Qed.
End Demo.

Import LedgerRules.Demo Demo.

Lemma fold_is_rebuild_witness :
  stored_fingerprint triage folded_all "workflow" (PStr "letters") = stored_fingerprint triage rebuilt_all "workflow" (PStr "letters").
Proof.
  apply (fold_is_rebuild ["letters"] _ triage _ batches start folded_all rebuilt_all eq_refl is_known
    ltac:(discriminate) workflows_named ltac:(by intros [|[]%elem_of_nil]%elem_of_cons) ltac:(by intros s t _ _ E)
    no_fingerprints folds_all rebuilds_all). right. split; [done|]. exists "letters". split; [done|by left].
Defined.

Lemma material_change_is_reviewed_witness (fp := subject_fingerprint "application" (PStr "triage") new_model) :
  exists r' changed,
    lookup_key lf_fingerprint_id (_fingerprint_id triage "application" (PStr "triage")) (lifecycle_fingerprints second) = Some r' /\
    fits r' /\
    (forall field, field ∈ MATERIAL_FIELDS -> labels (lf_fingerprint_payload r') field =
       sorted_set (labels (lf_fingerprint_payload first_row) field ++ labels (fingerprint_payload new_model) field)) /\
    (forall field, field ∈ changed <-> field ∈ MATERIAL_FIELDS /\ exists x,
       x ∈ labels (fingerprint_payload new_model) field /\ x ∉ labels (lf_fingerprint_payload first_row) field) /\
    match changed with
    | [] => change_events second = change_events first /\ review_tasks second = review_tasks first
    | _ => change_recorded triage fp (lf_fingerprint_hash first_row) (lf_fingerprint_hash r') changed
             first second
    end.
Proof.
  exact (material_change_is_reviewed _ triage "application" (PStr "triage") new_model first second first_row
    (fun s t _ _ E => E) first_stored first_fits second_folds).
Defined.
