(* ===== verification/Projections.v ===== *)
(** * Prompts, deployments and incidents in telemetry
    (storage/prompts.py, storage/deployments.py, storage/incidents.py)

    Each of the three projections reads the events of one type and upserts the
    record and its versions.  A projection is one transaction over its batch. *)

From stdpp Require Import base list strings option pretty sets gmap.
From Stdlib Require Import ZArith Lia.
From S2P Require Import Prelude Py Json Sql Events Schema Scope Coverage Inventory Gates.

Open Scope nat_scope.

Section Projections.
Context `{PyHost} `{Digest} `{SqlHost}.

(** [attrs[key]] *)
Definition attr_item (e : event) (key : string) : res pyval :=
  match assoc key (e_attributes e) with Some v => Ok v | None => Raise (KeyError key) end.

(** [json.dumps(as_object(attrs.get(key)), sort_keys=True)] *)
Definition object_text (e : event) (key : string) : string := encode_json (as_object (attr e key)).

(** the events of one type, in one transaction *)
Definition of_type (event_type : string) (f : db -> event -> res db) (events : list event) (d : db) : res db :=
  rfold (fun d e => if String.eqb (e_type e) event_type then f d e else Ok d) d events.

(** ** Prompts *)

Definition prompt_version_key (tenant_id : option string) (project environment : string) (prompt_id version : pyval)
    : string :=
  entity_id [Some "prompt-version"; tenant_id; Some project; Some environment; part prompt_id; part version].

Definition pt_key (r : prompt_template) : string * string * string * string :=
  (pt_tenant_id r, pt_project r, pt_environment r, pt_prompt_id r).

Definition upsert_prompt_event (d : db) (e : event) : res db :=
  let application_name := meta e "application_name" in
  let workflow_name := meta e "workflow_name" in
  if negb (truthy application_name && truthy workflow_name) then Ok d
  else
    let! prompt_id := attr_item e "prompt_id" in
    let! version := attr_item e "version" in
    let version_id := prompt_version_key (part (meta e "tenant_id")) (e_project e) (e_environment e) prompt_id version in
    let! artifact_ref := attr_item e "artifact_ref" in
    let! prompt := sql_text_not_null prompt_id in
    let! tenant := sql_text_not_null (py_or (meta e "tenant_id") (PStr "")) in
    let! application := sql_text_not_null application_name in
    let! workflow := sql_text_not_null workflow_name in
    let! version := sql_text_not_null version in
    let! status := sql_text_not_null (py_or (attr e "prompt_status") (PStr (e_status e))) in
    let! owner := sql_text (attr e "owner_ref") in
    let! artifact := sql_text_not_null artifact_ref in
    let d := set_prompt_templates
      (upsert pt_key
        (mk_prompt_template prompt tenant (e_project e) (e_environment e) application workflow version status owner artifact
           (e_timestamp e) (e_timestamp e))
        (fun r => pt_with_last_seen (e_timestamp e) (pt_with_artifact_ref artifact (pt_with_owner_ref owner
           (pt_with_current_status status (pt_with_current_version version r)))))
        (prompt_templates d)) d in
    let template := object_text e "template" in
    let change_notes := object_text e "change_notes" in
    Ok (set_prompt_versions
      (upsert pv_prompt_version_id
        (mk_prompt_version version_id prompt (Some tenant) (e_project e) (e_environment e) application workflow version
           status owner artifact template change_notes (e_trace_id e) (e_timestamp e))
        (fun r => pv_with_observed_at (e_timestamp e) (pv_with_trace_id (e_trace_id e)
           (pv_with_change_notes_summary change_notes (pv_with_template_summary template
           (pv_with_artifact_ref artifact (pv_with_owner_ref owner (pv_with_status status r)))))))
        (prompt_versions d)) d).

Definition process_prompt_events (events : list event) (d : db) : res db :=
  of_type "prompt.event" upsert_prompt_event events d.

(** ** Deployments *)

Definition dp_key (r : deployment) : string * string * string * string :=
  (dp_tenant_id r, dp_project r, dp_environment r, dp_deployment_id r).

Definition upsert_deployment_event (d : db) (e : event) : res db :=
  let! deployment_id := attr_item e "deployment_id" in
  let! version := attr_item e "version" in
  let application_name := meta e "application_name" in
  let workflow_name := meta e "workflow_name" in
  if negb (truthy application_name && truthy workflow_name) then Ok d
  else
    let tenant_id := py_or (meta e "tenant_id") (PStr "") in
    let version_id := entity_id [Some "deployment-version"; part tenant_id; Some (e_project e); Some (e_environment e);
                                 part deployment_id; part version] in
    let! artifact_ref := attr_item e "artifact_ref" in
    let! deployment := sql_text_not_null deployment_id in
    let! tenant := sql_text_not_null tenant_id in
    let! application := sql_text_not_null application_name in
    let! workflow := sql_text_not_null workflow_name in
    let! version := sql_text_not_null version in
    let! status := sql_text_not_null (py_or (attr e "deployment_status") (PStr (e_status e))) in
    let! provider := sql_text (attr e "provider") in
    let! model := sql_text (attr e "model") in
    let! artifact := sql_text_not_null artifact_ref in
    let! prompt_version := sql_text (attr e "prompt_version") in
    let! deployed_by := sql_text (attr e "deployed_by") in
    let d := set_governance_deployments
      (upsert dp_key
        (mk_deployment deployment tenant (e_project e) (e_environment e) application workflow version status provider model
           artifact (e_timestamp e) (e_timestamp e))
        (fun r => dp_with_last_seen (e_timestamp e) (dp_with_artifact_ref artifact (dp_with_model model
           (dp_with_provider provider (dp_with_current_status status (dp_with_current_version version r))))))
        (governance_deployments d)) d in
    Ok (set_deployment_versions
      (upsert dv_version_id
        (mk_deployment_version version_id deployment (Some tenant) (e_project e) (e_environment e) application workflow
           version status provider model artifact prompt_version deployed_by (e_trace_id e) (e_timestamp e))
        (fun r => dv_with_observed_at (e_timestamp e) (dv_with_trace_id (e_trace_id e) (dv_with_deployed_by deployed_by
           (dv_with_prompt_version prompt_version (dv_with_artifact_ref artifact (dv_with_model model
           (dv_with_provider provider (dv_with_status status r))))))))
        (deployment_versions d)) d).

Definition process_deployment_events (events : list event) (d : db) : res db :=
  of_type "deployment.event" upsert_deployment_event events d.

(** ** Incidents *)

Definition in_key (r : incident) : string * string * string * string :=
  (in_tenant_id r, in_project r, in_environment r, in_incident_id r).

(** (deployment, version, gate) of the newest version of the workflow *)
Definition latest_deployment_evidence (app : app_context) (workflow_name : string) (d : db)
    : option (string * string * option string) :=
  match head (order_by (fun a b => negb (str_ltb (dv_observed_at a) (dv_observed_at b)))
          (select (fun v => in_app_scope app (dv_tenant_id v) (dv_project v) (dv_environment v) (dv_application_name v) &&
                            String.eqb (dv_workflow_name v) workflow_name) (deployment_versions d))) with
  | None => None
  | Some v => Some (dv_deployment_id v, dv_version_id v,
      dg_gate_id <$> select1 (fun g => String.eqb (dg_version_id g) (dv_version_id v)) (deployment_approval_gates d))
  end.

Definition incident_evidence_counts (app : app_context) (d : db) : Z * Z :=
  (count_where (open_risk app) (risk_findings d), count_where (missing_control app) (control_assessments d)).

Definition upsert_incident_event (d : db) (e : event) : res db :=
  let application_name := meta e "application_name" in
  let workflow_name := meta e "workflow_name" in
  if negb (truthy application_name && truthy workflow_name) then Ok d
  else
    let! scope_tenant := sql_text (meta e "tenant_id") in
    let! application := sql_text_not_null application_name in
    let! workflow := sql_text_not_null workflow_name in
    let app : app_context := (scope_tenant, e_project e, e_environment e, application) in
    let deployment := latest_deployment_evidence app workflow d in
    let (risk_count, missing_control_count) := incident_evidence_counts app d in
    let incident_id := py_or (attr e "incident_id")
      (PStr (entity_id [Some "incident"; Some (e_trace_id e); Some (e_span_id e)])) in
    let status := py_or (attr e "incident_status") (PStr (e_status e)) in
    let! incident := sql_text_not_null incident_id in
    let! tenant := sql_text_not_null (py_or (meta e "tenant_id") (PStr "")) in
    let is_new := bool_decide (lookup_key in_key (tenant, e_project e, e_environment e, incident) (governance_incidents d) = None) in
    let! title := sql_text_not_null (py_or (attr e "title") (py_or (opt_value (e_name e)) incident_id)) in
    let! severity := sql_text_not_null (py_or (attr e "severity") (PStr "unclassified")) in
    let! status_text := sql_text_not_null status in
    let description := object_text e "description" in
    let! detected_by := sql_text (attr e "detected_by") in
    let! impacted := sql_text (attr e "impacted_trace_id") in
    let! provider := sql_text (attr e "provider") in
    let! model := sql_text (attr e "model") in
    let deployment_id := (fun v => v.1.1) <$> deployment in
    let version_id := (fun v => v.1.2) <$> deployment in
    let gate_id := deployment ≫= snd in
    let d := set_governance_incidents
      (upsert in_key
        (mk_incident incident tenant (e_project e) (e_environment e) application workflow title severity status_text
           description detected_by (e_trace_id e) impacted provider model risk_count missing_control_count deployment_id
           version_id gate_id None None (e_timestamp e) (e_timestamp e) None)
        (fun r => in_with_last_seen (e_timestamp e) (in_with_deployment_gate_id gate_id
           (in_with_deployment_version_id version_id (in_with_deployment_id deployment_id
           (in_with_missing_control_count missing_control_count (in_with_risk_count risk_count (in_with_model model
           (in_with_provider provider (in_with_impacted_trace_id impacted (in_with_detected_by detected_by
           (in_with_description_summary description
           (in_with_status (if String.eqb (in_status r) "closed" then in_status r else status_text)
           (in_with_severity severity (in_with_title title r))))))))))))))
        (governance_incidents d)) d in
    Ok (if is_new && negb (py_eqb status (PStr "closed"))
        then emit (mk_notice scope_tenant "incident.opened" incident ["org_admin"; "risk_owner"; "governance_admin"] []) d
        else d).

Definition process_incident_events (events : list event) (d : db) : res db :=
  of_type "incident.event" upsert_incident_event events d.
End Projections.
