(* ===== verification/Posture.v ===== *)
(** * Agents and vendors seen in telemetry (storage/agents.py, storage/policy_engine.py)

    Observed agent runs are reconciled with the agent registry, and observed
    model providers with the vendor registry.  Every discrepancy becomes a risk
    finding with an identifier of its own, so reviewer decisions on it stay. *)

From stdpp Require Import base list strings option pretty sets gmap.
From Stdlib Require Import ZArith Lia.
From S2P Require Import Prelude Py Sql Events Schema Scope RiskTier Coverage Inventory Controls.

Open Scope nat_scope.

(** ** Transactions

    A step may commit part of what it does and raise; a single transaction
    commits all or nothing; a sequence stops at the first that raises. *)
Definition step : Type := db -> db * option exn.
Definition commit (f : db -> res db) : step :=
  fun d => match f d with Ok d' => (d', None) | Raise e => (d, Some e) end.
Fixpoint steps (l : list step) : step := fun d =>
  match l with
  | [] => (d, None)
  | s :: l => match s d with (d', None) => steps l d' | failed => failed end
  end.

(** ** Rules

    The rules registered for agents and vendors have no mode, so they always
    open their findings.  The dash of the first rationale is kept in UTF-8. *)

Definition INTAKE_AUTONOMY_FOR_LEVEL (level : Z) : option string :=
  match level with
  | 0%Z => Some "assistive"
  | 1%Z | 2%Z => Some "supervised"
  | 3%Z | 4%Z => Some "autonomous"
  | _ => None
  end.

Definition AGENT_RISK_RULES : list risk_rule :=
  [mk_risk_rule "" "RISK-AGT-SHADOW" "Unregistered (shadow) agent observed at runtime" "unregistered_agent" "High"
     ["OWASP Agentic ASI10"; "NIST AI RMF MAP 1.1"; "ISO/IEC 42001 A.6.2.6"]
     "An agent acting in production that no one registered has no accountable owner, autonomy bound, or tool allow-list — rogue-agent risk."
     "enforce";
   mk_risk_rule "" "RISK-AGT-TOOL" "Agent used a tool outside its allow-list" "unauthorized_tool" "High"
     ["OWASP Agentic ASI02"; "OWASP Agentic ASI03"; "NIST AI RMF MANAGE 2.3"]
     "Tool use beyond the sanctioned allow-list is the primary agentic privilege-escalation and tool-misuse vector."
     "enforce";
   mk_risk_rule "" "RISK-AGT-TRIFECTA" "Agent holds the lethal trifecta without a human checkpoint" "agent_trifecta"
     "Critical" ["OWASP Agentic ASI01"; "OWASP Agentic ASI09"; "NIST AI RMF MANAGE 1.3"]
     "Untrusted input + sensitive data access + external action in one agent lets a single injected instruction exfiltrate data; Meta's Rule of Two says no more than two of the three may coexist without human supervision."
     "enforce";
   mk_risk_rule "" "RISK-AGT-AUTONOMY" "High-autonomy agent without human oversight checkpoint" "autonomy_without_oversight"
     "High" ["OWASP Agentic ASI09"; "EU AI Act Art 14"; "NIST AI RMF GOVERN 1.5"]
     "Agents at autonomy level 3+ act within bounds on their own; without a declared human checkpoint there is no way to interrupt or override (EU AI Act Art 14 human oversight)."
     "enforce";
   mk_risk_rule "" "RISK-AGT-INTAKE" "Agent is more autonomous than its system's intake declares"
     "agent_autonomy_exceeds_intake" "High" ["NIST AI RMF MAP 1.1"; "ISO/IEC 42001 A.5.2"]
     "The intake's autonomy level sets the system's risk tier and the approvals it needs. An agent registered at a higher autonomy than the intake declares means the system was reviewed at a lower tier than it runs at."
     "enforce"].
Definition VENDOR_RISK_RULE : risk_rule :=
  mk_risk_rule "" "RISK-VND-001" "Unreviewed AI vendor observed in production" "unreviewed_vendor" "High"
    ["NIST AI RMF GOVERN 6.1"; "NIST AI RMF MAP 3.2"; "ISO/IEC 42001 A.10.2"; "EU AI Act Art 25"]
    "Runtime telemetry names every model provider actually in use. A provider with no approved vendor entry, or a model outside a vendor's approved list, is third-party AI running without vendor review."
    "enforce".
Definition rr_with_rule_id (v : string) (r : risk_rule) : risk_rule :=
  mk_risk_rule (rr_tenant_id r) v (rr_name r) (rr_signal r) (rr_severity r) (rr_framework_refs r) (rr_rationale r)
    (rr_mode r).

Section Posture.
Context `{PyHost} `{Digest}.

(** ** The agent registry *)

Definition register_agent (now tenant_id agent_name owner_ref : string) (autonomy_level : Z) (allowed_tools : list string)
    (untrusted sensitive external checkpoint : bool) (application_name description created_by : option string) (d : db)
    : db :=
  let tools := sorted_set allowed_tools in
  set_agent_registry
    (upsert ag_agent_id
      (mk_agent (entity_id [Some "agent"; Some tenant_id; Some agent_name]) tenant_id agent_name application_name
         description owner_ref autonomy_level tools untrusted sensitive external checkpoint "active" created_by now now)
      (fun r => ag_with_updated_at now (ag_with_status "active" (ag_with_human_checkpoint checkpoint
         (ag_with_can_act_externally external (ag_with_accesses_sensitive_data sensitive
         (ag_with_processes_untrusted_input untrusted (ag_with_allowed_tools tools
         (ag_with_autonomy_level autonomy_level (ag_with_owner_ref owner_ref (ag_with_description description
         (ag_with_application_name application_name r)))))))))))
      (agent_registry d)) d.

Definition list_registered_agents (tenant_id : string) (d : db) : list agent :=
  order_by (fun a b => negb (str_ltb (ag_agent_name b) (ag_agent_name a)))
    (select (fun r => String.eqb (ag_tenant_id r) tenant_id) (agent_registry d)).

Definition retire_agent (now agent_id tenant_id : string) (d : db) : res db :=
  match select1 (fun r => String.eqb (ag_agent_id r) agent_id && String.eqb (ag_tenant_id r) tenant_id)
          (agent_registry d) with
  | None => Raise (DomainError "agent not found in this organization")
  | Some _ => Ok (set_agent_registry
      (update_key ag_agent_id agent_id (fun r => ag_with_updated_at now (ag_with_status "retired" r)) (agent_registry d)) d)
  end.

(** ** Agent activity *)

Record activity := mk_activity {
  aa_agent_name : string;
  aa_application_name : option string;
  aa_project : string;
  aa_environment : string;
  aa_run_count : nat;
  aa_trace_ids : list string;
  aa_tools_used : list string
}.

(** the tools the steps of a run name *)
Definition step_tools (attributes : pyval) : res (list string) :=
  let! steps := py_get attributes "steps" in
  let! steps := py_iter (py_or steps (PList [])) in
  Ok (omap (fun step => match step with
                        | PDict _ => let tool := object_get step "tool" in if truthy tool then Some (py_str tool) else None
                        | _ => None
                        end) steps).

Definition observed_of_type (event_type tenant_id : string) (d : db) : list observed_event :=
  select (fun r => String.eqb (oe_entity_type r) event_type && sql_eq (oe_tenant_id r) (Some tenant_id))
    (governance_observed_events d).

(** one run: the entry of its agent, created at the first *)
Fixpoint add_run (tools_by_trace : string -> list string) (run : observed_event) (tools : list string)
    (entries : list activity) : list activity :=
  match entries with
  | [] => [mk_activity (oe_name run) (oe_application_name run) (oe_project run) (oe_environment run) 1 [oe_trace_id run]
             (tools_by_trace (oe_trace_id run) ++ tools)]
  | a :: entries =>
      if String.eqb (aa_agent_name a) (oe_name run)
      then mk_activity (aa_agent_name a) (aa_application_name a) (aa_project a) (aa_environment a) (S (aa_run_count a))
             (aa_trace_ids a ++ [oe_trace_id run]) (aa_tools_used a ++ tools_by_trace (oe_trace_id run) ++ tools) :: entries
      else a :: add_run tools_by_trace run tools entries
  end.

Definition _observed_agent_activity (tenant_id : string) (d : db) : res (list activity) :=
  let tools := observed_of_type "tool.call" tenant_id d in
  let tools_by_trace trace := map oe_name (select (fun r => String.eqb (oe_trace_id r) trace) tools) in
  rfold (fun entries run => let! steps := step_tools (oe_attributes run) in Ok (add_run tools_by_trace run steps entries))
    [] (observed_of_type "agent.run" tenant_id d).

(** ** What the intake declares *)

Definition level_index (l : list string) (x : string) : option nat := fst <$> list_find (fun y => y = x) l.

(** the most autonomous level of the live records of a system *)
Definition _declared_intake_autonomy (tenant_id project environment application_name : string) (d : db) : option nat :=
  let rows := select (fun r => sql_eq (uc_tenant_id r) (Some tenant_id) && negb (mem (uc_status r) ["retired"; "rejected"]) &&
      String.eqb (uc_project r) project && String.eqb (uc_environment r) environment &&
      String.eqb (uc_application_name r) application_name) (ai_use_cases d) in
  match omap (fun r => level_index AUTONOMY_LEVELS (uc_autonomy_level r)) rows with
  | [] => None
  | l => Some (foldr max 0 l)
  end.

(** ** Findings about agents: the rule and the summary *)

Definition active_registration (name : string) (agents : list agent) : option agent :=
  match last (select (fun r => String.eqb (ag_agent_name r) name) agents) with
  | Some r => if String.eqb (ag_status r) "active" then Some r else None
  | None => None
  end.

Definition when (b : bool) (x : string * string) : list (string * string) := if b then [x] else [].

Definition registered_issues (tenant_id : string) (obs : activity) (r : agent) (d : db) : list (string * string) :=
  let name := "Agent '" +:+ aa_agent_name obs +:+ "'" in
  let level := "is autonomy level " +:+ pretty (ag_autonomy_level r) in
  let unauthorized := sorted_set (select (fun t => negb (mem t (ag_allowed_tools r))) (aa_tools_used obs)) in
  let system := match nonempty_text (ag_application_name r) with Some s => Some s | None => aa_application_name obs end in
  let intake_index := system ≫= fun s => _declared_intake_autonomy tenant_id (aa_project obs) (aa_environment obs) s d in
  let agent_band := default "autonomous" (INTAKE_AUTONOMY_FOR_LEVEL (ag_autonomy_level r)) in
  when (negb (bool_decide (unauthorized = [])))
    ("RISK-AGT-TOOL", name +:+ " used tools outside its allow-list: " +:+ join ", " unauthorized) ++
  when (ag_processes_untrusted_input r && ag_accesses_sensitive_data r && ag_can_act_externally r &&
        negb (ag_human_checkpoint r))
    ("RISK-AGT-TRIFECTA",
     name +:+ " combines untrusted input, sensitive data, and external action with no human checkpoint") ++
  when ((3 <=? ag_autonomy_level r)%Z && negb (ag_human_checkpoint r))
    ("RISK-AGT-AUTONOMY", name +:+ " " +:+ level +:+ " with no human checkpoint") ++
  match intake_index with
  | None => []
  | Some i =>
      when (bool_decide (i < default 0 (level_index AUTONOMY_LEVELS agent_band)))
        ("RISK-AGT-INTAKE", name +:+ " " +:+ level +:+ " (" +:+ agent_band +:+ "); the intake for '" +:+
           default "None" system +:+ "' declares " +:+ default "" (AUTONOMY_LEVELS !! i))
  end.

Definition agent_issues (tenant_id : string) (agents : list agent) (d : db) (obs : activity) : list (string * string) :=
  match active_registration (aa_agent_name obs) agents with
  | None => [("RISK-AGT-SHADOW", "Agent '" +:+ aa_agent_name obs +:+ "' ran " +:+ pretty (Z.of_nat (aa_run_count obs)) +:+
                                 "x but is not registered")]
  | Some r => registered_issues tenant_id obs r d
  end.

Definition compute_agent_posture (tenant_id : string) (d : db) : res (list (activity * (string * string))) :=
  let agents := list_registered_agents tenant_id d in
  let! entries := _observed_agent_activity tenant_id d in
  Ok (concat (map (fun obs => map (pair obs) (agent_issues tenant_id agents d obs)) entries)).

Definition agent_app (tenant_id : string) (obs : activity) : app_context :=
  (Some tenant_id, aa_project obs, aa_environment obs,
   match nonempty_text (aa_application_name obs) with Some a => a | None => aa_agent_name obs end).

Definition write_agent_finding (now tenant_id : string) (d : db) (finding : activity * (string * string)) : res db :=
  let '(obs, (rule_id, summary)) := finding in
  match find (fun r => String.eqb (rr_rule_id r) rule_id) AGENT_RISK_RULES with
  | None => Raise (KeyError rule_id)
  | Some rule =>
      Ok (write_rule_finding now (agent_app tenant_id obs)
            (rr_with_rule_id (rr_rule_id rule +:+ ":" +:+ aa_agent_name obs) rule)
            (sorted_set (select (fun t => negb (is_empty t)) (aa_trace_ids obs))) summary d)
  end.

Definition agent_posture_of (now tenant_id : string) (d : db) : res db :=
  let! findings := compute_agent_posture tenant_id d in rfold (write_agent_finding now tenant_id) d findings.

(** a transaction per tenant that has runs *)
Definition refresh_agent_posture (now : string) (tenant_ids : option (list string)) (d : db) : db * option exn :=
  let tenants := distinct (omap oe_tenant_id
    (select (fun r => String.eqb (oe_entity_type r) "agent.run") (governance_observed_events d))) in
  let tenants := match tenant_ids with None => tenants | Some l => select (fun t => mem t l) tenants end in
  steps (map (fun t => commit (agent_posture_of now t)) tenants) d.

(** ** Vendors *)

(** the registry entry of a provider: the last row that names it *)
Definition vendor_by_provider (tenant_id provider : string) (d : db) : option vendor :=
  last (select (fun v => String.eqb (vd_tenant_id v) tenant_id && mem provider (vd_providers v)) (vendor_registry d)).

Definition model_call_of (tenant_id : string) (r : sdk_event) : bool :=
  sql_eq (ev_tenant_id r) (Some tenant_id) && String.eqb (ev_event_type r) "model.call".

(** (project, environment, application, provider, model) *)
Definition usage_pair : Type := string * string * string * string * option string.
Definition _observed_provider_usage (tenant_id : string) (d : db) : list usage_pair :=
  distinct (omap (fun r =>
    match nonempty_text (ev_provider r), nonempty_text (ev_application_name r) with
    | Some provider, Some application => Some (ev_project r, ev_environment r, application, provider, ev_model r)
    | _, _ => None
    end) (select (model_call_of tenant_id) (sdk_events d))).

Definition _provider_trace_ids (tenant_id project environment application provider : string) (d : db) : list string :=
  select (fun t => negb (is_empty t)) (take 50 (sorted_set (map ev_trace_id
    (select (fun r => model_call_of tenant_id r && sql_eq (ev_provider r) (Some provider) &&
               String.eqb (ev_project r) project && String.eqb (ev_environment r) environment &&
               sql_eq (ev_application_name r) (Some application)) (sdk_events d))))).

(** the rule's suffix and the summary of a usage no approved vendor covers *)
Definition vendor_issue (tenant_id : string) (d : db) (u : usage_pair) : option (string * string) :=
  let '(_, _, _, raw_provider, model) := u in
  let provider := lower (strip raw_provider) in
  let observed := "Provider '" +:+ provider +:+ "' observed in production" in
  match vendor_by_provider tenant_id provider d with
  | None => Some (provider, observed +:+ " with no approved vendor entry")
  | Some v =>
      if negb (String.eqb (vd_status v) "approved")
      then Some (provider, observed +:+ "; vendor '" +:+ vd_name v +:+ "' is " +:+ vd_status v +:+ ", not approved")
      else match vd_approved_models v, nonempty_text model with
           | Some models, Some m =>
               if mem m models then None
               else Some (provider +:+ ":" +:+ m,
                          "Model '" +:+ m +:+ "' from provider '" +:+ provider +:+ "' is outside vendor '" +:+ vd_name v +:+
                          "'s approved model list")
           | _, _ => None
           end
  end.

Definition write_vendor_finding (now tenant_id : string) (d : db) (u : usage_pair) : db :=
  let '(project, environment, application, provider, _) := u in
  match vendor_issue tenant_id d u with
  | None => d
  | Some (suffix, summary) =>
      write_rule_finding now (Some tenant_id, project, environment, application)
        (rr_with_rule_id (rr_rule_id VENDOR_RISK_RULE +:+ ":" +:+ suffix) VENDOR_RISK_RULE)
        (_provider_trace_ids tenant_id project environment application provider d) summary d
  end.

(** one transaction *)
Definition refresh_vendor_posture (now : string) (tenant_ids : option (list string)) (d : db) : db :=
  let tenants := distinct (omap (fun r => nonempty_text (ev_tenant_id r))
    (select (fun r => String.eqb (ev_event_type r) "model.call") (sdk_events d))) in
  let tenants := match tenant_ids with None => tenants | Some l => select (fun t => mem t l) tenants end in
  foldl (fun d t => foldl (write_vendor_finding now t) d (_observed_provider_usage t d)) d tenants.
End Posture.
