(* ===== verification/Fold.v ===== *)
(** * Folding pending events (storage/fold.py)

    The request path folds what is pending for an organization as one set; the
    sweeper, when the set fails, folds row by row.  Every projection commits on
    its own, so a fold that raises leaves the projections before it in place. *)

From stdpp Require Import base list strings option pretty sets gmap.
From Stdlib Require Import ZArith Lia.
From S2P Require Import Prelude Py Sql Events Schema Scope Coverage Inventory Ledger Workflow Queue Gates.
From S2P Require Import Controls Lifecycle Projections Posture.

Open Scope nat_scope.

(** what the clock reads at one moment: SQLite's text, ISO text, the instant *)
Record reading := mk_reading { rd_now : string; rd_iso : string; rd_dt : Z }.

(** [repr(error)] *)
Class ExnHost := exn_repr : exn -> string.

(** ** Configuration *)

Definition DEFAULT_CLAIM_LIMIT : Z := 10000.
Definition DEFAULT_MAX_ATTEMPTS : Z := 5.

Section Fold.
Context `{PyHost} `{Digest} `{SqlHost} `{ExnHost}.

(** a positive integer of the environment, else the default *)
Definition env_int (value : option string) (dflt : Z) : Z :=
  match value with
  | None => dflt
  | Some s => match str_int s with Ok z => if (0 <? z)%Z then z else dflt | Raise _ => dflt end
  end.
Definition claim_limit (env : option string) : nat := Z.to_nat (env_int env DEFAULT_CLAIM_LIMIT).
Definition max_attempts (env : option string) : Z := env_int env DEFAULT_MAX_ATTEMPTS.

(** ** The projections, in order *)

(** a scope equals a row's columns only if its values are text *)
Definition text_of (v : pyval) : option (option string) :=
  match v with PNone => Some None | PStr s => Some (Some s) | _ => None end.
Definition text_scope (s : event_scope) : option app_context :=
  let '(t, p, e, n) := s in
  match text_of t, n with Some tenant, PStr application => Some (tenant, p, e, application) | _, _ => None end.

(** [clock k] is the reading of the k-th projection *)
Definition _fold_rows (clock : nat -> reading) (tenant_id : string) (pending : list pending_row) : step := fun d =>
  let events := map pr_event pending in
  let now k := rd_now (clock k) in
  match steps [commit (process_events (now 0) pending); commit (process_prompt_events events);
               commit (process_deployment_events events); commit (process_incident_events events);
               commit (fun d => Ok (snd (expire_due_exceptions (now 4) (rd_iso (clock 4)) d)))] d with
  | (d, Some error) => (d, Some error)
  | (d, None) =>
      match batch_scopes events with
      | Raise error => (d, Some error)
      | Ok scopes =>
          let rows := omap text_scope scopes in
          let tenants := omap (fun s => text_of (es_tenant s)) scopes in
          steps [commit (fold_batch_fingerprints (now 5) events); commit (fold_batch_assessments (now 6) events);
                 refresh_agent_posture (now 7) (Some [tenant_id]);
                 commit (fun d => Ok (refresh_vendor_posture (now 8) (Some [tenant_id]) d));
                 commit (refresh_workflow_scopes (now 9) (rd_dt (clock 9)) (Some rows) (Some tenants));
                 commit (refresh_deployment_gates (now 10) (rd_dt (clock 10)) (Some rows))] d
      end
  end.

(** ** The request path *)

Definition fold_pending (clock : nat -> reading) (later : string) (tenant_id : string) (limit : nat)
    (attempts : option Z) (d : db) : db * res nat :=
  match claim_unfolded tenant_id limit attempts d with
  | [] => (d, Ok 0)
  | pending =>
      let ids := map pr_id pending in
      match _fold_rows clock tenant_id pending d with
      | (d, Some error) => (record_fold_attempt ids (exn_repr error) d, Raise error)
      | (d, None) => (mark_folded later ids d, Ok (length ids))
      end
  end.

(** ** The sweeper *)

(** one row on its own: the counts of folded and failed rows *)
Definition sweep_row (clock : Z -> nat -> reading) (later : Z -> string) (tenant_id : string) (acc : db * nat * nat)
    (row : pending_row) : db * nat * nat :=
  let '(d, folded, failed) := acc in
  match _fold_rows (clock (pr_id row)) tenant_id [row] d with
  | (d, Some error) => (record_fold_attempt [pr_id row] (exn_repr error) d, folded, S failed)
  | (d, None) => (mark_folded (later (pr_id row)) [pr_id row] d, S folded, failed)
  end.

(** [whole] reads the clock during the fold of the set, [clock i] during the fold
    of row i alone *)
Definition sweep_tenant (whole : nat -> reading) (clock : Z -> nat -> reading) (later : Z -> string) (tenant_id : string)
    (limit : nat) (d : db) : db * nat * nat :=
  match claim_unfolded tenant_id limit None d with
  | [] => (d, 0, 0)
  | pending =>
      let ids := map pr_id pending in
      match _fold_rows whole tenant_id pending d with
      | (d, None) => (mark_folded (later 0%Z) ids d, length ids, 0)
      | (d, Some _) => foldl (sweep_row clock later tenant_id) (d, 0, 0) pending
      end
  end.
End Fold.
