(* ===== verification/Ingest.v ===== *)
(** * Ingestion (ingestion/routes.py, services/attestation.py, storage/ingestion_keys.py,
    storage/attestation_keys.py)

    A batch is accepted under an ingestion key, validated, pinned to the key's
    organization, its eval attestations are verified, and only then is it stored
    and folded.  Each storage call commits on its own: a rejected attestation
    leaves its audit entry.  Events come from a JSON body, so no two of them
    share an object. *)

From stdpp Require Import base list strings option pretty sets gmap.
From Stdlib Require Import ZArith Lia Ascii.
From S2P Require Import Prelude Py Json Sql Events Schema Effects Inventory Ledger Fold.

Open Scope nat_scope.

(** base64, PEM and Ed25519: decoding or loading raises what the library raises *)
Class Signatures := {
  verify_key : Type;
  b64decode : string -> res string;
  load_pem_public_key : string -> res (option verify_key);
  ed25519_verify : verify_key -> string -> string -> bool
}.

(** ** Keys *)

Section Keys.
Context `{Digest}.

Definition _TOKEN_PREFIX : string := "nrk_".
Definition hash_token (token : string) : string := sha256 token.
Definition _public_key_id (token : string) : string := String.substring 0 (String.length _TOKEN_PREFIX + 8) token.

(** [random]: the text secrets.token_urlsafe gives; the unique index and the
    primary key refuse a token that exists *)
Definition create_ingestion_key (now random tenant_id name : string) (created_by : option string) (d : db)
    : res (string * ingestion_key * db) :=
  let token := _TOKEN_PREFIX +:+ random in
  let row := mk_ingestion_key (_public_key_id token) (hash_token token) tenant_id name "active" created_by now None in
  let! _ := throw_if (existsb (fun r => String.eqb (ik_key_id r) (ik_key_id row) || String.eqb (ik_key_hash r) (ik_key_hash row))
      (ingestion_keys d)) (DatabaseError "UNIQUE constraint failed") in
  Ok (token, row, set_ingestion_keys (ingestion_keys d ++ [row]) d).

Definition resolve_ingestion_key (now : string) (token : option string) (d : db) : option ingestion_key * db :=
  match token with
  | None => (None, d)
  | Some token =>
      if is_empty token then (None, d)
      else match select1 (fun r => String.eqb (ik_key_hash r) (hash_token token) && String.eqb (ik_status r) "active")
                   (ingestion_keys d) with
           | None => (None, d)
           | Some row => (Some row, set_ingestion_keys
               (update_key ik_key_id (ik_key_id row) (ik_with_last_used_at (Some now)) (ingestion_keys d)) d)
           end
  end.

Definition revoke_ingestion_key (key_id tenant_id : string) (d : db) : res db :=
  match select1 (fun r => String.eqb (ik_key_id r) key_id && String.eqb (ik_tenant_id r) tenant_id) (ingestion_keys d) with
  | None => Raise (DomainError "ingestion key not found in this organization")
  | Some _ => Ok (set_ingestion_keys (update_key ik_key_id key_id (ik_with_status "revoked") (ingestion_keys d)) d)
  end.

(** *** Attestation keys *)

Definition create_attestation_key (now random tenant_id name public_key_pem : string) (created_by : option string) (d : db)
    : res db :=
  let key_id := "nak_" +:+ random in
  let! _ := throw_if (existsb (fun r => String.eqb (ak_key_id r) key_id) (attestation_keys d))
    (DatabaseError "UNIQUE constraint failed") in
  let d := set_attestation_keys (attestation_keys d ++
    [mk_attestation_key key_id tenant_id name "ed25519" public_key_pem "active" created_by now None None]) d in
  Ok (set_attestation_requirements
        (insert_or_ignore ar_tenant_id (mk_attestation_requirement tenant_id now created_by) (attestation_requirements d)) d).

Definition load_active_attestation_key (tenant_id key_id : string) (d : db) : option attestation_key :=
  select1 (fun r => String.eqb (ak_key_id r) key_id && String.eqb (ak_tenant_id r) tenant_id &&
                    String.eqb (ak_status r) "active") (attestation_keys d).

Definition revoke_attestation_key (now key_id tenant_id : string) (d : db) : res db :=
  let own r := String.eqb (ak_key_id r) key_id && String.eqb (ak_tenant_id r) tenant_id in
  match select1 own (attestation_keys d) with
  | None => Raise (DomainError "attestation key not found")
  | Some _ => Ok (set_attestation_keys
      (update own (fun r => ak_with_revoked_at (Some now) (ak_with_status "revoked" r)) (attestation_keys d)) d)
  end.

Definition touch_attestation_key (now key_id : string) (d : db) : db :=
  set_attestation_keys (update_key ak_key_id key_id (ak_with_last_used_at (Some now)) (attestation_keys d)) d.

(** ** The bearer token's organization *)

(** [s.partition(" ")]: before and after the first space *)
Fixpoint partition_space (s : string) : string * string :=
  match s with
  | EmptyString => (EmptyString, EmptyString)
  | String c s => if Ascii.eqb c " " then (EmptyString, s)
                  else let (head, tail) := partition_space s in (String c head, tail)
  end.

Definition _extract_bearer (authorization : option string) : option string :=
  match authorization with
  | None => None
  | Some a =>
      if is_empty a then None
      else let (scheme, token) := partition_space a in
           if negb (String.eqb (lower scheme) "bearer") || is_empty token then None else Some (strip token)
  end.

Definition organization_is_suspended (tenant_id : string) (d : db) : bool :=
  negb (is_empty tenant_id) &&
  match lookup_key org_tenant_id tenant_id (organizations d) with
  | Some row => negb (String.eqb (org_status row) "active")
  | None => false
  end.

Definition ingestion_tenant (now : string) (authorization : option string) (d : db) : committed string :=
  let (key, d) := resolve_ingestion_key now (_extract_bearer authorization) d in
  match key with
  | None => (d, Raise (HTTPException 401 "Invalid or missing ingestion key"))
  | Some key =>
      if organization_is_suspended (ik_tenant_id key) d
      then (d, Raise (HTTPException 403 "Organization is suspended"))
      else (d, Ok (ik_tenant_id key))
  end.
End Keys.

(** ** Validation *)

Definition set_attributes (a : list (string * pyval)) (e : event) : event :=
  mk_event (e_type e) (e_schema_version e) (e_trace_id e) (e_span_id e) (e_timestamp e) (e_service e) (e_environment e)
    (e_project e) (e_parent_span_id e) (e_system e) (e_name e) (e_status e) (e_duration_ms e) a.

Definition _REQUIRED_ATTRIBUTES (event_type : string) : list string :=
  if String.eqb event_type "deployment.event" then ["deployment_id"; "version"; "artifact_ref"]
  else if String.eqb event_type "prompt.event" then ["prompt_id"; "version"; "artifact_ref"] else [].
Definition _OBJECT_ATTRIBUTES : list string :=
  ["metadata"; "prompt"; "response"; "usage"; "template"; "change_notes"; "description"; "attestation"].
Definition _NUMERIC_USAGE_FIELDS : list string := ["input_tokens"; "output_tokens"].

Definition is_dict (v : pyval) : bool := match v with PDict _ => true | _ => false end.
Definition float_finite (f : pyfloat) : bool := match f with FFin _ => true | _ => false end.

Section Validation.
Context `{PyHost}.

Definition event_label (index : nat) : string := "events[" +:+ pretty (Z.of_nat index) +:+ "]".

Definition validate_usage_field (index : nat) (usage : pyval) (field : string) : res unit :=
  let not_number := Raise (HTTPException 422 (event_label index +:+ ".attributes.usage." +:+ field +:+ " must be a number")) in
  match object_get usage field with
  | PNone | PBool _ | PInt _ => Ok tt
  | PFloat f => throw_if (negb (float_finite f))
      (HTTPException 422 (event_label index +:+ ".attributes.usage." +:+ field +:+ " must be a finite number"))
  | PStr s => match str_float s with Ok f => if float_finite f then Ok tt else not_number | Raise _ => not_number end
  | _ => not_number
  end.
Definition _validate_usage (index : nat) (usage : pyval) : res unit :=
  rfold (fun _ field => validate_usage_field index usage field) tt _NUMERIC_USAGE_FIELDS.

Definition validate_event (index : nat) (e : event) : res unit :=
  let! _ := rfold (fun _ key =>
    match assoc key (e_attributes e) with
    | None | Some PNone => Ok tt
    | Some v => throw_if (negb (is_dict v))
        (HTTPException 422 (event_label index +:+ ".attributes." +:+ key +:+ " must be an object"))
    end) tt _OBJECT_ATTRIBUTES in
  let! _ := _validate_usage index (py_or (attr e "usage") (PDict [])) in
  let missing := select (fun field => is_none (attr e field) || py_eqb (attr e field) (PStr ""))
    (_REQUIRED_ATTRIBUTES (e_type e)) in
  throw_if (negb (bool_decide (missing = [])))
    (HTTPException 422 (event_label index +:+ " (" +:+ e_type e +:+ ") is missing required attributes: " +:+
                        join ", " missing)).

Definition _validate_event_attributes (events : list event) : res unit :=
  rfold (fun _ ie => validate_event (ie : nat * event).1 ie.2) tt (zip (seq 0 (length events)) events).
End Validation.

(** ** Binding to the organization *)

Definition bind_event (tenant_id : string) (e : event) : res event :=
  match default (PDict []) (assoc "metadata" (e_attributes e)) with
  | PDict metadata =>
      let claimed := default PNone (assoc "tenant_id" metadata) in
      let! _ := throw_if (negb (is_none claimed) && negb (py_eqb claimed (PStr tenant_id)))
        (HTTPException 403 "event tenant_id does not match the authenticated ingestion key") in
      Ok (set_attributes
            (item_set "metadata" (PDict (item_set "tenant_id" (PStr tenant_id) metadata)) (e_attributes e)) e)
  | _ => Raise (HTTPException 400 "event.attributes.metadata must be an object")
  end.
Definition _bind_events_to_tenant (events : list event) (tenant_id : string) : res (list event) :=
  rmap (bind_event tenant_id) events.

(** ** Attestations *)

Definition STATEMENT_TYPE : string := "norinth.eval.attestation/v1".
Definition MAX_PEM_LENGTH : nat := 4096.

Section Attestations.
Context `{PyHost} `{Signatures}.

Definition build_eval_statement (e : event) : string :=
  encode_compact (PDict
    [("type", PStr STATEMENT_TYPE); ("tenant_id", meta e "tenant_id"); ("application_name", meta e "application_name");
     ("workflow_name", meta e "workflow_name");
     ("eval_id", py_or (attr e "eval_id") (py_or (attr e "eval_name") (opt_value (e_name e))));
     ("passed", PBool (truthy (attr e "passed"))); ("score", attr e "score");
     ("prompt_version", attr e "prompt_version"); ("artifact_ref", attr e "artifact_ref");
     ("trace_id", PStr (e_trace_id e)); ("span_id", PStr (e_span_id e)); ("timestamp", PStr (e_timestamp e))]).

(** [except (ValueError, TypeError)] *)
Definition attestation_error {A} (message : string) (r : res A) : res A :=
  match r with
  | Raise (ValueError _) | Raise (RecordNotFound _) | Raise (DomainError _) | Raise TypeError =>
      Raise (AttestationError message)
  | r => r
  end.

Definition load_public_key (pem : string) : res verify_key :=
  let! _ := throw_if (bool_decide (MAX_PEM_LENGTH < String.length pem)) (AttestationError "public key is too long") in
  let! key := attestation_error "public key is not valid PEM" (load_pem_public_key pem) in
  match key with
  | Some k => Ok k
  | None => Raise (AttestationError "only Ed25519 attestation keys are supported")
  end.

Definition verify_eval_attestation (e : event) (public_key_pem signature_b64 : string) : res unit :=
  let! signature := attestation_error "attestation signature is not valid base64" (b64decode signature_b64) in
  let! key := load_public_key public_key_pem in
  throw_if (negb (ed25519_verify key signature (build_eval_statement e)))
    (AttestationError "attestation signature does not match the eval result").

Definition set_attr (k : string) (v : pyval) (e : event) : event := set_attributes (item_set k v (e_attributes e)) e.
Definition pop_attr (k : string) (e : event) : event := set_attributes (item_pop k (e_attributes e)) e.

Definition rejection (tenant_id key_id reason : string) (e : event) : audit_entry :=
  mk_audit_entry ("ingestion:" +:+ tenant_id) "evidence.attestation_rejected" (Some tenant_id) "eval_result"
    (e_trace_id e +:+ "/" +:+ e_span_id e) (PDict [("key_id", PStr key_id); ("reason", PStr reason)]).

(** one event, with what it leaves in the database *)
Definition verify_event (now tenant_id : string) (e : event) (d : db) : committed event :=
  let e := pop_attr "attested_key_id" (pop_attr "attested" e) in
  if negb (String.eqb (e_type e) "eval.result") then (d, Ok (pop_attr "attestation" e))
  else match attr e "attestation" with
       | PNone => (d, Ok (set_attr "attested" (PBool false) e))
       | PDict _ as attestation =>
           let key_id := py_str (py_or (object_get attestation "key_id") (PStr "")) in
           let signature := py_str (py_or (object_get attestation "signature") (PStr "")) in
           let key := if is_empty key_id then None else load_active_attestation_key tenant_id key_id d in
           let verified :=
             match key with
             | None => Raise (AttestationError "attestation key is unknown, revoked, or belongs to another organization")
             | Some key => verify_eval_attestation e (ak_public_key_pem key) signature
             end in
           match verified with
           | Ok _ => (touch_attestation_key now key_id d,
                      Ok (set_attr "attested_key_id" (PStr key_id) (set_attr "attested" (PBool true) e)))
           | Raise (AttestationError reason) =>
               (record_audit (rejection tenant_id key_id reason e) d,
                Raise (HTTPException 400 ("eval attestation rejected for span " +:+ e_span_id e +:+ ": " +:+ reason)))
           | Raise error => (d, Raise error)
           end
       | _ => (d, Raise (HTTPException 400 "attestation must be an object {key_id, signature}"))
       end.

Fixpoint _verify_eval_attestations (now tenant_id : string) (events : list event) (d : db) : committed (list event) :=
  match events with
  | [] => (d, Ok [])
  | e :: events =>
      match verify_event now tenant_id e d with
      | (d, Raise error) => (d, Raise error)
      | (d, Ok e) =>
          match _verify_eval_attestations now tenant_id events d with
          | (d, Raise error) => (d, Raise error)
          | (d, Ok events) => (d, Ok (e :: events))
          end
      end
  end.

(** ** A batch *)

Context `{Digest} `{SqlHost} `{ExnHost} `{Hmac}.

(** the environment of the handler *)
Record settings := mk_settings {
  NORINTH_SIGNING_SECRET : option string;
  NORINTH_FOLD_CLAIM_LIMIT : option string;
  NORINTH_FOLD_MAX_ATTEMPTS : option string
}.

(** everything before the first event is stored *)
Definition admit_events (now tenant_id : string) (events : list event) (d : db) : committed (list event) :=
  match _validate_event_attributes events with
  | Raise error => (d, Raise error)
  | Ok _ =>
      match _bind_events_to_tenant events tenant_id with
      | Raise error => (d, Raise error)
      | Ok events => _verify_eval_attestations now tenant_id events d
      end
  end.

Definition _ingest (env : settings) (clock : nat -> reading) (now : string) (events : list event) (tenant_id : string)
    (d : db) : committed nat :=
  match admit_events now tenant_id events d with
  | (d, Raise error) => (d, Raise error)
  | (d, Ok events) =>
      match insert_events now events d with
      | Raise error => (d, Raise error)
      | Ok (inserted, d) =>
          match fold_pending clock now tenant_id (claim_limit (NORINTH_FOLD_CLAIM_LIMIT env))
                  (Some (max_attempts (NORINTH_FOLD_MAX_ATTEMPTS env))) d with
          | (d, Raise error) => (d, Raise error)
          | (d, Ok _) => (d, Ok (length inserted))
          end
      end
  end.

Definition _verify_optional_signature (env : settings) (signature_header : option string) (body : string) : res unit :=
  match NORINTH_SIGNING_SECRET env with
  | None => Ok tt
  | Some secret =>
      if is_empty secret then Ok tt
      else
        let missing := Raise (HTTPException 401 "Missing or invalid signature") in
        match signature_header with
        | None => missing
        | Some header =>
            if negb (starts_with "sha256=" header) then missing
            else
              let! same := compare_digest (PStr ("sha256=" +:+ hmac_sha256 secret body)) header in
              throw_if (negb same) (HTTPException 401 "Signature mismatch")
        end
  end.

Definition MAX_BATCH_EVENTS : nat := 5000.

(** the endpoint: the key is resolved first, then the body is parsed *)
Definition ingest_events (env : settings) (clock : nat -> reading) (now : string)
    (authorization signature_header : option string) (body : string) (events : list event) (d : db) : committed nat :=
  match ingestion_tenant now authorization d with
  | (d, Raise error) => (d, Raise error)
  | (d, Ok tenant_id) =>
      if bool_decide (MAX_BATCH_EVENTS < length events) then (d, Raise (HTTPException 422 "Request validation error"))
      else match _verify_optional_signature env signature_header body with
           | Raise error => (d, Raise error)
           | Ok _ => _ingest env clock now events tenant_id d
           end
  end.
End Attestations.
