(* ===== verification/FoldRules.v ===== *)
(** * What folding guarantees

    However requests and sweeps follow one another, and wherever a fold fails,
    every event marked folded is counted, once; and a sweep moves every row it
    claims on: it is folded, or its own failure is on record. *)

From stdpp Require Import base list strings option pretty sets gmap.
From Stdlib Require Import ZArith Lia Sorted.
From stdpp Require Import sorting.
From S2P Require Import Prelude Py Sql Events Schema Scope Coverage Inventory Ledger Workflow Queue Gates.
From S2P Require Import LedgerRules Controls ControlRules Lifecycle Projections Posture.
From S2P Require Import Fold.

Open Scope nat_scope.

(** ** Projections that leave the ledger and the inventory alone *)

Definition apart (d d' : db) : Prop := inventory_of d' = inventory_of d /\ sdk_events d' = sdk_events d.
#[export] Instance apart_preorder : PreOrder apart.
Proof.
  split; [by split|]. intros d1 d2 d3 [Hi Hs] [Hi' Hs']. split; by etransitivity.
Qed.

Section Frames.
Context (R : db -> db -> Prop) {HR : PreOrder R}.

Lemma rfold_frame {A} (f : db -> A -> res db) l d d' :
  (forall d x d', f d x = Ok d' -> R d d') -> rfold f d l = Ok d' -> R d d'.
Proof. intros Hf Hd. refine (rfold_ind (R d) f d l d' Hd (reflexivity d) _). intros d1 x d2 _ Hx Hd1. etransitivity; eauto. Qed.
Lemma foldl_frame {A} (f : db -> A -> db) l d : (forall d x, R d (f d x)) -> R d (foldl f d l).
Proof. intros Hf. revert d. induction l as [|x l IH]; intros d; cbn [foldl]; [reflexivity|]. etransitivity; [apply Hf|apply IH]. Qed.

(** whatever a step commits, also when it raises *)
Definition frame (s : step) : Prop := forall d d' e, s d = (d', e) -> R d d'.
Lemma commit_frame f : (forall d d', f d = Ok d' -> R d d') -> frame (commit f).
Proof. intros Hf d d' e. unfold commit. destruct (f d) eqn:E; intros [= <- <-]; [by apply Hf|reflexivity]. Qed.
Lemma steps_frame l : Forall frame l -> frame (steps l).
Proof.
  induction 1 as [|s l Hs _ IH]; intros d d' e; cbn [steps]; [by intros [= <- <-]|].
  destruct (s d) as [d1 [x|]] eqn:E; [intros [= <- <-]; by eapply Hs|]. intros Hd. etransitivity; [by eapply Hs|by eapply IH].
Qed.

(** a first transaction that raises changes nothing *)
Lemma steps_split f l d d' e : steps (commit f :: l) d = (d', e) ->
  (d' = d /\ e <> None) \/ (exists d1, f d = Ok d1 /\ steps l d1 = (d', e)).
Proof. cbn [steps]. unfold commit. destruct (f d) as [d1|x]; [right; by exists d1|intros [= <- <-]; by left]. Qed.
End Frames.

(** a step that sets other tables *)
Ltac elsewhere := split; reflexivity.
(** the results a handler binds before it returns its database *)
Ltac unbind H := repeat (let x := fresh in apply rbind_Ok in H as (x & _ & H)); apply Ok_inj in H; subst.

Section Elsewhere.
Context `{PyHost} `{Digest} `{SqlHost} `{ExnHost}.

Lemma apart_of_type ty f events d d' : (forall d e d', f d e = Ok d' -> apart d d') ->
  of_type ty f events d = Ok d' -> apart d d'.
Proof.
  intros Hf. apply (rfold_frame apart). intros x e x'. cbv beta.
  destruct (String.eqb _ _); [apply Hf|intros Hd%Ok_inj; by subst].
Qed.

Lemma apart_prompts events d d' : process_prompt_events events d = Ok d' -> apart d d'.
Proof.
  apply apart_of_type. clear. intros d e d'. unfold upsert_prompt_event. cbv zeta.
  destruct (negb _); intros Hd; unbind Hd; [reflexivity|elsewhere].
Qed.

Lemma apart_deployments events d d' : process_deployment_events events d = Ok d' -> apart d d'.
Proof.
  apply apart_of_type. clear. intros d e d'. unfold upsert_deployment_event. cbv zeta.
  intros (x & _ & (y & _ & Hd)%rbind_Ok)%rbind_Ok. destruct (negb _); unbind Hd; [reflexivity|elsewhere].
Qed.

Lemma apart_incidents events d d' : process_incident_events events d = Ok d' -> apart d d'.
Proof.
  apply apart_of_type. clear. intros d e d'. unfold upsert_incident_event, incident_evidence_counts. cbv zeta.
  destruct (negb _); intros Hd; [unbind Hd; reflexivity|]. repeat (apply rbind_Ok in Hd as (? & _ & Hd)).
  apply Ok_inj in Hd. subst d'.
  destruct (_ && _); elsewhere.
Qed.

Lemma apart_expiry now iso d : apart d (snd (expire_due_exceptions now iso d)).
Proof.
  apply (foldl_frame apart). clear. intros d e. unfold expire_one. cbv zeta.
  destruct (String.eqb _ _); [elsewhere|]. destruct (String.eqb _ _); elsewhere.
Qed.

Lemma apart_fingerprint now scope d fp d' : upsert_fingerprint now scope d fp = Ok d' -> apart d d'.
Proof.
  unfold upsert_fingerprint. cbv zeta. intros (d1 & Hd1 & Hd)%rbind_Ok.
  transitivity d1; [|unbind Hd; elsewhere]. clear Hd.
  destruct (lookup_key _ _ _); [|unbind Hd1; reflexivity]. destruct (String.eqb _ _); [unbind Hd1; reflexivity|].
  destruct (changed_material_fields _ _); [unbind Hd1; reflexivity|].
  unfold insert_change_event in Hd1. cbv zeta in Hd1. unbind Hd1. elsewhere.
Qed.
Lemma apart_fingerprints now events d d' : fold_batch_fingerprints now events d = Ok d' -> apart d d'.
Proof.
  unfold fold_batch_fingerprints. intros (groups & _ & Hd)%rbind_Ok. revert Hd. apply (rfold_frame apart).
  clear. intros d [scope batch] d'. unfold fold_fingerprints. intros (bound & _ & Hd)%rbind_Ok.
  destruct bound; [|unbind Hd; reflexivity]. destruct (negb _); [unbind Hd; reflexivity|].
  revert Hd. apply (rfold_frame apart). intros x fp x'. apply apart_fingerprint.
Qed.

Lemma apart_assessments now events d d' : fold_batch_assessments now events d = Ok d' -> apart d d'.
Proof.
  unfold fold_batch_assessments. intros (groups & _ & Hd)%rbind_Ok. revert Hd. apply (rfold_frame apart).
  intros x group x' (_ & _ & ->)%kept_application. elsewhere.
Qed.

Lemma apart_agents now tenants : frame apart (refresh_agent_posture now tenants).
Proof.
  intros d. apply (steps_frame apart), Forall_forall. intros s (t & -> & _)%list_elem_of_fmap.
  apply (commit_frame apart). clear. intros d d'. unfold agent_posture_of. intros (findings & _ & Hd)%rbind_Ok. revert Hd.
  apply (rfold_frame apart). clear. intros d [obs [rule summary]] d'. unfold write_agent_finding.
  destruct (find _ _); [|done]. intros Hd. unbind Hd. elsewhere.
Qed.

Lemma apart_vendors now tenants d : apart d (refresh_vendor_posture now tenants d).
Proof.
  apply (foldl_frame apart). clear. intros d t. apply (foldl_frame apart). clear. intros d [[[[p e] a] pr] m].
  unfold write_vendor_finding. destruct (vendor_issue _ _ _) as [[suffix summary]|]; [elsewhere|reflexivity].
Qed.

Lemma apart_owners now wanted ty rows d : apart d (own_rows now wanted ty rows d).
Proof.
  apply (foldl_frame apart). clear. intros d [[app subject] status]. destruct (_in_scopes _ _); [|reflexivity].
  apply (foldl_frame apart). clear. intros d policy. unfold apply_owner_policy.
  destruct (negb _); [reflexivity|]. destruct (_ && _); [reflexivity|]. unfold ensure_owner_assignment.
  destruct app as [[[? ?] ?] ?]. elsewhere.
Qed.
Lemma apart_queue now now_dt tenants d d' : refresh_review_queue now now_dt tenants d = Ok d' -> apart d d'.
Proof.
  apply (rfold_frame apart). clear. intros d task d'. unfold route_task. destruct (in_tenants _ _); [|intros Hd; unbind Hd; reflexivity].
  intros Hd. unbind Hd. unfold mark_review_task_queue_state, _notify_queue_transition. cbv zeta.
  repeat match goal with |- context [if ?b then emit _ _ else _] => destruct b end; elsewhere.
Qed.
Lemma apart_workflow now now_dt scopes tenants d d' : refresh_workflow_scopes now now_dt scopes tenants d = Ok d' -> apart d d'.
Proof.
  unfold refresh_workflow_scopes. cbv zeta. intros Hd%apart_queue. etransitivity; [|exact Hd].
  etransitivity; [|apply apart_owners]. etransitivity; [|apply apart_owners]. etransitivity; [|apply apart_owners]. apply apart_owners.
Qed.

Lemma apart_gates now now_dt scopes d d' : refresh_deployment_gates now now_dt scopes d = Ok d' -> apart d d'.
Proof.
  apply (rfold_frame apart). clear. intros d v d'. destruct (in_wanted _ _); [|intros Hd; unbind Hd; reflexivity].
  unfold upsert_deployment_gate. cbv zeta. intros Hd. unbind Hd. elsewhere.
Qed.

(** ** A fold *)

(** a fold counts first, in one transaction; everything after it is elsewhere *)
Lemma fold_rows_split clock tenant_id pending d d' e : _fold_rows clock tenant_id pending d = (d', e) ->
  (d' = d /\ e <> None) \/
  (exists d1, process_events (rd_now (clock 0)) pending d = Ok d1 /\ apart d1 d').
Proof.
  unfold _fold_rows. cbv zeta. destruct (steps _ d) as [d2 o] eqn:E2. intros E.
  apply steps_split in E2 as [[-> Ho]|(d1 & Hd1 & E2)].
  { destruct o; [|done]. injection E as <- <-. by left. }
  right. exists d1. split; [done|]. assert (apart d1 d2) as Hd2.
  { revert E2. apply (steps_frame apart). repeat (apply List.Forall_cons; [apply (commit_frame apart); intros x y Hx|]).
    - by eapply apart_prompts.
    - by eapply apart_deployments.
    - by eapply apart_incidents.
    - apply Ok_inj in Hx. subst y. apply apart_expiry.
    - apply List.Forall_nil. }
  clear E2. destruct o as [x|]; [by injection E as <- <-|]. destruct (batch_scopes _) as [scopes|x]; [|by injection E as <- <-].
  etransitivity; [exact Hd2|]. revert E. apply (steps_frame apart).
  repeat (apply List.Forall_cons; [first [apply (commit_frame apart); intros x y Hx | apply apart_agents]|]).
  - by eapply apart_fingerprints.
  - by eapply apart_assessments.
  - apply Ok_inj in Hx. subst y. apply apart_vendors.
  - by eapply apart_workflow.
  - by eapply apart_gates.
  - apply List.Forall_nil.
Qed.

(** a row, but for its count *)
Definition uncount (r : sdk_event) : sdk_event := ev_with_counted_at None r.

Lemma fold_rows_table clock tenant_id pending d d' e : _fold_rows clock tenant_id pending d = (d', e) ->
  map uncount (sdk_events d') = map uncount (sdk_events d).
Proof.
  intros [[-> _]|(d1 & Hd1 & [_ Hs])]%fold_rows_split; [done|]. rewrite Hs, (process_table _ _ _ _ Hd1).
  unfold update. rewrite map_map. apply map_ext. intros r. by destruct (bool_decide _).
Qed.

Lemma fold_rows_counted clock tenant_id pending d d' : _fold_rows clock tenant_id pending d = (d', None) ->
  forall r, r ∈ sdk_events d' -> ev_id r ∈ map pr_id pending -> counted r = true.
Proof.
  intros [[_ []]|(d1 & Hd1 & [_ Hs])]%fold_rows_split; [done|]. rewrite Hs. by eapply process_counted.
Qed.

(** what is folded is counted *)
Definition settled (d : db) : Prop := forall r, r ∈ sdk_events d -> ev_folded_at r <> None -> counted r = true.

Lemma settled_fold clock tenant_id pending d d' e : _fold_rows clock tenant_id pending d = (d', e) -> settled d -> settled d'.
Proof.
  intros [[-> _]|(d1 & Hd1 & [_ Hs])]%fold_rows_split; [done|]. unfold settled. rewrite Hs, (process_table _ _ _ _ Hd1).
  intros Hd r [(x & Hx & _ & ->)|[Hr _]]%elem_of_update Hf; [done|by apply Hd].
Qed.
Lemma settled_mark now ids d : (forall r, r ∈ sdk_events d -> ev_id r ∈ ids -> counted r = true) ->
  settled d -> settled (mark_folded now ids d).
Proof.
  intros Hc Hd r Hr Hf. change (sdk_events (mark_folded now ids d)) with
    (update (still_pending ids) (ev_with_folded_at (Some now)) (sdk_events d)) in Hr.
  apply elem_of_update in Hr as [(x & Hx & [_ Hi%bool_decide_eq_true]%andb_true_iff & ->)|[Hr _]].
  - change (counted x = true). by apply Hc.
  - by apply Hd.
Qed.
Lemma settled_attempt ids error d : settled d -> settled (record_fold_attempt ids error d).
Proof.
  intros Hd r Hr Hf. change (sdk_events (record_fold_attempt ids error d)) with
    (update (still_pending ids) (fun r => ev_with_fold_error (Some (String.substring 0 500 error))
                (ev_with_fold_attempts (ev_fold_attempts r + 1)%Z r)) (sdk_events d)) in Hr.
  apply elem_of_update in Hr as [(x & Hx & _ & ->)|[Hr _]]; [|by apply Hd].
  change (counted x = true). by apply Hd.
Qed.

(** ** Folds are steps of the ledger *)

Definition tracked (d0 : db) (C : list (list pending_row)) (d : db) : Prop := reachable d0 (d, C) /\ settled d.

Lemma tracked_fold d0 C claim clock tenant_id pending d d' e : claim ∈ C -> pending `sublist_of` claim ->
  _fold_rows clock tenant_id pending d = (d', e) -> tracked d0 C d -> tracked d0 C d'.
Proof.
  intros HC Hp Hf [Hr Hs]. split; [|by eapply settled_fold].
  apply fold_rows_split in Hf as [[-> _]|(d1 & Hd1 & [Hi He])]; [done|].
  eapply reachable_step; [|by apply (step_elsewhere d1 d' C)].
  eapply reachable_step; [exact Hr|by eapply step_process].
Qed.
Lemma tracked_mark d0 C now ids d : (forall r, r ∈ sdk_events d -> ev_id r ∈ ids -> counted r = true) ->
  tracked d0 C d -> tracked d0 C (mark_folded now ids d).
Proof. intros Hc [Hr Hs]. split; [|by apply settled_mark]. eapply reachable_step; [exact Hr|apply step_mark]. Qed.
Lemma tracked_attempt d0 C ids error d : tracked d0 C d -> tracked d0 C (record_fold_attempt ids error d).
Proof. intros [Hr Hs]. split; [|by apply settled_attempt]. eapply reachable_step; [exact Hr|apply step_attempt]. Qed.
Lemma tracked_claim d0 C tenant_id limit attempts d : tracked d0 C d ->
  tracked d0 (claim_unfolded tenant_id limit attempts d :: C) d.
Proof. intros [Hr Hs]. split; [|done]. eapply reachable_step; [exact Hr|apply step_claim]. Qed.

Lemma tracked_pending d0 C clock later tenant_id limit attempts d d' r :
  fold_pending clock later tenant_id limit attempts d = (d', r) -> tracked d0 C d ->
  exists C', tracked d0 C' d'.
Proof.
  unfold fold_pending. intros Hf Hd. pose proof (tracked_claim d0 C tenant_id limit attempts d Hd) as Hc.
  remember (claim_unfolded tenant_id limit attempts d) as pending. exists (pending :: C).
  assert (pending ∈ pending :: C) as HC by (by left).
  destruct pending as [|p pending]; [by injection Hf as <- _|].
  destruct (_fold_rows _ _ _ d) as [d1 [e|]] eqn:E; injection Hf as <- _.
  - apply tracked_attempt. eapply tracked_fold; [exact HC|reflexivity|exact E|exact Hc].
  - apply tracked_mark; [exact (fold_rows_counted _ _ _ _ _ E)|]. eapply tracked_fold; [exact HC|reflexivity|exact E|exact Hc].
Qed.

Lemma tracked_rows d0 C claim clock later tenant_id : claim ∈ C -> forall rows acc,
  (forall p, p ∈ rows -> p ∈ claim) -> tracked d0 C acc.1.1 ->
  tracked d0 C (foldl (sweep_row clock later tenant_id) acc rows).1.1.
Proof.
  intros HC rows. induction rows as [|p rows IH]; intros [[d n] m] Hin Hd; [done|]. cbn [foldl].
  apply IH; [intros q Hq; apply Hin; by right|]. unfold sweep_row.
  assert ([p] `sublist_of` claim) as Hp.
  { destruct (list_elem_of_split claim p) as (l1 & l2 & ->); [apply Hin; by left|].
    apply sublist_inserts_l, sublist_skip, sublist_nil_l. }
  destruct (_fold_rows _ _ _ d) as [d1 [e|]] eqn:E; cbn [fst].
  - apply tracked_attempt. eapply tracked_fold; [exact HC|exact Hp|exact E|exact Hd].
  - apply tracked_mark; [exact (fold_rows_counted _ _ _ _ _ E)|]. eapply tracked_fold; [exact HC|exact Hp|exact E|exact Hd].
Qed.

Lemma tracked_sweep d0 C whole clock later tenant_id limit d :
  tracked d0 C d -> exists C', tracked d0 C' (sweep_tenant whole clock later tenant_id limit d).1.1.
Proof.
  intros Hd. pose proof (tracked_claim d0 C tenant_id limit None d Hd) as Hc. unfold sweep_tenant.
  remember (claim_unfolded tenant_id limit None d) as pending. exists (pending :: C).
  assert (pending ∈ pending :: C) as HC by (by left).
  destruct pending as [|p pending]; [done|]. destruct (_fold_rows _ _ _ d) as [d1 [e|]] eqn:E.
  - apply (tracked_rows d0 _ (p :: pending)); [done|done|]. eapply tracked_fold; [exact HC|reflexivity|exact E|exact Hc].
  - cbn [fst]; apply tracked_mark; [exact (fold_rows_counted _ _ _ _ _ E)|]. eapply tracked_fold; [exact HC|reflexivity|exact E|exact Hc].
Qed.

(** ** Every pending row moves on *)

(** the same row, later *)
Definition same_row (r r' : sdk_event) : Prop := ev_id r' = ev_id r /\ ev_raw_event r' = ev_raw_event r.
Definition unmoved (r r' : sdk_event) : Prop :=
  same_row r r' /\ ev_folded_at r' = ev_folded_at r /\ ev_fold_attempts r' = ev_fold_attempts r.

Lemma fold_rows_unmoved clock tenant_id pending d d' e : _fold_rows clock tenant_id pending d = (d', e) ->
  forall r, r ∈ sdk_events d -> exists r', r' ∈ sdk_events d' /\ unmoved r r'.
Proof.
  intros Hf%fold_rows_table r Hr. assert (uncount r ∈ map uncount (sdk_events d')) as (r' & E & Hr')%list_elem_of_fmap.
  { rewrite Hf. by apply list_elem_of_fmap_2. }
  exists r'. split; [done|]. unfold uncount in E.
  pose proof (f_equal ev_id E). pose proof (f_equal ev_raw_event E). pose proof (f_equal ev_folded_at E).
  pose proof (f_equal ev_fold_attempts E). repeat split; by symmetry.
Qed.

Lemma mark_row now ids d r : r ∈ sdk_events d -> exists r', r' ∈ sdk_events (mark_folded now ids d) /\ same_row r r' /\
  (if bool_decide (ev_id r ∈ ids) then ev_folded_at r' <> None else unmoved r r').
Proof.
  intros Hr. exists (if still_pending ids r then ev_with_folded_at (Some now) r else r). split; [|unfold still_pending].
  - change (sdk_events (mark_folded now ids d)) with
      (map (fun r => if still_pending ids r then ev_with_folded_at (Some now) r else r) (sdk_events d)).
    apply list_elem_of_fmap. by exists r.
  - case_bool_decide; destruct (ev_folded_at r) eqn:E; cbn [is_null andb]; repeat split; try done; by rewrite E.
Qed.

Lemma attempt_row ids error d r : r ∈ sdk_events d -> exists r', r' ∈ sdk_events (record_fold_attempt ids error d) /\
  same_row r r' /\ ev_folded_at r' = ev_folded_at r /\
  ev_fold_attempts r' = (if still_pending ids r then ev_fold_attempts r + 1 else ev_fold_attempts r)%Z.
Proof.
  intros Hr. set (f := fun r => ev_with_fold_error (Some (String.substring 0 500 error))
    (ev_with_fold_attempts (ev_fold_attempts r + 1)%Z r)).
  exists (if still_pending ids r then f r else r). split.
  - change (sdk_events (record_fold_attempt ids error d)) with (map (fun r => if still_pending ids r then f r else r) (sdk_events d)).
    apply list_elem_of_fmap. by exists r.
  - destruct (still_pending ids r); repeat split.
Qed.

(** a row that was folded, or whose own fold raised and was recorded *)
Definition moved_on (clock : Z -> nat -> reading) (tenant_id : string) (r r' : sdk_event) : Prop :=
  ev_folded_at r' <> None \/
  (ev_folded_at r' = None /\ ev_fold_attempts r' = (ev_fold_attempts r + 1)%Z /\
   exists p d1 d2 e, pr_id p = ev_id r /\ _fold_rows (clock (pr_id p)) tenant_id [p] d1 = (d2, Some e)).

Lemma sweep_one clock later tenant_id d n m p r : r ∈ sdk_events d ->
  exists r', r' ∈ sdk_events (sweep_row clock later tenant_id (d, n, m) p).1.1 /\ same_row r r' /\
    (ev_id r <> pr_id p -> unmoved r r') /\
    (ev_id r = pr_id p -> ev_folded_at r = None -> moved_on clock tenant_id r r').
Proof.
  intros Hr. unfold sweep_row. destruct (_fold_rows _ _ _ d) as [d1 [e|]] eqn:E; cbn [fst].
  all: destruct (fold_rows_unmoved _ _ _ _ _ _ E r Hr) as (r1 & Hr1 & [Hid Hraw] & Hf & Ha).
  - destruct (attempt_row [pr_id p] (exn_repr e) d1 r1 Hr1) as (r' & Hr' & [Hid' Hraw'] & Hf' & Ha').
    exists r'. split; [done|]. split; [split; congruence|]. unfold still_pending in Ha'. rewrite Hf, Hid in Ha'. split.
    + intros Hne. rewrite bool_decide_eq_false_2, andb_false_r in Ha' by (by intros ?%list_elem_of_singleton).
      repeat split; congruence.
    + intros Heq Hnone. rewrite Hnone, bool_decide_eq_true_2 in Ha' by (rewrite Heq; by apply list_elem_of_singleton).
      right. split; [congruence|]. cbn [is_null andb] in Ha'. split; [by rewrite Ha', Ha|]. exists p, d, d1, e. done.
  - destruct (mark_row (later (pr_id p)) [pr_id p] d1 r1 Hr1) as (r' & Hr' & [Hid' Hraw'] & Hm).
    exists r'. split; [done|]. split; [split; congruence|]. rewrite Hid in Hm. split.
    + intros Hne. rewrite bool_decide_eq_false_2 in Hm by (by intros ?%list_elem_of_singleton).
      destruct Hm as (_ & Hf' & Ha'). repeat split; congruence.
    + intros Heq _. left. by rewrite bool_decide_eq_true_2 in Hm by (rewrite Heq; by apply list_elem_of_singleton).
Qed.

Lemma sweep_all clock later tenant_id rows : forall d n m r, NoDup (map pr_id rows) -> r ∈ sdk_events d ->
  exists r', r' ∈ sdk_events (foldl (sweep_row clock later tenant_id) (d, n, m) rows).1.1 /\ same_row r r' /\
    (ev_id r ∉ map pr_id rows -> unmoved r r') /\
    (ev_id r ∈ map pr_id rows -> ev_folded_at r = None -> moved_on clock tenant_id r r').
Proof.
  induction rows as [|p rows IH]; intros d n m r Hn Hr.
  { exists r. split; [done|]. split; [done|]. split; [done|]. by intros ?%elem_of_nil. }
  cbn [map foldl] in *. apply NoDup_cons in Hn as [Hp Hn].
  destruct (sweep_one clock later tenant_id d n m p r Hr) as (r1 & Hr1 & [Hid1 Hraw1] & Hne1 & Heq1).
  destruct (sweep_row clock later tenant_id (d, n, m) p) as [[d1 n1] m1]. cbn [fst] in Hr1.
  destruct (IH d1 n1 m1 r1 Hn Hr1) as (r' & Hr' & [Hid Hraw] & Hne & Heq). rewrite Hid1 in Hne, Heq.
  exists r'. split; [done|]. split; [split; congruence|]. split.
  - intros [Hnp Hnr]%not_elem_of_cons. destruct (Hne1 Hnp) as (_ & Hf1 & Ha1), (Hne Hnr) as (_ & Hf & Ha).
    repeat split; congruence.
  - intros Hin Hnone. destruct (decide (ev_id r = pr_id p)) as [E|E].
    + specialize (Heq1 E Hnone). rewrite <-E in Hp. destruct (Hne Hp) as (_ & Hf & Ha). unfold moved_on in *.
      rewrite Hf, Ha. exact Heq1.
    + apply elem_of_cons in Hin as [?|Hin]; [done|]. destruct (Hne1 E) as (_ & Hf1 & Ha1).
      specialize (Heq Hin ltac:(congruence)). unfold moved_on in *. by rewrite Hid1, Ha1 in Heq.
Qed.

Lemma sweep_counts clock later tenant_id rows acc :
  (foldl (sweep_row clock later tenant_id) acc rows).1.2 + (foldl (sweep_row clock later tenant_id) acc rows).2 =
  acc.1.2 + acc.2 + length rows.
Proof.
  revert acc. induction rows as [|p rows IH]; intros [[d n] m]; cbn [foldl length]; [lia|]. rewrite IH. unfold sweep_row.
  destruct (_fold_rows _ _ _ d) as [d1 [e|]]; cbn [fst snd]; lia.
Qed.

(** the claim of a sweep *)
Lemma claim_ids tenant_id limit d r : keys_unique ev_id (sdk_events d) -> r ∈ sdk_events d ->
  ev_id r ∈ map pr_id (claim_unfolded tenant_id limit None d) -> ev_folded_at r = None.
Proof.
  intros Hu Hr (p & Hid & Hp)%list_elem_of_fmap. unfold claim_unfolded in Hp.
  apply list_elem_of_fmap in Hp as (x & -> & (i & Hx%list_elem_of_lookup_2 & _)%elem_of_take).
  apply elem_of_order_by, elem_of_select in Hx as [Hc Hx]. cbn [pr_id] in Hid.
  rewrite (keys_unique_eq ev_id _ r x Hu Hr Hx Hid). unfold is_null in Hc. by destruct (ev_folded_at x).
Qed.

(** the claim takes the organization's oldest pending rows, up to its limit *)
Lemma claim_oldest tenant_id limit d r : keys_unique ev_id (sdk_events d) ->
  let pending := claim_unfolded tenant_id limit None d in
  r ∈ sdk_events d -> ev_tenant_id r = Some tenant_id -> ev_folded_at r = None -> ev_id r ∉ map pr_id pending ->
  length pending = limit /\ forall i, i ∈ map pr_id pending -> (i < ev_id r)%Z.
Proof.
  intros Hu pending Hr Ht Hf Hn. unfold pending, claim_unfolded in *. rewrite map_map in *. cbn [pr_id] in *.
  set (le := fun a b => (ev_id a <=? ev_id b)%Z) in *. set (rows := select _ (sdk_events d)) in *.
  assert (forall x, x ∈ rows -> x ∈ sdk_events d) as Hrows by (intros x [_ Hx]%elem_of_select; done).
  assert (r ∈ order_by le rows) as Hin.
  { apply elem_of_order_by, elem_of_select. rewrite Hf, Ht. cbn. by rewrite String.eqb_refl. }
  assert (r ∈ drop limit (order_by le rows)) as Hd.
  { rewrite <-(take_drop limit (order_by le rows)) in Hin. apply elem_of_app in Hin as [Hin|Hin]; [|done].
    destruct Hn. by apply (list_elem_of_fmap_2 ev_id). }
  split.
  - rewrite length_map, length_take. assert (drop limit (order_by le rows) <> []) as Hne by (by intros E; rewrite E in Hd; apply elem_of_nil in Hd).
    destruct (decide (limit <= length (order_by le rows))); [lia|]. by rewrite drop_ge in Hne by lia.
  - intros i (x & -> & Hx)%list_elem_of_fmap.
    assert (StronglySorted (fun a b => le a b = true) (order_by le rows)) as Hs by (apply order_by_sorted; intros; unfold le in *; lia).
    rewrite <-(take_drop limit (order_by le rows)) in Hs. pose proof (StronglySorted_app_1_elem_of _ _ _ _ _ Hs Hx Hd) as Hle.
    cbv beta in Hle. unfold le in Hle. destruct (decide (ev_id x = ev_id r)) as [E|]; [|lia].
    destruct Hn. rewrite <-E. by apply (list_elem_of_fmap_2 ev_id).
Qed.

End Elsewhere.
