(* ===== verification/IngestRules.v ===== *)
(** * What ingestion guarantees

    A batch reaches the ledger only under an active ingestion key, for the key's
    organization, whole or not at all, and an event is marked attested only over
    a signature of one of the organization's active keys; and whatever requests,
    sweeps and other handlers do, every folded event is counted once. *)

From stdpp Require Import base list strings option pretty sets gmap relations.
From Stdlib Require Import ZArith Lia.
From S2P Require Import Effects Prelude Py Json Sql Events Schema Scope Inventory Ledger LedgerRules.
From S2P Require Import Posture Fold FoldRules Ingest.

Open Scope nat_scope.

(** ** Attributes *)

Lemma attr_set_attr k v e key : attr (set_attr k v e) key = if String.eqb k key then v else attr e key.
Proof. unfold attr, set_attr. cbn [e_attributes set_attributes]. rewrite assoc_item_set. by destruct (String.eqb k key). Qed.
Lemma attr_pop_attr k e key : attr (pop_attr k e) key = if String.eqb k key then PNone else attr e key.
Proof. unfold attr, pop_attr. cbn [e_attributes set_attributes]. rewrite assoc_item_pop. by destruct (String.eqb k key). Qed.

Section Rules.
Context `{PyHost} `{Signatures} `{Digest} `{SqlHost} `{ExnHost} `{Hmac}.

(** what an attestation does not read *)
Definition UNSIGNED : list string := ["attested"; "attested_key_id"; "attestation"].

Lemma statement_set k v e : k ∈ UNSIGNED -> build_eval_statement (set_attr k v e) = build_eval_statement e.
Proof.
  intros Hk. unfold build_eval_statement, meta. rewrite !attr_set_attr.
  repeat (apply elem_of_cons in Hk as [->|Hk]; [reflexivity|]). by apply elem_of_nil in Hk.
Qed.

Lemma bind_meta tenant_id e e' : bind_event tenant_id e = Ok e' ->
  meta e' "tenant_id" = PStr tenant_id /\ e_trace_id e' = e_trace_id e /\ e_span_id e' = e_span_id e.
Proof.
  unfold bind_event. destruct (default _ _) as [| | | | | |metadata]; try done. intros (u & _ & He%Ok_inj)%rbind_Ok. subst e'.
  split; [|done]. unfold meta, attr. cbn [e_attributes set_attributes]. rewrite assoc_item_set. cbn [String.eqb].
  change (object_get (PDict (item_set "tenant_id" (PStr tenant_id) metadata)) "tenant_id" = PStr tenant_id).
  unfold object_get. by rewrite assoc_item_set.
Qed.

(** ** Attestation *)

(** an attested event is an eval result signed under an active key of the
    organization, over its canonical statement *)
Definition vouched (d : db) (tenant_id : string) (e : event) : Prop :=
  attr e "attested" = PBool true ->
  e_type e = "eval.result" /\
  exists key pk signature, key ∈ attestation_keys d /\ ak_tenant_id key = tenant_id /\ ak_status key = "active" /\
    attr e "attested_key_id" = PStr (ak_key_id key) /\ load_public_key (ak_public_key_pem key) = Ok pk /\
    ed25519_verify pk signature (build_eval_statement e) = true.

(** keys but for when they were last used *)
Definition unused (k : attestation_key) : attestation_key := ak_with_last_used_at None k.
Definition keys_same (d d' : db) : Prop := map unused (attestation_keys d') = map unused (attestation_keys d).

Lemma vouched_same d d' tenant_id e : keys_same d d' -> vouched d' tenant_id e -> vouched d tenant_id e.
Proof.
  intros Hk Hv Ha. destruct (Hv Ha) as (Ht & key & pk & s & Hin & Hten & Hst & Hid & Hpem & Hver). split; [done|].
  assert (unused key ∈ map unused (attestation_keys d)) as (key0 & E & Hin0)%list_elem_of_fmap.
  { rewrite <-Hk. by apply list_elem_of_fmap_2. }
  pose proof (f_equal ak_tenant_id E) as E1. pose proof (f_equal ak_status E) as E2. pose proof (f_equal ak_key_id E) as E3.
  pose proof (f_equal ak_public_key_pem E) as E4. cbn in E1, E2, E3, E4.
  exists key0, pk, s. split; [done|]. repeat split; congruence.
Qed.

Lemma verify_eval_signed e pem signature : verify_eval_attestation e pem signature = Ok tt ->
  exists pk s, load_public_key pem = Ok pk /\ ed25519_verify pk s (build_eval_statement e) = true.
Proof.
  unfold verify_eval_attestation. intros (s & _ & (pk & Hpk & Hv%throw_if_Ok)%rbind_Ok)%rbind_Ok.
  exists pk, s. split; [done|]. by apply negb_false_iff.
Qed.

Ltac rejects := intros [= <- <-]; split; [done|]; split; [done|]; by intros ?.

(** the outcome of one event *)
Lemma verify_event_spec now tenant_id e d d' r : verify_event now tenant_id e d = (d', r) ->
  apart d d' /\ keys_same d d' /\
  forall e', r = Ok e' -> meta e' "tenant_id" = meta e "tenant_id" /\ e_trace_id e' = e_trace_id e /\
    e_span_id e' = e_span_id e /\ vouched d tenant_id e'.
Proof.
  unfold verify_event. cbv zeta. set (e0 := pop_attr "attested_key_id" (pop_attr "attested" e)).
  assert (forall k v, k ∈ UNSIGNED -> meta (set_attr k v e0) "tenant_id" = meta e "tenant_id") as Hm.
  { intros k v Hk. unfold meta, e0. rewrite attr_set_attr, !attr_pop_attr.
    repeat (apply elem_of_cons in Hk as [->|Hk]; [reflexivity|]). by apply elem_of_nil in Hk. }
  destruct (negb (String.eqb (e_type e0) "eval.result")) eqn:Hty.
  { intros [= <- <-]. split; [done|]. split; [done|]. intros e' He%Ok_inj. subst e'. split; [|split; [done|split; [done|]]].
    - unfold meta, e0. by rewrite !attr_pop_attr.
    - intros Ha. unfold e0 in Ha. by rewrite !attr_pop_attr in Ha. }
  apply negb_false_iff, String.eqb_eq in Hty.
  destruct (attr e0 "attestation") as [| | | | | |attestation] eqn:Hat; try rejects.
  - intros [= <- <-]. split; [done|]. split; [done|]. intros e' He%Ok_inj. subst e'.
    split; [apply Hm; by left|]. split; [done|]. split; [done|]. intros Ha. by rewrite attr_set_attr in Ha.
  - set (key_id := py_str _). destruct (is_empty key_id); [rejects|].
    destruct (load_active_attestation_key tenant_id key_id d) as [key|] eqn:Hkey; [|rejects].
    destruct (verify_eval_attestation _ _ _) as [[]|[]] eqn:Hver; try rejects; intros [= <- <-].
    split; [split; reflexivity|]. split.
    { unfold keys_same, touch_attestation_key. cbn [attestation_keys set_attestation_keys]. unfold update_key, update.
      rewrite map_map. apply map_ext. intros k. by destruct (has_key _ _ _). }
    intros e' He%Ok_inj. subst e'. split; [|split; [done|split; [done|]]].
    { unfold meta. rewrite attr_set_attr. change (String.eqb "attested_key_id" "metadata") with false. cbv iota. apply Hm. by left. }
    intros _. split; [exact Hty|]. apply select1_Some in Hkey as [Hin [[Hid%String.eqb_eq Hten%String.eqb_eq]%andb_true_iff Hst%String.eqb_eq]%andb_true_iff].
    apply verify_eval_signed in Hver as (pk & s & Hpk & Hs). exists key, pk, s. repeat split; try done.
    + by rewrite attr_set_attr, Hid.
    + by rewrite !statement_set by (by left || by right; left).
Qed.

Lemma verify_all_spec now tenant_id es : forall d d' r, _verify_eval_attestations now tenant_id es d = (d', r) ->
  apart d d' /\ keys_same d d' /\
  forall es', r = Ok es' -> Forall2 (fun e e' => meta e' "tenant_id" = meta e "tenant_id" /\ e_trace_id e' = e_trace_id e /\
    e_span_id e' = e_span_id e /\ vouched d tenant_id e') es es'.
Proof.
  induction es as [|e es IH]; intros d d' r; cbn [_verify_eval_attestations].
  { intros [= <- <-]. split; [done|]. split; [done|]. intros es' [= <-]. constructor. }
  destruct (verify_event _ _ e d) as [d1 [e1|x]] eqn:E1; apply verify_event_spec in E1 as (Ha1 & Hk1 & He1);
    [|intros [= <- <-]; by split].
  destruct (_verify_eval_attestations _ _ es d1) as [d2 [es2|x]] eqn:E2; apply IH in E2 as (Ha2 & Hk2 & He2);
    intros [= <- <-]; (split; [by etransitivity|]); (split; [unfold keys_same in *; congruence|]); [|done].
  intros es' He%Ok_inj. subst es'. constructor; [by apply He1|].
  eapply Forall2_impl; [by apply He2|]. intros x x' (Hm & Ht & Hs & Hv).
  split; [done|]. split; [done|]. split; [done|]. by eapply vouched_same.
Qed.

(** ** Admission *)

Lemma admit_events_spec now tenant_id es d d' r : admit_events now tenant_id es d = (d', r) ->
  apart d d' /\ forall es', r = Ok es' -> Forall2 (fun e e' => meta e' "tenant_id" = PStr tenant_id /\
    e_trace_id e' = e_trace_id e /\ e_span_id e' = e_span_id e /\ vouched d tenant_id e') es es'.
Proof.
  unfold admit_events. destruct (_validate_event_attributes es); [|intros [= <- <-]; by split].
  destruct (_bind_events_to_tenant es tenant_id) as [bound|] eqn:Hb; [|intros [= <- <-]; by split].
  intros (Ha & _ & Hes)%verify_all_spec. split; [done|]. intros es' Hr. specialize (Hes es' Hr).
  apply rmap_Ok in Hb. clear -Hes Hb. revert es' Hes. induction Hb as [|e b es bs Hbind _ IH]; intros es' Hes.
  - inversion Hes; constructor.
  - inversion Hes as [|? e' ? es1 (Hm & Ht & Hs & Hv) Hrest]; subst. constructor; [|by apply IH].
    apply bind_meta in Hbind as (Hm' & Ht' & Hs'). split; [congruence|]. split; [congruence|]. split; [congruence|done].
Qed.

(** ** Storing *)

Lemma event_to_row_span now id e row tenant_id : meta e "tenant_id" = PStr tenant_id -> event_to_row now id e = Ok row ->
  ev_tenant_id row = Some tenant_id /\ ev_trace_id row = e_trace_id e /\ ev_span_id row = e_span_id e.
Proof.
  unfold event_to_row. intros ->. cbn [sql_text rbind]. intros Hrow. do 8 (apply rbind_Ok in Hrow as (? & _ & Hrow)).
  cbv zeta in Hrow. apply rbind_Ok in Hrow as (? & _ & Hrow%Ok_inj). by subst row.
Qed.

Lemma inserted now es : forall t keys t' keys', rfold (insert_event now) (t, keys) es = Ok (t', keys') ->
  t `prefix_of` t' /\
  (forall row, row ∈ t' -> row ∈ t \/ exists id e, e ∈ es /\ event_to_row now id e = Ok row) /\
  (forall e, e ∈ es -> exists id row x, event_to_row now id e = Ok row /\ x ∈ t' /\ (same_span row x = true \/ row = x)).
Proof.
  induction es as [|e es IH]; intros t keys t' keys'; cbn [rfold].
  { intros [= <- <-]. split; [done|]. split; [by left|]. by intros e ?%elem_of_nil. }
  intros ([t1 keys1] & Hone & Hrest)%rbind_Ok. apply IH in Hrest as (Hp & Hold & Hnew).
  unfold insert_event in Hone. apply rbind_Ok in Hone as (row & Hrow & Hone%Ok_inj).
  destruct (existsb (same_span row) t) eqn:Hex; injection Hone as <- <-.
  - split; [done|]. split.
    + intros x [Hx|(id & e' & He & Hx)]%Hold; [by left|]. right. exists id, e'. split; [by right|done].
    + intros e' [->|He]%elem_of_cons; [|by apply Hnew]. apply existsb_exists in Hex as (x & Hx%list_elem_of_In & Hs).
      exists (next_id t), row, x. split; [done|]. split; [by eapply elem_of_prefix|by left].
  - split; [etransitivity; [by apply prefix_app_r|exact Hp]|]. split.
    + intros x [[Hx| ->%list_elem_of_singleton]%elem_of_app|(id & e' & He & Hx)]%Hold; [by left| |].
      * right. exists (next_id t), e. split; [by left|done].
      * right. exists id, e'. split; [by right|done].
    + intros e' [->|He]%elem_of_cons; [|by apply Hnew]. exists (next_id t), row, row. split; [done|]. split; [|by right].
      eapply elem_of_prefix; [exact Hp|]. apply elem_of_app. right. by apply list_elem_of_singleton.
Qed.

(** a row, but for the state of its fold *)
Definition same_event (r r' : sdk_event) : Prop := same_row r r' /\ ev_tenant_id r' = ev_tenant_id r /\
  ev_trace_id r' = ev_trace_id r /\ ev_span_id r' = ev_span_id r.
(** what storing and folding do not change *)
Definition content (r : sdk_event) : Z * event * option string * string * string :=
  (ev_id r, ev_raw_event r, ev_tenant_id r, ev_trace_id r, ev_span_id r).

Lemma fold_pending_content clock later tenant_id limit attempts d d' r :
  fold_pending clock later tenant_id limit attempts d = (d', r) ->
  map content (sdk_events d') = map content (sdk_events d).
Proof.
  unfold fold_pending. destruct (claim_unfolded _ _ _ d) as [|p l]; [by intros [= <- _]|].
  assert (forall d d1 e, _fold_rows clock tenant_id (p :: l) d = (d1, e) -> map content (sdk_events d1) = map content (sdk_events d)) as Hf.
  { intros x y e Hx%fold_rows_table. assert (forall t, map content t = map content (map uncount t)) as Hc.
    { intros t. rewrite map_map. done. }
    by rewrite (Hc (sdk_events y)), (Hc (sdk_events x)), Hx. }
  destruct (_fold_rows _ _ _ d) as [d1 [e|]] eqn:E; intros [= <- _]; rewrite <-(Hf _ _ _ E).
  all: unfold mark_folded, record_fold_attempt; cbn [sdk_events set_sdk_events]; unfold update; rewrite map_map; apply map_ext;
    intros x; by destruct (still_pending _ x).
Qed.

(** the organization a bearer token stands for *)
Definition authenticated (authorization : option string) (d : db) (tenant_id : string) : Prop :=
  exists token key, _extract_bearer authorization = Some token /\ key ∈ ingestion_keys d /\ ik_status key = "active" /\
    ik_key_hash key = hash_token token /\ ik_tenant_id key = tenant_id /\ organization_is_suspended tenant_id d = false.

Lemma ingestion_tenant_spec now authorization d d' r : ingestion_tenant now authorization d = (d', r) ->
  apart d d' /\ attestation_keys d' = attestation_keys d /\
  forall tenant_id, r = Ok tenant_id -> authenticated authorization d tenant_id.
Proof.
  unfold ingestion_tenant, resolve_ingestion_key. destruct (_extract_bearer authorization) as [token|] eqn:Hb; [|rejects].
  destruct (is_empty token); [rejects|]. destruct (select1 _ _) as [key|] eqn:Hk; [|rejects].
  apply select1_Some in Hk as [Hin [Hh%String.eqb_eq Hs%String.eqb_eq]%andb_true_iff].
  change (organization_is_suspended (ik_tenant_id key) (set_ingestion_keys _ d)) with (organization_is_suspended (ik_tenant_id key) d).
  destruct (organization_is_suspended _ d) eqn:Hsus; intros [= <- <-]; (split; [split; reflexivity|]); (split; [reflexivity|]); [by intros ?|].
  intros tenant_id Ht%Ok_inj. subst tenant_id. by exists token, key.
Qed.

(** [admit_events] and [insert_events], between authentication and the fold *)
Lemma stored_spec now tenant_id es d d1 es' d2 out :
  admit_events now tenant_id es d = (d1, Ok es') -> insert_events now es' d1 = Ok (out, d2) ->
  (forall row, row ∈ sdk_events d2 -> row ∈ sdk_events d \/
     (ev_tenant_id row = Some tenant_id /\ vouched d tenant_id (ev_raw_event row))) /\
  (forall e, e ∈ es -> exists row, row ∈ sdk_events d2 /\ ev_tenant_id row = Some tenant_id /\
     ev_trace_id row = e_trace_id e /\ ev_span_id row = e_span_id e).
Proof.
  intros ([_ Hs] & Hes)%admit_events_spec. specialize (Hes es' eq_refl). unfold insert_events.
  intros (rows & _ & ([t keys] & Hi & Hd2%Ok_inj)%rbind_Ok)%rbind_Ok. rewrite Hs in Hi.
  apply inserted in Hi as (_ & Hold & Hnew). pose proof (f_equal (fun p => sdk_events p.2) Hd2) as Ht. cbn [snd sdk_events set_sdk_events] in Ht.
  clear Hd2. rewrite <-Ht. rewrite Forall2_lookup in Hes. split.
  - intros row [Hr|(id & e & He & Hrow)]%Hold; [by left|]. right. apply list_elem_of_lookup in He as [i Hi]. specialize (Hes i).
    rewrite Hi in Hes. inversion Hes as [e0 ? Hspec E0|]; subst. destruct Hspec as (Hm & _ & _ & Hv).
    pose proof (event_to_row_span _ _ _ _ _ Hm Hrow) as (Htn & _). apply event_to_row_fields in Hrow as (_ & Hraw & _).
    rewrite Hraw. done.
  - intros e [i Hi]%list_elem_of_lookup. specialize (Hes i). rewrite Hi in Hes.
    inversion Hes as [? e' Hspec E Hi'|]; subst. destruct Hspec as (Hm & Htr & Hsp & _).
    destruct (Hnew e') as (id & row & x & Hrow & Hx & Hor); [by eapply list_elem_of_lookup_2|].
    pose proof (event_to_row_span _ _ _ _ _ Hm Hrow) as (Htn & Htr' & Hsp'). exists x. split; [done|].
    destruct Hor as [[[Hst Hs1%String.eqb_eq]%andb_true_iff Hs2%String.eqb_eq]%andb_true_iff| <-];
      [|split; [done|]; split; congruence].
    rewrite Htn in Hst. unfold sql_eq in Hst. destruct (ev_tenant_id x); [|done]. apply String.eqb_eq in Hst. subst.
    split; [done|]. split; congruence.
Qed.

(** C23. What ingestion stores belongs to whoever sent it.  After a request, every
    stored event was stored before, unchanged, or was accepted under an active
    ingestion key of an organization that is not suspended, is bound to that
    organization whatever it claimed, and is marked attested only if it is an eval
    result whose canonical statement one of the organization's active keys signed.
    And a batch is stored whole or not at all: either no event was added, or every
    event of the batch is in the organization's ledger under its own trace and
    span. *)
Theorem ingestion_is_tenant_bound env clock now authorization signature body es d d' r :
  ingest_events env clock now authorization signature body es d = (d', r) ->
  (forall row', row' ∈ sdk_events d' ->
     (exists row, row ∈ sdk_events d /\ content row' = content row) \/
     (exists tenant_id, authenticated authorization d tenant_id /\ ev_tenant_id row' = Some tenant_id /\
        vouched d tenant_id (ev_raw_event row'))) /\
  (map content (sdk_events d') = map content (sdk_events d) \/
   exists tenant_id, authenticated authorization d tenant_id /\ forall e, e ∈ es ->
     exists row', row' ∈ sdk_events d' /\ ev_tenant_id row' = Some tenant_id /\
       ev_trace_id row' = e_trace_id e /\ ev_span_id row' = e_span_id e).
Proof.
  assert (forall d', sdk_events d' = sdk_events d -> (forall row', row' ∈ sdk_events d' -> exists row, row ∈ sdk_events d /\ content row' = content row) /\
    map content (sdk_events d') = map content (sdk_events d)) as Hsame by (intros ? ->; split; eauto).
  unfold ingest_events. destruct (ingestion_tenant now authorization d) as [d1 [tenant_id|x]] eqn:E1;
    apply ingestion_tenant_spec in E1 as ([_ Hs1] & Hk1 & Hauth); [|intros [= <- _]; apply Hsame in Hs1 as [? ?]; auto].
  specialize (Hauth tenant_id eq_refl).
  destruct (bool_decide _); [intros [= <- _]; apply Hsame in Hs1 as [? ?]; auto|].
  destruct (_verify_optional_signature _ _ _); [|intros [= <- _]; apply Hsame in Hs1 as [? ?]; auto].
  unfold _ingest. destruct (admit_events now tenant_id es d1) as [d2 [es'|x]] eqn:E2;
    [|apply admit_events_spec in E2 as ([_ Hs2] & _); intros [= <- _]; rewrite Hs1 in Hs2; apply Hsame in Hs2 as [? ?]; auto].
  pose proof (admit_events_spec _ _ _ _ _ _ E2) as ([_ Hs2] & _). rewrite Hs1 in Hs2.
  destruct (insert_events now es' d2) as [[out d3]|x] eqn:E3; [|intros [= <- _]; apply Hsame in Hs2 as [? ?]; auto].
  destruct (stored_spec _ _ _ _ _ _ _ _ E2 E3) as [Hold Hnew]. rewrite Hs1 in Hold.
  destruct (fold_pending _ _ _ _ _ d3) as [d4 o] eqn:E4. apply fold_pending_content in E4. intros Hd'.
  assert (d4 = d') as -> by (by destruct o; injection Hd' as -> _). clear Hd'. split.
  - intros row' Hr. assert (content row' ∈ map content (sdk_events d3)) as (row & E & Hrow)%list_elem_of_fmap.
    { rewrite <-E4. by apply list_elem_of_fmap_2. }
    destruct (Hold row Hrow) as [Hin|[Ht Hv]]; [left; by exists row|]. right. exists tenant_id. split; [done|].
    unfold content in E. injection E as _ Eraw Et _ _. rewrite Et, Eraw. split; [done|].
    eapply vouched_same; [|exact Hv]. unfold keys_same. by rewrite Hk1.
  - right. exists tenant_id. split; [done|]. intros e He. destruct (Hnew e He) as (row & Hrow & Ht & Htr & Hsp).
    assert (content row ∈ map content (sdk_events d')) as (row' & E & Hrow')%list_elem_of_fmap.
    { rewrite E4. by apply list_elem_of_fmap_2. }
    exists row'. unfold content in E. injection E as _ _ E1 E2' E3'. split; [done|]. split; congruence || (split; congruence).
Qed.

(** ** The platform as a whole *)

(** requests, sweeps, and whatever else leaves the ledger and the inventory alone *)
Inductive platform : db -> db -> Prop :=
| platform_ingest env clock now authorization signature body es d d' r :
    ingest_events env clock now authorization signature body es d = (d', r) -> platform d d'
| platform_sweep whole clock later tenant_id limit d :
    platform d (sweep_tenant whole clock later tenant_id limit d).1.1
| platform_other d d' : apart d d' -> platform d d'.

Lemma tracked_apart d0 C d d' : apart d d' -> tracked d0 C d -> tracked d0 C d'.
Proof.
  intros [Hi Hs] [Hr Hset]. split; [eapply reachable_step; [exact Hr|by apply step_elsewhere]|]. unfold settled in *. by rewrite Hs.
Qed.

Lemma tracked_insert d0 C now es out d d' : insert_events now es d = Ok (out, d') -> tracked d0 C d -> tracked d0 C d'.
Proof.
  intros Hins [Hr Hset]. split; [eapply reachable_step; [exact Hr|by eapply step_insert]|].
  unfold insert_events in Hins. apply rbind_Ok in Hins as (rows & _ & ([t keys] & Hi & Hd%Ok_inj)%rbind_Ok).
  apply inserted in Hi as (_ & Hold & _). pose proof (f_equal (fun p => sdk_events p.2) Hd) as Ht.
  cbn [snd sdk_events set_sdk_events] in Ht. unfold settled. rewrite <-Ht.
  intros r [Hin|(id & e & _ & Hrow)]%Hold Hf; [by apply Hset|]. apply event_to_row_fields in Hrow as (_ & _ & _ & Hnone). done.
Qed.

Lemma tracked_platform d0 C d d' : platform d d' -> tracked d0 C d -> exists C', tracked d0 C' d'.
Proof.
  intros Hp Ht. destruct Hp as [env clock now authorization signature body es d d' r Hd|whole clock later tenant_id limit d|d d' Ha].
  - unfold ingest_events in Hd. destruct (ingestion_tenant now authorization d) as [d1 [tenant_id|x]] eqn:E1;
      apply ingestion_tenant_spec in E1 as (Ha1 & _); apply (tracked_apart d0 C) in Ha1; try done; [|injection Hd as <- _; by exists C].
    destruct (bool_decide _); [injection Hd as <- _; by exists C|].
    destruct (_verify_optional_signature _ _ _); [|injection Hd as <- _; by exists C].
    unfold _ingest in Hd. destruct (admit_events now tenant_id es d1) as [d2 [es'|x]] eqn:E2;
      apply admit_events_spec in E2 as (Ha2 & _); apply (tracked_apart d0 C) in Ha2; try done; [|injection Hd as <- _; by exists C].
    destruct (insert_events now es' d2) as [[out d3]|x] eqn:E3; [|injection Hd as <- _; by exists C].
    apply (tracked_insert d0 C) in E3; [|done].
    destruct (fold_pending _ _ _ _ _ d3) as [d4 o] eqn:E4. apply (tracked_pending d0 C) in E4 as [C' HC']; [|done].
    exists C'. by destruct o; injection Hd as <- _.
  - by eapply tracked_sweep.
  - exists C. by eapply tracked_apart.
Qed.

Lemma tracked_run d0 C d d' : rtc platform d d' -> tracked d0 C d -> exists C', tracked d0 C' d'.
Proof.
  intros Hrun. revert C. induction Hrun as [d|d d1 d2 Hstep _ IH]; intros C HC; [by exists C|].
  destruct (tracked_platform d0 C d d1 Hstep HC) as [C' HC']. by apply IH in HC'.
Qed.

(** C24. Every event is counted exactly once, whatever fails.  From an empty ledger,
    after any sequence of ingestion requests and sweeps, each with its own clock
    readings and each free to fail at any projection, and of other handlers: every
    event marked folded has been counted, and the inventory is the projection of a
    log that holds each counted event exactly once. *)
Theorem every_event_counted_once d0 d : sdk_events d0 = [] -> rtc platform d0 d ->
  (forall r, r ∈ sdk_events d -> ev_folded_at r <> None -> ev_counted_at r <> None) /\
  exists log : list (Z * event),
    NoDup (map fst log) /\
    (forall i e, (i, e) ∈ log <->
       exists r, r ∈ sdk_events d /\ ev_id r = i /\ ev_raw_event r = e /\ ev_counted_at r <> None) /\
    rfold (fun d e => process_event e d) (inventory_of d0) (map snd log) = Ok (inventory_of d).
Proof.
  intros Hempty Hrun. destruct (tracked_run d0 [] d0 d Hrun) as (C & Hr & Hset).
  { split; [apply reachable_start|]. unfold settled. rewrite Hempty. by intros r ?%elem_of_nil. }
  split; [|by apply (sound_counts d0 d C), reachable_sound].
  intros r Hin Hf. specialize (Hset r Hin Hf). unfold counted in Hset. by destruct (ev_counted_at r).
Qed.
End Rules.

(** ** A poisoned batch, a good one with a signed evaluation, and a sweep *)

Module Demo.
Import LedgerRules.Demo.

#[export] Instance exn_host : ExnHost := fun _ => "TypeError()".
#[export] Instance hmac : Hmac := fun k m => k +:+ m.
#[export] Instance signatures : Signatures :=
  {| verify_key := string; b64decode s := Ok s; load_pem_public_key pem := Ok (Some pem);
     ed25519_verify key signature message := String.eqb signature (key +:+ message) |}.

Definition at_second (text iso : string) : nat -> reading := fun _ => mk_reading text iso 0.
Definition env : settings := mk_settings None None (Some "5").
Definition bearer : option string := Some "Bearer nrk_acme".
Definition platform_db : db :=
  set_ingestion_keys [mk_ingestion_key "nrk_acme" (hash_token "nrk_acme") "acme" "ci" "active" None "2026-03-01 08:00:00" None]
    (set_attestation_keys [mk_attestation_key "nak_1" "acme" "ci" "ed25519" "PEM" "active" None "2026-03-01 08:00:00" None None]
      empty_db).

(** an application name that is not text *)
Definition poison : event :=
  mk_event "model.call" "1.0" "trace-0" "s0" "2026-03-01T09:00:00Z" "triage-api" "production" "claims" None None
    (Some "score") "success" None [("metadata", PDict [("application_name", PInt 5)])].
Definition evaluation (attestation : list (string * pyval)) : event :=
  mk_event "eval.result" "1.0" "trace-2" "s5" "2026-03-01T09:05:00Z" "triage-ci" "production" "claims" None None
    (Some "accuracy") "success" None
    ([("metadata", PDict [("tenant_id", PStr "acme"); ("application_name", PStr "triage"); ("workflow_name", PStr "letters")]);
      ("eval_name", PStr "accuracy"); ("passed", PBool true)] ++ attestation).
Definition signed : event :=
  evaluation [("attestation", PDict [("key_id", PStr "nak_1");
    ("signature", PStr ("PEM" +:+ build_eval_statement (evaluation [])))])].

Definition poisoned : committed nat :=
  ingest_events env (at_second "2026-03-01 09:00:01" "2026-03-01T09:00:01+00:00") "2026-03-01 09:00:01" bearer None "" [poison]
    platform_db.
Definition good_batch : list event := [call "s1" "success" 120; signed].
Definition accepted : committed nat :=
  ingest_events env (at_second "2026-03-01 09:05:01" "2026-03-01T09:05:01+00:00") "2026-03-01 09:05:01" bearer None "" good_batch
    (fst poisoned).
Definition sweep_clock : nat -> reading := at_second "2026-03-01 09:06:00" "2026-03-01T09:06:00+00:00".
Definition swept : db * nat * nat :=
  sweep_tenant sweep_clock (fun _ => sweep_clock) (fun _ => "2026-03-01 09:06:00") "acme" 10000 (fst accepted).

(** the poisoned row fails its fold and the fold of the next batch; the sweep
    folds the other rows *)
Example both_requests_fail : (snd poisoned, snd accepted) = (Raise TypeError, Raise TypeError).
Proof. vm_compute. reflexivity. Qed.
Example sweep_isolates : (snd (fst swept), snd swept) = (2, 1).
Proof. vm_compute. reflexivity. Qed.
Example states : map (fun r => (ev_span_id r, ev_tenant_id r, is_null (ev_folded_at r), is_null (ev_counted_at r), ev_fold_attempts r,
    attr (ev_raw_event r) "attested")) (sdk_events (fst (fst swept))) =
  [("s0", Some "acme", true, false, 3%Z, PNone); ("s1", Some "acme", false, false, 1%Z, PNone);
   ("s5", Some "acme", false, false, 1%Z, PBool true)].
Proof. vm_compute. reflexivity. Qed.

Lemma accepts : ingest_events env (at_second "2026-03-01 09:05:01" "2026-03-01T09:05:01+00:00") "2026-03-01 09:05:01" bearer None ""
  good_batch (fst poisoned) = (fst accepted, snd accepted).
Proof. unfold accepted. by destruct (ingest_events _ _ _ _ _ _ _ (fst poisoned)). Qed.

Lemma runs : rtc platform platform_db (fst (fst swept)).
Proof.
  eapply rtc_l.
  - apply (platform_ingest env (at_second "2026-03-01 09:00:01" "2026-03-01T09:00:01+00:00") "2026-03-01 09:00:01" bearer None ""
      [poison] platform_db (fst poisoned) (snd poisoned)). unfold poisoned. by destruct (ingest_events _ _ _ _ _ _ _ platform_db).
  - eapply rtc_l; [|apply rtc_once, platform_sweep].
    by apply (platform_ingest _ _ _ _ _ _ _ _ _ _ accepts).
Qed.

Lemma accepted_unique : keys_unique ev_id (sdk_events (fst accepted)).
Proof. unfold keys_unique. apply (bool_decide_eq_true_1 _). vm_compute. reflexivity. Qed.
Lemma sweeps : sweep_tenant sweep_clock (fun _ => sweep_clock) (fun _ => "2026-03-01 09:06:00") "acme" 10000 (fst accepted) =
  (fst (fst swept), snd (fst swept), snd swept).
Proof. unfold swept. by destruct (sweep_tenant _ _ _ _ _ _) as [[? ?] ?]. Qed.
End Demo.

Import LedgerRules.Demo Demo.

Lemma ingestion_is_tenant_bound_witness :
  (forall row', row' ∈ sdk_events (fst accepted) ->
     (exists row, row ∈ sdk_events (fst poisoned) /\ content row' = content row) \/
     (exists tenant_id, authenticated bearer (fst poisoned) tenant_id /\ ev_tenant_id row' = Some tenant_id /\
        vouched (fst poisoned) tenant_id (ev_raw_event row'))) /\
  (map content (sdk_events (fst accepted)) = map content (sdk_events (fst poisoned)) \/
   exists tenant_id, authenticated bearer (fst poisoned) tenant_id /\ forall e, e ∈ good_batch ->
     exists row', row' ∈ sdk_events (fst accepted) /\ ev_tenant_id row' = Some tenant_id /\
       ev_trace_id row' = e_trace_id e /\ ev_span_id row' = e_span_id e).
Proof. exact (ingestion_is_tenant_bound _ _ _ _ _ _ _ _ _ _ accepts). Defined.

Lemma every_event_counted_once_witness :
  (forall r, r ∈ sdk_events (fst (fst swept)) -> ev_folded_at r <> None -> ev_counted_at r <> None) /\
  exists log : list (Z * event),
    NoDup (map fst log) /\
    (forall i e, (i, e) ∈ log <->
       exists r, r ∈ sdk_events (fst (fst swept)) /\ ev_id r = i /\ ev_raw_event r = e /\ ev_counted_at r <> None) /\
    rfold (fun d e => process_event e d) (inventory_of platform_db) (map snd log) = Ok (inventory_of (fst (fst swept))).
Proof. exact (every_event_counted_once platform_db _ eq_refl runs). Defined.

