(* ===== verification/Vendors.v ===== *)
(** * The vendor registry and its evidence (storage/policy_engine.py,
    storage/vendor_evidence.py, api/policy.py)

    A vendor names the providers and models it covers.  Its review is a round of
    approval stages ([Stages]); an approval lapses on the calendar, or when a
    dated reference to one of its documents expires.  The two ageing passes are
    those of the maintenance worker. *)

From stdpp Require Import base list strings option pretty sets gmap.
From Stdlib Require Import ZArith Lia Ascii.
From S2P Require Import Prelude Py Dates Sql Schema PolicyDoc Rbac PolicyStore Queue Workflow Stages Decisions.
From S2P Require Import Controls Posture.

Open Scope nat_scope.

Section Vendors.
Context `{PyHost} `{Digest}.

(** ** Registering *)

(** [sorted({x.strip().lower() for x in providers if x.strip()})] *)
Definition normalized_providers (providers : list string) : list string :=
  sorted_set (map (fun p => lower (strip p)) (select (fun p => negb (is_empty (strip p))) providers)).
Definition normalized_models (approved_models : option (list string)) : option (list string) :=
  match approved_models with
  | None | Some [] => None
  | Some l => Some (sorted_set (map strip (select (fun m => negb (is_empty (strip m))) l)))
  end.

Definition vendor_key (tenant_id name : string) : string := entity_id [Some "vendor"; Some tenant_id; Some name].

(** the status an edit leaves: a changed surface sends an approved vendor back to draft *)
Definition edited_status (providers : list string) (models : option (list string)) (current : vendor) : string :=
  let surface_changed := negb (bool_decide (vd_providers current = providers)) ||
                         negb (bool_decide (vd_approved_models current = models)) in
  if surface_changed && mem (vd_status current) ["approved"; "recertify_due"] then "draft" else vd_status current.

Definition read_vendor (vendor_id : string) (d : db) : res vendor :=
  match lookup_key vd_vendor_id vendor_id (vendor_registry d) with
  | Some v => Ok v
  | None => Raise TypeError
  end.

Definition upsert_vendor (now tenant_id name : string) (providers : list string)
    (approved_models : option (list string)) (notes_ref : option string) (created_by : string) (d : db)
    : res (vendor * db) :=
  let! _ := throw_if (is_empty tenant_id) (ValueError "a tenant_id is required to register a vendor") in
  let! _ := throw_if (match providers with [] => true | _ => false end)
    (ValueError "a vendor must name at least one provider") in
  let vendor_id := vendor_key tenant_id name in
  let normalized := normalized_providers providers in
  let models := normalized_models approved_models in
  let d := set_vendor_registry
    (match lookup_key vd_vendor_id vendor_id (vendor_registry d) with
     | None => vendor_registry d ++
         [mk_vendor vendor_id tenant_id name normalized "draft" models notes_ref 0 created_by None now now None]
     | Some current =>
         update_key vd_vendor_id vendor_id
           (fun v => vd_with_updated_at now (vd_with_status (edited_status normalized models current)
              (vd_with_notes_ref notes_ref (vd_with_approved_models models (vd_with_providers normalized v)))))
           (vendor_registry d)
     end) d in
  let! v := read_vendor vendor_id d in
  Ok (v, d).

Definition list_vendors (tenant_id : string) (d : db) : list vendor :=
  order_by (fun a b => negb (str_ltb (vd_name b) (vd_name a)))
    (select (fun v => String.eqb (vd_tenant_id v) tenant_id) (vendor_registry d)).

Definition load_vendor (vendor_id tenant_id : string) (d : db) : option vendor :=
  select1 (fun v => String.eqb (vd_vendor_id v) vendor_id && String.eqb (vd_tenant_id v) tenant_id) (vendor_registry d).

Definition vendor_in_tenant (vendor_id tenant_id : string) (d : db) : res vendor :=
  match load_vendor vendor_id tenant_id d with
  | Some v => Ok v
  | None => Raise (RecordNotFound "vendor not found in this organization")
  end.

(** ** Reviewing *)

Definition vendor_subject (v : vendor) (review_round : Z) (tenant_id : string) : subject :=
  mk_subject "vendor_review" (vd_vendor_id v) review_round (Some tenant_id) "vendor-registry" "global" (vd_name v).

(** the first open stage of a round *)
Definition first_open (vendor_id : string) (review_round : Z) (d : db) : option approval_stage :=
  head (order_by (fun a b => (st_stage_index a <=? st_stage_index b)%Z)
    (select (fun s => of_round "vendor_review" vendor_id review_round s && String.eqb (st_status s) "open")
      (approval_stages d))).

Definition submit_vendor_review (now vendor_id tenant_id actor_ref : string) (d : db) : res (vendor * db) :=
  let! vendor := vendor_in_tenant vendor_id tenant_id d in
  if String.eqb (vd_status vendor) "under_review" then Ok (vendor, d)
  else
    let! _ := throw_if (String.eqb (vd_status vendor) "retired")
      (ValueError "a retired vendor cannot be submitted for review") in
    let! _ := require_no_expired_evidence d vendor_id (vd_name vendor) in
    let! policy := resolve_vendor_policy d (Some tenant_id) in
    let review_round := (vd_review_round vendor + 1)%Z in
    let d := set_vendor_registry (update_key vd_vendor_id vendor_id
      (fun v => vd_with_updated_at now (vd_with_submitted_by (Some actor_ref)
         (vd_with_review_round review_round (vd_with_status "under_review" v)))) (vendor_registry d)) d in
    let! stages := py_iter (sp_stages policy) in
    let! r := materialize_stages now (vendor_subject vendor review_round tenant_id) stages "sequence"
      (sp_policy_tenant policy) (sp_policy_version policy) d in
    let d := snd r in
    let d := match first_open vendor_id review_round d with
             | Some s => _notify_stage_opened s d
             | None => d
             end in
    let! v := read_vendor vendor_id d in
    Ok (v, d).

Definition retire_vendor (now vendor_id tenant_id : string) (d : db) : res (vendor * db) :=
  let! _ := vendor_in_tenant vendor_id tenant_id d in
  let d := set_vendor_registry (update_key vd_vendor_id vendor_id
    (fun v => vd_with_updated_at now (vd_with_status "retired" v)) (vendor_registry d)) d in
  let! v := read_vendor vendor_id d in
  Ok (v, d).

(** ** Recertification *)

(** a stored timestamp, read as UTC; anything unreadable is None *)
Definition _parse_db_ts (value : option string) : option datetime :=
  match value with
  | None => None
  | Some value =>
      if is_empty value then None
      else
        let text := strip value in
        let text := if has_char " " text && negb (has_char "T" text) then replace_first " " "T" text else text in
        assume_utc <$> fromisoformat (expand_z text)
  end.

Definition approved_vendor (vendor_id : string) (v : vendor) : bool :=
  String.eqb (vd_vendor_id v) vendor_id && String.eqb (vd_status v) "approved".
Definition recertify_due (now vendor_id : string) (d : db) : db :=
  set_vendor_registry (update (approved_vendor vendor_id)
    (fun v => vd_with_updated_at now (vd_with_status "recertify_due" v)) (vendor_registry d)) d.

(** one iteration of the loop over the approved vendors *)
Definition age_vendor (now : string) (now_dt : Z) (acc : list vendor * db) (v : vendor) : res (list vendor * db) :=
  let (due, d) := acc in
  let! policy := resolve_vendor_policy d (Some (vd_tenant_id v)) in
  if negb (truthy (sp_recertify_days policy)) then Ok acc
  else match _parse_db_ts (vd_reviewed_at v) with
  | None => Ok acc
  | Some reviewed =>
      let! days := py_int (sp_recertify_days policy) in
      let! edge := add_days reviewed days in
      if (now_dt <=? instant edge)%Z then Ok acc
      else if rowcount (approved_vendor (vd_vendor_id v)) (vendor_registry d) =? 0 then Ok acc
      else Ok (due ++ [v],
               emit (mk_notice (Some (vd_tenant_id v)) "vendor.recertify_due" (vd_vendor_id v)
                       ["org_admin"; "governance_reviewer"] []) (recertify_due now (vd_vendor_id v) d))
  end.

Definition reviewed_vendor (v : vendor) : bool :=
  String.eqb (vd_status v) "approved" && match vd_reviewed_at v with Some _ => true | None => false end.

(** the pass runs in one transaction and the audit entries follow it *)
Definition age_vendor_recertifications (now : string) (now_dt : Z) (d : db) : res (nat * db) :=
  let! r := rfold (age_vendor now now_dt) ([], d) (select reviewed_vendor (vendor_registry d)) in
  let (due, d) := r : list vendor * db in
  Ok (length due,
      foldl (fun d v => record_audit (mk_audit_entry "system:policy" "vendor.recertify_due" (Some (vd_tenant_id v))
        "vendor" (vd_vendor_id v) (PDict [("name", PStr (vd_name v))])) d) d due).

(** ** Evidence references (storage/vendor_evidence.py) *)

Definition EXPIRY_NOTICE_DAYS : Z := 30.

Definition _parse_date (value field : string) : res Z :=
  match date_fromisoformat (strip value) with
  | Some day => Ok day
  | None => Raise (DomainError (field +:+ " must be a date (YYYY-MM-DD)"))
  end.

(** [^[0-9a-f]{64}$] of text without surrounding space *)
Definition is_hex (c : ascii) : bool :=
  is_digit c || (let n := N_of_ascii c in ((97 <=? n) && (n <=? 102))%N).
Definition _SHA256 (s : string) : bool :=
  Nat.eqb (String.length s) 64 && forallb is_hex (String.list_ascii_of_string s).

(** [document_hash.strip().lower()], checked *)
Definition hash_text (document_hash : option string) : res (option string) :=
  match document_hash with
  | None => Ok None
  | Some h =>
      let h := lower (strip h) in
      if _SHA256 h then Ok (Some h)
      else Raise (DomainError "document_hash must be the hex SHA-256 of the document")
  end.

(** [(identifier or "").strip() or None] *)
Definition stripped_or_none (v : option string) : option string := nonempty_text (Some (strip (default "" v))).

Definition superseded_by (vendor_id kind reference_id : string) (r : evidence_reference) : bool :=
  String.eqb (ve_vendor_id r) vendor_id && String.eqb (ve_kind r) kind &&
  mem (ve_status r) ["current"; "expired"] && negb (String.eqb (ve_reference_id r) reference_id).

Definition evidence_key (tenant_id vendor_id kind : string) (issued expires : Z) (label : string) : string :=
  entity_id [Some "vendor-evidence"; Some tenant_id; Some vendor_id; Some kind;
             Some (date_isoformat issued); Some (date_isoformat expires); Some label].

Definition read_reference (reference_id : string) (d : db) : res evidence_reference :=
  match lookup_key ve_reference_id reference_id (vendor_evidence_references d) with
  | Some r => Ok r
  | None => Raise TypeError
  end.

(** [today] is the date of the clock, [now] its text *)
Definition record_evidence_reference (now : string) (today : Z) (tenant_id vendor_id kind name : string)
    (identifier : option string) (issued_at expires_at : string) (document_hash : option string) (actor_ref : string)
    (d : db) : res (evidence_reference * db) :=
  let! _ := throw_if (negb (mem kind (map fst EVIDENCE_KINDS)))
    (DomainError ("kind must be one of " +:+ join ", " (sorted_set (map fst EVIDENCE_KINDS)))) in
  let! issued := _parse_date issued_at "issued_at" in
  let! expires := _parse_date expires_at "expires_at" in
  let! _ := throw_if (expires <=? issued)%Z (DomainError "expires_at must be after issued_at") in
  let! _ := throw_if (expires <=? today)%Z
    (DomainError "expires_at must be in the future; a lapsed document is not evidence") in
  let! hash := hash_text document_hash in
  let label := strip name in
  let! _ := throw_if (is_empty label) (DomainError "name is required") in
  let reference_id := evidence_key tenant_id vendor_id kind issued expires label in
  let! vendor := vendor_in_tenant vendor_id tenant_id d in
  let! _ := throw_if (String.eqb (vd_status vendor) "retired") (DomainError "a retired vendor takes no new evidence") in
  let row := mk_evidence_reference reference_id tenant_id vendor_id kind label (stripped_or_none identifier)
    (date_isoformat issued) (date_isoformat expires) hash "current" actor_ref now now None None in
  let d := set_vendor_evidence_references
    (upsert ve_reference_id row
      (fun r => ve_with_updated_at now (ve_with_expiry_notice_sent_at None (ve_with_expired_at None
         (ve_with_status "current" (ve_with_document_hash hash (ve_with_identifier (stripped_or_none identifier) r))))))
      (update (superseded_by vendor_id kind reference_id)
        (fun r => ve_with_updated_at now (ve_with_status "superseded" r)) (vendor_evidence_references d))) d in
  let! r := read_reference reference_id d in
  Ok (r, d).

Definition withdraw_evidence_reference (now reference_id tenant_id : string) (d : db) : res (evidence_reference * db) :=
  match select1 (fun r => String.eqb (ve_reference_id r) reference_id && String.eqb (ve_tenant_id r) tenant_id)
          (vendor_evidence_references d) with
  | None => Raise (RecordNotFound "evidence reference not found in this organization")
  | Some _ =>
      let d := set_vendor_evidence_references (update_key ve_reference_id reference_id
        (fun r => ve_with_updated_at now (ve_with_status "withdrawn" r)) (vendor_evidence_references d)) d in
      let! r := read_reference reference_id d in
      Ok (r, d)
  end.

(** [ORDER BY vendor_id, kind, expires_at DESC] *)
Definition reference_order (a b : evidence_reference) : bool :=
  if String.eqb (ve_vendor_id a) (ve_vendor_id b) then
    if String.eqb (ve_kind a) (ve_kind b) then negb (str_ltb (ve_expires_at a) (ve_expires_at b))
    else str_ltb (ve_kind a) (ve_kind b)
  else str_ltb (ve_vendor_id a) (ve_vendor_id b).
Definition list_evidence_references (tenant_id : string) (vendor_id : option string) (d : db) : list evidence_reference :=
  order_by reference_order
    (select (fun r => String.eqb (ve_tenant_id r) tenant_id && from_option (String.eqb (ve_vendor_id r)) true vendor_id)
      (vendor_evidence_references d)).

(** ** Ageing the evidence *)

(** [ORDER BY r.tenant_id, r.vendor_id, r.kind] *)
Definition ageing_order (a b : evidence_reference * vendor) : bool :=
  let (a, b) := (a.1, b.1) in
  if String.eqb (ve_tenant_id a) (ve_tenant_id b) then
    if String.eqb (ve_vendor_id a) (ve_vendor_id b) then negb (str_ltb (ve_kind b) (ve_kind a))
    else str_ltb (ve_vendor_id a) (ve_vendor_id b)
  else str_ltb (ve_tenant_id a) (ve_tenant_id b).

(** the current references that lapse by the edge of the notice window, joined
    to their vendor *)
Definition expiring (notice_edge : string) (d : db) : list (evidence_reference * vendor) :=
  order_by ageing_order
    (concat (map (fun r => map (pair r) (select (fun v => String.eqb (vd_vendor_id v) (ve_vendor_id r)) (vendor_registry d)))
      (select (fun r => String.eqb (ve_status r) "current" && negb (str_ltb notice_edge (ve_expires_at r)))
        (vendor_evidence_references d)))).

Record aged := mk_aged {
  lapsed_references : list evidence_reference;
  flipped_rows : list (evidence_reference * vendor);
  warned_references : list evidence_reference
}.

Definition current_reference (reference_id : string) (r : evidence_reference) : bool :=
  String.eqb (ve_reference_id r) reference_id && String.eqb (ve_status r) "current".

Definition expire_reference (now reference_id : string) (d : db) : db :=
  set_vendor_evidence_references
    (update (current_reference reference_id)
      (fun r => ve_with_updated_at now (ve_with_expired_at (Some now) (ve_with_status "expired" r)))
      (vendor_evidence_references d)) d.
Definition mark_warned (now reference_id : string) (d : db) : db :=
  set_vendor_evidence_references
    (update_key ve_reference_id reference_id (ve_with_expiry_notice_sent_at (Some now)) (vendor_evidence_references d)) d.

Definition age_reference (now : string) (today : Z) (acc : aged * db) (row : evidence_reference * vendor)
    : res (aged * db) :=
  let (a, d) := acc in
  let (r, v) := row in
  match date_fromisoformat (ve_expires_at r) with
  | None => Raise (ValueError "Invalid isoformat string")
  | Some expires =>
      if (expires <? today)%Z then
        let d := expire_reference now (ve_reference_id r) d in
        let moved := rowcount (approved_vendor (ve_vendor_id r)) (vendor_registry d) in
        let d := recertify_due now (ve_vendor_id r) d in
        let d := emit (mk_notice (Some (ve_tenant_id r)) "vendor.evidence_expired" (ve_reference_id r)
                         ["org_admin"; "governance_reviewer"] []) d in
        Ok (mk_aged (lapsed_references a ++ [r]) (if 0 <? moved then flipped_rows a ++ [row] else flipped_rows a) (warned_references a), d)
      else match ve_expiry_notice_sent_at r with
      | None =>
          Ok (mk_aged (lapsed_references a) (flipped_rows a) (warned_references a ++ [r]),
              emit (mk_notice (Some (ve_tenant_id r)) "vendor.evidence_expiring" (ve_reference_id r) ["org_admin"] [])
                (mark_warned now (ve_reference_id r) d))
      | Some _ => Ok (a, d)
      end
  end.

Definition audit_expired (d : db) (r : evidence_reference) : db :=
  record_audit (mk_audit_entry "system:policy" "vendor.evidence_expired" (Some (ve_tenant_id r)) "vendor_evidence"
    (ve_reference_id r) (PDict [("vendor_id", PStr (ve_vendor_id r)); ("kind", PStr (ve_kind r));
                                ("expires_at", PStr (ve_expires_at r))])) d.
Definition audit_flipped (d : db) (row : evidence_reference * vendor) : db :=
  record_audit (mk_audit_entry "system:policy" "vendor.recertify_due" (Some (ve_tenant_id row.1)) "vendor"
    (ve_vendor_id row.1) (PDict [("name", PStr (vd_name row.2)); ("reason", PStr "evidence_expired");
                                 ("reference_id", PStr (ve_reference_id row.1))])) d.

(** (expired, vendors_due, warned) *)
Definition age_evidence_references (now : string) (today : Z) (d : db) : res (nat * nat * nat * db) :=
  let edge := (today + EXPIRY_NOTICE_DAYS)%Z in
  let! _ := throw_if (max_ordinal <? edge)%Z OverflowError in
  let! r := rfold (age_reference now today) (mk_aged [] [] [], d) (expiring (date_isoformat edge) d) in
  let (a, d) := r : aged * db in
  let d := foldl audit_flipped (foldl audit_expired d (lapsed_references a)) (flipped_rows a) in
  let d := match flipped_rows a with
           | [] => d
           | flipped => refresh_vendor_posture now (Some (sorted_set (map (fun row => ve_tenant_id row.1) flipped))) d
           end in
  Ok (length (lapsed_references a), length (flipped_rows a), length (warned_references a), d).

(** ** Coverage: observed usage against the registry, read-only *)

Record provider_coverage := mk_provider_coverage {
  pc_models : list string;
  pc_applications : list string;
  pc_vendor : option string;
  pc_vendor_status : option string;
  pc_covered : bool;
  pc_disallowed_models : list string
}.

(** the registered vendor of a provider: the last of the list that names it *)
Definition registered (vendors : list vendor) (provider : string) : option vendor :=
  last (select (fun v => mem provider (vd_providers v)) vendors).

(** one usage row; the sets are kept as lists until the response sorts them *)
Definition cover (vendors : list vendor) (entries : list (string * provider_coverage)) (u : usage_pair)
    : list (string * provider_coverage) :=
  let '(_, _, application, raw_provider, model) := u in
  let provider := lower (strip raw_provider) in
  let e := default (mk_provider_coverage [] [] None None false []) (assoc provider entries) in
  let models := match nonempty_text model with Some m => pc_models e ++ [m] | None => pc_models e end in
  let applications := pc_applications e ++ [application] in
  item_set provider
    (match registered vendors provider with
     | None => mk_provider_coverage models applications (pc_vendor e) (pc_vendor_status e) (pc_covered e)
                 (pc_disallowed_models e)
     | Some v =>
         let disallowed := match vd_approved_models v, nonempty_text model with
           | Some allowed, Some m =>
               if String.eqb (vd_status v) "approved" && negb (mem m allowed)
               then pc_disallowed_models e ++ [m] else pc_disallowed_models e
           | _, _ => pc_disallowed_models e
           end in
         mk_provider_coverage models applications (Some (vd_name v)) (Some (vd_status v))
           (String.eqb (vd_status v) "approved") disallowed
     end) entries.

Definition coverage_entries (tenant_id : string) (d : db) : list (string * provider_coverage) :=
  foldl (cover (list_vendors tenant_id d)) [] (_observed_provider_usage tenant_id d).

Record vendor_summary := mk_vendor_summary {
  vs_providers : list (string * provider_coverage);
  vs_observed_providers : nat;
  vs_covered : nat;
  vs_uncovered : nat;
  vs_registered_vendors : nat
}.
Definition vendor_coverage (tenant_id : string) (d : db) : vendor_summary :=
  let entries := coverage_entries tenant_id d in
  mk_vendor_summary
    (map (fun x => let e := x.2 in
            (x.1, mk_provider_coverage (sorted_set (pc_models e)) (sorted_set (pc_applications e)) (pc_vendor e)
                    (pc_vendor_status e) (pc_covered e) (sorted_set (pc_disallowed_models e))))
      (order_by (fun a b => negb (str_ltb b.1 a.1)) entries))
    (length entries) (length (select (fun x => pc_covered x.2) entries))
    (length (select (fun x => negb (pc_covered x.2)) entries)) (length (list_vendors tenant_id d)).

(** ** Handlers (api/policy.py)

    Each runs in one transaction: an exception leaves the database as it was. *)

Record vendor_view := mk_vendor_view {
  vw_vendor : vendor;
  vw_stages : list approval_stage;
  vw_evidence : list evidence_reference;
  vw_evidence_expired : bool
}.
Definition _vendor_with_stages (d : db) (v : vendor) : vendor_view :=
  let evidence := list_evidence_references (vd_tenant_id v) (Some (vd_vendor_id v)) d in
  mk_vendor_view v
    (if (0 <? vd_review_round v)%Z
     then list_subject_stages d "vendor_review" (vd_vendor_id v) (Some (vd_review_round v)) else [])
    evidence (existsb (fun r => String.eqb (ve_status r) "expired") evidence).

Definition vendor_audit (actor : ActorContext) (action tenant_id : string) (target_type target_id : string)
    (detail : list (string * pyval)) : db -> db :=
  record_audit (mk_audit_entry (user_ref actor) action (Some tenant_id) target_type target_id (PDict detail)).
Definition opt_str (v : option string) : pyval := from_option PStr PNone v.

Definition create_vendor (now name : string) (providers : list string) (approved_models : option (list string))
    (notes_ref : option string) (actor : ActorContext) (d : db) : res (vendor_view * db) :=
  let! tenant_id := _config_tenant d actor in
  let! r := value_error_400 (upsert_vendor now tenant_id name providers approved_models notes_ref (user_ref actor) d) in
  let (v, d) := r : vendor * db in
  let d := vendor_audit actor "vendor.upsert" tenant_id "vendor" (vd_vendor_id v)
    [("name", PStr (vd_name v)); ("providers", strs (vd_providers v)); ("status", PStr (vd_status v))] d in
  Ok (_vendor_with_stages d v, d).

Definition submit_vendor_for_review (now vendor_id : string) (actor : ActorContext) (d : db)
    : res (vendor_view * db) :=
  let! tenant_id := _config_tenant d actor in
  let! r := value_error_400 (not_found_404 (submit_vendor_review now vendor_id tenant_id (user_ref actor) d)) in
  let (v, d) := r : vendor * db in
  let d := vendor_audit actor "vendor.submit_review" tenant_id "vendor" vendor_id
    [("name", PStr (vd_name v)); ("review_round", PInt (vd_review_round v))] d in
  Ok (_vendor_with_stages d v, d).

Definition retire_vendor_route (now vendor_id : string) (actor : ActorContext) (d : db) : res (vendor_view * db) :=
  let! tenant_id := _member_tenant actor in
  let! _ := or_forbidden (require_permission d actor PERM_LIFECYCLE_MANAGE (tenant_target tenant_id) false) in
  let! _ := throw_if (match load_vendor vendor_id tenant_id d with None => true | Some _ => false end)
    (HTTPException 404 "vendor not found in this organization") in
  let! r := retire_vendor now vendor_id tenant_id d in
  let (v, d) := r : vendor * db in
  let d := vendor_audit actor "vendor.retire" tenant_id "vendor" vendor_id [("name", PStr (vd_name v))] d in
  Ok (_vendor_with_stages d v, d).

Definition record_vendor_evidence (now : string) (today : Z) (vendor_id kind name : string) (identifier : option string)
    (issued_at expires_at : string) (document_hash : option string) (actor : ActorContext) (d : db)
    : res (evidence_reference * db) :=
  let! tenant_id := _config_tenant d actor in
  let! r := not_found_404 (record_evidence_reference now today tenant_id vendor_id kind name identifier issued_at
    expires_at document_hash (user_ref actor) d) in
  let (reference, d) := r : evidence_reference * db in
  Ok (reference, vendor_audit actor "vendor.evidence.record" tenant_id "vendor_evidence" (ve_reference_id reference)
    [("vendor_id", PStr vendor_id); ("kind", PStr (ve_kind reference)); ("identifier", opt_str (ve_identifier reference));
     ("issued_at", PStr (ve_issued_at reference)); ("expires_at", PStr (ve_expires_at reference));
     ("document_hash", opt_str (ve_document_hash reference))] d).

Definition withdraw_vendor_evidence (now vendor_id reference_id : string) (actor : ActorContext) (d : db)
    : res (evidence_reference * db) :=
  let! tenant_id := _config_tenant d actor in
  let! r := not_found_404 (withdraw_evidence_reference now reference_id tenant_id d) in
  let (reference, d) := r : evidence_reference * db in
  let! _ := throw_if (negb (String.eqb (ve_vendor_id reference) vendor_id))
    (HTTPException 404 "evidence reference not found for this vendor") in
  Ok (reference, vendor_audit actor "vendor.evidence.withdraw" tenant_id "vendor_evidence" reference_id
    [("vendor_id", PStr vendor_id); ("kind", PStr (ve_kind reference)); ("expires_at", PStr (ve_expires_at reference))] d).
End Vendors.
