(* ===== verification/VendorRules.v ===== *)
(** * What an approved vendor stands for

    Every operation on the registry keeps one invariant: a vendor is approved
    only by a complete review of its current round, decided by different people
    other than its submitter, and only while none of its evidence has lapsed. *)

From stdpp Require Import base list strings option pretty sets gmap relations.
From Stdlib Require Import ZArith Lia Ascii.
From S2P Require Import Prelude Py Dates Sql Schema PolicyDoc PolicyInForce Rbac PolicyStore Queue QueueRules.
From S2P Require Import Workflow Stages StageRules StageStart StageDecisions StageDecisionRules Decisions.
From S2P Require Import Controls Posture Gates Vendors.

Open Scope nat_scope.

(** ** Identifiers of stages *)

Definition no_bar (s : string) : Prop := "|"%char ∉ String.list_ascii_of_string s.

Lemma no_bar_cons c s : no_bar (String c s) <-> c <> "|"%char /\ no_bar s.
Proof. unfold no_bar. cbn [String.list_ascii_of_string]. rewrite not_elem_of_cons. naive_solver. Qed.

Lemma no_bar_pretty_N (n : N) : no_bar (pretty n).
Proof.
  assert (forall s, no_bar s -> no_bar (pretty_N_go n s)) as Hgo.
  { induction (N.lt_wf_0 n) as [n _ IH]. intros s Hs. destruct (decide (n = 0%N)) as [->|Hn]; [by rewrite pretty_N_go_0|].
    rewrite pretty_N_go_step by lia. apply IH; [apply N.div_lt; lia|]. apply no_bar_cons. split; [|done].
    unfold pretty_N_char. repeat case_match; discriminate. }
  unfold pretty, pretty_N. destruct (decide _); [|apply Hgo]; unfold no_bar; set_solver.
Qed.

Lemma no_bar_pretty (z : Z) : no_bar (pretty z).
Proof.
  destruct z as [|p|p]; [unfold no_bar; vm_compute; set_solver|apply (no_bar_pretty_N (N.pos p))|].
  change (pretty (Z.neg p)) with (String "-" (pretty (N.pos p))). apply no_bar_cons. split; [done|]. apply no_bar_pretty_N.
Qed.

Lemma last_bar a a' b b' : no_bar b -> no_bar b' ->
  a +:+ String "|" b = a' +:+ String "|" b' -> a = a' /\ b = b'.
Proof.
  assert (forall a b c, b = a +:+ String "|" c -> ~ no_bar b) as Hin.
  { clear. intros a b c -> Hb. induction a as [|x a IH]; rewrite ?append_cons, ?append_empty in Hb;
      apply no_bar_cons in Hb; naive_solver. }
  revert a'. induction a as [|x a IH]; intros [|y a'] Hb Hb' Heq; rewrite ?append_cons, ?append_empty in Heq.
  - by injection Heq as ->.
  - injection Heq as _ E. by apply Hin in E.
  - injection Heq as _ E. symmetry in E. by apply Hin in E.
  - injection Heq as -> E. by destruct (IH a' Hb Hb' E) as [-> ->].
Qed.

Definition STAGE_SUBJECTS : list string := ["review_task"; "vendor_review"].

(** the texts the identifiers of stages hash *)
Definition stage_key (ty id : string) (round index : Z) : string :=
  entity_key [Some "approval-stage"; Some ty; Some id; Some (pretty round); Some (pretty index)].

Lemma stage_key_inj ty ty' j j' r r' i i' : ty ∈ STAGE_SUBJECTS -> ty' ∈ STAGE_SUBJECTS ->
  stage_key ty j r i = stage_key ty' j' r' i' -> ty = ty' /\ j = j' /\ r = r' /\ i = i'.
Proof.
  intros Hty Hty' E. unfold stage_key, entity_key, join in E. cbn [map default from_option id String.concat] in E.
  assert (forall t k p q : string, "approval-stage" +:+ "|" +:+ t +:+ "|" +:+ k +:+ "|" +:+ p +:+ "|" +:+ q =
    (("approval-stage" +:+ "|" +:+ t +:+ "|" +:+ k) +:+ String "|" p) +:+ String "|" q) as Hsplit.
  { intros. rewrite !append_assoc. done. }
  rewrite !Hsplit in E. clear Hsplit.
  apply last_bar in E as [E Ei]; [|apply no_bar_pretty..]. apply last_bar in E as [E Er]; [|apply no_bar_pretty..].
  apply (inj pretty) in Ei, Er. subst.
  unfold STAGE_SUBJECTS in *. set_unfold in Hty. set_unfold in Hty'.
  destruct Hty as [-> | [-> | []]], Hty' as [-> | [-> | []]];
    [by do 4 apply append_cancel_l in E|by cbn in E|by cbn in E|by do 4 apply append_cancel_l in E].
Qed.

Definition key_of (s : approval_stage) : string :=
  stage_key (st_subject_type s) (st_subject_id s) (st_review_round s) (st_stage_index s).
Definition stage_keys (d : db) : list string := map key_of (approval_stages d).
Definition round_keys (ty id : string) (round : Z) (n : nat) : list string := map (stage_key ty id round) (seqZ 0 (Z.of_nat n)).

Section Rules.
Context `{PyHost} `{Digest}.

(** stage rows have a key of their own, built as [_stage_id] builds it *)
Definition keyed (d : db) : Prop :=
  keys_unique st_stage_id (approval_stages d) /\
  forall s, s ∈ approval_stages d -> st_subject_type s ∈ STAGE_SUBJECTS /\ st_stage_id s = sha256 (key_of s).

Lemma NoDup_digests l : no_collision l -> NoDup l -> NoDup (map sha256 l).
Proof. intros Hinj. apply NoDup_fmap_2_strong. intros x y Hx Hy. by apply Hinj. Qed.

(** ** The invariant *)

(** the stages of a vendor's current round *)
Definition review_of (d : db) (v : vendor) : list approval_stage :=
  list_subject_stages d "vendor_review" (vd_vendor_id v) (Some (vd_review_round v)).

Definition no_lapsed (d : db) (vendor_id : string) : Prop :=
  forall r, r ∈ vendor_evidence_references d -> ve_vendor_id r = vendor_id -> ve_status r <> "expired".

Definition not_submitter (v : vendor) (s : approval_stage) : Prop :=
  truthy_str (vd_submitted_by v) = true -> st_decided_by s <> vd_submitted_by v.

(** what an approval rests on *)
Record approval_stands (d : db) (v : vendor) : Prop := {
  as_reviewed : review_of d v <> [];
  as_complete : Forall (in_status "approved") (review_of d v);
  as_people : Forall (fun s => is_Some (st_decided_by s)) (review_of d v);
  as_distinct : NoDup (map st_decided_by (review_of d v));
  as_maker : Forall (not_submitter v) (review_of d v);
  as_evidence : no_lapsed d (vd_vendor_id v)
}.

Definition vendors_only (ty : string) : Prop := ty = "vendor_review".

Record vendors_ok (d : db) : Prop := {
  vo_reviews : reviews_of vendors_only d;
  vo_ids : forall s, s ∈ approval_stages d -> st_subject_type s ∈ STAGE_SUBJECTS /\ st_stage_id s = sha256 (key_of s);
  vo_stamped : forall s, s ∈ approval_stages d -> st_subject_type s = "vendor_review" -> settled s ->
    is_Some (st_decided_by s);
  vo_vendors : keys_unique vd_vendor_id (vendor_registry d);
  vo_references : keys_unique ve_reference_id (vendor_evidence_references d);
  vo_rounds : forall s, s ∈ approval_stages d -> st_subject_type s = "vendor_review" ->
    exists v, v ∈ vendor_registry d /\ vd_vendor_id v = st_subject_id s /\ (st_review_round s <= vd_review_round v)%Z;
  vo_maker : forall v s, v ∈ vendor_registry d -> s ∈ review_of d v -> not_submitter v s;
  vo_approved : forall v, v ∈ vendor_registry d -> vd_status v = "approved" ->
    review_of d v <> [] /\ Forall (in_status "approved") (review_of d v) /\ no_lapsed d (vd_vendor_id v)
}.

Lemma elem_of_review d v s : s ∈ review_of d v <->
  s ∈ approval_stages d /\ st_subject_type s = "vendor_review" /\ st_subject_id s = vd_vendor_id v /\
  st_review_round s = vd_review_round v.
Proof.
  unfold review_of, list_subject_stages. rewrite elem_of_order_by, elem_of_select. unfold of_round.
  rewrite !andb_true_iff, !String.eqb_eq, Z.eqb_eq. tauto.
Qed.

Lemma review_round d v s : s ∈ review_of d v -> review_of d v = round d s.
Proof. intros (_ & E1 & E2 & E3)%elem_of_review. unfold review_of, round. by rewrite E1, E2, E3. Qed.

Lemma omap_is_map {A B} (f : A -> option B) l : Forall (fun x => is_Some (f x)) l ->
  map f l = map Some (omap f l).
Proof. induction 1 as [|x l [y Hy] _ IH]; [done|]. cbn. rewrite Hy. cbn. by rewrite IH. Qed.

Lemma approved_stands d v : vendors_ok d -> v ∈ vendor_registry d -> vd_status v = "approved" -> approval_stands d v.
Proof.
  intros Hok Hv Ha. destruct (vo_approved d Hok v Hv Ha) as (Hne & Hall & Hev).
  assert (Forall (fun s => is_Some (st_decided_by s)) (review_of d v)) as Hp.
  { apply Forall_forall. intros s Hs. rewrite Forall_forall in Hall. apply elem_of_review in Hs as Hin.
    destruct Hin as (Hin & Hty & _). apply (vo_stamped d Hok s Hin Hty). left. exact (Hall s Hs). }
  split; try done.
  - rewrite (omap_is_map _ _ Hp). apply NoDup_fmap_2; [intros ? ? [=]; done|].
    assert (exists s, s ∈ review_of d v) as [s Hs] by (destruct (review_of d v) as [|s l]; [done|exists s; by left]).
    apply elem_of_review in Hs as Hin. destruct (ro_checklist _ d (vo_reviews d Hok) s (proj1 Hin) (proj1 (proj2 Hin))) as (mode & [_ _ _ Hd]).
    by rewrite (review_round d v s Hs).
  - apply Forall_forall. intros s Hs. by apply (vo_maker d Hok).
Qed.

(** ** Writes that keep it *)

(** the tables the invariant is about *)
Record same_vendor_tables (d d' : db) : Prop := {
  sv_stages : approval_stages d' = approval_stages d;
  sv_vendors : vendor_registry d' = vendor_registry d;
  sv_references : vendor_evidence_references d' = vendor_evidence_references d;
  sv_tasks : review_tasks d' = review_tasks d
}.
#[global] Instance same_vendor_tables_preorder : PreOrder same_vendor_tables.
Proof. split; [by intros d|]. intros x y z [] []. split; congruence. Qed.

Lemma load_subject_kept d d' s x' : review_tasks d' = review_tasks d ->
  (forall v', lookup_key vd_vendor_id (st_subject_id s) (vendor_registry d') = Some v' ->
     vd_status v' = "under_review" -> exists v, lookup_key vd_vendor_id (st_subject_id s) (vendor_registry d) = Some v /\
       vd_status v = "under_review" /\ vd_review_round v = vd_review_round v') ->
  load_stage_subject d' s = Ok x' -> stage_subject_undecided s x' = true -> undecided_in d s = true.
Proof.
  intros Ht Hv. unfold undecided_in, load_stage_subject. rewrite Ht. destruct (String.eqb _ _).
  { destruct (lookup_key rt_task_id _ _); [|done]. by intros [= <-]. }
  destruct (String.eqb _ _); [|done]. destruct (lookup_key vd_vendor_id _ (vendor_registry d')) as [v'|] eqn:E; [|done].
  intros [= <-]. cbn [stage_subject_undecided]. intros [Hs%String.eqb_eq Hr%Z.eqb_eq]%andb_prop.
  destruct (Hv v' eq_refl Hs) as (v & -> & Hvs & Hvr). cbn [stage_subject_undecided]. by rewrite Hvs, Hvr, Hr, Z.eqb_refl.
Qed.

Lemma reviews_shrink d d' : approval_stages d' = approval_stages d ->
  (forall s, undecided_in d' s = true -> undecided_in d s = true) -> reviews_of vendors_only d -> reviews_of vendors_only d'.
Proof.
  intros E Hu [Hk Hc Hn]. constructor.
  - by rewrite E.
  - intros s Hs. rewrite E in Hs. rewrite (round_same d d' s E). by apply Hc.
  - intros s Hs HP Hs'. rewrite E in Hs. rewrite (round_same d d' s E). apply Hn; auto.
Qed.

Lemma lookup_key_map {A K} `{EqDecision K} (key : A -> K) k f (t : list A) : (forall x, x ∈ t -> key (f x) = key x) ->
  lookup_key key k (map f t) = f <$> lookup_key key k t.
Proof.
  induction t as [|x t IH]; intros Hk; [done|]. cbn [map]. rewrite !lookup_key_cons. unfold has_key.
  rewrite (Hk x) by left. destruct (bool_decide _); [done|]. apply IH. intros; apply Hk; by right.
Qed.

(** an edit of a row that keeps its place in the review *)
Record edited (d' : db) (v v' : vendor) : Prop := {
  ed_id : vd_vendor_id v' = vd_vendor_id v;
  ed_round : vd_review_round v' = vd_review_round v;
  ed_submitter : vd_submitted_by v' = vd_submitted_by v;
  ed_review : vd_status v' = "under_review" -> vd_status v = "under_review";
  ed_approved : vd_status v' = "approved" -> vd_status v = "approved" /\ no_lapsed d' (vd_vendor_id v)
}.

Lemma review_of_same d d' v v' : approval_stages d' = approval_stages d ->
  vd_vendor_id v' = vd_vendor_id v -> vd_review_round v' = vd_review_round v -> review_of d' v' = review_of d v.
Proof. intros E1 E2 E3. unfold review_of, list_subject_stages. by rewrite E1, E2, E3. Qed.

Lemma keep_edited d d' f : vendors_ok d ->
  approval_stages d' = approval_stages d -> review_tasks d' = review_tasks d ->
  vendor_registry d' = map f (vendor_registry d) -> keys_unique ve_reference_id (vendor_evidence_references d') ->
  (forall v, v ∈ vendor_registry d -> edited d' v (f v)) -> vendors_ok d'.
Proof.
  intros Hok Es Et Ev Hrefs Hf. constructor.
  - apply (reviews_shrink d); [done| |by apply vo_reviews]. intros s Hs. unfold undecided_in in Hs.
    destruct (load_stage_subject d' s) as [x'|] eqn:Hx; [|done].
    apply (load_subject_kept d d' s x' Et); [|done|done]. intros v'. rewrite Ev.
    rewrite lookup_key_map by (intros v Hv; exact (ed_id _ _ _ (Hf v Hv))).
    destruct (lookup_key vd_vendor_id _ _) as [v|] eqn:El; [|done]. intros [= <-] Hu.
    apply lookup_key_Some in El as [Hv _]. exists v.
    split; [done|]. split; [by apply (ed_review _ _ _ (Hf v Hv))|]. symmetry. exact (ed_round _ _ _ (Hf v Hv)).
  - rewrite Es. by apply vo_ids.
  - rewrite Es. by apply vo_stamped.
  - unfold keys_unique. rewrite Ev, map_map. erewrite map_ext_in; [exact (vo_vendors d Hok)|].
    intros v Hv. by apply (ed_id _ _ _ (Hf v (proj2 (list_elem_of_In _ _) Hv))).
  - done.
  - intros s Hs Hty. rewrite Es in Hs. destruct (vo_rounds d Hok s Hs Hty) as (v & Hv & Hid & Hr).
    exists (f v). destruct (Hf v Hv) as [-> -> _ _ _]. split; [|done]. rewrite Ev. by apply list_elem_of_fmap_2.
  - intros v' s Hv' Hs. rewrite Ev in Hv'. apply list_elem_of_fmap in Hv' as (v & -> & Hv).
    destruct (Hf v Hv) as [E1 E2 E3 _ _]. rewrite (review_of_same d d' v _ Es E1 E2) in Hs.
    unfold not_submitter. rewrite E3. by apply (vo_maker d Hok).
  - intros v' Hv' Ha. rewrite Ev in Hv'. apply list_elem_of_fmap in Hv' as (v & -> & Hv).
    destruct (Hf v Hv) as [E1 E2 _ _ E5]. destruct (E5 Ha) as [Ha0 Hl].
    rewrite (review_of_same d d' v _ Es E1 E2), E1. destruct (vo_approved d Hok v Hv Ha0) as (? & ? & _). done.
Qed.

Lemma edited_refl d v : (vd_status v = "approved" -> no_lapsed d (vd_vendor_id v)) -> edited d v v.
Proof. intros Ha. by split; auto. Qed.

Lemma no_lapsed_same d d' j : vendor_evidence_references d' = vendor_evidence_references d -> no_lapsed d j -> no_lapsed d' j.
Proof. unfold no_lapsed. by intros ->. Qed.

(** the registry, its stages and evidence as they were, no subject reopened *)
Lemma vendors_ok_frame d d' : approval_stages d' = approval_stages d -> vendor_registry d' = vendor_registry d ->
  vendor_evidence_references d' = vendor_evidence_references d ->
  (forall s, undecided_in d' s = true -> undecided_in d s = true) -> vendors_ok d -> vendors_ok d'.
Proof.
  intros Es Ev Er Hu Hok. constructor.
  - by apply (reviews_shrink d); [| |apply vo_reviews].
  - rewrite Es. by apply vo_ids.
  - rewrite Es. by apply vo_stamped.
  - rewrite Ev. by apply vo_vendors.
  - rewrite Er. by apply vo_references.
  - rewrite Es, Ev. by apply vo_rounds.
  - intros v s. rewrite Ev, (review_of_same d d' v v) by done. by apply vo_maker.
  - intros v. rewrite Ev, (review_of_same d d' v v) by done. intros Hv Ha.
    destruct (vo_approved d Hok v Hv Ha) as (? & ? & ?). split_and!; try done. by apply (no_lapsed_same d).
Qed.

(** the stages of vendors *)
Definition vendor_stages (d : db) : list approval_stage :=
  select (fun s => String.eqb (st_subject_type s) "vendor_review") (approval_stages d).

Lemma elem_of_vendor_stages d s : s ∈ vendor_stages d <-> s ∈ approval_stages d /\ st_subject_type s = "vendor_review".
Proof. unfold vendor_stages. rewrite elem_of_select, String.eqb_eq. tauto. Qed.

Lemma vendor_rounds d d' id r : vendor_stages d' = vendor_stages d ->
  list_subject_stages d' "vendor_review" id (Some r) = list_subject_stages d "vendor_review" id (Some r).
Proof.
  intros Es. assert (forall l, select (of_round "vendor_review" id r) l =
    select (of_round "vendor_review" id r) (select (fun s => String.eqb (st_subject_type s) "vendor_review") l)) as Hsel.
  { intros l. induction l as [|s l IH]; [done|]. rewrite !select_cons, IH.
    assert (of_round "vendor_review" id r s = String.eqb (st_subject_type s) "vendor_review" && of_round "vendor_review" id r s)
      as -> by (unfold of_round; by destruct (String.eqb _ _)).
    destruct (String.eqb _ _) eqn:E; cbn [andb]; [|done]. by rewrite select_cons. }
  unfold list_subject_stages. f_equal. rewrite Hsel, (Hsel (approval_stages d)).
  change (select (of_round "vendor_review" id r) (vendor_stages d') = select (of_round "vendor_review" id r) (vendor_stages d)).
  by rewrite Es.
Qed.

(** a write that leaves the registry, its evidence and the vendors' stages as
    they are, and keys its stage rows as [_stage_id] does *)
Definition elsewhere (d d' : db) : Prop :=
  vendor_stages d' = vendor_stages d /\ vendor_registry d' = vendor_registry d /\
  vendor_evidence_references d' = vendor_evidence_references d /\ keyed d'.

Lemma vendors_keyed d : vendors_ok d -> keyed d.
Proof. intros Hok. split; [exact (ro_keys _ d (vo_reviews d Hok))|exact (vo_ids d Hok)]. Qed.

Lemma vendors_ok_elsewhere d d' : elsewhere d d' -> vendors_ok d -> vendors_ok d'.
Proof.
  intros (Es & Ev & Er & Hu & Hids) Hok. pose proof (fun id r => vendor_rounds d d' id r Es) as Hround.
  assert (forall s, s ∈ approval_stages d' -> st_subject_type s = "vendor_review" -> s ∈ approval_stages d) as Hin.
  { intros s Hs Hty. assert (s ∈ vendor_stages d') as Hv by by apply elem_of_vendor_stages.
    rewrite Es in Hv. by apply elem_of_vendor_stages in Hv as [? _]. }
  assert (forall s, st_subject_type s = "vendor_review" -> round d' s = round d s) as Hr.
  { intros s Hty. unfold round. rewrite Hty. apply Hround. }
  assert (forall v, review_of d' v = review_of d v) as Hreview by (intros v; apply Hround).
  constructor.
  - constructor; [done|..].
    + intros s Hs Hty. rewrite (Hr s Hty). exact (ro_checklist _ d (vo_reviews d Hok) s (Hin s Hs Hty) Hty).
    + intros s Hs Hty Hund. rewrite (Hr s Hty). apply (ro_undecided _ d (vo_reviews d Hok) s (Hin s Hs Hty) Hty).
      revert Hund. unfold undecided_in, load_stage_subject. by rewrite Hty, Ev.
  - exact Hids.
  - intros s Hs Hty. exact (vo_stamped d Hok s (Hin s Hs Hty) Hty).
  - rewrite Ev. by apply vo_vendors.
  - rewrite Er. by apply vo_references.
  - intros s Hs Hty. rewrite Ev. exact (vo_rounds d Hok s (Hin s Hs Hty) Hty).
  - intros v s. rewrite Ev, Hreview. by apply vo_maker.
  - intros v. rewrite Ev, Hreview. intros Hv Ha.
    destruct (vo_approved d Hok v Hv Ha) as (? & ? & ?). split_and!; try done. by apply (no_lapsed_same d).
Qed.

Lemma vendors_ok_same d d' : same_vendor_tables d d' -> vendors_ok d -> vendors_ok d'.
Proof.
  intros [Es Ev Er Et]. apply vendors_ok_frame; [done..|]. intros s. unfold undecided_in, load_stage_subject. by rewrite Ev, Et.
Qed.

(** rows of the registry updated, evidence as it was *)
Lemma vendors_ok_update d p f : vendors_ok d ->
  (forall v, v ∈ vendor_registry d -> p v = true -> vd_vendor_id (f v) = vd_vendor_id v /\
     vd_review_round (f v) = vd_review_round v /\ vd_submitted_by (f v) = vd_submitted_by v /\
     (vd_status (f v) = "under_review" -> vd_status v = "under_review") /\
     (vd_status (f v) = "approved" -> vd_status v = "approved")) ->
  vendors_ok (set_vendor_registry (update p f (vendor_registry d)) d).
Proof.
  intros Hok Hf. apply (keep_edited d _ (fun v => if p v then f v else v) Hok); [done..|exact (vo_references d Hok)|].
  intros v Hv. assert (vd_status v = "approved" -> no_lapsed d (vd_vendor_id v)) as Hl by (intros; by apply (vo_approved d Hok)).
  destruct (p v) eqn:Ep; [|by apply edited_refl]. destruct (Hf v Hv Ep) as (? & ? & ? & ? & Ha). split; try done.
  intros Ha'. split; [by apply Ha|]. apply Hl. by apply Ha.
Qed.

Lemma vendors_ok_add d v : vendors_ok d -> vd_vendor_id v ∉ map vd_vendor_id (vendor_registry d) -> vd_status v = "draft" ->
  vendors_ok (set_vendor_registry (vendor_registry d ++ [v]) d).
Proof.
  intros Hok Hnew Hst. set (d' := set_vendor_registry _ d).
  assert (review_of d v = []) as Hnil.
  { destruct (review_of d v) as [|s l] eqn:E; [done|]. assert (s ∈ review_of d v) as (Hs & Hty & Hid & _)%elem_of_review by (rewrite E; by left).
    destruct (vo_rounds d Hok s Hs Hty) as (v0 & Hv0 & E0 & _). destruct Hnew. rewrite <-Hid, <-E0. by apply list_elem_of_fmap_2. }
  constructor.
  - apply (reviews_shrink d); [done| |by apply vo_reviews]. intros s Hs. unfold undecided_in in Hs.
    destruct (load_stage_subject d' s) as [x'|] eqn:Hx; [|done].
    apply (load_subject_kept d d' s x' eq_refl); [|done|done]. intros v' Hl Hu. revert Hl.
    cbn [vendor_registry d' set_vendor_registry]. unfold lookup_key. rewrite select1_app. fold (lookup_key vd_vendor_id (st_subject_id s) (vendor_registry d)).
    destruct (lookup_key vd_vendor_id _ _) as [v0|]; [intros [= ->]; by exists v'|].
    unfold select1. rewrite select_cons. destruct (has_key _ _ _); [|done]. intros [= <-]. congruence.
  - by apply (vo_ids d).
  - by apply (vo_stamped d).
  - unfold keys_unique. cbn [vendor_registry d' set_vendor_registry]. rewrite map_app. apply NoDup_app.
    split; [by apply vo_vendors|]. split; [|by apply NoDup_singleton]. intros x Hx Hx'. cbn in Hx'.
    apply list_elem_of_singleton in Hx'. by subst.
  - by apply (vo_references d).
  - intros s Hs Hty. destruct (vo_rounds d Hok s Hs Hty) as (v0 & Hv0 & Hr). exists v0. split; [|done].
    apply elem_of_app. by left.
  - intros w s [Hw|Hw%list_elem_of_singleton]%elem_of_app Hs; [by apply (vo_maker d Hok w)|]. subst w.
    change (review_of d' v) with (review_of d v) in Hs. rewrite Hnil in Hs. by apply elem_of_nil in Hs.
  - intros w [Hw|Hw%list_elem_of_singleton]%elem_of_app Ha; [by apply (vo_approved d Hok w)|]. subst w. congruence.
Qed.

(** ** Starting a round *)

Lemma ids_from_keys sj n : forall i,
  ids_from sj i n = map (fun k => sha256 (stage_key (sj_type sj) (sj_id sj) (sj_round sj) k)) (seqZ i (Z.of_nat n)).
Proof.
  induction n as [|n IH]; intros i; [done|]. rewrite seqZ_cons by lia. cbn [ids_from map]. rewrite IH.
  by replace (Z.pred (Z.of_nat (S n))) with (Z.of_nat n) by lia.
Qed.

Lemma rows_from_ids now mode pt pv sj rl : forall i,
  map st_stage_id (rows_from now mode pt pv sj i rl) = ids_from sj i (length rl).
Proof. induction rl as [|[role label] rl IH]; intros i; [done|]. cbn [rows_from map ids_from length]. by rewrite IH. Qed.

(** identifiers of a round nobody has started are free *)
Lemma fresh_round d sj n : vendors_ok d -> sj_type sj ∈ STAGE_SUBJECTS -> round_of sj d = [] ->
  no_collision (stage_keys d ++ round_keys (sj_type sj) (sj_id sj) (sj_round sj) n) -> fresh_ids d sj n.
Proof.
  intros Hok Hty Hnil Hinj. unfold fresh_ids. rewrite ids_from_keys.
  assert (map st_stage_id (approval_stages d) = map sha256 (stage_keys d)) as Eids.
  { unfold stage_keys. rewrite map_map. apply map_ext_in. intros s Hs%list_elem_of_In. by apply (vo_ids d Hok). }
  rewrite Eids, <-(map_map (stage_key (sj_type sj) (sj_id sj) (sj_round sj)) sha256), <-map_app.
  apply NoDup_digests; [exact Hinj|]. apply NoDup_app. split; [|split].
  - apply (NoDup_fmap_1 sha256). change (NoDup (map sha256 (stage_keys d))). rewrite <-Eids. exact (ro_keys _ d (vo_reviews d Hok)).
  - intros x (s & -> & Hs)%list_elem_of_fmap (k & E & _)%list_elem_of_fmap.
    destruct (vo_ids d Hok s Hs) as [Hst _]. apply stage_key_inj in E as (E1 & E2 & E3 & _); [|done..].
    apply round_of_nil in Hnil. apply (proj1 (select1_None _ _) Hnil) in Hs. unfold of_round in Hs.
    by rewrite E1, E2, E3, !String.eqb_refl, Z.eqb_refl in Hs.
  - apply NoDup_fmap_2_strong; [|apply NoDup_seqZ]. by intros k k' _ _ (_ & _ & _ & E)%stage_key_inj.
Qed.

Section Start.
Context (now tenant_id actor_ref : string) (d : db) (v : vendor) (pt : string) (pv : Z) (rl : list (string * option string)).
Hypothesis Hok : vendors_ok d.
Hypothesis Hv : v ∈ vendor_registry d.
Hypothesis Hfresh : fresh_ids d (vendor_subject v (vd_review_round v + 1) tenant_id) (length rl).

Let next : Z := (vd_review_round v + 1)%Z.
Let sj : subject := vendor_subject v next tenant_id.
Let started (r : vendor) : vendor :=
  vd_with_updated_at now (vd_with_submitted_by (Some actor_ref)
    (vd_with_review_round next (vd_with_status "under_review" r))).
Let d1 : db := set_vendor_registry (update_key vd_vendor_id (vd_vendor_id v) started (vendor_registry d)) d.
Let rows : list approval_stage := rows_from now "sequence" pt pv sj 0 rl.
Let d2 : db := set_approval_stages (approval_stages d ++ rows) d1.

Lemma only_vendor w : w ∈ vendor_registry d -> vd_vendor_id w = vd_vendor_id v -> w = v.
Proof. intros Hw E. by apply (keys_unique_eq vd_vendor_id _ _ _ (vo_vendors d Hok)). Qed.

(** an earlier stage of the vendor is of an earlier round *)
Lemma earlier_round s : s ∈ approval_stages d -> st_subject_type s = "vendor_review" ->
  st_subject_id s = vd_vendor_id v -> (st_review_round s < next)%Z.
Proof.
  intros Hs Hty E. destruct (vo_rounds d Hok s Hs Hty) as (w & Hw & Ew & Hr).
  rewrite E in Ew. rewrite (only_vendor w Hw Ew) in Hr. unfold next. lia.
Qed.

Lemma unstarted : round_of sj d1 = [].
Proof.
  apply round_of_nil, select1_None. intros s Hs. unfold of_round. cbn [sj_type sj_id sj_round sj vendor_subject].
  destruct (String.eqb_spec (st_subject_type s) "vendor_review") as [Ht|]; [|done].
  destruct (String.eqb_spec (st_subject_id s) (vd_vendor_id v)) as [Ei|]; [|done].
  apply Z.eqb_neq. pose proof (earlier_round s Hs Ht Ei). lia.
Qed.

Lemma row_of s : s ∈ rows -> exists i role label, s = stage_row now "sequence" pt pv sj i role label.
Proof. intros (i & role & label & _ & ->)%in_rows_from. by exists i, role, label. Qed.

Lemma row_elsewhere s x : s ∈ approval_stages d -> x ∈ rows -> ~ same_round x s.
Proof.
  intros Hs (i & role & label & ->)%row_of (E1 & E2 & E3). cbn in E1, E2, E3.
  pose proof (earlier_round s Hs (eq_sym E1) (eq_sym E2)). lia.
Qed.

Lemma older_round s : s ∈ approval_stages d -> round d2 s = round d s.
Proof.
  intros Hs. unfold round, list_subject_stages. f_equal. cbn [approval_stages d2 set_approval_stages].
  rewrite select_app. replace (select _ rows) with (@nil approval_stage); [apply app_nil_r|].
  symmetry. destruct (select _ rows) as [|x l] eqn:E; [done|].
  assert (x ∈ x :: l) as Hx by left. rewrite <-E in Hx. apply elem_of_select in Hx as [Hr Hx].
  apply of_round_spec in Hr. by destruct (row_elsewhere s x Hs Hx).
Qed.

Lemma older_review w : w ∈ vendor_registry d -> w <> v -> review_of d2 w = review_of d w.
Proof.
  intros Hw Hne. unfold review_of, list_subject_stages. f_equal. cbn [approval_stages d2 set_approval_stages].
  rewrite select_app. replace (select _ rows) with (@nil approval_stage); [apply app_nil_r|].
  symmetry. destruct (select _ rows) as [|x l] eqn:E; [done|].
  assert (x ∈ x :: l) as Hx by left. rewrite <-E in Hx. apply elem_of_select in Hx as [Hr (i & role & label & ->)%row_of].
  unfold of_round in Hr. apply andb_prop in Hr as [[_ Hid%String.eqb_eq]%andb_prop _]. cbn in Hid.
  destruct Hne. by apply only_vendor.
Qed.

Lemma new_round s : s ∈ rows -> round d2 s = rows.
Proof.
  intros (i & role & label & ->)%row_of. unfold round, list_subject_stages.
  cbn [approval_stages d2 set_approval_stages st_subject_type st_subject_id st_review_round stage_row].
  rewrite select_app. pose proof unstarted as Hn. apply order_by_nil in Hn.
  cbn [approval_stages d1 set_vendor_registry] in Hn. rewrite Hn. cbn [app].
  change (order_by (fun a b => (st_stage_index a <=? st_stage_index b)%Z)
    (select (of_round (sj_type sj) (sj_id sj) (sj_round sj)) rows) = rows).
  unfold rows at 1. rewrite rows_from_round. apply rows_from_ordered.
Qed.

Lemma registry_after w' : w' ∈ vendor_registry d2 -> exists w, w ∈ vendor_registry d /\
  (w' = w /\ w <> v \/ w = v /\ w' = started v).
Proof.
  cbn [vendor_registry d2 d1 set_approval_stages set_vendor_registry]. unfold update_key.
  intros [(w & Hw & Hk & ->)|[Hw Hk]]%elem_of_update.
  - exists w. split; [done|]. right. apply (proj1 (has_key_true _ _ _)) in Hk. by rewrite (only_vendor w Hw Hk).
  - exists w'. split; [done|]. left. split; [done|]. apply (proj1 (has_key_false _ _ _)) in Hk. by intros ->.
Qed.

Lemma older_undecided s : s ∈ approval_stages d -> undecided_in d2 s = true -> undecided_in d s = true.
Proof.
  intros Hs Hu. unfold undecided_in in Hu. destruct (load_stage_subject d2 s) as [x'|] eqn:Hx; [|done].
  destruct (vo_ids d Hok s Hs) as [Hty _]. assert (st_subject_type s = "review_task" \/ st_subject_type s = "vendor_review")
    as [Ht|Ht] by (unfold STAGE_SUBJECTS in Hty; set_solver).
  - unfold undecided_in. unfold load_stage_subject in *. rewrite Ht in *. cbn [String.eqb Ascii.eqb Bool.eqb] in *.
    change (review_tasks d2) with (review_tasks d) in Hx. destruct (lookup_key rt_task_id _ _); [|done]. by injection Hx as <-.
  - unfold undecided_in. unfold load_stage_subject in *. rewrite Ht in *. cbn [String.eqb Ascii.eqb Bool.eqb] in *.
    cbn [vendor_registry d2 d1 set_approval_stages set_vendor_registry] in Hx. unfold update_key in Hx.
    rewrite lookup_key_update in Hx by done. destruct (lookup_key vd_vendor_id _ _) as [w|] eqn:El; [|done]. cbn in Hx.
    apply lookup_key_Some in El as [Hw Ew]. destruct (has_key vd_vendor_id (vd_vendor_id v) w) eqn:Eh; injection Hx as <-; [|done].
    apply (proj1 (has_key_true _ _ _)) in Eh. cbn [stage_subject_undecided started] in Hu. apply andb_prop in Hu as [_ Hr%Z.eqb_eq]. cbn in Hr.
    pose proof (earlier_round s Hs Ht ltac:(congruence)). unfold next in *. lia.
Qed.
Lemma vendors_started_ok : vendors_ok d2.
Proof.
  constructor.
  - constructor.
    + unfold keys_unique. cbn [approval_stages d2 set_approval_stages]. rewrite map_app. unfold rows. rewrite rows_from_ids.
      exact Hfresh.
    + intros s [Hs|Hs]%elem_of_app HP; [rewrite older_round by done; by apply (ro_checklist _ d (vo_reviews d Hok))|].
      exists "sequence". rewrite new_round by done. apply rows_from_checklist. by left.
    + intros s [Hs|Hs]%elem_of_app HP Hu.
      * rewrite older_round by done. apply (ro_undecided _ d (vo_reviews d Hok)); [done..|]. by apply older_undecided.
      * rewrite new_round by done. apply rows_from_outcome. intros E. unfold rows in Hs. rewrite E in Hs. by apply elem_of_nil in Hs.
  - intros s [Hs|(i & role & label & ->)%row_of]%elem_of_app; [by apply (vo_ids d Hok)|]. split; [by right; left|done].
  - intros s [Hs|(i & role & label & ->)%row_of]%elem_of_app; [by apply (vo_stamped d Hok)|].
    intros _ [E|E]; cbn in E; by destruct (i =? 0)%Z.
  - apply keys_unique_update; [done|]. by apply vo_vendors.
  - exact (vo_references d Hok).
  - intros s [Hs|(i & role & label & ->)%row_of]%elem_of_app Hty.
    + destruct (vo_rounds d Hok s Hs Hty) as (w & Hw & Ew & Hr).
      destruct (decide (vd_vendor_id w = vd_vendor_id v)) as [E|Hne].
      * rewrite (only_vendor w Hw E) in *. exists (started v). split; [|split; [done|]]; [|cbn; unfold next; lia].
        apply elem_of_update. left. exists v. split; [done|]. split; [by apply has_key_true|done].
      * exists w. split; [|done]. apply elem_of_update. right. split; [done|]. by apply has_key_false.
    + exists (started v). split; [|split; [done|cbn; lia]].
      apply elem_of_update. left. exists v. split; [done|]. split; [by apply has_key_true|done].
  - intros w' s (w & Hw & [[-> Hne]|[-> ->]])%registry_after Hs.
    + rewrite older_review in Hs by done. by apply (vo_maker d Hok).
    + apply elem_of_review in Hs as (Hs & Hty & Hid & Hr). apply elem_of_app in Hs as [Hs|(i & role & label & ->)%row_of].
      * pose proof (earlier_round s Hs Hty Hid). cbn in Hr. lia.
      * by intros _.
  - intros w' (w & Hw & [[-> Hne]|[-> ->]])%registry_after Ha; [|done].
    rewrite older_review by done. by apply (vo_approved d Hok).
Qed.
End Start.

Lemma select1_vendor vendor_id tenant_id d v : vendor_in_tenant vendor_id tenant_id d = Ok v ->
  v ∈ vendor_registry d /\ vd_vendor_id v = vendor_id /\ vd_tenant_id v = tenant_id.
Proof.
  unfold vendor_in_tenant, load_vendor. destruct (select1 _ _) as [w|] eqn:E; [|done]. intros [= ->].
  apply select1_Some in E as [Hv [E1%String.eqb_eq E2%String.eqb_eq]%andb_prop]. done.
Qed.

Lemma emit_same n d : same_vendor_tables d (emit n d).
Proof. by split. Qed.

(** how many stages a vendor review gets under the policy in force *)
Definition review_length (d : db) (tenant_id : string) : nat :=
  match (let! policy := resolve_vendor_policy d (Some tenant_id) in py_iter (sp_stages policy)) with
  | Ok stages => length stages
  | Raise _ => 0
  end.

(** the texts the next review of a vendor would hash into its stages' identifiers *)
Definition next_round_keys (d : db) (vendor_id : string) : list string :=
  match lookup_key vd_vendor_id vendor_id (vendor_registry d) with
  | Some v => round_keys "vendor_review" vendor_id (vd_review_round v + 1) (review_length d (vd_tenant_id v))
  | None => []
  end.

Lemma submit_ok now vendor_id tenant_id ref d v d' : vendors_ok d ->
  no_collision (stage_keys d ++ next_round_keys d vendor_id) ->
  submit_vendor_review now vendor_id tenant_id ref d = Ok (v, d') -> vendors_ok d'.
Proof.
  intros Hok Hinj. unfold submit_vendor_review. intros (v0 & Hv0 & Hrun)%rbind_Ok.
  apply select1_vendor in Hv0 as (Hin & <- & Ht). destruct (String.eqb _ _); [by injection Hrun as _ <-|].
  apply rbind_Ok in Hrun as (? & _ & Hrun). apply rbind_Ok in Hrun as (? & _ & Hrun).
  apply rbind_Ok in Hrun as (policy & Hpol & Hrun). apply rbind_Ok in Hrun as (stages & Hst & Hrun).
  apply rbind_Ok in Hrun as ([b d2] & Hmat & Hrun). apply rbind_Ok in Hrun as (w & _ & Hd). injection Hd as _ <-.
  pose proof (unstarted now tenant_id ref d v0 Hok Hin) as Hnil.
  assert (fresh_ids d (vendor_subject v0 (vd_review_round v0 + 1) tenant_id) (length stages)) as Hfresh.
  { apply fresh_round; [done|by right; left|exact Hnil|]. revert Hinj. unfold next_round_keys, review_length.
    rewrite (lookup_key_unique vd_vendor_id _ _ v0 (vo_vendors d Hok) Hin eq_refl), Ht, Hpol. cbn [rbind]. by rewrite Hst. }
  apply materialize_first in Hmat as (_ & rl & Hrl & -> & _); [|exact Hnil|exact Hfresh].
  rewrite (Forall2_length _ _ _ Hrl) in Hfresh.
  cbn [snd]. eapply vendors_ok_same; [|exact (vendors_started_ok now tenant_id ref d v0
    (sp_policy_tenant policy) (sp_policy_version policy) rl Hok Hin Hfresh)].
  destruct (first_open _ _ _); [apply emit_same|]. done.
Qed.

(** ** Deciding a stage *)

Definition deciding (s : approval_stage) (v : vendor) : bool :=
  String.eqb (vd_vendor_id v) (st_subject_id s) && (vd_review_round v =? st_review_round s)%Z &&
  String.eqb (vd_status v) "under_review".
Definition decided_vendor (now status : string) (v : vendor) : vendor :=
  vd_with_updated_at now (vd_with_reviewed_at (Some now) (vd_with_status status v)).

Lemma decide_review_task_references now t st d :
  vendor_evidence_references (decide_review_task now t st d) = vendor_evidence_references d.
Proof.
  unfold decide_review_task. cbn [review_tasks set_review_tasks].
  destruct (lookup_key _ _ _); [|done]. destruct (_ && _); [|done].
  unfold decide_use_case, _notify_intake_decided.
  repeat match goal with |- context [if ?b then _ else _] => destruct b
                       | |- context [match ?o with Some _ => _ | None => _ end] => destruct o end; done.
Qed.

Lemma roll_up_vendors now s dec d d' : _roll_up_subject now s dec d = Ok d' -> dec = "approve" \/ dec = "reject" ->
  vendor_evidence_references d' = vendor_evidence_references d /\
  (vendor_registry d' = vendor_registry d \/ st_subject_type s = "vendor_review" /\
     (dec = "approve" -> no_lapsed d (st_subject_id s)) /\
     vendor_registry d' = update (deciding s) (decided_vendor now (decision_status dec)) (vendor_registry d)).
Proof.
  intros Hrun Hdec. unfold _roll_up_subject in Hrun. destruct (String.eqb (st_subject_type s) "review_task").
  { injection Hrun as <-. assert (apply_decision_status now "review_task" (st_subject_id s) dec d =
      decide_review_task now (st_subject_id s) (decision_status dec) d) as -> by (destruct Hdec as [-> | ->]; done).
    rewrite decide_review_task_references, decide_review_task_vendors. split; [done|by left]. }
  destruct (String.eqb_spec (st_subject_type s) "vendor_review") as [Hty|]; [|injection Hrun as <-; split; [done|by left]].
  apply rbind_Ok in Hrun as (u & Hev & Hrun). injection Hrun as <-. split; [done|]. right. split; [done|]. split.
  - intros ->. cbn in Hev. unfold require_no_expired_evidence in Hev.
    intros r Hr Er Es. assert (r ∈ expired_references d (st_subject_id s)) as Hin.
    { unfold expired_references. rewrite elem_of_order_by, elem_of_select. by rewrite Er, Es, !String.eqb_refl. }
    destruct (expired_references d (st_subject_id s)); [by apply elem_of_nil in Hin|done].
  - destruct Hdec as [-> | ->]; done.
Qed.

Lemma apply_stage_vendors now s dec did actor d d' : dec = "approve" \/ dec = "reject" ->
  apply_stage_decision now s dec did actor d = Ok d' ->
  vendor_evidence_references d' = vendor_evidence_references d /\
  (vendor_registry d' = vendor_registry d \/ st_subject_type s = "vendor_review" /\ exists status,
     (status = "approved" -> no_lapsed d (st_subject_id s) /\ Forall (in_status "approved") (round d' s)) /\
     (status = "approved" \/ status = "rejected") /\
     vendor_registry d' = update (deciding s) (decided_vendor now status) (vendor_registry d)).
Proof.
  intros Hdec Hrun. unfold apply_stage_decision in Hrun. set (d1 := set_approval_stages _ d) in Hrun.
  destruct (_ =? 0); [injection Hrun as <-; split; [done|by left]|].
  destruct (String.eqb _ "rejected").
  { apply roll_up_vendors in Hrun as (E & [Ev|(Ht & _ & Ev)]); [split; [done|by left]| |by right].
    split; [done|]. right. split; [done|]. exists "rejected". split; [done|]. split; [by right|done]. }
  destruct (forallb _ _) eqn:Hall.
  { pose proof (roll_up_stages _ _ _ _ _ Hrun) as Es.
    apply roll_up_vendors in Hrun as (E & [Ev|(Ht & Hl & Ev)]); [split; [done|by left]| |by left].
    split; [done|]. right. split; [done|]. exists "approved". split; [|split; [by left|done]]. intros _. split; [by apply Hl|].
    apply every_status in Hall. by rewrite (round_same d1 d' s Es). }
  destruct (String.eqb (st_mode s) "sequence"); [|injection Hrun as <-; split; [done|by left]].
  injection Hrun as <-. unfold open_next. destruct (find _ _); (split; [done|by left]).
Qed.

(** where a stage after the decision comes from *)
Lemma stage_after now s dec did actor d d' x : keys_unique st_stage_id (approval_stages d) -> s ∈ approval_stages d ->
  apply_stage_decision now s dec did actor d = Ok d' -> x ∈ approval_stages d' ->
  exists x0, x0 ∈ approval_stages d /\ same_round x x0 /\ st_stage_id x = st_stage_id x0 /\
    st_stage_index x = st_stage_index x0 /\
    (x0 = s /\ st_decided_by x = Some actor \/
     st_decided_by x = st_decided_by x0 /\ (settled x -> st_status x = st_status x0)).
Proof.
  intros Hrv Hs (q & Hq & ->)%stages_after Hx.
  assert (forall y, y ∈ update (open_stage (st_stage_id s))
      (stamp_stage now (if String.eqb dec "approve" then "approved" else "rejected") did actor) (approval_stages d) ->
    exists x0, x0 ∈ approval_stages d /\ same_round y x0 /\ st_stage_id y = st_stage_id x0 /\
      st_stage_index y = st_stage_index x0 /\
      (x0 = s /\ st_decided_by y = Some actor \/ y = x0)) as Hy.
  { intros y [(x0 & Hx0 & Hp & ->)|[Hy _]]%elem_of_update; [|exists y; split; [done|]; split; [done|]; by auto].
    exists x0. split; [done|]. split; [done|]. split; [done|]. split; [done|]. left. split; [|done].
    apply andb_prop in Hp as [Hp%String.eqb_eq _]. by apply (keys_unique_eq st_stage_id _ _ _ Hrv). }
  apply elem_of_update in Hx as [(y & Hin & Hqy & ->)|[Hin _]].
  - destruct (Hy y Hin) as (x0 & Hx0 & Hr & Hi & Hj & Hc). exists x0. split; [done|]. split; [done|]. split; [done|].
    split; [done|]. destruct Hc as [[-> Hd]| ->]; [by left|]. right. split; [done|]. intros [E|E]; discriminate E.
  - destruct (Hy x Hin) as (x0 & Hx0 & Hr & Hi & Hj & Hc). exists x0. split; [done|]. split; [done|]. split; [done|].
    split; [done|]. destruct Hc as [[-> Hd]| ->]; [by left|by right].
Qed.

Lemma review_elsewhere now s dec did actor d d' v : vendors_ok d -> s ∈ approval_stages d -> in_status "open" s ->
  apply_stage_decision now s dec did actor d = Ok d' -> Forall (in_status "approved") (review_of d v) -> review_of d v <> [] ->
  review_of d' v = review_of d v.
Proof.
  intros Hok Hs Ho Hrun Hall Hne.
  assert (exists x, x ∈ review_of d v) as [x Hx] by (destruct (review_of d v) as [|x l]; [done|exists x; by left]).
  assert (~ same_round x s) as Hno.
  { intros Hr. rewrite Forall_forall in Hall. apply elem_of_review in Hx as Hx'. destruct Hx' as (Hxd & E1 & E2 & E3).
    destruct Hr as (F1 & F2 & F3). assert (s ∈ review_of d v) as Hsr by (apply elem_of_review; split_and!; [done|congruence..]).
    specialize (Hall s Hsr). unfold in_status in *. congruence. }
  rewrite (review_round d v x Hx). apply elem_of_review in Hx as (Hxd & E1 & E2 & E3).
  rewrite <-(apply_stage_elsewhere _ _ _ _ _ _ _ _ (ro_keys _ d (vo_reviews d Hok)) Hs Hrun Hno).
  unfold review_of, round. by rewrite E1, E2, E3.
Qed.

Lemma apply_keeps_vendors now s dec did actor d d' : vendors_ok d -> s ∈ approval_stages d -> st_status s = "open" ->
  undecided_in d s = true -> (vendors_only (st_subject_type s) -> actor ∉ deciders (round d s)) ->
  dec = "approve" \/ dec = "reject" ->
  (forall v, st_subject_type s = "vendor_review" -> v ∈ vendor_registry d -> vd_vendor_id v = st_subject_id s ->
     truthy_str (vd_submitted_by v) = true -> vd_submitted_by v <> Some actor) ->
  apply_stage_decision now s dec did actor d = Ok d' -> vendors_ok d'.
Proof.
  intros Hok Hs Ho Hund Ha Hdec Hmaker Hrun.
  pose proof (apply_keeps_of _ _ _ _ _ _ _ _ (vo_reviews d Hok) Hs Ho Hund Ha Hdec Hrun) as Hrv.
  destruct (apply_stage_vendors _ _ _ _ _ _ _ Hdec Hrun) as (Eref & Hreg).
  assert (exists f, vendor_registry d' = map f (vendor_registry d) /\ forall v,
    vd_vendor_id (f v) = vd_vendor_id v /\ vd_review_round (f v) = vd_review_round v /\
    vd_submitted_by (f v) = vd_submitted_by v /\
    (vd_status (f v) = "approved" -> vd_status v = "approved" \/
       deciding s v = true /\ st_subject_type s = "vendor_review" /\
       no_lapsed d (st_subject_id s) /\ Forall (in_status "approved") (round d' s))) as (f & Ev & Hf).
  { destruct Hreg as [Ev|(Hty & status & Hap & Hst & Ev)]; [exists (fun v => v); rewrite map_id; split; [done|]; intros v; split_and!; auto|].
    eexists. split; [exact Ev|]. intros v. cbv beta. destruct (deciding s v) eqn:Ed; [|split_and!; auto]. split_and!; [done..|].
    intros Ea. right. destruct (Hap Ea). by split_and!. }
  assert (forall x, x ∈ approval_stages d' -> exists x0, x0 ∈ approval_stages d /\ same_round x x0 /\ st_stage_id x = st_stage_id x0 /\
    st_stage_index x = st_stage_index x0 /\ (x0 = s /\ st_decided_by x = Some actor \/
     st_decided_by x = st_decided_by x0 /\ (settled x -> st_status x = st_status x0))) as Hafter
    by (intros x; exact (stage_after now s dec did actor d d' x (ro_keys _ d (vo_reviews d Hok)) Hs Hrun)).
  constructor; [done|..].
  - intros x (x0 & Hx0 & (E1 & E2 & E3) & Ei & Ej & _)%Hafter. unfold key_of. rewrite E1, E2, E3, Ei, Ej. by apply (vo_ids d Hok).
  - intros x (x0 & Hx0 & (E1 & _) & _ & _ & [[_ ->]|[-> Hst]])%Hafter Hty Hset; [done|].
    apply (vo_stamped d Hok); [done|congruence|]. unfold settled in *. by rewrite <-(Hst Hset).
  - unfold keys_unique. rewrite Ev, map_map. rewrite (map_ext _ vd_vendor_id); [exact (vo_vendors d Hok)|]. intros v. apply Hf.
  - rewrite Eref. by apply (vo_references d).
  - intros x (x0 & Hx0 & (E1 & E2 & E3) & _)%Hafter Hty. rewrite E1 in Hty.
    destruct (vo_rounds d Hok x0 Hx0 Hty) as (v & Hv & Hid & Hr). destruct (Hf v) as (F1 & F2 & _).
    exists (f v). rewrite F1, F2, E2, E3, Ev. split; [by apply list_elem_of_fmap_2|done].
  - intros v' x Hv' Hx. rewrite Ev in Hv'. apply list_elem_of_fmap in Hv' as (v & -> & Hv). destruct (Hf v) as (F1 & F2 & F3 & _).
    apply elem_of_review in Hx as (Hx & T1 & T2 & T3). rewrite F1 in T2. rewrite F2 in T3.
    unfold not_submitter. rewrite F3. apply Hafter in Hx as (x0 & Hx0 & (E1 & E2 & E3) & _ & _ & [[-> ->]|[-> _]]).
    + intros Htr E. apply (Hmaker v); try congruence.
    + apply (vo_maker d Hok v x0 Hv). apply elem_of_review. split_and!; [done|congruence..].
  - intros v' Hv' Happ. rewrite Ev in Hv'. apply list_elem_of_fmap in Hv' as (v & -> & Hv). destruct (Hf v) as (F1 & F2 & _ & Fa).
    assert (review_of d' (f v) = review_of d' v) as Er by (unfold review_of; by rewrite F1, F2). rewrite Er, F1.
    destruct (Fa Happ) as [Hold|(Hd & Hty & Hl & Hall)].
    + destruct (vo_approved d Hok v Hv Hold) as (Hne & Hall & Hl).
      rewrite (review_elsewhere _ _ _ _ _ _ _ _ Hok Hs Ho Hrun Hall Hne). split_and!; try done. by apply (no_lapsed_same d).
    + apply andb_prop in Hd as [[Hid%String.eqb_eq Hr%Z.eqb_eq]%andb_prop _].
      assert (review_of d' v = round d' s) as -> by (unfold review_of, round; by rewrite Hty, Hid, Hr).
      split_and!; [|done|rewrite Hid; by apply (no_lapsed_same d)].
      assert (st_stage_id s ∈ map st_stage_id (approval_stages d')) as Hin.
      { destruct (stages_after _ _ _ _ _ _ _ Hrun) as (q & _ & ->). rewrite !map_key_update by done. by apply list_elem_of_fmap_2. }
      apply list_elem_of_fmap in Hin as (y & Ey & Hy). destruct (Hafter y Hy) as (x0 & Hx0 & Hr0 & Ei & _).
      rewrite (keys_unique_eq st_stage_id _ _ _ (ro_keys _ d (vo_reviews d Hok)) Hx0 Hs ltac:(congruence)) in Hr0.
      intros E. assert (y ∈ round d' s) as Hyr by (apply elem_of_round; split; [by apply of_round_spec|done]).
      rewrite E in Hyr. by apply elem_of_nil in Hyr.
Qed.

Lemma not_maker d s sj actor v : vendors_ok d -> load_stage_subject d s = Ok sj ->
  stage_maker d sj <> Some actor \/ actor = EmptyString ->
  st_subject_type s = "vendor_review" -> v ∈ vendor_registry d -> vd_vendor_id v = st_subject_id s ->
  truthy_str (vd_submitted_by v) = true -> vd_submitted_by v <> Some actor.
Proof.
  intros Hok Hl Hm Hty Hv Hid Htr E. unfold load_stage_subject in Hl. rewrite Hty in Hl.
  cbn [String.eqb Ascii.eqb Bool.eqb] in Hl. rewrite (lookup_key_unique vd_vendor_id _ _ v (vo_vendors d Hok) Hv Hid) in Hl.
  injection Hl as <-. cbn [stage_maker] in Hm. rewrite Htr in Hm. destruct Hm as [Hm| ->]; [done|].
  by rewrite E in Htr.
Qed.

Lemma decide_ok now now_dt j dec rationale actor d resp d' : vendors_ok d ->
  decide_approval_stage now now_dt j dec rationale actor d = Ok (resp, d') -> vendors_ok d'.
Proof.
  intros Hok (Hdec & s & sj & row & d1 & updated & subj & Hlk & Hent & Ho & Hx & Hux & Hcase & Href & _)%decide_run.
  pose proof (lookup_key_Some _ _ _ _ Hlk) as [Hin _].
  assert (vendors_ok d1) as Hok1.
  { destruct Hcase as [[_ ->]|[_ (rows & Happ)]]; [done|].
    assert (vendors_ok (set_governance_decisions rows d)) as Hok0 by (by apply (vendors_ok_same d)).
    eapply apply_keeps_vendors; [exact Hok0|exact Hin|done| | |done| |exact Happ].
    - unfold undecided_in. change (load_stage_subject (set_governance_decisions rows d) s) with (load_stage_subject d s). by rewrite Hx.
    - intros HP. apply (not_a_decider vendors_only); [by apply vo_reviews|done..|]. exact (en_distinct _ _ _ Hent).
    - intros v. apply (not_maker d s sj); [done..|]. by apply (en_not_maker _ _ _ Hent). }
  destruct (String.eqb _ _).
  - apply rerouted_refresh in Href. pose proof (rr_tables _ _ Href) as Et.
    refine (vendors_ok_frame _ _ _ _ _ _ (vendors_ok_same d1 (record_audit (stage_audit actor s dec) d1) ltac:(by split) Hok1)).
    + exact (f_equal approval_stages Et).
    + exact (f_equal vendor_registry Et).
    + exact (f_equal vendor_evidence_references Et).
    + intros s'. by rewrite (rerouted_undecided _ _ s' Href).
  - injection Href as <-. by apply (vendors_ok_same d1).
Qed.

(** ** Registering, retiring and evidence *)

Lemma upsert_vendor_ok now tenant_id name providers models notes by_ref d v d' : vendors_ok d ->
  upsert_vendor now tenant_id name providers models notes by_ref d = Ok (v, d') -> vendors_ok d'.
Proof.
  intros Hok. unfold upsert_vendor. intros (? & _ & Hrun)%rbind_Ok. apply rbind_Ok in Hrun as (? & _ & Hrun).
  apply rbind_Ok in Hrun as (w & _ & Hd). injection Hd as _ <-.
  destruct (lookup_key vd_vendor_id _ _) as [current|] eqn:El.
  - apply lookup_key_Some in El as [Hc Ec]. apply vendors_ok_update; [done|]. intros y Hy Hk.
    apply (proj1 (has_key_true _ _ _)) in Hk. rewrite <-Ec in Hk.
    rewrite (keys_unique_eq vd_vendor_id _ _ _ (vo_vendors d Hok) Hy Hc Hk). split_and!; [done..| |].
    all: cbn; unfold edited_status; destruct (_ && _) eqn:E; [discriminate|done].
  - apply vendors_ok_add; [done|by apply lookup_key_None|done].
Qed.

Lemma retire_vendor_ok now vendor_id tenant_id d v d' : vendors_ok d ->
  retire_vendor now vendor_id tenant_id d = Ok (v, d') -> vendors_ok d'.
Proof.
  intros Hok. unfold retire_vendor. intros (? & _ & Hrun)%rbind_Ok. apply rbind_Ok in Hrun as (? & _ & Hd).
  injection Hd as _ <-. by apply vendors_ok_update.
Qed.

Lemma recertify_due_ok now vendor_id d : vendors_ok d -> vendors_ok (recertify_due now vendor_id d).
Proof. intros Hok. by apply vendors_ok_update. Qed.

Lemma vendors_ok_evidence d t : vendors_ok d -> keys_unique ve_reference_id t ->
  (forall r, r ∈ t -> ve_status r = "expired" ->
     exists r0, r0 ∈ vendor_evidence_references d /\ ve_vendor_id r0 = ve_vendor_id r /\ ve_status r0 = "expired") ->
  vendors_ok (set_vendor_evidence_references t d).
Proof.
  intros Hok Hu Ht. apply (keep_edited d _ (fun v => v) Hok); [done|done|by rewrite map_id|done|].
  intros v Hv. apply edited_refl. intros Ha. destruct (vo_approved d Hok v Hv Ha) as (_ & _ & Hl).
  intros r Hr Ev Es. destruct (Ht r Hr Es) as (r0 & Hr0 & E0 & S0). apply (Hl r0 Hr0); congruence.
Qed.

Lemma record_evidence_ok now today tenant_id vendor_id kind name ident issued expires hash by_ref d r d' : vendors_ok d ->
  record_evidence_reference now today tenant_id vendor_id kind name ident issued expires hash by_ref d = Ok (r, d') ->
  vendors_ok d'.
Proof.
  intros Hok Hrun. unfold record_evidence_reference in Hrun. do 10 apply rbind_Ok in Hrun as (? & _ & Hrun).
  injection Hrun as _ <-. apply vendors_ok_evidence; [done| |].
  { apply keys_unique_upsert; [done|]. apply keys_unique_update; [done|]. by apply vo_references. }
  set (t := update _ _ _). assert (forall y, y ∈ t -> ve_status y = "expired" -> exists r0,
    r0 ∈ vendor_evidence_references d /\ ve_vendor_id r0 = ve_vendor_id y /\ ve_status r0 = "expired") as Ht.
  { intros y [(y0 & _ & _ & ->)|[Hy _]]%elem_of_update; [done|by exists y]. }
  intros y. unfold upsert. destruct (lookup_key _ _ t).
  - intros [(y0 & _ & _ & ->)|[Hy _]]%elem_of_update; [done|by apply Ht].
  - intros [Hy| ->%list_elem_of_singleton]%elem_of_app; [by apply Ht|done].
Qed.

Lemma withdraw_evidence_ok now reference_id tenant_id d r d' : vendors_ok d ->
  withdraw_evidence_reference now reference_id tenant_id d = Ok (r, d') -> vendors_ok d'.
Proof.
  intros Hok. unfold withdraw_evidence_reference. destruct (select1 _ _); [|done].
  intros (x & _ & Hd)%rbind_Ok. injection Hd as _ <-. apply vendors_ok_evidence; [done| |].
  - apply keys_unique_update; [done|]. by apply vo_references.
  - intros y [(y0 & _ & _ & ->)|[Hy _]]%elem_of_update; [done|by exists y].
Qed.

(** ** The maintenance passes *)

Lemma age_vendors_ok now now_dt d n d' : vendors_ok d -> age_vendor_recertifications now now_dt d = Ok (n, d') -> vendors_ok d'.
Proof.
  intros Hok. unfold age_vendor_recertifications. intros ([due d1] & Hloop & Hd)%rbind_Ok. injection Hd as _ <-.
  assert (vendors_ok d1) as Hok1.
  { refine (rfold_ind (fun a => vendors_ok a.2) _ _ _ _ Hloop Hok _). intros [due0 d0] v a2 _ Hstep Hok0. cbn [snd] in *.
    unfold age_vendor in Hstep. apply rbind_Ok in Hstep as (policy & _ & Hstep).
    destruct (negb _); [by injection Hstep as <-|]. destruct (_parse_db_ts _); [|by injection Hstep as <-].
    apply rbind_Ok in Hstep as (days & _ & Hstep). apply rbind_Ok in Hstep as (edge & _ & Hstep).
    destruct (_ <=? _)%Z; [by injection Hstep as <-|]. destruct (_ =? 0); injection Hstep as <-; [done|].
    eapply vendors_ok_same; [apply emit_same|]. by apply recertify_due_ok. }
  clear Hloop. revert d1 Hok1. induction due as [|v due IH]; intros d1 Hok1; [done|]. apply IH. by apply (vendors_ok_same d1).
Qed.

(** the references of a pass belong to the vendors they were read with *)
Definition owned (l : list (evidence_reference * vendor)) (d : db) : Prop :=
  forall row r, row ∈ l -> r ∈ vendor_evidence_references d -> ve_reference_id r = ve_reference_id row.1 ->
  ve_vendor_id r = ve_vendor_id row.1.

Lemma owned_update l d p f : (forall r, ve_reference_id (f r) = ve_reference_id r /\ ve_vendor_id (f r) = ve_vendor_id r) ->
  owned l d -> owned l (set_vendor_evidence_references (update p f (vendor_evidence_references d)) d).
Proof.
  intros Hf Ho row r Hrow [(r0 & Hr0 & _ & ->)|[Hr _]]%elem_of_update; [|by apply Ho].
  destruct (Hf r0) as [-> ->]. by apply Ho.
Qed.

Lemma age_reference_ok now today l row a d a' d' : row ∈ l -> owned l d -> vendors_ok d ->
  age_reference now today (a, d) row = Ok (a', d') -> vendors_ok d' /\ owned l d'.
Proof.
  intros Hrow Ho Hok. destruct row as [r v]. unfold age_reference. destruct (date_fromisoformat _) as [expires|]; [|done].
  destruct (expires <? today)%Z.
  - intros [= _ <-]. split; [|by apply owned_update].
    apply (keep_edited d _ (fun w => if approved_vendor (ve_vendor_id r) w then vd_with_updated_at now (vd_with_status "recertify_due" w) else w));
      [done..| |].
    { apply keys_unique_update; [done|]. by apply (vo_references d). }
    intros w Hw. destruct (approved_vendor (ve_vendor_id r) w) eqn:Ea; [by split|].
    apply edited_refl. intros Hst. assert (vd_vendor_id w <> ve_vendor_id r) as Hne.
    { intros E. unfold approved_vendor in Ea. by rewrite E, Hst, !String.eqb_refl in Ea. }
    intros x [(x0 & Hx0 & Hp & ->)|[Hx _]]%elem_of_update Ex;
      [|by destruct (vo_approved d Hok w Hw Hst) as (_ & _ & Hl); apply Hl].
    apply andb_prop in Hp as [Hp%String.eqb_eq _]. cbn in Ex. destruct Hne. rewrite <-Ex. exact (Ho (r, v) x0 Hrow Hx0 Hp).
  - destruct (ve_expiry_notice_sent_at r); intros [= _ <-]; [done|]. split; [|by apply owned_update].
    eapply vendors_ok_same; [apply emit_same|]. apply vendors_ok_evidence; [done| |].
    { apply keys_unique_update; [done|]. by apply (vo_references d). }
    intros x [(x0 & Hx0 & _ & ->)|[Hx _]]%elem_of_update Ex; [by exists x0|by exists x].
Qed.

Lemma vendor_finding_same now t d u : same_vendor_tables d (write_vendor_finding now t d u).
Proof.
  unfold write_vendor_finding. destruct u as [[[[p e] a] prov] m]. destruct (vendor_issue _ _ _) as [[suffix summary]|]; [|done].
  unfold write_rule_finding. by repeat case_match.
Qed.

Lemma foldl_same {A} (f : db -> A -> db) l d : (forall d x, same_vendor_tables d (f d x)) -> same_vendor_tables d (foldl f d l).
Proof. intros Hf. revert d; induction l as [|x l IH]; intros d; [done|]. etrans; [apply Hf|apply IH]. Qed.

Lemma age_evidence_ok now today d x d' : vendors_ok d -> age_evidence_references now today d = Ok (x, d') -> vendors_ok d'.
Proof.
  intros Hok. unfold age_evidence_references. intros (? & _ & Hrun)%rbind_Ok. apply rbind_Ok in Hrun as ([a d1] & Hloop & Hd).
  injection Hd as _ <-. set (l := expiring _ d) in Hloop.
  assert (owned l d) as Ho.
  { intros row r Hrow Hr E. apply elem_of_order_by, list_elem_of_In, in_concat in Hrow as (rs & Hrs & Hrow).
    apply in_map_iff in Hrs as (r0 & <- & Hr0%list_elem_of_In). apply in_map_iff in Hrow as (w & <- & _). cbn in E |- *.
    apply elem_of_select in Hr0 as [_ Hr0]. by rewrite (keys_unique_eq ve_reference_id _ _ _ (vo_references d Hok) Hr Hr0 E). }
  assert (vendors_ok d1 /\ owned l d1) as [Hok1 _].
  { refine (rfold_ind (fun a => vendors_ok a.2 /\ owned l a.2) _ _ _ _ Hloop (conj Hok Ho) _).
    intros [a0 d0] row [a2 d2] Hrow Hstep [Hok0 Ho0]. by apply (age_reference_ok _ _ _ _ _ _ _ _ Hrow Ho0 Hok0 Hstep). }
  eapply vendors_ok_same; [|exact Hok1].
  assert (same_vendor_tables d1 (foldl audit_flipped (foldl audit_expired d1 (lapsed_references a)) (flipped_rows a))) as Hs
    by (etrans; [apply (foldl_same audit_expired); by split|apply (foldl_same audit_flipped); by split]).
  destruct (flipped_rows a) as [|row rows]; [exact Hs|]. etrans; [exact Hs|].
  unfold refresh_vendor_posture. apply foldl_same. intros d2 t. apply foldl_same. intros d3 u. apply vendor_finding_same.
Qed.

(** ** Writes elsewhere *)

(** [materialize_stages] for an intake review leaves the vendors alone *)
Lemma materialize_elsewhere now sj stages mode pt pv d b d' : sj_type sj = "review_task" -> keyed d ->
  materialize_stages now sj stages mode pt pv d = Ok (b, d') -> elsewhere d d'.
Proof.
  intros Hty Hk. unfold materialize_stages. destruct (select1 _ _); [intros [= _ <-]; by split_and!|].
  intros ([z t] & Hr & Hd)%rbind_Ok. apply Ok_inj in Hd. injection Hd as _ <-. cbn [snd].
  set (I := fun a : Z * list approval_stage => keyed (set_approval_stages a.2 d) /\
    vendor_stages (set_approval_stages a.2 d) = vendor_stages d).
  assert (I (z, t)) as [? ?]; [|by split_and!]. refine (rfold_ind I _ _ stages (z, t) Hr _ _).
  { split; [exact Hk|done]. }
  clear z t Hr. intros [z t] v [z' t'] _ Hins [[Hu Hids] Hv]. unfold insert_stage in Hins.
  apply rbind_Ok in Hins as (role & _ & Hins). apply rbind_Ok in Hins as (label & _ & Hins). apply Ok_inj in Hins.
  injection Hins as _ <-. unfold I, keyed, vendor_stages in *. cbn [snd approval_stages set_approval_stages] in *.
  split; [split|].
  - by apply keys_unique_insert_or_ignore.
  - intros s [Hs| ->]%elem_of_insert_or_ignore; [by apply Hids|]. unfold key_of. cbn. rewrite Hty. split; [by left|done].
  - unfold insert_or_ignore. destruct (lookup_key _ _ _); [done|]. rewrite select_app, Hv, select_cons. cbn.
    by rewrite Hty, app_nil_r.
Qed.

Lemma gates_elsewhere now now_dt scopes d d' : refresh_deployment_gates now now_dt scopes d = Ok d' ->
  approval_stages d' = approval_stages d /\ vendor_registry d' = vendor_registry d /\
  vendor_evidence_references d' = vendor_evidence_references d.
Proof.
  intros Hd. refine (rfold_ind (fun x => approval_stages x = approval_stages d /\ vendor_registry x = vendor_registry d /\
    vendor_evidence_references x = vendor_evidence_references d) _ d _ d' Hd _ _); [done|].
  intros d1 v d2 _ Hd2 Hd1. destruct (in_wanted _ _); [|by injection Hd2 as <-].
  unfold upsert_deployment_gate in Hd2. cbv zeta in Hd2. repeat (apply rbind_Ok in Hd2 as (? & _ & Hd2)).
  apply Ok_inj in Hd2. by subst d2.
Qed.

Lemma status_elsewhere now ty id dec d : ty <> "vendor_review" ->
  vendor_registry (apply_decision_status now ty id dec d) = vendor_registry d /\
  vendor_evidence_references (apply_decision_status now ty id dec d) = vendor_evidence_references d.
Proof.
  intros Hty. unfold apply_decision_status. destruct (status_by_decision dec); [|done].
  destruct (String.eqb ty "review_task"); [by rewrite decide_review_task_vendors, decide_review_task_references|].
  destruct (String.eqb ty "risk_finding"); [done|]. destruct (String.eqb ty "change_event"); [done|].
  by destruct (String.eqb ty "control_assessment").
Qed.

(** the stage a direct decision settles is one of its review task *)
Lemma sync_elsewhere now ty id dec actor did d d' : ty <> "approval_stage" -> keyed d ->
  sync_decision_to_stages now ty id dec actor did d = Ok d' ->
  keyed d' /\ vendor_stages d' = vendor_stages d /\ vendor_registry d' = vendor_registry d /\
  vendor_evidence_references d' = vendor_evidence_references d.
Proof.
  intros Hty Hk. unfold sync_decision_to_stages. rewrite (proj2 (String.eqb_neq _ _) Hty).
  destruct (negb _); [by intros [= <-]|]. destruct (String.eqb ty "review_task"); [|by intros [= <-]].
  destruct (list_subject_stages d "review_task" id (Some 0%Z)) as [|s [|]] eqn:El; [by intros [= <-]| |by intros [= <-]].
  destruct (String.eqb (st_status s) "open"); [|by intros [= <-]]. intros Hd%Ok_inj. subst d'.
  assert (s ∈ list_subject_stages d "review_task" id (Some 0%Z)) as Hs by (rewrite El; by left).
  unfold list_subject_stages in Hs. apply elem_of_order_by, elem_of_select in Hs as [Hs Hin]. unfold of_round in Hs.
  apply andb_true_iff in Hs as [[Htype%String.eqb_eq _]%andb_true_iff _]. destruct Hk as [Hu Hids].
  split; [split|split; [|done]].
  - by apply keys_unique_update.
  - intros r [(x & Hx & _ & ->)|[Hr _]]%elem_of_update; [by apply (Hids x)|by apply Hids].
  - unfold vendor_stages. cbn [approval_stages set_approval_stages]. apply select_update_other. intros x Hx Hp.
    unfold open_stage in Hp. apply andb_true_iff in Hp as [Hp%String.eqb_eq _].
    rewrite (keys_unique_eq st_stage_id _ x s Hu Hx Hin Hp). cbn. by rewrite Htype.
Qed.

Lemma direct_elsewhere now now_dt ty id dec rationale actor d row d' : keyed d ->
  create_decision now now_dt ty id dec rationale actor d = Ok (row, d') -> elsewhere d d'.
Proof.
  intros Hk. unfold create_decision. intros (? & _ & Hrun)%rbind_Ok.
  apply rbind_Ok in Hrun as (? & Hty%throw_if_Ok & Hrun). apply rbind_Ok in Hrun as (target & Hx & Hrun).
  assert (ty <> "approval_stage") as Hstage by (intros ->; apply mem_false in Hty; set_solver).
  assert (ty <> "vendor_review") as Hvendor by (by intros ->).
  do 3 apply rbind_Ok in Hrun as (? & _ & Hrun). apply rbind_Ok in Hrun as ([row2 d2] & Hrec & Hrun).
  apply rbind_Ok in Hrun as (d3 & Hg & Hrun). apply Ok_inj in Hrun. injection Hrun as _ <-.
  assert (keyed d2 /\ vendor_stages d2 = vendor_stages d /\ vendor_registry d2 = vendor_registry d /\
    vendor_evidence_references d2 = vendor_evidence_references d) as (Hk2 & Es & Ev & Er).
  { unfold record_decision in Hrec. apply rbind_Ok in Hrec as (tg & _ & Hrec).
    destruct (lookup_key _ _ _); [apply Ok_inj in Hrec; by injection Hrec as _ <-|].
    set (d0 := set_governance_decisions _ d) in Hrec. apply rbind_Ok in Hrec as (d4 & Hsync & Hrec).
    apply Ok_inj in Hrec. injection Hrec as _ <-. pose proof (apply_decision_status_stages now ty id dec d0) as Hst.
    destruct (status_elsewhere now ty id dec d0 Hvendor) as [Ev0 Er0].
    destruct (sync_elsewhere _ _ _ _ _ _ _ _ Hstage ltac:(unfold keyed; by rewrite Hst) Hsync) as (? & Es & Ev & Er).
    split; [done|]. rewrite Es, Ev, Er, Ev0, Er0. unfold vendor_stages. by rewrite Hst. }
  assert (approval_stages d3 = approval_stages d2 /\ vendor_registry d3 = vendor_registry d2 /\
    vendor_evidence_references d3 = vendor_evidence_references d2) as (Es3 & Ev3 & Er3).
  { destruct (_ && _); [by apply gates_elsewhere in Hg|by injection Hg as <-]. }
  split_and!; [unfold vendor_stages in *; congruence|congruence..|]. unfold keyed. by rewrite Es3.
Qed.

(** ** The registry over time *)

(** a request that touches the registry, a maintenance pass, the decision of any
    stage, an intake review that starts its stages, a direct decision on any
    target, or any other write that happens elsewhere.  When a vendor's review
    starts, no two of the texts hashed into the identifiers of the stages on
    record and of the new round share a digest. *)
Inductive vendor_step (d d' : db) : Prop :=
| step_create now name providers models notes actor w :
    create_vendor now name providers models notes actor d = Ok (w, d') -> vendor_step d d'
| step_submit now vendor_id actor w : no_collision (stage_keys d ++ next_round_keys d vendor_id) ->
    submit_vendor_for_review now vendor_id actor d = Ok (w, d') -> vendor_step d d'
| step_retire now vendor_id actor w : retire_vendor_route now vendor_id actor d = Ok (w, d') -> vendor_step d d'
| step_record now today vendor_id kind name ident issued expires hash actor r :
    record_vendor_evidence now today vendor_id kind name ident issued expires hash actor d = Ok (r, d') -> vendor_step d d'
| step_withdraw now vendor_id reference_id actor r :
    withdraw_vendor_evidence now vendor_id reference_id actor d = Ok (r, d') -> vendor_step d d'
| step_age_vendors now now_dt n : age_vendor_recertifications now now_dt d = Ok (n, d') -> vendor_step d d'
| step_age_evidence now today n : age_evidence_references now today d = Ok (n, d') -> vendor_step d d'
| step_decide now now_dt stage_id dec rationale actor resp :
    decide_approval_stage now now_dt stage_id dec rationale actor d = Ok (resp, d') -> vendor_step d d'
| step_intake now sj stages mode pt pv b : sj_type sj = "review_task" ->
    materialize_stages now sj stages mode pt pv d = Ok (b, d') -> vendor_step d d'
| step_direct now now_dt ty id dec rationale actor row :
    create_decision now now_dt ty id dec rationale actor d = Ok (row, d') -> vendor_step d d'
| step_elsewhere : elsewhere d d' -> vendor_step d d'.

Lemma value_error_elim {A} (c : res A) x : value_error_400 c = Ok x -> c = Ok x.
Proof. by destruct c as [|[]]. Qed.
Lemma not_found_elim {A} (c : res A) x : not_found_404 c = Ok x -> c = Ok x.
Proof. by destruct c as [|[]]. Qed.

Lemma vendor_step_ok d d' : vendor_step d d' -> vendors_ok d -> vendors_ok d'.
Proof.
  intros Hstep Hok. assert (forall actor action t ty id detail x, vendors_ok x -> vendors_ok (vendor_audit actor action t ty id detail x)) as Haudit
    by (intros actor action t ty j detail x; by apply (vendors_ok_same x)).
  destruct Hstep as [? ? ? ? ? ? ? Hrun|? ? ? ? Hinj Hrun|? ? ? ? Hrun|? ? ? ? ? ? ? ? ? ? ? Hrun|? ? ? ? ? Hrun|? ? ? Hrun|? ? ? Hrun|
    ? ? ? ? ? ? ? Hrun|? ? ? ? ? ? ? Hty Hrun|? ? ? ? ? ? ? ? Hrun|Helse].
  - apply rbind_Ok in Hrun as (t & _ & ([v d1] & Hop%value_error_elim & Hd)%rbind_Ok). injection Hd as _ <-.
    apply Haudit. by eapply upsert_vendor_ok.
  - apply rbind_Ok in Hrun as (t & _ & ([v d1] & Hop%value_error_elim%not_found_elim & Hd)%rbind_Ok). injection Hd as _ <-.
    apply Haudit. by eapply submit_ok.
  - apply rbind_Ok in Hrun as (t & _ & (? & _ & (? & _ & ([v d1] & Hop & Hd)%rbind_Ok)%rbind_Ok)%rbind_Ok). injection Hd as _ <-.
    apply Haudit. by eapply retire_vendor_ok.
  - apply rbind_Ok in Hrun as (t & _ & ([v d1] & Hop%not_found_elim & Hd)%rbind_Ok). injection Hd as _ <-.
    apply Haudit. by eapply record_evidence_ok.
  - apply rbind_Ok in Hrun as (t & _ & ([v d1] & Hop%not_found_elim & (? & _ & Hd)%rbind_Ok)%rbind_Ok). injection Hd as _ <-.
    apply Haudit. by eapply withdraw_evidence_ok.
  - by eapply age_vendors_ok.
  - by eapply age_evidence_ok.
  - by eapply decide_ok.
  - apply (vendors_ok_elsewhere d); [eapply materialize_elsewhere, Hrun; [done|by apply vendors_keyed]|done].
  - apply (vendors_ok_elsewhere d); [eapply direct_elsewhere, Hrun; by apply vendors_keyed|done].
  - by apply (vendors_ok_elsewhere d).
Qed.

Lemma vendors_ok_start d : approval_stages d = [] -> vendor_registry d = [] -> vendor_evidence_references d = [] -> vendors_ok d.
Proof.
  intros Es Ev Er. constructor; [constructor|..]; rewrite ?Es, ?Ev, ?Er; try (by apply NoDup_nil_2);
    intros; by match goal with Hx : _ ∈ [] |- _ => apply elem_of_nil in Hx end.
Qed.

(** C25. From an organization without vendors, whatever follows - requests on
    the registry and its evidence, maintenance passes, decisions of any stage,
    intake reviews that start their stages, direct decisions, and other writes
    that leave the registry, its evidence and the vendors' stages alone - an
    approved vendor rests on a review of its current round that is complete: it
    has stages, each is approved by somebody, no two by the same person and none
    by the vendor's submitter; and none of the vendor's evidence references is
    marked expired, as the ageing pass marks them (a reference past its date and
    not yet aged may stand).  The identifiers of the stages of a review that
    starts are taken not to collide. *)
Theorem vendor_approval_sound d d' v :
  approval_stages d = [] -> vendor_registry d = [] -> vendor_evidence_references d = [] ->
  rtc vendor_step d d' -> v ∈ vendor_registry d' -> vd_status v = "approved" -> approval_stands d' v.
Proof.
  intros Es Ev Er Hsteps. apply approved_stands.
  assert (vendors_ok d) as Hok by (by apply vendors_ok_start). clear Es Ev Er.
  induction Hsteps as [d|d d1 d2 Hstep _ IH]; [done|]. apply IH. by eapply vendor_step_ok.
Qed.
End Rules.

(** ** A vendor is reviewed *)

Module Demo.
Import PolicyGuarantees.Demo.

Definition ann := Rbac.Demo.actor "ann".
Definition bob := Rbac.Demo.actor "bob".
Definition run {A} (r : res (A * db)) (otherwise : db) : db := match r with Ok (_, d) => d | Raise _ => otherwise end.

Definition vendor_id : string := vendor_key "acme" "OpenAI".
Definition created : db :=
  run (create_vendor "2026-03-01 09:00:00" "OpenAI" [" OpenAI "] (Some ["gpt-4"]) None ann installed) installed.
Definition submitted : db := run (submit_vendor_for_review "2026-03-01 10:00:00" vendor_id ann created) created.
(** the surface is edited while the review waits *)
Definition edited_vendor : db :=
  run (create_vendor "2026-03-01 11:00:00" "OpenAI" ["openai"; "shadow-ai"] None None ann submitted) submitted.
Definition later : Z := match fromisoformat "2026-03-01T12:00:00+00:00" with Some t => instant t | None => 0 end.
Definition stage_id : string := _stage_id "vendor_review" vendor_id 1 0.
Definition approve (d : db) := decide_approval_stage "2026-03-01 12:00:00" later stage_id "approve" "BAA on file" bob d.
Definition approved : db := run (approve edited_vendor) edited_vendor.

Definition the_vendor (d : db) : vendor :=
  default (mk_vendor "" "" "" [] "" None None 0 "" None "" "" None) (lookup_key vd_vendor_id vendor_id (vendor_registry d)).

Lemma creates : exists w, create_vendor "2026-03-01 09:00:00" "OpenAI" [" OpenAI "] (Some ["gpt-4"]) None ann installed = Ok (w, created).
Proof. eexists. vm_compute. reflexivity. Qed.
Lemma submits : exists w, submit_vendor_for_review "2026-03-01 10:00:00" vendor_id ann created = Ok (w, submitted).
Proof. eexists. vm_compute. reflexivity. Qed.
Lemma edits : exists w, create_vendor "2026-03-01 11:00:00" "OpenAI" ["openai"; "shadow-ai"] None None ann submitted = Ok (w, edited_vendor).
Proof. eexists. vm_compute. reflexivity. Qed.
Lemma edit_is_approved : exists resp, approve edited_vendor = Ok (resp, approved).
Proof. eexists. vm_compute. reflexivity. Qed.

Lemma steps : rtc vendor_step installed approved.
Proof.
  destruct creates as [w1 H1], submits as [w2 H2], edits as [w3 H3], edit_is_approved as [w4 H4].
  apply (rtc_l _ _ _ _ (step_create _ _ _ _ _ _ _ _ _ H1)), (rtc_l _ _ _ _ (step_submit _ _ _ _ _ _ (fun s t _ _ E => E) H2)).
  apply (rtc_l _ _ _ _ (step_create _ _ _ _ _ _ _ _ _ H3)), rtc_once. exact (step_decide _ _ _ _ _ _ _ _ _ H4).
Qed.

(** the approval covers a provider its review never saw *)
Example edited_during_review :
  (vd_status (the_vendor submitted), vd_providers (the_vendor submitted)) = ("under_review", ["openai"]) /\
  (vd_status (the_vendor approved), vd_providers (the_vendor approved)) = ("approved", ["openai"; "shadow-ai"]).
Proof. vm_compute. by split. Qed.
End Demo.
Import PolicyGuarantees.Demo.

Lemma vendor_approval_sound_witness : approval_stands Demo.approved (Demo.the_vendor Demo.approved).
Proof.
  apply (vendor_approval_sound installed Demo.approved (Demo.the_vendor Demo.approved)).
  - vm_compute. reflexivity.
  - vm_compute. reflexivity.
  - vm_compute. reflexivity.
  - exact Demo.steps.
  - vm_compute. left.
  - vm_compute. reflexivity.
Defined.
