(* ===== verification/Intake.v ===== *)
(** * Intake of AI use cases (storage/intake.py, api/intake.py,
    storage/policy_engine.py)

    A member submits a use case with the fields the policy declares; its risk
    tier is computed, the row is written and a review starts under the policy in
    force.  An approved use case is asked to recertify when its tier's period has
    passed, and a lifecycle manager recertifies or retires it. *)

From stdpp Require Import base list strings option pretty sets gmap.
From Stdlib Require Import ZArith Lia Ascii.
From S2P Require Import Prelude Py Dates Sql Schema RiskTier PolicyDoc Rbac PolicyStore Queue Workflow Stages Decisions.
From S2P Require Import Vendors.

Open Scope nat_scope.

Section Intake.
Context `{PyHost} `{Digest}.

(** ** Custom fields *)

(** [field["key"]] of a declaration; a validated one is a string *)
Definition declared_key (field : pyval) : res string :=
  match field with
  | PDict d => match assoc "key" d with
               | Some (PStr key) => Ok key
               | Some _ => Raise TypeError
               | None => Raise (KeyError "key")
               end
  | _ => Raise TypeError
  end.

(** [{field["key"]: field for field in fields}] *)
Definition declare (declared : list (string * pyval)) (field : pyval) : res (list (string * pyval)) :=
  let! key := declared_key field in Ok (item_set key field declared).

(** [risk_tier in (field.get("required_tiers") or [])] *)
Definition required_in (field : pyval) (risk_tier : string) : res bool :=
  let! tiers := py_get field "required_tiers" in
  let! tiers := py_iter (py_or tiers (PList [])) in
  Ok (py_in (PStr risk_tier) tiers).

Definition blank (value : pyval) : bool :=
  match value with PNone => true | PStr s => is_empty s | _ => false end.

(** one declared field of the loop; [None] leaves the field out *)
Definition clean_field (values : list (string * pyval)) (risk_tier key : string) (field : pyval) : res (option pyval) :=
  let value := default PNone (assoc key values) in
  let! required := required_in field risk_tier in
  if blank value then
    if required : bool then
      let! label := py_get field "label" in
      Raise (ValueError ("intake field '" +:+ py_str (py_or label (PStr key)) +:+ "' is required for risk tier '"
                         +:+ risk_tier +:+ "'"))
    else Ok None
  else
    let! field_type := py_get_default field "type" (PStr "string") in
    if py_eqb field_type (PStr "string") then
      match value with
      | PStr s =>
          let! m := py_get field "max_length" in
          let! max_length := py_int (py_or m (PInt 500)) in
          if (max_length <? Z.of_nat (String.length s))%Z
          then Raise (ValueError ("intake field '" +:+ key +:+ "' exceeds its maximum length of "
                                  +:+ pretty max_length +:+ " characters"))
          else Ok (Some value)
      | _ => Raise (ValueError ("intake field '" +:+ key +:+ "' must be a string"))
      end
    else if py_eqb field_type (PStr "number") then
      match value with
      | PInt _ | PFloat _ => Ok (Some value)
      | _ => Raise (ValueError ("intake field '" +:+ key +:+ "' must be a number"))
      end
    else if py_eqb field_type (PStr "boolean") then
      match value with
      | PBool _ => Ok (Some value)
      | _ => Raise (ValueError ("intake field '" +:+ key +:+ "' must be a boolean"))
      end
    else Ok None.

Definition clean_step (values : list (string * pyval)) (risk_tier : string) (cleaned : list (string * pyval))
    (entry : string * pyval) : res (list (string * pyval)) :=
  let! v := clean_field values risk_tier entry.1 entry.2 in
  Ok match v with Some v => item_set entry.1 v cleaned | None => cleaned end.

Definition validate_custom_field_values (fields : list pyval) (values : list (string * pyval)) (risk_tier : string)
    : res (list (string * pyval)) :=
  let! declared := rfold declare [] fields in
  match select (fun k => negb (mem k (map fst declared))) (map fst values) with
  | [] => rfold (clean_step values risk_tier) [] declared
  | unknown =>
      Raise (ValueError ("unknown intake fields: " +:+ join ", " (sorted_set unknown)
                         +:+ " (fields are declared in the governance policy)"))
  end.

(** ** Submitting *)

Record intake_record := mk_intake_record {
  ir_application_name : string;
  ir_use_case : string;
  ir_description : string;
  ir_intended_purpose : string;
  ir_data_sensitivity : string;
  ir_autonomy_level : string;
  ir_affects_individuals : bool;
  ir_project : string;
  ir_environment : string;
  ir_custom_fields : list (string * pyval)
}.

Definition intake_key (tenant_id : option string) (r : intake_record) : string :=
  entity_id [Some "ai-use-case"; tenant_id; Some (ir_project r); Some (ir_environment r);
             Some (ir_application_name r); Some (ir_use_case r)].
Definition intake_task_key (intake_id : string) : string :=
  entity_id [Some "review-task"; Some "intake"; Some intake_id].

(** [encode_json(fields) if fields else None] *)
Definition stored_fields (l : list (string * pyval)) : option pyval :=
  match l with [] => None | _ => Some (PDict l) end.

Definition intake_row (now : string) (tenant_id : option string) (submitted_by : string) (r : intake_record) : use_case :=
  mk_use_case (intake_key tenant_id r) tenant_id (ir_project r) (ir_environment r) (ir_application_name r)
    (ir_use_case r) (ir_description r) (ir_intended_purpose r) (ir_data_sensitivity r) (ir_autonomy_level r)
    (ir_affects_individuals r)
    (compute_risk_tier (ir_data_sensitivity r) (ir_autonomy_level r) (ir_affects_individuals r))
    "submitted" submitted_by (stored_fields (ir_custom_fields r)) now now.

(** [ON CONFLICT(intake_id) DO UPDATE SET ...] *)
Definition resubmitted (now : string) (new old : use_case) : use_case :=
  uc_with_updated_at now (uc_with_custom_fields (uc_custom_fields new) (uc_with_risk_tier (uc_risk_tier new)
    (uc_with_affects_individuals (uc_affects_individuals new) (uc_with_autonomy_level (uc_autonomy_level new)
      (uc_with_data_sensitivity (uc_data_sensitivity new) (uc_with_intended_purpose (uc_intended_purpose new)
        (uc_with_description (uc_description new) old))))))).

Definition intake_scope (u : use_case) : scope :=
  mk_scope (uc_tenant_id u) (uc_project u) (uc_environment u) (uc_application_name u).

Definition intake_task (now : string) (u : use_case) : review_task :=
  mk_review_task (intake_task_key (uc_intake_id u)) (uc_intake_id u) (uc_tenant_id u) (uc_project u) (uc_environment u)
    (uc_application_name u) "intake_review" "open" (if String.eqb (uc_risk_tier u) "high" then "high" else "medium")
    ("Intake review: " +:+ uc_application_name u +:+ " / " +:+ uc_use_case_name u)
    ("AI use case submitted with risk tier '" +:+ uc_risk_tier u +:+ "'. Purpose: " +:+ uc_intended_purpose u
     +:+ ". Data sensitivity: " +:+ uc_data_sensitivity u +:+ ". Autonomy: " +:+ uc_autonomy_level u +:+ ".")
    now now None None None "unassigned" None.

Definition _seed_intake_review_task (now : string) (u : use_case) (d : db) : res db :=
  let task := intake_task now u in
  let d := set_review_tasks
    (upsert rt_task_id task
      (fun r => rt_with_updated_at now (rt_with_rationale (rt_rationale task) (rt_with_title (rt_title task)
         (rt_with_priority (rt_priority task) r)))) (review_tasks d)) d in
  materialize_intake_stages now (rt_task_id task) (intake_scope u) (uc_risk_tier u) d.

Definition load_intake (intake_id : string) (d : db) : option use_case := lookup_key uc_intake_id intake_id (ai_use_cases d).

Definition read_intake (intake_id : string) (d : db) : res use_case :=
  match load_intake intake_id d with Some u => Ok u | None => Raise TypeError end.

Definition create_intake (now : string) (tenant_id : option string) (submitted_by : string) (r : intake_record) (d : db)
    : res (use_case * db) :=
  let row := intake_row now tenant_id submitted_by r in
  let d := set_ai_use_cases (upsert uc_intake_id row (resubmitted now row) (ai_use_cases d)) d in
  let! d := _seed_intake_review_task now row d in
  let! u := read_intake (uc_intake_id row) d in
  Ok (u, d).

Definition PERM_INTAKE_SUBMIT : string := "intake.submit".

Definition tenant_only (tenant_id : option string) : target := mk_target tenant_id None None None false.

Definition one_of (field : string) (levels : list string) : exn :=
  HTTPException 400 (field +:+ " must be one of ['" +:+ join "', '" levels +:+ "']").

Definition submit_intake (now : string) (now_dt : Z) (r : intake_record) (actor : ActorContext) (d : db)
    : res (use_case * db) :=
  let! _ := throw_if (negb (mem (ir_data_sensitivity r) DATA_SENSITIVITY_LEVELS))
    (one_of "data_sensitivity" DATA_SENSITIVITY_LEVELS) in
  let! _ := throw_if (negb (mem (ir_autonomy_level r) AUTONOMY_LEVELS)) (one_of "autonomy_level" AUTONOMY_LEVELS) in
  let tenant_id := actor_tenant actor in
  let! _ := or_forbidden (require_permission d actor PERM_INTAKE_SUBMIT (tenant_only tenant_id) false) in
  let risk_tier := compute_risk_tier (ir_data_sensitivity r) (ir_autonomy_level r) (ir_affects_individuals r) in
  let! declared_fields := resolve_intake_fields d tenant_id in
  let! custom_fields := value_error_400 (validate_custom_field_values declared_fields (ir_custom_fields r) risk_tier) in
  let! created := create_intake now tenant_id (user_ref actor)
    (mk_intake_record (ir_application_name r) (ir_use_case r) (ir_description r) (ir_intended_purpose r)
       (ir_data_sensitivity r) (ir_autonomy_level r) (ir_affects_individuals r) (ir_project r) (ir_environment r)
       custom_fields) d in
  let (record, d) := created : use_case * db in
  let! d := refresh_workflow_state now now_dt None d in
  Ok (record, record_audit (mk_audit_entry (user_ref actor) "intake.submit" tenant_id "ai_use_case" (uc_intake_id record)
        (PDict [("risk_tier", PStr (uc_risk_tier record)); ("use_case", PStr (uc_use_case_name record))])) d).

(** ** The lifecycle afterwards *)

Definition close_recertification_tasks (now intake_id : string) (d : db) : db :=
  set_review_tasks
    (update (fun r => String.eqb (rt_task_type r) "recertification_review" && String.eqb (rt_change_id r) intake_id &&
                      String.eqb (rt_status r) "open")
      (fun r => rt_with_updated_at now (rt_with_status "closed" r)) (review_tasks d)) d.

Definition set_intake_status (now intake_id status : string) (d : db) : res (use_case * db) :=
  match load_intake intake_id d with
  | None => Raise (DomainError "intake record not found")
  | Some _ =>
      let d := set_ai_use_cases (update_key uc_intake_id intake_id
        (fun u => uc_with_updated_at now (uc_with_status status u)) (ai_use_cases d)) d in
      let d := if mem status ["recertified"; "retired"] then close_recertification_tasks now intake_id d else d in
      let! u := read_intake intake_id d in
      Ok (u, d)
  end.

Definition _lifecycle_transition (now intake_id rationale : string) (actor : ActorContext) (status action : string) (d : db)
    : res (use_case * db) :=
  match load_intake intake_id d with
  | None => Raise (HTTPException 404 "Intake record not found")
  | Some record =>
      let! _ := or_forbidden (require_permission d actor PERM_LIFECYCLE_MANAGE (tenant_only (uc_tenant_id record)) false) in
      let! r := set_intake_status now intake_id status d in
      let (updated, d) := r : use_case * db in
      Ok (updated, record_audit (mk_audit_entry (user_ref actor) action (uc_tenant_id record) "ai_use_case" intake_id
            (PDict [("rationale", PStr rationale); ("status", PStr status)])) d)
  end.

Definition recertify_intake (now intake_id rationale : string) (actor : ActorContext) (d : db) : res (use_case * db) :=
  _lifecycle_transition now intake_id rationale actor "recertified" "lifecycle.recertify" d.
Definition retire_intake (now intake_id rationale : string) (actor : ActorContext) (d : db) : res (use_case * db) :=
  _lifecycle_transition now intake_id rationale actor "retired" "lifecycle.retire" d.

(** [scope_clause(tenant_id, project, environment)] with empty filters left out *)
Definition filtered (f : option string) (v : option string) : bool :=
  if truthy_str f then sql_eq v f else true.
Definition list_intake (tenant_id project environment : option string) (d : db) : list use_case :=
  order_by (fun a b => negb (str_ltb (uc_updated_at a) (uc_updated_at b)))
    (select (fun u => filtered tenant_id (uc_tenant_id u) && filtered project (Some (uc_project u)) &&
                      filtered environment (Some (uc_environment u))) (ai_use_cases d)).

(** ** Recertification *)

Definition certified (u : use_case) : bool := mem (uc_status u) ["approved"; "recertified"].

Definition recertification_key (u : use_case) : string :=
  entity_id [Some "review-task"; Some "recertification"; Some (uc_intake_id u); Some (uc_updated_at u)].

Definition recertification_task (now : string) (u : use_case) (days : Z) (policy : stage_policy) : review_task :=
  mk_review_task (recertification_key u) (uc_intake_id u) (uc_tenant_id u) (uc_project u) (uc_environment u)
    (uc_application_name u) "recertification_review" "open" "medium"
    ("Recertification due: " +:+ uc_application_name u +:+ " / " +:+ uc_use_case_name u)
    ("Risk tier '" +:+ uc_risk_tier u +:+ "' requires recertification every " +:+ pretty days
     +:+ " days under governance policy "
     +:+ (if is_empty (sp_policy_tenant policy) then "default" else sp_policy_tenant policy) +:+ "/v"
     +:+ pretty (sp_policy_version policy) +:+ ". Last certified " +:+ uc_updated_at u +:+ ".")
    now now None None None "unassigned" None.

(** one certified use case of the loop *)
Definition age_use_case (now : string) (now_dt : Z) (acc : nat * db) (u : use_case) : res (nat * db) :=
  let (opened, d) := acc in
  let! policy := resolve_tier_policy d (uc_tenant_id u)
    (if is_empty (uc_risk_tier u) then "limited" else uc_risk_tier u) in
  if negb (truthy (sp_recertify_days policy)) then Ok acc
  else match _parse_db_ts (Some (uc_updated_at u)) with
  | None => Ok acc
  | Some anchor =>
      let! days := py_int (sp_recertify_days policy) in
      let! edge := add_days anchor days in
      if (now_dt <=? instant edge)%Z then Ok acc
      else
        let task := recertification_task now u days policy in
        match lookup_key rt_task_id (rt_task_id task) (review_tasks d) with
        | Some _ => Ok acc
        | None => Ok (S opened, set_review_tasks (insert_or_ignore rt_task_id task (review_tasks d)) d)
        end
  end.

Definition age_recertifications (now : string) (now_dt : Z) (d : db) : res (nat * db) :=
  rfold (age_use_case now now_dt) (0, d) (select certified (ai_use_cases d)).
End Intake.
