(* ===== verification/IntakeRules.v ===== *)
(** * Submitting and recertifying a use case

    What a submission may carry, what a resubmission leaves standing, and when a
    certified use case is asked again. *)

From stdpp Require Import base list strings option pretty sets gmap.
From Stdlib Require Import ZArith Lia Ascii.
From S2P Require Import Prelude Py Dates Sql Schema RiskTier PolicyDoc PolicyValid PolicyRead PolicyInForce Rbac.
From S2P Require Import PolicyStore PolicyGuarantees Queue QueueRules Workflow Stages StageRules StageStart Decisions.
From S2P Require Import Vendors Intake.

Open Scope nat_scope.

Section Fields.
Context `{PyHost} `{Digest}.

(** ** The fields a policy declares *)

Definition field_type (f : pyval) : string :=
  match f with PDict d => match field d "type" (PStr "string") with PStr t => t | _ => "" end | _ => "" end.
Definition field_max (f : pyval) : Z :=
  match f with PDict d => match field d "max_length" PNone with PInt m => m | _ => 500%Z end | _ => 500%Z end.
Definition field_tiers (f : pyval) : list pyval :=
  match f with PDict d => match field d "required_tiers" (PList []) with PList l => l | _ => [] end | _ => [] end.

(** a value of the declared type, within the declared length *)
Definition typed (f v : pyval) : Prop :=
  match v with
  | PStr s => field_type f = "string" /\ (Z.of_nat (String.length s) <= field_max f)%Z
  | PInt _ | PFloat _ => field_type f = "number"
  | PBool _ => field_type f = "boolean"
  | _ => False
  end.

Definition submitted_value (values : list (string * pyval)) (key : string) : pyval := default PNone (assoc key values).

(** what a submission must satisfy *)
Definition conforms (declared : list pyval) (values : list (string * pyval)) (risk_tier : string) : Prop :=
  (forall k, k ∈ map fst values -> exists f, f ∈ declared /\ field_key f = PStr k) /\
  forall f k, f ∈ declared -> field_key f = PStr k ->
    if blank (submitted_value values k) then PStr risk_tier ∉ field_tiers f else typed f (submitted_value values k).

Lemma py_in_strs_spec tier l : py_in (PStr tier) (map PStr l) = true <-> tier ∈ l.
Proof.
  unfold py_in. rewrite existsb_exists. split.
  - intros (x & Hx%list_elem_of_In & E). apply list_elem_of_fmap in Hx as (t & -> & Ht). by apply String.eqb_eq in E as ->.
  - intros Ht. exists (PStr tier). split; [by apply list_elem_of_In, list_elem_of_fmap_2|]. apply String.eqb_refl.
Qed.

Lemma declared_key_valid f : valid_field f -> exists k, declared_key f = Ok k /\ field_key f = PStr k.
Proof.
  intros (d & key & -> & _ & Hk & _). exists key. unfold declared_key, field_key, field. by rewrite Hk.
Qed.

Lemma required_in_valid f tier : valid_field f -> exists b, required_in f tier = Ok b /\ (b = true <-> PStr tier ∈ field_tiers f).
Proof.
  intros (d & key & -> & _ & _ & _ & _ & _ & _ & ts & Hts & _). unfold required_in, field_tiers. rewrite py_get_dict, Hts.
  exists (py_in (PStr tier) (map PStr ts)). split.
  - unfold field in *. destruct (assoc "required_tiers" d) as [v|]; cbn in *; [subst v; by destruct ts|].
    injection Hts as Hts. by destruct ts.
  - rewrite py_in_strs_spec. split; [by apply list_elem_of_fmap_2|]. by intros (t & [= ->] & ?)%list_elem_of_fmap.
Qed.

(** refutes a value whose type is not the declared one *)
Ltac refuse_by Et :=
  try done; try (right; split; [cbn [typed]; rewrite ?Et; (intros [? _] || intros ?); done|by eexists]).

(** one declared field: left out, kept, or refused with a message *)
Lemma clean_field_spec values tier k f : valid_field f -> field_key f = PStr k ->
  let v := submitted_value values k in
  (blank v = true /\ PStr tier ∉ field_tiers f /\ clean_field values tier k f = Ok None) \/
  (blank v = false /\ typed f v /\ clean_field values tier k f = Ok (Some v)) \/
  ((if blank v then PStr tier ∈ field_tiers f else ~ typed f v) /\ exists msg, clean_field values tier k f = Raise (ValueError msg)).
Proof.
  intros Hf Hk v. destruct (required_in_valid f tier Hf) as (b & Hb & Hiff). unfold clean_field. fold (submitted_value values k). fold v.
  rewrite Hb. cbn [rbind]. destruct Hf as (d & key & -> & _ & _ & _ & _ & (t & Ht & Htype) & Hmax & _).
  destruct (blank v) eqn:Eb.
  { destruct b.
    - right; right. split; [by apply Hiff|]. rewrite py_get_dict. by eexists.
    - left. split_and!; [done| |done]. rewrite <-Hiff. done. }
  right. unfold py_get_default. unfold field in Ht at 1. rewrite Ht. cbn [rbind].
  assert (field_type (PDict d) = t) as Et by (unfold field_type; unfold field; by rewrite Ht).
  unfold _FIELD_TYPES in Htype. assert (t = "string" \/ t = "number" \/ t = "boolean") as [-> |[-> | ->]] by set_solver;
    cbn [py_eqb String.eqb Ascii.eqb Bool.eqb].
  - destruct v as [| | | |s| |] eqn:Ev; refuse_by Et.
    rewrite py_get_dict. cbn [rbind].
    assert (py_int (py_or (field d "max_length" PNone) (PInt 500)) = Ok (field_max (PDict d))) as ->.
    { unfold field_max. destruct Hmax as [-> |(m & -> & Hlo & _)]; [done|]. unfold py_or, truthy.
      replace (negb (m =? 0)%Z) with true; [done|]. symmetry. apply negb_true_iff, Z.eqb_neq. lia. }
    cbn [rbind]. destruct (Z.ltb_spec (field_max (PDict d)) (Z.of_nat (String.length s))).
    + right. split; [intros [_ ?]; lia|by eexists].
    + left. split_and!; done.
  - destruct v as [| | | |s| |] eqn:Ev; refuse_by Et; by left.
  - destruct v as [| | | |s| |] eqn:Ev; refuse_by Et; by left.
Qed.

(** ** A submission against the declared fields *)

Definition key_text (f : pyval) : string := match field_key f with PStr k => k | _ => "" end.
Definition keyed (l : list pyval) : list (string * pyval) := map (fun f => (key_text f, f)) l.

Lemma item_set_new {A} k (x : A) d : k ∉ map fst d -> item_set k x d = d ++ [(k, x)].
Proof.
  induction d as [|[j y] d IH]; cbn [item_set map fst]; [done|]. intros [Hj Hk]%not_elem_of_cons.
  destruct (String.eqb_spec j k) as [->|_]; [done|]. by rewrite IH.
Qed.

Lemma declare_all fields acc : Forall valid_field fields -> NoDup (map field_key fields) ->
  (forall f, f ∈ fields -> key_text f ∉ map fst acc) -> rfold declare acc fields = Ok (acc ++ keyed fields).
Proof.
  intros HF Hnd. revert acc. induction HF as [|f fields Hf HF IH]; intros acc Hacc; [by rewrite app_nil_r|].
  cbn [rfold]. unfold declare at 1. destruct (declared_key_valid f Hf) as (k & -> & Hk). cbn [rbind].
  assert (key_text f = k) as Hkt by (unfold key_text; by rewrite Hk). apply NoDup_cons in Hnd as [Hnew Hnd].
  rewrite item_set_new by (rewrite <-Hkt; apply Hacc; left).
  rewrite IH; [cbn; by rewrite Hkt, <-app_assoc|done|]. intros f' Hf'. rewrite map_app. cbn. rewrite elem_of_app, list_elem_of_singleton.
  intros [?|E]; [by eapply Hacc; [right|]|]. apply Hnew, list_elem_of_fmap. exists f'. split; [|done].
  destruct (declared_key_valid f' (proj1 (Forall_forall _ _) HF f' Hf')) as (k' & _ & Hk').
  rewrite Hk, Hk'. f_equal. rewrite <-E. unfold key_text. by rewrite Hk'.
Qed.

(** what a declared field asks of a submission *)
Definition accepted (values : list (string * pyval)) (tier : string) (e : string * pyval) : Prop :=
  let v := submitted_value values e.1 in if blank v then PStr tier ∉ field_tiers e.2 else typed e.2 v.

Lemma clean_rfold_cons values tier acc k f l : rfold (clean_step values tier) acc ((k, f) :: l) =
  let! v := clean_field values tier k f in
  rfold (clean_step values tier) (match v with Some v => item_set k v acc | None => acc end) l.
Proof. cbn [rfold]. unfold clean_step at 1. cbn [fst snd]. by destruct (clean_field _ _ _ _). Qed.

Lemma clean_all values tier l acc :
  Forall (fun e => valid_field e.2 /\ field_key e.2 = PStr e.1) l -> NoDup (map fst l) ->
  (forall k, k ∈ map fst l -> assoc k acc = None) ->
  (Forall (accepted values tier) l /\ exists cleaned, rfold (clean_step values tier) acc l = Ok cleaned /\
     forall k, assoc k cleaned = if mem k (map fst l)
       then (if blank (submitted_value values k) then None else Some (submitted_value values k)) else assoc k acc) \/
  (~ Forall (accepted values tier) l /\ exists msg, rfold (clean_step values tier) acc l = Raise (ValueError msg)).
Proof.
  intros HF. revert acc. induction HF as [|[k f] l [Hf Hk] HF IH]; cbn [map fst snd] in *; intros acc Hnd Hacc.
  { left. split; [constructor|]. by exists acc. }
  apply NoDup_cons in Hnd as [Hnew Hnd]. rewrite clean_rfold_cons.
  destruct (clean_field_spec values tier k f Hf Hk) as [(Hb & Ht & ->)|[(Hb & Ht & ->)|(Hbad & msg & ->)]]; cbn [rbind].
  3: { right. split; [|by exists msg]. intros [Hacc' _]%Forall_cons. unfold accepted in Hacc'. cbn in Hacc'.
       by destruct (blank _). }
  - assert (accepted values tier (k, f)) as Hok by (unfold accepted; cbn; by rewrite Hb).
    destruct (IH acc Hnd) as [(HA & cleaned & -> & Hc)|(HA & msg & ->)].
    + intros k' Hk'. apply Hacc. by right.
    + left. split; [by constructor|]. exists cleaned. split; [done|]. intros k'. rewrite Hc.
      destruct (decide (k' = k)) as [->|Hne].
      * rewrite (proj2 (mem_false _ _) Hnew), (proj2 (mem_true _ _)) by left. rewrite Hb. apply Hacc. left.
      * unfold mem. erewrite (bool_decide_ext (k' ∈ k :: _)); [reflexivity|]. rewrite elem_of_cons. tauto.
    + right. split; [|by exists msg]. by intros [_ ?]%Forall_cons.
  - assert (accepted values tier (k, f)) as Hok by (unfold accepted; cbn; by rewrite Hb).
    destruct (IH (item_set k (submitted_value values k) acc) Hnd) as [(HA & cleaned & -> & Hc)|(HA & msg & ->)].
    + intros k' Hk'. rewrite assoc_item_set. destruct (String.eqb_spec k k') as [->|_]; [done|]. apply Hacc. by right.
    + left. split; [by constructor|]. exists cleaned. split; [done|]. intros k'. rewrite Hc, assoc_item_set.
      destruct (String.eqb_spec k k') as [<-|Hne].
      * rewrite (proj2 (mem_false _ _) Hnew), (proj2 (mem_true _ _)) by left. by rewrite Hb.
      * unfold mem. erewrite (bool_decide_ext (k' ∈ k :: _)); [reflexivity|]. rewrite elem_of_cons. naive_solver.
    + right. split; [|by exists msg]. by intros [_ ?]%Forall_cons.
Qed.
End Fields.

Section Typed.
Context `{PyHost} `{Digest}.

Lemma keyed_valid l : Forall valid_field l -> Forall (fun e => valid_field e.2 /\ field_key e.2 = PStr e.1) (keyed l).
Proof.
  intros HF. apply Forall_map, (Forall_impl _ _ _ HF). intros f Hf. split; [done|].
  destruct (declared_key_valid f Hf) as (k & _ & Hk). cbn. unfold key_text. by rewrite Hk.
Qed.

Lemma keyed_NoDup l : Forall valid_field l -> NoDup (map field_key l) -> NoDup (map fst (keyed l)).
Proof.
  intros HF Hnd. unfold keyed. rewrite map_map. cbn. apply (NoDup_fmap_1 PStr).
  rewrite <-list_fmap_compose. replace (PStr ∘ _ <$> l) with (map field_key l); [done|].
  apply list_fmap_ext. intros i f Hf%list_elem_of_lookup_2. cbn.
  destruct (declared_key_valid f (proj1 (Forall_forall _ _) HF f Hf)) as (k & _ & Hk). unfold key_text. by rewrite Hk.
Qed.

Lemma elem_keyed l k f : Forall valid_field l -> (k, f) ∈ keyed l <-> f ∈ l /\ field_key f = PStr k.
Proof.
  intros HF. unfold keyed. rewrite list_elem_of_fmap. split.
  - intros (f' & [= -> ->] & Hf). split; [done|]. rewrite Forall_forall in HF.
    destruct (declared_key_valid f' (HF _ Hf)) as (k & _ & Hk). unfold key_text. by rewrite Hk.
  - intros [Hf Hk]. exists f. split; [|done]. unfold key_text. by rewrite Hk.
Qed.

Lemma conforms_spec l values tier : Forall valid_field l ->
  conforms l values tier <->
  (forall k, k ∈ map fst values -> k ∈ map fst (keyed l)) /\ Forall (accepted values tier) (keyed l).
Proof.
  intros HF. unfold conforms. f_equiv.
  - apply forall_proper. intros k. apply imp_iff_compat_l. rewrite list_elem_of_fmap. split.
    + intros (f & Hf & Hk). exists (k, f). split; [done|]. by apply elem_keyed.
    + intros ([k' f] & -> & Hf). exists f. by apply elem_keyed in Hf.
  - rewrite Forall_forall. split.
    + intros Hall [k f] [Hf Hk]%elem_keyed; [|done]. by apply Hall.
    + intros Hall f k Hf Hk. apply (Hall (k, f)). by apply elem_keyed.
Qed.

(** C26. Custom fields are typed.  Under validated policies every submission is
    judged: the fields in force are read, and validation either refuses with a
    message a submission that does not conform, or keeps exactly what was
    submitted of one that does.  It conforms when every key is declared, every
    field its tier requires is filled in, and every value filled in has the
    declared type and length; so each value kept is of its field's type. *)
Theorem custom_fields_are_typed d t values tier : policies_ok d ->
  exists declared, resolve_intake_fields d t = Ok declared /\
    ((conforms declared values tier /\ exists cleaned,
        validate_custom_field_values declared values tier = Ok cleaned /\
        (forall k v, assoc k cleaned = Some v <-> assoc k values = Some v /\ blank v = false) /\
        (forall k v, assoc k cleaned = Some v -> exists f, f ∈ declared /\ field_key f = PStr k /\ typed f v)) \/
     (~ conforms declared values tier /\ exists msg,
        validate_custom_field_values declared values tier = Raise (ValueError msg))).
Proof.
  intros Hok. destruct (in_force_valid d t Hok) as (g & Hb & Hd).
  destruct (intake_fields_view g _ _ Hb Hd) as (l & Hl & HF & Hnd & _). exists l.
  rewrite resolve_intake_fields_agrees by done. split; [done|]. rewrite (conforms_spec l values tier HF).
  unfold validate_custom_field_values. rewrite (declare_all l []) by (done || set_solver). cbn [app rbind].
  destruct (select _ (map fst values)) as [|k unknown] eqn:Esel; cbn zeta.
  2: { right. split; [|by eexists]. intros [Hk _].
       assert (k ∈ k :: unknown) as Hin by left. rewrite <-Esel in Hin. apply elem_of_select in Hin as [Hm Hin].
       apply negb_true_iff, mem_false in Hm. by apply Hm, Hk. }
  assert (forall k, k ∈ map fst values -> k ∈ map fst (keyed l)) as Hknown.
  { intros k Hk. apply mem_true. destruct (mem k (map fst (keyed l))) eqn:E; [done|].
    assert (k ∈ @nil string) as Hno; [|by apply not_elem_of_nil in Hno].
    rewrite <-Esel. apply elem_of_select. by rewrite E. }
  destruct (clean_all values tier (keyed l) [] (keyed_valid l HF) (keyed_NoDup l HF Hnd)) as [(HA & cleaned & -> & Hc)|(HA & msg & ->)];
    [done| |right; split; [by intros [_ ?]|by exists msg]].
  left. split; [done|]. exists cleaned. split; [done|]. cbn in Hc.
  assert (forall k v, assoc k cleaned = Some v <-> assoc k values = Some v /\ blank v = false) as Hiff.
  { intros k v. rewrite Hc. unfold submitted_value. destruct (assoc k values) as [u|] eqn:Ev; cbn [default from_option id].
    - rewrite (proj2 (mem_true _ _)) by (apply Hknown, assoc_is_Some; eauto). destruct (blank u) eqn:Eu; naive_solver congruence.
    - destruct (mem _ _); naive_solver. }
  split; [done|]. intros k v Hv. pose proof Hv as [Hval Hbl]%Hiff.
  assert (k ∈ map fst (keyed l)) as ([k' f] & Ek & Hf)%list_elem_of_fmap by (apply Hknown, assoc_is_Some; eauto).
  cbn in Ek. subst k'. exists f. pose proof Hf as [? ?]%elem_keyed; [|done]. split_and!; [done..|].
  rewrite Forall_forall in HA. specialize (HA _ Hf). unfold accepted, submitted_value in HA. cbn [fst snd] in HA. rewrite Hval in HA. cbn [default from_option id] in HA.
  by rewrite Hbl in HA.
Qed.
End Typed.

Module Demo.
Export PolicyGuarantees.Demo.

(** a sponsor by name, at high risk, and a headcount *)
Definition with_fields : pyval := PDict [
  ("schema", PStr POLICY_SCHEMA);
  ("intake", PDict [
     ("tiers", PDict [("high", PDict [("stages", PList [PDict [("role", PStr "governance_reviewer")]]);
                                      ("recertify_days", PInt 180)])]);
     ("fields", PList [
        PDict [("key", PStr "sponsor"); ("label", PStr "Sponsor"); ("type", PStr "string"); ("max_length", PInt 10);
               ("required_tiers", PList [PStr "high"])];
        PDict [("key", PStr "users"); ("label", PStr "Users"); ("type", PStr "number")]])])].

Definition fields_drafted : db :=
  match create_policy_draft "t1" "acme" with_fields "ann" installed with
  | Ok (_, d) => d | Raise _ => installed end.
Definition fielded : db :=
  match activate_policy "t2" "acme" 1 "ann" fields_drafted with
  | Ok (_, d) => d | Raise _ => fields_drafted end.

Lemma fielded_ok : policies_ok fielded.
Proof.
  assert (exists row, activate_policy "t2" "acme" 1 "ann" fields_drafted = Ok (row, fielded)) as (row & Hrun)
    by (eexists; vm_compute; reflexivity).
  eapply activate_policy_ok; [|exact Hrun].
  apply (create_policy_draft_ok "t1" "acme" with_fields "ann" installed
    (mk_governance_policy "acme" 1 "draft" with_fields (body_hash with_fields) "ann" "t1" None)).
  - by apply seeded_policies_ok.
  - vm_compute. reflexivity.
Qed.

Definition fields_in_force : list pyval :=
  match resolve_intake_fields fielded (Some "acme") with Ok l => l | Raise _ => [] end.

Example kept : validate_custom_field_values fields_in_force [("users", PInt 20); ("sponsor", PStr "eva")] "high" =
  Ok [("sponsor", PStr "eva"); ("users", PInt 20)].
Proof. vm_compute. reflexivity. Qed.
Example missing : validate_custom_field_values fields_in_force [("users", PInt 20)] "high" =
  Raise (ValueError "intake field 'Sponsor' is required for risk tier 'high'").
Proof. vm_compute. reflexivity. Qed.
Example undeclared : validate_custom_field_values fields_in_force [("zone", PInt 2)] "limited" =
  Raise (ValueError "unknown intake fields: zone (fields are declared in the governance policy)").
Proof. vm_compute. reflexivity. Qed.
End Demo.
Import Demo.

Lemma custom_fields_are_typed_witness :
  exists declared, resolve_intake_fields Demo.fielded (Some "acme") = Ok declared /\
    ((conforms declared [("users", PInt 20)] "limited" /\ exists cleaned,
        validate_custom_field_values declared [("users", PInt 20)] "limited" = Ok cleaned /\
        (forall k v, assoc k cleaned = Some v <-> assoc k [("users", PInt 20)] = Some v /\ blank v = false) /\
        (forall k v, assoc k cleaned = Some v -> exists f, f ∈ declared /\ field_key f = PStr k /\ typed f v)) \/
     (~ conforms declared [("users", PInt 20)] "limited" /\ exists msg,
        validate_custom_field_values declared [("users", PInt 20)] "limited" = Raise (ValueError msg))).
Proof. exact (custom_fields_are_typed Demo.fielded (Some "acme") [("users", PInt 20)] "limited" Demo.fielded_ok). Defined.

(** ** Resubmitting *)

Section Resubmission.
Context `{PyHost} `{Digest}.

Lemma materialize_intake_again now task_id record tier d :
  policies_ok d -> round_of (intake_subject task_id record) d <> [] ->
  materialize_intake_stages now task_id record tier d = Ok d.
Proof.
  intros Hok Hne. unfold materialize_intake_stages.
  destruct (resolve_tier_agrees d (sc_tenant record) tier Hok) as (? & sp & roles & days & _ & _ & _ & _ & -> & Hrs & mode & Hm & _).
  destruct Hrs as (l & Hl & _). cbn [rbind]. rewrite Hl. cbn [py_iter rbind]. rewrite Hm. cbn [mode_text rbind].
  pose proof (materialize_again now _ l mode (sp_policy_tenant sp) (sp_policy_version sp) d Hne) as Hm'.
  unfold intake_subject in Hm'. by rewrite Hm'.
Qed.

(** C27. A resubmission keeps the approval.  Submitting again a use case whose review
    has begun always succeeds, and rewrites what it is about: its description,
    purpose, sensitivity, autonomy, custom fields, and so its risk tier.  It
    leaves the rest: the status it was approved with and the submitter on
    record, every approval stage, and every decision on its review task, whose
    wording and priority alone follow the new tier.  No other use case or task
    changes, and no other table. *)
Theorem resubmission_keeps_approval now t by_ref r d old task :
  let row := intake_row now t by_ref r in
  let task_id := intake_task_key (uc_intake_id row) in
  policies_ok d -> load_intake (uc_intake_id row) d = Some old ->
  lookup_key rt_task_id task_id (review_tasks d) = Some task ->
  round_of (intake_subject task_id (intake_scope row)) d <> [] ->
  exists u d', create_intake now t by_ref r d = Ok (u, d') /\
    u = resubmitted now row old /\ load_intake (uc_intake_id row) d' = Some u /\
    uc_risk_tier u = compute_risk_tier (ir_data_sensitivity r) (ir_autonomy_level r) (ir_affects_individuals r) /\
    uc_status u = uc_status old /\ uc_submitted_by u = uc_submitted_by old /\ uc_updated_at u = now /\
    approval_stages d' = approval_stages d /\
    (exists task', lookup_key rt_task_id task_id (review_tasks d') = Some task' /\
       rt_status task' = rt_status task /\ rt_change_id task' = rt_change_id task /\
       rt_priority task' = (if String.eqb (uc_risk_tier u) "high" then "high" else "medium")) /\
    (forall k, k <> uc_intake_id row -> load_intake k d' = load_intake k d) /\
    (forall k, k <> task_id -> lookup_key rt_task_id k (review_tasks d') = lookup_key rt_task_id k (review_tasks d)) /\
    set_review_tasks [] (set_ai_use_cases [] d') = set_review_tasks [] (set_ai_use_cases [] d).
Proof.
  intros row task_id Hok Hold Htask Hne. unfold create_intake. fold row. cbn zeta.
  unfold _seed_intake_review_task. cbn zeta. fold task_id.
  rewrite materialize_intake_again; [|by eapply policies_ok_frame, Hok|exact Hne]. cbn [rbind].
  unfold read_intake, load_intake. cbn [ai_use_cases set_review_tasks set_ai_use_cases].
  assert (forall k, lookup_key uc_intake_id k (upsert uc_intake_id row (resubmitted now row) (ai_use_cases d)) =
    if decide (uc_intake_id row = k) then Some (resubmitted now row old) else load_intake k d) as Hlook.
  { intros k. rewrite lookup_key_upsert by done. case_decide as E; [|done]. subst k. unfold load_intake in Hold. by rewrite Hold. }
  rewrite Hlook. rewrite decide_True by done. cbn [rbind]. eexists _, _. split; [reflexivity|].
  cbn [ai_use_cases review_tasks approval_stages set_review_tasks set_ai_use_cases]. split_and!; try done.
  - rewrite Hlook. by rewrite decide_True.
  - rewrite lookup_key_upsert by done. rewrite decide_True by done. eexists. split; [reflexivity|].
    fold task_id in Htask. rewrite Htask. cbn. done.
  - intros k Hk. rewrite Hlook. by rewrite decide_False.
  - intros k Hk. rewrite lookup_key_upsert by done. rewrite decide_False; [done|]. by intros E.
Qed.
End Resubmission.

(** ** Recertification *)

Section Recertification.
Context `{PyHost} `{Digest}.

(** the period of its tier has passed since the certification on record *)
Definition overdue (now_dt : Z) (d : db) (u : use_case) (policy : stage_policy) (days : Z) : Prop :=
  resolve_tier_policy d (uc_tenant_id u) (if is_empty (uc_risk_tier u) then "limited" else uc_risk_tier u) = Ok policy /\
  sp_recertify_days policy = PInt days /\
  exists anchor, _parse_db_ts (Some (uc_updated_at u)) = Some anchor /\ (instant anchor + days * day_us < now_dt)%Z.

Lemma overdue_unique now_dt d u policy policy' days days' :
  overdue now_dt d u policy days -> overdue now_dt d u policy' days' -> policy' = policy /\ days' = days.
Proof. intros (E & Ed & _) (E' & Ed' & _). rewrite E in E'. injection E' as <-. rewrite Ed in Ed'. by injection Ed' as <-. Qed.

(** the certification dates on record leave room for the longest period *)
Definition datable (d : db) : Prop :=
  forall u anchor days, u ∈ ai_use_cases d -> certified u = true -> _parse_db_ts (Some (uc_updated_at u)) = Some anchor ->
    (0 <= days <= RECERTIFY_DAYS_CEILING)%Z -> in_range (dt_local anchor + days * day_us) = true.

(** the task a use case is asked by, when it is due *)
Definition asked (now : string) (now_dt : Z) (d : db) (u : use_case) (o : option review_task) : Prop :=
  match o with
  | Some task => exists policy days, overdue now_dt d u policy days /\ task = recertification_task now u days policy
  | None => forall policy days, ~ overdue now_dt d u policy days
  end.

Definition ask (tasks : list review_task) (o : option review_task) : list review_task :=
  match o with Some task => insert_or_ignore rt_task_id task tasks | None => tasks end.
Definition grown (tasks tasks' : list review_task) : nat := length tasks' - length tasks.

Lemma asked_use_case now now_dt d l os task : Forall2 (asked now now_dt d) l os -> Some task ∈ os ->
  exists u, u ∈ l /\ exists policy days, overdue now_dt d u policy days /\ task = recertification_task now u days policy.
Proof.
  intros Hos [i Hi]%list_elem_of_lookup. destruct (Forall2_lookup_r _ _ _ _ _ Hos Hi) as (u & Hu%list_elem_of_lookup_2 & Ho).
  by exists u.
Qed.

Lemma ask_prefix tasks o : exists new, ask tasks o = tasks ++ new.
Proof.
  destruct o as [task|]; cbn [ask]; [|exists []; by rewrite app_nil_r]. unfold insert_or_ignore.
  destruct (lookup_key _ _ _); [exists []; by rewrite app_nil_r|by exists [task]].
Qed.

Lemma asks_prefix tasks os : exists new, foldl ask tasks os = tasks ++ new.
Proof.
  revert tasks. induction os as [|o os IH]; intros tasks; cbn [foldl]; [exists []; by rewrite app_nil_r|].
  destruct (ask_prefix tasks o) as [n1 ->], (IH (tasks ++ n1)) as [n2 ->]. exists (n1 ++ n2). by rewrite app_assoc.
Qed.

Lemma asks_unique tasks os : keys_unique rt_task_id tasks -> keys_unique rt_task_id (foldl ask tasks os).
Proof.
  revert tasks. induction os as [|[task|] os IH]; intros tasks Hu; cbn [foldl ask]; [done| |by apply IH].
  apply IH. by apply keys_unique_insert_or_ignore.
Qed.

Lemma asks_present tasks os task : Some task ∈ os -> rt_task_id task ∈ map rt_task_id (foldl ask tasks os).
Proof.
  revert tasks. induction os as [|o os IH]; intros tasks Hin; [by apply not_elem_of_nil in Hin|].
  cbn [foldl]. apply elem_of_cons in Hin as [<- |Hin]; [|by apply IH].
  destruct (asks_prefix (ask tasks (Some task)) os) as [new ->]. rewrite map_app. apply elem_of_app. left.
  cbn [ask]. unfold insert_or_ignore. destruct (lookup_key _ _ tasks) as [x|] eqn:E.
  - apply lookup_key_Some in E as [Hx <-]. by apply list_elem_of_fmap_2.
  - rewrite map_app. apply elem_of_app. right. by left.
Qed.

Lemma elem_of_asks tasks os task : task ∈ foldl ask tasks os -> task ∈ tasks \/ Some task ∈ os.
Proof.
  revert tasks. induction os as [|o os IH]; intros tasks Hin; cbn [foldl] in Hin; [by left|].
  destruct (IH _ Hin) as [Ht|?]; [|right; by right]. destruct o as [new|]; cbn [ask] in Ht; [|by left].
  apply elem_of_insert_or_ignore in Ht as [?|<-]; [by left|right; by left].
Qed.

Lemma asks_idle tasks os : (forall task, Some task ∈ os -> rt_task_id task ∈ map rt_task_id tasks) -> foldl ask tasks os = tasks.
Proof.
  induction os as [|o os IH]; intros Hin; cbn [foldl]; [done|]. replace (ask tasks o) with tasks.
  { apply IH. intros task Ht. apply Hin. by right. }
  destruct o as [task|]; cbn [ask]; [|done]. unfold insert_or_ignore.
  destruct (lookup_key _ _ tasks) eqn:E; [done|]. apply lookup_key_None in E. destruct E. apply Hin. left.
Qed.

Lemma in_range_add t days : (0 <= days <= RECERTIFY_DAYS_CEILING)%Z -> in_range (dt_local t + days * day_us) = true ->
  exists edge, add_days t days = Ok edge /\ instant edge = (instant t + days * day_us)%Z.
Proof.
  intros Hd Hr. unfold add_days. rewrite Hr. unfold RECERTIFY_DAYS_CEILING in Hd.
  rewrite (proj2 (Z.leb_le (Z.abs days) 999999999)) by lia. cbn [andb]. eexists. split; [done|]. unfold instant. cbn. lia.
Qed.

(** one certified use case: asked at most once, and only about tasks *)
Lemma age_use_case_spec now now_dt d tasks n u :
  policies_ok d -> datable d -> u ∈ ai_use_cases d -> certified u = true ->
  exists o, asked now now_dt d u o /\
    age_use_case now now_dt (n, set_review_tasks tasks d) u =
      Ok (n + grown tasks (ask tasks o), set_review_tasks (ask tasks o) d).
Proof.
  intros Hok Hdt Hu Hc. unfold age_use_case. set (tier := if is_empty (uc_risk_tier u) then _ else _).
  destruct (resolve_tier_agrees d (uc_tenant_id u) tier Hok) as (? & sp & roles & days & _ & _ & _ & Hdays & Hsp & Hrs & _).
  replace (resolve_tier_policy (set_review_tasks tasks d) (uc_tenant_id u) tier)
    with (resolve_tier_policy d (uc_tenant_id u) tier) by done.
  destruct Hrs as (_ & _ & _ & Esp).
  rewrite Hsp. cbn [rbind]. rewrite Esp.
  assert (forall o, asked now now_dt d u o -> ask tasks o = tasks -> exists o, asked now now_dt d u o /\
    Ok (n, set_review_tasks tasks d) = Ok (n + grown tasks (ask tasks o), set_review_tasks (ask tasks o) d)) as Hidle.
  { intros o Ho E. exists o. split; [done|]. rewrite E. unfold grown. by rewrite Nat.sub_diag, Nat.add_0_r. }
  assert (forall sp' days', overdue now_dt d u sp' days' -> sp' = sp /\ days_val days = PInt days') as Hdet.
  { intros sp' days' (E & Ed & _). fold tier in E. rewrite Hsp in E. injection E as <-. by rewrite <-Esp. }
  destruct days as [z|]; cbn [days_val from_option] in *.
  2: { cbn [truthy negb]. apply (Hidle None); [|done]. intros sp' days' [_ ?]%Hdet. done. }
  assert (RECERTIFY_DAYS_FLOOR <= z <= RECERTIFY_DAYS_CEILING)%Z as Hz by by apply Hdays.
  unfold RECERTIFY_DAYS_FLOOR in Hz. unfold truthy. rewrite (proj2 (Z.eqb_neq z 0)) by lia. cbn [negb].
  destruct (_parse_db_ts (Some (uc_updated_at u))) as [anchor|] eqn:Ea.
  2: { apply (Hidle None); [|done]. intros sp' days' (_ & _ & a & Ha & _). by rewrite Ea in Ha. }
  cbn [py_int rbind]. destruct (in_range_add anchor z) as (edge & -> & Eedge); [lia|apply (Hdt u); (done || lia)|].
  cbn [rbind]. rewrite Eedge. destruct (Z.leb_spec now_dt (instant anchor + z * day_us)) as [Hle|Hlt].
  { apply (Hidle None); [|done]. intros sp' days' Ho. pose proof Ho as [-> Ed]%Hdet. injection Ed as <-.
    destruct Ho as (_ & _ & a & Ha & Hlt). rewrite Ea in Ha. injection Ha as <-. lia. }
  assert (asked now now_dt d u (Some (recertification_task now u z sp))) as Hask.
  { exists sp, z. split; [|done]. split; [done|]. split; [done|]. by exists anchor. }
  cbn [review_tasks set_review_tasks]. destruct (lookup_key _ _ tasks) eqn:El.
  - apply (Hidle _ Hask). cbn [ask]. unfold insert_or_ignore. by rewrite El.
  - exists (Some (recertification_task now u z sp)). split; [done|]. do 2 f_equal. cbn [ask].
    unfold insert_or_ignore. rewrite El. unfold grown. rewrite length_app. cbn. lia.
Qed.

Lemma age_all now now_dt d n tasks l :
  policies_ok d -> datable d -> (forall u, u ∈ l -> u ∈ ai_use_cases d /\ certified u = true) ->
  exists os, Forall2 (asked now now_dt d) l os /\
    rfold (age_use_case now now_dt) (n, set_review_tasks tasks d) l =
      Ok (n + grown tasks (foldl ask tasks os), set_review_tasks (foldl ask tasks os) d).
Proof.
  intros Hok Hdt. revert n tasks. induction l as [|u l IH]; intros n tasks Hl.
  { exists []. split; [constructor|]. cbn. unfold grown. by rewrite Nat.sub_diag, Nat.add_0_r. }
  destruct (Hl u) as [Hu Hc]; [left|]. cbn [rfold].
  destruct (age_use_case_spec now now_dt d tasks n u Hok Hdt Hu Hc) as (o & Ho & ->). cbn [rbind].
  destruct (IH (n + grown tasks (ask tasks o)) (ask tasks o)) as (os & Hos & ->); [intros v Hv; apply Hl; by right|].
  exists (o :: os). split; [by constructor|]. cbn [foldl]. do 2 f_equal.
  destruct (ask_prefix tasks o) as [new1 E1]. destruct (asks_prefix (ask tasks o) os) as [new2 E2].
  rewrite E2, E1. unfold grown. rewrite !length_app. lia.
Qed.

(** C28. A recertification is asked for once.  Under validated policies, and with
    certification dates the calendar holds, a pass always succeeds.  It adds
    one task for each certified use case whose tier's period has passed, and
    counts them; nothing else changes, a task already there least of all.  Run
    again the same moment it adds none: a use case is asked once per
    certification, not once per pass. *)
Theorem recertification_asked_once now now_dt d :
  policies_ok d -> datable d -> keys_unique rt_task_id (review_tasks d) ->
  exists opened d' new, age_recertifications now now_dt d = Ok (opened, d') /\
    review_tasks d' = review_tasks d ++ new /\ length new = opened /\ set_review_tasks (review_tasks d) d' = d /\
    keys_unique rt_task_id (review_tasks d') /\
    (forall task, task ∈ new -> exists u policy days, u ∈ ai_use_cases d /\ certified u = true /\
       overdue now_dt d u policy days /\ task = recertification_task now u days policy) /\
    (forall u policy days, u ∈ ai_use_cases d -> certified u = true -> overdue now_dt d u policy days ->
       recertification_key u ∈ map rt_task_id (review_tasks d')) /\
    (forall u policy days, u ∈ ai_use_cases d -> certified u = true -> overdue now_dt d u policy days ->
       recertification_key u ∉ map rt_task_id (review_tasks d) ->
       (forall u', u' ∈ ai_use_cases d -> recertification_key u' = recertification_key u -> u' = u) ->
       recertification_task now u days policy ∈ new) /\
    forall now', age_recertifications now' now_dt d' = Ok (0, d').
Proof.
  intros Hok Hdt Hu. assert (forall u, u ∈ select certified (ai_use_cases d) <-> u ∈ ai_use_cases d /\ certified u = true) as Hsel.
  { intros u. rewrite elem_of_select. tauto. }
  destruct (age_all now now_dt d 0 (review_tasks d) _ Hok Hdt (fun u => proj1 (Hsel u))) as (os & Hos & Hrun).
  destruct (asks_prefix (review_tasks d) os) as [new Enew]. rewrite Enew in Hrun.
  replace (set_review_tasks (review_tasks d) d) with d in Hrun by by destruct d.
  eexists _, _, new. split; [exact Hrun|]. cbn [review_tasks set_review_tasks].
  assert (keys_unique rt_task_id (review_tasks d ++ new)) as Hu' by (rewrite <-Enew; by apply asks_unique).
  assert (forall u policy days, u ∈ ai_use_cases d -> certified u = true -> overdue now_dt d u policy days ->
    recertification_key u ∈ map rt_task_id (review_tasks d ++ new)) as Hasked.
  { intros u policy days Hin Hc Ho. rewrite <-Enew.
    assert (u ∈ select certified (ai_use_cases d)) as [i Hi]%list_elem_of_lookup by by apply Hsel.
    destruct (Forall2_lookup_l _ _ _ _ _ Hos Hi) as (o & Hoin%list_elem_of_lookup_2 & Ho').
    destruct o as [task|]; [|by destruct (Ho' policy days)]. destruct Ho' as (p' & days' & _ & ->).
    by eapply (asks_present _ os (recertification_task now u days' p')). }
  assert (forall task, task ∈ new -> exists u policy days, u ∈ ai_use_cases d /\ certified u = true /\
    overdue now_dt d u policy days /\ task = recertification_task now u days policy) as Hnew.
  {intros task Ht. assert (Some task ∈ os) as Hin.
    { destruct (elem_of_asks (review_tasks d) os task) as [Hold|?]; [rewrite Enew; apply elem_of_app; by right| |done].
      unfold keys_unique in Hu'. rewrite map_app in Hu'. apply NoDup_app in Hu' as (_ & Hdis & _).
      destruct (Hdis (rt_task_id task)); by apply list_elem_of_fmap_2. }
    destruct (asked_use_case _ _ _ _ _ _ Hos Hin) as (u & [? ?]%Hsel & policy & days & Ho & ->). by exists u, policy, days. }
  split_and!; try done.
  - unfold grown. rewrite length_app. lia.
  - by destruct d.
  - intros u policy days Hin Hc Ho Hold Hinj. pose proof (Hasked u policy days Hin Hc Ho) as Hk.
    rewrite map_app in Hk. apply elem_of_app in Hk as [?|Hk]; [done|]. apply list_elem_of_fmap in Hk as (task & Ek & Ht).
    destruct (Hnew task Ht) as (u' & p' & days' & Hin' & _ & Ho' & ->). rewrite (Hinj u' Hin') in Ht, Ho' by done.
    destruct (overdue_unique _ _ _ _ _ _ _ Ho Ho') as [<- <-]. done.
  - intros now'. unfold age_recertifications. cbn [ai_use_cases set_review_tasks].
    destruct (age_all now' now_dt d 0 (review_tasks d ++ new) _ Hok Hdt (fun u => proj1 (Hsel u))) as (os' & Hos' & ->).
    rewrite asks_idle; [unfold grown; by rewrite Nat.sub_diag|].
    intros task Hin. destruct (asked_use_case _ _ _ _ _ _ Hos' Hin) as (u & [? ?]%Hsel & policy & days & Ho & ->).
    by eapply Hasked.
Qed.
End Recertification.

(** ** A use case approved at a limited tier and resubmitted at a high one *)

Module Resubmitted.
Definition letters (sensitivity : string) : intake_record :=
  mk_intake_record "triage" "letters" "drafts letters" "answer claimants" sensitivity "assistive" false
    "claims" "production" [].
Definition first : db :=
  match create_intake "2026-01-05 09:00:00" (Some "acme") "bob" (letters "internal") fielded with
  | Ok (_, d) => d | Raise _ => fielded end.
Definition row : use_case := intake_row "2026-06-01 09:00:00" (Some "acme") "bob" (letters "restricted").
(** as decided by its reviewer *)
Definition approved : db :=
  set_review_tasks (map (rt_with_status "approved") (review_tasks first))
    (set_ai_use_cases (map (uc_with_status "approved") (ai_use_cases first)) first).
Definition old : use_case := default row (head (ai_use_cases approved)).
Definition task : review_task := default (intake_task "" row) (head (review_tasks approved)).

Lemma approved_ok : policies_ok approved.
Proof. by apply (policies_ok_frame fielded approved); [vm_compute|apply fielded_ok]. Qed.

Definition raised : db :=
  match create_intake "2026-06-01 09:00:00" (Some "acme") "bob" (letters "restricted") approved with
  | Ok (_, d) => d | Raise _ => approved end.
Definition high : use_case := default row (head (ai_use_cases raised)).

Lemma raised_ok : policies_ok raised.
Proof. by apply (policies_ok_frame fielded raised); [vm_compute|apply fielded_ok]. Qed.

Lemma raised_datable : datable raised.
Proof.
  intros u anchor days Hu _ Ha Hd.
  assert (ai_use_cases raised = [high]) as Eall by (vm_compute; reflexivity).
  rewrite Eall in Hu. apply list_elem_of_singleton in Hu as ->.
  assert (_parse_db_ts (Some (uc_updated_at high)) = Some (mk_datetime 63915987600000000 (Some 0%Z))) as E by (vm_compute; reflexivity).
  rewrite E in Ha. injection Ha as <-. unfold in_range, RECERTIFY_DAYS_CEILING in *. cbn [dt_local].
  assert (day_us = 86400000000%Z) as -> by reflexivity. assert (max_ordinal = 3652059%Z) as -> by (vm_compute; reflexivity).
  apply andb_true_intro. split; [apply Z.leb_le|apply Z.ltb_lt]; lia.
Qed.
End Resubmitted.
Import Resubmitted.

Lemma resubmission_keeps_approval_witness :
  exists u d', create_intake "2026-06-01 09:00:00" (Some "acme") "bob" (letters "restricted") approved = Ok (u, d') /\
    uc_status old = "approved" /\ uc_risk_tier old = "limited" /\
    uc_status u = "approved" /\ uc_risk_tier u = "high" /\ approval_stages d' = approval_stages approved.
Proof.
  destruct (resubmission_keeps_approval "2026-06-01 09:00:00" (Some "acme") "bob" (letters "restricted") approved old task)
    as (u & d' & Hrun & _ & _ & Ht & Hs & _ & _ & Hst & _).
  - apply approved_ok.
  - vm_compute. reflexivity.
  - vm_compute. reflexivity.
  - vm_compute. discriminate.
  - exists u, d'. split; [exact Hrun|]. split; [reflexivity|]. split; [reflexivity|].
    split; [rewrite Hs; reflexivity|]. split; [rewrite Ht; reflexivity|exact Hst].
Defined.

Lemma recertification_asked_once_witness :
  exists d', age_recertifications "2030-01-05 09:00:00" 64030000000000000 raised = Ok (1, d') /\
    length (review_tasks d') = S (length (review_tasks raised)) /\
    forall now', age_recertifications now' 64030000000000000 d' = Ok (0, d').
Proof.
  destruct (recertification_asked_once "2030-01-05 09:00:00" 64030000000000000 raised)
    as (opened & d' & new & Hrun & E & Hlen & _ & _ & _ & _ & _ & Hagain).
  - apply raised_ok.
  - apply raised_datable.
  - apply (bool_decide_unpack (NoDup _)). vm_compute. exact I.
  - assert (opened = 1) as ->.
    { transitivity (match age_recertifications "2030-01-05 09:00:00" 64030000000000000 raised with
                    | Ok (n, _) => n | Raise _ => 0 end); [by rewrite Hrun|vm_compute; reflexivity]. }
    exists d'. split; [exact Hrun|]. split; [rewrite E, length_app, Hlen; apply Nat.add_1_r|exact Hagain].
Defined.
