(* ===== verification/Throttle.v ===== *)
(** * Login throttling (storage/login_attempts.py)

    Failed attempts per account, per source address and per second-factor
    removal, in one table of counters with ISO timestamps. *)

From stdpp Require Import base list strings option pretty.
From Stdlib Require Import ZArith Lia.
From S2P Require Import Prelude Py Dates Sql Schema Rbac Requests.

Open Scope nat_scope.

(** ** Policy *)

(** the integers read from NORINTH_LOGIN_* when the module loads *)
Record login_settings := mk_login_settings {
  LOCKOUT_THRESHOLD : Z;
  LOCKOUT_WINDOW_MINUTES : Z;
  LOCKOUT_MINUTES : Z;
  IP_THRESHOLD : Z;
  IP_WINDOW_MINUTES : Z;
  IP_LOCKOUT_MINUTES : Z
}.

Definition default_login_settings : login_settings := mk_login_settings 5 15 15 50 15 15.

(** the name says which policy applies *)
Record throttle_policy := mk_throttle_policy { tp_threshold : Z; tp_window_minutes : Z; tp_lockout_minutes : Z }.

Definition _policy (env : login_settings) (subject : string) : throttle_policy :=
  if starts_with "ip:" subject
  then mk_throttle_policy (IP_THRESHOLD env) (IP_WINDOW_MINUTES env) (IP_LOCKOUT_MINUTES env)
  else mk_throttle_policy (LOCKOUT_THRESHOLD env) (LOCKOUT_WINDOW_MINUTES env) (LOCKOUT_MINUTES env).

Definition email_subject (email : string) : string := "email:" +:+ lower (strip email).
Definition mfa_disable_subject (user_ref : string) : string := "mfa-disable:" +:+ lower (strip user_ref).
Definition ip_subject (ip : option string) : string :=
  "ip:" +:+ (match ip with Some ip => if is_empty ip then "unknown" else ip | None => "unknown" end).

(** ** Attempts *)

Definition minute_us : Z := 60 * 1000000.

(** [now + timedelta(minutes=m)] of an aware reading, as text *)
Definition minutes_from (now m : Z) : res string :=
  let t := (now + m * minute_us)%Z in
  if (Z.abs m <=? 999999999 * 1440)%Z && in_range t then Ok (clock_iso t) else Raise OverflowError.

(** [_parse] *)
Definition parse_ts (ts : option string) : option datetime :=
  match ts with
  | Some ts => if is_empty ts then None else fromisoformat ts
  | None => None
  end.

(** an aware reading cannot be compared with a naive one *)
Definition is_locked (now : Z) (subject : string) (d : db) : res bool :=
  match parse_ts (match lookup_key lt_subject subject (login_throttle d) with
                  | Some row => lt_locked_until row | None => None end) with
  | None => Ok false
  | Some t => match dt_offset t with
              | None => Raise TypeError
              | Some _ => Ok (now <? instant t)%Z
              end
  end.

(** the first UPDATE: the window has passed and no lock holds *)
Definition stale (now_iso window_cutoff : string) (r : throttle_row) : bool :=
  match lt_first_failed_at r with Some f => str_ltb f window_cutoff | None => false end &&
  match lt_locked_until r with None => true | Some l => str_ltb l now_iso end.
Definition restarted (now_iso : string) (r : throttle_row) : throttle_row :=
  lt_with_locked_until None (lt_with_first_failed_at (Some now_iso) (lt_with_failed_count 0 r)).

(** [ON CONFLICT(subject) DO UPDATE SET ...] *)
Definition counted (threshold : Z) (now_iso locked_iso : string) (r : throttle_row) : throttle_row :=
  lt_with_locked_until
    (if (threshold <=? lt_failed_count r + 1)%Z then Some locked_iso else lt_locked_until r)
    (lt_with_first_failed_at (match lt_first_failed_at r with Some f => Some f | None => Some now_iso end)
      (lt_with_failed_count (lt_failed_count r + 1) r)).

Definition register_failure (env : login_settings) (now : Z) (subject : string) (d : db) : res (bool * db) :=
  let policy := _policy env subject in
  let threshold := tp_threshold policy in
  let now_iso := clock_iso now in
  let! window_cutoff := minutes_from now (- tp_window_minutes policy) in
  let! locked_iso := minutes_from now (tp_lockout_minutes policy) in
  let d := set_login_throttle
    (update (fun r => String.eqb (lt_subject r) subject && stale now_iso window_cutoff r) (restarted now_iso)
       (login_throttle d)) d in
  let d := set_login_throttle
    (upsert lt_subject (mk_throttle_row subject 1 (Some now_iso) None) (counted threshold now_iso locked_iso)
       (login_throttle d)) d in
  Ok (match lookup_key lt_subject subject (login_throttle d) with
      | Some row => truthy_str (lt_locked_until row) && (lt_failed_count row =? threshold)%Z
      | None => false
      end, d).

Definition clear_attempts (subject : string) (d : db) : db :=
  set_login_throttle (delete_where (fun r => String.eqb (lt_subject r) subject) (login_throttle d)) d.

(** ** Examples *)

Definition fails (n : nat) (env : login_settings) (now : Z) (subject : string) (d : db) : res (list bool * db) :=
  rfold (fun acc i => let! r := register_failure env (now + Z.of_nat i * 1000000) subject (snd acc) in
                      Ok (fst acc ++ [fst r], snd r)) ([], d) (seq 0 n).

(** the fifth failure locks, and only it reports the lock *)
Example fifth_failure_locks :
  (let! r := fails 5 default_login_settings 63900000000000000 "email:a@b" empty_db in
   let! locked := is_locked 63900000900000000 "email:a@b" (snd r) in
   let! later := is_locked 63900000904000000 "email:a@b" (snd r) in Ok (fst r, locked, later)) =
  Ok ([false; false; false; false; true], true, false).
Proof. vm_compute. reflexivity. Qed.

(** with a threshold of one the first failure inserts its row unlocked, and the
    lock of the second is never reported *)
Example threshold_of_one :
  (let! r := fails 2 (mk_login_settings 1 15 15 50 15 15) 63900000000000000 "email:a@b" empty_db in
   let! locked := is_locked 63900000001000000 "email:a@b" (snd r) in Ok (fst r, locked)) =
  Ok ([false; false], true).
Proof. vm_compute. reflexivity. Qed.
