(* ===== verification/Credentials.v ===== *)
(** * Credentials (services/auth.py, services/totp.py)

    Password hashes with the parameters they were made under, and six-digit
    time-based codes.  PBKDF2 and HMAC are parameters; a string of a digest is
    its bytes. *)

From stdpp Require Import base list strings option pretty.
From Stdlib Require Import ZArith Lia Ascii.
From S2P Require Import Prelude Py Dates Sql Requests.

Open Scope nat_scope.

(** [hashlib.pbkdf2_hmac(algorithm, password, salt, rounds)]: refuses a count
    of rounds below one *)
Class Kdf := pbkdf2_hmac : string -> string -> string -> Z -> res string.

(** [hmac.new(key, message, sha1).digest()]: twenty bytes *)
Class HmacSha1 := {
  hmac_sha1 : string -> string -> string;
  hmac_sha1_length : forall key message, String.length (hmac_sha1 key message) = 20
}.

(** ** Bytes as hexadecimal text *)

Definition nibble (n : N) : ascii := ascii_of_N (if (n <? 10)%N then 48 + n else 87 + n).
Fixpoint hex (s : string) : string :=
  match s with
  | EmptyString => EmptyString
  | String c s' => String (nibble (N_of_ascii c / 16)) (String (nibble (N_of_ascii c mod 16)) (hex s'))
  end.

Definition hex_value (c : ascii) : option N :=
  let n := N_of_ascii c in
  if ((48 <=? n) && (n <=? 57))%N then Some (n - 48)%N
  else if ((97 <=? n) && (n <=? 102))%N then Some (n - 87)%N
  else if ((65 <=? n) && (n <=? 70))%N then Some (n - 55)%N
  else None.

(** the ASCII whitespace [bytes.fromhex] skips between bytes *)
Definition hex_space (c : ascii) : bool := bool_decide (N_of_ascii c ∈ [9; 10; 11; 12; 13; 32]%N).

Fixpoint fromhex (s : string) : option string :=
  match s with
  | EmptyString => Some EmptyString
  | String c s' =>
      if hex_space c then fromhex s'
      else match s' with
           | String c' s'' =>
               match hex_value c, hex_value c', fromhex s'' with
               | Some a, Some b, Some rest => Some (String (ascii_of_N (16 * a + b)) rest)
               | _, _, _ => None
               end
           | EmptyString => None
           end
  end.

Lemma hex_char c : exists a b, nibble (N_of_ascii c / 16) = a /\ nibble (N_of_ascii c mod 16) = b /\
  hex_space a = false /\ is_char 58 a = false /\ is_char 58 b = false /\ Ascii.eqb a "$" = false /\ Ascii.eqb b "$" = false /\
  exists x y, hex_value a = Some x /\ hex_value b = Some y /\ ascii_of_N (16 * x + y) = c.
Proof.
  eexists _, _. split; [reflexivity|]. split; [reflexivity|].
  destruct c as [[] [] [] [] [] [] [] []]; (split_and!; [reflexivity..|]; eexists _, _; split_and!; reflexivity).
Qed.

Lemma fromhex_hex s : fromhex (hex s) = Some s.
Proof.
  induction s as [|c s IH]; [done|]. cbn [hex].
  destruct (hex_char c) as (a & b & -> & -> & Hs & _ & _ & _ & _ & x & y & Ha & Hb & Hc). cbn [fromhex].
  by rewrite Hs, Ha, Hb, IH, Hc.
Qed.

Lemma hex_no_colon s : partition_colon (hex s) = None.
Proof.
  induction s as [|c s IH]; [done|]. cbn [hex].
  destruct (hex_char c) as (a & b & -> & -> & _ & Ha & Hb & _). cbn [partition_colon]. by rewrite Ha, Hb, IH.
Qed.

(** [s.split(c)] *)
Fixpoint split_from (c : ascii) (part s : string) : list string :=
  match s with
  | EmptyString => [part]
  | String x s' => if Ascii.eqb x c then part :: split_from c "" s' else split_from c (part +:+ String x EmptyString) s'
  end.
Definition split (c : ascii) (s : string) : list string := split_from c "" s.

(** [s.removeprefix(p)] *)
Definition removeprefix (p s : string) : string :=
  if starts_with p s then String.substring (String.length p) (String.length s - String.length p) s else s.

Section Passwords.
Context `{PyHost} `{Kdf}.

Definition _PBKDF2_ALGORITHM : string := "sha256".
Definition DEFAULT_PBKDF2_ITERATIONS : Z := 600000.
Definition _ALLOWED_ALGORITHMS : list string := ["sha256"; "sha512"].
Definition MIN_PASSWORD_LENGTH : nat := 12.

(** [rounds]: NORINTH_PBKDF2_ITERATIONS; [salt]: sixteen random bytes *)
Definition hash_password (rounds : Z) (salt password : string) : res string :=
  let! _ := throw_if (is_empty password) (DomainError "password must not be empty") in
  let! derived := pbkdf2_hmac _PBKDF2_ALGORITHM password salt rounds in
  Ok ("pbkdf2_" +:+ _PBKDF2_ALGORITHM +:+ "$" +:+ pretty rounds +:+ "$" +:+ hex salt +:+ "$" +:+ hex derived).

Definition verify_password (password : string) (stored : option string) : res bool :=
  match stored with
  | None => Ok false
  | Some stored =>
      if is_empty stored then Ok false
      else match split "$" stored with
      | [scheme; iterations; salt_hex; expected_hex] =>
          if negb (starts_with "pbkdf2_" scheme) then Ok false
          else
            let algorithm := removeprefix "pbkdf2_" scheme in
            if negb (mem algorithm _ALLOWED_ALGORITHMS) then Ok false
            else match str_int iterations with
            | Raise (ValueError _) => Ok false
            | Raise e => Raise e
            | Ok rounds =>
                match fromhex salt_hex with
                | None => Raise (ValueError "non-hexadecimal number found in fromhex() arg")
                | Some salt =>
                    let! derived := pbkdf2_hmac algorithm password salt rounds in
                    compare_digest (PStr (hex derived)) expected_hex
                end
            end
      | _ => Ok false
      end
  end.

Definition needs_rehash (iterations_wanted : Z) (stored : option string) : res bool :=
  match stored with
  | None => Ok true
  | Some stored =>
      if is_empty stored then Ok true
      else match split "$" stored with
      | [scheme; iterations; _; _] =>
          if negb (starts_with "pbkdf2_" scheme) then Ok true
          else if negb (String.eqb (removeprefix "pbkdf2_" scheme) _PBKDF2_ALGORITHM) then Ok true
          else match str_int iterations with
               | Ok n => Ok (n <? iterations_wanted)%Z
               | Raise (ValueError _) => Ok true
               | Raise e => Raise e
               end
      | _ => Ok true
      end
  end.
End Passwords.

(** ** Base32 *)

Definition b32_value (c : ascii) : option Z :=
  let n := Z.of_N (N_of_ascii c) in
  if ((65 <=? n) && (n <=? 90))%Z then Some (n - 65)%Z
  else if ((50 <=? n) && (n <=? 55))%Z then Some (n - 24)%Z
  else None.

Definition upper_letter (c : ascii) : ascii :=
  let n := N_of_ascii c in if ((97 <=? n) && (n <=? 122))%N then ascii_of_N (n - 32) else c.

(** [acc = (acc << 5) + b32rev[c]] over at most eight characters *)
Fixpoint b32_quantum (n : nat) (acc : Z) (s : list ascii) : option (Z * list ascii) :=
  match n, s with
  | S n, c :: s => match b32_value c with
                   | Some v => b32_quantum n (Z.shiftl acc 5 + v)%Z s
                   | None => None
                   end
  | _, _ => Some (acc, s)
  end.

(** [acc.to_bytes(5, "big")] *)
Definition to_bytes (n : nat) (acc : Z) : list ascii :=
  map (fun i => ascii_of_N (Z.to_N (Z.land (Z.shiftr acc (8 * Z.of_nat (n - S i))) 255))) (seq 0 n).

(** the decoded bytes and the last quantum; [fuel] is the number of characters,
    and every round but the last takes eight *)
Fixpoint b32_bytes (fuel : nat) (decoded : list ascii) (acc : Z) (s : list ascii) : option (list ascii * Z) :=
  match fuel, s with
  | _, [] => Some (decoded, acc)
  | O, _ => None
  | S fuel, _ => match b32_quantum 8 0 s with
                 | Some (acc, rest) => b32_bytes fuel (decoded ++ to_bytes 5 acc) acc rest
                 | None => None
                 end
  end.

Definition strip_padding (s : list ascii) : list ascii :=
  let fix drop l := match l with c :: l' => if Ascii.eqb c "=" then drop l' else l | [] => [] end in
  reverse (drop (reverse s)).

(** [base64.b32decode(s, casefold=True)]; [None] where it raises *)
Definition b32decode (text : string) : option string :=
  let s := map upper_letter (String.list_ascii_of_string text) in
  let l := length s in
  if negb (Nat.eqb (l mod 8) 0) then None
  else
    let body := strip_padding s in
    let padchars := l - length body in
    match b32_bytes l [] 0 body with
    | None => None
    | Some (decoded, acc) =>
        if negb (bool_decide (padchars ∈ [0; 1; 3; 4; 6])) then None
        else if negb (Nat.eqb padchars 0) && negb (Nat.eqb (length decoded) 0) then
          let last := to_bytes 5 (Z.shiftl acc (5 * Z.of_nat padchars)) in
          Some (String.string_of_list_ascii
            (take (length decoded - 5) decoded ++ take ((43 - 5 * padchars) / 8) last))
        else Some (String.string_of_list_ascii decoded)
    end.

Example b32decode_examples :
  b32decode "MFRGGZDF" = Some "abcde" /\ b32decode "mfrggzdfmy======" = Some "abcdef" /\
  b32decode "MFRGG===" = Some "abc" /\ b32decode "MFRG" = None /\ b32decode "MFRGG1==" = None.
Proof. vm_compute. done. Qed.

(** ** Time-based codes *)

Section Totp.
Context `{HmacSha1}.

Definition STEP_SECONDS : Z := 30.
Definition DIGITS : nat := 6.
Definition DRIFT_STEPS : Z := 1.

Definition byte_at (i : nat) (s : string) : Z :=
  match String.get i s with Some c => Z.of_N (N_of_ascii c) | None => 0 end.

(** [struct.unpack(">I", digest[offset:offset + 4])] *)
Definition uint32_at (i : nat) (s : string) : Z :=
  (Z.lor (Z.shiftl (byte_at i s) 24) (Z.lor (Z.shiftl (byte_at (i + 1) s) 16)
     (Z.lor (Z.shiftl (byte_at (i + 2) s) 8) (byte_at (i + 3) s))))%Z.

(** [struct.pack(">Q", counter)] *)
Definition pack_uint64 (counter : Z) : string := String.string_of_list_ascii (to_bytes 8 counter).

Definition _hotp (key : string) (counter : Z) : string :=
  let digest := hmac_sha1 key (pack_uint64 counter) in
  let offset := Z.to_nat (Z.land (byte_at (String.length digest - 1) digest) 15) in
  let code := (Z.land (uint32_at offset digest) 2147483647 mod 10 ^ Z.of_nat DIGITS)%Z in
  pad DIGITS code.

(** [time.time()] counts from 1970; an instant is in microseconds since year 1 *)
Definition unix_us (now : Z) : Z := (now - ymd2ord 1970 1 1 * day_us)%Z.
Definition current_counter (now : Z) : Z := Z.quot (unix_us now) (STEP_SECONDS * 1000000).

(** [str.isdigit] on Latin-1 counts the three superscript digits *)
Definition is_digit_char (c : ascii) : bool :=
  is_digit c || bool_decide (N_of_ascii c ∈ [178; 179; 185]%N).
Definition isdigit (s : string) : bool :=
  negb (is_empty s) && forallb is_digit_char (String.list_ascii_of_string s).

(** [code.strip().replace(" ", "")] *)
Definition remove_spaces (s : string) : string :=
  String.string_of_list_ascii (filter (fun c => Ascii.eqb c " " = false) (String.list_ascii_of_string s)).

(** the loop over the neighbouring steps: the first counter above [floor] whose
    code matches *)
Fixpoint match_counter (key code : string) (floor : Z) (candidates : list Z) : res (option Z) :=
  match candidates with
  | [] => Ok None
  | candidate :: rest =>
      if (candidate <=? floor)%Z then match_counter key code floor rest
      else
        let! equal := compare_digest (PStr (_hotp key candidate)) code in
        if equal : bool then Ok (Some candidate) else match_counter key code floor rest
  end.

Definition verify_code (secret_b32 code : string) (last_counter : option Z) (now : Z) : res (option Z) :=
  let code := remove_spaces (strip code) in
  if negb (Nat.eqb (String.length code) DIGITS) || negb (isdigit code) then Ok None
  else match b32decode secret_b32 with
  | None => Ok None
  | Some key =>
      let counter := current_counter now in
      match_counter key code (default (-1)%Z last_counter)
        (seqZ (counter - DRIFT_STEPS) (2 * DRIFT_STEPS + 1))
  end.
End Totp.
