(* ===== verification/Secrets.v ===== *)
(** * Secrets at rest (services/secrets.py)

    Values the platform must be able to read back are encrypted under the
    primary key of a ring, bound to the row they belong to, and name the key
    they were encrypted under.  AES-GCM is the library's. *)

From stdpp Require Import base list strings option pretty.
From Stdlib Require Import ZArith Lia Ascii.
From S2P Require Import Prelude Py Sql Rbac Requests.

Open Scope nat_scope.

(** AES-256-GCM and URL-safe base64; decryption gives [None] where it raises *)
Class Aead := {
  aesgcm_encrypt : string -> string -> string -> string -> string;
  aesgcm_decrypt : string -> string -> string -> string -> option string;
  urlsafe_b64encode : string -> string;
  urlsafe_b64decode : string -> option string
}.

(** the environment variables; a set NORINTH_SECRET_KEYS is what [json.loads]
    gives for it, [None] where it raises *)
Record secret_settings := mk_secret_settings {
  SECRET_KEY : option string;
  SECRET_KEYS : option (option pyval);
  SECRET_PRIMARY : option string;
  ALLOW_PLAINTEXT_SECRETS : option string
}.

Definition _PREFIX_V2 : string := "enc:v2:".
Definition _PREFIX_V1 : string := "enc:v1:".
Definition _LEGACY_KEY_ID : string := "legacy".
Definition SecretKeyMissing (msg : string) : exn := RuntimeError msg.

(** [s.partition(":")] without the separator *)
Definition partition1 (s : string) : string * string := default (s, "") (partition_colon s).
Definition drop_prefix (p s : string) : string := String.substring (String.length p) (String.length s - String.length p) s.

(** [os.getenv(...)] tested for truth *)
Definition set_var (v : option string) : option string :=
  match v with Some s => if is_empty s then None else Some s | None => None end.

Section Secrets.
Context `{Aead}.

Definition _decode_key (raw label : string) : res string :=
  let padding := String.concat "" (repeat "=" ((4 - String.length raw mod 4) mod 4)) in
  match urlsafe_b64decode (raw +:+ padding) with
  | None => Raise (SecretKeyMissing (label +:+ " is not valid base64"))
  | Some key =>
      if negb (Nat.eqb (String.length key) 32)
      then Raise (SecretKeyMissing (label +:+ " must decode to exactly 32 bytes")) else Ok key
  end.

(** one entry of the loop; a value that is not a string fails to decode *)
Definition ring_entry (ring : list (string * string)) (entry : string * pyval) : res (list (string * string)) :=
  let! _ := throw_if (match partition_colon entry.1 with Some _ => true | None => is_empty entry.1 end)
    (SecretKeyMissing "secret key ids must be non-empty strings without ':'") in
  let label := "NORINTH_SECRET_KEYS['" +:+ entry.1 +:+ "']" in
  let! key := match entry.2 with
              | PStr value => _decode_key value label
              | _ => Raise (SecretKeyMissing (label +:+ " is not valid base64"))
              end in
  Ok (item_set entry.1 key ring).

Definition keyring (env : secret_settings) : res (list (string * string)) :=
  let! ring := match set_var (SECRET_KEY env) with
               | Some legacy => let! key := _decode_key legacy "NORINTH_SECRET_KEY" in Ok [(_LEGACY_KEY_ID, key)]
               | None => Ok []
               end in
  match SECRET_KEYS env with
  | None => Ok ring
  | Some None => Raise (SecretKeyMissing "NORINTH_SECRET_KEYS is not valid JSON")
  | Some (Some (PDict ((_ :: _) as entries))) => rfold ring_entry ring entries
  | Some (Some _) =>
      Raise (SecretKeyMissing "NORINTH_SECRET_KEYS must be a non-empty JSON object of {id: base64 key}")
  end.

Definition primary_key_id (env : secret_settings) : res (option string) :=
  let! ring := keyring env in
  match set_var (SECRET_PRIMARY env) with
  | Some explicit =>
      let! _ := throw_if (negb (mem explicit (map fst ring)))
        (SecretKeyMissing ("NORINTH_SECRET_PRIMARY '" +:+ explicit +:+ "' is not present in the keyring")) in
      Ok (Some explicit)
  | None =>
      match SECRET_KEYS env with
      | Some _ => Raise (SecretKeyMissing
          "NORINTH_SECRET_KEYS is set; also set NORINTH_SECRET_PRIMARY to name the active key")
      | None => Ok (if mem _LEGACY_KEY_ID (map fst ring) then Some _LEGACY_KEY_ID else None)
      end
  end.

Definition ring_key (env : secret_settings) (id : string) : res string :=
  let! ring := keyring env in
  match assoc id ring with Some key => Ok key | None => Raise (KeyError id) end.

Definition master_key (env : secret_settings) : res (option string) :=
  let! primary := primary_key_id env in
  match primary with
  | None => Ok None
  | Some id => let! key := ring_key env id in Ok (Some key)
  end.

Definition encryption_enabled (env : secret_settings) : res bool :=
  let! key := master_key env in Ok (match key with Some _ => true | None => false end).

Definition _plaintext_allowed (env : secret_settings) : bool :=
  mem (lower (default "0" (ALLOW_PLAINTEXT_SECRETS env))) ["1"; "true"; "yes"].

Definition _aesgcm_decrypt (key nonce_b64 ct_b64 associated_data : string) : option string :=
  match urlsafe_b64decode nonce_b64, urlsafe_b64decode ct_b64 with
  | Some nonce, Some ciphertext => aesgcm_decrypt key nonce ciphertext associated_data
  | _, _ => None
  end.

Definition _require_binding (associated_data : string) : res unit :=
  throw_if (is_empty associated_data)
    (ValueError "associated_data must be a non-empty context binding (e.g. the tenant id or record key)").

(** [nonce]: twelve random bytes *)
Definition encrypt (env : secret_settings) (nonce value associated_data : string) : res string :=
  let! _ := _require_binding associated_data in
  let! primary := primary_key_id env in
  match primary with
  | None =>
      if _plaintext_allowed env then Ok value
      else Raise (SecretKeyMissing ("Refusing to store a secret without encryption. Set NORINTH_SECRET_KEY (or "
        +:+ "NORINTH_SECRET_KEYS + NORINTH_SECRET_PRIMARY), or set "
        +:+ "NORINTH_ALLOW_PLAINTEXT_SECRETS=1 to allow plaintext (development only)."))
  | Some id =>
      let! key := ring_key env id in
      let ciphertext := aesgcm_encrypt key nonce value associated_data in
      Ok (_PREFIX_V2 +:+ id +:+ ":" +:+ urlsafe_b64encode nonce +:+ ":" +:+ urlsafe_b64encode ciphertext)
  end.

(** the first key of the ring under which a value without a key id decrypts *)
Fixpoint try_keys (keys : list string) (nonce_b64 ct_b64 associated_data : string) : option string :=
  match keys with
  | [] => None
  | key :: rest =>
      match _aesgcm_decrypt key nonce_b64 ct_b64 associated_data with
      | Some value => Some value
      | None => try_keys rest nonce_b64 ct_b64 associated_data
      end
  end.

Definition undecryptable : exn := SecretKeyMissing "stored secret could not be decrypted (wrong key or corrupted value)".

Definition decrypt (env : secret_settings) (stored associated_data : string) : res string :=
  let! _ := _require_binding associated_data in
  if starts_with _PREFIX_V2 stored then
    let! ring := keyring env in
    let (kid, tail) := partition1 (drop_prefix _PREFIX_V2 stored) in
    let (nonce_b64, ct_b64) := partition1 tail in
    match assoc kid ring with
    | None => Raise (SecretKeyMissing ("a stored secret was encrypted under key '" +:+ kid
                     +:+ "', which is not in the configured keyring"))
    | Some key => match _aesgcm_decrypt key nonce_b64 ct_b64 associated_data with
                  | Some value => Ok value
                  | None => Raise undecryptable
                  end
    end
  else if starts_with _PREFIX_V1 stored then
    let! ring := keyring env in
    let! _ := throw_if (bool_decide (ring = []))
      (SecretKeyMissing "a stored secret is encrypted but no secret key is configured") in
    let (nonce_b64, ct_b64) := partition1 (drop_prefix _PREFIX_V1 stored) in
    match try_keys (map snd ring) nonce_b64 ct_b64 associated_data with
    | Some value => Ok value
    | None => Raise undecryptable
    end
  else Ok stored.

Definition is_encrypted (stored : string) : bool := starts_with _PREFIX_V2 stored || starts_with _PREFIX_V1 stored.
End Secrets.
