(* ===== verification/SignIn.v ===== *)
(** * Signing in (services/auth.py, storage/workflow.py, storage/mfa.py,
    storage/notifications.py, api/auth.py, dependencies.py)

    A password opens a session, or, on an account with a second factor, a
    challenge that a code redeems.  Each storage call commits on its own: a
    request that is refused leaves its failed attempt on record.  A request
    reads the clock once here; [random] stands for the tokens the secrets module
    gives it. *)

From stdpp Require Import base list strings option pretty.
From Stdlib Require Import ZArith Lia Ascii.
From S2P Require Import Prelude Py Dates Sql Schema Effects Scope Rbac Requests.
From S2P Require Import Throttle Credentials Secrets Ingest.

Open Scope nat_scope.

(** the environment a sign-in reads *)
Record auth_settings := mk_auth_settings {
  au_login : login_settings;
  au_secrets : secret_settings;
  SESSION_TTL_HOURS : Z;
  SESSION_IDLE_MINUTES : Z;
  PBKDF2_ITERATIONS : Z;
  INVITE_TTL_DAYS : Z
}.

(** [datetime('now')] *)
Definition sql_now (now : Z) : string := strftime_seconds (mk_datetime now (Some 0%Z)).

(** ** Users *)

Section Users.
Context `{Digest}.

Definition update_user (user_ref : string) (f : platform_user -> platform_user) (d : db) : db :=
  set_platform_users (update_key pu_user_ref user_ref f (platform_users d)) d.

Definition set_user_password (now : Z) (user_ref password_hash : string) : db -> db :=
  update_user user_ref (fun u => pu_with_updated_at (sql_now now) (pu_with_must_change_password false
    (pu_with_password_hash (Some password_hash) u))).
Definition upgrade_password_hash (now : Z) (user_ref password_hash : string) : db -> db :=
  update_user user_ref (fun u => pu_with_updated_at (sql_now now) (pu_with_password_hash (Some password_hash) u)).
Definition reset_user_password (now : Z) (user_ref password_hash : string) : db -> db :=
  update_user user_ref (fun u => pu_with_updated_at (sql_now now) (pu_with_must_change_password true
    (pu_with_password_hash (Some password_hash) u))).

Definition set_user_status (now : Z) (user_ref status : string) (d : db) : res (platform_user * db) :=
  match load_platform_user d user_ref with
  | None => Raise (DomainError "user not found")
  | Some _ =>
      let d := update_user user_ref (fun u => pu_with_updated_at (sql_now now) (pu_with_status status u)) d in
      match load_platform_user d user_ref with Some u => Ok (u, d) | None => Raise TypeError end
  end.

Definition normalize_email (email : string) : string := lower (strip email).

(** SQLite's LOWER folds ASCII letters *)
Definition sql_lower (s : string) : string :=
  String.string_of_list_ascii (map (fun c => let n := N_of_ascii c in
    if ((65 <=? n) && (n <=? 90))%N then ascii_of_N (n + 32) else c) (String.list_ascii_of_string s)).

Definition get_user_by_email (email : string) (d : db) : option platform_user :=
  head (order_by (fun a b => negb (str_ltb (pu_created_at b) (pu_created_at a)))
    (select (fun u => match pu_email u with Some e => String.eqb (sql_lower e) (normalize_email email) | None => false end)
       (platform_users d))).

(** ** Sessions *)

Definition _hash_token (token : string) : string := sha256 token.

Definition insert_session (now : Z) (token user_ref expires_at : string) (d : db) : res (unit * db) :=
  match lookup_key ss_token token (sessions d) with
  | Some _ => Raise (DatabaseError "UNIQUE constraint failed")
  | None => Ok (tt, set_sessions (sessions d ++ [mk_session token user_ref (sql_now now) expires_at (Some (clock_iso now))]) d)
  end.

Definition load_session (now : Z) (token : string) (d : db) : option session :=
  select1 (fun s => String.eqb (ss_token s) token && str_ltb (clock_iso now) (ss_expires_at s)) (sessions d).

Definition touch_session (token seen_at : string) (d : db) : db :=
  set_sessions (update_key ss_token token (ss_with_last_seen_at (Some seen_at)) (sessions d)) d.
Definition delete_session (token : string) (d : db) : db :=
  set_sessions (delete_where (fun s => String.eqb (ss_token s) token) (sessions d)) d.
Definition delete_sessions_for_user (user_ref : string) (d : db) : db :=
  set_sessions (delete_where (fun s => String.eqb (ss_user_ref s) user_ref) (sessions d)) d.
Definition purge_expired_sessions (now : Z) (d : db) : db :=
  set_sessions (delete_where (fun s => negb (str_ltb (clock_iso now) (ss_expires_at s))) (sessions d)) d.

Context (env : auth_settings).

(** [random]: secrets.token_urlsafe(32) *)
Definition create_session (now : Z) (random user_ref : string) : eff string :=
  do! _ := writes (purge_expired_sessions now) in
  do! expires_at := checks (fun _ => minutes_from now (SESSION_TTL_HOURS env * 60)) in
  do! _ := commits (insert_session now (_hash_token random) user_ref expires_at) in
  eret random.

Definition _parse_timestamp (value : option string) : option datetime := assume_utc <$> parse_ts value.

Definition _TOUCH_INTERVAL_SECONDS : Z := 60.

Definition session_last_seen (s : session) : option datetime :=
  match _parse_timestamp (ss_last_seen_at s) with
  | Some t => Some t
  | None => _parse_timestamp (Some (ss_created_at s))
  end.

Definition resolve_session (now : Z) (token : option string) : eff (option string) := fun d =>
  match set_var token with
  | None => (d, Ok None)
  | Some token =>
      let token_hash := _hash_token token in
      match load_session now token_hash d with
      | None => (d, Ok None)
      | Some session =>
          if (0 <? SESSION_IDLE_MINUTES env)%Z then
            match session_last_seen session with
            | None => (delete_session token_hash d, Ok None)
            | Some last_seen =>
                if (SESSION_IDLE_MINUTES env * minute_us <? now - instant last_seen)%Z
                then (delete_session token_hash d, Ok None)
                else if (_TOUCH_INTERVAL_SECONDS * 1000000 <? now - instant last_seen)%Z
                then (touch_session token_hash (clock_iso now) d, Ok (Some (ss_user_ref session)))
                else (d, Ok (Some (ss_user_ref session)))
            end
          else (d, Ok (Some (ss_user_ref session)))
      end
  end.

Definition end_session (token : option string) (d : db) : db :=
  match set_var token with Some token => delete_session (_hash_token token) d | None => d end.
Definition end_all_sessions (user_ref : string) (d : db) : db := delete_sessions_for_user user_ref d.
End Users.

(** ** Second factors (storage/mfa.py) *)

Section Mfa.
Context `{Digest}.

Definition hash_opaque (value : string) : string := sha256 value.

Definition set_pending_secret (now : Z) (user_ref encrypted_secret : string) : db -> db :=
  update_user user_ref (fun u => pu_with_updated_at (sql_now now) (pu_with_mfa_pending_secret (Some encrypted_secret) u)).

Definition activate_mfa (now : Z) (user_ref : string) (d : db) : db :=
  set_platform_users (update (fun u => String.eqb (pu_user_ref u) user_ref && bool_decide (pu_mfa_pending_secret u <> None))
    (fun u => pu_with_updated_at (sql_now now) (pu_with_mfa_last_counter None (pu_with_mfa_enabled_at (Some (clock_iso now))
      (pu_with_mfa_pending_secret None (pu_with_mfa_secret (pu_mfa_pending_secret u) u)))))
    (platform_users d)) d.

Definition clear_mfa (now : Z) (user_ref : string) (d : db) : db :=
  let d := update_user user_ref (fun u => pu_with_updated_at (sql_now now) (pu_with_mfa_last_counter None
    (pu_with_mfa_enabled_at None (pu_with_mfa_pending_secret None (pu_with_mfa_secret None u))))) d in
  let d := set_mfa_recovery_codes (delete_where (fun c => String.eqb (rc_user_ref c) user_ref) (mfa_recovery_codes d)) d in
  set_mfa_challenges (delete_where (fun c => String.eqb (mc_user_ref c) user_ref) (mfa_challenges d)) d.

Definition record_used_counter (user_ref : string) (counter : Z) (d : db) : db :=
  set_platform_users (update (fun u => String.eqb (pu_user_ref u) user_ref &&
      match pu_mfa_last_counter u with None => true | Some c => (c <? counter)%Z end)
    (pu_with_mfa_last_counter (Some counter)) (platform_users d)) d.

Definition rc_key (c : recovery_code) : string * string := (rc_user_ref c, rc_code_hash c).
Definition replace_recovery_codes (now : Z) (user_ref : string) (code_hashes : list string) (d : db) : res (unit * db) :=
  let kept := delete_where (fun c => String.eqb (rc_user_ref c) user_ref) (mfa_recovery_codes d) in
  let! rows := rfold (fun t h =>
    let row := mk_recovery_code user_ref h (clock_iso now) None in
    match lookup_key rc_key (rc_key row) t with
    | Some _ => Raise (DatabaseError "UNIQUE constraint failed")
    | None => Ok (t ++ [row])
    end) kept code_hashes in
  Ok (tt, set_mfa_recovery_codes rows d).

Definition usable_code (user_ref code_hash : string) (c : recovery_code) : bool :=
  String.eqb (rc_user_ref c) user_ref && String.eqb (rc_code_hash c) code_hash && bool_decide (rc_used_at c = None).
(** [bool(cursor.rowcount)] *)
Definition consume_recovery_code (now : Z) (user_ref code_hash : string) (d : db) : bool * db :=
  (negb (Nat.eqb (rowcount (usable_code user_ref code_hash) (mfa_recovery_codes d)) 0),
   set_mfa_recovery_codes (update (usable_code user_ref code_hash) (rc_with_used_at (Some (clock_iso now)))
     (mfa_recovery_codes d)) d).

Definition count_unused_recovery_codes (user_ref : string) (d : db) : nat :=
  rowcount (fun c => String.eqb (rc_user_ref c) user_ref && bool_decide (rc_used_at c = None)) (mfa_recovery_codes d).

Definition create_challenge (now : Z) (token_hash user_ref expires_at : string) (d : db) : res (unit * db) :=
  let kept := delete_where (fun c => negb (str_ltb (clock_iso now) (mc_expires_at c)))
    (delete_where (fun c => String.eqb (mc_user_ref c) user_ref) (mfa_challenges d)) in
  match lookup_key mc_token token_hash kept with
  | Some _ => Raise (DatabaseError "UNIQUE constraint failed")
  | None => Ok (tt, set_mfa_challenges (kept ++ [mk_mfa_challenge token_hash user_ref 0 (clock_iso now) expires_at]) d)
  end.

Definition load_challenge (now : Z) (token_hash : string) (d : db) : option mfa_challenge :=
  select1 (fun c => String.eqb (mc_token c) token_hash && str_ltb (clock_iso now) (mc_expires_at c)) (mfa_challenges d).

Definition register_challenge_attempt (token_hash : string) (max_attempts : Z) (d : db) : db :=
  let d := set_mfa_challenges (update_key mc_token token_hash (fun c => mc_with_attempts (mc_attempts c + 1) c)
    (mfa_challenges d)) d in
  set_mfa_challenges (delete_where (fun c => String.eqb (mc_token c) token_hash && (max_attempts <=? mc_attempts c)%Z)
    (mfa_challenges d)) d.

Definition consume_challenge (token_hash : string) (d : db) : db :=
  set_mfa_challenges (delete_where (fun c => String.eqb (mc_token c) token_hash) (mfa_challenges d)) d.

(** ** Invites (storage/notifications.py) *)

Definition invite_hash (token : string) : string := sha256 token.

(** [random]: secrets.token_urlsafe(32) *)
Definition create_invite (env : auth_settings) (now : Z) (random user_ref tenant_id : string) (created_by : option string)
    (d : db) : res (string * db) :=
  let token := "inv_" +:+ random in
  let! expires_at := minutes_from now (INVITE_TTL_DAYS env * 1440) in
  let kept := delete_where (fun i => String.eqb (iv_user_ref i) user_ref && bool_decide (iv_used_at i = None)) (invites d) in
  match lookup_key iv_token_hash (invite_hash token) kept with
  | Some _ => Raise (DatabaseError "UNIQUE constraint failed")
  | None => Ok (token, set_invites (kept ++ [mk_invite (invite_hash token) user_ref tenant_id created_by (clock_iso now)
                                               expires_at None]) d)
  end.

(** the stored expiry is the platform's own text: it parses, with an offset *)
Definition peek_invite (now : Z) (token : string) (d : db) : res (option invite) :=
  match lookup_key iv_token_hash (invite_hash token) (invites d) with
  | None => Ok None
  | Some row =>
      match iv_used_at row with
      | Some _ => Ok None
      | None =>
          match fromisoformat (iv_expires_at row) with
          | None => Raise (ValueError "Invalid isoformat string")
          | Some t => match dt_offset t with
                      | None => Raise TypeError
                      | Some _ => Ok (if (instant t <=? now)%Z then None else Some row)
                      end
          end
      end
  end.

Definition consume_invite (now : Z) (token : string) (d : db) : res (option invite * db) :=
  let! invite := peek_invite now token d in
  match invite with
  | None => Ok (None, d)
  | Some row =>
      let unused := fun i => String.eqb (iv_token_hash i) (invite_hash token) && bool_decide (iv_used_at i = None) in
      let d' := set_invites (update unused (iv_with_used_at (Some (clock_iso now))) (invites d)) d in
      Ok (if Nat.eqb (rowcount unused (invites d)) 0 then None else Some row, d')
  end.
End Mfa.

(** ** Requests (dependencies.py, api/auth.py) *)

(** what a handler reads of the connection; the variables are of the environment *)
Record request := mk_request {
  rq_trust_proxy : option string;
  rq_hops : option string;
  rq_forwarded_for : option string;
  rq_host : option string
}.

Section Requests.
Context `{PyHost} `{Digest} `{Kdf} `{HmacSha1} `{Aead}.
Context (env : auth_settings).

Definition parts_of (forwarded : string) : list string :=
  filter (fun p => is_empty p = false) (map strip (split "," forwarded)).

Definition client_ip (rq : request) : res (option string) :=
  let host := rq_host rq in
  if negb (mem (lower (default "0" (rq_trust_proxy rq))) ["1"; "true"; "yes"]) then Ok host
  else match set_var (rq_forwarded_for rq) with
  | None => Ok host
  | Some forwarded =>
      match parts_of forwarded with
      | [] => Ok host
      | parts =>
          let! hops := str_int (default "1" (rq_hops rq)) in
          let n := Z.of_nat (length parts) in
          Ok (parts !! Z.to_nat (Z.max 0 (n - Z.max 1 hops)))
      end
  end.

Definition organization_requires_mfa (tenant_id : option string) (d : db) : bool :=
  match set_var tenant_id with
  | None => false
  | Some t => match lookup_key org_tenant_id t (organizations d) with Some row => org_require_mfa row | None => false end
  end.

Definition enrolled (u : platform_user) : bool := truthy_str (pu_mfa_enabled_at u) && truthy_str (pu_mfa_secret u).

Definition mfa_enrollment_required (u : platform_user) (d : db) : bool :=
  if negb (truthy_str (pu_password_hash u)) then false
  else if enrolled u then false
  else organization_requires_mfa (pu_tenant_id u) d.

Definition _MFA_ENROLLMENT_PREFIX : string := "/api/auth/mfa".
Definition _MFA_EXEMPT_PATHS : list string := ["/api/auth/me"; "/api/auth/logout"; "/api/auth/change-password"].

Definition current_actor (now : Z) (path : string) (token : option string) : eff ActorContext :=
  do! user_ref := resolve_session env now token in
  match set_var user_ref with
  | None => eraise (HTTPException 401 "Authentication required")
  | Some user_ref =>
      do! user := reads (fun d => load_platform_user d user_ref) in
      match user with
      | Some user =>
          do! _ := eguard (negb (String.eqb (pu_status user) "active")) (HTTPException 403 "User is not active") in
          do! suspended := reads (fun d =>
            match set_var (pu_tenant_id user) with Some t => organization_is_suspended t d | None => false end) in
          do! _ := eguard (negb (bool_decide (pu_platform_role user = Some "super_admin")) && suspended)
            (HTTPException 403 "Organization is suspended") in
          do! required := reads (mfa_enrollment_required user) in
          do! _ := eguard (required && negb (mem path _MFA_EXEMPT_PATHS) && negb (starts_with _MFA_ENROLLMENT_PREFIX path))
            (HTTPException 403
              "This organization requires multi-factor authentication; enroll under Security to continue") in
          eret (mk_actor user_ref (pu_tenant_id user) None None (pu_platform_role user))
      | None => eraise (HTTPException 403 "User is not active")
      end
  end.

(** ** Profiles and sessions *)

Definition effective_permissions (d : db) (actor : ActorContext) : list string :=
  sorted_set (concat (map (fun a => list_role_permissions d (ra_role a)) (list_actor_role_assignments d (user_ref actor)))).

Record actor_profile := mk_actor_profile {
  ap_actor : ActorContext;
  ap_display_name : string;
  ap_email : option string;
  ap_must_change_password : bool;
  ap_mfa_enrollment_required : bool;
  ap_permissions : list string;
  ap_is_super_admin : bool
}.

Definition _actor_profile (actor : ActorContext) (d : db) : actor_profile :=
  let user := load_platform_user d (user_ref actor) in
  mk_actor_profile actor (from_option pu_display_name (user_ref actor) user) (user ≫= pu_email)
    (from_option pu_must_change_password false user)
    (from_option (fun u => mfa_enrollment_required u d) false user)
    (effective_permissions d actor) (is_super_admin actor).

Definition auth_audit (actor_ref action : string) (tenant_id : option string) (detail : option pyval) : db -> db :=
  record_audit (mk_audit actor_ref action tenant_id None None detail).

Definition opt_text (o : option string) : pyval := match o with Some s => PStr s | None => PNone end.

(** the session cookie and the profile *)
Definition signed_in : Type := string * actor_profile.

Definition _finish_login (now : Z) (random : string) (user : platform_user) (mfa_method : option string) : eff signed_in :=
  do! token := create_session env now random (pu_user_ref user) in
  do! _ := writes (auth_audit (pu_user_ref user) "auth.login" (pu_tenant_id user)
    ((fun m => PDict [("mfa", PStr m)]) <$> mfa_method)) in
  let actor := mk_actor (pu_user_ref user) (pu_tenant_id user) None None (pu_platform_role user) in
  do! profile := reads (_actor_profile actor) in
  eret (token, profile).

(** ** Signing in with a password *)

Definition MFA_CHALLENGE_TTL_MINUTES : Z := 5.
Definition MFA_CHALLENGE_MAX_ATTEMPTS : Z := 5.
Definition RECOVERY_CODE_COUNT : nat := 10.

Inductive login_response :=
| MfaRequired (challenge : string)
| SignedIn (session : signed_in).

Definition active_user (user : option platform_user) : option platform_user :=
  match user with Some u => if String.eqb (pu_status u) "active" then Some u else None | None => None end.

(** [is_locked(account) or is_locked(source)] *)
Definition throttled (now : Z) (account source : string) : eff bool :=
  do! locked := checks (is_locked now account) in
  if locked : bool then eret true else checks (is_locked now source).

(** the failed branch: both counters, the record, 401 *)
Definition login_failed {A} (now : Z) (email : string) (ip : option string) (user : option platform_user) : eff A :=
  let account := email_subject email in
  let source := ip_subject ip in
  do! a := commits (register_failure (au_login env) now account) in
  do! s := commits (register_failure (au_login env) now source) in
  let newly_locked := (if a : bool then [account] else []) ++ (if s : bool then [source] else []) in
  let attempted := lower (strip email) in
  let known_tenant := user ≫= pu_tenant_id in
  do! _ := writes (auth_audit attempted "auth.login_failed" known_tenant
    (Some (PDict [("source_ip", opt_text ip); ("account_exists", PBool (bool_decide (user <> None)))]))) in
  do! _ := (if bool_decide (newly_locked = []) then eret tt
            else writes (auth_audit attempted "auth.lockout" known_tenant
              (Some (PDict [("subjects", PList (map PStr newly_locked)); ("source_ip", opt_text ip)])))) in
  eraise (HTTPException 401 "Invalid email or password").

(** [salt] and [random]: what the secrets module gives this request *)
Definition login (now : Z) (salt random : string) (rq : request) (email password : string) : eff login_response :=
  do! ip := checks (fun _ => client_ip rq) in
  let account := email_subject email in
  do! locked := throttled now account (ip_subject ip) in
  do! _ := eguard locked (HTTPException 429 "Too many failed login attempts. Try again later.") in
  do! user := reads (get_user_by_email email) in
  do! authenticated := checks (fun _ =>
    match active_user user with
    | Some u => verify_password password (pu_password_hash u)
    | None => Ok false
    end) in
  match active_user user, authenticated : bool with
  | Some u, true =>
      do! _ := writes (clear_attempts account) in
      do! weak := checks (fun _ => needs_rehash (PBKDF2_ITERATIONS env) (pu_password_hash u)) in
      do! _ := (if weak : bool then
                  do! h := checks (fun _ => hash_password (PBKDF2_ITERATIONS env) salt password) in
                  writes (upgrade_password_hash now (pu_user_ref u) h)
                else eret tt) in
      if enrolled u then
        do! expires := checks (fun _ => minutes_from now MFA_CHALLENGE_TTL_MINUTES) in
        do! _ := commits (create_challenge now (hash_opaque random) (pu_user_ref u) expires) in
        eret (MfaRequired random)
      else
        do! session := _finish_login now random u None in
        eret (SignedIn session)
  | _, _ => login_failed now email ip user
  end.

(** ** Redeeming a challenge *)

Definition _MFA_AAD_PREFIX : string := "mfa-totp:".

(** any failure to decrypt reads as no secret *)
Definition _decrypt_secret (user_ref : string) (stored : option string) : option string :=
  match set_var stored with
  | None => None
  | Some stored => match decrypt (au_secrets env) stored (_MFA_AAD_PREFIX +:+ user_ref) with
                   | Ok s => Some s
                   | Raise _ => None
                   end
  end.

(** [totp.verify_code(...) if secret else None] *)
Definition checked_code (secret : option string) (code : string) (last_counter : option Z) (now : Z) : res (option Z) :=
  match set_var secret with Some s => verify_code s code last_counter now | None => Ok None end.

Definition mfa_refused {A} (now : Z) (token_hash : string) (user : platform_user) (ip : res (option string)) : eff A :=
  do! _ := writes (register_challenge_attempt token_hash MFA_CHALLENGE_MAX_ATTEMPTS) in
  do! ip := checks (fun _ => ip) in
  do! _ := writes (auth_audit (pu_user_ref user) "auth.mfa_failed" (pu_tenant_id user)
    (Some (PDict [("source_ip", opt_text ip)]))) in
  eraise (HTTPException 401 "That code was not accepted").

Definition recovery_hash (code : string) : string := hash_opaque (lower (strip code)).

Definition mfa_verify (now : Z) (random : string) (rq : request) (challenge : string) (code recovery_code : option string)
    : eff signed_in :=
  let token_hash := hash_opaque challenge in
  do! row := reads (load_challenge now token_hash) in
  match row with
  | None => eraise (HTTPException 401 "Challenge is invalid or expired; sign in again")
  | Some row =>
      do! user := reads (fun d => load_platform_user d (mc_user_ref row)) in
      match active_user user with
      | None =>
          do! _ := writes (consume_challenge token_hash) in
          eraise (HTTPException 403 "This account is not active")
      | Some user =>
          match set_var recovery_code with
          | Some recovery_code =>
              do! used := commits (fun d => Ok (consume_recovery_code now (pu_user_ref user) (recovery_hash recovery_code) d)) in
              if used : bool then
                do! _ := writes (consume_challenge token_hash) in
                do! remaining := reads (count_unused_recovery_codes (pu_user_ref user)) in
                do! _ := writes (auth_audit (pu_user_ref user) "auth.mfa_recovery_used" (pu_tenant_id user)
                  (Some (PDict [("remaining", PInt (Z.of_nat remaining))]))) in
                _finish_login now random user (Some "recovery_code")
              else mfa_refused now token_hash user (client_ip rq)
          | None =>
              match set_var code with
              | Some code =>
                  do! counter := checks (fun _ =>
                    checked_code (_decrypt_secret (pu_user_ref user) (pu_mfa_secret user)) code (pu_mfa_last_counter user) now) in
                  match counter with
                  | Some counter =>
                      do! _ := writes (record_used_counter (pu_user_ref user) counter) in
                      do! _ := writes (consume_challenge token_hash) in
                      _finish_login now random user (Some "totp")
                  | None => mfa_refused now token_hash user (client_ip rq)
                  end
              | None => mfa_refused now token_hash user (client_ip rq)
              end
          end
      end
  end.
End Requests.
