(* ===== verification/Accounts.v ===== *)
(** * Accounts (api/auth.py, api/admin.py)

    What a signed-in user does to their own account: enrol or remove a second
    factor, change the password, accept an invite, sign out; what an
    administrator does to a member's; and the account and the session that an
    identity provider's word gives (services/sso.py, api/sso.py, api/saml.py). *)

From stdpp Require Import base list strings option pretty.
From Stdlib Require Import ZArith Lia Ascii.
From S2P Require Import Prelude Py Dates Sql Schema Effects Scope Rbac Decisions Requests Inventory.
From S2P Require Import Throttle Credentials Secrets Ingest SignIn.

Open Scope nat_scope.

Section Accounts.
Context `{PyHost} `{Digest} `{Kdf} `{HmacSha1} `{Aead}.
Context (env : auth_settings).

(** ** The user's own second factor *)

Definition mfa_status (actor : ActorContext) (d : db) : bool * option string * nat :=
  let user := load_platform_user d (user_ref actor) in
  let enabled := from_option enrolled false user in
  (enabled, user ≫= pu_mfa_enabled_at, if enabled then count_unused_recovery_codes (user_ref actor) d else 0).

(** [secret]: totp.generate_secret(); [plaintext]: NORINTH_ALLOW_PLAINTEXT_SECRETS is set *)
Definition mfa_setup (now : Z) (secret nonce : string) (actor : ActorContext) : eff string :=
  do! user := reads (fun d => load_platform_user d (user_ref actor)) in
  do! _ := eguard (from_option enrolled false user)
    (HTTPException 409 "MFA is already enabled; disable it before re-enrolling") in
  do! encrypted := checks (fun _ => encryption_enabled (au_secrets env)) in
  do! _ := eguard (negb encrypted && negb (truthy_str (ALLOW_PLAINTEXT_SECRETS (au_secrets env))))
    (HTTPException 400 "The server has no NORINTH_SECRET_KEY configured, so an MFA secret cannot be stored securely") in
  do! stored := checks (fun _ => encrypt (au_secrets env) nonce secret (_MFA_AAD_PREFIX +:+ user_ref actor)) in
  do! _ := writes (set_pending_secret now (user_ref actor) stored) in
  eret secret.

(** [codes]: ten random codes, shown once *)
Definition _new_recovery_codes (now : Z) (codes : list string) (user_ref : string) : eff (list string) :=
  do! _ := commits (replace_recovery_codes now user_ref (map hash_opaque codes)) in
  eret codes.

Definition mfa_enable (now : Z) (codes : list string) (code : string) (actor : ActorContext) : eff (list string) :=
  do! user := reads (fun d => load_platform_user d (user_ref actor)) in
  match user ≫= (fun u => _decrypt_secret env (pu_user_ref u) (pu_mfa_pending_secret u)) with
  | None => eraise (HTTPException 400 "No pending MFA enrollment; call setup first")
  | Some secret =>
      do! counter := checks (fun _ => verify_code secret code None now) in
      match counter with
      | None => eraise (HTTPException 400 "That code was not accepted; check the authenticator and try again")
      | Some counter =>
          do! _ := writes (activate_mfa now (user_ref actor)) in
          do! _ := writes (record_used_counter (user_ref actor) counter) in
          do! codes := _new_recovery_codes now codes (user_ref actor) in
          do! _ := writes (auth_audit (user_ref actor) "auth.mfa_enabled" (actor_tenant actor) None) in
          eret codes
      end
  end.

(** the second proof: a recovery code if one is sent, else a code *)
Definition second_proof (now : Z) (user : platform_user) (code recovery_code : option string) : eff bool :=
  match set_var recovery_code with
  | Some recovery_code =>
      commits (fun d => Ok (consume_recovery_code now (pu_user_ref user) (recovery_hash recovery_code) d))
  | None =>
      match set_var code with
      | Some code =>
          do! counter := checks (fun _ =>
            checked_code (_decrypt_secret env (pu_user_ref user) (pu_mfa_secret user)) code (pu_mfa_last_counter user) now) in
          eret (bool_decide (counter <> None))
      | None => eret false
      end
  end.

Definition mfa_disable (now : Z) (rq : request) (password : string) (code recovery_code : option string)
    (actor : ActorContext) : eff unit :=
  let subject := mfa_disable_subject (user_ref actor) in
  do! locked := checks (is_locked now subject) in
  do! _ := eguard locked (HTTPException 429 "Too many failed attempts. Try again later.") in
  do! user := reads (fun d => load_platform_user d (user_ref actor)) in
  do! knows := checks (fun _ =>
    match user with Some u => verify_password password (pu_password_hash u) | None => Ok false end) in
  do! proved := match user, knows : bool with
                | Some u, true => second_proof now u code recovery_code
                | _, _ => eret false
                end in
  if proved : bool then
    do! _ := writes (clear_attempts subject) in
    do! _ := writes (clear_mfa now (user_ref actor)) in
    writes (auth_audit (user_ref actor) "auth.mfa_disabled" (actor_tenant actor) None)
  else
    do! _ := commits (register_failure (au_login env) now subject) in
    do! ip := checks (fun _ => client_ip rq) in
    do! _ := writes (auth_audit (user_ref actor) "auth.mfa_disable_failed" (actor_tenant actor)
      (Some (PDict [("source_ip", opt_text ip)]))) in
    eraise (HTTPException 401 "The password and a valid authenticator or recovery code are required").

(** ** Sessions and passwords *)

Definition logout (token : option string) : eff unit := writes (end_session token).

Definition change_password (now : Z) (salt random current_password new_password : string) (actor : ActorContext) : eff string :=
  do! user := reads (fun d => load_platform_user d (user_ref actor)) in
  do! knows := checks (fun _ =>
    match user with Some u => verify_password current_password (pu_password_hash u) | None => Ok false end) in
  do! _ := eguard (negb knows) (HTTPException 401 "Current password is incorrect") in
  do! _ := eguard (String.eqb new_password current_password)
    (HTTPException 400 "New password must differ from the current password") in
  do! h := checks (fun _ => hash_password (PBKDF2_ITERATIONS env) salt new_password) in
  do! _ := writes (set_user_password now (user_ref actor) h) in
  do! _ := writes (end_all_sessions (user_ref actor)) in
  do! token := create_session env now random (user_ref actor) in
  do! _ := writes (auth_audit (user_ref actor) "auth.change_password" (actor_tenant actor) None) in
  eret token.

(** ** Invites *)

Definition invite_gone : exn := HTTPException 404 "This invite link is invalid, expired, or already used".

Definition accept_invite (now : Z) (salt random invite_token password : string) : eff signed_in :=
  do! found := checks (peek_invite now invite_token) in
  match found with
  | None => eraise invite_gone
  | Some row =>
      do! user := reads (fun d => load_platform_user d (iv_user_ref row)) in
      match active_user user with
      | None => eraise (HTTPException 403 "This account is not active")
      | Some _ =>
          do! taken := commits (consume_invite now invite_token) in
          match taken with
          | None => eraise invite_gone
          | Some row =>
              do! h := checks (fun _ => hash_password (PBKDF2_ITERATIONS env) salt password) in
              do! _ := writes (set_user_password now (iv_user_ref row) h) in
              do! _ := writes (end_all_sessions (iv_user_ref row)) in
              do! token := create_session env now random (iv_user_ref row) in
              do! _ := writes (record_audit (mk_audit (iv_user_ref row) "auth.accept_invite" (Some (iv_tenant_id row))
                (Some "user") (Some (iv_user_ref row)) None)) in
              do! profile := reads (_actor_profile (mk_actor (iv_user_ref row) (Some (iv_tenant_id row)) None None None)) in
              eret (token, profile)
          end
      end
  end.

(** ** Administrators: one unit of work each *)

Definition PERM_USER_MANAGE : string := "user.manage".

Definition org_target (tenant_id user_ref : string) (d : db) : res platform_user :=
  match load_platform_user d user_ref with
  | Some target => if bool_decide (pu_tenant_id target = Some tenant_id) then Ok target
                   else Raise (HTTPException 404 "User not found in this organization")
  | None => Raise (HTTPException 404 "User not found in this organization")
  end.

Definition manager_of (actor : ActorContext) (d : db) : res string :=
  let! tenant_id := _require_tenant actor in
  let! _ := or_forbidden (require_permission d actor PERM_USER_MANAGE (tenant_target tenant_id) false) in
  Ok tenant_id.

Definition user_audit (actor : ActorContext) (action : string) (tenant_id : option string) (user_ref : string)
    (detail : option pyval) : db -> db :=
  record_audit (mk_audit (Rbac.user_ref actor) action tenant_id (Some "user") (Some user_ref) detail).

Definition update_org_user_status (now : Z) (user_ref status : string) (actor : ActorContext) (d : db)
    : res (platform_user * db) :=
  let! tenant_id := manager_of actor d in
  let! _ := throw_if (negb (mem status ["active"; "suspended"]))
    (HTTPException 400 "status must be 'active' or 'suspended'") in
  let! _ := org_target tenant_id user_ref d in
  let! _ := throw_if (String.eqb user_ref (Rbac.user_ref actor))
    (HTTPException 400 "You cannot change your own account status") in
  let! r := set_user_status now user_ref status d in
  let (updated, d) := r : platform_user * db in
  Ok (updated, user_audit actor "user.status" (Some tenant_id) user_ref (Some (PDict [("status", PStr status)])) d).

Definition reset_org_user_mfa (now : Z) (user_ref : string) (actor : ActorContext) (d : db) : res (unit * db) :=
  let! tenant_id := manager_of actor d in
  let! _ := throw_if (String.eqb user_ref (Rbac.user_ref actor))
    (HTTPException 400 "Use the MFA disable flow for your own account") in
  let! _ := org_target tenant_id user_ref d in
  let d := end_all_sessions user_ref (clear_mfa now user_ref d) in
  Ok (tt, user_audit actor "user.mfa_reset" (Some tenant_id) user_ref None d).

Definition _guard_super_admin (actor : ActorContext) : res unit :=
  or_forbidden (throw_if (negb (is_super_admin actor))
    (AuthorizationError ("User " +:+ Rbac.user_ref actor +:+ " is not a platform super admin"))).

Definition count_super_admins (d : db) : nat :=
  rowcount (fun u => bool_decide (pu_platform_role u = Some "super_admin")) (platform_users d).

Definition update_account_status (now : Z) (user_ref status : string) (actor : ActorContext) (d : db)
    : res (platform_user * db) :=
  let! _ := _guard_super_admin actor in
  let! _ := throw_if (negb (mem status ["active"; "suspended"]))
    (HTTPException 400 "status must be 'active' or 'suspended'") in
  match load_platform_user d user_ref with
  | None => Raise (HTTPException 404 "User not found")
  | Some target =>
      let! _ := throw_if (String.eqb status "suspended" && bool_decide (pu_platform_role target = Some "super_admin") &&
                          (String.eqb user_ref (Rbac.user_ref actor) || (count_super_admins d <=? 1)))
        (HTTPException 400 "Cannot suspend the last active super admin") in
      let! r := set_user_status now user_ref status d in
      let (updated, d) := r : platform_user * db in
      Ok (updated, user_audit actor "account.status" (pu_tenant_id target) user_ref (Some (PDict [("status", PStr status)])) d)
  end.

(** [_temp_password]: [random] is secrets.token_hex(12) *)
Definition _temp_password (random : string) : string := "Norinth-" +:+ random.

Definition reset_account_password (now : Z) (salt random user_ref : string) (actor : ActorContext) (d : db)
    : res (string * db) :=
  let! _ := _guard_super_admin actor in
  match load_platform_user d user_ref with
  | None => Raise (HTTPException 404 "User not found")
  | Some target =>
      let temp_password := _temp_password random in
      let! h := hash_password (PBKDF2_ITERATIONS env) salt temp_password in
      let d := end_all_sessions user_ref (reset_user_password now user_ref h d) in
      let d := user_audit actor "account.reset_password" (pu_tenant_id target) user_ref None d in
      Ok (temp_password,
          if truthy_str (pu_tenant_id target)
          then emit (mk_notice (pu_tenant_id target) "account.reset_by_operator" user_ref ["org_admin"] []) d else d)
  end.

(** the roles through which a member decides *)
Definition decision_roles_of (d : db) (tenant_id user_ref : string) : list string :=
  sorted_set (map ra_role (select (fun a => String.eqb (ra_user_ref a) user_ref && String.eqb (ra_status a) "active" &&
    bool_decide (ra_role a ∈ DECISION_ROLES)) (list_role_assignments d tenant_id))).

Definition reset_org_user_password (now : Z) (salt random user_ref : string) (actor : ActorContext) (d : db)
    : res (string * db) :=
  let! tenant_id := manager_of actor d in
  let! _ := org_target tenant_id user_ref d in
  let temp_password := _temp_password random in
  let! h := hash_password (PBKDF2_ITERATIONS env) salt temp_password in
  let d := end_all_sessions user_ref (reset_user_password now user_ref h d) in
  let decision_roles := decision_roles_of d tenant_id user_ref in
  let d := user_audit actor "user.reset_password" (Some tenant_id) user_ref
    (Some (PDict [("decision_roles", PList (map PStr decision_roles)); ("sessions_ended", PBool true)])) d in
  let d := emit (mk_notice (Some tenant_id) "account.reset_by_admin" user_ref [] [user_ref]) d in
  Ok (temp_password,
      if bool_decide (decision_roles = []) then d
      else emit (mk_notice (Some tenant_id) "account.decision_holder_reset" user_ref ["org_admin"] []) d).

(** [ON CONFLICT(user_ref) DO UPDATE SET ...] *)
Definition create_platform_user (now : Z) (row : platform_user) (d : db) : db :=
  set_platform_users (upsert pu_user_ref row (fun u => pu_with_updated_at (sql_now now)
    (pu_with_tenant_id (pu_tenant_id row) (pu_with_platform_role (pu_platform_role row)
      (pu_with_must_change_password (pu_must_change_password row) (pu_with_password_hash (pu_password_hash row)
        (pu_with_email (pu_email row) (pu_with_status (pu_status row) (pu_with_display_name (pu_display_name row) u))))))))
    (platform_users d)) d.

Definition credentialed (now : Z) (user_ref display_name email password_hash status : string) (tenant_id : option string)
    : platform_user :=
  mk_platform_user user_ref status tenant_id None display_name (Some email) (Some password_hash) true None None None None
    (sql_now now) (sql_now now).

(** the temporary password is returned only when it was generated *)
Definition create_org_user (now : Z) (salt random invite_random email display_name status : string)
    (password : option string) (actor : ActorContext) (d : db) : res (option string * string * db) :=
  let! tenant_id := manager_of actor d in
  let! _ := throw_if (negb (mem status ["active"; "suspended"]))
    (HTTPException 400 "status must be 'active' or 'suspended'") in
  let email := normalize_email email in
  let! _ := throw_if (bool_decide (get_user_by_email email d <> None))
    (HTTPException 409 "A user with that email already exists") in
  let generated := default (_temp_password random) (set_var password) in
  let! h := hash_password (PBKDF2_ITERATIONS env) salt generated in
  let d := create_platform_user now (credentialed now email display_name email h status (Some tenant_id)) d in
  let d := user_audit actor "user.create" (Some tenant_id) email None d in
  let! invited := create_invite env now invite_random email tenant_id (Some (Rbac.user_ref actor)) d in
  let (token, d) := invited : string * db in
  Ok (match set_var password with Some _ => None | None => Some generated end, token,
      emit (mk_notice (Some tenant_id) "user.invited" email [] [email]) d).

Definition set_organization_require_mfa (tenant_id : string) (require : bool) (d : db) : db :=
  set_organizations (update_key org_tenant_id tenant_id (org_with_require_mfa require) (organizations d)) d.

Definition set_security_policy (require_mfa : bool) (actor : ActorContext) (d : db) : res (bool * db) :=
  let! tenant_id := manager_of actor d in
  let acting := load_platform_user d (Rbac.user_ref actor) in
  let! _ := throw_if (require_mfa && match acting with
                                     | Some u => truthy_str (pu_password_hash u) && negb (enrolled u)
                                     | None => false
                                     end)
    (HTTPException 400
      "Enroll your own second factor (Security, in the header) before requiring it for the organization") in
  Ok (require_mfa, record_audit (mk_audit (Rbac.user_ref actor) "org.security_policy" (Some tenant_id) (Some "organization")
        (Some tenant_id) (Some (PDict [("require_mfa", PBool require_mfa)]))) (set_organization_require_mfa tenant_id require_mfa d)).
End Accounts.

(** ** Federated sign-in *)

Section Federation.
Context `{PyHost} `{Digest} `{SqlHost}.
Context (env : auth_settings).

(** an account only its organization's provider signs in to *)
Definition federated_user (now : Z) (email display_name tenant_id : string) : platform_user :=
  mk_platform_user email "active" (Some tenant_id) None display_name (Some email) (Some "") false None None None None
    (sql_now now) (sql_now now).

(** [config.get("default_role") or "governance_viewer"], never an administrator's *)
Definition provisioned_role (default_role : option string) : string :=
  let role := default "governance_viewer" (set_var default_role) in
  if bool_decide (role ∈ ADMINISTRATION_ROLES) then "governance_viewer" else role.

(** [claims.get("name") or claims.get("preferred_username") or email], as stored *)
Definition claimed_name (claims : pyval) (email : string) : res string :=
  let! name := py_get claims "name" in
  let! preferred := if truthy name then Ok PNone else py_get claims "preferred_username" in
  sql_text_not_null (py_or name (py_or preferred (PStr email))).

(** [email_verified]: true, false, or not said *)
Definition _provision_user (now : Z) (tenant_id email : string) (claims : pyval) (default_role : option string)
    (email_verified : option bool) : eff platform_user :=
  do! existing := reads (get_user_by_email email) in
  match existing with
  | Some existing =>
      do! _ := eguard (negb (bool_decide (pu_tenant_id existing = Some tenant_id)))
        (SsoError "this account belongs to a different organization") in
      do! _ := eguard (negb (String.eqb (pu_status existing) "active")) (SsoError "account is not active") in
      do! _ := eguard (negb (bool_decide (email_verified = Some true)))
        (SsoError "the identity provider did not assert this email as verified; it cannot be used to sign in to an existing account") in
      eret existing
  | None =>
      do! _ := eguard (bool_decide (email_verified = Some false))
        (SsoError "the identity provider reported this email address as unverified") in
      do! display_name := checks (fun _ => claimed_name claims email) in
      do! _ := writes (create_platform_user now (federated_user now email display_name tenant_id)) in
      do! user := checks (fun d => match load_platform_user d email with Some u => Ok u | None => Raise TypeError end) in
      do! _ := writes (upsert_role_assignment (sql_now now) (Some tenant_id) None None email (provisioned_role default_role) "active") in
      eret user
  end.

(** the end of [sso_callback] and of [saml_acs], once the provider's statement
    is verified: [tenant_id], [email], [claims] and [email_verified] are what it
    says; [action] is auth.sso_login or auth.saml_login *)
Definition federated_login (now : Z) (random action tenant_id email : string) (claims : pyval) (default_role : option string)
    (email_verified : option bool) : eff string :=
  do! user := _provision_user now tenant_id email claims default_role email_verified in
  do! token := create_session env now random (pu_user_ref user) in
  do! _ := writes (auth_audit (pu_user_ref user) action (pu_tenant_id user) None) in
  eret token.
End Federation.
