(* ===== verification/SessionRules.v ===== *)
(** * What a session proves

    Every session in the database was earned: by a password on an account
    without a second factor, by a password and then a code, by the password of
    a signed-in user who changes it, by an unused invite, or by the word of an
    organization's identity provider. *)

From stdpp Require Import base list strings option pretty sets gmap.
From Stdlib Require Import ZArith Lia Ascii.
From S2P Require Import Prelude Py Dates IsoOrder Sql Schema Effects Rbac Requests Decisions DecisionRules Inventory.
From S2P Require Import Throttle Credentials Secrets SignIn Accounts.

Open Scope Z_scope.

(** ** What a step may add *)

Definition held (d : db) : list (string * string) := map (fun s => (ss_token s, ss_user_ref s)) (sessions d).
Definition pending (d : db) : list (string * string * string) :=
  map (fun c => (mc_token c, mc_user_ref c, mc_expires_at c)) (mfa_challenges d).

(** sessions [S] and challenges [C] at most are new *)
Record adds (S : list (string * string)) (C : list (string * string * string)) (d d' : db) : Prop := {
  ad_sessions : held d' ⊆ held d ++ S;
  ad_challenges : pending d' ⊆ pending d ++ C
}.

Lemma subset_app_trans {A} (l l1 l2 X Y : list A) : l1 ⊆ l ++ X -> l2 ⊆ l1 ++ Y -> l2 ⊆ l ++ X ++ Y.
Proof.
  intros H1 H2 x [Hx|Hx]%H2%elem_of_app; [apply H1 in Hx|]; rewrite !elem_of_app in *; tauto.
Qed.

Lemma adds_refl S C d : adds S C d d.
Proof. split; intros x Hx; apply elem_of_app; by left. Qed.

Lemma adds_trans S C S' C' d d1 d2 : adds S C d d1 -> adds S' C' d1 d2 -> adds (S ++ S') (C ++ C') d d2.
Proof. intros [H1 H2] [H3 H4]. split; by eapply subset_app_trans. Qed.

Lemma adds_then S C d d1 d2 : adds [] [] d d1 -> adds S C d1 d2 -> adds S C d d2.
Proof. apply adds_trans. Qed.
Lemma adds_before S C d d1 d2 : adds S C d d1 -> adds [] [] d1 d2 -> adds S C d d2.
Proof. intros H1 H2. pose proof (adds_trans _ _ _ _ _ _ _ H1 H2) as H3. by rewrite !app_nil_r in H3. Qed.

(** neither table grows *)
Lemma adds_tables d d' : sessions d' = sessions d -> mfa_challenges d' = mfa_challenges d -> adds [] [] d d'.
Proof. intros Es Ec. split; [unfold held|unfold pending]; rewrite ?Es, ?Ec, app_nil_r; done. Qed.

Lemma map_select_subset {A B} (f : A -> B) p (t : list A) : map f (select p t) ⊆ map f t.
Proof. intros x (r & -> & [_ Hr]%elem_of_select)%list_elem_of_fmap. by apply list_elem_of_fmap_2. Qed.

Lemma adds_sessions p d : adds [] [] d (set_sessions (delete_where p (sessions d)) d).
Proof. split; rewrite app_nil_r; [apply map_select_subset|done]. Qed.
Lemma adds_challenges p d : adds [] [] d (set_mfa_challenges (delete_where p (mfa_challenges d)) d).
Proof. split; rewrite app_nil_r; [done|apply map_select_subset]. Qed.

Lemma map_update_same {A B} (g : A -> B) p f (t : list A) : (forall r, g (f r) = g r) -> map g (update p f t) = map g t.
Proof. intros Hg. unfold update. rewrite map_map. apply map_ext. intros r. by destruct (p r). Qed.

Section Steps.
Context `{PyHost} `{Digest} `{Kdf} `{HmacSha1} `{Aead}.
Context (env : auth_settings).

(** a handler that gives nobody a session *)
Definition quiet {A} (c : eff A) : Prop := forall d, adds [] [] d (fst (c d)).

Lemma quiet_ret {A} (a : A) : quiet (eret a).
Proof. intros d. apply adds_refl. Qed.
Lemma quiet_raise {A} e : quiet (@eraise A e).
Proof. intros d. apply adds_refl. Qed.
Lemma quiet_reads {A} (f : db -> A) : quiet (reads f).
Proof. intros d. apply adds_refl. Qed.
Lemma quiet_checks {A} (f : db -> res A) : quiet (checks f).
Proof. intros d. apply adds_refl. Qed.
Lemma quiet_guard b e : quiet (eguard b e).
Proof. destruct b; [apply quiet_raise|apply quiet_ret]. Qed.
Lemma quiet_writes f : (forall d, adds [] [] d (f d)) -> quiet (writes f).
Proof. intros Hf d. apply Hf. Qed.
Lemma quiet_commits {A} (f : db -> res (A * db)) :
  (forall d a d', f d = Ok (a, d') -> adds [] [] d d') -> quiet (commits f).
Proof. intros Hf d. unfold commits. destruct (f d) as [[a d']|e] eqn:E; [by eapply Hf|apply adds_refl]. Qed.
Lemma quiet_bind {A B} (c : eff A) (k : A -> eff B) : quiet c -> (forall a, quiet (k a)) -> quiet (ebind c k).
Proof.
  intros Hc Hk d. unfold ebind. specialize (Hc d). destruct (c d) as [d1 [a|e]]; cbn [fst] in *; [|done].
  eapply adds_then; [exact Hc|apply Hk].
Qed.

Lemma quiet_user user_ref f d : adds [] [] d (update_user user_ref f d).
Proof. by apply adds_tables. Qed.
Lemma quiet_audit e d : adds [] [] d (record_audit e d).
Proof. by apply adds_tables. Qed.

Lemma quiet_register env' now subject d b d' : register_failure env' now subject d = Ok (b, d') -> adds [] [] d d'.
Proof.
  unfold register_failure. intros (? & _ & Hr)%rbind_Ok. apply rbind_Ok in Hr as (? & _ & Hr).
  injection Hr as _ <-. by apply adds_tables.
Qed.

Lemma quiet_recovery now user_ref h d b d' : consume_recovery_code now user_ref h d = (b, d') -> adds [] [] d d'.
Proof. intros [= _ <-]. by apply adds_tables. Qed.

Lemma quiet_attempt token n d : adds [] [] d (register_challenge_attempt token n d).
Proof.
  unfold register_challenge_attempt. eapply adds_then; [|apply adds_challenges].
  split; rewrite app_nil_r; [done|]. unfold pending. cbn [mfa_challenges set_mfa_challenges].
  unfold update_key. by rewrite map_update_same.
Qed.
End Steps.

Create HintDb quiet discriminated.
#[export] Hint Resolve quiet_user quiet_audit quiet_attempt adds_refl adds_sessions adds_challenges : quiet.

(** walks a handler's steps *)
Ltac quiet_steps :=
  repeat first
    [ apply quiet_bind; [|intros ?]
    | solve [auto with quiet]
    | match goal with
      | |- quiet (eguard _ _) => apply quiet_guard
      | |- quiet (eret _) => apply quiet_ret
      | |- quiet (eraise _) => apply quiet_raise
      | |- quiet (reads _) => apply quiet_reads
      | |- quiet (checks _) => apply quiet_checks
      | |- quiet (writes _) => apply quiet_writes; intros ?
      | |- quiet _ => case_match
      end ].

Section Handlers.
Context `{PyHost} `{Digest} `{Kdf} `{HmacSha1} `{Aead} `{SqlHost}.
Context (env : auth_settings).

Lemma quiet_clear_mfa now user_ref d : adds [] [] d (clear_mfa now user_ref d).
Proof.
  unfold clear_mfa. eapply adds_then; [|apply adds_challenges]. by apply adds_tables.
Qed.

Lemma quiet_failure login now subject : quiet (commits (register_failure login now subject)).
Proof. apply quiet_commits. intros d b d'. apply quiet_register. Qed.

Lemma quiet_use_code now user_ref h : quiet (commits (fun d => Ok (consume_recovery_code now user_ref h d))).
Proof. apply quiet_commits. intros d b d' [= _ <-]. by apply adds_tables. Qed.

Lemma quiet_resolve now token : quiet (resolve_session env now token).
Proof.
  intros d. unfold resolve_session. destruct (set_var token) as [t|]; [|apply adds_refl].
  destruct (load_session _ _ _) as [s|]; [|apply adds_refl]. destruct (0 <? _)%Z; [|apply adds_refl].
  destruct (session_last_seen s) as [seen|]; [|apply adds_sessions].
  destruct (_ <? _)%Z; [apply adds_sessions|]. destruct (_ <? _)%Z; [|apply adds_refl].
  split; rewrite app_nil_r; [|done]. unfold held, touch_session, update_key. cbn [fst sessions set_sessions].
  by rewrite map_update_same.
Qed.

Lemma quiet_actor now path token : quiet (current_actor env now path token).
Proof. unfold current_actor. apply quiet_bind; [apply quiet_resolve|intros u]. quiet_steps. Qed.

Lemma quiet_second_proof now user code rc : quiet (second_proof env now user code rc).
Proof. unfold second_proof. case_match; [apply quiet_use_code|quiet_steps]. Qed.

Lemma quiet_disable now rq password code rc actor : quiet (mfa_disable env now rq password code rc actor).
Proof.
  unfold mfa_disable. quiet_steps; try apply quiet_second_proof; try apply quiet_clear_mfa; try apply quiet_failure.
  all: by apply adds_tables.
Qed.

Lemma quiet_enable now codes code actor : quiet (mfa_enable env now codes code actor).
Proof.
  unfold mfa_enable, _new_recovery_codes. quiet_steps; try by apply adds_tables.
  apply quiet_commits. intros d [] d' (rows & _ & [= <-])%rbind_Ok. by apply adds_tables.
Qed.

Lemma quiet_setup now secret nonce actor : quiet (mfa_setup env now secret nonce actor).
Proof. unfold mfa_setup. quiet_steps; by apply adds_tables. Qed.

Lemma quiet_logout token : quiet (logout token).
Proof.
  apply quiet_writes. intros d. unfold end_session. destruct (set_var token); [apply adds_sessions|apply adds_refl].
Qed.

(** ** Handlers that sign someone in *)

(** a session for [u] when the handler returns, none when it raises *)
Definition issues {A} (token u : string) (d : db) (out : committed A) : Prop :=
  adds (match out.2 with Ok _ => [(_hash_token token, u)] | Raise _ => [] end) [] d out.1.

Lemma issues_bind {A B} token u (c : eff A) (k : A -> eff B) d :
  quiet c -> (forall a d1, issues token u d1 (k a d1)) -> issues token u d (ebind c k d).
Proof.
  intros Hc Hk. unfold ebind. specialize (Hc d). destruct (c d) as [d1 [a|e]]; cbn [fst] in Hc; [|exact Hc].
  eapply adds_then; [exact Hc|apply Hk].
Qed.

(** after the session, only what cannot raise *)
Lemma issues_then {A B} token u (c : eff A) (k : A -> eff B) d :
  issues token u d (c d) -> (forall a d1, adds [] [] d1 (k a d1).1 /\ exists b, (k a d1).2 = Ok b) ->
  issues token u d (ebind c k d).
Proof.
  intros Hc Hk. unfold issues, ebind in *. destruct (c d) as [d1 [a|e]]; cbn [fst snd] in *; [|exact Hc].
  destruct (Hk a d1) as [Hq [b ->]]. by eapply adds_before.
Qed.

Lemma create_session_issues now random u d : issues random u d (create_session env now random u d).
Proof.
  unfold create_session. apply issues_bind; [apply quiet_writes; intros; apply adds_sessions|intros [] d1].
  apply issues_bind; [apply quiet_checks|intros expires d2]. unfold issues. rewrite run_commits. unfold insert_session.
  destruct (lookup_key _ _ _) eqn:E; [apply adds_refl|]. cbn [eret fst snd]. split; [|by rewrite app_nil_r].
  unfold held. cbn [sessions set_sessions]. rewrite map_app. done.
Qed.

Lemma create_session_token now random u d d' token : create_session env now random u d = (d', Ok token) -> token = random.
Proof.
  unfold create_session. rewrite run_writes, run_checks. destruct (minutes_from _ _); [|done]. rewrite run_commits.
  destruct (insert_session _ _ _ _ _) as [[]|]; [|done]. by intros [= _ <-].
Qed.

Lemma finish_login_issues now random user m d : issues random (pu_user_ref user) d (_finish_login env now random user m d).
Proof.
  unfold _finish_login. apply issues_then; [apply create_session_issues|intros token d1].
  cbn. split; [by apply adds_tables|]. by eexists.
Qed.

(** ** Who was let in, and why *)

(** a password is right for the active account of that address *)
Definition right_password (email password : string) (d : db) (u : platform_user) : Prop :=
  active_user (get_user_by_email email d) = Some u /\ verify_password password (pu_password_hash u) = Ok true.

Lemma quiet_login_failed {A} now email ip user : quiet (login_failed env now email ip user : eff A).
Proof. unfold login_failed. quiet_steps; try apply quiet_failure; by apply adds_tables. Qed.

Lemma create_challenge_adds now h u expires d d' x : create_challenge now h u expires d = Ok (x, d') ->
  adds [] [(h, u, expires)] d d'.
Proof.
  unfold create_challenge. set (kept := delete_where _ _). destruct (lookup_key _ _ kept); [done|].
  intros [= _ <-]. split; [by rewrite app_nil_r|]. unfold pending. cbn [mfa_challenges set_mfa_challenges].
  rewrite map_app. apply list_subseteq_app_iff_l. split; [|intros y Hy; apply elem_of_app; by right].
  intros y Hy. apply elem_of_app. left. eapply map_select_subset, map_select_subset, Hy.
Qed.

Lemma login_failed_raises {A} now email ip user d d' (r : res A) :
  login_failed env now email ip user d = (d', r) -> adds [] [] d d' /\ exists e, r = Raise e.
Proof.
  intros Hrun. split; [by rewrite <-(eff_fst _ _ _ _ Hrun); apply quiet_login_failed|].
  destruct r as [x|e]; [|by exists e]. unfold login_failed in Hrun.
  repeat (apply ebind_Ok in Hrun as (? & ? & _ & Hrun)). done.
Qed.

(** a login lets nobody in without the password, and nobody with a second factor
    on the password alone *)
Lemma login_issues now salt random rq email password d d' r : login env now salt random rq email password d = (d', r) ->
  match r with
  | Ok (SignedIn _) => exists u, right_password email password d u /\ enrolled u = false /\
      adds [(_hash_token random, pu_user_ref u)] [] d d'
  | Ok (MfaRequired c) => exists u expires, right_password email password d u /\ enrolled u = true /\ c = random /\
      minutes_from now MFA_CHALLENGE_TTL_MINUTES = Ok expires /\
      adds [] [(hash_opaque random, pu_user_ref u, expires)] d d'
  | Raise _ => adds [] [] d d'
  end.
Proof.
  unfold login. rewrite run_checks. destruct (client_ip rq) as [ip|]; [|intros [= <- <-]; apply adds_refl].
  intros [(d1 & locked & Hlock & Hrun)|(e & Hlock & ->)]%ebind_case.
  2: { assert (quiet (throttled now (email_subject email) (ip_subject ip))) as Hq by (unfold throttled; quiet_steps).
       specialize (Hq d). by rewrite Hlock in Hq. }
  assert (d1 = d) as ->.
  { unfold throttled, ebind, checks in Hlock. destruct (is_locked _ _ _) as [[|]|]; try (by injection Hlock); done. }
  rewrite run_guard in Hrun. destruct locked; [injection Hrun as <- <-; apply adds_refl|].
  rewrite run_reads, run_checks in Hrun. destruct (active_user _) as [u|] eqn:Eu.
  2: { by apply login_failed_raises in Hrun as (? & e & ->). }
  destruct (verify_password password (pu_password_hash u)) as [[|]|] eqn:Ep;
    [|by apply login_failed_raises in Hrun as (? & e & ->)|injection Hrun as <- <-; apply adds_refl].
  assert (right_password email password d u) as Hright by done.
  rewrite run_writes, run_checks in Hrun. set (d0 := clear_attempts _ d) in *.
  assert (adds [] [] d d0) as Hd0 by by apply adds_tables.
  destruct (needs_rehash _ _) as [weak|]; [|by injection Hrun as <- <-].
  apply ebind_case in Hrun as [(d1 & ? & Hre & Hrun)|(e & Hre & ->)].
  2: { eapply adds_then; [exact Hd0|]. rewrite <-(eff_fst _ _ _ _ Hre).
       refine ((_ : quiet _) d0). destruct weak; quiet_steps; by apply adds_tables. }
  assert (adds [] [] d d1) as Hd1.
  { eapply adds_then; [exact Hd0|]. rewrite <-(eff_fst _ _ _ _ Hre).
    refine ((_ : quiet _) d0). destruct weak; quiet_steps; by apply adds_tables. }
  destruct (enrolled u) eqn:Een.
  - rewrite run_checks in Hrun. destruct (minutes_from now _) as [expires|] eqn:Eex; [|by injection Hrun as <- <-].
    rewrite run_commits in Hrun. destruct (create_challenge _ _ _ _ _) as [[unit_ d2]|] eqn:Ec; [|by injection Hrun as <- <-].
    injection Hrun as <- <-. exists u, expires. split_and!; try done. eapply adds_then; [exact Hd1|].
    by eapply create_challenge_adds.
  - apply ebind_case in Hrun as [(d2 & session & Hf & Hrun)|(e & Hf & ->)];
      pose proof (finish_login_issues now random u None d1) as Hi; rewrite Hf in Hi; unfold issues in Hi; cbn [fst snd] in Hi.
    + injection Hrun as <- <-. exists u. split_and!; [done..|]. by eapply adds_then.
    + by eapply adds_then.
Qed.

(** an unused recovery code, or a code newer than the last one accepted *)
Definition second_factor (now : Z) (user : platform_user) (code recovery_code : option string) (d : db) : Prop :=
  (exists c row, set_var recovery_code = Some c /\ row ∈ mfa_recovery_codes d /\
     usable_code (pu_user_ref user) (recovery_hash c) row = true) \/
  (exists c n, set_var code = Some c /\
     checked_code (_decrypt_secret env (pu_user_ref user) (pu_mfa_secret user)) c (pu_mfa_last_counter user) now = Ok (Some n)).

Lemma quiet_refused {A} now h user ip : quiet (mfa_refused now h user ip : eff A).
Proof. unfold mfa_refused. quiet_steps. by apply adds_tables. Qed.

Lemma refused_raises {A} now h user ip d d' (r : res A) : mfa_refused now h user ip d = (d', r) ->
  adds [] [] d d' /\ exists e, r = Raise e.
Proof.
  intros Hrun. split; [by rewrite <-(eff_fst _ _ _ _ Hrun); apply quiet_refused|].
  destruct r as [x|e]; [|by exists e]. unfold mfa_refused in Hrun.
  repeat (apply ebind_Ok in Hrun as (? & ? & _ & Hrun)). done.
Qed.

Lemma consumed h d : h ∉ map mc_token (mfa_challenges (consume_challenge h d)).
Proof.
  intros (c & -> & Hc)%list_elem_of_fmap. unfold consume_challenge, delete_where in Hc.
  cbn [mfa_challenges set_mfa_challenges] in Hc. apply elem_of_select in Hc as [Hc _].
  apply negb_true_iff, String.eqb_neq in Hc. done.
Qed.

Lemma adds_no_challenge S d d' h : adds S [] d d' -> h ∉ map mc_token (mfa_challenges d) -> h ∉ map mc_token (mfa_challenges d').
Proof.
  intros [_ Hc] Hno (c & -> & Hin)%list_elem_of_fmap. apply Hno. rewrite app_nil_r in Hc.
  assert ((mc_token c, mc_user_ref c, mc_expires_at c) ∈ pending d) as (c' & E & Hin')%list_elem_of_fmap
    by (apply Hc; unfold pending; by apply (list_elem_of_fmap_2 (fun c => (mc_token c, mc_user_ref c, mc_expires_at c)))).
  injection E as -> _ _. by apply list_elem_of_fmap_2.
Qed.

(** signing in after the second factor: the challenge is spent first *)
Lemma finish_spent now random user m h d0 d1 d' r : adds [] [] d0 d1 -> h ∉ map mc_token (mfa_challenges d1) ->
  _finish_login env now random user m d1 = (d', r) ->
  match r with
  | Ok _ => adds [(_hash_token random, pu_user_ref user)] [] d0 d' /\ h ∉ map mc_token (mfa_challenges d')
  | Raise _ => adds [] [] d0 d'
  end.
Proof.
  intros Hq Hno Hrun. pose proof (finish_login_issues now random user m d1) as Hi. unfold issues in Hi.
  rewrite Hrun in Hi. cbn [fst snd] in Hi. destruct r; [split; [by eapply adds_then|by eapply adds_no_challenge]|by eapply adds_then].
Qed.

Lemma mfa_verify_issues now random rq challenge code rc d d' r : mfa_verify env now random rq challenge code rc d = (d', r) ->
  match r with
  | Ok _ => exists row user, load_challenge now (hash_opaque challenge) d = Some row /\
      active_user (load_platform_user d (mc_user_ref row)) = Some user /\ second_factor now user code rc d /\
      adds [(_hash_token random, pu_user_ref user)] [] d d' /\ hash_opaque challenge ∉ map mc_token (mfa_challenges d')
  | Raise _ => adds [] [] d d'
  end.
Proof.
  unfold mfa_verify. cbn zeta. rewrite run_reads. destruct (load_challenge _ _ d) as [row|] eqn:Erow;
    [|intros [= <- <-]; apply adds_refl]. rewrite run_reads.
  destruct (active_user _) as [user|] eqn:Eu; [|rewrite run_writes; intros [= <- <-]; apply adds_challenges].
  destruct (set_var rc) as [c|] eqn:Erc.
  - rewrite run_commits. destruct (consume_recovery_code _ _ _ d) as [used d1] eqn:Euse.
    pose proof (quiet_recovery _ _ _ _ _ _ Euse) as Hq. destruct used.
    + rewrite run_writes, run_reads, run_writes. intros Hrun.
      match type of Hrun with _finish_login _ _ _ _ _ ?x = _ =>
        apply (finish_spent _ _ _ _ (hash_opaque challenge) d x) in Hrun end.
      * destruct r as [x|e]; [|done]. destruct Hrun as [Ha Hno]. exists row, user. split_and!; try done. left.
        injection Euse as Hcount _. apply negb_true_iff, Nat.eqb_neq in Hcount.
        destruct (select (usable_code (pu_user_ref user) (recovery_hash c)) (mfa_recovery_codes d)) as [|y t] eqn:Es.
        { unfold rowcount in Hcount. by rewrite Es in Hcount. }
        exists c, y. assert (y ∈ y :: t) as Hy by left. rewrite <-Es in Hy. apply elem_of_select in Hy as [? ?]. by split_and!.
      * eapply adds_then; [exact Hq|]. eapply adds_then; [apply adds_challenges|by apply adds_tables].
      * unfold auth_audit, record_audit. cbn [mfa_challenges set_audit_trail]. apply consumed.
    + intros [Hr [e ->]]%refused_raises. by eapply adds_then.
  - destruct (set_var code) as [c|] eqn:Ec; [|by intros [Hr [e ->]]%refused_raises].
    rewrite run_checks. destruct (checked_code _ c _ now) as [[n|]|] eqn:En; [|by intros [Hr [e ->]]%refused_raises|intros [= <- <-]; apply adds_refl].
    rewrite !run_writes. intros Hrun.
    match type of Hrun with _finish_login _ _ _ _ _ ?x = _ =>
      apply (finish_spent _ _ _ _ (hash_opaque challenge) d x) in Hrun end.
    + destruct r as [x|e]; [|done]. destruct Hrun as [Ha Hno]. exists row, user. split_and!; try done. right. by exists c, n.
    + eapply adds_then; [|apply adds_challenges]. by apply adds_tables.
    + apply consumed.
Qed.

Lemma change_password_issues now salt random current new actor d d' r :
  change_password env now salt random current new actor d = (d', r) ->
  match r with
  | Ok _ => exists u, load_platform_user d (user_ref actor) = Some u /\ verify_password current (pu_password_hash u) = Ok true /\
      adds [(_hash_token random, user_ref actor)] [] d d'
  | Raise _ => adds [] [] d d'
  end.
Proof.
  unfold change_password. rewrite run_reads, run_checks.
  destruct (load_platform_user d (user_ref actor)) as [u|] eqn:Eu.
  2: { rewrite run_guard. intros [= <- <-]. apply adds_refl. }
  destruct (verify_password _ _) as [[|]|] eqn:Ep; [|rewrite run_guard; intros [= <- <-]; apply adds_refl|intros [= <- <-]; apply adds_refl].
  rewrite run_guard. cbn [negb]. intros Hrun.
  enough (issues random (user_ref actor) d (d', r)) as Hi by (destruct r; [by exists u|exact Hi]).
  rewrite <-Hrun. apply issues_bind; [apply quiet_guard|intros _ d1]. apply issues_bind; [apply quiet_checks|intros h d2].
  apply issues_bind; [apply quiet_writes; intros; by apply adds_tables|intros _ d3].
  apply issues_bind; [apply quiet_writes; intros; apply adds_sessions|intros _ d4].
  apply issues_then; [apply create_session_issues|intros token d5]. cbn. split; [by apply adds_tables|by eexists].
Qed.

Lemma consume_invite_row now token d row d' : consume_invite now token d = Ok (Some row, d') ->
  peek_invite now token d = Ok (Some row) /\ adds [] [] d d'.
Proof.
  unfold consume_invite. destruct (peek_invite now token d) as [[x|]|]; cbn [rbind]; [|done|done].
  destruct (Nat.eqb _ _); [done|]. intros [= <- <-]. split; [done|by apply adds_tables].
Qed.

Lemma quiet_consume_invite now token : quiet (commits (consume_invite now token)).
Proof.
  apply quiet_commits. intros d o d'. unfold consume_invite. intros (i & _ & Hr)%rbind_Ok.
  destruct i; injection Hr as <- <-; [by apply adds_tables|apply adds_refl].
Qed.

Lemma accept_invite_issues now salt random token password d d' r :
  accept_invite env now salt random token password d = (d', r) ->
  match r with
  | Ok _ => exists row, peek_invite now token d = Ok (Some row) /\ adds [(_hash_token random, iv_user_ref row)] [] d d'
  | Raise _ => adds [] [] d d'
  end.
Proof.
  unfold accept_invite. rewrite run_checks. destruct (peek_invite now token d) as [[row|]|] eqn:Epeek;
    [|intros [= <- <-]; apply adds_refl|intros [= <- <-]; apply adds_refl].
  rewrite run_reads. destruct (active_user _); [|intros [= <- <-]; apply adds_refl]. rewrite run_commits.
  destruct (consume_invite now token d) as [[taken d1]|] eqn:Ec; [|intros [= <- <-]; apply adds_refl].
  destruct taken as [row'|].
  2: { intros [= <- <-]. pose proof (quiet_consume_invite now token d) as Hq. unfold commits in Hq. by rewrite Ec in Hq. }
  apply consume_invite_row in Ec as [Epeek' Hq]. rewrite Epeek in Epeek'. injection Epeek' as <-. intros Hrun.
  enough (issues random (iv_user_ref row) d1 (d', r)) as Hi.
  { unfold issues in Hi. cbn [fst snd] in Hi. destruct r; [exists row; split; [done|]|]; by eapply adds_then. }
  rewrite <-Hrun. apply issues_bind; [apply quiet_checks|intros h d2].
  apply issues_bind; [apply quiet_writes; intros; by apply adds_tables|intros _ d3].
  apply issues_bind; [apply quiet_writes; intros; apply adds_sessions|intros _ d4].
  apply issues_then; [apply create_session_issues|intros tok d5]. cbn. split; [by apply adds_tables|by eexists].
Qed.

(** the account a provider's word signs in: an active one of its organization,
    if the address is verified, or a new one under the address *)
Definition vouched (tenant_id email : string) (email_verified : option bool) (d : db) (u : string) : Prop :=
  (exists user, get_user_by_email email d = Some user /\ pu_tenant_id user = Some tenant_id /\
     pu_status user = "active" /\ email_verified = Some true /\ pu_user_ref user = u) \/
  (get_user_by_email email d = None /\ email_verified <> Some false /\ u = email).

Lemma provision_quiet now tenant_id email claims role verified :
  quiet (_provision_user now tenant_id email claims role verified).
Proof. unfold _provision_user. quiet_steps; by apply adds_tables. Qed.

Lemma provision_vouched now tenant_id email claims role verified d d' user :
  _provision_user now tenant_id email claims role verified d = (d', Ok user) ->
  vouched tenant_id email verified d (pu_user_ref user).
Proof.
  unfold _provision_user. rewrite run_reads. destruct (get_user_by_email email d) as [u|] eqn:Eu; rewrite run_guard.
  - destruct (negb _) eqn:E1; [done|]. rewrite run_guard. destruct (negb (String.eqb _ _)) eqn:E2; [done|].
    rewrite run_guard. destruct (negb _) eqn:E3 in |- *; [done|]. intros [= _ <-]. left. exists u.
    apply negb_false_iff in E1, E2, E3. apply bool_decide_eq_true in E1, E3. apply String.eqb_eq in E2. by split_and!.
  - case_bool_decide as Hv; [done|]. rewrite run_checks. destruct (claimed_name claims email); [|done].
    rewrite run_writes, run_checks. destruct (load_platform_user _ email) as [u|] eqn:El; [|done].
    rewrite run_writes. intros [= _ <-]. right. split_and!; [done|done|]. by apply lookup_key_Some in El as [_ ?].
Qed.

Lemma federated_login_issues now random action tenant_id email claims role verified d d' r :
  federated_login env now random action tenant_id email claims role verified d = (d', r) ->
  match r with
  | Ok _ => exists u, vouched tenant_id email verified d u /\ adds [(_hash_token random, u)] [] d d'
  | Raise _ => adds [] [] d d'
  end.
Proof.
  intros Hrun. unfold federated_login in Hrun.
  pose proof (provision_quiet now tenant_id email claims role verified d) as Hq.
  apply ebind_case in Hrun as [(d1 & user & Hp & Hrun)|(e & Hp & ->)]; rewrite Hp in Hq; cbn [fst] in Hq; [|exact Hq].
  apply provision_vouched in Hp.
  assert (issues random (pu_user_ref user) d1 (d', r)) as Hi.
  { rewrite <-Hrun. apply issues_then; [apply create_session_issues|intros token d2].
    cbn. split; [by apply adds_tables|by eexists]. }
  unfold issues in Hi. cbn [fst snd] in Hi. destruct r; [exists (pu_user_ref user); split; [done|]|]; by eapply adds_then.
Qed.

(** ** Administrators *)

Lemma quiet_end_all user_ref d : adds [] [] d (end_all_sessions user_ref d).
Proof. apply adds_sessions. Qed.

Lemma quiet_status now user_ref status d u d' : set_user_status now user_ref status d = Ok (u, d') -> adds [] [] d d'.
Proof.
  unfold set_user_status. destruct (load_platform_user d user_ref); [|done].
  destruct (load_platform_user _ user_ref) in |- *; [|done]. intros [= _ <-]. by apply adds_tables.
Qed.

Lemma quiet_reset now user_ref h d : adds [] [] d (end_all_sessions user_ref (reset_user_password now user_ref h d)).
Proof. eapply adds_then; [|apply quiet_end_all]. by apply adds_tables. Qed.

Lemma quiet_emit n d : adds [] [] d (emit n d).
Proof. by apply adds_tables. Qed.
Lemma quiet_user_audit actor action t u x d : adds [] [] d (user_audit actor action t u x d).
Proof. by apply adds_tables. Qed.

(** the requests that sign nobody in *)
Inductive silent (d : db) : db -> Prop :=
| silent_actor now path token : silent d (current_actor env now path token d).1
| silent_setup now secret nonce actor : silent d (mfa_setup env now secret nonce actor d).1
| silent_enable now codes code actor : silent d (mfa_enable env now codes code actor d).1
| silent_disable now rq password code rc actor : silent d (mfa_disable env now rq password code rc actor d).1
| silent_logout token : silent d (logout token d).1
| silent_org_status now ref status actor u d' : update_org_user_status now ref status actor d = Ok (u, d') -> silent d d'
| silent_account_status now ref status actor u d' : update_account_status now ref status actor d = Ok (u, d') -> silent d d'
| silent_mfa_reset now ref actor u d' : reset_org_user_mfa now ref actor d = Ok (u, d') -> silent d d'
| silent_org_reset now salt random ref actor p d' :
    reset_org_user_password env now salt random ref actor d = Ok (p, d') -> silent d d'
| silent_account_reset now salt random ref actor p d' :
    reset_account_password env now salt random ref actor d = Ok (p, d') -> silent d d'
| silent_create now salt random invite_random email name status password actor p token d' :
    create_org_user env now salt random invite_random email name status password actor d = Ok (p, token, d') -> silent d d'
| silent_policy required actor x d' : set_security_policy required actor d = Ok (x, d') -> silent d d'.

Ltac unit_of_work :=
  repeat match goal with
    | H : rbind _ _ = Ok _ |- _ => apply rbind_Ok in H as (? & ? & ?)
    | H : (let (_, _) := ?x in _) = Ok _ |- _ => destruct x
    end.

Lemma silent_adds d d' : silent d d' -> adds [] [] d d'.
Proof.
  intros [now path token|now secret nonce actor|now codes code actor|now rq password code rc actor|token
    |now ref status actor u d1 Hr|now ref status actor u d1 Hr|now ref actor u d1 Hr|now salt random ref actor pw d1 Hr
    |now salt random ref actor pw d1 Hr|now salt random ir email name status password actor pw token d1 Hr|required actor x d1 Hr].
  - apply quiet_actor.
  - apply quiet_setup.
  - apply quiet_enable.
  - apply quiet_disable.
  - apply quiet_logout.
  - unfold update_org_user_status in Hr. unit_of_work. simplify_eq.
    eapply adds_then; [by eapply quiet_status|apply quiet_user_audit].
  - unfold update_account_status in Hr. apply rbind_Ok in Hr as (? & _ & Hr). apply rbind_Ok in Hr as (? & _ & Hr).
    destruct (load_platform_user d ref); [|done]. unit_of_work. simplify_eq.
    eapply adds_then; [by eapply quiet_status|apply quiet_user_audit].
  - unfold reset_org_user_mfa in Hr. unit_of_work. simplify_eq. eapply adds_then; [apply quiet_clear_mfa|].
    eapply adds_then; [apply quiet_end_all|apply quiet_user_audit].
  - unfold reset_org_user_password in Hr. unit_of_work. simplify_eq. eapply adds_then; [apply quiet_reset|].
    eapply adds_then; [apply quiet_user_audit|]. eapply adds_then; [apply quiet_emit|].
    case_bool_decide; [apply adds_refl|apply quiet_emit].
  - unfold reset_account_password in Hr. apply rbind_Ok in Hr as (? & _ & Hr). destruct (load_platform_user d ref); [|done].
    unit_of_work. simplify_eq. eapply adds_then; [apply quiet_reset|]. eapply adds_then; [apply quiet_user_audit|].
    destruct (truthy_str _); [apply quiet_emit|apply adds_refl].
  - unfold create_org_user in Hr. unit_of_work. simplify_eq.
    assert (forall who t0 d3 d4 t, create_invite env now ir who t0 (Some (user_ref actor)) d3 = Ok (t, d4) ->
      adds [] [] d3 d4) as Hinvite.
    { intros who t0 d3 d4 t. unfold create_invite. intros (? & _ & Hi)%rbind_Ok. destruct (lookup_key _ _ _); [done|].
      injection Hi as _ <-. by apply adds_tables. }
    eapply adds_then; [|apply quiet_emit]. eapply adds_then; [|by eapply Hinvite]. by apply adds_tables.
  - unfold set_security_policy in Hr. unit_of_work. simplify_eq. by apply adds_tables.
Qed.

(** ** Histories *)

Inductive call :=
| CLogin (now : Z) (random email password : string)
| CVerify (now : Z) (random challenge : string) (code recovery_code : option string)
| CChange (random current_password : string) (actor : ActorContext)
| CInvited (now : Z) (random token : string)
| CFederated (random tenant_id email : string) (email_verified : option bool).

(** a request that may sign somebody in, and the database it found *)
Record entry := mk_entry { en_call : call; en_before : db }.

(** the requests so far, the last first; [other] is the rest of the platform *)
Inductive history : list entry -> db -> Prop :=
| history_start d : sessions d = [] -> mfa_challenges d = [] -> history [] d
| history_login l d now salt random rq email password d' r :
    history l d -> login env now salt random rq email password d = (d', r) ->
    history (mk_entry (CLogin now random email password) d :: l) d'
| history_verify l d now random rq challenge code rc d' r :
    history l d -> in_range now = true -> mfa_verify env now random rq challenge code rc d = (d', r) ->
    history (mk_entry (CVerify now random challenge code rc) d :: l) d'
| history_change l d now path token salt random current new actor d1 d' r :
    history l d -> current_actor env now path token d = (d1, Ok actor) ->
    change_password env now salt random current new actor d1 = (d', r) ->
    history (mk_entry (CChange random current actor) d :: l) d'
| history_invited l d now salt random token password d' r :
    history l d -> accept_invite env now salt random token password d = (d', r) ->
    history (mk_entry (CInvited now random token) d :: l) d'
| history_federated l d now random action tenant_id email claims default_role verified d' r :
    history l d -> federated_login env now random action tenant_id email claims default_role verified d = (d', r) ->
    history (mk_entry (CFederated random tenant_id email verified) d :: l) d'
| history_silent l d d' : history l d -> silent d d' -> history l d'
| history_other l d d' :
    history l d -> sessions d' = sessions d -> mfa_challenges d' = mfa_challenges d -> history l d'.

(** a login with the password of [u], who has a second factor, gave this challenge *)
Definition passed (l : list entry) (h u : string) (issued : Z) : Prop :=
  exists random email password before user, mk_entry (CLogin issued random email password) before ∈ l /\
    right_password email password before user /\ pu_user_ref user = u /\ enrolled user = true /\ h = hash_opaque random.

(** ... that redeems until [expires] *)
Definition redeemable (l : list entry) (h u expires : string) : Prop :=
  exists issued, passed l h u issued /\ minutes_from issued MFA_CHALLENGE_TTL_MINUTES = Ok expires.

(** why [e], after the requests [l], signs [u] in *)
Definition earned (l : list entry) (e : entry) (token_hash u : string) : Prop :=
  match en_call e with
  | CLogin now random email password => token_hash = _hash_token random /\
      exists user, right_password email password (en_before e) user /\ enrolled user = false /\ pu_user_ref user = u
  | CVerify now random challenge code rc => token_hash = _hash_token random /\
      (exists user, active_user (load_platform_user (en_before e) u) = Some user /\ second_factor now user code rc (en_before e)) /\
      exists issued, passed l (hash_opaque challenge) u issued /\ (now < issued + MFA_CHALLENGE_TTL_MINUTES * minute_us)%Z
  | CChange random current actor => token_hash = _hash_token random /\ u = user_ref actor /\
      (exists session, (session, u) ∈ held (en_before e)) /\
      exists user, load_platform_user (en_before e) u = Some user /\ verify_password current (pu_password_hash user) = Ok true
  | CInvited now random token => token_hash = _hash_token random /\
      exists row, peek_invite now token (en_before e) = Ok (Some row) /\ iv_user_ref row = u
  | CFederated random tenant_id email verified => token_hash = _hash_token random /\
      vouched tenant_id email verified (en_before e) u
  end.

Definition all_earned (l : list entry) (d : db) : Prop :=
  (forall token_hash u, (token_hash, u) ∈ held d -> exists l1 e l2, l = l1 ++ e :: l2 /\ earned l2 e token_hash u) /\
  (forall h u expires, (h, u, expires) ∈ pending d -> redeemable l h u expires).

Lemma redeemable_cons e l h u expires : redeemable l h u expires -> redeemable (e :: l) h u expires.
Proof.
  intros (issued & (random & email & password & before & user & Hin & Hrest) & Hex). exists issued. split; [|done].
  exists random, email, password, before, user. split; [by right|done].
Qed.

(** an unexpired challenge was given less than its time to live ago *)
Lemma redeemable_in_time l h u expires now : redeemable l h u expires -> in_range now = true ->
  str_ltb (clock_iso now) expires = true ->
  exists issued, passed l h u issued /\ (now < issued + MFA_CHALLENGE_TTL_MINUTES * minute_us)%Z.
Proof.
  intros (issued & Hp & Hex) Hnow Hlt. exists issued. split; [done|]. unfold minutes_from in Hex.
  destruct (_ && in_range _) eqn:E in Hex; [|done]. injection Hex as <-. apply andb_prop in E as [_ Hr].
  rewrite clock_iso_ltb in Hlt by done. by apply Z.ltb_lt.
Qed.

(** a step that adds nothing, or one session that [e] earns, or one challenge it gives *)
Lemma all_earned_step S C e l d d' : all_earned l d -> adds S C d d' ->
  (forall token_hash u, (token_hash, u) ∈ S -> earned l e token_hash u) ->
  (forall h u expires, (h, u, expires) ∈ C -> redeemable (e :: l) h u expires) ->
  all_earned (e :: l) d'.
Proof.
  intros [Hs Hc] [As Ac] HS HC. split.
  - intros token_hash u [Hin|Hin]%As%elem_of_app.
    + destruct (Hs _ _ Hin) as (l1 & e' & l2 & -> & He). exists (e :: l1), e', l2. by split.
    + exists [], e, l. split; [done|by apply HS].
  - intros h u expires [Hin|Hin]%Ac%elem_of_app; [by apply redeemable_cons, Hc|by apply HC].
Qed.

Lemma all_earned_keep l d d' : all_earned l d -> adds [] [] d d' -> all_earned l d'.
Proof.
  intros [Hs Hc] [As Ac]. rewrite app_nil_r in As, Ac. split; [intros ? ? ?; by apply Hs, As|intros ? ? ? ?; by apply Hc, Ac].
Qed.

(** a request made with a session was made by somebody who has one *)
Lemma actor_has_session now path token d d1 actor : current_actor env now path token d = (d1, Ok actor) ->
  (exists session, (session, user_ref actor) ∈ held d) /\ platform_users d1 = platform_users d.
Proof.
  unfold current_actor. intros (d2 & o & Hres & Hrun)%ebind_Ok.
  assert (platform_users d2 = platform_users d /\ forall u, o = Some u -> exists session, (session, u) ∈ held d) as [Eu Hheld].
  { unfold resolve_session in Hres. destruct (set_var token) as [t|]; [|by injection Hres as <- <-].
    destruct (load_session now _ d) as [s|] eqn:Es; [|by injection Hres as <- <-].
    apply select1_Some in Es as [Hin _].
    assert (exists session, (session, ss_user_ref s) ∈ held d) as Hs.
    { exists (ss_token s). unfold held. by apply (list_elem_of_fmap_2 (fun s => (ss_token s, ss_user_ref s))). }
    destruct (0 <? _)%Z; [|injection Hres as <- <-; split; [done|by intros u [= <-]]].
    destruct (session_last_seen s); [|by injection Hres as <- <-].
    destruct (_ <? _)%Z; [by injection Hres as <- <-|].
    destruct (_ <? _)%Z; injection Hres as <- <-; (split; [done|by intros u [= <-]]). }
  destruct (set_var o) as [u|] eqn:Eo; [|done].
  assert (o = Some u) as -> by (destruct o as [x|]; cbn in Eo; [destruct (is_empty x); congruence|done]).
  rewrite run_reads in Hrun. destruct (load_platform_user d2 u) as [user|]; [|done].
  rewrite !run_guard in Hrun. destruct (negb _); [done|]. rewrite run_reads in Hrun. rewrite run_guard in Hrun.
  destruct (_ && _); [done|]. rewrite run_reads in Hrun. rewrite run_guard in Hrun. destruct (_ && _); [done|].
  injection Hrun as <- <-. cbn [user_ref]. split; [by apply Hheld|done].
Qed.

Lemma history_all_earned l d : history l d -> all_earned l d.
Proof.
  induction 1 as [d Es Ec|l d now salt random rq email password d' r _ IH Hrun|l d now random rq challenge code rc d' r _ IH Hnow Hrun
    |l d now path token salt random current new actor d1 d' r _ IH Hactor Hrun|l d now salt random token password d' r _ IH Hrun
    |l d now random action tenant_id email claims role verified d' r _ IH Hrun|l d d' _ IH Hs|l d d' _ IH Es Ec].
  - split; unfold held, pending; rewrite ?Es, ?Ec; [by intros ? ? ?%not_elem_of_nil|by intros ? ? ? ?%not_elem_of_nil].
  - apply login_issues in Hrun. destruct r as [[c|session]|e].
    + destruct Hrun as (u & expires & Hright & Hen & -> & Hex & Ha). eapply all_earned_step; [exact IH|exact Ha|by intros ? ? ?%not_elem_of_nil|].
      intros h u' ex [= -> -> ->]%list_elem_of_singleton. exists now. split; [|done].
      exists random, email, password, d, u. split_and!; [left|done..].
    + destruct Hrun as (u & Hright & Hen & Ha). eapply all_earned_step; [exact IH|exact Ha| |by intros ? ? ? ?%not_elem_of_nil].
      intros h u' [= -> ->]%list_elem_of_singleton. cbn. split; [done|]. by exists u.
    + by eapply all_earned_step; [exact IH|exact Hrun|intros ? ? ?%not_elem_of_nil|intros ? ? ? ?%not_elem_of_nil].
  - apply mfa_verify_issues in Hrun. destruct r as [x|e].
    + destruct Hrun as (row & user & Hload & Hactive & Hfactor & Ha & _).
      eapply all_earned_step; [exact IH|exact Ha| |by intros ? ? ? ?%not_elem_of_nil].
      assert (pu_user_ref user = mc_user_ref row) as Eref.
      { unfold active_user in Hactive. destruct (load_platform_user d _) as [x0|] eqn:El; [|done].
        destruct (String.eqb _ _); [|done]. injection Hactive as <-. by apply lookup_key_Some in El as [_ ?]. }
      intros h u [= -> ->]%list_elem_of_singleton. cbn. split; [done|]. split; [exists user; by rewrite Eref|].
      apply select1_Some in Hload as [Hin [Et%String.eqb_eq Hlt]%andb_prop].
      destruct IH as [_ Hc]. eapply redeemable_in_time; [|exact Hnow|exact Hlt]. apply Hc. rewrite Eref, <-Et. unfold pending.
      by apply (list_elem_of_fmap_2 (fun c => (mc_token c, mc_user_ref c, mc_expires_at c))).
    + by eapply all_earned_step; [exact IH|exact Hrun|intros ? ? ?%not_elem_of_nil|intros ? ? ? ?%not_elem_of_nil].
  - pose proof (quiet_actor now path token d) as Hq. rewrite Hactor in Hq. cbn [fst] in Hq.
    apply actor_has_session in Hactor as [Hsession Eu]. apply change_password_issues in Hrun. destruct r as [x|e].
    + destruct Hrun as (u & Hu & Hp & Ha). eapply all_earned_step; [exact IH|by eapply adds_then| |by intros ? ? ? ?%not_elem_of_nil].
      intros h u' [= -> ->]%list_elem_of_singleton. cbn. split_and!; [done..|]. exists u. split; [|done].
      unfold load_platform_user in *. by rewrite <-Eu.
    + eapply all_earned_step; [exact IH|by eapply adds_then|by intros ? ? ?%not_elem_of_nil|by intros ? ? ? ?%not_elem_of_nil].
  - apply accept_invite_issues in Hrun. destruct r as [x|e].
    + destruct Hrun as (row & Hpeek & Ha). eapply all_earned_step; [exact IH|exact Ha| |by intros ? ? ? ?%not_elem_of_nil].
      intros h u [= -> ->]%list_elem_of_singleton. cbn. split; [done|]. by exists row.
    + by eapply all_earned_step; [exact IH|exact Hrun|intros ? ? ?%not_elem_of_nil|intros ? ? ? ?%not_elem_of_nil].
  - apply federated_login_issues in Hrun. destruct r as [x|e].
    + destruct Hrun as (u & Hu & Ha). eapply all_earned_step; [exact IH|exact Ha| |by intros ? ? ? ?%not_elem_of_nil].
      by intros h u' [= -> ->]%list_elem_of_singleton.
    + by eapply all_earned_step; [exact IH|exact Hrun|intros ? ? ?%not_elem_of_nil|intros ? ? ? ?%not_elem_of_nil].
  - eapply all_earned_keep; [exact IH|by apply silent_adds].
  - eapply all_earned_keep; [exact IH|by apply adds_tables].
Qed.

(** C30. A session is earned.  Whatever requests the platform has served since it had
    no sessions, every session in its database was given to its user for one of
    five reasons: a login with the right password of an active account without
    a second factor; an unused recovery code or a fresh authenticator code of an
    active account, redeeming a challenge less than five minutes old that a login
    with that account's right password was given; a change of password by
    somebody who held a session and knew the current one; an unused invite; or
    the verified statement of an organization's identity provider, for an active
    account of that organization whose address the provider says is verified, or
    for a new account under an address nobody had.  In particular the password
    alone never opens an enrolled account.  How the provider's statement is
    verified is not modelled: the statement is an argument of the request. *)
Theorem sessions_are_earned l d : history l d -> forall token_hash u, (token_hash, u) ∈ held d ->
  exists l1 e l2, l = l1 ++ e :: l2 /\ earned l2 e token_hash u.
Proof. intros Hl. exact (proj1 (history_all_earned l d Hl)). Qed.
End Handlers.

(** ** Two people sign in, one with a second factor *)

Module Demo.
#[export] Instance host : PyHost :=
  {| repr _ := "?"; str_int s := match digits s with Some n => Ok n | None => Raise (ValueError "invalid literal") end;
     str_float _ := Raise TypeError |}.
#[export] Instance digest : Digest := fun s => s.
#[export] Instance kdf : Kdf := fun algorithm password salt rounds => Ok (password +:+ salt).
#[export] Instance hmac : HmacSha1 :=
  {| hmac_sha1 key message := String.string_of_list_ascii (repeat (ascii_of_N 0) 20); hmac_sha1_length _ _ := eq_refl |}.
#[export] Instance aead : Aead :=
  {| aesgcm_encrypt key nonce value aad := value; aesgcm_decrypt key nonce ct aad := Some ct;
     urlsafe_b64encode s := s; urlsafe_b64decode s := Some s |}.

#[export] Instance sql_host : SqlHost := fun _ => "0.0".

Definition env : auth_settings :=
  mk_auth_settings default_login_settings (mk_secret_settings None None None (Some "1")) 12 30 1000 7.
Definition rq : request := mk_request None None None (Some "10.0.0.1").
Definition password : string := "correct horse".
Definition stored_hash : option string :=
  match hash_password 1000 "salt" password with Ok h => Some h | Raise _ => None end.
Definition noon : Z := 63900000000000000.

Definition ann : platform_user :=
  mk_platform_user "ann" "active" (Some "acme") None "Ann" (Some "ann@acme") stored_hash false None None None None "t0" "t0".
(** enrolled; the secret is forty bits of zeros *)
Definition bob : platform_user :=
  mk_platform_user "bob" "active" (Some "acme") None "Bob" (Some "bob@acme") stored_hash false (Some "AAAAAAAA") None
    (Some "t0") None "t0" "t0".
Definition start : db := set_platform_users [ann; bob] empty_db.

Definition ann_in : db := (login env noon "s" "token-a" rq "Ann@acme " password start).1.
Definition challenged : db := (login env noon "s" "challenge" rq "bob@acme" password ann_in).1.
Definition bob_in : db := (mfa_verify env (noon + 60000000) "token-b" rq "challenge" (Some "000000") None challenged).1.

Example who_is_in : held bob_in = [("token-a", "ann"); ("token-b", "bob")] /\ pending bob_in = [] /\
  pending challenged = [("challenge", "bob", "2025-11-28T08:05:00+00:00")] /\ held challenged = [("token-a", "ann")].
Proof. vm_compute. done. Qed.

(** a provider's word opens a new account, and no account of another organization *)
Example newcomer :
  let claims := PDict [("name", PStr "Carl")] in
  let out := federated_login env noon "token-c" "auth.sso_login" "acme" "carl@acme" claims (Some "org_admin") None bob_in in
  (snd out, held (fst out)) = (Ok "token-c", [("token-a", "ann"); ("token-b", "bob"); ("token-c", "carl@acme")]) /\
  map ra_role (role_assignments (fst out)) = ["governance_viewer"] /\
  snd (federated_login env noon "token-c" "auth.saml_login" "other" "bob@acme" claims None (Some true) bob_in) =
    Raise (SsoError "this account belongs to a different organization").
Proof. vm_compute. done. Qed.

Lemma signed_in_history : history env
  [mk_entry (CVerify (noon + 60000000) "token-b" "challenge" (Some "000000") None) challenged;
   mk_entry (CLogin noon "challenge" "bob@acme" password) ann_in;
   mk_entry (CLogin noon "token-a" "Ann@acme " password) start] bob_in.
Proof.
  eapply history_verify; [|vm_compute; reflexivity|unfold bob_in; apply surjective_pairing].
  eapply history_login; [|unfold challenged; apply surjective_pairing].
  eapply history_login; [|unfold ann_in; apply surjective_pairing].
  by apply history_start.
Qed.
End Demo.
Import Demo.

Lemma sessions_are_earned_witness :
  ("token-b", "bob") ∈ held Demo.bob_in /\
  exists l1 e l2,
    [mk_entry (CVerify (Demo.noon + 60000000) "token-b" "challenge" (Some "000000") None) Demo.challenged;
     mk_entry (CLogin Demo.noon "challenge" "bob@acme" Demo.password) Demo.ann_in;
     mk_entry (CLogin Demo.noon "token-a" "Ann@acme " Demo.password) Demo.start] = l1 ++ e :: l2 /\
    earned Demo.env l2 e "token-b" "bob".
Proof.
  assert (("token-b", "bob") ∈ held Demo.bob_in) as Hin by (apply (bool_decide_unpack _); vm_compute; exact I).
  split; [exact Hin|]. exact (sessions_are_earned Demo.env _ Demo.bob_in Demo.signed_in_history "token-b" "bob" Hin).
Defined.
