(* ===== verification/SignInRules.v ===== *)
(** * What signing in guarantees

    How many passwords an account can be tried with, what a session proves
    about its holder, that a code works once, and when a session ends. *)

From stdpp Require Import base list strings option pretty relations.
From Stdlib Require Import ZArith Lia Sorted.
From S2P Require Import Prelude Py Dates Sql Schema Effects Rbac Requests Decisions IsoOrder DecisionRules Throttle.
From S2P Require Import Credentials Secrets SignIn Accounts SessionRules.

Open Scope Z_scope.

(** * What the login throttle guarantees

    The table of counters and texts behaves as a window of instants: from that
    view, the number of wrong passwords an account can be tried with in any
    stretch of time is bounded. *)

(** ** The window a row stands for *)

Record window := mk_window { w_count : Z; w_first : Z; w_locked : option Z }.

Section Window.
Context (threshold span lockout : Z).

Definition locked_at (now : Z) (w : option window) : bool :=
  match w with Some w => match w_locked w with Some l => now <? l | None => false end | None => false end.

(** the window is over, and no lock holds *)
Definition over (now : Z) (w : window) : bool :=
  (w_first w <? now - span) && match w_locked w with Some l => l <? now | None => true end.

Definition bump (now : Z) (w : option window) : window :=
  match w with
  | None => mk_window 1 now None
  | Some w =>
      let w := if over now w then mk_window 0 now None else w in
      mk_window (w_count w + 1) (w_first w)
        (if threshold <=? w_count w + 1 then Some (now + lockout) else w_locked w)
  end.

(** the attempts that are tried: the others meet a lock *)
Fixpoint tried (w : option window) (times : list Z) : list Z :=
  match times with
  | [] => []
  | now :: times => if locked_at now w then tried w times else now :: tried (Some (bump now w)) times
  end.

Definition within (t now : Z) : bool := (t <=? now) && (now <? t + span).
Definition tried_within (t : Z) (w : option window) (times : list Z) : nat :=
  length (filter (fun now => within t now = true) (tried w times)).

(** ** The bound *)

Context (Hthreshold : 2 <= threshold) (Hlockout : span <= lockout).

Lemma tried_within_cons t w now times : tried_within t w (now :: times) =
  if locked_at now w then tried_within t w times
  else ((if within t now then 1 else 0) + tried_within t (Some (bump now w)) times)%nat.
Proof.
  unfold tried_within. cbn [tried]. destruct (locked_at now w); [done|]. rewrite filter_cons.
  case_decide as E; destruct (within t now); done.
Qed.

Lemma tried_past t w times : Forall (fun now => t + span <= now) times -> tried_within t w times = 0%nat.
Proof.
  intros HF. revert w. induction HF as [|now times Hn _ IH]; intros w; [done|]. rewrite tried_within_cons.
  destruct (locked_at now w); [apply IH|]. rewrite IH. unfold within.
  rewrite (proj2 (Z.ltb_ge now (t + span))) by lia. by rewrite andb_false_r.
Qed.

(** a lock that lasts to the end *)
Lemma tried_locked t w l times : StronglySorted Z.le times -> w_locked w = Some l -> t + span <= l ->
  tried_within t (Some w) times = 0%nat.
Proof.
  intros Hs Hl Hend. induction Hs as [|now times _ IH HF]; [done|]. destruct (Z.ltb_spec now l) as [Hlt|Hge].
  - rewrite tried_within_cons. cbn [locked_at]. rewrite Hl. by rewrite (proj2 (Z.ltb_lt now l)).
  - apply tried_past. constructor; [lia|]. eapply Forall_impl; [exact HF|]. intros x Hx. cbn in Hx. lia.
Qed.

Lemma bump_open now w : over now w = false ->
  w_first (bump now (Some w)) = w_first w /\ w_count (bump now (Some w)) = w_count w + 1.
Proof. intros Eo. unfold bump. by rewrite Eo. Qed.

(** the window began after [t]: it is not over before the end *)
Lemma tried_from t w times : StronglySorted Z.le times -> Forall (Z.le t) times -> t <= w_first w ->
  Z.of_nat (tried_within t (Some w) times) <= Z.max 1 (threshold - w_count w).
Proof.
  intros Hs Ht. revert w. induction Hs as [|now times Hs IH HF]; intros w Hw; [unfold tried_within; cbn; lia|].
  apply Forall_cons in Ht as [Hnow Ht]. rewrite tried_within_cons. destruct (locked_at now (Some w)) eqn:El; [by apply IH|].
  destruct (Z.ltb_spec now (t + span)) as [Hin|Hout].
  2: { rewrite tried_past; [|eapply Forall_impl; [exact HF|]; intros x Hx; cbn in Hx; lia]. unfold within.
       rewrite (proj2 (Z.ltb_ge now (t + span))) by lia. rewrite andb_false_r. lia. }
  assert (within t now = true) as -> by (unfold within; apply andb_true_intro; split; [apply Z.leb_le|apply Z.ltb_lt]; lia).
  cbv iota.
  assert (over now w = false) as Eo by (unfold over; rewrite (proj2 (Z.ltb_ge (w_first w) (now - span))) by lia; done).
  destruct (Z.leb_spec threshold (w_count w + 1)) as [Hc|Hc].
  - rewrite (tried_locked t _ (now + lockout)); [lia|done| |lia].
    unfold bump. rewrite Eo. cbn [w_locked]. by rewrite (proj2 (Z.leb_le threshold (w_count w + 1))).
  - destruct (bump_open now w Eo) as [Ef Ec]. specialize (IH Ht (bump now (Some w))). rewrite Ef, Ec in IH.
    specialize (IH Hw). lia.
Qed.

(** any window: what is left of it, and one more *)
Lemma tried_in t w times : StronglySorted Z.le times -> Forall (Z.le t) times ->
  Z.of_nat (tried_within t (Some w) times) <= threshold + Z.max 0 (threshold - 1 - w_count w).
Proof.
  intros Hs Ht. revert w. induction Hs as [|now times Hs IH HF]; intros w; [unfold tried_within; cbn; lia|].
  apply Forall_cons in Ht as [Hnow Ht]. rewrite tried_within_cons. destruct (locked_at now (Some w)) eqn:El; [by apply IH|].
  destruct (within t now) eqn:Ew; [|specialize (tried_past t (Some (bump now (Some w))) times)].
  2: { intros Hpast. rewrite Hpast; [lia|]. unfold within in Ew. rewrite (proj2 (Z.leb_le t now)) in Ew by lia.
       apply Z.ltb_ge in Ew. eapply Forall_impl; [exact HF|]. intros x Hx. cbn in Hx. lia. }
  destruct (over now w) eqn:Eo.
  - pose proof (tried_from t (bump now (Some w)) times Hs Ht) as Hf. unfold bump in Hf. rewrite Eo in Hf.
    cbn [w_first w_count] in Hf. unfold bump. rewrite Eo. cbn [w_first w_count] in *. specialize (Hf Hnow). lia.
  - destruct (Z.leb_spec threshold (w_count w + 1)) as [Hc|Hc].
    + rewrite (tried_locked t _ (now + lockout)); [lia|done| |].
      * unfold bump. rewrite Eo. cbn [w_locked]. by rewrite (proj2 (Z.leb_le threshold (w_count w + 1))).
      * unfold within in Ew. apply andb_prop in Ew as [_ Ew%Z.ltb_lt]. lia.
    + specialize (IH Ht (bump now (Some w))). rewrite (proj2 (bump_open now w Eo)) in IH. lia.
Qed.

Definition counts_from_one (w : option window) : Prop := match w with Some w => 1 <= w_count w | None => True end.

Lemma bump_counts now w : counts_from_one w -> counts_from_one (Some (bump now w)).
Proof. destruct w as [w|]; cbn; [|lia]. intros Hc. destruct (over now w); cbn; lia. Qed.

Lemma tried_bound t w times : StronglySorted Z.le times -> counts_from_one w ->
  Z.of_nat (tried_within t w times) <= 2 * threshold - 2.
Proof.
  intros Hs. revert w. induction Hs as [|now times Hs IH HF]; intros w Hw; [unfold tried_within; cbn; lia|].
  destruct (Z.leb_spec t now) as [Hnow|Hnow].
  - assert (Forall (Z.le t) (now :: times)) as Ht.
    { constructor; [done|]. eapply Forall_impl; [exact HF|]. intros x Hx. cbn in Hx. lia. }
    assert (StronglySorted Z.le (now :: times)) as Hs' by by constructor.
    destruct w as [w|]; [pose proof (tried_in t w _ Hs' Ht); cbn in Hw; lia|].
    rewrite tried_within_cons. cbn [locked_at]. apply Forall_cons in Ht as [_ Ht].
    pose proof (tried_from t (bump now None) times Hs Ht Hnow) as Hf. cbn [w_count bump] in Hf.
    destruct (within t now); cbn; lia.
  - rewrite tried_within_cons. destruct (locked_at now w); [by apply IH|]. unfold within.
    rewrite (proj2 (Z.leb_gt t now)) by lia. cbn [andb Nat.add]. apply IH. by apply bump_counts.
Qed.
End Window.

(** ** The table holds the window *)

Definition stored (subject : string) (w : window) : throttle_row :=
  mk_throttle_row subject (w_count w) (Some (clock_iso (w_first w))) (clock_iso <$> w_locked w).

Record window_ok (w : window) : Prop := {
  wo_count : 1 <= w_count w;
  wo_first : in_range (w_first w) = true;
  wo_locked : forall l, w_locked w = Some l -> in_range l = true
}.

Record throttle_view (subject : string) (d : db) (w : option window) : Prop := {
  tv_row : lookup_key lt_subject subject (login_throttle d) = stored subject <$> w;
  tv_ok : forall x, w = Some x -> window_ok x
}.

(** the calendar holds the instants the policy computes *)
Record timely (p : throttle_policy) (now : Z) : Prop := {
  ti_now : in_range now = true;
  ti_cutoff : minutes_from now (- tp_window_minutes p) = Ok (clock_iso (now - tp_window_minutes p * minute_us));
  ti_cutoff_in : in_range (now - tp_window_minutes p * minute_us) = true;
  ti_lock : minutes_from now (tp_lockout_minutes p) = Ok (clock_iso (now + tp_lockout_minutes p * minute_us));
  ti_lock_in : in_range (now + tp_lockout_minutes p * minute_us) = true
}.

Lemma throttle_view_frame subject d d' w :
  lookup_key lt_subject subject (login_throttle d') = lookup_key lt_subject subject (login_throttle d) ->
  throttle_view subject d w -> throttle_view subject d' w.
Proof. intros E [Hrow Hok]. constructor; [by rewrite E|done]. Qed.

Lemma clock_iso_truthy t : in_range t = true -> is_empty (clock_iso t) = false.
Proof.
  intros Ht. destruct (is_empty (clock_iso t)) eqn:E; [|done]. apply is_empty_true in E.
  pose proof (iso_roundtrip t Ht) as Hr. unfold clock_iso in E. by rewrite E in Hr.
Qed.

Lemma is_locked_view now subject d w : throttle_view subject d w -> is_locked now subject d = Ok (locked_at now w).
Proof.
  intros [Hrow Hok]. unfold is_locked. rewrite Hrow. destruct w as [w|]; [|done].
  cbn [fmap option_fmap option_map stored lt_locked_until locked_at]. destruct (w_locked w) as [l|] eqn:El; [|done].
  cbn [fmap option_fmap option_map]. pose proof (wo_locked w (Hok w eq_refl) l El) as Hl.
  unfold parse_ts. rewrite (clock_iso_truthy l Hl). unfold clock_iso. rewrite (iso_roundtrip l Hl). cbn.
  unfold instant. cbn. by rewrite Z.sub_0_r.
Qed.

Lemma stale_stored subject p now w : window_ok w -> timely p now ->
  stale (clock_iso now) (clock_iso (now - tp_window_minutes p * minute_us)) (stored subject w) =
  over (tp_window_minutes p * minute_us) now w.
Proof.
  intros [_ Hf Hl] [Hn _ Hc _ _]. unfold stale, over. cbn [stored lt_first_failed_at lt_locked_until].
  rewrite clock_iso_ltb by done. f_equal. destruct (w_locked w) as [l|]; [|done]. cbn. apply clock_iso_ltb; [by apply Hl|done].
Qed.

Ltac throttle_fields :=
  cbn [lt_failed_count lt_first_failed_at lt_locked_until lt_subject lt_with_failed_count lt_with_first_failed_at
       lt_with_locked_until w_count w_first w_locked fmap option_fmap option_map].

(** [register_failure] is [bump] on the window, and touches no other counter *)
Lemma register_view env now subject d w : throttle_view subject d w -> timely (_policy env subject) now ->
  let p := _policy env subject in
  exists b d', register_failure env now subject d = Ok (b, d') /\
    throttle_view subject d' (Some (bump (tp_threshold p) (tp_window_minutes p * minute_us) (tp_lockout_minutes p * minute_us) now w)) /\
    (forall other, other <> subject ->
       lookup_key lt_subject other (login_throttle d') = lookup_key lt_subject other (login_throttle d)) /\
    set_login_throttle [] d' = set_login_throttle [] d.
Proof.
  intros [Hrow Hok] Ht p. pose proof Ht as [Hn Hcut Hcin Hlock Hlin]. unfold register_failure. fold p. cbn zeta.
  fold p in Hcut, Hlock. rewrite Hcut, Hlock. cbn [rbind]. eexists _, _. split; [reflexivity|].
  cbn [login_throttle set_login_throttle]. set (rows := update _ _ _).
  assert (forall k, lookup_key lt_subject k rows = (fun r => if String.eqb (lt_subject r) subject &&
    stale (clock_iso now) (clock_iso (now - tp_window_minutes p * minute_us)) r then restarted (clock_iso now) r else r)
    <$> lookup_key lt_subject k (login_throttle d)) as Hrows by (intros k; by apply lookup_key_update).
  split_and!; [constructor| |done].
  - cbn [login_throttle set_login_throttle]. rewrite lookup_key_upsert by done. rewrite decide_True by done. rewrite Hrows, Hrow.
    destruct w as [w|]; [|done]. cbn [fmap option_fmap option_map from_option]. rewrite String.eqb_refl. cbn [andb].
    rewrite (stale_stored subject p now w (Hok w eq_refl) Ht). unfold bump. destruct (over _ now w); [|].
    + unfold counted, restarted, stored. throttle_fields. by destruct (_ <=? _).
    + unfold counted, stored. throttle_fields. by destruct (_ <=? _).
  - intros x [= <-]. destruct w as [w|]; [|by constructor]. cbn [bump]. pose proof (Hok w eq_refl) as [Hc Hf Hl].
    destruct (over _ now w); constructor; cbn [w_count w_first w_locked]; try (done || lia).
    + destruct (_ <=? _); [intros l [= <-]; exact Hlin|done].
    + destruct (_ <=? _); [intros l [= <-]; exact Hlin|exact Hl].
  - intros other Hne. rewrite lookup_key_upsert by done. rewrite decide_False by (intros E; by apply Hne). rewrite Hrows.
    destruct (lookup_key lt_subject other (login_throttle d)) as [r|] eqn:E; [|done]. cbn.
    apply lookup_key_Some in E as [_ <-]. by rewrite (proj2 (String.eqb_neq _ _) Hne).
Qed.

(** ** Guessing a password *)

Section Guessing.
Context `{PyHost} `{Digest} `{Kdf} `{HmacSha1} `{Aead}.
Context (env : auth_settings).

(** what the host raises: [int] a ValueError; PBKDF2 that, or an OverflowError *)
Record host_errors : Prop := {
  str_int_error : forall s e, str_int s = Raise e -> exists m, e = ValueError m;
  kdf_error : forall a p s n e, pbkdf2_hmac a p s n = Raise e -> (exists m, e = ValueError m) \/ e = OverflowError
}.
Context (Hhost : host_errors).

(** the password of the active account of that address *)
Definition knows (email password : string) (d : db) : Prop :=
  exists u, active_user (get_user_by_email email d) = Some u /\ verify_password password (pu_password_hash u) = Ok true.

Definition wrong_password : exn := HTTPException 401 "Invalid email or password".
Definition account_policy (email : string) : throttle_policy := _policy (au_login env) (email_subject email).
Definition account_bump (email : string) (now : Z) (w : option window) : window :=
  let p := account_policy email in
  bump (tp_threshold p) (tp_window_minutes p * minute_us) (tp_lockout_minutes p * minute_us) now w.

Lemma ip_not_email ip email : ip_subject ip <> email_subject email.
Proof. discriminate. Qed.

Lemma record_audit_view e subject d w : throttle_view subject d w -> throttle_view subject (record_audit e d) w.
Proof. apply throttle_view_frame. done. Qed.

(** a failure counts against its own subject, and raises only past the calendar *)
Lemma register_other now subject other d : other <> subject ->
  match register_failure (au_login env) now subject d with
  | Ok (_, d') => lookup_key lt_subject other (login_throttle d') = lookup_key lt_subject other (login_throttle d)
  | Raise e => e = OverflowError
  end.
Proof.
  intros Hne. unfold register_failure, minutes_from.
  destruct (_ && _); [|done]. cbn [rbind]. destruct (_ && _); [|done]. cbn [rbind login_throttle set_login_throttle].
  rewrite lookup_key_upsert by done. rewrite decide_False by (cbn; congruence). rewrite lookup_key_update by done.
  destruct (lookup_key _ other _) as [row|] eqn:Erow; [|done]. cbn. apply lookup_key_Some in Erow as [_ ->].
  by rewrite (proj2 (String.eqb_neq _ _) Hne).
Qed.

(** the failed branch counts the attempt whatever comes after *)
Lemma login_failed_view {A} now email ip user d w d' (r : res A) :
  throttle_view (email_subject email) d w -> timely (account_policy email) now ->
  login_failed env now email ip user d = (d', r) ->
  throttle_view (email_subject email) d' (Some (account_bump email now w)).
Proof.
  intros Hv Ht Hrun. unfold login_failed in Hrun.
  destruct (register_view (au_login env) now _ d w Hv Ht) as (a & d1 & Ea & Hv1 & _ & _).
  apply ebind_case in Hrun as [(d1' & a' & Hrun & Hk)|(e & Hrun & _)]; unfold commits in Hrun; rewrite Ea in Hrun; [|done].
  injection Hrun as <- <-. pose proof (register_other now (ip_subject ip) (email_subject email) d1) as Ho.
  apply ebind_case in Hk as [(d2 & s & Hrun & Hk)|(e & Hrun & ->)]; unfold commits in Hrun;
    destruct (register_failure (au_login env) now (ip_subject ip) d1) as [[s' d2']|e'] eqn:Es; try done.
  - injection Hrun as -> ->. assert (throttle_view (email_subject email) d2 (Some (account_bump email now w))) as Hv2.
    { apply (throttle_view_frame _ d1); [|exact Hv1]. apply Ho. apply not_eq_sym, ip_not_email. }
    rewrite <-(eff_fst _ _ _ _ Hk). apply ebind_keeps; [by apply record_audit_view|]. intros d3 _ _ Hv3.
    apply ebind_keeps; [|done]. case_match; [done|by apply record_audit_view].
  - by injection Hrun as <- <-.
Qed.

Lemma client_ip_error rq e : client_ip rq = Raise e -> e <> wrong_password.
Proof.
  unfold client_ip. destruct (negb _); [done|]. destruct (set_var _); [|done]. destruct (parts_of _); [done|].
  destruct (str_int _) eqn:E; cbn [rbind]; [done|]. intros [= <-]. by apply (str_int_error Hhost) in E as [m ->].
Qed.

Lemma is_locked_error now subject d e : is_locked now subject d = Raise e -> e = TypeError.
Proof. unfold is_locked. destruct (parse_ts _) as [t|]; [|done]. destruct (dt_offset t); [done|]. by intros [= <-]. Qed.

Lemma verify_password_error password stored e : verify_password password stored = Raise e -> e <> wrong_password.
Proof.
  unfold verify_password. destruct stored as [stored|]; [|done]. destruct (is_empty stored); [done|].
  destruct (split _ _) as [|scheme [|iterations [|salt_hex [|expected [|]]]]]; try done.
  destruct (negb _); [done|]. destruct (negb _); [done|]. destruct (str_int iterations) as [rounds|x] eqn:Ei.
  - destruct (fromhex salt_hex) as [salt|]; [|by intros [= <-]].
    destruct (pbkdf2_hmac _ _ _ _) as [derived|x] eqn:Ek; cbn [rbind].
    + unfold compare_digest. destruct (_ && _); [done|]. by intros [= <-].
    + intros [= <-]. by apply (kdf_error Hhost) in Ek as [[m ->]| ->].
  - apply (str_int_error Hhost) in Ei as [m ->]. done.
Qed.

(** a wrong password meets the lock, or is counted; anything else tries nothing *)
Lemma login_wrong now salt random rq email password d w d' r :
  throttle_view (email_subject email) d w -> timely (account_policy email) now -> ~ knows email password d ->
  login env now salt random rq email password d = (d', r) ->
  (d' = d /\ r <> Raise wrong_password) \/
  (locked_at now w = false /\ throttle_view (email_subject email) d' (Some (account_bump email now w))).
Proof.
  intros Hv Ht Hk. unfold login. rewrite run_checks. destruct (client_ip rq) as [ip|e] eqn:Eip.
  2: { intros [= <- <-]. left. split; [done|]. intros [= ->]. by eapply client_ip_error. }
  unfold throttled. unfold ebind at 1 2. unfold checks at 1. rewrite (is_locked_view _ _ _ _ Hv).
  destruct (locked_at now w) eqn:El.
  { cbn [eret]. rewrite run_guard. intros [= <- <-]. left. split; [done|]. discriminate. }
  unfold checks at 1. destruct (is_locked now (ip_subject ip) d) as [locked|e] eqn:Elock.
  2: { intros [= <- <-]. left. split; [done|]. apply is_locked_error in Elock as ->. done. }
  rewrite run_guard. destruct locked; [intros [= <- <-]; left; split; [done|discriminate]|].
  rewrite run_reads, run_checks. destruct (active_user (get_user_by_email email d)) as [u|] eqn:Eu.
  2: { intros Hrun. right. split; [done|]. by eapply login_failed_view. }
  destruct (verify_password password (pu_password_hash u)) as [[|]|e] eqn:Ep.
  - destruct Hk. by exists u.
  - intros Hrun. right. split; [done|]. by eapply login_failed_view.
  - intros [= <- <-]. left. split; [done|]. intros [= ->]. by eapply verify_password_error.
Qed.

(** requests over time: passwords tried on the account by someone who does not
    know it, with anything in between that leaves its counter alone *)
Inductive guessed (email : string) : db -> list (Z * res login_response) -> db -> Prop :=
| guessed_nil d : guessed email d [] d
| guessed_login now salt random rq address password d d1 r l d2 :
    email_subject address = email_subject email -> ~ knows address password d ->
    login env now salt random rq address password d = (d1, r) ->
    guessed email d1 l d2 -> guessed email d ((now, r) :: l) d2
| guessed_other d d1 l d2 :
    lookup_key lt_subject (email_subject email) (login_throttle d1) =
      lookup_key lt_subject (email_subject email) (login_throttle d) ->
    guessed email d1 l d2 -> guessed email d l d2.

(** answered as a wrong password *)
Definition wrong_answer (r : res login_response) : bool :=
  match r with Raise (HTTPException code detail) => (code =? 401) && String.eqb detail "Invalid email or password" | _ => false end.

Definition refused_within (span t : Z) (l : list (Z * res login_response)) : nat :=
  length (filter (fun x => within span t x.1 && wrong_answer x.2 = true) l).

Lemma wrong_answer_spec r : wrong_answer r = true -> r = Raise wrong_password.
Proof. destruct r as [|[]]; try done. cbn. by intros [->%Z.eqb_eq ->%String.eqb_eq]%andb_prop. Qed.

Lemma refused_cons span t x l :
  refused_within span t (x :: l) = ((if within span t x.1 && wrong_answer x.2 then 1 else 0) + refused_within span t l)%nat.
Proof. unfold refused_within. rewrite filter_cons. by case_decide as E; destruct (_ && _). Qed.

(** what was answered as a wrong password was tried in the window of the counter *)
Lemma guessed_tried email d l d' w :
  let p := account_policy email in
  let span := tp_window_minutes p * minute_us in
  guessed email d l d' -> throttle_view (email_subject email) d w ->
  StronglySorted Z.le (map fst l) -> Forall (timely p) (map fst l) ->
  exists times, StronglySorted Z.le times /\ (forall n, n ∈ times -> n ∈ map fst l) /\
    forall t, (refused_within span t l <=
               tried_within (tp_threshold p) span (tp_lockout_minutes p * minute_us) t w times)%nat.
Proof.
  intros p span Hg. revert w. induction Hg as [d|now salt random rq address password d d1 r l d2 Ha Hk Hrun Hg IH|d d1 l d2 E Hg IH];
    intros w Hv Hs Ht.
  - exists []. split_and!; [constructor|done|done].
  - cbn [map fst] in Hs, Ht. apply StronglySorted_inv in Hs as [Hs Hle]. apply Forall_cons in Ht as [Hnow Ht].
    assert (account_policy address = p) as Ep by (unfold account_policy; by rewrite Ha). rewrite <-Ha in Hv.
    rewrite <-Ep in Hnow. destruct (login_wrong now salt random rq address password d w d1 r Hv Hnow Hk Hrun) as [[-> Hr]|[El Hv1]].
    + rewrite Ha in Hv. destruct (IH w Hv Hs Ht) as (times & Hst & Hin & Hbound). exists times.
      split_and!; [done|intros n Hn; right; by apply Hin|]. intros t. rewrite refused_cons. cbn [fst snd].
      destruct (wrong_answer r) eqn:Ew; [by apply wrong_answer_spec in Ew|]. rewrite andb_false_r. apply Hbound.
    + rewrite Ha in Hv1. destruct (IH _ Hv1 Hs Ht) as (times & Hst & Hin & Hbound). exists (now :: times). split_and!.
      * constructor; [done|]. apply Forall_forall. intros n Hn. rewrite Forall_forall in Hle. by apply Hle, Hin.
      * intros n [->|Hn]%elem_of_cons; [left|right; by apply Hin].
      * intros t. rewrite refused_cons, tried_within_cons, El. cbn [fst snd]. specialize (Hbound t). unfold account_bump in Hbound.
        rewrite Ep in Hbound. cbv zeta in Hbound. fold span in Hbound. destruct (within span t now); cbn [andb]; [|lia]. destruct (wrong_answer r); lia.
  - apply IH; [by eapply throttle_view_frame|done..].
Qed.

(** C29. Guessing is bounded.  However somebody who does not know an account's
    password tries it - one request after another, from any addresses, mixed with
    any other requests that leave the account's counter alone - the attempts
    answered as a wrong password within any stretch as long as the counting
    window number at most twice the threshold less two: eight in a quarter of an
    hour as shipped.  The others meet the lock.  This needs a threshold of at
    least two and a lockout at least as long as the window.  A login of the owner
    clears the counter, so the bound holds from one such login to the next; and
    requests whose checks overlap are not covered, since the counter is read
    before the password is verified and written after. *)
Theorem guesses_are_bounded email d l d' w :
  let p := account_policy email in
  let span := tp_window_minutes p * minute_us in
  2 <= tp_threshold p -> tp_window_minutes p <= tp_lockout_minutes p ->
  guessed email d l d' -> throttle_view (email_subject email) d w ->
  StronglySorted Z.le (map fst l) -> Forall (timely p) (map fst l) ->
  forall t, Z.of_nat (refused_within span t l) <= 2 * tp_threshold p - 2.
Proof.
  intros p span Hth Hw Hg Hv Hs Ht t. destruct (guessed_tried email d l d' w Hg Hv Hs Ht) as (times & Hst & _ & Hle).
  specialize (Hle t). fold p span in Hle.
  pose proof (tried_bound (tp_threshold p) span (tp_lockout_minutes p * minute_us) Hth) as Hb.
  assert (counts_from_one w) as Hc.
  { destruct w as [w|]; [|done]. apply (wo_count w). by apply (tv_ok _ _ _ Hv). }
  specialize (Hb ltac:(unfold span, minute_us; lia) t w times Hst Hc). lia.
Qed.
End Guessing.


(** ** Guessing a code *)

Section Codes.
Context `{PyHost} `{Digest} `{Kdf} `{HmacSha1} `{Aead}.
Context (env : auth_settings).

Definition code_refused : exn := HTTPException 401 "That code was not accepted".

(** one code tried and refused *)
Definition code_tried (d d' : db) : Prop :=
  exists now random rq challenge code rc, mfa_verify env now random rq challenge code rc d = (d', Raise code_refused).

(** what a login reads: the users and the counters *)
Definition same_credentials (d d' : db) : Prop :=
  platform_users d' = platform_users d /\ login_throttle d' = login_throttle d.

Lemma finish_login_error now random user m d d' e : _finish_login env now random user m d = (d', Raise e) -> e <> code_refused.
Proof.
  unfold _finish_login. intros [(d1 & t & Hc & Hk)|(e' & Hc & He)]%ebind_case; [done|]. injection He as ->.
  unfold create_session in Hc. rewrite run_writes, run_checks in Hc. unfold minutes_from in Hc.
  destruct (_ && _); [|by injection Hc as _ <-]. rewrite run_commits in Hc.
  unfold insert_session in Hc. destruct (lookup_key _ _ _); [|done]. by injection Hc as _ <-.
Qed.

Lemma refused_credentials {A} now h user ip d d' (r : res A) : mfa_refused now h user ip d = (d', r) -> same_credentials d d'.
Proof.
  unfold mfa_refused. rewrite run_writes, run_checks. destruct ip; [rewrite run_writes|]; by intros [= <- _].
Qed.

Lemma code_tried_credentials d d' : code_tried d d' -> same_credentials d d'.
Proof.
  intros (now & random & rq & challenge & code & rc & Hrun). unfold mfa_verify in Hrun. cbn zeta in Hrun.
  rewrite run_reads in Hrun. destruct (load_challenge _ _ d) as [row|]; [|done]. rewrite run_reads in Hrun.
  destruct (active_user _) as [user|]; [|by rewrite run_writes in Hrun].
  destruct (set_var rc) as [c|].
  - rewrite run_commits in Hrun. destruct (consume_recovery_code _ _ _ d) as [used d1] eqn:Eu.
    assert (same_credentials d d1) as Hd1 by by injection Eu as _ <-. destruct used.
    + rewrite run_writes, run_reads, run_writes in Hrun. by apply finish_login_error in Hrun.
    + apply refused_credentials in Hrun as [E1 E2]. destruct Hd1 as [E3 E4]. split; congruence.
  - destruct (set_var code) as [c|]; [|by eapply refused_credentials].
    rewrite run_checks in Hrun. destruct (checked_code _ c _ now) as [[n|]|] eqn:En; [|by eapply refused_credentials|].
    + rewrite !run_writes in Hrun. by apply finish_login_error in Hrun.
    + by injection Hrun as <- _.
Qed.

(** a login that gives a challenge leaves the users and clears the counter *)
Lemma login_challenge_frame now salt random rq email password d d1 c u :
  login env now salt random rq email password d = (d1, Ok (MfaRequired c)) ->
  right_password email password d u -> needs_rehash (PBKDF2_ITERATIONS env) (pu_password_hash u) = Ok false ->
  platform_users d1 = platform_users d /\ lookup_key lt_subject (email_subject email) (login_throttle d1) = None.
Proof.
  intros Hrun [Hu Hp] Hhash. unfold login in Hrun. apply ebind_Ok in Hrun as (x1 & ip & Hip & Hrun).
  apply ebind_Ok in Hrun as (x2 & locked & Hlock & Hrun).
  assert (x2 = d) as ->.
  { unfold checks in Hip. injection Hip as <- _. unfold throttled, ebind, checks in Hlock.
    destruct (is_locked _ _ _) as [[|]|]; try (by injection Hlock); done. }
  rewrite run_guard in Hrun. destruct locked; [done|]. rewrite run_reads, run_checks, Hu, Hp in Hrun.
  rewrite run_writes, run_checks, Hhash, run_ret in Hrun.
  assert (lookup_key lt_subject (email_subject email) (login_throttle (clear_attempts (email_subject email) d)) = None) as Hnone.
  { apply lookup_key_None. intros (r & Er & Hr)%list_elem_of_fmap. cbn [login_throttle clear_attempts set_login_throttle] in Hr.
    apply elem_of_select in Hr as [Hne%negb_true_iff%String.eqb_neq _]. congruence. }
  destruct (enrolled u).
  - rewrite run_checks in Hrun. destruct (minutes_from _ _); [|done]. rewrite run_commits in Hrun.
    unfold create_challenge in Hrun. destruct (lookup_key mc_token _ _); [done|]. by injection Hrun as <- _.
  - apply ebind_Ok in Hrun as (? & ? & _ & Hrun). done.
Qed.

(** a challenge just inserted, under a token nobody has, loads as it was inserted *)
Lemma load_inserted t h d kept row : lookup_key mc_token h kept = None -> mc_token row = h ->
  str_ltb (clock_iso t) (mc_expires_at row) = true ->
  load_challenge t h (set_mfa_challenges (kept ++ [row]) d) = Some row.
Proof.
  intros Hnew Hrow Ht. unfold load_challenge. cbn [mfa_challenges set_mfa_challenges]. rewrite select1_app.
  replace (select1 _ kept) with (@None mfa_challenge); [unfold select1; by rewrite select_cons, Hrow, String.eqb_refl, Ht|].
  symmetry. apply select1_None. intros c Hc. apply andb_false_iff. left. apply String.eqb_neq. intros Ec.
  apply lookup_key_None in Hnew. apply Hnew. rewrite <-Ec. by apply list_elem_of_fmap_2.
Qed.

(** C32. Guessing a code is not.  Whoever knows the password of an account with a
    second factor may try codes without end: the password step clears the
    account's counter and gives a challenge; refused codes, any number of them,
    change neither the counters nor the account; and the next login gives a
    fresh challenge, which loads until it expires, for that account and with none
    of its attempts spent.  The cap of five attempts holds per challenge only. *)
Theorem code_guesses_are_not_throttled now now' salt salt' random random' rq rq' ip' email password d d1 d2 :
  login env now salt random rq email password d = (d1, Ok (MfaRequired random)) ->
  (forall u, right_password email password d u -> needs_rehash (PBKDF2_ITERATIONS env) (pu_password_hash u) = Ok false) ->
  rtc code_tried d1 d2 ->
  in_range (now' + MFA_CHALLENGE_TTL_MINUTES * minute_us) = true ->
  client_ip rq' = Ok ip' -> is_locked now' (ip_subject ip') d2 = Ok false ->
  hash_opaque random' ∉ map mc_token (mfa_challenges d2) ->
  exists d3, login env now' salt' random' rq' email password d2 = (d3, Ok (MfaRequired random')) /\
    forall t, in_range t = true -> t < now' + MFA_CHALLENGE_TTL_MINUTES * minute_us ->
      exists user row, active_user (get_user_by_email email d) = Some user /\
        load_challenge t (hash_opaque random') d3 = Some row /\ mc_user_ref row = pu_user_ref user /\ mc_attempts row = 0.
Proof.
  intros Hlogin Hhash Htried Hin Hip Hsource Hfresh.
  assert (same_credentials d1 d2) as [Eu2 Et2].
  { clear -Htried. induction Htried as [|x y z Hxy _ [IH1 IH2]]; [done|].
    apply code_tried_credentials in Hxy as [E1 E2]. split; congruence. }
  pose proof (login_issues env _ _ _ _ _ _ _ _ _ Hlogin) as (u & expires & Hright & Hen & _ & _ & _).
  specialize (Hhash u Hright). pose proof (login_challenge_frame _ _ _ _ _ _ _ _ _ _ Hlogin Hright Hhash) as [Eu1 Enone].
  destruct Hright as [Hu Hp]. unfold login. rewrite run_checks, Hip. unfold throttled. unfold ebind at 1 2. unfold checks at 1.
  unfold is_locked at 1. rewrite Et2, Enone. cbn [parse_ts]. unfold checks at 1. rewrite Hsource, run_guard, run_reads, run_checks.
  assert (get_user_by_email email d2 = get_user_by_email email d) as -> by (unfold get_user_by_email; by rewrite Eu2, Eu1).
  rewrite Hu, Hp, run_writes, run_checks, Hhash, run_ret, Hen, run_checks. unfold minutes_from. rewrite Hin, andb_true_r.
  change (Z.abs MFA_CHALLENGE_TTL_MINUTES <=? 999999999 * 1440) with true. cbv iota. rewrite run_commits. unfold create_challenge.
  destruct (lookup_key mc_token _ _) as [c|] eqn:Ec.
  2: { eexists. split; [done|]. intros t Ht Hlt. exists u. eexists. split; [done|]. split.
       - apply load_inserted; [exact Ec|done|]. cbn [mc_expires_at]. rewrite clock_iso_ltb by done. by apply Z.ltb_lt.
       - done. }
  destruct Hfresh. apply lookup_key_Some in Ec as [Hc <-]. apply elem_of_select in Hc as [_ Hc]. apply elem_of_select in Hc as [_ Hc].
  by apply list_elem_of_fmap_2.
Qed.
End Codes.

(** ** How long a session lasts *)

Section Idle.
Context `{PyHost} `{Digest}.
Context (env : auth_settings).

(** the row of a token: whose it is, when it ends, when it was last seen *)
Record session_view (token u : string) (ends seen : Z) (d : db) : Prop := {
  sv_unique : keys_unique ss_token (sessions d);
  sv_row : exists created, mk_session (_hash_token token) u created (clock_iso ends) (Some (clock_iso seen)) ∈ sessions d;
  sv_ends : in_range ends = true;
  sv_seen : in_range seen = true
}.

Lemma load_session_view token u ends seen d now : session_view token u ends seen d -> in_range now = true ->
  exists created, load_session now (_hash_token token) d =
    if now <? ends then Some (mk_session (_hash_token token) u created (clock_iso ends) (Some (clock_iso seen))) else None.
Proof.
  intros [Hu [created Hrow] He _] Hnow. exists created. unfold load_session.
  destruct (select1 _ (sessions d)) as [s|] eqn:Es.
  - apply select1_Some in Es as [Hin [Et%String.eqb_eq Hlt]%andb_prop].
    assert (s = mk_session (_hash_token token) u created (clock_iso ends) (Some (clock_iso seen))) as ->
      by (apply (keys_unique_eq ss_token (sessions d)); done).
    cbn [ss_expires_at] in Hlt. rewrite clock_iso_ltb in Hlt by done. by rewrite Hlt.
  - destruct (Z.ltb_spec now ends) as [Hlt|]; [|done].
    pose proof (proj1 (select1_None _ _) Es _ Hrow) as Hno. cbn [ss_token ss_expires_at] in Hno.
    rewrite String.eqb_refl, clock_iso_ltb, (proj2 (Z.ltb_lt _ _) Hlt) in Hno by done. done.
Qed.

Lemma parse_clock_iso t : in_range t = true -> _parse_timestamp (Some (clock_iso t)) = Some (mk_datetime t (Some 0)).
Proof.
  intros Ht. unfold _parse_timestamp, parse_ts. rewrite clock_iso_truthy by done. unfold clock_iso.
  by rewrite iso_roundtrip.
Qed.

(** one request with a live session: seen, and noted when the note is a minute old *)
Lemma resolve_live token u ends seen d now :
  session_view token u ends seen d -> in_range now = true -> is_empty token = false -> now < ends ->
  0 < SESSION_IDLE_MINUTES env -> now - seen <= SESSION_IDLE_MINUTES env * minute_us ->
  exists d' seen', resolve_session env now (Some token) d = (d', Ok (Some u)) /\ session_view token u ends seen' d' /\
    (seen' = now \/ seen' = seen /\ now - seen <= minute_us).
Proof.
  intros Hv Hnow Htok Hend Hidle Hgap. destruct (load_session_view token u ends seen d now Hv Hnow) as [created Hload].
  unfold resolve_session. cbn [set_var]. rewrite Htok. rewrite Hload, (proj2 (Z.ltb_lt _ _) Hend), (proj2 (Z.ltb_lt _ _) Hidle).
  unfold session_last_seen. cbn [ss_last_seen_at]. rewrite parse_clock_iso by apply Hv. unfold instant at 1 2. cbn [dt_local dt_offset default from_option id].
  rewrite Z.sub_0_r, (proj2 (Z.ltb_ge _ _) Hgap). destruct Hv as [Hu [c Hrow] He Hs].
  change (_TOUCH_INTERVAL_SECONDS * 1000000) with minute_us. destruct (Z.ltb_spec minute_us (now - seen)) as [Hold|Hnew].
  - eexists _, now. split; [reflexivity|]. split; [|by left]. split; [by apply keys_unique_update| |done|done].
    exists c. cbn [sessions set_sessions touch_session]. apply elem_of_update. left. eexists. split; [exact Hrow|].
    split; [by apply has_key_true|done].
  - exists d, seen. split; [reflexivity|]. split; [split; [done|by exists c|done..]|]. right. split; [done|lia].
Qed.

(** one request after too long a silence *)
Lemma resolve_silent token u ends seen d now :
  session_view token u ends seen d -> in_range now = true -> is_empty token = false -> now < ends ->
  0 < SESSION_IDLE_MINUTES env -> SESSION_IDLE_MINUTES env * minute_us < now - seen ->
  exists d', resolve_session env now (Some token) d = (d', Ok None) /\ _hash_token token ∉ map ss_token (sessions d').
Proof.
  intros Hv Hnow Htok Hend Hidle Hgap. destruct (load_session_view token u ends seen d now Hv Hnow) as [created Hload].
  unfold resolve_session. cbn [set_var]. rewrite Htok. rewrite Hload, (proj2 (Z.ltb_lt _ _) Hend), (proj2 (Z.ltb_lt _ _) Hidle).
  unfold session_last_seen. cbn [ss_last_seen_at]. rewrite parse_clock_iso by apply Hv. unfold instant at 1. cbn [dt_local dt_offset default from_option id].
  rewrite Z.sub_0_r, (proj2 (Z.ltb_lt _ _) Hgap). eexists. split; [reflexivity|].
  intros (s & Es & Hs)%list_elem_of_fmap. cbn [sessions set_sessions delete_session] in Hs.
  apply elem_of_select in Hs as [Hne%negb_true_iff%String.eqb_neq _]. congruence.
Qed.

Lemma last_cons_default {A} (x : A) l a : List.last (x :: l) a = List.last l x.
Proof. revert x a. induction l as [|y l IH]; intros x a; [done|]. change (List.last (y :: l) a = List.last (y :: l) x). by rewrite !IH. Qed.

(** requests with the same token, one after the other *)
Fixpoint visits (token : string) (times : list Z) (d : db) : list (res (option string)) * db :=
  match times with
  | [] => ([], d)
  | now :: times =>
      let r := resolve_session env now (Some token) d in
      let rest := visits token times (fst r) in (snd r :: fst rest, snd rest)
  end.

(** no gap of more than [most], starting from [last] *)
Fixpoint steady (most last : Z) (times : list Z) : Prop :=
  match times with
  | [] => True
  | now :: times => last <= now <= last + most /\ steady most now times
  end.

(** C31. Activity keeps a session and silence ends it.  Somebody who makes a request
    at least every idle period less a minute is answered as the session's user
    each time, until the session's own end.  After more than the idle period
    without one, the next request is answered as nobody's and the session is
    gone.  Noting activity at most once a minute costs no more than that minute. *)
Theorem silence_ends_a_session token u ends seen d times now :
  session_view token u ends seen d -> is_empty token = false -> 1 < SESSION_IDLE_MINUTES env ->
  Forall (fun t => in_range t = true /\ t < ends) (now :: times) ->
  steady ((SESSION_IDLE_MINUTES env - 1) * minute_us) seen times ->
  Forall (fun r => r = Ok (Some u)) (visits token times d).1 /\
  (SESSION_IDLE_MINUTES env * minute_us < now - List.last times seen ->
   exists d', resolve_session env now (Some token) (visits token times d).2 = (d', Ok None) /\
     _hash_token token ∉ map ss_token (sessions d')).
Proof.
  intros Hv Htok Hidle [[Hnow Hend] HF]%Forall_cons Hsteady.
  assert (forall last seen d, session_view token u ends seen d -> seen <= last <= seen + minute_us ->
    steady ((SESSION_IDLE_MINUTES env - 1) * minute_us) last times ->
    Forall (fun r => r = Ok (Some u)) (visits token times d).1 /\
    exists seen', session_view token u ends seen' (visits token times d).2 /\ seen' <= List.last times last) as Hrun.
  { clear Hv Hsteady seen d. induction times as [|t times IH]; intros last seen d Hv Hlast Hsteady.
    { split; [constructor|]. exists seen. cbn. split; [done|lia]. }
    apply Forall_cons in HF as [[Ht Hte] HF]. cbn [steady] in Hsteady. destruct Hsteady as [Hgap Hsteady].
    destruct (resolve_live token u ends seen d t Hv Ht Htok Hte) as (d' & seen' & Hres & Hv' & Hseen'); [lia|lia|].
    cbn [visits]. rewrite Hres. cbn [fst snd]. destruct (IH HF t seen' d' Hv') as [Hall (s' & Hs' & Hle)]; [lia|done|].
    split; [by constructor|]. exists s'. split; [exact Hs'|]. by rewrite last_cons_default. }
  destruct (Hrun seen seen d Hv ltac:(unfold minute_us; lia) Hsteady) as [Hall (seen' & Hv' & Hle)]. split; [exact Hall|].
  intros Hsilent. apply (resolve_silent token u ends seen'); (done || lia).
Qed.
End Idle.

Import SessionRules.Demo.

Definition first_guess : db := (login env noon "s" "r" rq "ann@acme" "guess" start).1.
Definition second_guess : db := (login env (noon + 1000000) "s" "r" rq "ANN@acme" "again" first_guess).1.

Lemma demo_host_errors : host_errors.
Proof.
  split; [|done]. intros s e. cbn. destruct (digits s); [done|]. intros [= <-]. by eexists.
Qed.

Lemma first_run : login env noon "s" "r" rq "ann@acme" "guess" start = (first_guess, Raise wrong_password).
Proof. vm_compute. reflexivity. Qed.
Lemma second_run : login env (noon + 1000000) "s" "r" rq "ANN@acme" "again" first_guess = (second_guess, Raise wrong_password).
Proof. vm_compute. reflexivity. Qed.

Definition known (email password : string) (d : db) : bool :=
  match active_user (get_user_by_email email d) with
  | Some u => match verify_password password (pu_password_hash u) with Ok b => b | Raise _ => false end
  | None => false
  end.
Lemma not_known email password d : known email password d = false -> ~ knows email password d.
Proof. unfold known. intros Hk (u & Hu & Hp). by rewrite Hu, Hp in Hk. Qed.

Lemma two_guesses : guessed env "ann@acme" start
  [(noon, Raise wrong_password); (noon + 1000000, Raise wrong_password)] second_guess.
Proof.
  apply (guessed_login env _ noon "s" "r" rq "ann@acme" "guess" start first_guess); [done| |exact first_run|].
  { apply not_known. vm_compute. reflexivity. }
  apply (guessed_login env _ (noon + 1000000) "s" "r" rq "ANN@acme" "again" first_guess second_guess); [done| |exact second_run|].
  { apply not_known. vm_compute. reflexivity. }
  apply guessed_nil.
Qed.

Lemma guesses_are_bounded_witness :
  refused_within (15 * minute_us) noon
    [(noon, Raise wrong_password); (noon + 1000000, Raise wrong_password)] = 2%nat /\
  Z.of_nat (refused_within (15 * minute_us) noon
    [(noon, Raise wrong_password); (noon + 1000000, Raise wrong_password)]) <= 8.
Proof.
  split; [vm_compute; reflexivity|].
  refine (guesses_are_bounded env demo_host_errors "ann@acme" start
    [(noon, Raise wrong_password); (noon + 1000000, Raise wrong_password)] second_guess None _ _ _ _ _ _ noon).
  - vm_compute. discriminate.
  - vm_compute. discriminate.
  - exact two_guesses.
  - split; [reflexivity|done].
  - repeat constructor; vm_compute; discriminate.
  - repeat constructor; vm_compute; reflexivity.
Defined.

Definition after_wrong_code : db :=
  (mfa_verify env (noon + 1000000) "x" rq "challenge" (Some "000001") None challenged).1.

Lemma challenge_run : login env noon "s" "challenge" rq "bob@acme" password ann_in = (challenged, Ok (MfaRequired "challenge")).
Proof. vm_compute. reflexivity. Qed.
Lemma wrong_code_run :
  mfa_verify env (noon + 1000000) "x" rq "challenge" (Some "000001") None challenged = (after_wrong_code, Raise code_refused).
Proof. vm_compute. reflexivity. Qed.
Lemma bob_found : active_user (get_user_by_email "bob@acme" ann_in) = Some bob.
Proof. vm_compute. reflexivity. Qed.

Lemma code_guesses_are_not_throttled_witness :
  exists d3, login env (noon + 2000000) "s" "second" rq "bob@acme" password after_wrong_code = (d3, Ok (MfaRequired "second")) /\
    forall t, in_range t = true -> t < noon + 2000000 + MFA_CHALLENGE_TTL_MINUTES * minute_us ->
      exists user row, active_user (get_user_by_email "bob@acme" ann_in) = Some user /\
        load_challenge t (hash_opaque "second") d3 = Some row /\ mc_user_ref row = pu_user_ref user /\ mc_attempts row = 0.
Proof.
  apply (code_guesses_are_not_throttled env noon (noon + 2000000) "s" "s" "challenge" "second" rq rq (Some "10.0.0.1")
    "bob@acme" password ann_in challenged after_wrong_code).
  - exact challenge_run.
  - intros u [Hu _]. rewrite bob_found in Hu. injection Hu as <-. vm_compute. reflexivity.
  - apply rtc_once. exists (noon + 1000000), "x", rq, "challenge", (Some "000001"), None. exact wrong_code_run.
  - vm_compute. reflexivity.
  - reflexivity.
  - vm_compute. reflexivity.
  - apply (bool_decide_unpack _). vm_compute. exact I.
Defined.

Lemma ann_session : session_view "token-a" "ann" (noon + 12 * 60 * minute_us) noon ann_in.
Proof.
  split; [|exists (sql_now noon)|vm_compute; reflexivity|vm_compute; reflexivity].
  - apply (bool_decide_unpack (NoDup _)). vm_compute. exact I.
  - apply list_elem_of_lookup. exists 0%nat. vm_compute. reflexivity.
Qed.

Lemma silence_ends_a_session_witness :
  Forall (fun r => r = Ok (Some "ann")) (visits env "token-a" [noon + 20 * minute_us; noon + 45 * minute_us] ann_in).1 /\
  exists d', resolve_session env (noon + 80 * minute_us) (Some "token-a")
      (visits env "token-a" [noon + 20 * minute_us; noon + 45 * minute_us] ann_in).2 = (d', Ok None).
Proof.
  destruct (silence_ends_a_session env "token-a" "ann" (noon + 12 * 60 * minute_us) noon ann_in
    [noon + 20 * minute_us; noon + 45 * minute_us] (noon + 80 * minute_us)) as [Hall Hend].
  - exact ann_session.
  - reflexivity.
  - reflexivity.
  - repeat constructor; vm_compute; reflexivity.
  - repeat split; vm_compute; discriminate.
  - split; [exact Hall|]. destruct Hend as (d' & Hd' & _); [vm_compute; reflexivity|]. exists d'. exact Hd'.
Defined.
