(* ===== verification/SecretRules.v ===== *)
(** * What encryption at rest guarantees

    A stored secret reads back under any later configuration that still has the
    key it names, and only in the row it was stored for. *)

From stdpp Require Import base list strings option pretty sets gmap.
From Stdlib Require Import ZArith Lia Ascii.
From S2P Require Import Prelude Py Sql Rbac Requests Credentials Secrets.

Open Scope nat_scope.

Section Laws.
Context `{Aead}.

(** what AES-GCM and base64 do: what was encrypted decrypts in its own binding and
    in no other; what was encoded decodes, and holds no colon *)
Record aead_laws : Prop := {
  al_decrypts : forall key nonce value aad, aesgcm_decrypt key nonce (aesgcm_encrypt key nonce value aad) aad = Some value;
  al_binds : forall key nonce value aad aad', aad' <> aad ->
    aesgcm_decrypt key nonce (aesgcm_encrypt key nonce value aad) aad' = None;
  al_decodes : forall s, urlsafe_b64decode (urlsafe_b64encode s) = Some s;
  al_no_colon : forall s, partition_colon (urlsafe_b64encode s) = None
}.

Lemma partition_colon_app a b : partition_colon a = None -> partition_colon (a +:+ ":" +:+ b) = Some (a, b).
Proof.
  induction a as [|c a IH]; [done|]. rewrite append_cons. cbn [partition_colon].
  destruct (is_char 58 c); [done|]. destruct (partition_colon a) as [[]|]; [done|]. intros _. by rewrite IH.
Qed.

Lemma drop_prefix_app p s : drop_prefix p (p +:+ s) = s.
Proof.
  unfold drop_prefix. rewrite length_append. replace (String.length p + String.length s - String.length p) with (String.length s) by lia.
  induction p as [|c p IH]; [|by rewrite append_cons; cbn; apply IH].
  cbn [String.length]. rewrite append_empty. induction s as [|c s IH]; [done|]. cbn. by rewrite IH.
Qed.

Lemma starts_with_app p s : starts_with p (p +:+ s) = true.
Proof.
  induction p as [|c p IH]; [by destruct s|]. rewrite append_cons. unfold starts_with in *. cbn.
  destruct (ascii_dec c c); [done|contradiction].
Qed.

(** ** The ring *)

Definition good_id (kid : string) : Prop := partition_colon kid = None.

Lemma item_set_keys {A} k (x : A) d j : j ∈ map fst (item_set k x d) -> j = k \/ j ∈ map fst d.
Proof.
  induction d as [|[i y] d IH]; cbn [item_set].
  - cbn. intros ->%list_elem_of_singleton. by left.
  - destruct (String.eqb_spec i k) as [->|_]; cbn; rewrite !elem_of_cons; naive_solver.
Qed.

Lemma keyring_ids env ring : keyring env = Ok ring -> forall kid, kid ∈ map fst ring -> good_id kid.
Proof.
  unfold keyring. intros (r0 & H0' & Hrun)%rbind_Ok.
  assert (forall kid, kid ∈ map fst r0 -> good_id kid) as Hr0.
  { destruct (set_var (SECRET_KEY env)) as [legacy|].
    - apply rbind_Ok in H0' as (key & _ & Hk). injection Hk as <-. cbn. by intros kid ->%list_elem_of_singleton.
    - injection H0' as <-. cbn. by intros kid Hid%not_elem_of_nil. }
  destruct (SECRET_KEYS env) as [[v|]|]; [|done|by injection Hrun as <-].
  destruct v as [| | | | | |[|e l]]; try done.
  refine (rfold_ind (fun ring => forall kid, kid ∈ map fst ring -> good_id kid) _ _ _ _ Hrun Hr0 _).
  intros r1 [k v] r2 _ Hstep Hr1. unfold ring_entry in Hstep. apply rbind_Ok in Hstep as (? & Hg%throw_if_Ok & Hstep).
  apply rbind_Ok in Hstep as (key & _ & Hset). injection Hset as <-. cbn [fst] in *.
  intros kid [->|Hid]%item_set_keys; [|by apply Hr1]. unfold good_id. by destruct (partition_colon k).
Qed.

(** the primary is a key of the ring *)
Lemma primary_in_ring env kid : primary_key_id env = Ok (Some kid) -> exists ring, keyring env = Ok ring /\ kid ∈ map fst ring.
Proof.
  unfold primary_key_id. intros (ring & Hring & Hrun)%rbind_Ok. exists ring. split; [done|].
  destruct (set_var (SECRET_PRIMARY env)) as [explicit|].
  - apply rbind_Ok in Hrun as (? & Hm%throw_if_Ok & Hrun). injection Hrun as <-.
    apply negb_false_iff in Hm. by apply mem_true.
  - destruct (SECRET_KEYS env); [done|]. destruct (mem _ _) eqn:Em; [|done]. injection Hrun as <-. by apply mem_true.
Qed.

(** C33. Secrets survive key rotation and stay where they belong.  What is encrypted
    under the primary key of one configuration decrypts under every other whose
    ring still maps that key's id to it, whatever its primary; and under any of
    them it does not decrypt for another row, nor for one without a name. *)
Theorem secrets_survive_rotation env env' nonce value aad kid key ring' stored :
  aead_laws -> primary_key_id env = Ok (Some kid) -> ring_key env kid = Ok key ->
  encrypt env nonce value aad = Ok stored ->
  keyring env' = Ok ring' -> assoc kid ring' = Some key ->
  is_encrypted stored = true /\ decrypt env' stored aad = Ok value /\
  (forall aad', aad' <> aad -> is_empty aad' = false -> decrypt env' stored aad' = Raise undecryptable) /\
  forall env'' x, keyring env'' = Ok x -> assoc kid x = None -> exists msg, decrypt env'' stored aad = Raise (SecretKeyMissing msg).
Proof.
  intros [Hdec Hbind Hb64 Hcolon] Hprimary Hkey Henc Hring' Hkid'.
  unfold encrypt in Henc. apply rbind_Ok in Henc as ([] & Haad%throw_if_Ok & Henc).
  rewrite Hprimary in Henc. cbn [rbind] in Henc. rewrite Hkey in Henc. cbn [rbind] in Henc. injection Henc as <-.
  apply primary_in_ring in Hprimary as (ring & Hring & Hin). pose proof (keyring_ids env ring Hring kid Hin) as Hgood.
  set (ct := aesgcm_encrypt key nonce value aad).
  assert (forall env0 aad0, is_empty aad0 = false -> decrypt env0 (_PREFIX_V2 +:+ kid +:+ ":" +:+ urlsafe_b64encode nonce +:+ ":" +:+ urlsafe_b64encode ct) aad0 =
    let! ring := keyring env0 in
    match assoc kid ring with
    | None => Raise (SecretKeyMissing ("a stored secret was encrypted under key '" +:+ kid +:+ "', which is not in the configured keyring"))
    | Some key => match aesgcm_decrypt key nonce ct aad0 with Some value => Ok value | None => Raise undecryptable end
    end) as Hunfold.
  { intros env0 aad0 Hne. unfold decrypt, _require_binding. rewrite Hne. cbn [throw_if rbind]. rewrite starts_with_app.
    destruct (keyring env0) as [r|]; cbn [rbind]; [|done]. rewrite drop_prefix_app. unfold partition1.
    rewrite (partition_colon_app kid) by exact Hgood. cbn [default from_option id]. 
    rewrite partition_colon_app by apply Hcolon. cbn [default from_option id]. destruct (assoc kid r); [|done].
    unfold _aesgcm_decrypt. by rewrite !Hb64. }
  split_and!.
  - unfold is_encrypted. by rewrite starts_with_app.
  - rewrite Hunfold by exact Haad. rewrite Hring'. cbn [rbind]. rewrite Hkid'. unfold ct. by rewrite Hdec.
  - intros aad' Hne Hempty. rewrite Hunfold by exact Hempty. rewrite Hring'. cbn [rbind]. rewrite Hkid'. unfold ct. by rewrite Hbind.
  - intros env'' x Hx Hno. rewrite Hunfold by exact Haad. rewrite Hx. cbn [rbind]. rewrite Hno. by eexists.
Qed.
End Laws.

(** ** An organization's secret under a rotated key *)

Module Demo.
(** bytes travel as hexadecimal; the binding is checked character by character *)
Fixpoint bind (aad value : string) : string :=
  match aad with
  | EmptyString => String "0" value
  | String c aad => String "1" (String c (bind aad value))
  end.
Fixpoint unbind (aad ct : string) : option string :=
  match aad, ct with
  | EmptyString, String "0" value => Some value
  | String c aad, String "1" (String x ct) => if Ascii.eqb c x then unbind aad ct else None
  | _, _ => None
  end.

#[export] Instance toy : Aead :=
  {| aesgcm_encrypt key nonce value aad := bind aad (key +:+ value);
     aesgcm_decrypt key nonce ct aad :=
       match unbind aad ct with
       | Some v => if starts_with key v then Some (drop_prefix key v) else None
       | None => None
       end;
     urlsafe_b64encode := hex; urlsafe_b64decode := fromhex |}.

Lemma unbind_bind aad value : unbind aad (bind aad value) = Some value.
Proof. induction aad as [|c aad IH]; [done|]. cbn. by rewrite Ascii.eqb_refl. Qed.

Lemma unbind_other aad aad' value : aad' <> aad -> unbind aad' (bind aad value) = None.
Proof.
  revert aad'. induction aad as [|c aad IH]; intros [|x aad'] Hne; [done..|]. cbn.
  destruct (Ascii.eqb_spec x c) as [->|]; [|done]. apply IH. congruence.
Qed.

Lemma toy_laws : aead_laws.
Proof.
  split.
  - intros key nonce value aad. cbn. by rewrite unbind_bind, starts_with_app, drop_prefix_app.
  - intros key nonce value aad aad' Hne. cbn. by rewrite unbind_other.
  - apply fromhex_hex.
  - apply hex_no_colon.
Qed.

Definition old_key : string := hex "0123456789abcdef0123456789abcdef".
Definition new_key : string := hex "fedcba9876543210fedcba9876543210".
Definition before : secret_settings := mk_secret_settings (Some old_key) None None None.
Definition rotated : secret_settings :=
  mk_secret_settings (Some old_key) (Some (Some (PDict [("2026", PStr new_key)]))) (Some "2026") None.
Definition sealed : string := match encrypt before "nonce" "s3cret" "acme" with Ok s => s | Raise _ => "" end.

Example new_values_use_the_new_key :
  (let! s := encrypt rotated "n" "s3cret" "acme" in decrypt rotated s "acme") = Ok "s3cret" /\
  (let! s := encrypt rotated "n" "s3cret" "acme" in decrypt before s "acme") =
    Raise (SecretKeyMissing "a stored secret was encrypted under key '2026', which is not in the configured keyring").
Proof. vm_compute. done. Qed.
End Demo.
Import Demo.

Lemma secrets_survive_rotation_witness : decrypt Demo.rotated Demo.sealed "acme" = Ok "s3cret".
Proof.
  refine (proj1 (proj2 (secrets_survive_rotation Demo.before Demo.rotated "nonce" "s3cret" "acme" "legacy"
    "0123456789abcdef0123456789abcdef" [("legacy", "0123456789abcdef0123456789abcdef"); ("2026", "fedcba9876543210fedcba9876543210")]
    Demo.sealed Demo.toy_laws _ _ _ _ _))).
  all: vm_compute; reflexivity.
Defined.
