(* ===== verification/Contracts.v ===== *)
(** * Contracts of the portable interface (schemas/portable.py)

    The payloads an execution platform exchanges with Norinth.  A record is an
    instance as pydantic built it; [_dump] is its [model_dump], [_check] the
    declared constraints with the validators of the class, and [_validate] is
    [model_validate] of a document [model_dump] wrote: a key that is not
    declared, a value of another type or a broken constraint is a validation
    error, which is a [ValueError].  Pydantic would convert some values of other
    types; no stored document has them. *)

From stdpp Require Import base list strings option pretty sets gmap.
From Stdlib Require Import ZArith Lia Ascii.
From S2P Require Import Prelude Py.

Open Scope nat_scope.

(** ** Reading and writing documents *)

Definition CONTRACT_VERSION : string := "2026-01".
Definition contract (items : list (string * pyval)) : pyval := PDict (("contract_version", PStr CONTRACT_VERSION) :: items).
Definition strs (l : list string) : pyval := PList (map PStr l).
Definition opt_str (o : option string) : pyval := match o with Some s => PStr s | None => PNone end.

Definition as_str (v : pyval) : option string := match v with PStr s => Some s | _ => None end.
Definition as_bool (v : pyval) : option bool := match v with PBool b => Some b | _ => None end.
Definition as_int (v : pyval) : option Z := match v with PInt z => Some z | _ => None end.
Definition as_opt_str (v : pyval) : option (option string) :=
  match v with PNone => Some None | PStr s => Some (Some s) | _ => None end.
Definition as_list {A} (r : pyval -> option A) (v : pyval) : option (list A) :=
  match v with PList l => mapM r l | _ => None end.
Definition as_dict {A} (r : pyval -> option A) (v : pyval) : option (list (string * A)) :=
  match v with PDict d => mapM (fun kv => pair (fst kv) <$> r (snd kv)) d | _ => None end.

Definition required {A} (r : pyval -> option A) (k : string) (d : list (string * pyval)) : option A := assoc k d ≫= r.
Definition optional {A} (r : pyval -> option A) (dflt : A) (k : string) (d : list (string * pyval)) : option A :=
  match assoc k d with Some v => r v | None => Some dflt end.

(** the items of a contract document: its version and no undeclared key *)
Definition contract_items (keys : list string) (v : pyval) : option (list (string * pyval)) :=
  match v with
  | PDict d =>
      if forallb (fun kv => mem (fst kv) ("contract_version" :: keys)) d &&
         match assoc "contract_version" d with Some v => py_eqb v (PStr CONTRACT_VERSION) | None => true end
      then Some d else None
  | _ => None
  end.

Definition validated {A} (o : option A) : res A :=
  match o with Some a => Ok a | None => Raise (ValueError "validation error") end.
(** a request body that does not validate *)
Definition parsed {A} (o : option A) : res A :=
  match o with Some a => Ok a | None => Raise (HTTPException 422 "validation error") end.

(** ** Constraints *)

Definition sized (low high : nat) (s : string) : bool := (low <=? String.length s) && (String.length s <=? high).
Definition counted {A} (low high : nat) (l : list A) : bool := (low <=? length l) && (length l <=? high).
Definition within (low high z : Z) : bool := ((low <=? z) && (z <=? high))%Z.

Definition lower_hex (c : ascii) : bool :=
  let n := N_of_ascii c in (((48 <=? n) && (n <=? 57)) || ((97 <=? n) && (n <=? 102)))%N.
(** the pattern of a digest: [^sha256:[a-f0-9]{64}$] *)
Definition digest_pattern (s : string) : bool :=
  starts_with "sha256:" s && Nat.eqb (String.length s) 71 &&
  forallb lower_hex (drop 7 (String.list_ascii_of_string s)).
(** the pattern of a namespace: [^[a-z][a-z0-9_.-]*$] *)
Definition namespace_pattern (s : string) : bool :=
  let small c := ((97 <=? N_of_ascii c) && (N_of_ascii c <=? 122))%N in
  match s with
  | String c s' =>
      small c && forallb (fun c => small c || ((48 <=? N_of_ascii c) && (N_of_ascii c <=? 57))%N ||
                                   bool_decide (c ∈ ["_"; "."; "-"]%char)) (String.list_ascii_of_string s')
  | EmptyString => false
  end.

(** the validator of identifier lists: stripped, nonempty, distinct, sorted; of
    distinct strings [sorted] is [sorted_set] *)
Definition identifiers (values : list string) : option (list string) :=
  let values := map strip values in
  if existsb (fun v => is_empty (strip v) || negb (sized 0 256 v)) values || negb (bool_decide (NoDup values))
  then None else Some (sorted_set values).

(** ** Integrations *)

Definition SCOPES : list string :=
  ["systems:read"; "systems:write"; "revisions:write"; "observations:write"; "authorizations:request"; "receipts:write"].

Record ActionCapability := mk_capability {
  cap_name : string;
  cap_resource_type : string;
  cap_operation : string;
  cap_parameter_types : list (string * string);
  cap_reversible : bool;
  cap_verification_check : string
}.

Definition capability_dump (c : ActionCapability) : pyval :=
  contract [("name", PStr (cap_name c)); ("resource_type", PStr (cap_resource_type c));
    ("operation", PStr (cap_operation c));
    ("parameter_types", PDict (map (fun kv => (fst kv, PStr (snd kv))) (cap_parameter_types c)));
    ("reversible", PBool (cap_reversible c)); ("verification_check", PStr (cap_verification_check c))].

Definition capability_check (c : ActionCapability) : bool :=
  sized 1 128 (cap_name c) && sized 1 128 (cap_resource_type c) && sized 1 128 (cap_operation c) &&
  counted 0 32 (cap_parameter_types c) &&
  forallb (fun kv => mem (snd kv) ["string"; "number"; "boolean"]) (cap_parameter_types c) &&
  sized 1 128 (cap_verification_check c).

Record IntegrationCreate := mk_integration {
  int_name : string;
  int_namespace : string;
  int_project : string;
  int_environment : string;
  int_scopes : list string;
  int_capabilities : list ActionCapability
}.

Definition integration_dump (i : IntegrationCreate) : pyval :=
  contract [("name", PStr (int_name i)); ("namespace", PStr (int_namespace i)); ("project", PStr (int_project i));
    ("environment", PStr (int_environment i)); ("scopes", strs (int_scopes i));
    ("capabilities", PList (map capability_dump (int_capabilities i)))].

Definition dependent_scopes (scopes : list string) : bool :=
  bool_decide (NoDup scopes) && mem "systems:read" scopes.

Definition integration_check (i : IntegrationCreate) : option IntegrationCreate :=
  if sized 1 128 (int_name i) && sized 1 128 (int_namespace i) && namespace_pattern (int_namespace i) &&
     sized 1 128 (int_project i) && sized 1 128 (int_environment i) && counted 1 6 (int_scopes i) &&
     forallb (fun s => mem s SCOPES) (int_scopes i) && dependent_scopes (int_scopes i) &&
     counted 0 32 (int_capabilities i) && forallb capability_check (int_capabilities i)
  then Some i else None.

(** ** Systems and revisions *)

Record SystemInput := mk_system {
  sys_external_id : string;
  sys_display_name : string;
  sys_resource_type : string;
  sys_purpose : string;
  sys_legacy_application_name : option string
}.

Definition system_dump (s : SystemInput) : pyval :=
  contract [("external_id", PStr (sys_external_id s)); ("display_name", PStr (sys_display_name s));
    ("resource_type", PStr (sys_resource_type s)); ("purpose", PStr (sys_purpose s));
    ("legacy_application_name", opt_str (sys_legacy_application_name s))].

Definition system_check (s : SystemInput) : option SystemInput :=
  if sized 1 256 (sys_external_id s) && sized 1 256 (sys_display_name s) && sized 1 128 (sys_resource_type s) &&
     sized 0 1000 (sys_purpose s) && from_option (sized 1 256) true (sys_legacy_application_name s)
  then Some s else None.

Record RevisionManifest := mk_manifest {
  man_revision : string;
  man_artifact_digest : string;
  man_models : list string;
  man_tools : list string;
  man_resources : list string;
  man_prompt_refs : list string;
  man_autonomy_level : Z;
  man_untrusted_input : bool;
  man_sensitive_data : bool;
  man_external_action : bool;
  man_human_checkpoint : bool
}.

Definition manifest_dump (m : RevisionManifest) : pyval :=
  contract [("revision", PStr (man_revision m)); ("artifact_digest", PStr (man_artifact_digest m));
    ("models", strs (man_models m)); ("tools", strs (man_tools m)); ("resources", strs (man_resources m));
    ("prompt_refs", strs (man_prompt_refs m)); ("autonomy_level", PInt (man_autonomy_level m));
    ("untrusted_input", PBool (man_untrusted_input m)); ("sensitive_data", PBool (man_sensitive_data m));
    ("external_action", PBool (man_external_action m)); ("human_checkpoint", PBool (man_human_checkpoint m))].

Definition manifest_check (m : RevisionManifest) : option RevisionManifest :=
  if sized 1 128 (man_revision m) && digest_pattern (man_artifact_digest m) && counted 0 64 (man_models m) &&
     counted 0 128 (man_tools m) && counted 0 128 (man_resources m) && counted 0 128 (man_prompt_refs m) &&
     within 0 4 (man_autonomy_level m)
  then models ← identifiers (man_models m); tools ← identifiers (man_tools m);
       resources ← identifiers (man_resources m); prompt_refs ← identifiers (man_prompt_refs m);
       Some (mk_manifest (man_revision m) (man_artifact_digest m) models tools resources prompt_refs
         (man_autonomy_level m) (man_untrusted_input m) (man_sensitive_data m) (man_external_action m)
         (man_human_checkpoint m))
  else None.

Definition manifest_read (v : pyval) : option RevisionManifest :=
  d ← contract_items ["revision"; "artifact_digest"; "models"; "tools"; "resources"; "prompt_refs"; "autonomy_level";
    "untrusted_input"; "sensitive_data"; "external_action"; "human_checkpoint"] v;
  revision ← required as_str "revision" d; artifact ← required as_str "artifact_digest" d;
  models ← optional (as_list as_str) [] "models" d; tools ← optional (as_list as_str) [] "tools" d;
  resources ← optional (as_list as_str) [] "resources" d; prompt_refs ← optional (as_list as_str) [] "prompt_refs" d;
  autonomy ← optional as_int 0%Z "autonomy_level" d; untrusted ← optional as_bool false "untrusted_input" d;
  sensitive ← optional as_bool false "sensitive_data" d; external ← optional as_bool false "external_action" d;
  checkpoint ← optional as_bool false "human_checkpoint" d;
  Some (mk_manifest revision artifact models tools resources prompt_refs autonomy untrusted sensitive external checkpoint).

Definition manifest_validate (v : pyval) : res RevisionManifest := validated (manifest_read v ≫= manifest_check).

(** ** Observations *)

Record ObservationInput := mk_observation {
  ob_external_id : string;
  ob_check_id : string;
  ob_result : string;
  ob_observed_at : string;
  ob_revision_digest : string;
  ob_evidence_ref : string;
  ob_action_digest : option string;
  ob_resource_id : option string
}.

Definition observation_items (o : ObservationInput) : list (string * pyval) :=
  [("contract_version", PStr CONTRACT_VERSION); ("external_id", PStr (ob_external_id o)); ("check_id", PStr (ob_check_id o));
   ("result", PStr (ob_result o)); ("observed_at", PStr (ob_observed_at o));
   ("revision_digest", PStr (ob_revision_digest o)); ("evidence_ref", PStr (ob_evidence_ref o));
   ("action_digest", opt_str (ob_action_digest o)); ("resource_id", opt_str (ob_resource_id o))].

Definition observation_check (o : ObservationInput) : option ObservationInput :=
  if sized 1 256 (ob_external_id o) && sized 1 128 (ob_check_id o) && mem (ob_result o) ["passing"; "failed"; "unknown"] &&
     sized 1 64 (ob_observed_at o) && digest_pattern (ob_revision_digest o) && sized 1 512 (ob_evidence_ref o) &&
     from_option digest_pattern true (ob_action_digest o) && from_option (sized 1 256) true (ob_resource_id o)
  then Some o else None.

(** ** Runtime policies *)

Record RuntimePolicy := mk_policy {
  pol_models : list string;
  pol_tools : list string;
  pol_resources : list string;
  pol_actions : list string;
  pol_remediation_actions : list string;
  pol_action_parameters : list (string * list (string * pyval));
  pol_max_autonomy : Z;
  pol_allow_external_action : bool;
  pol_require_human_checkpoint : bool;
  pol_allow_routine_releases : bool;
  pol_required_checks : list string;
  pol_trusted_sources : list string;
  pol_evidence_max_age_seconds : Z;
  pol_permit_ttl_seconds : Z
}.

Definition policy_dump (p : RuntimePolicy) : pyval :=
  contract [("models", strs (pol_models p)); ("tools", strs (pol_tools p)); ("resources", strs (pol_resources p));
    ("actions", strs (pol_actions p)); ("remediation_actions", strs (pol_remediation_actions p));
    ("action_parameters", PDict (map (fun kv => (fst kv, PDict (snd kv))) (pol_action_parameters p)));
    ("max_autonomy", PInt (pol_max_autonomy p)); ("allow_external_action", PBool (pol_allow_external_action p));
    ("require_human_checkpoint", PBool (pol_require_human_checkpoint p));
    ("allow_routine_releases", PBool (pol_allow_routine_releases p));
    ("required_checks", strs (pol_required_checks p)); ("trusted_sources", strs (pol_trusted_sources p));
    ("evidence_max_age_seconds", PInt (pol_evidence_max_age_seconds p));
    ("permit_ttl_seconds", PInt (pol_permit_ttl_seconds p))].

Definition policy_constraints (p : RuntimePolicy) : bool :=
  counted 0 64 (pol_models p) && counted 0 128 (pol_tools p) && counted 0 128 (pol_resources p) &&
  counted 0 32 (pol_actions p) && counted 0 32 (pol_remediation_actions p) && counted 0 32 (pol_action_parameters p) &&
  within 0 4 (pol_max_autonomy p) && counted 1 64 (pol_required_checks p) && counted 1 32 (pol_trusted_sources p) &&
  within 60 2592000 (pol_evidence_max_age_seconds p) && within 1 300 (pol_permit_ttl_seconds p).

Definition policy_check (p : RuntimePolicy) : option RuntimePolicy :=
  if policy_constraints p
  then models ← identifiers (pol_models p); tools ← identifiers (pol_tools p);
       resources ← identifiers (pol_resources p); actions ← identifiers (pol_actions p);
       remediation ← identifiers (pol_remediation_actions p); checks ← identifiers (pol_required_checks p);
       sources ← identifiers (pol_trusted_sources p);
       Some (mk_policy models tools resources actions remediation (pol_action_parameters p) (pol_max_autonomy p)
         (pol_allow_external_action p) (pol_require_human_checkpoint p) (pol_allow_routine_releases p) checks sources
         (pol_evidence_max_age_seconds p) (pol_permit_ttl_seconds p))
  else None.

Definition policy_read (v : pyval) : option RuntimePolicy :=
  d ← contract_items ["models"; "tools"; "resources"; "actions"; "remediation_actions"; "action_parameters"; "max_autonomy";
    "allow_external_action"; "require_human_checkpoint"; "allow_routine_releases"; "required_checks"; "trusted_sources";
    "evidence_max_age_seconds"; "permit_ttl_seconds"] v;
  models ← optional (as_list as_str) [] "models" d; tools ← optional (as_list as_str) [] "tools" d;
  resources ← optional (as_list as_str) [] "resources" d; actions ← optional (as_list as_str) [] "actions" d;
  remediation ← optional (as_list as_str) [] "remediation_actions" d;
  parameters ← optional (as_dict (as_dict Some)) [] "action_parameters" d;
  autonomy ← optional as_int 0%Z "max_autonomy" d; external ← optional as_bool false "allow_external_action" d;
  checkpoint ← optional as_bool true "require_human_checkpoint" d;
  routine ← optional as_bool false "allow_routine_releases" d;
  checks ← required (as_list as_str) "required_checks" d; sources ← required (as_list as_str) "trusted_sources" d;
  age ← optional as_int 86400%Z "evidence_max_age_seconds" d; ttl ← optional as_int 60%Z "permit_ttl_seconds" d;
  Some (mk_policy models tools resources actions remediation parameters autonomy external checkpoint routine checks
    sources age ttl).

Definition policy_validate (v : pyval) : res RuntimePolicy := validated (policy_read v ≫= policy_check).

(** ** Requests for authorization *)

Record ActionInput := mk_action {
  act_capability : string;
  act_resource_id : string;
  act_parameters : list (string * pyval)
}.

Definition action_dump (a : ActionInput) : pyval :=
  contract [("capability", PStr (act_capability a)); ("resource_id", PStr (act_resource_id a));
    ("parameters", PDict (act_parameters a))].

Definition action_check (a : ActionInput) : option ActionInput :=
  if sized 1 128 (act_capability a) && sized 1 256 (act_resource_id a) && counted 0 32 (act_parameters a)
  then Some a else None.

Definition action_read (v : pyval) : option ActionInput :=
  d ← contract_items ["capability"; "resource_id"; "parameters"] v;
  capability ← required as_str "capability" d; resource ← required as_str "resource_id" d;
  parameters ← optional (as_dict Some) [] "parameters" d;
  action_check (mk_action capability resource parameters).

Record AuthorizationInput := mk_request {
  au_revision_id : string;
  au_purpose : string;
  au_action : option ActionInput
}.

Definition request_dump (r : AuthorizationInput) : pyval :=
  contract [("revision_id", PStr (au_revision_id r)); ("purpose", PStr (au_purpose r));
    ("action", match au_action r with Some a => action_dump a | None => PNone end)].

Definition request_check (r : AuthorizationInput) : option AuthorizationInput :=
  if sized 1 128 (au_revision_id r) && mem (au_purpose r) ["release"; "runtime"; "remediation"] &&
     match au_action r with Some a => bool_decide (is_Some (action_check a)) | None => true end
  then Some r else None.

Definition request_read (v : pyval) : option AuthorizationInput :=
  d ← contract_items ["revision_id"; "purpose"; "action"] v;
  revision ← required as_str "revision_id" d; purpose ← required as_str "purpose" d;
  action ← optional (fun v => if is_none v then Some None else Some <$> action_read v) None "action" d;
  Some (mk_request revision purpose action).

Definition request_validate (v : pyval) : res AuthorizationInput := validated (request_read v ≫= request_check).

(** ** Receipts, decisions and delegations *)

Record ReceiptInput := mk_receipt {
  rcp_authorization_id : string;
  rcp_outcome : string;
  rcp_evidence_ref : string
}.

Definition receipt_items (r : ReceiptInput) : list (string * pyval) :=
  [("contract_version", PStr CONTRACT_VERSION); ("authorization_id", PStr (rcp_authorization_id r));
   ("outcome", PStr (rcp_outcome r)); ("evidence_ref", PStr (rcp_evidence_ref r))].

Definition receipt_check (r : ReceiptInput) : option ReceiptInput :=
  if sized 1 128 (rcp_authorization_id r) && mem (rcp_outcome r) ["executed"; "failed"] && sized 1 512 (rcp_evidence_ref r)
  then Some r else None.

Record DecisionInput := mk_decision_input {
  dec_expected_body_digest : string;
  dec_rationale : string
}.
Definition decision_check (p : DecisionInput) : option DecisionInput :=
  if digest_pattern (dec_expected_body_digest p) && sized 12 2000 (dec_rationale p) then Some p else None.

Definition DECISIONS : list string :=
  ["approve_system"; "approve_revision"; "activate_policy"; "activate_pack"; "retire_system"].

Record DelegationInput := mk_delegation {
  del_decision_input : DecisionInput;
  del_integration_id : string;
  del_target_id : string;
  del_decision : string
}.

Definition delegation_dump (p : DelegationInput) : pyval :=
  contract [("expected_body_digest", PStr (dec_expected_body_digest (del_decision_input p)));
    ("rationale", PStr (dec_rationale (del_decision_input p))); ("integration_id", PStr (del_integration_id p));
    ("target_id", PStr (del_target_id p)); ("decision", PStr (del_decision p))].

Definition delegation_check (p : DelegationInput) : option DelegationInput :=
  if bool_decide (is_Some (decision_check (del_decision_input p))) && sized 1 128 (del_integration_id p) &&
     sized 1 128 (del_target_id p) && mem (del_decision p) DECISIONS
  then Some p else None.

Record SubmissionInput := mk_submission {
  sub_integration_id : string;
  sub_system_id : string;
  sub_manifest : RevisionManifest
}.

Definition submission_check (p : SubmissionInput) : option SubmissionInput :=
  if sized 1 128 (sub_integration_id p) && sized 1 128 (sub_system_id p)
  then manifest ← manifest_check (sub_manifest p); Some (mk_submission (sub_integration_id p) (sub_system_id p) manifest)
  else None.

(** ** Control packs *)

Record ControlDefinition := mk_control {
  cd_control_id : string;
  cd_name : string;
  cd_resource_types : list string;
  cd_check_ids : list string;
  cd_framework_refs : list string;
  cd_max_age_seconds : Z
}.

Definition control_dump (c : ControlDefinition) : pyval :=
  contract [("control_id", PStr (cd_control_id c)); ("name", PStr (cd_name c));
    ("resource_types", strs (cd_resource_types c)); ("check_ids", strs (cd_check_ids c));
    ("framework_refs", strs (cd_framework_refs c)); ("max_age_seconds", PInt (cd_max_age_seconds c))].

Definition control_check (c : ControlDefinition) : option ControlDefinition :=
  if sized 1 128 (cd_control_id c) && sized 1 256 (cd_name c) && counted 1 32 (cd_resource_types c) &&
     counted 1 32 (cd_check_ids c) && counted 1 64 (cd_framework_refs c) && within 60 2592000 (cd_max_age_seconds c)
  then types ← identifiers (cd_resource_types c); checks ← identifiers (cd_check_ids c);
       refs ← identifiers (cd_framework_refs c);
       Some (mk_control (cd_control_id c) (cd_name c) types checks refs (cd_max_age_seconds c))
  else None.

Definition control_read (v : pyval) : option ControlDefinition :=
  d ← contract_items ["control_id"; "name"; "resource_types"; "check_ids"; "framework_refs"; "max_age_seconds"] v;
  control ← required as_str "control_id" d; name ← required as_str "name" d;
  types ← required (as_list as_str) "resource_types" d; checks ← required (as_list as_str) "check_ids" d;
  refs ← required (as_list as_str) "framework_refs" d; age ← optional as_int 86400%Z "max_age_seconds" d;
  control_check (mk_control control name types checks refs age).

Record ControlPack := mk_pack {
  pk_pack_id : string;
  pk_version : string;
  pk_trusted_sources : list string;
  pk_controls : list ControlDefinition
}.

Definition pack_dump (p : ControlPack) : pyval :=
  contract [("pack_id", PStr (pk_pack_id p)); ("version", PStr (pk_version p));
    ("trusted_sources", strs (pk_trusted_sources p)); ("controls", PList (map control_dump (pk_controls p)))].

Definition pack_check (p : ControlPack) : option ControlPack :=
  if sized 1 128 (pk_pack_id p) && sized 1 128 (pk_version p) && counted 1 32 (pk_trusted_sources p) &&
     counted 1 128 (pk_controls p)
  then sources ← identifiers (pk_trusted_sources p); controls ← mapM control_check (pk_controls p);
       Some (mk_pack (pk_pack_id p) (pk_version p) sources controls)
  else None.

Definition pack_read (v : pyval) : option ControlPack :=
  d ← contract_items ["pack_id"; "version"; "trusted_sources"; "controls"] v;
  pack ← required as_str "pack_id" d; version ← required as_str "version" d;
  sources ← required (as_list as_str) "trusted_sources" d; controls ← required (as_list control_read) "controls" d;
  Some (mk_pack pack version sources controls).

Definition pack_validate (v : pyval) : res ControlPack := validated (pack_read v ≫= pack_check).

Example identifiers_examples :
  identifiers [" b "; "a"] = Some ["a"; "b"] /\ identifiers ["a"; "a "] = None /\ identifiers ["  "] = None.
Proof. by vm_compute. Qed.
