(* ===== verification/PortableStore.v ===== *)
(** * Portable records (storage/portable.py)

    One table holds every record of the portable interface, its kind and state
    beside a JSON body; a second one holds the hashes of the tokens handed out.
    The body column keeps the value [json.loads] returns: what was written, its
    objects in key order. *)

From stdpp Require Import base list strings option pretty sets gmap.
From Stdlib Require Import ZArith QArith Lia Ascii.
From S2P Require Import Prelude Py Dates Json Sql Schema Requests.

Open Scope nat_scope.

(** ** Canonical text *)

(** no float of the value is infinite or NaN *)
Fixpoint finite (v : pyval) : bool :=
  match v with
  | PFloat (FFin _) => true
  | PFloat _ => false
  | PList l => forallb finite l
  | PDict d => forallb (fun kv => finite (snd kv)) d
  | _ => true
  end.

(** [json.loads] of the canonical text *)
Fixpoint stored (v : pyval) : pyval :=
  match v with
  | PList l => PList (map stored l)
  | PDict d => PDict (sort_items (map (fun kv => (fst kv, stored (snd kv))) d))
  | _ => v
  end.

Section Store.
Context `{PyHost} `{Digest}.

Definition canonical (value : pyval) : res string :=
  if finite value then Ok (encode_compact value)
  else Raise (ValueError "Out of range float values are not JSON compliant").

Definition digest (value : pyval) : res string :=
  let! text := canonical value in Ok ("sha256:" +:+ sha256 text).

Definition token_hash (token : string) : string := sha256 token.

(** ** Reading *)

Definition record_is (tenant_id record_id : string) (r : portable_record) : bool :=
  String.eqb (po_tenant_id r) tenant_id && String.eqb (po_record_id r) record_id.

Definition load (tenant_id record_id : string) (kind : option string) (d : db) : res portable_record :=
  match select1 (record_is tenant_id record_id) (portable_records d) with
  | Some row =>
      if match kind with Some k => negb (String.eqb (po_kind row) k) | None => false end
      then Raise (RecordNotFound "Portable record not found") else Ok row
  | None => Raise (RecordNotFound "Portable record not found")
  end.

(** the filters of [records]; [None] does not filter *)
Record record_filter := mk_filter {
  rq_project : option string;
  rq_environment : option string;
  rq_subject_id : option string;
  rq_revision_id : option string;
  rq_policy_id : option string;
  rq_purpose : option string;
  rq_state : option string
}.

Definition passes (o : option string) (column : string) : bool :=
  match o with Some v => String.eqb column v | None => true end.

Definition newest_first (a b : portable_record) : bool :=
  if String.eqb (po_created_at a) (po_created_at b) then negb (str_ltb (po_record_id b) (po_record_id a))
  else str_ltb (po_created_at b) (po_created_at a).

Definition matches (tenant_id kind : string) (f : record_filter) (r : portable_record) : bool :=
  String.eqb (po_tenant_id r) tenant_id && String.eqb (po_kind r) kind &&
  passes (rq_project f) (po_project r) && passes (rq_environment f) (po_environment r) &&
  passes (rq_subject_id f) (po_subject_id r) && passes (rq_revision_id f) (po_revision_id r) &&
  passes (rq_policy_id f) (po_policy_id r) && passes (rq_purpose f) (po_purpose r) &&
  passes (rq_state f) (po_state r).

Definition records (tenant_id kind : string) (f : record_filter) (limit offset : nat) (d : db) : list portable_record :=
  take limit (drop offset (order_by newest_first (select (matches tenant_id kind f) (portable_records d)))).

(** ** Writing *)

(** [datetime.now(UTC).isoformat()] *)
Definition iso_now (now : Z) : string := isoformat_utc (mk_datetime now (Some 0%Z)).

(** the [observed_at] column, in UTC to the microsecond; the service lets only
    instants with an offset through *)
Definition observed_column (body : pyval) : res string :=
  let! v := py_get body "observed_at" in
  if truthy v then
    let! text := py_text v in
    match fromisoformat (replace_z text) with
    | None => Raise (ValueError "Invalid isoformat string")
    | Some t => let! t := astimezone_utc (assume_utc t) in Ok (isoformat_utc_us t)
    end
  else Ok "".

Definition text_column (body : pyval) (k : string) : res string :=
  let! v := py_get_default body k (PStr "") in py_text v.

(** the UNIQUE constraint of the table *)
Definition same_external (a b : portable_record) : bool :=
  String.eqb (po_tenant_id a) (po_tenant_id b) && String.eqb (po_kind a) (po_kind b) &&
  String.eqb (po_integration_id a) (po_integration_id b) && String.eqb (po_project a) (po_project b) &&
  String.eqb (po_environment a) (po_environment b) && String.eqb (po_external_id a) (po_external_id b).

(** the row an INSERT writes *)
Definition new_record (now : Z) (record_id tenant_id kind project environment integration_id external_id state : string)
    (body : pyval) (created_by : string) : res portable_record :=
  let! subject_id := text_column body "system_id" in
  let! _ := canonical body in
  let! revision_id := text_column body "revision_id" in
  let! policy_id := py_get body "policy_id" in
  let! policy_id := py_text (py_or policy_id (PStr "")) in
  let! purpose := text_column body "purpose" in
  let! revision_digest := text_column body "revision_digest" in
  let! check_id := text_column body "check_id" in
  let! observed_at := observed_column body in
  let! result := text_column body "result" in
  Ok (mk_portable_record record_id tenant_id kind project environment integration_id external_id subject_id state
        (stored body) revision_id policy_id purpose revision_digest check_id observed_at result
        created_by (iso_now now) (iso_now now) "" "").

Definition insert (now : Z) (record_id tenant_id kind project environment integration_id external_id state : string)
    (body : pyval) (created_by : string) (d : db) : res (portable_record * db) :=
  let! row := new_record now record_id tenant_id kind project environment integration_id external_id state body created_by in
  let! _ := throw_if (existsb (fun r => String.eqb (po_record_id r) record_id || same_external r row) (portable_records d))
    (DatabaseError "UNIQUE constraint failed") in
  let d := set_portable_records (portable_records d ++ [row]) d in
  let! row := load tenant_id record_id None d in
  Ok (row, d).

Definition set_state (now : Z) (record : portable_record) (state : string) (decision_id : option string) (d : db)
    : res (portable_record * db) :=
  let d := set_portable_records (update (record_is (po_tenant_id record) (po_record_id record))
    (fun r => po_with_decision_id (default (po_decision_id r) decision_id)
       (po_with_audited_at "" (po_with_updated_at (iso_now now) (po_with_state state r)))) (portable_records d)) d in
  let! row := load (po_tenant_id record) (po_record_id record) None d in
  Ok (row, d).

(** ** Credentials *)

(** the INSERT of a token's hash, which is the primary key *)
Definition grant_token (token record_id tenant_id purpose : string) (expires_at : option string) (d : db) : res db :=
  let! _ := throw_if (existsb (fun c => String.eqb (pc_token_hash c) (token_hash token)) (portable_credentials d))
    (DatabaseError "UNIQUE constraint failed") in
  Ok (set_portable_credentials
        (portable_credentials d ++ [mk_portable_credential (token_hash token) record_id tenant_id purpose expires_at None]) d).

(** [SELECT * ... WHERE token_hash = ? AND tenant_id = ? AND purpose = ?] *)
Definition find_token (token tenant_id purpose : string) (d : db) : option portable_credential :=
  select1 (fun c => String.eqb (pc_token_hash c) (token_hash token) && String.eqb (pc_tenant_id c) tenant_id &&
                    String.eqb (pc_purpose c) purpose) (portable_credentials d).

Definition consume_token (now : Z) (token : string) (d : db) : db :=
  set_portable_credentials (update (fun c => String.eqb (pc_token_hash c) (token_hash token))
    (pc_with_consumed_at (Some (iso_now now))) (portable_credentials d)) d.

End Store.
