(* ===== verification/Portable.v ===== *)
(** * The portable governance engine (services/portable.py)

    An execution platform registers systems, revisions and observations, asks for
    an authorization, consumes the permit before it acts and reports what it did.
    People approve systems and revisions and activate policies.  [evaluate]
    decides a request; the other operations are the statements of one
    transaction, which an exception rolls back.  [now] is the clock of the
    request; record ids and tokens are drawn by the caller. *)

From stdpp Require Import base list strings option pretty sets gmap.
From Stdlib Require Import ZArith QArith Lia Ascii.
From S2P Require Import Prelude Py Dates Json Sql Schema Rbac Requests Ledger Contracts PortableStore.

Open Scope nat_scope.

Section Engine.
Context `{PyHost} `{Digest}.

(** ** Instants, people and sources *)

(** [instant], in microseconds *)
Definition read_instant (value : string) : res Z :=
  match fromisoformat (replace_z value) with
  | None => Raise (HTTPException 422 "Timestamp must be an ISO-8601 instant")
  | Some t =>
      match dt_offset t with
      | None => Raise (HTTPException 422 "Timestamp must include its timezone")
      | Some _ => let! t := astimezone_utc t in Ok (instant t)
      end
  end.

(** where a record lives: organization, project and environment *)
Record place := mk_place { pl_tenant_id : string; pl_project : string; pl_environment : string }.
Definition place_of (r : portable_record) : place := mk_place (po_tenant_id r) (po_project r) (po_environment r).
Definition same_place (a b : place) : bool :=
  String.eqb (pl_tenant_id a) (pl_tenant_id b) && String.eqb (pl_project a) (pl_project b) &&
  String.eqb (pl_environment a) (pl_environment b).

Definition require_human (actor : ActorContext) (permission : string) (t : place) (d : db) : res unit :=
  match require_permission d actor permission
          (mk_target (Some (pl_tenant_id t)) (Some (pl_project t)) (Some (pl_environment t)) None false) false with
  | Raise (AuthorizationError message) => Raise (HTTPException 403 message)
  | r => r
  end.

Definition organization_is_active (tenant_id : string) (d : db) : bool :=
  negb (is_empty tenant_id) &&
  match lookup_key org_tenant_id tenant_id (organizations d) with
  | Some row => String.eqb (org_status row) "active"
  | None => false
  end.

(** what an integration must be to act: anchored, active, its organization active *)
Definition inactive (r : portable_record) (d : db) : bool :=
  is_empty (po_audited_at r) || negb (String.eqb (po_state r) "active") ||
  negb (organization_is_active (po_tenant_id r) d).

Definition resolve_principal (token : option string) (d : db) : res portable_record :=
  match select1 (fun c => String.eqb (pc_token_hash c) (token_hash (default "" token)) &&
                          String.eqb (pc_purpose c) "integration") (portable_credentials d) with
  | None => Raise (HTTPException 401 "Invalid integration credential")
  | Some credential =>
      let! record := load (pc_tenant_id credential) (pc_record_id credential) (Some "integration") d in
      let! _ := throw_if (inactive record d) (HTTPException 403 "Integration or organization is inactive") in
      Ok record
  end.

Definition has_scope (principal : portable_record) (scope : string) : res bool :=
  let! scopes := py_item (po_body principal) "scopes" in
  let! scopes := py_iter scopes in Ok (py_in (PStr scope) scopes).

Definition principal_scope (principal : portable_record) (scope : string) (t : option place) : res unit :=
  let! granted := has_scope principal scope in
  let! _ := throw_if (negb granted) (HTTPException 403 "Integration lacks required scope") in
  throw_if (match t with Some t => negb (same_place t (place_of principal)) | None => false end)
    (HTTPException 404 "Portable record not found").

Definition ensure_source (tenant source_id : string) (t : place) (d : db) : res unit :=
  let! source := load tenant source_id (Some "integration") d in
  let! _ := principal_scope source "observations:write" (Some t) in
  throw_if (is_empty (po_audited_at source) || negb (String.eqb (po_state source) "active"))
    (HTTPException 409 "Evidence source is inactive").

Definition author (principal : portable_record) : string := "integration:" +:+ po_record_id principal.

(** ** Submitting *)

Definition create_integration (now : Z) (record_id external_id random tenant : string) (body : IntegrationCreate)
    (actor : string) (d : db) : res (portable_record * string * db) :=
  let! _ := throw_if (negb (bool_decide (NoDup (map cap_name (int_capabilities body)))))
    (HTTPException 422 "Capability names must be unique") in
  let! '(record, d) := insert now record_id tenant "integration" (int_project body) (int_environment body) "" external_id
    "active" (integration_dump body) actor d in
  let token := "nri_" +:+ random in
  let! d := grant_token token (po_record_id record) tenant "integration" None d in
  Ok (record, token, d).

(** [any(record["body"].get(k) != body.get(k) for k in ...)] *)
Definition any_changed (before after : pyval) (keys : list string) : res bool :=
  let! changes := rmap (fun k => let! x := py_get before k in let! y := py_get after k in Ok (negb (py_eqb x y))) keys in
  Ok (existsb (fun b : bool => b) changes).

Definition submit_system (now : Z) (record_id : string) (principal : portable_record) (body : SystemInput) (d : db)
    : res (portable_record * db) :=
  let! _ := principal_scope principal "systems:write" None in
  let! external_key := digest (PDict [("resource_type", PStr (sys_resource_type body)); ("external_id", PStr (sys_external_id body))]) in
  match select1 (fun r => String.eqb (po_tenant_id r) (po_tenant_id principal) && String.eqb (po_kind r) "system" &&
      String.eqb (po_integration_id r) (po_record_id principal) && String.eqb (po_external_id r) external_key &&
      String.eqb (po_project r) (po_project principal) && String.eqb (po_environment r) (po_environment principal))
      (portable_records d) with
  | Some record =>
      let! changed := any_changed (po_body record) (system_dump body) ["purpose"; "legacy_application_name"] in
      let state := if changed && negb (String.eqb (po_state record) "retired") then "planned" else po_state record in
      let! _ := canonical (system_dump body) in
      let d := set_portable_records (update (fun r => String.eqb (po_record_id r) (po_record_id record))
        (fun r => po_with_audited_at "" (po_with_updated_at (iso_now now) (po_with_state state
           (po_with_body (stored (system_dump body)) r)))) (portable_records d)) d in
      let! record := load (po_tenant_id principal) (po_record_id record) None d in
      Ok (record, d)
  | None =>
      insert now record_id (po_tenant_id principal) "system" (po_project principal) (po_environment principal)
        (po_record_id principal) external_key "planned" (system_dump body) (author principal) d
  end.

Definition system_for_source (principal : portable_record) (system_id : string) (owner : bool) (d : db)
    : res portable_record :=
  let! system := load (po_tenant_id principal) system_id (Some "system") d in
  let! _ := principal_scope principal "systems:read" (Some (place_of system)) in
  let! _ := throw_if (owner && negb (String.eqb (po_integration_id system) (po_record_id principal)))
    (HTTPException 403 "Only the bound executor can submit revisions and execution receipts") in
  Ok system.

(** an earlier submission of the principal under the same key *)
Definition submitted (principal : portable_record) (kind key : string) (d : db) : option portable_record :=
  select1 (fun r => String.eqb (po_tenant_id r) (po_tenant_id principal) && String.eqb (po_kind r) kind &&
                    String.eqb (po_integration_id r) (po_record_id principal) && String.eqb (po_external_id r) key)
    (portable_records d).

Definition submit_revision (now : Z) (record_id : string) (principal system : portable_record)
    (manifest : RevisionManifest) (actor_ref : option string) (d : db) : res (portable_record * db) :=
  let! _ := principal_scope principal "revisions:write" (Some (place_of system)) in
  let! _ := throw_if (String.eqb (po_state system) "retired") (HTTPException 409 "System is retired") in
  let! key := digest (PDict [("system_id", PStr (po_record_id system)); ("revision", PStr (man_revision manifest))]) in
  let! manifest_digest := digest (manifest_dump manifest) in
  let body := PDict [("system_id", PStr (po_record_id system)); ("manifest", manifest_dump manifest);
                     ("manifest_digest", PStr manifest_digest)] in
  match submitted principal "revision" key d with
  | Some record =>
      let! _ := throw_if (negb (py_eqb (po_body record) body))
        (HTTPException 409 "Revision names are immutable; submit a new revision") in
      Ok (record, d)
  | None =>
      insert now record_id (po_tenant_id principal) "revision" (po_project system) (po_environment system)
        (po_record_id principal) key "pending_review" body
        (match actor_ref with Some a => if is_empty a then author principal else a | None => author principal end) d
  end.

Definition submit_observation (now : Z) (record_id : string) (principal system : portable_record)
    (body : ObservationInput) (d : db) : res (portable_record * db) :=
  let! _ := principal_scope principal "observations:write" (Some (place_of system)) in
  let! observed := read_instant (ob_observed_at body) in
  let! _ := throw_if (now <? observed)%Z (HTTPException 422 "Future observations cannot establish evidence") in
  let! key := digest (PDict [("system_id", PStr (po_record_id system)); ("external_id", PStr (ob_external_id body))]) in
  let payload := PDict (item_set "system_id" (PStr (po_record_id system)) (observation_items body)) in
  match submitted principal "observation" key d with
  | Some record =>
      let! _ := throw_if (negb (py_eqb (po_body record) payload))
        (HTTPException 409 "Observations are immutable; use a new external id") in
      Ok (record, d)
  | None =>
      insert now record_id (po_tenant_id principal) "observation" (po_project system) (po_environment system)
        (po_record_id principal) key "recorded" payload (author principal) d
  end.

(** ** Evidence *)

Definition result_rank (result : string) : nat :=
  if String.eqb result "failed" then 0 else if String.eqb result "unknown" then 1 else 2.

(** the ORDER BY: latest observation first, failures before successes *)
Definition evidence_first (a b : portable_record) : bool :=
  if str_ltb (po_observed_at b) (po_observed_at a) then true
  else if str_ltb (po_observed_at a) (po_observed_at b) then false
  else if result_rank (po_evidence_result a) <? result_rank (po_evidence_result b) then true
  else if result_rank (po_evidence_result b) <? result_rank (po_evidence_result a) then false
  else newest_first a b.

(** the JOIN with an active source of the same organization *)
Definition source_active (d : db) (observation : portable_record) : bool :=
  existsb (fun s => String.eqb (po_record_id s) (po_integration_id observation) &&
                    String.eqb (po_tenant_id s) (po_tenant_id observation) &&
                    String.eqb (po_kind s) "integration" && String.eqb (po_state s) "active") (portable_records d).

Definition bears_on (system : portable_record) (revision_digest check : string) (sources : list string)
    (d : db) (r : portable_record) : bool :=
  source_active d r && String.eqb (po_tenant_id r) (po_tenant_id system) && String.eqb (po_kind r) "observation" &&
  String.eqb (po_subject_id r) (po_record_id system) && String.eqb (po_revision_digest r) revision_digest &&
  String.eqb (po_check_id r) check && mem (po_integration_id r) sources.

Definition latest_observation (system : portable_record) (revision_digest check : string) (sources : list string)
    (d : db) : option portable_record :=
  head (order_by evidence_first (select (bears_on system revision_digest check sources d) (portable_records d))).

(** one check: what blocks it, or the observation it rests on; the age is
    compared in microseconds, which [total_seconds()] of these ranges keeps apart *)
Definition check_evidence (now : Z) (system : portable_record) (revision_digest : string) (sources : list string)
    (age : Z) (d : db) (check : string) : res (string + string) :=
  match latest_observation system revision_digest check sources d with
  | None => Ok (inl ("missing_evidence:" +:+ check))
  | Some latest =>
      if is_empty (po_audited_at latest) then Ok (inl ("pending_evidence_audit:" +:+ check))
      else
        let! at_ := py_item (po_body latest) "observed_at" in
        let! at_ := py_text at_ in
        let! observed := read_instant at_ in
        if (age * 1000000 <? now - observed)%Z then Ok (inl ("stale_evidence:" +:+ check))
        else
          let! result := py_item (po_body latest) "result" in
          if py_eqb result (PStr "unknown") then Ok (inl ("unknown_evidence:" +:+ check))
          else if negb (py_eqb result (PStr "passing")) then Ok (inl ("nonpassing_evidence:" +:+ check))
          else Ok (inr (po_record_id latest))
  end.

Definition gap_of (o : string + string) : option string := match o with inl b => Some b | inr _ => None end.
Definition ref_of (o : string + string) : option string := match o with inl _ => None | inr r => Some r end.

Definition evidence (now : Z) (system : portable_record) (revision_digest : string) (checks sources : list string)
    (age : Z) (d : db) : res (list string * list string) :=
  let! outcomes := rmap (check_evidence now system revision_digest sources age d) checks in
  Ok (omap gap_of outcomes, omap ref_of outcomes).

(** ** Deciding a request *)

Definition no_filter : record_filter := mk_filter None None None None None None None.

Definition active_policy (system : portable_record) (d : db) : option portable_record :=
  let policies := records (po_tenant_id system) "policy"
    (mk_filter None None (Some (po_record_id system)) None None None (Some "active")) 1 0 d in
  find (fun p => String.eqb (po_state p) "active") policies.

(** the answer: an outcome, its reasons and what it was decided on *)
Record evaluation := mk_evaluation {
  el_outcome : string;
  el_reasons : list string;
  el_system_id : string;
  el_revision_id : string;
  el_manifest_digest : string;
  el_policy_id : option string;
  el_policy_digest : option string;
  el_checked_at : string;
  el_evidence_ids : list string
}.

Definition answer (base : evaluation) (outcome : string) (reasons refs : list string) : evaluation :=
  mk_evaluation outcome reasons (el_system_id base) (el_revision_id base) (el_manifest_digest base) (el_policy_id base)
    (el_policy_digest base) (el_checked_at base) refs.

Definition evaluation_items (e : evaluation) : list (string * pyval) :=
  [("outcome", PStr (el_outcome e)); ("reasons", strs (el_reasons e)); ("system_id", PStr (el_system_id e));
   ("revision_id", PStr (el_revision_id e)); ("manifest_digest", PStr (el_manifest_digest e));
   ("policy_id", opt_str (el_policy_id e)); ("policy_digest", opt_str (el_policy_digest e));
   ("checked_at", PStr (el_checked_at e)); ("evidence_ids", strs (el_evidence_ids e));
   ("enforcement", PStr "executor_required")].

(** [set(l) - set(m)] is not empty *)
Definition exceeds (l m : list string) : bool := negb (forallb (fun x => mem x m) l).

(** [["b"] if condition else []] *)
Definition blocker (condition : bool) (b : string) : list string := if condition then [b] else [].

(** how the manifest of a revision exceeds the policy *)
Definition manifest_blockers (rules : RuntimePolicy) (manifest : RevisionManifest) : list string :=
  blocker (exceeds (man_models manifest) (pol_models rules)) "outside_policy:models" ++
  blocker (exceeds (man_tools manifest) (pol_tools rules)) "outside_policy:tools" ++
  blocker (exceeds (man_resources manifest) (pol_resources rules)) "outside_policy:resources" ++
  blocker (pol_max_autonomy rules <? man_autonomy_level manifest)%Z "autonomy_exceeds_policy" ++
  blocker (man_external_action manifest && negb (pol_allow_external_action rules)) "external_action_not_allowed" ++
  blocker ((pol_require_human_checkpoint rules ||
            (man_untrusted_input manifest && man_sensitive_data manifest && man_external_action manifest)) &&
           negb (man_human_checkpoint manifest)) "human_checkpoint_required".

(** [{c["name"]: c for c in principal["body"]["capabilities"]}] *)
Definition capabilities_of (principal : portable_record) : res (list (string * pyval)) :=
  let! capabilities := py_item (po_body principal) "capabilities" in
  let! capabilities := py_iter capabilities in
  rfold (fun named c => let! name := py_item c "name" in let! name := py_text name in Ok (item_set name c named))
    [] capabilities.

Definition valid_parameter (expected : option pyval) (value : pyval) : bool :=
  let typed t := match expected with Some e => py_eqb e (PStr t) | None => false end in
  (typed "string" && match value with PStr s => String.length s <=? 2000 | _ => false end) ||
  (typed "boolean" && match value with PBool _ => true | _ => false end) ||
  (typed "number" && match value with PInt _ | PFloat _ => true | _ => false end).

Definition parameter_blockers (types parameters : list (string * pyval)) : list string :=
  blocker (exceeds (map fst parameters) (map fst types) || exceeds (map fst types) (map fst parameters))
    "invalid_action_parameters" ++
  omap (fun kv => if valid_parameter (assoc (fst kv) types) (snd kv) then None
                  else Some ("invalid_action_parameter:" +:+ fst kv)) parameters.

(** why the action is not permitted *)
Definition action_blockers (rules : RuntimePolicy) (manifest : RevisionManifest) (principal : portable_record)
    (purpose : string) (action : ActionInput) : res (list string) :=
  let! capabilities := capabilities_of principal in
  let capability := assoc (act_capability action) capabilities in
  let remediation := String.eqb purpose "remediation" in
  let permitted := if remediation then pol_remediation_actions rules else pol_actions rules in
  let! parameters := match capability with
                     | Some c => if truthy c then
                                   let! types := py_item c "parameter_types" in
                                   match types with
                                   | PDict types => Ok (parameter_blockers types (act_parameters action))
                                   | _ => Raise AttributeError
                                   end
                                 else Ok []
                     | None => Ok []
                     end in
  Ok (blocker (negb (mem (act_capability action) permitted) || bool_decide (capability = None)) "action_not_allowed" ++
      blocker (negb (mem (act_resource_id action) (pol_resources rules)) ||
               negb (mem (act_resource_id action) (man_resources manifest))) "resource_not_allowed" ++
      blocker (remediation && negb (py_eqb (PDict (act_parameters action))
        (PDict (default [] (assoc (act_capability action) (pol_action_parameters rules))))))
        "remediation_parameters_not_preapproved" ++
      parameters).

(** open risks, missing controls and open changes of the application a system is bound to *)
Definition legacy_blockers (system : portable_record) (legacy : string) (d : db) : list string :=
  let here (tenant : option string) project environment application :=
    sql_eq tenant (Some (po_tenant_id system)) && String.eqb project (po_project system) &&
    String.eqb environment (po_environment system) && String.eqb application legacy in
  blocker (existsb (fun r => here (rf_tenant_id r) (rf_project r) (rf_environment r) (rf_application_name r) &&
             mem (rf_status r) ["open"; "mitigation_required"]) (risk_findings d)) "legacy_blocker:risk_findings" ++
  blocker (existsb (fun r => here (ca_tenant_id r) (ca_project r) (ca_environment r) (ca_application_name r) &&
             String.eqb (ca_status r) "missing") (control_assessments d)) "legacy_blocker:control_assessments" ++
  blocker (existsb (fun r => here (ce_tenant_id r) (ce_project r) (ce_environment r) (ce_application_name r) &&
             String.eqb (ce_status r) "open") (change_events d)) "legacy_blocker:change_events".

(** an executed, anchored release of the revision under the policy, the latest one *)
Definition released (system revision policy : portable_record) (d : db) : res bool :=
  match records (po_tenant_id system) "receipt"
          (mk_filter None None (Some (po_record_id system)) (Some (po_record_id revision)) (Some (po_record_id policy))
             (Some "release") None) 1 0 d with
  | receipt :: _ =>
      if is_empty (po_audited_at receipt) then Ok false
      else let! outcome := py_item (po_body receipt) "outcome" in Ok (py_eqb outcome (PStr "executed"))
  | [] => Ok false
  end.

(** the end of [evaluate]: evidence, and the approval of the revision or a
    routine release *)
Definition evaluate_evidence (now : Z) (system revision policy : portable_record) (rules : RuntimePolicy)
    (purpose : string) (base : evaluation) (d : db) : res evaluation :=
  let! legacy := py_get (po_body system) "legacy_application_name" in
  if truthy legacy && negb (Nat.eqb (count_unfolded (Some (po_tenant_id system)) d) 0)
  then Ok (answer base "indeterminate" ["pending_legacy_evidence"] [])
  else
    let! blockers := if truthy legacy then let! name := py_text legacy in Ok (legacy_blockers system name d) else Ok [] in
    let! '(gaps, refs) := evidence now system (el_manifest_digest base) (pol_required_checks rules)
      (pol_trusted_sources rules) (pol_evidence_max_age_seconds rules) d in
    match gaps ++ blockers with
    | _ :: _ as reasons =>
        Ok (answer base
              (if negb (bool_decide (blockers = [])) || existsb (starts_with "nonpassing") gaps then "deny"
               else "indeterminate") reasons [])
    | [] =>
        let! routine := if String.eqb (po_state revision) "approved" then Ok true
                        else if negb (pol_allow_routine_releases rules) then Ok false
                        else if String.eqb purpose "release" then Ok true
                        else released system revision policy d in
        if routine : bool then Ok (answer base "allow" [] refs)
        else Ok (answer base "requires_review" ["revision_requires_review"] refs)
    end.

(** the policy applied to the request *)
Definition evaluate_policy (now : Z) (principal system revision policy : portable_record)
    (request : AuthorizationInput) (base : evaluation) (d : db) : res evaluation :=
  let! stored_policy := py_item (po_body policy) "policy" in
  let! rules := policy_validate stored_policy in
  let! stored_manifest := py_item (po_body revision) "manifest" in
  let! manifest := manifest_validate stored_manifest in
  let remediation := String.eqb (au_purpose request) "remediation" in
  let blockers := manifest_blockers rules manifest in
  if negb (bool_decide (blockers = [])) && negb remediation then Ok (answer base "deny" blockers [])
  else
    let! _ := throw_if (mem (au_purpose request) ["runtime"; "remediation"] && bool_decide (au_action request = None))
      (HTTPException 422 "Runtime and remediation requests require an exact action") in
    let! _ := throw_if (String.eqb (au_purpose request) "release" && negb (bool_decide (au_action request = None)))
      (HTTPException 422 "Release requests cannot authorize an action") in
    let! blockers := match au_action request with
                     | Some action => action_blockers rules manifest principal (au_purpose request) action
                     | None => Ok []
                     end in
    if negb (bool_decide (blockers = [])) then Ok (answer base "deny" blockers [])
    else if remediation then Ok (answer base "allow" [] [])
    else evaluate_evidence now system revision policy rules (au_purpose request) base d.

Definition evaluate (now : Z) (principal : portable_record) (request : AuthorizationInput) (d : db) : res evaluation :=
  let! revision := load (po_tenant_id principal) (au_revision_id request) (Some "revision") d in
  let! system_id := py_item (po_body revision) "system_id" in
  let! system_id := py_text system_id in
  let! system := system_for_source principal system_id true d in
  let policy := active_policy system d in
  let! manifest_digest := py_item (po_body revision) "manifest_digest" in
  let! manifest_digest := py_text manifest_digest in
  let! policy_digest := match policy with
                        | Some p => let! document := py_item (po_body p) "policy" in
                                    let! text := digest document in Ok (Some text)
                        | None => Ok None
                        end in
  let base := mk_evaluation "indeterminate" [] (po_record_id system) (po_record_id revision) manifest_digest
    (po_record_id <$> policy) policy_digest (iso_now now) [] in
  if negb (String.eqb (po_state principal) "active") then Ok (answer base "deny" ["executor_inactive"] [])
  else if is_empty (po_audited_at principal) then Ok (answer base "indeterminate" ["executor_audit_pending"] [])
  else if negb (String.eqb (po_state system) "approved") then
    Ok (answer base (if String.eqb (po_state system) "retired" then "deny" else "requires_review")
          ["system_" +:+ po_state system] [])
  else if is_empty (po_audited_at system) || is_empty (po_audited_at revision) ||
          from_option (fun p => is_empty (po_audited_at p)) false policy then
    Ok (answer base "indeterminate" ["governance_audit_pending"] [])
  else match policy with
       | None => Ok (answer base "indeterminate" ["no_active_runtime_policy"] [])
       | Some policy => evaluate_policy now principal system revision policy request base d
       end.

End Engine.
