(* ===== verification/Permits.v ===== *)
(** * Permits, decisions and receipts (services/portable.py)

    An allowed request yields a single-use permit; the executor consumes it,
    acts, and records a receipt that an independent source verifies.  A person
    decides systems, revisions, policies and control packs. *)

From stdpp Require Import base list strings option pretty sets gmap.
From Stdlib Require Import ZArith QArith Lia Ascii.
From S2P Require Import Prelude Py Dates Json Sql Schema Rbac Requests Contracts PortableStore Portable.

Open Scope nat_scope.

Section Permits.
Context `{PyHost} `{Digest}.

Definition text_item (v : pyval) (k : string) : res string := let! x := py_item v k in py_text x.

(** ** Authorizations *)

Definition issue_authorization (now : Z) (record_id external_id random : string) (principal : portable_record)
    (request : AuthorizationInput) (d : db) : res (portable_record * option (string * string) * db) :=
  let! _ := principal_scope principal "authorizations:request" None in
  let! result := evaluate now principal request d in
  let! request_digest := digest (request_dump request) in
  let! '(record, d) := insert now record_id (po_tenant_id principal) "authorization" (po_project principal)
    (po_environment principal) (po_record_id principal) external_id (el_outcome result)
    (PDict (evaluation_items result ++ [("request", request_dump request); ("request_digest", PStr request_digest)]))
    (author principal) d in
  if negb (String.eqb (el_outcome result) "allow") then Ok (record, None, d)
  else
    let! policy_id := match el_policy_id result with Some id => Ok id | None => Raise (RecordNotFound "Portable record not found") end in
    let! policy := load (po_tenant_id principal) policy_id (Some "policy") d in
    let! document := py_item (po_body policy) "policy" in
    let! ttl := py_item document "permit_ttl_seconds" in
    let! ttl := match ttl with PInt z => Ok z | _ => Raise TypeError end in
    let expires := iso_now (now + ttl * 1000000) in
    let token := "nrp_" +:+ random in
    let! d := grant_token token (po_record_id record) (po_tenant_id principal) "permit" (Some expires) d in
    Ok (record, Some (token, expires), d).

(** [row["consumed_at"] or instant(row["expires_at"]) <= now()] *)
Definition spent (now : Z) (row : portable_credential) : res bool :=
  if truthy_str (pc_consumed_at row) then Ok true
  else match pc_expires_at row with
       | None => Raise AttributeError
       | Some at_ => let! expires := read_instant at_ in Ok (expires <=? now)%Z
       end.

Definition consume_authorization (now : Z) (principal : portable_record) (token : string)
    (request : AuthorizationInput) (d : db) : res (portable_record * db) :=
  let! _ := principal_scope principal "authorizations:request" None in
  match find_token token (po_tenant_id principal) "permit" d with
  | None => Raise (HTTPException 404 "Permit not found")
  | Some row =>
      let! grant := load (po_tenant_id principal) (pc_record_id row) (Some "authorization") d in
      let! _ := throw_if (negb (String.eqb (po_integration_id grant) (po_record_id principal)))
        (HTTPException 404 "Permit not found") in
      let! _ := throw_if (is_empty (po_audited_at grant)) (HTTPException 409 "Authorization audit is pending") in
      let! over := spent now row in
      let! _ := throw_if over (HTTPException 409 "Permit consumed or expired") in
      let! proposed := digest (request_dump request) in
      let! granted := py_item (po_body grant) "request_digest" in
      let! _ := throw_if (negb (py_eqb (PStr proposed) granted))
        (HTTPException 409 "Permit does not match the proposed action") in
      let! current := evaluate now principal request d in
      let! policy_id := py_item (po_body grant) "policy_id" in
      let! _ := throw_if (negb (String.eqb (el_outcome current) "allow") ||
                          negb (py_eqb (opt_str (el_policy_id current)) policy_id))
        (HTTPException 409 "Authorization is no longer eligible") in
      set_state now grant "consumed" None (consume_token now token d)
  end.

(** ** Decisions *)

(** [kinds]: the kind a decision is about, the permission it needs, the state it leaves *)
Definition decision_kind (decision : string) : res (string * string * string) :=
  if String.eqb decision "approve_system" then Ok ("system", "review.decide", "approved")
  else if String.eqb decision "approve_revision" then Ok ("revision", "gate.decide", "approved")
  else if String.eqb decision "activate_policy" then Ok ("policy", "config.write", "active")
  else if String.eqb decision "activate_pack" then Ok ("pack", "config.write", "active")
  else if String.eqb decision "retire_system" then Ok ("system", "lifecycle.manage", "retired")
  else Raise (KeyError decision).

(** the decisions a state does not take any more *)
Definition terminal (decision kind state : string) : bool :=
  ((mem kind ["policy"; "pack"] && negb (String.eqb state "draft")) ||
   (mem kind ["system"; "revision"] && mem state ["approved"; "retired"])) &&
  negb (String.eqb decision "retire_system" && String.eqb state "approved").

(** what a person must be and have seen *)
Definition decision_guards (actor : ActorContext) (target : portable_record) (decision kind permission : string)
    (expected_body_digest : string) (d : db) : res unit :=
  let! _ := throw_if (negb (String.eqb (po_kind target) kind)) (HTTPException 422 "Decision does not match target type") in
  let! _ := require_human actor permission (place_of target) d in
  let! current := digest (po_body target) in
  let! _ := throw_if (negb (String.eqb current expected_body_digest))
    (HTTPException 409 "Record changed after review; refresh it and make a new decision") in
  let! _ := if String.eqb decision "approve_system" then
              let! purpose := py_get_default (po_body target) "purpose" (PStr "") in
              let! purpose := py_text purpose in
              throw_if (is_empty (strip purpose)) (HTTPException 409 "Declare the system purpose before approval")
            else Ok tt in
  let! _ := throw_if (String.eqb (po_created_by target) (user_ref actor))
    (HTTPException 403 "A different person must decide this work") in
  throw_if (terminal decision kind (po_state target)) (HTTPException 409 "Decision is terminal").

(** a revision is approved only when nothing but the approval is missing *)
Definition revision_eligible (now : Z) (target : portable_record) (d : db) : res unit :=
  let! principal := load (po_tenant_id target) (po_integration_id target) (Some "integration") d in
  let! current := evaluate now principal (mk_request (po_record_id target) "release" None) d in
  throw_if (negb (mem (el_outcome current) ["allow"; "requires_review"]) ||
            negb (bool_decide (el_reasons current = []) || bool_decide (el_reasons current = ["revision_requires_review"])))
    (HTTPException 409 "Revision evidence or policy is not eligible").

(** the version in force before is superseded *)
Definition supersede (now : Z) (target prior : portable_record) (d : db) : res db :=
  if negb (String.eqb (po_state prior) "active") then Ok d
  else
    let! same := if String.eqb (po_kind target) "policy" then Ok true
                 else
                   let! pack := py_item (po_body prior) "pack" in let! a := py_item pack "pack_id" in
                   let! pack := py_item (po_body target) "pack" in let! b := py_item pack "pack_id" in
                   Ok (py_eqb a b) in
    if same : bool then let! '(_, d) := set_state now prior "superseded" None d in Ok d else Ok d.

Definition activate_version (now : Z) (target : portable_record) (d : db) : res db :=
  let! document := py_item (po_body target) (if String.eqb (po_kind target) "policy" then "policy" else "pack") in
  let! sources := py_item document "trusted_sources" in
  let! sources := py_iter sources in
  let! _ := rmap (fun s => let! source_id := py_text s in
                           ensure_source (po_tenant_id target) source_id (place_of target) d) sources in
  let! system_id := text_column (po_body target) "system_id" in
  rfold (fun d prior => supersede now target prior d) d
    (records (po_tenant_id target) (po_kind target)
       (mk_filter (Some (po_project target)) (Some (po_environment target)) (Some system_id) None None None (Some "active"))
       500 0 d).

Definition decide (now : Z) (record_id external_id : string) (actor : ActorContext) (target : portable_record)
    (decision rationale expected_body_digest : string) (d : db) : res (portable_record * db) :=
  let! '(kind, permission, state) := decision_kind decision in
  let! _ := decision_guards actor target decision kind permission expected_body_digest d in
  let! _ := if String.eqb kind "revision" then revision_eligible now target d else Ok tt in
  let! d := if mem kind ["policy"; "pack"] then activate_version now target d else Ok d in
  let! system_id := py_get_default (po_body target) "system_id" (PStr (po_record_id target)) in
  let! body_digest := digest (po_body target) in
  let! '(decision_record, d) := insert now record_id (po_tenant_id target) "decision" (po_project target)
    (po_environment target) "" external_id "recorded"
    (PDict [("system_id", system_id); ("target_id", PStr (po_record_id target)); ("decision", PStr decision);
            ("rationale", PStr rationale); ("target_body_digest", PStr body_digest); ("target_snapshot", po_body target)])
    (user_ref actor) d in
  set_state now target state (Some (po_record_id decision_record)) d.

(** ** Receipts *)

Definition record_receipt (now : Z) (record_id : string) (principal : portable_record) (body : ReceiptInput) (d : db)
    : res (portable_record * db) :=
  let! _ := principal_scope principal "receipts:write" None in
  let! grant := load (po_tenant_id principal) (rcp_authorization_id body) (Some "authorization") d in
  let! _ := throw_if (negb (String.eqb (po_integration_id grant) (po_record_id principal)) ||
                      negb (String.eqb (po_state grant) "consumed") || is_empty (po_audited_at grant))
    (HTTPException 409 "Receipt requires this executor's consumed authorization") in
  let! system_id := py_item (po_body grant) "system_id" in
  let! revision_id := py_item (po_body grant) "revision_id" in
  let! policy_id := py_item (po_body grant) "policy_id" in
  let! request := py_item (po_body grant) "request" in
  let! purpose := py_item request "purpose" in
  let payload := PDict (receipt_items body ++
    [("system_id", system_id); ("verification_after", PStr (iso_now now)); ("revision_id", revision_id);
     ("policy_id", policy_id); ("purpose", purpose)]) in
  match select1 (fun r => String.eqb (po_tenant_id r) (po_tenant_id principal) && String.eqb (po_kind r) "receipt" &&
                          String.eqb (po_external_id r) (po_record_id grant)) (portable_records d) with
  | Some record =>
      let! changes := rmap (fun kv => let! x := py_item (po_body record) (fst kv) in Ok (negb (py_eqb x (snd kv))))
        (receipt_items body) in
      let! _ := throw_if (existsb (fun b : bool => b) changes) (HTTPException 409 "Execution receipts are immutable") in
      Ok (record, d)
  | None =>
      insert now record_id (po_tenant_id principal) "receipt" (po_project grant) (po_environment grant)
        (po_record_id principal) (po_record_id grant)
        (if String.eqb (rcp_outcome body) "executed"
         then if py_eqb purpose (PStr "release") then "reported_executed" else "verification_pending"
         else "failed")
        payload (author principal) d
  end.

(** the capability of the executor an action names; [next] of nothing raises *)
Definition capability_named (executor : portable_record) (name : string) : res pyval :=
  let! capabilities := py_item (po_body executor) "capabilities" in
  let! capabilities := py_iter capabilities in
  let! named := rmap (fun c => let! n := py_item c "name" in Ok (c, py_eqb n (PStr name))) capabilities in
  match find (fun cn => cn.2 : bool) named with
  | Some (c, _) => Ok c
  | None => Raise StopIteration
  end.

(** the observation is about exactly what the permit allowed *)
Definition observation_matches (executor receipt grant observation : portable_record) (action : ActionInput) : res bool :=
  let! capability := capability_named executor (act_capability action) in
  let! system_id := py_item (po_body receipt) "system_id" in
  let! revision_digest := py_item (po_body grant) "manifest_digest" in
  let! check_id := py_item capability "verification_check" in
  let! action_digest := py_item (po_body grant) "request_digest" in
  let! agrees := rmap (fun kv => let! x := py_item (po_body observation) (fst kv) in Ok (py_eqb x (snd kv)))
    [("system_id", system_id); ("revision_digest", revision_digest); ("check_id", check_id);
     ("action_digest", action_digest); ("resource_id", PStr (act_resource_id action))] in
  Ok (forallb (fun b : bool => b) agrees).

(** the observation was made after the execution and is fresh *)
Definition observation_timely (now : Z) (receipt policy observation : portable_record) : res bool :=
  let! at_ := text_item (po_body observation) "observed_at" in
  let! observed := read_instant at_ in
  let! after := text_item (po_body receipt) "verification_after" in
  let! after := read_instant after in
  if (observed <? after)%Z then Ok false
  else
    let! document := py_item (po_body policy) "policy" in
    let! age := py_item document "evidence_max_age_seconds" in
    match age with
    | PInt age => Ok (now - observed <=? age * 1000000)%Z
    | _ => Raise TypeError
    end.

Definition verify_receipt (now : Z) (record_id : string) (principal : portable_record)
    (receipt_id observation_id : string) (d : db) : res (portable_record * db) :=
  let! _ := principal_scope principal "observations:write" None in
  let! receipt := load (po_tenant_id principal) receipt_id (Some "receipt") d in
  let! _ := principal_scope principal "observations:write" (Some (place_of receipt)) in
  let! _ := throw_if (is_empty (po_audited_at receipt) || is_empty observation_id)
    (HTTPException 409 "Receipt audit is pending") in
  let! _ := throw_if (negb (String.eqb (po_state receipt) "verification_pending"))
    (HTTPException 409 "Receipt is not awaiting verification") in
  let! observation := load (po_tenant_id principal) observation_id (Some "observation") d in
  let! _ := throw_if (is_empty (po_audited_at observation)) (HTTPException 409 "Verification evidence audit is pending") in
  let! _ := throw_if (String.eqb (po_integration_id receipt) (po_record_id principal) ||
                      negb (String.eqb (po_integration_id observation) (po_record_id principal)))
    (HTTPException 403 "Verification requires an independent authenticated evidence source") in
  let! authorization_id := text_item (po_body receipt) "authorization_id" in
  let! grant := load (po_tenant_id principal) authorization_id (Some "authorization") d in
  let! policy_id := text_item (po_body grant) "policy_id" in
  let! policy := load (po_tenant_id principal) policy_id (Some "policy") d in
  let! document := py_item (po_body policy) "policy" in
  let! sources := py_item document "trusted_sources" in
  let! sources := py_iter sources in
  let! _ := throw_if (negb (py_in (PStr (po_record_id principal)) sources))
    (HTTPException 403 "Evidence source is not trusted by the authorizing policy") in
  let! request := py_item (po_body grant) "request" in
  let! request := request_validate request in
  match au_action request with
  | None => Raise (HTTPException 409 "Release receipts do not establish remediation")
  | Some action =>
      let! executor := load (po_tenant_id principal) (po_integration_id receipt) (Some "integration") d in
      let! agrees := observation_matches executor receipt grant observation action in
      let! _ := throw_if (negb agrees) (HTTPException 409 "Verification evidence does not match the correction") in
      let! timely := observation_timely now receipt policy observation in
      let! _ := throw_if (negb timely) (HTTPException 409 "Verification must be fresh and observed after execution") in
      let! system_id := py_item (po_body receipt) "system_id" in
      let! '(_, d) := insert now record_id (po_tenant_id receipt) "verification" (po_project receipt)
        (po_environment receipt) (po_record_id principal) receipt_id "recorded"
        (PDict [("system_id", system_id); ("receipt_id", PStr receipt_id); ("observation_id", PStr observation_id)])
        (author principal) d in
      let! result := py_item (po_body observation) "result" in
      set_state now receipt (if py_eqb result (PStr "passing") then "verified" else "failed") None d
  end.

(** ** Control packs *)

Record assessment := mk_assessment {
  as_control_id : string;
  as_name : string;
  as_framework_refs : list string;
  as_status : string;
  as_reasons : list string;
  as_evidence_ids : list string;
  as_pack_id : string;
  as_pack_version : string;
  as_system_id : string;
  as_revision_id : string
}.

Definition assess_control (now : Z) (system revision pack_record : portable_record) (pack : ControlPack)
    (resource_type manifest_digest : string) (d : db) (control : ControlDefinition) : res assessment :=
  let applicable := mem resource_type (cd_resource_types control) in
  let! '(gaps, refs) := evidence now system manifest_digest (cd_check_ids control) (pk_trusted_sources pack)
    (cd_max_age_seconds control) d in
  let gaps := if is_empty (po_audited_at pack_record) || is_empty (po_audited_at revision) || is_empty (po_audited_at system)
              then ["governance_audit_pending"] else gaps in
  Ok (mk_assessment (cd_control_id control) (cd_name control) (cd_framework_refs control)
        (if negb applicable then "not_applicable"
         else if bool_decide (gaps = []) then "passing"
         else if existsb (starts_with "nonpassing") gaps then "failed" else "unknown")
        (if applicable then gaps else []) (if applicable then refs else [])
        (pk_pack_id pack) (pk_version pack) (po_record_id system) (po_record_id revision)).

Definition assess_pack (now : Z) (system revision pack_record : portable_record) (d : db) : res (list assessment) :=
  let! document := py_item (po_body pack_record) "pack" in
  let! pack := pack_validate document in
  let! resource_type := text_item (po_body system) "resource_type" in
  let! manifest_digest := text_item (po_body revision) "manifest_digest" in
  rmap (assess_control now system revision pack_record pack resource_type manifest_digest d) (pk_controls pack).

End Permits.
