(* ===== verification/PortableApi.v ===== *)
(** * Endpoints of the portable interface (api/portable.py)

    Machines act under an integration's token, people under a session.  A change
    commits in one transaction and is anchored after it: [audit] appends the
    record's body digest and state to the audit log and only then stamps the
    record, if it still is what was audited. *)

From stdpp Require Import base list strings option pretty sets gmap.
From Stdlib Require Import ZArith QArith Lia Ascii.
From S2P Require Import Prelude Py Dates Json Sql Schema Effects Rbac Requests SignIn Contracts PortableStore Portable Permits.

Open Scope nat_scope.

Section Api.
Context `{PyHost} `{Digest}.

Definition tenant (actor : ActorContext) : res string :=
  match actor_tenant actor with
  | Some t => if is_empty t || is_super_admin actor then Raise (HTTPException 403 "An organization actor is required") else Ok t
  | None => Raise (HTTPException 403 "An organization actor is required")
  end.

(** [request_scope] of dependencies.py: the organization a read or a pack is scoped to *)
Definition request_scope (actor : ActorContext) : res string :=
  let! _ := throw_if (is_super_admin actor)
    (HTTPException 403 "Platform super admins do not have access to tenant governance data") in
  match actor_tenant actor with
  | Some t => if is_empty t then Raise (HTTPException 403 "User is not bound to an organization") else Ok t
  | None => Raise (HTTPException 403 "User is not bound to an organization")
  end.

(** [authorization.partition(" ")] of a bearer token *)
Definition bearer (authorization : option string) : option string :=
  let text := default "" authorization in
  match Dates.find_char " " text with
  | Some i => if String.eqb (lower (Dates.slice 0 i text)) "bearer" then Some (Dates.from (S i) text) else None
  | None => if String.eqb (lower text) "bearer" then Some "" else None
  end.

Definition principal (authorization : option string) (d : db) : res portable_record :=
  resolve_principal (bearer authorization) d.

(** ** Transactions *)

(** a transaction of a machine rereads its integration first *)
Definition source_transaction {A} (source : portable_record) (k : portable_record -> db -> res (A * db)) (d : db)
    : res (A * db) :=
  let! current := load (po_tenant_id source) (po_record_id source) (Some "integration") d in
  let! _ := throw_if (inactive current d) (HTTPException 403 "Integration is inactive") in
  k current d.

(** ** Anchoring *)

(** a record as [decode] returns it *)
Definition record_json (r : portable_record) : res pyval :=
  let! body_digest := digest (po_body r) in
  Ok (PDict [("record_id", PStr (po_record_id r)); ("tenant_id", PStr (po_tenant_id r)); ("kind", PStr (po_kind r));
    ("project", PStr (po_project r)); ("environment", PStr (po_environment r)); ("integration_id", PStr (po_integration_id r));
    ("external_id", PStr (po_external_id r)); ("subject_id", PStr (po_subject_id r)); ("state", PStr (po_state r));
    ("body", po_body r); ("revision_id", PStr (po_revision_id r)); ("policy_id", PStr (po_policy_id r));
    ("purpose", PStr (po_purpose r)); ("revision_digest", PStr (po_revision_digest r)); ("check_id", PStr (po_check_id r));
    ("observed_at", PStr (po_observed_at r)); ("evidence_result", PStr (po_evidence_result r));
    ("created_by", PStr (po_created_by r)); ("created_at", PStr (po_created_at r)); ("updated_at", PStr (po_updated_at r));
    ("audited_at", PStr (po_audited_at r)); ("decision_id", PStr (po_decision_id r)); ("body_digest", PStr body_digest)]).

(** the decision a record rests on, as the audit entry quotes it *)
Definition quoted_decision (record : portable_record) (d : db) : res pyval :=
  if is_empty (po_decision_id record) then Ok PNone
  else let! decision := load (po_tenant_id record) (po_decision_id record) (Some "decision") d in record_json decision.

(** the audit entry of a record *)
Definition anchor_entry (actor : string) (record : portable_record) (action body_digest : string) (decision : pyval)
    : audit_entry :=
  mk_audit_entry actor ("portable." +:+ action) (Some (po_tenant_id record)) (po_kind record) (po_record_id record)
    (PDict [("body_digest", PStr body_digest); ("state", PStr (po_state record)); ("decision_record", decision)]).

(** the WHERE of the stamp: the row is still the audited one *)
Definition unchanged_since (record r : portable_record) : bool :=
  record_is (po_tenant_id record) (po_record_id record) r && String.eqb (po_state r) (po_state record) &&
  String.eqb (po_updated_at r) (po_updated_at record) &&
  String.eqb (encode_compact (po_body r)) (encode_compact (po_body record)) &&
  String.eqb (po_decision_id r) (po_decision_id record).

Definition stamp_record (now : Z) (record : portable_record) (d : db) : res (portable_record * db) :=
  let! _ := throw_if (negb (Nat.eqb (rowcount (unchanged_since record) (portable_records d)) 1))
    (HTTPException 409 "Record changed before its audit completed; re-read current state") in
  Ok (po_with_audited_at (iso_now now) record,
      set_portable_records (update (unchanged_since record) (po_with_audited_at (iso_now now)) (portable_records d)) d).

Definition audit (now : Z) (actor : string) (record : portable_record) (action : string) : eff portable_record :=
  do! decision := checks (quoted_decision record) in
  do! body_digest := checks (fun _ => digest (po_body record)) in
  do! _ := writes (record_audit (anchor_entry actor record action body_digest decision)) in
  commits (stamp_record now record).

(** a committed change, then its anchor; what else the transaction returned is kept *)
Definition change {A} (now : Z) (transaction : db -> res (portable_record * A * db)) (actor action : string)
    : eff (portable_record * A) :=
  do! '(record, extra) := commits transaction in
  do! record := audit now actor record action in
  eret (record, extra).

Definition plainly (f : db -> res (portable_record * db)) (d : db) : res (portable_record * unit * db) :=
  let! '(r, d) := f d in Ok (r, tt, d).

(** a machine's change: its token, its payload, a transaction on its integration *)
Definition machine_change {P A} (now : Z) (authorization : option string) (payload : option P) (action : string)
    (k : P -> portable_record -> db -> res (portable_record * A * db)) : eff (portable_record * A) :=
  do! source := checks (principal authorization) in
  do! payload := checks (fun _ => parsed payload) in
  change now (source_transaction source (k payload)) (author source) action.

(** ** Integrations *)

Definition human_target (actor : ActorContext) (record_id : string) (permission kind : option string) (d : db)
    : res portable_record :=
  let! t := tenant actor in
  let! record := load t record_id kind d in
  let! _ := match permission with Some p => require_human actor p (place_of record) d | None => Ok tt end in
  Ok record.

Definition pagination (limit offset : Z) (message : string) : res (nat * nat) :=
  if within 1 500 limit && within 0 1000000 offset then Ok (Z.to_nat limit, Z.to_nat offset)
  else Raise (HTTPException 422 message).

Definition place_target (p : place) : target :=
  mk_target (Some (pl_tenant_id p)) (Some (pl_project p)) (Some (pl_environment p)) None false.

Definition integrations (project environment : option string) (actor : ActorContext) (limit offset : Z) (d : db)
    : res (list portable_record * bool) :=
  let! _ := request_scope actor in
  let! '(limit, offset) := pagination limit offset "Invalid pagination" in
  let! _ := throw_if (negb (bool_decide ("config.write" ∈ actor_permissions d actor None)))
    (HTTPException 403 "Integration management requires config.write") in
  let! t := tenant actor in
  let rows := records t "integration" (mk_filter project environment None None None None None) (limit + 1) offset d in
  Ok (select (fun r => bool_decide ("config.write" ∈ actor_permissions d actor (Some (place_target (place_of r)))))
        (take limit rows), limit <? length rows).

Definition register_integration (now : Z) (record_id external_id random : string) (payload : IntegrationCreate)
    (actor : ActorContext) : eff (portable_record * string) :=
  do! payload := checks (fun _ => parsed (integration_check payload)) in
  do! t := checks (fun _ => tenant actor) in
  do! _ := checks (require_human actor "config.write" (mk_place t (int_project payload) (int_environment payload))) in
  change now (create_integration now record_id external_id random t payload (user_ref actor)) (user_ref actor)
    "integration.create".

Definition revoke (now : Z) (integration_id : string) (actor : ActorContext) (d : db) : res (portable_record * db) :=
  let! record := human_target actor integration_id (Some "config.write") (Some "integration") d in
  set_state now record "revoked" None d.

Definition revoke_integration (now : Z) (integration_id : string) (actor : ActorContext) : eff (portable_record * unit) :=
  change now (plainly (revoke now integration_id actor)) (user_ref actor) "integration.revoke".

Definition rotate_token (now : Z) (integration_id random : string) (actor : ActorContext) (d : db)
    : res (portable_record * string * db) :=
  let! record := human_target actor integration_id (Some "config.write") (Some "integration") d in
  let! _ := throw_if (negb (String.eqb (po_state record) "active"))
    (HTTPException 409 "Revoked integrations cannot be revived by rotation") in
  let! t := tenant actor in
  let d := set_portable_credentials (delete_where (fun c => String.eqb (pc_tenant_id c) t &&
    String.eqb (pc_record_id c) integration_id && String.eqb (pc_purpose c) "integration") (portable_credentials d)) d in
  let token := "nri_" +:+ random in
  let! d := grant_token token integration_id t "integration" None d in
  let! '(record, d) := set_state now record "active" None d in
  Ok (record, token, d).

Definition rotate_integration (now : Z) (integration_id random : string) (actor : ActorContext)
    : eff (portable_record * string) :=
  change now (rotate_token now integration_id random actor) (user_ref actor) "integration.rotate".

(** ** Systems and revisions *)

Definition systems (project environment : option string) (actor : ActorContext) (limit offset : Z) (d : db)
    : res (list portable_record * bool) :=
  let! t := request_scope actor in
  let! '(limit, offset) := pagination limit offset "Limit must be between 1 and 500" in
  let rows := records t "system" (mk_filter project environment None None None None None)
    (limit + 1) offset d in
  Ok (take limit rows, limit <? length rows).

Definition register_system (now : Z) (record_id : string) (payload : SystemInput) (authorization : option string)
    : eff (portable_record * unit) :=
  machine_change now authorization (system_check payload) "system.upsert"
    (fun payload source => plainly (submit_system now record_id source payload)).

Definition read_system (system_id : string) (authorization : option string) (d : db) : res portable_record :=
  let! source := principal authorization d in system_for_source source system_id false d.

Definition own_revision (now : Z) (record_id system_id : string) (manifest : RevisionManifest) (source : portable_record)
    (d : db) : res (portable_record * db) :=
  let! system := system_for_source source system_id true d in
  submit_revision now record_id source system manifest None d.

Definition register_revision (now : Z) (record_id system_id : string) (payload : RevisionManifest)
    (authorization : option string) : eff (portable_record * unit) :=
  machine_change now authorization (manifest_check payload) "revision.submit"
    (fun payload source => plainly (own_revision now record_id system_id payload source)).

Definition submit_for (now : Z) (record_id : string) (payload : SubmissionInput) (actor : ActorContext) (d : db)
    : res (portable_record * db) :=
  let! system := human_target actor (sub_system_id payload) (Some "intake.submit") (Some "system") d in
  let! t := tenant actor in
  let! source := load t (sub_integration_id payload) (Some "integration") d in
  let! _ := throw_if (negb (String.eqb (po_state source) "active")) (HTTPException 409 "Integration is inactive") in
  let! _ := system_for_source source (sub_system_id payload) true d in
  submit_revision now record_id source system (sub_manifest payload) (Some (user_ref actor)) d.

Definition human_submission (now : Z) (record_id : string) (payload : SubmissionInput) (actor : ActorContext)
    : eff (portable_record * unit) :=
  do! payload := checks (fun _ => parsed (submission_check payload)) in
  change now (plainly (submit_for now record_id payload actor)) (user_ref actor) "revision.submit".

Definition observe (now : Z) (record_id system_id : string) (payload : ObservationInput) (source : portable_record)
    (d : db) : res (portable_record * db) :=
  let! system := system_for_source source system_id false d in
  submit_observation now record_id source system payload d.

Definition register_observation (now : Z) (record_id system_id : string) (payload : ObservationInput)
    (authorization : option string) : eff (portable_record * unit) :=
  machine_change now authorization (observation_check payload) "observation.submit"
    (fun payload source => plainly (observe now record_id system_id payload source)).

(** ** Policies, packs and decisions *)

Definition insert_policy (now : Z) (record_id external_id system_id : string) (payload : RuntimePolicy)
    (actor : ActorContext) (d : db) : res (portable_record * db) :=
  let! system := human_target actor system_id (Some "config.write") (Some "system") d in
  let! t := tenant actor in
  let! _ := rmap (fun source_id => ensure_source t source_id (place_of system) d) (pol_trusted_sources payload) in
  insert now record_id t "policy" (po_project system) (po_environment system) "" external_id "draft"
    (PDict [("system_id", PStr system_id); ("policy", policy_dump payload)]) (user_ref actor) d.

Definition draft_policy (now : Z) (record_id external_id system_id : string) (payload : RuntimePolicy)
    (actor : ActorContext) : eff (portable_record * unit) :=
  do! payload := checks (fun _ => parsed (policy_check payload)) in
  change now (plainly (insert_policy now record_id external_id system_id payload actor)) (user_ref actor) "policy.draft".

Definition decide_for (now : Z) (record_id external_id target_id decision : string) (payload : DecisionInput)
    (actor : ActorContext) (d : db) : res (portable_record * db) :=
  let! target := human_target actor target_id None None d in
  decide now record_id external_id actor target decision (dec_rationale payload) (dec_expected_body_digest payload) d.

Definition human_decision (now : Z) (record_id external_id target_id decision : string) (payload : DecisionInput)
    (actor : ActorContext) : eff (portable_record * unit) :=
  do! payload := checks (fun _ => parsed (decision_check payload)) in
  do! _ := eguard (negb (mem decision DECISIONS)) (HTTPException 422 "Unsupported decision") in
  change now (plainly (decide_for now record_id external_id target_id decision payload actor)) (user_ref actor) decision.

Definition insert_pack (now : Z) (record_id t key : string) (payload : ControlPack) (project environment : string)
    (actor : ActorContext) (d : db) : res (portable_record * db) :=
  let! _ := rmap (fun source_id => ensure_source t source_id (mk_place t project environment) d) (pk_trusted_sources payload) in
  match select1 (fun r => String.eqb (po_tenant_id r) t && String.eqb (po_kind r) "pack" &&
      String.eqb (po_project r) project && String.eqb (po_environment r) environment &&
      String.eqb (po_external_id r) key) (portable_records d) with
  | Some record =>
      let! document := py_item (po_body record) "pack" in
      let! _ := throw_if (negb (py_eqb document (pack_dump payload)))
        (HTTPException 409 "Control pack versions are immutable") in
      Ok (record, d)
  | None =>
      insert now record_id t "pack" project environment "" key "draft" (PDict [("pack", pack_dump payload)])
        (user_ref actor) d
  end.

Definition draft_pack (now : Z) (record_id : string) (payload : ControlPack) (project environment : option string)
    (actor : ActorContext) : eff (portable_record * unit) :=
  do! t := checks (fun _ => request_scope actor) in
  do! payload := checks (fun _ => parsed (pack_check payload)) in
  do! _ := eguard (negb (truthy_str project && truthy_str environment))
    (HTTPException 422 "Control packs require explicit project and environment") in
  let project := default "" project in let environment := default "" environment in
  do! _ := checks (require_human actor "config.write" (mk_place t project environment)) in
  do! _ := eguard (negb (bool_decide (NoDup (map cd_control_id (pk_controls payload)))))
    (HTTPException 422 "Control ids must be unique") in
  do! key := checks (fun _ => digest (PDict [("pack_id", PStr (pk_pack_id payload)); ("version", PStr (pk_version payload))])) in
  do! t := checks (fun _ => tenant actor) in
  change now (plainly (insert_pack now record_id t key payload project environment actor)) (user_ref actor) "pack.draft".

Definition control_snapshot (now : Z) (system : portable_record) (revision_id : string) (d : db) : res (list assessment) :=
  let! revision := load (po_tenant_id system) revision_id (Some "revision") d in
  let! system_id := py_item (po_body revision) "system_id" in
  let! _ := throw_if (negb (py_eqb system_id (PStr (po_record_id system))))
    (HTTPException 404 "Revision not found for system") in
  let packs := records (po_tenant_id system) "pack"
    (mk_filter (Some (po_project system)) (Some (po_environment system)) None None None None (Some "active")) 501 0 d in
  let! _ := throw_if (500 <? length packs) (HTTPException 409 "Too many active packs to assess completely") in
  let! assessments := rmap (fun pack => assess_pack now system revision pack d) packs in
  Ok (concat assessments).

(** ** Reading a workspace *)

Record workspace := mk_workspace {
  ws_system : portable_record;
  ws_history : list (string * list portable_record * bool);
  ws_packs : list portable_record * bool;
  ws_active_policy : option portable_record;
  ws_integration : portable_record;
  ws_eligibility : list (string * evaluation)
}.

(** a page of 100 and whether there is more *)
Definition page (rows : list portable_record) : list portable_record * bool := (take 100 rows, 100 <? length rows).

Definition workspace_snapshot (now : Z) (system : portable_record) (offset : Z) (d : db) : res workspace :=
  let! _ := throw_if (negb (within 0 1000000 offset)) (HTTPException 422 "Invalid history offset") in
  let offset := Z.to_nat offset in
  let history kind := page (records (po_tenant_id system) kind
    (mk_filter None None (Some (po_record_id system)) None None None None) 101 offset d) in
  let packs := page (records (po_tenant_id system) "pack"
    (mk_filter (Some (po_project system)) (Some (po_environment system)) None None None None None) 101 offset d) in
  let! source := load (po_tenant_id system) (po_integration_id system) (Some "integration") d in
  let! eligibility := rmap (fun r =>
    let! e := evaluate now source (mk_request (po_record_id r) "release" None) d in Ok (po_record_id r, e))
    (fst (history "revision")) in
  Ok (mk_workspace system
        (map (fun kind => (kind, fst (history kind), snd (history kind)))
           ["revision"; "policy"; "authorization"; "receipt"; "decision"; "observation"; "verification"])
        packs (active_policy system d) source eligibility).

Definition system_detail (now : Z) (system_id : string) (offset : Z) (actor : ActorContext) (d : db) : res workspace :=
  let! system := human_target actor system_id None (Some "system") d in workspace_snapshot now system offset d.

Definition machine_workspace (now : Z) (system_id : string) (offset : Z) (authorization : option string) (d : db)
    : res workspace :=
  let! system := read_system system_id authorization d in workspace_snapshot now system offset d.

Definition portable_controls (now : Z) (system_id revision_id : string) (actor : ActorContext) (d : db) : res (list assessment) :=
  let! system := human_target actor system_id None (Some "system") d in control_snapshot now system revision_id d.

Definition machine_controls (now : Z) (system_id revision_id : string) (authorization : option string) (d : db)
    : res (list assessment) :=
  let! system := read_system system_id authorization d in control_snapshot now system revision_id d.

(** ** Authorizations and receipts *)

Definition authorize (now : Z) (record_id external_id random : string) (payload : AuthorizationInput)
    (authorization : option string) : eff (portable_record * option (string * string)) :=
  machine_change now authorization (request_check payload) "authorization.evaluate"
    (fun payload source => issue_authorization now record_id external_id random source payload).

Definition consume (now : Z) (token : string) (payload : AuthorizationInput) (authorization : option string)
    : eff (portable_record * unit) :=
  machine_change now authorization (if sized 1 256 token then request_check payload else None) "authorization.consume"
    (fun payload source => plainly (consume_authorization now source token payload)).

Definition receipt (now : Z) (record_id : string) (payload : ReceiptInput) (authorization : option string)
    : eff (portable_record * unit) :=
  machine_change now authorization (receipt_check payload) "receipt.record"
    (fun payload source => plainly (record_receipt now record_id source payload)).

Definition verify (now : Z) (record_id receipt_id observation_id : string) (authorization : option string)
    : eff (portable_record * unit) :=
  machine_change now authorization (if sized 1 128 observation_id then Some tt else None) "receipt.verify"
    (fun _ source => plainly (verify_receipt now record_id source receipt_id observation_id)).

(** ** Delegated decisions *)

(** the decision is tried and rolled back before it is delegated *)
Definition delegate_decision (now : Z) (record_id external_id random trial_id trial_external_id : string)
    (payload : DelegationInput) (actor : ActorContext) (d : db) : res (portable_record * string * db) :=
  let! t := tenant actor in
  let! source := load t (del_integration_id payload) (Some "integration") d in
  let! target := human_target actor (del_target_id payload) None None d in
  let! _ := principal_scope source "systems:read" (Some (place_of target)) in
  let! _ := throw_if (negb (String.eqb (po_state source) "active")) (HTTPException 409 "Integration is inactive") in
  let! _ := decide now trial_id trial_external_id actor target (del_decision payload)
    (dec_rationale (del_decision_input payload)) (dec_expected_body_digest (del_decision_input payload)) d in
  let! '(record, d) := insert now record_id t "delegation" (po_project target) (po_environment target)
    (po_record_id source) external_id "pending" (delegation_dump payload) (user_ref actor) d in
  let token := "nrd_" +:+ random in
  let! d := grant_token token (po_record_id record) t "delegation" (Some (iso_now (now + 60 * 1000000))) d in
  Ok (record, token, d).

Definition delegate (now : Z) (record_id external_id random trial_id trial_external_id : string)
    (payload : DelegationInput) (actor : ActorContext) : eff (portable_record * string) :=
  do! payload := checks (fun _ => parsed (delegation_check payload)) in
  change now (delegate_decision now record_id external_id random trial_id trial_external_id payload actor)
    (user_ref actor) "delegation.create".

(** the person a delegation speaks for *)
Definition delegated_actor (tenant_id ref : string) (d : db) : res ActorContext :=
  let! _ := throw_if (match load_platform_user d ref with
                      | Some user => negb (bool_decide (pu_tenant_id user = Some tenant_id)) || mfa_enrollment_required user d
                      | None => true
                      end)
    (HTTPException 403 "Delegated actor is unavailable or must enroll MFA") in
  Ok (mk_actor ref (Some tenant_id) None None None).

Definition redeem_delegation (now : Z) (record_id external_id token : string) (source : portable_record) (d : db)
    : res (portable_record * (string * string) * db) :=
  match find_token token (po_tenant_id source) "delegation" d with
  | None => Raise (HTTPException 404 "Delegation not found")
  | Some row =>
      let! delegation := load (po_tenant_id source) (pc_record_id row) (Some "delegation") d in
      let! _ := throw_if (negb (String.eqb (po_integration_id delegation) (po_record_id source)))
        (HTTPException 404 "Delegation not found") in
      let! _ := throw_if (is_empty (po_audited_at delegation)) (HTTPException 409 "Delegation audit is pending") in
      let! over := spent now row in
      let! _ := throw_if over (HTTPException 409 "Delegation expired or consumed") in
      let! actor := delegated_actor (po_tenant_id source) (po_created_by delegation) d in
      let! target_id := text_item (po_body delegation) "target_id" in
      let! target := load (po_tenant_id source) target_id None d in
      let! _ := principal_scope source "systems:read" (Some (place_of target)) in
      let! decision := text_item (po_body delegation) "decision" in
      let! rationale := text_item (po_body delegation) "rationale" in
      let! expected := text_item (po_body delegation) "expected_body_digest" in
      let! '(record, d) := decide now record_id external_id actor target decision rationale expected d in
      let! '(_, d) := set_state now delegation "consumed" None (consume_token now token d) in
      Ok (record, (user_ref actor, decision), d)
  end.

Definition redeem (now : Z) (record_id external_id token : string) (authorization : option string) : eff portable_record :=
  do! source := checks (principal authorization) in
  do! _ := checks (fun _ => parsed (if sized 1 256 token then Some tt else None)) in
  do! '(record, (actor, decision)) := commits (source_transaction source (redeem_delegation now record_id external_id token)) in
  audit now actor record decision.

(** ** Retrying an audit *)

Definition retry_permission (kind : string) : option string :=
  assoc kind [("system", "review.decide"); ("revision", "gate.decide"); ("policy", "config.write");
              ("pack", "config.write"); ("integration", "config.write")].

Definition retry_audit (now : Z) (record_id : string) (actor : ActorContext) : eff portable_record :=
  do! record := checks (fun d =>
    let! record := human_target actor record_id None None d in
    match retry_permission (po_kind record) with
    | None => Raise (HTTPException 422 "Record must be retried through its original machine contract")
    | Some permission => let! _ := require_human actor permission (place_of record) d in Ok record
    end) in
  audit now (user_ref actor) record "audit.retry".

End Api.
