(* ===== verification/Authorization.v ===== *)
(** * When a request is allowed

    What [evaluate] promises, stated on the records: [allowed] names the
    approvals, the policy in force, the limits on the manifest and the action,
    and the evidence a request rests on.  Each helper of the engine is shown to
    decide its clause. *)

From stdpp Require Import base list strings option pretty sets gmap.
From Stdlib Require Import ZArith QArith Lia Ascii.
From S2P Require Import Prelude Py Dates Json Sql Schema Rbac Requests Ledger Contracts PortableStore Portable Permits.

Open Scope nat_scope.

(** * The portable store and its evidence

    What the statements of [PortableStore] do to the table, and what an
    observation must be for a check to pass. *)

Section Rules.
Context `{PyHost} `{Digest}.
Implicit Types (d : db) (r : portable_record).

(** ** Statements *)

Lemma record_is_true t i r : record_is t i r = true <-> po_tenant_id r = t /\ po_record_id r = i.
Proof. unfold record_is. by rewrite andb_true_iff, !String.eqb_eq. Qed.

(** a loaded record is a row of the table, with the identity and kind asked for *)
Lemma load_Ok t i k d r : load t i k d = Ok r ->
  r ∈ portable_records d /\ po_tenant_id r = t /\ po_record_id r = i /\ (forall kind, k = Some kind -> po_kind r = kind).
Proof.
  unfold load. destruct (select1 _ _) as [row|] eqn:E; [|done].
  apply select1_Some in E as [Hr [Ht Hi]%record_is_true].
  destruct (match k with Some _ => _ | None => false end) eqn:Hk; intros [= <-].
  split_and!; try done. intros kind ->. apply negb_false_iff in Hk. by apply String.eqb_eq.
Qed.

Definition unique_records d : Prop := keys_unique po_record_id (portable_records d).

Lemma load_unique t i k d r : unique_records d -> r ∈ portable_records d -> po_tenant_id r = t -> po_record_id r = i ->
  (forall kind, k = Some kind -> po_kind r = kind) -> load t i k d = Ok r.
Proof.
  intros Hu Hr Ht Hi Hk. unfold load.
  destruct (select1 _ _) as [row|] eqn:E.
  - apply select1_Some in E as [Hrow [_ Hi']%record_is_true].
    rewrite (keys_unique_eq po_record_id _ row r Hu) by (done || congruence).
    destruct k as [kind|]; [|done]. rewrite (Hk kind eq_refl), String.eqb_refl. done.
  - exfalso. rewrite select1_None in E. specialize (E r Hr).
    rewrite (proj2 (record_is_true t i r)) in E; done.
Qed.

Lemma new_record_Ok now i t k p e g x s body by_ row : new_record now i t k p e g x s body by_ = Ok row ->
  po_record_id row = i /\ po_tenant_id row = t /\ po_kind row = k /\ po_project row = p /\ po_environment row = e /\
  po_integration_id row = g /\ po_external_id row = x /\ po_state row = s /\ po_body row = stored body /\
  po_created_by row = by_ /\ po_audited_at row = "" /\ po_decision_id row = "".
Proof.
  unfold new_record. intros Hrow. repeat (apply rbind_Ok in Hrow as (? & _ & Hrow)). by injection Hrow as <-.
Qed.

Lemma insert_Ok now i t k p e g x s body by_ d row d' : insert now i t k p e g x s body by_ d = Ok (row, d') ->
  new_record now i t k p e g x s body by_ = Ok row /\
  d' = set_portable_records (portable_records d ++ [row]) d /\
  (forall r, r ∈ portable_records d -> po_record_id r <> i).
Proof.
  unfold insert. intros (row' & Hnew & Hrun)%rbind_Ok. resolve1 Hrun. apply throw_if_Ok in Ha.
  apply rbind_Ok in Hrun as (row2 & Hload & [= <- <-]).
  assert (forall r, r ∈ portable_records d -> po_record_id r <> i) as Hfresh.
  { intros r Hr Hi. apply not_true_iff_false in Ha. apply Ha, existsb_exists. exists r.
    split; [by apply list_elem_of_In|]. by rewrite Hi, String.eqb_refl. }
  apply load_Ok in Hload as (Hin & _ & Hi & _). cbn in Hin. apply elem_of_app in Hin as [Hin|Heq%list_elem_of_singleton]; [|by subst].
  by destruct (Hfresh _ Hin).
Qed.

End Rules.

(** ** Lists of blockers *)

Lemma exceeds_false l m : exceeds l m = false <-> l ⊆ m.
Proof.
  unfold exceeds. rewrite negb_false_iff, forallb_forall. split.
  - intros Hl x Hx. apply mem_true, Hl. by apply list_elem_of_In.
  - intros Hl x Hx. apply mem_true, Hl. by apply list_elem_of_In.
Qed.

Lemma blocker_nil b s : blocker b s = [] <-> b = false.
Proof. by destruct b. Qed.

Lemma blocker_app_nil b s l : blocker b s ++ l = [] <-> b = false /\ l = [].
Proof. destruct b; simpl; naive_solver. Qed.

(** ** The manifest *)

(** a revision uses what the policy lists, no more freely than it says *)
Definition within_policy (rules : RuntimePolicy) (manifest : RevisionManifest) : Prop :=
  man_models manifest ⊆ pol_models rules /\ man_tools manifest ⊆ pol_tools rules /\
  man_resources manifest ⊆ pol_resources rules /\ (man_autonomy_level manifest <= pol_max_autonomy rules)%Z /\
  (man_external_action manifest = true -> pol_allow_external_action rules = true) /\
  (pol_require_human_checkpoint rules = true \/
     man_untrusted_input manifest = true /\ man_sensitive_data manifest = true /\ man_external_action manifest = true ->
   man_human_checkpoint manifest = true).

Lemma manifest_blockers_nil rules manifest : manifest_blockers rules manifest = [] <-> within_policy rules manifest.
Proof.
  unfold manifest_blockers, within_policy. rewrite !blocker_app_nil, blocker_nil, !exceeds_false, Z.ltb_ge.
  assert (forall a b : bool, a && negb b = false <-> (a = true -> b = true)) as Himp by (intros [] []; cbn; intuition congruence).
  rewrite !Himp, orb_true_iff, !andb_true_iff. tauto.
Qed.

(** ** The action *)

Section Action.
Context `{PyHost} `{Digest}.

(** the parameters are those the capability declares, each of its type *)
Definition typed_parameters (types parameters : list (string * pyval)) : Prop :=
  (forall k, k ∈ map fst parameters <-> k ∈ map fst types) /\
  forall k v, (k, v) ∈ parameters -> valid_parameter (assoc k types) v = true.

Lemma parameter_blockers_nil types parameters :
  parameter_blockers types parameters = [] <-> typed_parameters types parameters.
Proof.
  unfold parameter_blockers, typed_parameters. rewrite blocker_app_nil, orb_false_iff, !exceeds_false.
  assert ((map fst parameters ⊆ map fst types /\ map fst types ⊆ map fst parameters) <->
          (forall k, k ∈ map fst parameters <-> k ∈ map fst types)) as -> by (unfold subseteq, list_subseteq; naive_solver).
  apply and_iff_compat_l. split.
  - intros Hnil k v Hkv. destruct (valid_parameter _ _) eqn:E; [done|].
    assert (("invalid_action_parameter:" +:+ k) ∈ (@nil string)) as Hin; [|by apply elem_of_nil in Hin].
    rewrite <-Hnil. apply list_elem_of_omap. exists (k, v). split; [done|]. cbn [fst snd]. by rewrite E.
  - intros Hall. destruct (omap _ parameters) as [|b l] eqn:E; [done|].
    assert (b ∈ b :: l) as Hb by (by left). rewrite <-E in Hb.
    apply list_elem_of_omap in Hb as ([k v] & Hkv & Hv). cbn [fst snd] in Hv. by rewrite (Hall _ _ Hkv) in Hv.
Qed.

(** the executor has the capability, the policy permits it on the resource, and a
    remediation runs with the parameters approved beforehand *)
Definition action_permitted (rules : RuntimePolicy) (manifest : RevisionManifest) (principal : portable_record)
    (purpose : string) (action : ActionInput) : Prop :=
  exists capabilities capability,
    capabilities_of principal = Ok capabilities /\ assoc (act_capability action) capabilities = Some capability /\
    act_capability action ∈ (if String.eqb purpose "remediation" then pol_remediation_actions rules else pol_actions rules) /\
    act_resource_id action ∈ pol_resources rules /\ act_resource_id action ∈ man_resources manifest /\
    (purpose = "remediation" -> py_eqb (PDict (act_parameters action))
       (PDict (default [] (assoc (act_capability action) (pol_action_parameters rules)))) = true) /\
    (truthy capability = true -> exists types, py_item capability "parameter_types" = Ok (PDict types) /\
       typed_parameters types (act_parameters action)).

Lemma action_blockers_nil rules manifest principal purpose action :
  action_blockers rules manifest principal purpose action = Ok [] <->
  action_permitted rules manifest principal purpose action.
Proof.
  unfold action_blockers, action_permitted. split.
  - intros (capabilities & Hcaps & Hrun)%rbind_Ok. apply rbind_Ok in Hrun as (params & Hparams & Hrun).
    injection Hrun as Hnil. rewrite !blocker_app_nil, !orb_false_iff, !negb_false_iff, !mem_true in Hnil.
    destruct Hnil as ([Hper Hcap] & [Hr1 Hr2] & Hrem & ->). apply bool_decide_eq_false in Hcap.
    destruct (assoc (act_capability action) capabilities) as [c|] eqn:Hc; [|done].
    exists capabilities, c. split_and!; try done.
    + intros ->. rewrite String.eqb_refl in Hrem. cbn in Hrem. by apply negb_false_iff in Hrem.
    + intros Ht. rewrite Ht in Hparams. apply rbind_Ok in Hparams as (t & Ht' & Hp).
      destruct t; try done. injection Hp as Hp. apply parameter_blockers_nil in Hp. eauto.
  - intros (capabilities & c & Hcaps & Hc & Hper & Hr1 & Hr2 & Hrem & Htyped). rewrite Hcaps. cbn [rbind]. rewrite Hc.
    assert ((if truthy c then let! types := py_item c "parameter_types" in
               match types with PDict types => Ok (parameter_blockers types (act_parameters action)) | _ => Raise AttributeError end
             else Ok []) = Ok []) as ->.
    { destruct (truthy c); [|done]. destruct (Htyped eq_refl) as (types & -> & Hp). cbn [rbind].
      by rewrite (proj2 (parameter_blockers_nil _ _) Hp). }
    cbn [rbind]. f_equal. rewrite !blocker_app_nil, !orb_false_iff, !negb_false_iff, !mem_true.
    split_and!; try done. destruct (String.eqb_spec purpose "remediation") as [->|]; [|done].
    by rewrite (Hrem eq_refl).
Qed.

End Action.

(** ** Evidence *)

Section Evidence.
Context `{PyHost} `{Digest}.
Implicit Types (d : db) (r : portable_record).

(** later strings first *)
Definition str_gtb (s t : string) : bool := str_ltb t s.

Lemma str_gtb_trans s t u : str_gtb s t = true -> str_gtb t u = true -> str_gtb s u = true.
Proof. unfold str_gtb. intros Hst Htu. by eapply str_ltb_trans. Qed.
Lemma str_gtb_total s t : str_gtb s t = true \/ s = t \/ str_gtb t s = true.
Proof. unfold str_gtb. destruct (str_trichotomy s t) as [?|[?|?]]; auto. Qed.
Lemma nat_ltb_trans a b c : (a <? b) = true -> (b <? c) = true -> (a <? c) = true.
Proof. rewrite !Nat.ltb_lt. lia. Qed.
Lemma nat_ltb_total a b : (a <? b) = true \/ a = b \/ (b <? a) = true.
Proof. rewrite !Nat.ltb_lt. lia. Qed.

Definition by_record_id (a b : portable_record) : bool := negb (str_ltb (po_record_id b) (po_record_id a)).

Lemma by_record_id_total a b : by_record_id a b = true \/ by_record_id b a = true.
Proof.
  unfold by_record_id. rewrite !negb_true_iff.
  destruct (str_ltb (po_record_id b) (po_record_id a)) eqn:E1; [|by left].
  destruct (str_ltb (po_record_id a) (po_record_id b)) eqn:E2; [|by right].
  pose proof (str_ltb_trans _ _ _ E1 E2) as Hc. by rewrite str_ltb_irrefl in Hc.
Qed.
Lemma by_record_id_trans a b c : by_record_id a b = true -> by_record_id b c = true -> by_record_id a c = true.
Proof.
  unfold by_record_id. rewrite !negb_true_iff. intros Hab Hbc. apply not_true_iff_false. intros Hca.
  destruct (str_trichotomy (po_record_id a) (po_record_id b)) as [Hlt|[Heq|Hlt]]; [|congruence|congruence].
  pose proof (str_ltb_trans _ _ _ Hca Hlt). congruence.
Qed.

Definition by_creation : portable_record -> portable_record -> bool := lex po_created_at str_gtb by_record_id.

Lemma newest_first_lex a b : newest_first a b = by_creation a b.
Proof.
  unfold newest_first, by_creation, lex, str_gtb, by_record_id.
  destruct (String.eqb_spec (po_created_at a) (po_created_at b)) as [->|Hne]; [by rewrite str_ltb_irrefl|].
  destruct (str_ltb (po_created_at b) (po_created_at a)) eqn:E1; [done|].
  destruct (str_ltb (po_created_at a) (po_created_at b)) eqn:E2; [done|].
  destruct (str_trichotomy (po_created_at a) (po_created_at b)) as [?|[?|?]]; congruence.
Qed.

Definition by_evidence : portable_record -> portable_record -> bool :=
  lex po_observed_at str_gtb (lex (fun r => result_rank (po_evidence_result r)) Nat.ltb by_creation).

Lemma evidence_first_lex a b : evidence_first a b = by_evidence a b.
Proof.
  unfold evidence_first, by_evidence, lex, str_gtb. by rewrite newest_first_lex.
Qed.

Lemma by_creation_total a b : by_creation a b = true \/ by_creation b a = true.
Proof. apply lex_total; auto using str_gtb_total, by_record_id_total. intros; apply str_ltb_irrefl. Qed.
Lemma by_creation_trans a b c : by_creation a b = true -> by_creation b c = true -> by_creation a c = true.
Proof.
  apply lex_trans; eauto using str_gtb_trans, str_gtb_total, by_record_id_trans. intros; apply str_ltb_irrefl.
Qed.

Lemma by_rank_total a b : lex (fun r => result_rank (po_evidence_result r)) Nat.ltb by_creation a b = true \/
  lex (fun r => result_rank (po_evidence_result r)) Nat.ltb by_creation b a = true.
Proof. apply lex_total; auto using Nat.ltb_irrefl, nat_ltb_total, by_creation_total. Qed.

Lemma evidence_first_total a b : evidence_first a b = true \/ evidence_first b a = true.
Proof.
  rewrite !evidence_first_lex. apply lex_total; auto using str_gtb_total, by_rank_total. intros; apply str_ltb_irrefl.
Qed.
Lemma evidence_first_trans a b c :
  evidence_first a b = true -> evidence_first b c = true -> evidence_first a c = true.
Proof.
  rewrite !evidence_first_lex. apply lex_trans; eauto using str_gtb_trans, str_gtb_total; [intros; apply str_ltb_irrefl|].
  apply lex_trans; eauto using nat_ltb_trans, Nat.ltb_irrefl, nat_ltb_total, by_creation_trans.
Qed.

(** an observation counts for a check of a revision: it is about exactly that, from
    a listed source of the organization that is active *)
Definition bears (system : portable_record) (revision_digest check : string) (sources : list string) d r : Prop :=
  r ∈ portable_records d /\ po_tenant_id r = po_tenant_id system /\ po_kind r = "observation" /\
  po_subject_id r = po_record_id system /\ po_revision_digest r = revision_digest /\ po_check_id r = check /\
  po_integration_id r ∈ sources /\
  exists s, s ∈ portable_records d /\ po_record_id s = po_integration_id r /\ po_tenant_id s = po_tenant_id r /\
    po_kind s = "integration" /\ po_state s = "active".

Lemma bears_on_bears system rd check sources d r :
  r ∈ portable_records d -> (bears_on system rd check sources d r = true <-> bears system rd check sources d r).
Proof.
  intros Hr. unfold bears_on, bears, source_active.
  rewrite !andb_true_iff, !String.eqb_eq, mem_true, existsb_exists. split.
  - intros (((((((s & Hs & Hact) & ?) & ?) & ?) & ?) & ?) & ?).
    rewrite !andb_true_iff, !String.eqb_eq in Hact. split_and!; try done.
    exists s. rewrite list_elem_of_In. tauto.
  - intros (_ & ? & ? & ? & ? & ? & ? & s & Hs & Hact). split_and!; try done.
    exists s. rewrite <-list_elem_of_In, !andb_true_iff, !String.eqb_eq. tauto.
Qed.

(** nothing that counts for the check is later, and nothing worse is as late *)
Definition latest (system : portable_record) (revision_digest check : string) (sources : list string) d r : Prop :=
  bears system revision_digest check sources d r /\
  forall r', bears system revision_digest check sources d r' ->
    str_ltb (po_observed_at r) (po_observed_at r') = false /\
    (po_observed_at r = po_observed_at r' ->
     result_rank (po_evidence_result r) <= result_rank (po_evidence_result r')).

Lemma latest_observation_latest system rd check sources d r :
  latest_observation system rd check sources d = Some r -> latest system rd check sources d r.
Proof.
  unfold latest_observation. intros Hhead. set (l := select _ _) in Hhead.
  assert (forall x, x ∈ l <-> bears system rd check sources d x) as Hl.
  { intros x. unfold l. rewrite elem_of_select. split.
    - intros [Hx Hin]. by apply bears_on_bears.
    - intros Hb. assert (x ∈ portable_records d) by apply Hb. split; [by apply bears_on_bears|done]. }
  pose proof (order_by_first _ _ _ evidence_first_total evidence_first_trans Hhead) as Hfirst. split.
  - apply Hl. rewrite <-(elem_of_order_by evidence_first). destruct (order_by _ l); [done|]. injection Hhead as ->. by left.
  - intros r' Hr'%Hl%Hfirst. unfold evidence_first in Hr'.
    destruct (str_ltb (po_observed_at r') (po_observed_at r)) eqn:E1.
    + split; [|intros Heq; by rewrite Heq, str_ltb_irrefl in E1].
      apply not_true_iff_false. intros E2. pose proof (str_ltb_trans _ _ _ E1 E2) as Hc. by rewrite str_ltb_irrefl in Hc.
    + destruct (str_ltb (po_observed_at r) (po_observed_at r')) eqn:E2; [done|]. split; [done|]. intros _.
      destruct (Nat.ltb_spec (result_rank (po_evidence_result r)) (result_rank (po_evidence_result r'))); [lia|].
      destruct (Nat.ltb_spec (result_rank (po_evidence_result r')) (result_rank (po_evidence_result r))); [done|lia].
Qed.

(** the check rests on an observation: anchored, passing and at most [age] seconds old *)
Definition supported (now : Z) (system : portable_record) (revision_digest : string) (sources : list string)
    (age : Z) d (check : string) : Prop :=
  exists r at_ observed result,
    latest_observation system revision_digest check sources d = Some r /\ po_audited_at r <> "" /\
    py_item (po_body r) "observed_at" = Ok (PStr at_) /\ read_instant at_ = Ok observed /\
    (now - observed <= age * 1000000)%Z /\
    py_item (po_body r) "result" = Ok result /\ py_eqb result (PStr "passing") = true.

Lemma is_empty_false s : is_empty s = false <-> s <> "".
Proof. destruct s; cbn; naive_solver. Qed.

Lemma check_evidence_supported now system rd sources age d check o :
  check_evidence now system rd sources age d check = Ok o ->
  (gap_of o = None <-> supported now system rd sources age d check).
Proof.
  unfold check_evidence, supported. destruct (latest_observation _ _ _ _ _) as [r|]; [|intros [= <-]; naive_solver].
  destruct (is_empty (po_audited_at r)) eqn:Haud; [apply is_empty_true in Haud; intros [= <-]; naive_solver|].
  apply is_empty_false in Haud.
  intros (at_ & Hat & Hrun)%rbind_Ok. apply rbind_Ok in Hrun as (s & Hs & Hrun). destruct at_; try done. injection Hs as ->.
  apply rbind_Ok in Hrun as (t & Ht & Hrun). destruct (Z.ltb_spec (age * 1000000) (now - t)).
  { injection Hrun as <-. split; [done|]. intros (r' & a & t' & v & [= <-] & _ & Ha & Ht' & Hold & _).
    rewrite Hat in Ha. injection Ha as <-. rewrite Ht in Ht'. injection Ht' as <-. lia. }
  apply rbind_Ok in Hrun as (v & Hv & Hrun). destruct (py_eqb v (PStr "unknown")) eqn:Eu.
  { injection Hrun as <-. split; [done|]. intros (r' & a & t' & v' & [= <-] & _ & _ & _ & _ & Hv' & Hp).
    rewrite Hv in Hv'. injection Hv' as <-. apply py_eqb_str in Eu, Hp. congruence. }
  destruct (py_eqb v (PStr "passing")) eqn:Ep; injection Hrun as <-; (split; [|]); try done.
  - intros _. exists r, s, t, v. split_and!; try done; lia.
  - intros (r' & a & t' & v' & [= <-] & _ & _ & _ & _ & Hv' & Hp). congruence.
Qed.

Lemma evidence_supported now system rd checks sources age d gaps refs :
  evidence now system rd checks sources age d = Ok (gaps, refs) ->
  (gaps = [] <-> Forall (supported now system rd sources age d) checks).
Proof.
  unfold evidence. intros (outcomes & Hall & [= <- <-])%rbind_Ok. apply rmap_Ok in Hall.
  induction Hall as [|c o checks outcomes Hc _ IH]; [cbn; split; [by constructor|done]|].
  rewrite Forall_cons, <-IH, <-(check_evidence_supported _ _ _ _ _ _ _ _ Hc). cbn.
  destruct (gap_of o); naive_solver.
Qed.

End Evidence.

(** ** The whole decision *)

Section Allowed.
Context `{PyHost} `{Digest}.
Implicit Types (d : db) (r : portable_record).

(** the application a system is bound to has no open finding and nothing unfolded *)
Definition legacy_clear (system : portable_record) d : Prop :=
  forall v, py_get (po_body system) "legacy_application_name" = Ok v -> truthy v = true ->
    count_unfolded (Some (po_tenant_id system)) d = 0 /\ exists name, v = PStr name /\ legacy_blockers system name d = [].

(** a revision a person approved, or one the policy lets go routinely: released
    now, or run after an executed release of it *)
Definition released_or_approved (system revision policy : portable_record) (rules : RuntimePolicy) (purpose : string) d : Prop :=
  po_state revision = "approved" \/
  pol_allow_routine_releases rules = true /\ (purpose = "release" \/ released system revision policy d = Ok true).

Definition evidenced (now : Z) (system revision policy : portable_record) (rules : RuntimePolicy) (purpose rd : string) d : Prop :=
  legacy_clear system d /\
  Forall (supported now system rd (pol_trusted_sources rules) (pol_evidence_max_age_seconds rules) d) (pol_required_checks rules) /\
  released_or_approved system revision policy rules purpose d.

Lemma app_eq_nil_iff {A} (l m : list A) : l ++ m = [] <-> l = [] /\ m = [].
Proof. destruct l; naive_solver. Qed.

(** the last choice of [evaluate_evidence] *)
Lemma routine_choice system revision policy rules purpose d b :
  (if String.eqb (po_state revision) "approved" then Ok true
   else if negb (pol_allow_routine_releases rules) then Ok false
   else if String.eqb purpose "release" then Ok true
   else released system revision policy d) = Ok b ->
  (b = true <-> released_or_approved system revision policy rules purpose d).
Proof.
  unfold released_or_approved. destruct (String.eqb_spec (po_state revision) "approved"); [intros [= <-]; tauto|].
  destruct (pol_allow_routine_releases rules); cbn [negb]; [|intros [= <-]; naive_solver].
  destruct (String.eqb_spec purpose "release"); [intros [= <-]; naive_solver|]. intros Hr. rewrite Hr.
  split; [intros ->; naive_solver|]. intros [?|[_ [?|[= ?]]]]; done.
Qed.

Lemma evaluate_evidence_allow now system revision policy rules purpose base d e :
  evaluate_evidence now system revision policy rules purpose base d = Ok e ->
  (el_outcome e = "allow" <-> evidenced now system revision policy rules purpose (el_manifest_digest base) d).
Proof.
  unfold evaluate_evidence, evidenced. intros (legacy & Hlegacy & Hrun)%rbind_Ok.
  destruct (truthy legacy && negb (Nat.eqb (count_unfolded (Some (po_tenant_id system)) d) 0)) eqn:Epending.
  { injection Hrun as <-. split; [done|]. intros (Hclear & _). apply andb_true_iff in Epending as [Ht Hn].
    apply negb_true_iff, Nat.eqb_neq in Hn. by destruct (Hclear _ Hlegacy Ht) as [? _]. }
  apply rbind_Ok in Hrun as (blockers & Hblockers & Hrun). apply rbind_Ok in Hrun as ([gaps refs] & Hev & Hrun).
  apply evidence_supported in Hev. rewrite <-Hev.
  assert (blockers = [] <-> legacy_clear system d) as <-.
  { unfold legacy_clear. split.
    - intros -> v Hv Ht. rewrite Hlegacy in Hv. injection Hv as <-. rewrite Ht in Epending, Hblockers. cbn in Epending.
      apply negb_false_iff, Nat.eqb_eq in Epending. split; [done|].
      apply rbind_Ok in Hblockers as (name & Hname & [= Hnil]). destruct legacy; try done. injection Hname as ->. eauto.
    - intros Hclear. destruct (truthy legacy) eqn:Ht; [|by injection Hblockers as <-].
      destruct (Hclear _ Hlegacy Ht) as (_ & name & -> & Hnil). cbn in Hblockers. injection Hblockers as <-. done. }
  destruct (gaps ++ blockers) as [|reason reasons] eqn:Eall.
  - apply app_nil in Eall as [-> ->]. apply rbind_Ok in Hrun as (routine & Hroutine & Hrun).
    apply routine_choice in Hroutine. rewrite <-Hroutine. destruct routine; injection Hrun as <-; cbn; naive_solver.
  - injection Hrun as <-. cbn. split; [by destruct (negb _ || _)|]. intros (-> & -> & _). done.
Qed.

(** the clause of the action: only a release goes without one *)
Definition action_clause (rules : RuntimePolicy) (manifest : RevisionManifest) (principal : portable_record)
    (request : AuthorizationInput) : Prop :=
  match au_action request with
  | Some action => au_purpose request <> "release" /\
    action_permitted rules manifest principal (au_purpose request) action
  | None => au_purpose request <> "runtime" /\ au_purpose request <> "remediation"
  end.

Definition governed (now : Z) (principal system revision policy : portable_record) (rules : RuntimePolicy)
    (manifest : RevisionManifest) (request : AuthorizationInput) (rd : string) d : Prop :=
  action_clause rules manifest principal request /\
  (au_purpose request <> "remediation" ->
   within_policy rules manifest /\ evidenced now system revision policy rules (au_purpose request) rd d).

Lemma evaluate_policy_allow now principal system revision policy request base d e :
  evaluate_policy now principal system revision policy request base d = Ok e ->
  (el_outcome e = "allow" <->
   exists document rules body manifest, py_item (po_body policy) "policy" = Ok document /\ policy_validate document = Ok rules /\
    py_item (po_body revision) "manifest" = Ok body /\ manifest_validate body = Ok manifest /\
    governed now principal system revision policy rules manifest request (el_manifest_digest base) d).
Proof.
  unfold evaluate_policy. intros (document & Hdoc & Hrun)%rbind_Ok. apply rbind_Ok in Hrun as (rules & Hrules & Hrun).
  apply rbind_Ok in Hrun as (body & Hbody & Hrun). apply rbind_Ok in Hrun as (manifest & Hman & Hrun).
  transitivity (governed now principal system revision policy rules manifest request (el_manifest_digest base) d).
  2:{ split; [intros; by exists document, rules, body, manifest|]. intros (? & ? & ? & ? & H1 & H2 & H3 & H4 & ?). congruence. }
  unfold governed, action_clause. rewrite <-manifest_blockers_nil.
  destruct (negb (bool_decide (manifest_blockers rules manifest = [])) && negb (String.eqb (au_purpose request) "remediation")) eqn:E.
  { injection Hrun as <-. apply andb_true_iff in E as [E1 E2]. apply negb_true_iff in E1, E2.
    apply bool_decide_eq_false in E1. apply String.eqb_neq in E2. cbn. naive_solver. }
  resolve1 Hrun. apply throw_if_Ok in Ha. resolve1 Hrun. apply throw_if_Ok in Ha0.
  apply rbind_Ok in Hrun as (blockers & Hblockers & Hrun).
  assert (match au_action request with
          | Some action => au_purpose request <> "release" /\ action_permitted rules manifest principal (au_purpose request) action
          | None => au_purpose request <> "runtime" /\ au_purpose request <> "remediation"
          end <-> blockers = []) as ->.
  { destruct (au_action request) as [action|].
    - rewrite <-action_blockers_nil, Hblockers. rewrite bool_decide_false, andb_true_r in Ha0 by done.
      apply String.eqb_neq in Ha0. naive_solver.
    - injection Hblockers as <-. rewrite bool_decide_true, andb_true_r in Ha by done. apply mem_false in Ha. set_solver. }
  destruct (bool_decide_reflect (blockers = [])) as [->|Hne]; cbn [negb] in Hrun; [|injection Hrun as <-; cbn; naive_solver].
  destruct (String.eqb_spec (au_purpose request) "remediation") as [Heq|Hne].
  - injection Hrun as <-. cbn. naive_solver.
  - apply evaluate_evidence_allow in Hrun. rewrite Hrun. rewrite andb_true_r in E.
    apply negb_false_iff, bool_decide_eq_true in E. naive_solver.
Qed.

(** what the platform vouches for when it answers "allow" *)
Definition allowed (now : Z) (principal : portable_record) (request : AuthorizationInput) d : Prop :=
  exists revision system policy document rules body manifest rd,
    load (po_tenant_id principal) (au_revision_id request) (Some "revision") d = Ok revision /\
    py_item (po_body revision) "system_id" = Ok (PStr (po_record_id system)) /\
    load (po_tenant_id principal) (po_record_id system) (Some "system") d = Ok system /\
    po_integration_id system = po_record_id principal /\
    po_state principal = "active" /\ po_audited_at principal <> "" /\
    po_state system = "approved" /\ po_audited_at system <> "" /\ po_audited_at revision <> "" /\
    active_policy system d = Some policy /\ po_audited_at policy <> "" /\
    py_item (po_body policy) "policy" = Ok document /\ policy_validate document = Ok rules /\
    py_item (po_body revision) "manifest" = Ok body /\ manifest_validate body = Ok manifest /\
    py_item (po_body revision) "manifest_digest" = Ok (PStr rd) /\
    governed now principal system revision policy rules manifest request rd d.

Lemma system_for_source_Ok principal system_id d system :
  system_for_source principal system_id true d = Ok system ->
  load (po_tenant_id principal) system_id (Some "system") d = Ok system /\ po_integration_id system = po_record_id principal.
Proof.
  unfold system_for_source. intros (s & Hs & Hrun)%rbind_Ok. resolve1 Hrun. resolve1 Hrun. apply throw_if_Ok in Ha0.
  injection Hrun as ->. apply negb_false_iff, String.eqb_eq in Ha0. by split.
Qed.

Lemma evaluate_allow now principal request d e : evaluate now principal request d = Ok e ->
  (el_outcome e = "allow" <-> allowed now principal request d).
Proof.
  unfold evaluate. intros (revision & Hrev & Hrun)%rbind_Ok. apply rbind_Ok in Hrun as (sid & Hsid & Hrun).
  apply rbind_Ok in Hrun as (system_id & Hs & Hrun). destruct sid; try done. injection Hs as ->.
  apply rbind_Ok in Hrun as (system & [Hsys Howner]%system_for_source_Ok & Hrun).
  assert (po_record_id system = system_id) as Hid by (apply load_Ok in Hsys; tauto). rewrite <-Hid in *.
  apply rbind_Ok in Hrun as (rdv & Hrdv & Hrun). apply rbind_Ok in Hrun as (rd & Hrd & Hrun).
  destruct rdv; try done. injection Hrd as ->. apply rbind_Ok in Hrun as (digest & _ & Hrun).
  assert (allowed now principal request d <->
    po_state principal = "active" /\ po_audited_at principal <> "" /\ po_state system = "approved" /\
    po_audited_at system <> "" /\ po_audited_at revision <> "" /\
    exists policy, active_policy system d = Some policy /\ po_audited_at policy <> "" /\
    exists document rules body manifest, py_item (po_body policy) "policy" = Ok document /\ policy_validate document = Ok rules /\
    py_item (po_body revision) "manifest" = Ok body /\ manifest_validate body = Ok manifest /\
    governed now principal system revision policy rules manifest request rd d) as ->.
  { unfold allowed. split.
    - intros (rev' & sys' & policy & document & rules & body & manifest & rd' & H1 & H2 & H3 & _ & ? & ? & ? & ? & ? & Hp & ? & Hrest).
      rewrite Hrev in H1. injection H1 as <-. rewrite Hsid in H2. injection H2 as Heq. rewrite <-Heq, Hsys in H3. injection H3 as <-.
      destruct Hrest as (? & ? & ? & ? & Hrd' & ?). rewrite Hrdv in Hrd'. injection Hrd' as <-. split_and!; try done.
      exists policy. split_and!; try done. by exists document, rules, body, manifest.
    - intros (? & ? & ? & ? & ? & policy & ? & ? & document & rules & body & manifest & ? & ? & ? & ? & ?).
      by exists revision, system, policy, document, rules, body, manifest, rd. }
  destruct (String.eqb_spec (po_state principal) "active") as [Hact|Hact]; cbn [negb] in Hrun; [|injection Hrun as <-; cbn; naive_solver].
  destruct (is_empty (po_audited_at principal)) eqn:E1; [apply is_empty_true in E1; injection Hrun as <-; cbn; naive_solver|].
  apply is_empty_false in E1.
  destruct (String.eqb_spec (po_state system) "approved") as [Happ|Happ]; cbn [negb] in Hrun.
  2:{ injection Hrun as <-. cbn. destruct (String.eqb (po_state system) "retired"); naive_solver. }
  destruct (is_empty (po_audited_at system) || is_empty (po_audited_at revision) || _) eqn:E2.
  { injection Hrun as <-. split; [done|]. rewrite !orb_true_iff, !is_empty_true in E2.
    intros (_ & _ & _ & ? & ? & policy & Hp & ? & _). rewrite Hp in E2. cbn in E2. rewrite is_empty_true in E2. tauto. }
  rewrite !orb_false_iff, !is_empty_false in E2. destruct E2 as [[E2 E3] E4].
  destruct (active_policy system d) as [policy|] eqn:Hp; [|injection Hrun as <-; cbn; naive_solver].
  cbn in E4. apply is_empty_false in E4. apply evaluate_policy_allow in Hrun. rewrite Hrun. cbn [el_manifest_digest].
  split; [intros Hg; split_and!; try done; by exists policy|]. intros (_ & _ & _ & _ & _ & p & [= <-] & _ & Hg). done.
Qed.

End Allowed.
