(* ===== verification/PortableSteps.v ===== *)
(** * What every step of the portable interface keeps

    Each row of the portable table is backed by other rows and by the audit log:
    [row_ok].  [extends] is how a step may change the database and [safe] a step
    that keeps every row backed; the statements of [PortableStore] are safe where
    the engine uses them. *)

From stdpp Require Import base list strings option pretty sets gmap.
From Stdlib Require Import ZArith QArith Lia Ascii.
From S2P Require Import Prelude Py Dates Json Sql Schema Rbac Requests Contracts PortableStore Portable Permits PortableApi.
From S2P Require Import Authorization.

Open Scope nat_scope.

Section Steps.
Context `{PyHost} `{Digest}.
Implicit Types (d : db) (r : portable_record).

(** ** What backs a row *)

Definition text_digest (body : pyval) : string := "sha256:" +:+ sha256 (encode_compact body).

Lemma digest_Ok v g : digest v = Ok g -> g = text_digest v /\ finite v = true.
Proof. unfold digest, canonical. destruct (finite v); [|done]. by intros [= <-]. Qed.

(** an anchored row has its state and the digest of its body in the audit log *)
Definition anchored d r : Prop :=
  po_audited_at r <> "" ->
  exists actor action kind decision,
    mk_audit_entry actor ("portable." +:+ action) (Some (po_tenant_id r)) kind (po_record_id r)
      (PDict [("body_digest", PStr (text_digest (po_body r))); ("state", PStr (po_state r)); ("decision_record", decision)])
      ∈ audit_trail d.

(** the decision a state comes from *)
Definition granting (kind state : string) : option string :=
  if String.eqb kind "system" && String.eqb state "approved" then Some "approve_system"
  else if String.eqb kind "revision" && String.eqb state "approved" then Some "approve_revision"
  else if String.eqb kind "policy" && String.eqb state "active" then Some "activate_policy"
  else if String.eqb kind "pack" && String.eqb state "active" then Some "activate_pack"
  else None.

(** the parts of a body an approval covers: of a system its purpose and binding *)
Definition covers (kind : string) (snapshot body : pyval) : Prop :=
  if String.eqb kind "system"
  then forall k, k ∈ ["purpose"; "legacy_application_name"] -> py_get snapshot k = py_get body k
  else snapshot = body.

(** somebody other than the author decided it, having seen what the row says *)
Definition authorized d r : Prop :=
  forall decision, granting (po_kind r) (po_state r) = Some decision ->
  exists dr seen, dr ∈ portable_records d /\ po_record_id dr = po_decision_id r /\ po_kind dr = "decision" /\
    po_created_by dr <> po_created_by r /\
    py_item (po_body dr) "target_id" = Ok (PStr (po_record_id r)) /\
    py_item (po_body dr) "decision" = Ok (PStr decision) /\
    py_item (po_body dr) "target_snapshot" = Ok (stored seen) /\ covers (po_kind r) seen (po_body r).

(** a verified receipt has a passing observation of another integration than its executor *)
Definition verified d r : Prop :=
  po_kind r = "receipt" -> po_state r = "verified" ->
  exists v o, v ∈ portable_records d /\ po_kind v = "verification" /\ po_external_id v = po_record_id r /\
    po_integration_id v <> po_integration_id r /\
    o ∈ portable_records d /\ po_kind o = "observation" /\ po_integration_id o = po_integration_id v /\
    py_item (po_body v) "observation_id" = Ok (PStr (po_record_id o)) /\
    py_item (po_body o) "result" = Ok (PStr "passing").

Definition row_ok d r : Prop := anchored d r /\ authorized d r /\ verified d r.

(** ** How a step may change the database *)

(** what no step changes of a row; only a system's body is ever replaced *)
Definition same_record r r' : Prop :=
  po_record_id r' = po_record_id r /\ po_tenant_id r' = po_tenant_id r /\ po_kind r' = po_kind r /\
  po_project r' = po_project r /\ po_environment r' = po_environment r /\
  po_integration_id r' = po_integration_id r /\ po_external_id r' = po_external_id r /\
  po_created_by r' = po_created_by r /\ (po_kind r <> "system" -> po_body r' = po_body r).

#[export] Instance same_record_refl : Reflexive same_record.
Proof. intros r. unfold same_record. by split_and!. Qed.
#[export] Instance same_record_trans : Transitive same_record.
Proof.
  intros a b c. unfold same_record. intros (? & ? & Hk & ? & ? & ? & ? & ? & Hab) (? & ? & ? & ? & ? & ? & ? & ? & Hbc).
  split_and!; try congruence. intros Hne. rewrite Hbc by congruence. auto.
Qed.

(** a token that is not an integration's stays, and once consumed stays consumed *)
Definition same_token (c c' : portable_credential) : Prop :=
  pc_token_hash c' = pc_token_hash c /\ pc_record_id c' = pc_record_id c /\ pc_tenant_id c' = pc_tenant_id c /\
  pc_purpose c' = pc_purpose c /\ (truthy_str (pc_consumed_at c) = true -> truthy_str (pc_consumed_at c') = true).

#[export] Instance same_token_refl : Reflexive same_token.
Proof. intros c. unfold same_token. by split_and!. Qed.
#[export] Instance same_token_trans : Transitive same_token.
Proof. intros a b c (? & ? & ? & ? & ?) (? & ? & ? & ? & ?). split_and!; try congruence. auto. Qed.

Record extends d d' : Prop := mk_extends {
  ext_records : forall r, r ∈ portable_records d -> exists r', r' ∈ portable_records d' /\ same_record r r';
  ext_tokens : forall c, c ∈ portable_credentials d -> pc_purpose c <> "integration" ->
    exists c', c' ∈ portable_credentials d' /\ same_token c c';
  ext_trail : forall e, e ∈ audit_trail d -> e ∈ audit_trail d'
}.

#[export] Instance extends_refl : Reflexive extends.
Proof. intros d. split; eauto; [by intros r Hr; exists r|by intros c Hc _; exists c]. Qed.
#[export] Instance extends_trans : Transitive extends.
Proof.
  intros a b c [Hr Ht He] [Hr' Ht' He']. split; [| |by auto].
  - intros r (x & Hx & Hrx)%Hr. apply Hr' in Hx as (y & Hy & Hxy). exists y. split; [done|]. by transitivity x.
  - intros t Htok Hne. destruct (Ht t Htok Hne) as (x & Hx & Htx).
    assert (pc_purpose x <> "integration") as Hx' by (destruct Htx as (_ & _ & _ & -> & _); done).
    destruct (Ht' x Hx Hx') as (y & Hy & Hxy). exists y. split; [done|]. by transitivity x.
Qed.

Lemma row_ok_mono d d' r : extends d d' -> row_ok d r -> row_ok d' r.
Proof.
  intros [Hrec _ Htrail] (Hanc & Hauth & Hver). split_and!.
  - intros Ha. destruct (Hanc Ha) as (a & b & c & e & Hin). exists a, b, c, e. auto.
  - intros decision Hg. destruct (Hauth _ Hg) as (dr & seen & Hin & Hid & Hk & Hby & Ht & Hd & Hs & Hc).
    destruct (Hrec _ Hin) as (dr' & Hin' & Hid' & _ & Hk' & _ & _ & _ & _ & Hby' & Hbody).
    exists dr', seen. rewrite Hbody by (rewrite Hk; done). split_and!; congruence.
  - intros Hk Hs. destruct (Hver Hk Hs) as (v & o & Hv & Hkv & Hext & Hi & Ho & Hko & Hio & Hoid & Hres).
    destruct (Hrec _ Hv) as (v' & Hv' & ? & _ & Hkv' & _ & _ & Hiv' & Hext' & _ & Hbv).
    destruct (Hrec _ Ho) as (o' & Ho' & Hoid' & _ & Hko' & _ & _ & Hio' & _ & _ & Hbo).
    exists v', o'. rewrite Hbv by (rewrite Hkv; done). rewrite Hbo by (rewrite Hko; done).
    split_and!; try done; congruence.
Qed.

Definition unique_tokens d : Prop := keys_unique pc_token_hash (portable_credentials d).

Record sound d : Prop := mk_sound {
  sound_records : unique_records d;
  sound_tokens : unique_tokens d;
  sound_rows : forall r, r ∈ portable_records d -> row_ok d r
}.

Definition safe d d' : Prop := sound d -> sound d' /\ extends d d'.

#[export] Instance safe_refl : Reflexive safe.
Proof. intros d Hd. by split. Qed.
#[export] Instance safe_trans : Transitive safe.
Proof.
  intros a b c Hab Hbc Ha. destruct (Hab Ha) as [Hb Hx]. destruct (Hbc Hb) as [Hc Hy]. split; [done|]. by transitivity b.
Qed.

(** ** The statements *)

(** the states a record starts in grant nothing *)
Definition starts (kind state : string) : Prop :=
  granting kind state = None /\ (kind = "receipt" -> state <> "verified").

Lemma safe_insert now i t k p e g x s body by_ d row d' :
  insert now i t k p e g x s body by_ d = Ok (row, d') -> starts k s -> safe d d'.
Proof.
  intros (Hnew & -> & Hfresh)%insert_Ok [Hgrant Hver] Hd.
  apply new_record_Ok in Hnew as (Hi & _ & Hk & _ & _ & _ & _ & Hs & _ & _ & Haud & _).
  assert (extends d (set_portable_records (portable_records d ++ [row]) d)) as Hext.
  { split; cbn; [|by intros c ? _; exists c|done]. intros r Hr. exists r. split; [|done]. apply elem_of_app. by left. }
  split; [|done]. split; cbn.
  - apply keys_unique_app; [apply Hd|]. apply lookup_key_None. intros (r & Heq & Hr)%list_elem_of_fmap.
    rewrite Hi in Heq. by apply (Hfresh r Hr).
  - apply Hd.
  - intros r [Hr|Hr%list_elem_of_singleton]%elem_of_app; [by eapply row_ok_mono; [|apply Hd]|]. subst r. split_and!.
    + intros Ha. congruence.
    + intros decision. rewrite Hk, Hs, Hgrant. done.
    + intros Hk' Hs'. exfalso. rewrite Hk in Hk'. rewrite Hs in Hs'. by apply Hver.
Qed.

(** an UPDATE that keeps identities is safe when the new rows are backed *)
Lemma safe_update p f d :
  (forall r, r ∈ portable_records d -> p r = true -> same_record r (f r)) ->
  (sound d -> forall r, r ∈ portable_records d -> p r = true -> row_ok d r -> row_ok d (f r)) ->
  safe d (set_portable_records (update p f (portable_records d)) d).
Proof.
  intros Hsame Hok Hd.
  assert (extends d (set_portable_records (update p f (portable_records d)) d)) as Hext.
  { split; cbn; [|by intros c ? _; exists c|done]. intros r Hr. destruct (p r) eqn:Hp.
    - exists (f r). split; [|auto]. apply elem_of_update. left. eauto.
    - exists r. split; [|done]. apply elem_of_update. by right. }
  split; [|done]. split; cbn.
  - unfold unique_records, keys_unique. cbn.
    assert (map po_record_id (update p f (portable_records d)) = map po_record_id (portable_records d)) as ->; [|apply Hd].
    unfold update. rewrite map_map. apply map_ext_in. intros r Hr%list_elem_of_In. destruct (p r) eqn:Hp; [|done].
    by destruct (Hsame r Hr Hp) as [-> _].
  - apply Hd.
  - intros r [(x & Hx & Hp & ->)|[Hr _]]%elem_of_update; eapply row_ok_mono; try done.
    + apply Hok; try done. by apply Hd.
    + by apply Hd.
Qed.

Lemma safe_tokens t d :
  (sound d -> keys_unique pc_token_hash t) ->
  (forall c, c ∈ portable_credentials d -> pc_purpose c <> "integration" -> exists c', c' ∈ t /\ same_token c c') ->
  safe d (set_portable_credentials t d).
Proof.
  intros Hu Ht Hd.
  assert (extends d (set_portable_credentials t d)) as Hext by (split; cbn; [by intros r ?; exists r|done|done]).
  split; [|done]. split; cbn; [apply Hd|by apply Hu|]. intros r Hr. eapply row_ok_mono; [done|]. by apply Hd.
Qed.

Lemma iso_now_nonempty now : is_empty (iso_now now) = false.
Proof.
  unfold iso_now, isoformat_utc, date_isoformat. destruct (ord2ymd _) as [[y m] dd]. rewrite append_assoc.
  destruct (pad 4 y); done.
Qed.

Lemma safe_consume_token now token d : safe d (consume_token now token d).
Proof.
  apply safe_tokens.
  - intros Hd. apply keys_unique_update; [done|apply Hd].
  - intros c Hc _. destruct (String.eqb (pc_token_hash c) (token_hash token)) eqn:E.
    + exists (pc_with_consumed_at (Some (iso_now now)) c). split; [apply elem_of_update; left; eauto|].
      split_and!; try done. intros _. cbn [truthy_str pc_consumed_at pc_with_consumed_at]. by rewrite iso_now_nonempty.
    + exists c. split; [apply elem_of_update; by right|done].
Qed.

Lemma safe_grant_token token i t p e d d' : grant_token token i t p e d = Ok d' -> safe d d'.
Proof.
  unfold grant_token. intros Hrun. resolve1 Hrun. apply throw_if_Ok in Ha. injection Hrun as <-. apply safe_tokens.
  - intros Hd. apply keys_unique_app; [apply Hd|]. apply lookup_key_None. intros (c & Heq & Hc)%list_elem_of_fmap.
    apply not_true_iff_false in Ha. apply Ha, existsb_exists. exists c. cbn in Heq. rewrite <-Heq, String.eqb_refl.
    split; [by apply list_elem_of_In|done].
  - intros c Hc _. exists c. split; [apply elem_of_app; by left|done].
Qed.

(** deleting the tokens of an integration *)
Lemma safe_delete_tokens p d :
  (forall c, p c = true -> pc_purpose c = "integration") ->
  safe d (set_portable_credentials (delete_where p (portable_credentials d)) d).
Proof.
  intros Hp. apply safe_tokens.
  - intros Hd. unfold delete_where. by apply keys_unique_select, Hd.
  - intros c Hc Hne. exists c. split; [|done]. apply elem_of_select. split; [|done]. apply negb_true_iff.
    destruct (p c) eqn:E; [|done]. by apply Hp in E.
Qed.

(** the row a transaction loaded is still the row of its id later on *)
Lemma row_of_id d r x : unique_records d -> x ∈ portable_records d -> r ∈ portable_records d ->
  po_record_id r = po_record_id x -> r = x.
Proof. intros Hu Hx Hr Hid. by apply (keys_unique_eq po_record_id (portable_records d)). Qed.

Lemma same_record_later d d' x r : unique_records d' -> extends d d' -> x ∈ portable_records d ->
  r ∈ portable_records d' -> record_is (po_tenant_id x) (po_record_id x) r = true -> same_record x r.
Proof.
  intros Hu [Hext _ _] Hx Hr [_ Hid]%record_is_true. destruct (Hext x Hx) as (y & Hy & Hxy).
  assert (r = y) as ->; [|done]. apply (row_of_id d'); try done. destruct Hxy as [-> _]. done.
Qed.

(** the row [set_state] writes *)
Definition moved (now : Z) (state : string) (decision_id : option string) r : portable_record :=
  po_with_decision_id (default (po_decision_id r) decision_id)
    (po_with_audited_at "" (po_with_updated_at (iso_now now) (po_with_state state r))).

Lemma moved_same now state dec r : same_record r (moved now state dec r).
Proof. by split_and!. Qed.

Lemma set_state_Ok now record state dec d row d' : set_state now record state dec d = Ok (row, d') ->
  d' = set_portable_records (update (record_is (po_tenant_id record) (po_record_id record)) (moved now state dec)
         (portable_records d)) d.
Proof. unfold set_state. intros Hrun. resolve1 Hrun. by injection Hrun as _ <-. Qed.

Lemma safe_move now state dec record d row d' :
  set_state now record state dec d = Ok (row, d') ->
  (sound d -> forall r, r ∈ portable_records d -> record_is (po_tenant_id record) (po_record_id record) r = true ->
     authorized d (moved now state dec r) /\ verified d (moved now state dec r)) ->
  safe d d'.
Proof.
  intros ->%set_state_Ok Hok. apply safe_update; [by intros; apply moved_same|].
  intros Hd r Hr Hp _. split; [by intros Ha|]. by apply Hok.
Qed.

(** moving to a state that grants nothing *)
Lemma starts_ok d now state dec r : starts (po_kind r) state ->
  authorized d (moved now state dec r) /\ verified d (moved now state dec r).
Proof.
  intros [Hg Hv]. split.
  - intros decision. cbn. by rewrite Hg.
  - cbn. intros Hk Hs. by destruct (Hv Hk).
Qed.

Lemma safe_set_state now state dec kind record d0 d row d' :
  set_state now record state dec d = Ok (row, d') -> extends d0 d -> record ∈ portable_records d0 -> po_kind record = kind ->
  starts kind state -> safe d d'.
Proof.
  intros Hrun Hext Hin <- Hstart. eapply safe_move; [done|]. intros Hd r Hr Hp. apply starts_ok.
  pose proof (same_record_later _ _ _ _ (sound_records _ Hd) Hext Hin Hr Hp) as (_ & _ & -> & _). done.
Qed.

End Steps.
