(* ===== verification/PortableSafe.v ===== *)
(** * The engine's transactions keep every row backed

    [safe] for each operation of [Portable], [Permits] and [PortableApi], and
    [portable_step]: the interleaving of their transactions with the audits that
    follow them. *)

From stdpp Require Import base list strings option pretty sets gmap.
From Stdlib Require Import ZArith QArith Lia Ascii Relations.
From S2P Require Import Prelude Py Dates Json Sql Schema Effects Rbac Requests Contracts PortableStore Portable Permits PortableApi.
From S2P Require Import Authorization PortableSteps.

Open Scope nat_scope.

(** ** Stored documents *)

Lemma assoc_insert_item {A} k k' (x : A) l :
  assoc k (insert_item (k', x) l) = if String.eqb k' k then Some x else assoc k l.
Proof.
  induction l as [|[j y] l IH]; cbn [insert_item fst]; [apply assoc_cons|].
  destruct (str_ltb j k') eqn:Hlt; rewrite !assoc_cons; [|done]. rewrite IH.
  destruct (String.eqb_spec j k) as [->|]; [|done]. destruct (String.eqb_spec k' k) as [->|]; [|done].
  by rewrite str_ltb_irrefl in Hlt.
Qed.

(** sorting the items of a dict does not change what is under a key *)
Lemma assoc_sort_items {A} k (l : list (string * A)) : assoc k (sort_items l) = assoc k l.
Proof.
  induction l as [|[j y] l IH]; [done|]. cbn [sort_items foldr]. fold (sort_items l).
  by rewrite assoc_insert_item, assoc_cons, IH.
Qed.

Lemma assoc_map {A B} (f : A -> B) k l : assoc k (map (fun kv => (fst kv, f (snd kv))) l) = f <$> assoc k l.
Proof.
  induction l as [|[j y] l IH]; [done|]. cbn [map fst snd]. rewrite !assoc_cons. by destruct (String.eqb j k).
Qed.

Lemma py_get_stored v k x : py_get v k = Ok x -> py_get (stored v) k = Ok (stored x).
Proof.
  intros (d & -> & ->)%py_get_Ok. cbn. unfold py_get, py_get_default. rewrite assoc_sort_items, assoc_map.
  by destruct (assoc k d).
Qed.

Lemma py_item_stored v k x : py_item v k = Ok x -> py_item (stored v) k = Ok (stored x).
Proof.
  unfold py_item. destruct v as [| | | | | |d]; try done. cbn [stored]. rewrite assoc_sort_items, assoc_map.
  destruct (assoc k d); [|done]. by intros [= ->].
Qed.

Lemma py_eqb_none v : py_eqb v PNone = true <-> v = PNone.
Proof. destruct v as [| | |f| | |]; cbn; try done. by destruct (float_ext f). Qed.

Section Safe.
Context `{PyHost} `{Digest}.
Implicit Types (d : db) (r : portable_record).

Lemma safe_then a b c : safe a b -> (sound b -> extends a b -> safe b c) -> safe a c.
Proof.
  intros Hab Hbc Ha. destruct (Hab Ha) as [Hb Hx]. destruct (Hbc Hb Hx Hb) as [Hc Hy]. split; [done|]. by transitivity b.
Qed.

(** ** Submissions *)

Lemma create_integration_safe now i x random t body actor d r token d' :
  create_integration now i x random t body actor d = Ok (r, token, d') -> safe d d'.
Proof.
  unfold create_integration. intros Hrun. resolve1 Hrun. apply rbind_Ok in Hrun as ([row d1] & Hins & Hrun).
  apply rbind_Ok in Hrun as (d2 & Hgrant & [= <- <- <-]).
  transitivity d1; [eapply safe_insert; [exact Hins|done]|by eapply safe_grant_token].
Qed.

(** an unchanged purpose and binding: the new document has the old values *)
Lemma unchanged_document before body changed :
  any_changed before (system_dump body) ["purpose"; "legacy_application_name"] = Ok changed -> changed = false ->
  forall k, k ∈ ["purpose"; "legacy_application_name"] -> py_get before k = py_get (stored (system_dump body)) k.
Proof.
  unfold any_changed. intros (changes & Hall%rmap_Ok & [= Hc])%rbind_Ok ->. intros k Hk.
  assert (exists b, b ∈ changes /\ (let! x := py_get before k in let! y := py_get (system_dump body) k in Ok (negb (py_eqb x y))) = Ok b)
    as (b & Hb & Hrun).
  { clear Hc. induction Hall as [|k' b ks bs Hkb Hall IH]; [by apply elem_of_nil in Hk|].
    apply elem_of_cons in Hk as [->|Hk]; [exists b; split; [by left|done]|].
    destruct (IH Hk) as (b' & ? & ?). exists b'. split; [by right|done]. }
  assert (b = false) as ->.
  { destruct b; [|done]. apply not_true_iff_false in Hc. destruct Hc. apply existsb_exists. exists true.
    split; [by apply list_elem_of_In|done]. }
  apply rbind_Ok in Hrun as (x & Hx & Hrun). apply rbind_Ok in Hrun as (y & Hy & [= Heq]). apply negb_false_iff in Heq.
  rewrite (py_get_stored _ _ _ Hy). rewrite Hx. f_equal.
  assert ((exists s, y = PStr s) \/ y = PNone) as [[s ->]| ->].
  { apply py_get_Ok in Hy as (items & [= <-] & ->).
    rewrite !elem_of_cons in Hk. destruct Hk as [->|[->|Hk]]; [..|by apply elem_of_nil in Hk].
    - left. by eexists.
    - cbn. destruct (sys_legacy_application_name body); [left; by eexists|by right]. }
  - by apply py_eqb_str in Heq.
  - by apply py_eqb_none in Heq.
Qed.

Lemma submit_system_safe now i principal body d r d' : submit_system now i principal body d = Ok (r, d') -> safe d d'.
Proof.
  unfold submit_system. intros Hrun. resolve1 Hrun. apply rbind_Ok in Hrun as (key & _ & Hrun).
  destruct (select1 _ _) as [record|] eqn:E; [|by eapply safe_insert].
  apply select1_Some in E as [Hin Hwhere]. rewrite !andb_true_iff, !String.eqb_eq in Hwhere.
  destruct Hwhere as [[[[[_ Hkind] _] _] _] _].
  apply rbind_Ok in Hrun as (changed & Hchanged & Hrun). apply rbind_Ok in Hrun as (text & _ & Hrun).
  apply rbind_Ok in Hrun as (row & _ & [= _ <-]). intros Hd.
  assert (forall x, x ∈ portable_records d -> String.eqb (po_record_id x) (po_record_id record) = true -> x = record) as Hrow.
  { intros x Hx Hid%String.eqb_eq. apply (row_of_id d); try done. apply Hd. }
  revert Hd. apply safe_update.
  - intros x Hx ->%Hrow; [|done]. split_and!; done.
  - intros Hd x Hx ->%Hrow (_ & Hauth & Hver); [|done]. split_and!; [by intros ?| |].
    + intros decision. cbn. rewrite Hkind. destruct changed; cbn [andb].
      * destruct (String.eqb_spec (po_state record) "retired") as [->|]; done.
      * intros Hg. rewrite <-Hkind in Hg. destruct (Hauth _ Hg) as (dr & seen & Hdr & Hid & Hk & Hby & Ht & Hdec & Hs & Hc).
        exists dr, seen. split_and!; try done. revert Hc. unfold covers. rewrite Hkind. cbn [String.eqb].
        intros Hc k Hk'. rewrite (Hc k Hk'). by apply (unchanged_document _ _ _ Hchanged eq_refl).
    + intros Hk. cbn in Hk. congruence.
Qed.

Lemma submit_revision_safe now i principal system manifest who d r d' :
  submit_revision now i principal system manifest who d = Ok (r, d') -> safe d d'.
Proof.
  unfold submit_revision. intros Hrun. resolve1 Hrun. resolve1 Hrun. apply rbind_Ok in Hrun as (key & _ & Hrun).
  apply rbind_Ok in Hrun as (g & _ & Hrun). destruct (submitted _ _ _ _); [|by eapply safe_insert].
  resolve1 Hrun. by injection Hrun as _ <-.
Qed.

Lemma submit_observation_safe now i principal system body d r d' :
  submit_observation now i principal system body d = Ok (r, d') -> safe d d'.
Proof.
  unfold submit_observation. intros Hrun. resolve1 Hrun. resolve1 Hrun. resolve1 Hrun.
  apply rbind_Ok in Hrun as (key & _ & Hrun). destruct (submitted _ _ _ _); [|by eapply safe_insert].
  resolve1 Hrun. by injection Hrun as _ <-.
Qed.

(** ** Permits *)

Lemma starts_ungranted kind state : granting kind state = None -> kind <> "receipt" -> starts kind state.
Proof. by split. Qed.

Lemma issue_authorization_safe now i x random principal request d r grant d' :
  issue_authorization now i x random principal request d = Ok (r, grant, d') -> safe d d'.
Proof.
  unfold issue_authorization. intros Hrun. resolve1 Hrun. apply rbind_Ok in Hrun as (e & _ & Hrun).
  apply rbind_Ok in Hrun as (g & _ & Hrun). apply rbind_Ok in Hrun as ([row d1] & Hins & Hrun).
  apply safe_insert in Hins; [|by apply starts_ungranted].
  destruct (negb _); [by injection Hrun as _ _ <-|].
  apply rbind_Ok in Hrun as (p & _ & Hrun). apply rbind_Ok in Hrun as (policy & _ & Hrun).
  apply rbind_Ok in Hrun as (doc & _ & Hrun). apply rbind_Ok in Hrun as (ttl & _ & Hrun).
  apply rbind_Ok in Hrun as (z & _ & Hrun). apply rbind_Ok in Hrun as (d2 & Hgrant & [= _ _ <-]).
  transitivity d1; [done|by eapply safe_grant_token].
Qed.

(** what a successful consumption rests on *)
Lemma consume_authorization_Ok now principal token request d r d' :
  consume_authorization now principal token request d = Ok (r, d') ->
  exists row grant e g, find_token token (po_tenant_id principal) "permit" d = Some row /\
    load (po_tenant_id principal) (pc_record_id row) (Some "authorization") d = Ok grant /\
    po_integration_id grant = po_record_id principal /\ po_audited_at grant <> "" /\ spent now row = Ok false /\
    digest (request_dump request) = Ok g /\ py_item (po_body grant) "request_digest" = Ok (PStr g) /\
    evaluate now principal request d = Ok e /\ el_outcome e = "allow" /\
    (exists p, py_item (po_body grant) "policy_id" = Ok p /\ py_eqb (opt_str (el_policy_id e)) p = true) /\
    set_state now grant "consumed" None (consume_token now token d) = Ok (r, d').
Proof.
  unfold consume_authorization. intros Hrun. resolve1 Hrun. destruct (find_token _ _ _ _) as [row|]; [|done].
  apply rbind_Ok in Hrun as (grant & Hgrant & Hrun). resolve1 Hrun. apply throw_if_Ok, negb_false_iff, String.eqb_eq in Ha0.
  resolve1 Hrun. apply throw_if_Ok, is_empty_false in Ha1. apply rbind_Ok in Hrun as (over & Hover & Hrun).
  resolve1 Hrun. apply throw_if_Ok in Ha2. subst over. apply rbind_Ok in Hrun as (g & Hg & Hrun).
  apply rbind_Ok in Hrun as (g' & Hg' & Hrun). resolve1 Hrun. apply throw_if_Ok, negb_false_iff in Ha2.
  apply rbind_Ok in Hrun as (e & He & Hrun). apply rbind_Ok in Hrun as (p & Hp & Hrun). resolve1 Hrun.
  apply throw_if_Ok, orb_false_iff in Ha3 as [Ho%negb_false_iff%String.eqb_eq Hpp%negb_false_iff].
  assert (g' = PStr g) as ->.
  { destruct g'; try done. by apply String.eqb_eq in Ha2 as ->. }
  exists row, grant, e, g. split_and!; eauto.
Qed.

Lemma consume_authorization_safe now principal token request d r d' :
  consume_authorization now principal token request d = Ok (r, d') -> safe d d'.
Proof.
  intros (row & grant & e & g & _ & Hgrant & _ & _ & _ & _ & _ & _ & _ & _ & Hset)%consume_authorization_Ok.
  apply load_Ok in Hgrant as (Hin & _ & _ & Hk).
  apply safe_then with (consume_token now token d); [apply safe_consume_token|]. intros _ Hext.
  eapply safe_set_state; [exact Hset|exact Hext|done|by apply Hk|]. by apply starts_ungranted.
Qed.

(** ** Decisions *)

(** superseding the earlier versions *)
Lemma activate_version_safe now target d d' : po_kind target ∈ ["policy"; "pack"] ->
  activate_version now target d = Ok d' -> safe d d'.
Proof.
  intros Hkind. unfold activate_version. intros Hrun. do 5 (apply rbind_Ok in Hrun as (? & _ & Hrun)). intros Hd.
  assert (sound d' /\ extends d d') as Hall; [|done].
  eapply (rfold_ind (fun d1 => sound d1 /\ extends d d1)); [exact Hrun|by split|].
  intros d1 prior d2 Hprior Hstep [Hd1 Hext]. unfold supersede in Hstep.
  destruct (negb _); [by injection Hstep as <-|]. apply rbind_Ok in Hstep as (same & _ & Hstep).
  destruct same; [|by injection Hstep as <-]. apply rbind_Ok in Hstep as ([row d3] & Hset & [= <-]).
  unfold records in Hprior.
  assert (prior ∈ portable_records d /\ po_kind prior = po_kind target) as [Hin Hk].
  { apply elem_of_take in Hprior as (j & Hj & _). apply list_elem_of_lookup_2 in Hj.
    rewrite drop_0, elem_of_order_by, elem_of_select in Hj. destruct Hj as [Hm Hin]. split; [done|].
    unfold matches in Hm. rewrite !andb_true_iff, !String.eqb_eq in Hm. tauto. }
  destruct (safe_set_state now "superseded" None (po_kind target) prior d d1 row d3) as [? ?]; try done.
  - split.
    + unfold granting. simpl. by rewrite !andb_false_r.
    + done.
  - split; [done|]. by transitivity d1.
Qed.

Lemma decision_kind_Ok decision kind permission state :
  decision_kind decision = Ok (kind, permission, state) ->
  kind <> "receipt" /\ kind <> "decision" /\ (forall g, granting kind state = Some g -> g = decision).
Proof.
  unfold decision_kind. intros Hrun.
  repeat case_match; try done; injection Hrun as <- <- <-;
    (match goal with E : String.eqb decision _ = true |- _ => apply String.eqb_eq in E as -> end);
    split_and!; try done; by intros g [= <-].
Qed.

Lemma decision_guards_Ok actor target decision kind permission g d u :
  decision_guards actor target decision kind permission g d = Ok u ->
  po_kind target = kind /\ require_human actor permission (place_of target) d = Ok tt /\ digest (po_body target) = Ok g /\
  po_created_by target <> user_ref actor /\ terminal decision kind (po_state target) = false.
Proof.
  unfold decision_guards. intros Hrun. resolve1 Hrun. apply throw_if_Ok, negb_false_iff, String.eqb_eq in Ha.
  apply rbind_Ok in Hrun as ([] & Hreq & Hrun). apply rbind_Ok in Hrun as (g' & Hg & Hrun).
  resolve1 Hrun. apply throw_if_Ok, negb_false_iff, String.eqb_eq in Ha0 as <-. apply rbind_Ok in Hrun as (? & _ & Hrun).
  resolve1 Hrun. apply throw_if_Ok, String.eqb_neq in Ha0. apply throw_if_Ok in Hrun. by split_and!.
Qed.

(** what a successful decision did *)
Lemma decide_Ok now i x actor target decision rationale g d r d' :
  decide now i x actor target decision rationale g d = Ok (r, d') ->
  exists permission state d1 dr d2 system_id,
    decision_kind decision = Ok (po_kind target, permission, state) /\
    decision_guards actor target decision (po_kind target) permission g d = Ok tt /\
    (if mem (po_kind target) ["policy"; "pack"] then activate_version now target d else Ok d) = Ok d1 /\
    insert now i (po_tenant_id target) "decision" (po_project target) (po_environment target) "" x "recorded"
      (PDict [("system_id", system_id); ("target_id", PStr (po_record_id target)); ("decision", PStr decision);
              ("rationale", PStr rationale); ("target_body_digest", PStr (text_digest (po_body target)));
              ("target_snapshot", po_body target)]) (user_ref actor) d1 = Ok (dr, d2) /\
    set_state now target state (Some (po_record_id dr)) d2 = Ok (r, d').
Proof.
  unfold decide. intros ([[kind permission] state] & Hkind & Hrun)%rbind_Ok. apply rbind_Ok in Hrun as ([] & Hguards & Hrun).
  assert (po_kind target = kind) as <- by (by apply decision_guards_Ok in Hguards as [? _]).
  apply rbind_Ok in Hrun as (? & _ & Hrun). apply rbind_Ok in Hrun as (d1 & Hact & Hrun).
  apply rbind_Ok in Hrun as (sid & _ & Hrun). apply rbind_Ok in Hrun as (bd & [-> _]%digest_Ok & Hrun).
  apply rbind_Ok in Hrun as ([dr d2] & Hins & Hset). exists permission, state, d1, dr, d2, sid. by split_and!.
Qed.

Lemma decide_safe now i x actor target decision rationale g d r d' : target ∈ portable_records d ->
  decide now i x actor target decision rationale g d = Ok (r, d') -> safe d d'.
Proof.
  intros Hin (permission & state & d1 & dr & d2 & sid & Hkind & Hguards & Hact & Hins & Hset)%decide_Ok.
  apply decision_kind_Ok in Hkind as (Hnr & Hnd & Hgrant). apply decision_guards_Ok in Hguards as (_ & _ & _ & Hother & _).
  assert (safe d d1) as H1.
  { destruct (mem (po_kind target) ["policy"; "pack"]) eqn:Hm; [|by injection Hact as <-].
    eapply activate_version_safe; [by apply mem_true|done]. }
  apply safe_then with d1; [done|]. intros Hs1 Hext1.
  pose proof (safe_insert _ _ _ _ _ _ _ _ _ _ _ _ _ _ Hins ltac:(by apply starts_ungranted)) as H2.
  apply safe_then with d2; [done|]. intros Hs2 Hext2.
  apply insert_Ok in Hins as (Hnew & Hd2 & Hfresh).
  assert (po_created_by dr = user_ref actor /\ po_kind dr = "decision" /\ po_body dr = stored (PDict
     [("system_id", sid); ("target_id", PStr (po_record_id target)); ("decision", PStr decision);
      ("rationale", PStr rationale); ("target_body_digest", PStr (text_digest (po_body target)));
      ("target_snapshot", po_body target)])) as (Hby & Hdk & Hbody) by (apply new_record_Ok in Hnew; tauto).
  clear Hnew. eapply safe_move; [exact Hset|]. intros _ r0 Hr0 Hp.
  assert (same_record target r0) as Hsame.
  { eapply (same_record_later d d2); try done; [apply Hs2|by transitivity d1]. }
  assert (covers (po_kind target) (po_body target) (po_body r0)) as Hcovers.
  { unfold covers. destruct (String.eqb_spec (po_kind target) "system") as [Hsys|Hsys].
    - assert (r0 = target) as ->; [|done]. rewrite Hsys in Hact. injection Hact as <-.
      apply (row_of_id d2); [apply Hs2| |done|by destruct Hsame]. rewrite Hd2. cbn. apply elem_of_app. by left.
    - destruct Hsame as (_ & _ & _ & _ & _ & _ & _ & _ & Hb). symmetry. by apply Hb. }
  destruct Hsame as (Hid & _ & Hk & _ & _ & _ & _ & Hcr & _). split.
  - intros decision' Hg. cbn in Hg. rewrite Hk in Hg. apply Hgrant in Hg as ->.
    exists dr, (po_body target). rewrite Hbody. cbn [po_created_by po_decision_id po_record_id po_kind po_body moved]. split_and!.
    + rewrite Hd2. cbn. apply elem_of_app. right. by left.
    + done.
    + done.
    + cbn. congruence.
    + rewrite (py_item_stored _ _ (PStr (po_record_id target))); [|done]. cbn. by rewrite Hid.
    + by rewrite (py_item_stored _ _ (PStr decision)).
    + by rewrite (py_item_stored _ _ (po_body target)).
    + cbn. by rewrite Hk.
  - intros Hr. cbn in Hr. congruence.
Qed.

(** ** Receipts *)

Lemma record_receipt_safe now i principal body d r d' : record_receipt now i principal body d = Ok (r, d') -> safe d d'.
Proof.
  unfold record_receipt. intros Hrun. resolve1 Hrun. apply rbind_Ok in Hrun as (grant & _ & Hrun). resolve1 Hrun.
  do 5 (apply rbind_Ok in Hrun as (? & _ & Hrun)). destruct (select1 _ _) as [record|].
  - apply rbind_Ok in Hrun as (? & _ & Hrun). resolve1 Hrun. by injection Hrun as _ <-.
  - eapply safe_insert; [exact Hrun|]. split; [done|]. intros _. by repeat case_match.
Qed.

(** what a successful verification rests on *)
Lemma verify_receipt_Ok now i principal receipt_id observation_id d r d' :
  verify_receipt now i principal receipt_id observation_id d = Ok (r, d') ->
  exists receipt observation v d1 result sid,
    load (po_tenant_id principal) receipt_id (Some "receipt") d = Ok receipt /\
    load (po_tenant_id principal) observation_id (Some "observation") d = Ok observation /\
    po_integration_id receipt <> po_record_id principal /\ po_integration_id observation = po_record_id principal /\
    insert now i (po_tenant_id receipt) "verification" (po_project receipt) (po_environment receipt)
      (po_record_id principal) receipt_id "recorded"
      (PDict [("system_id", sid); ("receipt_id", PStr receipt_id); ("observation_id", PStr observation_id)])
      (author principal) d = Ok (v, d1) /\
    py_item (po_body observation) "result" = Ok result /\
    set_state now receipt (if py_eqb result (PStr "passing") then "verified" else "failed") None d1 = Ok (r, d').
Proof.
  unfold verify_receipt. intros Hrun. resolve1 Hrun. apply rbind_Ok in Hrun as (receipt & Hreceipt & Hrun).
  do 3 (resolve1 Hrun). apply rbind_Ok in Hrun as (observation & Hobs & Hrun). resolve1 Hrun.
  resolve1 Hrun. apply throw_if_Ok, orb_false_iff in Ha4 as [Hne%String.eqb_neq Heq%negb_false_iff%String.eqb_eq].
  do 7 (apply rbind_Ok in Hrun as (? & _ & Hrun)). resolve1 Hrun. apply rbind_Ok in Hrun as (? & _ & Hrun).
  apply rbind_Ok in Hrun as (request & _ & Hrun). destruct (au_action request) as [action|]; [|done].
  apply rbind_Ok in Hrun as (executor & _ & Hrun). apply rbind_Ok in Hrun as (? & _ & Hrun). resolve1 Hrun.
  apply rbind_Ok in Hrun as (? & _ & Hrun). resolve1 Hrun. apply rbind_Ok in Hrun as (sid & _ & Hrun).
  apply rbind_Ok in Hrun as ([v d1] & Hins & Hrun). apply rbind_Ok in Hrun as (result & Hres & Hset).
  exists receipt, observation, v, d1, result, sid. by split_and!.
Qed.

Lemma verify_receipt_safe now i principal receipt_id observation_id d r d' :
  verify_receipt now i principal receipt_id observation_id d = Ok (r, d') -> safe d d'.
Proof.
  intros (receipt & obs & v & d1 & result & sid & Hreceipt & Hobs & Hne & Heq & Hins & Hres & Hset)%verify_receipt_Ok.
  apply load_Ok in Hreceipt as (Hin & _ & Hid & Hk). apply load_Ok in Hobs as (Ho & _ & Hoid & Hok).
  specialize (Hk _ eq_refl). specialize (Hok _ eq_refl).
  pose proof (safe_insert _ _ _ _ _ _ _ _ _ _ _ _ _ _ Hins ltac:(by apply starts_ungranted)) as H1.
  apply safe_then with d1; [done|]. intros Hs1 Hext. apply insert_Ok in Hins as (Hnew & Hd1 & _).
  assert (po_kind v = "verification" /\ po_integration_id v = po_record_id principal /\ po_external_id v = receipt_id /\
    po_body v = stored (PDict [("system_id", sid); ("receipt_id", PStr receipt_id); ("observation_id", PStr observation_id)]))
    as (Hvk & Hvi & Hvx & Hbody) by (apply new_record_Ok in Hnew; tauto).
  clear Hnew. assert (forall y, y ∈ portable_records d -> y ∈ portable_records d1) as Hkeep.
  { intros y Hy. rewrite Hd1. cbn. apply elem_of_app. by left. }
  eapply safe_move; [exact Hset|]. intros _ r0 Hr0 [_ Hp]%record_is_true.
  assert (r0 = receipt) as -> by (apply (row_of_id d1); [apply Hs1|auto|done|done]).
  destruct (py_eqb result (PStr "passing")) eqn:E; [|apply starts_ok; rewrite Hk; by split].
  apply py_eqb_str in E as ->. split.
  - intros decision. cbn. by rewrite Hk.
  - intros _ _. exists v, obs. cbn [po_record_id po_integration_id moved]. split_and!; try done; try congruence.
    + rewrite Hd1. cbn. apply elem_of_app. right. by left.
    + cbn. congruence.
    + cbn. congruence.
    + auto.
    + rewrite Hbody, (py_item_stored _ _ (PStr observation_id)); [|done]. cbn. by rewrite Hoid.
Qed.

End Safe.
