(* ===== verification/PortableTrace.v ===== *)
(** * Interleavings of the portable interface

    [portable_step]: one transaction of an endpoint commits, an audit entry is
    appended, a record is stamped, or another part of the platform moves.  Every
    endpoint is a sequence of steps wherever it fails, so what the steps keep
    holds however requests interleave. *)

From stdpp Require Import base list strings option pretty sets gmap relations.
From Stdlib Require Import ZArith QArith Lia Ascii.
From S2P Require Import Prelude Py Dates Json Sql Schema Effects Rbac Requests Contracts PortableStore Portable Permits PortableApi.
From S2P Require Import Authorization PortableSteps PortableSafe.

Open Scope nat_scope.

Section Trace.
Context `{PyHost} `{Digest}.
Implicit Types (d : db) (r : portable_record).

(** the transactions the endpoints commit *)
Inductive transaction d d' : Prop :=
| commit_create now i x random t body actor r token :
    create_integration now i x random t body actor d = Ok (r, token, d') -> transaction d d'
| commit_revoke now i actor r : revoke now i actor d = Ok (r, d') -> transaction d d'
| commit_rotate now i random actor r token : rotate_token now i random actor d = Ok (r, token, d') -> transaction d d'
| commit_system now i source body r :
    source_transaction source (fun s => submit_system now i s body) d = Ok (r, d') -> transaction d d'
| commit_revision now i system_id body source r :
    source_transaction source (own_revision now i system_id body) d = Ok (r, d') -> transaction d d'
| commit_submission now i payload actor r : submit_for now i payload actor d = Ok (r, d') -> transaction d d'
| commit_observation now i system_id body source r :
    source_transaction source (observe now i system_id body) d = Ok (r, d') -> transaction d d'
| commit_policy now i x system_id body actor r : insert_policy now i x system_id body actor d = Ok (r, d') -> transaction d d'
| commit_pack now i t key body project environment actor r :
    insert_pack now i t key body project environment actor d = Ok (r, d') -> transaction d d'
| commit_decision now i x target_id decision payload actor r :
    decide_for now i x target_id decision payload actor d = Ok (r, d') -> transaction d d'
| commit_authorization now i x random source request r grant :
    source_transaction source (fun s d => issue_authorization now i x random s request d) d = Ok (r, grant, d') -> transaction d d'
| commit_consumption now token source request r :
    source_transaction source (fun s => consume_authorization now s token request) d = Ok (r, d') -> transaction d d'
| commit_receipt now i source body r :
    source_transaction source (fun s => record_receipt now i s body) d = Ok (r, d') -> transaction d d'
| commit_verification now i source receipt_id observation_id r :
    source_transaction source (fun s => verify_receipt now i s receipt_id observation_id) d = Ok (r, d') -> transaction d d'
| commit_delegation now i x random ti tx payload actor r token :
    delegate_decision now i x random ti tx payload actor d = Ok (r, token, d') -> transaction d d'
| commit_redemption now i x token source r extra :
    source_transaction source (redeem_delegation now i x token) d = Ok (r, extra, d') -> transaction d d'.

Inductive portable_step d : db -> Prop :=
| step_transaction d' : transaction d d' -> portable_step d d'
| step_audit actor record action g decision : digest (po_body record) = Ok g ->
    portable_step d (record_audit (anchor_entry actor record action g decision) d)
| step_stamp now actor record action g decision record' d' : digest (po_body record) = Ok g ->
    anchor_entry actor record action g decision ∈ audit_trail d ->
    stamp_record now record d = Ok (record', d') -> portable_step d d'
| step_elsewhere d' : portable_records d' = portable_records d -> portable_credentials d' = portable_credentials d ->
    (forall e, e ∈ audit_trail d -> e ∈ audit_trail d') -> portable_step d d'.

(** ** Steps keep every row backed *)

Lemma source_transaction_Ok {A} source (k : portable_record -> db -> res (A * db)) d a d' :
  source_transaction source k d = Ok (a, d') ->
  exists current, load (po_tenant_id source) (po_record_id source) (Some "integration") d = Ok current /\
    inactive current d = false /\ k current d = Ok (a, d').
Proof.
  unfold source_transaction. intros (current & Hload & Hrun)%rbind_Ok. resolve1 Hrun. apply throw_if_Ok in Ha.
  exists current. by split_and!.
Qed.

Lemma human_target_Ok actor i p k d r : human_target actor i p k d = Ok r ->
  exists t, tenant actor = Ok t /\ load t i k d = Ok r /\
    (forall permission, p = Some permission -> require_human actor permission (place_of r) d = Ok tt).
Proof.
  unfold human_target. intros (t & Ht & Hrun)%rbind_Ok. apply rbind_Ok in Hrun as (r' & Hload & Hrun).
  apply rbind_Ok in Hrun as ([] & Hp & [= <-]). exists t. split_and!; try done. intros permission ->. done.
Qed.

Lemma revoke_safe now i actor d r d' : revoke now i actor d = Ok (r, d') -> safe d d'.
Proof.
  unfold revoke. intros (record & (t & _ & Hload & _)%human_target_Ok & Hset)%rbind_Ok.
  apply load_Ok in Hload as (Hin & _ & _ & Hk). eapply safe_set_state; [exact Hset|done|exact Hin|by apply Hk|].
  by apply starts_ungranted.
Qed.

Lemma rotate_token_safe now i random actor d r token d' : rotate_token now i random actor d = Ok (r, token, d') -> safe d d'.
Proof.
  unfold rotate_token. intros (record & (t & _ & Hload & _)%human_target_Ok & Hrun)%rbind_Ok. resolve1 Hrun.
  apply rbind_Ok in Hrun as (t' & _ & Hrun). apply rbind_Ok in Hrun as (d2 & Hgrant & Hrun).
  apply rbind_Ok in Hrun as ([row d3] & Hset & [= _ _ <-]). apply load_Ok in Hload as (Hin & _ & _ & Hk).
  match type of Hgrant with grant_token _ _ _ _ _ ?x = _ => assert (safe d x) as H1 end.
  { apply safe_delete_tokens. intros c Hc. rewrite !andb_true_iff, !String.eqb_eq in Hc. tauto. }
  eapply safe_then; [exact H1|]. intros _ Hext. eapply safe_then; [by eapply safe_grant_token|]. intros _ Hext'.
  eapply safe_set_state; [exact Hset|by etransitivity|exact Hin|by apply Hk|]. by apply starts_ungranted.
Qed.

Lemma submit_for_safe now i payload actor d r d' : submit_for now i payload actor d = Ok (r, d') -> safe d d'.
Proof.
  unfold submit_for. intros Hrun. do 3 (apply rbind_Ok in Hrun as (? & _ & Hrun)). resolve1 Hrun.
  apply rbind_Ok in Hrun as (? & _ & Hrun). by eapply submit_revision_safe.
Qed.

Lemma insert_pack_safe now i t key body p e actor d r d' : insert_pack now i t key body p e actor d = Ok (r, d') -> safe d d'.
Proof.
  unfold insert_pack. intros Hrun. apply rbind_Ok in Hrun as (? & _ & Hrun). destruct (select1 _ _).
  - apply rbind_Ok in Hrun as (? & _ & Hrun). resolve1 Hrun. by injection Hrun as _ <-.
  - eapply safe_insert; [exact Hrun|]. by apply starts_ungranted.
Qed.

Lemma delegate_safe now i x random ti tx payload actor d r token d' :
  delegate_decision now i x random ti tx payload actor d = Ok (r, token, d') -> safe d d'.
Proof.
  unfold delegate_decision. intros Hrun. do 4 (apply rbind_Ok in Hrun as (? & _ & Hrun)). resolve1 Hrun.
  apply rbind_Ok in Hrun as (? & _ & Hrun). apply rbind_Ok in Hrun as ([row d1] & Hins & Hrun).
  apply rbind_Ok in Hrun as (d2 & Hgrant & [= _ _ <-]).
  transitivity d1; [eapply safe_insert; [exact Hins|by apply starts_ungranted]|by eapply safe_grant_token].
Qed.

Lemma redeem_safe now i x token source d r extra d' :
  redeem_delegation now i x token source d = Ok (r, extra, d') -> safe d d'.
Proof.
  unfold redeem_delegation. intros Hrun. destruct (find_token _ _ _ _) as [row|]; [|done].
  apply rbind_Ok in Hrun as (delegation & Hdel & Hrun). do 2 (resolve1 Hrun). apply rbind_Ok in Hrun as (? & _ & Hrun).
  resolve1 Hrun. apply rbind_Ok in Hrun as (actor & _ & Hrun). apply rbind_Ok in Hrun as (target_id & _ & Hrun).
  apply rbind_Ok in Hrun as (target & Htarget & Hrun). do 4 (apply rbind_Ok in Hrun as (? & _ & Hrun)).
  apply rbind_Ok in Hrun as ([record d1] & Hdecide & Hrun). apply rbind_Ok in Hrun as ([row' d2] & Hset & [= _ _ <-]).
  apply load_Ok in Htarget as (Htarget & _). apply load_Ok in Hdel as (Hdel & _ & _ & Hk).
  apply decide_safe in Hdecide; [|done]. apply safe_then with d1; [done|]. intros _ Hext.
  apply safe_then with (consume_token now token d1); [apply safe_consume_token|]. intros _ Hext'.
  eapply safe_set_state; [exact Hset|by transitivity d1|exact Hdel|by apply Hk|]. by apply starts_ungranted.
Qed.

Lemma transaction_safe d d' : transaction d d' -> safe d d'.
Proof.
  intros [now i x random t body actor r token Hrun|now i actor r Hrun|now i random actor r token Hrun
    |now i source body r Hrun|now i sid body source r Hrun|now i payload actor r Hrun|now i sid body source r Hrun
    |now i x sid body actor r Hrun|now i t key body p e actor r Hrun|now i x tid decision payload actor r Hrun
    |now i x random source request r grant Hrun|now token source request r Hrun|now i source body r Hrun
    |now i source rid oid r Hrun|now i x random ti tx payload actor r token Hrun|now i x token source r extra Hrun].
  - by eapply create_integration_safe.
  - by eapply revoke_safe.
  - by eapply rotate_token_safe.
  - apply source_transaction_Ok in Hrun as (? & _ & _ & Hrun). by eapply submit_system_safe.
  - apply source_transaction_Ok in Hrun as (? & _ & _ & Hrun). apply rbind_Ok in Hrun as (? & _ & Hrun).
    by eapply submit_revision_safe.
  - by eapply submit_for_safe.
  - apply source_transaction_Ok in Hrun as (? & _ & _ & Hrun). apply rbind_Ok in Hrun as (? & _ & Hrun).
    by eapply submit_observation_safe.
  - unfold insert_policy in Hrun. do 3 (apply rbind_Ok in Hrun as (? & _ & Hrun)). by eapply safe_insert.
  - by eapply insert_pack_safe.
  - apply rbind_Ok in Hrun as (target & (? & _ & Hload & _)%human_target_Ok & Hrun).
    apply load_Ok in Hload as [Hin _]. by eapply decide_safe.
  - apply source_transaction_Ok in Hrun as (? & _ & _ & Hrun). by eapply issue_authorization_safe.
  - apply source_transaction_Ok in Hrun as (? & _ & _ & Hrun). by eapply consume_authorization_safe.
  - apply source_transaction_Ok in Hrun as (? & _ & _ & Hrun). by eapply record_receipt_safe.
  - apply source_transaction_Ok in Hrun as (? & _ & _ & Hrun). by eapply verify_receipt_safe.
  - by eapply delegate_safe.
  - apply source_transaction_Ok in Hrun as (? & _ & _ & Hrun). by eapply redeem_safe.
Qed.

(** a stamp anchors the row that was audited, and no other *)
Lemma stamp_safe now actor record action g decision record' d d' : digest (po_body record) = Ok g ->
  anchor_entry actor record action g decision ∈ audit_trail d -> stamp_record now record d = Ok (record', d') -> safe d d'.
Proof.
  intros [-> _]%digest_Ok Hentry. unfold stamp_record. intros Hrun. resolve1 Hrun. injection Hrun as _ <-.
  apply safe_update; [by intros; split_and!|]. intros Hd r Hr Hp (_ & Hauth & Hver). split_and!; [|exact Hauth|exact Hver].
  intros _. unfold unchanged_since in Hp. rewrite !andb_true_iff, !String.eqb_eq, record_is_true in Hp.
  destruct Hp as [[[[[Ht Hid] Hs] _] Hbody] _].
  exists actor, action, (po_kind record), decision. cbn. rewrite Hs, Ht, Hid. unfold text_digest in *. rewrite Hbody. exact Hentry.
Qed.

Lemma step_safe d d' : portable_step d d' -> safe d d'.
Proof.
  intros [? Ht|actor record action g decision _|now actor record action g decision record' ? Hg Hin Hrun|? Hr Hc He].
  - by apply transaction_safe.
  - intros Hd. assert (extends d (record_audit (anchor_entry actor record action g decision) d)) as Hext.
    { split; cbn; [by intros r ?; exists r|by intros c ? _; exists c|]. intros e He. apply elem_of_app. by left. }
    split; [|done]. split; [apply Hd|apply Hd|]. intros r Hr. eapply row_ok_mono; [done|]. by apply Hd.
  - by eapply stamp_safe.
  - intros Hd. assert (extends d d'0) as Hext.
    { split; [rewrite Hr; by intros r ?; exists r|rewrite Hc; by intros c ? _; exists c|done]. }
    split; [|done]. split; [unfold unique_records; rewrite Hr; apply Hd|unfold unique_tokens; rewrite Hc; apply Hd|].
    rewrite Hr. intros r Hin. eapply row_ok_mono; [done|]. by apply Hd.
Qed.

Lemma steps_safe d d' : rtc portable_step d d' -> safe d d'.
Proof. induction 1; [done|]. etransitivity; [by apply step_safe|done]. Qed.

Lemma sound_start d : portable_records d = [] -> portable_credentials d = [] -> sound d.
Proof.
  intros Hr Hc. split; [unfold unique_records; rewrite Hr; apply NoDup_nil_2|unfold unique_tokens; rewrite Hc; apply NoDup_nil_2|].
  rewrite Hr. intros r Hin. by apply elem_of_nil in Hin.
Qed.

(** ** Endpoints are sequences of steps *)

Lemma audit_steps now actor record action d : rtc portable_step d (fst (audit now actor record action d)).
Proof.
  unfold audit. rewrite run_checks. destruct (quoted_decision record d) as [decision|e]; [|apply rtc_refl].
  rewrite run_checks. destruct (digest (po_body record)) as [g|e] eqn:Hg; [|apply rtc_refl].
  rewrite run_writes. set (d1 := record_audit _ d).
  assert (portable_step d d1) as Hstep by (by apply step_audit).
  unfold commits. destruct (stamp_record now record d1) as [[record' d2]|e] eqn:Hs; cbn [fst]; [|by apply rtc_once].
  eapply rtc_l; [exact Hstep|]. apply rtc_once. eapply (step_stamp d1 now actor record action g decision); [done| |exact Hs].
  unfold d1. cbn. apply elem_of_app. right. by left.
Qed.

Lemma change_steps {A} now (t : db -> res (portable_record * A * db)) actor action d :
  (forall r a d', t d = Ok (r, a, d') -> transaction d d') -> rtc portable_step d (fst (change now t actor action d)).
Proof.
  intros Ht. unfold change. rewrite run_commits. destruct (t d) as [[[r a] d1]|e] eqn:E; [|apply rtc_refl].
  eapply rtc_l; [apply step_transaction; by eapply Ht|]. pose proof (audit_steps now actor r action d1) as Haudit.
  unfold ebind. destruct (audit now actor r action d1) as [d2 [r'|e]]; exact Haudit.
Qed.

Lemma plainly_Ok f d r (u : unit) d' : plainly f d = Ok (r, u, d') -> f d = Ok (r, d').
Proof. unfold plainly. intros ([r' d1] & Hf & [= <- _ <-])%rbind_Ok. done. Qed.

Lemma machine_change_steps {P A} now authorization (payload : option P) action
    (k : P -> portable_record -> db -> res (portable_record * A * db)) d :
  (forall p source r a d', source_transaction source (k p) d = Ok (r, a, d') -> transaction d d') ->
  rtc portable_step d (fst (machine_change now authorization payload action k d)).
Proof.
  intros Hk. unfold machine_change. rewrite run_checks. destruct (principal authorization d) as [source|e]; [|apply rtc_refl].
  rewrite run_checks. destruct (parsed payload) as [p|e]; [|apply rtc_refl]. apply change_steps. intros r a d'. apply Hk.
Qed.

Lemma source_plainly source (k : portable_record -> db -> res (portable_record * db)) d r (u : unit) d' :
  source_transaction source (fun s => plainly (k s)) d = Ok (r, u, d') -> source_transaction source k d = Ok (r, d').
Proof.
  intros (current & Hload & Hact & Hrun)%source_transaction_Ok. apply plainly_Ok in Hrun.
  unfold source_transaction. rewrite Hload. cbn [rbind]. by rewrite Hact.
Qed.

(** the requests that write, with what the server draws for them *)
Inductive request :=
| RegisterIntegration (now : Z) (i x random : string) (payload : IntegrationCreate) (actor : ActorContext)
| RevokeIntegration (now : Z) (i : string) (actor : ActorContext)
| RotateIntegration (now : Z) (i random : string) (actor : ActorContext)
| RegisterSystem (now : Z) (i : string) (payload : SystemInput) (authorization : option string)
| RegisterRevision (now : Z) (i system_id : string) (payload : RevisionManifest) (authorization : option string)
| HumanSubmission (now : Z) (i : string) (payload : SubmissionInput) (actor : ActorContext)
| RegisterObservation (now : Z) (i system_id : string) (payload : ObservationInput) (authorization : option string)
| DraftPolicy (now : Z) (i x system_id : string) (payload : RuntimePolicy) (actor : ActorContext)
| HumanDecision (now : Z) (i x target_id decision : string) (payload : DecisionInput) (actor : ActorContext)
| Authorize (now : Z) (i x random : string) (payload : AuthorizationInput) (authorization : option string)
| Consume (now : Z) (token : string) (payload : AuthorizationInput) (authorization : option string)
| Receipt (now : Z) (i : string) (payload : ReceiptInput) (authorization : option string)
| Verify (now : Z) (i receipt_id observation_id : string) (authorization : option string)
| DraftPack (now : Z) (i : string) (payload : ControlPack) (project environment : option string) (actor : ActorContext)
| Delegate (now : Z) (i x random ti tx : string) (payload : DelegationInput) (actor : ActorContext)
| Redeem (now : Z) (i x token : string) (authorization : option string)
| RetryAudit (now : Z) (i : string) (actor : ActorContext).

Definition serve (q : request) (d : db) : db :=
  match q with
  | RegisterIntegration now i x random payload actor => fst (register_integration now i x random payload actor d)
  | RevokeIntegration now i actor => fst (revoke_integration now i actor d)
  | RotateIntegration now i random actor => fst (rotate_integration now i random actor d)
  | RegisterSystem now i payload authorization => fst (register_system now i payload authorization d)
  | RegisterRevision now i system_id payload authorization => fst (register_revision now i system_id payload authorization d)
  | HumanSubmission now i payload actor => fst (human_submission now i payload actor d)
  | RegisterObservation now i system_id payload authorization =>
      fst (register_observation now i system_id payload authorization d)
  | DraftPolicy now i x system_id payload actor => fst (draft_policy now i x system_id payload actor d)
  | HumanDecision now i x target_id decision payload actor => fst (human_decision now i x target_id decision payload actor d)
  | Authorize now i x random payload authorization => fst (authorize now i x random payload authorization d)
  | Consume now token payload authorization => fst (consume now token payload authorization d)
  | Receipt now i payload authorization => fst (receipt now i payload authorization d)
  | Verify now i receipt_id observation_id authorization => fst (verify now i receipt_id observation_id authorization d)
  | DraftPack now i payload project environment actor => fst (draft_pack now i payload project environment actor d)
  | Delegate now i x random ti tx payload actor => fst (delegate now i x random ti tx payload actor d)
  | Redeem now i x token authorization => fst (redeem now i x token authorization d)
  | RetryAudit now i actor => fst (retry_audit now i actor d)
  end.

(** a guard that fails leaves the database alone *)
Ltac guards := repeat (first [rewrite run_checks | rewrite run_guard]; case_match; [|apply rtc_refl]).

Lemma serve_steps q d : rtc portable_step d (serve q d).
Proof.
  destruct q; cbn [serve].
  - unfold register_integration. guards. apply change_steps. intros. by eapply commit_create.
  - apply change_steps. intros r a d' Hrun%plainly_Ok. by eapply commit_revoke.
  - apply change_steps. intros. by eapply commit_rotate.
  - apply machine_change_steps. intros p source r a d' Hrun%source_plainly. by eapply commit_system.
  - apply machine_change_steps. intros p source r a d' Hrun%source_plainly. by eapply commit_revision.
  - unfold human_submission. guards. apply change_steps. intros r u d' Hrun%plainly_Ok. by eapply commit_submission.
  - apply machine_change_steps. intros p source r a d' Hrun%source_plainly. by eapply commit_observation.
  - unfold draft_policy. guards. apply change_steps. intros r u d' Hrun%plainly_Ok. by eapply commit_policy.
  - unfold human_decision. guards. rewrite run_guard. destruct (negb _); [apply rtc_refl|].
    apply change_steps. intros r u d' Hrun%plainly_Ok. by eapply commit_decision.
  - apply machine_change_steps. intros p source r a d' Hrun. by eapply commit_authorization.
  - apply machine_change_steps. intros p source r a d' Hrun%source_plainly. by eapply commit_consumption.
  - apply machine_change_steps. intros p source r a d' Hrun%source_plainly. by eapply commit_receipt.
  - apply machine_change_steps. intros p source r a d' Hrun%source_plainly. by eapply commit_verification.
  - unfold draft_pack. rewrite run_checks. case_match; [|apply rtc_refl]. rewrite run_checks. case_match; [|apply rtc_refl].
    rewrite run_guard. case_match; [apply rtc_refl|]. rewrite run_checks. case_match; [|apply rtc_refl].
    rewrite run_guard. case_match; [apply rtc_refl|]. rewrite run_checks. case_match; [|apply rtc_refl].
    rewrite run_checks. case_match; [|apply rtc_refl].
    apply change_steps. intros r u d' Hrun%plainly_Ok. by eapply commit_pack.
  - unfold delegate. guards. apply change_steps. intros. by eapply commit_delegation.
  - unfold redeem. rewrite run_checks. case_match; [|apply rtc_refl]. rewrite run_checks. case_match; [|apply rtc_refl].
    rewrite run_commits. destruct (source_transaction _ _ d) as [[[r [u decision]] d1]|e] eqn:E; [|apply rtc_refl].
    eapply rtc_l; [apply step_transaction; by eapply commit_redemption|]. apply audit_steps.
  - unfold retry_audit. rewrite run_checks. case_match; [|apply rtc_refl]. apply audit_steps.
Qed.

End Trace.
