(* ===== verification/PortableGuarantees.v ===== *)
(** * What the portable interface guarantees

    The properties an organization relies on when an execution platform acts
    under Norinth's permits, over every interleaving of requests; [Demo] is a
    full run, from the registration of an executor to a verified remediation. *)

From stdpp Require Import base list strings option pretty sets gmap relations.
From Stdlib Require Import ZArith QArith Lia Ascii.
From S2P Require Import Prelude Py Dates Json Sql Schema Effects Rbac Requests Contracts PortableStore Portable Permits PortableApi.
From S2P Require Import Authorization PortableSteps PortableSafe PortableTrace.

Open Scope nat_scope.

Section Guarantees.
Context `{PyHost} `{Digest}.
Implicit Types (d : db) (r : portable_record).

(** a database some interleaving of requests reached from empty portable tables *)
Definition reachable d : Prop :=
  exists d0, portable_records d0 = [] /\ portable_credentials d0 = [] /\ rtc portable_step d0 d.

Lemma reachable_backed d : reachable d -> sound d.
Proof. intros (d0 & Hr & Hc & Hsteps). apply (steps_safe _ _ Hsteps). by apply sound_start. Qed.

Lemma reachable_steps d d' : reachable d -> rtc portable_step d d' -> reachable d'.
Proof. intros (d0 & Hr & Hc & Hsteps) Hmore. exists d0. split_and!; try done. by etransitivity. Qed.

Lemma reachable_serve d q : reachable d -> reachable (serve q d).
Proof. intros Hd. eapply reachable_steps; [exact Hd|]. apply serve_steps. Qed.

(** C37. A row that counts as audited has, in the audit log, an entry with its
    state and the digest of its body: nothing confers authority before it is
    recorded, whatever fails between the change, the audit and the stamp. *)
Theorem recorded_before_trusted d r : reachable d -> r ∈ portable_records d -> po_audited_at r <> "" ->
  exists actor action kind decision,
    mk_audit_entry actor ("portable." +:+ action) (Some (po_tenant_id r)) kind (po_record_id r)
      (PDict [("body_digest", PStr (text_digest (po_body r))); ("state", PStr (po_state r)); ("decision_record", decision)])
      ∈ audit_trail d.
Proof. intros Hd Hr Ha. destruct (sound_rows d (reachable_backed d Hd) r Hr) as [Hanc _]. by apply Hanc. Qed.

(** C36. Every approved system or revision and every active policy or pack was
    decided by a person other than its author, in a decision that is still on
    record and quotes what was decided: the whole document, of a system the
    purpose and the binding it has now. *)
Theorem approvals_are_independent d r decision : reachable d -> r ∈ portable_records d ->
  granting (po_kind r) (po_state r) = Some decision ->
  exists dr seen, dr ∈ portable_records d /\ po_record_id dr = po_decision_id r /\ po_kind dr = "decision" /\
    po_created_by dr <> po_created_by r /\
    py_item (po_body dr) "target_id" = Ok (PStr (po_record_id r)) /\
    py_item (po_body dr) "decision" = Ok (PStr decision) /\
    py_item (po_body dr) "target_snapshot" = Ok (stored seen) /\ covers (po_kind r) seen (po_body r).
Proof. intros Hd Hr Hg. destruct (sound_rows d (reachable_backed d Hd) r Hr) as (_ & Hauth & _). by apply Hauth. Qed.

(** C39. A receipt is verified only by a passing observation that another
    integration than the executor reported and cited. *)
Theorem remediation_is_verified_independently d r : reachable d -> r ∈ portable_records d ->
  po_kind r = "receipt" -> po_state r = "verified" ->
  exists v o, v ∈ portable_records d /\ po_kind v = "verification" /\ po_external_id v = po_record_id r /\
    po_integration_id v <> po_integration_id r /\
    o ∈ portable_records d /\ po_kind o = "observation" /\ po_integration_id o = po_integration_id v /\
    py_item (po_body v) "observation_id" = Ok (PStr (po_record_id o)) /\
    py_item (po_body o) "result" = Ok (PStr "passing").
Proof. intros Hd Hr Hk Hs. destruct (sound_rows d (reachable_backed d Hd) r Hr) as (_ & _ & Hver). by apply Hver. Qed.

(** C35. The answer to a request is "allow" exactly when all of this holds.  The
    executor is active and recorded in the audit log, and is the one the system is
    bound to; the system is approved, and it, the revision and the policy in force
    for it are recorded.  A release carries no action; a runtime or remediation
    request carries one the executor has, the policy permits for that purpose on a
    resource of both the policy and the manifest, with parameters of the declared
    types - in a remediation those the policy approved beforehand.  And unless it
    is a remediation, which is answered without regard to the manifest's limits
    and to the evidence: the manifest is within the policy; the application the
    system is bound to has nothing unfolded and nothing blocking; every required
    check rests on the latest observation of a trusted source, recorded, fresh and
    passing; and the revision is approved, or the policy allows routine releases
    and the request is a release or follows an executed release of it. *)
Theorem allow_is_exact now principal request d e : evaluate now principal request d = Ok e ->
  (el_outcome e = "allow" <-> allowed now principal request d) /\
  (forall system rd sources age check, supported now system rd sources age d check ->
   exists o, latest system rd check sources d o /\ po_audited_at o <> "" /\ py_item (po_body o) "result" = Ok (PStr "passing")).
Proof.
  intros He. split; [by apply evaluate_allow|]. intros system rd sources age check (o & at_ & t & v & Hl & Ha & _ & _ & _ & Hv & Hp).
  exists o. split_and!; [by apply latest_observation_latest|done|]. rewrite Hv. f_equal. by apply py_eqb_str.
Qed.

Lemma consumed_in_place token principal d row now : unique_tokens d ->
  find_token token (po_tenant_id principal) "permit" d = Some row ->
  exists c, c ∈ portable_credentials (consume_token now token d) /\ pc_token_hash c = token_hash token /\
    pc_purpose c = "permit" /\ truthy_str (pc_consumed_at c) = true.
Proof.
  intros _ [Hin Hwhere]%select1_Some. rewrite !andb_true_iff, !String.eqb_eq in Hwhere. destruct Hwhere as [[Hh _] Hp].
  exists (pc_with_consumed_at (Some (iso_now now)) row). cbn. rewrite iso_now_nonempty. split_and!; try done.
  apply elem_of_update. left. exists row. split_and!; try done. rewrite Hh. apply String.eqb_refl.
Qed.

Lemma consumed_not_again token principal request now c d : unique_tokens d ->
  c ∈ portable_credentials d -> pc_token_hash c = token_hash token -> truthy_str (pc_consumed_at c) = true ->
  forall r d', consume_authorization now principal token request d <> Ok (r, d').
Proof.
  intros Hu Hin Hh Hc r d' (row & grant & e & g & Hfind & _ & _ & _ & Hspent & _)%consume_authorization_Ok.
  apply select1_Some in Hfind as [Hrow Hwhere]. rewrite !andb_true_iff, !String.eqb_eq in Hwhere.
  assert (row = c) as -> by (apply (keys_unique_eq pc_token_hash (portable_credentials d)); try done; destruct Hwhere as [[-> _] _]; done).
  unfold spent in Hspent. by rewrite Hc in Hspent.
Qed.

Lemma consumed_record now record state dec d row d' : set_state now record state dec d = Ok (row, d') ->
  po_record_id row = po_record_id record /\ po_state row = state.
Proof.
  unfold set_state. intros (x & (Hin & Ht & Hi & _)%load_Ok & [= <- _])%rbind_Ok. split; [done|].
  cbn [portable_records set_portable_records] in Hin. apply elem_of_update in Hin as [(r0 & _ & _ & ->)|[_ Hno]]; [done|].
  by rewrite (proj2 (record_is_true _ _ _)) in Hno.
Qed.

(** what a permit in use is: the only credential with the token's hash, neither
    consumed nor expired *)
Definition permit_of (now : Z) (token tenant_id : string) d (permit : portable_credential) : Prop :=
  permit ∈ portable_credentials d /\ pc_token_hash permit = token_hash token /\ pc_purpose permit = "permit" /\
  pc_tenant_id permit = tenant_id /\ truthy_str (pc_consumed_at permit) = false /\
  (exists at_ expires, pc_expires_at permit = Some at_ /\ read_instant at_ = Ok expires /\ (now < expires)%Z) /\
  forall c, c ∈ portable_credentials d -> pc_token_hash c = token_hash token -> c = permit.

Lemma found_permit now token tenant_id d row : unique_tokens d -> find_token token tenant_id "permit" d = Some row ->
  spent now row = Ok false -> permit_of now token tenant_id d row.
Proof.
  intros Hu [Hin Hwhere]%select1_Some Hspent. rewrite !andb_true_iff, !String.eqb_eq in Hwhere. destruct Hwhere as [[Hh Ht] Hp].
  unfold spent in Hspent. destruct (truthy_str (pc_consumed_at row)) eqn:Hc; [done|].
  destruct (pc_expires_at row) as [at_|] eqn:Hat; [|done]. apply rbind_Ok in Hspent as (expires & Hex & [= Hlt%Z.leb_gt]).
  split_and!; try done; [by exists at_, expires|]. intros c Hc' Hh'.
  apply (keys_unique_eq pc_token_hash (portable_credentials d)); try done. congruence.
Qed.

(** C34. A permit is spent once, by its executor.  The token is that of one permit,
    neither consumed nor expired; the authorization this permit was issued with is
    an audited grant to the executor who asks, of exactly the request it makes,
    and it is the record that becomes consumed; the request is still allowed; and
    no later request of any executor, in any interleaving, consumes the token
    again. *)
Theorem permits_are_single_use now principal token asked d r d1 : reachable d ->
  consume_authorization now principal token asked d = Ok (r, d1) ->
  allowed now principal asked d /\
  (exists permit grant, permit_of now token (po_tenant_id principal) d permit /\
     grant ∈ portable_records d /\ po_record_id grant = pc_record_id permit /\ po_tenant_id grant = po_tenant_id principal /\
     po_kind grant = "authorization" /\ po_integration_id grant = po_record_id principal /\ po_audited_at grant <> "" /\
     py_item (po_body grant) "request_digest" = Ok (PStr (text_digest (request_dump asked))) /\
     po_record_id r = pc_record_id permit /\ po_state r = "consumed") /\
  forall d2, rtc portable_step d1 d2 -> forall now' principal' asked' r' d',
    consume_authorization now' principal' token asked' d2 <> Ok (r', d').
Proof.
  intros Hd%reachable_backed Hrun. pose proof (consume_authorization_safe _ _ _ _ _ _ _ Hrun Hd) as [Hd1 _].
  destruct (consume_authorization_Ok _ _ _ _ _ _ _ Hrun)
    as (row & grant & e & g & Hfind & Hgrant & Hint & Haud & Hspent & Hdig & Hreq & He & Hallow & _ & Hset).
  split_and!.
  - by apply (evaluate_allow _ _ _ _ _ He).
  - apply load_Ok in Hgrant as (Hin & Ht & Hi & Hk). apply digest_Ok in Hdig as [-> _]. exists row, grant.
    destruct (consumed_record _ _ _ _ _ _ _ Hset) as [Hr Hs].
    split_and!; auto; [apply found_permit; [apply Hd|done..]|congruence].
  - intros d2 Hsteps now' principal' asked' r' d'.
    destruct (consumed_in_place token principal d row now (sound_tokens _ Hd) Hfind) as (c & Hc & Hh & Hp & Ht).
    destruct (steps_safe _ _ Hsteps Hd1) as [Hd2 Hext].
    assert (c ∈ portable_credentials d1) as Hc1 by (apply set_state_Ok in Hset as ->; exact Hc).
    destruct (ext_tokens _ _ Hext c Hc1) as (c' & Hc' & Hh' & _ & _ & _ & Ht'); [rewrite Hp; done|].
    apply (consumed_not_again token principal' asked' now' c' d2); [apply Hd2|done|congruence|auto].
Qed.

(** C38. What was submitted, decided or observed is never rewritten: whatever
    requests follow, a record that is not a system keeps its author, its project
    and environment, its integration and its document. *)
Theorem submissions_are_immutable d r requests : reachable d -> r ∈ portable_records d -> po_kind r <> "system" ->
  exists r', r' ∈ portable_records (foldl (fun d q => serve q d) d requests) /\
    po_record_id r' = po_record_id r /\ po_tenant_id r' = po_tenant_id r /\ po_kind r' = po_kind r /\
    po_project r' = po_project r /\ po_environment r' = po_environment r /\ po_integration_id r' = po_integration_id r /\
    po_external_id r' = po_external_id r /\ po_created_by r' = po_created_by r /\ po_body r' = po_body r.
Proof.
  intros Hd Hr Hk. assert (rtc portable_step d (foldl (fun d q => serve q d) d requests)) as Hsteps.
  { clear. revert d. induction requests as [|q requests IH]; intros d; [done|]. cbn. etransitivity; [apply serve_steps|apply IH]. }
  destruct (steps_safe _ _ Hsteps (reachable_backed d Hd)) as [_ Hext].
  destruct (ext_records _ _ Hext r Hr) as (r' & Hr' & Hid & Ht & Hk' & Hp & He & Hi & Hx & Hby & Hbody).
  exists r'. split_and!; auto.
Qed.

End Guarantees.

(** ** A full run *)

Module Demo.

#[local] Instance host : PyHost :=
  {| repr _ := EmptyString; str_int _ := Raise TypeError; str_float _ := Raise TypeError |}.

(** sixteen hexadecimal digits of a polynomial in the characters, padded to sixty-four *)
Fixpoint hex_digits (n : nat) (z : N) : string :=
  match n with
  | O => EmptyString
  | S n => hex_digits n (z / 16) +:+ String (hex_digit (z mod 16)) EmptyString
  end.
#[local] Instance toy_sha : Digest := fun s =>
  hex_digits 64 (fold_left (fun acc c => (acc * 257 + N_of_ascii c) mod 18446744073709551557)%N
                   (String.list_ascii_of_string s) 1%N).

Definition user (ref : string) : platform_user :=
  mk_platform_user ref "active" (Some "acme") None ref None None false None None None None "" "".
Definition holds (ref role : string) : role_assignment :=
  mk_role_assignment (ref +:+ "-" +:+ role) (Some "acme") None None ref role "active" "" "".
Definition start : db :=
  set_organizations [mk_organization "acme" "Acme" "active" "root" "" "" false]
    (set_role_permissions [mk_role_permission "owner" "config.write"; mk_role_permission "owner" "review.decide";
        mk_role_permission "owner" "gate.decide"]
      (set_role_assignments [holds "ann" "owner"; holds "bob" "owner"]
        (set_platform_users [user "ann"; user "bob"] empty_db))).
Definition ann : ActorContext := mk_actor "ann" (Some "acme") None None None.
Definition bob : ActorContext := mk_actor "bob" (Some "acme") None None None.

Definition at_ (minute second : Z) : Z := ((ymd2ord 2026 3 1 * 86400 + 43200 + minute * 60 + second) * 1000000)%Z.
Definition bearer_of (random : string) : option string := Some ("Bearer nri_" +:+ random).

Definition executor : IntegrationCreate :=
  mk_integration "runner" "runner" "crm" "prod"
    ["systems:read"; "systems:write"; "revisions:write"; "authorizations:request"; "receipts:write"]
    [mk_capability "restart" "service" "restart" [("force", "boolean")] true "restarted"].
Definition probe : IntegrationCreate :=
  mk_integration "probe" "probe" "crm" "prod" ["systems:read"; "observations:write"] [].
Definition system : SystemInput := mk_system "bot-7" "Support bot" "service" "answers customers" None.
Definition manifest : RevisionManifest :=
  mk_manifest "v1" ("sha256:" +:+ toy_sha "image") ["gpt"] [] ["crm-db"] [] 1 false false true true.
Definition policy : RuntimePolicy :=
  mk_policy ["gpt"] [] ["crm-db"] ["restart"] [] [] 2 true true false ["eval"; "restarted"] ["probe-id"] 86400 60.
Definition manifest_digest : string := text_digest (manifest_dump manifest).
Definition seen (check result at_ : string) (action : option string) : ObservationInput :=
  mk_observation (check +:+ at_) check result at_ manifest_digest "s3://evidence" action
    (match action with Some _ => Some "crm-db" | None => None end).

(** the digest a person confirms: that of the record as it is *)
Definition digest_of (id : string) (d : db) : string :=
  match lookup_key po_record_id id (portable_records d) with Some r => text_digest (po_body r) | None => "" end.
Definition confirm (id : string) (d : db) : DecisionInput := mk_decision_input (digest_of id d) "checked by the owner".

Definition restart : AuthorizationInput :=
  mk_request "rev-id" "runtime" (Some (mk_action "restart" "crm-db" [("force", PBool true)])).

Definition registered : db :=
  serve (RegisterRevision (at_ 3 0) "rev-id" "sys-id" manifest (bearer_of "run"))
    (serve (RegisterSystem (at_ 2 0) "sys-id" system (bearer_of "run"))
      (serve (RegisterIntegration (at_ 1 0) "probe-id" "x2" "probe" probe ann)
        (serve (RegisterIntegration (at_ 0 0) "run-id" "x1" "run" executor ann) start))).
Definition drafted : db :=
  let d := serve (HumanDecision (at_ 4 0) "d1" "x3" "sys-id" "approve_system" (confirm "sys-id" registered) bob) registered in
  serve (DraftPolicy (at_ 5 0) "pol-id" "x4" "sys-id" policy ann) d.
Definition observed : db :=
  let d := serve (HumanDecision (at_ 6 0) "d2" "x5" "pol-id" "activate_policy" (confirm "pol-id" drafted) bob) drafted in
  let d := serve (RegisterObservation (at_ 7 0) "o1" "sys-id" (seen "eval" "passing" "2026-03-01T12:06:30+00:00" None) (bearer_of "probe")) d in
  serve (RegisterObservation (at_ 8 0) "o2" "sys-id" (seen "restarted" "passing" "2026-03-01T12:07:30Z" None) (bearer_of "probe")) d.
Definition approved : db :=
  serve (HumanDecision (at_ 9 0) "d3" "x6" "rev-id" "approve_revision" (confirm "rev-id" observed) bob) observed.
Definition permitted : db := serve (Authorize (at_ 10 0) "auth-id" "x7" "permit" restart (bearer_of "run")) approved.
Definition consumed : db := serve (Consume (at_ 10 30) "nrp_permit" restart (bearer_of "run")) permitted.
Definition verified_run : db :=
  let d := serve (Receipt (at_ 11 0) "rec-id" (mk_receipt "auth-id" "executed" "s3://log") (bearer_of "run")) consumed in
  let d := serve (RegisterObservation (at_ 12 0) "o3" "sys-id"
      (seen "restarted" "passing" "2026-03-01T12:11:30+00:00" (Some (text_digest (request_dump restart)))) (bearer_of "probe")) d in
  serve (Verify (at_ 13 0) "ver-id" "rec-id" "o3" (bearer_of "probe")) d.


(** ** Facts of the run *)

Definition no_row : portable_record := mk_portable_record "" "" "" "" "" "" "" "" "" PNone "" "" "" "" "" "" "" "" "" "" "" "".
Definition row (id : string) (d : db) : portable_record := default no_row (lookup_key po_record_id id (portable_records d)).
Definition runs {A} (c : res A) : bool := match c with Ok _ => true | Raise _ => false end.

Lemma row_in id d : negb (is_empty (po_record_id (row id d))) = true -> row id d ∈ portable_records d.
Proof.
  unfold row. destruct (lookup_key po_record_id id (portable_records d)) as [r|] eqn:E; [|done].
  intros _. by apply lookup_key_Some in E as [? _].
Qed.

Lemma runs_Ok {A} (c : res A) : runs c = true -> exists a, c = Ok a.
Proof. destruct c; [eauto|done]. Qed.

Lemma start_reachable : reachable start.
Proof. exists start. by split_and!. Qed.
Lemma approved_reachable : reachable approved.
Proof. unfold approved, observed, drafted, registered. repeat apply reachable_serve. exact start_reachable. Qed.
Lemma permitted_reachable : reachable permitted.
Proof. apply reachable_serve, approved_reachable. Qed.
Lemma verified_reachable : reachable verified_run.
Proof. unfold verified_run, consumed. repeat apply reachable_serve. exact start_reachable. Qed.

Definition runner : portable_record := row "run-id" permitted.

Lemma permit_consumes : exists rd, consume_authorization (at_ 10 30) runner "nrp_permit" restart permitted = Ok rd.
Proof. apply runs_Ok. vm_compute. reflexivity. Qed.
Lemma answer_allows : exists e, evaluate (at_ 10 0) (row "run-id" approved) restart approved = Ok e /\ el_outcome e = "allow".
Proof.
  destruct (runs_Ok (evaluate (at_ 10 0) (row "run-id" approved) restart approved)) as [e He]; [vm_compute; reflexivity|].
  exists e. split; [exact He|].
  assert (match evaluate (at_ 10 0) (row "run-id" approved) restart approved with Ok e => el_outcome e | Raise _ => "" end = "allow")
    as Hout by (vm_compute; reflexivity).
  by rewrite He in Hout.
Qed.

End Demo.

#[local] Existing Instances Demo.host Demo.toy_sha.

Lemma recorded_before_trusted_witness :
  exists actor action kind decision,
    mk_audit_entry actor ("portable." +:+ action) (Some (po_tenant_id (Demo.row "auth-id" Demo.verified_run))) kind
      (po_record_id (Demo.row "auth-id" Demo.verified_run))
      (PDict [("body_digest", PStr (text_digest (po_body (Demo.row "auth-id" Demo.verified_run))));
              ("state", PStr (po_state (Demo.row "auth-id" Demo.verified_run))); ("decision_record", decision)])
      ∈ audit_trail Demo.verified_run.
Proof.
  apply recorded_before_trusted; [exact Demo.verified_reachable|apply Demo.row_in; vm_compute; reflexivity|].
  apply is_empty_false. vm_compute. reflexivity.
Defined.

Lemma approvals_are_independent_witness : exists dr seen,
  dr ∈ portable_records Demo.approved /\ po_kind dr = "decision" /\ po_created_by dr <> po_created_by (Demo.row "sys-id" Demo.approved) /\
  covers (po_kind (Demo.row "sys-id" Demo.approved)) seen (po_body (Demo.row "sys-id" Demo.approved)).
Proof.
  destruct (approvals_are_independent Demo.approved (Demo.row "sys-id" Demo.approved) "approve_system" Demo.approved_reachable)
    as (dr & seen & Hin & _ & Hk & Hby & _ & _ & _ & Hc); [apply Demo.row_in; vm_compute; reflexivity|vm_compute; reflexivity|].
  exists dr, seen. split; [exact Hin|]. split; [exact Hk|]. split; [exact Hby|exact Hc].
Defined.

Lemma remediation_is_verified_independently_witness : exists v o,
  v ∈ portable_records Demo.verified_run /\ o ∈ portable_records Demo.verified_run /\
  po_integration_id v <> po_integration_id (Demo.row "rec-id" Demo.verified_run) /\
  py_item (po_body o) "result" = Ok (PStr "passing").
Proof.
  destruct (remediation_is_verified_independently Demo.verified_run (Demo.row "rec-id" Demo.verified_run) Demo.verified_reachable)
    as (v & o & Hv & _ & _ & Hi & Ho & _ & _ & _ & Hres);
    [apply Demo.row_in; vm_compute; reflexivity|vm_compute; reflexivity|vm_compute; reflexivity|].
  exists v, o. split; [exact Hv|]. split; [exact Ho|]. split; [exact Hi|exact Hres].
Defined.

Lemma allow_is_exact_witness : allowed (Demo.at_ 10 0) (Demo.row "run-id" Demo.approved) Demo.restart Demo.approved.
Proof.
  destruct Demo.answer_allows as (e & He & Hallow).
  exact (proj1 (proj1 (allow_is_exact _ _ _ _ _ He)) Hallow).
Defined.

Lemma permits_are_single_use_witness : exists r d1,
  consume_authorization (Demo.at_ 10 30) Demo.runner "nrp_permit" Demo.restart Demo.permitted = Ok (r, d1) /\
  allowed (Demo.at_ 10 30) Demo.runner Demo.restart Demo.permitted /\
  exists grant, grant ∈ portable_records Demo.permitted /\ po_integration_id grant = po_record_id Demo.runner.
Proof.
  destruct Demo.permit_consumes as [[r d1] Hrun]. exists r, d1. split; [exact Hrun|].
  destruct (permits_are_single_use _ _ _ _ _ _ _ Demo.permitted_reachable Hrun) as (Hallowed & (permit & grant & _ & Hin & _ & _ & _ & Hint & _) & _).
  split; [exact Hallowed|]. exists grant. split; [exact Hin|exact Hint].
Defined.

Lemma submissions_are_immutable_witness : exists r',
  r' ∈ portable_records (foldl (fun d q => serve q d) Demo.approved [RevokeIntegration (Demo.at_ 20 0) "run-id" Demo.ann]) /\
  po_body r' = po_body (Demo.row "rev-id" Demo.approved).
Proof.
  destruct (submissions_are_immutable Demo.approved (Demo.row "rev-id" Demo.approved)
    [RevokeIntegration (Demo.at_ 20 0) "run-id" Demo.ann] Demo.approved_reachable) as (r' & Hin & _ & _ & _ & _ & _ & _ & _ & _ & Hbody);
    [apply Demo.row_in; vm_compute; reflexivity| |exists r'; split; [exact Hin|exact Hbody]].
  assert (String.eqb (po_kind (Demo.row "rev-id" Demo.approved)) "system" = false) as Hk by (vm_compute; reflexivity).
  by apply String.eqb_neq.
Defined.
