(* ===== verification/ContractRules.v ===== *)
(** * Contracts survive storage

    A policy, a manifest or a request that was validated once reads back from its
    stored document as it was: [model_validate] after [json.loads] after
    [json.dumps] after [model_dump].  Only the order of the keys of free-form
    parameters changes. *)

From stdpp Require Import base list strings option pretty sets gmap.
From Stdlib Require Import ZArith Lia Ascii.
From S2P Require Import Prelude Py Json Contracts PortableStore PortableSafe.

Open Scope nat_scope.

(** ** Stripping twice is stripping once *)

Lemma lstrip_head s : lstrip s = "" \/ exists c t, lstrip s = String c t /\ is_space c = false.
Proof. induction s as [|c s IH]; [by left|]. simpl. destruct (is_space c) eqn:E; [done|]. right. by exists c, s. Qed.

Lemma rstrip_cons c s : is_space c = false -> rstrip (String c s) = String c (rstrip s).
Proof. intros Hc. simpl. rewrite Hc. by destruct (rstrip s). Qed.

Lemma rstrip_idem s : rstrip (rstrip s) = rstrip s.
Proof.
  induction s as [|c s IH]; [done|]. simpl. destruct (rstrip s) as [|c' t] eqn:E.
  - destruct (is_space c) eqn:Hc; [done|]. simpl. by rewrite Hc.
  - cbn [rstrip] in *. destruct (rstrip t) as [|c'' u].
    + destruct (is_space c'); [done|]. by rewrite IH.
    + by rewrite IH.
Qed.

Lemma strip_idem s : strip (strip s) = strip s.
Proof.
  unfold strip. destruct (lstrip_head s) as [->|(c & t & -> & Hc)]; [done|].
  rewrite rstrip_cons by done. cbn [lstrip]. rewrite Hc, rstrip_cons by done. by rewrite rstrip_idem.
Qed.

(** ** Identifier lists *)

Lemma sorted_set_perm l : NoDup l -> sorted_set l ≡ₚ l.
Proof. intros Hl. apply NoDup_Permutation; [apply sorted_set_NoDup|done|]. intros x. apply elem_of_sorted_set. Qed.

(** a validated list validates to itself, and has the length it was checked to have *)
Lemma identifiers_idem l m : identifiers l = Some m -> identifiers m = Some m /\ length m = length l.
Proof.
  unfold identifiers. destruct (existsb _ _ || _) eqn:E; [done|]. intros [= <-].
  apply orb_false_iff in E as [Hbad Hnd%negb_false_iff%bool_decide_eq_true].
  assert (forall x, x ∈ sorted_set (map strip l) -> strip x = x) as Hfix.
  { intros x. rewrite elem_of_sorted_set. intros (y & -> & _)%list_elem_of_fmap. apply strip_idem. }
  assert (map strip (sorted_set (map strip l)) = sorted_set (map strip l)) as ->.
  { rewrite <-(map_id (sorted_set (map strip l))) at 2. apply map_ext_in. intros x Hx. by apply Hfix, list_elem_of_In. }
  split.
  - assert (existsb (fun v => is_empty (strip v) || negb (sized 0 256 v)) (sorted_set (map strip l)) = false) as ->.
    { apply not_true_iff_false. rewrite existsb_exists. intros (x & Hx & Hbad'). apply not_true_iff_false in Hbad.
      apply Hbad, existsb_exists. exists x. split; [|done]. apply list_elem_of_In in Hx. rewrite elem_of_sorted_set in Hx. by apply list_elem_of_In. }
    rewrite bool_decide_true by apply sorted_set_NoDup. cbn [orb negb]. f_equal. apply sorted_set_ext.
    intros x. apply elem_of_sorted_set.
  - rewrite (Permutation_length (sorted_set_perm _ Hnd)). apply length_map.
Qed.

(** ** Documents *)

Lemma insert_item_perm {A} (kv : string * A) l : insert_item kv l ≡ₚ kv :: l.
Proof. induction l as [|kv' l IH]; simpl; [done|]. destruct (str_ltb _ _); [|done]. rewrite IH. constructor. Qed.
Lemma sort_items_perm {A} (l : list (string * A)) : sort_items l ≡ₚ l.
Proof. induction l as [|kv l IH]; simpl; [done|]. by rewrite insert_item_perm, IH. Qed.

(** mapping the values commutes with sorting by key *)
Lemma sort_items_map {A B} (f : A -> B) l :
  sort_items (map (fun kv => (fst kv, f (snd kv))) l) = map (fun kv => (fst kv, f (snd kv))) (sort_items l).
Proof.
  induction l as [|[k x] l IH]; [done|]. cbn [sort_items map foldr fst snd]. fold (sort_items l).
  fold (sort_items (map (fun kv => (fst kv, f (snd kv))) l)). rewrite IH. generalize (sort_items l) as m. clear.
  induction m as [|[j y] m IH]; [done|]. cbn [insert_item map fst snd]. destruct (str_ltb j k); [|done]. by rewrite IH.
Qed.

Lemma forallb_perm {A} (p : A -> bool) l m : l ≡ₚ m -> forallb p l = forallb p m.
Proof.
  intros Hp. apply eq_true_iff_eq. rewrite !forallb_forall. split; intros Hall x Hx%list_elem_of_In; apply Hall, list_elem_of_In.
  - by rewrite Hp.
  - by rewrite <-Hp.
Qed.

Definition stored_items (l : list (string * pyval)) : list (string * pyval) :=
  sort_items (map (fun kv => (fst kv, stored (snd kv))) l).

Lemma contract_items_stored keys items :
  forallb (fun kv => mem (fst kv) ("contract_version" :: keys)) items = true ->
  contract_items keys (stored (contract items)) = Some (stored_items (("contract_version", PStr CONTRACT_VERSION) :: items)).
Proof.
  intros Hkeys. unfold contract_items, contract. cbn [stored]. fold (stored_items (("contract_version", PStr CONTRACT_VERSION) :: items)).
  unfold stored_items. rewrite assoc_sort_items, (forallb_perm _ _ _ (sort_items_perm _)). cbn [map fst snd forallb stored].
  assert (forallb (fun kv : string * pyval => mem (fst kv) ("contract_version" :: keys))
    (map (fun kv => (fst kv, stored (snd kv))) items) = true) as ->.
  { etransitivity; [|exact Hkeys]. clear. induction items as [|[k v] items IH]; [done|]. cbn [map forallb fst snd]. by rewrite IH. }
  rewrite assoc_cons. cbn. done.
Qed.

Lemma required_stored {A} (r : pyval -> option A) k items :
  required r k (stored_items items) = v ← assoc k items; r (stored v).
Proof. unfold required, stored_items. rewrite assoc_sort_items, assoc_map. by destruct (assoc k items). Qed.

Lemma optional_stored {A} (r : pyval -> option A) dflt k items :
  optional r dflt k (stored_items items) = match assoc k items with Some v => r (stored v) | None => Some dflt end.
Proof. unfold optional, stored_items. rewrite assoc_sort_items, assoc_map. by destruct (assoc k items). Qed.

Lemma as_list_strs l : as_list as_str (stored (strs l)) = Some l.
Proof. apply mapM_Some. rewrite map_map. induction l as [|s l IH]; by constructor. Qed.

Lemma as_dict_values l : as_dict Some (PDict l) = Some l.
Proof. apply mapM_Some. induction l as [|[k v] l IH]; by constructor. Qed.

(** free-form parameters, their keys in order *)
Definition stored_parameters (l : list (string * list (string * pyval))) : list (string * list (string * pyval)) :=
  map (fun kv => (fst kv, stored_items (snd kv))) (sort_items l).

Lemma as_dict_parameters l :
  as_dict (as_dict Some) (stored (PDict (map (fun kv => (fst kv, PDict (snd kv))) l))) = Some (stored_parameters l).
Proof.
  apply mapM_Some. rewrite map_map. cbn [fst snd stored]. unfold stored_parameters.
  rewrite (sort_items_map (fun v => PDict (stored_items v))).
  induction (sort_items l) as [|[k v] m IH]; constructor; [|done].
  unfold fst, snd. by rewrite as_dict_values.
Qed.

(** ** Reading back *)

Definition stored_policy (p : RuntimePolicy) : RuntimePolicy :=
  mk_policy (pol_models p) (pol_tools p) (pol_resources p) (pol_actions p) (pol_remediation_actions p)
    (stored_parameters (pol_action_parameters p)) (pol_max_autonomy p) (pol_allow_external_action p)
    (pol_require_human_checkpoint p) (pol_allow_routine_releases p) (pol_required_checks p) (pol_trusted_sources p)
    (pol_evidence_max_age_seconds p) (pol_permit_ttl_seconds p).

Lemma policy_read_stored p : policy_read (stored (policy_dump p)) = Some (stored_policy p).
Proof.
  unfold policy_read, policy_dump. rewrite contract_items_stored by done. cbn [mbind option_bind].
  rewrite !optional_stored, !required_stored.
  cbn -[as_list as_dict stored strs stored_parameters].
  rewrite !as_list_strs. cbn -[as_list as_dict stored strs stored_parameters].
  rewrite as_dict_parameters. done.
Qed.

Lemma manifest_read_stored m : manifest_read (stored (manifest_dump m)) = Some m.
Proof.
  unfold manifest_read, manifest_dump. rewrite contract_items_stored by done. cbn [mbind option_bind].
  rewrite !optional_stored, !required_stored.
  cbn -[as_list stored strs]. rewrite !as_list_strs. by destruct m.
Qed.

Definition stored_action (a : ActionInput) : ActionInput :=
  mk_action (act_capability a) (act_resource_id a) (stored_items (act_parameters a)).
Definition stored_request (r : AuthorizationInput) : AuthorizationInput :=
  mk_request (au_revision_id r) (au_purpose r) (stored_action <$> au_action r).

Lemma length_stored_items l : length (stored_items l) = length l.
Proof. unfold stored_items. by rewrite (Permutation_length (sort_items_perm _)), length_map. Qed.

Lemma action_check_self a b : action_check a = Some b -> b = a.
Proof. unfold action_check. destruct (_ && _); [by intros [= ->]|done]. Qed.

Lemma action_check_stored a : action_check a = Some a -> action_check (stored_action a) = Some (stored_action a).
Proof. unfold action_check, stored_action, counted. cbn. rewrite length_stored_items. by case_match. Qed.

Lemma action_read_stored a : action_check a = Some a -> action_read (stored (action_dump a)) = Some (stored_action a).
Proof.
  intros Ha. unfold action_read, action_dump. rewrite contract_items_stored by done. cbn [mbind option_bind].
  rewrite !optional_stored, !required_stored. cbn -[as_dict stored action_check].
  cbn [stored]. fold (stored_items (act_parameters a)). rewrite as_dict_values. cbn -[action_check].
  by apply action_check_stored.
Qed.

Lemma length_stored_parameters l : length (stored_parameters l) = length l.
Proof. unfold stored_parameters. by rewrite length_map, (Permutation_length (sort_items_perm _)). Qed.

(** what a check accepts it accepts again *)
Lemma policy_check_idem p q : policy_check p = Some q -> policy_check (stored_policy q) = Some (stored_policy q).
Proof.
  unfold policy_check. destruct (policy_constraints p) eqn:Hc; [|done].
  intros (models & Hm & Hq)%bind_Some. apply bind_Some in Hq as (tools & Ht & Hq). apply bind_Some in Hq as (resources & Hr & Hq).
  apply bind_Some in Hq as (actions & Ha & Hq). apply bind_Some in Hq as (remediation & Hrem & Hq).
  apply bind_Some in Hq as (checks & Hk & Hq). apply bind_Some in Hq as (sources & Hs & [= <-]).
  apply identifiers_idem in Hm as [Hm Lm], Ht as [Ht Lt], Hr as [Hr Lr], Ha as [Ha La], Hrem as [Hrem Lrem], Hk as [Hk Lk], Hs as [Hs Ls].
  assert (policy_constraints (stored_policy (mk_policy models tools resources actions remediation (pol_action_parameters p)
    (pol_max_autonomy p) (pol_allow_external_action p) (pol_require_human_checkpoint p) (pol_allow_routine_releases p)
    checks sources (pol_evidence_max_age_seconds p) (pol_permit_ttl_seconds p))) = true) as ->.
  { revert Hc. unfold policy_constraints, stored_policy, counted. cbn -[Nat.leb length stored_parameters].
    by rewrite Lm, Lt, Lr, La, Lrem, Lk, Ls, length_stored_parameters. }
  cbn. rewrite Hm, Ht, Hr, Ha, Hrem, Hk, Hs. done.
Qed.

Lemma manifest_check_idem m n : manifest_check m = Some n -> manifest_check n = Some n.
Proof.
  unfold manifest_check. destruct (_ && _) eqn:Hc; [|done].
  intros (models & Hm & Hq)%bind_Some. apply bind_Some in Hq as (tools & Ht & Hq). apply bind_Some in Hq as (resources & Hr & Hq).
  apply bind_Some in Hq as (refs & Hp & [= <-]).
  apply identifiers_idem in Hm as [Hm Lm], Ht as [Ht Lt], Hr as [Hr Lr], Hp as [Hp Lp].
  revert Hc. unfold counted. cbn -[Nat.leb length]. rewrite Lm, Lt, Lr, Lp. intros ->. by rewrite Hm, Ht, Hr, Hp.
Qed.

(** C40. A contract that was validated reads back from storage as it was: the
    runtime policy and the manifest [evaluate] decides on are those that were
    drafted and submitted, and a grant holds the request that was made; only the
    keys of free-form parameters are reordered. *)
Theorem contracts_read_back :
  (forall p q, policy_check p = Some q -> policy_validate (stored (policy_dump q)) = Ok (stored_policy q)) /\
  (forall m n, manifest_check m = Some n -> manifest_validate (stored (manifest_dump n)) = Ok n) /\
  (forall r, request_check r = Some r -> request_validate (stored (request_dump r)) = Ok (stored_request r)).
Proof.
  split_and!.
  - intros p q Hq. unfold policy_validate. rewrite policy_read_stored. cbn [mbind option_bind].
    by rewrite (policy_check_idem p q Hq).
  - intros m n Hn. unfold manifest_validate. rewrite manifest_read_stored. cbn [mbind option_bind].
    by rewrite (manifest_check_idem m n Hn).
  - intros r Hr. unfold request_validate.
    assert (request_read (stored (request_dump r)) = Some (stored_request r)) as ->.
    { unfold request_read, request_dump. rewrite contract_items_stored by done. cbn [mbind option_bind].
      rewrite !optional_stored, !required_stored. cbn -[stored action_read]. destruct r as [rev purpose [a|]]; [|done].
      cbn -[stored action_read]. unfold request_check in Hr. cbn -[action_check] in Hr.
      destruct (bool_decide_reflect (is_Some (action_check a))) as [[a' Ha]|]; [|by rewrite andb_false_r in Hr].
      assert (a' = a) as -> by (by apply action_check_self).
      cbn [stored]. change (PDict (sort_items _)) with (stored (action_dump a)). by rewrite (action_read_stored a Ha). }
    cbn [mbind option_bind]. unfold request_check in Hr |- *. destruct r as [rev purpose [a|]]; cbn -[action_check] in Hr |- *;
      [|by case_match].
    destruct (bool_decide_reflect (is_Some (action_check a))) as [[a' Ha]|]; [|by rewrite andb_false_r in Hr].
    assert (a' = a) as -> by (by apply action_check_self).
    rewrite bool_decide_true by (rewrite (action_check_stored a Ha); eauto). by case_match.
Qed.

(** a policy as a person drafts it *)
Definition drafted_policy : RuntimePolicy :=
  mk_policy [" gpt-4"; "claude"] [] ["crm-db"] ["restart"] [] [("restart", [("force", PBool true); ("delay", PInt 3)])] 2
    true true false ["eval"] ["probe"] 86400 60.

Lemma contracts_read_back_witness : exists q, policy_check drafted_policy = Some q /\
  policy_validate (stored (policy_dump q)) = Ok (stored_policy q) /\ pol_models q = ["claude"; "gpt-4"].
Proof.
  eexists. split; [reflexivity|]. split; [|reflexivity].
  apply (proj1 contracts_read_back drafted_policy). reflexivity.
Defined.
